(* ===== verification/_CoqProject ===== *)
-Q . S2P
Prelude.v
Mmu.v
Console.v
E1000.v
Spinlock.v
Kdebug.v
Mem.v
KdebugSpec.v
Pmap.v
PmapBoot.v
Env.v
Sched.v
Syscall.v
Trap.v
PmapAlloc.v
PmapVm.v
PmapRefs.v
KernMap.v
EnvMem.v
EnvSetup.v
UserRep.v
KernInv.v
SysMem.v
SysIpc.v
SysEnv.v
Demo.v
DemoKern.v
UserMem.v
PmapSpec.v
KernSpec.v
User.v
Fd.v
Fork.v
UserVm.v
ForkVm.v
ForkRun.v
CowRun.v
DemoFork.v
FdSpec.v
ForkSpec.v
PipeRing.v
SchedSpec.v
TrapSpec.v
KernSafe.v
KernCalls.v
KernRun.v
Upcall.v
UpcallRun.v
UpcallSpec.v
ElfLoad.v
ElfSpec.v
CString.v
Chksum.v
InetAddr.v
LwipMem.v
LwipHeap.v
LwipSpec.v
Pbuf.v
PbufSpec.v
PbufPool.v
PbufOps.v
Printfmt.v
Ide.v
Bc.v
BcSim.v
Fs.v
Serv.v
FsSim.v
ServTab.v
FsFlat.v
FsFile.v
FsGrow.v
FsRw.v
FsTrunc.v
FsDir.v
FsCreate.v
ServFlat.v
FsDurable.v
FsSpec.v
ServSpec.v
