(* ===== verification/Prelude.v ===== *)
(** * JOS, verified: the kernel, the file server, the C library and parts of the network stack

    JOS is a small i386 operating system in the exokernel style (sources under [src/lab]).
    The kernel ([kern/]) owns physical memory, address spaces and environments and offers
    a few system calls; user code reaches everything else through them: a file server
    ([fs/]) that keeps a disk in its memory and answers requests sent by message, a C
    library ([lib/]), and a network server around the lwIP stack ([net/]).  This library
    translates these programs into Rocq functions and proves what they promise each other.

    ** How code is modelled

    A C function is a function in the monad [M S A] of this file: explicit state passing
    with the ways a run can end ([outcome]: return, panic, access through a bad pointer,
    leaving to user mode, halting, the monitor, fuel used up).  Machine integers are [Z]
    with their wrap-around written out ([u8], [u16], [u32], [s32]).  Memory is a map from
    addresses to bytes ([Mem]); page tables, disk blocks, [struct File], request pages and
    strings are bytes in it, at the offsets the headers give.  Pointers into the kernel's
    tables ([pages], [envs]) are indices.  Assertions and panics of the code are outcomes.
    Constants have the names of the macros they translate.

    Loops with a bound in the code recurse on it.  Loops without one take fuel, and
    running out is the outcome [Fuel] (or [None]), which no theorem counts as success:
    where a theorem says that a function returns, the fuel it asks for is in its
    hypotheses as a bound on the data (the length of a string plus one, the blocks a
    transfer spans, the entries of a region), so enough fuel is known and given.

    ** The kernel

    - [Mmu]: constants and macros of [inc/mmu.h], [inc/memlayout.h], [inc/error.h].
    - [Pmap], [PmapBoot]: [kern/pmap.c].  State [pmap]: the globals of the file and
      physical memory.
    - [Env], [Sched], [Syscall], [Trap]: [kern/env.c], [kern/sched.c], [kern/syscall.c] with
      [kern/time.c], [kern/trap.c].  State [kern]: environments, CPUs, lock, clock, and the
      states of the other components.
    - [Console], [E1000], [Spinlock], [Kdebug]: the files of these names.

    [PmapAlloc] gives the free list its abstract form, a list of page numbers; [PmapVm]
    gives two-level page tables theirs, a finite map [aspace] from virtual pages to
    entries, with the walk [pgdir_walk] on it; [PmapRefs] adds the invariant [vm_wf] that
    every reference count is the number of references from all address spaces together.
    [KernMap], [EnvMem] and [EnvSetup] cover mapping a region, tearing an address space
    down and building a new one.  [UserRep] says what the MMU relies on in the directory
    entries.  [KernInv] has the invariant [kern_wf] of the whole kernel, [SysMem] and
    [SysIpc] the abstract system calls, [SysEnv] those that make and change environments.
    [UserMem] has the checks of user pointers.

    [PmapSpec] and [KernSpec] hold the theorems: the page-table operations and the memory
    and message system calls implement their abstract versions on every branch and keep
    the invariant; [sys_page_map] never gives write access its source did not have;
    [env_alloc] makes a fresh environment; [env_free] returns every page; [envid2env]
    gives authority over oneself and one's children only.  [SchedSpec]: what
    [sched_yield] picks in every case, its walk past the end of the table included, and that
    no runnable environment starves while the others go on; [env_run] switches completely.
    [TrapSpec]: which gates user code can call.  [Spinlock]: mutual exclusion of CPUs
    interleaved one memory access at a time, by an invariant over all reachable states.
    [Console] and [E1000]: both queues are first-in first-out.  [KdebugSpec]: the search
    in the symbol table always ends, and finds the entry that covers the address.  [Demo]
    and [DemoKern] hold a small machine that instantiates these theorems.

    [ElfLoad] and [ElfSpec] are about the start of environments: after [env_init] the
    invariant holds with every slot free, and [env_create] on an ELF image makes an
    environment whose memory holds the segments of the image followed by zeros and a page of
    stack, in pages of its own, and which starts at the entry point; no other environment
    sees a change.  The free pages it asks for are two for each page of the segments, and three.

    [KernSafe], [KernCalls] and [KernRun] put the kernel together: every operation entered
    from a trap, and [trap] itself, ends in a state that satisfies the invariant, whether it
    returns to user mode, switches environments or halts the CPU.  [KernRun] makes of it a
    state machine of one CPU, whose steps are stores of user code, traps and interrupts, and
    proves by induction over runs that the invariant always holds, running or halted, that all
    environments resume in user mode, that user code never gets to write a page table or a
    page of the kernel, and that every trap leads on or stops in a panic or the monitor; only
    three system calls that read user memory, and the scheduler when it takes the word past
    the table for a runnable environment, can run into a bad pointer.  Three things are
    excluded there by hypotheses, because the code does not guard against them: the overflow
    of a reference count; page faults with a stack pointer between [UXSTACKTOP] and [ULIM] or
    in the last page of the address space; frames given to [sys_env_set_trapframe] that do not
    ask for user mode.  Stores are at addresses below [UTOP].

    ** User code and fork

    - [User]: memory as the MMU shows it to the running environment ([mmu]), the stubs of
      [lib/syscall.c] as calls of the kernel's dispatcher, [lib/pgfault.c].  State [user]: the
      kernel and the globals of the program.
    - [Fork]: [lib/fork.c].
    - [Upcall]: [lib/pfentry.S], instruction by instruction on the registers and the memory of
      the environment, and the calling convention of the C handler it calls.
    - [Fd]: [lib/fd.c]; the devices are a table of functions.

    [UserVm] proves that the MMU shows user code exactly the mappings of its [aspace], the
    page tables at [UVPT] included, what each stub does to it, and that the
    kernel's writes are what it reads.  [ForkVm] has the loop of [fork] over all pages,
    [ForkRun] the steps around it, [CowRun] the page-fault handler.
    [ForkSpec] holds the theorems: parent and child read the same memory after a fork, no
    private page stays writable, and a store through copy on write is seen by nobody else.
    They ask for as many free pages as the call takes at most (a table for each table of
    the parent, and six) and for reference counts below 2^14, which keeps 16-bit counts from
    overflowing.  [DemoFork] is the machine that instantiates them.

    [UpcallRun] and [UpcallSpec] follow a fault on a copy-on-write page from the
    trap over [page_fault_handler], the upcall on the exception stack and [pgfault] back to
    the faulting instruction: every register and flag is what it was, the store tried again
    succeeds on a private page, and no other environment sees anything.  The stack itself may be
    the page that faults, and the fault may be one of the handler.

    [FdSpec]: [fd_alloc] hands out the lowest closed descriptor; [dup] onto a closed one makes two descriptors the same
    memory, so that an offset set through one is the offset of the other, and leaves
    every other page alone; of a descriptor onto itself it closes it.

    [PipeRing] has the data path of [lib/pipe.c]: [devpipe_read] and [devpipe_write] as two
    environments that interleave at every access to the page they share.  No interleaving
    loses, repeats or reorders a byte; calls that need not wait return.

    ** The C library

    - [CString]: [lib/string.c].  [memmove] copies as if through a temporary whatever the
      overlap; the bounded copies keep their bounds.
    - [Printfmt]: [lib/printfmt.c] with its clients in [lib/printf.c] and [kern/printf.c].
      [vprintfmt] is generic in its output function; [vsnprintf] stays in its buffer for
      every format, [strtol] reads back what [%d] printed, and buffering is invisible.

    ** The network stack

    - [Chksum]: the Internet checksum of lwIP ([net/lwip/core/ipv4/inet_chksum.c]) and the
      byte swapping of [net/lwip/core/ipv4/inet.c].  The three summing routines of the file
      are instances of the class [Summing], which the functions over buffer chains are proved
      against; a chain with buffers of odd length sums to the same as its concatenation.
    - [InetAddr]: the addresses of [net/lwip/core/ipv4/inet.c].  [inet_aton] reads back every
      address [inet_ntoa] printed.
    - [LwipMem]: the heap of [net/lwip/core/mem.c], on the bytes of its array.  State [heap]: the
      memory and the pointers [ram], [ram_end], [lfree].
    - [Pbuf]: the pools of [net/lwip/core/memp.c] and the packet buffers of
      [net/lwip/core/pbuf.c], in one memory with the heap.  State [net]: the heap and [memp_tab].

    [LwipHeap] gives the heap its abstract form, a list of blocks without two free ones side
    by side, and proves that each function implements first fit, shrinking and joining on it.
    [LwipSpec] has the clients: any sequence of calls and writes ends without a
    failed assertion, the blocks held are disjoint and keep their contents, and once all are
    given back the heap is whole.  The fuel of the scans is one more than the blocks the heap
    can hold.

    [PbufSpec] describes a chain of buffers and the bytes it stands for; [pbuf_copy_partial]
    copies a slice of them.  [PbufPool]: [memp_init] makes a free list of all 512 packet buffers;
    [pbuf_alloc] makes a chain of the length asked for from it, or gives everything back.
    [PbufOps]: [pbuf_cat] joins chains, [pbuf_free] frees up to the first buffer others refer
    to, [pbuf_realloc] keeps the first bytes and frees the rest.  [pbuf_copy]
    copies a packet into another however the two are cut into buffers.  The fuel of the loops is one
    more than the number of buffers in the chains, in [pbuf_copy] the sum of the two.

    ** The file server

    Four layers, each a client of the interface of the one below.
    - [Ide]: [fs/ide.c] over the ports of an ATA drive.  The drive is hardware: the class
      [Ports] with the laws [Ata], of which the executable drive [ata] is an instance.
      The driver gives a [Disk].
    - [Bc]: [fs/bc.c], the block cache.  It gives a [Store]; the instance [cached] runs the
      page-fault handler, nested faults included, on every access to an absent page.  The
      second instance, [flat], is a plain memory.
    - [Fs]: [fs/fs.c], over any [Store].
    - [Serv]: [fs/serv.c], over any [Store]: the open file table, the handlers, and one turn
      of the request loop.

    [BcSim] proves that [cached] simulates [flat], [FsSim] lifts this to every
    function of the layers above, so that the functional theorems are proved once, on
    flat memory ([FsFlat], [FsFile], [FsGrow], [FsRw], [FsTrunc], [FsDir], [FsCreate], [ServTab],
    [ServFlat]) and hold of the server as it runs.  [FsDurable] is about the disk itself.
    [FsSpec] and [ServSpec] hold the theorems: what is written is read back, and no other
    file changes; a file that was created is found under its path, also when its directory had
    to grow; truncation frees exactly
    the blocks past the end; after [fs_sync] the disk holds everything; file ids are never
    confused, whatever clients open, map and unmap; opening and reading through the cache
    answer as on flat memory.  Where a file needs an indirect block, or a directory a new block,
    the theorems ask that the free blocks hold zeros, as on a fresh disk: [file_block_walk]
    does not clear what it allocates.

    ** Parameters

    The class [Machine] holds what the kernel takes from linker and hardware: symbol
    addresses, the bytes of the NVRAM, the value of the uninitialised local of
    [page_remove], which the theorems on unmapping assume not to be zero ([page_lookup]
    tests it by mistake).  [Program], [Linked], [Rodata], [Network] and [Pools] hold addresses the linker chooses,
    the last also the sizes of the structures in the pools that are not modelled.  [Ports] is the
    ATA drive and [Pager] the kernel seen from the file server: whether a page can be
    allocated.  Every theorem with a hypothesis about them has a witness with the parameter
    instantiated.

    ** Not modelled

    Assembly ([kern/entry.S], [kern/trapentry.S], [boot/boot.S]), except [lib/pfentry.S] and
    the [rep movs] and [rep stos] of [lib/string.c]; device programming without state
    ([kern/lapic.c], [kern/picirq.c], [kern/pci.c], [kern/mpconfig.c]); the kernel monitor
    ([kern/monitor.c]), which never returns since no command answers a negative value, and is an
    outcome; in [trap] the test of [panicstr], the halt after a panic on another CPU, and the
    acknowledgement of interrupts; the user library above the system calls but for fork, file descriptors and the data path of
    pipes ([lib/file.c], [lib/spawn.c], [lib/malloc.c] and so on; whether [_pipeisclosed]
    answers true is left open, [fstat] and [stat] are left out); the network server and the
    protocols of lwIP, which run as cooperating threads over timers and messages; user programs.
    For packet buffers in the heap and for references to foreign memory ([PBUF_RAM],
    [PBUF_ROM], [PBUF_REF]) the functions are translated but the theorems on allocation are
    about the pool.  The file server's [fs_init] and the self check of the block cache are
    left out, and so is printing that only reports.  The memory of a user program is that of its
    mapped pages: the C variables and stack frames of the library code that is running ([fork],
    [pgfault], [dup]) are values of the model and not bytes on the program's stack. *)

From Stdlib Require Export ZArith Lia.
From stdpp Require Export base list gmap strings.

Declare Scope jos_scope.
Delimit Scope jos_scope with jos.
Open Scope jos_scope.
Open Scope Z_scope.

(** ** Outcomes and the kernel monad

    A C function of the kernel is a state transformer whose run ends in one of
    several ways; only [Ret] gives control back to the caller. *)

Inductive outcome (S A : Type) : Type :=
  | Ret (a : A) (s : S)          (* the function returned [a] *)
  | Panic (s : S)                (* [_panic] or a failed [assert] *)
  | Wild (s : S)                 (* access through a null or out-of-range pointer *)
  | Iret (e : Z) (s : S)         (* [env_pop_tf]: left the kernel, running env [e] *)
  | Halt (s : S)                 (* [sched_halt]: the CPU waits for an interrupt *)
  | Monitor (s : S)              (* [monitor]: from [sched_halt] or a breakpoint, for good *)
  | Fuel.                        (* the model's loop bound was too small *)

Arguments Ret {S A} a s.
Arguments Panic {S A} s.
Arguments Wild {S A} s.
Arguments Iret {S A} e s.
Arguments Halt {S A} s.
Arguments Monitor {S A} s.
Arguments Fuel {S A}.

Definition M (S A : Type) : Type := S -> outcome S A.

Definition ret {S A} (a : A) : M S A := fun s => Ret a s.
Definition panic {S A} : M S A := fun s => Panic s.
Definition wild {S A} : M S A := fun s => Wild s.
Definition out_of_fuel {S A} : M S A := fun _ => Fuel.

Definition bind {S A B} (m : M S A) (k : A -> M S B) : M S B := fun s =>
  match m s with
  | Ret a s' => k a s'
  | Panic s' => Panic s'
  | Wild s' => Wild s'
  | Iret e s' => Iret e s'
  | Halt s' => Halt s'
  | Monitor s' => Monitor s'
  | Fuel => Fuel
  end.

Definition gets {S A} (f : S -> A) : M S A := fun s => Ret (f s) s.
Definition modify {S} (f : S -> S) : M S unit := fun s => Ret tt (f s).

(** Run a computation of a component on the part of a larger state it owns. *)
Definition zoom {S T A} (get : S -> T) (put : T -> S -> S) (m : M T A) : M S A :=
  fun s =>
  match m (get s) with
  | Ret a t => Ret a (put t s)
  | Panic t => Panic (put t s)
  | Wild t => Wild (put t s)
  | Iret e t => Iret e (put t s)
  | Halt t => Halt (put t s)
  | Monitor t => Monitor (put t s)
  | Fuel => Fuel
  end.

Notation "'let*' x ':=' m 'in' k" := (bind m (fun x => k))
  (at level 10, x name, m at level 200, k at level 200,
   format "'[v' 'let*'  x  ':='  m  'in' '/' k ']'") : jos_scope.
Notation "'let*' ' x ':=' m 'in' k" := (bind m (fun x => k))
  (at level 10, x strict pattern, m at level 200, k at level 200,
   format "'[v' 'let*'  ' x  ':='  m  'in' '/' k ']'") : jos_scope.
Notation "m ';;;' k" := (bind m (fun _ => k))
  (at level 199, right associativity,
   format "'[v' m ';;;' '/' k ']'") : jos_scope.

(** [for (i = a; i < a + n; i++) body] *)
Fixpoint for_n {S} (n : nat) (a : Z) (body : Z -> M S unit) : M S unit :=
  match n with
  | O => ret tt
  | S n => body a ;;; for_n n (a + 1) body
  end.

(** [post o Q]: the run returned, and the value and final state satisfy [Q]. *)
Definition post {S A} (o : outcome S A) (Q : A -> S -> Prop) : Prop :=
  match o with Ret a s => Q a s | _ => False end.

Lemma bind_ret {S A B} (m : M S A) (k : A -> M S B) s a s' :
  m s = Ret a s' -> bind m k s = k a s'.
Proof. intros H. unfold bind. by rewrite H. Qed.

(** Run the first command of a sequence, whose result [t] proves. *)
Tactic Notation "mstep" tactic3(t) := erewrite bind_ret by t; cbn beta iota zeta.

Lemma bind_panic {S A B} (m : M S A) (k : A -> M S B) s s' :
  m s = Panic s' -> bind m k s = Panic s'.
Proof. intros H. unfold bind. by rewrite H. Qed.

Lemma bind_inv {S A B} (m : M S A) (k : A -> M S B) s b s' :
  bind m k s = Ret b s' -> exists a s0, m s = Ret a s0 /\ k a s0 = Ret b s'.
Proof. unfold bind. destruct (m s); intros H; try discriminate. eauto. Qed.

Lemma zoom_ret {S T A} (get : S -> T) (put : T -> S -> S) (m : M T A) s a t :
  m (get s) = Ret a t -> zoom get put m s = Ret a (put t s).
Proof. intros H. unfold zoom. by rewrite H. Qed.

Lemma post_bind {S A B} (m : M S A) (k : A -> M S B) s (P : A -> S -> Prop) Q :
  post (m s) P -> (forall a s', P a s' -> post (k a s') Q) -> post (bind m k s) Q.
Proof. unfold bind, post. destruct (m s); naive_solver. Qed.

(** A loop that keeps [P] runs to the end. *)
Lemma for_n_inv {S} (P : Z -> S -> Prop) n a (body : Z -> M S unit) s :
  P a s ->
  (forall i s, a <= i < a + Z.of_nat n -> P i s -> exists s', body i s = Ret tt s' /\ P (i + 1) s') ->
  exists s', for_n n a body s = Ret tt s' /\ P (a + Z.of_nat n) s'.
Proof.
  revert a s. induction n as [|n IH]; intros a s H0 Hstep.
  - exists s. split; [done|]. by rewrite Z.add_0_r.
  - destruct (Hstep a s ltac:(lia) H0) as (s1 & Hrun & H1).
    destruct (IH (a + 1) s1 H1) as (s' & Hrun' & H').
    { intros i t Hi. apply Hstep. lia. }
    exists s'. split; [simpl; mstep (exact Hrun); exact Hrun'|].
    by replace (a + Z.of_nat (Datatypes.S n)) with (a + 1 + Z.of_nat n) by lia.
Qed.

Lemma post_ret_inv {S A} (o : outcome S A) Q :
  post o Q -> exists a s, o = Ret a s /\ Q a s.
Proof. destruct o; simpl; try done. eauto. Qed.

Lemma post_mono {S A} (o : outcome S A) (P Q : A -> S -> Prop) :
  post o P -> (forall a s, P a s -> Q a s) -> post o Q.
Proof. destruct o; simpl; eauto. Qed.

(** ** Machine integers *)

Definition u8 (x : Z) : Z := x mod 2 ^ 8.
Definition u16 (x : Z) : Z := x mod 2 ^ 16.
Definition u32 (x : Z) : Z := x mod 2 ^ 32.

(** The signed reading of a 32-bit word (C's [(int32_t)]). *)
Definition s32 (x : Z) : Z :=
  let w := u32 x in if w <? 2 ^ 31 then w else w - 2 ^ 32.

(** C's truth value of an integer. *)
Definition nonzero (x : Z) : bool := negb (x =? 0).

(** [bits_set x m]: the C test [(x & m) == m]. *)
Definition bits_set (x m : Z) : bool := Z.land x m =? m.

Create HintDb jos.

(** [zdm]: linear arithmetic with [/] and [mod] by constants. *)
Ltac zdm := Z.to_euclidean_division_equations; lia.

(** Decide the boolean comparisons that block a conditional. *)
Ltac bcase :=
  repeat match goal with
  | |- context [if ?a <? ?b then _ else _] => destruct (Z.ltb_spec a b)
  | |- context [if ?a <=? ?b then _ else _] => destruct (Z.leb_spec a b)
  | |- context [if ?a =? ?b then _ else _] => destruct (Z.eqb_spec a b)
  end.

(** Step a monadic goal: peel one [bind] whose head is a primitive. *)
Ltac munfold := unfold bind, ret, gets, modify, panic, wild, out_of_fuel in *.

Lemma u8_range x : 0 <= u8 x < 2 ^ 8.
Proof. unfold u8. apply Z.mod_pos_bound. lia. Qed.

Lemma u16_range x : 0 <= u16 x < 2 ^ 16.
Proof. unfold u16. apply Z.mod_pos_bound. lia. Qed.

Lemma u32_range x : 0 <= u32 x < 2 ^ 32.
Proof. unfold u32. apply Z.mod_pos_bound. lia. Qed.

Lemma u32_small x : 0 <= x < 2 ^ 32 -> u32 x = x.
Proof. apply Z.mod_small. Qed.

Lemma u16_small x : 0 <= x < 2 ^ 16 -> u16 x = x.
Proof. apply Z.mod_small. Qed.

Lemma u8_small x : 0 <= x < 2 ^ 8 -> u8 x = x.
Proof. apply Z.mod_small. Qed.

Lemma u8_idem x : u8 (u8 x) = u8 x.
Proof. apply u8_small, u8_range. Qed.

Lemma u32_idem x : u32 (u32 x) = u32 x.
Proof. apply u32_small, u32_range. Qed.

Lemma s32_range x : - 2 ^ 31 <= s32 x < 2 ^ 31.
Proof. unfold s32. pose proof (u32_range x). bcase; lia. Qed.

Lemma s32_small x : - 2 ^ 31 <= x < 2 ^ 31 -> s32 x = x.
Proof. intros H. unfold s32, u32. bcase; zdm. Qed.

#[export] Hint Resolve u8_range u16_range u32_range s32_range : jos.

(** ** Bit operations as arithmetic *)

Lemma land_ones_mod x n : 0 <= n -> Z.land x (2 ^ n - 1) = x mod 2 ^ n.
Proof. intros H. rewrite <- Z.land_ones by done. f_equal. rewrite Z.ones_equiv. lia. Qed.

Lemma lor_add_low a b n :
  0 <= n -> a mod 2 ^ n = 0 -> 0 <= b < 2 ^ n -> Z.lor a b = a + b.
Proof.
  intros Hn Ha Hb. rewrite <- Z.add_lor_land.
  enough (Z.land a b = 0) by lia.
  apply Z.bits_inj'. intros i Hi. rewrite Z.land_spec, Z.bits_0.
  destruct (Z.lt_ge_cases i n).
  - rewrite <- (Z.mod_pow2_bits_low a n i) by done. by rewrite Ha, Z.bits_0.
  - rewrite <- (Z.mod_small b (2 ^ n)) by done.
    rewrite Z.mod_pow2_bits_high by lia. apply andb_false_r.
Qed.

Lemma lor_range a b n : 0 <= n -> 0 <= a < 2 ^ n -> 0 <= b < 2 ^ n -> 0 <= Z.lor a b < 2 ^ n.
Proof.
  intros Hn Ha Hb. split; [apply Z.lor_nonneg; lia|].
  destruct (Z.eq_dec (Z.lor a b) 0) as [->|Hne]; [lia|].
  apply Z.log2_lt_pow2; [pose proof (proj2 (Z.lor_nonneg a b)); lia|].
  rewrite Z.log2_lor by lia.
  assert (forall x, 0 <= x < 2 ^ n -> Z.log2 x < n \/ n = 0) as Hlog.
  { intros x Hx. destruct (Z.eq_dec x 0) as [->|].
    - change (Z.log2 0) with 0. lia.
    - left. apply Z.log2_lt_pow2; lia. }
  destruct (Hlog a Ha), (Hlog b Hb); subst; try lia.
  all: rewrite Z.pow_0_r in *; assert (a = 0) by lia; assert (b = 0) by lia; subst; done.
Qed.

Lemma land_bound x m : 0 <= m -> 0 <= Z.land x m <= m.
Proof.
  intros Hm. apply Z.ldiff_le; [done|]. apply Z.bits_inj'. intros n _.
  rewrite Z.ldiff_spec, Z.land_spec, Z.bits_0. by destruct (Z.testbit x n), (Z.testbit m n).
Qed.

(** Clearing the low [n] bits, as C's [x & ~(2^n - 1)] on non-negative [x]. *)
Lemma ldiff_ones x n : 0 <= n -> Z.ldiff x (Z.ones n) = x - x mod 2 ^ n.
Proof.
  intros Hn. rewrite Z.ldiff_ones_r by done. rewrite Z.shiftl_mul_pow2, Z.shiftr_div_pow2 by done.
  pose proof (Z.div_mod x (2 ^ n)) as H. rewrite H at 2; [lia|]. apply Z.pow_nonzero; lia.
Qed.

Lemma land_lnot_mask x n : 0 <= n -> Z.land x (Z.lnot (2 ^ n - 1)) = x - x mod 2 ^ n.
Proof.
  intros Hn. rewrite <- ldiff_ones, Z.ones_equiv by done. by rewrite Z.ldiff_land.
Qed.

#[global] Arguments u8 : simpl never.
#[global] Arguments u16 : simpl never.
#[global] Arguments u32 : simpl never.
#[global] Arguments s32 : simpl never.
#[global] Arguments bits_set : simpl never.
#[global] Arguments nonzero : simpl never.
#[global] Arguments Z.lor : simpl never.
#[global] Arguments Z.land : simpl never.
#[global] Arguments Z.mul : simpl never.
#[global] Arguments Z.add : simpl never.
#[global] Arguments Z.sub : simpl never.
