(* ===== verification/Mmu.v ===== *)
(** Address arithmetic and layout constants.

    [inc/types.h] (rounding macros), [inc/mmu.h] (page-table geometry and entry
    flags), [inc/memlayout.h] (the virtual memory map) and [inc/error.h].
    Addresses are 32-bit words, kept as [Z] in [0, 2^32). *)

From S2P Require Import Prelude.

(** ** [inc/types.h] *)

Definition MIN (a b : Z) : Z := if a <=? b then a else b.

(** Both macros convert to [uint32_t] and wrap around there. *)
Definition ROUNDDOWN (a n : Z) : Z := u32 (u32 a - u32 a mod n).
Definition ROUNDUP (a n : Z) : Z := ROUNDDOWN (u32 a + n - 1) n.

(** ** [inc/mmu.h]: linear addresses *)

Definition PGSIZE : Z := 4096.
Definition PGSHIFT : Z := 12.
Definition PTXSHIFT : Z := 12.
Definition PDXSHIFT : Z := 22.
Definition NPDENTRIES : Z := 1024.
Definition NPTENTRIES : Z := 1024.
Definition PTSIZE : Z := PGSIZE * NPTENTRIES.

Definition PGNUM (la : Z) : Z := Z.shiftr (u32 la) PTXSHIFT.
Definition PDX (la : Z) : Z := Z.land (Z.shiftr (u32 la) PDXSHIFT) 0x3FF.
Definition PTX (la : Z) : Z := Z.land (Z.shiftr (u32 la) PTXSHIFT) 0x3FF.
Definition PGOFF (la : Z) : Z := Z.land (u32 la) 0xFFF.
Definition PGADDR (d t o : Z) : Z :=
  Z.lor (Z.lor (Z.shiftl d PDXSHIFT) (Z.shiftl t PTXSHIFT)) o.

(** Page table/directory entry flags. *)
Definition PTE_P : Z := 0x001.
Definition PTE_W : Z := 0x002.
Definition PTE_U : Z := 0x004.
Definition PTE_PWT : Z := 0x008.
Definition PTE_PCD : Z := 0x010.
Definition PTE_D : Z := 0x040.
Definition PTE_AVAIL : Z := 0xE00.
Definition PTE_SYSCALL : Z := Z.lor (Z.lor (Z.lor PTE_AVAIL PTE_P) PTE_W) PTE_U.

(** [inc/lib.h] and [lib/fork.c]: two of the bits left to user code. *)
Definition PTE_SHARE : Z := 0x400.
Definition PTE_COW : Z := 0x800.

Definition PTE_ADDR (pte : Z) : Z := Z.land (u32 pte) (Z.lnot 0xFFF).

(** Flags of [%eflags] and of the page-fault error code. *)
Definition FL_IF : Z := 0x00000200.
Definition FL_IOPL_3 : Z := 0x00003000.
Definition FEC_WR : Z := 0x2.

(** ** [inc/memlayout.h] *)

Definition GD_KT : Z := 0x08.
Definition GD_UT : Z := 0x18.
Definition GD_UD : Z := 0x20.

Definition KERNBASE : Z := 0xF0000000.
Definition IOPHYSMEM : Z := 0x0A0000.
Definition EXTPHYSMEM : Z := 0x100000.
Definition KSTACKTOP : Z := KERNBASE.
Definition KSTKSIZE : Z := 8 * PGSIZE.
Definition KSTKGAP : Z := 8 * PGSIZE.
Definition MMIOLIM : Z := KSTACKTOP - PTSIZE.
Definition MMIOBASE : Z := MMIOLIM - PTSIZE.
Definition ULIM : Z := MMIOBASE.
Definition UVPT : Z := ULIM - PTSIZE.
Definition UPAGES : Z := UVPT - PTSIZE.
Definition UENVS : Z := UPAGES - PTSIZE.
Definition UTOP : Z := UENVS.
Definition UXSTACKTOP : Z := UTOP.
Definition USTACKTOP : Z := UTOP - 2 * PGSIZE.
Definition UTEMP : Z := PTSIZE.
Definition PFTEMP : Z := UTEMP + PTSIZE - PGSIZE.
Definition USTABDATA : Z := PTSIZE / 2.
Definition MPENTRY_PADDR : Z := 0x7000.

(** ** [inc/error.h]; the kernel returns the negated code *)

Definition E_BAD_ENV : Z := 2.
Definition E_INVAL : Z := 3.
Definition E_NO_MEM : Z := 4.
Definition E_NO_FREE_ENV : Z := 5.
Definition E_FAULT : Z := 6.
Definition E_IPC_NOT_RECV : Z := 7.
Definition E_NO_DISK : Z := 9.
Definition E_MAX_OPEN : Z := 10.
Definition E_NOT_FOUND : Z := 11.
Definition E_BAD_PATH : Z := 12.
Definition E_FILE_EXISTS : Z := 13.
Definition MAXERROR : Z := 16.

(** Unfold the constants above so that [lia] sees numerals. *)
Ltac consts :=
  unfold USTABDATA, PFTEMP, UTEMP, USTACKTOP, UXSTACKTOP, UTOP, UENVS, UPAGES, UVPT,
    ULIM, MMIOBASE, MMIOLIM, KSTKGAP, KSTKSIZE, KSTACKTOP, EXTPHYSMEM, IOPHYSMEM,
    KERNBASE, MPENTRY_PADDR, PTSIZE, NPTENTRIES, NPDENTRIES, PGSHIFT, PTXSHIFT, PDXSHIFT,
    PGSIZE, PTE_P, PTE_W, PTE_U in *.
Ltac clia := consts; lia.
Ltac czdm := consts; zdm.

(** ** Lemmas *)

Lemma PGNUM_div la : 0 <= la < 2 ^ 32 -> PGNUM la = la / PGSIZE.
Proof. intros H. unfold PGNUM. rewrite u32_small, Z.shiftr_div_pow2 by clia. done. Qed.

Lemma PDX_div la : 0 <= la < 2 ^ 32 -> PDX la = la / PTSIZE.
Proof.
  intros H. unfold PDX. rewrite u32_small, Z.shiftr_div_pow2 by clia.
  change 0x3FF with (2 ^ 10 - 1). rewrite land_ones_mod by lia. czdm.
Qed.

Lemma PTX_div la : 0 <= la < 2 ^ 32 -> PTX la = (la / PGSIZE) mod 1024.
Proof.
  intros H. unfold PTX. rewrite u32_small, Z.shiftr_div_pow2 by clia.
  change 0x3FF with (2 ^ 10 - 1). by rewrite land_ones_mod by lia.
Qed.

Lemma PGOFF_mod la : 0 <= la < 2 ^ 32 -> PGOFF la = la mod PGSIZE.
Proof.
  intros H. unfold PGOFF. rewrite u32_small by lia.
  change 0xFFF with (2 ^ 12 - 1). by rewrite land_ones_mod by lia.
Qed.

Lemma PDX_range la : 0 <= PDX la < 1024.
Proof.
  unfold PDX. change 0x3FF with (2 ^ 10 - 1). rewrite land_ones_mod by lia. zdm.
Qed.

Lemma PTX_range la : 0 <= PTX la < 1024.
Proof.
  unfold PTX. change 0x3FF with (2 ^ 10 - 1). rewrite land_ones_mod by lia. zdm.
Qed.

Lemma PTE_ADDR_sub x : 0 <= x < 2 ^ 32 -> PTE_ADDR x = x - x mod PGSIZE.
Proof.
  intros H. unfold PTE_ADDR. rewrite u32_small by lia.
  change 0xFFF with (2 ^ 12 - 1). by rewrite land_lnot_mask by lia.
Qed.

(** A page's physical address with flag bits in the low twelve. *)
Lemma PTE_ADDR_lor pn f :
  0 <= pn < 2 ^ 20 -> 0 <= f < PGSIZE -> PTE_ADDR (Z.lor (pn * PGSIZE) f) = pn * PGSIZE.
Proof.
  intros Hp Hf. rewrite (lor_add_low _ _ 12) by czdm. rewrite PTE_ADDR_sub by clia. czdm.
Qed.

Lemma ROUNDDOWN_spec a n :
  0 < n -> 0 <= a < 2 ^ 32 -> ROUNDDOWN a n = a - a mod n.
Proof.
  intros Hn Ha. unfold ROUNDDOWN. rewrite (u32_small a) by lia. apply u32_small.
  pose proof (Z.mod_pos_bound a n). pose proof (Z.mod_le a n). lia.
Qed.

Lemma ROUNDUP_spec a n :
  0 < n -> 0 <= a -> a + n - 1 < 2 ^ 32 ->
  a <= ROUNDUP a n < a + n /\ (ROUNDUP a n) mod n = 0.
Proof.
  intros Hn Ha Hb. unfold ROUNDUP. rewrite (u32_small a), ROUNDDOWN_spec by lia.
  pose proof (Z.mod_pos_bound (a + n - 1) n). split; [lia|].
  rewrite Zminus_mod_idemp_r, Z.sub_diag. by rewrite Z.mod_0_l by lia.
Qed.

(** Splitting an address into its indices and reassembling it with [PGADDR]. *)
Lemma PGADDR_split la :
  0 <= la < 2 ^ 32 -> PGADDR (PDX la) (PTX la) (PGOFF la) = la.
Proof.
  intros H. unfold PGADDR. rewrite !Z.shiftl_mul_pow2 by clia.
  rewrite PDX_div, PTX_div, PGOFF_mod by done.
  rewrite (lor_add_low _ (_ * 2 ^ PTXSHIFT) 22) by czdm.
  rewrite (lor_add_low _ _ 12) by czdm. czdm.
Qed.

Lemma PGADDR_indices d t o :
  0 <= d < 1024 -> 0 <= t < 1024 -> 0 <= o < PGSIZE ->
  0 <= PGADDR d t o < 2 ^ 32 /\
  PDX (PGADDR d t o) = d /\ PTX (PGADDR d t o) = t /\ PGOFF (PGADDR d t o) = o.
Proof.
  intros Hd Ht Ho.
  assert (PGADDR d t o = d * PTSIZE + t * PGSIZE + o) as ->.
  { unfold PGADDR. rewrite !Z.shiftl_mul_pow2 by clia.
    rewrite (lor_add_low _ (_ * 2 ^ PTXSHIFT) 22) by czdm.
    rewrite (lor_add_low _ _ 12) by czdm. clia. }
  split; [clia|]. rewrite PDX_div, PTX_div, PGOFF_mod by clia. repeat split; czdm.
Qed.

Lemma PGNUM_PDX_PTX la : 0 <= la < 2 ^ 32 -> PGNUM la = PDX la * 1024 + PTX la.
Proof. intros H. rewrite PGNUM_div, PDX_div, PTX_div by done. czdm. Qed.

(** Two addresses are on the same page exactly when both indices agree. *)
Lemma same_page a b :
  0 <= a < 2 ^ 32 -> 0 <= b < 2 ^ 32 ->
  PGNUM a = PGNUM b <-> PDX a = PDX b /\ PTX a = PTX b.
Proof.
  intros Ha Hb. rewrite !PGNUM_PDX_PTX by done.
  pose proof (PTX_range a). pose proof (PTX_range b). split; [|intros [-> ->]; done].
  intros. split; lia.
Qed.

#[export] Hint Resolve PDX_range PTX_range : jos.

#[global] Arguments ROUNDDOWN : simpl never.
#[global] Arguments ROUNDUP : simpl never.
#[global] Arguments PGNUM : simpl never.
#[global] Arguments PDX : simpl never.
#[global] Arguments PTX : simpl never.
#[global] Arguments PGADDR : simpl never.
#[global] Arguments PTE_ADDR : simpl never.
