(* ===== verification/Console.v ===== *)
(** The kernel console: [kern/console.c] (serial port, parallel port, CGA text
    display, keyboard and the circular input buffer) and [kern/printf.c].

    The devices appear as queues: bytes and scan codes the hardware has ready, and
    the bytes written to it.  Busy-wait delays have no effect on this state. *)

From S2P Require Import Prelude Mmu.

Definition CONSBUFSIZE : Z := 512.
Definition CRT_ROWS : Z := 25.
Definition CRT_COLS : Z := 80.
Definition CRT_SIZE : Z := CRT_ROWS * CRT_COLS.

Definition KEY_HOME : Z := 0xE0.
Definition KEY_END : Z := 0xE1.
Definition KEY_UP : Z := 0xE2.
Definition KEY_DN : Z := 0xE3.
Definition KEY_LF : Z := 0xE4.
Definition KEY_RT : Z := 0xE5.
Definition KEY_PGUP : Z := 0xE6.
Definition KEY_PGDN : Z := 0xE7.
Definition KEY_INS : Z := 0xE8.
Definition KEY_DEL : Z := 0xE9.

Record console := mkConsole {
  serial_exists : bool;
  serial_in : list Z;               (* bytes waiting in the UART *)
  kbd_in : list Z;                  (* scan codes waiting in the controller *)
  shift : Z;                        (* static of [kbd_proc_data] *)
  cbuf : list Z;                    (* [cons.buf] *)
  rpos : Z;
  wpos : Z;
  serial_out : list Z;              (* bytes sent, latest first *)
  lpt_out : list Z;
  crt_buf : list Z;
  crt_pos : Z;
  cursor : Z;                       (* cursor position programmed into the 6845 *)
  reboot : bool;                    (* [outb(0x92, 0x3)] *)
}.

Definition set_serial_in (v : list Z) (s : console) : console :=
  mkConsole s.(serial_exists) v s.(kbd_in) s.(shift) s.(cbuf) s.(rpos) s.(wpos)
    s.(serial_out) s.(lpt_out) s.(crt_buf) s.(crt_pos) s.(cursor) s.(reboot).
Definition set_kbd (i : list Z) (sh : Z) (rb : bool) (s : console) : console :=
  mkConsole s.(serial_exists) s.(serial_in) i sh s.(cbuf) s.(rpos) s.(wpos)
    s.(serial_out) s.(lpt_out) s.(crt_buf) s.(crt_pos) s.(cursor) rb.
Definition set_ring (b : list Z) (r w : Z) (s : console) : console :=
  mkConsole s.(serial_exists) s.(serial_in) s.(kbd_in) s.(shift) b r w
    s.(serial_out) s.(lpt_out) s.(crt_buf) s.(crt_pos) s.(cursor) s.(reboot).
Definition set_serial_out (v : list Z) (s : console) : console :=
  mkConsole s.(serial_exists) s.(serial_in) s.(kbd_in) s.(shift) s.(cbuf) s.(rpos) s.(wpos)
    v s.(lpt_out) s.(crt_buf) s.(crt_pos) s.(cursor) s.(reboot).
Definition set_lpt_out (v : list Z) (s : console) : console :=
  mkConsole s.(serial_exists) s.(serial_in) s.(kbd_in) s.(shift) s.(cbuf) s.(rpos) s.(wpos)
    s.(serial_out) v s.(crt_buf) s.(crt_pos) s.(cursor) s.(reboot).
Definition set_crt (b : list Z) (p : Z) (s : console) : console :=
  mkConsole s.(serial_exists) s.(serial_in) s.(kbd_in) s.(shift) s.(cbuf) s.(rpos) s.(wpos)
    s.(serial_out) s.(lpt_out) b p s.(cursor) s.(reboot).
Definition set_cursor (v : Z) (s : console) : console :=
  mkConsole s.(serial_exists) s.(serial_in) s.(kbd_in) s.(shift) s.(cbuf) s.(rpos) s.(wpos)
    s.(serial_out) s.(lpt_out) s.(crt_buf) s.(crt_pos) v s.(reboot).

(** ** The input buffer *)

(** [cons.buf[cons.wpos++] = c] and the wrap-around; an index outside [buf] is a
    wild store. *)
Definition cons_push (c : Z) : M console unit := fun s =>
  if (0 <=? s.(wpos)) && (s.(wpos) <? Z.of_nat (length s.(cbuf))) then
    let w := u32 (s.(wpos) + 1) in
    Ret tt (set_ring (<[Z.to_nat s.(wpos) := u8 c]> s.(cbuf)) s.(rpos)
              (if w =? CONSBUFSIZE then 0 else w) s)
  else Wild s.

(** [cons_intr]: feed the characters [proc] has until it returns [-1]. *)
Fixpoint cons_intr (fuel : nat) (proc : M console Z) : M console unit :=
  match fuel with
  | O => out_of_fuel
  | S fuel =>
      let* c := proc in
      if c =? -1 then ret tt
      else if c =? 0 then cons_intr fuel proc
      else cons_push c ;;; cons_intr fuel proc
  end.

(** ** Serial input *)

Definition serial_proc_data : M console Z := fun s =>
  match s.(serial_in) with
  | [] => Ret (-1) s
  | b :: q => Ret (u8 b) (set_serial_in q s)
  end.

Definition serial_intr : M console unit :=
  let* ex := gets serial_exists in
  let* q := gets serial_in in
  if ex : bool then cons_intr (S (length q)) serial_proc_data else ret tt.

(** ** Keyboard *)

Definition NO : Z := 0.
Definition SHIFT : Z := 1.
Definition CTL : Z := 2.
Definition ALT : Z := 4.
Definition CAPSLOCK : Z := 8.
Definition NUMLOCK : Z := 16.
Definition SCROLLLOCK : Z := 32.
Definition E0ESC : Z := 64.

(** Tables: leading entries in order, then the designated ones. *)
Definition table (l : list Z) (d : list (Z * Z)) (i : Z) : Z :=
  match list_find (fun p => p.1 = i) d with
  | Some (_, (_, v)) => v
  | None => default 0 (if 0 <=? i then l !! Z.to_nat i else None)
  end.

Definition shiftcode : Z -> Z :=
  table [] [(0x1D, CTL); (0x2A, SHIFT); (0x36, SHIFT); (0x38, ALT); (0x9D, CTL); (0xB8, ALT)].
Definition togglecode : Z -> Z :=
  table [] [(0x3A, CAPSLOCK); (0x45, NUMLOCK); (0x46, SCROLLLOCK)].

Definition chars (s : string) : list Z :=
  (fun c => Z.of_N (Ascii.N_of_ascii c)) <$> String.list_ascii_of_string s.

Definition keypad : list (Z * Z) :=
  [(0xC7, KEY_HOME); (0x9C, 10); (0xB5, 47); (0xC8, KEY_UP); (0xC9, KEY_PGUP);
   (0xCB, KEY_LF); (0xCD, KEY_RT); (0xCF, KEY_END); (0xD0, KEY_DN); (0xD1, KEY_PGDN);
   (0xD2, KEY_INS); (0xD3, KEY_DEL)].

Definition normalmap : Z -> Z :=
  table ([NO; 0x1B] ++ chars "1234567890-=" ++ [8; 9] ++ chars "qwertyuiop[]" ++ [10; NO] ++
    chars "asdfghjkl;'`" ++ [NO; 92] ++ chars "zxcvbnm,./" ++ [NO; 42; NO; 32] ++
    replicate 13 NO ++ chars "789-456+1230." ++ replicate 4 NO) keypad.

Definition shiftmap : Z -> Z :=
  table ([NO; 27] ++ chars "!@#$%^&*()_+" ++ [8; 9] ++ chars "QWERTYUIOP{}" ++ [10; NO] ++
    chars "ASDFGHJKL:" ++ [34; 126] ++ [NO; 124] ++ chars "ZXCVBNM<>?" ++ [NO; 42; NO; 32] ++
    replicate 13 NO ++ chars "789-456+1230." ++ replicate 4 NO) keypad.

(** [C(x)] *)
Definition ctl (c : Z) : Z := u8 (c - 64).

Definition ctlmap : Z -> Z :=
  table (replicate 16 NO ++ (ctl <$> chars "QWERTYUIOP") ++ [NO; NO; 13; NO] ++
    (ctl <$> chars "ASDFGHJKL") ++ [NO; NO; NO; NO] ++ [ctl 92] ++
    (ctl <$> chars "ZXCVBNM") ++ [NO; NO; ctl 47; NO; NO])
    [(0x97, KEY_HOME); (0xB5, ctl 47); (0xC8, KEY_UP); (0xC9, KEY_PGUP); (0xCB, KEY_LF);
     (0xCD, KEY_RT); (0xCF, KEY_END); (0xD0, KEY_DN); (0xD1, KEY_PGDN); (0xD2, KEY_INS);
     (0xD3, KEY_DEL)].

Definition charcode (m : Z) : Z -> Z :=
  if m =? 0 then normalmap else if m =? 1 then shiftmap else ctlmap.

(** [c] with the case of a letter exchanged under caps lock. *)
Definition caps (sh c : Z) : Z :=
  if nonzero (Z.land sh CAPSLOCK) then
    if (97 <=? c) && (c <=? 122) then c - 32
    else if (65 <=? c) && (c <=? 90) then c + 32 else c
  else c.

Definition kbd_proc_data : M console Z := fun s =>
  match s.(kbd_in) with
  | [] => Ret (-1) s
  | data :: q =>
      let sh := s.(shift) in
      let data := u8 data in
      if data =? 0xE0 then Ret 0 (set_kbd q (Z.lor sh E0ESC) s.(reboot) s)
      else if nonzero (Z.land data 0x80) then
        let data := if nonzero (Z.land sh E0ESC) then data else Z.land data 0x7F in
        Ret 0 (set_kbd q (Z.land sh (u32 (Z.lnot (Z.lor (shiftcode data) E0ESC)))) s.(reboot) s)
      else
        let '(data, sh) :=
          if nonzero (Z.land sh E0ESC) then (Z.lor data 0x80, Z.land sh (u32 (Z.lnot E0ESC)))
          else (data, sh) in
        let sh := Z.lxor (Z.lor sh (shiftcode data)) (togglecode data) in
        let c := caps sh (charcode (Z.land sh (Z.lor CTL SHIFT)) data) in
        let rb := (Z.land (Z.lnot sh) (Z.lor CTL ALT) =? 0) && (c =? KEY_DEL) in
        Ret c (set_kbd q sh (s.(reboot) || rb) s)
  end.

Definition kbd_intr : M console unit :=
  let* q := gets kbd_in in cons_intr (S (length q)) kbd_proc_data.

(** ** [cons_getc] *)

Definition cons_getc : M console Z :=
  serial_intr ;;;
  kbd_intr ;;;
  let* s := gets id in
  if s.(rpos) =? s.(wpos) then ret 0
  else
    match s.(cbuf) !! Z.to_nat s.(rpos) with
    | None => wild
    | Some c =>
        let r := u32 (s.(rpos) + 1) in
        modify (set_ring s.(cbuf) (if r =? CONSBUFSIZE then 0 else r) s.(wpos)) ;;;
        ret c
    end.

(** ** Output *)

Definition serial_putc (c : Z) : M console unit :=
  modify (fun s => set_serial_out (u8 c :: s.(serial_out)) s).
Definition lpt_putc (c : Z) : M console unit :=
  modify (fun s => set_lpt_out (u8 c :: s.(lpt_out)) s).

(** [crt_buf[i] = v] *)
Definition crt_store (i v : Z) : M console unit := fun s =>
  if (0 <=? i) && (i <? Z.of_nat (length s.(crt_buf)))
  then Ret tt (set_crt (<[Z.to_nat i := u16 v]> s.(crt_buf)) s.(crt_pos) s)
  else Wild s.

(** Scrolling by one row: the [memmove] and the blank row. *)
Definition crt_scroll : M console unit :=
  let* p := gets crt_pos in
  if CRT_SIZE <=? p then
    modify (fun s =>
      set_crt (drop (Z.to_nat CRT_COLS) s.(crt_buf) ++
               replicate (Z.to_nat CRT_COLS) (Z.lor 0x0700 32))
        (u16 (p - CRT_COLS)) s)
  else ret tt.

Definition set_pos (v : Z) : M console unit := modify (fun s => set_crt s.(crt_buf) (u16 v) s).

(** [cga_putc] apart from ['\t']. *)
Definition cga_char (c : Z) : M console unit :=
  let* p := gets crt_pos in
  let low := Z.land c 0xff in
  (if low =? 8 then
     if 0 <? p then
       set_pos (p - 1) ;;; crt_store (p - 1) (Z.lor (Z.land c (Z.lnot 0xff)) 32)
     else ret tt
   else if low =? 10 then
     let p := u16 (p + CRT_COLS) in set_pos (p - p mod CRT_COLS)
   else if low =? 13 then set_pos (p - p mod CRT_COLS)
   else set_pos (p + 1) ;;; crt_store p c) ;;;
  crt_scroll ;;;
  modify (fun s => set_cursor s.(crt_pos) s).

(** Black on white when no attribute is given. *)
Definition with_attr (c : Z) : Z :=
  if Z.land c (Z.lnot 0xFF) =? 0 then Z.lor c 0x0700 else c.

(** [cons_putc] of a character other than a tab, and [cga_putc] of any. *)
Definition cons_plain (c : Z) : M console unit :=
  serial_putc c ;;; lpt_putc c ;;; cga_char (with_attr c).

Definition cga_putc (c : Z) : M console unit :=
  let c := with_attr c in
  if Z.land c 0xff =? 9 then
    cons_plain 32 ;;; cons_plain 32 ;;; cons_plain 32 ;;; cons_plain 32 ;;; cons_plain 32 ;;;
    crt_scroll ;;;
    modify (fun s => set_cursor s.(crt_pos) s)
  else cga_char c.

Definition cons_putc (c : Z) : M console unit :=
  serial_putc c ;;; lpt_putc c ;;; cga_putc c.

Definition cputchar (c : Z) : M console unit := cons_putc c.

(** ** The input buffer is a queue *)

Record ring_wf (s : console) : Prop := {
  rw_len : length s.(cbuf) = 512%nat;
  rw_rpos : 0 <= s.(rpos) < 512;
  rw_wpos : 0 <= s.(wpos) < 512;
}.

(** How many characters are waiting, and which, oldest first. *)
Definition nwait (s : console) : Z := (s.(wpos) - s.(rpos)) mod 512.
Definition at_ring (s : console) (i : Z) : Z :=
  default 0 (s.(cbuf) !! Z.to_nat ((s.(rpos) + i) mod 512)).
Definition waiting (s : console) : list Z := at_ring s <$> seqZ 0 (nwait s).

Lemma waiting_length s : Z.of_nat (length (waiting s)) = nwait s.
Proof.
  unfold waiting. rewrite length_fmap, length_seqZ. unfold nwait.
  pose proof (Z.mod_pos_bound (wpos s - rpos s) 512). lia.
Qed.

(** The state after storing [c] at [wpos]. *)
Definition pushed (c : Z) (s : console) : console :=
  set_ring (<[Z.to_nat s.(wpos) := u8 c]> s.(cbuf)) s.(rpos) ((s.(wpos) + 1) mod 512) s.

Lemma cons_push_run c s : ring_wf s -> cons_push c s = Ret tt (pushed c s).
Proof.
  intros [Hl Hr Hw]. unfold cons_push, pushed. rewrite Hl.
  rewrite (proj2 (Z.leb_le _ _)), (proj2 (Z.ltb_lt _ _)) by lia. simpl andb. cbn iota.
  rewrite u32_small by lia. unfold CONSBUFSIZE.
  destruct (Z.eqb_spec (wpos s + 1) 512) as [->|]; [done|]. by rewrite Z.mod_small by lia.
Qed.

Lemma pushed_wf c s : ring_wf s -> ring_wf (pushed c s).
Proof.
  intros [Hl Hr Hw]. split; simpl; rewrite ?length_insert; try done.
  apply Z.mod_pos_bound. lia.
Qed.

Lemma pushed_nwait c s : ring_wf s -> nwait s < 511 -> nwait (pushed c s) = nwait s + 1.
Proof. intros [Hl Hr Hw] Hn. unfold nwait, pushed in *. simpl. zdm. Qed.

(** With room, the new character goes to the end of the queue ... *)
Lemma pushed_waiting c s :
  ring_wf s -> nwait s < 511 -> waiting (pushed c s) = waiting s ++ [u8 c].
Proof.
  intros Hwf Hn. unfold waiting. rewrite pushed_nwait by done. destruct Hwf as [Hl Hr Hw].
  pose proof (Z.mod_pos_bound (wpos s - rpos s) 512 ltac:(lia)) as Hb. fold (nwait s) in Hb.
  rewrite seqZ_app, fmap_app, Z.add_0_l by lia. rewrite (seqZ_cons (nwait s) 1) by lia.
  cbn [fmap list_fmap Z.pred]. f_equal.
  - apply list_fmap_ext. intros j i Hi. apply lookup_seqZ in Hi as [-> Hj].
    unfold at_ring, pushed. cbn [cbuf rpos set_ring]. rewrite list_lookup_insert_ne; [done|].
    unfold nwait in *. zdm.
  - f_equal. unfold at_ring, pushed. cbn [cbuf rpos set_ring].
    replace ((rpos s + nwait s) mod 512) with (wpos s) by (unfold nwait in *; zdm).
    rewrite list_lookup_insert_eq by lia. done.
Qed.

(** ... and the 512th character empties it. *)
Lemma pushed_overrun c s : ring_wf s -> nwait s = 511 -> waiting (pushed c s) = [].
Proof.
  intros [Hl Hr Hw] Hn. unfold waiting.
  assert (nwait (pushed c s) = 0) as ->; [|done].
  unfold nwait, pushed in *. simpl. zdm.
Qed.

Definition live (q : list Z) : list Z := filter (fun b => b <> 0) (u8 <$> q).

(** What the interrupt routines leave alone. *)
Lemma intr_serial q s :
  ring_wf s -> s.(serial_in) = q -> nwait s + Z.of_nat (length (live q)) <= 511 ->
  exists s', cons_intr (S (length q)) serial_proc_data s = Ret tt s' /\ ring_wf s' /\
    waiting s' = waiting s ++ live q /\ s'.(serial_in) = [] /\ s'.(kbd_in) = s.(kbd_in).
Proof.
  revert s. induction q as [|b q IH]; intros s Hwf Hq Hroom.
  - exists s. simpl. unfold serial_proc_data, bind. rewrite Hq. simpl. rewrite app_nil_r. done.
  - cbn [length cons_intr]. unfold serial_proc_data at 1, bind. rewrite Hq.
    pose proof (u8_range b) as Hb. rewrite (proj2 (Z.eqb_neq _ _)) by lia.
    assert (live (b :: q) = if u8 b =? 0 then live q else u8 b :: live q) as Hlive.
    { unfold live. rewrite fmap_cons, filter_cons.
      destruct (Z.eqb_spec (u8 b) 0); case_decide; done. }
    rewrite Hlive in *. set (s1 := set_serial_in q s).
    assert (ring_wf s1) as Hwf1 by (destruct Hwf; by split).
    destruct (Z.eqb_spec (u8 b) 0).
    + destruct (IH s1 Hwf1 eq_refl Hroom) as (s' & Hrun & ? & ? & ? & ?). by exists s'.
    + cbn [length] in Hroom.
      assert (nwait s1 = nwait s) as Hn by done.
      pose proof (pushed_nwait (u8 b) s1 Hwf1 ltac:(lia)) as Hn'.
      destruct (IH (pushed (u8 b) s1) (pushed_wf _ _ Hwf1) eq_refl ltac:(lia))
        as (s' & Hrun & ? & Hwait & ? & ?).
      rewrite pushed_waiting in Hwait by (done || lia).
      exists s'. unfold bind. rewrite cons_push_run by done.
      rewrite <- app_assoc in Hwait. rewrite (u8_small (u8 b)) in Hwait by lia. done.
Qed.

Lemma kbd_idle s : s.(kbd_in) = [] -> kbd_intr s = Ret tt s.
Proof.
  intros H. unfold kbd_intr. munfold. rewrite H. simpl. unfold kbd_proc_data, bind. by rewrite H.
Qed.

Lemma waiting_cons s :
  0 < nwait s -> ring_wf s ->
  exists c, s.(cbuf) !! Z.to_nat s.(rpos) = Some c /\
    waiting s = c :: waiting (set_ring s.(cbuf) ((s.(rpos) + 1) mod 512) s.(wpos) s).
Proof.
  intros Hn [Hl Hr Hw].
  destruct (lookup_lt_is_Some_2 s.(cbuf) (Z.to_nat s.(rpos)) ltac:(lia)) as [c Hc].
  exists c. split; [done|]. unfold waiting. set (s' := set_ring _ _ _ s).
  assert (nwait s' = nwait s - 1) as -> by (unfold s', nwait in *; simpl; zdm).
  rewrite seqZ_cons by done. cbn [fmap list_fmap]. f_equal.
  - unfold at_ring. rewrite Z.add_0_r, Z.mod_small, Hc by lia. done.
  - replace (Z.succ 0) with (1 + 0) by lia. rewrite <- fmap_add_seqZ, <- list_fmap_compose.
    replace (Z.pred (nwait s)) with (nwait s - 1) by lia.
    apply list_fmap_ext. intros j i Hi. unfold at_ring, s'. simpl. do 3 f_equal. zdm.
Qed.

(** ** The display *)

Record crt_wf (s : console) : Prop := {
  cw_len : length s.(crt_buf) = 2000%nat;
  cw_pos : 0 <= s.(crt_pos) < 2000;
}.

Lemma crt_store_run i v s :
  length s.(crt_buf) = 2000%nat -> 0 <= i < 2000 ->
  crt_store i v s = Ret tt (set_crt (<[Z.to_nat i := u16 v]> s.(crt_buf)) s.(crt_pos) s).
Proof.
  intros Hl Hi. unfold crt_store. rewrite Hl.
  by rewrite (proj2 (Z.leb_le _ _)), (proj2 (Z.ltb_lt _ _)) by lia.
Qed.

(** Scrolling brings any position up to one row past the end back on the screen. *)
Lemma crt_scroll_run s :
  length s.(crt_buf) = 2000%nat -> 0 <= s.(crt_pos) < 2080 ->
  exists s', crt_scroll s = Ret tt s' /\ crt_wf s' /\ s'.(serial_out) = s.(serial_out) /\
    s'.(lpt_out) = s.(lpt_out).
Proof.
  intros Hl Hp. unfold crt_scroll. munfold.
  destruct (Z.leb_spec CRT_SIZE (crt_pos s)) as [Hge|Hlt]; unfold CRT_SIZE, CRT_ROWS in *.
  - eexists. split; [done|]. split; [|done]. split; cbn [crt_buf crt_pos set_crt].
    + rewrite length_app, length_drop, length_replicate, Hl. done.
    + rewrite u16_small; unfold CRT_COLS in *; lia.
  - exists s. split; [done|]. split; [|done]. split; [done|]. unfold CRT_COLS in *. lia.
Qed.

Lemma cga_char_run c s :
  crt_wf s ->
  exists s', cga_char c s = Ret tt s' /\ crt_wf s' /\ s'.(cursor) = s'.(crt_pos) /\
    s'.(serial_out) = s.(serial_out) /\ s'.(lpt_out) = s.(lpt_out).
Proof.
  intros [Hl Hp].
  assert (forall s1, length s1.(crt_buf) = 2000%nat -> 0 <= s1.(crt_pos) < 2080 ->
    s1.(serial_out) = s.(serial_out) -> s1.(lpt_out) = s.(lpt_out) ->
    exists s', bind crt_scroll (fun _ => modify (fun s => set_cursor s.(crt_pos) s)) s1 = Ret tt s' /\
      crt_wf s' /\ s'.(cursor) = s'.(crt_pos) /\ s'.(serial_out) = s.(serial_out) /\
      s'.(lpt_out) = s.(lpt_out)) as Hend.
  { intros s1 Hl1 Hp1 Ho1 Ho2. destruct (crt_scroll_run s1 Hl1 Hp1) as (s' & Hrun & [] & ? & ?).
    eexists. split; [by mstep (exact Hrun)|]. split; [by split|]. simpl. split; [done|]. by split; congruence. }
  unfold cga_char. mstep reflexivity. unfold CRT_COLS.
  destruct (Z.eqb_spec (Z.land c 255) 8); [destruct (Z.ltb_spec 0 s.(crt_pos))|
    destruct (Z.eqb_spec (Z.land c 255) 10); [|destruct (Z.eqb_spec (Z.land c 255) 13)]].
  - erewrite (bind_ret (bind (set_pos (crt_pos s - 1)) _)) by
      (mstep reflexivity; apply crt_store_run; [done|lia]).
    apply Hend; simpl; rewrite ?length_insert; try done. rewrite u16_small; lia.
  - mstep reflexivity. apply Hend; done || lia.
  - mstep reflexivity. apply Hend; simpl; try done. rewrite (u16_small (crt_pos s + 80)) by lia.
    rewrite u16_small; zdm.
  - mstep reflexivity. apply Hend; simpl; try done. rewrite u16_small; zdm.
  - erewrite (bind_ret (bind (set_pos (crt_pos s + 1)) _)) by
      (mstep reflexivity; apply crt_store_run; [done|lia]).
    apply Hend; simpl; rewrite ?length_insert; try done. rewrite u16_small; lia.
Qed.

Lemma cons_plain_run c s :
  crt_wf s ->
  exists s', cons_plain c s = Ret tt s' /\ crt_wf s' /\ s'.(cursor) = s'.(crt_pos) /\
    s'.(serial_out) = u8 c :: s.(serial_out) /\ s'.(lpt_out) = u8 c :: s.(lpt_out).
Proof.
  intros [Hl Hp]. unfold cons_plain. mstep reflexivity. mstep reflexivity.
  set (s1 := set_lpt_out _ _). assert (crt_wf s1) as Hwf by by split.
  apply (cga_char_run (with_attr c) s1 Hwf).
Qed.

(** ** Correctness of the console *)

(** Input is first in, first out: as long as at most 511 characters are pending,
    [cons_getc] returns the oldest of the characters buffered and the non-NUL bytes
    the serial port has received, and keeps the rest in order. *)
Theorem cons_getc_fifo s c q :
  ring_wf s -> s.(serial_exists) = true -> s.(kbd_in) = [] ->
  nwait s + Z.of_nat (length (live s.(serial_in))) <= 511 ->
  waiting s ++ live s.(serial_in) = c :: q ->
  exists s', cons_getc s = Ret c s' /\ ring_wf s' /\ waiting s' = q /\ s'.(serial_in) = [].
Proof.
  intros Hwf Hex Hk Hroom Hq.
  destruct (intr_serial s.(serial_in) s Hwf eq_refl Hroom) as (s1 & Hrun & Hwf1 & Hw & Hs & Hk1).
  rewrite Hk in Hk1. rewrite Hq in Hw.
  assert (0 < nwait s1) as Hn by (rewrite <- waiting_length, Hw; simpl; lia).
  destruct (waiting_cons s1 Hn Hwf1) as (c' & Hc & Hw'). rewrite Hw in Hw'.
  injection Hw' as -> Hq'. destruct Hwf1 as [Hl Hr Hwp].
  exists (set_ring s1.(cbuf) ((s1.(rpos) + 1) mod 512) s1.(wpos) s1). split.
  - unfold cons_getc. mstep (unfold serial_intr; munfold; rewrite Hex; exact Hrun).
    mstep (by apply kbd_idle). mstep reflexivity. cbn [id].
    rewrite (proj2 (Z.eqb_neq _ _)) by (unfold nwait in Hn; intros E; rewrite E, Z.sub_diag in Hn; done).
    rewrite Hc, u32_small by lia. munfold. unfold CONSBUFSIZE.
    destruct (Z.eqb_spec (rpos s1 + 1) 512) as [->|]; [done|]. by rewrite Z.mod_small by lia.
  - split; [|by split]. split; simpl; try done. apply Z.mod_pos_bound. lia.
Qed.

Definition fresh_console (i : list Z) : console :=
  mkConsole true i [] 0 (replicate 512 0) 510 510 [] [] (replicate 2000 0x0720) 1999 0 false.

Lemma cons_getc_fifo_witness :
  exists s', cons_getc (fresh_console [97; 0; 98; 99]) = Ret 97 s' /\ ring_wf s' /\
    waiting s' = [98; 99] /\ s'.(serial_in) = [].
Proof.
  apply cons_getc_fifo; [by split|done|done|vm_compute; done|reflexivity].
Defined.

(** The buffer does not detect overrun: with 511 characters pending, one more
    serial byte makes the buffer look empty, and all 512 characters are lost. *)
Theorem cons_overrun s b :
  ring_wf s -> s.(serial_exists) = true -> s.(serial_in) = [b] -> u8 b <> 0 -> nwait s = 511 ->
  exists s', serial_intr s = Ret tt s' /\ waiting s = at_ring s <$> seqZ 0 511 /\ waiting s' = [].
Proof.
  intros Hwf Hex Hs Hb Hn. set (s1 := set_serial_in [] s).
  assert (ring_wf s1) as Hwf1 by (destruct Hwf; by split).
  exists (pushed (u8 b) s1). split; [|split].
  - unfold serial_intr. munfold. rewrite Hex, Hs. cbn [length cons_intr].
    unfold serial_proc_data, bind. rewrite Hs. pose proof (u8_range b).
    rewrite (proj2 (Z.eqb_neq _ _)), (proj2 (Z.eqb_neq _ _)) by (done || lia).
    fold s1. by rewrite cons_push_run.
  - unfold waiting. by rewrite Hn.
  - by apply pushed_overrun.
Qed.

Definition full_console : console :=
  set_ring (replicate 512 65) 0 511 (fresh_console [66]).

Lemma cons_overrun_witness :
  exists s', serial_intr full_console = Ret tt s' /\
    waiting full_console = at_ring full_console <$> seqZ 0 511 /\ waiting s' = [].
Proof. apply (cons_overrun full_console 66); [by split|done|done|done|done]. Defined.

(** Writing any character keeps the cursor on the 80 by 25 screen, programs the
    6845 with it and never writes outside the display buffer; the serial port gets
    the character, and five spaces after a tab. *)
Theorem cons_putc_on_screen c s :
  crt_wf s ->
  exists s', cons_putc c s = Ret tt s' /\ crt_wf s' /\ s'.(cursor) = s'.(crt_pos) /\
    s'.(serial_out) = (if Z.land (with_attr c) 0xff =? 9 then replicate 5 32 else []) ++
      u8 c :: s.(serial_out).
Proof.
  intros Hwf. unfold cons_putc. mstep reflexivity. mstep reflexivity.
  set (s0 := set_lpt_out _ _). assert (crt_wf s0) as Hwf0 by (destruct Hwf; by split).
  unfold cga_putc. destruct (Z.land (with_attr c) 255 =? 9).
  - destruct (cons_plain_run 32 s0 Hwf0) as (s1 & R1 & W1 & _ & O1 & _).
    destruct (cons_plain_run 32 s1 W1) as (s2 & R2 & W2 & _ & O2 & _).
    destruct (cons_plain_run 32 s2 W2) as (s3 & R3 & W3 & _ & O3 & _).
    destruct (cons_plain_run 32 s3 W3) as (s4 & R4 & W4 & _ & O4 & _).
    destruct (cons_plain_run 32 s4 W4) as (s5 & R5 & W5 & _ & O5 & _).
    destruct W5 as [Hl5 Hp5].
    destruct (crt_scroll_run s5 Hl5 ltac:(lia)) as (s6 & R6 & [] & O6 & _).
    eexists. split; [|split; [|split]].
    + mstep (exact R1). mstep (exact R2). mstep (exact R3). mstep (exact R4). mstep (exact R5).
      mstep (exact R6). reflexivity.
    + by split.
    + done.
    + simpl. rewrite O6, O5, O4, O3, O2, O1. done.
  - destruct (cga_char_run (with_attr c) s0 Hwf0) as (s' & Hrun & ? & ? & Ho & _).
    exists s'. rewrite Ho. done.
Qed.

Lemma cons_putc_on_screen_witness :
  exists s', cons_putc 65 (fresh_console []) = Ret tt s' /\ crt_wf s' /\
    s'.(cursor) = s'.(crt_pos) /\
    s'.(serial_out) = (if Z.land (with_attr 65) 0xff =? 9 then replicate 5 32 else []) ++
      u8 65 :: (fresh_console []).(serial_out).
Proof. apply cons_putc_on_screen. split; [done|]. simpl. lia. Defined.
