(* ===== verification/E1000.v ===== *)
(** The transmit side of the E1000 driver, [kern/e1000.c]: the descriptor ring, and
    the queue it forms together with the card. *)

From S2P Require Import Prelude Mmu.

Definition TXRING_LEN : Z := 64.
Definition DATA_SIZE : Z := 4096.
Definition E1000_TXD_STAT_DD : Z := 1.
Definition E1000_TXD_CMD_EOP : Z := 0x01000000.
Definition E1000_TXD_CMD_RS : Z := 0x08000000.
Definition E1000_TCTL_EN : Z := 0x2.
Definition E1000_TCTL_PSP : Z := 0x8.
Definition E1000_TCTL_CT : Z := 0x100.
Definition E1000_TCTL_COLD : Z := 0x40000.

(** [struct e1000_tx_desc]; the unions are the words [lower.data] and [upper.data]. *)
Record tx_desc := mkDesc { buffer_addr : Z; lower : Z; upper : Z }.

Definition d_length (d : tx_desc) : Z := Z.land d.(lower) 0xffff.
Definition d_status (d : tx_desc) : Z := Z.land d.(upper) 0xff.
Definition set_length (n : Z) (d : tx_desc) : tx_desc :=
  mkDesc d.(buffer_addr) (Z.lor (Z.land d.(lower) 0xffff0000) (u16 n)) d.(upper).
Definition set_status (v : Z) (d : tx_desc) : tx_desc :=
  mkDesc d.(buffer_addr) d.(lower) (Z.lor (Z.land d.(upper) 0xffffff00) (u8 v)).

(** The ring and its buffers, and the card's registers. *)
Record nic := mkNic {
  tx_desc_buf : list tx_desc;
  tx_data_buf : list (list Z);
  TDBAL : Z; TDBAH : Z; TDLEN : Z; TDH : Z; TDT : Z; TCTL : Z; TIPG : Z;
}.

Definition set_ring (d : list tx_desc) (b : list (list Z)) (t : Z) (s : nic) : nic :=
  mkNic d b s.(TDBAL) s.(TDBAH) s.(TDLEN) s.(TDH) t s.(TCTL) s.(TIPG).

(** [init_desc] and [e1000_init]; [desc_pa] and [data_pa] are the physical addresses
    of the two static arrays. *)
Definition init_desc (data_pa : Z) (s : nic) : nic :=
  set_ring ((fun i => set_status E1000_TXD_STAT_DD
               (mkDesc (data_pa + DATA_SIZE * i) 0 0)) <$> seqZ 0 TXRING_LEN)
    s.(tx_data_buf) s.(TDT) s.

Definition e1000_init (desc_pa : Z) (s : nic) : nic :=
  mkNic s.(tx_desc_buf) s.(tx_data_buf) desc_pa 0 (TXRING_LEN * 16) 0 0
    (Z.lor (Z.lor (Z.lor (Z.lor s.(TCTL) E1000_TCTL_EN) E1000_TCTL_PSP) E1000_TCTL_CT)
       E1000_TCTL_COLD)
    (Z.lor (Z.lor (Z.lor s.(TIPG) (Z.shiftl 0xA 0)) (Z.shiftl 0x8 10)) (Z.shiftl 0xC 20)).

(** [memmove(&tx_data_buf[tail], addr, length)] *)
Definition overwrite (data old : list Z) : list Z := data ++ drop (length data) old.

(** [e1000_transmit] of the [length data] bytes at [addr]. *)
Definition e1000_transmit (data : list Z) : M nic Z := fun s =>
  let tail := s.(TDT) in
  if DATA_SIZE <? Z.of_nat (length data) then Panic s
  else
    match s.(tx_desc_buf) !! Z.to_nat tail, s.(tx_data_buf) !! Z.to_nat tail with
    | Some d, Some b =>
        if negb (d_status d =? E1000_TXD_STAT_DD) then Ret (-1) s
        else
          let d := set_length (Z.of_nat (length data)) d in
          let d := set_status 0 d in
          let d := mkDesc d.(buffer_addr)
                     (Z.lor d.(lower) (Z.lor E1000_TXD_CMD_RS E1000_TXD_CMD_EOP)) d.(upper) in
          Ret 0 (set_ring (<[Z.to_nat tail := d]> s.(tx_desc_buf))
                   (<[Z.to_nat tail := overwrite data b]> s.(tx_data_buf))
                   (u32 (tail + 1) mod TXRING_LEN) s)
    | _, _ => Wild s
    end.

(** The card: while head and tail differ it sends the packet of the head
    descriptor, reports it done ([RS]) and advances the head. *)
Definition card_step (s : nic) : option (list Z * nic) :=
  if s.(TDH) =? s.(TDT) then None
  else
    match s.(tx_desc_buf) !! Z.to_nat s.(TDH), s.(tx_data_buf) !! Z.to_nat s.(TDH) with
    | Some d, Some b =>
        Some (take (Z.to_nat (d_length d)) b,
              mkNic (<[Z.to_nat s.(TDH) := set_status E1000_TXD_STAT_DD d]> s.(tx_desc_buf))
                s.(tx_data_buf) s.(TDBAL) s.(TDBAH) s.(TDLEN)
                ((s.(TDH) + 1) mod TXRING_LEN) s.(TDT) s.(TCTL) s.(TIPG))
    | _, _ => None
    end.

(** ** The ring as a queue *)

Lemma d_length_set n d :
  0 <= n < 2 ^ 16 ->
  d_length (mkDesc d.(buffer_addr)
    (Z.lor (set_status 0 (set_length n d)).(lower) (Z.lor E1000_TXD_CMD_RS E1000_TXD_CMD_EOP))
    (set_status 0 (set_length n d)).(upper)) = n.
Proof.
  intros Hn. unfold d_length, set_status, set_length. cbn [lower upper].
  rewrite u16_small by done. rewrite !Z.land_lor_distr_l, <- Z.land_assoc.
  change (Z.land 0xffff0000 0xffff) with 0. change (Z.land (Z.lor _ _) 0xffff) with 0.
  rewrite Z.land_0_r, Z.lor_0_l, Z.lor_0_r. change 0xffff with (Z.ones 16).
  rewrite Z.land_ones by lia. by apply Z.mod_small.
Qed.

Lemma d_status_set v d : 0 <= v < 2 ^ 8 -> d_status (set_status v d) = v.
Proof.
  intros Hv. unfold d_status, set_status. cbn [upper]. rewrite u8_small by done.
  rewrite Z.land_lor_distr_l, <- Z.land_assoc. change (Z.land 0xffffff00 0xff) with 0.
  rewrite Z.land_0_r, Z.lor_0_l. change 0xff with (Z.ones 8). rewrite Z.land_ones by lia.
  by apply Z.mod_small.
Qed.

(** Slot [i] holds the packet [p] and has not been sent. *)
Definition slot_holds (s : nic) (i : Z) (p : list Z) : Prop :=
  exists d b, s.(tx_desc_buf) !! Z.to_nat i = Some d /\ s.(tx_data_buf) !! Z.to_nat i = Some b /\
    d_status d <> E1000_TXD_STAT_DD /\ take (Z.to_nat (d_length d)) b = p.

(** Slot [i] is free. *)
Definition slot_free (s : nic) (i : Z) : Prop :=
  exists d b, s.(tx_desc_buf) !! Z.to_nat i = Some d /\ s.(tx_data_buf) !! Z.to_nat i = Some b /\
    d_status d = E1000_TXD_STAT_DD /\ length b = 4096%nat.

(** The packets [q] are in flight, oldest first, from head to tail. *)
Record nic_queue (s : nic) (q : list (list Z)) : Prop := {
  nq_head : 0 <= s.(TDH) < 64;
  nq_len : (length q < 64)%nat;
  nq_tail : s.(TDT) = (s.(TDH) + Z.of_nat (length q)) mod 64;
  nq_held : forall k p, q !! k = Some p -> slot_holds s ((s.(TDH) + Z.of_nat k) mod 64) p;
  nq_free : forall k, Z.of_nat (length q) <= k < 64 -> slot_free s ((s.(TDH) + k) mod 64);
  nq_size : forall i b, s.(tx_data_buf) !! i = Some b -> length b = 4096%nat;
}.

(** The state after a packet has been accepted. *)
Definition accepted (data : list Z) (s : nic) : nic :=
  match s.(tx_desc_buf) !! Z.to_nat s.(TDT), s.(tx_data_buf) !! Z.to_nat s.(TDT) with
  | Some d, Some b =>
      set_ring
        (<[Z.to_nat s.(TDT) :=
             mkDesc d.(buffer_addr)
               (Z.lor (set_status 0 (set_length (Z.of_nat (length data)) d)).(lower)
                  (Z.lor E1000_TXD_CMD_RS E1000_TXD_CMD_EOP))
               (set_status 0 (set_length (Z.of_nat (length data)) d)).(upper)]> s.(tx_desc_buf))
        (<[Z.to_nat s.(TDT) := overwrite data b]> s.(tx_data_buf))
        ((s.(TDT) + 1) mod 64) s
  | _, _ => s
  end.

Lemma transmit_run data s q :
  nic_queue s q -> (length data <= 4096)%nat ->
  e1000_transmit data s = Ret 0 (accepted data s).
Proof.
  intros Hq Hd. destruct (nq_free _ _ Hq (Z.of_nat (length q))) as (d & b & Hdd & Hbb & Hst & _);
    [pose proof (nq_len _ _ Hq); lia|].
  rewrite <- (nq_tail _ _ Hq) in Hdd, Hbb.
  unfold e1000_transmit, accepted. rewrite Hdd, Hbb. unfold DATA_SIZE.
  rewrite (proj2 (Z.ltb_ge _ _)) by lia. rewrite Hst. cbn [negb Z.eqb E1000_TXD_STAT_DD Pos.eqb].
  rewrite u32_small; [done|]. rewrite (nq_tail _ _ Hq).
  pose proof (Z.mod_pos_bound (TDH s + Z.of_nat (length q)) 64). lia.
Qed.

(** Where slot [k] from the head lies relative to the tail. *)
Lemma slot_ne h n k :
  0 <= h < 64 -> 0 <= k < 64 -> 0 <= n < 64 -> k <> n ->
  Z.to_nat ((h + n) mod 64) <> Z.to_nat ((h + k) mod 64).
Proof. intros. zdm. Qed.

Lemma accepted_slot data s d b :
  s.(tx_desc_buf) !! Z.to_nat s.(TDT) = Some d -> s.(tx_data_buf) !! Z.to_nat s.(TDT) = Some b ->
  length b = 4096%nat -> (length data <= 4096)%nat ->
  slot_holds (accepted data s) s.(TDT) data.
Proof.
  intros Hd Hb Hlb Hl. unfold accepted, slot_holds. rewrite Hd, Hb. cbn [tx_desc_buf tx_data_buf set_ring].
  eexists _, _. split; [apply list_lookup_insert_eq; by apply lookup_lt_Some in Hd|].
  split; [apply list_lookup_insert_eq; by apply lookup_lt_Some in Hb|]. split.
  - unfold d_status. cbn [upper]. rewrite <- (d_status_set 0 (set_length (Z.of_nat (length data)) d)) by lia.
    rewrite d_status_set by lia. change (d_status (set_status 0 (set_length (Z.of_nat (length data)) d)) <> 1).
    by rewrite d_status_set by lia.
  - rewrite d_length_set by lia. rewrite Nat2Z.id. unfold overwrite. by rewrite take_app_length.
Qed.

Lemma accepted_other data s i :
  Z.to_nat s.(TDT) <> Z.to_nat i ->
  (forall p, slot_holds s i p -> slot_holds (accepted data s) i p) /\
  (slot_free s i -> slot_free (accepted data s) i).
Proof.
  intros Hne. unfold slot_holds, slot_free, accepted.
  destruct (tx_desc_buf s !! Z.to_nat s.(TDT)); [|tauto].
  destruct (tx_data_buf s !! Z.to_nat s.(TDT)); [|tauto].
  cbn [tx_desc_buf tx_data_buf set_ring]. rewrite !list_lookup_insert_ne by done. tauto.
Qed.

(** A packet accepted with at most 62 in flight joins the queue at its end. *)
Lemma accepted_queue data s q :
  nic_queue s q -> (length q < 63)%nat -> (length data <= 4096)%nat ->
  nic_queue (accepted data s) (q ++ [data]).
Proof.
  intros Hq Hlen Hdata. pose proof (nq_head _ _ Hq) as Hh. pose proof (nq_tail _ _ Hq) as Ht.
  destruct (nq_free _ _ Hq (Z.of_nat (length q)) ltac:(lia)) as (d & b & Hd & Hb & _ & Hlb).
  rewrite <- Ht in Hd, Hb.
  assert (TDH (accepted data s) = TDH s /\ TDT (accepted data s) = (TDT s + 1) mod 64) as [Hh' Ht'].
  { unfold accepted. by rewrite Hd, Hb. }
  assert (forall k, 0 <= k < 64 -> k <> Z.of_nat (length q) ->
    Z.to_nat s.(TDT) <> Z.to_nat ((TDH s + k) mod 64)) as Hne.
  { intros k Hk Hkq. rewrite Ht. by apply slot_ne; try lia. }
  split; rewrite ?Hh', ?Ht', ?length_app; try done; simpl.
  - lia.
  - rewrite Ht. zdm.
  - intros k p Hp. destruct (decide (k = length q)) as [->|Hk].
    + rewrite lookup_app_r, Nat.sub_diag in Hp by lia. injection Hp as <-.
      rewrite <- Ht. by apply (accepted_slot data s d b).
    + pose proof (lookup_lt_Some _ _ _ Hp) as Hlt. rewrite length_app in Hlt. simpl in Hlt.
      rewrite lookup_app_l in Hp by lia. apply accepted_other; [apply Hne; lia|].
      by apply (nq_held _ _ Hq).
  - intros k Hk. apply accepted_other; [apply Hne; lia|]. apply (nq_free _ _ Hq). lia.
  - intros i b'. unfold accepted. rewrite Hd, Hb. cbn [tx_data_buf set_ring]. intros Hi.
    apply list_lookup_insert_Some in Hi as [(<- & <- & _)|[_ Hi]]; [|by apply (nq_size _ _ Hq) in Hi].
    unfold overwrite. rewrite length_app, length_drop. lia.
Qed.

(** The card sends the oldest packet; with none it does nothing. *)
Lemma card_step_nil s : nic_queue s [] -> card_step s = None.
Proof.
  intros Hq. unfold card_step. rewrite (nq_tail _ _ Hq). simpl. rewrite Z.add_0_r.
  rewrite Z.mod_small by apply (nq_head _ _ Hq). by rewrite Z.eqb_refl.
Qed.

Lemma card_step_cons s p q :
  nic_queue s (p :: q) -> exists s', card_step s = Some (p, s') /\ nic_queue s' q.
Proof.
  intros Hq. pose proof (nq_head _ _ Hq) as Hh. pose proof (nq_tail _ _ Hq) as Ht.
  pose proof (nq_len _ _ Hq) as Hlen. simpl in Hlen, Ht.
  destruct (nq_held _ _ Hq 0 p eq_refl) as (d & b & Hd & Hb & _ & Hp).
  rewrite Z.add_0_r, Z.mod_small in Hd, Hb by done.
  unfold card_step. rewrite (proj2 (Z.eqb_neq _ _)) by zdm. rewrite Hd, Hb, Hp.
  eexists. split; [done|].
  assert (forall k, 0 <= k < 63 -> Z.to_nat (TDH s) <> Z.to_nat (((TDH s + 1) mod 64 + k) mod 64)) as Hne
    by (intros k Hk; zdm).
  assert (forall k, ((TDH s + 1) mod 64 + k) mod 64 = (TDH s + (k + 1)) mod 64) as Heq
    by (intros k; rewrite Zplus_mod_idemp_l; f_equal; lia).
  split; cbn [TDH TDT tx_desc_buf tx_data_buf]; unfold TXRING_LEN.
  - apply Z.mod_pos_bound. lia.
  - lia.
  - rewrite Ht, Zplus_mod_idemp_l. f_equal. lia.
  - intros k p' Hk. pose proof (lookup_lt_Some _ _ _ Hk).
    destruct (nq_held _ _ Hq (S k) p' Hk) as (d' & b' & Hd' & Hb' & Hs & Hp').
    replace (TDH s + Z.of_nat (S k)) with (TDH s + (Z.of_nat k + 1)) in Hd', Hb' by lia.
    exists d', b'. cbn [tx_desc_buf tx_data_buf].
    rewrite list_lookup_insert_ne, Heq by (apply Hne; lia). done.
  - intros k Hk. unfold slot_free. cbn [tx_desc_buf tx_data_buf]. rewrite Heq.
    destruct (decide (k = 63)) as [->|].
    + replace ((TDH s + (63 + 1)) mod 64) with (TDH s) by zdm.
      exists (set_status 1 d), b. split; [apply list_lookup_insert_eq; by apply lookup_lt_Some in Hd|].
      split; [done|]. split; [by apply d_status_set|]. by apply (nq_size _ _ Hq) in Hb.
    + rewrite list_lookup_insert_ne by (rewrite <- Heq; apply Hne; lia).
      apply (nq_free _ _ Hq (k + 1)). simpl. lia.
  - apply (nq_size _ _ Hq).
Qed.

(** ** Correctness of the ring *)

(** What happens on the machine: the kernel transmits, or the card makes a step. *)
Inductive event := Send (data : list Z) | Card.

(** The run of a schedule, with the packets accepted and the packets on the wire. *)
Fixpoint exec (es : list event) (s : nic) (acc wire : list (list Z))
  : option (nic * list (list Z) * list (list Z)) :=
  match es with
  | [] => Some (s, acc, wire)
  | Send data :: es =>
      match e1000_transmit data s with
      | Ret 0 s' => exec es s' (acc ++ [data]) wire
      | Ret _ s' => exec es s' acc wire
      | _ => None
      end
  | Card :: es =>
      match card_step s with
      | Some (p, s') => exec es s' acc (wire ++ [p])
      | None => exec es s acc wire
      end
  end.

(** Schedules of packets that fit a buffer, with at most 62 packets in flight at each
    send; [n] is the number in flight at the start. *)
Fixpoint paced (n : nat) (es : list event) : Prop :=
  match es with
  | [] => True
  | Send data :: es => (n < 63)%nat /\ (length data <= 4096)%nat /\ paced (S n) es
  | Card :: es => paced (pred n) es
  end.

(** Packets leave in the order in which they were accepted and none is lost: on
    every schedule that keeps at most 63 packets in flight, the accepted packets are
    those on the wire followed by those still in the ring. *)
Theorem e1000_fifo es s q acc wire :
  nic_queue s q -> acc = wire ++ q -> paced (length q) es ->
  exists s' q' acc' wire', exec es s acc wire = Some (s', acc', wire') /\
    nic_queue s' q' /\ acc' = wire' ++ q' /\
    acc' = acc ++ omap (fun e => match e with Send d => Some d | Card => None end) es.
Proof.
  revert s q acc wire. induction es as [|[data|] es IH]; intros s q acc wire Hq Hacc Hp.
  - exists s, q, acc, wire. simpl. by rewrite app_nil_r.
  - destruct Hp as (Hlen & Hdata & Hp). cbn [exec]. rewrite (transmit_run data s q) by done.
    destruct (IH (accepted data s) (q ++ [data]) (acc ++ [data]) wire) as (s' & q' & a' & w' & H & ? & ? & Ha).
    + by apply accepted_queue.
    + by rewrite Hacc, app_assoc.
    + rewrite length_app. simpl. by rewrite Nat.add_1_r.
    + exists s', q', a', w'. do 3 (split; [done|]). rewrite Ha, <- app_assoc. done.
  - cbn [exec]. destruct q as [|p q].
    + rewrite card_step_nil by done. apply (IH s [] acc wire); done.
    + destruct (card_step_cons s p q Hq) as (s1 & -> & Hq1).
      apply (IH s1 q acc (wire ++ [p])); try done. by rewrite Hacc, <- app_assoc.
Qed.

(** The state of the driver after [e1000_attach], for arrays at [0x200000]. *)
Definition attached : nic :=
  e1000_init 0x200000 (init_desc 0x201000 (mkNic [] (replicate 64 (replicate 4096 0)) 0 0 0 0 0 0 0)).

Lemma attached_desc :
  tx_desc_buf attached =
  (fun i => set_status E1000_TXD_STAT_DD (mkDesc (0x201000 + DATA_SIZE * i) 0 0)) <$> seqZ 0 64.
Proof. reflexivity. Qed.

Lemma attached_data : tx_data_buf attached = replicate 64 (replicate 4096 0).
Proof. reflexivity. Qed.

Lemma attached_queue : nic_queue attached [].
Proof.
  split.
  - simpl. lia.
  - simpl. lia.
  - done.
  - done.
  - intros k Hk. simpl in Hk. unfold slot_free. rewrite attached_desc, attached_data.
    change (TDH attached) with 0. rewrite Z.add_0_l, Z.mod_small by lia.
    exists (set_status E1000_TXD_STAT_DD (mkDesc (0x201000 + DATA_SIZE * k) 0 0)), (replicate 4096 0).
    split; [|split; [|split]].
    + rewrite list_lookup_fmap, lookup_seqZ_lt by lia. cbn [fmap option_fmap option_map].
      by rewrite Z.add_0_l, Z2Nat.id by lia.
    + apply lookup_replicate_2. lia.
    + by apply d_status_set.
    + by rewrite length_replicate.
  - intros i b. rewrite attached_data. intros H. apply lookup_replicate in H as [-> _].
    by rewrite length_replicate.
Qed.

Lemma e1000_fifo_witness :
  exists s' q' acc' wire', exec [Send [1; 2]; Send [3]; Card] attached [] [] = Some (s', acc', wire') /\
    nic_queue s' q' /\ acc' = wire' ++ q' /\ acc' = [] ++ [[1; 2]; [3]].
Proof.
  apply (e1000_fifo [Send [1; 2]; Send [3]; Card] attached [] [] []);
    [apply attached_queue|done|simpl; lia].
Defined.

(** The driver lets the ring fill up completely: the 64th packet in flight is
    accepted and moves the tail onto the head, after which the card sees an empty
    ring and sends nothing, and every further transmission is refused. *)
Theorem e1000_full_ring_stalls s q data data' :
  nic_queue s q -> length q = 63%nat -> (length data <= 4096)%nat -> (length data' <= 4096)%nat ->
  exists s', e1000_transmit data s = Ret 0 s' /\ card_step s' = None /\
    e1000_transmit data' s' = Ret (-1) s'.
Proof.
  intros Hq Hlen Hd Hd'. exists (accepted data s). split; [by apply (transmit_run _ _ q)|].
  pose proof (nq_head _ _ Hq) as Hh. pose proof (nq_tail _ _ Hq) as Ht. rewrite Hlen in Ht.
  destruct (nq_free _ _ Hq 63 ltac:(lia)) as (d & b & Hdd & Hbb & _). change (Z.of_nat 63) with 63 in Ht.
  rewrite <- Ht in Hdd, Hbb.
  assert (TDH (accepted data s) = TDH s /\ TDT (accepted data s) = TDH s) as [Hh' Ht'].
  { unfold accepted. rewrite Hdd, Hbb. cbn [TDH TDT set_ring]. split; [done|]. rewrite Ht. zdm. }
  split; [unfold card_step; by rewrite Hh', Ht', Z.eqb_refl|].
  destruct (lookup_lt_is_Some_2 q 0 ltac:(lia)) as [p Hp].
  pose proof (nq_held _ _ Hq 0 p Hp) as Hs. simpl in Hs. rewrite Z.add_0_r, Z.mod_small in Hs by done.
  apply (accepted_other data) in Hs; [|rewrite Ht; zdm].
  destruct Hs as (d' & b' & Hd1 & Hb1 & Hst & _).
  unfold e1000_transmit. rewrite Ht', Hd1, Hb1. unfold DATA_SIZE.
  rewrite (proj2 (Z.ltb_ge _ _)) by lia. by rewrite (proj2 (Z.eqb_neq _ _)).
Qed.

(** A ring with [n] one-byte packets in flight. *)
Fixpoint filled (n : nat) : nic :=
  match n with O => attached | S n => accepted [0] (filled n) end.

Lemma filled_queue n : (n <= 63)%nat -> nic_queue (filled n) (replicate n [0]).
Proof.
  induction n as [|n IH]; intros Hn; [apply attached_queue|].
  rewrite replicate_S_end. apply accepted_queue; [apply IH; lia| |simpl; lia].
  rewrite length_replicate. lia.
Qed.

Lemma e1000_full_ring_stalls_witness :
  exists s', e1000_transmit [7] (filled 63) = Ret 0 s' /\ card_step s' = None /\
    e1000_transmit [8] s' = Ret (-1) s'.
Proof.
  apply (e1000_full_ring_stalls _ (replicate 63 [0])); [apply filled_queue; lia|done|simpl; lia|simpl; lia].
Defined.
