(* ===== verification/Spinlock.v ===== *)
(** [kern/spinlock.c]: [spin_lock] and [spin_unlock] as run by several CPUs, one
    memory access at a time. *)

From S2P Require Import Prelude.

(** Where a CPU is in the code.  [Out] and [Held] are outside the two functions,
    without and with the lock. *)
Inductive pc :=
  | Out
  | LockCheck         (* spin_lock: [if (holding(lk)) panic] *)
  | LockXchg          (* [while (xchg(&lk->locked, 1) != 0) pause] *)
  | LockOwner         (* [lk->cpu = thiscpu] *)
  | Held
  | UnlockCheck       (* spin_unlock: [if (!holding(lk)) panic] *)
  | UnlockOwner       (* [lk->pcs[0] = 0; lk->cpu = 0] *)
  | UnlockXchg        (* [xchg(&lk->locked, 0)] *)
  | Panicked.

#[global] Instance pc_eq_dec : EqDecision pc.
Proof. solve_decision. Defined.

(** [struct spinlock], and the position of every CPU. *)
Record spin := mkSpin { locked : Z; lk_cpu : option Z; at_pc : Z -> pc }.

Definition holding (c : Z) (s : spin) : bool :=
  nonzero s.(locked) && bool_decide (s.(lk_cpu) = Some c).

Definition goto (c : Z) (p : pc) (l : Z) (o : option Z) (s : spin) : spin :=
  mkSpin l o (fun c' => if c' =? c then p else s.(at_pc) c').

(** One access by CPU [c]. *)
Definition access (c : Z) (s : spin) : spin :=
  match s.(at_pc) c with
  | Out => goto c LockCheck s.(locked) s.(lk_cpu) s
  | LockCheck => goto c (if holding c s then Panicked else LockXchg) s.(locked) s.(lk_cpu) s
  | LockXchg => goto c (if nonzero s.(locked) then LockXchg else LockOwner) 1 s.(lk_cpu) s
  | LockOwner => goto c Held s.(locked) (Some c) s
  | Held => goto c UnlockCheck s.(locked) s.(lk_cpu) s
  | UnlockCheck => goto c (if holding c s then UnlockOwner else Panicked) s.(locked) s.(lk_cpu) s
  | UnlockOwner => goto c UnlockXchg s.(locked) None s
  | UnlockXchg => goto c Out 0 s.(lk_cpu) s
  | Panicked => s
  end.

(** [__spin_initlock], with every CPU outside. *)
Definition spin_init : spin := mkSpin 0 None (fun _ => Out).

Inductive reachable : spin -> Prop :=
  | reach_init : reachable spin_init
  | reach_step c s : reachable s -> reachable (access c s).

(** Positions from the successful [xchg] up to the releasing one. *)
Definition inside (p : pc) : bool :=
  match p with LockOwner | Held | UnlockCheck | UnlockOwner | UnlockXchg => true | _ => false end.

(** Positions at which the CPU is recorded as the owner. *)
Definition owning (p : pc) : bool :=
  match p with Held | UnlockCheck | UnlockOwner => true | _ => false end.

Record spin_inv (s : spin) : Prop := {
  si_locked : s.(locked) = 0 \/ s.(locked) = 1;
  si_inside : forall c, inside (s.(at_pc) c) = true -> s.(locked) = 1;
  si_unique : forall c c', inside (s.(at_pc) c) = true -> inside (s.(at_pc) c') = true -> c = c';
  si_owner : forall c, s.(lk_cpu) = Some c <-> owning (s.(at_pc) c) = true;
  si_safe : forall c, s.(at_pc) c <> Panicked;
}.

Lemma owning_inside p : owning p = true -> inside p = true.
Proof. by destruct p. Qed.

Ltac spin_cases :=
  repeat match goal with
    | |- context [?x =? ?y] => destruct (Z.eqb_spec x y); subst
    | H : context [?x =? ?y] |- _ => destruct (Z.eqb_spec x y); subst
    end.

(** A step that keeps [locked] and [lk_cpu] and does not change whether the CPU is
    inside or owning. *)
Lemma goto_quiet c p s :
  spin_inv s -> inside p = inside (s.(at_pc) c) -> owning p = owning (s.(at_pc) c) ->
  p <> Panicked -> spin_inv (goto c p s.(locked) s.(lk_cpu) s).
Proof.
  intros [Hl Hi Hu Ho Hs] E1 E2 Hp. split; simpl; [done|..].
  - intros c'. spin_cases; [rewrite E1|]; apply Hi.
  - intros c1 c2. spin_cases; rewrite ?E1; apply Hu || done.
  - intros c'. spin_cases; [rewrite E2|]; apply Ho.
  - intros c'. by spin_cases.
Qed.

Lemma holding_owner c s : spin_inv s -> holding c s = owning (s.(at_pc) c).
Proof.
  intros [Hl Hi Hu Ho Hs]. unfold holding. destruct (owning (at_pc s c)) eqn:E.
  - rewrite (Hi c) by by apply owning_inside. apply bool_decide_eq_true. by apply Ho.
  - apply andb_false_intro2, bool_decide_eq_false. intros H. apply Ho in H. congruence.
Qed.

Lemma access_inv c s : spin_inv s -> spin_inv (access c s).
Proof.
  intros Hinv. pose proof (holding_owner c s Hinv) as Hh.
  unfold access. destruct (at_pc s c) eqn:E; simpl in Hh; rewrite ?Hh;
    try (apply goto_quiet; rewrite ?E; done); try done.
  - destruct (nonzero s.(locked)) eqn:Hn.
    { replace 1 with (locked s); [by apply goto_quiet; rewrite ?E|].
      destruct Hinv as [[H|H] _ _ _ _]; [by rewrite H in Hn|done]. }
    destruct Hinv as [Hl Hi Hu Ho Hs].
    assert (forall c', inside (at_pc s c') = false) as Hnone.
    { intros c'. destruct (inside (at_pc s c')) eqn:Ei; [|done]. apply Hi in Ei. by rewrite Ei in Hn. }
    split; simpl; [by right|done|..].
    + intros c1 c2. spin_cases; try done; rewrite ?Hnone; done.
    + intros c'. spin_cases; [|apply Ho]. rewrite Ho, E. done.
    + intros c'. by spin_cases.
  - destruct Hinv as [Hl Hi Hu Ho Hs].
    assert (inside (at_pc s c) = true) as Hin by by rewrite E.
    split; simpl; [done|..].
    + intros c'. spin_cases; intros; by apply (Hi c); eauto.
    + intros c1 c2. spin_cases; intros; eauto.
    + intros c'. spin_cases; [done|]. split; [congruence|]. intros Ho'.
      apply owning_inside in Ho'. exfalso. eauto.
    + intros c'. by spin_cases.
  - destruct Hinv as [Hl Hi Hu Ho Hs].
    assert (inside (at_pc s c) = true) as Hin by by rewrite E.
    split; simpl; [done|..].
    + intros c'. spin_cases; intros; by apply (Hi c); eauto.
    + intros c1 c2. spin_cases; intros; eauto.
    + intros c'. spin_cases; [done|]. split; [done|]. intros Ho'.
      apply owning_inside in Ho'. exfalso. eauto.
    + intros c'. by spin_cases.
  - destruct Hinv as [Hl Hi Hu Ho Hs].
    assert (inside (at_pc s c) = true) as Hin by by rewrite E.
    split; simpl; [by left|..].
    + intros c'. spin_cases; [done|]. intros Hc'. exfalso. eauto.
    + intros c1 c2. spin_cases; intros; try done; eauto.
    + intros c'. spin_cases; [|apply Ho]. rewrite Ho, E. done.
    + intros c'. by spin_cases.
Qed.

Lemma reachable_inv s : reachable s -> spin_inv s.
Proof.
  induction 1 as [|c s _ IH]; [|by apply access_inv]. split; simpl; try done. by left.
Qed.

(** C20: mutual exclusion and freedom from false alarms: in every interleaving of CPUs
    that take and release the lock, at most one CPU is between its successful [xchg]
    and its release, the debug owner is exactly a CPU that holds the lock, and neither
    debug check panics. *)
Theorem spinlock_mutex s :
  reachable s ->
  (forall c c', inside (s.(at_pc) c) = true -> inside (s.(at_pc) c') = true -> c = c') /\
  (forall c, s.(lk_cpu) = Some c <-> owning (s.(at_pc) c) = true) /\
  (forall c, s.(at_pc) c <> Panicked).
Proof. intros H. destruct (reachable_inv s H). done. Qed.

Lemma spinlock_mutex_witness :
  let s := access 1 (access 0 (access 0 (access 0 (access 1 (access 0 spin_init))))) in
  (forall c c', inside (s.(at_pc) c) = true -> inside (s.(at_pc) c') = true -> c = c') /\
  (forall c, s.(lk_cpu) = Some c <-> owning (s.(at_pc) c) = true) /\
  (forall c, s.(at_pc) c <> Panicked).
Proof. intros s. apply spinlock_mutex. repeat constructor. Defined.
