(* ===== verification/Kdebug.v ===== *)
(** Debugging information ([kern/kdebug.c]): the search in the stabs table and what
    [debuginfo_eip] makes of it.  How memory is read is a parameter, so that an access
    outside the table shows. *)

From S2P Require Import Prelude Mmu.

Definition N_FUN : Z := 0x24.
Definition N_SLINE : Z := 0x44.
Definition N_SO : Z := 0x64.
Definition N_SOL : Z := 0x84.
Definition N_PSYM : Z := 0xa0.

Definition sizeof_Stab : Z := 12.

(** [struct Eipdebuginfo]; strings are addresses. *)
Record Eipdebuginfo := mkInfo {
  eip_file : Z; eip_line : Z; eip_fn_name : Z; eip_fn_namelen : Z; eip_fn_addr : Z; eip_fn_narg : Z;
}.

(** Where the linker put the kernel's tables, and the literal ["<unknown>"]. *)
Class Linked := {
  STAB_BEGIN : Z; STAB_END : Z; STABSTR_BEGIN : Z; STABSTR_END : Z; lit_unknown : Z;
}.

Section Kdebug.
Context {S : Type} (load8 load16 load32 : Z -> M S Z).

(** Bounds the loops whose length is not known when they start. *)
Context (fuel : nat).

(** [struct Stab] *)
Definition n_strx (stabs i : Z) : M S Z := load32 (stabs + i * sizeof_Stab).
Definition n_type (stabs i : Z) : M S Z := load8 (stabs + i * sizeof_Stab + 4).
Definition n_desc (stabs i : Z) : M S Z := load16 (stabs + i * sizeof_Stab + 6).
Definition n_value (stabs i : Z) : M S Z := load32 (stabs + i * sizeof_Stab + 8).

(** [while (m >= l && stabs[m].n_type != type) m--] *)
Fixpoint seek (n : nat) (stabs l m type : Z) : M S Z :=
  match n with
  | O => out_of_fuel
  | Datatypes.S n =>
      if m <? l then ret m
      else
        let* t := n_type stabs m in
        if t =? type then ret m else seek n stabs l (m - 1) type
  end.

(** The main loop: [l], [r], [addr], [any_matches] and the two regions. *)
Fixpoint search (n : nat) (stabs type l r addr : Z) (any : bool) (rl rr : Z) : M S (bool * Z * Z) :=
  match n with
  | O => out_of_fuel
  | Datatypes.S n =>
      if l <=? r then
        let true_m := Z.quot (s32 (l + r)) 2 in
        let* m := seek fuel stabs l true_m type in
        if m <? l then search n stabs type (true_m + 1) r addr any rl rr
        else
          let* v := n_value stabs m in
          if v <? addr then search n stabs type (true_m + 1) r addr true m rr
          else
            let* v := n_value stabs m in
            if addr <? v then search n stabs type l (m - 1) addr true rl (m - 1)
            else search n stabs type m r (u32 (addr + 1)) true m rr
      else ret (any, rl, rr)
  end.

(** The last loop of the search. *)
Fixpoint rightmost (n : nat) (stabs rl l type : Z) : M S Z :=
  match n with
  | O => out_of_fuel
  | Datatypes.S n =>
      if rl <? l then
        let* t := n_type stabs l in
        if negb (t =? type) then rightmost n stabs rl (l - 1) type else ret l
      else ret l
  end.

(** [*region_left] and [*region_right] afterwards. *)
Definition stab_binsearch (stabs region_left region_right type addr : Z) : M S (Z * Z) :=
  let* ' (any, rl, rr) := search fuel stabs type region_left region_right addr false region_left region_right in
  if negb any then ret (rl, rl - 1)
  else
    let* l := rightmost fuel stabs rl rr type in
    ret (l, rr).

(** ** [debuginfo_eip] *)

Context {Lk : Linked}.

(** [user_mem_check(curenv, va, len, PTE_U | PTE_P)] *)
Context (user_check : Z -> Z -> M S Z).

(** [strfind(s, ':')] *)
Fixpoint find_colon (n : nat) (s : Z) : M S Z :=
  match n with
  | O => out_of_fuel
  | Datatypes.S n =>
      let* c := load8 s in
      if (c =? 0) || (c =? 58) then ret s else find_colon n (s + 1)
  end.

(** The four pointers of the table that is used, [None] where the answer is -1. *)
Definition stab_tables (addr : Z) : M S (option (Z * Z * Z * Z)) :=
  if ULIM <=? addr then ret (Some (STAB_BEGIN, STAB_END, STABSTR_BEGIN, STABSTR_END))
  else
    let usd := USTABDATA in
    let* r := user_check usd 16 in
    if negb (r =? 0) then ret None
    else
      let* stabs := load32 usd in
      let* stab_end := load32 (usd + 4) in
      let* stabstr := load32 (usd + 8) in
      let* stabstr_end := load32 (usd + 12) in
      let* r := user_check stabs (u32 (Z.quot (s32 (stab_end - stabs)) sizeof_Stab)) in
      if negb (r =? 0) then ret None
      else
        let* r := user_check stabstr (u32 (stabstr_end - stabstr)) in
        if negb (r =? 0) then ret None else ret (Some (stabs, stab_end, stabstr, stabstr_end)).

(** Backwards from the line to the stab with the file name. *)
Fixpoint seek_file (n : nat) (stabs lfile lline : Z) : M S Z :=
  match n with
  | O => out_of_fuel
  | Datatypes.S n =>
      if lline <? lfile then ret lline
      else
        let* t := n_type stabs lline in
        if t =? N_SOL then ret lline
        else
          let* t := n_type stabs lline in
          let* stop := if negb (t =? N_SO) then ret false else let* v := n_value stabs lline in ret (nonzero v) in
          if stop then ret lline else seek_file n stabs lfile (lline - 1)
  end.

(** The parameters of the function, from [lline] on. *)
Fixpoint count_args (n : nat) (stabs lline rfun narg : Z) : M S Z :=
  match n with
  | O => out_of_fuel
  | Datatypes.S n =>
      if lline <? rfun then
        let* t := n_type stabs lline in
        if t =? N_PSYM then count_args n stabs (lline + 1) rfun (narg + 1) else ret narg
      else ret narg
  end.

Definition debuginfo_eip (addr : Z) : M S (Z * Eipdebuginfo) :=
  let info0 := mkInfo lit_unknown 0 lit_unknown 9 addr 0 in
  let* tabs := stab_tables addr in
  match tabs with
  | None => ret (-1, info0)
  | Some (stabs, stab_end, stabstr, stabstr_end) =>
      let* bad := if stabstr_end <=? stabstr then ret true
        else let* c := load8 (stabstr_end - 1) in ret (nonzero c) in
      if bad then ret (-1, info0)
      else
        let* ' (lfile, rfile) := stab_binsearch stabs 0 (Z.quot (s32 (stab_end - stabs)) sizeof_Stab - 1) N_SO addr in
        if lfile =? 0 then ret (-1, info0)
        else
          let* ' (lfun, rfun) := stab_binsearch stabs lfile rfile N_FUN addr in
          let* ' (fn_name, fn_addr, addr, lline, rline) :=
            if lfun <=? rfun then
              let* x := n_strx stabs lfun in
              let* name := if x <? u32 (stabstr_end - stabstr)
                then let* x := n_strx stabs lfun in ret (u32 (stabstr + x)) else ret lit_unknown in
              let* v := n_value stabs lfun in
              ret (name, v, u32 (addr - v), lfun, rfun)
            else ret (lit_unknown, addr, addr, lfile, rfile) in
          let* colon := find_colon fuel fn_name in
          let namelen := s32 (colon - fn_name) in
          let* ' (lline, rline) := stab_binsearch stabs lline rline N_SLINE addr in
          let* line := n_desc stabs lline in
          let* lline := seek_file fuel stabs lfile lline in
          let* file :=
            if lfile <=? lline then
              let* x := n_strx stabs lline in
              if x <? u32 (stabstr_end - stabstr) then let* x := n_strx stabs lline in ret (u32 (stabstr + x)) else ret lit_unknown
            else ret lit_unknown in
          let* narg := if lfun <? rfun then count_args fuel stabs (lfun + 1) rfun 0 else ret 0 in
          ret (0, mkInfo file line fn_name namelen fn_addr narg)
  end.
End Kdebug.
