(* ===== verification/Mem.v ===== *)
(** Byte-addressed memory.

    The store every component reads and writes: a finite map from addresses to
    bytes, zero where nothing was written.  16- and 32-bit accesses are
    little-endian, as on the i386. *)

From S2P Require Import Prelude.

Abbreviation mem := (gmap Z Z).

Definition ld8 (m : mem) (a : Z) : Z := u8 (default 0 (m !! a)).
Definition st8 (m : mem) (a v : Z) : mem := <[a := u8 v]> m.

Definition ld16 (m : mem) (a : Z) : Z := ld8 m a + 2 ^ 8 * ld8 m (a + 1).
Definition ld32 (m : mem) (a : Z) : Z := ld16 m a + 2 ^ 16 * ld16 m (a + 2).

Definition st16 (m : mem) (a v : Z) : mem := st8 (st8 m a v) (a + 1) (v / 2 ^ 8).
Definition st32 (m : mem) (a v : Z) : mem := st16 (st16 m a v) (a + 2) (v / 2 ^ 16).

(** Consecutive bytes. *)
Fixpoint ld_bytes (m : mem) (a : Z) (n : nat) : list Z :=
  match n with
  | O => []
  | S n => ld8 m a :: ld_bytes m (a + 1) n
  end.

Fixpoint st_bytes (m : mem) (a : Z) (l : list Z) : mem :=
  match l with
  | [] => m
  | b :: l => st_bytes (st8 m a b) (a + 1) l
  end.

(** ** Laws *)

Lemma ld8_empty a : ld8 ∅ a = 0.
Proof. unfold ld8. by rewrite lookup_empty. Qed.

Lemma ld8_range m a : 0 <= ld8 m a < 2 ^ 8.
Proof. apply u8_range. Qed.

Lemma ld16_range m a : 0 <= ld16 m a < 2 ^ 16.
Proof. unfold ld16. pose proof (ld8_range m a). pose proof (ld8_range m (a + 1)). lia. Qed.

Lemma ld32_range m a : 0 <= ld32 m a < 2 ^ 32.
Proof. unfold ld32. pose proof (ld16_range m a). pose proof (ld16_range m (a + 2)). lia. Qed.

#[export] Hint Resolve ld8_range ld16_range ld32_range : jos.

Lemma ld8_st8 m a v b : ld8 (st8 m a v) b = if a =? b then u8 v else ld8 m b.
Proof.
  unfold ld8, st8. destruct (Z.eqb_spec a b) as [->|].
  - rewrite lookup_insert_eq. simpl. apply u8_idem.
  - by rewrite lookup_insert_ne.
Qed.

Lemma ld8_st16 m a v b :
  ld8 (st16 m a v) b =
  if b =? a then u8 v else if b =? a + 1 then u8 (v / 2 ^ 8) else ld8 m b.
Proof. unfold st16. rewrite !ld8_st8. bcase; try lia; done. Qed.

Lemma st32_bytes m a v :
  st32 m a v = st8 (st8 (st8 (st8 m a v) (a + 1) (v / 2 ^ 8)) (a + 2) (v / 2 ^ 16)) (a + 2 + 1) (v / 2 ^ 16 / 2 ^ 8).
Proof. done. Qed.

Lemma ld8_st32 m a v b :
  ld8 (st32 m a v) b =
  if b =? a then u8 v else if b =? a + 1 then u8 (v / 2 ^ 8)
  else if b =? a + 2 then u8 (v / 2 ^ 16) else if b =? a + 3 then u8 (v / 2 ^ 24)
  else ld8 m b.
Proof.
  unfold st32. rewrite !ld8_st16. bcase; try lia; try done.
  by rewrite Z.div_div by lia.
Qed.

(** A 32-bit store outside [b] leaves the byte at [b] alone. *)
Lemma ld8_st32_ne m a v b : b < a \/ a + 4 <= b -> ld8 (st32 m a v) b = ld8 m b.
Proof. intros H. rewrite ld8_st32. bcase; lia. Qed.

Lemma ld32_ext m m' a b :
  (forall i, 0 <= i < 4 -> ld8 m (a + i) = ld8 m' (b + i)) -> ld32 m a = ld32 m' b.
Proof.
  intros H. unfold ld32, ld16. pose proof (H 0). pose proof (H 1). pose proof (H 2).
  pose proof (H 3). rewrite !Z.add_0_r in *.
  replace (a + 2 + 1) with (a + 3) by lia. replace (b + 2 + 1) with (b + 3) by lia.
  by rewrite H0, H1, H2, H3 by lia.
Qed.

Lemma ld32_zero m a : (forall i, 0 <= i < 4 -> ld8 m (a + i) = 0) -> ld32 m a = 0.
Proof.
  intros H. rewrite (ld32_ext m ∅ a 0); [reflexivity|]. intros i Hi. by rewrite H.
Qed.

Lemma ld16_st16_eq m a v : ld16 (st16 m a v) a = u16 v.
Proof.
  unfold ld16. rewrite !ld8_st16, Z.eqb_refl. destruct (Z.eqb_spec (a + 1) a); [lia|]. rewrite Z.eqb_refl.
  unfold u8, u16. zdm.
Qed.

Lemma ld32_st32_eq m a v : ld32 (st32 m a v) a = u32 v.
Proof.
  unfold ld32, ld16. rewrite !ld8_st32.
  rewrite Z.eqb_refl. replace (a + 2 + 1) with (a + 3) by lia.
  repeat match goal with |- context [?x =? ?y] => 
    first [rewrite (proj2 (Z.eqb_eq x y)) by lia | rewrite (proj2 (Z.eqb_neq x y)) by lia] end.
  unfold u8, u32. zdm.
Qed.

(** Disjoint words do not interfere. *)
Lemma ld32_st32_ne m a v b : b + 4 <= a \/ a + 4 <= b -> ld32 (st32 m a v) b = ld32 m b.
Proof. intros H. apply ld32_ext. intros i Hi. apply ld8_st32_ne. lia. Qed.

(** Aligned words are equal or disjoint. *)
Lemma ld32_st32_aligned m a v b :
  a mod 4 = 0 -> b mod 4 = 0 ->
  ld32 (st32 m a v) b = if a =? b then u32 v else ld32 m b.
Proof.
  intros Ha Hb. destruct (Z.eqb_spec a b) as [->|]; [apply ld32_st32_eq|].
  apply ld32_st32_ne. zdm.
Qed.

Lemma ld8_st_bytes m a l b :
  ld8 (st_bytes m a l) b =
  if (a <=? b) && (b <? a + Z.of_nat (length l)) then u8 (default 0 (l !! Z.to_nat (b - a)))
  else ld8 m b.
Proof.
  revert m a. induction l as [|x l IH]; intros m a; simpl.
  - rewrite Z.add_0_r. destruct (Z.leb_spec a b), (Z.ltb_spec b a); simpl; done || lia.
  - rewrite IH, ld8_st8.
    destruct (Z.leb_spec (a + 1) b), (Z.leb_spec a b), (Z.ltb_spec b (a + 1 + Z.of_nat (length l))),
      (Z.ltb_spec b (a + Z.of_nat (S (length l)))), (Z.eqb_spec a b); simpl; try lia; try done.
    + replace (Z.to_nat (b - a)) with (S (Z.to_nat (b - (a + 1)))) by lia. done.
    + subst. by rewrite Z.sub_diag.
Qed.

Lemma length_ld_bytes m a n : length (ld_bytes m a n) = n.
Proof. revert a. induction n; intros; simpl; by rewrite ?IHn. Qed.

Lemma ld_bytes_lookup m a n i :
  (i < n)%nat -> ld_bytes m a n !! i = Some (ld8 m (a + Z.of_nat i)).
Proof.
  revert a i. induction n as [|n IH]; intros a i Hi; [lia|].
  destruct i as [|i]; simpl; [by rewrite Z.add_0_r|].
  rewrite IH by lia. do 2 f_equal. lia.
Qed.

Lemma ld_bytes_ext m m' a b n :
  (forall i, 0 <= i < Z.of_nat n -> ld8 m (a + i) = ld8 m' (b + i)) ->
  ld_bytes m a n = ld_bytes m' b n.
Proof.
  revert a b. induction n as [|n IH]; intros a b H; [done|]. simpl. f_equal.
  - specialize (H 0). rewrite !Z.add_0_r in H. apply H. lia.
  - apply IH. intros i Hi. replace (a + 1 + i) with (a + (1 + i)) by lia.
    replace (b + 1 + i) with (b + (1 + i)) by lia. apply H. lia.
Qed.

(** Conversion should not look inside memory accesses. *)
#[global] Opaque ld8 st8 ld16 st16 ld32 st32.

Lemma ld_bytes_app m a n k : ld_bytes m a (n + k) = ld_bytes m a n ++ ld_bytes m (a + Z.of_nat n) k.
Proof.
  revert a. induction n as [|n IH]; intros a; simpl; [by rewrite Z.add_0_r|].
  rewrite IH. do 3 f_equal. lia.
Qed.

Lemma st_bytes_app m a l l' : st_bytes m a (l ++ l') = st_bytes (st_bytes m a l) (a + Z.of_nat (length l)) l'.
Proof.
  revert m a. induction l as [|x l IH]; intros m a; simpl; [by rewrite Z.add_0_r|].
  rewrite IH. f_equal. lia.
Qed.

(** Words away from the bytes written. *)
Lemma ld32_st_bytes_ne m a l b :
  b + 4 <= a \/ a + Z.of_nat (length l) <= b -> ld32 (st_bytes m a l) b = ld32 m b.
Proof.
  intros H. apply ld32_ext. intros i Hi. rewrite ld8_st_bytes.
  destruct (Z.leb_spec a (b + i)), (Z.ltb_spec (b + i) (a + Z.of_nat (length l))); simpl; done || lia.
Qed.

(** Bytes read back from where they were written. *)
Lemma ld_bytes_st_bytes m a l :
  (forall b, b ∈ l -> 0 <= b < 2 ^ 8) -> ld_bytes (st_bytes m a l) a (length l) = l.
Proof.
  intros Hb. apply list_eq. intros i. destruct (decide (i < length l)%nat) as [Hi|Hi].
  - rewrite ld_bytes_lookup, ld8_st_bytes by done.
    rewrite (proj2 (Z.leb_le _ _)), (proj2 (Z.ltb_lt _ _)) by lia. simpl.
    replace (Z.to_nat (a + Z.of_nat i - a)) with i by lia.
    destruct (lookup_lt_is_Some_2 l i Hi) as [x Hx]. rewrite Hx. simpl. f_equal.
    apply u8_small, Hb. by eapply list_elem_of_lookup_2.
  - rewrite (lookup_ge_None_2 l) by lia. apply lookup_ge_None_2. rewrite length_ld_bytes. lia.
Qed.

(** ** Block copies *)

(** Bytes [d .. d + n) replaced by those of [m'] at [s]. *)
Definition copied (m m' : mem) (d s n : Z) (r : mem) : Prop :=
  forall b, ld8 r b = if (d <=? b) && (b <? d + n) then ld8 m' (s + (b - d)) else ld8 m b.

(** Decide the byte ranges of a goal. *)
Ltac ranges :=
  repeat match goal with
  | |- context [?a <=? ?b] => destruct (Z.leb_spec a b)
  | |- context [?a <? ?b] => destruct (Z.ltb_spec a b)
  | |- context [?a =? ?b] => destruct (Z.eqb_spec a b)
  end; cbn [andb orb negb]; try lia.

Lemma ld8_word m s k :
  0 <= k < 4 -> u8 (ld32 m s / 2 ^ (8 * k)) = ld8 m (s + k).
Proof.
  intros Hk. assert (ld32 m s = ld8 m s + 2 ^ 8 * ld8 m (s + 1) + 2 ^ 16 * ld8 m (s + 2) + 2 ^ 24 * ld8 m (s + 3)) as ->.
  { change (ld32 m s) with (ld16 m s + 2 ^ 16 * ld16 m (s + 2)).
    change (ld16 m s) with (ld8 m s + 2 ^ 8 * ld8 m (s + 1)).
    change (ld16 m (s + 2)) with (ld8 m (s + 2) + 2 ^ 8 * ld8 m (s + 2 + 1)).
    replace (s + 2 + 1) with (s + 3) by lia. lia. }
  pose proof (ld8_range m s). pose proof (ld8_range m (s + 1)). pose proof (ld8_range m (s + 2)).
  pose proof (ld8_range m (s + 3)). unfold u8.
  assert (k = 0 \/ k = 1 \/ k = 2 \/ k = 3) as [->|[->|[->| ->]]] by lia; rewrite ?Z.add_0_r.
  - change (2 ^ (8 * 0)) with 1. zdm.
  - change (2 ^ (8 * 1)) with 256. zdm.
  - change (2 ^ (8 * 2)) with 65536. zdm.
  - change (2 ^ (8 * 3)) with 16777216. zdm.
Qed.

Lemma copied_word m m' d s : copied m m' d s 4 (st32 m d (ld32 m' s)).
Proof.
  intros b. rewrite ld8_st32. pose proof (fun k => ld8_word m' s k) as H.
  destruct (Z.eqb_spec b d) as [->|]; [rewrite <- (Z.div_1_r (ld32 m' s)); change 1 with (2 ^ (8 * 0)); rewrite H by lia; ranges; f_equal; lia|].
  destruct (Z.eqb_spec b (d + 1)) as [->|]; [change (2 ^ 8) with (2 ^ (8 * 1)); rewrite H by lia; ranges; f_equal; lia|].
  destruct (Z.eqb_spec b (d + 2)) as [->|]; [change (2 ^ 16) with (2 ^ (8 * 2)); rewrite H by lia; ranges; f_equal; lia|].
  destruct (Z.eqb_spec b (d + 3)) as [->|]; [change (2 ^ 24) with (2 ^ (8 * 3)); rewrite H by lia; ranges; f_equal; lia|].
  ranges; done.
Qed.

Lemma copied_byte m m' d s : copied m m' d s 1 (st8 m d (ld8 m' s)).
Proof.
  intros b. rewrite ld8_st8. pose proof (ld8_range m' s). rewrite u8_small by done.
  ranges; try done. subst. f_equal. lia.
Qed.
