(* ===== verification/KdebugSpec.v ===== *)
(** What [stab_binsearch] finds. *)

From S2P Require Import Prelude Mmu Kdebug Mem.

Section Search.
Context {S : Type} (load8 load32 : Z -> M S Z) (fuel : nat).
Context (s : S) (stabs type L R : Z) (ty v : Z -> Z).

(** The entries of the range can be read; nothing is said of the others. *)
Hypothesis Hty : forall i, L <= i <= R -> n_type load8 stabs i s = Ret (ty i) s.
Hypothesis Hv : forall i, L <= i <= R -> n_value load32 stabs i s = Ret (v i) s.

(** [m] is the last entry of the type in [l .. t], or one less than [l]. *)
Definition last_match (l t m : Z) : Prop :=
  l - 1 <= m <= t /\ (l <= m -> ty m = type) /\ forall i, m < i <= t -> l <= i -> ty i <> type.

Lemma seek_ok n l t :
  L <= l -> t <= R -> l - 1 <= t -> (Z.to_nat (t - l + 1) < n)%nat ->
  exists m, seek load8 n stabs l t type s = Ret m s /\ last_match l t m.
Proof.
  intros Hl. revert t. induction n as [|n IH]; intros t Ht Hlt Hn; [lia|]. cbn [seek].
  destruct (Z.ltb_spec t l) as [Hlt'|Hge].
  - exists t. split; [done|]. split; [lia|]. split; [lia|]. intros i Hi. lia.
  - erewrite bind_ret by (apply Hty; lia). destruct (Z.eqb_spec (ty t) type) as [E|E].
    + exists t. split; [done|]. split; [lia|]. split; [done|]. intros i Hi. lia.
    + destruct (IH (t - 1)) as (m & Em & M1 & M2 & M3); [lia..|]. exists m. split; [exact Em|]. split; [lia|]. split; [done|].
      intros i Hi Hli. destruct (Z.eq_dec i t) as [->|]; [done|]. apply M3; lia.
Qed.

Lemma rightmost_ok n rl t :
  L <= rl + 1 -> t <= R -> (Z.to_nat (t - rl + 1) < n)%nat ->
  exists m, rightmost load8 n stabs rl t type s = Ret m s /\ m <= t /\ (rl <= t -> rl <= m) /\ (t <= rl -> m = t) /\
    (rl < m -> ty m = type) /\ forall i, m < i <= t -> ty i <> type.
Proof.
  intros Hl. revert t. induction n as [|n IH]; intros t Ht Hn; [lia|]. cbn [rightmost].
  destruct (Z.ltb_spec rl t) as [Hlt|Hge].
  - erewrite bind_ret by (apply Hty; lia). destruct (Z.eqb_spec (ty t) type) as [E|E]; cbn [negb].
    + exists t. split; [done|]. split; [lia|]. split; [lia|]. split; [lia|]. split; [done|]. intros i Hi. lia.
    + destruct (IH (t - 1)) as (m & Em & M1 & M2 & M3 & M4 & M5); [lia..|]. exists m. split; [exact Em|]. split; [lia|].
      split; [lia|]. split; [lia|]. split; [done|]. intros i Hi. destruct (Z.eq_dec i t) as [->|]; [done|]. apply M5. lia.
  - exists t. split; [done|]. split; [lia|]. split; [lia|]. split; [lia|]. split; [lia|]. intros i Hi. lia.
Qed.

(** ** Termination *)

Hypothesis HL : 0 <= L.
Hypothesis HR : R < 2 ^ 30.
Hypothesis Hfuel : (Z.to_nat (2 * (R - L + 1) + 2) < fuel)%nat.

(** Two for each entry left, and one while the first of them is an exact match. *)
Definition measure (l r addr : Z) : Z := 2 * (r - l + 1) + (if v l =? addr then 1 else 0).

Lemma middle l r : L <= l -> l <= r <= R -> Z.quot (s32 (l + r)) 2 = (l + r) / 2 /\ l <= (l + r) / 2 <= r.
Proof. intros Hl Hr. rewrite s32_small, Z.quot_div_nonneg by lia. zdm. Qed.

Lemma search_ends n l r addr any rl rr :
  L <= l -> r <= R -> 0 <= addr < 2 ^ 32 -> L <= rl -> rr <= R -> l <= r + 1 -> (Z.to_nat (measure l r addr) < n)%nat ->
  exists any' rl' rr', search load8 load32 fuel n stabs type l r addr any rl rr s = Ret (any', rl', rr') s /\ L <= rl' /\ rr' <= R.
Proof.
  revert l r addr any rl rr. induction n as [|n IH]; intros l r addr any rl rr Hl Hr Ha Hrl Hrr Hlr Hn; [lia|]. cbn [search].
  destruct (Z.leb_spec l r) as [Hle|Hgt]; [|by exists any, rl, rr]. unfold measure in Hn.
  destruct (middle l r Hl ltac:(lia)) as [-> Hm]. set (t := (l + r) / 2) in *.
  destruct (seek_ok fuel l t Hl ltac:(lia) ltac:(lia) ltac:(lia)) as (m & Em & M1 & M2 & _). erewrite bind_ret by exact Em.
  destruct (Z.ltb_spec m l) as [Hml|Hml]; [apply IH; try done; try lia; unfold measure; revert Hn; bcase; lia|].
  erewrite bind_ret by (apply Hv; lia).
  destruct (Z.ltb_spec (v m) addr); [apply IH; try done; try lia; unfold measure; revert Hn; bcase; lia|].
  erewrite bind_ret by (apply Hv; lia).
  destruct (Z.ltb_spec addr (v m)); [apply IH; try done; try lia; unfold measure; revert Hn; bcase; lia|].
  apply IH; try done; try lia; [apply u32_range|]. unfold measure.
  assert (v m = addr) as Ev by lia. assert (u32 (addr + 1) <> addr) as Hne.
  { unfold u32. zdm. }
  rewrite (proj2 (Z.eqb_neq (v m) _)) by congruence.
  destruct (Z.eq_dec m l) as [->|]; [rewrite Ev, Z.eqb_refl in Hn; lia|]. revert Hn. bcase; lia.
Qed.

(** ** Correctness *)

Context (addr0 : Z).
Hypothesis Ha0 : 0 <= addr0 < 2 ^ 32 - 1.
Hypothesis Hsorted : forall i j, L <= i < j -> j <= R -> ty i = type -> ty j = type -> v i <= v j.
Hypothesis Hgap : forall i, L <= i <= R -> ty i = type -> v i <> addr0 + 1.

(** What is known when [l .. r] is left: [rl] is the last match before [l], the match
    behind [r], if there is one, is too high. *)
Record searching (l r addr : Z) (any : bool) (rl rr : Z) : Prop := {
  sg_range : L <= l /\ r <= R /\ l <= r + 1;
  sg_addr : addr = addr0 \/ addr = addr0 + 1;
  sg_right : rr = r;
  sg_none : any = false -> r = R /\ rl = L /\ forall i, L <= i < l -> ty i <> type;
  sg_left : (rl = L /\ forall i, L <= i < l -> ty i <> type) \/
    (L <= rl <= R /\ rl <= l /\ ty rl = type /\ v rl <= addr0 /\ forall i, rl < i < l -> ty i <> type);
  sg_high : r = R \/ (r < R /\ ty (r + 1) = type /\ addr0 < v (r + 1));
}.

Lemma search_keeps n l r addr any rl rr :
  searching l r addr any rl rr -> (Z.to_nat (measure l r addr) < n)%nat ->
  exists l' r' addr' any' rl' rr', search load8 load32 fuel n stabs type l r addr any rl rr s = Ret (any', rl', rr') s /\
    searching l' r' addr' any' rl' rr' /\ r' < l'.
Proof.
  revert l r addr any rl rr. induction n as [|n IH]; intros l r addr any rl rr H Hn; [lia|]. cbn [search].
  destruct (Z.leb_spec l r) as [Hle|Hgt]; [|by exists l, r, addr, any, rl, rr].
  destruct H as [(Hl & Hr & Hlr) Ha -> Hnone Hleft Hhigh]. unfold measure in Hn.
  destruct (middle l r Hl ltac:(lia)) as [-> Hm]. set (t := (l + r) / 2) in *.
  destruct (seek_ok fuel l t Hl ltac:(lia) ltac:(lia) ltac:(lia)) as (m & Em & M1 & M2 & M3). erewrite bind_ret by exact Em.
  destruct (Z.ltb_spec m l) as [Hml|Hml].
  { apply IH; [|unfold measure; revert Hn; bcase; lia].
    assert (forall i, l <= i < t + 1 -> ty i <> type) as Hno by (intros i Hi; apply M3; lia).
    split; [lia|done|done| |  |done].
    - intros E. destruct (Hnone E) as (E1 & E2 & E3). split; [done|]. split; [done|]. intros i Hi. destruct (Z.lt_ge_cases i l); [apply E3; lia|apply Hno; lia].
    - destruct Hleft as [[E1 E2]|(E1 & E2 & E3 & E4 & E5)]; [left|right].
      + split; [done|]. intros i Hi. destruct (Z.lt_ge_cases i l); [apply E2; lia|apply Hno; lia].
      + split; [done|]. split; [lia|]. split; [done|]. split; [done|]. intros i Hi. destruct (Z.lt_ge_cases i l); [apply E5; lia|apply Hno; lia]. }
  pose proof (M2 Hml) as Em2. assert (v m <> addr0 + 1) as Hg by (apply Hgap; [lia|done]).
  erewrite bind_ret by (apply Hv; lia). destruct (Z.ltb_spec (v m) addr) as [Hlo|Hnlo].
  { apply IH; [|unfold measure; revert Hn; bcase; lia]. split; [lia|done|done|done| |done].
    right. split; [lia|]. split; [lia|]. split; [done|]. split; [lia|]. intros i Hi. apply M3; lia. }
  erewrite bind_ret by (apply Hv; lia). destruct (Z.ltb_spec addr (v m)) as [Hhi|Hnhi].
  { apply IH; [|unfold measure; revert Hn; bcase; lia]. split; [lia|done|done|done|done|]. right.
    replace (m - 1 + 1) with m by lia. split; [lia|]. split; [done|lia]. }
  assert (v m = addr) as Ev by lia. assert (addr = addr0) as -> by lia. rewrite u32_small by lia.
  apply IH; [|unfold measure; rewrite (proj2 (Z.eqb_neq (v m) _)) by lia;
    destruct (Z.eq_dec m l) as [->|]; [rewrite Ev, Z.eqb_refl in Hn; lia|revert Hn; bcase; lia]].
  split; [lia|by right|done|done| |done]. right. split; [lia|]. split; [lia|]. split; [done|]. split; [lia|]. intros i Hi. lia.
Qed.

Lemma binsearch_found k :
  L <= k <= R -> ty k = type -> v k <= addr0 -> (forall i, k < i <= R -> ty i = type -> addr0 < v i) ->
  exists e, stab_binsearch load8 load32 fuel stabs L R type addr0 s = Ret (k, e) s /\ k <= e <= R /\
    (forall i, k < i <= e -> ty i <> type) /\ (e = R \/ ty (e + 1) = type).
Proof.
  intros Hk Ek Hlo Hnext. unfold stab_binsearch.
  destruct (search_keeps fuel L R addr0 false L R) as (l & r & addr & any & rl & rr & E & [(Hl & Hr & Hlr) Ha -> Hnone Hleft Hhigh] & Hend).
  { split; [lia|by left|done| |left|by left]; (split; [done|]); [split; [done|]|]; intros i Hi; lia. }
  { unfold measure. bcase; lia. }
  assert (k <= r) as Hkr.
  { destruct Hhigh as [->|(H1 & H2 & H3)]; [lia|]. destruct (Z.le_gt_cases k r); [done|exfalso].
    destruct (Z.eq_dec k (r + 1)) as [->|]; [lia|]. pose proof (Hsorted (r + 1) k ltac:(lia) ltac:(lia) H2 Ek). lia. }
  erewrite bind_ret by exact E. cbv beta iota.
  destruct Hleft as [[-> Hno]|(H1 & H2 & H3 & H4 & H5)]; [exfalso; apply (Hno k); [lia|done]|].
  destruct any; [|exfalso; destruct (Hnone eq_refl) as (_ & _ & Hx); apply (Hx k); [lia|done]]. cbn [negb].
  assert (rl = k) as ->.
  { destruct (Z.lt_trichotomy rl k) as [Hlt|[|Hgt]]; [exfalso; apply (H5 k); [lia|done]|done|].
    exfalso. specialize (Hnext rl ltac:(lia) H3). lia. }
  destruct (rightmost_ok fuel k r ltac:(lia) ltac:(lia) ltac:(lia)) as (m & Em & M1 & M2 & M3 & M4 & M5). erewrite bind_ret by exact Em.
  assert (m = k) as ->.
  { destruct (Z.eq_dec m k); [done|]. exfalso. apply (H5 m); [lia|]. apply M4. lia. }
  exists r. split; [done|]. split; [lia|]. split; [intros i Hi; apply H5; lia|]. destruct Hhigh as [|(_ & ? & _)]; [by left|by right].
Qed.
End Search.

(** ** The claims *)

(** A table of three entries in memory: two files and a function between them. *)
Definition demo_stabs : mem :=
  let entry i t v m := st32 (st8 m (1000 + i * 12 + 4) t) (1000 + i * 12 + 8) v in
  entry 0 N_SO 100 (entry 1 N_FUN 100 (entry 2 N_SO 200 ∅)).
Definition stab_load8 (a : Z) : M mem Z := gets (fun m => ld8 m a).
Definition stab_load32 (a : Z) : M mem Z := gets (fun m => ld32 m a).
Definition stab_ty (i : Z) : Z := ld8 demo_stabs (1000 + i * 12 + 4).
Definition stab_v (i : Z) : Z := ld32 demo_stabs (1000 + i * 12 + 8).

Lemma stab_vals : stab_ty 0 = N_SO /\ stab_ty 1 = N_FUN /\ stab_ty 2 = N_SO /\ stab_v 0 = 100 /\ stab_v 2 = 200.
Proof. by vm_compute. Qed.

Lemma three (P : Z -> Prop) : P 0 -> P 1 -> P 2 -> forall i, 0 <= i <= 2 -> P i.
Proof. intros H0 H1 H2 i Hi. assert (i = 0 \/ i = 1 \/ i = 2) as [-> |[-> | ->]] by lia; done. Qed.

(** Entry 0 is the one for address 150. *)
Lemma stab_demo :
  (forall i j, 0 <= i < j -> j <= 2 -> stab_ty i = N_SO -> stab_ty j = N_SO -> stab_v i <= stab_v j) /\
  (forall i, 0 <= i <= 2 -> stab_ty i = N_SO -> stab_v i <> 150 + 1) /\
  stab_ty 0 = N_SO /\ stab_v 0 <= 150 /\ (forall i, 0 < i <= 2 -> stab_ty i = N_SO -> 150 < stab_v i).
Proof.
  destruct stab_vals as (T0 & T1 & T2 & V0 & V2). split; [|split; [apply (three (fun i => stab_ty i = N_SO -> stab_v i <> 150 + 1))|split; [exact T0|split; [lia|]]]].
  - intros i j Hi Hj. assert (i = 0 \/ i = 1) as [-> | ->] by lia; [|by rewrite T1].
    assert (j = 1 \/ j = 2) as [-> | ->] by lia; [by rewrite T1|lia].
  - lia.
  - by rewrite T1.
  - lia.
  - intros i Hi. assert (i = 1 \/ i = 2) as [-> | ->] by lia; [by rewrite T1|lia].
Qed.

(** C29: [stab_binsearch] ends, on any table and for any address.  Its fuel is two steps for each
    entry: an exact match keeps the range, but then the address moves on. *)
Theorem stab_binsearch_ends {S} (load8 load32 : Z -> M S Z) fuel s stabs type L R addr (ty v : Z -> Z) :
  0 <= L -> R < 2 ^ 30 -> L <= R + 1 -> 0 <= addr < 2 ^ 32 -> (Z.to_nat (2 * (R - L + 1) + 2) < fuel)%nat ->
  (forall i, L <= i <= R -> n_type load8 stabs i s = Ret (ty i) s) ->
  (forall i, L <= i <= R -> n_value load32 stabs i s = Ret (v i) s) ->
  exists l r, stab_binsearch load8 load32 fuel stabs L R type addr s = Ret (l, r) s.
Proof.
  intros HL HR HLR Ha Hf Hty Hv. unfold stab_binsearch.
  destruct (search_ends load8 load32 fuel s stabs type L R ty v Hty Hv HL HR Hf fuel L R addr false L R) as (any & rl & rr & E & H1 & H2);
    try done; try lia.
  { unfold measure. bcase; lia. }
  erewrite bind_ret by exact E. cbv beta iota. destruct any; cbn [negb]; [|by eexists _, _].
  destruct (rightmost_ok load8 s stabs type L R ty Hty fuel rl rr) as (m & Em & _); [lia|done|lia|].
  erewrite bind_ret by exact Em. by eexists _, _.
Qed.

Lemma stab_binsearch_ends_witness :
  exists l r, stab_binsearch stab_load8 stab_load32 9 1000 0 2 N_SO 50 demo_stabs = Ret (l, r) demo_stabs.
Proof.
  apply (stab_binsearch_ends stab_load8 stab_load32 9 demo_stabs 1000 N_SO 0 2 50 stab_ty stab_v); [lia..|exact (fun i _ => eq_refl)|exact (fun i _ => eq_refl)].
Defined.

(** [stab_binsearch] finds the entry an address belongs to.  If the entries of the type are
    sorted and entry [k] is the last of them not above the address, the search ends with
    the left end at [k] and the right end just before the next entry of the type; it reads
    no entry outside the range.  No entry may start at the very next address. *)
Theorem stab_binsearch_finds {S} (load8 load32 : Z -> M S Z) fuel s stabs type L R addr (ty v : Z -> Z) k :
  0 <= L -> R < 2 ^ 30 -> 0 <= addr < 2 ^ 32 - 1 -> (Z.to_nat (2 * (R - L + 1) + 2) < fuel)%nat ->
  (forall i, L <= i <= R -> n_type load8 stabs i s = Ret (ty i) s) ->
  (forall i, L <= i <= R -> n_value load32 stabs i s = Ret (v i) s) ->
  (forall i j, L <= i < j -> j <= R -> ty i = type -> ty j = type -> v i <= v j) ->
  (forall i, L <= i <= R -> ty i = type -> v i <> addr + 1) ->
  L <= k <= R -> ty k = type -> v k <= addr -> (forall i, k < i <= R -> ty i = type -> addr < v i) ->
  exists e, stab_binsearch load8 load32 fuel stabs L R type addr s = Ret (k, e) s /\ k <= e <= R /\
    (forall i, k < i <= e -> ty i <> type) /\ (e = R \/ ty (e + 1) = type).
Proof. intros. by apply (binsearch_found load8 load32 fuel s stabs type L R ty v). Qed.

Lemma stab_binsearch_finds_witness :
  exists e, stab_binsearch stab_load8 stab_load32 9 1000 0 2 N_SO 150 demo_stabs = Ret (0, e) demo_stabs /\ 0 <= e <= 2.
Proof.
  destruct stab_demo as (H1 & H2 & H3 & H4 & H5).
  destruct (stab_binsearch_finds stab_load8 stab_load32 9 demo_stabs 1000 N_SO 0 2 150 stab_ty stab_v 0 ltac:(lia) ltac:(lia) ltac:(lia)
    ltac:(lia) (fun i _ => eq_refl) (fun i _ => eq_refl) H1 H2 ltac:(lia) H3 H4 H5) as (e & E & He & _).
  exists e. split; [exact E|exact He].
Defined.

(** The step to the next address after an exact match loses it.  With two entries of the
    type one byte apart, the search for the first one's address ends at the second. *)
Theorem stab_binsearch_next {S} (load8 load32 : Z -> M S Z) s stabs type addr :
  0 <= addr < 2 ^ 32 - 2 ->
  (forall i, 0 <= i <= 1 -> n_type load8 stabs i s = Ret type s) ->
  (forall i, 0 <= i <= 1 -> n_value load32 stabs i s = Ret (addr + i) s) ->
  stab_binsearch load8 load32 8 stabs 0 1 type addr s = Ret (1, 1) s.
Proof.
  intros Ha Hty Hv. unfold stab_binsearch.
  assert (forall l m, 0 <= m <= 1 -> l <= m -> seek load8 8 stabs l m type s = Ret m s) as Hseek.
  { intros l m Hm Hl. cbn [seek]. rewrite (proj2 (Z.ltb_ge m l)) by lia. erewrite bind_ret by by apply Hty. by rewrite Z.eqb_refl. }
  assert (forall n l r a any rl rr t, 0 <= t <= 1 -> l <= t <= r -> Z.quot (s32 (l + r)) 2 = t ->
    search load8 load32 8 (Datatypes.S n) stabs type l r a any rl rr s =
      (if addr + t <? a then search load8 load32 8 n stabs type (t + 1) r a true t rr s
       else if a <? addr + t then search load8 load32 8 n stabs type l (t - 1) a true rl (t - 1) s
       else search load8 load32 8 n stabs type t r (u32 (a + 1)) true t rr s)) as Hstep.
  { intros n l r a any rl rr t Ht Hlr Et. cbn [search]. rewrite (proj2 (Z.leb_le l r)) by lia. rewrite Et.
    erewrite bind_ret by (apply Hseek; lia). rewrite (proj2 (Z.ltb_ge t l)) by lia. erewrite bind_ret by by apply Hv.
    destruct (addr + t <? a); [done|]. erewrite bind_ret by by apply Hv. by destruct (a <? addr + t). }
  erewrite bind_ret.
  2: { rewrite (Hstep _ 0 1 _ _ _ _ 0) by (lia || done). rewrite !(proj2 (Z.ltb_ge _ _)) by lia. rewrite u32_small by lia.
       rewrite (Hstep _ 0 1 _ _ _ _ 0) by (lia || done). rewrite (proj2 (Z.ltb_lt (addr + 0) (addr + 1))) by lia.
       rewrite (Hstep _ (0 + 1) 1 _ _ _ _ 1) by (lia || done). rewrite !(proj2 (Z.ltb_ge (addr + 1) (addr + 1))) by lia. rewrite u32_small by lia.
       rewrite (Hstep _ 1 1 _ _ _ _ 1) by (lia || done). rewrite (proj2 (Z.ltb_lt (addr + 1) (addr + 1 + 1))) by lia. reflexivity. }
  cbv beta iota. cbn [negb rightmost]. change (1 <? 1) with false. cbv iota. done.
Qed.

Definition near_stabs : mem := st8 (st32 (st8 (st32 ∅ 1008 0) 1004 N_SLINE) 1020 1) 1016 N_SLINE.

Lemma stab_binsearch_next_witness :
  stab_binsearch stab_load8 stab_load32 8 1000 0 1 N_SLINE 0 near_stabs = Ret (1, 1) near_stabs.
Proof.
  apply (stab_binsearch_next stab_load8 stab_load32 near_stabs 1000 N_SLINE 0); [lia|..];
    intros i Hi; assert (i = 0 \/ i = 1) as [-> | ->] by lia; reflexivity.
Defined.
