(* ===== verification/Pmap.v ===== *)
(** Physical page management and page tables: [kern/pmap.c], [kern/pmap.h].

    The state [pmap] holds the file's globals ([npages], [pages],
    [page_free_list], [kern_pgdir], ...) and physical memory.  A
    [struct PageInfo *] is an index into [pages] ([None] is NULL); a page
    directory or table entry is addressed by its kernel virtual address, and the
    kernel reaches physical address [pa] at [KERNBASE + pa]. *)

From S2P Require Import Prelude Mmu Mem.

(** What the kernel image and the hardware supply, and the value an uninitialised
    [pte_t *] local happens to hold in the call for [pgdir] and [va]. *)
Class Machine := {
  sym_end : Z;                      (* linker symbol [end] *)
  sym_bootstack : Z;                (* address of [bootstack] *)
  sym_percpu_kstacks : Z -> Z;      (* address of [percpu_kstacks[i]] *)
  cmos : Z -> Z;                    (* byte [r] of the NVRAM *)
  uninit_ptep : Z -> Z -> Z;
}.

Record PageInfo := mkPageInfo { pp_link : option Z; pp_ref : Z }.

Record pmap := mkPmap {
  npages : Z;
  npages_basemem : Z;
  nextfree : Z;                     (* static of [boot_alloc]; 0 before first use *)
  kern_pgdir : Z;
  pages_va : Z;                     (* the pointer [pages] ... *)
  pages : gmap Z PageInfo;          (* ... and the array it points to *)
  envs_va : Z;                      (* the pointer [envs] *)
  page_free_list : option Z;
  pmem : mem;                       (* physical memory *)
  mmio_base : Z;                    (* static [base] of [mmio_map_region] *)
  user_mem_check_addr : Z;
  invlpgs : list Z;                 (* addresses given to [invlpg], latest first *)
}.

Definition set_npages (n b : Z) (s : pmap) : pmap :=
  mkPmap n b s.(nextfree) s.(kern_pgdir) s.(pages_va) s.(pages) s.(envs_va)
    s.(page_free_list) s.(pmem) s.(mmio_base) s.(user_mem_check_addr) s.(invlpgs).
Definition set_nextfree (v : Z) (s : pmap) : pmap :=
  mkPmap s.(npages) s.(npages_basemem) v s.(kern_pgdir) s.(pages_va) s.(pages) s.(envs_va)
    s.(page_free_list) s.(pmem) s.(mmio_base) s.(user_mem_check_addr) s.(invlpgs).
Definition set_kern_pgdir (v : Z) (s : pmap) : pmap :=
  mkPmap s.(npages) s.(npages_basemem) s.(nextfree) v s.(pages_va) s.(pages) s.(envs_va)
    s.(page_free_list) s.(pmem) s.(mmio_base) s.(user_mem_check_addr) s.(invlpgs).
Definition set_pages_va (v : Z) (s : pmap) : pmap :=
  mkPmap s.(npages) s.(npages_basemem) s.(nextfree) s.(kern_pgdir) v s.(pages) s.(envs_va)
    s.(page_free_list) s.(pmem) s.(mmio_base) s.(user_mem_check_addr) s.(invlpgs).
Definition set_pages (v : gmap Z PageInfo) (s : pmap) : pmap :=
  mkPmap s.(npages) s.(npages_basemem) s.(nextfree) s.(kern_pgdir) s.(pages_va) v s.(envs_va)
    s.(page_free_list) s.(pmem) s.(mmio_base) s.(user_mem_check_addr) s.(invlpgs).
Definition set_envs_va (v : Z) (s : pmap) : pmap :=
  mkPmap s.(npages) s.(npages_basemem) s.(nextfree) s.(kern_pgdir) s.(pages_va) s.(pages) v
    s.(page_free_list) s.(pmem) s.(mmio_base) s.(user_mem_check_addr) s.(invlpgs).
Definition set_page_free_list (v : option Z) (s : pmap) : pmap :=
  mkPmap s.(npages) s.(npages_basemem) s.(nextfree) s.(kern_pgdir) s.(pages_va) s.(pages)
    s.(envs_va) v s.(pmem) s.(mmio_base) s.(user_mem_check_addr) s.(invlpgs).
Definition set_pmem (v : mem) (s : pmap) : pmap :=
  mkPmap s.(npages) s.(npages_basemem) s.(nextfree) s.(kern_pgdir) s.(pages_va) s.(pages)
    s.(envs_va) s.(page_free_list) v s.(mmio_base) s.(user_mem_check_addr) s.(invlpgs).
Definition set_mmio_base (v : Z) (s : pmap) : pmap :=
  mkPmap s.(npages) s.(npages_basemem) s.(nextfree) s.(kern_pgdir) s.(pages_va) s.(pages)
    s.(envs_va) s.(page_free_list) s.(pmem) v s.(user_mem_check_addr) s.(invlpgs).
Definition set_user_mem_check_addr (v : Z) (s : pmap) : pmap :=
  mkPmap s.(npages) s.(npages_basemem) s.(nextfree) s.(kern_pgdir) s.(pages_va) s.(pages)
    s.(envs_va) s.(page_free_list) s.(pmem) s.(mmio_base) v s.(invlpgs).
Definition set_invlpgs (v : list Z) (s : pmap) : pmap :=
  mkPmap s.(npages) s.(npages_basemem) s.(nextfree) s.(kern_pgdir) s.(pages_va) s.(pages)
    s.(envs_va) s.(page_free_list) s.(pmem) s.(mmio_base) s.(user_mem_check_addr) v.

(** ** Accesses *)

(** [pages[i]] as an lvalue. *)
Definition get_page (i : Z) : M pmap PageInfo := fun s =>
  match s.(pages) !! i with Some pi => Ret pi s | None => Wild s end.
Definition put_page (i : Z) (pi : PageInfo) : M pmap unit := fun s =>
  match s.(pages) !! i with
  | Some _ => Ret tt (set_pages (<[i := pi]> s.(pages)) s)
  | None => Wild s
  end.
Definition set_ref (i v : Z) : M pmap unit :=
  let* pi := get_page i in put_page i (mkPageInfo pi.(pp_link) (u16 v)).
Definition set_link (i : Z) (v : option Z) : M pmap unit :=
  let* pi := get_page i in put_page i (mkPageInfo v pi.(pp_ref)).

(** Words of memory through the kernel's mapping of physical memory. *)
Definition kload32 (kva : Z) : M pmap Z := fun s =>
  if kva <? KERNBASE then Wild s else Ret (ld32 s.(pmem) (kva - KERNBASE)) s.
Definition kstore32 (kva v : Z) : M pmap unit := fun s =>
  if kva <? KERNBASE then Wild s
  else Ret tt (set_pmem (st32 s.(pmem) (kva - KERNBASE) v) s).

(** [memset] on kernel memory; [lib/string.c] gives its byte-level meaning. *)
Definition kmemset (kva c n : Z) : M pmap unit := fun s =>
  if kva <? KERNBASE then Wild s
  else Ret tt (set_pmem (st_bytes s.(pmem) (kva - KERNBASE) (replicate (Z.to_nat n) c)) s).

(** ** [kern/pmap.h] *)

Definition ALLOC_ZERO : Z := 1.

Definition PADDR (kva : Z) : M pmap Z :=
  if kva <? KERNBASE then panic else ret (u32 (kva - KERNBASE)).

Definition KADDR (pa : Z) : M pmap Z :=
  let* n := gets npages in
  if n <=? PGNUM pa then panic else ret (u32 (pa + KERNBASE)).

Definition page2pa (pp : Z) : Z := u32 (Z.shiftl pp PGSHIFT).

Definition pa2page (pa : Z) : M pmap Z :=
  let* n := gets npages in
  if n <=? PGNUM pa then panic else ret (PGNUM pa).

Definition page2kva (pp : Z) : M pmap Z := KADDR (page2pa pp).

(** ** Boot-time allocation *)

Definition NVRAM_BASELO : Z := 0xe + 7.
Definition NVRAM_EXTLO : Z := 0xe + 9.

Section Boot.
Context `{!Machine}.

Definition nvram_read (r : Z) : Z := Z.lor (u8 (cmos r)) (Z.shiftl (u8 (cmos (r + 1))) 8).

Definition i386_detect_memory : M pmap unit :=
  let basemem := nvram_read NVRAM_BASELO * 1024 / PGSIZE in
  let npages_extmem := nvram_read NVRAM_EXTLO * 1024 / PGSIZE in
  if nonzero npages_extmem
  then modify (set_npages (EXTPHYSMEM / PGSIZE + npages_extmem) basemem)
  else modify (set_npages basemem basemem).

Definition boot_alloc (n : Z) : M pmap Z :=
  let* nf := gets nextfree in
  (if nf =? 0 then modify (set_nextfree (ROUNDUP sym_end PGSIZE)) else ret tt) ;;;
  let* result := gets nextfree in
  if 0 <? n then
    let nf' := ROUNDUP (u32 (result + n)) PGSIZE in
    modify (set_nextfree nf') ;;;
    let* np := gets npages in
    if u32 (np * PGSIZE) <? u32 (nf' - KERNBASE) then panic else ret result
  else ret result.

(** One iteration of [page_init]'s loop, then the loop over [i < npages]. *)
Definition page_init_body (i : Z) : M pmap unit :=
  if (i =? 0) || ((IOPHYSMEM / PGSIZE <=? i) && (i <? EXTPHYSMEM / PGSIZE)) then
    put_page i (mkPageInfo None 0)
  else
    let* used :=
      (if EXTPHYSMEM / PGSIZE <=? i then
         let* top := boot_alloc 0 in ret (i <? u32 (top - KERNBASE) / PGSIZE)
       else ret false) in
    if used : bool then put_page i (mkPageInfo None 0)
    else if i =? MPENTRY_PADDR / PGSIZE then put_page i (mkPageInfo None 0)
    else
      let* fl := gets page_free_list in
      put_page i (mkPageInfo fl 0) ;;;
      modify (set_page_free_list (Some i)).

Fixpoint page_init_loop (n : nat) (i : Z) : M pmap unit :=
  match n with
  | O => ret tt
  | S n => page_init_body i ;;; page_init_loop n (i + 1)
  end.

Definition page_init : M pmap unit :=
  let* n := gets npages in page_init_loop (Z.to_nat n) 0.
End Boot.

(** ** The page allocator *)

Definition page_alloc (alloc_flags : Z) : M pmap (option Z) :=
  let* fl := gets page_free_list in
  match fl with
  | None => ret None
  | Some pp =>
      let* pi := get_page pp in
      modify (set_page_free_list pi.(pp_link)) ;;;
      set_link pp None ;;;
      (if nonzero (Z.land alloc_flags ALLOC_ZERO) then
         let* kva := page2kva pp in kmemset kva 0 PGSIZE
       else ret tt) ;;;
      ret (Some pp)
  end.

Definition page_free (pp : Z) : M pmap unit :=
  let* pi := get_page pp in
  if bool_decide (pi.(pp_link) <> None) || nonzero pi.(pp_ref) then panic
  else
    let* fl := gets page_free_list in
    set_link pp fl ;;;
    modify (set_page_free_list (Some pp)).

Definition page_decref (pp : Z) : M pmap unit :=
  let* pi := get_page pp in
  set_ref pp (pi.(pp_ref) - 1) ;;;
  if u16 (pi.(pp_ref) - 1) =? 0 then page_free pp else ret tt.

(** ** Page tables *)

(** The address of [pgdir[PDX(va)]]. *)
Definition pde_at (pgdir va : Z) : Z := u32 (pgdir + 4 * PDX va).

Definition pgdir_walk (pgdir va create : Z) : M pmap (option Z) :=
  let* pde := kload32 (pde_at pgdir va) in
  let* ok :=
    (if negb (bits_set pde PTE_P) then
       if create =? 0 then ret false
       else
         let* new_pg_table := page_alloc ALLOC_ZERO in
         match new_pg_table with
         | None => ret false
         | Some pp =>
             let* pi := get_page pp in
             set_ref pp (pi.(pp_ref) + 1) ;;;
             kstore32 (pde_at pgdir va) (Z.lor (page2pa pp) PTE_P) ;;;
             ret true
         end
     else ret true) in
  if ok : bool then
    let* pde := kload32 (pde_at pgdir va) in
    let* ptep := KADDR (PTE_ADDR pde) in
    ret (Some (u32 (ptep + 4 * PTX va)))
  else ret None.

(** [boot_map_region]'s loop over [i = 0, PGSIZE, ...] below [size]; the fuel
    covers [size / PGSIZE + 1] iterations. *)
Fixpoint boot_map_region_loop (fuel : nat) (pgdir va size pa perm i : Z) : M pmap unit :=
  match fuel with
  | O => out_of_fuel
  | S fuel =>
      if i <? size then
        let* ptep := pgdir_walk pgdir (u32 (va + i)) 1 in
        (match ptep with
         | None => ret tt
         | Some ptep =>
             kstore32 ptep (Z.lor (Z.lor (u32 (pa + i)) perm) PTE_P) ;;;
             let a := pde_at pgdir (u32 (va + i)) in
             let* pde := kload32 a in
             kstore32 a (Z.lor pde (Z.lor perm PTE_P))
         end) ;;;
        boot_map_region_loop fuel pgdir va size pa perm (u32 (i + PGSIZE))
      else ret tt
  end.

Definition boot_map_region (pgdir va size pa perm : Z) : M pmap unit :=
  if u32 (va + size) <? va then panic
  else boot_map_region_loop (Z.to_nat (size / PGSIZE + 2)) pgdir va size pa perm 0.

(** The second component is what [*pte_store] holds afterwards; [store] is what
    it held before. *)
Definition page_lookup (pgdir va store : Z) : M pmap (option Z * Z) :=
  let* ptep := pgdir_walk pgdir va 0 in
  match ptep with
  | None => ret (None, store)
  | Some ptep =>
      let* pte := kload32 ptep in
      if negb (bits_set pte PTE_P) then ret (None, store)
      else
        let* pp := pa2page (PTE_ADDR pte) in
        ret (Some pp, if nonzero store then ptep else store)
  end.

Definition tlb_invalidate (pgdir va : Z) : M pmap unit :=
  modify (fun s => set_invlpgs (va :: s.(invlpgs)) s).

Section Vm.
Context `{!Machine}.

Definition page_remove (pgdir va : Z) : M pmap unit :=
  let* ' (pp, ptep) := page_lookup pgdir va (uninit_ptep pgdir va) in
  match pp with
  | None => ret tt
  | Some pp =>
      page_decref pp ;;;
      kstore32 ptep 0 ;;;
      tlb_invalidate pgdir va
  end.

Definition page_insert (pgdir pp va perm : Z) : M pmap Z :=
  let* ptep := pgdir_walk pgdir va 1 in
  match ptep with
  | None => ret (- E_NO_MEM)
  | Some ptep =>
      let* pi := get_page pp in
      set_ref pp (pi.(pp_ref) + 1) ;;;
      let* pte := kload32 ptep in
      (if bits_set pte PTE_P then page_remove pgdir va else ret tt) ;;;
      kstore32 ptep (Z.lor (Z.lor (page2pa pp) perm) PTE_P) ;;;
      let* pde := kload32 (pde_at pgdir va) in
      kstore32 (pde_at pgdir va) (Z.lor pde perm) ;;;
      ret 0
  end.
End Vm.

(** ** Device memory *)

Definition mmio_map_region (pa size : Z) : M pmap Z :=
  let size := ROUNDUP size PGSIZE in
  let* base := gets mmio_base in
  if MMIOLIM <? u32 (base + size) then panic
  else
    let* kp := gets kern_pgdir in
    boot_map_region kp base size pa (Z.lor (Z.lor PTE_PCD PTE_PWT) PTE_W) ;;;
    modify (set_mmio_base (u32 (base + size))) ;;;
    ret base.

(** ** Checking user pointers *)

Fixpoint user_mem_check_loop (fuel : nat) (pgdir mem_start mem_end perm : Z) : M pmap Z :=
  match fuel with
  | O => out_of_fuel
  | S fuel =>
      if mem_start <? mem_end then
        if ULIM <=? mem_start then
          modify (set_user_mem_check_addr mem_start) ;;; ret (- E_FAULT)
        else
          let* pte := pgdir_walk pgdir mem_start 0 in
          let* ok :=
            (match pte with
             | None => ret false
             | Some p => let* w := kload32 p in ret (bits_set w perm)
             end) in
          if ok : bool then
            user_mem_check_loop fuel pgdir
              (u32 (ROUNDDOWN mem_start PGSIZE + PGSIZE)) mem_end perm
          else modify (set_user_mem_check_addr mem_start) ;;; ret (- E_FAULT)
      else ret 0
  end.

Definition user_mem_check (pgdir va len perm : Z) : M pmap Z :=
  let mem_end := ROUNDUP (u32 (va + len)) PGSIZE in
  user_mem_check_loop (S (Z.to_nat (mem_end / PGSIZE - va / PGSIZE))) pgdir va mem_end
    (Z.lor perm PTE_P).

(** Operations unfold only on request. *)
#[global] Arguments get_page : simpl never.
#[global] Arguments put_page : simpl never.
#[global] Arguments set_ref : simpl never.
#[global] Arguments set_link : simpl never.
#[global] Arguments kload32 : simpl never.
#[global] Arguments kstore32 : simpl never.
#[global] Arguments kmemset : simpl never.
#[global] Arguments PADDR : simpl never.
#[global] Arguments KADDR : simpl never.
#[global] Arguments page2pa : simpl never.
#[global] Arguments pa2page : simpl never.
#[global] Arguments page2kva : simpl never.
#[global] Arguments boot_alloc : simpl never.
#[global] Arguments page_alloc : simpl never.
#[global] Arguments page_free : simpl never.
#[global] Arguments page_decref : simpl never.
#[global] Arguments pde_at : simpl never.
#[global] Arguments pgdir_walk : simpl never.
#[global] Arguments page_lookup : simpl never.
#[global] Arguments page_remove : simpl never.
#[global] Arguments page_insert : simpl never.
#[global] Arguments tlb_invalidate : simpl never.
