(* ===== verification/PmapBoot.v ===== *)
(** Boot-time virtual memory of [kern/pmap.c]: [mem_init] and [mem_init_mp], and
    the self-checks [mem_init] runs on the way ([check_page_free_list],
    [check_page_alloc], [check_page], [check_kern_pgdir],
    [check_page_installed_pgdir]).  [cprintf] reports are left out. *)

From S2P Require Import Prelude Mmu Mem Pmap.

Definition sizeof_PageInfo : Z := 8.
Definition sizeof_Env : Z := 124.
Definition NENV : Z := 1024.
Definition NCPU : Z := 8.

Definition CR0_PE : Z := 0x00000001.
Definition CR0_MP : Z := 0x00000002.
Definition CR0_EM : Z := 0x00000004.
Definition CR0_TS : Z := 0x00000008.
Definition CR0_NE : Z := 0x00000020.
Definition CR0_WP : Z := 0x00010000.
Definition CR0_AM : Z := 0x00040000.
Definition CR0_PG : Z := 0x80000000.

(** [assert] *)
Definition assert {S} (b : bool) : M S unit := if b then ret tt else panic.

(** [for (i = 0; i < n; i += step) body]; at most [fuel] iterations. *)
Fixpoint for_up {S} (fuel : nat) (i n step : Z) (body : Z -> M S unit) : M S unit :=
  match fuel with
  | O => out_of_fuel
  | S fuel =>
      if i <? n then body i ;;; for_up fuel (u32 (i + step)) n step body else ret tt
  end.

(** [for (pp = page_free_list; pp; pp = pp->pp_link)] with the locals the body
    updates as [acc]; a list that revisits a page runs out of fuel. *)
Fixpoint for_pages {A} (fuel : nat) (pp : option Z) (acc : A) (body : Z -> A -> M pmap A)
  : M pmap A :=
  match pp with
  | None => ret acc
  | Some p =>
      match fuel with
      | O => out_of_fuel
      | S fuel =>
          let* acc := body p acc in
          let* pi := get_page p in
          for_pages fuel pi.(pp_link) acc body
      end
  end.

Definition for_free_list {A} (acc : A) (body : Z -> A -> M pmap A) : M pmap A :=
  let* n := gets npages in
  let* fl := gets page_free_list in
  for_pages (Z.to_nat n) fl acc body.

(** ** The hardware's view of an address space *)

(** Translation by the MMU with [cr3] loaded and [CR0_WP] set: [None] is a page
    fault. *)
Definition mmu_translate (m : mem) (cr3 va : Z) (write user : bool) : option Z :=
  let allowed e :=
    bits_set e PTE_P && (negb write || bits_set e PTE_W) && (negb user || bits_set e PTE_U) in
  let pde := ld32 m (PTE_ADDR cr3 + 4 * PDX va) in
  if allowed pde then
    let pte := ld32 m (PTE_ADDR pde + 4 * PTX va) in
    if allowed pte then Some (PTE_ADDR pte + PGOFF va) else None
  else None.

(** ** [check_page_free_list] *)

(** What [tp[0]] and [tp[1]] point to: the locals [pp1] and [pp2], or the link of a
    page. *)
Inductive slot := Local | LinkOf (pp : Z).

Record sorted := mkSorted { pp1 : option Z; pp2 : option Z; tp0 : slot; tp1 : slot }.

Definition store_tp0 (v : option Z) (x : sorted) : M pmap sorted :=
  match x.(tp0) with
  | Local => ret (mkSorted v x.(pp2) x.(tp0) x.(tp1))
  | LinkOf p => set_link p v ;;; ret x
  end.
Definition store_tp1 (v : option Z) (x : sorted) : M pmap sorted :=
  match x.(tp1) with
  | Local => ret (mkSorted x.(pp1) v x.(tp0) x.(tp1))
  | LinkOf p => set_link p v ;;; ret x
  end.

Definition sort_body (pdx_limit p : Z) (x : sorted) : M pmap sorted :=
  if pdx_limit <=? PDX (page2pa p) then
    let* x := store_tp1 (Some p) x in
    ret (mkSorted x.(pp1) x.(pp2) x.(tp0) (LinkOf p))
  else
    let* x := store_tp0 (Some p) x in
    ret (mkSorted x.(pp1) x.(pp2) (LinkOf p) x.(tp1)).

Section Boot.
Context {Mach : Machine}.

Definition check_page_free_list (only_low_memory : bool) : M pmap unit :=
  let pdx_limit := if only_low_memory then 1 else NPDENTRIES in
  let* fl := gets page_free_list in
  (match fl with None => panic | Some _ => ret tt end) ;;;
  (if only_low_memory then
     let* x := for_free_list (mkSorted None None Local Local) (sort_body pdx_limit) in
     let* x := store_tp1 None x in
     let* x := store_tp0 x.(pp2) x in
     modify (set_page_free_list x.(pp1))
   else ret tt) ;;;
  for_free_list tt (fun p _ =>
    if PDX (page2pa p) <? pdx_limit then
      let* kva := page2kva p in kmemset kva 0x97 128
    else ret tt) ;;;
  let* first_free_page := boot_alloc 0 in
  let* ' (nfree_basemem, nfree_extmem) := for_free_list (0, 0) (fun p '(nb, ne) =>
    let* n := gets npages in
    assert (0 <=? p) ;;;
    assert (p <? n) ;;;
    assert ((sizeof_PageInfo * p) mod sizeof_PageInfo =? 0) ;;;
    assert (negb (page2pa p =? 0)) ;;;
    assert (negb (page2pa p =? IOPHYSMEM)) ;;;
    assert (negb (page2pa p =? EXTPHYSMEM - PGSIZE)) ;;;
    assert (negb (page2pa p =? EXTPHYSMEM)) ;;;
    (if page2pa p <? EXTPHYSMEM then ret tt
     else let* kva := page2kva p in assert (first_free_page <=? kva)) ;;;
    assert (negb (page2pa p =? MPENTRY_PADDR)) ;;;
    ret (if page2pa p <? EXTPHYSMEM then (nb + 1, ne) else (nb, ne + 1))) in
  assert (0 <? nfree_basemem) ;;;
  assert (0 <? nfree_extmem).
End Boot.

(** ** [check_page_alloc] *)

Definition alloc_some (flags : Z) : M pmap Z :=
  let* pp := page_alloc flags in match pp with Some p => ret p | None => panic end.

Definition alloc_none : M pmap unit :=
  let* pp := page_alloc 0 in match pp with Some _ => panic | None => ret tt end.

Definition distinct3 (p0 p1 p2 : Z) : M pmap unit :=
  assert (negb (p1 =? p0)) ;;; assert (negb (p2 =? p1) && negb (p2 =? p0)).

(** [c[i] == 0] for the [PGSIZE] bytes at [kva]. *)
Definition all_zero (kva : Z) : M pmap unit := fun s =>
  if forallb (Z.eqb 0) (ld_bytes s.(pmem) (kva - KERNBASE) (Z.to_nat PGSIZE))
  then Ret tt s else Panic s.

Definition check_page_alloc : M pmap unit :=
  let* pv := gets pages_va in
  (if pv =? 0 then panic else ret tt) ;;;
  let* nfree := for_free_list 0 (fun _ n => ret (n + 1)) in
  let* pp0 := alloc_some 0 in
  let* pp1 := alloc_some 0 in
  let* pp2 := alloc_some 0 in
  distinct3 pp0 pp1 pp2 ;;;
  let* np := gets npages in
  assert (page2pa pp0 <? u32 (np * PGSIZE)) ;;;
  assert (page2pa pp1 <? u32 (np * PGSIZE)) ;;;
  assert (page2pa pp2 <? u32 (np * PGSIZE)) ;;;
  let* fl := gets page_free_list in
  modify (set_page_free_list None) ;;;
  alloc_none ;;;
  page_free pp0 ;;; page_free pp1 ;;; page_free pp2 ;;;
  let* pp0 := alloc_some 0 in
  let* pp1 := alloc_some 0 in
  let* pp2 := alloc_some 0 in
  distinct3 pp0 pp1 pp2 ;;;
  alloc_none ;;;
  let* kva := page2kva pp0 in
  kmemset kva 1 PGSIZE ;;;
  page_free pp0 ;;;
  let* pp := alloc_some ALLOC_ZERO in
  assert (pp0 =? pp) ;;;
  let* c := page2kva pp in
  all_zero c ;;;
  modify (set_page_free_list fl) ;;;
  page_free pp0 ;;; page_free pp1 ;;; page_free pp2 ;;;
  let* nfree := for_free_list nfree (fun _ n => ret (n - 1)) in
  assert (nfree =? 0).

(** ** [check_va2pa] *)

(** [~0] as a [physaddr_t]. *)
Definition NOPA : Z := 2 ^ 32 - 1.

Definition check_va2pa (pgdir va : Z) : M pmap Z :=
  let* pde := kload32 (pde_at pgdir va) in
  if negb (bits_set pde PTE_P) then ret NOPA
  else
    let* p := KADDR (PTE_ADDR pde) in
    let* pte := kload32 (u32 (p + 4 * PTX va)) in
    if negb (bits_set pte PTE_P) then ret NOPA else ret (PTE_ADDR pte).

(** [assert(check_va2pa(pgdir, va) == pa)] *)
Definition maps_to (pgdir va pa : Z) : M pmap unit :=
  let* r := check_va2pa pgdir va in assert (r =? pa).

(** ** [check_page] *)

(** [*pgdir_walk(pgdir, va, 0)] as a value and as the target of a store. *)
Definition walk_load (pgdir va : Z) : M pmap Z :=
  let* p := pgdir_walk pgdir va 0 in match p with Some p => kload32 p | None => wild end.
Definition walk_store (pgdir va v : Z) : M pmap unit :=
  let* p := pgdir_walk pgdir va 0 in match p with Some p => kstore32 p v | None => wild end.

(** [assert(pp->pp_ref == n)] *)
Definition ref_is (pp n : Z) : M pmap unit :=
  let* pi := get_page pp in assert (pi.(pp_ref) =? n).

Section Check.
Context {Mach : Machine}.

Definition insert_ok (pgdir pp va perm : Z) : M pmap unit :=
  let* r := page_insert pgdir pp va perm in assert (r =? 0).
Definition insert_fails (pgdir pp va perm : Z) : M pmap unit :=
  let* r := page_insert pgdir pp va perm in assert (r <? 0).

(** First half: insertion, reinsertion and permissions. *)
Definition check_page_insert (kp pp0 pp1 pp2 : Z) : M pmap unit :=
  let* ' (pp, _) := page_lookup kp 0 (uninit_ptep kp 0) in
  assert (bool_decide (pp = None)) ;;;
  insert_fails kp pp1 0 PTE_W ;;;
  page_free pp0 ;;;
  insert_ok kp pp1 0 PTE_W ;;;
  let* pde0 := kload32 kp in
  assert (PTE_ADDR pde0 =? page2pa pp0) ;;;
  maps_to kp 0 (page2pa pp1) ;;;
  ref_is pp1 1 ;;; ref_is pp0 1 ;;;
  insert_ok kp pp2 PGSIZE PTE_W ;;;
  maps_to kp PGSIZE (page2pa pp2) ;;;
  ref_is pp2 1 ;;;
  alloc_none ;;;
  insert_ok kp pp2 PGSIZE PTE_W ;;;
  maps_to kp PGSIZE (page2pa pp2) ;;;
  ref_is pp2 1 ;;;
  alloc_none ;;;
  let* pde := kload32 (pde_at kp PGSIZE) in
  let* ptep := KADDR (PTE_ADDR pde) in
  let* w := pgdir_walk kp PGSIZE 0 in
  assert (bool_decide (w = Some (u32 (ptep + 4 * PTX PGSIZE)))) ;;;
  insert_ok kp pp2 PGSIZE (Z.lor PTE_W PTE_U) ;;;
  maps_to kp PGSIZE (page2pa pp2) ;;;
  ref_is pp2 1 ;;;
  let* pte := walk_load kp PGSIZE in
  assert (nonzero (Z.land pte PTE_U)) ;;;
  let* pde0 := kload32 kp in
  assert (nonzero (Z.land pde0 PTE_U)) ;;;
  insert_ok kp pp2 PGSIZE PTE_W ;;;
  let* pte := walk_load kp PGSIZE in
  assert (nonzero (Z.land pte PTE_W)) ;;;
  let* pte := walk_load kp PGSIZE in
  assert (negb (nonzero (Z.land pte PTE_U))).

(** Second half: replacement, removal and reference counts. *)
Definition check_page_remove (kp pp0 pp1 pp2 : Z) : M pmap unit :=
  insert_fails kp pp0 PTSIZE PTE_W ;;;
  insert_ok kp pp1 PGSIZE PTE_W ;;;
  let* pte := walk_load kp PGSIZE in
  assert (negb (nonzero (Z.land pte PTE_U))) ;;;
  maps_to kp 0 (page2pa pp1) ;;;
  maps_to kp PGSIZE (page2pa pp1) ;;;
  ref_is pp1 2 ;;; ref_is pp2 0 ;;;
  let* pp := alloc_some 0 in
  assert (pp =? pp2) ;;;
  page_remove kp 0 ;;;
  maps_to kp 0 NOPA ;;;
  maps_to kp PGSIZE (page2pa pp1) ;;;
  ref_is pp1 1 ;;; ref_is pp2 0 ;;;
  insert_ok kp pp1 PGSIZE 0 ;;;
  let* pi1 := get_page pp1 in
  assert (nonzero pi1.(pp_ref)) ;;;
  assert (bool_decide (pi1.(pp_link) = None)) ;;;
  page_remove kp PGSIZE ;;;
  maps_to kp 0 NOPA ;;;
  maps_to kp PGSIZE NOPA ;;;
  ref_is pp1 0 ;;; ref_is pp2 0 ;;;
  let* pp := alloc_some 0 in
  assert (pp =? pp1) ;;;
  alloc_none ;;;
  let* pde0 := kload32 kp in
  assert (PTE_ADDR pde0 =? page2pa pp0) ;;;
  kstore32 kp 0 ;;;
  ref_is pp0 1 ;;;
  set_ref pp0 0.

(** Page tables handed out by [pgdir_walk], then [mmio_map_region]. *)
Definition check_page_walk (kp pp0 : Z) : M pmap unit :=
  page_free pp0 ;;;
  let va := PGSIZE * NPDENTRIES + PGSIZE in
  let* ptep := pgdir_walk kp va 1 in
  let* pde := kload32 (pde_at kp va) in
  let* ptep1 := KADDR (PTE_ADDR pde) in
  assert (bool_decide (ptep = Some (u32 (ptep1 + 4 * PTX va)))) ;;;
  kstore32 (pde_at kp va) 0 ;;;
  set_ref pp0 0 ;;;
  let* kva := page2kva pp0 in
  kmemset kva 0xFF PGSIZE ;;;
  page_free pp0 ;;;
  pgdir_walk kp 0 1 ;;;
  let* ptep := page2kva pp0 in
  for_up 1025 0 NPTENTRIES 1 (fun i =>
    let* w := kload32 (ptep + 4 * i) in assert (Z.land w PTE_P =? 0)) ;;;
  kstore32 kp 0 ;;;
  set_ref pp0 0.

Definition check_page_mmio (kp : Z) : M pmap unit :=
  let* mm1 := mmio_map_region 0 4097 in
  let* mm2 := mmio_map_region 0 4096 in
  assert ((MMIOBASE <=? mm1) && (u32 (mm1 + 8096) <? MMIOLIM)) ;;;
  assert ((MMIOBASE <=? mm2) && (u32 (mm2 + 8096) <? MMIOLIM)) ;;;
  assert ((mm1 mod PGSIZE =? 0) && (mm2 mod PGSIZE =? 0)) ;;;
  assert (u32 (mm1 + 8096) <=? mm2) ;;;
  maps_to kp mm1 0 ;;;
  maps_to kp (u32 (mm1 + PGSIZE)) PGSIZE ;;;
  maps_to kp mm2 0 ;;;
  maps_to kp (u32 (mm2 + PGSIZE)) NOPA ;;;
  let* pte := walk_load kp mm1 in
  assert (nonzero (Z.land pte (Z.lor (Z.lor PTE_W PTE_PWT) PTE_PCD))) ;;;
  let* pte := walk_load kp mm1 in
  assert (negb (nonzero (Z.land pte PTE_U))) ;;;
  walk_store kp mm1 0 ;;;
  walk_store kp (u32 (mm1 + PGSIZE)) 0 ;;;
  walk_store kp mm2 0.

Definition check_page : M pmap unit :=
  let* pp0 := alloc_some 0 in
  let* pp1 := alloc_some 0 in
  let* pp2 := alloc_some 0 in
  distinct3 pp0 pp1 pp2 ;;;
  let* fl := gets page_free_list in
  modify (set_page_free_list None) ;;;
  alloc_none ;;;
  let* kp := gets kern_pgdir in
  check_page_insert kp pp0 pp1 pp2 ;;;
  check_page_remove kp pp0 pp1 pp2 ;;;
  check_page_walk kp pp0 ;;;
  modify (set_page_free_list fl) ;;;
  page_free pp0 ;;; page_free pp1 ;;; page_free pp2 ;;;
  check_page_mmio kp.

(** ** [check_kern_pgdir] *)

Definition check_kern_pgdir : M pmap unit :=
  let* pgdir := gets kern_pgdir in
  let* np := gets npages in
  let* pv := gets pages_va in
  let* ev := gets envs_va in
  let n := ROUNDUP (np * sizeof_PageInfo) PGSIZE in
  for_up (S (Z.to_nat (n / PGSIZE))) 0 n PGSIZE (fun i =>
    let* pa := PADDR pv in maps_to pgdir (u32 (UPAGES + i)) (u32 (pa + i))) ;;;
  let n := ROUNDUP (NENV * sizeof_Env) PGSIZE in
  for_up (S (Z.to_nat (n / PGSIZE))) 0 n PGSIZE (fun i =>
    let* pa := PADDR ev in maps_to pgdir (u32 (UENVS + i)) (u32 (pa + i))) ;;;
  for_up (S (Z.to_nat np)) 0 (u32 (np * PGSIZE)) PGSIZE (fun i =>
    maps_to pgdir (u32 (KERNBASE + i)) i) ;;;
  for_up 9 0 NCPU 1 (fun n =>
    let base := u32 (KSTACKTOP - (KSTKSIZE + KSTKGAP) * (n + 1)) in
    for_up 9 0 KSTKSIZE PGSIZE (fun i =>
      let* pa := PADDR (sym_percpu_kstacks n) in
      maps_to pgdir (u32 (base + KSTKGAP + i)) (u32 (pa + i))) ;;;
    for_up 9 0 KSTKGAP PGSIZE (fun i => maps_to pgdir (u32 (base + i)) NOPA)) ;;;
  for_up 1025 0 NPDENTRIES 1 (fun i =>
    let* pde := kload32 (u32 (pgdir + 4 * i)) in
    if (i =? PDX UVPT) || (i =? PDX (KSTACKTOP - 1)) || (i =? PDX UPAGES)
       || (i =? PDX UENVS) || (i =? PDX MMIOBASE)
    then assert (nonzero (Z.land pde PTE_P))
    else if PDX KERNBASE <=? i then
      assert (nonzero (Z.land pde PTE_P)) ;;; assert (nonzero (Z.land pde PTE_W))
    else assert (pde =? 0)).

(** ** [check_page_installed_pgdir] *)

(** Word accesses through the MMU, in kernel mode. *)
Definition vload32 (cr3 va : Z) : M pmap Z := fun s =>
  match mmu_translate s.(pmem) cr3 va false false with
  | Some pa => Ret (ld32 s.(pmem) pa) s
  | None => Wild s
  end.
Definition vstore32 (cr3 va v : Z) : M pmap unit := fun s =>
  match mmu_translate s.(pmem) cr3 va true false with
  | Some pa => Ret tt (set_pmem (st32 s.(pmem) pa v) s)
  | None => Wild s
  end.

(** Byte copies into an address space, in kernel mode: the target of [memset] and
    [memmove] at a user address. *)
Fixpoint vput (cr3 va : Z) (bs : list Z) : M pmap unit :=
  match bs with
  | [] => ret tt
  | b :: bs => fun s =>
      match mmu_translate s.(pmem) cr3 va true false with
      | Some pa => vput cr3 (u32 (va + 1)) bs (set_pmem (st8 s.(pmem) pa b) s)
      | None => Wild s
      end
  end.

(** Bytes read from an address space, in kernel mode. *)
Fixpoint vget (cr3 va : Z) (n : nat) : M pmap (list Z) :=
  match n with
  | O => ret []
  | S n => fun s =>
      match mmu_translate s.(pmem) cr3 va false false with
      | Some pa => (let* bs := vget cr3 (u32 (va + 1)) n in ret (ld8 s.(pmem) pa :: bs)) s
      | None => Wild s
      end
  end.

Definition check_page_installed_pgdir (cr3 : Z) : M pmap unit :=
  let* pp0 := alloc_some 0 in
  let* pp1 := alloc_some 0 in
  let* pp2 := alloc_some 0 in
  page_free pp0 ;;;
  let* kva1 := page2kva pp1 in kmemset kva1 1 PGSIZE ;;;
  let* kva2 := page2kva pp2 in kmemset kva2 2 PGSIZE ;;;
  let* kp := gets kern_pgdir in
  page_insert kp pp1 PGSIZE PTE_W ;;;
  ref_is pp1 1 ;;;
  let* w := vload32 cr3 PGSIZE in
  assert (w =? 0x01010101) ;;;
  page_insert kp pp2 PGSIZE PTE_W ;;;
  let* w := vload32 cr3 PGSIZE in
  assert (w =? 0x02020202) ;;;
  ref_is pp2 1 ;;; ref_is pp1 0 ;;;
  vstore32 cr3 PGSIZE 0x03030303 ;;;
  let* kva := page2kva pp2 in
  let* w := kload32 kva in
  assert (w =? 0x03030303) ;;;
  page_remove kp PGSIZE ;;;
  ref_is pp2 0 ;;;
  let* pde0 := kload32 kp in
  assert (PTE_ADDR pde0 =? page2pa pp0) ;;;
  kstore32 kp 0 ;;;
  ref_is pp0 1 ;;;
  set_ref pp0 0 ;;;
  page_free pp0.

(** ** [mem_init] *)

Definition mem_init_mp : M pmap unit :=
  let* kp := gets kern_pgdir in
  for_up 9 0 NCPU 1 (fun i =>
    let kstacktop_i := u32 (KSTACKTOP - i * (KSTKSIZE + KSTKGAP)) in
    let* pa := PADDR (sym_percpu_kstacks i) in
    boot_map_region kp (u32 (kstacktop_i - KSTKSIZE)) KSTKSIZE pa (Z.lor PTE_W PTE_P)).

(** [memset(pages, 0, ...)]: every [PageInfo] has a null link and no reference. *)
Definition zero_pages (n : Z) : gmap Z PageInfo :=
  list_to_map ((fun i => (Z.of_nat i, mkPageInfo None 0)) <$> seq 0 (Z.to_nat n)).

(** The result is what is loaded into [cr3] and [cr0]; [cr0] is its value before. *)
Definition mem_init (cr0 : Z) : M pmap (Z * Z) :=
  i386_detect_memory ;;;
  let* kp := boot_alloc PGSIZE in
  modify (set_kern_pgdir kp) ;;;
  kmemset kp 0 PGSIZE ;;;
  let* pa := PADDR kp in
  kstore32 (pde_at kp UVPT) (Z.lor (Z.lor pa PTE_U) PTE_P) ;;;
  let* np := gets npages in
  let* pv := boot_alloc (np * sizeof_PageInfo) in
  modify (set_pages_va pv) ;;;
  kmemset pv 0 (np * sizeof_PageInfo) ;;;
  modify (set_pages (zero_pages np)) ;;;
  let* ev := boot_alloc (NENV * sizeof_Env) in
  modify (set_envs_va ev) ;;;
  kmemset ev 0 (NENV * sizeof_Env) ;;;
  page_init ;;;
  check_page_free_list true ;;;
  check_page_alloc ;;;
  check_page ;;;
  let* ppa := PADDR pv in
  boot_map_region kp UPAGES PTSIZE ppa PTE_U ;;;
  let* epa := PADDR ev in
  boot_map_region kp UENVS PTSIZE epa PTE_U ;;;
  let* spa := PADDR sym_bootstack in
  boot_map_region kp (KSTACKTOP - KSTKSIZE) KSTKSIZE spa (Z.lor PTE_W PTE_P) ;;;
  boot_map_region kp KERNBASE (0xffffffff - KERNBASE) 0 (Z.lor PTE_W PTE_P) ;;;
  mem_init_mp ;;;
  check_kern_pgdir ;;;
  let* cr3 := PADDR kp in
  check_page_free_list false ;;;
  let cr0 := Z.lor cr0 (Z.lor CR0_PE (Z.lor CR0_PG (Z.lor CR0_AM
               (Z.lor CR0_WP (Z.lor CR0_NE CR0_MP))))) in
  let cr0 := Z.land cr0 (u32 (Z.lnot (Z.lor CR0_TS CR0_EM))) in
  check_page_installed_pgdir cr3 ;;;
  ret (cr3, cr0).
End Check.
