(* ===== verification/Env.v ===== *)
(** User environments: [kern/env.c].

    The state [kern] holds the globals of the kernel proper: [envs],
    [env_free_list], the per-CPU records of [kern/cpu.h], the big kernel lock, the
    clock, and the states of the memory manager, the console and the network card.
    A [struct Env *] is an index into [envs].  Operations that depend on [cpunum()]
    take it as the section variable [cpu]. *)

From S2P Require Import Prelude Mmu Mem Console E1000 Pmap PmapBoot.

Definition ENVGENSHIFT : Z := 12.
Definition ENVX (envid : Z) : Z := Z.land envid (NENV - 1).

Definition ENV_FREE : Z := 0.
Definition ENV_DYING : Z := 1.
Definition ENV_RUNNABLE : Z := 2.
Definition ENV_RUNNING : Z := 3.
Definition ENV_NOT_RUNNABLE : Z := 4.

Definition ENV_TYPE_USER : Z := 0.
Definition ENV_TYPE_FS : Z := 1.

Definition CPU_STARTED : Z := 1.
Definition CPU_HALTED : Z := 2.

Record PushRegs := mkRegs {
  reg_edi : Z; reg_esi : Z; reg_ebp : Z; reg_oesp : Z;
  reg_ebx : Z; reg_edx : Z; reg_ecx : Z; reg_eax : Z;
}.

Record Trapframe := mkTf {
  tf_regs : PushRegs;
  tf_es : Z; tf_ds : Z; tf_trapno : Z; tf_err : Z; tf_eip : Z; tf_cs : Z;
  tf_eflags : Z; tf_esp : Z; tf_ss : Z;
}.

Definition regs0 : PushRegs := mkRegs 0 0 0 0 0 0 0 0.
Definition tf0 : Trapframe := mkTf regs0 0 0 0 0 0 0 0 0 0.

Definition set_eax (v : Z) (t : Trapframe) : Trapframe :=
  let r := t.(tf_regs) in
  mkTf (mkRegs r.(reg_edi) r.(reg_esi) r.(reg_ebp) r.(reg_oesp) r.(reg_ebx) r.(reg_edx)
          r.(reg_ecx) (u32 v))
    t.(tf_es) t.(tf_ds) t.(tf_trapno) t.(tf_err) t.(tf_eip) t.(tf_cs) t.(tf_eflags)
    t.(tf_esp) t.(tf_ss).
Definition set_eip_esp (eip esp : Z) (t : Trapframe) : Trapframe :=
  mkTf t.(tf_regs) t.(tf_es) t.(tf_ds) t.(tf_trapno) t.(tf_err) eip t.(tf_cs) t.(tf_eflags)
    esp t.(tf_ss).
Definition set_eflags (v : Z) (t : Trapframe) : Trapframe :=
  mkTf t.(tf_regs) t.(tf_es) t.(tf_ds) t.(tf_trapno) t.(tf_err) t.(tf_eip) t.(tf_cs) v
    t.(tf_esp) t.(tf_ss).

Record Env := mkEnv {
  env_tf : Trapframe;
  env_link : option Z;
  env_id : Z;
  env_parent_id : Z;
  env_type : Z;
  env_status : Z;
  env_runs : Z;
  env_cpunum : Z;
  env_pgdir : Z;
  env_pgfault_upcall : Z;
  env_ipc_recving : bool;
  env_ipc_dstva : Z;
  env_ipc_value : Z;
  env_ipc_from : Z;
  env_ipc_perm : Z;
}.

Definition set_env_tf (v : Trapframe) (e : Env) : Env :=
  mkEnv v e.(env_link) e.(env_id) e.(env_parent_id) e.(env_type) e.(env_status) e.(env_runs)
    e.(env_cpunum) e.(env_pgdir) e.(env_pgfault_upcall) e.(env_ipc_recving) e.(env_ipc_dstva)
    e.(env_ipc_value) e.(env_ipc_from) e.(env_ipc_perm).
Definition set_env_link (v : option Z) (e : Env) : Env :=
  mkEnv e.(env_tf) v e.(env_id) e.(env_parent_id) e.(env_type) e.(env_status) e.(env_runs)
    e.(env_cpunum) e.(env_pgdir) e.(env_pgfault_upcall) e.(env_ipc_recving) e.(env_ipc_dstva)
    e.(env_ipc_value) e.(env_ipc_from) e.(env_ipc_perm).
Definition set_env_id (v : Z) (e : Env) : Env :=
  mkEnv e.(env_tf) e.(env_link) v e.(env_parent_id) e.(env_type) e.(env_status) e.(env_runs)
    e.(env_cpunum) e.(env_pgdir) e.(env_pgfault_upcall) e.(env_ipc_recving) e.(env_ipc_dstva)
    e.(env_ipc_value) e.(env_ipc_from) e.(env_ipc_perm).
Definition set_env_type (v : Z) (e : Env) : Env :=
  mkEnv e.(env_tf) e.(env_link) e.(env_id) e.(env_parent_id) v e.(env_status) e.(env_runs)
    e.(env_cpunum) e.(env_pgdir) e.(env_pgfault_upcall) e.(env_ipc_recving) e.(env_ipc_dstva)
    e.(env_ipc_value) e.(env_ipc_from) e.(env_ipc_perm).
Definition set_env_status (v : Z) (e : Env) : Env :=
  mkEnv e.(env_tf) e.(env_link) e.(env_id) e.(env_parent_id) e.(env_type) v e.(env_runs)
    e.(env_cpunum) e.(env_pgdir) e.(env_pgfault_upcall) e.(env_ipc_recving) e.(env_ipc_dstva)
    e.(env_ipc_value) e.(env_ipc_from) e.(env_ipc_perm).
Definition set_env_runs (v : Z) (e : Env) : Env :=
  mkEnv e.(env_tf) e.(env_link) e.(env_id) e.(env_parent_id) e.(env_type) e.(env_status) v
    e.(env_cpunum) e.(env_pgdir) e.(env_pgfault_upcall) e.(env_ipc_recving) e.(env_ipc_dstva)
    e.(env_ipc_value) e.(env_ipc_from) e.(env_ipc_perm).
Definition set_env_cpunum (v : Z) (e : Env) : Env :=
  mkEnv e.(env_tf) e.(env_link) e.(env_id) e.(env_parent_id) e.(env_type) e.(env_status)
    e.(env_runs) v e.(env_pgdir) e.(env_pgfault_upcall) e.(env_ipc_recving) e.(env_ipc_dstva)
    e.(env_ipc_value) e.(env_ipc_from) e.(env_ipc_perm).
Definition set_env_pgdir (v : Z) (e : Env) : Env :=
  mkEnv e.(env_tf) e.(env_link) e.(env_id) e.(env_parent_id) e.(env_type) e.(env_status)
    e.(env_runs) e.(env_cpunum) v e.(env_pgfault_upcall) e.(env_ipc_recving) e.(env_ipc_dstva)
    e.(env_ipc_value) e.(env_ipc_from) e.(env_ipc_perm).
Definition set_env_upcall (v : Z) (e : Env) : Env :=
  mkEnv e.(env_tf) e.(env_link) e.(env_id) e.(env_parent_id) e.(env_type) e.(env_status)
    e.(env_runs) e.(env_cpunum) e.(env_pgdir) v e.(env_ipc_recving) e.(env_ipc_dstva)
    e.(env_ipc_value) e.(env_ipc_from) e.(env_ipc_perm).
Definition set_env_ipc_wait (r : bool) (dst : Z) (e : Env) : Env :=
  mkEnv e.(env_tf) e.(env_link) e.(env_id) e.(env_parent_id) e.(env_type) e.(env_status)
    e.(env_runs) e.(env_cpunum) e.(env_pgdir) e.(env_pgfault_upcall) r dst
    e.(env_ipc_value) e.(env_ipc_from) e.(env_ipc_perm).
Definition set_env_ipc_msg (v from perm : Z) (e : Env) : Env :=
  mkEnv e.(env_tf) e.(env_link) e.(env_id) e.(env_parent_id) e.(env_type) e.(env_status)
    e.(env_runs) e.(env_cpunum) e.(env_pgdir) e.(env_pgfault_upcall) e.(env_ipc_recving)
    e.(env_ipc_dstva) v from perm.

(** [struct CpuInfo], with the page directory loaded in the CPU's [cr3]. *)
Record CpuInfo := mkCpu { cpu_status : Z; cpu_env : option Z; cpu_cr3 : Z }.

Record kern := mkKern {
  pm : pmap;
  envs : gmap Z Env;
  env_free_list : option Z;
  cpus : gmap Z CpuInfo;
  kernel_lock : option Z;           (* the CPU holding the big kernel lock *)
  ticks : Z;
  cons : console;
  e1000 : nic;
}.

Definition set_pm (v : pmap) (s : kern) : kern :=
  mkKern v s.(envs) s.(env_free_list) s.(cpus) s.(kernel_lock) s.(ticks) s.(cons) s.(e1000).
Definition set_envs (v : gmap Z Env) (s : kern) : kern :=
  mkKern s.(pm) v s.(env_free_list) s.(cpus) s.(kernel_lock) s.(ticks) s.(cons) s.(e1000).
Definition set_env_free_list (v : option Z) (s : kern) : kern :=
  mkKern s.(pm) s.(envs) v s.(cpus) s.(kernel_lock) s.(ticks) s.(cons) s.(e1000).
Definition set_cpus (v : gmap Z CpuInfo) (s : kern) : kern :=
  mkKern s.(pm) s.(envs) s.(env_free_list) v s.(kernel_lock) s.(ticks) s.(cons) s.(e1000).
Definition set_kernel_lock (v : option Z) (s : kern) : kern :=
  mkKern s.(pm) s.(envs) s.(env_free_list) s.(cpus) v s.(ticks) s.(cons) s.(e1000).
Definition set_ticks (v : Z) (s : kern) : kern :=
  mkKern s.(pm) s.(envs) s.(env_free_list) s.(cpus) s.(kernel_lock) v s.(cons) s.(e1000).
Definition set_cons (v : console) (s : kern) : kern :=
  mkKern s.(pm) s.(envs) s.(env_free_list) s.(cpus) s.(kernel_lock) s.(ticks) v s.(e1000).
Definition set_e1000 (v : nic) (s : kern) : kern :=
  mkKern s.(pm) s.(envs) s.(env_free_list) s.(cpus) s.(kernel_lock) s.(ticks) s.(cons) v.

(** Run an operation of the memory manager, of the console or of the card. *)
Definition on_pm {A} (m : M pmap A) : M kern A := zoom pm set_pm m.
Definition on_cons {A} (m : M console A) : M kern A := zoom cons set_cons m.
Definition on_nic {A} (m : M nic A) : M kern A := zoom e1000 set_e1000 m.

(** [envs[i]] as a value and as an lvalue. *)
Definition get_env (i : Z) : M kern Env := fun s =>
  match s.(envs) !! i with Some e => Ret e s | None => Wild s end.
Definition upd_env (i : Z) (f : Env -> Env) : M kern unit := fun s =>
  match s.(envs) !! i with
  | Some e => Ret tt (set_envs (<[i := f e]> s.(envs)) s)
  | None => Wild s
  end.

Section Cpu.
Context {Mach : Machine} (cpu : Z).

(** [thiscpu] *)
Definition get_cpu : M kern CpuInfo := fun s =>
  match s.(cpus) !! cpu with Some c => Ret c s | None => Wild s end.
Definition upd_cpu (f : CpuInfo -> CpuInfo) : M kern unit := fun s =>
  match s.(cpus) !! cpu with
  | Some c => Ret tt (set_cpus (<[cpu := f c]> s.(cpus)) s)
  | None => Wild s
  end.

Definition curenv : M kern (option Z) := let* c := get_cpu in ret c.(cpu_env).
Definition set_curenv (v : option Z) : M kern unit :=
  upd_cpu (fun c => mkCpu c.(cpu_status) v c.(cpu_cr3)).
Definition lcr3 (v : Z) : M kern unit :=
  upd_cpu (fun c => mkCpu c.(cpu_status) c.(cpu_env) v).

(** [lcr3(PADDR(kva))] *)
Definition load_pgdir (kva : Z) : M kern unit := let* pa := on_pm (PADDR kva) in lcr3 pa.

(** [lock_kernel] and [unlock_kernel]: a CPU that already holds the lock panics; one
    that finds it taken spins until another CPU lets go. *)
Definition lock_kernel : M kern unit :=
  let* l := gets kernel_lock in
  match l with
  | None => modify (set_kernel_lock (Some cpu))
  | Some c => if c =? cpu then panic else out_of_fuel
  end.
Definition unlock_kernel : M kern unit :=
  let* l := gets kernel_lock in
  if bool_decide (l = Some cpu) then modify (set_kernel_lock None) else panic.

(** ** [envid2env] *)

Definition envid2env (envid : Z) (checkperm : bool) : M kern (Z * option Z) :=
  if envid =? 0 then let* cur := curenv in ret (0, cur)
  else
    let i := ENVX envid in
    let* e := get_env i in
    if (e.(env_status) =? ENV_FREE) || negb (e.(env_id) =? envid) then ret (- E_BAD_ENV, None)
    else
      let* cur := curenv in
      let* denied :=
        (if checkperm && negb (bool_decide (cur = Some i)) then
           match cur with
           | None => wild
           | Some c => let* ce := get_env c in ret (negb (e.(env_parent_id) =? ce.(env_id)))
           end
         else ret false) in
      if denied : bool then ret (- E_BAD_ENV, None) else ret (0, Some i).

(** ** Creating environments *)

(** [env_init]: every slot free, in order. *)
Definition env_init : M kern unit :=
  modify (set_env_free_list None) ;;;
  for_n (Z.to_nat NENV) 0 (fun k =>
    let i := NENV - 1 - k in
    let* fl := gets env_free_list in
    upd_env i (fun e => set_env_link fl (set_env_id 0 (set_env_status ENV_FREE e))) ;;;
    modify (set_env_free_list (Some i))).

Definition env_setup_vm (e : Z) : M kern Z :=
  let* p := on_pm (page_alloc ALLOC_ZERO) in
  match p with
  | None => ret (- E_NO_MEM)
  | Some p =>
      let* pi := on_pm (get_page p) in
      on_pm (set_ref p (pi.(pp_ref) + 1)) ;;;
      let* pgdir := on_pm (page2kva p) in
      upd_env e (set_env_pgdir pgdir) ;;;
      on_pm (for_n (Z.to_nat (PDX UTOP)) 0 (fun i => kstore32 (pgdir + 4 * i) 0)) ;;;
      on_pm (for_n (Z.to_nat (NPDENTRIES - PDX UTOP)) (PDX UTOP) (fun i =>
        let* kp := gets kern_pgdir in
        let* w := kload32 (kp + 4 * i) in
        kstore32 (pgdir + 4 * i) w)) ;;;
      let* pa := on_pm (PADDR pgdir) in
      on_pm (kstore32 (pgdir + 4 * PDX UVPT) (Z.lor (Z.lor pa PTE_P) PTE_U)) ;;;
      ret 0
  end.

(** The identifier given to slot [i] whose previous identifier was [old]. *)
Definition next_id (old i : Z) : Z :=
  let generation := Z.land (s32 (old + Z.shiftl 1 ENVGENSHIFT)) (Z.lnot (NENV - 1)) in
  let generation := if generation <=? 0 then Z.shiftl 1 ENVGENSHIFT else generation in
  Z.lor generation i.

(** The registers a new environment starts with. *)
Definition new_tf : Trapframe :=
  mkTf regs0 (Z.lor GD_UD 3) (Z.lor GD_UD 3) 0 0 0 (Z.lor GD_UT 3) FL_IF USTACKTOP (Z.lor GD_UD 3).

(** The environment [env_alloc] makes of [e] in slot [i] after [env_setup_vm]. *)
Definition new_env (i parent_id : Z) (e : Env) : Env :=
  mkEnv new_tf e.(env_link) (next_id e.(env_id) i) parent_id ENV_TYPE_USER ENV_RUNNABLE 0
    e.(env_cpunum) e.(env_pgdir) 0 false e.(env_ipc_dstva) e.(env_ipc_value) e.(env_ipc_from)
    e.(env_ipc_perm).

Definition env_alloc (parent_id : Z) : M kern (Z * option Z) :=
  let* fl := gets env_free_list in
  match fl with
  | None => ret (- E_NO_FREE_ENV, None)
  | Some i =>
      let* r := env_setup_vm i in
      if r <? 0 then ret (r, None)
      else
        upd_env i (new_env i parent_id) ;;;
        let* e := get_env i in
        modify (set_env_free_list e.(env_link)) ;;;
        ret (0, Some i)
  end.

(** ** Loading a program *)

Fixpoint region_alloc_loop (fuel : nat) (pgdir start stop : Z) : M pmap unit :=
  match fuel with
  | O => out_of_fuel
  | S fuel =>
      if start <? stop then
        let* page := page_alloc 0 in
        match page with
        | None => panic
        | Some pp =>
            let* r := page_insert pgdir pp start (Z.lor PTE_W PTE_U) in
            if negb (r =? 0) then panic
            else region_alloc_loop fuel pgdir (u32 (start + PGSIZE)) stop
        end
      else ret tt
  end.

Definition region_alloc (e va len : Z) : M kern unit :=
  let start := ROUNDDOWN va PGSIZE in
  let stop := ROUNDUP (u32 (va + len)) PGSIZE in
  if UTOP <? stop then panic
  else
    let* ee := get_env e in
    on_pm (region_alloc_loop (S (Z.to_nat ((stop - start) / PGSIZE))) ee.(env_pgdir) start stop).

Definition ELF_MAGIC : Z := 0x464C457F.
Definition ELF_PROG_LOAD : Z := 1.

(** Fields of [struct Elf] and [struct Proghdr] at a kernel address. *)
Definition kload16 (kva : Z) : M pmap Z := fun s =>
  if kva <? KERNBASE then Wild s else Ret (ld16 s.(pmem) (kva - KERNBASE)) s.
Definition kget (kva n : Z) : M pmap (list Z) := fun s =>
  if kva <? KERNBASE then Wild s
  else Ret (ld_bytes s.(pmem) (kva - KERNBASE) (Z.to_nat n)) s.

Definition load_segment (e binary ph : Z) : M kern unit :=
  let* p_type := on_pm (kload32 ph) in
  if p_type =? ELF_PROG_LOAD then
    let* p_offset := on_pm (kload32 (ph + 4)) in
    let* p_va := on_pm (kload32 (ph + 8)) in
    let* p_filesz := on_pm (kload32 (ph + 16)) in
    let* p_memsz := on_pm (kload32 (ph + 20)) in
    if p_filesz <=? p_memsz then
      region_alloc e p_va p_memsz ;;;
      let* c := get_cpu in
      on_pm (vput c.(cpu_cr3) p_va (replicate (Z.to_nat p_memsz) 0)) ;;;
      let* bs := on_pm (kget (u32 (binary + p_offset)) p_filesz) in
      on_pm (vput c.(cpu_cr3) p_va bs)
    else panic
  else ret tt.

Definition load_icode (e binary : Z) : M kern unit :=
  let* e_magic := on_pm (kload32 binary) in
  if negb (e_magic =? ELF_MAGIC) then panic
  else
    let* e_phoff := on_pm (kload32 (binary + 28)) in
    let* e_phnum := on_pm (kload16 (binary + 44)) in
    let ph := u32 (binary + e_phoff) in
    let* ee := get_env e in
    load_pgdir ee.(env_pgdir) ;;;
    for_n (Z.to_nat e_phnum) 0 (fun i => load_segment e binary (ph + 32 * i)) ;;;
    let* e_entry := on_pm (kload32 (binary + 24)) in
    upd_env e (fun ee => set_env_tf (set_eip_esp e_entry ee.(env_tf).(tf_esp) ee.(env_tf)) ee) ;;;
    region_alloc e (USTACKTOP - PGSIZE) PGSIZE ;;;
    let* kp := on_pm (gets kern_pgdir) in
    load_pgdir kp.

Definition env_create (binary type : Z) : M kern unit :=
  let* ' (r, e) := env_alloc 0 in
  match e with
  | None => panic
  | Some e =>
      load_icode e binary ;;;
      upd_env e (set_env_type type) ;;;
      if type =? ENV_TYPE_FS then
        upd_env e (fun ee =>
          set_env_tf (set_eflags (Z.lor ee.(env_tf).(tf_eflags) FL_IOPL_3) ee.(env_tf)) ee)
      else ret tt
  end.

(** ** Freeing environments *)

(** The loop over one page table, and the loop over the user part of the directory. *)
Definition free_table (pgdir pdeno pt : Z) : M pmap unit :=
  for_n (Z.to_nat NPTENTRIES) 0 (fun pteno =>
    let* pte := kload32 (u32 (pt + 4 * pteno)) in
    if bits_set pte PTE_P then page_remove pgdir (PGADDR pdeno pteno 0) else ret tt).

Definition free_slot (pgdir pdeno : Z) : M pmap unit :=
  let* pde := kload32 (u32 (pgdir + 4 * pdeno)) in
  if negb (bits_set pde PTE_P) then ret tt
  else
    let pa := PTE_ADDR pde in
    let* pt := KADDR pa in
    free_table pgdir pdeno pt ;;;
    kstore32 (u32 (pgdir + 4 * pdeno)) 0 ;;;
    let* pp := pa2page pa in
    page_decref pp.

Definition free_slots (pgdir : Z) : M pmap unit :=
  for_n (Z.to_nat (PDX UTOP)) 0 (free_slot pgdir).

Definition env_free (e : Z) : M kern unit :=
  let* cur := curenv in
  let* kp := on_pm (gets kern_pgdir) in
  (if bool_decide (cur = Some e) then load_pgdir kp else ret tt) ;;;
  let* ee := get_env e in
  on_pm (free_slots ee.(env_pgdir)) ;;;
  let* pa := on_pm (PADDR ee.(env_pgdir)) in
  upd_env e (set_env_pgdir 0) ;;;
  on_pm (let* pp := pa2page pa in page_decref pp) ;;;
  let* fl := gets env_free_list in
  upd_env e (fun ee => set_env_link fl (set_env_status ENV_FREE ee)) ;;;
  modify (set_env_free_list (Some e)).

(** ** Running environments *)

(** [env_pop_tf] leaves the kernel for the current environment. *)
Definition env_pop_tf {A} : M kern A :=
  let* cur := curenv in
  match cur with
  | None => wild
  | Some e => upd_env e (set_env_cpunum cpu) ;;; fun s => Iret e s
  end.

Definition env_run {A} (e : Z) : M kern A :=
  let* cur := curenv in
  (if bool_decide (cur = Some e) then ret tt
   else
     (match cur with
      | None => ret tt
      | Some c =>
          let* ce := get_env c in
          if ce.(env_status) =? ENV_RUNNING then upd_env c (set_env_status ENV_RUNNABLE)
          else ret tt
      end) ;;;
     set_curenv (Some e) ;;;
     upd_env e (fun ee => set_env_runs (u32 (ee.(env_runs) + 1)) (set_env_status ENV_RUNNING ee)) ;;;
     let* ee := get_env e in
     load_pgdir ee.(env_pgdir)) ;;;
  unlock_kernel ;;;
  env_pop_tf.
End Cpu.
