(* ===== verification/Sched.v ===== *)
(** The scheduler, [kern/sched.c], with the two operations that call it from below:
    [env_destroy] of [kern/env.c] and [user_mem_assert] of [kern/pmap.c]. *)

From S2P Require Import Prelude Mmu Mem Console E1000 Pmap PmapBoot Env.

(** Offset of [env_status] in [struct Env]. *)
Definition off_env_status : Z := 84.

Section Cpu.
Context {Mach : Machine} (cpu : Z).

(** [(envs + i)->env_status].  The scheduler's pointer can stand one past the end of
    the array, where it reads whatever memory holds there. *)
Definition status_at (i : Z) : M kern Z :=
  if i <? NENV then let* e := get_env i in ret e.(env_status)
  else on_pm (let* ev := gets envs_va in kload32 (ev + sizeof_Env * i + off_env_status)).

(** [sched_halt]'s search for an environment that may still run. *)
Fixpoint any_live (n : nat) (i : Z) : M kern bool :=
  match n with
  | O => ret false
  | S n =>
      let* e := get_env i in
      if (e.(env_status) =? ENV_RUNNABLE) || (e.(env_status) =? ENV_RUNNING)
         || (e.(env_status) =? ENV_DYING)
      then ret true else any_live n (i + 1)
  end.

Definition sched_halt {A} : M kern A :=
  let* live := any_live (Z.to_nat NENV) 0 in
  if negb live then fun s => Monitor s
  else
    set_curenv cpu None ;;;
    let* kp := on_pm (gets kern_pgdir) in
    load_pgdir cpu kp ;;;
    upd_cpu cpu (fun c => mkCpu CPU_HALTED c.(cpu_env) c.(cpu_cr3)) ;;;
    unlock_kernel cpu ;;;
    fun s => Halt s.

(** [while (i < 1024)] with [n = 1024 - i] iterations to go; [Some e] is the
    environment to run. *)
Fixpoint sched_scan (n : nat) (idle : Z) : M kern (option Z) :=
  match n with
  | O => ret None
  | S n =>
      let* st := status_at idle in
      if st =? ENV_RUNNABLE then ret (Some idle)
      else sched_scan n (if NENV <=? idle then 0 else idle + 1)
  end.

Definition sched_yield {A} : M kern A :=
  let* cur := curenv cpu in
  let idle := match cur with None => 0 | Some c => c + 1 end in
  let* found := sched_scan (Z.to_nat 1024) idle in
  match found with
  | Some e => env_run cpu e
  | None =>
      let* run_cur :=
        (match cur with
         | None => ret false
         | Some c => let* ce := get_env c in ret (ce.(env_status) =? ENV_RUNNING)
         end) in
      match cur, run_cur with
      | Some c, true => env_run cpu c
      | _, _ => sched_halt
      end
  end.

(** ** [env_destroy] *)

Definition env_destroy (e : Z) : M kern unit :=
  let* cur := curenv cpu in
  let* ee := get_env e in
  if (ee.(env_status) =? ENV_RUNNING) && negb (bool_decide (cur = Some e)) then
    upd_env e (set_env_status ENV_DYING)
  else
    env_free cpu e ;;;
    if bool_decide (cur = Some e) then set_curenv cpu None ;;; sched_yield else ret tt.

(** ** [user_mem_assert] *)

Definition user_mem_assert (env va len perm : Z) : M kern unit :=
  let* ee := get_env env in
  let* r := on_pm (user_mem_check ee.(env_pgdir) va len (Z.lor perm PTE_U)) in
  if r <? 0 then env_destroy env else ret tt.
End Cpu.
