(* ===== verification/Syscall.v ===== *)
(** System calls: [kern/syscall.c], and the clock of [kern/time.c].

    Arguments arrive as 32-bit words; an [envid_t] is such a word read as a signed
    integer. *)

From S2P Require Import Prelude Mmu Mem Console E1000 Pmap PmapBoot Env Sched.

(** ** [kern/time.c] *)

Definition time_init : M kern unit := modify (set_ticks 0).
Definition time_tick : M kern unit :=
  let* t := gets ticks in
  let t := u32 (t + 1) in
  modify (set_ticks t) ;;;
  if u32 (t * 10) <? t then panic else ret tt.
Definition time_msec : M kern Z := let* t := gets ticks in ret (u32 (t * 10)).

(** ** System calls *)

Definition SYS_cputs : Z := 0.
Definition SYS_cgetc : Z := 1.
Definition SYS_getenvid : Z := 2.
Definition SYS_env_destroy : Z := 3.
Definition SYS_page_alloc : Z := 4.
Definition SYS_page_map : Z := 5.
Definition SYS_page_unmap : Z := 6.
Definition SYS_exofork : Z := 7.
Definition SYS_env_set_status : Z := 8.
Definition SYS_env_set_trapframe : Z := 9.
Definition SYS_env_set_pgfault_upcall : Z := 10.
Definition SYS_yield : Z := 11.
Definition SYS_ipc_try_send : Z := 12.
Definition SYS_ipc_recv : Z := 13.
Definition SYS_time_msec : Z := 14.
Definition SYS_e1000_transmit : Z := 15.
Definition NSYSCALLS : Z := 16.

(** A [char] as an [int]. *)
Definition s8 (x : Z) : Z := (x + 2 ^ 7) mod 2 ^ 8 - 2 ^ 7.

(** The argument checks [sys_page_alloc], [sys_page_map] and [sys_ipc_try_send] share. *)
Definition bad_va (va : Z) : bool := (UTOP <=? va) || negb (va mod PGSIZE =? 0).
Definition bad_perm (perm : Z) : bool :=
  negb (Z.land perm PTE_U =? PTE_U) || negb (Z.land perm PTE_P =? PTE_P)
  || nonzero (Z.land perm (u32 (Z.lnot PTE_SYSCALL))).

Section Cpu.
Context {Mach : Machine} (cpu : Z).

(** [curenv], dereferenced. *)
Definition cur : M kern Z :=
  let* c := curenv cpu in match c with Some e => ret e | None => wild end.

(** The string loop of [cprintf] for a "%.*s" directive: the character is read before the
    precision is tested.  A negative precision means no limit; then a string of more than
    65536 characters runs out of fuel. *)
Fixpoint puts_loop (fuel : nat) (p precision : Z) : M kern unit :=
  match fuel with
  | O => out_of_fuel
  | S fuel =>
      let* c := get_cpu cpu in
      let* bs := on_pm (vget c.(cpu_cr3) p 1) in
      match bs with
      | [b] =>
          if b =? 0 then ret tt
          else if precision <? 0 then
            on_cons (cputchar (s8 b)) ;;; puts_loop fuel (u32 (p + 1)) precision
          else if 0 <=? precision - 1 then
            on_cons (cputchar (s8 b)) ;;; puts_loop fuel (u32 (p + 1)) (precision - 1)
          else ret tt
      | _ => wild
      end
  end.

(** [cprintf("(null)")] *)
Definition put_null : M kern unit :=
  foldr (fun c m => on_cons (cputchar c) ;;; m) (ret tt) (chars "(null)").

Definition sys_cputs (s len : Z) : M kern unit :=
  let* e := cur in
  user_mem_assert cpu e s len PTE_U ;;;
  let precision := s32 len in
  if s =? 0 then put_null
  else puts_loop (S (Z.to_nat (if precision <? 0 then 65536 else precision))) s precision.

Definition sys_cgetc : M kern Z := on_cons cons_getc.

Definition sys_getenvid : M kern Z :=
  let* e := cur in let* ee := get_env e in ret ee.(env_id).

Definition sys_env_destroy (envid : Z) : M kern Z :=
  let* ' (r, e) := envid2env cpu envid true in
  if r <? 0 then ret r
  else match e with Some e => env_destroy cpu e ;;; ret 0 | None => wild end.

Definition sys_exofork : M kern Z :=
  let* c := cur in
  let* ce := get_env c in
  let* ' (r, e) := env_alloc ce.(env_id) in
  match e with
  | Some e =>
      upd_env e (set_env_status ENV_NOT_RUNNABLE) ;;;
      let* ce := get_env c in
      upd_env e (set_env_tf (set_eax 0 ce.(env_tf))) ;;;
      let* ee := get_env e in
      ret ee.(env_id)
  | None => ret r
  end.

Definition sys_env_set_status (envid status : Z) : M kern Z :=
  if negb ((status =? ENV_RUNNABLE) || (status =? ENV_NOT_RUNNABLE)) then ret (- E_INVAL)
  else
    let* ' (r, e) := envid2env cpu envid true in
    if r =? 0 then
      match e with Some e => upd_env e (set_env_status status) ;;; ret 0 | None => wild end
    else ret (- E_BAD_ENV).

(** [struct Trapframe] from its 68 bytes. *)
Definition word_at (bs : list Z) (o : nat) : Z :=
  let b i := default 0 (bs !! (o + i)%nat) in
  b 0%nat + 2 ^ 8 * b 1%nat + 2 ^ 16 * b 2%nat + 2 ^ 24 * b 3%nat.
Definition decode_tf (bs : list Z) : Trapframe :=
  let w := word_at bs in
  mkTf (mkRegs (w 0%nat) (w 4%nat) (w 8%nat) (w 12%nat) (w 16%nat) (w 20%nat) (w 24%nat) (w 28%nat))
    (u16 (w 32%nat)) (u16 (w 36%nat)) (w 40%nat) (w 44%nat) (w 48%nat) (u16 (w 52%nat))
    (w 56%nat) (w 60%nat) (u16 (w 64%nat)).

Definition sys_env_set_trapframe (envid tf : Z) : M kern Z :=
  let* ' (r, e) := envid2env cpu envid true in
  if r <? 0 then panic
  else if tf =? 0 then panic
  else
    match e with
    | None => wild
    | Some e =>
        let* c := get_cpu cpu in
        let* bs := on_pm (vget c.(cpu_cr3) tf 68) in
        upd_env e (set_env_tf (decode_tf bs)) ;;;
        ret 0
    end.

Definition sys_env_set_pgfault_upcall (envid func : Z) : M kern Z :=
  let* ' (r, e) := envid2env cpu envid true in
  if r =? 0 then
    match e with Some e => upd_env e (set_env_upcall func) ;;; ret 0 | None => wild end
  else ret (- E_BAD_ENV).

Definition sys_page_alloc (envid va perm : Z) : M kern Z :=
  if bad_va va then ret (- E_INVAL)
  else if bad_perm perm then ret (- E_INVAL)
  else
    let* ' (r, e) := envid2env cpu envid true in
    if negb (r =? 0) then ret (- E_BAD_ENV)
    else
      match e with
      | None => wild
      | Some e =>
          let* pp := on_pm (page_alloc ALLOC_ZERO) in
          match pp with
          | None => ret (- E_NO_MEM)
          | Some pp =>
              let* ee := get_env e in
              let* r := on_pm (page_insert ee.(env_pgdir) pp va perm) in
              if r =? 0 then ret 0
              else on_pm (page_free pp) ;;; ret (- E_NO_MEM)
          end
      end.

Definition sys_page_map (srcenvid srcva dstenvid dstva perm : Z) : M kern Z :=
  if bad_va srcva || bad_va dstva then ret (- E_INVAL)
  else if bad_perm perm then ret (- E_INVAL)
  else
    let* ' (r, src) := envid2env cpu srcenvid true in
    if negb (r =? 0) then ret (- E_BAD_ENV)
    else
      let* ' (r, dst) := envid2env cpu dstenvid true in
      if negb (r =? 0) then ret (- E_BAD_ENV)
      else
        match src, dst with
        | Some src, Some dst =>
            let* se := get_env src in
            let* ' (pp, pte) := on_pm (page_lookup se.(env_pgdir) srcva
                                         (uninit_ptep se.(env_pgdir) srcva)) in
            match pp with
            | None => ret (- E_INVAL)
            | Some pp =>
                let* allowed :=
                  (if nonzero (Z.land perm PTE_W) then
                     let* w := on_pm (kload32 pte) in ret (nonzero (Z.land w PTE_W))
                   else ret true) in
                if allowed : bool then
                  let* de := get_env dst in
                  let* r := on_pm (page_insert de.(env_pgdir) pp dstva perm) in
                  if r <? 0 then ret (- E_NO_MEM) else ret 0
                else ret (- E_INVAL)
            end
        | _, _ => wild
        end.

Definition sys_page_unmap (envid va : Z) : M kern Z :=
  if bad_va va then ret (- E_INVAL)
  else
    let* ' (r, e) := envid2env cpu envid true in
    if negb (r =? 0) then ret (- E_BAD_ENV)
    else
      match e with
      | None => wild
      | Some e =>
          let* ee := get_env e in
          on_pm (page_remove ee.(env_pgdir) va) ;;;
          ret 0
      end.

(** The page transfer of [sys_ipc_try_send]: the error to return, or 0. *)
Definition ipc_transfer (c target srcva perm : Z) : M kern Z :=
  let* te := get_env target in
  if (te.(env_ipc_dstva) <? UTOP) && (srcva <? UTOP) then
    if bad_perm perm then ret (- E_INVAL)
    else
      let* ce := get_env c in
      let* ' (pp, pte) := on_pm (page_lookup ce.(env_pgdir) srcva
                                   (uninit_ptep ce.(env_pgdir) srcva)) in
      match pp with
      | None => ret (- E_INVAL)
      | Some pp =>
          let* allowed :=
            (if nonzero (Z.land perm PTE_W) then
               let* w := on_pm (kload32 pte) in ret (nonzero (Z.land w PTE_W))
             else ret false) in
          if allowed : bool then
            let* r := on_pm (page_insert te.(env_pgdir) pp te.(env_ipc_dstva) perm) in
            if r <? 0 then ret (- E_NO_MEM)
            else
              upd_env target (fun e => set_env_ipc_msg e.(env_ipc_value) e.(env_ipc_from) perm e) ;;;
              ret 0
          else ret (- E_INVAL)
      end
  else
    upd_env target (fun e => set_env_ipc_msg e.(env_ipc_value) e.(env_ipc_from) 0 e) ;;;
    ret 0.

Definition sys_ipc_try_send (envid value srcva perm : Z) : M kern Z :=
  let* ' (r, target) := envid2env cpu envid false in
  if negb (r =? 0) then ret (- E_BAD_ENV)
  else
    match target with
    | None => wild
    | Some t =>
        let* te := get_env t in
        if negb te.(env_ipc_recving) then ret (- E_IPC_NOT_RECV)
        else if (srcva <? UTOP) && negb (srcva mod PGSIZE =? 0) then ret (- E_INVAL)
        else
          let* c := cur in
          let* r := ipc_transfer c t srcva perm in
          if negb (r =? 0) then ret r
          else
            let* ce := get_env c in
            upd_env t (fun e =>
              set_env_tf (set_eax 0 e.(env_tf))
                (set_env_status ENV_RUNNABLE
                   (set_env_ipc_msg value ce.(env_id) e.(env_ipc_perm)
                      (set_env_ipc_wait false e.(env_ipc_dstva) e)))) ;;;
            ret 0
    end.

Definition sys_ipc_recv (dstva : Z) : M kern Z :=
  if (dstva <? UTOP) && negb (dstva mod PGSIZE =? 0) then ret (- E_INVAL)
  else
    let* c := cur in
    upd_env c (fun e => set_env_status ENV_NOT_RUNNABLE (set_env_ipc_wait true dstva e)) ;;;
    sched_yield cpu.

Definition sys_e1000_transmit (addr len : Z) : M kern Z :=
  let* e := cur in
  user_mem_assert cpu e addr len PTE_W ;;;
  if DATA_SIZE <? len then panic
  else
    let* c := get_cpu cpu in
    let* data := on_pm (vget c.(cpu_cr3) addr (Z.to_nat len)) in
    on_nic (e1000_transmit data).

Definition syscall (syscallno a1 a2 a3 a4 a5 : Z) : M kern Z :=
  if syscallno =? SYS_cputs then sys_cputs a1 a2 ;;; ret 0
  else if syscallno =? SYS_cgetc then sys_cgetc ;;; ret 0
  else if syscallno =? SYS_getenvid then sys_getenvid
  else if syscallno =? SYS_env_destroy then sys_env_destroy (s32 a1)
  else if syscallno =? SYS_yield then sched_yield cpu
  else if syscallno =? SYS_page_alloc then sys_page_alloc (s32 a1) a2 a3
  else if syscallno =? SYS_page_map then sys_page_map (s32 a1) a2 (s32 a3) a4 a5
  else if syscallno =? SYS_page_unmap then sys_page_unmap (s32 a1) a2
  else if syscallno =? SYS_exofork then sys_exofork
  else if syscallno =? SYS_env_set_status then sys_env_set_status (s32 a1) (s32 a2)
  else if syscallno =? SYS_env_set_pgfault_upcall then sys_env_set_pgfault_upcall (s32 a1) a2
  else if syscallno =? SYS_ipc_recv then sys_ipc_recv a1
  else if syscallno =? SYS_ipc_try_send then sys_ipc_try_send (s32 a1) a2 a3 a4
  else if syscallno =? SYS_env_set_trapframe then sys_env_set_trapframe (s32 a1) a2
  else if syscallno =? SYS_time_msec then time_msec
  else if syscallno =? SYS_e1000_transmit then sys_e1000_transmit a1 a2
  else if syscallno =? NSYSCALLS then ret 0
  else ret (- E_INVAL).
End Cpu.
