(* ===== verification/Trap.v ===== *)
(** Traps: [kern/trap.c].  Entry into [trap] from [kern/trapentry.S] is the call of
    [trap] with the frame the hardware and the entry code pushed; reports printed by
    [print_trapframe] are left out. *)

From S2P Require Import Prelude Mmu Mem Console E1000 Pmap PmapBoot Env Sched Syscall.

Definition T_DIVIDE : Z := 0.
Definition T_DEBUG : Z := 1.
Definition T_NMI : Z := 2.
Definition T_BRKPT : Z := 3.
Definition T_OFLOW : Z := 4.
Definition T_BOUND : Z := 5.
Definition T_ILLOP : Z := 6.
Definition T_DEVICE : Z := 7.
Definition T_DBLFLT : Z := 8.
Definition T_TSS : Z := 10.
Definition T_SEGNP : Z := 11.
Definition T_STACK : Z := 12.
Definition T_GPFLT : Z := 13.
Definition T_PGFLT : Z := 14.
Definition T_FPERR : Z := 16.
Definition T_ALIGN : Z := 17.
Definition T_MCHK : Z := 18.
Definition T_SIMDERR : Z := 19.
Definition T_SYSCALL : Z := 48.
Definition IRQ_OFFSET : Z := 32.
Definition IRQ_TIMER : Z := 0.
Definition IRQ_KBD : Z := 1.
Definition IRQ_SERIAL : Z := 4.
Definition IRQ_SPURIOUS : Z := 7.
Definition IRQ_IDE : Z := 14.
Definition IRQ_ERROR : Z := 19.

(** ** [trapname] *)

Definition excnames : list string :=
  ["Divide error"; "Debug"; "Non-Maskable Interrupt"; "Breakpoint"; "Overflow";
   "BOUND Range Exceeded"; "Invalid Opcode"; "Device Not Available"; "Double Fault";
   "Coprocessor Segment Overrun"; "Invalid TSS"; "Segment Not Present"; "Stack Fault";
   "General Protection"; "Page Fault"; "(unknown trap)"; "x87 FPU Floating-Point Error";
   "Alignment Check"; "Machine-Check"; "SIMD Floating-Point Exception"]%string.

(** The comparison with [sizeof] is unsigned. *)
Definition trapname (trapno : Z) : string :=
  match (if u32 trapno <? Z.of_nat (length excnames) then excnames !! Z.to_nat (u32 trapno) else None) with
  | Some n => n
  | None =>
      if trapno =? T_SYSCALL then "System call"%string
      else if (IRQ_OFFSET <=? trapno) && (trapno <? IRQ_OFFSET + 16) then "Hardware Interrupt"%string
      else "(unknown trap)"%string
  end.

(** ** The interrupt descriptor table *)

Definition STS_IG32 : Z := 0xE.
Definition STS_TG32 : Z := 0xF.

Record Gatedesc := mkGate {
  gd_off_15_0 : Z; gd_sel : Z; gd_args : Z; gd_rsv1 : Z; gd_type : Z; gd_s : Z;
  gd_dpl : Z; gd_p : Z; gd_off_31_16 : Z;
}.

Definition SETGATE (istrap : bool) (sel off dpl : Z) : Gatedesc :=
  mkGate (Z.land off 0xffff) sel 0 0 (if istrap then STS_TG32 else STS_IG32) 0 dpl 1
    (Z.shiftr (u32 off) 16).

(** The vectors [trap_init] sets, with their privilege levels; [handler v] is the
    address of the entry point for vector [v] in [kern/trapentry.S]. *)
Definition trap_gates : list (Z * Z) :=
  [(T_DIVIDE, 0); (T_DEBUG, 0); (T_NMI, 0); (T_BRKPT, 3); (T_OFLOW, 0); (T_BOUND, 0);
   (T_ILLOP, 0); (T_DEVICE, 0); (T_DBLFLT, 0); (T_TSS, 0); (T_SEGNP, 0); (T_STACK, 0);
   (T_GPFLT, 0); (T_PGFLT, 0); (T_FPERR, 0); (T_ALIGN, 0); (T_MCHK, 0); (T_SIMDERR, 0);
   (T_SYSCALL, 3);
   (IRQ_OFFSET + IRQ_TIMER, 0); (IRQ_OFFSET + IRQ_KBD, 0); (IRQ_OFFSET + IRQ_SERIAL, 0);
   (IRQ_OFFSET + IRQ_SPURIOUS, 0); (IRQ_OFFSET + IRQ_IDE, 0); (IRQ_OFFSET + IRQ_ERROR, 0)].

Definition trap_init (handler : Z -> Z) (idt : gmap Z Gatedesc) : gmap Z Gatedesc :=
  foldl (fun idt '(v, dpl) => <[v := SETGATE false GD_KT (handler v) dpl]> idt) idt trap_gates.

(** The privilege check of the [int n] instruction at privilege level [cpl]: the gate
    is present and its level is not more privileged than the caller. *)
Definition int_allowed (idt : gmap Z Gatedesc) (cpl n : Z) : bool :=
  match idt !! n with Some g => (g.(gd_p) =? 1) && (cpl <=? g.(gd_dpl)) | None => false end.

(** ** [page_fault_handler] *)

Definition sizeof_UTrapframe : Z := 52.

Definition word_bytes (w : Z) : list Z :=
  [u8 w; u8 (Z.shiftr w 8); u8 (Z.shiftr w 16); u8 (Z.shiftr w 24)].

(** The bytes of the [struct UTrapframe] for a fault at [fault_va]. *)
Definition utf_bytes (fault_va : Z) (t : Trapframe) : list Z :=
  let r := t.(tf_regs) in
  mjoin (word_bytes <$>
    [fault_va; t.(tf_err); r.(reg_edi); r.(reg_esi); r.(reg_ebp); r.(reg_oesp); r.(reg_ebx);
     r.(reg_edx); r.(reg_ecx); r.(reg_eax); t.(tf_eip); t.(tf_eflags); t.(tf_esp)]).

Section Cpu.
Context {Mach : Machine} (cpu : Z).

(** [tf] is the frame; when it came from user mode it is also [curenv->env_tf].
    [fault_va] is the contents of [cr2]. *)
Definition page_fault_handler (tf : Trapframe) (fault_va : Z) : M kern unit :=
  if tf.(tf_cs) =? GD_KT then panic
  else
    let* c := cur cpu in
    let* ce := get_env c in
    if ce.(env_pgfault_upcall) =? 0 then env_destroy cpu c
    else
      let* uxtop :=
        (if tf.(tf_esp) <? USTACKTOP then
           let uxtop := UXSTACKTOP - sizeof_UTrapframe in
           user_mem_assert cpu c uxtop sizeof_UTrapframe (Z.lor PTE_W PTE_P) ;;;
           ret uxtop
         else
           let uxtop := u32 (tf.(tf_esp) - sizeof_UTrapframe - 4) in
           user_mem_assert cpu c uxtop (sizeof_UTrapframe + 4) (Z.lor PTE_W PTE_P) ;;;
           ret uxtop) in
      let* ci := get_cpu cpu in
      on_pm (vput ci.(cpu_cr3) uxtop (utf_bytes fault_va tf)) ;;;
      upd_env c (fun e => set_env_tf (set_eip_esp e.(env_pgfault_upcall) uxtop e.(env_tf)) e) ;;;
      env_run cpu c.

(** ** [trap_dispatch] *)

(** [user] says whether [tf] is [curenv->env_tf].  The acknowledgement of the clock
    interrupt ([lapic_eoi]) concerns only the interrupt controller. *)
Definition trap_dispatch (tf : Trapframe) (cr2 : Z) (user : bool) : M kern unit :=
  let n := tf.(tf_trapno) in
  if n =? IRQ_OFFSET + IRQ_SPURIOUS then ret tt
  else if n =? IRQ_OFFSET + IRQ_TIMER then time_tick ;;; sched_yield cpu
  else if n =? IRQ_OFFSET + IRQ_KBD then on_cons kbd_intr
  else if n =? IRQ_OFFSET + IRQ_SERIAL then on_cons serial_intr
  else if n =? T_PGFLT then page_fault_handler tf cr2
  else if n =? T_BRKPT then fun s => Monitor s
  else if n =? T_SYSCALL then
    let r := tf.(tf_regs) in
    let* v := syscall cpu r.(reg_eax) r.(reg_edx) r.(reg_ecx) r.(reg_ebx) r.(reg_edi) r.(reg_esi) in
    if user : bool then
      let* c := cur cpu in upd_env c (fun e => set_env_tf (set_eax v e.(env_tf)) e)
    else ret tt
  else if tf.(tf_cs) =? GD_KT then panic
  else let* c := cur cpu in env_destroy cpu c.

(** ** [trap] *)

(** [eflags] is the processor's flags register on entry.  The halt of a CPU when another one
    has panicked ([panicstr]) is left out. *)
Definition trap (tf : Trapframe) (cr2 eflags : Z) : M kern unit :=
  let* ci := get_cpu cpu in
  upd_cpu cpu (fun c => mkCpu CPU_STARTED c.(cpu_env) c.(cpu_cr3)) ;;;
  (if ci.(cpu_status) =? CPU_HALTED then lock_kernel cpu else ret tt) ;;;
  assert (negb (nonzero (Z.land eflags FL_IF))) ;;;
  let user := Z.land tf.(tf_cs) 3 =? 3 in
  (if user then
     lock_kernel cpu ;;;
     let* c := curenv cpu in
     match c with
     | None => panic
     | Some c =>
         let* ce := get_env c in
         (if ce.(env_status) =? ENV_DYING then
            env_free cpu c ;;; set_curenv cpu None ;;; sched_yield cpu
          else ret tt) ;;;
         upd_env c (set_env_tf tf)
     end
   else ret tt) ;;;
  trap_dispatch tf cr2 user ;;;
  let* c := curenv cpu in
  match c with
  | None => sched_yield cpu
  | Some c =>
      let* ce := get_env c in
      if ce.(env_status) =? ENV_RUNNING then env_run cpu c else sched_yield cpu
  end.
End Cpu.
