(* ===== verification/PmapAlloc.v ===== *)
(** The physical page allocator of [kern/pmap.c]: the free list as a linked list
    through [pages], its abstract specification, and the boot-time free list. *)

From S2P Require Import Prelude Mmu Mem Pmap.

(** [chain pg h l]: following [pp_link] from [h] visits exactly [l], then NULL. *)
Fixpoint chain (pg : gmap Z PageInfo) (h : option Z) (l : list Z) : Prop :=
  match l with
  | [] => h = None
  | x :: l => h = Some x /\ exists pi, pg !! x = Some pi /\ chain pg pi.(pp_link) l
  end.

(** The allocator's invariant: the free list is [l], without repetition; free
    pages have no references; pages that are not free have a null link. *)
Record alloc_wf (s : pmap) (l : list Z) : Prop := {
  aw_chain : chain s.(pages) s.(page_free_list) l;
  aw_nodup : NoDup l;
  aw_free : forall x pi, x ∈ l -> s.(pages) !! x = Some pi -> pi.(pp_ref) = 0;
  aw_dom : forall i, is_Some (s.(pages) !! i) <-> 0 <= i < s.(npages);
  aw_npages : 0 < s.(npages) <= 65536;
  aw_ref : forall i pi, s.(pages) !! i = Some pi -> 0 <= pi.(pp_ref) < 2 ^ 16;
  aw_link : forall i pi, s.(pages) !! i = Some pi -> i ∉ l -> pi.(pp_link) = None;
}.

(** ** Accessor facts *)

Lemma get_page_some s i pi : s.(pages) !! i = Some pi -> get_page i s = Ret pi s.
Proof. unfold get_page. by intros ->. Qed.

Lemma put_page_some s i pi pi' :
  s.(pages) !! i = Some pi -> put_page i pi' s = Ret tt (set_pages (<[i := pi']> s.(pages)) s).
Proof. unfold put_page. by intros ->. Qed.

Lemma set_link_some s i pi v :
  s.(pages) !! i = Some pi ->
  set_link i v s = Ret tt (set_pages (<[i := mkPageInfo v pi.(pp_ref)]> s.(pages)) s).
Proof.
  intros H. unfold set_link. erewrite bind_ret by (by apply get_page_some).
  by eapply put_page_some.
Qed.

Lemma set_ref_some s i pi v :
  s.(pages) !! i = Some pi ->
  set_ref i v s = Ret tt (set_pages (<[i := mkPageInfo pi.(pp_link) (u16 v)]> s.(pages)) s).
Proof.
  intros H. unfold set_ref. erewrite bind_ret by (by apply get_page_some).
  by eapply put_page_some.
Qed.

Lemma page2pa_mul pp : 0 <= pp < 2 ^ 20 -> page2pa pp = pp * PGSIZE.
Proof.
  intros H. unfold page2pa. rewrite Z.shiftl_mul_pow2 by clia. apply u32_small. clia.
Qed.

Lemma PGNUM_mul pn o : 0 <= pn < 2 ^ 20 -> 0 <= o < PGSIZE -> PGNUM (pn * PGSIZE + o) = pn.
Proof. intros H Ho. rewrite PGNUM_div by clia. czdm. Qed.

Lemma PGNUM_page pn : 0 <= pn < 2 ^ 20 -> PGNUM (pn * PGSIZE) = pn.
Proof. intros H. rewrite <- (Z.add_0_r (pn * PGSIZE)). apply PGNUM_mul; clia. Qed.

Lemma KADDR_page s pn :
  0 <= pn < s.(npages) -> s.(npages) <= 65536 ->
  KADDR (pn * PGSIZE) s = Ret (pn * PGSIZE + KERNBASE) s.
Proof.
  intros H Hn. unfold KADDR. munfold.
  rewrite PGNUM_page by lia.
  destruct (Z.leb_spec s.(npages) pn); [lia|]. f_equal. apply u32_small. clia.
Qed.

Lemma pa2page_page s pn :
  0 <= pn < s.(npages) -> s.(npages) <= 65536 -> pa2page (pn * PGSIZE) s = Ret pn s.
Proof.
  intros H Hn. unfold pa2page. munfold.
  rewrite PGNUM_page by lia.
  destruct (Z.leb_spec s.(npages) pn); [lia|]. done.
Qed.

Lemma page2kva_page s pn :
  0 <= pn < s.(npages) -> s.(npages) <= 65536 ->
  page2kva pn s = Ret (pn * PGSIZE + KERNBASE) s.
Proof.
  intros H Hn. unfold page2kva. rewrite page2pa_mul by lia. by apply KADDR_page.
Qed.

(** Fill page [pn] of memory with zero bytes. *)
Definition zero_page (m : mem) (pn : Z) : mem :=
  st_bytes m (pn * PGSIZE) (replicate (Z.to_nat PGSIZE) 0).

#[global] Arguments zero_page : simpl never.

Lemma kmemset_page s pn :
  0 <= pn ->
  kmemset (pn * PGSIZE + KERNBASE) 0 PGSIZE s = Ret tt (set_pmem (zero_page s.(pmem) pn) s).
Proof.
  intros H. unfold kmemset. destruct (Z.ltb_spec (pn * PGSIZE + KERNBASE) KERNBASE); [clia|].
  rewrite Z.add_simpl_r. unfold zero_page. reflexivity.
Qed.

Lemma ld8_zero_page m pn a :
  ld8 (zero_page m pn) a =
  if (pn * PGSIZE <=? a) && (a <? pn * PGSIZE + PGSIZE) then 0 else ld8 m a.
Proof.
  unfold zero_page. rewrite ld8_st_bytes, length_replicate, Z2Nat.id by clia.
  destruct (_ && _) eqn:E; [|done].
  apply andb_prop in E as [E1 E2]. apply Z.leb_le in E1. apply Z.ltb_lt in E2.
  rewrite (lookup_replicate_2 _ 0) by clia. done.
Qed.

Lemma ld32_zero_page m pn a :
  a mod 4 = 0 ->
  ld32 (zero_page m pn) a = if (pn * PGSIZE <=? a) && (a <? pn * PGSIZE + PGSIZE) then 0 else ld32 m a.
Proof.
  intros Ha. destruct (_ && _) eqn:E.
  - apply andb_prop in E as [E1 E2]. apply Z.leb_le in E1. apply Z.ltb_lt in E2.
    apply ld32_zero. intros i Hi. rewrite ld8_zero_page.
    rewrite (proj2 (Z.leb_le _ _)), (proj2 (Z.ltb_lt _ _)) by czdm. done.
  - apply ld32_ext. intros i Hi. rewrite ld8_zero_page.
    apply andb_false_iff in E. rewrite Z.leb_gt, Z.ltb_ge in E.
    destruct (_ && _) eqn:E'; [|done].
    apply andb_prop in E' as [E1 E2]. apply Z.leb_le in E1. apply Z.ltb_lt in E2. czdm.
Qed.

#[global] Opaque zero_page.

(** ** The linked list *)

Lemma pages_insert_dom (pg : gmap Z PageInfo) x q i :
  is_Some (pg !! x) -> is_Some (<[x := q]> pg !! i) <-> is_Some (pg !! i).
Proof. intros Hx. rewrite lookup_insert_is_Some'. split; [intros [->|]; done|eauto]. Qed.

Lemma chain_insert_other pg h l x pi :
  x ∉ l -> chain pg h l -> chain (<[x := pi]> pg) h l.
Proof.
  revert h. induction l as [|y l IH]; intros h Hx; simpl; [done|].
  intros (-> & q & Hq & Hc). split; [done|]. exists q.
  rewrite lookup_insert_ne by set_solver. split; [done|]. apply IH; set_solver.
Qed.

(** Changing a reference count does not disturb the list. *)
Lemma chain_insert_ref pg h l x pi r :
  pg !! x = Some pi -> chain pg h l -> chain (<[x := mkPageInfo pi.(pp_link) r]> pg) h l.
Proof.
  intros Hx. revert h. induction l as [|y l IH]; intros h; simpl; [done|].
  intros (-> & q & Hq & Hc). split; [done|].
  destruct (decide (x = y)) as [->|].
  - rewrite lookup_insert_eq. simplify_eq. eexists; split; [done|]. by apply IH.
  - rewrite lookup_insert_ne by done. eauto.
Qed.

Lemma chain_functional pg h l l' : chain pg h l -> chain pg h l' -> l = l'.
Proof.
  revert h l'. induction l as [|x l IH]; intros h [|y l']; simpl.
  - done.
  - intros -> [? _]. done.
  - intros [-> _] ?. done.
  - intros (-> & p & Hp & Hc) (Heq & q & Hq & Hc'). simplify_eq. f_equal. eauto.
Qed.

Lemma chain_last pg h l x :
  chain pg h (l ++ [x]) -> exists pi, pg !! x = Some pi /\ pi.(pp_link) = None.
Proof.
  revert h. induction l as [|y l IH]; intros h; simpl; [|naive_solver].
  intros (_ & pi & Hpi & Hl). eauto.
Qed.

Lemma chain_not_last pg h l x y l' :
  chain pg h (l ++ x :: y :: l') -> exists pi, pg !! x = Some pi /\ pi.(pp_link) = Some y.
Proof.
  revert h. induction l as [|z l IH]; intros h; simpl; [|naive_solver].
  intros (_ & pi & Hpi & Hl & _). eauto.
Qed.

(** ** [page_alloc] and [page_free] against the abstract free list *)

(** The state [page_alloc] leaves after taking page [x] off the list. *)
Definition allocated (flags x : Z) (s : pmap) : pmap :=
  let s1 := set_pages (<[x := mkPageInfo None 0]> s.(pages))
              (set_page_free_list (s.(pages) !! x ≫= pp_link) s) in
  if nonzero (Z.land flags ALLOC_ZERO) then set_pmem (zero_page s.(pmem) x) s1 else s1.

Lemma page_alloc_empty flags s : alloc_wf s [] -> page_alloc flags s = Ret None s.
Proof. intros H. unfold page_alloc. munfold. by rewrite (aw_chain _ _ H). Qed.

Lemma page_alloc_pop flags s x l :
  alloc_wf s (x :: l) ->
  page_alloc flags s = Ret (Some x) (allocated flags x s) /\ alloc_wf (allocated flags x s) l.
Proof.
  intros [Hc Hnd Hf Hd Hn Hr Hl]. destruct Hc as (Hh & pi & Hpi & Hc).
  assert (0 <= x < s.(npages)) as Hx by (apply Hd; eauto).
  assert (pi.(pp_ref) = 0) as Hr0 by (apply (Hf x); [set_solver|done]).
  apply NoDup_cons in Hnd as [Hxl Hnd].
  split.
  - unfold page_alloc, allocated. munfold. rewrite Hh, (get_page_some _ _ pi) by done.
    cbn -[set_link]. rewrite (set_link_some _ _ pi) by done. rewrite Hr0, Hpi. simpl.
    destruct (nonzero _); [|done].
    rewrite page2kva_page by (simpl; lia). by rewrite kmemset_page by lia.
  - assert (pages (allocated flags x s) = <[x := mkPageInfo None 0]> s.(pages)) as Hpg
      by (unfold allocated; by case_match).
    assert (page_free_list (allocated flags x s) = pi.(pp_link)) as Hfl
      by (unfold allocated; rewrite Hpi; by case_match).
    assert (npages (allocated flags x s) = s.(npages)) as Hnp
      by (unfold allocated; by case_match).
    split; rewrite ?Hpg, ?Hfl, ?Hnp; try done.
    + by apply chain_insert_other.
    + intros y q Hy. rewrite lookup_insert_ne by set_solver. apply Hf. set_solver.
    + intros i. rewrite pages_insert_dom by eauto. apply Hd.
    + intros i q. rewrite lookup_insert_Some. intros [[<- <-]|[? ?]]; [simpl; lia|eauto].
    + intros i q. rewrite lookup_insert_Some. intros [[<- <-]|[? ?]] Hi; [done|].
      apply (Hl i); [done|set_solver].
Qed.

(** The state [page_free] leaves after pushing page [x]. *)
Definition freed (x : Z) (s : pmap) : pmap :=
  set_page_free_list (Some x)
    (set_pages (<[x := mkPageInfo s.(page_free_list) 0]> s.(pages)) s).

Lemma page_free_push s x pi l :
  alloc_wf s l -> s.(pages) !! x = Some pi -> pi.(pp_ref) = 0 -> x ∉ l ->
  page_free x s = Ret tt (freed x s) /\ alloc_wf (freed x s) (x :: l).
Proof.
  intros [Hc Hnd Hf Hd Hn Hr Hl] Hpi Hr0 Hx.
  assert (pi.(pp_link) = None) as Hlk by eauto. split.
  - unfold page_free. erewrite bind_ret by (by apply get_page_some).
    rewrite Hlk, Hr0. simpl. munfold. by rewrite (set_link_some _ _ pi), Hr0.
  - split; simpl; try done.
    + split; [done|]. rewrite lookup_insert_eq. eexists; split; [done|].
      by apply chain_insert_other.
    + by constructor.
    + intros y q Hy. rewrite lookup_insert_Some. intros [[<- <-]|[Hne Hq]]; [done|].
      apply (Hf y); [set_solver|done].
    + intros i. rewrite pages_insert_dom by eauto. apply Hd.
    + intros i q. rewrite lookup_insert_Some. intros [[<- <-]|[? ?]]; [simpl; lia|eauto].
    + intros i q. rewrite lookup_insert_Some. intros [[<- <-]|[? ?]] Hi; [set_solver|].
      apply (Hl i); [done|set_solver].
Qed.

Lemma page_free_refuses s x pi :
  s.(pages) !! x = Some pi -> pi.(pp_link) <> None \/ pi.(pp_ref) <> 0 ->
  page_free x s = Panic s.
Proof.
  intros Hpi H. unfold page_free. erewrite bind_ret by (by apply get_page_some).
  destruct (decide (pi.(pp_link) = None)) as [E|E].
  - rewrite bool_decide_eq_false_2 by naive_solver. destruct H; [done|].
    unfold nonzero. by rewrite (proj2 (Z.eqb_neq _ _)).
  - by rewrite bool_decide_eq_true_2.
Qed.

(** Setting the reference count of a page in use keeps the invariant. *)
Lemma alloc_wf_set_ref s x pi l r :
  alloc_wf s l -> s.(pages) !! x = Some pi -> x ∉ l -> 0 <= r < 2 ^ 16 ->
  alloc_wf (set_pages (<[x := mkPageInfo None r]> s.(pages)) s) l.
Proof.
  intros [Hc Hnd Hf Hd Hn Hr Hl] Hpi Hx Hrng. split; simpl; try done.
  - by apply chain_insert_other.
  - intros y q Hy. rewrite lookup_insert_ne by set_solver. by apply Hf.
  - intros i. rewrite pages_insert_dom by eauto. apply Hd.
  - intros i q. rewrite lookup_insert_Some. intros [[<- <-]|[? ?]]; [simpl; lia|eauto].
  - intros i q. rewrite lookup_insert_Some. intros [[<- <-]|[? ?]] Hi; [done|eauto].
Qed.

(** [page_decref] on a page with at least two references only counts down; on the
    last reference it also frees the page. *)
Lemma page_decref_many s x pi l :
  alloc_wf s l -> s.(pages) !! x = Some pi -> 1 < pi.(pp_ref) -> x ∉ l ->
  let s' := set_pages (<[x := mkPageInfo None (pi.(pp_ref) - 1)]> s.(pages)) s in
  page_decref x s = Ret tt s' /\ alloc_wf s' l.
Proof.
  intros Hwf Hpi H1 Hx. simpl. pose proof (aw_link _ _ Hwf _ _ Hpi Hx) as Hlk.
  pose proof (aw_ref _ _ Hwf _ _ Hpi) as Hrng. split.
  - unfold page_decref. erewrite bind_ret by (by apply get_page_some).
    erewrite bind_ret by (by apply set_ref_some).
    rewrite u16_small, Hlk by lia. rewrite (proj2 (Z.eqb_neq _ _)) by lia. done.
  - apply (alloc_wf_set_ref _ _ pi); done || lia.
Qed.

Lemma page_decref_last s x pi l :
  alloc_wf s l -> s.(pages) !! x = Some pi -> pi.(pp_ref) = 1 -> x ∉ l ->
  page_decref x s = Ret tt (freed x s) /\ alloc_wf (freed x s) (x :: l).
Proof.
  intros Hwf Hpi H1 Hx. pose proof (aw_link _ _ Hwf _ _ Hpi Hx) as Hlk.
  pose proof (alloc_wf_set_ref s x pi l 0 Hwf Hpi Hx ltac:(lia)) as Hwf'.
  destruct (page_free_push _ x (mkPageInfo None 0) l Hwf') as [Hrun Hwf''];
    [by simpl; rewrite lookup_insert_eq|done|done|].
  assert (freed x (set_pages (<[x := mkPageInfo None 0]> s.(pages)) s) = freed x s) as Heq.
  { unfold freed. simpl. by rewrite insert_insert_eq. }
  rewrite Heq in *. split; [|done].
  unfold page_decref. erewrite bind_ret by (by apply get_page_some).
  erewrite bind_ret by (by apply set_ref_some). rewrite Hlk, H1. done.
Qed.

(** ** The boot-time free list *)

Section Init.
Context {Mach : Machine}.

(** What [page_init] keeps out of the free list: page 0, the I/O hole, the kernel
    image with the boot-time allocations above [EXTPHYSMEM], and the AP startup
    page.  [top] is the first address [boot_alloc] has not handed out. *)
Definition page_usable (top i : Z) : bool :=
  negb (i =? 0)
  && negb ((IOPHYSMEM / PGSIZE <=? i) && (i <? EXTPHYSMEM / PGSIZE))
  && negb ((EXTPHYSMEM / PGSIZE <=? i) && (i <? (top - KERNBASE) / PGSIZE))
  && negb (i =? MPENTRY_PADDR / PGSIZE).

(** The usable pages among the first [n], latest first. *)
Fixpoint usable_below (top : Z) (n : nat) : list Z :=
  match n with
  | O => []
  | S n => (if page_usable top (Z.of_nat n) then [Z.of_nat n] else []) ++ usable_below top n
  end.

Lemma usable_below_elem top n x :
  x ∈ usable_below top n <-> 0 <= x < Z.of_nat n /\ page_usable top x = true.
Proof.
  induction n as [|n IH]; simpl; [set_solver by lia|].
  rewrite elem_of_app, IH. split.
  - intros [H|[H1 H2]]; [|split; [lia|done]].
    destruct (page_usable top (Z.of_nat n)) eqn:E; [|set_solver].
    apply list_elem_of_singleton in H as ->. split; [lia|done].
  - intros [H1 H2]. destruct (decide (x = Z.of_nat n)) as [->|].
    + left. rewrite H2. set_solver.
    + right. split; [lia|done].
Qed.

Lemma usable_below_nodup top n : NoDup (usable_below top n).
Proof.
  induction n as [|n IH]; simpl; [constructor|].
  destruct (page_usable top (Z.of_nat n)); simpl; [|done].
  constructor; [|done]. rewrite usable_below_elem. lia.
Qed.

Lemma boot_alloc_0 s : s.(nextfree) <> 0 -> boot_alloc 0 s = Ret s.(nextfree) s.
Proof.
  intros H. unfold boot_alloc. munfold. rewrite (proj2 (Z.eqb_neq _ _)) by done. done.
Qed.

(** The state after [page_init] has looked at the pages below [i]. *)
Record init_upto (s0 : pmap) (i : nat) (s : pmap) : Prop := {
  iu_chain : chain s.(pages) s.(page_free_list) (usable_below s0.(nextfree) i);
  iu_dom : forall j, is_Some (s.(pages) !! j) <-> 0 <= j < s0.(npages);
  iu_done : forall j pi, 0 <= j < Z.of_nat i -> s.(pages) !! j = Some pi ->
    pi.(pp_ref) = 0 /\ (j ∉ usable_below s0.(nextfree) i -> pi.(pp_link) = None);
  iu_rest : s = set_page_free_list s.(page_free_list) (set_pages s.(pages) s0);
}.

Lemma init_upto_pages s0 i s j :
  init_upto s0 i s -> 0 <= j < s0.(npages) -> exists pi, s.(pages) !! j = Some pi.
Proof. intros [_ Hd _ _] Hj. apply Hd in Hj as [pi ?]. eauto. Qed.

Lemma init_upto_nextfree s0 i s : init_upto s0 i s -> s.(nextfree) = s0.(nextfree).
Proof. intros [_ _ _ Hs]. by rewrite Hs. Qed.

(** Recording page [i] as reserved. *)
Lemma init_upto_reserve s0 i s :
  init_upto s0 i s -> Z.of_nat i < s0.(npages) ->
  page_usable s0.(nextfree) (Z.of_nat i) = false ->
  exists s', put_page (Z.of_nat i) (mkPageInfo None 0) s = Ret tt s' /\ init_upto s0 (S i) s'.
Proof.
  intros Hi Hlt Hu. destruct (init_upto_pages s0 i s (Z.of_nat i)) as [pi Hpi]; [done|lia|].
  eexists; split; [by eapply put_page_some|]. destruct Hi as [Hc Hd Hdone Hs].
  split; cbn [usable_below]; rewrite ?Hu; simpl.
  - apply chain_insert_other; [|done]. rewrite usable_below_elem. lia.
  - intros j. rewrite pages_insert_dom by eauto. apply Hd.
  - intros j q Hj. rewrite lookup_insert_Some. intros [[<- <-]|[Hne Hq]]; [done|].
    apply Hdone; [lia|done].
  - by rewrite Hs.
Qed.

(** Pushing page [i] on the free list. *)
Lemma init_upto_push s0 i s :
  init_upto s0 i s -> Z.of_nat i < s0.(npages) ->
  page_usable s0.(nextfree) (Z.of_nat i) = true ->
  exists s',
    bind (put_page (Z.of_nat i) (mkPageInfo s.(page_free_list) 0))
      (fun _ => modify (set_page_free_list (Some (Z.of_nat i)))) s = Ret tt s' /\
    init_upto s0 (S i) s'.
Proof.
  intros Hi Hlt Hu. destruct (init_upto_pages s0 i s (Z.of_nat i)) as [pi Hpi]; [done|lia|].
  eexists; split; [by erewrite bind_ret by (by eapply put_page_some)|].
  destruct Hi as [Hc Hd Hdone Hs]. split; cbn [usable_below]; rewrite ?Hu; simpl.
  - split; [done|]. rewrite lookup_insert_eq. eexists; split; [done|]. simpl.
    apply chain_insert_other; [|done]. rewrite usable_below_elem. lia.
  - intros j. rewrite pages_insert_dom by eauto. apply Hd.
  - intros j q Hj. rewrite lookup_insert_Some. intros [[<- <-]|[Hne Hq]]; [set_solver|].
    destruct (Hdone j q) as [? Hl]; [lia|done|]. split; [done|]. set_solver.
  - by rewrite Hs.
Qed.

Lemma page_init_body_step s0 i s :
  init_upto s0 i s -> Z.of_nat i < s0.(npages) -> KERNBASE < s0.(nextfree) < 2 ^ 32 ->
  exists s', page_init_body (Z.of_nat i) s = Ret tt s' /\ init_upto s0 (S i) s'.
Proof.
  intros Hi Hlt Hnf. pose proof (init_upto_nextfree _ _ _ Hi) as Hnf'.
  pose proof (init_upto_reserve _ _ _ Hi Hlt) as Hres.
  pose proof (init_upto_push _ _ _ Hi Hlt) as Hpush.
  unfold page_usable in Hres, Hpush. unfold page_init_body.
  destruct (Z.eqb_spec (Z.of_nat i) 0); cbn [orb andb negb] in *; [auto|].
  destruct ((IOPHYSMEM / PGSIZE <=? Z.of_nat i) && (Z.of_nat i <? EXTPHYSMEM / PGSIZE));
    cbn [orb andb negb] in *; [auto|].
  destruct (EXTPHYSMEM / PGSIZE <=? Z.of_nat i); cbn [orb andb negb] in *.
  - erewrite bind_ret by (erewrite bind_ret by (apply boot_alloc_0; clia); reflexivity).
    rewrite Hnf', u32_small by clia.
    destruct (Z.of_nat i <? (s0.(nextfree) - KERNBASE) / PGSIZE); cbn [negb andb] in *; [auto|].
    destruct (Z.of_nat i =? MPENTRY_PADDR / PGSIZE); cbn [negb andb] in *; [auto|].
    erewrite (bind_ret (gets _)) by reflexivity. auto.
  - erewrite bind_ret by reflexivity.
    destruct (Z.of_nat i =? MPENTRY_PADDR / PGSIZE); cbn [negb andb] in *; [auto|].
    erewrite (bind_ret (gets _)) by reflexivity. auto.
Qed.

Lemma page_init_loop_upto s0 k i s :
  init_upto s0 i s -> Z.of_nat i + Z.of_nat k = s0.(npages) ->
  KERNBASE < s0.(nextfree) < 2 ^ 32 ->
  exists s', page_init_loop k (Z.of_nat i) s = Ret tt s' /\ init_upto s0 (i + k) s'.
Proof.
  revert i s. induction k as [|k IH]; intros i s Hi Hk Hnf; cbn [page_init_loop].
  - exists s. rewrite Nat.add_0_r. done.
  - destruct (page_init_body_step s0 i s) as (s1 & Hrun & Hi1); [done|lia|done|].
    erewrite bind_ret by exact Hrun. destruct (IH (S i) s1) as (s' & Hrun' & Hi');
      [done|lia|done|].
    exists s'. rewrite <- Nat.add_succ_comm. split; [|done].
    rewrite <- Hrun'. f_equal. lia.
Qed.

(** From the zeroed [pages] array and an empty list, [page_init] returns with the
    allocator's invariant for exactly the usable pages, highest page first. *)
Lemma page_init_ok s :
  0 < s.(npages) <= 65536 -> KERNBASE < s.(nextfree) < 2 ^ 32 ->
  s.(page_free_list) = None ->
  (forall j, is_Some (s.(pages) !! j) <-> 0 <= j < s.(npages)) ->
  exists s', page_init s = Ret tt s' /\
    alloc_wf s' (usable_below s.(nextfree) (Z.to_nat s.(npages))) /\
    s' = set_page_free_list s'.(page_free_list) (set_pages s'.(pages) s).
Proof.
  intros Hn Hnf Hfl Hd. unfold page_init. erewrite (bind_ret (gets _)) by reflexivity.
  destruct (page_init_loop_upto s (Z.to_nat s.(npages)) 0 s) as (s' & Hrun & Hi).
  - split; simpl; [done|done|intros; lia|]. destruct s; simpl in *; by subst.
  - lia.
  - done.
  - exists s'. split; [done|]. rewrite Nat.add_0_l in Hi. destruct Hi as [Hc Hdom Hdone Hs].
    split; [|done].
    assert (npages s' = s.(npages)) as Hnp by by rewrite Hs.
    assert (forall i pi, s'.(pages) !! i = Some pi ->
      0 <= i < Z.of_nat (Z.to_nat s.(npages))) as Hin.
    { intros i pi Hpi. rewrite Z2Nat.id by lia. apply Hdom. eauto. }
    split; rewrite ?Hnp; try done.
    + apply usable_below_nodup.
    + intros x pi Hx Hpi. eapply Hdone; eauto.
    + intros i pi Hpi. destruct (Hdone i pi) as [-> _]; eauto. lia.
    + intros i pi Hpi. eapply Hdone; eauto.
Qed.
End Init.
