(* ===== verification/PmapVm.v ===== *)
(** Address spaces: the two-level page tables of [kern/pmap.c] represent a finite
    map from virtual pages to page-table entries, and [pgdir_walk],
    [page_lookup], [page_insert] and [page_remove] implement lookup, insertion and
    deletion on it. *)

From S2P Require Import Prelude Mmu Mem Pmap PmapAlloc.

(** ** The abstract address space

    The directory slots described, the page numbers of the directory and of the
    table of each such slot, and the present entries by virtual page number. *)
Record aspace := mkAspace {
  as_slots : Z -> bool;
  as_dir : Z;
  as_tabs : gmap Z Z;
  as_maps : gmap Z Z;
}.

(** The slots below [UTOP], which belong to the user. *)
Definition user_slots (d : Z) : bool := (0 <=? d) && (d <? UTOP / PTSIZE).

(** Address [va] lies in a described slot. *)
Definition covers (a : aspace) (va : Z) : Prop :=
  0 <= va < 2 ^ 32 /\ a.(as_slots) (PDX va) = true.

(** The page an entry points to. *)
Definition pte_page (w : Z) : Z := PTE_ADDR w / PGSIZE.

(** The kernel virtual address of a page. *)
Definition page_kva (pn : Z) : Z := pn * PGSIZE + KERNBASE.

Definition owns (a : aspace) (p : Z) : Prop :=
  p = a.(as_dir) \/ exists d, a.(as_tabs) !! d = Some p.

(** A present entry, or nothing. *)
Definition entry (w : Z) : option Z := if bits_set w PTE_P then Some w else None.

(** [vm_rep s a]: memory of [s] holds the page tables of [a]. *)
Record vm_rep (s : pmap) (a : aspace) : Prop := {
  vr_npages : s.(npages) <= 65536;
  vr_dir : 0 <= a.(as_dir) < s.(npages);
  vr_slots : forall d, a.(as_slots) d = true -> 0 <= d < 1024;
  vr_tabs : forall d, a.(as_slots) d = true ->
    a.(as_tabs) !! d = pte_page <$> entry (ld32 s.(pmem) (a.(as_dir) * PGSIZE + 4 * d));
  vr_tabs_dom : forall d tp, a.(as_tabs) !! d = Some tp ->
    a.(as_slots) d = true /\ 0 <= tp < s.(npages);
  vr_maps : forall d t tp, a.(as_tabs) !! d = Some tp -> 0 <= t < 1024 ->
    a.(as_maps) !! (d * 1024 + t) = entry (ld32 s.(pmem) (tp * PGSIZE + 4 * t));
  vr_maps_dom : forall v w, a.(as_maps) !! v = Some w -> is_Some (a.(as_tabs) !! (v / 1024));
  vr_inj : forall d d' tp, a.(as_tabs) !! d = Some tp -> a.(as_tabs) !! d' = Some tp -> d = d';
  vr_dir_tab : forall d, a.(as_tabs) !! d <> Some a.(as_dir);
  vr_zero : forall d t tp, a.(as_tabs) !! d = Some tp -> 0 <= t < 1024 ->
    a.(as_maps) !! (d * 1024 + t) = None -> ld32 s.(pmem) (tp * PGSIZE + 4 * t) = 0;
}.

(** The word in directory slot [d]. *)
Definition pde (s : pmap) (a : aspace) (d : Z) : Z := ld32 s.(pmem) (a.(as_dir) * PGSIZE + 4 * d).

Definition with_tab (d tp : Z) (a : aspace) : aspace :=
  mkAspace a.(as_slots) a.(as_dir) (<[d := tp]> a.(as_tabs)) a.(as_maps).
Definition with_map (v w : Z) (a : aspace) : aspace :=
  mkAspace a.(as_slots) a.(as_dir) a.(as_tabs) (<[v := w]> a.(as_maps)).
Definition without_map (v : Z) (a : aspace) : aspace :=
  mkAspace a.(as_slots) a.(as_dir) a.(as_tabs) (delete v a.(as_maps)).

(** Memory agrees outside the pages satisfying [P]. *)
Definition same_outside (P : Z -> Prop) (m m' : mem) : Prop :=
  forall b, ~ P (b / PGSIZE) -> ld8 m' b = ld8 m b.

(** ** Words inside pages *)

Lemma user_slots_range d : user_slots d = true -> 0 <= d < 1024.
Proof.
  unfold user_slots. intros [H1 H2]%andb_true_iff. apply Z.leb_le in H1. apply Z.ltb_lt in H2.
  revert H2. consts. vm_compute (_ / _). lia.
Qed.

Lemma covers_user a va : a.(as_slots) = user_slots -> 0 <= va < UTOP -> covers a va.
Proof.
  intros Hs Hva. split; [clia|]. rewrite Hs. unfold user_slots. rewrite PDX_div by clia.
  apply andb_true_intro. split; [apply Z.leb_le|apply Z.ltb_lt]; czdm.
Qed.

Lemma word_in_page pn i b :
  0 <= i < 1024 -> pn * PGSIZE + 4 * i <= b < pn * PGSIZE + 4 * i + 4 -> b / PGSIZE = pn.
Proof. czdm. Qed.

Lemma ld32_same_outside P m m' pn i :
  same_outside P m m' -> ~ P pn -> 0 <= i < 1024 ->
  ld32 m' (pn * PGSIZE + 4 * i) = ld32 m (pn * PGSIZE + 4 * i).
Proof.
  intros H HP Hi. apply ld32_ext. intros j Hj. apply H.
  rewrite (word_in_page pn i) by lia. done.
Qed.

Lemma same_outside_refl P m : same_outside P m m.
Proof. by intros b _. Qed.

Lemma same_outside_trans P m1 m2 m3 :
  same_outside P m1 m2 -> same_outside P m2 m3 -> same_outside P m1 m3.
Proof. intros H1 H2 b Hb. by rewrite H2, H1. Qed.

Lemma same_outside_mono (P Q : Z -> Prop) m m' :
  same_outside P m m' -> (forall p, P p -> Q p) -> same_outside Q m m'.
Proof. intros H HPQ b Hb. apply H. naive_solver. Qed.

Lemma same_outside_st32 (P : Z -> Prop) m pn i v :
  0 <= i < 1024 -> P pn -> same_outside P m (st32 m (pn * PGSIZE + 4 * i) v).
Proof.
  intros Hi HP b Hb. apply ld8_st32_ne.
  destruct (decide (b < pn * PGSIZE + 4 * i)); [by left|right].
  destruct (decide (pn * PGSIZE + 4 * i + 4 <= b)); [done|].
  exfalso. apply Hb. by rewrite (word_in_page pn i) by lia.
Qed.

Lemma same_outside_zero (P : Z -> Prop) m pn : P pn -> same_outside P m (zero_page m pn).
Proof.
  intros HP b Hb. rewrite ld8_zero_page.
  destruct (_ && _) eqn:E; [|done]. apply andb_prop in E as [E1 E2].
  apply Z.leb_le in E1. apply Z.ltb_lt in E2.
  exfalso. apply Hb. by replace (b / PGSIZE) with pn by czdm.
Qed.

Lemma ld32_st32_page m p i v q j :
  0 <= i < 1024 -> 0 <= j < 1024 ->
  ld32 (st32 m (p * PGSIZE + 4 * i) v) (q * PGSIZE + 4 * j) =
  if (p =? q) && (i =? j) then u32 v else ld32 m (q * PGSIZE + 4 * j).
Proof.
  intros Hi Hj. rewrite ld32_st32_aligned by czdm.
  destruct (Z.eqb_spec p q), (Z.eqb_spec i j); simpl; subst.
  all: match goal with |- context [?x =? ?y] => destruct (Z.eqb_spec x y) end; clia || done.
Qed.

Lemma ld32_zero_page_word m p q j :
  0 <= j < 1024 ->
  ld32 (zero_page m p) (q * PGSIZE + 4 * j) =
  if p =? q then 0 else ld32 m (q * PGSIZE + 4 * j).
Proof.
  intros Hj. rewrite ld32_zero_page by czdm.
  destruct (Z.eqb_spec p q) as [->|Hne].
  - rewrite (proj2 (Z.leb_le _ _)), (proj2 (Z.ltb_lt _ _)) by clia. done.
  - destruct (_ && _) eqn:E; [|done]. apply andb_prop in E as [E1 E2].
    apply Z.leb_le in E1. apply Z.ltb_lt in E2. clia.
Qed.

Lemma kload32_page s pn i :
  0 <= pn -> 0 <= i < 1024 ->
  kload32 (page_kva pn + 4 * i) s = Ret (ld32 s.(pmem) (pn * PGSIZE + 4 * i)) s.
Proof.
  intros Hp Hi. unfold kload32, page_kva.
  destruct (Z.ltb_spec (pn * PGSIZE + KERNBASE + 4 * i) KERNBASE); [clia|].
  do 2 f_equal. lia.
Qed.

Lemma kstore32_page s pn i v :
  0 <= pn -> 0 <= i < 1024 ->
  kstore32 (page_kva pn + 4 * i) v s = Ret tt (set_pmem (st32 s.(pmem) (pn * PGSIZE + 4 * i) v) s).
Proof.
  intros Hp Hi. unfold kstore32, page_kva.
  destruct (Z.ltb_spec (pn * PGSIZE + KERNBASE + 4 * i) KERNBASE); [clia|].
  do 3 f_equal. lia.
Qed.

Lemma pde_at_page pn va :
  0 <= pn < 65536 -> pde_at (page_kva pn) va = page_kva pn + 4 * PDX va.
Proof.
  intros H. unfold pde_at, page_kva. pose proof (PDX_range va). apply u32_small. clia.
Qed.

(** ** Entries *)

Lemma entry_some w w' : entry w = Some w' -> w' = w /\ bits_set w PTE_P = true.
Proof. unfold entry. destruct (bits_set w PTE_P); naive_solver. Qed.

Lemma entry_none w : entry w = None -> bits_set w PTE_P = false.
Proof. unfold entry. by destruct (bits_set w PTE_P). Qed.

Lemma entry_0 : entry 0 = None.
Proof. reflexivity. Qed.

Lemma bits_set_lor_P x : bits_set (Z.lor x PTE_P) PTE_P = true.
Proof.
  unfold bits_set. apply Z.eqb_eq. apply Z.bits_inj'. intros n Hn.
  rewrite Z.land_spec, Z.lor_spec. destruct (Z.testbit PTE_P n); [|apply andb_false_r].
  by rewrite orb_true_r.
Qed.

Lemma bits_set_lor_mono x y m : bits_set x m = true -> bits_set (Z.lor x y) m = true.
Proof.
  unfold bits_set. rewrite !Z.eqb_eq. intros H. rewrite Z.land_lor_distr_l, H.
  apply Z.bits_inj'. intros n Hn. rewrite Z.lor_spec, Z.land_spec.
  destruct (Z.testbit m n), (Z.testbit y n); done.
Qed.

(** The entry for page [pp] with flags [perm]. *)
Definition mkpte (pp perm : Z) : Z := Z.lor (Z.lor (page2pa pp) perm) PTE_P.

Lemma flags_range perm : 0 <= perm < PGSIZE -> 0 <= Z.lor perm PTE_P < PGSIZE.
Proof. intros H. apply (lor_range perm PTE_P 12); clia. Qed.

Lemma mkpte_val pp perm :
  0 <= pp < 65536 -> 0 <= perm < PGSIZE -> mkpte pp perm = pp * PGSIZE + Z.lor perm PTE_P.
Proof.
  intros Hp Hf. unfold mkpte. rewrite page2pa_mul by lia. rewrite <- Z.lor_assoc.
  apply (lor_add_low _ _ 12); [lia|czdm|]. by apply flags_range.
Qed.

Lemma mkpte_range pp perm :
  0 <= pp < 65536 -> 0 <= perm < PGSIZE -> 0 <= mkpte pp perm < 2 ^ 32.
Proof. intros Hp Hf. rewrite mkpte_val by done. pose proof (flags_range perm Hf). clia. Qed.

Lemma mkpte_page pp perm :
  0 <= pp < 65536 -> 0 <= perm < PGSIZE -> pte_page (mkpte pp perm) = pp.
Proof.
  intros Hp Hf. unfold pte_page. pose proof (mkpte_range pp perm Hp Hf).
  rewrite PTE_ADDR_sub by done. rewrite mkpte_val by done. pose proof (flags_range perm Hf). czdm.
Qed.

(** Setting flag bits in a directory entry keeps the table it points to. *)
Lemma pte_page_lor w perm :
  0 <= w < 2 ^ 32 -> 0 <= perm < PGSIZE ->
  pte_page (Z.lor w perm) = pte_page w /\ 0 <= Z.lor w perm < 2 ^ 32.
Proof.
  intros Hw Hp.
  assert (Z.lor w perm = w - w mod PGSIZE + Z.lor (w mod PGSIZE) perm) as Heq.
  { replace (Z.lor w perm) with (Z.lor (Z.lor (w - w mod PGSIZE) (w mod PGSIZE)) perm).
    - rewrite <- Z.lor_assoc. apply (lor_add_low _ _ 12); [lia|czdm|].
      apply (lor_range _ _ 12); czdm.
    - f_equal. rewrite (lor_add_low _ _ 12) by czdm. lia. }
  pose proof (lor_range (w mod PGSIZE) perm 12 ltac:(lia) ltac:(czdm) ltac:(clia)) as Hr.
  assert (0 <= Z.lor w perm < 2 ^ 32) as Hrange by (rewrite Heq; czdm).
  split; [|done]. unfold pte_page. rewrite !PTE_ADDR_sub by done. rewrite Heq. czdm.
Qed.

Lemma pte_page_mul w : 0 <= w < 2 ^ 32 -> PTE_ADDR w = pte_page w * PGSIZE.
Proof. intros H. unfold pte_page. rewrite PTE_ADDR_sub by done. czdm. Qed.

(** ** Preservation of the representation by memory writes *)

(** Writes outside the pages of [a] do not matter to it. *)
Lemma vm_rep_frame P s s' a :
  vm_rep s a -> s'.(npages) = s.(npages) -> same_outside P s.(pmem) s'.(pmem) ->
  (forall p, owns a p -> ~ P p) -> vm_rep s' a.
Proof.
  intros [Hn Hd Hsl Ht Htd Hm Hmd Hi Hdt Hz] Hnp Hmem HP.
  split; rewrite ?Hnp; try done.
  - intros d Hs. rewrite (ld32_same_outside P s.(pmem)); auto.
    apply HP. by left.
  - intros d t tp Hdt' Ht'. rewrite (ld32_same_outside P s.(pmem)); auto.
    apply HP. right. eauto.
  - intros d t tp Hdt' Ht' H0. rewrite (ld32_same_outside P s.(pmem)); [by apply (Hz d)|done| |done].
    apply HP. right. eauto.
Qed.

(** Nothing but the number of pages and memory matters. *)
Lemma vm_rep_ext s s' a :
  vm_rep s a -> s'.(npages) = s.(npages) -> s'.(pmem) = s.(pmem) -> vm_rep s' a.
Proof.
  intros H Hn Hm. apply (vm_rep_frame (fun _ => False) s); auto.
  rewrite Hm. apply same_outside_refl.
Qed.

(** Entry [v] of the map set from the word [w]. *)
Definition set_entry (v w : Z) (a : aspace) : aspace :=
  mkAspace a.(as_slots) a.(as_dir) a.(as_tabs) (partial_alter (fun _ => entry w) v a.(as_maps)).

Lemma vm_rep_set_pte s s' a d t tp w :
  vm_rep s a -> a.(as_tabs) !! d = Some tp -> 0 <= t < 1024 -> 0 <= w < 2 ^ 32 ->
  (entry w = None -> w = 0) -> s'.(npages) = s.(npages) ->
  s'.(pmem) = st32 s.(pmem) (tp * PGSIZE + 4 * t) w ->
  vm_rep s' (set_entry (d * 1024 + t) w a).
Proof.
  intros [Hn Hd Hsl Ht Htd Hm Hmd Hi Hdt Hz] Htp Htr Hw Hw0 Hnp Hmem.
  assert (tp <> a.(as_dir)) as Hne by (intros ->; by apply (Hdt d)).
  split; simpl; rewrite ?Hnp, ?Hmem; try done.
  - intros d' Hd'. pose proof (Hsl _ Hd'). rewrite ld32_st32_page by lia.
    rewrite (proj2 (Z.eqb_neq _ _)) by done. by apply Ht.
  - intros d' t' tp' Htp' Ht'. rewrite ld32_st32_page by lia.
    destruct (Z.eqb_spec tp tp') as [<-|]; simpl.
    + assert (d' = d) as -> by eauto.
      destruct (Z.eqb_spec t t') as [<-|].
      * rewrite lookup_partial_alter_eq, u32_small by done. done.
      * rewrite lookup_partial_alter_ne by lia. eauto.
    + rewrite lookup_partial_alter_ne; [eauto|].
      intros ?. assert (d' = d) as -> by lia. congruence.
  - intros v' w'. destruct (decide (d * 1024 + t = v')) as [<-|].
    + intros _. destruct (Htd _ _ Htp). replace ((d * 1024 + t) / 1024) with d by zdm.
      rewrite Htp. eauto.
    + rewrite lookup_partial_alter_ne by done. eauto.
  - intros d' t' tp' Htp' Ht'. rewrite ld32_st32_page by lia.
    destruct (Z.eqb_spec tp tp') as [<-|]; simpl.
    + assert (d' = d) as -> by eauto.
      destruct (Z.eqb_spec t t') as [<-|].
      * rewrite lookup_partial_alter_eq, u32_small by done. done.
      * rewrite lookup_partial_alter_ne by lia. eauto.
    + rewrite lookup_partial_alter_ne; [eauto|].
      intros ?. assert (d' = d) as -> by lia. congruence.
Qed.

(** Adding flag bits to a present directory entry. *)
Lemma vm_rep_pde_flags s s' a d tp w perm :
  vm_rep s a -> a.(as_tabs) !! d = Some tp -> 0 <= perm < PGSIZE ->
  w = ld32 s.(pmem) (a.(as_dir) * PGSIZE + 4 * d) ->
  s'.(npages) = s.(npages) ->
  s'.(pmem) = st32 s.(pmem) (a.(as_dir) * PGSIZE + 4 * d) (Z.lor w perm) ->
  vm_rep s' a.
Proof.
  intros [Hn Hd Hsl Ht Htd Hm Hmd Hi Hdt Hz] Htp Hp Hw Hnp Hmem.
  destruct (Htd _ _ Htp) as [Hds _]. pose proof (Hsl d Hds) as Hdr. pose proof (Ht d Hds) as Hpd. rewrite <- Hw, Htp in Hpd.
  assert (0 <= w < 2 ^ 32) as Hwr by (subst w; apply ld32_range).
  destruct (pte_page_lor w perm Hwr Hp) as [Hpp Hlr].
  unfold entry in Hpd. destruct (bits_set w PTE_P) eqn:Eb; [|done]. simpl in Hpd.
  split; rewrite ?Hnp, ?Hmem; try done.
  - intros d' Hd'. pose proof (Hsl _ Hd'). rewrite ld32_st32_page, Z.eqb_refl by lia. simpl.
    destruct (Z.eqb_spec d d') as [<-|]; [|by apply Ht].
    rewrite Htp, u32_small by done. unfold entry.
    rewrite (bits_set_lor_mono _ _ _ Eb). simpl. by rewrite Hpp.
  - intros d' t' tp' Htp' Ht'. rewrite ld32_st32_page by lia.
    destruct (Z.eqb_spec a.(as_dir) tp') as [<-|]; [by apply Hdt in Htp'|]. simpl. eauto.
  - intros d' t' tp' Htp' Ht'. rewrite ld32_st32_page by lia.
    destruct (Z.eqb_spec a.(as_dir) tp') as [<-|]; [by apply Hdt in Htp'|]. simpl. eauto.
Qed.

(** Installing a zeroed page [x] as the table of an empty slot. *)
Lemma vm_rep_new_tab s s' a d x :
  vm_rep s a -> a.(as_tabs) !! d = None -> a.(as_slots) d = true -> 0 <= x < s.(npages) ->
  ~ owns a x -> s'.(npages) = s.(npages) ->
  (forall p i, 0 <= i < 1024 -> ld32 s'.(pmem) (p * PGSIZE + 4 * i) =
    if (a.(as_dir) =? p) && (d =? i) then Z.lor (page2pa x) PTE_P
    else if x =? p then 0 else ld32 s.(pmem) (p * PGSIZE + 4 * i)) ->
  vm_rep s' (with_tab d x a).
Proof.
  intros [Hn Hd Hsl Ht Htd Hm Hmd Hi Hdt Hz] Hnone Hds Hx Hown Hnp Hmem. pose proof (Hsl d Hds) as Hdr.
  assert (x <> a.(as_dir)) as Hxd by (intros ->; apply Hown; by left).
  assert (forall d' tp, a.(as_tabs) !! d' = Some tp -> tp <> x) as Hxt.
  { intros d' tp H ->. apply Hown. right. eauto. }
  pose proof (mkpte_range x 0 ltac:(lia) ltac:(clia)) as Hmr.
  pose proof (mkpte_page x 0 ltac:(lia) ltac:(clia)) as Hmp.
  pose proof (bits_set_lor_P (page2pa x)) as Hmb.
  unfold mkpte in Hmr, Hmp. rewrite Z.lor_0_r in Hmr, Hmp.
  split; simpl; rewrite ?Hnp; try done.
  - intros d' Hd'. pose proof (Hsl _ Hd'). rewrite Hmem, Z.eqb_refl by lia. simpl.
    destruct (Z.eqb_spec d d') as [<-|].
    + rewrite lookup_insert_eq. unfold entry. rewrite Hmb. simpl. by rewrite Hmp.
    + rewrite lookup_insert_ne by done.
      rewrite (proj2 (Z.eqb_neq _ _)) by done. by apply Ht.
  - intros d' tp. rewrite lookup_insert_Some. intros [[<- <-]|[? ?]]; [done|]. eauto.
  - intros d' t tp Htp Htr. rewrite Hmem by lia.
    destruct (Z.eqb_spec a.(as_dir) tp) as [<-|]; simpl.
    { apply lookup_insert_Some in Htp as [[_ ?]|[_ Htp]]; [done|]. by apply Hdt in Htp. }
    apply lookup_insert_Some in Htp as [[<- <-]|[Hne Htp]].
    + rewrite Z.eqb_refl, entry_0. destruct (a.(as_maps) !! (d * 1024 + t)) eqn:E; [|done].
      apply Hmd in E. replace ((d * 1024 + t) / 1024) with d in E by zdm.
      rewrite Hnone in E. by destruct E.
    + rewrite (proj2 (Z.eqb_neq _ _)) by (intros ->; by apply Hxt in Htp). eauto.
  - intros v w Hv. apply Hmd in Hv. rewrite lookup_insert_is_Some'. eauto.
  - intros d1 d2 tp. rewrite !lookup_insert_Some.
    intros [[<- <-]|[? H1]] [[<- H2]|[? H2]]; simplify_eq; try done; eauto.
    + by apply Hxt in H2.
    + by apply Hxt in H1.
  - intros d'. rewrite lookup_insert_Some. intros [[<- ?]|[? ?]]; [done|]. by apply (Hdt d').
  - intros d' t tp Htp Htr. rewrite Hmem by lia.
    destruct (Z.eqb_spec a.(as_dir) tp) as [<-|]; simpl.
    { apply lookup_insert_Some in Htp as [[_ ?]|[_ Htp]]; [done|]. by apply Hdt in Htp. }
    apply lookup_insert_Some in Htp as [[<- <-]|[Hne Htp]]; [by rewrite Z.eqb_refl|].
    rewrite (proj2 (Z.eqb_neq _ _)) by (intros ->; by apply Hxt in Htp). eauto.
Qed.

(** ** [pgdir_walk] *)

(** The kernel address of the entry for [va] in table page [tp]. *)
Definition pte_kva (tp va : Z) : Z := page_kva tp + 4 * PTX va.

Lemma vm_rep_pde s a va :
  vm_rep s a -> covers a va ->
  kload32 (pde_at (page_kva a.(as_dir)) va) s =
    Ret (ld32 s.(pmem) (a.(as_dir) * PGSIZE + 4 * PDX va)) s /\
  a.(as_tabs) !! PDX va =
    pte_page <$> entry (ld32 s.(pmem) (a.(as_dir) * PGSIZE + 4 * PDX va)).
Proof.
  intros Hr Hva. pose proof (vr_dir _ _ Hr). pose proof (vr_npages _ _ Hr).
  rewrite pde_at_page by lia. split.
  - apply kload32_page; [lia|apply PDX_range].
  - apply (vr_tabs _ _ Hr), Hva.
Qed.

(** The last step of the walk: from a present directory entry to the PTE address. *)
Lemma walk_tail s a va tp :
  vm_rep s a -> covers a va -> a.(as_tabs) !! PDX va = Some tp ->
  bind (kload32 (pde_at (page_kva a.(as_dir)) va)) (fun pde =>
    bind (KADDR (PTE_ADDR pde)) (fun ptep => ret (Some (u32 (ptep + 4 * PTX va))))) s =
  Ret (Some (pte_kva tp va)) s.
Proof.
  intros Hr Hva Htp. destruct (vm_rep_pde s a va Hr Hva) as [Hld Hpd].
  erewrite bind_ret by exact Hld.
  pose proof (vr_npages _ _ Hr). destruct (vr_tabs_dom _ _ Hr _ _ Htp) as [_ Htr].
  rewrite Htp in Hpd.
  destruct (entry _) as [w|] eqn:E; [|done]. simpl in Hpd. apply entry_some in E as [-> _].
  injection Hpd as Hpd. rewrite pte_page_mul by apply ld32_range. rewrite <- Hpd.
  erewrite bind_ret by (apply KADDR_page; lia). unfold ret, pte_kva, page_kva. do 2 f_equal.
  pose proof (PTX_range va). apply u32_small. clia.
Qed.

Lemma walk_found s a va c tp :
  vm_rep s a -> covers a va -> a.(as_tabs) !! PDX va = Some tp ->
  pgdir_walk (page_kva a.(as_dir)) va c s = Ret (Some (pte_kva tp va)) s.
Proof.
  intros Hr Hva Htp. destruct (vm_rep_pde s a va Hr Hva) as [Hld Hpd].
  unfold pgdir_walk. erewrite bind_ret by exact Hld.
  rewrite Htp in Hpd. destruct (entry _) as [w|] eqn:E; [|done]. apply entry_some in E as [_ E].
  rewrite E. simpl. erewrite (bind_ret (ret true)) by reflexivity. by apply walk_tail.
Qed.

Lemma walk_absent s a va :
  vm_rep s a -> covers a va -> a.(as_tabs) !! PDX va = None ->
  pgdir_walk (page_kva a.(as_dir)) va 0 s = Ret None s.
Proof.
  intros Hr Hva Htp. destruct (vm_rep_pde s a va Hr Hva) as [Hld Hpd].
  unfold pgdir_walk. erewrite bind_ret by exact Hld.
  rewrite Htp in Hpd. destruct (entry _) as [w|] eqn:E; [done|]. apply entry_none in E.
  rewrite E. done.
Qed.

Lemma walk_nomem s a va c :
  vm_rep s a -> covers a va -> a.(as_tabs) !! PDX va = None -> alloc_wf s [] ->
  pgdir_walk (page_kva a.(as_dir)) va c s = Ret None s.
Proof.
  intros Hr Hva Htp Hwf. destruct (vm_rep_pde s a va Hr Hva) as [Hld Hpd].
  unfold pgdir_walk. erewrite bind_ret by exact Hld.
  rewrite Htp in Hpd. destruct (entry _) as [w|] eqn:E; [done|]. apply entry_none in E.
  rewrite E. simpl. destruct (c =? 0); [done|].
  unfold bind at 1. by erewrite bind_ret by (by apply page_alloc_empty).
Qed.

(** The state after page [x] became the table of directory slot [d] of [a]. *)
Definition tabbed (a : aspace) (d x : Z) (s : pmap) : pmap :=
  set_pmem (st32 (zero_page s.(pmem) x) (a.(as_dir) * PGSIZE + 4 * d) (Z.lor (page2pa x) PTE_P))
    (set_pages (<[x := mkPageInfo None 1]> s.(pages))
       (set_page_free_list (s.(pages) !! x ≫= pp_link) s)).

Lemma tabbed_words s a d x p i :
  0 <= d < 1024 -> 0 <= i < 1024 -> 0 <= x < 65536 ->
  ld32 (tabbed a d x s).(pmem) (p * PGSIZE + 4 * i) =
    if (a.(as_dir) =? p) && (d =? i) then Z.lor (page2pa x) PTE_P
    else if x =? p then 0 else ld32 s.(pmem) (p * PGSIZE + 4 * i).
Proof.
  intros Hd Hi Hx. simpl. rewrite ld32_st32_page, ld32_zero_page_word by done.
  rewrite u32_small; [done|]. pose proof (mkpte_range x 0 Hx ltac:(clia)) as H.
  unfold mkpte in H. by rewrite Z.lor_0_r in H.
Qed.

Lemma tabbed_rep s a d x :
  vm_rep s a -> a.(as_tabs) !! d = None -> a.(as_slots) d = true -> 0 <= x < s.(npages) ->
  ~ owns a x -> vm_rep (tabbed a d x s) (with_tab d x a).
Proof.
  intros Hr Hnone Hd Hx Hown. pose proof (vr_npages _ _ Hr).
  apply (vm_rep_new_tab s); auto. intros p i Hi. apply (vr_slots _ _ Hr) in Hd.
  apply tabbed_words; lia.
Qed.

Lemma tabbed_alloc s a d x l :
  alloc_wf s (x :: l) ->
  alloc_wf (tabbed a d x s) l.
Proof.
  intros Hwf. destruct (page_alloc_pop 0 s x l Hwf) as [_ Hwf'].
  pose proof (aw_nodup _ _ Hwf) as Hnd. apply NoDup_cons in Hnd as [Hx _].
  apply (alloc_wf_set_ref _ x (mkPageInfo None 0) _ 1) in Hwf'; try done.
  - simpl in Hwf'. rewrite insert_insert_eq in Hwf'. destruct Hwf'. by split.
  - simpl. by rewrite lookup_insert_eq.
Qed.

Lemma walk_create s a va c x l :
  vm_rep s a -> covers a va -> a.(as_tabs) !! PDX va = None -> alloc_wf s (x :: l) ->
  ~ owns a x -> c <> 0 ->
  pgdir_walk (page_kva a.(as_dir)) va c s =
    Ret (Some (pte_kva x va)) (tabbed a (PDX va) x s).
Proof.
  intros Hr Hva Htp Hwf Hown Hc. destruct (vm_rep_pde s a va Hr Hva) as [Hld Hpd].
  pose proof (vr_npages _ _ Hr). pose proof (vr_dir _ _ Hr).
  destruct (page_alloc_pop ALLOC_ZERO s x l Hwf) as [Hpa _].
  assert (0 <= x < s.(npages)) as Hx.
  { apply (aw_dom _ _ Hwf). destruct (aw_chain _ _ Hwf) as (_ & pi & -> & _). eauto. }
  unfold pgdir_walk. erewrite bind_ret by exact Hld.
  rewrite Htp in Hpd. destruct (entry _) as [w|] eqn:E; [done|]. apply entry_none in E.
  rewrite E. cbn [negb]. rewrite (proj2 (Z.eqb_neq _ _)) by done.
  erewrite (bind_ret _ _ s true (tabbed a (PDX va) x s)).
  - refine (walk_tail (tabbed a (PDX va) x s) (with_tab (PDX va) x a) va x _ Hva (lookup_insert_eq _ _ _)).
    apply (tabbed_rep _ _ _ _ Hr Htp (proj2 Hva) Hx Hown).
  - mstep (exact Hpa).
    mstep (apply get_page_some; simpl; apply lookup_insert_eq).
    mstep (eapply set_ref_some; simpl; apply lookup_insert_eq).
    rewrite pde_at_page by lia.
    mstep (apply kstore32_page; [lia|apply PDX_range]).
    unfold ret, tabbed. simpl. by rewrite insert_insert_eq.
Qed.
