(* ===== verification/PmapRefs.v ===== *)
(** Reference counts: [pp_ref] of every page equals the number of page-table
    entries and page-table roles that refer to it, over all address spaces at
    once.  [page_insert], [page_remove] and [page_lookup] are refined against
    the abstract address spaces under this invariant. *)

From S2P Require Import Prelude Mmu Mem Pmap PmapAlloc PmapVm.

(** ** Sums over finite maps *)

Definition total {A} (f : A -> Z) (m : gmap Z A) : Z :=
  map_fold (fun _ v acc => f v + acc) 0 m.

Lemma total_empty {A} (f : A -> Z) : total f ∅ = 0.
Proof. apply map_fold_empty. Qed.

Lemma total_insert {A} (f : A -> Z) m k v :
  m !! k = None -> total f (<[k := v]> m) = f v + total f m.
Proof. intros H. unfold total. rewrite map_fold_insert_L; [done| |done]. intros. lia. Qed.

Lemma total_delete {A} (f : A -> Z) m k v :
  m !! k = Some v -> total f m = f v + total f (delete k m).
Proof.
  intros H. rewrite <- (insert_delete_id m k v H) at 1. by rewrite total_insert by apply lookup_delete_eq.
Qed.

(** The value [f] has on an optional element. *)
Definition at_opt {A} (f : A -> Z) (o : option A) : Z := from_option f 0 o.

Lemma partial_alter_id' {A} (m : gmap Z A) k o :
  m !! k = o -> partial_alter (fun _ => o) k m = m.
Proof.
  intros <-. apply map_eq. intros i. destruct (decide (k = i)) as [<-|].
  - by rewrite lookup_partial_alter_eq.
  - by rewrite lookup_partial_alter_ne.
Qed.

Lemma total_alter {A} (f : A -> Z) m k o :
  total f (partial_alter (fun _ => o) k m) = total f m - at_opt f (m !! k) + at_opt f o.
Proof.
  assert (total f m = at_opt f (m !! k) + total f (delete k m)) as ->.
  { destruct (m !! k) as [v|] eqn:E; [simpl; by apply total_delete|].
    rewrite delete_id by done. simpl. lia. }
  assert (partial_alter (fun _ => o) k m = partial_alter (fun _ => o) k (delete k m)) as ->.
  { apply map_eq. intros i. destruct (decide (k = i)) as [<-|].
    - by rewrite !lookup_partial_alter_eq.
    - by rewrite !lookup_partial_alter_ne, lookup_delete_ne. }
  destruct o as [v|]; simpl.
  - pose proof (total_insert f (delete k m) k v (lookup_delete_eq _ _)) as H.
    unfold insert, map_insert in H. rewrite H. lia.
  - assert (partial_alter (fun _ => None) k (delete k m) = delete k m) as ->
      by (apply partial_alter_id'; by rewrite lookup_delete_eq). lia.
Qed.

Lemma total_nonneg {A} (f : A -> Z) m : (forall v, 0 <= f v) -> 0 <= total f m.
Proof.
  intros Hf. induction m as [|k v m Hm IH] using map_ind; [done|].
  rewrite total_insert by done. specialize (Hf v). lia.
Qed.

Lemma total_ge {A} (f : A -> Z) m k v :
  (forall v, 0 <= f v) -> m !! k = Some v -> f v <= total f m.
Proof. intros Hf H. rewrite (total_delete f m k v H). pose proof (total_nonneg f (delete k m) Hf). lia. Qed.

Lemma total_le {A B} (f : A -> Z) (g : B -> Z) m m' :
  (forall v, 0 <= g v) -> (forall k v, m !! k = Some v -> exists v', m' !! k = Some v' /\ f v <= g v') -> total f m <= total g m'.
Proof.
  intros Hg. revert m'. induction m as [|k v m Hk IH] using map_ind; intros m' H; [rewrite total_empty; by apply total_nonneg|].
  rewrite total_insert by done. destruct (H k v (lookup_insert_eq _ _ _)) as (v' & Hv' & Hle). rewrite (total_delete g m' k v' Hv').
  enough (total f m <= total g (delete k m')) by lia. apply IH. intros i x Hi.
  assert (k <> i) as Hne by congruence. rewrite lookup_delete_ne by done. apply H. by rewrite lookup_insert_ne.
Qed.

Lemma total_zero {A} (f : A -> Z) m : (forall k v, m !! k = Some v -> f v = 0) -> total f m = 0.
Proof.
  induction m as [|k v m Hk IH] using map_ind; intros H; [apply total_empty|].
  rewrite total_insert, (H k v (lookup_insert_eq _ _ _)) by done. apply IH. intros i x Hi. apply (H i).
  rewrite lookup_insert_ne; [done|congruence].
Qed.

(** ** References *)

Definition hits (p q : Z) : Z := if q =? p then 1 else 0.

(** References to page [p] from one address space: as its directory, as a page
    table, and from its present entries. *)
Definition refs1 (p : Z) (a : aspace) : Z :=
  hits p a.(as_dir) + total (hits p) a.(as_tabs) +
  total (fun w => hits p (pte_page w)) a.(as_maps).

(** Address spaces are indexed by the slot of their environment in [envs]. *)
Definition refs (W : gmap Z aspace) (p : Z) : Z := total (refs1 p) W.

Definition owned (W : gmap Z aspace) (p : Z) : Prop := exists k a, W !! k = Some a /\ owns a p.

(** The invariant.  [pend p] counts references that are in the middle of being
    installed or dropped; it is [0] between operations.  Pages no address space refers to
    may have any count: those of the kernel's own page tables have one. *)
Record vm_wf (s : pmap) (W : gmap Z aspace) (l : list Z) (pend : Z -> Z) : Prop := {
  vw_alloc : alloc_wf s l;
  vw_rep : forall k a, W !! k = Some a -> vm_rep s a;
  vw_disj : forall k k' a a' p,
    W !! k = Some a -> W !! k' = Some a' -> owns a p -> owns a' p -> k = k';
  vw_mapped : forall k a v w, W !! k = Some a -> a.(as_maps) !! v = Some w ->
    0 <= pte_page w < s.(npages) /\ ~ owned W (pte_page w);
  vw_ref : forall p pi, s.(pages) !! p = Some pi -> 0 < refs W p + pend p -> pi.(pp_ref) = refs W p + pend p;
}.

Definition no_pend : Z -> Z := fun _ => 0.

(** What the operations on address spaces leave alone: everything but the page
    metadata, the free list, the TLB trace and memory inside the pages [P]. *)
Record vm_frame (P : Z -> Prop) (s s' : pmap) : Prop := {
  vf_npages : s'.(npages) = s.(npages);
  vf_basemem : s'.(npages_basemem) = s.(npages_basemem);
  vf_nextfree : s'.(nextfree) = s.(nextfree);
  vf_kern_pgdir : s'.(kern_pgdir) = s.(kern_pgdir);
  vf_pages_va : s'.(pages_va) = s.(pages_va);
  vf_envs_va : s'.(envs_va) = s.(envs_va);
  vf_mmio_base : s'.(mmio_base) = s.(mmio_base);
  vf_check_addr : s'.(user_mem_check_addr) = s.(user_mem_check_addr);
  vf_mem : same_outside P s.(pmem) s'.(pmem);
}.

Lemma vm_frame_refl P s : vm_frame P s s.
Proof. by split. Qed.

Lemma vm_frame_trans P s1 s2 s3 : vm_frame P s1 s2 -> vm_frame P s2 s3 -> vm_frame P s1 s3.
Proof. intros [] []. split; try congruence. by eapply same_outside_trans. Qed.

Lemma vm_frame_mono (P Q : Z -> Prop) s s' :
  vm_frame P s s' -> (forall p, P p -> Q p) -> vm_frame Q s s'.
Proof. intros [] H. split; try done. by eapply same_outside_mono. Qed.

(** ** Counting lemmas *)

Lemma hits_nonneg p q : 0 <= hits p q.
Proof. unfold hits. case_match; lia. Qed.

Lemma hits_self p : hits p p = 1.
Proof. unfold hits. by rewrite Z.eqb_refl. Qed.

Lemma refs1_parts p a :
  0 <= hits p a.(as_dir) /\ 0 <= total (hits p) a.(as_tabs) /\
  0 <= total (fun w => hits p (pte_page w)) a.(as_maps).
Proof. repeat split; try apply total_nonneg; intros; apply hits_nonneg. Qed.

Lemma refs1_nonneg p a : 0 <= refs1 p a.
Proof. unfold refs1. pose proof (refs1_parts p a). lia. Qed.

Lemma refs_nonneg W p : 0 <= refs W p.
Proof. apply total_nonneg, refs1_nonneg. Qed.

Lemma owns_refs1 p a : owns a p -> 1 <= refs1 p a.
Proof.
  unfold refs1. pose proof (refs1_parts p a). intros [->|[d Hd]].
  - rewrite hits_self. lia.
  - pose proof (total_ge (hits p) _ d p (hits_nonneg p) Hd) as Hge. rewrite hits_self in Hge. lia.
Qed.

Lemma maps_refs1 a v w : a.(as_maps) !! v = Some w -> 1 <= refs1 (pte_page w) a.
Proof.
  intros H. unfold refs1. pose proof (refs1_parts (pte_page w) a).
  pose proof (total_ge (fun w' => hits (pte_page w) (pte_page w')) _ v w
    (fun w' => hits_nonneg _ _) H) as Hge. cbn beta in Hge. rewrite hits_self in Hge. lia.
Qed.

Lemma refs_ge W k a p : W !! k = Some a -> refs1 p a <= refs W p.
Proof. intros H. apply (total_ge (refs1 p) W k a); [apply refs1_nonneg|done]. Qed.

Lemma owned_refs W p : owned W p -> 1 <= refs W p.
Proof.
  intros (k & a & Hk & Ho). pose proof (refs_ge W k a p Hk). pose proof (owns_refs1 p a Ho). lia.
Qed.

Lemma refs_update W k a a' p :
  W !! k = Some a -> refs (<[k := a']> W) p = refs W p - refs1 p a + refs1 p a'.
Proof.
  intros H. unfold refs. pose proof (total_alter (refs1 p) W k (Some a')) as Ht.
  rewrite H in Ht. simpl in Ht. unfold insert, map_insert. lia.
Qed.

Lemma refs1_with_tab p a d x :
  a.(as_tabs) !! d = None -> refs1 p (with_tab d x a) = refs1 p a + hits p x.
Proof. intros H. unfold refs1. simpl. rewrite total_insert by done. lia. Qed.

(** References from an optional entry. *)
Definition ohits (p : Z) (o : option Z) : Z := at_opt (fun w => hits p (pte_page w)) o.

Lemma refs1_set_entry p a v w :
  refs1 p (set_entry v w a) = refs1 p a - ohits p (a.(as_maps) !! v) + ohits p (entry w).
Proof. unfold refs1, set_entry. simpl. rewrite total_alter. unfold ohits. lia. Qed.

(** ** Consequences of the invariant *)

Section Wf.
Context (s : pmap) (W : gmap Z aspace) (l : list Z) (pend : Z -> Z).
Hypothesis Hwf : vm_wf s W l pend.
Hypothesis Hpend : forall p, 0 <= pend p.

Lemma wf_pages p : 0 <= p < s.(npages) -> exists pi, s.(pages) !! p = Some pi.
Proof. intros H. apply (aw_dom _ _ (vw_alloc _ _ _ _ Hwf)) in H as [pi Hpi]. eauto. Qed.

Lemma free_in_range x : x ∈ l -> 0 <= x < s.(npages).
Proof.
  intros H. apply (aw_dom _ _ (vw_alloc _ _ _ _ Hwf)).
  pose proof (aw_chain _ _ (vw_alloc _ _ _ _ Hwf)) as Hc. revert H Hc.
  generalize s.(page_free_list). clear. induction l as [|y l' IH]; intros h Hx Hc; [set_solver|].
  destruct Hc as (_ & pi & Hpi & Hc). apply elem_of_cons in Hx as [->|Hx]; eauto.
Qed.

(** A free page is not referenced by any address space. *)
Lemma free_no_refs x : x ∈ l -> refs W x = 0.
Proof.
  intros H. destruct (wf_pages x (free_in_range x H)) as [pi Hpi].
  pose proof (vw_ref _ _ _ _ Hwf x pi Hpi) as Hr.
  rewrite (aw_free _ _ (vw_alloc _ _ _ _ Hwf) x pi H Hpi) in Hr.
  pose proof (refs_nonneg W x). specialize (Hpend x). lia.
Qed.

Lemma free_not_owned x : x ∈ l -> ~ owned W x.
Proof. intros H Ho%owned_refs. rewrite (free_no_refs x H) in Ho. lia. Qed.

Lemma free_not_mapped x k a v w :
  x ∈ l -> W !! k = Some a -> a.(as_maps) !! v = Some w -> pte_page w <> x.
Proof.
  intros Hx Hk Hv <-. pose proof (maps_refs1 a v w Hv). pose proof (refs_ge W k a (pte_page w) Hk).
  rewrite (free_no_refs _ Hx) in *. lia.
Qed.
End Wf.

(** Changing only the pending counts. *)
Lemma vm_wf_pend s W l pend pend' :
  vm_wf s W l pend -> (forall p, pend p = pend' p) -> vm_wf s W l pend'.
Proof. intros [] H. split; eauto. intros p pi Hpi. rewrite <- H. eauto. Qed.

(** ** Elementary moves *)

(** A page out of the free list becomes a table of [a]. *)
Lemma wf_new_tab s W x l pend k a d :
  vm_wf s W (x :: l) pend -> (forall p, 0 <= pend p) -> W !! k = Some a ->
  a.(as_tabs) !! d = None -> a.(as_slots) d = true ->
  vm_wf (tabbed a d x s) (<[k := with_tab d x a]> W) l pend.
Proof.
  intros Hwf Hp Hk Hd Hds.
  assert (x ∈ x :: l) as Hin by set_solver.
  pose proof (free_not_owned _ _ _ _ Hwf Hp x Hin) as Hno.
  pose proof (free_in_range _ _ _ _ Hwf x Hin) as Hx.
  assert (~ owns a x) as Hnoa by (intros ?; apply Hno; by exists k, a).
  assert (forall k' b, <[k := with_tab d x a]> W !! k' = Some b ->
    exists b0, W !! k' = Some b0 /\ b.(as_maps) = b0.(as_maps) /\
      forall p, owns b p -> owns b0 p \/ (k' = k /\ p = x)) as Hold.
  { intros k' b. rewrite lookup_insert_Some. intros [[<- <-]|[? Hb]]; [|by eauto 10].
    exists a. split; [done|]. split; [done|]. intros p [->|[d' Hd']]; [left; by left|].
    simpl in Hd'. apply lookup_insert_Some in Hd' as [[_ ->]|[_ Hd']]; [by right|].
    left. right. eauto. }
  split.
  - apply tabbed_alloc, (vw_alloc _ _ _ _ Hwf).
  - intros k' b. rewrite lookup_insert_Some. intros [[<- <-]|[Hne Hb]].
    { apply tabbed_rep; auto. by apply (vw_rep _ _ _ _ Hwf k). }
    apply (vm_rep_frame (fun p => p = x \/ p = a.(as_dir)) s); [by apply (vw_rep _ _ _ _ Hwf k')|done| |].
    + eapply same_outside_trans; [apply same_outside_zero; by left|].
      apply same_outside_st32; [|by right]. by apply (vr_slots _ _ (vw_rep _ _ _ _ Hwf k a Hk)).
    + intros p Ho [->| ->]; [apply Hno; by exists k', b|].
      apply Hne. apply (vw_disj _ _ _ _ Hwf k k' a b a.(as_dir)); try done. by left.
  - intros k1 k2 a1 a2 p H1 H2 Ho1 Ho2.
    destruct (Hold _ _ H1) as (b1 & Hb1 & _ & HO1), (Hold _ _ H2) as (b2 & Hb2 & _ & HO2).
    destruct (HO1 p Ho1) as [O1|[-> Hp1]], (HO2 p Ho2) as [O2|[-> Hp2]].
    + by apply (vw_disj _ _ _ _ Hwf k1 k2 b1 b2 p).
    + exfalso. apply Hno. rewrite <- Hp2. by exists k1, b1.
    + exfalso. apply Hno. rewrite <- Hp1. by exists k2, b2.
    + done.
  - intros k' b v w Hb Hv. destruct (Hold _ _ Hb) as (b0 & Hb0 & Hm & _). rewrite Hm in Hv.
    destruct (vw_mapped _ _ _ _ Hwf k' b0 v w Hb0 Hv) as [Hr Hnow]. split; [done|].
    intros (k2 & b2 & H2 & Ho2). destruct (Hold _ _ H2) as (b3 & Hb3 & _ & HO).
    destruct (HO _ Ho2) as [?|[_ ?]]; [apply Hnow; by exists k2, b3|].
    by apply (free_not_mapped _ _ _ _ Hwf Hp x k' b0 v w).
  - intros p pi. rewrite (refs_update _ _ a) by done. rewrite refs1_with_tab by done. simpl.
    rewrite lookup_insert_Some. intros [[<- <-]|[Hne Hpi]].
    + destruct (wf_pages _ _ _ _ Hwf x Hx) as [pi Hpi].
      pose proof (vw_ref _ _ _ _ Hwf x pi Hpi) as Hr.
      rewrite (aw_free _ _ (vw_alloc _ _ _ _ Hwf) x pi Hin Hpi) in Hr. rewrite hits_self. simpl.
      pose proof (refs_nonneg W x). specialize (Hp x). lia.
    + unfold hits. rewrite (proj2 (Z.eqb_neq _ _)) by done. pose proof (vw_ref _ _ _ _ Hwf p pi Hpi). lia.
Qed.

(** Storing [w] in an entry of a table of [a]. *)
Lemma wf_set_pte s W l pend k a d t tp w :
  vm_wf s W l pend -> W !! k = Some a -> a.(as_tabs) !! d = Some tp -> 0 <= t < 1024 ->
  0 <= w < 2 ^ 32 -> (entry w = None -> w = 0) ->
  (forall w', entry w = Some w' -> 0 <= pte_page w' < s.(npages) /\ ~ owned W (pte_page w')) ->
  vm_wf (set_pmem (st32 s.(pmem) (tp * PGSIZE + 4 * t) w) s)
    (<[k := set_entry (d * 1024 + t) w a]> W) l
    (fun p => pend p + ohits p (a.(as_maps) !! (d * 1024 + t)) - ohits p (entry w)).
Proof.
  intros Hwf Hk Htp Ht Hw Hw0 Hnew.
  assert (forall k' b, <[k := set_entry (d * 1024 + t) w a]> W !! k' = Some b ->
    exists b0, W !! k' = Some b0 /\ (forall p, owns b p -> owns b0 p)) as Hold.
  { intros k' b. rewrite lookup_insert_Some. intros [[<- <-]|[? Hb]]; by eauto. }
  assert (forall p, owned (<[k := set_entry (d * 1024 + t) w a]> W) p -> owned W p) as Hown.
  { intros p (k' & b & Hb & Ho). destruct (Hold _ _ Hb) as (b0 & ? & ?). exists k', b0. auto. }
  split.
  - destruct (vw_alloc _ _ _ _ Hwf). by split.
  - intros k' b. rewrite lookup_insert_Some. intros [[<- <-]|[Hne Hb]].
    { apply (vm_rep_set_pte s _ a d t tp w); auto. by apply (vw_rep _ _ _ _ Hwf k). }
    apply (vm_rep_frame (fun p => p = tp) s); [by apply (vw_rep _ _ _ _ Hwf k')|done| |].
    + by apply same_outside_st32.
    + intros p Ho ->. apply Hne. apply (vw_disj _ _ _ _ Hwf k k' a b tp); try done.
      right. eauto.
  - intros k1 k2 a1 a2 p H1 H2 Ho1 Ho2.
    destruct (Hold _ _ H1) as (b1 & Hb1 & HO1), (Hold _ _ H2) as (b2 & Hb2 & HO2).
    apply (vw_disj _ _ _ _ Hwf k1 k2 b1 b2 p); auto.
  - intros k' b v w' Hb Hv.
    assert (0 <= pte_page w' < s.(npages) /\ ~ owned W (pte_page w')) as [? ?]; [|by auto].
    apply lookup_insert_Some in Hb as [[<- <-]|[_ Hb]]; [|by apply (vw_mapped _ _ _ _ Hwf k' b v)].
    simpl in Hv. destruct (decide (d * 1024 + t = v)) as [<-|].
    + rewrite lookup_partial_alter_eq in Hv. by apply Hnew.
    + rewrite lookup_partial_alter_ne in Hv by done. by apply (vw_mapped _ _ _ _ Hwf k a v).
  - intros p pi Hpi. rewrite (refs_update _ _ a), refs1_set_entry by done.
    pose proof (vw_ref _ _ _ _ Hwf p pi Hpi). lia.
Qed.

(** Adding flags to the directory entry of a table of [a]. *)
Lemma wf_pde_flags s W l pend k a d tp perm :
  vm_wf s W l pend -> W !! k = Some a -> a.(as_tabs) !! d = Some tp -> 0 <= perm < PGSIZE ->
  vm_wf (set_pmem (st32 s.(pmem) (a.(as_dir) * PGSIZE + 4 * d)
    (Z.lor (ld32 s.(pmem) (a.(as_dir) * PGSIZE + 4 * d)) perm)) s) W l pend.
Proof.
  intros Hwf Hk Htp Hperm.
  pose proof (vw_rep _ _ _ _ Hwf k a Hk) as Hr.
  destruct (vr_tabs_dom _ _ Hr _ _ Htp) as [Hd _]. apply (vr_slots _ _ Hr) in Hd.
  destruct Hwf as [Ha Hrep Hdj Hm Href]. split; try done.
  - destruct Ha. by split.
  - intros k' b Hb. destruct (decide (k' = k)) as [->|Hne].
    + replace b with a by congruence. eapply (vm_rep_pde_flags s _ a d tp); done.
    + apply (vm_rep_frame (fun p => p = a.(as_dir)) s); [by apply (Hrep k')|done| |].
      * apply same_outside_st32; [lia|done].
      * intros p Ho ->. apply Hne. apply (Hdj k' k b a a.(as_dir)); try done. by left.
Qed.

(** Taking and dropping a reference. *)
Lemma wf_incref s W l pend p pi :
  vm_wf s W l pend -> s.(pages) !! p = Some pi -> pi.(pp_ref) = refs W p + pend p -> p ∉ l -> pi.(pp_ref) + 1 < 2 ^ 16 ->
  let s' := set_pages (<[p := mkPageInfo None (pi.(pp_ref) + 1)]> s.(pages)) s in
  set_ref p (pi.(pp_ref) + 1) s = Ret tt s' /\
  vm_wf s' W l (fun q => pend q + hits q p).
Proof.
  intros Hwf Hpi Hcnt Hl Hov. pose proof (aw_ref _ _ (vw_alloc _ _ _ _ Hwf) _ _ Hpi).
  pose proof (aw_link _ _ (vw_alloc _ _ _ _ Hwf) _ _ Hpi Hl) as Hlk. split.
  - rewrite (set_ref_some _ _ pi) by done. by rewrite Hlk, u16_small by lia.
  - destruct Hwf as [Ha Hrep Hdj Hm Href].
    split; simpl; try done.
    + apply (alloc_wf_set_ref _ _ pi); done || lia.
    + intros k a Hk. by apply (vm_rep_ext s); eauto.
    + intros q qi. rewrite lookup_insert_Some. intros [[<- <-]|[Hne Hq]]; simpl.
      * rewrite hits_self. lia.
      * unfold hits. rewrite (proj2 (Z.eqb_neq _ _)) by done. pose proof (Href _ _ Hq). lia.
Qed.

(** The state [page_decref] leaves, and the free list it leaves. *)
Definition decref (p : Z) (r : Z) (s : pmap) : pmap :=
  if r =? 1 then freed p s
  else set_pages (<[p := mkPageInfo None (r - 1)]> s.(pages)) s.

Lemma wf_decref s W l pend p pi :
  vm_wf s W l pend -> s.(pages) !! p = Some pi -> 0 < refs W p + pend p -> p ∉ l -> 1 <= pi.(pp_ref) ->
  page_decref p s = Ret tt (decref p pi.(pp_ref) s) /\
  vm_wf (decref p pi.(pp_ref) s) W (if pi.(pp_ref) =? 1 then p :: l else l)
    (fun q => pend q - hits q p).
Proof.
  intros Hwf Hpi Hpos Hl H1. pose proof (vw_ref _ _ _ _ Hwf p pi Hpi Hpos) as Hr.
  destruct Hwf as [Ha Hrep Hdj Hm Href]. unfold decref.
  assert (forall s' r, s'.(pages) = <[p := r]> s.(pages) -> r.(pp_ref) = pi.(pp_ref) - 1 ->
    forall q qi, s'.(pages) !! q = Some qi -> 0 < refs W q + (pend q - hits q p) -> qi.(pp_ref) = refs W q + (pend q - hits q p)) as Hcount.
  { intros s' r -> Hrr q qi. rewrite lookup_insert_Some. intros [[<- <-]|[Hne Hq]].
    - rewrite hits_self. lia.
    - unfold hits. rewrite (proj2 (Z.eqb_neq _ _)) by done. pose proof (Href _ _ Hq). lia. }
  destruct (Z.eqb_spec pi.(pp_ref) 1) as [E|E].
  - destruct (page_decref_last s p pi l Ha Hpi E Hl) as [Hrun Ha']. split; [exact Hrun|].
    split; try done.
    + intros k a Hk. by apply (vm_rep_ext s); eauto.
    + apply (Hcount _ (mkPageInfo s.(page_free_list) 0)); simpl; [done|lia].
  - destruct (page_decref_many s p pi l Ha Hpi ltac:(lia) Hl) as [Hrun Ha']. split; [exact Hrun|].
    split; try done.
    + intros k a Hk. by apply (vm_rep_ext s); eauto.
    + by apply (Hcount _ (mkPageInfo None (pi.(pp_ref) - 1))).
Qed.

(** ** [page_lookup], [page_remove] and [page_insert] *)

(** The virtual page number of an address. *)
Lemma vpn_split a va : covers a va -> PGNUM va = PDX va * 1024 + PTX va.
Proof. intros [H _]. by apply PGNUM_PDX_PTX. Qed.

Lemma vpn_slot a va : covers a va -> PGNUM va / 1024 = PDX va.
Proof. intros H. rewrite (vpn_split a) by done. pose proof (PTX_range va). zdm. Qed.

(** The entry of a user address, from its table. *)
Lemma maps_entry s a va tp :
  vm_rep s a -> covers a va -> a.(as_tabs) !! PDX va = Some tp ->
  a.(as_maps) !! PGNUM va = entry (ld32 s.(pmem) (tp * PGSIZE + 4 * PTX va)).
Proof.
  intros Hr Hva Htp. rewrite (vpn_split a) by done. apply (vr_maps _ _ Hr); [done|apply PTX_range].
Qed.

Lemma maps_no_table s a va :
  vm_rep s a -> covers a va -> a.(as_tabs) !! PDX va = None ->
  a.(as_maps) !! PGNUM va = None.
Proof.
  intros Hr Hva Htp. destruct (a.(as_maps) !! PGNUM va) as [w|] eqn:E; [|done].
  apply (vr_maps_dom _ _ Hr) in E. rewrite (vpn_slot a), Htp in E by done. by destruct E.
Qed.

Lemma kload32_pte s a va tp :
  vm_rep s a -> a.(as_tabs) !! PDX va = Some tp ->
  kload32 (pte_kva tp va) s = Ret (ld32 s.(pmem) (tp * PGSIZE + 4 * PTX va)) s.
Proof.
  intros Hr Htp. destruct (vr_tabs_dom _ _ Hr _ _ Htp) as [_ ?].
  apply kload32_page; [lia|apply PTX_range].
Qed.

Lemma kstore32_pte s a va tp w :
  vm_rep s a -> a.(as_tabs) !! PDX va = Some tp ->
  kstore32 (pte_kva tp va) w s =
    Ret tt (set_pmem (st32 s.(pmem) (tp * PGSIZE + 4 * PTX va) w) s).
Proof.
  intros Hr Htp. destruct (vr_tabs_dom _ _ Hr _ _ Htp) as [_ ?].
  apply kstore32_page; [lia|apply PTX_range].
Qed.

Lemma lookup_unmapped s a va store :
  vm_rep s a -> covers a va -> a.(as_maps) !! PGNUM va = None ->
  page_lookup (page_kva a.(as_dir)) va store s = Ret (None, store) s.
Proof.
  intros Hr Hva Hm. unfold page_lookup.
  destruct (a.(as_tabs) !! PDX va) as [tp|] eqn:Htp.
  - mstep (by apply (walk_found s a va 0 tp)). mstep (by apply (kload32_pte s a)).
    rewrite (maps_entry s a va tp Hr Hva Htp) in Hm. apply entry_none in Hm. by rewrite Hm.
  - by mstep (by apply walk_absent).
Qed.

Lemma lookup_mapped s a va store w tp :
  vm_rep s a -> covers a va -> a.(as_tabs) !! PDX va = Some tp ->
  a.(as_maps) !! PGNUM va = Some w -> 0 <= pte_page w < s.(npages) ->
  page_lookup (page_kva a.(as_dir)) va store s =
    Ret (Some (pte_page w), if nonzero store then pte_kva tp va else store) s.
Proof.
  intros Hr Hva Htp Hm Hp. unfold page_lookup. pose proof (vr_npages _ _ Hr).
  mstep (by apply (walk_found s a va 0 tp)). mstep (by apply (kload32_pte s a)).
  rewrite (maps_entry s a va tp Hr Hva Htp) in Hm. apply entry_some in Hm as [-> Hb].
  rewrite Hb. simpl. rewrite pte_page_mul by apply ld32_range.
  mstep (apply pa2page_page; lia). done.
Qed.

(** A mapped page has its table, and is a page in use. *)
Lemma mapped_table s W l pend k a v w :
  vm_wf s W l pend -> W !! k = Some a -> a.(as_maps) !! v = Some w ->
  exists tp, a.(as_tabs) !! (v / 1024) = Some tp.
Proof. intros Hwf Hk Hv. by apply (vr_maps_dom _ _ (vw_rep _ _ _ _ Hwf k a Hk)) in Hv. Qed.

Lemma mapped_in_use s W l pend k a v w :
  vm_wf s W l pend -> (forall p, 0 <= pend p) -> W !! k = Some a -> a.(as_maps) !! v = Some w ->
  exists pi, s.(pages) !! pte_page w = Some pi /\ 1 <= pi.(pp_ref) /\ pte_page w ∉ l.
Proof.
  intros Hwf Hp Hk Hv. destruct (vw_mapped _ _ _ _ Hwf k a v w Hk Hv) as [Hr _].
  destruct (wf_pages _ _ _ _ Hwf _ Hr) as [pi Hpi]. exists pi. split; [done|].
  pose proof (vw_ref _ _ _ _ Hwf _ _ Hpi). pose proof (maps_refs1 a v w Hv).
  pose proof (refs_ge W k a (pte_page w) Hk). specialize (Hp (pte_page w)). split; [lia|].
  intros Hin. rewrite (aw_free _ _ (vw_alloc _ _ _ _ Hwf) _ _ Hin Hpi) in *. lia.
Qed.

Lemma set_entry_0 v a : set_entry v 0 a = without_map v a.
Proof. done. Qed.

Section Ops.
Context {Mach : Machine}.
Hypothesis uninit_nonzero : forall pgdir va, uninit_ptep pgdir va <> 0.

Lemma uninit_nonzero_b pgdir va : nonzero (uninit_ptep pgdir va) = true.
Proof. unfold nonzero. by rewrite (proj2 (Z.eqb_neq _ _)). Qed.

Lemma remove_unmapped s a va :
  vm_rep s a -> covers a va -> a.(as_maps) !! PGNUM va = None ->
  page_remove (page_kva a.(as_dir)) va s = Ret tt s.
Proof. intros Hr Hva Hm. unfold page_remove. by mstep (by apply lookup_unmapped). Qed.

(** Removing a mapping deletes it from the address space, drops one reference,
    and frees the page exactly when that was the last one. *)
Lemma remove_mapped s W l pend k a va w pi :
  vm_wf s W l pend -> (forall p, 0 <= pend p) -> W !! k = Some a -> covers a va ->
  a.(as_maps) !! PGNUM va = Some w -> s.(pages) !! pte_page w = Some pi ->
  exists s', page_remove (page_kva a.(as_dir)) va s = Ret tt s' /\
    vm_wf s' (<[k := without_map (PGNUM va) a]> W)
      (if pi.(pp_ref) =? 1 then pte_page w :: l else l) pend /\
    vm_frame (owns a) s s' /\ s'.(invlpgs) = va :: s.(invlpgs) /\
    s'.(pages) = (decref (pte_page w) pi.(pp_ref) s).(pages) /\
    forall d, 0 <= d < 1024 -> pde s' a d = pde s a d.
Proof.
  intros Hwf Hp Hk Hva Hm Hpi.
  destruct (mapped_table _ _ _ _ _ _ _ _ Hwf Hk Hm) as [tp Htp].
  rewrite (vpn_slot a) in Htp by done.
  destruct (mapped_in_use _ _ _ _ _ _ _ _ Hwf Hp Hk Hm) as (pi' & Hpi' & H1 & Hl).
  replace pi' with pi in * by congruence.
  destruct (vw_mapped _ _ _ _ Hwf k a _ w Hk Hm) as [Hr _].
  assert (0 < refs W (pte_page w) + pend (pte_page w)) as Hpos.
  { pose proof (maps_refs1 a _ w Hm). pose proof (refs_ge W k a (pte_page w) Hk). specialize (Hp (pte_page w)). lia. }
  destruct (wf_decref s W l pend (pte_page w) pi Hwf Hpi Hpos Hl H1) as [Hd Hwf1].
  set (s1 := decref (pte_page w) (pp_ref pi) s) in *.
  pose proof (vw_rep _ _ _ _ Hwf1 k a Hk) as Hr1.
  pose proof (wf_set_pte s1 W _ _ k a (PDX va) (PTX va) tp 0 Hwf1 Hk Htp (PTX_range va)
    ltac:(lia) ltac:(done) ltac:(by rewrite entry_0)) as Hwf2.
  rewrite <- (vpn_split a), set_entry_0 in Hwf2 by done.
  assert (s1.(pmem) = s.(pmem)) as Hm1 by (unfold s1, decref; by case_match).
  eexists. split.
  { unfold page_remove. mstep (by apply (lookup_mapped s a va _ w tp); [apply (vw_rep _ _ _ _ Hwf k)| | | |]).
    rewrite uninit_nonzero_b. mstep (exact Hd). mstep (by apply (kstore32_pte s1 a)).
    reflexivity. }
  split; [|split; [|split; [|split]]].
  - rewrite Hm, entry_0 in Hwf2. destruct Hwf2 as [Ha Hrep Hdj Hmp Href]. split; try done.
    + destruct Ha. by split.
    + intros k' b Hb. eapply vm_rep_ext; [by apply (Hrep k')|done|done].
    + intros p q Hq. specialize (Href p q Hq). cbn in Href.
      unfold ohits, at_opt in Href. simpl in Href. lia.
  - split; try (unfold s1, decref; by case_match). simpl. rewrite Hm1.
    apply same_outside_st32; [apply PTX_range|]. right. eauto.
  - unfold s1, decref. by case_match.
  - done.
  - intros d Hdr. unfold pde. simpl. rewrite Hm1, (ld32_st32_page _ _ _ _ _ _ (PTX_range va) Hdr).
    rewrite (proj2 (Z.eqb_neq tp _)); [reflexivity|]. intros ->. exact (vr_dir_tab _ _ Hr1 _ Htp).
Qed.

(** The free list after the mapping [old] gave way to a mapping of [pp]: the page
    goes back to the free list when no other reference is left. *)
Definition drop_free (W : gmap Z aspace) (l : list Z) (old : option Z) (pp : Z) : list Z :=
  match old with
  | Some w => if refs W (pte_page w) + hits (pte_page w) pp =? 1 then pte_page w :: l else l
  | None => l
  end.

(** The TLB trace after the entry for [va] was removed from [a]. *)
Definition flushed (a : aspace) (va : Z) (t : list Z) : list Z :=
  match a.(as_maps) !! PGNUM va with Some _ => va :: t | None => t end.

Lemma set_entry_without v w a :
  entry w = Some w -> set_entry v w (without_map v a) = with_map v w a.
Proof.
  intros H. unfold set_entry, with_map. rewrite H. simpl. f_equal.
  apply map_eq. intros i. destruct (decide (v = i)) as [<-|].
  - by rewrite lookup_partial_alter_eq, lookup_insert_eq.
  - by rewrite lookup_partial_alter_ne, lookup_insert_ne, lookup_delete_ne.
Qed.

(** The conditional removal inside [page_insert]. *)
Lemma remove_step s W l k a va pp tp pi :
  vm_wf s W l no_pend -> W !! k = Some a -> covers a va -> a.(as_tabs) !! PDX va = Some tp ->
  s.(pages) !! pp = Some pi -> pi.(pp_ref) = refs W pp -> pp ∉ l -> pi.(pp_ref) + 1 < 2 ^ 16 ->
  let s1 := set_pages (<[pp := mkPageInfo None (pi.(pp_ref) + 1)]> s.(pages)) s in
  exists s2 l2, (if bits_set (ld32 s1.(pmem) (tp * PGSIZE + 4 * PTX va)) PTE_P
      then page_remove (page_kva a.(as_dir)) va else ret tt) s1 = Ret tt s2 /\
    vm_wf s2 (<[k := without_map (PGNUM va) a]> W) l2 (fun q => no_pend q + hits q pp) /\
    vm_frame (owns a) s1 s2 /\ s2.(invlpgs) = flushed a va s.(invlpgs) /\
    l2 = drop_free W l (a.(as_maps) !! PGNUM va) pp /\
    forall d, 0 <= d < 1024 -> pde s2 a d = pde s a d.
Proof.
  intros Hwf Hk Hva Htp Hpi Hcnt Hl Hov s1.
  destruct (wf_incref s W l no_pend pp pi Hwf Hpi ltac:(unfold no_pend; lia) Hl Hov) as [_ Hwf1]. fold s1 in Hwf1.
  pose proof (vw_rep _ _ _ _ Hwf1 k a Hk) as Hr1. unfold flushed, drop_free.
  pose proof (maps_entry s1 a va tp Hr1 Hva Htp) as Hme.
  destruct (a.(as_maps) !! PGNUM va) as [w|] eqn:Hm; symmetry in Hme.
  - apply entry_some in Hme as [Hw Hb]. rewrite Hb.
    assert (forall p, 0 <= no_pend p + hits p pp) as Hp
      by (intros p; unfold no_pend; pose proof (hits_nonneg p pp); lia).
    destruct (mapped_in_use _ _ _ _ _ _ _ _ Hwf1 Hp Hk Hm) as (qi & Hqi & _ & _).
    destruct (remove_mapped s1 W l _ k a va w qi Hwf1 Hp Hk Hva Hm Hqi)
      as (s2 & Hrun & Hwf2 & Hf & Ht & _ & Hpde).
    pose proof (vw_ref _ _ _ _ Hwf1 _ _ Hqi) as Hr. unfold no_pend in Hr.
    pose proof (maps_refs1 a _ w Hm). pose proof (refs_ge W k a (pte_page w) Hk). pose proof (hits_nonneg (pte_page w) pp).
    exists s2, (if pp_ref qi =? 1 then pte_page w :: l else l).
    do 4 (split; [done|]). split; [|exact Hpde]. by replace (pp_ref qi) with (refs W (pte_page w) + hits (pte_page w) pp) by lia.
  - apply entry_none in Hme. rewrite Hme. exists s1, l.
    replace (without_map (PGNUM va) a) with a
      by (unfold without_map; rewrite delete_id by done; by destruct a).
    rewrite insert_id by done. done.
Qed.

(** [page_insert] once the table exists: the old mapping goes, the new one comes. *)
Lemma insert_tail s W l k a va pp perm tp pi :
  vm_wf s W l no_pend -> W !! k = Some a -> covers a va -> a.(as_tabs) !! PDX va = Some tp ->
  0 <= perm < PGSIZE -> s.(pages) !! pp = Some pi -> pi.(pp_ref) = refs W pp -> pp ∉ l -> ~ owned W pp ->
  pi.(pp_ref) + 1 < 2 ^ 16 ->
  exists s', bind (set_ref pp (pi.(pp_ref) + 1)) (fun _ =>
      bind (kload32 (pte_kva tp va)) (fun pte =>
      bind (if bits_set pte PTE_P then page_remove (page_kva a.(as_dir)) va else ret tt) (fun _ =>
      bind (kstore32 (pte_kva tp va) (mkpte pp perm)) (fun _ =>
      bind (kload32 (pde_at (page_kva a.(as_dir)) va)) (fun pde =>
      bind (kstore32 (pde_at (page_kva a.(as_dir)) va) (Z.lor pde perm)) (fun _ => ret 0)))))) s
    = Ret 0 s' /\
    vm_wf s' (<[k := with_map (PGNUM va) (mkpte pp perm) a]> W)
      (drop_free W l (a.(as_maps) !! PGNUM va) pp) no_pend /\
    vm_frame (owns a) s s' /\ s'.(invlpgs) = flushed a va s.(invlpgs) /\
    forall d, 0 <= d < 1024 -> pde s' a d = if PDX va =? d then Z.lor (pde s a d) perm else pde s a d.
Proof.
  intros Hwf Hk Hva Htp Hperm Hpi Hcnt Hl Ho Hov.
  destruct (wf_incref s W l no_pend pp pi Hwf Hpi ltac:(unfold no_pend; lia) Hl Hov) as [Hinc Hwf1].
  set (s1 := set_pages _ s) in *.
  pose proof (vw_rep _ _ _ _ Hwf1 k a Hk) as Hr1.
  destruct (remove_step s W l k a va pp tp pi Hwf Hk Hva Htp Hpi Hcnt Hl Hov)
    as (s2 & l2 & Hrm & Hwf2 & Hf2 & Htlb & -> & Hpde2). fold s1 in Hrm, Hf2.
  assert (0 <= pp < s.(npages)) as Hpp by (apply (aw_dom _ _ (vw_alloc _ _ _ _ Hwf)); eauto).
  pose proof (aw_npages _ _ (vw_alloc _ _ _ _ Hwf)) as Hnp.
  pose proof (vf_npages _ _ _ Hf2) as Hn2. simpl in Hn2.
  pose proof (mkpte_page pp perm ltac:(lia) Hperm) as Hmp.
  set (a2 := without_map (PGNUM va) a) in *.
  assert (<[k := a2]> W !! k = Some a2) as Hk2 by apply lookup_insert_eq.
  pose proof (wf_set_pte s2 _ _ _ k a2 (PDX va) (PTX va) tp (mkpte pp perm) Hwf2 Hk2 Htp
    (PTX_range va) (mkpte_range pp perm ltac:(lia) Hperm)
    ltac:(by unfold entry, mkpte; rewrite bits_set_lor_P)) as Hwf3.
  rewrite <- (vpn_split a) in Hwf3 by done.
  replace (entry (mkpte pp perm)) with (Some (mkpte pp perm)) in Hwf3
    by (unfold entry, mkpte; by rewrite bits_set_lor_P).
  assert (vm_wf (set_pmem (st32 s2.(pmem) (tp * PGSIZE + 4 * PTX va) (mkpte pp perm)) s2)
    (<[k := with_map (PGNUM va) (mkpte pp perm) a]> W)
    (drop_free W l (a.(as_maps) !! PGNUM va) pp) no_pend) as Hwf3'.
  { unfold a2 in Hwf3. rewrite insert_insert_eq, set_entry_without in Hwf3
      by (unfold entry, mkpte; by rewrite bits_set_lor_P).
    eapply vm_wf_pend; [apply Hwf3|].
    - intros w' [= <-]. rewrite Hmp, Hn2. split; [done|]. intros (k' & b & Hb & Hob).
      apply Ho. apply lookup_insert_Some in Hb as [[<- <-]|[_ Hb]]; [by exists k, a|by exists k', b].
    - intros p. unfold ohits, at_opt. simpl. rewrite lookup_delete_eq. simpl.
      rewrite Hmp. unfold no_pend. lia. }
  set (s3 := set_pmem _ s2) in *. set (W3 := <[k := with_map _ _ a]> W) in *.
  assert (W3 !! k = Some (with_map (PGNUM va) (mkpte pp perm) a)) as Hk3 by apply lookup_insert_eq.
  pose proof (wf_pde_flags s3 W3 _ _ k _ (PDX va) tp perm Hwf3' Hk3 Htp Hperm) as Hwf4.
  pose proof (vw_rep _ _ _ _ Hwf3' k _ Hk3) as Hr3.
  destruct (vm_rep_pde s3 _ va Hr3 Hva) as [Hld3 _]. simpl in Hld3.
  pose proof (vr_dir _ _ Hr1) as Hdir. simpl in Hdir.
  eexists. split; [|split; [exact Hwf4|split; [|split]]].
  - mstep (exact Hinc). mstep (by apply (kload32_pte s1 a)). mstep (exact Hrm).
    mstep (apply (kstore32_pte s2 a2); [by apply (vw_rep _ _ _ _ Hwf2 k)|done]).
    mstep (exact Hld3). rewrite pde_at_page by lia.
    mstep (apply kstore32_page; [lia|apply PDX_range]). reflexivity.
  - apply (vm_frame_trans _ _ s2); [|split; try done; simpl].
    + apply (vm_frame_trans _ _ s1); [|exact Hf2]. by split.
    + eapply same_outside_trans; apply same_outside_st32.
      * apply PTX_range.
      * right. eauto.
      * apply PDX_range.
      * by left.
  - exact Htlb.
  - assert (tp <> a.(as_dir)) as Hne by (intros ->; exact (vr_dir_tab _ _ Hr1 _ Htp)).
    assert (forall d, 0 <= d < 1024 -> pde s3 a d = pde s a d) as Hpde3.
    { intros d Hd. unfold pde, s3. simpl. rewrite (ld32_st32_page _ _ _ _ _ _ (PTX_range va) Hd).
      rewrite (proj2 (Z.eqb_neq tp _)) by exact Hne. by apply Hpde2. }
    intros d Hd. unfold pde at 1. cbn [pmem set_pmem as_dir with_map].
    rewrite (ld32_st32_page _ _ _ _ _ _ (PDX_range va) Hd), Z.eqb_refl. cbn [andb].
    destruct (Z.eqb_spec (PDX va) d) as [<-|]; [|by apply Hpde3]. fold (pde s3 a (PDX va)). rewrite Hpde3 by exact Hd.
    apply u32_small, pte_page_lor; [apply ld32_range|done].
Qed.

(** The abstract effect of making sure slot [d] has a table. *)
Definition ensure_tab (a : aspace) (l : list Z) (d : Z) : option (aspace * list Z) :=
  match a.(as_tabs) !! d, l with
  | Some _, _ => Some (a, l)
  | None, x :: l' => Some (with_tab d x a, l')
  | None, [] => None
  end.

(** [pgdir_walk] with [create] set. *)
Lemma walk_ensure s W l k a va c :
  vm_wf s W l no_pend -> W !! k = Some a -> covers a va -> c <> 0 ->
  match ensure_tab a l (PDX va) with
  | None => pgdir_walk (page_kva a.(as_dir)) va c s = Ret None s
  | Some (a', l') => exists tp s',
      pgdir_walk (page_kva a.(as_dir)) va c s = Ret (Some (pte_kva tp va)) s' /\
      a'.(as_tabs) !! PDX va = Some tp /\ vm_wf s' (<[k := a']> W) l' no_pend /\
      vm_frame (fun p => owns a p \/ p ∈ l) s s' /\ s'.(invlpgs) = s.(invlpgs) /\
      (forall p, p ∉ l -> s'.(pages) !! p = s.(pages) !! p) /\
      (forall d, 0 <= d < 1024 -> d <> PDX va \/ is_Some (a.(as_tabs) !! d) -> pde s' a d = pde s a d)
  end.
Proof.
  intros Hwf Hk Hva Hc. pose proof (vw_rep _ _ _ _ Hwf k a Hk) as Hr.
  unfold ensure_tab. destruct (a.(as_tabs) !! PDX va) as [tp|] eqn:Htp.
  - exists tp, s. rewrite insert_id by done. split; [by apply walk_found|].
    by repeat (split; [done || apply vm_frame_refl|]).
  - destruct l as [|x l']; [apply walk_nomem, (vw_alloc _ _ _ _ Hwf); done|].
    assert (x ∈ x :: l') as Hx by left.
    assert (~ owns a x) as Hno.
    { intros Ho. apply (free_not_owned _ _ _ _ Hwf ltac:(done) x Hx). by exists k, a. }
    exists x, (tabbed a (PDX va) x s).
    split; [apply (walk_create _ _ _ _ _ l'); try done; apply (vw_alloc _ _ _ _ Hwf)|].
    split; [apply lookup_insert_eq|].
    split; [apply wf_new_tab; try done; apply Hva|].
    split; [|split; [done|split]].
    + split; try done. eapply same_outside_trans; [apply same_outside_zero; by right|].
      apply same_outside_st32; [apply PDX_range|]. left. by left.
    + intros p Hp. simpl. rewrite lookup_insert_ne; [done|]. intros ->. by apply Hp.
    + intros d Hd Hdn. pose proof (vr_npages _ _ Hr). unfold pde.
      assert (PDX va <> d) as Hne by (destruct Hdn as [?|[? ?]]; congruence).
      pose proof (free_in_range _ _ _ _ Hwf x Hx).
      rewrite tabbed_words by (apply PDX_range || exact Hd || lia).
      rewrite Z.eqb_refl, (proj2 (Z.eqb_neq (PDX va) d)) by exact Hne. simpl.
      rewrite (proj2 (Z.eqb_neq x _)); [done|]. intros ->. apply Hno. by left.
Qed.

Lemma ensure_tab_facts s W l k a d a' l' pp :
  vm_wf s W l no_pend -> W !! k = Some a -> ensure_tab a l d = Some (a', l') ->
  a'.(as_slots) = a.(as_slots) /\ a'.(as_dir) = a.(as_dir) /\ a'.(as_maps) = a.(as_maps) /\
  (forall p, owns a' p -> owns a p \/ p ∈ l) /\ (forall p, p ∈ l' -> p ∈ l) /\
  forall w, drop_free (<[k := a']> W) l' (a.(as_maps) !! w) pp =
    drop_free W l' (a.(as_maps) !! w) pp.
Proof.
  intros Hwf Hk. unfold ensure_tab. destruct (a.(as_tabs) !! d) eqn:Hd.
  { intros [= <- <-]. rewrite insert_id by done. naive_solver. }
  destruct l as [|x l0]; intros [= <- <-]. do 3 (split; [done|]). split; [|split].
  - intros p [->|[d' Hd']]; [by left; left|]. simpl in Hd'.
    apply lookup_insert_Some in Hd' as [[_ ->]|[_ Hd']]; [right; by left|].
    left. right. eauto.
  - intros p Hp. by right.
  - intros v. destruct (a.(as_maps) !! v) as [w|] eqn:Hv; [|done]. simpl.
    rewrite (refs_update W k a), refs1_with_tab by done.
    assert (pte_page w <> x) as Hne
      by (apply (free_not_mapped _ _ _ _ Hwf ltac:(done) x k a v w); [left|done|done]).
    replace (hits (pte_page w) x) with 0
      by (unfold hits; by rewrite (proj2 (Z.eqb_neq _ _))).
    by replace (refs W (pte_page w) - refs1 (pte_page w) a + (refs1 (pte_page w) a + 0))
      with (refs W (pte_page w)) by lia.
Qed.

Lemma ensure_tab_refs (W : gmap Z aspace) l k a d a' l' pp :
  W !! k = Some a -> ensure_tab a l d = Some (a', l') -> pp ∉ l -> refs (<[k := a']> W) pp = refs W pp.
Proof.
  intros Hk. unfold ensure_tab. destruct (a.(as_tabs) !! d) eqn:Hd; [intros [= <- <-] _; by rewrite insert_id|].
  destruct l as [|x l0]; intros [= <- <-] Hpp. rewrite (refs_update W k a), refs1_with_tab by done.
  unfold hits. rewrite (proj2 (Z.eqb_neq _ _)); [lia|]. intros ->. apply Hpp. left.
Qed.

(** The abstract insertion: a table if needed, the new mapping in place of the old
    one, and the page of the old one back to the free list with its last reference. *)
Definition as_insert (W : gmap Z aspace) (l : list Z) (k va pp perm : Z)
  : option (gmap Z aspace * list Z) :=
  match W !! k with
  | None => None
  | Some a =>
      match ensure_tab a l (PDX va) with
      | None => None
      | Some (a', l') =>
          Some (<[k := with_map (PGNUM va) (mkpte pp perm) a']> W,
                drop_free W l' (a.(as_maps) !! PGNUM va) pp)
      end
  end.

(** The directory entry of [va] gains the flags [perm], and the others stay. *)
Record pdes_grow (s s' : pmap) (a : aspace) (va perm : Z) : Prop := {
  pg_same : forall d, 0 <= d < 1024 -> d <> PDX va -> pde s' a d = pde s a d;
  pg_keep : forall f, is_Some (a.(as_tabs) !! PDX va) -> bits_set (pde s a (PDX va)) f = true -> bits_set (pde s' a (PDX va)) f = true;
  pg_new : bits_set (pde s' a (PDX va)) perm = true;
}.

Lemma bits_set_lor_r x f : bits_set (Z.lor x f) f = true.
Proof.
  unfold bits_set. apply Z.eqb_eq. apply Z.bits_inj'. intros n _.
  rewrite Z.land_spec, Z.lor_spec. by destruct (Z.testbit x n), (Z.testbit f n).
Qed.

Lemma page_insert_ok s W l k a va pp perm :
  vm_wf s W l no_pend -> W !! k = Some a -> covers a va -> 0 <= perm < PGSIZE ->
  0 <= pp < s.(npages) -> (forall pi, s.(pages) !! pp = Some pi -> pi.(pp_ref) = refs W pp) ->
  pp ∉ l -> ~ owned W pp -> refs W pp + 1 < 2 ^ 16 ->
  match as_insert W l k va pp perm with
  | None => page_insert (page_kva a.(as_dir)) pp va perm s = Ret (- E_NO_MEM) s
  | Some (W', l') => exists s',
      page_insert (page_kva a.(as_dir)) pp va perm s = Ret 0 s' /\
      vm_wf s' W' l' no_pend /\ vm_frame (fun p => owns a p \/ p ∈ l) s s' /\
      s'.(invlpgs) = flushed a va s.(invlpgs) /\ pdes_grow s s' a va perm
  end.
Proof.
  intros Hwf Hk Hva Hperm Hpp Hcnt Hl Ho Hov. unfold as_insert. rewrite Hk.
  pose proof (walk_ensure s W l k a va 1 Hwf Hk Hva ltac:(done)) as Hwalk.
  unfold page_insert. destruct (ensure_tab a l (PDX va)) as [[a' l']|] eqn:He;
    [|by mstep (exact Hwalk)].
  destruct Hwalk as (tp & s1 & Hrun & Htp & Hwf1 & Hf1 & Htlb1 & Hpg1 & Hpd1).
  destruct (wf_pages _ _ _ _ Hwf pp Hpp) as [pi Hpi].
  pose proof (Hcnt pi Hpi) as Hr.
  assert (refs (<[k := a']> W) pp = refs W pp) as Hsame by by apply (ensure_tab_refs W l k a (PDX va) a' l').
  destruct (ensure_tab_facts s W l k a (PDX va) a' l' pp Hwf Hk He)
    as (Hsl & Hd & Hm & Hown & Hll & Hdf).
  rewrite <- Hpg1 in Hpi by done.
  destruct (insert_tail s1 (<[k := a']> W) l' k a' va pp perm tp pi) as (s' & Hrun' & Hwf' & Hf' & Htlb' & Hpd');
    try done; try lia.
  - apply lookup_insert_eq.
  - unfold covers. by rewrite Hsl.
  - intros Hin. by apply Hl, Hll.
  - intros (k' & b & Hb & Hob). apply lookup_insert_Some in Hb as [[<- <-]|[_ Hb]].
    + apply Hown in Hob as [Hob|Hob]; [apply Ho; by exists k, a|done].
    + apply Ho. by exists k', b.
  - rewrite insert_insert_eq, Hm, Hdf in Hwf'. rewrite Hd in Hrun'.
    exists s'. split; [|split; [done|split; [|split]]].
    + mstep (exact Hrun). mstep (by apply get_page_some). exact Hrun'.
    + apply (vm_frame_trans _ _ s1); [done|]. by apply (vm_frame_mono (owns a')).
    + rewrite Htlb', Htlb1. unfold flushed. by rewrite Hm.
    + assert (forall q d, pde q a' d = pde q a d) as Hpa by (intros; unfold pde; by rewrite Hd).
      split.
      * intros d Hdr Hne. rewrite <- Hpa, Hpd', (proj2 (Z.eqb_neq _ _)), Hpa by congruence || done. apply Hpd1; [done|by left].
      * intros f Hds Hf. rewrite <- Hpa, Hpd', Z.eqb_refl, Hpa, Hpd1 by (apply PDX_range || by right). by apply bits_set_lor_mono.
      * rewrite <- Hpa, Hpd', Z.eqb_refl by apply PDX_range. apply bits_set_lor_r.
Qed.
End Ops.
