(* ===== verification/KernMap.v ===== *)
(** The kernel's own mappings: [boot_map_region] and [mmio_map_region] of
    [kern/pmap.c] implement the abstract mapping of a region page by page. *)

From S2P Require Import Prelude Mmu Mem Pmap PmapAlloc PmapVm PmapRefs.

(** An address space with a free list it does not use. *)
Record kvm (s : pmap) (a : aspace) (l : list Z) : Prop := {
  kv_rep : vm_rep s a;
  kv_alloc : alloc_wf s l;
  kv_apart : forall p, p ∈ l -> ~ owns a p;
}.

(** One page: a table if needed, then the entry; without memory, nothing. *)
Definition map_page (v w : Z) (al : aspace * list Z) : aspace * list Z :=
  match ensure_tab al.1 al.2 (v / 1024) with
  | Some (a, l) => (with_map v w a, l)
  | None => al
  end.

(** [n] pages from virtual page [v], backed by [pa], [pa + PGSIZE], ... *)
Fixpoint map_region (n : nat) (v pa perm : Z) (al : aspace * list Z) : aspace * list Z :=
  match n with
  | O => al
  | S n =>
      map_region n (v + 1) (pa + PGSIZE) perm
        (map_page v (Z.lor (Z.lor pa perm) PTE_P) al)
  end.

Lemma free_range s l x : alloc_wf s l -> x ∈ l -> 0 <= x < s.(npages).
Proof.
  intros Ha Hx. apply (aw_dom _ _ Ha). pose proof (aw_chain _ _ Ha) as Hc. revert Hx Hc.
  generalize s.(page_free_list). clear Ha. induction l as [|y l' IH]; intros h Hx Hc;
    [by apply elem_of_nil in Hx|].
  destruct Hc as (_ & pi & Hpi & Hc). apply elem_of_cons in Hx as [->|Hx]; eauto.
Qed.

(** [pgdir_walk] with [create] set, on one address space. *)
Lemma kvm_walk s a l va :
  kvm s a l -> covers a va ->
  match ensure_tab a l (PDX va) with
  | None => pgdir_walk (page_kva a.(as_dir)) va 1 s = Ret None s
  | Some (a', l') => exists tp s',
      pgdir_walk (page_kva a.(as_dir)) va 1 s = Ret (Some (pte_kva tp va)) s' /\
      a'.(as_tabs) !! PDX va = Some tp /\ kvm s' a' l' /\
      a'.(as_dir) = a.(as_dir) /\ a'.(as_slots) = a.(as_slots)
  end.
Proof.
  intros [Hr Ha Hap] Hc. unfold ensure_tab. destruct (a.(as_tabs) !! PDX va) as [tp|] eqn:Htp.
  - exists tp, s. split; [by apply walk_found|]. split; [done|]. by split.
  - destruct l as [|x l']; [by apply walk_nomem|].
    assert (~ owns a x) as Hx by (apply Hap; left).
    exists x, (tabbed a (PDX va) x s). split; [by apply (walk_create _ _ _ _ _ l')|].
    split; [apply lookup_insert_eq|]. split; [|done]. split.
    + apply tabbed_rep; try done; [apply Hc|]. apply (free_range s (x :: l')); [done|left].
    + by apply tabbed_alloc.
    + intros p Hp [->|[d Hd]]; [apply (Hap a.(as_dir)); [by right|by left]|].
      cbn [with_tab as_tabs] in Hd. apply lookup_insert_Some in Hd as [[_ ->]|[_ Hd]].
      * pose proof (aw_nodup _ _ Ha) as Hnd. by apply NoDup_cons in Hnd as [? _].
      * apply (Hap p); [by right|right; eauto].
Qed.

(** The two stores of the loop body: the entry, then the directory flags. *)
Lemma kvm_stores s a l va tp w perm :
  kvm s a l -> covers a va -> a.(as_tabs) !! PDX va = Some tp -> 0 <= w < 2 ^ 32 ->
  bits_set w PTE_P = true -> 0 <= perm < PGSIZE ->
  exists s', bind (kstore32 (pte_kva tp va) w) (fun _ =>
      bind (kload32 (pde_at (page_kva a.(as_dir)) va)) (fun pde =>
        kstore32 (pde_at (page_kva a.(as_dir)) va) (Z.lor pde perm))) s = Ret tt s' /\
    kvm s' (with_map (PGNUM va) w a) l.
Proof.
  intros [Hr Ha Hap] Hc Htp Hw Hb Hp.
  set (s1 := set_pmem (st32 s.(pmem) (tp * PGSIZE + 4 * PTX va) w) s).
  assert (entry w = None -> w = 0) as Hw0 by (unfold entry; by rewrite Hb).
  pose proof (vm_rep_set_pte s s1 a (PDX va) (PTX va) tp w Hr Htp (PTX_range va) Hw Hw0 eq_refl eq_refl)
    as Hr1.
  rewrite <- (vpn_split a) in Hr1 by done.
  assert (set_entry (PGNUM va) w a = with_map (PGNUM va) w a) as He.
  { unfold set_entry, with_map, entry. by rewrite Hb. }
  rewrite He in Hr1. destruct (vm_rep_pde s1 _ va Hr1 Hc) as [Hld _]. simpl in Hld.
  pose proof (vr_dir _ _ Hr1) as Hd. simpl in Hd. pose proof (vr_npages _ _ Hr) as Hn.
  set (w1 := ld32 s1.(pmem) (a.(as_dir) * PGSIZE + 4 * PDX va)) in *.
  set (s2 := set_pmem (st32 s1.(pmem) (a.(as_dir) * PGSIZE + 4 * PDX va) (Z.lor w1 perm)) s1).
  pose proof (vm_rep_pde_flags s1 s2 _ (PDX va) tp w1 perm Hr1 Htp Hp eq_refl eq_refl eq_refl) as Hr2.
  exists s2. split.
  - mstep (by apply (kstore32_pte s a)). mstep (exact Hld). rewrite pde_at_page by lia.
    apply kstore32_page; [lia|apply PDX_range].
  - split; [exact Hr2| |done]. destruct Ha. by split.
Qed.

Lemma entry_range pa perm :
  0 <= pa < 2 ^ 32 -> 0 <= perm < PGSIZE -> 0 <= Z.lor (Z.lor pa perm) PTE_P < 2 ^ 32.
Proof. intros. apply (lor_range _ _ 32); [lia|apply (lor_range _ _ 32)|]; clia. Qed.

Section Region.
Context (va size pa perm : Z).
Hypothesis Hva : va mod PGSIZE = 0 /\ 0 <= va /\ va + size <= 2 ^ 32.
Hypothesis Hpa : 0 <= pa /\ pa + size <= 2 ^ 32.
Hypothesis Hsize : size + PGSIZE <= 2 ^ 32.
Hypothesis Hperm : 0 <= perm < PGSIZE.

Lemma region_loop fuel j s a l :
  kvm s a l -> 0 <= j -> (forall x, va <= x < va + size -> covers a x) ->
  (size + PGSIZE - 1) / PGSIZE - j < Z.of_nat fuel -> j <= (size + PGSIZE - 1) / PGSIZE ->
  exists s', boot_map_region_loop fuel (page_kva a.(as_dir)) va size pa perm (j * PGSIZE) s = Ret tt s' /\
    let al := map_region (Z.to_nat ((size + PGSIZE - 1) / PGSIZE - j)) (va / PGSIZE + j)
                (pa + j * PGSIZE) perm (a, l) in
    kvm s' al.1 al.2.
Proof.
  revert j s a l. induction fuel as [|fuel IH]; intros j s a l Hk Hj Hcov Hfuel Hle; [lia|].
  simpl. destruct (Z.ltb_spec (j * PGSIZE) size) as [Hlt|Hge].
  2:{ exists s. replace (Z.to_nat _) with O by (clear -Hge Hj Hle; czdm). by split. }
  assert (covers a (va + j * PGSIZE)) as Hc by (apply Hcov; clia).
  rewrite (u32_small (va + j * PGSIZE)), (u32_small (pa + j * PGSIZE)) by clia.
  rewrite (u32_small (j * PGSIZE + PGSIZE)) by clia.
  replace (Z.to_nat ((size + PGSIZE - 1) / PGSIZE - j)) with
    (S (Z.to_nat ((size + PGSIZE - 1) / PGSIZE - (j + 1)))) by (clear -Hlt Hj; czdm).
  cbn [map_region].
  assert (PGNUM (va + j * PGSIZE) = va / PGSIZE + j) as Hv
    by (rewrite PGNUM_div by clia; clear -Hva; czdm).
  assert ((va / PGSIZE + j) / 1024 = PDX (va + j * PGSIZE)) as Hpd
    by (rewrite <- Hv; by apply (vpn_slot a)).
  unfold map_page. cbn [fst snd]. rewrite Hpd.
  pose proof (kvm_walk s a l (va + j * PGSIZE) Hk Hc) as Hw.
  replace (j * PGSIZE + PGSIZE) with ((j + 1) * PGSIZE) by lia.
  replace (va / PGSIZE + j + 1) with (va / PGSIZE + (j + 1)) by lia.
  replace (pa + j * PGSIZE + PGSIZE) with (pa + (j + 1) * PGSIZE) by lia.
  destruct (ensure_tab a l _) as [[a' l']|].
  - destruct Hw as (tp & s1 & Hrun & Htp & Hk1 & Hd1 & Hs1).
    assert (covers a' (va + j * PGSIZE)) as Hc1 by (unfold covers; by rewrite Hs1).
    destruct (kvm_stores s1 a' l' _ tp (Z.lor (Z.lor (pa + j * PGSIZE) perm) PTE_P)
      (Z.lor perm PTE_P) Hk1 Hc1 Htp) as (s2 & Hrun2 & Hk2).
    { apply entry_range; [clia|done]. }
    { apply bits_set_lor_P. }
    { by apply flags_range. }
    rewrite Hd1 in Hrun2. rewrite Hv in Hk2.
    mstep (exact Hrun). mstep (exact Hrun2).
    destruct (IH (j + 1) s2 _ l' Hk2) as (s' & Hrun' & Hk'); try lia.
    { unfold covers. simpl. rewrite Hs1. apply Hcov. }
    { clear -Hlt Hj. czdm. }
    simpl in Hrun'. rewrite Hd1 in Hrun'. eauto.
  - mstep (exact Hw). mstep reflexivity.
    apply IH; try done; try lia. clear -Hlt Hj. czdm.
Qed.

Lemma boot_map_region_ok s a l :
  kvm s a l -> (forall x, va <= x < va + size -> covers a x) -> 0 <= size -> va + size < 2 ^ 32 ->
  exists s', boot_map_region (page_kva a.(as_dir)) va size pa perm s = Ret tt s' /\
    let al := map_region (Z.to_nat ((size + PGSIZE - 1) / PGSIZE)) (va / PGSIZE) pa perm (a, l) in
    kvm s' al.1 al.2.
Proof.
  intros Hk Hcov Hs Hnw. unfold boot_map_region.
  rewrite u32_small by lia. destruct (Z.ltb_spec (va + size) va); [lia|].
  destruct (region_loop (Z.to_nat (size / PGSIZE + 2)) 0 s a l Hk) as (s' & Hrun & Hk');
    try done; try (clear -Hs; czdm).
  exists s'. split; [exact Hrun|].
  by rewrite Z.sub_0_r, Z.add_0_r, Z.mul_0_l, Z.add_0_r in Hk'.
Qed.
End Region.

(** ** What a mapped region looks like *)

(** Slots of the region of [n] pages from [v] that have no table yet. *)
Definition missing (n : nat) (v : Z) (a : aspace) : gset Z :=
  filter (fun d => a.(as_tabs) !! d = None)
    (list_to_set ((fun i => (v + Z.of_nat i) / 1024) <$> seq 0 n)).

Lemma missing_spec n v a d :
  d ∈ missing n v a <->
  a.(as_tabs) !! d = None /\ exists i, (i < n)%nat /\ d = (v + Z.of_nat i) / 1024.
Proof.
  unfold missing. rewrite elem_of_filter, elem_of_list_to_set, list_elem_of_fmap.
  split; intros [H [i Hi]]; (split; [done|]); exists i.
  - destruct Hi as [-> Hi]. apply elem_of_seq in Hi. split; [lia|done].
  - destruct Hi as [Hi ->]. split; [done|]. apply elem_of_seq. lia.
Qed.

Lemma map_page_ok n v w a l :
  (size (missing (S n) v a) <= length l)%nat ->
  exists a' l', map_page v w (a, l) = (with_map v w a', l') /\
    a'.(as_maps) = a.(as_maps) /\ (size (missing n (v + 1) a') <= length l')%nat /\
    (forall d, d ∈ missing n (v + 1) a' -> d ∈ missing (S n) v a).
Proof.
  intros Hm. unfold map_page, ensure_tab. cbn [fst snd].
  assert (forall a', (forall d, a'.(as_tabs) !! d = None -> a.(as_tabs) !! d = None) ->
    forall d, d ∈ missing n (v + 1) a' -> d ∈ missing (S n) v a) as Hsub.
  { intros a' Ha d. rewrite !missing_spec. intros (Hd & i & Hi & ->). split; [by apply Ha|].
    exists (S i). split; [lia|]. f_equal. lia. }
  destruct (a.(as_tabs) !! (v / 1024)) as [tp|] eqn:Htp.
  - exists a, l. repeat split; try done; [|by apply Hsub].
    etransitivity; [|exact Hm]. apply subseteq_size. intros d. by apply Hsub.
  - assert (v / 1024 ∈ missing (S n) v a) as Hin.
    { apply missing_spec. split; [done|]. exists O. split; [lia|]. f_equal. lia. }
    destruct l as [|x l].
    { simpl in Hm. assert (size (missing (S n) v a) = O) as H0 by lia.
      apply size_empty_inv in H0. set_solver. }
    exists (with_tab (v / 1024) x a), l.
    assert (forall d, d ∈ missing n (v + 1) (with_tab (v / 1024) x a) ->
      d ∈ missing (S n) v a) as Hs.
    { apply Hsub. intros d. cbn [with_tab as_tabs]. rewrite lookup_insert_None. tauto. }
    repeat split; try done.
    assert (missing n (v + 1) (with_tab (v / 1024) x a) ⊆ missing (S n) v a ∖ {[v / 1024]}) as Hle.
    { intros d Hd. apply elem_of_difference. split; [by apply Hs|]. rewrite elem_of_singleton.
      intros ->. apply missing_spec in Hd as [Hd _]. cbn [with_tab as_tabs] in Hd.
      by rewrite lookup_insert_eq in Hd. }
    apply subseteq_size in Hle. rewrite size_difference in Hle by set_solver.
    rewrite size_singleton in Hle. simpl in Hm. lia.
Qed.

(** With a free page for every missing table, the region is mapped page by page
    and every other mapping is kept. *)
Lemma map_region_ok n v pa perm a l :
  (size (missing n v a) <= length l)%nat ->
  let a' := (map_region n v pa perm (a, l)).1 in
  (forall i, (i < n)%nat -> a'.(as_maps) !! (v + Z.of_nat i) =
    Some (Z.lor (Z.lor (pa + Z.of_nat i * PGSIZE) perm) PTE_P)) /\
  (forall u, u < v \/ v + Z.of_nat n <= u -> a'.(as_maps) !! u = a.(as_maps) !! u).
Proof.
  revert v pa a l. induction n as [|n IH]; intros v pa a l Hm; simpl; [by split; [lia|]|].
  destruct (map_page_ok n v (Z.lor (Z.lor pa perm) PTE_P) a l Hm) as (a1 & l1 & -> & Hmaps & Hm1 & _).
  destruct (IH (v + 1) (pa + PGSIZE) (with_map v (Z.lor (Z.lor pa perm) PTE_P) a1) l1) as [H1 H2];
    [exact Hm1|].
  split.
  - intros [|i] Hi.
    + rewrite Z.add_0_r, H2 by lia. cbn [with_map as_maps]. rewrite lookup_insert_eq.
      do 3 f_equal. lia.
    + replace (v + Z.of_nat (S i)) with (v + 1 + Z.of_nat i) by lia. rewrite H1 by lia.
      do 3 f_equal. lia.
  - intros u Hu. rewrite H2 by lia. cbn [with_map as_maps].
    rewrite lookup_insert_ne by lia. by rewrite Hmaps.
Qed.
