(* ===== verification/EnvMem.v ===== *)
(** Tearing down an address space: the loops of [env_free] ([kern/env.c]) drop every
    mapping, every page table and the directory, and every page whose last
    reference goes that way returns to the free list. *)

From S2P Require Import Prelude Mmu Mem Pmap PmapBoot Env PmapAlloc PmapVm PmapRefs.

(** Pages are conserved between two states: those referenced or free are the same. *)
Definition conserved (W : gmap Z aspace) (l : list Z) (W' : gmap Z aspace) (l' : list Z) : Prop :=
  forall p, 0 < refs W p \/ p ∈ l <-> 0 < refs W' p \/ p ∈ l'.

Lemma conserved_refl W l : conserved W l W l.
Proof. by intros p. Qed.

Lemma conserved_trans W1 l1 W2 l2 W3 l3 :
  conserved W1 l1 W2 l2 -> conserved W2 l2 W3 l3 -> conserved W1 l1 W3 l3.
Proof. intros H1 H2 p. by rewrite (H1 p), (H2 p). Qed.

(** Dropping one reference to [p], and freeing [p] when it was the last. *)
Lemma conserved_drop W l W' p :
  (forall q, refs W' q = refs W q - hits q p) -> 1 <= refs W p ->
  conserved W l W' (if refs W p =? 1 then p :: l else l).
Proof.
  intros H Hp q. rewrite H. unfold hits. destruct (Z.eqb_spec p q) as [->|Hne].
  - destruct (Z.eqb_spec (refs W q) 1); [|split; intros [?|?]; lia || tauto].
    split; [right; left|left; lia].
  - rewrite Z.sub_0_r. destruct (refs W p =? 1); [|done]. rewrite elem_of_cons. naive_solver.
Qed.

Definition without_tab (d : Z) (a : aspace) : aspace :=
  mkAspace a.(as_slots) a.(as_dir) (delete d a.(as_tabs)) a.(as_maps).

(** ** Dropping a table *)

Lemma vm_rep_del_tab s a d tp :
  vm_rep s a -> a.(as_tabs) !! d = Some tp -> (forall v, v / 1024 = d -> a.(as_maps) !! v = None) ->
  vm_rep (set_pmem (st32 s.(pmem) (a.(as_dir) * PGSIZE + 4 * d) 0) s) (without_tab d a).
Proof.
  intros Hr Htp Hnone. destruct (vr_tabs_dom _ _ Hr _ _ Htp) as [Hds _].
  pose proof (vr_slots _ _ Hr d Hds) as Hd.
  destruct Hr as [Hn Hdir Hsl Ht Htd Hm Hmd Hi Hdt Hz]. split; simpl; try done.
  - intros d' Hd'. pose proof (Hsl _ Hd'). rewrite ld32_st32_page, Z.eqb_refl by lia. simpl.
    destruct (Z.eqb_spec d d') as [<-|].
    + by rewrite lookup_delete_eq.
    + rewrite lookup_delete_ne by done. by apply Ht.
  - intros d' tp'. rewrite lookup_delete_Some. intros [_ H]. by apply Htd.
  - intros d' t tp' H Ht'. apply lookup_delete_Some in H as [Hne H].
    rewrite ld32_st32_page by lia. rewrite (proj2 (Z.eqb_neq a.(as_dir) tp')); [by apply Hm|].
    intros <-. by apply (Hdt d').
  - intros v w Hv. destruct (decide (v / 1024 = d)) as [<-|Hne].
    + by rewrite Hnone in Hv.
    + rewrite lookup_delete_ne by done. by apply (Hmd v w).
  - intros d1 d2 tp'. rewrite !lookup_delete_Some. intros [_ ?] [_ ?]. eauto.
  - intros d'. rewrite lookup_delete_Some. intros [_ ?]. by apply (Hdt d').
  - intros d' t tp' H Ht'. apply lookup_delete_Some in H as [Hne H].
    rewrite ld32_st32_page by lia. rewrite (proj2 (Z.eqb_neq a.(as_dir) tp')); [by apply Hz|].
    intros <-. by apply (Hdt d').
Qed.

Lemma refs1_without_tab p a d tp :
  a.(as_tabs) !! d = Some tp -> refs1 p (without_tab d a) = refs1 p a - hits p tp.
Proof. intros H. unfold refs1. simpl. rewrite (total_delete (hits p) _ d tp H). lia. Qed.

(** Changing one address space to one that owns no more pages. *)
Lemma wf_shrink s s' W l l' pend pend' k a a' P :
  vm_wf s W l pend -> W !! k = Some a -> (forall p, owns a' p -> owns a p) ->
  (forall v w, a'.(as_maps) !! v = Some w -> a.(as_maps) !! v = Some w) ->
  alloc_wf s' l' -> vm_rep s' a' -> s'.(npages) = s.(npages) ->
  same_outside P s.(pmem) s'.(pmem) -> (forall p, P p -> owns a p) ->
  (forall p pi, s'.(pages) !! p = Some pi -> 0 < refs (<[k := a']> W) p + pend' p -> pi.(pp_ref) = refs (<[k := a']> W) p + pend' p) ->
  vm_wf s' (<[k := a']> W) l' pend'.
Proof.
  intros Hwf Hk Hown Hmaps Ha Hr Hnp Hmem HP Href.
  assert (forall k' b, <[k := a']> W !! k' = Some b -> exists b0, W !! k' = Some b0 /\
    (forall p, owns b p -> owns b0 p) /\ forall v w, b.(as_maps) !! v = Some w -> b0.(as_maps) !! v = Some w)
    as Hold.
  { intros k' b. rewrite lookup_insert_Some. intros [[<- <-]|[? Hb]]; eauto. }
  split; try done.
  - intros k' b. rewrite lookup_insert_Some. intros [[<- <-]|[Hne Hb]]; [done|].
    apply (vm_rep_frame P s); auto; [by apply (vw_rep _ _ _ _ Hwf k')|].
    intros p Ho Hp. apply Hne, (vw_disj _ _ _ _ Hwf k k' a b p); auto.
  - intros k1 k2 a1 a2 p H1 H2 Ho1 Ho2.
    destruct (Hold _ _ H1) as (b1 & Hb1 & HO1 & _), (Hold _ _ H2) as (b2 & Hb2 & HO2 & _).
    apply (vw_disj _ _ _ _ Hwf k1 k2 b1 b2 p); auto.
  - intros k' b v w Hb Hv. destruct (Hold _ _ Hb) as (b0 & Hb0 & _ & Hm).
    rewrite Hnp. destruct (vw_mapped _ _ _ _ Hwf k' b0 v w Hb0 (Hm _ _ Hv)) as [Hrng Hno].
    split; [done|]. intros (k2 & b2 & H2 & Ho2). destruct (Hold _ _ H2) as (b3 & Hb3 & HO & _).
    apply Hno. exists k2, b3. auto.
Qed.

Lemma wf_del_tab s W l pend k a d tp :
  vm_wf s W l pend -> W !! k = Some a -> a.(as_tabs) !! d = Some tp ->
  (forall v, v / 1024 = d -> a.(as_maps) !! v = None) ->
  vm_wf (set_pmem (st32 s.(pmem) (a.(as_dir) * PGSIZE + 4 * d) 0) s)
    (<[k := without_tab d a]> W) l (fun p => pend p + hits p tp).
Proof.
  intros Hwf Hk Htp Hnone. pose proof (vw_rep _ _ _ _ Hwf k a Hk) as Hr.
  destruct (vr_tabs_dom _ _ Hr _ _ Htp) as [Hds _]. pose proof (vr_slots _ _ Hr d Hds) as Hd.
  eapply (wf_shrink s _ W l _ pend _ k a _ (fun p => p = a.(as_dir))); try done.
  - intros p [->|[d' Hd']]; [by left|]. simpl in Hd'. apply lookup_delete_Some in Hd' as [_ Hd'].
    right. eauto.
  - destruct (vw_alloc _ _ _ _ Hwf). by split.
  - by apply (vm_rep_del_tab s a d tp).
  - by apply same_outside_st32.
  - intros p ->. by left.
  - intros p pi Hpi. rewrite (refs_update W k a), (refs1_without_tab _ _ _ tp) by done.
    pose proof (vw_ref _ _ _ _ Hwf p pi Hpi). lia.
Qed.

(** ** The loops of [env_free] *)

Section Teardown.
Context {Mach : Machine}.
Hypothesis uninit_nonzero : forall pgdir va, uninit_ptep pgdir va <> 0.
Context (s0 : pmap) (W0 : gmap Z aspace) (l0 : list Z) (k : Z) (a0 : aspace).
Hypothesis Hwf0 : vm_wf s0 W0 l0 no_pend.
Hypothesis Hk0 : W0 !! k = Some a0.
Hypothesis Hus : a0.(as_slots) = user_slots.

(** Of the address space, the mappings from virtual page [lo] on and the tables from
    slot [d] on are left. *)
Record torn_space (lo d : Z) (s : pmap) (a : aspace) (l : list Z) : Prop := {
  ts_wf : vm_wf s (<[k := a]> W0) l no_pend;
  ts_slots : a.(as_slots) = a0.(as_slots);
  ts_dir : a.(as_dir) = a0.(as_dir);
  ts_tabs : forall d' tp, a.(as_tabs) !! d' = Some tp <-> a0.(as_tabs) !! d' = Some tp /\ d <= d';
  ts_maps : forall v w, a.(as_maps) !! v = Some w <-> a0.(as_maps) !! v = Some w /\ lo <= v;
  ts_conserved : conserved W0 l0 (<[k := a]> W0) l;
  ts_frame : vm_frame (owns a0) s0 s;
}.

Definition torn (lo d : Z) (s : pmap) : Prop := exists a l, torn_space lo d s a l.

Lemma torn_rep lo d s a l : torn_space lo d s a l -> vm_rep s a.
Proof. intros H. apply (vw_rep _ _ _ _ (ts_wf _ _ _ _ _ H) k). apply lookup_insert_eq. Qed.

Lemma torn_owns lo d s a l p : torn_space lo d s a l -> owns a p -> owns a0 p.
Proof.
  intros H [->|[d' Hd']]; [left; apply (ts_dir _ _ _ _ _ H)|].
  apply (ts_tabs _ _ _ _ _ H) in Hd' as [Hd' _]. right. eauto.
Qed.

Lemma maps_nonneg v w : a0.(as_maps) !! v = Some w -> 0 <= v.
Proof.
  intros H. pose proof (vw_rep _ _ _ _ Hwf0 k a0 Hk0) as Hr.
  apply (vr_maps_dom _ _ Hr) in H as [tp Htp]. apply (vr_tabs_dom _ _ Hr) in Htp as [Hs _].
  apply (vr_slots _ _ Hr) in Hs. zdm.
Qed.

Lemma torn_start : torn 0 0 s0.
Proof.
  pose proof (vw_rep _ _ _ _ Hwf0 k a0 Hk0) as Hr.
  exists a0, l0. split; try done.
  - by rewrite insert_id.
  - intros d tp. split; [|by intros [? _]]. intros H. split; [done|].
    apply (vr_tabs_dom _ _ Hr) in H as [Hs _]. apply (vr_slots _ _ Hr) in Hs. lia.
  - intros v w. split; [|by intros [? _]]. intros H. split; [done|]. by apply (maps_nonneg v w).
  - rewrite insert_id by done. apply conserved_refl.
Qed.

(** The virtual address of entry [t] of table [d]. *)
Lemma entry_va d t :
  0 <= d < PDX UTOP -> 0 <= t < 1024 ->
  covers a0 (PGADDR d t 0) /\ PGNUM (PGADDR d t 0) = d * 1024 + t /\ PDX (PGADDR d t 0) = d.
Proof.
  change (PDX UTOP) with 955. intros Hd Ht.
  destruct (PGADDR_indices d t 0) as (Hr & Hpd & Hpt & _); [lia|lia|clia|].
  assert (0 <= PGADDR d t 0 < UTOP).
  { revert Hpd. rewrite PDX_div by done. intros Hpd. clear Hpt. czdm. }
  split; [by apply covers_user|]. split; [|done].
  rewrite PGNUM_PDX_PTX by clia. by rewrite Hpd, Hpt.
Qed.

(** Entries below the threshold are gone, the next one is removed or absent. *)
Lemma free_entry d t tp s :
  0 <= d < PDX UTOP -> 0 <= t < 1024 -> a0.(as_tabs) !! d = Some tp -> torn (d * 1024 + t) d s ->
  exists s', (let* pte := kload32 (u32 (page_kva tp + 4 * t)) in
    if bits_set pte PTE_P then page_remove (page_kva a0.(as_dir)) (PGADDR d t 0) else ret tt) s
    = Ret tt s' /\ torn (d * 1024 + (t + 1)) d s'.
Proof.
  intros Hd Ht Htp0 (a & l & Hts). pose proof (torn_rep _ _ _ _ _ Hts) as Hr.
  destruct (entry_va d t Hd Ht) as (Hcov & Hvn & Hpd).
  assert (a.(as_tabs) !! d = Some tp) as Htp by (apply (ts_tabs _ _ _ _ _ Hts); split; [done|lia]).
  destruct (vr_tabs_dom _ _ Hr _ _ Htp) as [_ Htpr]. pose proof (vr_npages _ _ Hr).
  rewrite u32_small by (unfold page_kva; clia). mstep (by apply kload32_page; lia).
  pose proof (vr_maps _ _ Hr d t tp Htp Ht) as Hme.
  destruct (a.(as_maps) !! (d * 1024 + t)) as [w|] eqn:Hm; symmetry in Hme.
  - apply entry_some in Hme as [_ Hb]. rewrite Hb.
    assert (<[k := a]> W0 !! k = Some a) as Hk by apply lookup_insert_eq.
    assert (covers a (PGADDR d t 0)) as Hc by (unfold covers; by rewrite (ts_slots _ _ _ _ _ Hts)).
    rewrite <- Hvn in Hm.
    destruct (mapped_in_use _ _ _ _ _ _ _ _ (ts_wf _ _ _ _ _ Hts) ltac:(done) Hk Hm)
      as (pi & Hpi & H1 & _).
    destruct (remove_mapped uninit_nonzero s _ l no_pend k a (PGADDR d t 0) w pi
      (ts_wf _ _ _ _ _ Hts) ltac:(done) Hk Hc Hm Hpi) as (s' & Hrun & Hwf' & Hf & _).
    rewrite (ts_dir _ _ _ _ _ Hts) in Hrun. exists s'. split; [exact Hrun|].
    pose proof (vw_ref _ _ _ _ (ts_wf _ _ _ _ _ Hts) _ _ Hpi) as Href. unfold no_pend in Href.
    pose proof (maps_refs1 a _ w Hm). pose proof (refs_ge _ k a (pte_page w) Hk).
    rewrite insert_insert_eq, Hvn in Hwf'. eexists _, _. split; [exact Hwf'|..]; try apply Hts.
    + intros v w'. simpl. rewrite lookup_delete_Some, (ts_maps _ _ _ _ _ Hts). split.
      * intros (? & ? & ?). split; [done|lia].
      * intros [? ?]. split; [lia|]. split; [done|lia].
    + eapply conserved_trans; [apply Hts|].
      replace (pp_ref pi) with (refs (<[k := a]> W0) (pte_page w)) by lia.
      apply conserved_drop; [|lia]. intros q.
      pose proof (refs_update _ k a (without_map (d * 1024 + t) a) q Hk) as Hru.
      rewrite insert_insert_eq in Hru. rewrite Hru. rewrite <- set_entry_0, refs1_set_entry.
      rewrite <- Hvn, Hm, entry_0. unfold ohits, at_opt. simpl. lia.
    + eapply vm_frame_trans; [apply Hts|]. apply (vm_frame_mono (owns a)); [done|].
      intros p. by apply (torn_owns _ _ _ _ _ _ Hts).
  - apply entry_none in Hme. rewrite Hme. exists s. split; [done|].
    exists a, l. split; try apply Hts. intros v w. rewrite (ts_maps _ _ _ _ _ Hts). split.
    + intros [Hv ?]. split; [done|]. destruct (decide (v = d * 1024 + t)) as [->|]; [|lia].
      exfalso. assert (a.(as_maps) !! (d * 1024 + t) = Some w) by (apply (ts_maps _ _ _ _ _ Hts); split; [done|lia]).
      congruence.
    + intros [? ?]. split; [done|lia].
Qed.

Lemma free_table_ok d tp s :
  0 <= d < PDX UTOP -> a0.(as_tabs) !! d = Some tp -> torn (d * 1024) d s ->
  exists s', free_table (page_kva a0.(as_dir)) d (page_kva tp) s = Ret tt s' /\
    torn ((d + 1) * 1024) d s'.
Proof.
  intros Hd Htp Ht. unfold free_table.
  destruct (for_n_inv (fun t s => torn (d * 1024 + t) d s) (Z.to_nat NPTENTRIES) 0
    (fun t => let* pte := kload32 (u32 (page_kva tp + 4 * t)) in
      if bits_set pte PTE_P then page_remove (page_kva a0.(as_dir)) (PGADDR d t 0) else ret tt) s)
    as (s' & Hrun & Hs').
  - by rewrite Z.add_0_r.
  - intros t s1 Hti Hs1. by apply (free_entry d t tp).
  - exists s'. split; [exact Hrun|]. revert Hs'. unfold NPTENTRIES.
    by replace ((d + 1) * 1024) with (d * 1024 + (0 + Z.of_nat (Z.to_nat 1024))) by lia.
Qed.

(** Dropping the table of slot [d] once its mappings are gone. *)
Lemma drop_table d tp s :
  0 <= d < 1024 -> a0.(as_tabs) !! d = Some tp -> torn ((d + 1) * 1024) d s ->
  exists s', (kstore32 (page_kva a0.(as_dir) + 4 * d) 0 ;;;
      let* pp := pa2page (tp * PGSIZE) in page_decref pp) s = Ret tt s' /\
    torn ((d + 1) * 1024) (d + 1) s'.
Proof.
  intros Hd Htp0 (a & l & Ht). pose proof (torn_rep _ _ _ _ _ Ht) as Hr.
  pose proof (vr_npages _ _ Hr) as Hn. pose proof (vr_dir _ _ Hr) as Hdir.
  rewrite (ts_dir _ _ _ _ _ Ht) in Hdir.
  assert (<[k := a]> W0 !! k = Some a) as Hk by apply lookup_insert_eq.
  assert (a.(as_tabs) !! d = Some tp) as Htp by (apply (ts_tabs _ _ _ _ _ Ht); split; [done|lia]).
  destruct (vr_tabs_dom _ _ Hr _ _ Htp) as [_ Htpr].
  assert (forall v, v / 1024 = d -> a.(as_maps) !! v = None) as Hnone.
  { intros v Hv. destruct (a.(as_maps) !! v) as [w|] eqn:Hm; [|done].
    apply (ts_maps _ _ _ _ _ Ht) in Hm as [_ Hm]. exfalso. zdm. }
  pose proof (wf_del_tab s _ l no_pend k a d tp (ts_wf _ _ _ _ _ Ht) Hk Htp Hnone) as Hwf2.
  rewrite insert_insert_eq, (ts_dir _ _ _ _ _ Ht) in Hwf2.
  mstep (apply kstore32_page; lia). set (s2 := set_pmem _ s) in *.
  mstep (apply pa2page_page; simpl; lia).
  destruct (wf_pages _ _ _ _ Hwf2 tp Htpr) as [pi Hpi].
  assert (forall q, refs (<[k := without_tab d a]> W0) q = refs (<[k := a]> W0) q - hits q tp) as Hrefs.
  { intros q. pose proof (refs_update _ k a (without_tab d a) q Hk) as Hru.
    rewrite insert_insert_eq in Hru. rewrite Hru, (refs1_without_tab _ _ _ tp) by done. lia. }
  pose proof (vw_ref _ _ _ _ Hwf2 tp pi Hpi) as Href. rewrite Hrefs in Href. unfold no_pend in Href.
  pose proof (refs_ge _ k a tp Hk) as Hge.
  assert (1 <= refs1 tp a) by (apply owns_refs1; right; eauto).
  assert (tp ∉ l) as Hnl.
  { intros Hin. pose proof (free_no_refs _ _ _ _ (ts_wf _ _ _ _ _ Ht) ltac:(done) tp Hin). lia. }
  destruct (wf_decref s2 _ l _ tp pi Hwf2 Hpi ltac:(rewrite Hrefs; unfold no_pend; lia) Hnl ltac:(lia)) as [Hrun3 Hwf3].
  exists (decref tp (pp_ref pi) s2). split; [exact Hrun3|].
  exists (without_tab d a), (if pp_ref pi =? 1 then tp :: l else l). split; try apply Ht.
  - eapply vm_wf_pend; [exact Hwf3|]. intros p. unfold no_pend. lia.
  - intros d' tp'. simpl. rewrite lookup_delete_Some, (ts_tabs _ _ _ _ _ Ht). split.
    + intros (? & ? & ?). split; [done|lia].
    + intros [? ?]. split; [lia|]. split; [done|lia].
  - eapply conserved_trans; [apply Ht|].
    replace (pp_ref pi) with (refs (<[k := a]> W0) tp) by lia. apply conserved_drop; [done|lia].
  - eapply vm_frame_trans; [apply Ht|]. split; try (unfold decref; by case_match).
    replace (pmem (decref tp (pp_ref pi) s2)) with s2.(pmem) by (unfold decref; by case_match).
    apply same_outside_st32; [done|by left].
Qed.

(** A slot without a table has nothing to drop. *)
Lemma empty_slot d s a l :
  torn_space (d * 1024) d s a l -> a.(as_tabs) !! d = None -> torn_space ((d + 1) * 1024) (d + 1) s a l.
Proof.
  intros Ht Hnone. pose proof (torn_rep _ _ _ _ _ Ht) as Hr. split; try apply Ht.
  - intros d' tp. rewrite (ts_tabs _ _ _ _ _ Ht). split; intros [? ?]; (split; [done|]); [|lia].
    destruct (decide (d' = d)) as [->|]; [|lia].
    assert (a.(as_tabs) !! d = Some tp) by (apply (ts_tabs _ _ _ _ _ Ht); split; [done|lia]). congruence.
  - intros v w. rewrite (ts_maps _ _ _ _ _ Ht). split; intros [? ?]; (split; [done|]); [|lia].
    destruct (decide ((d + 1) * 1024 <= v)); [done|]. exfalso.
    assert (a.(as_maps) !! v = Some w) as Hv by by apply (ts_maps _ _ _ _ _ Ht).
    apply (vr_maps_dom _ _ Hr) in Hv as [tp Htp']. replace (v / 1024) with d in Htp' by zdm.
    congruence.
Qed.

(** One round of the outer loop. *)
Lemma free_slot_ok d s :
  0 <= d < PDX UTOP -> torn (d * 1024) d s ->
  exists s', free_slot (page_kva a0.(as_dir)) d s = Ret tt s' /\ torn ((d + 1) * 1024) (d + 1) s'.
Proof.
  intros Hd Hts. pose proof Hts as (a & l & Ht). pose proof (torn_rep _ _ _ _ _ Ht) as Hr.
  pose proof (vr_npages _ _ Hr) as Hn. pose proof (vr_dir _ _ Hr) as Hdir.
  rewrite (ts_dir _ _ _ _ _ Ht) in Hdir.
  assert (0 <= d < 955) as Hd' by (revert Hd; by change (PDX UTOP) with 955).
  assert (a0.(as_slots) d = true) as Hsl.
  { rewrite Hus. unfold user_slots. change (UTOP / PTSIZE) with 955. apply andb_true_intro. lia. }
  pose proof (vr_tabs _ _ Hr d) as Hpd. rewrite (ts_slots _ _ _ _ _ Ht), (ts_dir _ _ _ _ _ Ht) in Hpd.
  specialize (Hpd Hsl). unfold free_slot.
  rewrite (u32_small (page_kva _ + 4 * d)) by (unfold page_kva; clia).
  mstep (apply kload32_page; lia).
  destruct (a.(as_tabs) !! d) as [tp|] eqn:Htp.
  2:{ destruct (entry _) eqn:E in Hpd; [done|]. apply entry_none in E. rewrite E. exists s.
      split; [done|]. exists a, l. by apply empty_slot. }
  destruct (entry _) as [w|] eqn:E in Hpd; [|done]. apply entry_some in E as [-> Hb]. rewrite Hb.
  injection Hpd as Hpd. cbn [negb].
  pose proof Htp as Htp0. apply (ts_tabs _ _ _ _ _ Ht) in Htp0 as [Htp0 _].
  destruct (vr_tabs_dom _ _ Hr _ _ Htp) as [_ Htpr].
  rewrite pte_page_mul by apply ld32_range. rewrite <- Hpd.
  mstep (apply KADDR_page; lia).
  destruct (free_table_ok d tp s Hd Htp0 Hts) as (s1 & Hrun1 & Ht1).
  mstep (exact Hrun1). apply drop_table; [lia|done|done].
Qed.

Lemma free_slots_ok :
  exists s', free_slots (page_kva a0.(as_dir)) s0 = Ret tt s' /\ torn (PDX UTOP * 1024) (PDX UTOP) s'.
Proof.
  unfold free_slots.
  destruct (for_n_inv (fun d s => torn (d * 1024) d s) (Z.to_nat (PDX UTOP)) 0
    (free_slot (page_kva a0.(as_dir))) s0) as (s' & Hrun & Hs').
  - apply torn_start.
  - intros d s Hd Hs. apply free_slot_ok; [|done]. revert Hd. change (PDX UTOP) with 955. lia.
  - exists s'. split; [exact Hrun|]. revert Hs'. change (PDX UTOP) with 955. done.
Qed.

(** The directory goes last. *)
Lemma drop_dir s :
  torn (PDX UTOP * 1024) (PDX UTOP) s ->
  exists s' l', (let* pp := pa2page (a0.(as_dir) * PGSIZE) in page_decref pp) s = Ret tt s' /\
    vm_wf s' (delete k W0) l' no_pend /\ conserved W0 l0 (delete k W0) l' /\ vm_frame (owns a0) s0 s'.
Proof.
  intros (a & l & Ht). pose proof (torn_rep _ _ _ _ _ Ht) as Hr.
  pose proof (vr_npages _ _ Hr) as Hn. pose proof (vr_dir _ _ Hr) as Hdir.
  assert (a.(as_tabs) = ∅) as Htabs.
  { apply map_empty. intros d. destruct (a.(as_tabs) !! d) eqn:E; [|done].
    pose proof (vr_tabs_dom _ _ Hr _ _ E) as [Hs _]. rewrite (ts_slots _ _ _ _ _ Ht), Hus in Hs.
    apply (ts_tabs _ _ _ _ _ Ht) in E as [_ E]. unfold user_slots in Hs.
    apply andb_true_iff in Hs as [_ Hs%Z.ltb_lt]. change (UTOP / PTSIZE) with 955 in Hs.
    change (PDX UTOP) with 955 in E. lia. }
  assert (a.(as_maps) = ∅) as Hmaps.
  { apply map_empty. intros v. destruct (a.(as_maps) !! v) eqn:E; [|done].
    apply (vr_maps_dom _ _ Hr) in E. rewrite Htabs, lookup_empty in E. by destruct E. }
  assert (<[k := a]> W0 !! k = Some a) as Hk by apply lookup_insert_eq.
  assert (forall q, refs (delete k W0) q = refs (<[k := a]> W0) q - hits q a.(as_dir)) as Hrefs.
  { intros q. unfold refs. rewrite (total_delete (refs1 q) _ k a Hk), delete_insert_eq.
    unfold refs1. rewrite Htabs, Hmaps, !total_empty. lia. }
  assert (1 <= refs (<[k := a]> W0) a.(as_dir)) as H1.
  { apply owned_refs. exists k, a. split; [done|by left]. }
  destruct (wf_pages _ _ _ _ (ts_wf _ _ _ _ _ Ht) a.(as_dir) Hdir) as [pi Hpi].
  pose proof (vw_ref _ _ _ _ (ts_wf _ _ _ _ _ Ht) _ pi Hpi ltac:(unfold no_pend; lia)) as Href. unfold no_pend in Href.
  assert (a.(as_dir) ∉ l) as Hnl.
  { intros Hin. pose proof (free_no_refs _ _ _ _ (ts_wf _ _ _ _ _ Ht) ltac:(done) _ Hin). lia. }
  destruct (wf_decref s _ l _ _ pi (ts_wf _ _ _ _ _ Ht) Hpi ltac:(unfold no_pend; lia) Hnl ltac:(lia)) as [Hrun Hwf].
  rewrite <- (ts_dir _ _ _ _ _ Ht). eexists _, _. split; [|split; [|split]].
  - mstep (apply pa2page_page; lia). exact Hrun.
  - destruct Hwf as [Ha Hrep Hdj Hmp Hrf].
    assert (forall k' b, delete k W0 !! k' = Some b -> <[k := a]> W0 !! k' = Some b) as Hin.
    { intros k' b. rewrite lookup_delete_Some. intros [? ?]. by rewrite lookup_insert_ne. }
    split; eauto.
    + intros k' b v w Hb Hv. destruct (Hmp k' b v w (Hin _ _ Hb) Hv) as [? Hno]. split; [done|].
      intros (k2 & b2 & H2 & Ho). apply Hno. exists k2, b2. auto.
    + intros p q Hq. pose proof (Hrf p q Hq) as Hx. rewrite Hrefs. unfold no_pend in *. lia.
  - eapply conserved_trans; [apply Ht|]. rewrite Href, Z.add_0_r. apply conserved_drop; [done|lia].
  - eapply vm_frame_trans; [apply Ht|]. unfold decref. case_match; by split.
Qed.
End Teardown.
