(* ===== verification/EnvSetup.v ===== *)
(** The address space of a new environment: what [env_setup_vm] ([kern/env.c]) builds
    in a fresh page directory. *)

From S2P Require Import Prelude Mmu Mem Pmap PmapBoot Env PmapAlloc PmapVm PmapRefs.

(** A new address space with directory page [x]. *)
Definition empty_space (x : Z) : aspace := mkAspace user_slots x ∅ ∅.

Section Setup.
Context (s0 : pmap) (x kp : Z).
Hypothesis Hx : 0 <= x < 65536.
Hypothesis Hkp : 0 <= kp < 65536.
Hypothesis Hne : kp <> x.
Hypothesis Hkd : s0.(kern_pgdir) = page_kva kp.

(** Entry [i] of the kernel's directory. *)
Definition kern_pde (i : Z) : Z := ld32 s0.(pmem) (kp * PGSIZE + 4 * i).

(** [s] is [s0] but for page [x], whose first [1024] words are [f]. *)
Record dir_is (f : Z -> Z) (s : pmap) : Prop := {
  di_state : s = set_pmem s.(pmem) s0;
  di_words : forall q j, 0 <= j < 1024 ->
    ld32 s.(pmem) (q * PGSIZE + 4 * j) = if x =? q then f j else ld32 s0.(pmem) (q * PGSIZE + 4 * j);
  di_mem : same_outside (fun q => q = x) s0.(pmem) s.(pmem);
}.

Lemma dir_store f s i w :
  dir_is f s -> 0 <= i < 1024 -> 0 <= w < 2 ^ 32 ->
  exists s', kstore32 (page_kva x + 4 * i) w s = Ret tt s' /\
    dir_is (fun j => if i =? j then w else f j) s'.
Proof.
  intros [Hs Hw Hm] Hi Hwr. eexists. split; [apply kstore32_page; lia|]. split.
  - simpl. rewrite Hs. reflexivity.
  - intros q j Hj. simpl. rewrite ld32_st32_page, Hw, u32_small by done.
    destruct (Z.eqb_spec x q), (Z.eqb_spec i j); done.
  - simpl. eapply same_outside_trans; [exact Hm|]. by apply same_outside_st32.
Qed.

Lemma dir_is_ext f g s : dir_is f s -> (forall j, 0 <= j < 1024 -> f j = g j) -> dir_is g s.
Proof.
  intros [Hs Hw Hm] H. split; try done. intros q j Hj. rewrite Hw by done. by rewrite H.
Qed.

Lemma kern_pde_load f s i :
  dir_is f s -> 0 <= i < 1024 -> kload32 (page_kva kp + 4 * i) s = Ret (kern_pde i) s.
Proof.
  intros [Hs Hw Hm] Hi. rewrite kload32_page by lia. rewrite Hw by done.
  by rewrite (proj2 (Z.eqb_neq _ _)).
Qed.

(** What the directory holds in the end. *)
Definition new_pde (i : Z) : Z :=
  if i =? PDX UVPT then Z.lor (Z.lor (x * PGSIZE) PTE_P) PTE_U
  else if i <? PDX UTOP then 0 else kern_pde i.

Lemma setup_loops :
  dir_is (fun _ => 0) s0 ->
  exists s', (for_n (Z.to_nat (PDX UTOP)) 0 (fun i => kstore32 (page_kva x + 4 * i) 0) ;;;
    for_n (Z.to_nat (NPDENTRIES - PDX UTOP)) (PDX UTOP) (fun i =>
      let* kp := gets kern_pgdir in
      let* w := kload32 (kp + 4 * i) in
      kstore32 (page_kva x + 4 * i) w) ;;;
    let* pa := PADDR (page_kva x) in
    kstore32 (page_kva x + 4 * PDX UVPT) (Z.lor (Z.lor pa PTE_P) PTE_U)) s0 = Ret tt s' /\
    dir_is new_pde s'.
Proof.
  intros H0. change (PDX UTOP) with 955.
  destruct (for_n_inv (fun _ s => dir_is (fun _ => 0) s) (Z.to_nat 955) 0
    (fun i => kstore32 (page_kva x + 4 * i) 0) s0 H0) as (s1 & R1 & D1).
  { intros i s Hi Hs. destruct (dir_store _ s i 0 Hs ltac:(lia) ltac:(lia)) as (s' & R & D).
    exists s'. split; [done|]. eapply dir_is_ext; [exact D|]. intros j _. cbn beta. by destruct (i =? j). }
  destruct (for_n_inv (fun i s => dir_is (fun j => if (955 <=? j) && (j <? i) then kern_pde j else 0) s)
    (Z.to_nat (NPDENTRIES - 955)) 955 (fun i =>
      let* kp := gets kern_pgdir in
      let* w := kload32 (kp + 4 * i) in
      kstore32 (page_kva x + 4 * i) w) s1) as (s2 & R2 & D2).
  { eapply dir_is_ext; [exact D1|]. intros j _. cbn beta. destruct (Z.leb_spec 955 j), (Z.ltb_spec j 955); lia || done. }
  { intros i s Hi Hs. assert (0 <= i < 1024) as Hi' by (revert Hi; unfold NPDENTRIES; lia).
    destruct (dir_store _ s i (kern_pde i) Hs Hi' ltac:(apply ld32_range)) as (s' & R & D).
    exists s'. split.
    - mstep reflexivity. rewrite (di_state _ _ Hs). cbn [kern_pgdir set_pmem]. rewrite Hkd.
      rewrite <- (di_state _ _ Hs). mstep (by apply (kern_pde_load _ s i Hs)). exact R.
    - eapply dir_is_ext; [exact D|]. intros j Hj. cbn beta.
      destruct (Z.eqb_spec i j) as [Hij|Hij], (Z.leb_spec 955 j), (Z.ltb_spec j i), (Z.ltb_spec j (i + 1));
        lia || (subst; done). }
  replace (955 + Z.of_nat (Z.to_nat (NPDENTRIES - 955))) with 1024 in D2 by done.
  assert (PADDR (page_kva x) s2 = Ret (x * PGSIZE) s2) as Hpa.
  { unfold PADDR, page_kva. rewrite (proj2 (Z.ltb_ge _ _)) by clia. unfold ret. f_equal.
    replace (x * PGSIZE + KERNBASE - KERNBASE) with (x * PGSIZE) by lia. apply u32_small. clia. }
  destruct (dir_store _ s2 (PDX UVPT) (Z.lor (Z.lor (x * PGSIZE) PTE_P) PTE_U) D2) as (s3 & R3 & D3).
  { apply PDX_range. }
  { apply (lor_range _ _ 32); [lia|apply (lor_range _ _ 32)|]; clia. }
  exists s3. split.
  - mstep (exact R1). mstep (exact R2). mstep (exact Hpa). exact R3.
  - eapply dir_is_ext; [exact D3|]. intros j Hj. unfold new_pde. change (PDX UTOP) with 955.
    rewrite (Z.eqb_sym j). destruct (PDX UVPT =? j); [done|].
    destruct (Z.leb_spec 955 j), (Z.ltb_spec j 1024), (Z.ltb_spec j 955); done || lia.
Qed.
End Setup.

Lemma refs1_empty p x : refs1 p (empty_space x) = hits p x.
Proof. unfold refs1. simpl. rewrite !total_empty. lia. Qed.

(** A page off the free list becomes the directory of a new address space. *)
Lemma wf_new_space s s' W x l k :
  vm_wf s W (x :: l) no_pend -> W !! k = None -> alloc_wf s' l -> s'.(npages) = s.(npages) ->
  s'.(pages) = <[x := mkPageInfo None 1]> s.(pages) ->
  same_outside (fun q => q = x) s.(pmem) s'.(pmem) ->
  (forall j, user_slots j = true -> ld32 s'.(pmem) (x * PGSIZE + 4 * j) = 0) ->
  vm_wf s' (<[k := empty_space x]> W) l no_pend.
Proof.
  intros Hwf Hk Ha Hnp Hpg Hmem Hz.
  assert (x ∈ x :: l) as Hin by left.
  pose proof (free_not_owned _ _ _ _ Hwf ltac:(done) x Hin) as Hno.
  pose proof (free_in_range _ _ _ _ Hwf x Hin) as Hx.
  pose proof (aw_npages _ _ (vw_alloc _ _ _ _ Hwf)) as Hnr.
  assert (forall p, owns (empty_space x) p -> p = x) as Hox.
  { intros p [->|[d Hd]]; [done|]. simpl in Hd. by rewrite lookup_empty in Hd. }
  split; try done.
  - intros k' b. rewrite lookup_insert_Some. intros [[<- <-]|[Hne Hb]].
    + split; simpl; try (by intros *; rewrite lookup_empty); try lia.
      * apply user_slots_range.
      * intros d Hd. by rewrite Hz, entry_0, lookup_empty.
    + apply (vm_rep_frame (fun q => q = x) s); try done; [by apply (vw_rep _ _ _ _ Hwf k')|].
      intros p Ho ->. apply Hno. by exists k', b.
  - intros k1 k2 a1 a2 p H1 H2 Ho1 Ho2.
    apply lookup_insert_Some in H1 as [[<- <-]|[N1 H1]], H2 as [[<- <-]|[N2 H2]]; try done.
    + apply Hox in Ho1 as ->. exfalso. apply Hno. by exists k2, a2.
    + apply Hox in Ho2 as ->. exfalso. apply Hno. by exists k1, a1.
    + by apply (vw_disj _ _ _ _ Hwf k1 k2 a1 a2 p).
  - intros k' b v w Hb Hv. apply lookup_insert_Some in Hb as [[<- <-]|[_ Hb]].
    { simpl in Hv. by rewrite lookup_empty in Hv. }
    rewrite Hnp. destruct (vw_mapped _ _ _ _ Hwf k' b v w Hb Hv) as [Hr Hnow]. split; [done|].
    intros (k2 & b2 & H2 & Ho2). apply lookup_insert_Some in H2 as [[<- <-]|[_ H2]].
    + apply Hox in Ho2. by apply (free_not_mapped _ _ _ _ Hwf ltac:(done) x k' b v w).
    + apply Hnow. by exists k2, b2.
  - intros p pi. rewrite Hpg. unfold refs. rewrite total_insert by done.
    rewrite refs1_empty.
    rewrite lookup_insert_Some. intros [[<- <-]|[Hne Hpi]].
    + rewrite hits_self. pose proof (free_no_refs _ _ _ _ Hwf ltac:(done) x Hin) as H0.
      unfold refs in H0. rewrite H0. done.
    + unfold hits. rewrite (proj2 (Z.eqb_neq _ _)) by done. apply (vw_ref _ _ _ _ Hwf p pi Hpi).
Qed.

(** Allocating the directory page and taking the first reference. *)
Lemma alloc_dir s x l :
  alloc_wf s (x :: l) ->
  exists s1 s2, page_alloc ALLOC_ZERO s = Ret (Some x) s1 /\
    get_page x s1 = Ret (mkPageInfo None 0) s1 /\ set_ref x 1 s1 = Ret tt s2 /\
    alloc_wf s2 l /\ s2.(pages) = <[x := mkPageInfo None 1]> s.(pages) /\
    s2.(pmem) = zero_page s.(pmem) x /\ vm_frame (fun _ => True) s s2 /\ s2.(invlpgs) = s.(invlpgs).
Proof.
  intros Ha. destruct (page_alloc_pop ALLOC_ZERO s x l Ha) as [Hal Hwf1].
  pose proof (aw_nodup _ _ Ha) as Hnd. apply NoDup_cons in Hnd as [Hxl _].
  unfold allocated in *. change (nonzero (Z.land ALLOC_ZERO ALLOC_ZERO)) with true in *.
  cbv iota zeta in *. eexists _, _. split; [exact Hal|]. clear Hal.
  assert (forall m (pg : gmap Z PageInfo) s, (set_pmem m (set_pages (<[x := mkPageInfo None 0]> pg) s)).(pages) !! x
    = Some (mkPageInfo None 0)) as Hp1 by (intros; apply lookup_insert_eq).
  split; [apply get_page_some, Hp1|]. split; [apply set_ref_some, Hp1|].
  split; [eapply alloc_wf_set_ref; [exact Hwf1|apply Hp1|exact Hxl|by vm_compute]|].
  cbn [pages pmem invlpgs set_pages set_pmem set_page_free_list].
  split; [apply insert_insert_eq|]. split; [reflexivity|]. split; [|reflexivity].
  split; try reflexivity. by intros b [].
Qed.

(** [env_setup_vm] on memory: allocation, then initialisation of the directory. *)
Lemma setup_ok s W x l k kp :
  vm_wf s W (x :: l) no_pend -> W !! k = None -> s.(kern_pgdir) = page_kva kp ->
  0 <= kp < s.(npages) -> kp ∉ x :: l ->
  exists s1 s2, page_alloc ALLOC_ZERO s = Ret (Some x) s1 /\
    get_page x s1 = Ret (mkPageInfo None 0) s1 /\
    set_ref x 1 s1 = Ret tt s2 /\ page2kva x s2 = Ret (page_kva x) s2 /\
    exists s', (for_n (Z.to_nat (PDX UTOP)) 0 (fun i => kstore32 (page_kva x + 4 * i) 0) ;;;
      for_n (Z.to_nat (NPDENTRIES - PDX UTOP)) (PDX UTOP) (fun i =>
        let* kp := gets kern_pgdir in
        let* w := kload32 (kp + 4 * i) in
        kstore32 (page_kva x + 4 * i) w) ;;;
      let* pa := PADDR (page_kva x) in
      kstore32 (page_kva x + 4 * PDX UVPT) (Z.lor (Z.lor pa PTE_P) PTE_U)) s2 = Ret tt s' /\
      vm_wf s' (<[k := empty_space x]> W) l no_pend /\ vm_frame (fun q => q = x) s s' /\
      s'.(invlpgs) = s.(invlpgs) /\
      (forall i, 0 <= i < 1024 -> ld32 s'.(pmem) (x * PGSIZE + 4 * i) = new_pde s x kp i).
Proof.
  intros Hwf Hk Hkd Hkp Hnl.
  assert (x ∈ x :: l) as Hin by left.
  pose proof (free_in_range _ _ _ _ Hwf x Hin) as Hx.
  pose proof (aw_npages _ _ (vw_alloc _ _ _ _ Hwf)) as Hnr.
  assert (kp <> x) as Hne by (intros ->; by apply Hnl).
  destruct (alloc_dir s x l (vw_alloc _ _ _ _ Hwf))
    as (s1 & s2 & Hal & Hgp & Hsr & Hwf2 & Hpg2 & Hm2 & Hf2 & Ht2).
  assert (s2.(kern_pgdir) = page_kva kp) as Hkd2 by (rewrite <- Hkd; apply Hf2).
  assert (page2kva x s2 = Ret (page_kva x) s2) as Hkva
    by (apply page2kva_page; rewrite (vf_npages _ _ _ Hf2); lia).
  assert (dir_is s2 x (fun _ => 0) s2) as H0.
  { split; [by destruct s2| |apply same_outside_refl].
    intros q j Hj. destruct (Z.eqb_spec x q) as [<-|]; [|done].
    rewrite Hm2, ld32_zero_page_word by done. by rewrite Z.eqb_refl. }
  destruct (setup_loops s2 x kp ltac:(lia) ltac:(lia) Hne Hkd2 H0) as (s' & Hrun & [Hst Hw Hm]).
  exists s1, s2. do 4 (split; [done|]). exists s'. split; [exact Hrun|]. clear Hrun Hal.
  assert (forall i, 0 <= i < 1024 -> kern_pde s2 kp i = kern_pde s kp i) as Hkpde.
  { intros i Hi. unfold kern_pde. rewrite Hm2, ld32_zero_page_word by done.
    by rewrite (proj2 (Z.eqb_neq _ _)). }
  assert (same_outside (fun q => q = x) s.(pmem) s'.(pmem)) as Hmem.
  { eapply same_outside_trans; [|exact Hm]. rewrite Hm2. by apply same_outside_zero. }
  assert (forall i, 0 <= i < 1024 -> ld32 s'.(pmem) (x * PGSIZE + 4 * i) = new_pde s x kp i) as Hwords.
  { intros i Hi. rewrite Hw, Z.eqb_refl by done. unfold new_pde. by rewrite Hkpde. }
  destruct Hf2 as [F1 F2 F3 F4 F5 F6 F7 F8 _].
  split; [|split; [|split; [|exact Hwords]]].
  - apply (wf_new_space s s' W x l k); try assumption.
    + rewrite Hst. destruct Hwf2. by split.
    + rewrite Hst. exact F1.
    + rewrite Hst. exact Hpg2.
    + intros j Hj. pose proof (user_slots_range j Hj). rewrite Hwords by done. unfold new_pde.
      unfold user_slots in Hj. apply andb_true_iff in Hj as [_ Hj%Z.ltb_lt].
      change (UTOP / PTSIZE) with 955 in Hj. change (PDX UTOP) with 955. change (PDX UVPT) with 957.
      destruct (Z.eqb_spec j 957), (Z.ltb_spec j 955); lia || done.
  - rewrite Hst. by split.
  - rewrite Hst. exact Ht2.
Qed.
