(* ===== verification/UserRep.v ===== *)
(** The part of an address space that user code reaches: which flags the page tables of an
    environment carry, and the entry through which it reads the tables themselves. *)

From stdpp Require Import gmap.
From S2P Require Import Prelude Mmu Mem Pmap PmapAlloc PmapVm PmapRefs.

(** The hardware lets user code through an entry only if the directory entry allows it too.
    Slot [PDX UVPT] of the directory is the directory itself. *)
Record user_rep (s : pmap) (a : aspace) : Prop := {
  ur_tab : forall d, is_Some (a.(as_tabs) !! d) -> bits_set (pde s a d) PTE_U = true;
  ur_map : forall v w, a.(as_maps) !! v = Some w -> bits_set w PTE_U = true;
  ur_write : forall v w, a.(as_maps) !! v = Some w -> bits_set w PTE_W = true ->
    bits_set (pde s a (v / 1024)) PTE_W = true;
  ur_self : pde s a (PDX UVPT) = Z.lor (Z.lor (a.(as_dir) * PGSIZE) PTE_P) PTE_U;
}.

Lemma tab_range s a d : vm_rep s a -> is_Some (a.(as_tabs) !! d) -> 0 <= d < 1024.
Proof. intros Hr [tp H]. by apply (vr_slots _ _ Hr), (vr_tabs_dom _ _ Hr _ tp). Qed.

(** Only the words of the directory matter. *)
Lemma user_rep_pdes s s' a :
  vm_rep s a -> user_rep s a -> (forall d, 0 <= d < 1024 -> pde s' a d = pde s a d) -> user_rep s' a.
Proof.
  intros Hr [Ht Hm Hw Hs] Hp. split.
  - intros d Hd. rewrite Hp by by apply (tab_range s a). by apply Ht.
  - exact Hm.
  - intros v w Hv Hb. rewrite Hp; [by apply (Hw v w)|]. apply (tab_range s a); [done|]. by apply (vr_maps_dom _ _ Hr v w).
  - by rewrite Hp by apply PDX_range.
Qed.

Lemma user_rep_frame P s s' a :
  vm_rep s a -> user_rep s a -> same_outside P s.(pmem) s'.(pmem) -> ~ P a.(as_dir) -> user_rep s' a.
Proof. intros Hr Hu Hm HP. apply (user_rep_pdes s); auto. intros d Hd. by apply (ld32_same_outside P). Qed.

Lemma user_rep_without s s' a v :
  vm_rep s a -> user_rep s a -> (forall d, 0 <= d < 1024 -> pde s' a d = pde s a d) -> user_rep s' (without_map v a).
Proof.
  intros Hr Hu Hp. pose proof (user_rep_pdes s s' a Hr Hu Hp) as [Ht Hm Hw Hs]. split; simpl; try done.
  - intros v' w [_ H]%lookup_delete_Some. by apply (Hm v').
  - intros v' w [_ H]%lookup_delete_Some. by apply (Hw v').
Qed.

Lemma mkpte_flag pp perm f :
  0 <= pp < 65536 -> 0 <= perm < PGSIZE -> f = PTE_U \/ f = PTE_W ->
  bits_set (mkpte pp perm) f = bits_set perm f.
Proof.
  intros Hp Hr Hf. unfold mkpte, bits_set. rewrite page2pa_mul by lia. f_equal.
  rewrite !Z.land_lor_distr_l. replace (Z.land PTE_P f) with 0 by (by destruct Hf as [-> | ->]).
  replace (Z.land (pp * PGSIZE) f) with 0; [by rewrite Z.lor_0_r|].
  symmetry. apply Z.bits_inj'. intros n Hn. rewrite Z.land_spec, Z.testbit_0_l.
  destruct (Z.lt_ge_cases n 12) as [Hlt|Hge].
  - change PGSIZE with (2 ^ 12). by rewrite Z.mul_pow2_bits_low.
  - rewrite (Z.bits_above_log2 f n), andb_false_r; [done|by destruct Hf as [-> | ->]|].
    destruct Hf as [-> | ->]; [change (Z.log2 PTE_U) with 2|change (Z.log2 PTE_W) with 1]; lia.
Qed.

Lemma bits_set_sub x f g : bits_set x f = true -> bits_set f g = true -> bits_set x g = true.
Proof.
  unfold bits_set. rewrite !Z.eqb_eq. intros Hx Hf. rewrite <- Hf at 1. by rewrite Z.land_assoc, Hx.
Qed.

(** [page_insert] of a user page. *)
Lemma user_rep_insert s s' a va pp perm l a' l' :
  vm_rep s a -> a.(as_slots) = user_slots -> user_rep s a -> 0 <= va < UTOP -> 0 <= pp < 65536 ->
  0 <= perm < PGSIZE -> bits_set perm PTE_U = true -> pdes_grow s s' a va perm ->
  ensure_tab a l (PDX va) = Some (a', l') -> user_rep s' (with_map (PGNUM va) (mkpte pp perm) a').
Proof.
  intros Hr Hsl Hu Hva Hpp Hperm HU Hg He.
  assert (a'.(as_dir) = a.(as_dir) /\ a'.(as_maps) = a.(as_maps) /\
    forall d, is_Some (a'.(as_tabs) !! d) -> d = PDX va \/ is_Some (a.(as_tabs) !! d)) as (Hd & Hm & Ht).
  { revert He. unfold ensure_tab. destruct (a.(as_tabs) !! PDX va); [intros [= <- <-]; by auto|].
    destruct l as [|x l0]; intros [= <- <-]. split; [done|]. split; [done|]. intros d. cbn [as_tabs as_maps as_dir with_map with_tab].
    rewrite lookup_insert_is_Some'. intros [<-|H]; [by left|by right]. }
  assert (forall d, pde s' (with_map (PGNUM va) (mkpte pp perm) a') d = pde s' a d) as Hpa by (intros; unfold pde; cbn [as_tabs as_maps as_dir with_map with_tab]; by rewrite Hd).
  assert (PDX va = PGNUM va / 1024) as Hpv by (symmetry; apply (vpn_slot a), covers_user; done).
  split.
  - intros d Hds. rewrite Hpa. destruct (decide (d = PDX va)) as [->|Hne]; [exact (bits_set_sub _ _ _ (pg_new _ _ _ _ _ Hg) HU)|].
    destruct (Ht d Hds) as [|Hds']; [done|]. rewrite (pg_same _ _ _ _ _ Hg); [by apply (ur_tab _ _ Hu)|by apply (tab_range s a)|done].
  - intros v w. cbn [as_tabs as_maps as_dir with_map with_tab]. rewrite Hm, lookup_insert_Some. intros [[<- <-]|[_ Hv]]; [by rewrite mkpte_flag by auto|by apply (ur_map _ _ Hu v)].
  - intros v w. cbn [as_tabs as_maps as_dir with_map with_tab]. rewrite Hpa, Hm, lookup_insert_Some. intros [[<- <-]|[_ Hv]] Hw.
    + rewrite mkpte_flag in Hw by auto. rewrite <- Hpv. exact (bits_set_sub _ _ _ (pg_new _ _ _ _ _ Hg) Hw).
    + pose proof (ur_write _ _ Hu v w Hv Hw) as Hb. pose proof (vr_maps_dom _ _ Hr v w Hv) as Hds.
      destruct (decide (v / 1024 = PDX va)) as [E|Hne].
      * rewrite E in *. by apply (pg_keep _ _ _ _ _ Hg).
      * rewrite (pg_same _ _ _ _ _ Hg); [done|by apply (tab_range s a)|done].
  - rewrite Hpa. cbn [as_tabs as_maps as_dir with_map with_tab]. rewrite Hd, (pg_same _ _ _ _ _ Hg); [apply Hu|apply PDX_range|].
    change (PDX UVPT) with 957. rewrite PDX_div by clia. revert Hva. clear. consts. intros; zdm.
Qed.

(** The spaces of the environments after [page_insert]. *)
Lemma insert_user_reps s s' W l k a va pp perm W' l' :
  vm_wf s W l no_pend -> (forall i b, W !! i = Some b -> user_rep s b) -> W !! k = Some a ->
  a.(as_slots) = user_slots -> 0 <= va < UTOP -> 0 <= pp < 65536 -> 0 <= perm < PGSIZE -> bits_set perm PTE_U = true ->
  as_insert W l k va pp perm = Some (W', l') -> vm_frame (fun p => owns a p \/ p ∈ l) s s' ->
  pdes_grow s s' a va perm -> forall i b, W' !! i = Some b -> user_rep s' b.
Proof.
  intros Hwf Hu Hk Hsl Hva Hpp Hperm HU Hi Hf Hg i b Hb. revert Hi. unfold as_insert. rewrite Hk.
  destruct (ensure_tab a l (PDX va)) as [[a' l1]|] eqn:He; [|discriminate]. intros [= <- <-].
  apply lookup_insert_Some in Hb as [[<- <-]|[Hne Hb]].
  - exact (user_rep_insert s s' a va pp perm l a' l1 (vw_rep _ _ _ _ Hwf k a Hk) Hsl (Hu k a Hk) Hva Hpp Hperm HU Hg He).
  - apply (user_rep_frame _ s s' b (vw_rep _ _ _ _ Hwf i b Hb) (Hu i b Hb) (vf_mem _ _ _ Hf)). intros [Ho|Hl].
    + apply Hne. apply (vw_disj _ _ _ _ Hwf k i a b b.(as_dir)); [done|done|done|by left].
    + apply (free_not_owned _ _ _ _ Hwf ltac:(done) _ Hl). exists i, b. split; [done|by left].
Qed.

(** A page nobody owns may change. *)
Lemma user_reps_free s s' W l x :
  vm_wf s W l no_pend -> (forall i b, W !! i = Some b -> user_rep s b) -> x ∈ l ->
  same_outside (fun q => q = x) s.(pmem) s'.(pmem) -> forall i b, W !! i = Some b -> user_rep s' b.
Proof.
  intros Hwf Hu Hx Hm i b Hb. apply (user_rep_frame _ s s' b (vw_rep _ _ _ _ Hwf i b Hb) (Hu i b Hb) Hm). intros <-.
  apply (free_not_owned _ _ _ _ Hwf ltac:(done) _ Hx). exists i, b. split; [done|by left].
Qed.

(** Tearing down a space leaves the others. *)
Lemma user_reps_without s s' W l k a :
  vm_wf s W l no_pend -> (forall i b, W !! i = Some b -> user_rep s b) -> W !! k = Some a ->
  same_outside (owns a) s.(pmem) s'.(pmem) -> forall i b, i <> k -> W !! i = Some b -> user_rep s' b.
Proof.
  intros Hwf Hu Hk Hm i b Hne Hb. apply (user_rep_frame _ s s' b (vw_rep _ _ _ _ Hwf i b Hb) (Hu i b Hb) Hm). intros Ho.
  apply Hne. apply (vw_disj _ _ _ _ Hwf i k b a b.(as_dir)); [done|done|by left|done].
Qed.
