(* ===== verification/KernInv.v ===== *)
(** The kernel's invariant over environments and memory, and that [envid2env],
    [env_alloc] and [env_free] ([kern/env.c]) meet their specifications under it. *)

From S2P Require Import Prelude Mmu Mem Console E1000 Pmap PmapBoot Env.
From S2P Require Import PmapAlloc PmapVm PmapRefs UserRep EnvMem EnvSetup.

(** ** Environment identifiers *)

(** Identifiers in slot [i] are [g * 4096 + i] for a generation [g] between 1 and
    [2 ^ 19 - 1]. *)
Definition next_gen (g : Z) : Z := if g + 1 =? 2 ^ 19 then 1 else g + 1.

Lemma ENVX_mod x : ENVX x = x mod 1024.
Proof. unfold ENVX, NENV. change (1024 - 1) with (Z.ones 10). by rewrite Z.land_ones by lia. Qed.

Lemma lnot_mask x : Z.land x (Z.lnot (NENV - 1)) = x - x mod 1024.
Proof.
  unfold NENV. change (1024 - 1) with (Z.ones 10). rewrite <- Z.ldiff_land, Z.ldiff_ones_r by lia.
  rewrite Z.shiftr_div_pow2, Z.shiftl_mul_pow2 by lia. zdm.
Qed.

Lemma next_id_gen g i :
  0 <= g < 2 ^ 19 -> 0 <= i < 1024 -> next_id (g * 4096 + i) i = next_gen g * 4096 + i.
Proof.
  intros Hg Hi. unfold next_id, next_gen. change (Z.shiftl 1 ENVGENSHIFT) with 4096.
  rewrite lnot_mask. destruct (Z.eqb_spec (g + 1) (2 ^ 19)) as [E|E].
  - assert (s32 (g * 4096 + i + 4096) = i - 2 ^ 31) as ->.
    { unfold s32. rewrite u32_small by lia. bcase; lia. }
    rewrite (proj2 (Z.leb_le _ _)) by zdm. rewrite (lor_add_low _ _ 10); zdm.
  - rewrite s32_small by lia. rewrite (proj2 (Z.leb_gt _ _)) by zdm.
    rewrite (lor_add_low _ _ 10); zdm.
Qed.

Lemma next_id_fresh i : 0 <= i < 1024 -> next_id 0 i = 4096 + i.
Proof.
  intros Hi. unfold next_id. change (Z.shiftl 1 ENVGENSHIFT) with 4096. rewrite lnot_mask.
  rewrite s32_small by lia. simpl. rewrite (lor_add_low _ _ 10); done || zdm.
Qed.

(** The identifier of slot [i] is [0] or has a generation. *)
Definition id_ok (i id : Z) : Prop := id = 0 \/ exists g, 1 <= g < 2 ^ 19 /\ id = g * 4096 + i.

Lemma next_id_ok i id : 0 <= i < 1024 -> id_ok i id -> exists g, 1 <= g < 2 ^ 19 /\ next_id id i = g * 4096 + i.
Proof.
  intros Hi [->|(g & Hg & ->)].
  - exists 1. split; [lia|]. rewrite next_id_fresh by done. lia.
  - exists (next_gen g). split; [|apply next_id_gen; lia]. unfold next_gen. bcase; lia.
Qed.

Lemma gen_ENVX g i : 0 <= i < 1024 -> ENVX (g * 4096 + i) = i.
Proof. intros Hi. rewrite ENVX_mod. zdm. Qed.

(** ** The invariant *)

Fixpoint echain (es : gmap Z Env) (h : option Z) (l : list Z) : Prop :=
  match l with
  | [] => h = None
  | x :: l => h = Some x /\ exists e, es !! x = Some e /\ echain es e.(env_link) l
  end.

(** [W] is the address space of every environment in use, [l] the free pages and
    [fl] the free environments. *)
Record kern_wf (s : kern) (W : gmap Z aspace) (l fl : list Z) : Prop := {
  kw_vm : vm_wf s.(pm) W l no_pend;
  kw_user : forall i a, W !! i = Some a -> a.(as_slots) = user_slots;
  kw_rep : forall i a, W !! i = Some a -> user_rep s.(pm) a;
  kw_dom : forall i, is_Some (s.(envs) !! i) <-> 0 <= i < NENV;
  kw_chain : echain s.(envs) s.(env_free_list) fl;
  kw_nodup : NoDup fl;
  kw_free : forall i e, s.(envs) !! i = Some e -> i ∈ fl <-> e.(env_status) = ENV_FREE;
  kw_space : forall i e, s.(envs) !! i = Some e ->
    match W !! i with
    | Some a => e.(env_status) <> ENV_FREE /\ e.(env_pgdir) = page_kva a.(as_dir)
    | None => e.(env_status) = ENV_FREE
    end;
  kw_spaces : forall i a, W !! i = Some a -> 0 <= i < NENV;
  kw_id : forall i e, s.(envs) !! i = Some e -> id_ok i e.(env_id);
  kw_live_id : forall i e, s.(envs) !! i = Some e -> e.(env_status) <> ENV_FREE -> e.(env_id) <> 0;
  kw_kern : exists kp, s.(pm).(kern_pgdir) = page_kva kp /\ 0 <= kp < s.(pm).(npages) /\
    ~ (0 < refs W kp \/ kp ∈ l);
}.

(** Changing the record of a live environment without touching its identifier, status
    class, directory or link. *)
Lemma echain_upd es h l i e e' :
  echain es h l -> es !! i = Some e -> (i ∉ l \/ e'.(env_link) = e.(env_link)) ->
  echain (<[i := e']> es) h l.
Proof.
  revert h. induction l as [|x l IH]; intros h Hc Hi Hl; [done|].
  destruct Hc as (-> & ex & Hx & Hc). split; [done|].
  assert (i ∉ l \/ env_link e' = env_link e) as Hl'.
  { destruct Hl as [Hl|]; [left|by right]. intros Hin. apply Hl. by right. }
  destruct (decide (i = x)) as [->|Hne].
  - rewrite lookup_insert_eq. exists e'. split; [done|]. replace ex with e in * by congruence.
    destruct Hl as [Hl|Hl]; [exfalso; apply Hl; left|]. rewrite Hl. apply IH; auto.
  - rewrite lookup_insert_ne by done. exists ex. split; [done|]. apply IH; auto.
Qed.

Lemma echain_in es h l x : echain es h l -> x ∈ l -> is_Some (es !! x).
Proof.
  revert h. induction l as [|y l IH]; intros h Hc Hx; [by apply elem_of_nil in Hx|].
  destruct Hc as (_ & e & He & Hc). apply elem_of_cons in Hx as [->|Hx]; eauto.
Qed.

Lemma kw_upd_env s W l fl i e e' :
  kern_wf s W l fl -> s.(envs) !! i = Some e -> e.(env_status) <> ENV_FREE ->
  e'.(env_status) <> ENV_FREE -> e'.(env_id) = e.(env_id) -> e'.(env_pgdir) = e.(env_pgdir) ->
  kern_wf (set_envs (<[i := e']> s.(envs)) s) W l fl.
Proof.
  intros [Hvm Hus Hrep Hdom Hch Hnd Hfr Hsp Hsps Hid Hlid Hk] Hi Hs Hs' Hidd Hpg.
  assert (i ∉ fl) as Hni by (rewrite (Hfr i e Hi); done).
  split; simpl; try done.
  - intros j. rewrite lookup_insert_is_Some', Hdom. split; [|by right].
    intros [<-|?]; [apply Hdom; eauto|done].
  - apply (echain_upd _ _ _ i e); auto.
  - intros j ej. rewrite lookup_insert_Some. intros [[<- <-]|[? Hj]]; [|by apply (Hfr j)].
    split; [done|]. intros ?. done.
  - intros j ej. rewrite lookup_insert_Some. intros [[<- <-]|[? Hj]]; [|by apply (Hsp j)].
    specialize (Hsp i e Hi). destruct (W !! i); [|done]. destruct Hsp. split; [done|congruence].
  - intros j ej. rewrite lookup_insert_Some. intros [[<- <-]|[? Hj]]; [|by apply (Hid j)].
    rewrite Hidd. by apply Hid.
  - intros j ej. rewrite lookup_insert_Some. intros [[<- <-]|[? Hj]]; [|by apply (Hlid j)].
    intros _. rewrite Hidd. by apply (Hlid i).
Qed.

(** Changing memory within the specification of the memory manager. *)
Lemma kw_set_pm s W l fl p' W' l' :
  kern_wf s W l fl -> vm_wf p' W' l' no_pend ->
  (forall i a', W' !! i = Some a' -> exists a, W !! i = Some a /\ a'.(as_dir) = a.(as_dir) /\ a'.(as_slots) = a.(as_slots)) ->
  (forall i, is_Some (W !! i) -> is_Some (W' !! i)) -> (forall i a, W' !! i = Some a -> user_rep p' a) ->
  p'.(kern_pgdir) = s.(pm).(kern_pgdir) -> p'.(npages) = s.(pm).(npages) ->
  (forall kp, 0 < refs W' kp \/ kp ∈ l' -> 0 < refs W kp \/ kp ∈ l) ->
  kern_wf (set_pm p' s) W' l' fl.
Proof.
  intros [Hvm Hus Hrep Hdom Hch Hnd Hfr Hsp Hsps Hid Hlid Hk] Hvm' HW HW' Hrep' Hkd Hnp Hcons.
  split; simpl; try done.
  - intros i a' Ha'. destruct (HW i a' Ha') as (a & Ha & _ & ->). eauto.
  - intros i e Hi. specialize (Hsp i e Hi). destruct (W' !! i) as [a'|] eqn:E'.
    + destruct (HW i a' E') as (a & Ha & -> & _). by rewrite Ha in Hsp.
    + destruct (W !! i) eqn:E; [|done]. destruct (HW' i) as [? ?]; [eauto|congruence].
  - intros i a' Ha'. destruct (HW i a' Ha') as (a & Ha & _). eauto.
  - destruct Hk as (kp & ? & ? & Hkp). exists kp. rewrite Hkd, Hnp. split; [done|]. split; [done|].
    intros Hm. by apply Hkp, Hcons.
Qed.

(** ** Accessors *)

Lemma get_env_some s i e : s.(envs) !! i = Some e -> get_env i s = Ret e s.
Proof. intros H. unfold get_env. by rewrite H. Qed.

Lemma upd_env_some s i e f :
  s.(envs) !! i = Some e -> upd_env i f s = Ret tt (set_envs (<[i := f e]> s.(envs)) s).
Proof. intros H. unfold upd_env. by rewrite H. Qed.

Lemma on_pm_ret {A} (m : M pmap A) s a p' : m s.(pm) = Ret a p' -> on_pm m s = Ret a (set_pm p' s).
Proof. intros H. unfold on_pm. by apply zoom_ret. Qed.

Lemma set_pm_id s : set_pm s.(pm) s = s.
Proof. by destruct s. Qed.

Lemma on_pm_pure {A} (m : M pmap A) s a : m s.(pm) = Ret a s.(pm) -> on_pm m s = Ret a s.
Proof. intros H. rewrite (on_pm_ret _ _ _ _ H). by rewrite set_pm_id. Qed.

Lemma curenv_some cpu s ci : s.(cpus) !! cpu = Some ci -> curenv cpu s = Ret ci.(cpu_env) s.
Proof. intros H. unfold curenv, get_cpu, bind. by rewrite H. Qed.

(** ** [envid2env] *)

(** The answer of [envid2env], as a function of the table and of the caller [c]. *)
Definition resolve (es : gmap Z Env) (c : option Z) (envid : Z) (checkperm : bool) : option Z :=
  if envid =? 0 then c
  else
    match es !! ENVX envid with
    | Some e =>
        if (e.(env_status) =? ENV_FREE) || negb (e.(env_id) =? envid) then None
        else if checkperm && negb (bool_decide (c = Some (ENVX envid))) then
          match c ≫= (fun c => es !! c) with
          | Some ce => if e.(env_parent_id) =? ce.(env_id) then Some (ENVX envid) else None
          | None => None
          end
        else Some (ENVX envid)
    | None => None
    end.

Lemma envid2env_ok cpu s W l fl ci c envid checkperm :
  kern_wf s W l fl -> s.(cpus) !! cpu = Some ci -> ci.(cpu_env) = Some c -> 0 <= c < NENV ->
  envid2env cpu envid checkperm s =
    match resolve s.(envs) (Some c) envid checkperm with
    | Some i => Ret (0, Some i) s
    | None => Ret (- E_BAD_ENV, None) s
    end.
Proof.
  intros Hwf Hci Hc Hcr. unfold envid2env, resolve.
  destruct (envid =? 0); [mstep (by apply curenv_some); by rewrite Hc|].
  assert (0 <= ENVX envid < NENV) as Hx by (rewrite ENVX_mod; unfold NENV; zdm).
  apply (kw_dom _ _ _ _ Hwf) in Hx as [e He]. apply (kw_dom _ _ _ _ Hwf) in Hcr as [ce Hce].
  mstep (by apply get_env_some). rewrite He.
  destruct (_ || _); [done|]. mstep (by apply curenv_some). rewrite Hc. simpl. rewrite Hce.
  destruct (checkperm && _); [|by mstep reflexivity].
  rewrite (bind_ret _ _ s (negb (env_parent_id e =? env_id ce)) s) by (by mstep (by apply get_env_some)).
  by destruct (env_parent_id e =? env_id ce).
Qed.

(** ** [env_alloc] *)

Lemma env_setup_vm_ok s W x l fl i e :
  kern_wf s W (x :: l) fl -> s.(envs) !! i = Some e -> e.(env_status) = ENV_FREE ->
  exists p', env_setup_vm i s =
      Ret 0 (set_envs (<[i := set_env_pgdir (page_kva x) e]> s.(envs)) (set_pm p' s)) /\
    vm_wf p' (<[i := empty_space x]> W) l no_pend /\ vm_frame (fun q => q = x) s.(pm) p' /\
    exists kp, s.(pm).(kern_pgdir) = page_kva kp /\
      forall j, 0 <= j < 1024 -> ld32 p'.(pmem) (x * PGSIZE + 4 * j) = new_pde s.(pm) x kp j.
Proof.
  intros Hwf Hi Hst. destruct (kw_kern _ _ _ _ Hwf) as (kp & Hkd & Hkp & Hun).
  pose proof (kw_space _ _ _ _ Hwf i e Hi) as HW. destruct (W !! i) as [?|] eqn:HWi; [by destruct HW|].
  destruct (setup_ok s.(pm) W x l i kp (kw_vm _ _ _ _ Hwf) HWi Hkd Hkp ltac:(tauto))
    as (s1 & s2 & H1 & H2 & H3 & H4 & p' & H5 & Hvm & Hf & _ & Hwords).
  exists p'. split; [|split; [done|split; [done|eauto]]].
  unfold env_setup_vm. mstep (by apply on_pm_ret).
  mstep (by apply (on_pm_ret (get_page x))). mstep (by apply (on_pm_ret (set_ref x _))).
  mstep (by apply (on_pm_ret (page2kva x))). mstep (by apply upd_env_some).
  apply bind_inv in H5 as ([] & s3 & E1 & H5). mstep (by apply on_pm_ret).
  apply bind_inv in H5 as ([] & s4 & E2 & H5). mstep (by apply on_pm_ret).
  apply bind_inv in H5 as (pa & s5 & E3 & H5). mstep (by apply (on_pm_ret (PADDR _))).
  mstep (by apply (on_pm_ret (kstore32 _ _))). done.
Qed.

(** The kernel state after slot [i] has become environment [e] with memory [p']. *)
Definition with_env (i : Z) (e : Env) (fl : option Z) (p' : pmap) (s : kern) : kern :=
  set_env_free_list fl (set_envs (<[i := e]> s.(envs)) (set_pm p' s)).

Lemma kw_new_env s W x l fl i e p' parent :
  kern_wf s W (x :: l) (i :: fl) -> s.(envs) !! i = Some e ->
  vm_wf p' (<[i := empty_space x]> W) l no_pend -> vm_frame (fun q => q = x) s.(pm) p' ->
  ld32 p'.(pmem) (x * PGSIZE + 4 * PDX UVPT) = Z.lor (Z.lor (x * PGSIZE) PTE_P) PTE_U ->
  kern_wf (with_env i (new_env i parent (set_env_pgdir (page_kva x) e)) e.(env_link) p' s)
    (<[i := empty_space x]> W) l fl.
Proof.
  intros Hwf Hi Hvm Hf Hself. set (e' := new_env i parent _).
  assert (0 <= i < 1024) as Hir by (apply (kw_dom _ _ _ _ Hwf); eauto).
  destruct (next_id_ok i e.(env_id) Hir (kw_id _ _ _ _ Hwf i e Hi)) as (g & Hg & Hidg).
  pose proof (kw_nodup _ _ _ _ Hwf) as Hnd. apply NoDup_cons in Hnd as [Hnin Hnd].
  destruct (kw_chain _ _ _ _ Hwf) as (_ & ei & Hei & Hch). replace ei with e in * by congruence.
  pose proof (kw_space _ _ _ _ Hwf i e Hi) as HW. destruct (W !! i) as [?|] eqn:HWi.
  { destruct HW as [HW _]. exfalso. apply HW, (kw_free _ _ _ _ Hwf i e Hi). left. }
  split; simpl; try done.
  - intros j a. rewrite lookup_insert_Some. intros [[<- <-]|[_ Hj]]; [done|].
    by apply (kw_user _ _ _ _ Hwf j).
  - intros j a. rewrite lookup_insert_Some. intros [[<- <-]|[_ Hj]].
    + split; try (intros *; cbn [as_tabs as_maps empty_space]; rewrite lookup_empty; [done || by intros [? ?]]). exact Hself.
    + apply (user_reps_free s.(pm) p' W (x :: l) x (kw_vm _ _ _ _ Hwf) (kw_rep _ _ _ _ Hwf) ltac:(left) (vf_mem _ _ _ Hf) j a Hj).
  - intros j. rewrite lookup_insert_is_Some', (kw_dom _ _ _ _ Hwf). split; [|by right].
    intros [<-|?]; done.
  - apply (echain_upd _ _ _ i e); auto.
  - intros j ej. rewrite lookup_insert_Some. intros [[<- <-]|[Hne Hj]]; [done|].
    rewrite <- (kw_free _ _ _ _ Hwf j ej Hj), elem_of_cons. naive_solver.
  - intros j ej. rewrite lookup_insert_Some. intros [[<- <-]|[Hne Hj]].
    + by rewrite lookup_insert_eq.
    + rewrite lookup_insert_ne by done. by apply (kw_space _ _ _ _ Hwf j).
  - intros j a. rewrite lookup_insert_Some. intros [[<- <-]|[_ Hj]]; [done|].
    by apply (kw_spaces _ _ _ _ Hwf j a).
  - intros j ej. rewrite lookup_insert_Some. intros [[<- <-]|[_ Hj]]; [|by apply (kw_id _ _ _ _ Hwf j)].
    right. exists g. done.
  - intros j ej. rewrite lookup_insert_Some. intros [[<- <-]|[_ Hj]]; [|by apply (kw_live_id _ _ _ _ Hwf j)].
    intros _. simpl. rewrite Hidg. lia.
  - destruct (kw_kern _ _ _ _ Hwf) as (kp & Hkd & Hkp & Hun). exists kp.
    rewrite (vf_kern_pgdir _ _ _ Hf), (vf_npages _ _ _ Hf). split; [done|]. split; [done|].
    unfold refs. rewrite total_insert, refs1_empty by done. intros H. apply Hun.
    assert (kp <> x) as Hne by (intros ->; apply Hun; right; left).
    destruct H as [H|H]; [left|right; by right]. revert H.
    unfold hits. rewrite (proj2 (Z.eqb_neq _ _)) by done. done.
Qed.

Lemma env_alloc_ok s W l fl parent :
  kern_wf s W l fl ->
  match fl, l with
  | [], _ => env_alloc parent s = Ret (- E_NO_FREE_ENV, None) s
  | i :: _, [] => env_alloc parent s = Ret (- E_NO_MEM, None) s
  | i :: fl, x :: l =>
      exists e p', s.(envs) !! i = Some e /\
        env_alloc parent s = Ret (0, Some i)
          (with_env i (new_env i parent (set_env_pgdir (page_kva x) e)) e.(env_link) p' s) /\
        kern_wf (with_env i (new_env i parent (set_env_pgdir (page_kva x) e)) e.(env_link) p' s)
          (<[i := empty_space x]> W) l fl /\
        vm_frame (fun q => q = x) s.(pm) p' /\
        exists kp, s.(pm).(kern_pgdir) = page_kva kp /\
          forall j, 0 <= j < 1024 -> ld32 p'.(pmem) (x * PGSIZE + 4 * j) = new_pde s.(pm) x kp j
  end.
Proof.
  intros Hwf. unfold env_alloc. pose proof (kw_chain _ _ _ _ Hwf) as Hch.
  destruct fl as [|i fl]; [mstep reflexivity; by rewrite Hch|].
  destruct Hch as (Hh & e & Hi & _).
  assert (e.(env_status) = ENV_FREE) as Hst by (apply (kw_free _ _ _ _ Hwf i e Hi); left).
  destruct l as [|x l].
  - mstep reflexivity. rewrite Hh. unfold env_setup_vm.
    rewrite (bind_ret _ _ s (- E_NO_MEM) s); [done|].
    by mstep (apply on_pm_pure, page_alloc_empty, (vw_alloc _ _ _ _ (kw_vm _ _ _ _ Hwf))).
  - destruct (env_setup_vm_ok s W x l (i :: fl) i e Hwf Hi Hst) as (p' & Hrun & Hvm & Hf & Hkp).
    exists e, p'. split; [done|]. split; [|split; [|by split]].
    + mstep reflexivity. rewrite Hh. mstep (exact Hrun). change (0 <? 0) with false. cbv iota.
      mstep (apply upd_env_some, lookup_insert_eq). mstep (apply get_env_some, lookup_insert_eq).
      unfold with_env. simpl. rewrite insert_insert_eq. munfold. done.
    + destruct Hkp as (kp & _ & Hw). apply (kw_new_env s W x); [done|done|done|done|]. by rewrite Hw by apply PDX_range.
Qed.

(** ** [env_free] *)

(** The record of a freed environment. *)
Definition freed_env (fl : option Z) (e : Env) : Env :=
  set_env_link fl (set_env_status ENV_FREE (set_env_pgdir 0 e)).

Lemma kw_free_env s W l fl i e p' l' :
  kern_wf s W l fl -> s.(envs) !! i = Some e -> is_Some (W !! i) ->
  vm_wf p' (delete i W) l' no_pend -> conserved W l (delete i W) l' ->
  p'.(kern_pgdir) = s.(pm).(kern_pgdir) -> p'.(npages) = s.(pm).(npages) ->
  (forall j b, j <> i -> W !! j = Some b -> user_rep p' b) ->
  kern_wf (with_env i (freed_env s.(env_free_list) e) (Some i) p' s) (delete i W) l' (i :: fl).
Proof.
  intros Hwf Hi [a HWi] Hvm Hcons Hkd Hnp Hrep.
  pose proof (kw_space _ _ _ _ Hwf i e Hi) as HW. rewrite HWi in HW. destruct HW as [Hst _].
  assert (i ∉ fl) as Hni by (rewrite (kw_free _ _ _ _ Hwf i e Hi); done).
  split; simpl; try done.
  - intros j b. rewrite lookup_delete_Some. intros [_ Hj]. by apply (kw_user _ _ _ _ Hwf j).
  - intros j b [Hne Hj]%lookup_delete_Some. by apply (Hrep j).
  - intros j. rewrite lookup_insert_is_Some', (kw_dom _ _ _ _ Hwf). split; [|by right].
    intros [<-|?]; [apply (kw_dom _ _ _ _ Hwf); eauto|done].
  - split; [done|]. rewrite lookup_insert_eq. eexists. split; [done|].
    apply (echain_upd _ _ _ i e); auto. apply (kw_chain _ _ _ _ Hwf).
  - constructor; [done|apply (kw_nodup _ _ _ _ Hwf)].
  - intros j ej. rewrite lookup_insert_Some, elem_of_cons. intros [[<- <-]|[Hne Hj]]; [naive_solver|].
    rewrite (kw_free _ _ _ _ Hwf j ej Hj). naive_solver.
  - intros j ej. rewrite lookup_insert_Some. intros [[<- <-]|[Hne Hj]].
    + by rewrite lookup_delete_eq.
    + rewrite lookup_delete_ne by done. by apply (kw_space _ _ _ _ Hwf j).
  - intros j b. rewrite lookup_delete_Some. intros [_ Hj]. by apply (kw_spaces _ _ _ _ Hwf j b).
  - intros j ej. rewrite lookup_insert_Some. intros [[<- <-]|[_ Hj]]; [|by apply (kw_id _ _ _ _ Hwf j)].
    by apply (kw_id _ _ _ _ Hwf i e).
  - intros j ej. rewrite lookup_insert_Some. intros [[<- <-]|[_ Hj]]; [done|by apply (kw_live_id _ _ _ _ Hwf j)].
  - destruct (kw_kern _ _ _ _ Hwf) as (kp & ? & ? & Hun). exists kp. rewrite Hkd, Hnp.
    split; [done|]. split; [done|]. by rewrite <- (Hcons kp).
Qed.

Lemma PADDR_page p x : 0 <= x < 65536 -> PADDR (page_kva x) p = Ret (x * PGSIZE) p.
Proof.
  intros Hx. unfold PADDR, page_kva. rewrite (proj2 (Z.ltb_ge _ _)) by clia. unfold ret. f_equal.
  replace (x * PGSIZE + KERNBASE - KERNBASE) with (x * PGSIZE) by lia. apply u32_small. clia.
Qed.

(** The state with the directory page [x] loaded on this CPU. *)
Definition loaded (cpu x : Z) (ci : CpuInfo) (s : kern) : kern :=
  set_cpus (<[cpu := mkCpu ci.(cpu_status) ci.(cpu_env) (x * PGSIZE)]> s.(cpus)) s.

Lemma load_pgdir_ok cpu s ci x :
  s.(cpus) !! cpu = Some ci -> 0 <= x < 65536 ->
  load_pgdir cpu (page_kva x) s = Ret tt (loaded cpu x ci s).
Proof.
  intros Hci Hx. unfold load_pgdir. mstep (by apply on_pm_pure, PADDR_page).
  unfold lcr3, upd_cpu. by rewrite Hci.
Qed.

Lemma kw_set_cpus s W l fl c : kern_wf s W l fl -> kern_wf (set_cpus c s) W l fl.
Proof. intros []. by split. Qed.

Lemma kw_npages s W l fl : kern_wf s W l fl -> s.(pm).(npages) <= 65536.
Proof.
  intros H. pose proof (aw_npages _ _ (vw_alloc _ _ _ _ (kw_vm _ _ _ _ H))). lia.
Qed.

(** The state before [env_free] starts: off the directory it is about to free. *)
Definition left_space (cpu i kp : Z) (ci : CpuInfo) (s : kern) : kern :=
  if bool_decide (ci.(cpu_env) = Some i) then loaded cpu kp ci s else s.

Section Free.
Context {Mach : Machine}.
Hypothesis uninit_nonzero : forall pgdir va, uninit_ptep pgdir va <> 0.

Lemma env_free_ok cpu s W l fl ci i a e kp :
  kern_wf s W l fl -> s.(cpus) !! cpu = Some ci -> W !! i = Some a -> s.(envs) !! i = Some e ->
  s.(pm).(kern_pgdir) = page_kva kp -> 0 <= kp < s.(pm).(npages) ->
  exists p' l', env_free cpu i s =
      Ret tt (with_env i (freed_env s.(env_free_list) e) (Some i) p' (left_space cpu i kp ci s)) /\
    kern_wf (with_env i (freed_env s.(env_free_list) e) (Some i) p' (left_space cpu i kp ci s))
      (delete i W) l' (i :: fl) /\
    conserved W l (delete i W) l' /\ vm_frame (owns a) s.(pm) p'.
Proof.
  intros Hwf Hci HWi Hi Hkd Hkp. pose proof (kw_npages _ _ _ _ Hwf) as Hn.
  pose proof (kw_space _ _ _ _ Hwf i e Hi) as HW. rewrite HWi in HW. destruct HW as [_ Hpg].
  pose proof (vr_dir _ _ (vw_rep _ _ _ _ (kw_vm _ _ _ _ Hwf) i a HWi)) as Hdir.
  destruct (free_slots_ok uninit_nonzero s.(pm) W l i a (kw_vm _ _ _ _ Hwf) HWi
    (kw_user _ _ _ _ Hwf i a HWi)) as (p1 & Hrun1 & Ht1).
  destruct (drop_dir s.(pm) W l i a (kw_user _ _ _ _ Hwf i a HWi) p1 Ht1)
    as (p' & l' & Hrun2 & Hvm & Hcons & Hf).
  exists p', l'. set (s1 := left_space cpu i kp ci s).
  assert (kern_wf s1 W l fl /\ s1.(pm) = s.(pm) /\ s1.(envs) = s.(envs) /\
    s1.(env_free_list) = s.(env_free_list)) as (Hwf1 & Hpm1 & He1 & Hf1).
  { unfold s1, left_space. case_bool_decide; [|done]. split; [|done]. by apply kw_set_cpus. }
  split; [|split; [|split; [done|done]]].
  - unfold env_free. mstep (by apply curenv_some). mstep (apply on_pm_pure; reflexivity).
    rewrite (bind_ret _ _ s tt s1).
    2:{ unfold s1, left_space. rewrite Hkd. case_bool_decide; [|done]. apply load_pgdir_ok; [done|lia]. }
    mstep (apply get_env_some; by rewrite He1). rewrite Hpg.
    mstep (apply on_pm_ret; by rewrite Hpm1). mstep (apply (on_pm_pure (PADDR _)), PADDR_page; lia).
    mstep (apply upd_env_some; simpl; by rewrite He1). mstep (apply on_pm_ret; exact Hrun2).
    mstep reflexivity. mstep (apply upd_env_some, lookup_insert_eq).
    unfold modify, with_env. simpl. by rewrite Hf1, He1, insert_insert_eq.
  - pose proof (kw_free_env s1 W l fl i e p' l' Hwf1) as Hk. rewrite Hf1, He1, Hpm1 in Hk.
    apply Hk; try done; try (apply Hf || by eauto). intros j b Hne Hj.
    exact (user_reps_without s.(pm) p' W l i a (kw_vm _ _ _ _ Hwf) (kw_rep _ _ _ _ Hwf) HWi (vf_mem _ _ _ Hf) j b Hne Hj).
Qed.
End Free.
