(* ===== verification/SysMem.v ===== *)
(** The memory system calls of [kern/syscall.c] under the kernel's invariant:
    [sys_page_alloc], [sys_page_map] and [sys_page_unmap]. *)

From S2P Require Import Prelude Mmu Mem Console E1000 Pmap PmapBoot Env Sched Syscall.
From S2P Require Import PmapAlloc PmapVm PmapRefs UserRep EnvMem EnvSetup KernInv.

(** ** Allocation and release of a page that nothing refers to *)

Lemma allocated_pages flags x s : (allocated flags x s).(pages) = <[x := mkPageInfo None 0]> s.(pages).
Proof. unfold allocated. by destruct (nonzero _). Qed.

Lemma wf_alloc s W x l flags :
  vm_wf s W (x :: l) no_pend ->
  page_alloc flags s = Ret (Some x) (allocated flags x s) /\
  vm_wf (allocated flags x s) W l no_pend /\ vm_frame (fun q => q = x) s (allocated flags x s) /\
  (allocated flags x s).(invlpgs) = s.(invlpgs).
Proof.
  intros Hwf. destruct (page_alloc_pop flags s x l (vw_alloc _ _ _ _ Hwf)) as [Hrun Ha].
  assert (x ∈ x :: l) as Hin by left.
  pose proof (free_not_owned _ _ _ _ Hwf ltac:(done) x Hin) as Hno.
  pose proof (free_no_refs _ _ _ _ Hwf ltac:(done) x Hin) as Hr0.
  assert (vm_frame (fun q => q = x) s (allocated flags x s) /\
    (allocated flags x s).(pages) = <[x := mkPageInfo None 0]> s.(pages) /\
    (allocated flags x s).(invlpgs) = s.(invlpgs)) as (Hf & Hpg & Ht).
  { unfold allocated. destruct (nonzero _); (split; [split; try done|split; done]).
    by apply same_outside_zero. }
  split; [exact Hrun|]. split; [|by split]. clear Hrun.
  destruct Hwf as [_ Hrep Hdj Hm Href]. destruct Hf as [F1 _ _ _ _ _ _ _ Fm].
  split; try done.
  - intros k a Hk. apply (vm_rep_frame (fun q => q = x) s); try done; [by apply (Hrep k)|].
    intros p Ho ->. apply Hno. by exists k, a.
  - rewrite F1. done.
  - intros p pi. rewrite Hpg, lookup_insert_Some. intros [[<- <-]|[_ Hp]]; [by rewrite Hr0|eauto].
Qed.

Lemma wf_free s W l x :
  vm_wf s W l no_pend -> 0 <= x < s.(npages) -> (forall pi, s.(pages) !! x = Some pi -> pi.(pp_ref) = 0) -> x ∉ l -> refs W x = 0 ->
  page_free x s = Ret tt (freed x s) /\ vm_wf (freed x s) W (x :: l) no_pend.
Proof.
  intros Hwf Hx Hcnt Hl Hr0. destruct (wf_pages _ _ _ _ Hwf x Hx) as [pi Hpi].
  destruct (page_free_push s x pi l (vw_alloc _ _ _ _ Hwf) Hpi (Hcnt pi Hpi) Hl) as [Hrun Ha].
  split; [exact Hrun|]. destruct Hwf as [_ Hrep Hdj Hm Href]. split; try done.
  - intros k a Hk. by apply (vm_rep_ext s); eauto.
  - intros p qi. simpl. rewrite lookup_insert_Some. intros [[<- <-]|[_ Hp]]; [by rewrite Hr0|eauto].
Qed.

Lemma vm_frame_freed P s s' x : vm_frame P s s' -> vm_frame P s (freed x s').
Proof. intros []. by split. Qed.

(** ** The abstract insertion keeps the shape of the world *)

Lemma refs_bound W k a a' p b :
  W !! k = Some a -> refs1 p a' <= refs1 p a + b -> refs (<[k := a']> W) p <= refs W p + b.
Proof. intros Hk H. rewrite (refs_update W k a) by done. lia. Qed.

Lemma as_insert_shape s W l k va pp perm W' l' :
  vm_wf s W l no_pend -> 0 <= pp < 65536 -> 0 <= perm < PGSIZE ->
  as_insert W l k va pp perm = Some (W', l') ->
  (forall i a', W' !! i = Some a' -> exists a, W !! i = Some a /\ a'.(as_dir) = a.(as_dir) /\
     a'.(as_slots) = a.(as_slots)) /\
  (forall i, is_Some (W !! i) -> is_Some (W' !! i)) /\
  (forall p, 0 < refs W' p \/ p ∈ l' -> 0 < refs W p \/ p ∈ l \/ p = pp).
Proof.
  intros Hwf Hpp Hperm. unfold as_insert. destruct (W !! k) as [a|] eqn:Hk; [|done].
  destruct (ensure_tab a l (PDX va)) as [[a1 l1]|] eqn:He; [|done]. intros [= <- <-].
  destruct (ensure_tab_facts s W l k a (PDX va) a1 l1 pp Hwf Hk He) as (Hsl & Hd & Hm & Hown & Hll & _).
  split; [|split].
  - intros i a'. rewrite lookup_insert_Some. intros [[<- <-]|[_ Hi]]; [|by eauto].
    exists a. by rewrite Hk.
  - intros i Hi. rewrite lookup_insert_is_Some'. by right.
  - intros p [Hp|Hp].
    + assert (refs1 p (with_map (PGNUM va) (mkpte pp perm) a1) <= refs1 p a1 + hits p pp) as H1.
      { pose proof (refs1_set_entry p a1 (PGNUM va) (mkpte pp perm)) as H.
        assert (entry (mkpte pp perm) = Some (mkpte pp perm)) as E
          by (unfold entry, mkpte; by rewrite bits_set_lor_P).
        unfold set_entry in H. rewrite E in H. unfold with_map, insert, map_insert. rewrite H.
        unfold ohits, at_opt. simpl. rewrite mkpte_page by done.
        destruct (a1.(as_maps) !! PGNUM va); simpl; pose proof hits_nonneg; [|lia].
        pose proof (hits_nonneg p (pte_page z)). lia. }
      destruct (decide (p = pp)) as [->|Hne]; [by right; right|].
      assert (hits p pp = 0) as H0 by (unfold hits; by rewrite (proj2 (Z.eqb_neq _ _))).
      unfold ensure_tab in He. destruct (a.(as_tabs) !! PDX va) eqn:Htp.
      * injection He as <- <-. left. eapply Z.lt_le_trans; [exact Hp|].
        etrans; [apply (refs_bound W k a _ p 0 Hk); lia|lia].
      * destruct l as [|x l2]; [done|]. injection He as <- <-.
        destruct (decide (p = x)) as [->|Hnx]; [right; left; left|]. left.
        rewrite refs1_with_tab in H1 by done.
        assert (hits p x = 0) as Hx0 by (unfold hits; by rewrite (proj2 (Z.eqb_neq _ _))).
        eapply Z.lt_le_trans; [exact Hp|]. etrans; [apply (refs_bound W k a _ p 0 Hk); lia|lia].
    + unfold drop_free in Hp. destruct (a.(as_maps) !! PGNUM va) as [w|] eqn:Hw; [|by right; left; auto].
      destruct (_ =? 1); [|by right; left; auto]. apply elem_of_cons in Hp as [->|Hp]; [|by right; left; auto].
      left. pose proof (maps_refs1 a _ w Hw). pose proof (refs_ge W k a (pte_page w) Hk). lia.
Qed.

(** ** The caller *)

(** Environment [c], in use, runs on this CPU. *)
Record caller (cpu : Z) (s : kern) (W : gmap Z aspace) (ci : CpuInfo) (c : Z) : Prop := {
  ca_cpu : s.(cpus) !! cpu = Some ci;
  ca_env : ci.(cpu_env) = Some c;
  ca_live : is_Some (W !! c);
}.

Lemma caller_resolve cpu s W l fl ci c envid chk :
  kern_wf s W l fl -> caller cpu s W ci c ->
  envid2env cpu envid chk s =
    match resolve s.(envs) (Some c) envid chk with
    | Some i => Ret (0, Some i) s
    | None => Ret (- E_BAD_ENV, None) s
    end.
Proof.
  intros Hwf [Hci Hc [a Ha]]. apply (envid2env_ok cpu s W l fl ci); auto.
  by apply (kw_spaces _ _ _ _ Hwf c a).
Qed.

(** What a resolved identifier names. *)
Lemma resolve_live s W l fl c envid chk i :
  kern_wf s W l fl -> is_Some (W !! c) -> resolve s.(envs) (Some c) envid chk = Some i ->
  exists a e, W !! i = Some a /\ s.(envs) !! i = Some e /\ e.(env_status) <> ENV_FREE /\
    e.(env_pgdir) = page_kva a.(as_dir).
Proof.
  intros Hwf [ac Hc] Hr.
  assert (exists e, s.(envs) !! i = Some e /\ (W !! i = None -> e.(env_status) <> ENV_FREE)) as (e & He & Hst).
  { revert Hr. unfold resolve. destruct (envid =? 0).
    - intros [= <-]. destruct (proj2 (kw_dom _ _ _ _ Hwf c) (kw_spaces _ _ _ _ Hwf c ac Hc)) as [e He].
      exists e. split; [done|]. by rewrite Hc.
    - destruct (s.(envs) !! ENVX envid) as [e|] eqn:He; [|done].
      destruct (Z.eqb_spec e.(env_status) ENV_FREE); [done|]. simpl.
      intros Hr. exists e. assert (i = ENVX envid) as ->; [|done]. revert Hr.
      destruct (negb _); [done|]. destruct (chk && _); [|by intros [= <-]].
      simpl. destruct (s.(envs) !! c) as [ce|]; [|done].
      destruct (_ =? _); [by intros [= <-]|done]. }
  pose proof (kw_space _ _ _ _ Hwf i e He) as HW. destruct (W !! i) as [a|]; [|by exfalso; apply Hst].
  exists a, e. destruct HW. done.
Qed.

(** ** The abstract system calls

    On the address spaces [W] and the free pages [l]; [es] is the table of environments and
    [c] the caller. *)

Definition as_page_alloc (es : gmap Z Env) (c : Z) (W : gmap Z aspace) (l : list Z)
    (envid va perm : Z) : Z * gmap Z aspace * list Z :=
  if bad_va va || bad_perm perm then (- E_INVAL, W, l)
  else
    match resolve es (Some c) envid true with
    | None => (- E_BAD_ENV, W, l)
    | Some i =>
        match l with
        | [] => (- E_NO_MEM, W, l)
        | x :: l' =>
            match as_insert W l' i va x perm with
            | None => (- E_NO_MEM, W, l)
            | Some (W', l') => (0, W', l')
            end
        end
    end.

(** The mapping of [va] in environment [i]. *)
Definition entry_of (W : gmap Z aspace) (i va : Z) : option Z :=
  a ← W !! i; a.(as_maps) !! PGNUM va.

Definition as_page_map (es : gmap Z Env) (c : Z) (W : gmap Z aspace) (l : list Z)
    (srcenvid srcva dstenvid dstva perm : Z) : Z * gmap Z aspace * list Z :=
  if bad_va srcva || bad_va dstva || bad_perm perm then (- E_INVAL, W, l)
  else
    match resolve es (Some c) srcenvid true, resolve es (Some c) dstenvid true with
    | Some src, Some dst =>
        match entry_of W src srcva with
        | None => (- E_INVAL, W, l)
        | Some w =>
            if bits_set perm PTE_W && negb (bits_set w PTE_W) then (- E_INVAL, W, l)
            else
              match as_insert W l dst dstva (pte_page w) perm with
              | None => (- E_NO_MEM, W, l)
              | Some (W', l') => (0, W', l')
              end
        end
    | _, _ => (- E_BAD_ENV, W, l)
    end.

Definition as_page_unmap (es : gmap Z Env) (c : Z) (W : gmap Z aspace) (l : list Z)
    (envid va : Z) : Z * gmap Z aspace * list Z :=
  if bad_va va then (- E_INVAL, W, l)
  else
    match resolve es (Some c) envid true with
    | None => (- E_BAD_ENV, W, l)
    | Some i =>
        match W !! i, entry_of W i va with
        | Some a, Some w =>
            (0, <[i := without_map (PGNUM va) a]> W,
             if refs W (pte_page w) =? 1 then pte_page w :: l else l)
        | _, _ => (0, W, l)
        end
    end.

Lemma bad_va_false va : 0 <= va -> bad_va va = false -> 0 <= va < UTOP /\ va mod PGSIZE = 0.
Proof.
  unfold bad_va. intros H0 [H1 H2]%orb_false_iff. apply Z.leb_gt in H1.
  apply negb_false_iff, Z.eqb_eq in H2. lia.
Qed.

Lemma bad_perm_false perm :
  0 <= perm < 2 ^ 32 -> bad_perm perm = false ->
  0 <= perm < PGSIZE /\ bits_set perm PTE_P = true /\ bits_set perm PTE_U = true.
Proof.
  unfold bad_perm. intros H0 [[H1 H2]%orb_false_iff H3]%orb_false_iff.
  apply negb_false_iff, Z.eqb_eq in H1, H2. unfold nonzero in H3.
  apply negb_false_iff, Z.eqb_eq in H3. split; [|unfold bits_set; by rewrite H1, H2].
  split; [lia|]. destruct (Z.lt_ge_cases perm PGSIZE) as [|Hge]; [done|exfalso].
  assert (perm / 4096 = 0) as Hz; [|revert Hge; consts; intros; zdm].
  rewrite <- Z.shiftr_div_pow2 with (n := 12) by lia.
  apply Z.bits_inj'. intros n Hn. rewrite Z.shiftr_spec, Z.testbit_0_l by lia.
  destruct (Z.lt_ge_cases (n + 12) 32) as [Hlt|Hge'].
  - apply (f_equal (fun z => Z.testbit z (n + 12))) in H3. revert H3.
    rewrite Z.land_spec, Z.testbit_0_l.
    change (u32 (Z.lnot PTE_SYSCALL)) with (2 ^ 32 - 1 - 0xe07).
    assert (n + 12 ∈ seqZ 12 20) as Hin by (apply elem_of_seqZ; lia).
    revert Hin. generalize (n + 12). clear. intros m Hin.
    repeat (apply elem_of_cons in Hin as [->|Hin]; [vm_compute (Z.testbit (_ - _) _); by rewrite andb_true_r|]).
    by apply elem_of_nil in Hin.
  - apply Z.bits_above_log2; [lia|]. destruct (decide (perm = 0)) as [->|]; [simpl; lia|].
    apply Z.log2_lt_pow2; [lia|]. eapply Z.lt_le_trans; [apply H0|]. apply Z.pow_le_mono_r; lia.
Qed.

Lemma bit_W x : nonzero (Z.land x PTE_W) = bits_set x PTE_W.
Proof.
  unfold nonzero, bits_set. change PTE_W with (2 ^ 1).
  destruct (Z.testbit x 1) eqn:E.
  - assert (Z.land x (2 ^ 1) = 2 ^ 1) as ->; [|done]. apply Z.bits_inj'. intros n Hn.
    rewrite Z.land_spec, Z.pow2_bits_eqb by done. destruct (Z.eqb_spec 1 n) as [<-|]; [by rewrite E|].
    apply andb_false_r.
  - assert (Z.land x (2 ^ 1) = 0) as ->; [|done]. apply Z.bits_inj'. intros n Hn.
    rewrite Z.land_spec, Z.pow2_bits_eqb, Z.testbit_0_l by done.
    destruct (Z.eqb_spec 1 n) as [<-|]; [by rewrite E|]. apply andb_false_r.
Qed.

(** ** The system calls implement them *)

(** Step over a call of [envid2env] that succeeds. *)
Ltac resolved H := mstep (exact H); change (negb (0 =? 0)) with false; cbv iota.

Section Ops.
Context {Mach : Machine} (cpu : Z).
Hypothesis uninit_nonzero : forall pgdir va, uninit_ptep pgdir va <> 0.

Variables (s : kern) (W : gmap Z aspace) (l fl : list Z) (ci : CpuInfo) (c : Z).
Hypothesis Hwf : kern_wf s W l fl.
Hypothesis Hc : caller cpu s W ci c.

(** Running [m] answers [r] and turns the address spaces into [W'] and the free pages into
    [l'], changing no memory but page directories, page tables and pages that were free;
    the memory it leaves satisfies [Q]. *)
Definition does (m : M kern Z) (res : Z * gmap Z aspace * list Z) (Q : pmap -> Prop) : Prop :=
  let '(r, W', l') := res in
  exists p', m s = Ret r (set_pm p' s) /\ kern_wf (set_pm p' s) W' l' fl /\
    vm_frame (fun p => owned W p \/ p ∈ l) s.(pm) p' /\ Q p'.

Lemma does_nothing m r (Q : pmap -> Prop) : m s = Ret r s -> Q s.(pm) -> does m (r, W, l) Q.
Proof.
  intros H HQ. exists s.(pm). rewrite set_pm_id.
  split; [exact H|]. split; [exact Hwf|]. split; [apply vm_frame_refl|exact HQ].
Qed.

Lemma allocated_zero x p b : b / PGSIZE = x -> ld8 (allocated ALLOC_ZERO x p).(pmem) b = 0.
Proof.
  intros Hb. unfold allocated. simpl. rewrite ld8_zero_page. rewrite (proj2 (andb_true_iff _ _)); [done|].
  rewrite Z.leb_le, Z.ltb_lt. revert Hb. consts. intros; zdm.
Qed.

Lemma insert_fresh flags x l0 i a va perm :
  l = x :: l0 -> W !! i = Some a -> 0 <= va < UTOP -> 0 <= perm < PGSIZE -> bits_set perm PTE_U = true ->
  let p1 := allocated flags x s.(pm) in
  match as_insert W l0 i va x perm with
  | None => page_insert (page_kva a.(as_dir)) x va perm p1 = Ret (- E_NO_MEM) p1 /\
      page_free x p1 = Ret tt (freed x p1) /\ kern_wf (set_pm (freed x p1) s) W l fl /\
      vm_frame (fun p => owned W p \/ p ∈ l) s.(pm) (freed x p1)
  | Some (W', l') => exists p', page_insert (page_kva a.(as_dir)) x va perm p1 = Ret 0 p' /\
      kern_wf (set_pm p' s) W' l' fl /\ vm_frame (fun p => owned W p \/ p ∈ l) s.(pm) p' /\
      (forall b, b / PGSIZE = x -> ld8 p'.(pmem) b = ld8 p1.(pmem) b)
  end.
Proof.
  intros -> HWi Hva Hperm HU p1. pose proof (kw_vm _ _ _ _ Hwf) as Hvm.
  destruct (wf_alloc s.(pm) W x l0 flags Hvm) as (_ & Hvm1 & Hf1 & _). fold p1 in Hvm1, Hf1.
  assert (x ∈ x :: l0) as Hin by left.
  pose proof (free_no_refs _ _ _ _ Hvm ltac:(done) x Hin) as Hr0.
  pose proof (free_not_owned _ _ _ _ Hvm ltac:(done) x Hin) as Hno.
  pose proof (free_in_range _ _ _ _ Hvm x Hin) as Hx. pose proof (kw_npages _ _ _ _ Hwf) as Hn.
  pose proof (aw_nodup _ _ (vw_alloc _ _ _ _ Hvm)) as Hnl. apply NoDup_cons in Hnl as [Hnl _].
  assert (0 <= x < p1.(npages)) as Hx1 by (rewrite (vf_npages _ _ _ Hf1); exact Hx).
  assert (covers a va) as Hcv by (apply covers_user; [by apply (kw_user _ _ _ _ Hwf i)|done]).
  assert (refs W x + 1 < 2 ^ 16) as Hov by lia.
  assert (forall pi, p1.(pages) !! x = Some pi -> pi.(pp_ref) = 0) as Hcnt
    by (intros pi; unfold p1; rewrite allocated_pages, lookup_insert_eq; by intros [= <-]).
  pose proof (page_insert_ok uninit_nonzero p1 W l0 i a va x perm Hvm1 HWi Hcv Hperm Hx1 ltac:(by rewrite Hr0) Hnl Hno Hov) as Hins.
  destruct (as_insert W l0 i va x perm) as [[W' l']|] eqn:Ei.
  - destruct Hins as (p' & Hrun & Hvm' & Hf' & _ & Hpg).
    pose proof (user_reps_free s.(pm) p1 W (x :: l0) x Hvm (kw_rep _ _ _ _ Hwf) Hin (vf_mem _ _ _ Hf1)) as Hu1.
    exists p'. split; [exact Hrun|]. split; [|split].
    + destruct (as_insert_shape p1 W l0 i va x perm W' l' Hvm1 ltac:(lia) Hperm Ei) as (H1 & H2 & H3).
      apply (kw_set_pm s W (x :: l0)); try assumption.
      * apply (insert_user_reps p1 p' W l0 i a va x perm W' l'); try assumption; [by apply (kw_user _ _ _ _ Hwf i)|lia].
      * by rewrite (vf_kern_pgdir _ _ _ Hf'), (vf_kern_pgdir _ _ _ Hf1).
      * by rewrite (vf_npages _ _ _ Hf'), (vf_npages _ _ _ Hf1).
      * intros kp Hkp. destruct (H3 kp Hkp) as [?|[?| ->]]; [by left|by right; right|by right; left].
    + apply (vm_frame_trans _ _ p1).
      * apply (vm_frame_mono _ _ _ _ Hf1). intros p ->. right. left.
      * apply (vm_frame_mono _ _ _ _ Hf'). intros p [Ho|Hl]; [left; by exists i, a|right; by right].
    + intros b Hb. apply (vf_mem _ _ _ Hf'). rewrite Hb. intros [Ho|Hl]; [apply Hno; by exists i, a|done].
  - split; [exact Hins|].
    destruct (wf_free p1 W l0 x Hvm1 Hx1 Hcnt Hnl Hr0) as [Hrun Hvm2]. split; [exact Hrun|].
    split; [apply (kw_set_pm s W (x :: l0)); try assumption; try apply (vf_kern_pgdir _ _ _ Hf1); try apply (vf_npages _ _ _ Hf1); try done; try by eauto|].
    { exact (user_reps_free s.(pm) (freed x p1) W (x :: l0) x Hvm (kw_rep _ _ _ _ Hwf) Hin (vf_mem _ _ _ (vm_frame_freed _ _ _ x Hf1))). }
    apply vm_frame_freed, (vm_frame_mono _ _ _ _ Hf1). intros p ->. right. left.
Qed.

Lemma sys_page_alloc_does envid va perm :
  0 <= va -> 0 <= perm < 2 ^ 32 ->
  does (sys_page_alloc cpu envid va perm) (as_page_alloc s.(envs) c W l envid va perm)
    (fun p' => (as_page_alloc s.(envs) c W l envid va perm).1.1 = 0 ->
       forall x b, head l = Some x -> b / PGSIZE = x -> ld8 p'.(pmem) b = 0).
Proof.
  intros Hva Hperm. unfold as_page_alloc, sys_page_alloc.
  destruct (bad_va va) eqn:Ebv; [by apply does_nothing|].
  destruct (bad_perm perm) eqn:Ebp; [by apply does_nothing|].
  apply bad_va_false in Ebv as [Hv _]; [|done]. apply bad_perm_false in Ebp as (Hp & _ & HU); [|done].
  pose proof (caller_resolve cpu s W l fl ci c envid true Hwf Hc) as Hres.
  destruct (resolve s.(envs) (Some c) envid true) as [i|] eqn:Er;
    [|apply does_nothing; [by mstep (exact Hres)|done]].
  destruct (resolve_live s W l fl c envid true i Hwf (ca_live _ _ _ _ _ Hc) Er) as (a & e & HWi & Hi & _ & Hpg).
  cbn [orb].
  assert (l = [] \/ exists x l0, l = x :: l0) as [El|(x & l0 & El)] by (destruct l; eauto).
  { rewrite El. rewrite <- El at 1. apply does_nothing; [|done]. resolved Hres.
    mstep (apply on_pm_pure, page_alloc_empty; rewrite <- El; apply (vw_alloc _ _ _ _ (kw_vm _ _ _ _ Hwf))). done. }
  destruct (wf_alloc s.(pm) W x l0 ALLOC_ZERO) as (Hrun1 & _); [by rewrite <- El; apply (kw_vm _ _ _ _ Hwf)|].
  pose proof (insert_fresh ALLOC_ZERO x l0 i a va perm El HWi Hv Hp HU) as Hins. cbv zeta in Hins. rewrite El.
  destruct (as_insert W l0 i va x perm) as [[W' l']|] eqn:Ei.
  - destruct Hins as (p' & Hrun & Hk & Hf & Hz). exists p'. split; [|split; [exact Hk|split; [exact Hf|]]].
    + resolved Hres.
      mstep (apply on_pm_ret; exact Hrun1). mstep (by apply get_env_some). rewrite Hpg.
      mstep (apply (on_pm_ret (page_insert _ _ _ _)); exact Hrun). done.
    + intros _ x' b [= <-] Hb. rewrite Hz by done. by apply allocated_zero.
  - destruct Hins as (Hrun & Hrun2 & Hk & Hf). eexists. split; [|split; [rewrite <- El; exact Hk|split; [exact Hf|done]]].
    resolved Hres.
    mstep (apply on_pm_ret; exact Hrun1). mstep (by apply get_env_some). rewrite Hpg.
    mstep (apply (on_pm_ret (page_insert _ _ _ _)); exact Hrun). change (- E_NO_MEM =? 0) with false. cbv iota.
    mstep (apply (on_pm_ret (page_free x)); exact Hrun2). done.
Qed.

(** [page_lookup] and the write test of [sys_page_map]. *)
Lemma lookup_entry i a va :
  W !! i = Some a -> 0 <= va < UTOP ->
  match entry_of W i va with
  | None => page_lookup (page_kva a.(as_dir)) va (uninit_ptep (page_kva a.(as_dir)) va) s.(pm) =
      Ret (None, uninit_ptep (page_kva a.(as_dir)) va) s.(pm)
  | Some w => 0 <= pte_page w < s.(pm).(npages) /\ (pte_page w ∉ l) /\ ~ owned W (pte_page w) /\
      (0 < refs W (pte_page w)) /\ exists pte,
      page_lookup (page_kva a.(as_dir)) va (uninit_ptep (page_kva a.(as_dir)) va) s.(pm) =
        Ret (Some (pte_page w), pte) s.(pm) /\ kload32 pte s.(pm) = Ret w s.(pm)
  end.
Proof.
  intros HWi Hva. pose proof (kw_vm _ _ _ _ Hwf) as Hvm.
  pose proof (vw_rep _ _ _ _ Hvm i a HWi) as Hr.
  assert (covers a va) as Hcv by (apply covers_user; [by apply (kw_user _ _ _ _ Hwf i)|done]).
  unfold entry_of. rewrite HWi. simpl. destruct (a.(as_maps) !! PGNUM va) as [w|] eqn:Hm.
  - destruct (vw_mapped _ _ _ _ Hvm i a _ w HWi Hm) as [Hp Ho].
    destruct (mapped_in_use _ _ _ _ _ _ _ _ Hvm ltac:(done) HWi Hm) as (_ & _ & _ & Hl).
    destruct (mapped_table _ _ _ _ _ _ _ _ Hvm HWi Hm) as [tp Htp]. rewrite (vpn_slot a) in Htp by done.
    split; [done|]. split; [done|]. split; [done|]. split.
    { pose proof (maps_refs1 a _ w Hm). pose proof (refs_ge W i a (pte_page w) HWi). lia. }
    exists (pte_kva tp va). split.
    + rewrite (lookup_mapped s.(pm) a va _ w tp) by done. by rewrite uninit_nonzero_b.
    + rewrite (kload32_pte _ a) by done. f_equal. rewrite (maps_entry s.(pm) a va tp) in Hm by done.
      by apply entry_some in Hm as [-> _].
  - by apply lookup_unmapped.
Qed.

Lemma insert_shared i a pp va perm :
  W !! i = Some a -> 0 <= va < UTOP -> 0 <= perm < PGSIZE -> bits_set perm PTE_U = true -> 0 <= pp < s.(pm).(npages) ->
  pp ∉ l -> ~ owned W pp -> 0 < refs W pp -> refs W pp + 1 < 2 ^ 16 ->
  match as_insert W l i va pp perm with
  | None => page_insert (page_kva a.(as_dir)) pp va perm s.(pm) = Ret (- E_NO_MEM) s.(pm)
  | Some (W', l') => exists p', page_insert (page_kva a.(as_dir)) pp va perm s.(pm) = Ret 0 p' /\
      kern_wf (set_pm p' s) W' l' fl /\ vm_frame (fun p => owned W p \/ p ∈ l) s.(pm) p'
  end.
Proof.
  intros HWi Hva Hperm HU Hpp Hl Ho Hr0 Hov. pose proof (kw_vm _ _ _ _ Hwf) as Hvm.
  pose proof (kw_npages _ _ _ _ Hwf) as Hn.
  assert (covers a va) as Hcv by (apply covers_user; [by apply (kw_user _ _ _ _ Hwf i)|done]).
  assert (forall pi, s.(pm).(pages) !! pp = Some pi -> pi.(pp_ref) = refs W pp) as Hcnt
    by (intros pi Hpi; pose proof (vw_ref _ _ _ _ Hvm pp pi Hpi) as Hr; unfold no_pend in Hr; lia).
  pose proof (page_insert_ok uninit_nonzero s.(pm) W l i a va pp perm Hvm HWi Hcv Hperm Hpp Hcnt Hl Ho Hov) as Hins.
  destruct (as_insert W l i va pp perm) as [[W' l']|] eqn:Ei; [|exact Hins].
  destruct Hins as (p' & Hrun & Hvm' & Hf' & _ & Hpg). exists p'. split; [exact Hrun|]. split.
  - destruct (as_insert_shape s.(pm) W l i va pp perm W' l' Hvm ltac:(lia) Hperm Ei) as (H1 & H2 & H3).
    apply (kw_set_pm s W l); try assumption.
    + apply (insert_user_reps s.(pm) p' W l i a va pp perm W' l'); try assumption;
        [apply (kw_rep _ _ _ _ Hwf)|by apply (kw_user _ _ _ _ Hwf i)|lia].
    + apply (vf_kern_pgdir _ _ _ Hf').
    + apply (vf_npages _ _ _ Hf').
    + intros kp Hkp. destruct (H3 kp Hkp) as [?|[?| ->]]; [by left|by right|by left].
  - apply (vm_frame_mono _ _ _ _ Hf'). intros p [Hop|Hpl]; [left; by exists i, a|by right].
Qed.

Lemma sys_page_map_does srcenvid srcva dstenvid dstva perm :
  0 <= srcva -> 0 <= dstva -> 0 <= perm < 2 ^ 32 ->
  (forall src w, resolve s.(envs) (Some c) srcenvid true = Some src -> entry_of W src srcva = Some w ->
    refs W (pte_page w) + 1 < 2 ^ 16) ->
  does (sys_page_map cpu srcenvid srcva dstenvid dstva perm)
    (as_page_map s.(envs) c W l srcenvid srcva dstenvid dstva perm) (fun _ => True).
Proof.
  intros Hsva Hdva Hperm Hov. unfold as_page_map, sys_page_map.
  destruct (bad_va srcva || bad_va dstva) eqn:Ebv; [by apply does_nothing|].
  destruct (bad_perm perm) eqn:Ebp; [by apply does_nothing|]. cbn [orb].
  apply orb_false_iff in Ebv as [Ebs Ebd]. apply bad_va_false in Ebs as [Hs _]; [|done].
  apply bad_va_false in Ebd as [Hd _]; [|done]. apply bad_perm_false in Ebp as (Hp & _ & HU); [|done].
  pose proof (caller_resolve cpu s W l fl ci c srcenvid true Hwf Hc) as Hrs.
  pose proof (caller_resolve cpu s W l fl ci c dstenvid true Hwf Hc) as Hrd.
  destruct (resolve s.(envs) (Some c) srcenvid true) as [src|] eqn:Ers;
    [|apply does_nothing; [by mstep (exact Hrs)|done]].
  destruct (resolve s.(envs) (Some c) dstenvid true) as [dst|] eqn:Erd;
    [|apply does_nothing; [by resolved Hrs; mstep (exact Hrd)|done]].
  destruct (resolve_live s W l fl c srcenvid true src Hwf (ca_live _ _ _ _ _ Hc) Ers) as (a & e & HWs & Hes & _ & Hps).
  destruct (resolve_live s W l fl c dstenvid true dst Hwf (ca_live _ _ _ _ _ Hc) Erd) as (b & f & HWd & Hed & _ & Hpd).
  pose proof (lookup_entry src a srcva HWs Hs) as Hlk. rewrite <- Hps in Hlk.
  specialize (Hov src). destruct (entry_of W src srcva) as [w|].
  2: { apply does_nothing; [|done]. resolved Hrs. resolved Hrd. mstep (by apply get_env_some).
    mstep (apply on_pm_pure; exact Hlk). done. }
  destruct Hlk as (Hpp & Hl & Ho & Hr0 & pte & Hlk & Hld).
  assert ((if nonzero (Z.land perm PTE_W) then
      let* w := on_pm (kload32 pte) in ret (nonzero (Z.land w PTE_W)) else ret true) s =
    Ret (negb (bits_set perm PTE_W && negb (bits_set w PTE_W))) s) as Hallow.
  { rewrite bit_W. destruct (bits_set perm PTE_W); [|done].
    mstep (apply on_pm_pure; exact Hld). rewrite bit_W. by destruct (bits_set w PTE_W). }
  pose proof (insert_shared dst b (pte_page w) dstva perm HWd Hd Hp HU Hpp Hl Ho Hr0 (Hov w eq_refl eq_refl)) as Hins.
  rewrite <- Hpd in Hins.
  destruct (bits_set perm PTE_W && negb (bits_set w PTE_W)); cbn [negb] in Hallow.
  { apply does_nothing; [|done]. resolved Hrs. resolved Hrd. mstep (by apply get_env_some).
    mstep (apply on_pm_pure; exact Hlk). mstep (exact Hallow). done. }
  destruct (as_insert W l dst dstva (pte_page w) perm) as [[W' l']|].
  - destruct Hins as (p' & Hrun & Hk & Hf). exists p'. split; [|by split].
    resolved Hrs. resolved Hrd. mstep (by apply get_env_some). mstep (apply on_pm_pure; exact Hlk).
    mstep (exact Hallow). mstep (by apply get_env_some).
    mstep (apply (on_pm_ret (page_insert _ _ _ _)); exact Hrun). done.
  - apply does_nothing; [|done]. resolved Hrs. resolved Hrd. mstep (by apply get_env_some).
    mstep (apply on_pm_pure; exact Hlk). mstep (exact Hallow). mstep (by apply get_env_some).
    mstep (apply on_pm_pure; exact Hins). done.
Qed.

Lemma sys_page_unmap_does envid va :
  0 <= va ->
  does (sys_page_unmap cpu envid va) (as_page_unmap s.(envs) c W l envid va) (fun _ => True).
Proof.
  intros Hva. unfold as_page_unmap, sys_page_unmap.
  destruct (bad_va va) eqn:Ebv; [by apply does_nothing|]. apply bad_va_false in Ebv as [Hv _]; [|done].
  pose proof (caller_resolve cpu s W l fl ci c envid true Hwf Hc) as Hres.
  destruct (resolve s.(envs) (Some c) envid true) as [i|] eqn:Er;
    [|apply does_nothing; [by mstep (exact Hres)|done]].
  destruct (resolve_live s W l fl c envid true i Hwf (ca_live _ _ _ _ _ Hc) Er) as (a & e & HWi & Hi & _ & Hpg).
  pose proof (kw_vm _ _ _ _ Hwf) as Hvm.
  assert (covers a va) as Hcv by (apply covers_user; [by apply (kw_user _ _ _ _ Hwf i)|done]).
  unfold entry_of. rewrite HWi. simpl. destruct (a.(as_maps) !! PGNUM va) as [w|] eqn:Hm.
  - destruct (mapped_in_use _ _ _ _ _ _ _ _ Hvm ltac:(done) HWi Hm) as (pi & Hpi & _ & Hl).
    pose proof (maps_refs1 a _ w Hm) as Hm1. pose proof (refs_ge W i a (pte_page w) HWi) as Hm2.
    pose proof (vw_ref _ _ _ _ Hvm _ _ Hpi ltac:(unfold no_pend; lia)) as Hr. unfold no_pend in Hr. rewrite Z.add_0_r in Hr.
    destruct (remove_mapped uninit_nonzero s.(pm) W l no_pend i a va w pi Hvm ltac:(done) HWi Hcv Hm Hpi)
      as (p' & Hrun & Hvm' & Hf & _ & _ & Hpd). rewrite Hr in Hvm'.
    exists p'. split; [|split; [|split; [|done]]].
    + resolved Hres. mstep (by apply get_env_some). rewrite Hpg.
      mstep (apply (on_pm_ret (page_remove _ _)); exact Hrun). done.
    + apply (kw_set_pm s W l); try assumption.
      * intros j a'. rewrite lookup_insert_Some. intros [[<- <-]|[_ Hj]]; eauto.
      * intros j Hj. rewrite lookup_insert_is_Some'. by right.
      * intros j b. rewrite lookup_insert_Some. intros [[<- <-]|[Hne Hj]].
        -- exact (user_rep_without s.(pm) p' a (PGNUM va) (vw_rep _ _ _ _ Hvm i a HWi) (kw_rep _ _ _ _ Hwf i a HWi) Hpd).
        -- exact (user_reps_without s.(pm) p' W l i a Hvm (kw_rep _ _ _ _ Hwf) HWi (vf_mem _ _ _ Hf) j b (not_eq_sym Hne) Hj).
      * apply (vf_kern_pgdir _ _ _ Hf).
      * apply (vf_npages _ _ _ Hf).
      * intros kp [Hkp|Hkp].
        -- left. eapply Z.lt_le_trans; [exact Hkp|]. etrans; [apply (refs_bound W i a _ kp 0 HWi)|lia].
           unfold refs1. simpl. rewrite (total_delete (fun w => hits kp (pte_page w)) _ _ _ Hm).
           pose proof (hits_nonneg kp (pte_page w)). lia.
        -- destruct (refs W (pte_page w) =? 1) eqn:E1; [|by right].
           apply elem_of_cons in Hkp as [->|?]; [|by right]. apply Z.eqb_eq in E1. left. lia.
    + apply (vm_frame_mono _ _ _ _ Hf). intros p Ho. left. by exists i, a.
  - apply does_nothing; [|done]. resolved Hres. mstep (by apply get_env_some). rewrite Hpg.
    mstep (by apply on_pm_pure, remove_unmapped; [apply (vw_rep _ _ _ _ Hvm i)|..]). done.
Qed.
End Ops.
