(* ===== verification/SysIpc.v ===== *)
(** Message passing: [sys_ipc_try_send] of [kern/syscall.c] under the kernel's
    invariant. *)

From S2P Require Import Prelude Mmu Mem Console E1000 Pmap PmapBoot Env Sched Syscall.
From S2P Require Import PmapAlloc PmapVm PmapRefs EnvMem EnvSetup KernInv SysMem.

Lemma cur_some cpu s W ci c : caller cpu s W ci c -> cur cpu s = Ret c s.
Proof. intros [Hci Hc _]. unfold cur. mstep (by apply curenv_some). by rewrite Hc. Qed.

(** The outcome of a send as the code has it: a page is sent only if it is mapped writable and
    asked for with [PTE_W].  The outcome is the answer, the address spaces and free pages, and the permission
    recorded with the receiver if the message is delivered. *)
Definition as_ipc_send (es : gmap Z Env) (c : Z) (W : gmap Z aspace) (l : list Z)
    (t srcva perm : Z) : Z * gmap Z aspace * list Z * option Z :=
  match es !! t with
  | None => (- E_BAD_ENV, W, l, None)
  | Some te =>
      if negb te.(env_ipc_recving) then (- E_IPC_NOT_RECV, W, l, None)
      else if (srcva <? UTOP) && negb (srcva mod PGSIZE =? 0) then (- E_INVAL, W, l, None)
      else if (te.(env_ipc_dstva) <? UTOP) && (srcva <? UTOP) then
        if bad_perm perm then (- E_INVAL, W, l, None)
        else
          match entry_of W c srcva with
          | None => (- E_INVAL, W, l, None)
          | Some w =>
              if bits_set perm PTE_W && bits_set w PTE_W then
                match as_insert W l t te.(env_ipc_dstva) (pte_page w) perm with
                | None => (- E_NO_MEM, W, l, None)
                | Some (W', l') => (0, W', l', Some perm)
                end
              else (- E_INVAL, W, l, None)
          end
      else (0, W, l, Some 0)
  end.

(** The same for the receiver an identifier names; the receiver comes with the permission. *)
Definition as_ipc_try_send (es : gmap Z Env) (c : Z) (W : gmap Z aspace) (l : list Z)
    (envid srcva perm : Z) : Z * gmap Z aspace * list Z * option (Z * Z) :=
  match resolve es (Some c) envid false with
  | None => (- E_BAD_ENV, W, l, None)
  | Some t => let '(r, W', l', d) := as_ipc_send es c W l t srcva perm in (r, W', l', pair t <$> d)
  end.

(** The receiver after the message [value] from [from] has been delivered. *)
Definition delivered (value from perm : Z) (te : Env) : Env :=
  set_env_tf (set_eax 0 te.(env_tf))
    (set_env_status ENV_RUNNABLE
       (set_env_ipc_msg value from perm (set_env_ipc_wait false te.(env_ipc_dstva) te))).

Section Send.
Context {Mach : Machine} (cpu : Z).
Hypothesis uninit_nonzero : forall pgdir va, uninit_ptep pgdir va <> 0.
Variables (s : kern) (W : gmap Z aspace) (l fl : list Z) (ci : CpuInfo) (c : Z).
Hypothesis Hwf : kern_wf s W l fl.
Hypothesis Hc : caller cpu s W ci c.
Hypothesis Hov : forall p, 0 <= p < s.(pm).(npages) -> refs W p + 1 < 2 ^ 16.

(** The transfer of the page, or of none, to receiver [t]. *)
Lemma ipc_transfer_ok t te srcva perm :
  is_Some (W !! t) -> s.(envs) !! t = Some te -> te.(env_ipc_recving) = true ->
  0 <= te.(env_ipc_dstva) -> 0 <= srcva -> 0 <= perm < 2 ^ 32 ->
  (srcva <? UTOP) && negb (srcva mod PGSIZE =? 0) = false ->
  let '(r, W', l', d) := as_ipc_send s.(envs) c W l t srcva perm in
  match d with
  | None => r <> 0 /\ W' = W /\ l' = l /\ ipc_transfer c t srcva perm s = Ret r s
  | Some pr => r = 0 /\ exists p', ipc_transfer c t srcva perm s =
        Ret 0 (set_envs (<[t := set_env_ipc_msg te.(env_ipc_value) te.(env_ipc_from) pr te]> s.(envs)) (set_pm p' s)) /\
      kern_wf (set_pm p' s) W' l' fl
  end.
Proof.
  intros [b HWt] Ht Hrec Hdv Hsv Hperm Hal. unfold as_ipc_send, ipc_transfer. rewrite Ht, Hrec, Hal. cbn [negb].
  destruct ((te.(env_ipc_dstva) <? UTOP) && (srcva <? UTOP)) eqn:Elt.
  2:{ split; [done|]. exists s.(pm). rewrite set_pm_id. split; [|exact Hwf].
    mstep (by apply get_env_some). rewrite Elt. mstep (by apply upd_env_some). done. }
  pose proof Elt as [Hd%Z.ltb_lt Hs%Z.ltb_lt]%andb_true_iff.
  destruct (bad_perm perm) eqn:Ebp.
  { split; [done|]. split; [done|]. split; [done|]. mstep (by apply get_env_some). by rewrite Elt. }
  apply bad_perm_false in Ebp as (Hp & _ & HU); [|done].
  destruct (ca_live _ _ _ _ _ Hc) as [a HWc].
  destruct (proj2 (kw_dom _ _ _ _ Hwf c) (kw_spaces _ _ _ _ Hwf c a HWc)) as [ce Hce].
  assert (ce.(env_pgdir) = page_kva a.(as_dir)) as Hpc
    by (pose proof (kw_space _ _ _ _ Hwf c ce Hce) as Hx; rewrite HWc in Hx; apply Hx).
  assert (te.(env_pgdir) = page_kva b.(as_dir)) as Hpt
    by (pose proof (kw_space _ _ _ _ Hwf t te Ht) as Hx; rewrite HWt in Hx; apply Hx).
  pose proof (lookup_entry uninit_nonzero s W l fl Hwf c a srcva HWc ltac:(lia)) as Hlk. rewrite <- Hpc in Hlk.
  destruct (entry_of W c srcva) as [w|].
  2:{ split; [done|]. split; [done|]. split; [done|]. mstep (by apply get_env_some). rewrite Elt.
    mstep (by apply get_env_some). mstep (apply on_pm_pure; exact Hlk). done. }
  destruct Hlk as (Hpp & Hl & Ho & Hr0 & pte & Hlk & Hld).
  assert ((if nonzero (Z.land perm PTE_W) then
      let* w := on_pm (kload32 pte) in ret (nonzero (Z.land w PTE_W)) else ret false) s =
    Ret (bits_set perm PTE_W && bits_set w PTE_W) s) as Hallow.
  { rewrite bit_W. destruct (bits_set perm PTE_W); [|done].
    mstep (apply on_pm_pure; exact Hld). by rewrite bit_W. }
  pose proof (insert_shared uninit_nonzero s W l fl Hwf t b (pte_page w) te.(env_ipc_dstva) perm
    HWt ltac:(lia) Hp HU Hpp Hl Ho Hr0 (Hov _ Hpp)) as Hins. rewrite <- Hpt in Hins.
  destruct (bits_set perm PTE_W && bits_set w PTE_W).
  2:{ split; [done|]. split; [done|]. split; [done|]. mstep (by apply get_env_some). rewrite Elt.
    mstep (by apply get_env_some). mstep (apply on_pm_pure; exact Hlk). mstep (exact Hallow). done. }
  destruct (as_insert W l t te.(env_ipc_dstva) (pte_page w) perm) as [[W' l']|].
  - destruct Hins as (p' & Hrun & Hk & _). split; [done|]. exists p'. split; [|exact Hk].
    mstep (by apply get_env_some). rewrite Elt. mstep (by apply get_env_some).
    mstep (apply on_pm_pure; exact Hlk). mstep (exact Hallow).
    mstep (apply (on_pm_ret (page_insert _ _ _ _)); exact Hrun). change (0 <? 0) with false. cbv iota.
    mstep (by apply upd_env_some). done.
  - split; [done|]. split; [done|]. split; [done|]. mstep (by apply get_env_some). rewrite Elt.
    mstep (by apply get_env_some). mstep (apply on_pm_pure; exact Hlk). mstep (exact Hallow).
    mstep (apply on_pm_pure; exact Hins). done.
Qed.

Lemma sys_ipc_try_send_does envid value srcva perm t te ce :
  resolve s.(envs) (Some c) envid false = Some t -> s.(envs) !! t = Some te -> s.(envs) !! c = Some ce ->
  0 <= te.(env_ipc_dstva) -> 0 <= srcva -> 0 <= perm < 2 ^ 32 ->
  let '(r, W', l', d) := as_ipc_send s.(envs) c W l t srcva perm in
  exists p', (d = None -> p' = s.(pm)) /\
    let s' := set_envs (match d with
                        | None => s.(envs)
                        | Some pr => <[t := delivered value ce.(env_id) pr te]> s.(envs)
                        end) (set_pm p' s) in
    sys_ipc_try_send cpu envid value srcva perm s = Ret r s' /\ kern_wf s' W' l' fl.
Proof.
  intros Hr Ht Hce Hdv Hsv Hperm.
  pose proof (caller_resolve cpu s W l fl ci c envid false Hwf Hc) as Hres. rewrite Hr in Hres.
  destruct (resolve_live s W l fl c envid false t Hwf (ca_live _ _ _ _ _ Hc) Hr) as (b & te' & HWt & Ht' & Hst & _).
  replace te' with te in * by congruence.
  assert (forall r, sys_ipc_try_send cpu envid value srcva perm s = Ret r s ->
    exists p', (@None Z = None -> p' = s.(pm)) /\ let s' := set_envs s.(envs) (set_pm p' s) in sys_ipc_try_send cpu envid value srcva perm s = Ret r s' /\ kern_wf s' W l fl)
    as Hsame by (intros r Hrun; exists s.(pm); rewrite set_pm_id; destruct s; by split).
  pose proof (ipc_transfer_ok t te srcva perm ltac:(eauto) Ht) as Htr. unfold as_ipc_send in *. rewrite Ht in *.
  destruct (te.(env_ipc_recving)) eqn:Hrec; cbn [negb] in *.
  2:{ apply Hsame. unfold sys_ipc_try_send. resolved Hres. mstep (by apply get_env_some). by rewrite Hrec. }
  destruct ((srcva <? UTOP) && negb (srcva mod PGSIZE =? 0)) eqn:Hal.
  { apply Hsame. unfold sys_ipc_try_send. resolved Hres. mstep (by apply get_env_some). by rewrite Hrec, Hal. }
  specialize (Htr eq_refl Hdv Hsv Hperm eq_refl).
  destruct (if _ && _ then _ else _) as [[[r W'] l'] d]. destruct d as [pr|].
  - destruct Htr as (-> & p' & Hrun & Hk).
    set (te1 := set_env_ipc_msg te.(env_ipc_value) te.(env_ipc_from) pr te) in *.
    assert (exists ce1, <[t := te1]> s.(envs) !! c = Some ce1 /\ ce1.(env_id) = ce.(env_id)) as (ce1 & Hce1 & Hid).
    { destruct (decide (t = c)) as [->|]; [|rewrite lookup_insert_ne by done; eauto].
      rewrite lookup_insert_eq. exists te1. split; [done|]. simpl. congruence. }
    exists p'. split; [done|]. split.
    + unfold sys_ipc_try_send. resolved Hres. mstep (by apply get_env_some). rewrite Hrec, Hal. cbn [negb].
      mstep (by apply (cur_some cpu s W ci)). mstep (exact Hrun). cbn [Z.eqb negb].
      mstep (apply get_env_some; exact Hce1). mstep (apply upd_env_some, lookup_insert_eq).
      rewrite Hid. unfold ret, set_envs. simpl. by rewrite insert_insert_eq.
    + by apply (kw_upd_env (set_pm p' s) _ _ _ t te).
  - destruct Htr as (Hr0 & -> & -> & Hrun). apply Hsame. unfold sys_ipc_try_send. resolved Hres.
    mstep (by apply get_env_some). rewrite Hrec, Hal. cbn [negb].
    mstep (by apply (cur_some cpu s W ci)). mstep (exact Hrun). by rewrite (proj2 (Z.eqb_neq _ _)).
Qed.
End Send.
