(* ===== verification/SysEnv.v ===== *)
(** The system calls on environments ([kern/syscall.c]) under the kernel's invariant:
    [sys_exofork], [sys_env_set_status] and [sys_env_set_pgfault_upcall]. *)

From S2P Require Import Prelude Mmu Mem Console E1000 Pmap PmapBoot Env Sched Syscall.
From S2P Require Import PmapAlloc PmapVm PmapRefs EnvMem EnvSetup KernInv SysMem SysIpc.

(** The child [sys_exofork] makes of a fresh environment. *)
Definition forked (ce e : Env) : Env :=
  set_env_tf (set_eax 0 ce.(env_tf)) (set_env_status ENV_NOT_RUNNABLE e).

(** What [sys_exofork] did when it made environment [i], with directory page [x], for [ce]. *)
Record exoforked (s s' : kern) (W : gmap Z aspace) (l' fl' : list Z) (ce e' : Env) (i x : Z) : Prop := {
  ef_envs : s'.(envs) = <[i := e']> s.(envs);
  ef_cpus : s'.(cpus) = s.(cpus);
  ef_lock : s'.(kernel_lock) = s.(kernel_lock);
  ef_recv : e'.(env_ipc_recving) = false;
  ef_mem : vm_frame (fun q => q = x) s.(pm) s'.(pm);
  ef_wf : kern_wf s' (<[i := empty_space x]> W) l' fl';
  ef_fresh : W !! i = None;
  ef_tf : e'.(env_tf) = set_eax 0 ce.(env_tf);
  ef_status : e'.(env_status) = ENV_NOT_RUNNABLE;
  ef_parent : e'.(env_parent_id) = ce.(env_id);
  ef_id : 0 < e'.(env_id) < 2 ^ 31;
  ef_slot : ENVX e'.(env_id) = i;
  ef_cons : s'.(cons) = s.(cons);
}.

Lemma sys_exofork_ok cpu s W l fl ci c ce :
  kern_wf s W l fl -> caller cpu s W ci c -> s.(envs) !! c = Some ce ->
  match fl, l with
  | [], _ => sys_exofork cpu s = Ret (- E_NO_FREE_ENV) s
  | _ :: _, [] => sys_exofork cpu s = Ret (- E_NO_MEM) s
  | i :: fl', x :: l' => exists e' s', sys_exofork cpu s = Ret e'.(env_id) s' /\ exoforked s s' W l' fl' ce e' i x
  end.
Proof.
  intros Hwf Hc Hce. pose proof (env_alloc_ok s W l fl ce.(env_id) Hwf) as H. unfold sys_exofork.
  destruct fl as [|i fl]; [mstep (by apply (cur_some cpu s W ci)); mstep (by apply get_env_some); by mstep (exact H)|].
  destruct l as [|x l]; [mstep (by apply (cur_some cpu s W ci)); mstep (by apply get_env_some); by mstep (exact H)|].
  destruct H as (e & p' & Hi & Hrun & Hwf' & Hf & _).
  assert (W !! i = None) as HWi.
  { pose proof (kw_space _ _ _ _ Hwf i e Hi) as Hsp. destruct (W !! i); [|done]. destruct Hsp as [Hst _].
    exfalso. apply Hst, (kw_free _ _ _ _ Hwf i e Hi). left. }
  assert (i <> c) as Hne by (intros ->; destruct (ca_live _ _ _ _ _ Hc); congruence).
  assert (0 <= i < 1024) as Hir by (apply (kw_dom _ _ _ _ Hwf); eauto).
  destruct (next_id_ok i e.(env_id) Hir (kw_id _ _ _ _ Hwf i e Hi)) as (g & Hg & Hid).
  set (ne := new_env i ce.(env_id) (set_env_pgdir (page_kva x) e)) in *.
  set (s1 := with_env i ne e.(env_link) p' s) in *.
  assert (s1.(envs) !! i = Some ne) as Hi1 by apply lookup_insert_eq.
  exists (forked ce ne), (set_envs (<[i := forked ce ne]> s1.(envs)) s1). split.
  - mstep (by apply (cur_some cpu s W ci)). mstep (by apply get_env_some). mstep (exact Hrun).
    mstep (by apply upd_env_some).
    mstep (apply (get_env_some _ c ce); simpl; by rewrite !lookup_insert_ne by done).
    mstep (apply upd_env_some, lookup_insert_eq).
    mstep (apply get_env_some, lookup_insert_eq). unfold ret, set_envs. simpl. by rewrite !insert_insert_eq.
  - split; try done.
    + simpl. by rewrite insert_insert_eq.
    + by apply (kw_upd_env s1 _ _ _ i ne).
    + simpl. rewrite Hid. lia.
    + simpl. rewrite Hid. by apply gen_ENVX.
Qed.

(** The child is within its parent's authority. *)
Lemma exoforked_resolve s s' W l' fl' c ce e' i x chk :
  exoforked s s' W l' fl' ce e' i x -> s.(envs) !! c = Some ce -> is_Some (W !! c) ->
  resolve s'.(envs) (Some c) e'.(env_id) chk = Some i.
Proof.
  intros H Hce [a Ha]. pose proof (ef_id _ _ _ _ _ _ _ _ _ H) as Hid. pose proof (ef_fresh _ _ _ _ _ _ _ _ _ H) as Hf.
  assert (c <> i) as Hne by congruence. unfold resolve. rewrite (proj2 (Z.eqb_neq _ _)) by lia.
  rewrite (ef_slot _ _ _ _ _ _ _ _ _ H), (ef_envs _ _ _ _ _ _ _ _ _ H), lookup_insert_eq.
  rewrite (ef_status _ _ _ _ _ _ _ _ _ H), Z.eqb_refl. change (ENV_NOT_RUNNABLE =? ENV_FREE) with false. cbn [orb negb].
  rewrite bool_decide_eq_false_2 by congruence. simpl. rewrite lookup_insert_ne, Hce by done.
  rewrite (ef_parent _ _ _ _ _ _ _ _ _ H), Z.eqb_refl. by destruct chk.
Qed.

Section Setters.
Context {Mach : Machine} (cpu : Z).
Variables (s : kern) (W : gmap Z aspace) (l fl : list Z) (ci : CpuInfo) (c : Z).
Hypothesis Hwf : kern_wf s W l fl.
Hypothesis Hc : caller cpu s W ci c.

Lemma set_upcall_ok envid i e func :
  resolve s.(envs) (Some c) envid true = Some i -> s.(envs) !! i = Some e ->
  let s' := set_envs (<[i := set_env_upcall func e]> s.(envs)) s in
  sys_env_set_pgfault_upcall cpu envid func s = Ret 0 s' /\ kern_wf s' W l fl.
Proof.
  intros Hr Hi s'. pose proof (caller_resolve cpu s W l fl ci c envid true Hwf Hc) as Hres. rewrite Hr in Hres.
  destruct (resolve_live s W l fl c envid true i Hwf (ca_live _ _ _ _ _ Hc) Hr) as (a & e' & _ & Hi' & Hst & _).
  replace e' with e in * by congruence. split; [|by apply (kw_upd_env s W l fl i e)].
  unfold sys_env_set_pgfault_upcall. mstep (exact Hres). change (0 =? 0) with true. cbv iota. by mstep (by apply upd_env_some).
Qed.

Lemma set_status_ok envid i e status :
  resolve s.(envs) (Some c) envid true = Some i -> s.(envs) !! i = Some e ->
  status = ENV_RUNNABLE \/ status = ENV_NOT_RUNNABLE ->
  let s' := set_envs (<[i := set_env_status status e]> s.(envs)) s in
  sys_env_set_status cpu envid status s = Ret 0 s' /\ kern_wf s' W l fl.
Proof.
  intros Hr Hi Hs s'. pose proof (caller_resolve cpu s W l fl ci c envid true Hwf Hc) as Hres. rewrite Hr in Hres.
  destruct (resolve_live s W l fl c envid true i Hwf (ca_live _ _ _ _ _ Hc) Hr) as (a & e' & _ & Hi' & Hst & _).
  replace e' with e in * by congruence.
  split; [|apply (kw_upd_env s W l fl i e); try done; simpl; by destruct Hs as [-> | ->]].
  unfold sys_env_set_status. replace (negb _) with false by (by destruct Hs as [-> | ->]).
  mstep (exact Hres). change (0 =? 0) with true. cbv iota. by mstep (by apply upd_env_some).
Qed.
End Setters.
