(* ===== verification/Demo.v ===== *)
(** A small machine with one address space, used to instantiate theorems: six
    pages, of which page 1 is a page directory that maps itself at [UVPT], page 3 a page table, page 2 is
    mapped at [0x400000], and pages 4 and 5 are free. *)

From S2P Require Import Prelude Mmu Mem Pmap PmapAlloc PmapVm PmapRefs UserRep.

#[global] Instance demo_machine : Machine := {|
  sym_end := KERNBASE + 0x170000;
  sym_bootstack := KERNBASE + 0x108000;
  sym_percpu_kstacks := fun i => KERNBASE + 0x120000 + i * 0x8000;
  cmos := fun _ => 0;
  uninit_ptep := fun _ _ => 1;
|}.

Lemma demo_uninit pgdir va : uninit_ptep pgdir va <> 0.
Proof. done. Qed.

Definition demo_va : Z := 0x400000.

Definition demo_pages : gmap Z PageInfo :=
  <[0 := mkPageInfo None 0]> (<[1 := mkPageInfo None 1]> (<[2 := mkPageInfo None 1]>
  (<[3 := mkPageInfo None 1]> (<[4 := mkPageInfo (Some 5) 0]> (<[5 := mkPageInfo None 0]> ∅))))).

Definition demo_mem : mem :=
  st32 (st32 (st32 ∅ (1 * PGSIZE + 4 * 957) (mkpte 1 5)) (1 * PGSIZE + 4 * 1) (mkpte 3 7)) (3 * PGSIZE + 4 * 0) (mkpte 2 7).

Definition demo : pmap := {|
  npages := 6; npages_basemem := 6; nextfree := KERNBASE + 0x111000;
  kern_pgdir := page_kva 0; pages_va := KERNBASE + 0x110000; pages := demo_pages;
  envs_va := KERNBASE + 0x110100; page_free_list := Some 4; pmem := demo_mem;
  mmio_base := 0xef800000; user_mem_check_addr := 0; invlpgs := [];
|}.

Definition demo_space : aspace := mkAspace user_slots 1 {[1 := 3]} {[1024 := mkpte 2 7]}.
Definition demo_world : gmap Z aspace := {[0 := demo_space]}.

Lemma demo_pages_dom i : is_Some (demo_pages !! i) <-> 0 <= i < 6.
Proof.
  unfold demo_pages. rewrite !lookup_insert_is_Some', lookup_empty. split.
  - intros H. destruct H as [?|[?|[?|[?|[?|[?|[]]]]]]]; [lia..|done].
  - intros H. lia.
Qed.

Lemma demo_pages_cases i pi :
  demo_pages !! i = Some pi ->
  In (i, pi) [(0, mkPageInfo None 0); (1, mkPageInfo None 1); (2, mkPageInfo None 1);
              (3, mkPageInfo None 1); (4, mkPageInfo (Some 5) 0); (5, mkPageInfo None 0)].
Proof.
  intros H. assert (0 <= i < 6) as Hi by (apply demo_pages_dom; eauto).
  assert (i = 0 \/ i = 1 \/ i = 2 \/ i = 3 \/ i = 4 \/ i = 5) as Hc by lia.
  destruct Hc as [->|[->|[->|[->|[->| ->]]]]]; injection H as <-; simpl; auto 10.
Qed.

Lemma demo_alloc : alloc_wf demo [4; 5].
Proof.
  split.
  - split; [done|]. eexists. split; [reflexivity|]. split; [done|]. by eexists.
  - repeat constructor; set_solver.
  - intros x pi Hx Hpi. apply demo_pages_cases in Hpi.
    repeat destruct Hpi as [[= <- <-]|Hpi]; try done; set_solver.
  - apply demo_pages_dom.
  - done.
  - intros i pi Hpi. apply demo_pages_cases in Hpi.
    repeat destruct Hpi as [[= <- <-]|Hpi]; try done; simpl; lia.
  - intros i pi Hpi Hi. apply demo_pages_cases in Hpi.
    repeat destruct Hpi as [[= <- <-]|Hpi]; try done; set_solver.
Qed.

Lemma demo_words p i :
  0 <= i < 1024 ->
  ld32 demo_mem (p * PGSIZE + 4 * i) =
    if (3 =? p) && (0 =? i) then mkpte 2 7 else if (1 =? p) && (1 =? i) then mkpte 3 7
    else if (1 =? p) && (957 =? i) then mkpte 1 5 else 0.
Proof.
  intros Hi. unfold demo_mem. rewrite !ld32_st32_page by lia.
  rewrite ld32_zero by (intros; apply ld8_empty). done.
Qed.

Lemma demo_rep : vm_rep demo demo_space.
Proof.
  split; simpl.
  - lia.
  - lia.
  - intros d Hd. by apply user_slots_range in Hd.
  - intros d Hd. rewrite demo_words by by apply user_slots_range.
    assert (d <> 957) by (intros ->; by vm_compute in Hd). rewrite (proj2 (Z.eqb_neq 957 d)) by lia.
    change (3 =? 1) with false. change (1 =? 1) with true. cbn [andb].
    destruct (Z.eqb_spec 1 d) as [<-|].
    + rewrite lookup_singleton_eq. by vm_compute.
    + rewrite lookup_singleton_ne by done. by rewrite ?andb_false_r.
  - intros d tp H. apply lookup_singleton_Some in H as [<- <-]. split; [done|lia].
  - intros d t tp H Ht. apply lookup_singleton_Some in H as [<- <-]. rewrite demo_words by lia.
    change (3 =? 3) with true. change (1 =? 3) with false. cbn [andb].
    destruct (Z.eqb_spec 0 t) as [<-|].
    + rewrite lookup_singleton_eq. by vm_compute.
    + by rewrite lookup_singleton_ne by lia.
  - intros v w H. apply lookup_singleton_Some in H as [<- <-]. by eexists.
  - intros d d' tp H1 H2. apply lookup_singleton_Some in H1 as [<- _].
    by apply lookup_singleton_Some in H2 as [<- _].
  - intros d H. by apply lookup_singleton_Some in H as [_ ?].
  - intros d t tp H Ht. apply lookup_singleton_Some in H as [<- <-]. rewrite demo_words by lia.
    change (3 =? 3) with true. change (1 =? 3) with false. cbn [andb].
    destruct (Z.eqb_spec 0 t) as [<-|]; [by rewrite lookup_singleton_eq|done].
Qed.

Lemma demo_user_rep : user_rep demo demo_space.
Proof.
  split; unfold pde; cbn [as_dir as_tabs as_maps demo_space demo pmem].
  - intros d [tp [<- _]%lookup_singleton_Some]. by rewrite demo_words by lia.
  - intros v w [_ <-]%lookup_singleton_Some. by vm_compute.
  - intros v w [<- _]%lookup_singleton_Some _. change (1024 / 1024) with 1. by rewrite demo_words by lia.
  - change (PDX UVPT) with 957. by rewrite demo_words by lia.
Qed.

Lemma demo_world_inv k a : demo_world !! k = Some a -> k = 0 /\ a = demo_space.
Proof. unfold demo_world. intros H%lookup_singleton_Some. naive_solver. Qed.

Lemma demo_owned p : owned demo_world p -> p = 1 \/ p = 3.
Proof.
  intros (k & a & Hk & Ho). apply demo_world_inv in Hk as [-> ->].
  destruct Ho as [->|[d Hd]]; [by left|].
  simpl in Hd. apply lookup_singleton_Some in Hd as [_ <-]. by right.
Qed.

Lemma demo_wf : vm_wf demo demo_world [4; 5] no_pend.
Proof.
  split.
  - apply demo_alloc.
  - intros k a Hk. apply demo_world_inv in Hk as [-> ->]. apply demo_rep.
  - intros k k' a a' p Hk Hk' _ _. apply demo_world_inv in Hk as [-> _].
    by apply demo_world_inv in Hk' as [-> _].
  - intros k a v w Hk Hv. apply demo_world_inv in Hk as [-> ->].
    simpl in Hv. apply lookup_singleton_Some in Hv as [<- <-]. split; [vm_compute; by split|].
    intros Ho%demo_owned. vm_compute in Ho. by destruct Ho.
  - intros p pi Hpi. apply demo_pages_cases in Hpi.
    repeat destruct Hpi as [[= <- <-]|Hpi]; try done; reflexivity.
Qed.
