(* ===== verification/DemoKern.v ===== *)
(** A small kernel state, used to instantiate theorems: the memory of [Demo], with
    environment 0 running on CPU 0 in the address space of [Demo] and every other
    environment free. *)

From S2P Require Import Prelude Mmu Mem Console E1000 Pmap PmapBoot Env.
From S2P Require Import PmapAlloc PmapVm PmapRefs KernInv SysMem Demo.

Definition demo_env (i : Z) : Env :=
  if i =? 0 then mkEnv new_tf None 0x1000 0 0 ENV_RUNNING 1 0 (page_kva 1) 0x800000 false 0 0 0 0
  else mkEnv new_tf (if i =? 1023 then None else Some (i + 1)) 0 0 0 ENV_FREE 0 0 0 0 false 0 0 0 0.

Definition demo_envs : gmap Z Env := list_to_map ((fun i => (i, demo_env i)) <$> seqZ 0 1024).

Definition demo_console : console :=
  mkConsole true [] [] 0 (replicate 512 0) 0 0 [] [] (replicate 2000 0) 0 0 false.

Definition demo_nic : nic := mkNic [] [] 0 0 0 0 0 0 0.

Definition demo_cpu : CpuInfo := mkCpu CPU_STARTED (Some 0) PGSIZE.

Definition demo_kern : kern := {|
  pm := demo; envs := demo_envs; env_free_list := Some 1; cpus := {[0 := demo_cpu]};
  kernel_lock := Some 0; ticks := 0; cons := demo_console; e1000 := demo_nic;
|}.

Lemma demo_envs_some i e : demo_envs !! i = Some e <-> 0 <= i < 1024 /\ e = demo_env i.
Proof.
  unfold demo_envs. rewrite <- elem_of_list_to_map.
  - rewrite list_elem_of_fmap. setoid_rewrite elem_of_seqZ. naive_solver.
  - rewrite <- list_fmap_compose. rewrite (list_fmap_ext _ id), list_fmap_id by done. apply NoDup_seqZ.
Qed.

Lemma demo_envs_lookup i : 0 <= i < 1024 -> demo_envs !! i = Some (demo_env i).
Proof. intros H. by apply demo_envs_some. Qed.

#[global] Opaque demo_envs.

Lemma demo_echain n i :
  0 < i -> i + Z.of_nat n = 1024 ->
  echain demo_envs (if i =? 1024 then None else Some i) (seqZ i (Z.of_nat n)).
Proof.
  revert i. induction n as [|n IH]; intros i Hi Hn.
  { by replace i with 1024 by lia. }
  rewrite seqZ_cons by lia. replace (Z.pred (Z.of_nat (S n))) with (Z.of_nat n) by lia.
  rewrite (proj2 (Z.eqb_neq _ _)) by lia. split; [done|].
  exists (demo_env i). split; [apply demo_envs_lookup; lia|].
  unfold demo_env. rewrite (proj2 (Z.eqb_neq i 0)) by lia. cbn [env_link].
  specialize (IH (i + 1) ltac:(lia) ltac:(lia)). unfold Z.succ.
  destruct (Z.eqb_spec i 1023) as [->|]; [done|]. by rewrite (proj2 (Z.eqb_neq _ _)) in IH by lia.
Qed.

Lemma demo_env_status i : (demo_env i).(env_status) = ENV_FREE <-> i <> 0.
Proof. unfold demo_env. destruct (Z.eqb_spec i 0); simpl; split; done. Qed.

Lemma demo_kern_wf : kern_wf demo_kern demo_world [4; 5] (seqZ 1 1023).
Proof.
  split; cbn [demo_kern pm envs env_free_list].
  - apply demo_wf.
  - intros i a Hi. by apply demo_world_inv in Hi as [-> ->].
  - intros i a Hi. apply demo_world_inv in Hi as [-> ->]. apply demo_user_rep.
  - intros i. split; [|intros Hi; rewrite demo_envs_lookup by done; eauto].
    intros [e He]. apply demo_envs_some in He as [He _]. exact He.
  - apply (demo_echain 1023 1); done.
  - apply NoDup_seqZ.
  - intros i e [Hi ->]%demo_envs_some. rewrite demo_env_status, elem_of_seqZ. lia.
  - intros i e [Hi ->]%demo_envs_some. unfold demo_world. destruct (decide (i = 0)) as [->|Hne].
    + rewrite lookup_singleton_eq. by split.
    + rewrite lookup_singleton_ne by done. by apply demo_env_status.
  - intros i a Hi. by apply demo_world_inv in Hi as [-> ->].
  - intros i e [Hi ->]%demo_envs_some. unfold demo_env. destruct (Z.eqb_spec i 0) as [->|]; [right|by left].
    by exists 1.
  - intros i e [Hi ->]%demo_envs_some. rewrite demo_env_status. intros Hn.
    replace i with 0 by lia. done.
  - exists 0. split; [done|]. split; [by vm_compute|]. intros [H|H]; [by vm_compute in H|set_solver].
Qed.

Lemma demo_caller : caller 0 demo_kern demo_world demo_cpu 0.
Proof. split; [done|done|by eexists]. Qed.

Lemma demo_refs p : refs demo_world p + 1 < 2 ^ 16.
Proof.
  assert (refs demo_world p = hits p 1 + (hits p 3 + 0) + (hits p 2 + 0) + 0) as ->; [reflexivity|].
  unfold hits. repeat case_match; lia.
Qed.
