(* ===== verification/UserMem.v ===== *)
(** [user_mem_check] of [kern/pmap.c]: what a check of a user range establishes
    about the address space, and what it establishes about arbitrary ranges. *)

From S2P Require Import Prelude Mmu Mem Pmap PmapAlloc PmapVm PmapRefs.

(** The page of address [x] is mapped with at least the bits [perm]. *)
Definition page_ok (a : aspace) (perm x : Z) : bool :=
  match a.(as_maps) !! PGNUM x with Some w => bits_set w perm | None => false end.

Lemma page_ok_same a perm x y :
  0 <= x < 2 ^ 32 -> 0 <= y < 2 ^ 32 -> x / PGSIZE = y / PGSIZE ->
  page_ok a perm x = page_ok a perm y.
Proof. intros Hx Hy H. unfold page_ok. by rewrite !PGNUM_div, H. Qed.

(** The address of the page after [x]. *)
Lemma next_page x :
  0 <= x < ULIM ->
  u32 (ROUNDDOWN x PGSIZE + PGSIZE) = (x / PGSIZE + 1) * PGSIZE.
Proof. intros H. rewrite ROUNDDOWN_spec by clia. rewrite u32_small; czdm. Qed.

Lemma bits_set_split w perm : bits_set w (Z.lor perm PTE_P) = bits_set w perm && bits_set w PTE_P.
Proof.
  unfold bits_set. apply eq_true_iff_eq. rewrite andb_true_iff, !Z.eqb_eq. split.
  - intros H. split; apply Z.bits_inj'; intros n Hn;
      apply (f_equal (fun z => Z.testbit z n)) in H; revert H;
      rewrite !Z.land_spec, Z.lor_spec;
      destruct (Z.testbit w n), (Z.testbit perm n), (Z.testbit PTE_P n); done.
  - intros [H1 H2]. by rewrite Z.land_lor_distr_r, H1, H2.
Qed.

(** One probe of the loop: the walk and the test of the entry agree with [page_ok]. *)
Lemma probe s a x perm :
  vm_rep s a -> covers a x ->
  bind (pgdir_walk (page_kva a.(as_dir)) x 0) (fun pte =>
    match pte with
    | None => ret false
    | Some p => bind (kload32 p) (fun w => ret (bits_set w (Z.lor perm PTE_P)))
    end) s = Ret (page_ok a perm x) s.
Proof.
  intros Hr Hx. unfold page_ok. destruct (a.(as_tabs) !! PDX x) as [tp|] eqn:Htp.
  - mstep (by apply (walk_found s a x 0 tp)). mstep (by apply (kload32_pte s a)).
    rewrite (maps_entry s a x tp) by done. unfold ret, entry. rewrite bits_set_split.
    destruct (bits_set _ PTE_P); by rewrite ?andb_true_r, ?andb_false_r.
  - mstep (by apply walk_absent). by rewrite (maps_no_table s a x).
Qed.

(** What the loop reports about the range from [x] up to [hi]. *)
Definition check_result (a : aspace) (perm x hi : Z) (s : pmap) (o : outcome pmap Z) : Prop :=
  (o = Ret 0 s /\ forall y, x <= y < hi -> page_ok a perm y = true) \/
  (exists b, x <= b < hi /\ o = Ret (- E_FAULT) (set_user_mem_check_addr b s) /\
    page_ok a perm b = false /\ forall y, x <= y < b -> page_ok a perm y = true).

Lemma bind_assoc_step {S A B C} (m : M S A) (f : A -> M S B) (g : B -> M S C) s b s' :
  bind m f s = Ret b s' -> bind m (fun x => bind (f x) g) s = g b s'.
Proof. unfold bind. destruct (m s); try done. intros ->. done. Qed.

Lemma check_loop_ok s a perm hi fuel x :
  vm_rep s a -> a.(as_slots) = user_slots -> 0 <= x -> hi <= UTOP -> hi mod PGSIZE = 0 -> x <= hi ->
  hi / PGSIZE - x / PGSIZE < Z.of_nat fuel ->
  check_result a perm x hi s
    (user_mem_check_loop fuel (page_kva a.(as_dir)) x hi (Z.lor perm PTE_P) s).
Proof.
  intros Hr Hus. revert x. induction fuel as [|fuel IH]; intros x Hx Hhi Hal Hle Hfuel; [czdm|].
  simpl. destruct (Z.ltb_spec x hi) as [Hlt|Hge].
  2:{ left. split; [done|]. intros y Hy. lia. }
  destruct (Z.leb_spec ULIM x); [clia|].
  rewrite (bind_assoc_step _ _ _ s _ s (probe s a x perm Hr (covers_user a x Hus ltac:(lia)))).
  destruct (page_ok a perm x) eqn:Hok.
  2:{ right. exists x. repeat split; try done; intros; lia. }
  rewrite next_page by lia.
  destruct (IH ((x / PGSIZE + 1) * PGSIZE)) as [[-> Hall]|(b & Hb & -> & Hbad & Hall)];
    try czdm.
  - left. split; [done|]. intros y Hy.
    destruct (decide ((x / PGSIZE + 1) * PGSIZE <= y)); [apply Hall; lia|].
    rewrite (page_ok_same a perm y x) by czdm. done.
  - right. exists b. repeat split; try done; try (clear IH Hall; czdm). intros y Hy.
    destruct (decide ((x / PGSIZE + 1) * PGSIZE <= y)); [apply Hall; lia|].
    rewrite (page_ok_same a perm y x) by czdm. done.
Qed.

Lemma ROUNDUP_page x :
  0 <= x -> x + PGSIZE - 1 < 2 ^ 32 ->
  x <= ROUNDUP x PGSIZE < x + PGSIZE /\ ROUNDUP x PGSIZE mod PGSIZE = 0.
Proof. intros H1 H2. apply ROUNDUP_spec; clia. Qed.

(** A checked range below [UTOP]. *)
Lemma user_mem_check_range s a va len perm :
  vm_rep s a -> a.(as_slots) = user_slots -> 0 <= va -> 0 < len -> va + len <= UTOP ->
  check_result a perm va (va + len) s
    (user_mem_check (page_kva a.(as_dir)) va len perm s).
Proof.
  intros Hr Hus Hva Hlen Htop. unfold user_mem_check.
  rewrite (u32_small (va + len)) by clia.
  destruct (ROUNDUP_page (va + len) ltac:(lia) ltac:(clia)) as [Hru Hal].
  set (hi := ROUNDUP (va + len) PGSIZE) in *.
  assert (hi <= UTOP) as Hhi by (clear -Hru Hal Htop; czdm).
  destruct (check_loop_ok s a perm hi (S (Z.to_nat (hi / PGSIZE - va / PGSIZE))) va)
    as [[-> Hall]|(b & Hb & -> & Hbad & Hall)]; try done; try lia.
  - left. split; [done|]. intros y Hy. apply Hall. lia.
  - right. exists b. repeat split; try done; try lia.
    destruct (decide (b < va + len)); [done|]. exfalso.
    assert (va + len - 1 < b /\ (va + len - 1) / PGSIZE = b / PGSIZE) as [? Hsame]
      by (clear -Hru Hal Hb n Hlen Hva; czdm).
    assert (page_ok a perm (va + len - 1) = true) as Hok by (apply Hall; lia).
    rewrite (page_ok_same _ _ _ b) in Hok by (done || clia). congruence.
Qed.
