(* ===== verification/PmapSpec.v ===== *)
(** What [kern/pmap.c] promises: the page allocator, the address-space operations, the
    kernel's own mappings and the check of user pointers. *)

From S2P Require Import Prelude Mmu Mem Pmap PmapAlloc PmapVm PmapRefs KernMap UserMem Demo.

(** ** Address spaces *)

(** C2: [page_insert] implements insertion into the abstract address space: in a machine
    whose reference counts and page tables are in order, mapping a page [pp] at [va] either
    reports [E_NO_MEM] and changes nothing (no page table and no free page), or returns 0,
    replaces whatever was mapped at [va], takes a free page for a missing table, gives the
    page it displaced back exactly when that was the last reference, flushes the TLB for a
    displaced mapping, adds the flags to the directory entry of [va] and to no other, and
    touches no memory but the page directory, its tables and pages that were free. *)
Theorem page_insert_refines {Mach : Machine} s W l k a va pp pi perm :
  (forall pgdir va, uninit_ptep pgdir va <> 0) ->
  vm_wf s W l no_pend -> W !! k = Some a -> covers a va -> 0 <= perm < PGSIZE ->
  s.(pages) !! pp = Some pi -> pi.(pp_ref) = refs W pp -> pi.(pp_ref) + 1 < 2 ^ 16 -> pp ∉ l -> ~ owned W pp ->
  match as_insert W l k va pp perm with
  | None => page_insert (page_kva a.(as_dir)) pp va perm s = Ret (- E_NO_MEM) s
  | Some (W', l') => exists s',
      page_insert (page_kva a.(as_dir)) pp va perm s = Ret 0 s' /\
      vm_wf s' W' l' no_pend /\ vm_frame (fun p => owns a p \/ p ∈ l) s s' /\
      s'.(invlpgs) = flushed a va s.(invlpgs) /\ pdes_grow s s' a va perm
  end.
Proof.
  intros Hu Hwf Hk Hc Hperm Hpi Hr Hov Hl Ho. apply page_insert_ok; try done; [| |lia].
  - apply (aw_dom _ _ (vw_alloc _ _ _ _ Hwf)). by exists pi.
  - intros pi' Hpi'. by simplify_eq.
Qed.

(** Page 2 mapped a second time, next to its first mapping. *)
Lemma page_insert_refines_witness :
  exists W' l' s', as_insert demo_world [4; 5] 0 (demo_va + PGSIZE) 2 7 = Some (W', l') /\
    page_insert (page_kva 1) 2 (demo_va + PGSIZE) 7 demo = Ret 0 s' /\ vm_wf s' W' l' no_pend.
Proof.
  assert (covers demo_space (demo_va + PGSIZE)) as Hc by by vm_compute.
  assert (2 ∉ [4; 5]) as Hn by (rewrite !elem_of_cons, elem_of_nil; lia).
  assert (~ owned demo_world 2) as Ho by (intros [?|?]%demo_owned; lia).
  pose proof (page_insert_refines demo demo_world [4; 5] 0 demo_space (demo_va + PGSIZE) 2 (mkPageInfo None 1) 7
    demo_uninit demo_wf eq_refl Hc ltac:(clia) eq_refl eq_refl ltac:(by vm_compute) Hn Ho) as H.
  assert (is_Some (as_insert demo_world [4; 5] 0 (demo_va + PGSIZE) 2 7)) as [[W' l'] E] by by eexists.
  rewrite E in H. destruct H as (s' & Hrun & Hwf & _). exists W', l', s'.
  split; [exact E|]. split; [exact Hrun|exact Hwf].
Defined.

(** [page_remove] unmaps: afterwards nothing is mapped at [va], every other mapping is
    as before, the page lost one reference and joined the free list exactly when that was
    its last, and the TLB entry is flushed; when nothing was mapped, nothing changes. *)
Theorem page_remove_refines {Mach : Machine} s W l k a va :
  (forall pgdir va, uninit_ptep pgdir va <> 0) ->
  vm_wf s W l no_pend -> W !! k = Some a -> covers a va ->
  exists s' l', page_remove (page_kva a.(as_dir)) va s = Ret tt s' /\
    vm_wf s' (<[k := without_map (PGNUM va) a]> W) l' no_pend /\
    vm_frame (owns a) s s' /\ s'.(invlpgs) = flushed a va s.(invlpgs) /\
    l' = match a.(as_maps) !! PGNUM va with
         | Some w => if refs W (pte_page w) =? 1 then pte_page w :: l else l
         | None => l
         end.
Proof.
  intros Hu Hwf Hk Hva. unfold flushed. destruct (a.(as_maps) !! PGNUM va) as [w|] eqn:Hm.
  - destruct (mapped_in_use _ _ _ _ _ _ _ _ Hwf ltac:(done) Hk Hm) as (pi & Hpi & _ & _).
    pose proof (maps_refs1 a _ w Hm) as Hm1. pose proof (refs_ge W k a (pte_page w) Hk) as Hm2.
    pose proof (vw_ref _ _ _ _ Hwf _ _ Hpi ltac:(unfold no_pend; lia)) as Hr. unfold no_pend in Hr. rewrite Z.add_0_r in Hr.
    destruct (remove_mapped Hu s W l no_pend k a va w pi Hwf ltac:(done) Hk Hva Hm Hpi)
      as (s' & Hrun & Hwf' & Hf & Ht & _). rewrite <- Hr. by exists s', (if pp_ref pi =? 1 then pte_page w :: l else l).
  - exists s, l. split; [by apply remove_unmapped; [apply (vw_rep _ _ _ _ Hwf k)|..]|].
    replace (without_map (PGNUM va) a) with a by (unfold without_map; rewrite delete_id by done; by destruct a).
    rewrite insert_id by done. split; [done|]. split; [apply vm_frame_refl|done].
Qed.

(** The only mapping of page 2 removed: the page becomes free. *)
Lemma page_remove_refines_witness :
  exists s', page_remove (page_kva 1) demo_va demo = Ret tt s' /\
    vm_wf s' (<[0 := without_map 1024 demo_space]> demo_world) [2; 4; 5] no_pend.
Proof.
  destruct (page_remove_refines demo demo_world [4; 5] 0 demo_space demo_va
    demo_uninit demo_wf eq_refl ltac:(by vm_compute)) as (s' & l' & Hrun & Hwf & _ & _ & Hl).
  exists s'. split; [exact Hrun|]. by rewrite Hl in Hwf.
Defined.

(** [page_lookup] tests the contents of [*pte_store] instead of [pte_store], so with a
    caller whose local happens to hold 0 the address of the entry is never stored:
    [page_remove] of a mapped page then drops the reference and writes through a null
    pointer. *)
Theorem page_remove_null_store {Mach : Machine} s W l k a va w :
  uninit_ptep (page_kva a.(as_dir)) va = 0 ->
  vm_wf s W l no_pend -> W !! k = Some a -> covers a va -> a.(as_maps) !! PGNUM va = Some w ->
  exists s', page_remove (page_kva a.(as_dir)) va s = Wild s'.
Proof.
  intros Hu Hwf Hk Hva Hm. destruct (vw_mapped _ _ _ _ Hwf k a _ w Hk Hm) as [Hp _].
  destruct (mapped_table _ _ _ _ _ _ _ _ Hwf Hk Hm) as [tp Htp]. rewrite (vpn_slot a) in Htp by done.
  destruct (mapped_in_use _ _ _ _ _ _ _ _ Hwf ltac:(done) Hk Hm) as (pi & Hpi & Hr & Hl).
  unfold page_remove.
  mstep (by apply (lookup_mapped s a va _ w tp); [apply (vw_rep _ _ _ _ Hwf k)|..]).
  rewrite Hu. cbn [nonzero Z.eqb negb].
  destruct (decide (pi.(pp_ref) = 1)) as [H1|H1].
  - destruct (page_decref_last s (pte_page w) pi l (vw_alloc _ _ _ _ Hwf) Hpi H1 Hl) as [Hd _].
    mstep (exact Hd). by eexists.
  - destruct (page_decref_many s (pte_page w) pi l (vw_alloc _ _ _ _ Hwf) Hpi ltac:(lia) Hl) as [Hd _].
    mstep (exact Hd). by eexists.
Qed.

(** The machine of [Demo], with zeroes on the stack. *)
Definition zero_stack : Machine := {|
  sym_end := @sym_end demo_machine; sym_bootstack := @sym_bootstack demo_machine;
  sym_percpu_kstacks := @sym_percpu_kstacks demo_machine; cmos := @cmos demo_machine;
  uninit_ptep := fun _ _ => 0;
|}.

Lemma page_remove_null_store_witness :
  exists s', @page_remove zero_stack (page_kva 1) demo_va demo = Wild s'.
Proof.
  exact (@page_remove_null_store zero_stack demo demo_world [4; 5] 0 demo_space demo_va (mkpte 2 7)
    eq_refl demo_wf eq_refl ltac:(by vm_compute) eq_refl).
Defined.

(** ** The page allocator *)

(** [page_alloc(ALLOC_ZERO)] hands out the head of the free list, cleared and with no
    references and no link, changes no other memory, and returns null exactly on an empty
    list. *)
Theorem page_alloc_zeroes s l :
  alloc_wf s l ->
  match l with
  | [] => page_alloc ALLOC_ZERO s = Ret None s
  | x :: l => exists s', page_alloc ALLOC_ZERO s = Ret (Some x) s' /\ alloc_wf s' l /\
      s'.(pages) !! x = Some (mkPageInfo None 0) /\
      forall b, ld8 s'.(pmem) b = if b / PGSIZE =? x then 0 else ld8 s.(pmem) b
  end.
Proof.
  intros Hwf. destruct l as [|x l]; [by apply page_alloc_empty|].
  destruct (page_alloc_pop ALLOC_ZERO s x l Hwf) as [Hrun Hwf'].
  eexists. split; [exact Hrun|]. split; [exact Hwf'|]. split; [apply lookup_insert_eq|].
  intros b. unfold allocated. simpl. rewrite ld8_zero_page.
  assert ((x * PGSIZE <=? b) && (b <? x * PGSIZE + PGSIZE) = (b / PGSIZE =? x)) as ->; [|done].
  apply eq_true_iff_eq. rewrite andb_true_iff, Z.leb_le, Z.ltb_lt, Z.eqb_eq. clear. consts. split; intros; zdm.
Qed.

Lemma page_alloc_zeroes_witness :
  exists s', page_alloc ALLOC_ZERO demo = Ret (Some 4) s' /\ alloc_wf s' [5].
Proof.
  destruct (page_alloc_zeroes demo [4; 5] demo_alloc) as (s' & Hrun & Hwf & _).
  exists s'. split; [exact Hrun|exact Hwf].
Defined.

(** A page freed is the next one allocated: [page_free] of an unreferenced page in use
    followed by [page_alloc] returns that page, and the free list is what it was. *)
Theorem page_free_alloc s l x pi flags :
  alloc_wf s l -> s.(pages) !! x = Some pi -> pi.(pp_ref) = 0 -> x ∉ l ->
  exists s', (page_free x ;;; page_alloc flags) s = Ret (Some x) s' /\ alloc_wf s' l.
Proof.
  intros Hwf Hpi Hr Hx. destruct (page_free_push s x pi l Hwf Hpi Hr Hx) as [Hf Hwf1].
  destruct (page_alloc_pop flags _ x l Hwf1) as [Ha Hwf2].
  eexists. split; [mstep (exact Hf); exact Ha|exact Hwf2].
Qed.

Lemma page_free_alloc_witness :
  exists s', (page_free 0 ;;; page_alloc 0) demo = Ret (Some 0) s' /\ alloc_wf s' [4; 5].
Proof.
  apply (page_free_alloc demo [4; 5] 0 (mkPageInfo None 0) 0 demo_alloc eq_refl eq_refl).
  rewrite !elem_of_cons, elem_of_nil. lia.
Defined.

(** [page_free] recognises a page already on the free list by its link, and so misses
    the last one: freeing that page again succeeds and leaves a list that never ends. *)
Theorem page_free_tail_cycle s l x :
  alloc_wf s (l ++ [x]) ->
  exists s', page_free x s = Ret tt s' /\ forall l', ~ chain s'.(pages) s'.(page_free_list) l'.
Proof.
  intros [Hc Hnd Hf _ _ _ _]. destruct (chain_last _ _ _ _ Hc) as (pi & Hpi & Hlk).
  assert (pi.(pp_ref) = 0) as Hr by (apply (Hf x); [apply elem_of_app; right; left|done]).
  exists (freed x s). split.
  { unfold page_free. mstep (by apply get_page_some). rewrite Hlk, Hr. simpl.
    munfold. by rewrite (set_link_some _ _ pi), Hr. }
  intros l' Hl'. simpl in Hl'. set (pg := <[x := _]> s.(pages)) in Hl'.
  assert (forall l2 h l3, x ∉ l2 -> chain s.(pages) h (l2 ++ [x]) -> chain pg h l3 ->
    exists l4, l3 = l2 ++ l4 /\ chain pg (Some x) l4) as Hfollow.
  { induction l2 as [|y l2 IH]; intros h l3 Hx H1 H2.
    - destruct H1 as [-> _]. by exists l3.
    - apply not_elem_of_cons in Hx as [Hy Hx]. destruct H1 as (-> & q & Hq & H1).
      destruct l3 as [|z l3]; [done|]. destruct H2 as ([= <-] & q' & Hq' & H2).
      unfold pg in Hq'. rewrite lookup_insert_ne in Hq' by done. replace q' with q in H2 by congruence.
      destruct (IH _ l3 Hx H1 H2) as (l4 & -> & H4). by exists l4. }
  destruct l' as [|z l']; [done|]. pose proof Hl' as ([= <-] & q & Hq & Hrest).
  unfold pg in Hq. rewrite lookup_insert_eq in Hq. injection Hq as <-.
  apply NoDup_app in Hnd as (_ & Hnx & _).
  destruct (Hfollow l _ l' (fun H => Hnx x H (list_elem_of_here _ _)) Hc Hrest) as (l4 & -> & H4).
  pose proof (chain_functional _ _ _ _ Hl' H4) as E. apply (f_equal length) in E.
  simpl in E. rewrite length_app in E. lia.
Qed.

Lemma page_free_tail_cycle_witness :
  exists s', page_free 5 demo = Ret tt s' /\ forall l', ~ chain s'.(pages) s'.(page_free_list) l'.
Proof. exact (page_free_tail_cycle demo [4] 5 demo_alloc). Defined.

(** [page_init] builds the free list of exactly the pages that are neither page 0, nor in
    the I/O hole, nor used by the kernel and its boot-time allocations, nor the startup
    page of the other processors. *)
Theorem page_init_free_list {Mach : Machine} s :
  0 < s.(npages) <= 65536 -> KERNBASE < s.(nextfree) < 2 ^ 32 -> s.(page_free_list) = None ->
  (forall j, is_Some (s.(pages) !! j) <-> 0 <= j < s.(npages)) ->
  exists s' l, page_init s = Ret tt s' /\ alloc_wf s' l /\
    (forall x, x ∈ l <-> 0 <= x < s.(npages) /\ page_usable s.(nextfree) x = true) /\
    s'.(pmem) = s.(pmem).
Proof.
  intros Hn Hnf Hfl Hd. destruct (page_init_ok s Hn Hnf Hfl Hd) as (s' & Hrun & Hwf & Hs).
  exists s', (usable_below s.(nextfree) (Z.to_nat s.(npages))). split; [done|]. split; [done|]. split.
  - intros x. rewrite usable_below_elem, Z2Nat.id by lia. done.
  - by rewrite Hs.
Qed.

Lemma page_init_free_list_witness :
  exists s' l, page_init (set_page_free_list None demo) = Ret tt s' /\ alloc_wf s' l /\
    (forall x, x ∈ l <-> 0 <= x < 6 /\ page_usable (KERNBASE + 0x111000) x = true).
Proof.
  destruct (page_init_free_list (set_page_free_list None demo)) as (s' & l & H1 & H2 & H3 & _);
    [by vm_compute|by vm_compute|done|apply demo_pages_dom|].
  exists s', l. split; [exact H1|]. split; [exact H2|exact H3].
Defined.

(** ** The kernel's mappings *)

(** With enough free pages for the missing page tables, [boot_map_region] maps every page
    of [va, va + size) to the physical page at the same offset from [pa], with exactly the
    permissions asked for, and changes no other mapping. *)
Theorem boot_map_region_maps s a l va size pa perm :
  kvm s a l -> va mod PGSIZE = 0 -> 0 <= va -> 0 <= size -> va + size < 2 ^ 32 ->
  0 <= pa -> pa + size <= 2 ^ 32 -> size + PGSIZE <= 2 ^ 32 -> 0 <= perm < PGSIZE ->
  (forall x, va <= x < va + size -> covers a x) ->
  let n := Z.to_nat ((size + PGSIZE - 1) / PGSIZE) in
  (base.size (missing n (va / PGSIZE) a) <= length l)%nat ->
  exists s' a' l', boot_map_region (page_kva a.(as_dir)) va size pa perm s = Ret tt s' /\ kvm s' a' l' /\
    (forall i, (i < n)%nat -> a'.(as_maps) !! (va / PGSIZE + Z.of_nat i) =
       Some (Z.lor (Z.lor (pa + Z.of_nat i * PGSIZE) perm) PTE_P)) /\
    (forall u, u < va / PGSIZE \/ va / PGSIZE + Z.of_nat n <= u -> a'.(as_maps) !! u = a.(as_maps) !! u).
Proof.
  intros Hk Hal Hva Hs Hnw Hpa Hpa2 Hs2 Hp Hcov n Hm.
  destruct (boot_map_region_ok va size pa perm) with (s := s) (a := a) (l := l) as (s' & Hrun & Hk');
    try done; try (split; [|split]; done || lia).
  destruct (map_region_ok n (va / PGSIZE) pa perm a l Hm) as [H1 H2].
  by exists s', (map_region n (va / PGSIZE) pa perm (a, l)).1, (map_region n (va / PGSIZE) pa perm (a, l)).2.
Qed.

Lemma demo_kvm : kvm demo demo_space [4; 5].
Proof.
  split; [apply demo_rep|apply demo_alloc|]. intros p Hp Ho.
  assert (owned demo_world p) as [->| ->]%demo_owned by (exists 0, demo_space; done);
    revert Hp; rewrite !elem_of_cons, elem_of_nil; lia.
Qed.

Lemma boot_map_region_maps_witness :
  exists s' a' l', boot_map_region (page_kva 1) 0x800000 0x2000 0x3000 PTE_W demo = Ret tt s' /\
    kvm s' a' l' /\ a'.(as_maps) !! 0x801 = Some 0x4003.
Proof.
  destruct (boot_map_region_maps demo demo_space [4; 5] 0x800000 0x2000 0x3000 PTE_W demo_kvm)
    as (s' & a' & l' & Hrun & Hk & H1 & _);
    [done|lia|lia|lia|lia|lia|clia|clia|intros x Hx; apply covers_user; [done|clia]|vm_compute; lia|].
  exists s', a', l'. split; [exact Hrun|]. split; [exact Hk|]. apply (H1 1%nat). vm_compute. lia.
Defined.

(** ** User pointers *)

(** C18: [user_mem_check] on a non-empty range below [UTOP] answers 0 exactly when every page
    of the range is mapped with the permissions asked for; otherwise it answers
    [- E_FAULT] and records the first offending address in [user_mem_check_addr]. *)
Theorem user_mem_check_exact s a va len perm :
  vm_rep s a -> a.(as_slots) = user_slots -> 0 <= va -> 0 < len -> va + len <= UTOP ->
  (user_mem_check (page_kva a.(as_dir)) va len perm s = Ret 0 s /\
   forall y, va <= y < va + len -> page_ok a perm y = true) \/
  (exists b, va <= b < va + len /\
   user_mem_check (page_kva a.(as_dir)) va len perm s = Ret (- E_FAULT) (set_user_mem_check_addr b s) /\
   page_ok a perm b = false /\ forall y, va <= y < b -> page_ok a perm y = true).
Proof. apply user_mem_check_range. Qed.

Lemma user_mem_check_exact_witness :
  user_mem_check (page_kva 1) (demo_va + 4000) 200 PTE_U demo =
    Ret (- E_FAULT) (set_user_mem_check_addr (demo_va + PGSIZE) demo).
Proof.
  destruct (user_mem_check_exact demo demo_space (demo_va + 4000) 200 PTE_U demo_rep eq_refl
    ltac:(by vm_compute) ltac:(done) ltac:(by vm_compute)) as [[_ H]|(b & Hb & Hrun & Hbad & Hok)].
  - specialize (H (demo_va + PGSIZE) ltac:(by vm_compute)). by vm_compute in H.
  - assert (b = demo_va + PGSIZE) as <-; [|exact Hrun].
    assert (PGNUM (demo_va + PGSIZE) = 1025) as Hpg by done.
    destruct (Z.lt_trichotomy b (demo_va + PGSIZE)) as [Hlt|[->|Hgt]]; [|done|].
    + rewrite (page_ok_same _ _ _ demo_va) in Hbad by (revert Hb Hlt; unfold demo_va; consts; intros; zdm).
      by vm_compute in Hbad.
    + specialize (Hok (demo_va + PGSIZE) ltac:(revert Hgt; unfold demo_va; clia)). by vm_compute in Hok.
Defined.

(** The loop never passes the kernel's boundary. *)
Lemma check_loop_below fuel pgdir x hi perm s s' :
  0 <= x < hi -> user_mem_check_loop fuel pgdir x hi perm s = Ret 0 s' -> hi <= ULIM.
Proof.
  revert x s. induction fuel as [|fuel IH]; intros x s Hx H; [done|]. simpl in H.
  rewrite (proj2 (Z.ltb_lt _ _)) in H by lia.
  destruct (Z.leb_spec ULIM x) as [|Hlt]; [by apply bind_inv in H as (? & ? & _ & ?)|].
  apply bind_inv in H as (pte & s1 & _ & H). apply bind_inv in H as (ok & s2 & _ & H).
  destruct ok; [|by apply bind_inv in H as (? & ? & _ & ?)].
  rewrite next_page in H by lia.
  destruct (Z.lt_ge_cases ((x / PGSIZE + 1) * PGSIZE) hi) as [Hn|Hn].
  - apply (IH _ _) in H; [done|]. split; [clear -Hx; czdm|done].
  - etrans; [exact Hn|]. clear -Hlt Hx. czdm.
Qed.

(** Safety of [user_mem_check] for every range whose rounded-up end does not wrap around
    32 bits, whatever the page tables hold: a successful check means that the range ends
    below the kernel. *)
Theorem user_mem_check_no_kernel pgdir va len perm s s' :
  0 <= va -> 0 < len -> va + len + PGSIZE <= 2 ^ 32 ->
  user_mem_check pgdir va len perm s = Ret 0 s' -> va + len <= ULIM.
Proof.
  intros Hva Hlen Hw H. unfold user_mem_check in H. rewrite u32_small in H by clia.
  destruct (ROUNDUP_page (va + len) ltac:(lia) ltac:(lia)) as [Hru _].
  apply check_loop_below in H; lia.
Qed.

Lemma demo_check : user_mem_check (page_kva 1) demo_va 100 PTE_U demo = Ret 0 demo.
Proof.
  destruct (user_mem_check_range demo demo_space demo_va 100 PTE_U demo_rep eq_refl
    ltac:(by vm_compute) ltac:(done) ltac:(by vm_compute)) as [[H _]|(b & Hb & _ & Hbad & _)]; [exact H|].
  rewrite (page_ok_same _ _ _ demo_va) in Hbad by (revert Hb; unfold demo_va; consts; intros; zdm).
  by vm_compute in Hbad.
Qed.

Lemma user_mem_check_no_kernel_witness : demo_va + 100 <= ULIM.
Proof.
  apply (user_mem_check_no_kernel (page_kva 1) demo_va 100 PTE_U demo demo);
    [by vm_compute|done|by vm_compute|apply demo_check].
Defined.

(** A range whose end wraps around 32 bits passes the check without being looked at: with
    [va + len] beyond the address space [user_mem_check] answers 0 even for kernel
    addresses. *)
Theorem user_mem_check_wraps pgdir va len perm s :
  ROUNDUP (u32 (va + len)) PGSIZE <= va -> user_mem_check pgdir va len perm s = Ret 0 s.
Proof.
  intros H. unfold user_mem_check. simpl. by rewrite (proj2 (Z.ltb_ge _ _)) by done.
Qed.

(** The whole kernel, from its first page to the end of memory. *)
Lemma user_mem_check_wraps_witness :
  user_mem_check (page_kva 1) KERNBASE (2 ^ 32 - KERNBASE) PTE_W demo = Ret 0 demo.
Proof. apply user_mem_check_wraps. by vm_compute. Defined.
