(* ===== verification/KernSpec.v ===== *)
(** What the kernel promises its environments: the memory system calls of
    [kern/syscall.c], and the life of an environment in [kern/env.c]. *)

From S2P Require Import Prelude Mmu Mem Console E1000 Pmap PmapBoot Env Sched Syscall.
From S2P Require Import PmapAlloc PmapVm PmapRefs EnvMem EnvSetup KernInv SysMem SysIpc SysEnv Demo DemoKern.

(** ** Memory system calls *)

(** C15: [sys_page_alloc] implements its specification on every branch: the answer, the address
    spaces and the free pages afterwards are those of [as_page_alloc], the kernel's
    invariant holds again, only page tables and free pages were written, and the page a
    successful call maps is cleared. *)
Theorem sys_page_alloc_refines {Mach : Machine} cpu s W l fl ci c envid va perm :
  (forall pgdir va, uninit_ptep pgdir va <> 0) ->
  kern_wf s W l fl -> caller cpu s W ci c -> 0 <= va -> 0 <= perm < 2 ^ 32 ->
  exists r W' l' p', as_page_alloc s.(envs) c W l envid va perm = (r, W', l') /\
    sys_page_alloc cpu envid va perm s = Ret r (set_pm p' s) /\ kern_wf (set_pm p' s) W' l' fl /\
    vm_frame (fun p => owned W p \/ p ∈ l) s.(pm) p' /\
    (r = 0 -> forall x b, head l = Some x -> b / PGSIZE = x -> ld8 p'.(pmem) b = 0).
Proof.
  intros Hu Hwf Hc Hva Hp.
  pose proof (sys_page_alloc_does cpu Hu s W l fl ci c Hwf Hc envid va perm Hva Hp) as H.
  destruct (as_page_alloc _ _ _ _ _ _ _) as [[r W'] l']. destruct H as (p' & H). by exists r, W', l', p'.
Qed.

(** Environment 0 maps page 4 into itself. *)
Lemma sys_page_alloc_refines_witness :
  exists p' W' l', sys_page_alloc 0 0 (demo_va + PGSIZE) 7 demo_kern = Ret 0 (set_pm p' demo_kern) /\
    entry_of W' 0 (demo_va + PGSIZE) = Some (mkpte 4 7) /\ kern_wf (set_pm p' demo_kern) W' l' (seqZ 1 1023).
Proof.
  destruct (sys_page_alloc_refines 0 demo_kern demo_world [4; 5] (seqZ 1 1023) demo_cpu 0 0 (demo_va + PGSIZE) 7
    demo_uninit demo_kern_wf demo_caller ltac:(by vm_compute) ltac:(done))
    as (r & W' & l' & p' & Hspec & Hrun & Hk & _).
  exists p', W', l'. injection Hspec as <- <- <-. split; [exact Hrun|]. split; [done|exact Hk].
Defined.

(** C3: [sys_page_map] implements its specification on every branch, as long as no page has
    65535 references. *)
Theorem sys_page_map_refines {Mach : Machine} cpu s W l fl ci c srcenvid srcva dstenvid dstva perm :
  (forall pgdir va, uninit_ptep pgdir va <> 0) ->
  kern_wf s W l fl -> caller cpu s W ci c -> 0 <= srcva -> 0 <= dstva -> 0 <= perm < 2 ^ 32 ->
  (forall p, refs W p + 1 < 2 ^ 16) ->
  exists r W' l' p', as_page_map s.(envs) c W l srcenvid srcva dstenvid dstva perm = (r, W', l') /\
    sys_page_map cpu srcenvid srcva dstenvid dstva perm s = Ret r (set_pm p' s) /\
    kern_wf (set_pm p' s) W' l' fl /\ vm_frame (fun p => owned W p \/ p ∈ l) s.(pm) p'.
Proof.
  intros Hu Hwf Hc Hs Hd Hp Ho.
  pose proof (sys_page_map_does cpu Hu s W l fl ci c Hwf Hc srcenvid srcva dstenvid dstva perm Hs Hd Hp (fun _ _ _ _ => Ho _)) as H.
  destruct (as_page_map _ _ _ _ _ _ _ _ _) as [[r W'] l']. destruct H as (p' & H1 & H2 & H3 & _).
  by exists r, W', l', p'.
Qed.

(** Environment 0 shares its page with itself, read-only, at the next address. *)
Lemma sys_page_map_refines_witness :
  exists p' W' l', sys_page_map 0 0 demo_va 0 (demo_va + PGSIZE) 5 demo_kern = Ret 0 (set_pm p' demo_kern) /\
    entry_of W' 0 (demo_va + PGSIZE) = Some (mkpte 2 5) /\ kern_wf (set_pm p' demo_kern) W' l' (seqZ 1 1023).
Proof.
  destruct (sys_page_map_refines 0 demo_kern demo_world [4; 5] (seqZ 1 1023) demo_cpu 0 0 demo_va 0
    (demo_va + PGSIZE) 5 demo_uninit demo_kern_wf demo_caller ltac:(by vm_compute) ltac:(by vm_compute)
    ltac:(done) demo_refs) as (r & W' & l' & p' & Hspec & Hrun & Hk & _).
  exists p', W', l'. injection Hspec as <- <- <-. split; [exact Hrun|]. split; [done|exact Hk].
Defined.

(** [sys_page_unmap] implements its specification on every branch. *)
Theorem sys_page_unmap_refines {Mach : Machine} cpu s W l fl ci c envid va :
  (forall pgdir va, uninit_ptep pgdir va <> 0) ->
  kern_wf s W l fl -> caller cpu s W ci c -> 0 <= va ->
  exists r W' l' p', as_page_unmap s.(envs) c W l envid va = (r, W', l') /\
    sys_page_unmap cpu envid va s = Ret r (set_pm p' s) /\ kern_wf (set_pm p' s) W' l' fl /\
    vm_frame (fun p => owned W p \/ p ∈ l) s.(pm) p'.
Proof.
  intros Hu Hwf Hc Hva.
  pose proof (sys_page_unmap_does cpu Hu s W l fl ci c Hwf Hc envid va Hva) as H.
  destruct (as_page_unmap _ _ _ _ _ _) as [[r W'] l']. destruct H as (p' & H1 & H2 & H3 & _).
  by exists r, W', l', p'.
Qed.

Lemma sys_page_unmap_refines_witness :
  exists p' W', sys_page_unmap 0 0 demo_va demo_kern = Ret 0 (set_pm p' demo_kern) /\
    entry_of W' 0 demo_va = None /\ kern_wf (set_pm p' demo_kern) W' [2; 4; 5] (seqZ 1 1023).
Proof.
  destruct (sys_page_unmap_refines 0 demo_kern demo_world [4; 5] (seqZ 1 1023) demo_cpu 0 0 demo_va
    demo_uninit demo_kern_wf demo_caller ltac:(by vm_compute)) as (r & W' & l' & p' & Hspec & Hrun & Hk & _).
  exists p', W'. injection Hspec as <- <- <-. split; [exact Hrun|]. split; [done|exact Hk].
Defined.

(** The entry for virtual page [v] of environment [i]. *)
Definition mapping_at (W : gmap Z aspace) (i v : Z) : option Z := a ← W !! i; a.(as_maps) !! v.

Lemma bits_set_W x : bits_set x PTE_W = Z.testbit x 1.
Proof.
  rewrite <- bit_W. unfold nonzero. change PTE_W with (2 ^ 1). destruct (Z.testbit x 1) eqn:E.
  - apply negb_true_iff, Z.eqb_neq. intros H. apply (f_equal (fun z => Z.testbit z 1)) in H.
    rewrite Z.land_spec, E in H. done.
  - apply negb_false_iff, Z.eqb_eq. apply Z.bits_inj'. intros n Hn.
    rewrite Z.land_spec, Z.pow2_bits_eqb, Z.testbit_0_l by done.
    destruct (Z.eqb_spec 1 n) as [<-|]; [by rewrite E|apply andb_false_r].
Qed.

Lemma mkpte_W pp perm : 0 <= pp < 2 ^ 20 -> bits_set (mkpte pp perm) PTE_W = bits_set perm PTE_W.
Proof.
  intros Hpp. rewrite !bits_set_W. unfold mkpte. rewrite (page2pa_mul pp Hpp), !Z.lor_spec. change (Z.testbit PTE_P 1) with false.
  rewrite orb_false_r. change PGSIZE with (2 ^ 12). by rewrite Z.mul_pow2_bits_low by lia.
Qed.

(** What [as_insert] adds to the mappings. *)
Lemma as_insert_mappings W l k va pp perm W' l' i v w :
  as_insert W l k va pp perm = Some (W', l') -> mapping_at W' i v = Some w ->
  mapping_at W i v = Some w \/ i = k /\ v = PGNUM va /\ w = mkpte pp perm.
Proof.
  unfold as_insert, mapping_at. destruct (W !! k) as [a|] eqn:Hk; [|done].
  destruct (ensure_tab a l (PDX va)) as [[a1 l1]|] eqn:He; [|done]. intros [= <- <-].
  assert (a1.(as_maps) = a.(as_maps)) as Hm.
  { revert He. unfold ensure_tab. destruct (a.(as_tabs) !! PDX va); [by intros [= <- _]|].
    destruct l; [done|by intros [= <- _]]. }
  destruct (decide (i = k)) as [->|Hne].
  - rewrite lookup_insert_eq, Hk. simpl. rewrite Hm, lookup_insert_Some.
    intros [[<- <-]|[_ H]]; [by right|by left].
  - rewrite lookup_insert_ne by done. by left.
Qed.

(** C12: No system call of the map family escalates: whatever [sys_page_map] is asked, every
    mapping of every environment afterwards was there before, or shares the page that the
    source environment had mapped at [srcva], and is writable only if the source's mapping
    was; and the source is the caller or a child of the caller. *)
Theorem sys_page_map_no_escalation {Mach : Machine} cpu s W l fl ci c srcenvid srcva dstenvid dstva perm :
  (forall pgdir va, uninit_ptep pgdir va <> 0) ->
  kern_wf s W l fl -> caller cpu s W ci c -> 0 <= srcva -> 0 <= dstva -> 0 <= perm < 2 ^ 32 ->
  (forall p, refs W p + 1 < 2 ^ 16) ->
  exists r W' l' p', sys_page_map cpu srcenvid srcva dstenvid dstva perm s = Ret r (set_pm p' s) /\
    kern_wf (set_pm p' s) W' l' fl /\
    forall i v w', mapping_at W' i v = Some w' -> mapping_at W i v = Some w' \/
      exists src w, resolve s.(envs) (Some c) srcenvid true = Some src /\
        mapping_at W src (PGNUM srcva) = Some w /\ pte_page w' = pte_page w /\
        (bits_set w' PTE_W = true -> bits_set w PTE_W = true).
Proof.
  intros Hu Hwf Hc Hs Hd Hp Ho.
  pose proof (sys_page_map_does cpu Hu s W l fl ci c Hwf Hc srcenvid srcva dstenvid dstva perm Hs Hd Hp (fun _ _ _ _ => Ho _)) as H.
  destruct (as_page_map _ _ _ _ _ _ _ _ _) as [[r W'] l'] eqn:E. destruct H as (p' & Hrun & Hk & _).
  exists r, W', l', p'. split; [exact Hrun|]. split; [exact Hk|]. clear Hrun Hk p'. revert E.
  unfold as_page_map. destruct (bad_va srcva || bad_va dstva); [by intros [= _ <- _]; left|].
  destruct (bad_perm perm) eqn:Ebp; [by intros [= _ <- _]; left|].
  apply bad_perm_false in Ebp as [Hpr _]; [|done]. cbn [orb].
  destruct (resolve _ _ srcenvid _) as [src|] eqn:Er; [|by intros [= _ <- _]; left].
  destruct (resolve _ _ dstenvid _) as [dst|]; [|by intros [= _ <- _]; left].
  destruct (entry_of W src srcva) as [w|] eqn:Ew; [|by intros [= _ <- _]; left].
  destruct (bits_set perm PTE_W && negb (bits_set w PTE_W)) eqn:Ebw; [by intros [= _ <- _]; left|].
  destruct (as_insert W l dst dstva (pte_page w) perm) as [[W1 l1]|] eqn:Ei; [|by intros [= _ <- _]; left].
  intros [= _ <- _] i v w' Hw'. destruct (as_insert_mappings _ _ _ _ _ _ _ _ _ _ _ Ei Hw') as [?|(-> & -> & ->)]; [by left|].
  right. exists src, w. split; [done|]. split; [done|].
  unfold entry_of in Ew. destruct (W !! src) as [a|] eqn:Ea; [|done]. simpl in Ew.
  destruct (vw_mapped _ _ _ _ (kw_vm _ _ _ _ Hwf) src a _ w Ea Ew) as [Hpw _].
  pose proof (kw_npages _ _ _ _ Hwf). split; [apply mkpte_page; [lia|done]|].
  rewrite mkpte_W by lia. intros Hb. rewrite Hb in Ebw. by apply negb_false_iff in Ebw.
Qed.

Lemma sys_page_map_no_escalation_witness :
  exists r p' W' l', sys_page_map 0 0 demo_va 0 (demo_va + PGSIZE) 7 demo_kern = Ret r (set_pm p' demo_kern) /\
    kern_wf (set_pm p' demo_kern) W' l' (seqZ 1 1023).
Proof.
  destruct (sys_page_map_no_escalation 0 demo_kern demo_world [4; 5] (seqZ 1 1023) demo_cpu 0 0 demo_va 0
    (demo_va + PGSIZE) 7 demo_uninit demo_kern_wf demo_caller ltac:(by vm_compute) ltac:(by vm_compute)
    ltac:(done) demo_refs) as (r & W' & l' & p' & Hrun & Hk & _).
  exists r, p', W', l'. split; [exact Hrun|exact Hk].
Defined.

(** ** The life of an environment *)

Lemma id_ok_slot i j id id' : 0 <= i < 1024 -> 0 <= j < 1024 -> id <> 0 ->
  id_ok i id -> id_ok j id' -> id = id' -> i = j.
Proof. intros Hi Hj H0 [?|(g & Hg & ->)] [->|(h & Hh & ->)] E; try done. lia. Qed.

(** C17: [env_alloc] reports an exhausted table or memory and changes nothing, and otherwise
    returns the first free environment: runnable, a child of [parent], with the registers
    of a fresh user program, no page-fault upcall, an identifier that is positive, differs
    from the slot's previous one and from that of every other environment, an empty user
    half of the address space, and the kernel's mappings above [UTOP] except for its own
    [UVPT] slot. *)
Theorem env_alloc_fresh s W l fl parent :
  kern_wf s W l fl ->
  match fl, l with
  | [], _ => env_alloc parent s = Ret (- E_NO_FREE_ENV, None) s
  | i :: _, [] => env_alloc parent s = Ret (- E_NO_MEM, None) s
  | i :: fl', x :: l' => exists e e' s', s.(envs) !! i = Some e /\
      env_alloc parent s = Ret (0, Some i) s' /\ s'.(envs) = <[i := e']> s.(envs) /\
      kern_wf s' (<[i := empty_space x]> W) l' fl' /\
      e'.(env_tf) = new_tf /\ e'.(env_status) = ENV_RUNNABLE /\ e'.(env_parent_id) = parent /\
      e'.(env_pgfault_upcall) = 0 /\ 0 < e'.(env_id) < 2 ^ 31 /\ e'.(env_id) <> e.(env_id) /\
      (forall j ej, s.(envs) !! j = Some ej -> j <> i -> ej.(env_id) <> e'.(env_id)) /\
      exists kp, s.(pm).(kern_pgdir) = page_kva kp /\
        forall j, 0 <= j < 1024 -> ld32 s'.(pm).(pmem) (x * PGSIZE + 4 * j) = new_pde s.(pm) x kp j
  end.
Proof.
  intros Hwf. pose proof (env_alloc_ok s W l fl parent Hwf) as H.
  destruct fl as [|i fl]; [done|]. destruct l as [|x l]; [done|].
  destruct H as (e & p' & Hi & Hrun & Hwf' & _ & Hkp).
  assert (0 <= i < 1024) as Hir by (apply (kw_dom _ _ _ _ Hwf); eauto).
  destruct (next_id_ok i e.(env_id) Hir (kw_id _ _ _ _ Hwf i e Hi)) as (g & Hg & Hid).
  exists e, (new_env i parent (set_env_pgdir (page_kva x) e)). eexists.
  split; [exact Hi|]. split; [exact Hrun|]. split; [done|]. split; [exact Hwf'|].
  do 4 (split; [done|]). cbn [new_env env_id set_env_pgdir]. rewrite Hid.
  split; [lia|]. split; [|split; [|exact Hkp]].
  - destruct (kw_id _ _ _ _ Hwf i e Hi) as [E|(h & Hh & E)]; rewrite E in *; [lia|].
    rewrite next_id_gen in Hid by lia. unfold next_gen in Hid. destruct (Z.eqb_spec (h + 1) (2 ^ 19)); lia.
  - intros j ej Hj Hne E. apply Hne. symmetry.
    apply (id_ok_slot i j (g * 4096 + i) ej.(env_id)); [done|by apply (kw_dom _ _ _ _ Hwf); eauto|lia|right; eauto| |done].
    by apply (kw_id _ _ _ _ Hwf).
Qed.

Lemma env_alloc_fresh_witness :
  exists s', env_alloc 0x1000 demo_kern = Ret (0, Some 1) s' /\
    kern_wf s' (<[1 := empty_space 4]> demo_world) [5] (seqZ 2 1022).
Proof.
  pose proof demo_kern_wf as Hk. rewrite (seqZ_cons 1 1023) in Hk by lia.
  destruct (env_alloc_fresh demo_kern demo_world [4; 5] (1 :: seqZ 2 1022) 0x1000 Hk)
    as (e & e' & s' & _ & Hrun & _ & Hwf & _).
  exists s'. split; [exact Hrun|exact Hwf].
Defined.

Lemma mod_succ x m : 0 < m -> (x + 1) mod m = if x mod m + 1 =? m then 0 else x mod m + 1.
Proof.
  intros Hm. rewrite <- Zplus_mod_idemp_l. pose proof (Z.mod_pos_bound x m Hm).
  destruct (Z.eqb_spec (x mod m + 1) m) as [->|]; [by apply Z.mod_same; lia|apply Z.mod_small; lia].
Qed.

Lemma Zmod_lt2 x m : 0 < m -> m <= x -> x < 2 * m -> x mod m = x - m.
Proof. intros Hm H1 H2. symmetry. apply (Z.mod_unique_pos x m 1); lia. Qed.

Lemma env_id_iter i g n :
  0 <= i < 1024 -> 1 <= g < 2 ^ 19 ->
  Nat.iter n (fun id => next_id id i) (g * 4096 + i) =
    ((g - 1 + Z.of_nat n) mod (2 ^ 19 - 1) + 1) * 4096 + i.
Proof.
  intros Hi Hg. induction n as [|n IH].
  { simpl Nat.iter. rewrite Z.mod_small by lia. lia. }
  rewrite Nat.iter_succ, IH. clear IH.
  pose proof (Z.mod_pos_bound (g - 1 + Z.of_nat n) (2 ^ 19 - 1) ltac:(lia)).
  rewrite next_id_gen by lia. unfold next_gen.
  replace (g - 1 + Z.of_nat (S n)) with (g - 1 + Z.of_nat n + 1) by lia. rewrite mod_succ by lia.
  destruct (Z.eqb_spec ((g - 1 + Z.of_nat n) mod (2 ^ 19 - 1) + 1 + 1) (2 ^ 19));
    destruct (Z.eqb_spec ((g - 1 + Z.of_nat n) mod (2 ^ 19 - 1) + 1) (2 ^ 19 - 1)); lia.
Qed.

(** The identifiers a slot goes through repeat with period 2^19 - 1 exactly: after [n]
    reuses the slot carries its old identifier again iff [n] is a multiple of 524287, so a
    stale identifier is never honoured before that many reuses. *)
Theorem env_id_period i g n :
  0 <= i < NENV -> 1 <= g < 2 ^ 19 ->
  Nat.iter n (fun id => next_id id i) (g * 4096 + i) = g * 4096 + i <->
  Z.of_nat n mod (2 ^ 19 - 1) = 0.
Proof.
  intros Hi Hg. unfold NENV in Hi. rewrite env_id_iter by done.
  pose proof (Z.mod_pos_bound (Z.of_nat n) (2 ^ 19 - 1) ltac:(lia)) as Hb. rewrite <- Zplus_mod_idemp_r.
  destruct (Z.lt_ge_cases (g - 1 + Z.of_nat n mod (2 ^ 19 - 1)) (2 ^ 19 - 1)) as [H|H].
  - rewrite (Z.mod_small (g - 1 + _)) by lia. lia.
  - rewrite (Zmod_lt2 (g - 1 + Z.of_nat n mod (2 ^ 19 - 1)) (2 ^ 19 - 1)) by lia. lia.
Qed.

Lemma env_id_period_witness : Nat.iter 1 (fun id => next_id id 5) (7 * 4096 + 5) <> 7 * 4096 + 5.
Proof.
  intros E. apply (env_id_period 5 7 1) in E; [by vm_compute in E|by vm_compute|lia].
Defined.

(** The environments [envid] may name for caller [c]: [c] itself as 0, or the live
    environment that carries the identifier, if it is [c] or a child of [c]. *)
Definition permitted (es : gmap Z Env) (c envid i : Z) : Prop :=
  envid = 0 /\ i = c \/
  envid <> 0 /\ exists e ce, es !! i = Some e /\ es !! c = Some ce /\ e.(env_status) <> ENV_FREE /\
    e.(env_id) = envid /\ (i = c \/ e.(env_parent_id) = ce.(env_id)).

Lemma resolve_permitted s W l fl c envid i :
  kern_wf s W l fl -> 0 <= c < NENV ->
  resolve s.(envs) (Some c) envid true = Some i <-> permitted s.(envs) c envid i.
Proof.
  intros Hwf Hc. unfold permitted. destruct (proj2 (kw_dom _ _ _ _ Hwf c) Hc) as [ce Hce].
  unfold resolve. destruct (Z.eqb_spec envid 0) as [->|Hne]; [naive_solver|].
  assert (forall j e, s.(envs) !! j = Some e -> e.(env_id) = envid -> ENVX envid = j) as Hslot.
  { intros j e Hj <-. rewrite ENVX_mod.
    assert (0 <= j < 1024) by (apply (kw_dom _ _ _ _ Hwf); eauto).
    destruct (kw_id _ _ _ _ Hwf j e Hj) as [?|(g & Hg & ->)]; [done|]. zdm. }
  split.
  - destruct (s.(envs) !! ENVX envid) as [e|] eqn:He; [|done].
    destruct (Z.eqb_spec e.(env_status) ENV_FREE); [done|].
    destruct (Z.eqb_spec e.(env_id) envid); [|done]. cbn [orb negb andb]. simpl. rewrite Hce.
    destruct (bool_decide_reflect (Some c = Some (ENVX envid))) as [[= ->]|]; cbn [negb].
    + intros [= <-]. right. split; [done|]. exists e, ce. naive_solver.
    + destruct (Z.eqb_spec e.(env_parent_id) ce.(env_id)); [|done]. intros [= <-]. right. naive_solver.
  - intros [[? _]|(_ & e & ce' & Hi & Hce' & Hst & Hid & Hp)]; [done|].
    rewrite (Hslot i e Hi Hid), Hi. rewrite (proj2 (Z.eqb_neq _ _)), (proj2 (Z.eqb_eq _ _)) by done.
    cbn [orb negb andb]. destruct (bool_decide_reflect (Some c = Some i)) as [|Hnc]; [done|].
    simpl. rewrite Hce. replace ce' with ce in Hp by congruence.
    destruct Hp as [->|Hp]; [done|]. by rewrite (proj2 (Z.eqb_eq _ _)).
Qed.

(** [envid2env] with the permission check names exactly the environments the caller may
    act on: itself (as 0 or by identifier) and its live children; any other identifier,
    including a stale one, gets [- E_BAD_ENV]; and it changes nothing. *)
Theorem envid2env_authority cpu s W l fl ci c envid :
  kern_wf s W l fl -> caller cpu s W ci c ->
  (exists i, envid2env cpu envid true s = Ret (0, Some i) s /\ permitted s.(envs) c envid i) \/
  (envid2env cpu envid true s = Ret (- E_BAD_ENV, None) s /\ forall i, ~ permitted s.(envs) c envid i).
Proof.
  intros Hwf Hc. rewrite (caller_resolve cpu s W l fl ci c envid true Hwf Hc).
  assert (0 <= c < NENV) as Hcr by (destruct (ca_live _ _ _ _ _ Hc) as [a Ha]; by apply (kw_spaces _ _ _ _ Hwf c a)).
  setoid_rewrite <- (resolve_permitted s W l fl c envid _ Hwf Hcr).
  destruct (resolve s.(envs) (Some c) envid true) as [i|]; [left; by exists i|right; by split].
Qed.

(** Identifier 0x2003 names no environment. *)
Lemma envid2env_authority_witness :
  envid2env 0 0x2003 true demo_kern = Ret (- E_BAD_ENV, None) demo_kern.
Proof.
  destruct (envid2env_authority 0 demo_kern demo_world [4; 5] (seqZ 1 1023) demo_cpu 0 0x2003
    demo_kern_wf demo_caller) as [(i & _ & [[H _]|(_ & e & ce & Hi & _ & _ & Hid & _)])|[H _]];
    [discriminate H| |exact H].
  apply demo_envs_some in Hi as [_ ->]. exfalso. revert Hid. clear. unfold demo_env.
  destruct (i =? 0); intros H; discriminate H.
Defined.

(** C6: [env_free] gives back everything: the environment's slot becomes the head of the free
    list, its address space disappears, the pages referenced or free in the machine stay
    the same set, every page that only this environment held is free afterwards, the
    invariant holds, and no memory is written but the environment's own page directory and
    tables. *)
Theorem env_free_returns_pages {Mach : Machine} cpu s W l fl ci i a :
  (forall pgdir va, uninit_ptep pgdir va <> 0) ->
  kern_wf s W l fl -> s.(cpus) !! cpu = Some ci -> W !! i = Some a ->
  exists s' l', env_free cpu i s = Ret tt s' /\ kern_wf s' (delete i W) l' (i :: fl) /\
    conserved W l (delete i W) l' /\
    (forall p, 0 < refs1 p a -> refs W p = refs1 p a -> p ∈ l') /\
    vm_frame (owns a) s.(pm) s'.(pm).
Proof.
  intros Hu Hwf Hci HWi.
  destruct (proj2 (kw_dom _ _ _ _ Hwf i) (kw_spaces _ _ _ _ Hwf i a HWi)) as [e He].
  destruct (kw_kern _ _ _ _ Hwf) as (kp & Hkd & Hkp & _).
  destruct (env_free_ok Hu cpu s W l fl ci i a e kp Hwf Hci HWi He Hkd Hkp) as (p' & l' & Hrun & Hk & Hc & Hf).
  eexists _, l'. split; [exact Hrun|]. split; [exact Hk|]. split; [done|]. split; [|exact Hf].
  intros p Hp Hr. pose proof (total_delete (refs1 p) W i a HWi) as Ht.
  destruct (proj1 (Hc p) ltac:(left; lia)) as [Hd|?]; [|done].
  unfold refs in *. lia.
Qed.

Lemma env_free_returns_pages_witness :
  exists s' l', env_free 0 0 demo_kern = Ret tt s' /\ kern_wf s' ∅ l' (0 :: seqZ 1 1023) /\ 2 ∈ l'.
Proof.
  destruct (env_free_returns_pages 0 demo_kern demo_world [4; 5] (seqZ 1 1023) demo_cpu 0 demo_space
    demo_uninit demo_kern_wf eq_refl eq_refl) as (s' & l' & Hrun & Hk & _ & Hfree & _).
  exists s', l'. split; [exact Hrun|]. split; [exact Hk|]. by apply Hfree; vm_compute.
Defined.

(** ** Creating and naming environments *)

(** [sys_exofork] passes on the errors of [env_alloc], and otherwise returns to the parent
    the identifier of a new environment that is not runnable, whose parent is the caller,
    whose registers are the caller's with a zero in [eax] (so that the child sees the
    return value 0) and whose user memory is empty; the caller is unchanged. *)
Theorem sys_exofork_child cpu s W l fl ci c ce :
  kern_wf s W l fl -> caller cpu s W ci c -> s.(envs) !! c = Some ce ->
  match fl, l with
  | [], _ => sys_exofork cpu s = Ret (- E_NO_FREE_ENV) s
  | _ :: _, [] => sys_exofork cpu s = Ret (- E_NO_MEM) s
  | i :: fl', x :: l' => exists e' s', sys_exofork cpu s = Ret e'.(env_id) s' /\ exoforked s s' W l' fl' ce e' i x
  end.
Proof. apply sys_exofork_ok. Qed.

Lemma sys_exofork_child_witness : exists id s', sys_exofork 0 demo_kern = Ret id s' /\ 0 < id.
Proof.
  pose proof demo_kern_wf as Hk. rewrite (seqZ_cons 1 1023) in Hk by lia.
  assert (demo_kern.(envs) !! 0 = Some (demo_env 0)) as H0 by by apply demo_envs_lookup.
  destruct (sys_exofork_child 0 demo_kern demo_world [4; 5] (1 :: seqZ 2 1022) demo_cpu 0 (demo_env 0)
    Hk demo_caller H0) as (e' & s' & Hrun & Hef).
  exists e'.(env_id), s'. split; [exact Hrun|apply (ef_id _ _ _ _ _ _ _ _ _ Hef)].
Defined.

(** ** Messages *)

(** C16: What [sys_ipc_try_send] does, on every branch.  The receiver is found by [envid2env]
    without a check of permission, or the answer is [-E_BAD_ENV]; a receiver that does not wait,
    a misaligned address, bad permissions, a page that is not mapped, a page that is not
    mapped writable or is sent without [PTE_W], and a lack of memory give their errors, and
    then nothing at all has changed.  Otherwise the receiver is runnable, with the value,
    the sender's identifier, the permission of the page (or 0) and a system call that
    returns 0, the page is mapped at its address, and only memory and this record have
    changed.  (The comment of the function allows pages to be sent read-only; the code
    refuses them.)  The reference counts must not be at their maximum. *)
Theorem sys_ipc_try_send_refines {Mach : Machine} cpu s W l fl ci c envid value srcva perm ce :
  (forall pgdir va, uninit_ptep pgdir va <> 0) ->
  kern_wf s W l fl -> caller cpu s W ci c -> (forall p, refs W p + 1 < 2 ^ 16) -> s.(envs) !! c = Some ce ->
  (forall t te, s.(envs) !! t = Some te -> 0 <= te.(env_ipc_dstva)) -> 0 <= srcva -> 0 <= perm < 2 ^ 32 ->
  exists r W' l' d p', as_ipc_try_send s.(envs) c W l envid srcva perm = (r, W', l', d) /\
    let s' := match d with
              | None => s
              | Some (t, pr) => set_envs (alter (delivered value ce.(env_id) pr) t s.(envs)) (set_pm p' s)
              end in
    sys_ipc_try_send cpu envid value srcva perm s = Ret r s' /\ kern_wf s' W' l' fl.
Proof.
  intros Hu Hwf Hc Hov Hce Hdv Hsv Hp. unfold as_ipc_try_send.
  destruct (resolve s.(envs) (Some c) envid false) as [t|] eqn:Hr.
  2: { exists (- E_BAD_ENV), W, l, None, s.(pm). split; [done|]. split; [|done]. unfold sys_ipc_try_send.
       pose proof (caller_resolve cpu s W l fl ci c envid false Hwf Hc) as E. rewrite Hr in E. by mstep (exact E). }
  destruct (resolve_live s W l fl c envid false t Hwf (ca_live _ _ _ _ _ Hc) Hr) as (b & te & _ & Ht & _).
  pose proof (sys_ipc_try_send_does cpu Hu s W l fl ci c Hwf Hc (fun p _ => Hov p) envid value srcva perm t te ce Hr Ht Hce (Hdv t te Ht) Hsv Hp) as H.
  destruct (as_ipc_send _ _ _ _ _ _ _) as [[[r W'] l'] d]. destruct H as (p' & Hp' & H). exists r, W', l', (pair t <$> d), p'. split; [done|].
  destruct d as [pr|]; cbn [fmap option_fmap option_map].
  - replace (alter _ t s.(envs)) with (<[t := delivered value ce.(env_id) pr te]> s.(envs)); [exact H|].
    apply map_eq. intros j. rewrite lookup_alter. destruct (decide (t = j)) as [<-|]; [by rewrite lookup_insert_eq, Ht|by rewrite lookup_insert_ne].
  - rewrite (Hp' eq_refl), set_pm_id in H. by replace (set_envs s.(envs) s) with s in H by by destruct s.
Qed.

(** Environment 0, waiting for a page, sends itself its own. *)
Definition demo_recv : kern :=
  set_envs (<[0 := set_env_ipc_wait true (demo_va + PGSIZE) (demo_env 0)]> demo_envs) demo_kern.

Lemma sys_ipc_try_send_refines_witness :
  exists s' W' l', sys_ipc_try_send 0 0 42 demo_va 7 demo_recv = Ret 0 s' /\ kern_wf s' W' l' (seqZ 1 1023) /\
    entry_of W' 0 (demo_va + PGSIZE) = Some (mkpte 2 7).
Proof.
  assert (demo_kern.(envs) !! 0 = Some (demo_env 0)) as H0 by by apply demo_envs_lookup.
  set (te := set_env_ipc_wait true (demo_va + PGSIZE) (demo_env 0)).
  assert (kern_wf demo_recv demo_world [4; 5] (seqZ 1 1023)) as Hk
    by by apply (kw_upd_env demo_kern _ _ _ 0 (demo_env 0) te demo_kern_wf H0).
  assert (demo_recv.(envs) !! 0 = Some te) as Ht by apply lookup_insert_eq.
  assert (caller 0 demo_recv demo_world demo_cpu 0) as Hc by (split; [reflexivity|reflexivity|by eexists]).
  assert (forall i e, demo_recv.(envs) !! i = Some e -> 0 <= e.(env_ipc_dstva)) as Hd.
  { intros i e Hi. cbn [demo_recv set_envs envs] in Hi. apply lookup_insert_Some in Hi as [[_ <-]|[_ Hi]]; [by vm_compute|].
    apply demo_envs_some in Hi as [_ ->]. unfold demo_env. by destruct (i =? 0). }
  assert (0 <= demo_va) as Hv by by vm_compute. assert (0 <= 7 < 2 ^ 32) as Hp by lia.
  assert (exists W' l', as_ipc_try_send demo_recv.(envs) 0 demo_world [4; 5] 0 demo_va 7 = (0, W', l', Some (0, 7)) /\
    entry_of W' 0 (demo_va + PGSIZE) = Some (mkpte 2 7)) as (W' & l' & Hspec & Hw)
    by (unfold as_ipc_try_send, as_ipc_send; change (resolve _ _ _ _) with (Some 0); cbv iota; rewrite Ht; eexists _, _; split; reflexivity).
  clearbody te.
  destruct (sys_ipc_try_send_refines 0 demo_recv demo_world [4; 5] (seqZ 1 1023) demo_cpu 0 0 42 demo_va 7 te
    demo_uninit Hk Hc demo_refs Ht Hd Hv Hp) as (r & W2 & l2 & d & p' & Hspec2 & Hrun & Hk').
  rewrite Hspec in Hspec2. injection Hspec2 as <- <- <- <-.
  eexists _, W', l'. split; [exact Hrun|]. split; [exact Hk'|exact Hw].
Defined.
