(* ===== verification/User.v ===== *)
(** User code on top of the kernel: memory as the MMU shows it to the running environment,
    the system call stubs ([lib/syscall.c], [inc/lib.h]) and the registration of a page-fault
    handler ([lib/pgfault.c]).

    A system call is the call of the kernel's dispatcher; what the trap path saves and
    restores around it is not seen by the library.  The globals [thisenv] and
    [_pgfault_handler] of the running program are fields of the state, its other memory is
    in physical memory behind its page tables. *)

From S2P Require Import Prelude Mmu Mem Console E1000 Pmap PmapBoot Env Sched Syscall.

(** Addresses the linker gives to a user program. *)
Class Program := {
  sym_pgfault_upcall : Z;       (* [_pgfault_upcall] of [lib/pfentry.S] *)
  sym_pgfault : Z;              (* the handler [pgfault] of [lib/fork.c] *)
}.

Record user := mkUser {
  u_kern : kern;
  u_thisenv : Z;                (* [thisenv], as an index into [envs] *)
  u_handler : Z;                (* [_pgfault_handler] *)
}.

Definition set_u_kern (k : kern) (u : user) : user := mkUser k u.(u_thisenv) u.(u_handler).
Definition set_u_thisenv (e : Z) (u : user) : user := mkUser u.(u_kern) e u.(u_handler).
Definition set_u_handler (h : Z) (u : user) : user := mkUser u.(u_kern) u.(u_thisenv) h.

Definition in_kern {A} (m : M kern A) : M user A := zoom u_kern set_u_kern m.

(** ** The MMU *)

(** The physical address of [va] for an access by user code, or nothing on a page fault. *)
Definition mmu (m : mem) (cr3 va : Z) (write : bool) : option Z :=
  let need := Z.lor (Z.lor PTE_P PTE_U) (if write then PTE_W else 0) in
  let pde := ld32 m (PTE_ADDR cr3 + 4 * PDX va) in
  if bits_set pde need then
    let pte := ld32 m (PTE_ADDR pde + 4 * PTX va) in
    if bits_set pte need then Some (PTE_ADDR pte + PGOFF va) else None
  else None.

Section User.
Context {Mach : Machine} (cpu : Z).

Definition user_addr (va : Z) (write : bool) : M user (option Z) :=
  in_kern (let* c := get_cpu cpu in on_pm (gets (fun p => mmu p.(pmem) c.(cpu_cr3) va write))).

(** An access that faults has no meaning here; [cow_store] of [Fork] handles the fault. *)
Definition uld8 (va : Z) : M user Z :=
  let* pa := user_addr va false in
  match pa with Some pa => in_kern (on_pm (gets (fun p => ld8 p.(pmem) pa))) | None => wild end.
Definition uld32 (va : Z) : M user Z :=
  let* pa := user_addr va false in
  match pa with Some pa => in_kern (on_pm (gets (fun p => ld32 p.(pmem) pa))) | None => wild end.
Definition ust8 (va v : Z) : M user unit :=
  let* pa := user_addr va true in
  match pa with Some pa => in_kern (on_pm (modify (fun p => set_pmem (st8 p.(pmem) pa v) p))) | None => wild end.

(** A word that lies in one page. *)
Definition ust32 (va v : Z) : M user unit :=
  let* pa := user_addr va true in
  match pa with Some pa => in_kern (on_pm (modify (fun p => set_pmem (st32 p.(pmem) pa v) p))) | None => wild end.

(** [lib/entry.S] *)
Definition uvpt (pn : Z) : M user Z := uld32 (u32 (UVPT + 4 * pn)).
Definition uvpd (i : Z) : M user Z := uld32 (u32 (UVPT + Z.shiftr UVPT 12 * 4 + 4 * i)).

(** [memmove] on user memory, as [CString.memmove]: by words when all is aligned, backward
    when the destination overlaps the end of the source. *)
Definition umovsb (n : nat) (step d s : Z) : M user unit :=
  for_n n 0 (fun i => let* b := uld8 (u32 (s + i * step)) in ust8 (u32 (d + i * step)) b).
Definition umovsl (n : nat) (step d s : Z) : M user unit :=
  for_n n 0 (fun i => let* w := uld32 (u32 (s + i * step)) in ust32 (u32 (d + i * step)) w).

Definition umemmove (dst src n : Z) : M user unit :=
  if (src <? dst) && (dst <? u32 (src + n)) then
    let s := u32 (src + n) in
    let d := u32 (dst + n) in
    if (Z.rem (s32 s) 4 =? 0) && (Z.rem (s32 d) 4 =? 0) && (n mod 4 =? 0) then
      umovsl (Z.to_nat (n / 4)) (-4) (u32 (d - 4)) (u32 (s - 4))
    else umovsb (Z.to_nat n) (-1) (u32 (d - 1)) (u32 (s - 1))
  else if (Z.rem (s32 src) 4 =? 0) && (Z.rem (s32 dst) 4 =? 0) && (n mod 4 =? 0) then
    umovsl (Z.to_nat (n / 4)) 4 dst src
  else umovsb (Z.to_nat n) 1 dst src.

(** ** [lib/syscall.c] *)

Definition usyscall (num : Z) (check : bool) (a1 a2 a3 a4 a5 : Z) : M user Z :=
  let* r := in_kern (syscall cpu num (u32 a1) (u32 a2) (u32 a3) (u32 a4) (u32 a5)) in
  let ret_ := s32 r in
  if check && (0 <? ret_) then panic else ret ret_.

Definition usys_getenvid : M user Z := usyscall SYS_getenvid false 0 0 0 0 0.
Definition usys_page_alloc (envid va perm : Z) : M user Z := usyscall SYS_page_alloc true envid va perm 0 0.
Definition usys_page_map (srcenv srcva dstenv dstva perm : Z) : M user Z :=
  usyscall SYS_page_map true srcenv srcva dstenv dstva perm.
Definition usys_page_unmap (envid va : Z) : M user Z := usyscall SYS_page_unmap true envid va 0 0 0.
Definition usys_env_set_status (envid status : Z) : M user Z := usyscall SYS_env_set_status true envid status 0 0 0.
Definition usys_env_set_pgfault_upcall (envid upcall : Z) : M user Z :=
  usyscall SYS_env_set_pgfault_upcall true envid upcall 0 0 0.

(** [inc/lib.h] *)
Definition usys_exofork : M user Z := usyscall SYS_exofork false 0 0 0 0 0.

(** ** [lib/pgfault.c] *)

Context {Prog : Program}.

Definition set_pgfault_handler (handler : Z) : M user unit :=
  let* h := gets u_handler in
  (if h =? 0 then
     let* t := gets u_thisenv in
     let* e := in_kern (get_env t) in
     let* r := usys_page_alloc e.(env_id) (UXSTACKTOP - PGSIZE) (Z.lor (Z.lor PTE_P PTE_U) PTE_W) in
     if negb (r =? 0) then panic
     else
       let* r := usys_env_set_pgfault_upcall e.(env_id) sym_pgfault_upcall in
       if r <? 0 then panic else ret tt
   else ret tt) ;;;
  modify (set_u_handler handler).
End User.
