(* ===== verification/Fd.v ===== *)
(** [lib/fd.c]: file descriptors in user code.  A descriptor is a page of the environment, shared
    with whoever holds the same open file; which descriptors are open is read off the page tables.

    The devices are called through the table [devtab], of which the model is generic; messages
    printed on errors are left out. *)

From S2P Require Import Prelude Mmu Mem Console E1000 Pmap PmapBoot Env Sched Syscall User.

Definition MAXFD : Z := 32.
Definition FDTABLE : Z := 0xD0000000.
Definition FILEDATA : Z := FDTABLE + MAXFD * PGSIZE.
Definition INDEX2FD (i : Z) : Z := u32 (FDTABLE + i * PGSIZE).
Definition INDEX2DATA (i : Z) : Z := u32 (FILEDATA + i * PGSIZE).
Definition E_NOT_SUPP : Z := 15.
Definition O_RDONLY : Z := 0.
Definition O_WRONLY : Z := 1.
Definition O_ACCMODE : Z := 3.

(** [struct Dev]: the arguments are [fd], then a buffer and a length or a size. *)
Record Dev := mkDev {
  dev_id : Z;
  dev_read : option (Z -> Z -> Z -> M user Z);
  dev_write : option (Z -> Z -> Z -> M user Z);
  dev_close : option (Z -> M user Z);
  dev_trunc : option (Z -> Z -> M user Z);
}.

Section Fd.
Context {Mach : Machine} (cpu : Z) (devtab : list Dev).

(** The fields of [struct Fd]. *)
Definition fd_dev_id (fd : Z) : M user Z := let* w := uld32 cpu fd in ret (s32 w).
Definition fd_omode (fd : Z) : M user Z := uld32 cpu (fd + 8).

Definition fd2num (fd : Z) : Z := u32 (fd - FDTABLE) / PGSIZE.
Definition fd2data (fd : Z) : Z := INDEX2DATA (fd2num fd).

(** [(uvpd[PDX(va)] & PTE_P) && (uvpt[PGNUM(va)] & PTE_P)] *)
Definition va_mapped (va : Z) : M user bool :=
  let* d := uvpd cpu (PDX va) in
  if nonzero (Z.land d PTE_P) then let* w := uvpt cpu (PGNUM va) in ret (nonzero (Z.land w PTE_P)) else ret false.

(** The answer and [*fd_store]. *)
Fixpoint fd_alloc_from (n : nat) (i : Z) : M user (Z * Z) :=
  match n with
  | O => ret (- E_MAX_OPEN, 0)
  | S n =>
      let* b := va_mapped (INDEX2FD i) in
      if negb b then ret (0, INDEX2FD i) else fd_alloc_from n (i + 1)
  end.
Definition fd_alloc : M user (Z * Z) := fd_alloc_from (Z.to_nat MAXFD) 0.

(** The answer and, on success, [*fd_store]. *)
Definition fd_lookup (fdnum : Z) : M user (Z * option Z) :=
  if (fdnum <? 0) || (MAXFD <=? fdnum) then ret (- E_INVAL, None)
  else
    let* b := va_mapped (INDEX2FD fdnum) in
    if negb b then ret (- E_INVAL, None) else ret (0, Some (INDEX2FD fdnum)).

Definition dev_lookup (id : Z) : option Dev := list_find (fun d => d.(dev_id) = id) devtab ≫= fun p => Some p.2.

Definition fd_close (fd : Z) (must_exist : bool) : M user Z :=
  let* ' (r, fd2) := fd_lookup (fd2num fd) in
  if (r <? 0) || negb (bool_decide (fd2 = Some fd)) then ret (if must_exist then r else 0)
  else
    let* id := fd_dev_id fd in
    let* r :=
      match dev_lookup id with
      | Some dev => match dev.(dev_close) with Some close => close fd | None => ret 0 end
      | None => ret (- E_INVAL)
      end in
    usys_page_unmap cpu 0 fd ;;;
    ret r.

Definition close (fdnum : Z) : M user Z :=
  let* ' (r, fd) := fd_lookup fdnum in
  match fd with
  | Some fd => fd_close fd true
  | None => ret r
  end.

Definition close_all : M user unit := for_n (Z.to_nat MAXFD) 0 (fun i => close i ;;; ret tt).

Definition dup (oldfdnum newfdnum : Z) : M user Z :=
  let* ' (r, oldfd) := fd_lookup oldfdnum in
  match oldfd with
  | None => ret r
  | Some oldfd =>
      close newfdnum ;;;
      let newfd := INDEX2FD newfdnum in
      let ova := fd2data oldfd in
      let nva := fd2data newfd in
      let* r :=
        (let* data := va_mapped ova in
         if data then
           let* w := uvpt cpu (PGNUM ova) in
           usys_page_map cpu 0 ova 0 nva (Z.land w PTE_SYSCALL)
         else ret 0) in
      let* r :=
        (if r <? 0 then ret r
         else
           let* w := uvpt cpu (PGNUM oldfd) in
           usys_page_map cpu 0 oldfd 0 newfd (Z.land w PTE_SYSCALL)) in
      if r <? 0 then
        usys_page_unmap cpu 0 newfd ;;;
        usys_page_unmap cpu 0 nva ;;;
        ret r
      else ret newfdnum
  end.

(** The descriptor and its device, or the error. *)
Definition fd_dev (fdnum : Z) : M user (Z + Z * Dev) :=
  let* ' (r, fd) := fd_lookup fdnum in
  match fd with
  | None => ret (inl r)
  | Some fd =>
      let* id := fd_dev_id fd in
      match dev_lookup id with
      | Some dev => ret (inr (fd, dev))
      | None => ret (inl (- E_INVAL))
      end
  end.

Definition read (fdnum buf n : Z) : M user Z :=
  let* d := fd_dev fdnum in
  match d with
  | inl r => ret r
  | inr (fd, dev) =>
      let* m := fd_omode fd in
      if Z.land m O_ACCMODE =? O_WRONLY then ret (- E_INVAL)
      else match dev.(dev_read) with Some f => f fd buf n | None => ret (- E_NOT_SUPP) end
  end.

Fixpoint readn_from (fuel : nat) (fdnum buf n tot : Z) : M user Z :=
  match fuel with
  | O => out_of_fuel
  | S fuel =>
      if u32 tot <? n then
        let* m := read fdnum (u32 (buf + tot)) (u32 (n - tot)) in
        if m <? 0 then ret m
        else if m =? 0 then ret tot
        else readn_from fuel fdnum buf n (s32 (tot + m))
      else ret tot
  end.
Definition readn (fuel : nat) (fdnum buf n : Z) : M user Z := readn_from fuel fdnum buf n 0.

Definition write (fdnum buf n : Z) : M user Z :=
  let* d := fd_dev fdnum in
  match d with
  | inl r => ret r
  | inr (fd, dev) =>
      let* m := fd_omode fd in
      if Z.land m O_ACCMODE =? O_RDONLY then ret (- E_INVAL)
      else match dev.(dev_write) with Some f => f fd buf n | None => ret (- E_NOT_SUPP) end
  end.

Definition seek (fdnum offset : Z) : M user Z :=
  let* ' (r, fd) := fd_lookup fdnum in
  match fd with
  | None => ret r
  | Some fd => ust32 cpu (fd + 4) (u32 offset) ;;; ret 0
  end.

Definition ftruncate (fdnum newsize : Z) : M user Z :=
  let* d := fd_dev fdnum in
  match d with
  | inl r => ret r
  | inr (fd, dev) =>
      let* m := fd_omode fd in
      if Z.land m O_ACCMODE =? O_RDONLY then ret (- E_INVAL)
      else match dev.(dev_trunc) with Some f => f fd newsize | None => ret (- E_NOT_SUPP) end
  end.
End Fd.
