(* ===== verification/Fork.v ===== *)
(** [lib/fork.c]: copy-on-write fork in user code, over the system calls of the kernel. *)

From S2P Require Import Prelude Mmu Mem Console E1000 Pmap PmapBoot Env Sched Syscall User.

Section Fork.
Context {Mach : Machine} {Prog : Program} (cpu : Z).

(** The handler: [fault_va] and [err] are the fields of the [struct UTrapframe]. *)
Definition pgfault (fault_va err : Z) : M user unit :=
  if Z.land err FEC_WR =? 0 then panic
  else
    let* w := uvpt cpu (PGNUM fault_va) in
    if negb (nonzero (Z.land w PTE_COW)) then panic
    else
      let* r := usys_page_alloc cpu 0 PFTEMP (Z.lor (Z.lor PTE_P PTE_U) PTE_W) in
      if r <? 0 then panic
      else
        umemmove cpu PFTEMP (ROUNDDOWN fault_va PGSIZE) PGSIZE ;;;
        let* r := usys_page_map cpu 0 PFTEMP 0 (ROUNDDOWN fault_va PGSIZE) (Z.lor (Z.lor PTE_P PTE_U) PTE_W) in
        if r <? 0 then panic
        else
          let* r := usys_page_unmap cpu 0 PFTEMP in
          if r <? 0 then panic else ret tt.

(** A store by user code that has registered [pgfault]: the instruction is run again after
    the handler returned. *)
Definition cow_store (va v : Z) : M user unit :=
  let* pa := user_addr cpu va true in
  match pa with
  | Some _ => ust8 cpu va v
  | None =>
      let* p := user_addr cpu va false in
      pgfault va (Z.lor (match p with Some _ => 1 | None => 0 end) (Z.lor FEC_WR 4)) ;;;
      ust8 cpu va v
  end.

Definition duppage (envid pn : Z) : M user Z :=
  let* w := uvpt cpu pn in
  let va := u32 (pn * PGSIZE) in
  if nonzero (Z.land w PTE_W) || nonzero (Z.land w PTE_COW) || nonzero (Z.land w PTE_SHARE) then
    let perm :=
      if nonzero (Z.land w PTE_SHARE) then Z.land w PTE_SYSCALL
      else if nonzero (Z.land w PTE_W) || nonzero (Z.land w PTE_COW) then Z.lor (Z.lor PTE_P PTE_U) PTE_COW
      else Z.lor PTE_P PTE_U in
    let* r := usys_page_map cpu 0 va envid va perm in
    if r <? 0 then panic
    else
      let* r := usys_page_map cpu 0 va 0 va perm in
      if r <? 0 then panic else ret 0
  else
    let* r := usys_page_map cpu 0 va envid va (Z.lor PTE_P PTE_U) in
    if r <? 0 then panic else ret 0.

(** What [fork] does after [sys_exofork] returned [envid]: the child arrives here, too, when
    it first runs, with 0. *)
Definition fork_from (envid : Z) : M user Z :=
  if envid <? 0 then panic
  else if envid =? 0 then
    let* id := usys_getenvid cpu in
    modify (set_u_thisenv (ENVX id)) ;;;
    ret 0
  else
    for_n (Z.to_nat (PGNUM UXSTACKTOP - 2)) 0 (fun pn =>
      let* d := uvpd cpu (PDX (u32 (pn * PGSIZE))) in
      if nonzero (Z.land d PTE_P) then
        let* w := uvpt cpu pn in
        if nonzero (Z.land w (Z.lor PTE_P PTE_U)) then duppage envid pn ;;; ret tt else ret tt
      else ret tt) ;;;
    let* r := usys_page_alloc cpu envid (UXSTACKTOP - PGSIZE) (Z.lor (Z.lor PTE_P PTE_U) PTE_W) in
    if r <? 0 then panic
    else
      let* r := usys_env_set_pgfault_upcall cpu envid sym_pgfault_upcall in
      if r <? 0 then panic
      else
        let* r := usys_env_set_status cpu envid ENV_RUNNABLE in
        if r <? 0 then panic else ret envid.

Definition fork : M user Z :=
  set_pgfault_handler cpu sym_pgfault ;;;
  let* envid := usys_exofork cpu in
  fork_from envid.

Definition sfork : M user Z := panic.
End Fork.
