(* ===== verification/UserVm.v ===== *)
(** What user code sees of its address space: the MMU finds the pages the abstract address
    space maps, [uvpt] and [uvpd] read its entries, and a system call stub does what the
    system call does. *)

From stdpp Require Import gmap.
From S2P Require Import Prelude Mmu Mem Console E1000 Pmap PmapBoot Env Sched Syscall Trap.
From S2P Require Import PmapAlloc PmapVm PmapRefs UserRep EnvMem EnvSetup KernInv SysMem SysIpc SysEnv User UserMem.

Lemma bits_set_lor x f g : bits_set x (Z.lor f g) = bits_set x f && bits_set x g.
Proof.
  apply eq_true_iff_eq. rewrite andb_true_iff. split.
  - intros H. split; eapply bits_set_sub; try exact H; rewrite 1?Z.lor_comm; apply bits_set_lor_r || (rewrite Z.lor_comm; apply bits_set_lor_r).
  - unfold bits_set. rewrite !Z.eqb_eq. intros [H1 H2]. by rewrite Z.land_lor_distr_r, H1, H2.
Qed.

Lemma bits_set_0 x : bits_set x 0 = true.
Proof. unfold bits_set. by rewrite Z.land_0_r. Qed.

Lemma PTE_ADDR_page x : 0 <= x < 65536 -> PTE_ADDR (x * PGSIZE) = x * PGSIZE.
Proof. intros H. rewrite PTE_ADDR_sub by clia. czdm. Qed.

(** The physical address behind entry [w] for offset [o]. *)
Definition pte_pa (w va : Z) : Z := pte_page w * PGSIZE + va mod PGSIZE.

(** What an access to [va] in [a] reaches. *)
Definition reach (a : aspace) (va : Z) (write : bool) : option Z :=
  match a.(as_maps) !! PGNUM va with
  | Some w => if write && negb (bits_set w PTE_W) then None else Some (pte_pa w va)
  | None => None
  end.

Section Mmu.
Context (p : pmap) (a : aspace).
Hypothesis Hr : vm_rep p a.
Hypothesis Hu : user_rep p a.
Hypothesis Hsl : a.(as_slots) = user_slots.

Lemma dir_range : 0 <= a.(as_dir) < 65536.
Proof. pose proof (vr_dir _ _ Hr). pose proof (vr_npages _ _ Hr). lia. Qed.

(** The directory entry of a slot with table [tp]. *)
Lemma pde_table d tp :
  a.(as_tabs) !! d = Some tp ->
  bits_set (pde p a d) PTE_P = true /\ bits_set (pde p a d) PTE_U = true /\ PTE_ADDR (pde p a d) = tp * PGSIZE.
Proof.
  intros Htp. destruct (vr_tabs_dom _ _ Hr d tp Htp) as [Hd _]. pose proof (vr_tabs _ _ Hr d Hd) as H. fold (pde p a d) in H.
  rewrite Htp in H. destruct (entry _) as [w|] eqn:E; [|done]. apply entry_some in E as [-> Hb]. injection H as H.
  split; [done|]. split; [apply (ur_tab _ _ Hu); eauto|]. rewrite pte_page_mul by apply ld32_range. by rewrite <- H.
Qed.

Lemma pde_absent d : user_slots d = true -> a.(as_tabs) !! d = None -> bits_set (pde p a d) PTE_P = false.
Proof.
  intros Hd Hn. pose proof (vr_tabs _ _ Hr d) as H. fold (pde p a d) in H. rewrite Hsl, Hn in H. specialize (H Hd).
  destruct (entry _) eqn:E; [done|]. by apply entry_none.
Qed.

(** The MMU shows user code exactly the mapped pages. *)
Lemma mmu_reach va write :
  0 <= va < UTOP -> mmu p.(pmem) (a.(as_dir) * PGSIZE) va write = reach a va write.
Proof.
  intros Hva. assert (covers a va) as Hc by by apply covers_user. pose proof dir_range as Hd.
  assert (0 <= va < 2 ^ 32) as Hv by clia.
  unfold mmu, reach. rewrite PTE_ADDR_page by done. fold (pde p a (PDX va)). rewrite !bits_set_lor.
  destruct (a.(as_tabs) !! PDX va) as [tp|] eqn:Htp.
  2: { rewrite (maps_no_table p a va Hr Hc Htp). rewrite pde_absent; [done| |done]. rewrite <- Hsl. apply Hc. }
  destruct (pde_table _ _ Htp) as (HP & HU & ->). rewrite HP, HU. cbn [andb].
  rewrite (maps_entry p a va tp Hr Hc Htp). set (x := ld32 _ _). destruct (entry x) as [w|] eqn:E.
  2: { apply entry_none in E. rewrite E. cbn [andb]. by case_match. }
  assert (a.(as_maps) !! PGNUM va = Some w) as Hm by by rewrite (maps_entry p a va tp Hr Hc Htp).
  apply entry_some in E as [-> HPx]. rewrite HPx, (ur_map _ _ Hu _ _ Hm). cbn [andb].
  assert (PTE_ADDR x + PGOFF va = pte_pa x va) as <-.
  { unfold pte_pa. rewrite PGOFF_mod by done. by rewrite pte_page_mul by apply ld32_range. }
  destruct write; cbn [andb]; [|by rewrite !bits_set_0].
  destruct (bits_set x PTE_W) eqn:EW; cbn [negb andb]; [|by case_match].
  pose proof (ur_write _ _ Hu _ _ Hm EW) as HW. rewrite (vpn_slot a) in HW by done. by rewrite HW.
Qed.

(** The directory entry through which the tables are seen. *)
Lemma self_slot : bits_set (pde p a 957) PTE_P = true /\ bits_set (pde p a 957) PTE_U = true /\ PTE_ADDR (pde p a 957) = a.(as_dir) * PGSIZE.
Proof.
  pose proof dir_range as Hd. pose proof (ur_self _ _ Hu) as H. change (PDX UVPT) with 957 in H. rewrite H.
  split; [apply bits_set_lor_mono, bits_set_lor_r|]. split; [apply bits_set_lor_r|].
  rewrite <- Z.lor_assoc. rewrite (lor_add_low _ _ 12) by (vm_compute (Z.lor _ _); clia || czdm).
  rewrite PTE_ADDR_sub by (change (Z.lor PTE_P PTE_U) with 5; clia). change (Z.lor PTE_P PTE_U) with 5. czdm.
Qed.

Lemma mmu_table v tp :
  0 <= v < 1024 * 1024 -> a.(as_tabs) !! (v / 1024) = Some tp ->
  mmu p.(pmem) (a.(as_dir) * PGSIZE) (UVPT + 4 * v) false = Some (tp * PGSIZE + 4 * (v mod 1024)).
Proof.
  intros Hv Htp. pose proof dir_range as Hd. destruct self_slot as (HP & HU & HA). destruct (pde_table _ _ Htp) as (HP' & HU' & HA').
  assert (0 <= UVPT + 4 * v < 2 ^ 32) as Hr32 by clia.
  unfold mmu. rewrite PTE_ADDR_page by done. rewrite !bits_set_lor, !bits_set_0.
  replace (PDX (UVPT + 4 * v)) with 957 by (rewrite PDX_div by done; czdm). fold (pde p a 957). rewrite HP, HU, HA. cbn [andb].
  replace (PTX (UVPT + 4 * v)) with (v / 1024) by (rewrite PTX_div by done; czdm). fold (pde p a (v / 1024)). rewrite HP', HU', HA', ?bits_set_0.
  cbn [andb]. f_equal. rewrite PGOFF_mod by done. czdm.
Qed.

Lemma mmu_dir i :
  0 <= i < 1024 -> mmu p.(pmem) (a.(as_dir) * PGSIZE) (UVPT + 957 * PGSIZE + 4 * i) false = Some (a.(as_dir) * PGSIZE + 4 * i).
Proof.
  intros Hi. pose proof dir_range as Hd. destruct self_slot as (HP & HU & HA).
  assert (0 <= UVPT + 957 * PGSIZE + 4 * i < 2 ^ 32) as Hr32 by clia.
  unfold mmu. rewrite PTE_ADDR_page by done. rewrite !bits_set_lor, !bits_set_0.
  replace (PDX (UVPT + 957 * PGSIZE + 4 * i)) with 957 by (rewrite PDX_div by done; czdm). fold (pde p a 957). rewrite HP, HU, HA. cbn [andb].
  replace (PTX (UVPT + 957 * PGSIZE + 4 * i)) with 957 by (rewrite PTX_div by done; czdm). fold (pde p a 957). rewrite ?HP, ?HU, ?HA, ?bits_set_0.
  cbn [andb]. f_equal. rewrite PGOFF_mod by done. czdm.
Qed.
End Mmu.

(** ** A running environment *)

(** Environment [c] runs on the CPU, in its own address space [a]. *)
Record uwf (cpu : Z) (u : user) (W : gmap Z aspace) (l fl : list Z) (ci : CpuInfo) (c : Z) (a : aspace) : Prop := {
  uw_kern : kern_wf u.(u_kern) W l fl;
  uw_caller : caller cpu u.(u_kern) W ci c;
  uw_space : W !! c = Some a;
  uw_cr3 : ci.(cpu_cr3) = a.(as_dir) * PGSIZE;
}.

(** [u] with another physical memory. *)
Definition with_pm (p : pmap) (u : user) : user := set_u_kern (set_pm p u.(u_kern)) u.

Lemma in_kern_ret {A} (m : M kern A) u r k : m u.(u_kern) = Ret r k -> in_kern m u = Ret r (set_u_kern k u).
Proof. apply zoom_ret. Qed.

Lemma in_kern_pure {A} (m : M kern A) u r : m u.(u_kern) = Ret r u.(u_kern) -> in_kern m u = Ret r u.
Proof. intros H. rewrite (in_kern_ret _ _ _ _ H). by destruct u. Qed.

Lemma page_kva_inj x y : page_kva x = page_kva y -> x = y.
Proof. unfold page_kva. clia. Qed.

Section Run.
Context {Mach : Machine} (cpu : Z).
Variables (u : user) (W : gmap Z aspace) (l fl : list Z) (ci : CpuInfo) (c : Z) (a : aspace).
Hypothesis Hw : uwf cpu u W l fl ci c a.

Lemma uw_rep : vm_rep u.(u_kern).(pm) a.
Proof. apply (vw_rep _ _ _ _ (kw_vm _ _ _ _ (uw_kern _ _ _ _ _ _ _ _ Hw)) c), Hw. Qed.

Lemma uw_user : user_rep u.(u_kern).(pm) a.
Proof. apply (kw_rep _ _ _ _ (uw_kern _ _ _ _ _ _ _ _ Hw) c), Hw. Qed.

Lemma uw_slots : a.(as_slots) = user_slots.
Proof. apply (kw_user _ _ _ _ (uw_kern _ _ _ _ _ _ _ _ Hw) c), Hw. Qed.

Lemma user_addr_run va write :
  user_addr cpu va write u = Ret (mmu u.(u_kern).(pm).(pmem) (a.(as_dir) * PGSIZE) va write) u.
Proof.
  unfold user_addr. apply in_kern_pure. unfold get_cpu. unfold bind at 1.
  rewrite (ca_cpu _ _ _ _ _ (uw_caller _ _ _ _ _ _ _ _ Hw)), (uw_cr3 _ _ _ _ _ _ _ _ Hw). by apply on_pm_pure.
Qed.

Lemma user_addr_reach va write : 0 <= va < UTOP -> user_addr cpu va write u = Ret (reach a va write) u.
Proof. intros H. rewrite user_addr_run. by rewrite (mmu_reach _ _ uw_rep uw_user uw_slots). Qed.

Lemma uvpt_run v :
  0 <= v < 1024 * 1024 -> is_Some (a.(as_tabs) !! (v / 1024)) -> uvpt cpu v u = Ret (default 0 (a.(as_maps) !! v)) u.
Proof.
  intros Hv [tp Htp]. unfold uvpt, uld32. rewrite u32_small by clia. mstep (apply user_addr_run).
  rewrite (mmu_table _ _ uw_rep uw_user v tp Hv Htp). apply in_kern_pure, on_pm_pure. unfold gets. f_equal.
  assert (v = v / 1024 * 1024 + v mod 1024) as E by zdm. assert (0 <= v mod 1024 < 1024) as Ht by zdm.
  pose proof (vr_maps _ _ uw_rep (v / 1024) (v mod 1024) tp Htp Ht) as Hm. rewrite <- E in Hm.
  pose proof (vr_zero _ _ uw_rep (v / 1024) (v mod 1024) tp Htp Ht) as Hz. rewrite <- E in Hz.
  destruct (a.(as_maps) !! v) as [w|]; [|by apply Hz]. symmetry in Hm. by apply entry_some in Hm as [-> _].
Qed.

Lemma uvpd_run i : 0 <= i < 1024 -> uvpd cpu i u = Ret (pde u.(u_kern).(pm) a i) u.
Proof.
  intros Hi. unfold uvpd, uld32. change (UVPT + Z.shiftr UVPT 12 * 4 + 4 * i) with (UVPT + 957 * PGSIZE + 4 * i).
  rewrite u32_small by clia. mstep (apply user_addr_run). rewrite (mmu_dir _ _ uw_rep uw_user i Hi). by apply in_kern_pure, on_pm_pure.
Qed.

Lemma uld8_run va w :
  0 <= va < UTOP -> a.(as_maps) !! PGNUM va = Some w -> uld8 cpu va u = Ret (ld8 u.(u_kern).(pm).(pmem) (pte_pa w va)) u.
Proof.
  intros Hva Hm. unfold uld8. mstep (by apply user_addr_reach). unfold reach. rewrite Hm. cbn [andb].
  by apply in_kern_pure, on_pm_pure.
Qed.

(** Memory with one byte changed. *)
Definition poke (pa v : Z) : user := with_pm (set_pmem (st8 u.(u_kern).(pm).(pmem) pa v) u.(u_kern).(pm)) u.

Lemma ust8_run va v w :
  0 <= va < UTOP -> a.(as_maps) !! PGNUM va = Some w -> bits_set w PTE_W = true -> ust8 cpu va v u = Ret tt (poke (pte_pa w va) v).
Proof.
  intros Hva Hm Hb. unfold ust8. mstep (by apply user_addr_reach). unfold reach. rewrite Hm, Hb. cbn [andb negb].
  apply in_kern_ret. by apply (on_pm_ret (modify _)).
Qed.

(** A new physical memory that represents the address spaces [W'] keeps [c] running. *)
Lemma uwf_set_pm p' W' l' :
  kern_wf (set_pm p' u.(u_kern)) W' l' fl ->
  exists a', W' !! c = Some a' /\ a'.(as_dir) = a.(as_dir) /\ uwf cpu (with_pm p' u) W' l' fl ci c a'.
Proof.
  intros Hk. destruct Hw as [Hk0 [Hci Hce _] Ha Hcr].
  pose proof (kw_spaces _ _ _ _ Hk0 c a Ha) as Hr. apply (kw_dom _ _ _ _ Hk0) in Hr as [e He].
  pose proof (kw_space _ _ _ _ Hk0 c e He) as H0. rewrite Ha in H0. destruct H0 as [Hst Hpg].
  pose proof (kw_space _ _ _ _ Hk c e He) as H1. destruct (W' !! c) as [a'|] eqn:E; [|done]. destruct H1 as [_ Hpg'].
  assert (a'.(as_dir) = a.(as_dir)) as Hd by (apply page_kva_inj; congruence).
  exists a'. split; [done|]. split; [done|]. split; [done| |done|by rewrite Hd]. split; [done|done|rewrite E; eauto].
Qed.
End Run.

(** ** Stores *)

(** A store to a page that an environment maps leaves the kernel's structures alone. *)
Lemma kw_poke s W l fl k a v w o b :
  kern_wf s W l fl -> W !! k = Some a -> a.(as_maps) !! v = Some w -> 0 <= o < PGSIZE ->
  kern_wf (set_pm (set_pmem (st8 s.(pm).(pmem) (pte_page w * PGSIZE + o) b) s.(pm)) s) W l fl.
Proof.
  intros Hwf Hk Hv Ho. pose proof (kw_vm _ _ _ _ Hwf) as Hvm. destruct (vw_mapped _ _ _ _ Hvm k a v w Hk Hv) as [_ Hno].
  set (p' := set_pmem _ _).
  assert (same_outside (fun q => q = pte_page w) s.(pm).(pmem) p'.(pmem)) as Hm.
  { intros x Hx. simpl. rewrite ld8_st8. destruct (Z.eqb_spec (pte_page w * PGSIZE + o) x) as [<-|]; [|done]. exfalso. apply Hx. czdm. }
  assert (forall i c, W !! i = Some c -> forall q, owns c q -> q <> pte_page w) as Hne.
  { intros i c' Hi q Hq ->. apply Hno. by exists i, c'. }
  apply (kw_set_pm s W l fl p' W l Hwf); try done.
  - destruct Hvm as [Ha Hrep Hdj Hmp Href]. split; try done; [by destruct Ha|].
    intros i c' Hi. apply (vm_rep_frame _ s.(pm) p' c' (Hrep i c' Hi) eq_refl Hm). by apply (Hne i).
  - intros i a' Ha'. eauto.
  - intros i c' Hi. apply (user_rep_frame _ s.(pm) p' c' (vw_rep _ _ _ _ Hvm i c' Hi) (kw_rep _ _ _ _ Hwf i c' Hi) Hm).
    intros E. apply (Hne i c' Hi c'.(as_dir)); [by left|done].
Qed.

(** ** System calls *)

Lemma as_page_map_answer es c W l srcenvid srcva dstenvid dstva perm :
  - E_IPC_NOT_RECV <= (as_page_map es c W l srcenvid srcva dstenvid dstva perm).1.1 <= 0.
Proof. unfold as_page_map. repeat case_match; by vm_compute. Qed.

Lemma as_page_alloc_answer es c W l envid va perm : - E_IPC_NOT_RECV <= (as_page_alloc es c W l envid va perm).1.1 <= 0.
Proof. unfold as_page_alloc. repeat case_match; by vm_compute. Qed.

Lemma as_page_unmap_answer es c W l envid va : - E_IPC_NOT_RECV <= (as_page_unmap es c W l envid va).1.1 <= 0.
Proof. unfold as_page_unmap. repeat case_match; by vm_compute. Qed.

Lemma s32_u32 x : - 2 ^ 31 <= x < 2 ^ 31 -> s32 (u32 x) = x.
Proof. intros H. unfold s32. rewrite u32_idem. unfold u32. bcase; zdm. Qed.

Section Calls.
Context {Mach : Machine} (cpu : Z).
Hypothesis uninit_nonzero : forall pgdir va, uninit_ptep pgdir va <> 0.
Variables (u : user) (W : gmap Z aspace) (l fl : list Z) (ci : CpuInfo) (c : Z) (a : aspace).
Hypothesis Hw : uwf cpu u W l fl ci c a.

Lemma usyscall_ret num chk a1 a2 a3 a4 a5 r k :
  syscall cpu num (u32 a1) (u32 a2) (u32 a3) (u32 a4) (u32 a5) u.(u_kern) = Ret r k ->
  - 2 ^ 31 <= r < 2 ^ 31 -> chk = false \/ r <= 0 -> usyscall cpu num chk a1 a2 a3 a4 a5 u = Ret r (set_u_kern k u).
Proof.
  intros H Hr Hc. unfold usyscall. mstep (by apply in_kern_ret). rewrite s32_small by done.
  destruct Hc as [-> |Hle]; [done|]. rewrite (proj2 (Z.ltb_ge 0 r)) by lia. by rewrite andb_false_r.
Qed.

(** A call whose effect is the abstract one of [SysMem]. *)
Lemma usys_does num a1 a2 a3 a4 a5 m r W' l' (Q : pmap -> Prop) :
  does u.(u_kern) W l fl m (r, W', l') Q -> - E_IPC_NOT_RECV <= r <= 0 ->
  syscall cpu num (u32 a1) (u32 a2) (u32 a3) (u32 a4) (u32 a5) = m ->
  exists p' a', usyscall cpu num true a1 a2 a3 a4 a5 u = Ret r (with_pm p' u) /\
    W' !! c = Some a' /\ a'.(as_dir) = a.(as_dir) /\ uwf cpu (with_pm p' u) W' l' fl ci c a' /\
    vm_frame (fun p => owned W p \/ p ∈ l) u.(u_kern).(pm) p' /\ Q p'.
Proof.
  intros (p' & Hrun & Hk & Hf & HQ) Hr Hm. destruct (uwf_set_pm cpu u W l fl ci c a Hw p' W' l' Hk) as (a' & Ha' & Hd & Hw').
  exists p', a'. split; [|exact (conj Ha' (conj Hd (conj Hw' (conj Hf HQ))))]. apply usyscall_ret; [by rewrite Hm| |right; lia]. revert Hr. unfold E_IPC_NOT_RECV. lia.
Qed.

Lemma usys_page_map_run srcenv srcva dstenv dstva perm r W' l' :
  - 2 ^ 31 <= srcenv < 2 ^ 31 -> - 2 ^ 31 <= dstenv < 2 ^ 31 -> 0 <= srcva < 2 ^ 32 -> 0 <= dstva < 2 ^ 32 -> 0 <= perm < 2 ^ 32 ->
  (forall src w, resolve u.(u_kern).(envs) (Some c) srcenv true = Some src -> entry_of W src srcva = Some w -> refs W (pte_page w) + 1 < 2 ^ 16) ->
  as_page_map u.(u_kern).(envs) c W l srcenv srcva dstenv dstva perm = (r, W', l') ->
  exists p' a', usys_page_map cpu srcenv srcva dstenv dstva perm u = Ret r (with_pm p' u) /\
    W' !! c = Some a' /\ a'.(as_dir) = a.(as_dir) /\ uwf cpu (with_pm p' u) W' l' fl ci c a' /\
    vm_frame (fun p => owned W p \/ p ∈ l) u.(u_kern).(pm) p'.
Proof.
  intros Hs Hd Hsv Hdv Hp Ho E. pose proof (as_page_map_answer u.(u_kern).(envs) c W l srcenv srcva dstenv dstva perm) as Hr. rewrite E in Hr.
  pose proof (sys_page_map_does cpu uninit_nonzero _ W l fl ci c (uw_kern _ _ _ _ _ _ _ _ Hw) (uw_caller _ _ _ _ _ _ _ _ Hw)
    srcenv srcva dstenv dstva perm ltac:(lia) ltac:(lia) Hp Ho) as Hdo. rewrite E in Hdo.
  destruct (usys_does SYS_page_map srcenv srcva dstenv dstva perm _ r W' l' _ Hdo Hr) as (p' & a' & H1 & H2 & H3 & H4 & H5 & _).
  { unfold syscall. cbn [Z.eqb SYS_cputs]. by rewrite !s32_u32, !(u32_small srcva), !(u32_small dstva), !(u32_small perm) by done. }
  by exists p', a'.
Qed.

Lemma usys_page_alloc_run envid va perm r W' l' :
  - 2 ^ 31 <= envid < 2 ^ 31 -> 0 <= va < 2 ^ 32 -> 0 <= perm < 2 ^ 32 ->
  as_page_alloc u.(u_kern).(envs) c W l envid va perm = (r, W', l') ->
  exists p' a', usys_page_alloc cpu envid va perm u = Ret r (with_pm p' u) /\
    W' !! c = Some a' /\ a'.(as_dir) = a.(as_dir) /\ uwf cpu (with_pm p' u) W' l' fl ci c a' /\
    vm_frame (fun p => owned W p \/ p ∈ l) u.(u_kern).(pm) p' /\
    (r = 0 -> forall x b, head l = Some x -> b / PGSIZE = x -> ld8 p'.(pmem) b = 0).
Proof.
  intros He Hv Hp E. pose proof (as_page_alloc_answer u.(u_kern).(envs) c W l envid va perm) as Hr. rewrite E in Hr.
  pose proof (sys_page_alloc_does cpu uninit_nonzero _ W l fl ci c (uw_kern _ _ _ _ _ _ _ _ Hw) (uw_caller _ _ _ _ _ _ _ _ Hw)
    envid va perm ltac:(lia) Hp) as Hdo. rewrite E in Hdo.
  apply (usys_does SYS_page_alloc envid va perm 0 0 _ r W' l' _ Hdo Hr).
  unfold syscall. cbn [Z.eqb SYS_cputs]. by rewrite s32_u32, (u32_small va), (u32_small perm) by done.
Qed.

Lemma usys_page_unmap_run envid va r W' l' :
  - 2 ^ 31 <= envid < 2 ^ 31 -> 0 <= va < 2 ^ 32 -> as_page_unmap u.(u_kern).(envs) c W l envid va = (r, W', l') ->
  exists p' a', usys_page_unmap cpu envid va u = Ret r (with_pm p' u) /\
    W' !! c = Some a' /\ a'.(as_dir) = a.(as_dir) /\ uwf cpu (with_pm p' u) W' l' fl ci c a' /\
    vm_frame (fun p => owned W p \/ p ∈ l) u.(u_kern).(pm) p'.
Proof.
  intros He Hv E. pose proof (as_page_unmap_answer u.(u_kern).(envs) c W l envid va) as Hr. rewrite E in Hr.
  pose proof (sys_page_unmap_does cpu uninit_nonzero _ W l fl ci c (uw_kern _ _ _ _ _ _ _ _ Hw) (uw_caller _ _ _ _ _ _ _ _ Hw)
    envid va ltac:(lia)) as Hdo. rewrite E in Hdo.
  destruct (usys_does SYS_page_unmap envid va 0 0 0 _ r W' l' _ Hdo Hr) as (p' & a' & H1 & H2 & H3 & H4 & H5 & _).
  { unfold syscall. cbn [Z.eqb SYS_cputs]. by rewrite s32_u32, (u32_small va) by done. }
  by exists p', a'.
Qed.
End Calls.

(** ** What user code sees of memory *)

(** The byte user code in [a] reads at [va]. *)
Definition ubyte (p : pmap) (a : aspace) (va : Z) : option Z := ld8 p.(pmem) <$> reach a va false.

(** Page [x] has the same bytes. *)
Definition same_page (x : Z) (p p' : pmap) : Prop := forall o, o / PGSIZE = x -> ld8 p'.(pmem) o = ld8 p.(pmem) o.

Lemma same_page_trans x p p' p'' : same_page x p p' -> same_page x p' p'' -> same_page x p p''.
Proof. intros H1 H2 o Ho. by rewrite H2, H1. Qed.

Lemma frame_page P p p' x : vm_frame P p p' -> ~ P x -> same_page x p p'.
Proof. intros Hf Hx o <-. by apply (vf_mem _ _ _ Hf). Qed.

(** A mapped page is neither a directory, a table nor free. *)
Lemma mapped_apart s W l fl j d v w :
  kern_wf s W l fl -> W !! j = Some d -> d.(as_maps) !! v = Some w -> ~ (owned W (pte_page w) \/ pte_page w ∈ l).
Proof.
  intros Hk Hj Hv. pose proof (kw_vm _ _ _ _ Hk) as Hvm. intros [H|H].
  - by apply (vw_mapped _ _ _ _ Hvm j d v w Hj Hv).
  - by apply (free_not_mapped _ _ _ _ Hvm (fun _ => Z.le_refl 0) _ j d v w H Hj Hv).
Qed.

Lemma uw_page_small cpu u W l fl ci c a v w : uwf cpu u W l fl ci c a -> a.(as_maps) !! v = Some w -> 0 <= pte_page w < 65536.
Proof.
  intros Hw Hv. pose proof (kw_npages _ _ _ _ (uw_kern _ _ _ _ _ _ _ _ Hw)).
  destruct (vw_mapped _ _ _ _ (kw_vm _ _ _ _ (uw_kern _ _ _ _ _ _ _ _ Hw)) c a v w (uw_space _ _ _ _ _ _ _ _ Hw) Hv). lia.
Qed.

Lemma pte_pa_page w va : pte_pa w va / PGSIZE = pte_page w.
Proof. unfold pte_pa. czdm. Qed.

(** Entries that show the same pages show the same bytes. *)
Lemma ubyte_same p p' a a' va :
  (forall w, a.(as_maps) !! PGNUM va = Some w -> exists w', a'.(as_maps) !! PGNUM va = Some w' /\ pte_page w' = pte_page w /\ same_page (pte_page w) p p') ->
  (a.(as_maps) !! PGNUM va = None -> a'.(as_maps) !! PGNUM va = None) ->
  ubyte p' a' va = ubyte p a va.
Proof.
  intros Hs Hn. unfold ubyte, reach. destruct (a.(as_maps) !! PGNUM va) as [w|]; [|by rewrite Hn].
  destruct (Hs w eq_refl) as (w' & -> & Hw & Hp). cbn. f_equal. unfold pte_pa. rewrite Hw. apply Hp, pte_pa_page.
Qed.

(** ** Copies of the kernel into the memory of an environment: [vput] through the page tables
    writes the bytes the environment then reads. *)

(** ** The MMU in kernel mode *)

(** Below [UTOP] the MMU leads to mapped pages only. *)
Lemma translate_mapped p a va write pa :
  vm_rep p a -> user_rep p a -> a.(as_slots) = user_slots -> 0 <= va < UTOP ->
  mmu_translate p.(pmem) (a.(as_dir) * PGSIZE) va write false = Some pa -> exists w, a.(as_maps) !! PGNUM va = Some w /\ pa = pte_pa w va.
Proof.
  intros Hr Hu Hsl Hva. assert (covers a va) as Hc by by apply covers_user. pose proof (dir_range p a Hr) as Hd. assert (0 <= va < 2 ^ 32) as Hv by clia.
  unfold mmu_translate. rewrite PTE_ADDR_page by done. fold (pde p a (PDX va)). rewrite !andb_true_r.
  destruct (bits_set (pde p a (PDX va)) PTE_P) eqn:HP; [|done]. destruct (a.(as_tabs) !! PDX va) as [tp|] eqn:Htp.
  2: { rewrite (pde_absent p a Hr Hsl) in HP; [done| |done]. rewrite <- Hsl. apply Hc. }
  destruct (pde_table p a Hr Hu _ _ Htp) as (_ & _ & ->). cbn [andb]. set (x := ld32 _ _). intros H.
  assert (bits_set x PTE_P = true /\ pa = PTE_ADDR x + PGOFF va) as [Hx ->] by (repeat case_match; simplify_eq; destruct (bits_set x PTE_P); done).
  exists x. rewrite (maps_entry p a va tp Hr Hc Htp). fold x. unfold entry. rewrite Hx. split; [done|].
  unfold pte_pa. rewrite PGOFF_mod by done. by rewrite pte_page_mul by apply ld32_range.
Qed.

(** A writable page is there for the kernel too. *)
Lemma translate_writable p a va w :
  vm_rep p a -> user_rep p a -> a.(as_slots) = user_slots -> 0 <= va < UTOP -> a.(as_maps) !! PGNUM va = Some w -> bits_set w PTE_W = true ->
  mmu_translate p.(pmem) (a.(as_dir) * PGSIZE) va true false = Some (pte_pa w va).
Proof.
  intros Hr Hu Hsl Hva Hm HW. assert (covers a va) as Hc by by apply covers_user. pose proof (dir_range p a Hr) as Hd. assert (0 <= va < 2 ^ 32) as Hv by clia.
  destruct (a.(as_tabs) !! PDX va) as [tp|] eqn:Htp; [|by rewrite (maps_no_table p a va Hr Hc Htp) in Hm].
  unfold mmu_translate. rewrite PTE_ADDR_page by done. fold (pde p a (PDX va)). destruct (pde_table p a Hr Hu _ _ Htp) as (-> & _ & ->).
  pose proof (ur_write _ _ Hu _ _ Hm HW) as HWd. rewrite (vpn_slot a) in HWd by done. rewrite HWd. cbn [andb negb orb].
  pose proof Hm as Hm'. rewrite (maps_entry p a va tp Hr Hc Htp) in Hm'. apply entry_some in Hm' as [Ew HP]. rewrite <- Ew in HP |- *. rewrite HP, HW. cbn [andb negb orb]. f_equal.
  unfold pte_pa. rewrite PGOFF_mod by done. rewrite Ew. by rewrite pte_page_mul by apply ld32_range.
Qed.

(** ** Bytes at virtual addresses *)

(** The physical address of [y] in [a]. *)
Definition upa (a : aspace) (y : Z) : Z := match a.(as_maps) !! PGNUM y with Some w => pte_pa w y | None => 0 end.

Fixpoint put_bytes (a : aspace) (va : Z) (bs : list Z) (m : mem) : mem :=
  match bs with
  | [] => m
  | b :: bs => put_bytes a (va + 1) bs (st8 m (upa a va) b)
  end.

(** A range whose pages are all mapped writable, each to a page of its own. *)
Record writable (a : aspace) (va len : Z) : Prop := {
  wr_range : 0 <= va /\ va + len <= UTOP;
  wr_page : forall y, va <= y < va + len -> page_ok a PTE_W y = true;
  wr_inj : forall y y' w w', va <= y < va + len -> va <= y' < va + len -> a.(as_maps) !! PGNUM y = Some w -> a.(as_maps) !! PGNUM y' = Some w' ->
    pte_page w = pte_page w' -> PGNUM y = PGNUM y';
}.

Lemma writable_tail a va len : writable a va (len + 1) -> 0 <= len -> writable a (va + 1) len.
Proof. intros [[H1 H2] H3 H4] Hl. split; [lia|intros y Hy; apply H3; lia|]. intros y y' w w' Hy Hy'. apply H4; lia. Qed.

Lemma upa_inj a va len y y' :
  writable a va len -> va <= y < va + len -> va <= y' < va + len -> upa a y = upa a y' -> y = y'.
Proof.
  intros [[H1 H2] Hp Hi] Hy Hy'. pose proof (Hp y Hy) as Py. pose proof (Hp y' Hy') as Py'. unfold page_ok in Py, Py'. unfold upa.
  destruct (a.(as_maps) !! PGNUM y) as [w|] eqn:E; [|done]. destruct (a.(as_maps) !! PGNUM y') as [w'|] eqn:E'; [|done]. intros Hpa.
  assert (pte_page w = pte_page w') as Hpg by (rewrite <- (pte_pa_page w y), <- (pte_pa_page w' y'); by rewrite Hpa).
  pose proof (Hi y y' w w' Hy Hy' E E' Hpg) as Hn. rewrite !PGNUM_div in Hn by clia. unfold pte_pa in Hpa. rewrite Hpg in Hpa.
  revert Hpa Hn. consts. intros. zdm.
Qed.

Lemma put_bytes_other a bs : forall va m b,
  (forall y, va <= y < va + Z.of_nat (length bs) -> upa a y <> b) -> ld8 (put_bytes a va bs m) b = ld8 m b.
Proof.
  induction bs as [|x bs IH]; intros va m b Hb; cbn [put_bytes length] in *; [done|]. rewrite IH by (intros y Hy; apply Hb; lia).
  rewrite ld8_st8. rewrite (proj2 (Z.eqb_neq _ _)); [done|]. apply Hb. lia.
Qed.

Lemma put_bytes_at a bs : forall va m y b,
  writable a va (Z.of_nat (length bs)) -> va <= y -> bs !! Z.to_nat (y - va) = Some b -> ld8 (put_bytes a va bs m) (upa a y) = u8 b.
Proof.
  induction bs as [|x bs IH]; intros va m y b Hw Hy Hb; [by rewrite lookup_nil in Hb|]. cbn [put_bytes].
  pose proof (lookup_lt_Some _ _ _ Hb) as Hlt. cbn [length] in *. replace (Z.of_nat (S (length bs))) with (Z.of_nat (length bs) + 1) in Hw by lia.
  destruct (decide (y = va)) as [->|Hne].
  - rewrite Z.sub_diag in Hb. injection Hb as <-. rewrite put_bytes_other; [by rewrite ld8_st8, Z.eqb_refl|].
    intros y Hyr E. assert (y = va) by (apply (upa_inj a va _ y va Hw); [lia|lia|done]). lia.
  - apply IH; [by apply writable_tail; [|lia]|lia|]. replace (Z.to_nat (y - va)) with (S (Z.to_nat (y - (va + 1)))) in Hb by lia. exact Hb.
Qed.

(** [vput] into an environment. *)
Lemma vput_run k a W l fl bs : forall va s,
  kern_wf s W l fl -> W !! k = Some a -> writable a va (Z.of_nat (length bs)) ->
  let s' := set_pm (set_pmem (put_bytes a va bs s.(pm).(pmem)) s.(pm)) s in
  on_pm (vput (a.(as_dir) * PGSIZE) va bs) s = Ret tt s' /\ kern_wf s' W l fl.
Proof.
  induction bs as [|b bs IH]; intros va s Hw Ha Hwr; cbn [put_bytes length] in *.
  { unfold on_pm, zoom. cbn. replace (set_pmem s.(pm).(pmem) s.(pm)) with s.(pm) by by destruct s as [[]]. by rewrite set_pm_id. }
  replace (Z.of_nat (S (length bs))) with (Z.of_nat (length bs) + 1) in Hwr by lia. pose proof (wr_range _ _ _ Hwr) as [H1 H2].
  pose proof (wr_page _ _ _ Hwr va ltac:(lia)) as Hp. unfold page_ok in Hp. destruct (a.(as_maps) !! PGNUM va) as [w|] eqn:Hm; [|done].
  assert (upa a va = pte_pa w va) as Hu by (unfold upa; by rewrite Hm).
  set (s1 := set_pm (set_pmem (st8 s.(pm).(pmem) (pte_pa w va) b) s.(pm)) s).
  assert (kern_wf s1 W l fl) as Hw1 by (apply (kw_poke s W l fl k a (PGNUM va) w (va mod PGSIZE) b Hw Ha Hm); czdm).
  destruct (IH (va + 1) s1 Hw1 Ha ltac:(apply writable_tail; [done|lia])) as [Hrun Hw2]. rewrite Hu. split; [|exact Hw2].
  revert Hrun. unfold on_pm, zoom. cbn [vput]. rewrite (translate_writable s.(pm) a va w); try done; [|apply (vw_rep _ _ _ _ (kw_vm _ _ _ _ Hw) k), Ha|
    apply (kw_rep _ _ _ _ Hw k), Ha|apply (kw_user _ _ _ _ Hw k), Ha|lia].
  rewrite u32_small by clia. subst s1. cbn [set_pm pm set_pmem pmem]. by destruct (vput _ _ _ _).
Qed.
