(* ===== verification/ForkVm.v ===== *)
(** What the loop of [fork] ([lib/fork.c]) does to the address spaces of parent and child. *)

From stdpp Require Import gmap.
From S2P Require Import Prelude Mmu Mem Console E1000 Pmap PmapBoot Env Sched Syscall.
From S2P Require Import PmapAlloc PmapVm PmapRefs UserRep EnvMem EnvSetup KernInv SysMem SysIpc SysEnv User Fork UserVm.

(** ** The entries [duppage] makes *)

Definition dups (w : Z) : bool := nonzero (Z.land w PTE_W) || nonzero (Z.land w PTE_COW) || nonzero (Z.land w PTE_SHARE).

Definition dup_perm (w : Z) : Z :=
  if nonzero (Z.land w PTE_SHARE) then Z.land w PTE_SYSCALL
  else if nonzero (Z.land w PTE_W) || nonzero (Z.land w PTE_COW) then Z.lor (Z.lor PTE_P PTE_U) PTE_COW
  else Z.lor PTE_P PTE_U.

Definition dup_child (w : Z) : Z := mkpte (pte_page w) (dup_perm w).
Definition dup_parent (w : Z) : Z := if dups w then dup_child w else w.

Lemma dup_perm_ok w : bits_set w PTE_P = true -> bits_set w PTE_U = true -> bad_perm (dup_perm w) = false.
Proof.
  unfold bits_set, dup_perm, bad_perm. rewrite !Z.eqb_eq. intros HP HU. destruct (nonzero (Z.land w PTE_SHARE)); [|by destruct (nonzero (Z.land w PTE_W) || nonzero (Z.land w PTE_COW))].
  rewrite <- !Z.land_assoc. change (Z.land PTE_SYSCALL PTE_U) with PTE_U. change (Z.land PTE_SYSCALL PTE_P) with PTE_P.
  change (Z.land PTE_SYSCALL (u32 (Z.lnot PTE_SYSCALL))) with 0. by rewrite HP, HU, Z.land_0_r.
Qed.

Lemma dup_perm_range w : 0 <= dup_perm w < PGSIZE.
Proof.
  unfold dup_perm. pose proof (land_bound w PTE_SYSCALL ltac:(by vm_compute)) as H. change PTE_SYSCALL with 3591 in *.
  destruct (nonzero _); [clia|]. by destruct (nonzero (Z.land w PTE_W) || nonzero (Z.land w PTE_COW)).
Qed.

(** Only shared pages stay writable. *)
Lemma dup_perm_W w : bits_set (dup_perm w) PTE_W = true -> nonzero (Z.land w PTE_SHARE) = true /\ bits_set w PTE_W = true.
Proof.
  unfold dup_perm. destruct (nonzero (Z.land w PTE_SHARE)); [|by destruct (nonzero (Z.land w PTE_W) || nonzero (Z.land w PTE_COW))]. intros H. split; [done|].
  revert H. unfold bits_set. rewrite <- Z.land_assoc. by change (Z.land PTE_SYSCALL PTE_W) with PTE_W.
Qed.

Lemma dup_perm_plain w : dups w = false -> dup_perm w = Z.lor PTE_P PTE_U.
Proof. unfold dups, dup_perm. intros [-> ->]%orb_false_iff. done. Qed.

Lemma flag_bit x n : 0 <= n -> nonzero (Z.land x (2 ^ n)) = bits_set x (2 ^ n).
Proof.
  intros Hn. assert (Z.land x (2 ^ n) = if Z.testbit x n then 2 ^ n else 0) as E.
  { apply Z.bits_inj'. intros m Hm. rewrite Z.land_spec, Z.pow2_bits_eqb by done. destruct (Z.eqb_spec n m) as [<-|Hne].
    - destruct (Z.testbit x n); [by rewrite Z.pow2_bits_true|by rewrite Z.bits_0].
    - rewrite andb_false_r. destruct (Z.testbit x n); [by rewrite Z.pow2_bits_false|by rewrite Z.bits_0]. }
  unfold nonzero, bits_set. rewrite E. pose proof (Z.pow_pos_nonneg 2 n ltac:(lia) Hn).
  destruct (Z.testbit x n); [rewrite Z.eqb_refl; by rewrite (proj2 (Z.eqb_neq (2 ^ n) 0)) by lia|by rewrite (proj2 (Z.eqb_neq 0 (2 ^ n))) by lia].
Qed.

(** ** Sharing a page *)

Lemma as_page_map_share es c W l srcid dstid src dst srcva dstva w perm b b' l1 :
  bad_va srcva = false -> bad_va dstva = false -> bad_perm perm = false ->
  resolve es (Some c) srcid true = Some src -> resolve es (Some c) dstid true = Some dst ->
  entry_of W src srcva = Some w -> (bits_set perm PTE_W = true -> bits_set w PTE_W = true) ->
  W !! dst = Some b -> ensure_tab b l (PDX dstva) = Some (b', l1) ->
  as_page_map es c W l srcid srcva dstid dstva perm =
    (0, <[dst := with_map (PGNUM dstva) (mkpte (pte_page w) perm) b']> W, drop_free W l1 (b.(as_maps) !! PGNUM dstva) (pte_page w)).
Proof.
  intros Hv Hv' Hp Hs Hd He Hwr Hb Ht. unfold as_page_map. rewrite Hv, Hv', Hp, Hs, Hd, He. cbn [orb].
  replace (bits_set perm PTE_W && negb (bits_set w PTE_W)) with false by (destruct (bits_set perm PTE_W); [by rewrite Hwr|done]).
  unfold as_insert. by rewrite Hb, Ht.
Qed.

(** ** Reference counts *)

(** Mapping in [b] some of what [a0] maps at most doubles the references to a page. *)
Lemma refs_two W0 W c k a0 a b0 b p :
  W0 !! c = Some a0 -> W0 !! k = Some b0 -> k <> c -> W !! c = Some a -> W !! k = Some b ->
  (forall j, j <> c -> j <> k -> W !! j = W0 !! j) -> a.(as_dir) = a0.(as_dir) -> a.(as_tabs) = a0.(as_tabs) ->
  (forall v w, a.(as_maps) !! v = Some w -> exists w0, a0.(as_maps) !! v = Some w0 /\ pte_page w = pte_page w0) ->
  (forall v w, b.(as_maps) !! v = Some w -> exists w0, a0.(as_maps) !! v = Some w0 /\ pte_page w = pte_page w0) ->
  ~ owned W p -> refs W p <= 2 * refs W0 p.
Proof.
  intros Hc Hk Hkc Hc' Hk' Ho Hd Ht Ha Hb Hno.
  assert (W = <[k := b]> (<[c := a]> W0)) as E.
  { apply map_eq. intros j. destruct (decide (j = k)) as [->|]; [by rewrite lookup_insert_eq|]. rewrite lookup_insert_ne by done.
    destruct (decide (j = c)) as [->|]; [by rewrite lookup_insert_eq|]. rewrite lookup_insert_ne by done. by apply Ho. }
  assert (forall m : gmap Z Z, (forall v w, m !! v = Some w -> exists w0, a0.(as_maps) !! v = Some w0 /\ pte_page w = pte_page w0) ->
    total (fun w => hits p (pte_page w)) m <= total (fun w => hits p (pte_page w)) a0.(as_maps)) as Hle.
  { intros m Hm. apply total_le; [intros; apply hits_nonneg|]. intros v w Hv. destruct (Hm v w Hv) as (w0 & ? & ->). by exists w0. }
  rewrite E, (refs_update _ k b0), (refs_update _ c a0) by (done || by rewrite lookup_insert_ne).
  pose proof (refs_ge W0 c a0 p Hc). pose proof (refs1_nonneg p b0). pose proof (Hle _ Ha). pose proof (Hle _ Hb).
  pose proof (refs1_parts p a0) as (Hp1 & Hp2 & Hp3).
  assert (hits p b.(as_dir) = 0) as Hbd.
  { unfold hits. rewrite (proj2 (Z.eqb_neq _ _)); [done|]. intros <-. apply Hno. exists k, b. split; [done|by left]. }
  assert (total (hits p) b.(as_tabs) = 0) as Hbt.
  { apply total_zero. intros d tp Htp. unfold hits. rewrite (proj2 (Z.eqb_neq _ _)); [done|]. intros <-.
    apply Hno. exists k, b. split; [done|right; eauto]. }
  unfold refs1 in *. rewrite Hd, Ht. lia.
Qed.

(** A present entry is a word with its present bit. *)
Lemma map_present s a v w : vm_rep s a -> a.(as_maps) !! v = Some w -> bits_set w PTE_P = true /\ 0 <= w < 2 ^ 32.
Proof.
  intros Hr Hv. destruct (vr_maps_dom _ _ Hr v w Hv) as [tp Htp].
  pose proof (vr_maps _ _ Hr (v / 1024) (v mod 1024) tp Htp ltac:(zdm)) as H. replace (v / 1024 * 1024 + v mod 1024) with v in H by zdm.
  rewrite Hv in H. symmetry in H. apply entry_some in H as [-> Hb]. split; [done|apply ld32_range].
Qed.

(** A directory that lacks a table of another has fewer. *)
Lemma missing_tab (m m' : gmap Z Z) d : dom m ⊆ dom m' -> m !! d = None -> is_Some (m' !! d) -> (size m < size m')%nat.
Proof.
  intros Hs Hd Hd'. rewrite <- !(size_dom (D := gset Z)). apply subset_size. split; [done|]. intros Hs'.
  apply elem_of_dom in Hd'. apply Hs', elem_of_dom in Hd'. rewrite Hd in Hd'. by destruct Hd'.
Qed.

Definition upd (f : Z -> option Z) (v w : Z) : Z -> option Z := fun x => if x =? v then Some w else f x.

Lemma with_pm_twice p q u : with_pm p (with_pm q u) = with_pm p u.
Proof. done. Qed.

(** The address of a page below [UTOP]. *)
Lemma page_va v :
  0 <= v < PGNUM UTOP -> u32 (v * PGSIZE) = v * PGSIZE /\ bad_va (v * PGSIZE) = false /\ PGNUM (v * PGSIZE) = v /\
    PDX (v * PGSIZE) = v / 1024 /\ 0 <= v * PGSIZE < 2 ^ 32.
Proof.
  change (PGNUM UTOP) with 977920. intros Hv. assert (0 <= v * PGSIZE < UTOP) as Hr by clia.
  assert (0 <= v * PGSIZE < 2 ^ 32) as Hr32 by clia. split; [by apply u32_small|]. split; [|split; [|split; [|done]]].
  - unfold bad_va. rewrite (proj2 (Z.leb_gt _ _)) by lia. rewrite Z.mod_mul by done. done.
  - rewrite PGNUM_div by done. czdm.
  - rewrite PDX_div by done. czdm.
Qed.

(** ** The loop *)

Section Loop.
Context {Mach : Machine} {Prog : Program} (cpu : Z).
Hypothesis uninit_nonzero : forall pgdir va, uninit_ptep pgdir va <> 0.
Variables (u0 : user) (W0 : gmap Z aspace) (l0 fl : list Z) (ci : CpuInfo) (c k envid : Z) (a0 b0 : aspace).
Hypothesis Hw0 : uwf cpu u0 W0 l0 fl ci c a0.
Hypothesis Hb0 : W0 !! k = Some b0.
Hypothesis Hkc : k <> c.
Hypothesis Hchild : resolve u0.(u_kern).(envs) (Some c) envid true = Some k.
Hypothesis Henvid : - 2 ^ 31 <= envid < 2 ^ 31.
Hypothesis Hrefs : forall v w, a0.(as_maps) !! v = Some w -> 2 * refs W0 (pte_page w) + 1 < 2 ^ 16.
Hypothesis Hroom : (size a0.(as_tabs) <= length l0)%nat.

(** What holds in the middle: [W], [l] are the address spaces and free pages, [a] and [b]
    those of parent and child, whose entries are [fa] and [fb]. *)
Record dupping (fa fb : Z -> option Z) (u : user) (W : gmap Z aspace) (l : list Z) (a b : aspace) : Prop := {
  dp_uwf : uwf cpu u W l fl ci c a;
  dp_user : u = with_pm u.(u_kern).(pm) u0;
  dp_child : W !! k = Some b;
  dp_others : forall j, j <> c -> j <> k -> W !! j = W0 !! j;
  dp_dir : a.(as_dir) = a0.(as_dir);
  dp_tabs : a.(as_tabs) = a0.(as_tabs);
  dp_pmaps : forall v, a.(as_maps) !! v = fa v;
  dp_cmaps : forall v, b.(as_maps) !! v = fb v;
  dp_sub : dom b.(as_tabs) ⊆ dom a0.(as_tabs);
  dp_count : (length l + size b.(as_tabs) = length l0)%nat;
  dp_pages : forall p, owned W p \/ p ∈ l -> owned W0 p \/ p ∈ l0;
  dp_frame : vm_frame (fun p => owned W0 p \/ p ∈ l0) u0.(u_kern).(pm) u.(u_kern).(pm);
}.

(** Entries of the parent and of the child that show the pages of [a0]. *)
Definition shows (f : Z -> option Z) : Prop :=
  forall v w, f v = Some w -> exists w0, a0.(as_maps) !! v = Some w0 /\ pte_page w = pte_page w0.

Lemma dupping_refs fa fb u W l a b v w :
  dupping fa fb u W l a b -> shows fa -> shows fb -> a0.(as_maps) !! v = Some w -> fa v = Some w ->
  refs W (pte_page w) + 1 < 2 ^ 16.
Proof.
  intros H Ha Hb Hv Hf. pose proof (Hrefs v w Hv) as Hr. pose proof (dp_uwf _ _ _ _ _ _ _ H) as Hw.
  pose proof (kw_vm _ _ _ _ (uw_kern _ _ _ _ _ _ _ _ Hw)) as Hvm.
  assert (a.(as_maps) !! v = Some w) as Hav by by rewrite (dp_pmaps _ _ _ _ _ _ _ H).
  destruct (vw_mapped _ _ _ _ Hvm c a v w (uw_space _ _ _ _ _ _ _ _ Hw) Hav) as [_ Hno].
  pose proof (refs_two W0 W c k a0 a b0 b (pte_page w) (uw_space _ _ _ _ _ _ _ _ Hw0) Hb0 Hkc (uw_space _ _ _ _ _ _ _ _ Hw)
    (dp_child _ _ _ _ _ _ _ H) (dp_others _ _ _ _ _ _ _ H) (dp_dir _ _ _ _ _ _ _ H) (dp_tabs _ _ _ _ _ _ _ H)) as Hle.
  enough (refs W (pte_page w) <= 2 * refs W0 (pte_page w)) by lia. apply Hle; [| |done].
  - intros v' w'. rewrite (dp_pmaps _ _ _ _ _ _ _ H). apply Ha.
  - intros v' w'. rewrite (dp_cmaps _ _ _ _ _ _ _ H). apply Hb.
Qed.

(** The child gets the page of entry [w]. *)
Lemma child_step fa fb u W l a b v w :
  dupping fa fb u W l a b -> shows fa -> shows fb -> 0 <= v < PGNUM UTOP ->
  a0.(as_maps) !! v = Some w -> fa v = Some w -> fb v = None ->
  exists u' W' l' b', usys_page_map cpu 0 (v * PGSIZE) envid (v * PGSIZE) (dup_perm w) u = Ret 0 u' /\
    dupping fa (upd fb v (dup_child w)) u' W' l' a b'.
Proof.
  intros H Ha Hb Hv Hw Hfa Hfb. destruct (page_va v Hv) as (_ & Hbv & Hpn & Hpd & Hr).
  pose proof H as [Hu Hus Hk Ho Hd Ht Hpm Hcm Hsub Hcnt Hpg Hf].
  assert (a.(as_maps) !! v = Some w) as Hav by by rewrite Hpm. pose proof (uw_rep cpu u W l fl ci c a Hu) as Hrep.
  destruct (map_present _ _ _ _ Hrep Hav) as [HP Hwr]. pose proof (ur_map _ _ (uw_user cpu u W l fl ci c a Hu) v w Hav) as HU.
  assert (is_Some (a0.(as_tabs) !! (v / 1024))) as Htab by (rewrite <- Ht; by apply (vr_maps_dom _ _ Hrep v w)).
  assert (exists b1 l1, ensure_tab b l (v / 1024) = Some (b1, l1) /\ b1.(as_maps) = b.(as_maps) /\ dom b1.(as_tabs) ⊆ dom a0.(as_tabs) /\
    (length l1 + size b1.(as_tabs) = length l0)%nat /\ (forall p, owns b1 p \/ p ∈ l1 -> owns b p \/ p ∈ l))
    as (b1 & l1 & He & Hm1 & Hs1 & Hc1 & Hp1).
  { unfold ensure_tab. destruct (b.(as_tabs) !! (v / 1024)) eqn:Eb; [by exists b, l|].
    pose proof (missing_tab _ _ _ Hsub Eb Htab). destruct l as [|x l1]; [simpl in Hcnt; lia|].
    eexists _, l1. split; [done|]. split; [done|]. split; [|split].
    - simpl. rewrite dom_insert_L. apply union_subseteq. split; [|done]. apply singleton_subseteq_l. by apply elem_of_dom.
    - simpl. rewrite map_size_insert_None by done. simpl in Hcnt. lia.
    - intros p [[->|[d' Hd']]|Hp]; [left; by left| |right; by right]. simpl in Hd'.
      apply lookup_insert_Some in Hd' as [[_ <-]|[_ Hd']]; [right; left|left; right; eauto]. }
  rewrite <- Hpd in He.
  assert (envs (u_kern u) = envs (u_kern u0)) as Henvs by by rewrite Hus.
  pose proof (as_page_map_share u.(u_kern).(envs) c W l 0 envid c k (v * PGSIZE) (v * PGSIZE) w (dup_perm w) b b1 l1 Hbv Hbv (dup_perm_ok w HP HU) eq_refl
    ltac:(by rewrite Henvs) ltac:(unfold entry_of; rewrite (uw_space _ _ _ _ _ _ _ _ Hu), Hpn; exact Hav)
    (fun HW => proj2 (dup_perm_W w HW)) Hk He) as Hmap.
  rewrite Hpn, Hcm, Hfb in Hmap. cbn [drop_free] in Hmap.
  assert (forall src w', resolve u.(u_kern).(envs) (Some c) 0 true = Some src -> entry_of W src (v * PGSIZE) = Some w' ->
    refs W (pte_page w') + 1 < 2 ^ 16) as Hov.
  { intros src w' [= <-]. unfold entry_of. rewrite (uw_space _ _ _ _ _ _ _ _ Hu), Hpn. simpl. rewrite Hav. intros [= <-].
    by apply (dupping_refs fa fb u W l a b v w). }
  destruct (usys_page_map_run cpu uninit_nonzero u W l fl ci c a Hu 0 (v * PGSIZE) envid (v * PGSIZE) (dup_perm w) _ _ _
    ltac:(lia) Henvid Hr Hr ltac:(pose proof (dup_perm_range w); clia) Hov Hmap) as (p' & a' & Hrun & Ha' & Hd' & Hu' & Hf').
  rewrite lookup_insert_ne in Ha' by done. rewrite (uw_space _ _ _ _ _ _ _ _ Hu) in Ha'. injection Ha' as <-.
  eexists _, _, _, (with_map v (dup_child w) b1). split; [exact Hrun|]. split; try done.
  - change (with_pm p' u = with_pm p' u0). by rewrite Hus.
  - apply lookup_insert_eq.
  - intros j Hjc Hjk. rewrite lookup_insert_ne by done. by apply Ho.
  - intros x. unfold upd. cbn [as_maps with_map]. rewrite Hm1. destruct (Z.eqb_spec x v) as [->|]; [apply lookup_insert_eq|].
    by rewrite lookup_insert_ne.
  - intros p [(j & d & Hj & Hod)|Hp].
    + apply lookup_insert_Some in Hj as [[<- <-]|[_ Hj]]; [|apply Hpg; left; by exists j, d].
      destruct (Hp1 p) as [?|?]; [left; exact Hod| |apply Hpg; by right]. apply Hpg. left. by exists k, b.
    + destruct (Hp1 p) as [?|?]; [by right| |apply Hpg; by right]. apply Hpg. left. by exists k, b.
  - apply (vm_frame_trans _ _ u.(u_kern).(pm)); [done|]. apply (vm_frame_mono _ _ _ _ Hf'). exact Hpg.
Qed.

(** The parent's own entry becomes the one the child got. *)
Lemma parent_step fa fb u W l a b v w :
  dupping fa fb u W l a b -> shows fa -> shows fb -> 0 <= v < PGNUM UTOP ->
  a0.(as_maps) !! v = Some w -> fa v = Some w ->
  exists u' W' a', usys_page_map cpu 0 (v * PGSIZE) 0 (v * PGSIZE) (dup_perm w) u = Ret 0 u' /\
    dupping (upd fa v (dup_child w)) fb u' W' l a' b.
Proof.
  intros H Ha Hb Hv Hw Hfa. destruct (page_va v Hv) as (_ & Hbv & Hpn & Hpd & Hr).
  pose proof H as [Hu Hus Hk Ho Hd Ht Hpm Hcm Hsub Hcnt Hpg Hf].
  assert (a.(as_maps) !! v = Some w) as Hav by by rewrite Hpm. pose proof (uw_rep cpu u W l fl ci c a Hu) as Hrep.
  destruct (map_present _ _ _ _ Hrep Hav) as [HP Hwr]. pose proof (ur_map _ _ (uw_user cpu u W l fl ci c a Hu) v w Hav) as HU.
  assert (ensure_tab a l (PDX (v * PGSIZE)) = Some (a, l)) as He.
  { rewrite Hpd. unfold ensure_tab. by destruct (vr_maps_dom _ _ Hrep v w Hav) as [tp ->]. }
  assert (entry_of W c (v * PGSIZE) = Some w) as Hen by (unfold entry_of; rewrite (uw_space _ _ _ _ _ _ _ _ Hu), Hpn; exact Hav).
  pose proof (as_page_map_share u.(u_kern).(envs) c W l 0 0 c c (v * PGSIZE) (v * PGSIZE) w (dup_perm w) a a l Hbv Hbv (dup_perm_ok w HP HU) eq_refl eq_refl
    Hen (fun HW => proj2 (dup_perm_W w HW)) (uw_space _ _ _ _ _ _ _ _ Hu) He) as Hmap.
  rewrite Hpn, Hav in Hmap. unfold drop_free in Hmap. rewrite hits_self in Hmap.
  pose proof (maps_refs1 a v w Hav). pose proof (refs_ge W c a (pte_page w) (uw_space _ _ _ _ _ _ _ _ Hu)).
  rewrite (proj2 (Z.eqb_neq _ 1)) in Hmap by lia.
  assert (forall src w', resolve u.(u_kern).(envs) (Some c) 0 true = Some src -> entry_of W src (v * PGSIZE) = Some w' ->
    refs W (pte_page w') + 1 < 2 ^ 16) as Hov.
  { intros src w' [= <-]. rewrite Hen. intros [= <-]. by apply (dupping_refs fa fb u W l a b v w). }
  destruct (usys_page_map_run cpu uninit_nonzero u W l fl ci c a Hu 0 (v * PGSIZE) 0 (v * PGSIZE) (dup_perm w) _ _ _
    ltac:(lia) ltac:(lia) Hr Hr ltac:(pose proof (dup_perm_range w); clia) Hov Hmap) as (p' & a' & Hrun & Ha' & Hd' & Hu' & Hf').
  rewrite lookup_insert_eq in Ha'. injection Ha' as <-.
  eexists _, _, _. split; [exact Hrun|]. split; try done.
  - change (with_pm p' u = with_pm p' u0). by rewrite Hus.
  - by rewrite lookup_insert_ne.
  - intros j Hjc Hjk. rewrite lookup_insert_ne by done. by apply Ho.
  - intros x. unfold upd. cbn [as_maps with_map]. destruct (Z.eqb_spec x v) as [->|]; [apply lookup_insert_eq|].
    by rewrite lookup_insert_ne.
  - intros p [(j & d & Hj & Hod)|Hp]; [|apply Hpg; by right].
    apply lookup_insert_Some in Hj as [[<- <-]|[_ Hj]]; apply Hpg; left; [exists c, a; split; [apply Hu|exact Hod]|by exists j, d].
  - apply (vm_frame_trans _ _ u.(u_kern).(pm)); [done|]. apply (vm_frame_mono _ _ _ _ Hf'). exact Hpg.
Qed.

(** The entries after the pages below [i] were duplicated. *)
Definition fa_at (i v : Z) : option Z := if v <? i then dup_parent <$> a0.(as_maps) !! v else a0.(as_maps) !! v.
Definition fb_at (i v : Z) : option Z := if v <? i then dup_child <$> a0.(as_maps) !! v else None.

Lemma page_small v w : a0.(as_maps) !! v = Some w -> 0 <= pte_page w < 65536.
Proof.
  intros Hv. pose proof (kw_vm _ _ _ _ (uw_kern _ _ _ _ _ _ _ _ Hw0)) as Hvm. pose proof (kw_npages _ _ _ _ (uw_kern _ _ _ _ _ _ _ _ Hw0)).
  destruct (vw_mapped _ _ _ _ Hvm c a0 v w (uw_space _ _ _ _ _ _ _ _ Hw0) Hv). lia.
Qed.

Lemma shows_child v w : a0.(as_maps) !! v = Some w -> pte_page (dup_child w) = pte_page w.
Proof. intros Hv. exact (mkpte_page _ _ (page_small v w Hv) (dup_perm_range w)). Qed.

Lemma fa_shows i : shows (fa_at i).
Proof.
  intros v w. unfold fa_at. destruct (a0.(as_maps) !! v) as [w0|] eqn:E; [|by destruct (v <? i)]. intros Hw. exists w0. split; [done|].
  destruct (v <? i); injection Hw as <-; [|done]. unfold dup_parent. destruct (dups w0); [by apply (shows_child v)|done].
Qed.

Lemma fb_shows i : shows (fb_at i).
Proof.
  intros v w. unfold fb_at. destruct (v <? i); [|done]. destruct (a0.(as_maps) !! v) as [w0|] eqn:E; [|done]. intros [= <-].
  exists w0. split; [done|by apply (shows_child v)].
Qed.

Lemma shows_upd f v w : shows f -> a0.(as_maps) !! v = Some w -> shows (upd f v (dup_child w)).
Proof.
  intros Hf Hv x y. unfold upd. destruct (Z.eqb_spec x v) as [->|]; [|apply Hf]. intros [= <-]. exists w. split; [done|by apply (shows_child v)].
Qed.

Lemma dupping_ext fa fb fa' fb' u W l a b :
  dupping fa fb u W l a b -> (forall v, fa v = fa' v) -> (forall v, fb v = fb' v) -> dupping fa' fb' u W l a b.
Proof. intros [] Ha Hb. split; try done; intros v; [by rewrite <- Ha|by rewrite <- Hb]. Qed.

Lemma fa_next i w v : a0.(as_maps) !! i = Some w -> fa_at (i + 1) v = (if dups w then upd (fa_at i) i (dup_child w) else fa_at i) v.
Proof.
  intros Hi. unfold fa_at. destruct (Z.eqb_spec v i) as [->|Hne].
  - rewrite (proj2 (Z.ltb_lt i (i + 1))), Hi by lia. simpl. unfold dup_parent.
    destruct (dups w); [unfold upd; by rewrite Z.eqb_refl|by rewrite (proj2 (Z.ltb_ge i i)), Hi by lia].
  - assert ((v <? i + 1) = (v <? i)) as -> by (destruct (Z.ltb_spec v i), (Z.ltb_spec v (i + 1)); lia || done).
    destruct (dups w); [unfold upd; by rewrite (proj2 (Z.eqb_neq v i))|done].
Qed.

Lemma fb_next i w v : a0.(as_maps) !! i = Some w -> fb_at (i + 1) v = upd (fb_at i) i (dup_child w) v.
Proof.
  intros Hi. unfold fb_at, upd. destruct (Z.eqb_spec v i) as [->|].
  - rewrite (proj2 (Z.ltb_lt _ _)), Hi by lia. done.
  - by destruct (Z.ltb_spec v i), (Z.ltb_spec v (i + 1)); try lia.
Qed.

Lemma none_next i v : a0.(as_maps) !! i = None -> fa_at i v = fa_at (i + 1) v /\ fb_at i v = fb_at (i + 1) v.
Proof.
  intros Hi. unfold fa_at, fb_at. destruct (Z.ltb_spec v i), (Z.ltb_spec v (i + 1)); try lia; try done.
  replace v with i by lia. by rewrite Hi.
Qed.

Lemma fa_now i : fa_at i i = a0.(as_maps) !! i.
Proof. unfold fa_at. by rewrite (proj2 (Z.ltb_ge i i)) by lia. Qed.

Lemma fb_now i : fb_at i i = None.
Proof. unfold fb_at. by rewrite (proj2 (Z.ltb_ge i i)) by lia. Qed.

Lemma duppage_ok i u W l a b w :
  dupping (fa_at i) (fb_at i) u W l a b -> 0 <= i < PGNUM UTOP -> a0.(as_maps) !! i = Some w ->
  exists u' W' l' a' b', duppage cpu envid i u = Ret 0 u' /\ dupping (fa_at (i + 1)) (fb_at (i + 1)) u' W' l' a' b'.
Proof.
  intros H Hi Hw. pose proof (dp_uwf _ _ _ _ _ _ _ H) as Hu. destruct (page_va i Hi) as (Hu32 & _).
  assert (a.(as_maps) !! i = Some w) as Hai by (rewrite (dp_pmaps _ _ _ _ _ _ _ H), fa_now; done).
  destruct (child_step (fa_at i) (fb_at i) u W l a b i w H (fa_shows i) (fb_shows i) Hi Hw ltac:(by rewrite fa_now) (fb_now i))
    as (u1 & W1 & l1 & b1 & Hrun1 & H1).
  assert (uvpt cpu i u = Ret w u) as Hpt.
  { rewrite (uvpt_run cpu u W l fl ci c a Hu); [by rewrite Hai|revert Hi; change (PGNUM UTOP) with 977920; lia|].
    by apply (vr_maps_dom _ _ (uw_rep cpu u W l fl ci c a Hu) i w). }
  unfold duppage. mstep (exact Hpt). fold (dups w). rewrite Hu32. destruct (dups w) eqn:Ed.
  - destruct (parent_step (fa_at i) (upd (fb_at i) i (dup_child w)) u1 W1 l1 a b1 i w H1 (fa_shows i) (shows_upd _ _ _ (fb_shows i) Hw) Hi Hw
      ltac:(by rewrite fa_now)) as (u2 & W2 & a2 & Hrun2 & H2).
    exists u2, W2, l1, a2, b1. split.
    + fold (dup_perm w). mstep (exact Hrun1). change (0 <? 0) with false. cbv iota. mstep (exact Hrun2). done.
    + apply (dupping_ext _ _ _ _ _ _ _ _ _ H2); intros v; [by rewrite (fa_next i w), Ed|by rewrite (fb_next i w)].
  - exists u1, W1, l1, a, b1. split.
    + rewrite <- (dup_perm_plain w Ed). mstep (exact Hrun1). done.
    + apply (dupping_ext _ _ _ _ _ _ _ _ _ H1); intros v; [by rewrite (fa_next i w), Ed|by rewrite (fb_next i w)].
Qed.

(** One turn of the loop. *)
Lemma fork_turn i u W l a b :
  dupping (fa_at i) (fb_at i) u W l a b -> 0 <= i < PGNUM UTOP ->
  exists u' W' l' a' b', (let* d := uvpd cpu (PDX (u32 (i * PGSIZE))) in
      if nonzero (Z.land d PTE_P) then
        let* w := uvpt cpu i in
        if nonzero (Z.land w (Z.lor PTE_P PTE_U)) then duppage cpu envid i ;;; ret tt else ret tt
      else ret tt) u = Ret tt u' /\ dupping (fa_at (i + 1)) (fb_at (i + 1)) u' W' l' a' b'.
Proof.
  intros H Hi. pose proof (dp_uwf _ _ _ _ _ _ _ H) as Hu. destruct (page_va i Hi) as (-> & _ & Hpn & -> & _).
  assert (0 <= i < 977920) as Hi' by (revert Hi; by change (PGNUM UTOP) with 977920).
  pose proof (dp_pmaps _ _ _ _ _ _ _ H i) as Hai. rewrite fa_now in Hai. pose proof (uw_rep cpu u W l fl ci c a Hu) as Hrep.
  mstep (apply (uvpd_run cpu u W l fl ci c a Hu); zdm). change PTE_P with (2 ^ 0) at 1. rewrite flag_bit by lia. change (2 ^ 0) with PTE_P.
  destruct (a.(as_tabs) !! (i / 1024)) as [tp|] eqn:Et.
  2: { rewrite (pde_absent _ a Hrep (uw_slots cpu u W l fl ci c a Hu) (i / 1024)); [|unfold user_slots; change (UTOP / PTSIZE) with 955;
         apply andb_true_iff; split; [apply Z.leb_le; zdm|apply Z.ltb_lt; zdm]|exact Et].
       exists u, W, l, a, b. split; [done|]. assert (a0.(as_maps) !! i = None) as Hn.
       { rewrite <- Hai. destruct (a.(as_maps) !! i) as [w|] eqn:E; [|done]. apply (vr_maps_dom _ _ Hrep) in E. rewrite Et in E. by destruct E. }
       apply (dupping_ext _ _ _ _ _ _ _ _ _ H); intros v; apply (none_next i v Hn). }
  destruct (pde_table _ a Hrep (uw_user cpu u W l fl ci c a Hu) _ _ Et) as (-> & _).
  mstep (apply (uvpt_run cpu u W l fl ci c a Hu); [lia|by rewrite Et]). rewrite Hai. destruct (a0.(as_maps) !! i) as [w|] eqn:Ew.
  - destruct (duppage_ok i u W l a b w H Hi Ew) as (u' & W' & l' & a' & b' & Hrun & H'). exists u', W', l', a', b'. split; [|done].
    destruct (map_present _ _ _ _ Hrep Hai) as [HP _]. change (default 0 (Some w)) with w. replace (nonzero _) with true; [by mstep (exact Hrun)|].
    symmetry. unfold nonzero. apply negb_true_iff, Z.eqb_neq. rewrite Z.land_lor_distr_r. unfold bits_set in HP. apply Z.eqb_eq in HP. rewrite HP.
    intros [? _]%Z.lor_eq_0_iff. done.
  - exists u, W, l, a, b. split; [done|]. apply (dupping_ext _ _ _ _ _ _ _ _ _ H); intros v; apply (none_next i v Ew).
Qed.

Hypothesis Hempty : b0.(as_tabs) = ∅ /\ b0.(as_maps) = ∅.

Lemma low_unmapped v : v < 0 -> a0.(as_maps) !! v = None.
Proof.
  intros Hv. pose proof (uw_rep _ _ _ _ _ _ _ _ Hw0) as Hr. destruct (a0.(as_maps) !! v) as [w|] eqn:E; [exfalso|done].
  apply (vr_maps_dom _ _ Hr) in E. apply (tab_range _ _ _ Hr) in E. zdm.
Qed.

Lemma dupping_start : dupping (fa_at 0) (fb_at 0) u0 W0 l0 a0 b0.
Proof.
  destruct Hempty as [Ht Hm]. split; [exact Hw0|by destruct u0 as [[]]|exact Hb0|done|done|done| | | | |done|apply vm_frame_refl].
  - intros v. unfold fa_at. destruct (Z.ltb_spec v 0) as [Hv|]; [|done]. by rewrite low_unmapped.
  - intros v. unfold fb_at. rewrite Hm, lookup_empty. destruct (Z.ltb_spec v 0) as [Hv|]; [|done]. by rewrite low_unmapped.
  - rewrite Ht, dom_empty_L. apply empty_subseteq.
  - rewrite Ht, map_size_empty. lia.
Qed.

Lemma fork_loop_ok :
  exists u W l a b, for_n (Z.to_nat (PGNUM UXSTACKTOP - 2)) 0 (fun pn =>
      let* d := uvpd cpu (PDX (u32 (pn * PGSIZE))) in
      if nonzero (Z.land d PTE_P) then
        let* w := uvpt cpu pn in
        if nonzero (Z.land w (Z.lor PTE_P PTE_U)) then duppage cpu envid pn ;;; ret tt else ret tt
      else ret tt) u0 = Ret tt u /\ dupping (fa_at (PGNUM UXSTACKTOP - 2)) (fb_at (PGNUM UXSTACKTOP - 2)) u W l a b.
Proof.
  destruct (for_n_inv (fun i u => exists W l a b, dupping (fa_at i) (fb_at i) u W l a b) (Z.to_nat (PGNUM UXSTACKTOP - 2)) 0 (fun pn =>
      let* d := uvpd cpu (PDX (u32 (pn * PGSIZE))) in
      if nonzero (Z.land d PTE_P) then
        let* w := uvpt cpu pn in
        if nonzero (Z.land w (Z.lor PTE_P PTE_U)) then duppage cpu envid pn ;;; ret tt else ret tt
      else ret tt) u0) as (u & Hrun & W & l & a & b & H).
  - exists W0, l0, a0, b0. exact dupping_start.
  - intros i u Hi (W & l & a & b & H). destruct (fork_turn i u W l a b H) as (u' & W' & l' & a' & b' & Hrun & H').
    + revert Hi. change (PGNUM UXSTACKTOP) with 977920. change (PGNUM UTOP) with 977920. lia.
    + exists u'. split; [exact Hrun|]. by exists W', l', a', b'.
  - exists u, W, l, a, b. split; [exact Hrun|]. by rewrite Z2Nat.id in H.
Qed.
End Loop.
