(* ===== verification/ForkRun.v ===== *)
(** [set_pgfault_handler] ([lib/pgfault.c]) and [fork] ([lib/fork.c]) from beginning to end. *)

From stdpp Require Import gmap.
From S2P Require Import Prelude Mmu Mem Console E1000 Pmap PmapBoot Env Sched Syscall.
From S2P Require Import PmapAlloc PmapVm PmapRefs UserRep EnvMem EnvSetup KernInv SysMem SysIpc SysEnv User Fork UserVm ForkVm.

(** The page of the user exception stack, and the flags of a private page. *)
Definition ux_page : Z := PGNUM (UXSTACKTOP - PGSIZE).
Definition rw : Z := Z.lor (Z.lor PTE_P PTE_U) PTE_W.

Lemma as_page_alloc_fresh es c W x l envid i va perm b b' l1 :
  bad_va va = false -> bad_perm perm = false -> resolve es (Some c) envid true = Some i ->
  W !! i = Some b -> ensure_tab b l (PDX va) = Some (b', l1) ->
  as_page_alloc es c W (x :: l) envid va perm =
    (0, <[i := with_map (PGNUM va) (mkpte x perm) b']> W, drop_free W l1 (b.(as_maps) !! PGNUM va) x).
Proof. intros Hv Hp Hr Hb He. unfold as_page_alloc, as_insert. by rewrite Hv, Hp, Hr, Hb, He. Qed.

(** With a free page a table can be had. *)
Lemma ensure_tab_room a l d :
  (1 <= length l)%nat -> exists a' l', ensure_tab a l d = Some (a', l') /\ a'.(as_maps) = a.(as_maps) /\ a'.(as_dir) = a.(as_dir) /\
    (size a'.(as_tabs) <= S (size a.(as_tabs)))%nat /\ (length l <= S (length l'))%nat /\ (forall p, p ∈ l' -> p ∈ l) /\
    (forall p, owns a' p -> owns a p \/ p ∈ l).
Proof.
  intros Hl. unfold ensure_tab. destruct (a.(as_tabs) !! d) as [tp|] eqn:E.
  - exists a, l. repeat split; auto.
  - destruct l as [|x l]; [simpl in Hl; lia|]. eexists _, l. split; [done|]. split; [done|]. split; [done|].
    split; [simpl; rewrite map_size_insert_None by done; lia|]. split; [done|]. split; [intros p Hp; by right|].
    intros p [->|[d' Hd']]; [left; by left|]. simpl in Hd'. apply lookup_insert_Some in Hd' as [[_ <-]|[_ Hd']]; [right; left|left; right; eauto].
Qed.

(** The environment's own identifier names it. *)
Lemma resolve_self s W l fl c a e :
  kern_wf s W l fl -> W !! c = Some a -> s.(envs) !! c = Some e ->
  resolve s.(envs) (Some c) e.(env_id) true = Some c /\ 0 < e.(env_id) < 2 ^ 31.
Proof.
  intros Hk Ha He. pose proof (kw_space _ _ _ _ Hk c e He) as Hs. rewrite Ha in Hs. destruct Hs as [Hst _].
  destruct (kw_id _ _ _ _ Hk c e He) as [Hid|(g & Hg & Hid)]; [by apply (kw_live_id _ _ _ _ Hk c e) in Hid|].
  pose proof (kw_spaces _ _ _ _ Hk c a Ha) as Hc. unfold NENV in Hc. split; [|lia].
  unfold resolve. rewrite (proj2 (Z.eqb_neq _ _)) by lia. rewrite Hid, gen_ENVX, He, Hid, Z.eqb_refl by done.
  rewrite (proj2 (Z.eqb_neq _ ENV_FREE)) by done. cbn [orb negb]. by rewrite bool_decide_eq_true_2.
Qed.

Lemma drop_free_length W l o pp : (length l <= length (drop_free W l o pp))%nat.
Proof. unfold drop_free. destruct o; [|done]. case_match; simpl; lia. Qed.

(** A page that is no directory and no table has at most one reference more after one more
    mapping. *)
Lemma refs_more W i b b' v w p :
  W !! i = Some b -> b'.(as_maps) = b.(as_maps) -> ~ owned (<[i := with_map v w b']> W) p ->
  refs (<[i := with_map v w b']> W) p <= refs W p + 1.
Proof.
  intros Hb Hm Hno. rewrite (refs_update W i b) by done.
  assert (hits p b'.(as_dir) = 0) as Hd.
  { unfold hits. rewrite (proj2 (Z.eqb_neq _ _)); [done|]. intros <-. apply Hno. eexists i, _. split; [apply lookup_insert_eq|by left]. }
  assert (total (hits p) b'.(as_tabs) = 0) as Ht.
  { apply total_zero. intros d tp Htp. unfold hits. rewrite (proj2 (Z.eqb_neq _ _)); [done|]. intros <-.
    apply Hno. eexists i, _. split; [apply lookup_insert_eq|right; by exists d]. }
  unfold refs1. cbn [as_dir as_tabs as_maps with_map]. rewrite Hd, Ht, Hm.
  pose proof (refs1_parts p b) as (Hp1 & Hp2 & Hp3). unfold insert, map_insert. rewrite total_alter. unfold at_opt. simpl.
  assert (0 <= from_option (fun w => hits p (pte_page w)) 0 (b.(as_maps) !! v)) by (destruct (_ !! v); simpl; [apply hits_nonneg|done]).
  assert (hits p (pte_page w) <= 1) by (unfold hits; by case_match). lia.
Qed.

Section Setters.
Context {Mach : Machine} {Prog : Program} (cpu : Z).
Hypothesis uninit_nonzero : forall pgdir va, uninit_ptep pgdir va <> 0.

(** A change to the record of one environment. *)
Lemma uwf_set_env u W l fl ci c a es :
  uwf cpu u W l fl ci c a -> kern_wf (set_envs es u.(u_kern)) W l fl -> uwf cpu (set_u_kern (set_envs es u.(u_kern)) u) W l fl ci c a.
Proof. intros [Hk [] Ha Hc] Hk'. split; [exact Hk'|by split|exact Ha|exact Hc]. Qed.

Lemma usys_upcall_run u W l fl ci c a envid i e func :
  uwf cpu u W l fl ci c a -> - 2 ^ 31 <= envid < 2 ^ 31 -> 0 <= func < 2 ^ 32 ->
  resolve u.(u_kern).(envs) (Some c) envid true = Some i -> u.(u_kern).(envs) !! i = Some e ->
  let u' := set_u_kern (set_envs (<[i := set_env_upcall func e]> u.(u_kern).(envs)) u.(u_kern)) u in
  usys_env_set_pgfault_upcall cpu envid func u = Ret 0 u' /\ uwf cpu u' W l fl ci c a.
Proof.
  intros Hw He Hf Hr Hi u'.
  destruct (set_upcall_ok cpu _ W l fl ci c (uw_kern _ _ _ _ _ _ _ _ Hw) (uw_caller _ _ _ _ _ _ _ _ Hw) envid i e func Hr Hi) as [Hrun Hk].
  split; [|exact (uwf_set_env u W l fl ci c a _ Hw Hk)]. apply usyscall_ret; [|lia|by right].
  unfold syscall. cbn [Z.eqb SYS_cputs]. rewrite s32_u32, (u32_small func) by done. exact Hrun.
Qed.

Lemma usys_status_run u W l fl ci c a envid i e status :
  uwf cpu u W l fl ci c a -> - 2 ^ 31 <= envid < 2 ^ 31 -> status = ENV_RUNNABLE \/ status = ENV_NOT_RUNNABLE ->
  resolve u.(u_kern).(envs) (Some c) envid true = Some i -> u.(u_kern).(envs) !! i = Some e ->
  let u' := set_u_kern (set_envs (<[i := set_env_status status e]> u.(u_kern).(envs)) u.(u_kern)) u in
  usys_env_set_status cpu envid status u = Ret 0 u' /\ uwf cpu u' W l fl ci c a.
Proof.
  intros Hw He Hs Hr Hi u'.
  destruct (set_status_ok cpu _ W l fl ci c (uw_kern _ _ _ _ _ _ _ _ Hw) (uw_caller _ _ _ _ _ _ _ _ Hw) envid i e status Hr Hi Hs) as [Hrun Hk].
  split; [|exact (uwf_set_env u W l fl ci c a _ Hw Hk)]. apply usyscall_ret; [|lia|by right].
  unfold syscall. cbn [Z.eqb SYS_cputs]. rewrite !s32_u32 by (done || by destruct Hs as [-> | ->]). exact Hrun.
Qed.

(** What [sys_page_alloc] of a private page does in environment [i], when a page for a table
    is at hand. *)
Record got_page (u u' : user) (W W' : gmap Z aspace) (l l' : list Z) (i va x : Z) (b b' : aspace) : Prop := {
  gp_user : u' = with_pm u'.(u_kern).(pm) u;
  gp_space : W' !! i = Some b';
  gp_others : forall j, j <> i -> W' !! j = W !! j;
  gp_maps : forall v, b'.(as_maps) !! v = if v =? PGNUM va then Some (mkpte x rw) else b.(as_maps) !! v;
  gp_tabs : (size b'.(as_tabs) <= S (size b.(as_tabs)))%nat;
  gp_room : (length l <= 2 + length l')%nat;
  gp_refs : forall p, ~ owned W' p -> refs W' p <= refs W p + 1;
  gp_frame : vm_frame (fun p => owned W p \/ p ∈ l) u.(u_kern).(pm) u'.(u_kern).(pm);
  gp_zero : forall o, o / PGSIZE = x -> ld8 u'.(u_kern).(pm).(pmem) o = 0;
}.

Lemma alloc_private u W x l fl ci c a envid i va b :
  uwf cpu u W (x :: l) fl ci c a -> - 2 ^ 31 <= envid < 2 ^ 31 -> 0 <= va < 2 ^ 32 -> bad_va va = false -> (1 <= length l)%nat ->
  resolve u.(u_kern).(envs) (Some c) envid true = Some i -> W !! i = Some b ->
  exists u' W' l' a' b', usys_page_alloc cpu envid va rw u = Ret 0 u' /\ uwf cpu u' W' l' fl ci c a' /\
    got_page u u' W W' (x :: l) l' i va x b b'.
Proof.
  intros Hw He Hva Hbv Hl Hr Hb. destruct (ensure_tab_room b l (PDX va) Hl) as (b1 & l1 & Het & Hm & Hd & Hsz & Hlen & Hsub & Hown).
  pose proof (as_page_alloc_fresh u.(u_kern).(envs) c W x l envid i va rw b b1 l1 Hbv eq_refl Hr Hb Het) as Hal.
  destruct (usys_page_alloc_run cpu uninit_nonzero u W (x :: l) fl ci c a Hw envid va rw _ _ _ He Hva ltac:(by vm_compute) Hal)
    as (p' & a' & Hrun & Ha' & Hd' & Hw' & Hf & Hz).
  eexists _, _, _, a', _. split; [exact Hrun|]. split; [exact Hw'|]. split.
  - done.
  - apply lookup_insert_eq.
  - intros j Hj. by rewrite lookup_insert_ne.
  - intros v. cbn [as_maps with_map]. rewrite Hm. destruct (Z.eqb_spec v (PGNUM va)) as [->|]; [apply lookup_insert_eq|by rewrite lookup_insert_ne].
  - exact Hsz.
  - pose proof (drop_free_length W l1 (b.(as_maps) !! PGNUM va) x). simpl. lia.
  - intros p Hp. by apply (refs_more W i b).
  - exact Hf.
  - intros o Ho. by apply (Hz eq_refl x).
Qed.

Lemma free_small u W l fl ci c a x : uwf cpu u W l fl ci c a -> x ∈ l -> 0 <= x < 65536.
Proof.
  intros Hw Hx. pose proof (free_in_range _ _ _ _ (kw_vm _ _ _ _ (uw_kern _ _ _ _ _ _ _ _ Hw)) x Hx).
  pose proof (vr_npages _ _ (uw_rep cpu u W l fl ci c a Hw)). lia.
Qed.

(** Nobody else has the new page. *)
Lemma got_page_private u W x l fl ci c a u' W' l' a' k va b b' :
  uwf cpu u W (x :: l) fl ci c a -> uwf cpu u' W' l' fl ci c a' -> got_page u u' W W' (x :: l) l' k va x b b' -> refs W' x <= 1.
Proof.
  intros Hw Hw' Hgp. pose proof (kw_vm _ _ _ _ (uw_kern _ _ _ _ _ _ _ _ Hw)) as Hvm.
  pose proof (kw_vm _ _ _ _ (uw_kern _ _ _ _ _ _ _ _ Hw')) as Hvm'.
  assert (x ∈ x :: l) as Hx by left.
  assert (pte_page (mkpte x rw) = x) as Hpg by (apply mkpte_page; [exact (free_small u W _ fl ci c a x Hw Hx)|by vm_compute]).
  destruct (vw_mapped _ _ _ _ Hvm' k b' (PGNUM va) (mkpte x rw) (gp_space _ _ _ _ _ _ _ _ _ _ _ Hgp)) as [_ Hno].
  { rewrite (gp_maps _ _ _ _ _ _ _ _ _ _ _ Hgp). by rewrite Z.eqb_refl. }
  rewrite Hpg in Hno. pose proof (gp_refs _ _ _ _ _ _ _ _ _ _ _ Hgp x Hno) as H.
  rewrite (free_no_refs _ _ _ _ Hvm (fun _ => Z.le_refl 0) x Hx) in H. exact H.
Qed.

(** ** [set_pgfault_handler] *)

Lemma ux_page_val : ux_page = 977919.
Proof. reflexivity. Qed.

(** What registering a handler changes: at most the exception stack and the upcall. *)
Record registered (u u1 : user) (W W1 : gmap Z aspace) (l l1 : list Z) (c : Z) (a a1 : aspace) : Prop := {
  rg_maps : forall v, v <> ux_page -> a1.(as_maps) !! v = a.(as_maps) !! v;
  rg_others : forall j, j <> c -> W1 !! j = W !! j;
  rg_tabs : (size a1.(as_tabs) <= S (size a.(as_tabs)))%nat;
  rg_room : (length l <= 2 + length l1)%nat;
  rg_refs : forall p, ~ owned W1 p -> refs W1 p <= refs W p + 1;
  rg_new : forall w, a1.(as_maps) !! ux_page = Some w -> a.(as_maps) !! ux_page = Some w \/ refs W1 (pte_page w) <= 1;
  rg_frame : vm_frame (fun p => owned W p \/ p ∈ l) u.(u_kern).(pm) u1.(u_kern).(pm);
  rg_self : forall e, u.(u_kern).(envs) !! c = Some e -> exists f, u1.(u_kern).(envs) !! c = Some (set_env_upcall f e);
  rg_envs : forall j, j <> c -> u1.(u_kern).(envs) !! j = u.(u_kern).(envs) !! j;
  rg_thisenv : u1.(u_thisenv) = u.(u_thisenv);
}.

Lemma set_handler_ok u W l fl ci c a handler :
  uwf cpu u W l fl ci c a -> u.(u_thisenv) = c -> (2 <= length l)%nat -> 0 <= sym_pgfault_upcall < 2 ^ 32 ->
  exists u1 W1 l1 a1, set_pgfault_handler cpu handler u = Ret tt u1 /\ uwf cpu u1 W1 l1 fl ci c a1 /\
    registered u u1 W W1 l l1 c a a1 /\ u1.(u_handler) = handler.
Proof.
  intros Hw Ht Hl Hsym. unfold set_pgfault_handler. mstep reflexivity. destruct (Z.eqb_spec u.(u_handler) 0) as [Hh|Hh].
  2: { exists (set_u_handler handler u), W, l, a. split; [by mstep reflexivity|]. split; [by destruct Hw|].
       split; [|done]. split; try done; first [lia | intros; lia | apply vm_frame_refl | by left | idtac].
       intros e He. exists e.(env_pgfault_upcall). cbn [set_u_handler u_kern]. rewrite He. by destruct e. }
  destruct l as [|x l]; [simpl in Hl; lia|]. pose proof (uw_kern _ _ _ _ _ _ _ _ Hw) as Hk.
  assert (exists e, u.(u_kern).(envs) !! c = Some e) as [e He].
  { apply (kw_dom _ _ _ _ Hk). apply (kw_spaces _ _ _ _ Hk c a), Hw. }
  destruct (resolve_self _ W _ fl c a e Hk (uw_space _ _ _ _ _ _ _ _ Hw) He) as [Hres Hid].
  destruct (alloc_private u W x l fl ci c a e.(env_id) c (UXSTACKTOP - PGSIZE) a Hw ltac:(lia) ltac:(by vm_compute) eq_refl
    ltac:(simpl in Hl; lia) Hres (uw_space _ _ _ _ _ _ _ _ Hw)) as (u1 & W1 & l1 & a' & a1 & Hrun & Hw1 & Hgp).
  assert (a' = a1) as -> by (pose proof (uw_space _ _ _ _ _ _ _ _ Hw1); pose proof (gp_space _ _ _ _ _ _ _ _ _ _ _ Hgp); congruence).
  assert (u1.(u_kern).(envs) = u.(u_kern).(envs)) as Hen by by rewrite (gp_user _ _ _ _ _ _ _ _ _ _ _ Hgp).
  destruct (usys_upcall_run u1 W1 l1 fl ci c a1 e.(env_id) c e sym_pgfault_upcall Hw1 ltac:(lia) Hsym ltac:(by rewrite Hen) ltac:(by rewrite Hen))
    as [Hrun2 Hw2].
  eexists (set_u_handler handler _), W1, l1, a1. split; [|split; [|split; [split|]]].
  - erewrite bind_ret; [reflexivity|]. mstep reflexivity. rewrite Ht. mstep (by apply in_kern_pure, get_env_some).
    mstep (exact Hrun). change (negb (0 =? 0)) with false. cbv iota. mstep (exact Hrun2). done.
  - destruct Hw2. by split.
  - intros v Hv. rewrite (gp_maps _ _ _ _ _ _ _ _ _ _ _ Hgp). fold ux_page. by rewrite (proj2 (Z.eqb_neq _ _)).
  - apply (gp_others _ _ _ _ _ _ _ _ _ _ _ Hgp).
  - apply (gp_tabs _ _ _ _ _ _ _ _ _ _ _ Hgp).
  - apply (gp_room _ _ _ _ _ _ _ _ _ _ _ Hgp).
  - apply (gp_refs _ _ _ _ _ _ _ _ _ _ _ Hgp).
  - intros w. rewrite (gp_maps _ _ _ _ _ _ _ _ _ _ _ Hgp). fold ux_page. rewrite Z.eqb_refl. intros [= <-]. right.
    rewrite (mkpte_page x rw) by (exact (free_small u W _ fl ci c a x Hw ltac:(left)) || by vm_compute).
    exact (got_page_private u W x l fl ci c a u1 W1 l1 _ c _ a a1 Hw Hw1 Hgp).
  - apply (gp_frame _ _ _ _ _ _ _ _ _ _ _ Hgp).
  - intros e' He'. exists sym_pgfault_upcall. cbn [set_u_handler set_u_kern set_envs u_kern envs].
    rewrite lookup_insert_eq. by replace e' with e by congruence.
  - intros j Hj. cbn [set_u_handler set_u_kern set_envs u_kern envs]. by rewrite lookup_insert_ne, Hen.
  - by rewrite (gp_user _ _ _ _ _ _ _ _ _ _ _ Hgp).
  - done.
Qed.

(** ** The steps of [fork] after the handler *)

Lemma usys_exofork_run u W x l k fl ci c a ce :
  uwf cpu u W (x :: l) (k :: fl) ci c a -> u.(u_kern).(envs) !! c = Some ce ->
  exists e' s', usys_exofork cpu u = Ret e'.(env_id) (set_u_kern s' u) /\ exoforked u.(u_kern) s' W l fl ce e' k x /\
    uwf cpu (set_u_kern s' u) (<[k := empty_space x]> W) l fl ci c a.
Proof.
  intros [Hk Hc Ha Hcr] Hce. destruct (sys_exofork_ok cpu _ W (x :: l) (k :: fl) ci c ce Hk Hc Hce) as (e' & s' & Hrun & Hf).
  pose proof (ef_id _ _ _ _ _ _ _ _ _ Hf) as Hid. pose proof (ef_fresh _ _ _ _ _ _ _ _ _ Hf) as Hfr.
  assert ((<[k := empty_space x]> W) !! c = Some a) as Ha' by (rewrite lookup_insert_ne; [done|congruence]).
  exists e', s'. split; [apply usyscall_ret; [exact Hrun|lia|by left]|]. split; [exact Hf|].
  split; [apply Hf| |exact Ha'|exact Hcr]. split; [|apply Hc|rewrite Ha'; eauto].
  cbn [set_u_kern u_kern]. rewrite (ef_cpus _ _ _ _ _ _ _ _ _ Hf). apply Hc.
Qed.

(** Which environment an identifier names does not depend on the upcall. *)
Lemma resolve_upcall es c envid chk i e f :
  es !! i = Some e -> resolve (<[i := set_env_upcall f e]> es) (Some c) envid chk = resolve es (Some c) envid chk.
Proof.
  intros Hi. unfold resolve. destruct (envid =? 0); [done|]. simpl.
  destruct (decide (i = ENVX envid)) as [<-|Hne]; [rewrite lookup_insert_eq, Hi|rewrite lookup_insert_ne by done];
    (destruct (decide (i = c)) as [->|Hc]; [rewrite lookup_insert_eq, ?Hi|by rewrite lookup_insert_ne]); [done|].
  by destruct (es !! ENVX envid).
Qed.

(** What a finished child is given: an exception stack on page [x], the upcall, and a run. *)
Record finished (u u' : user) (W W' : gmap Z aspace) (k x : Z) (b b' : aspace) (e : Env) : Prop := {
  fi_page : 0 <= x < 65536;
  fi_space : W' !! k = Some b';
  fi_others : forall j, j <> k -> W' !! j = W !! j;
  fi_maps : forall v, b'.(as_maps) !! v = if v =? ux_page then Some (mkpte x rw) else b.(as_maps) !! v;
  fi_zero : forall o, o / PGSIZE = x -> ld8 u'.(u_kern).(pm).(pmem) o = 0;
  fi_private : refs W' x <= 1;
  fi_envs : u'.(u_kern).(envs) = <[k := set_env_status ENV_RUNNABLE (set_env_upcall sym_pgfault_upcall e)]> u.(u_kern).(envs);
  fi_thisenv : u'.(u_thisenv) = u.(u_thisenv);
  fi_handler : u'.(u_handler) = u.(u_handler);
}.

Lemma fork_finish u W l fl ci c a k envid b e :
  uwf cpu u W l fl ci c a -> (2 <= length l)%nat -> - 2 ^ 31 <= envid < 2 ^ 31 -> 0 <= sym_pgfault_upcall < 2 ^ 32 ->
  resolve u.(u_kern).(envs) (Some c) envid true = Some k -> k <> c -> W !! k = Some b -> u.(u_kern).(envs) !! k = Some e ->
  exists x u' W' l' b',
    (let* r := usys_page_alloc cpu envid (UXSTACKTOP - PGSIZE) (Z.lor (Z.lor PTE_P PTE_U) PTE_W) in
     if r <? 0 then panic
     else
       let* r := usys_env_set_pgfault_upcall cpu envid sym_pgfault_upcall in
       if r <? 0 then panic
       else
         let* r := usys_env_set_status cpu envid ENV_RUNNABLE in
         if r <? 0 then panic else ret envid) u = Ret envid u' /\
    uwf cpu u' W' l' fl ci c a /\ finished u u' W W' k x b b' e /\ (length l <= 2 + length l')%nat /\
    vm_frame (fun p => owned W p \/ p ∈ l) u.(u_kern).(pm) u'.(u_kern).(pm).
Proof.
  intros Hw Hl He Hsym Hr Hkc Hb Hek. destruct l as [|x l]; [simpl in Hl; lia|].
  destruct (alloc_private u W x l fl ci c a envid k (UXSTACKTOP - PGSIZE) b Hw He ltac:(by vm_compute) eq_refl
    ltac:(simpl in Hl; lia) Hr Hb) as (u1 & W1 & l1 & a' & b' & Hrun1 & Hw1 & Hgp).
  assert (a' = a) as ->.
  { pose proof (uw_space _ _ _ _ _ _ _ _ Hw1) as H1. rewrite (gp_others _ _ _ _ _ _ _ _ _ _ _ Hgp), (uw_space _ _ _ _ _ _ _ _ Hw) in H1; congruence. }
  assert (u1.(u_kern).(envs) = u.(u_kern).(envs)) as Hen by by rewrite (gp_user _ _ _ _ _ _ _ _ _ _ _ Hgp).
  destruct (usys_upcall_run u1 W1 l1 fl ci c a envid k e sym_pgfault_upcall Hw1 He Hsym ltac:(by rewrite Hen) ltac:(by rewrite Hen)) as [Hrun2 Hw2].
  assert (refs W1 x <= 1) as Hpriv by exact (got_page_private u W x l fl ci c a u1 W1 l1 _ k _ b b' Hw Hw1 Hgp).
  set (u2 := set_u_kern _ _) in *.
  assert (u2.(u_kern).(envs) = <[k := set_env_upcall sym_pgfault_upcall e]> u.(u_kern).(envs)) as Hen2 by (cbn; by rewrite Hen).
  destruct (usys_status_run u2 W1 l1 fl ci c a envid k (set_env_upcall sym_pgfault_upcall e) ENV_RUNNABLE Hw2 He ltac:(by left)) as [Hrun3 Hw3].
  { rewrite Hen2, resolve_upcall by done. exact Hr. }
  { rewrite Hen2. apply lookup_insert_eq. }
  exists x. eexists _, W1, l1, b'. split; [|split; [exact Hw3|split; [split|exact (conj (gp_room _ _ _ _ _ _ _ _ _ _ _ Hgp) (gp_frame _ _ _ _ _ _ _ _ _ _ _ Hgp))]]].
  - mstep (exact Hrun1). change (0 <? 0) with false. cbv iota. mstep (exact Hrun2). change (0 <? 0) with false. cbv iota. mstep (exact Hrun3). reflexivity.
  - exact (free_small u W _ fl ci c a x Hw ltac:(left)).
  - apply (gp_space _ _ _ _ _ _ _ _ _ _ _ Hgp).
  - apply (gp_others _ _ _ _ _ _ _ _ _ _ _ Hgp).
  - apply (gp_maps _ _ _ _ _ _ _ _ _ _ _ Hgp).
  - apply (gp_zero _ _ _ _ _ _ _ _ _ _ _ Hgp).
  - exact Hpriv.
  - cbn [set_u_kern u_kern set_envs envs]. rewrite Hen2, insert_insert_eq. done.
  - cbn. by rewrite (gp_user _ _ _ _ _ _ _ _ _ _ _ Hgp).
  - cbn. by rewrite (gp_user _ _ _ _ _ _ _ _ _ _ _ Hgp).
Qed.
End Setters.
