(* ===== verification/CowRun.v ===== *)
(** The page-fault handler of [lib/fork.c] run on a copy-on-write page, and a store that
    faults on one. *)

From stdpp Require Import gmap.
From S2P Require Import Prelude Mmu Mem Console E1000 Pmap PmapBoot Env Sched Syscall.
From S2P Require Import PmapAlloc PmapVm PmapRefs UserRep EnvMem EnvSetup KernInv SysMem SysIpc SysEnv User Fork UserVm ForkVm ForkRun.

Section Cow.
Context {Mach : Machine} (cpu : Z).
Hypothesis uninit_nonzero : forall pgdir va, uninit_ptep pgdir va <> 0.

(** A store through a mapping of the running environment. *)
Lemma uwf_poke u W l fl ci c a v w o b :
  uwf cpu u W l fl ci c a -> a.(as_maps) !! v = Some w -> 0 <= o < PGSIZE ->
  uwf cpu (poke u (pte_page w * PGSIZE + o) b) W l fl ci c a.
Proof.
  intros Hw Hv Ho. pose proof (kw_poke _ W l fl c a v w o b (uw_kern _ _ _ _ _ _ _ _ Hw) (uw_space _ _ _ _ _ _ _ _ Hw) Hv Ho) as Hk.
  destruct (uwf_set_pm cpu u W l fl ci c a Hw _ W l Hk) as (a' & Ha' & _ & Hw').
  rewrite (uw_space _ _ _ _ _ _ _ _ Hw) in Ha'. injection Ha' as ->. exact Hw'.
Qed.

Lemma page_off src i : 0 <= src -> src mod PGSIZE = 0 -> 0 <= i < PGSIZE -> src + i < 2 ^ 32 ->
  PGNUM (src + i) = PGNUM src /\ (src + i) mod PGSIZE = i.
Proof. intros H0 Hs Hi Hr. rewrite !PGNUM_div by lia. czdm. Qed.

Lemma ust32_run u W l fl ci c a va v w :
  uwf cpu u W l fl ci c a -> 0 <= va < UTOP -> va mod 4 = 0 -> a.(as_maps) !! PGNUM va = Some w -> bits_set w PTE_W = true ->
  let u' := with_pm (set_pmem (st32 u.(u_kern).(pm).(pmem) (pte_pa w va) v) u.(u_kern).(pm)) u in
  ust32 cpu va v u = Ret tt u' /\ uwf cpu u' W l fl ci c a.
Proof.
  intros Hw Hva Hal Hm HW u'. split.
  - unfold ust32. mstep (by apply (user_addr_reach cpu u W l fl ci c a Hw)). unfold reach. rewrite Hm, HW. cbn [andb negb].
    apply in_kern_ret. by apply (on_pm_ret (modify _)).
  - assert (0 <= va mod PGSIZE /\ va mod PGSIZE + 3 < PGSIZE) as Ho by (clear -Hal; czdm).
    pose proof (uwf_poke u W l fl ci c a _ w (va mod PGSIZE) v Hw Hm ltac:(lia)) as H0.
    pose proof (uwf_poke _ W l fl ci c a _ w (va mod PGSIZE + 1) (v / 2 ^ 8) H0 Hm ltac:(lia)) as H1.
    pose proof (uwf_poke _ W l fl ci c a _ w (va mod PGSIZE + 2) (v / 2 ^ 16) H1 Hm ltac:(lia)) as H2.
    pose proof (uwf_poke _ W l fl ci c a _ w (va mod PGSIZE + 3) (v / 2 ^ 16 / 2 ^ 8) H2 Hm ltac:(lia)) as H3.
    unfold u', pte_pa. rewrite st32_bytes. replace (pte_page w * PGSIZE + va mod PGSIZE + 2 + 1) with (pte_page w * PGSIZE + (va mod PGSIZE + 3)) by lia.
    replace (pte_page w * PGSIZE + va mod PGSIZE + 2) with (pte_page w * PGSIZE + (va mod PGSIZE + 2)) by lia.
    replace (pte_page w * PGSIZE + va mod PGSIZE + 1) with (pte_page w * PGSIZE + (va mod PGSIZE + 1)) by lia. exact H3.
Qed.

Lemma uld32_run u W l fl ci c a va w :
  uwf cpu u W l fl ci c a -> 0 <= va < UTOP -> a.(as_maps) !! PGNUM va = Some w ->
  uld32 cpu va u = Ret (ld32 u.(u_kern).(pm).(pmem) (pte_pa w va)) u.
Proof.
  intros Hw Hva Hm. unfold uld32. mstep (by apply (user_addr_reach cpu u W l fl ci c a Hw)). unfold reach. rewrite Hm. cbn [andb].
  by apply in_kern_pure, on_pm_pure.
Qed.

(** The first [i] words of page [src] are copied to page [dst], and nothing else changed. *)
Definition copied_to (p : pmap) (src dst i : Z) (p' : pmap) : Prop :=
  (forall o, 0 <= o < 4 * i -> ld8 p'.(pmem) (dst * PGSIZE + o) = ld8 p.(pmem) (src * PGSIZE + o)) /\
  (forall y, y <> dst -> same_page y p p').

Lemma copied_to_next p src dst i p' :
  src <> dst -> 0 <= i < 1024 -> copied_to p src dst i p' ->
  copied_to p src dst (i + 1) (set_pmem (st32 p'.(pmem) (dst * PGSIZE + 4 * i) (ld32 p'.(pmem) (src * PGSIZE + 4 * i))) p').
Proof.
  intros Hne Hi [Hc Ho]. pose proof (copied_word p'.(pmem) p'.(pmem) (dst * PGSIZE + 4 * i) (src * PGSIZE + 4 * i)) as Hw.
  split; [intros o Hoi|intros y Hy o <-]; cbn [set_pmem pmem]; rewrite Hw.
  - destruct (Z.ltb_spec o (4 * i)) as [Hlt|Hge].
    + rewrite (proj2 (Z.leb_gt _ _)) by lia. cbn [andb]. apply Hc. lia.
    + rewrite (proj2 (Z.leb_le _ _)), (proj2 (Z.ltb_lt _ _)) by lia. cbn [andb].
      replace (src * PGSIZE + 4 * i + (dst * PGSIZE + o - (dst * PGSIZE + 4 * i))) with (src * PGSIZE + o) by lia. apply (Ho src Hne). clear -Hoi Hi. czdm.
  - destruct (_ && _) eqn:E; [|by apply (Ho (o / PGSIZE))]. apply andb_true_iff in E as [E1%Z.leb_le E2%Z.ltb_lt]. exfalso. apply Hy. clear -E1 E2 Hi. czdm.
Qed.

Lemma copy_ok u W l fl ci c a src dst ws wd :
  uwf cpu u W l fl ci c a -> 0 <= src < UTOP -> 0 <= dst < UTOP -> src mod PGSIZE = 0 -> dst mod PGSIZE = 0 -> src <> dst ->
  a.(as_maps) !! PGNUM src = Some ws -> a.(as_maps) !! PGNUM dst = Some wd -> bits_set wd PTE_W = true -> pte_page ws <> pte_page wd ->
  exists p', umemmove cpu dst src PGSIZE u = Ret tt (with_pm p' u) /\ uwf cpu (with_pm p' u) W l fl ci c a /\
    copied_to u.(u_kern).(pm) (pte_page ws) (pte_page wd) 1024 p'.
Proof.
  intros Hw Hs Hd Hsa Hda Hne Hms Hmd HW Hp. unfold umemmove. rewrite (u32_small (src + PGSIZE)) by clia.
  replace ((src <? dst) && (dst <? src + PGSIZE)) with false by (bcase; czdm).
  assert (forall x, x mod PGSIZE = 0 -> (Z.rem (s32 x) 4 =? 0) = true) as Hrem.
  { intros x Hx. apply Z.eqb_eq, Z.rem_divide; [done|]. unfold s32. case_match; apply Z.mod_divide; try done; unfold u32; czdm. }
  rewrite (Hrem src Hsa), (Hrem dst Hda). change (PGSIZE mod 4 =? 0) with true. change (Z.to_nat (PGSIZE / 4)) with 1024%nat. cbn [andb]. unfold umovsl.
  destruct (for_n_inv (fun i s => exists p', s = with_pm p' u /\ uwf cpu s W l fl ci c a /\ copied_to u.(u_kern).(pm) (pte_page ws) (pte_page wd) i p') 1024 0
    (fun i => let* w := uld32 cpu (u32 (src + i * 4)) in ust32 cpu (u32 (dst + i * 4)) w) u) as (s' & Hrun & p' & -> & Hw' & Hc).
  - exists u.(u_kern).(pm). split; [by destruct u as [[]]|]. split; [exact Hw|]. split; [intros; lia|]. by intros y _ o.
  - intros i s Hi (p' & -> & Hw' & Hc). change (0 + Z.of_nat 1024) with 1024 in Hi.
    rewrite !u32_small by clia. destruct (page_off src (i * 4)) as [Ens Eos]; [lia|done|clia|clia|].
    destruct (page_off dst (i * 4)) as [End Eod]; [lia|done|clia|clia|].
    assert (0 <= src + i * 4 < UTOP) as Hsr by (revert Hs; clear -Hi Hsa; czdm). assert (0 <= dst + i * 4 < UTOP) as Hdr by (revert Hd; clear -Hi Hda; czdm).
    assert ((dst + i * 4) mod 4 = 0) as Hal by (clear -Hda; czdm).
    destruct (ust32_run _ W l fl ci c a (dst + i * 4) (ld32 p'.(pmem) (pte_pa ws (src + i * 4))) wd Hw' Hdr Hal ltac:(by rewrite End) HW) as [Hst Hwst].
    eexists. split; [mstep (apply (uld32_run _ W l fl ci c a _ ws Hw' Hsr); by rewrite Ens); exact Hst|]. eexists. split; [done|]. split; [exact Hwst|].
    unfold pte_pa. rewrite Eos, Eod, (Z.mul_comm i). by apply copied_to_next.
  - exists p'. exact (conj Hrun (conj Hw' Hc)).
Qed.

(** The page number of [PFTEMP]. *)
Definition pf_page : Z := PGNUM PFTEMP.

Lemma pf_va : 0 <= PFTEMP < UTOP /\ bad_va PFTEMP = false /\ PFTEMP mod PGSIZE = 0.
Proof. by vm_compute. Qed.

Lemma fault_page va : 0 <= va < UTOP -> ROUNDDOWN va PGSIZE = PGNUM va * PGSIZE /\ 0 <= PGNUM va < PGNUM UTOP.
Proof. intros H. rewrite ROUNDDOWN_spec by clia. rewrite PGNUM_div by clia. change (PGNUM UTOP) with (UTOP / PGSIZE). czdm. Qed.

(** The fresh page takes the place of the faulting one. *)
Lemma remap_run u W l fl ci c a v w x :
  uwf cpu u W l fl ci c a -> 0 <= v < PGNUM UTOP -> a.(as_maps) !! v = Some w -> a.(as_maps) !! pf_page = Some (mkpte x rw) ->
  0 <= x < 65536 -> refs W x <= 1 ->
  exists p' l', usys_page_map cpu 0 PFTEMP 0 (v * PGSIZE) rw u = Ret 0 (with_pm p' u) /\
    uwf cpu (with_pm p' u) (<[c := with_map v (mkpte x rw) a]> W) l' fl ci c (with_map v (mkpte x rw) a) /\
    (length l <= length l')%nat /\ vm_frame (fun p => owned W p \/ p ∈ l) u.(u_kern).(pm) p'.
Proof.
  intros Hw Hv Hm Hpf Hx Hr. destruct (page_va v Hv) as (_ & Hbv & Hpn & Hpd & Hvr). destruct pf_va as (Hpr & Hpb & _).
  assert (pte_page (mkpte x rw) = x) as Hpx by exact (mkpte_page x rw Hx ltac:(by vm_compute)).
  assert (ensure_tab a l (PDX (v * PGSIZE)) = Some (a, l)) as He.
  { rewrite Hpd. unfold ensure_tab. by destruct (vr_maps_dom _ _ (uw_rep cpu u W l fl ci c a Hw) v w Hm) as [tp ->]. }
  assert (entry_of W c PFTEMP = Some (mkpte x rw)) as Hen by (unfold entry_of; rewrite (uw_space _ _ _ _ _ _ _ _ Hw); exact Hpf).
  assert (bits_set (mkpte x rw) PTE_W = true) as HW by by rewrite (mkpte_flag x rw PTE_W Hx ltac:(by vm_compute) (or_intror eq_refl)).
  pose proof (as_page_map_share u.(u_kern).(envs) c W l 0 0 c c PFTEMP (v * PGSIZE) (mkpte x rw) rw a a l Hpb Hbv eq_refl eq_refl eq_refl
    Hen (fun _ => HW) (uw_space _ _ _ _ _ _ _ _ Hw) He) as Hmap. rewrite Hpn, Hpx in Hmap.
  assert (forall src w', resolve u.(u_kern).(envs) (Some c) 0 true = Some src -> entry_of W src PFTEMP = Some w' -> refs W (pte_page w') + 1 < 2 ^ 16) as Hov.
  { intros src w' [= <-]. rewrite Hen. intros [= <-]. rewrite Hpx. lia. }
  destruct (usys_page_map_run cpu uninit_nonzero u W l fl ci c a Hw 0 PFTEMP 0 (v * PGSIZE) rw _ _ _
    ltac:(lia) ltac:(lia) ltac:(by vm_compute) Hvr ltac:(by vm_compute) Hov Hmap) as (p' & a' & Hrun & Ha' & _ & Hw' & Hf).
  rewrite lookup_insert_eq in Ha'. injection Ha' as <-. exists p'. eexists. split; [exact Hrun|]. split; [exact Hw'|]. split; [apply drop_free_length|exact Hf].
Qed.

Lemma unmap_run u W l fl ci c a w :
  uwf cpu u W l fl ci c a -> a.(as_maps) !! pf_page = Some w ->
  exists p' l', usys_page_unmap cpu 0 PFTEMP u = Ret 0 (with_pm p' u) /\
    uwf cpu (with_pm p' u) (<[c := without_map pf_page a]> W) l' fl ci c (without_map pf_page a) /\
    (length l <= length l')%nat /\ vm_frame (fun p => owned W p \/ p ∈ l) u.(u_kern).(pm) p'.
Proof.
  intros Hw Hm. destruct pf_va as (Hpr & Hpb & _).
  assert (as_page_unmap u.(u_kern).(envs) c W l 0 PFTEMP =
    (0, <[c := without_map pf_page a]> W, if refs W (pte_page w) =? 1 then pte_page w :: l else l)) as Hun.
  { unfold as_page_unmap, entry_of. rewrite Hpb. change (resolve _ (Some c) 0 true) with (Some c). cbv iota. rewrite (uw_space _ _ _ _ _ _ _ _ Hw).
    cbn [mbind option_bind]. fold pf_page. by rewrite Hm. }
  destruct (usys_page_unmap_run cpu uninit_nonzero u W l fl ci c a Hw 0 PFTEMP _ _ _ ltac:(lia) ltac:(by vm_compute) Hun)
    as (p' & a' & Hrun & Ha' & _ & Hw' & Hf).
  rewrite lookup_insert_eq in Ha'. injection Ha' as <-. exists p'. eexists. split; [exact Hrun|]. split; [exact Hw'|]. split; [|exact Hf].
  case_match; simpl; lia.
Qed.

(** What the handler leaves: a private, writable copy [x] of the page that was mapped by [w]. *)
Record cow_copied (u u' : user) (W W' : gmap Z aspace) (c v w x : Z) (a a' : aspace) : Prop := {
  cp_user : u' = with_pm u'.(u_kern).(pm) u;
  cp_others : forall j, j <> c -> W' !! j = W !! j;
  cp_maps : forall i, a'.(as_maps) !! i = if i =? pf_page then None else if i =? v then Some (mkpte x rw) else a.(as_maps) !! i;
  cp_page : 0 <= x < 65536;
  cp_private : refs W' x = 1;
  cp_fresh : forall j d i w', W !! j = Some d -> d.(as_maps) !! i = Some w' -> pte_page w' <> x;
  cp_bytes : forall o, 0 <= o < PGSIZE ->
    ld8 u'.(u_kern).(pm).(pmem) (x * PGSIZE + o) = ld8 u.(u_kern).(pm).(pmem) (pte_page w * PGSIZE + o);
  cp_kept : forall j d i w', W !! j = Some d -> d.(as_maps) !! i = Some w' -> (j = c -> i <> pf_page /\ i <> v) ->
    same_page (pte_page w') u.(u_kern).(pm) u'.(u_kern).(pm);
}.

(** The steps of the handler, one after the other. *)
Section Handler.
Variables (u u1 : user) (p2 p3 p4 : pmap) (W W1 : gmap Z aspace) (l l1 l3 l4 fl : list Z) (ci : CpuInfo) (c v w x : Z) (a a1 : aspace).
Let u2 := with_pm p2 u1.
Let u3 := with_pm p3 u2.
Let u4 := with_pm p4 u3.
Let a3 := with_map v (mkpte x rw) a1.
Let W3 := <[c := a3]> W1.
Let a4 := without_map pf_page a3.
Let W4 := <[c := a4]> W3.
Hypothesis Hv : v <> pf_page.
Hypothesis Hx : 0 <= x < 65536.
Hypothesis Hm : a.(as_maps) !! v = Some w.
Hypothesis Hw : uwf cpu u W (x :: l) fl ci c a.
Hypothesis Hw1 : uwf cpu u1 W1 l1 fl ci c a1.
Hypothesis Hgp : got_page u u1 W W1 (x :: l) l1 c PFTEMP x a a1.
Hypothesis Hw2 : uwf cpu u2 W1 l1 fl ci c a1.
Hypothesis Hcopy : forall o, 0 <= o < PGSIZE -> ld8 p2.(pmem) (x * PGSIZE + o) = ld8 u1.(u_kern).(pm).(pmem) (pte_page w * PGSIZE + o).
Hypothesis Hothers : forall y, y <> x -> same_page y u1.(u_kern).(pm) p2.
Hypothesis Hw3 : uwf cpu u3 W3 l3 fl ci c a3.
Hypothesis Hf3 : vm_frame (fun p => owned W1 p \/ p ∈ l1) p2 p3.
Hypothesis Hw4 : uwf cpu u4 W4 l4 fl ci c a4.
Hypothesis Hf4 : vm_frame (fun p => owned W3 p \/ p ∈ l3) p3 p4.

Lemma new_page : pte_page (mkpte x rw) = x.
Proof. exact (mkpte_page x rw Hx ltac:(by vm_compute)). Qed.

Lemma new_fresh j d i w' : W !! j = Some d -> d.(as_maps) !! i = Some w' -> pte_page w' <> x.
Proof. intros Hj Hi E. apply (mapped_apart _ _ _ _ j d i w' (uw_kern _ _ _ _ _ _ _ _ Hw) Hj Hi). right. rewrite E. left. Qed.

Lemma page_kept j d i w' :
  W !! j = Some d -> d.(as_maps) !! i = Some w' -> (j = c -> i <> pf_page /\ i <> v) -> same_page (pte_page w') u.(u_kern).(pm) p4.
Proof.
  intros Hj Hi Hne. assert (exists d1, W1 !! j = Some d1 /\ d1.(as_maps) !! i = Some w') as (d1 & Hj1 & Hi1).
  { destruct (decide (j = c)) as [->|Hc]; [|exists d; by rewrite (gp_others _ _ _ _ _ _ _ _ _ _ _ Hgp)]. exists a1. split; [apply Hw1|].
    rewrite (gp_maps _ _ _ _ _ _ _ _ _ _ _ Hgp). fold pf_page. rewrite (proj2 (Z.eqb_neq _ _)) by by apply Hne.
    rewrite (uw_space _ _ _ _ _ _ _ _ Hw) in Hj. by injection Hj as ->. }
  assert (exists d3, W3 !! j = Some d3 /\ d3.(as_maps) !! i = Some w') as (d3 & Hj3 & Hi3).
  { unfold W3. destruct (decide (j = c)) as [->|Hc]; [|exists d1; by rewrite lookup_insert_ne]. exists a3. split; [apply lookup_insert_eq|].
    rewrite (uw_space _ _ _ _ _ _ _ _ Hw1) in Hj1. injection Hj1 as <-. unfold a3. cbn [as_maps with_map]. rewrite lookup_insert_ne; [done|]. intros <-. by apply Hne. }
  apply (same_page_trans _ _ u1.(u_kern).(pm)); [apply (frame_page _ _ _ _ (gp_frame _ _ _ _ _ _ _ _ _ _ _ Hgp)), (mapped_apart _ _ _ _ j d i w' (uw_kern _ _ _ _ _ _ _ _ Hw) Hj Hi)|].
  apply (same_page_trans _ _ p2); [apply Hothers; by apply (new_fresh j d i)|].
  apply (same_page_trans _ _ p3); [apply (frame_page _ _ _ _ Hf3), (mapped_apart _ _ _ _ j d1 i w' (uw_kern _ _ _ _ _ _ _ _ Hw1) Hj1 Hi1)|].
  apply (frame_page _ _ _ _ Hf4), (mapped_apart _ _ _ _ j d3 i w' (uw_kern _ _ _ _ _ _ _ _ Hw3) Hj3 Hi3).
Qed.

Lemma new_at_pf : a1.(as_maps) !! pf_page = Some (mkpte x rw).
Proof. rewrite (gp_maps _ _ _ _ _ _ _ _ _ _ _ Hgp). fold pf_page. by rewrite Z.eqb_refl. Qed.

Lemma new_bytes o : 0 <= o < PGSIZE -> ld8 p4.(pmem) (x * PGSIZE + o) = ld8 u.(u_kern).(pm).(pmem) (pte_page w * PGSIZE + o).
Proof.
  intros Ho. assert ((x * PGSIZE + o) / PGSIZE = x) as Ex by czdm. assert ((pte_page w * PGSIZE + o) / PGSIZE = pte_page w) as Ew by czdm.
  assert (a3.(as_maps) !! pf_page = Some (mkpte x rw)) as H3 by (unfold a3; cbn [as_maps with_map]; rewrite lookup_insert_ne by done; apply new_at_pf).
  pose proof (mapped_apart _ _ _ _ c a1 _ _ (uw_kern _ _ _ _ _ _ _ _ Hw1) (uw_space _ _ _ _ _ _ _ _ Hw1) new_at_pf) as Hn1.
  pose proof (mapped_apart _ _ _ _ c a3 _ _ (uw_kern _ _ _ _ _ _ _ _ Hw3) (uw_space _ _ _ _ _ _ _ _ Hw3) H3) as Hn3. rewrite new_page in Hn1, Hn3.
  rewrite (frame_page _ _ _ x Hf4 Hn3) by done. rewrite (frame_page _ _ _ x Hf3 Hn1) by done. rewrite Hcopy by done.
  apply (frame_page _ _ _ _ (gp_frame _ _ _ _ _ _ _ _ _ _ _ Hgp) (mapped_apart _ _ _ _ c a v w (uw_kern _ _ _ _ _ _ _ _ Hw) (uw_space _ _ _ _ _ _ _ _ Hw) Hm)), Ew.
Qed.

Lemma new_at_v : a4.(as_maps) !! v = Some (mkpte x rw).
Proof. unfold a4, a3. cbn [as_maps with_map without_map]. rewrite lookup_delete_ne by done. apply lookup_insert_eq. Qed.

Lemma new_private : refs W4 x = 1.
Proof.
  assert (a3.(as_maps) !! pf_page = Some (mkpte x rw)) as H3 by (unfold a3; cbn [as_maps with_map]; rewrite lookup_insert_ne by done; apply new_at_pf).
  pose proof (mapped_apart _ _ _ _ c a3 _ _ (uw_kern _ _ _ _ _ _ _ _ Hw3) (uw_space _ _ _ _ _ _ _ _ Hw3) H3) as Hn3. rewrite new_page in Hn3.
  pose proof (refs_more W1 c a1 a1 v (mkpte x rw) x (uw_space _ _ _ _ _ _ _ _ Hw1) eq_refl (fun H => Hn3 (or_introl H))) as Hle. fold a3 in Hle. fold W3 in Hle.
  pose proof (got_page_private cpu u W x l fl ci c a u1 W1 l1 a1 c PFTEMP a a1 Hw Hw1 Hgp) as H1.
  assert (refs W4 x = refs W3 x - 1) as ->.
  { unfold W4. rewrite (refs_update W3 c a3) by apply lookup_insert_eq. unfold a4. rewrite <- set_entry_0, refs1_set_entry, H3.
    unfold ohits at 1. cbn [at_opt from_option]. rewrite new_page, hits_self. change (ohits x (entry 0)) with 0. lia. }
  enough (2 <= refs W3 x) by lia. pose proof (refs_ge W3 c a3 x (lookup_insert_eq _ _ _)) as Hge.
  assert (1 <= refs1 x a4) as H4 by (pose proof (maps_refs1 a4 _ _ new_at_v) as H; by rewrite new_page in H).
  unfold a4 in H4. rewrite <- set_entry_0, refs1_set_entry, H3 in H4. unfold ohits at 1 in H4. cbn [at_opt from_option] in H4.
  rewrite new_page, hits_self in H4. change (ohits x (entry 0)) with 0 in H4. lia.
Qed.

Lemma handler_copied : cow_copied u u4 W W4 c v w x a a4.
Proof.
  split; [|intros j Hj| |exact Hx|exact new_private|exact new_fresh|exact new_bytes|exact page_kept].
  - unfold u4, u3, u2. by rewrite (gp_user _ _ _ _ _ _ _ _ _ _ _ Hgp).
  - unfold W4, W3. rewrite !lookup_insert_ne by done. by apply (gp_others _ _ _ _ _ _ _ _ _ _ _ Hgp).
  - intros i. unfold a4, a3. cbn [as_maps with_map without_map]. destruct (Z.eqb_spec i pf_page) as [->|Hp]; [apply lookup_delete_eq|].
    rewrite lookup_delete_ne by done. destruct (Z.eqb_spec i v) as [->|Hi]; [apply lookup_insert_eq|]. rewrite lookup_insert_ne by done.
    rewrite (gp_maps _ _ _ _ _ _ _ _ _ _ _ Hgp). fold pf_page. by rewrite (proj2 (Z.eqb_neq _ _)).
Qed.
End Handler.

Lemma pgfault_ok u W l fl ci c a va w err :
  uwf cpu u W l fl ci c a -> 0 <= va < UTOP -> PGNUM va <> pf_page -> a.(as_maps) !! PGNUM va = Some w ->
  nonzero (Z.land w PTE_COW) = true -> nonzero (Z.land err FEC_WR) = true -> (2 <= length l)%nat ->
  exists u' W' l' a' x, pgfault cpu va err u = Ret tt u' /\ uwf cpu u' W' l' fl ci c a' /\
    (length l <= 2 + length l')%nat /\ cow_copied u u' W W' c (PGNUM va) w x a a'.
Proof.
  intros Hw Hva Hpf Hm Hcow Herr Hl. destruct l as [|x l]; [simpl in Hl; lia|]. destruct (fault_page va Hva) as [Erd Hpn].
  destruct (page_va _ Hpn) as (_ & Hbv & Hpnv & _ & Hvr). destruct pf_va as (Hpr & Hpb & Hpa).
  pose proof (free_small cpu u W _ fl ci c a x Hw ltac:(left)) as Hx.
  destruct (alloc_private cpu uninit_nonzero u W x l fl ci c a 0 c PFTEMP a Hw ltac:(lia) ltac:(by vm_compute) Hpb
    ltac:(simpl in Hl; lia) eq_refl (uw_space _ _ _ _ _ _ _ _ Hw)) as (u1 & W1 & l1 & a' & a1 & Hrun1 & Hw1 & Hgp).
  assert (a' = a1) as -> by (pose proof (uw_space _ _ _ _ _ _ _ _ Hw1); pose proof (gp_space _ _ _ _ _ _ _ _ _ _ _ Hgp); congruence).
  pose proof (new_at_pf u u1 W W1 l l1 c x a a1 Hgp) as Hpf1.
  assert (a1.(as_maps) !! PGNUM va = Some w) as Hm1.
  { rewrite (gp_maps _ _ _ _ _ _ _ _ _ _ _ Hgp). fold pf_page. by rewrite (proj2 (Z.eqb_neq _ _)). }
  assert (bits_set (mkpte x rw) PTE_W = true) as HW by by rewrite (mkpte_flag x rw PTE_W Hx ltac:(by vm_compute) (or_intror eq_refl)).
  pose proof (new_page x Hx) as Ex. assert (pte_page w <> x) as Hne by exact (new_fresh u W l fl ci c x a Hw c a _ w (uw_space _ _ _ _ _ _ _ _ Hw) Hm).
  destruct (copy_ok u1 W1 l1 fl ci c a1 (PGNUM va * PGSIZE) PFTEMP w (mkpte x rw) Hw1) as (p2 & Hrun2 & Hw2 & Hcopy & Hoth);
    [revert Hpn; clear; change (PGNUM UTOP) with 977920; generalize (PGNUM va); intros; clia|done|by apply Z.mod_mul|done| |by rewrite Hpnv|done|done|by rewrite Ex|].
  { intros E. apply Hpf. unfold pf_page. by rewrite <- E, Hpnv. }
  rewrite Ex in Hcopy, Hoth. pose proof (got_page_private cpu u W x l fl ci c a u1 W1 l1 a1 c PFTEMP a a1 Hw Hw1 Hgp) as Hpriv.
  destruct (remap_run _ W1 l1 fl ci c a1 (PGNUM va) w x Hw2 Hpn Hm1 Hpf1 Hx Hpriv) as (p3 & l3 & Hrun3 & Hw3 & Hl3 & Hf3).
  destruct (unmap_run _ _ l3 fl ci c _ (mkpte x rw) Hw3) as (p4 & l4 & Hrun4 & Hw4 & Hl4 & Hf4).
  { cbn [as_maps with_map]. by rewrite lookup_insert_ne. }
  eexists _, _, l4, _, x. split; [|split; [exact Hw4|split; [pose proof (gp_room _ _ _ _ _ _ _ _ _ _ _ Hgp); lia|]]].
  - unfold pgfault. unfold nonzero in Herr. apply negb_true_iff in Herr. rewrite Herr.
    destruct (vr_maps_dom _ _ (uw_rep cpu u W _ fl ci c a Hw) _ w Hm) as [tp Htp].
    mstep (apply (uvpt_run cpu u W _ fl ci c a Hw); [revert Hpn; change (PGNUM UTOP) with 977920; lia|by exists tp]).
    rewrite Hm. change (default 0 (Some w)) with w. rewrite Hcow. cbn [negb]. mstep (exact Hrun1). change (0 <? 0) with false. cbv iota.
    rewrite Erd. mstep (exact Hrun2). mstep (exact Hrun3). change (0 <? 0) with false. cbv iota. by mstep (exact Hrun4).
  - exact (handler_copied u u1 p2 p3 p4 W W1 l l1 l3 fl ci c (PGNUM va) w x a a1 Hpf Hx Hm Hw Hw1 Hgp Hcopy Hoth Hw3 Hf3 Hf4).
Qed.

(** What a store to [va] through copy on write leaves: everyone but the running environment
    [c] reads what it read, and [c] reads the new byte. *)
Record stored (u u' : user) (W W' : gmap Z aspace) (c va v : Z) (a a' : aspace) : Prop := {
  sd_user : u' = with_pm u'.(u_kern).(pm) u;
  sd_byte : ubyte u'.(u_kern).(pm) a' va = Some (u8 v);
  sd_rest : forall va', 0 <= va' < 2 ^ 32 -> va' <> va -> PGNUM va' <> pf_page -> ubyte u'.(u_kern).(pm) a' va' = ubyte u.(u_kern).(pm) a va';
  sd_others : forall j, j <> c -> W' !! j = W !! j;
  sd_memory : forall j d va', j <> c -> W !! j = Some d -> ubyte u'.(u_kern).(pm) d va' = ubyte u.(u_kern).(pm) d va';
}.

(** A write to a page nobody else has. *)
Lemma poke_elsewhere u pa v y : pa / PGSIZE <> y -> same_page y u.(u_kern).(pm) (poke u pa v).(u_kern).(pm).
Proof.
  intros H o <-. cbn [poke with_pm set_u_kern u_kern set_pm pm set_pmem pmem]. rewrite ld8_st8.
  destruct (Z.eqb_spec pa o) as [->|]; [by destruct H|done].
Qed.

Lemma copied_stored u u1 W W1 c va w x v a a1 :
  0 <= va < UTOP -> PGNUM va <> pf_page -> a.(as_maps) !! PGNUM va = Some w -> W !! c = Some a ->
  cow_copied u u1 W W1 c (PGNUM va) w x a a1 -> stored u (poke u1 (pte_pa (mkpte x rw) va) v) W W1 c va v a a1.
Proof.
  intros Hva Hpf Hm Hc H. pose proof (cp_page _ _ _ _ _ _ _ _ _ _ H) as Hx. pose proof (new_page x Hx) as Ex.
  set (pa := pte_pa (mkpte x rw) va). assert (pa / PGSIZE = x) as Epa by (unfold pa; by rewrite pte_pa_page, Ex).
  assert (a1.(as_maps) !! PGNUM va = Some (mkpte x rw)) as Hn.
  { rewrite (cp_maps _ _ _ _ _ _ _ _ _ _ H). by rewrite (proj2 (Z.eqb_neq _ _) Hpf), Z.eqb_refl. }
  assert (forall j d i w', W !! j = Some d -> d.(as_maps) !! i = Some w' -> (j = c -> i <> pf_page /\ i <> PGNUM va) ->
    same_page (pte_page w') u.(u_kern).(pm) (poke u1 pa v).(u_kern).(pm)) as Hk.
  { intros j d i w' Hj Hi Hne. apply (same_page_trans _ _ u1.(u_kern).(pm)); [by apply (cp_kept _ _ _ _ _ _ _ _ _ _ H j d i)|].
    apply poke_elsewhere. rewrite Epa. symmetry. by apply (cp_fresh _ _ _ _ _ _ _ _ _ _ H j d i). }
  split.
  - rewrite (cp_user _ _ _ _ _ _ _ _ _ _ H). done.
  - unfold ubyte, reach. rewrite Hn. cbn [andb fmap option_fmap option_map poke with_pm set_u_kern u_kern set_pm pm set_pmem pmem]. f_equal. fold pa.
    by rewrite ld8_st8, Z.eqb_refl.
  - intros va' Hr Hne Hp. destruct (Z.eq_dec (PGNUM va') (PGNUM va)) as [E|E].
    + unfold ubyte, reach. rewrite E, Hn, Hm. cbn [andb fmap option_fmap option_map poke with_pm set_u_kern u_kern set_pm pm set_pmem pmem]. f_equal.
      rewrite !PGNUM_div in E by (done || clia). rewrite ld8_st8. unfold pa, pte_pa. rewrite Ex.
      rewrite (proj2 (Z.eqb_neq _ _)) by (clear -E Hne Hva Hr; czdm). apply (cp_bytes _ _ _ _ _ _ _ _ _ _ H). clear. czdm.
    + apply ubyte_same; rewrite (cp_maps _ _ _ _ _ _ _ _ _ _ H), (proj2 (Z.eqb_neq _ _) Hp), (proj2 (Z.eqb_neq _ _) E); [|done].
      intros w' Hw'. exists w'. split; [done|]. split; [done|]. by apply (Hk c a (PGNUM va') w').
  - apply (cp_others _ _ _ _ _ _ _ _ _ _ H).
  - intros j d va' Hj Hd. apply ubyte_same; [|done]. intros w' Hw'. exists w'. split; [done|]. split; [done|]. by apply (Hk j d (PGNUM va') w').
Qed.

Lemma cow_store_ok u W l fl ci c a va w v :
  uwf cpu u W l fl ci c a -> 0 <= va < UTOP -> PGNUM va <> pf_page -> a.(as_maps) !! PGNUM va = Some w ->
  bits_set w PTE_COW = true -> bits_set w PTE_W = false -> (2 <= length l)%nat ->
  exists u' W' l' a', cow_store cpu va v u = Ret tt u' /\ uwf cpu u' W' l' fl ci c a' /\ (length l <= 2 + length l')%nat /\
    stored u u' W W' c va v a a'.
Proof.
  intros Hw Hva Hpf Hm Hcow HW Hl.
  destruct (pgfault_ok u W l fl ci c a va w (Z.lor 1 (Z.lor FEC_WR 4)) Hw Hva Hpf Hm) as (u1 & W1 & l1 & a1 & x & Hrun & Hw1 & Hlen & H);
    [unfold nonzero; rewrite <- Hcow; exact (flag_bit w 11 ltac:(done))|done|done|].
  pose proof (cp_page _ _ _ _ _ _ _ _ _ _ H) as Hx.
  assert (a1.(as_maps) !! PGNUM va = Some (mkpte x rw)) as Hn.
  { rewrite (cp_maps _ _ _ _ _ _ _ _ _ _ H). by rewrite (proj2 (Z.eqb_neq _ _) Hpf), Z.eqb_refl. }
  assert (bits_set (mkpte x rw) PTE_W = true) as HWx by by rewrite (mkpte_flag x rw PTE_W Hx ltac:(by vm_compute) (or_intror eq_refl)).
  exists (poke u1 (pte_pa (mkpte x rw) va) v), W1, l1, a1. split; [|split; [|split; [exact Hlen|]]].
  - unfold cow_store. mstep (apply (user_addr_reach cpu u W l fl ci c a Hw va true Hva)). unfold reach at 1. rewrite Hm, HW. cbn [andb negb].
    mstep (apply (user_addr_reach cpu u W l fl ci c a Hw va false Hva)). unfold reach. rewrite Hm. cbn [andb]. mstep (exact Hrun).
    exact (ust8_run cpu u1 W1 l1 fl ci c a1 Hw1 va v _ Hva Hn HWx).
  - apply (uwf_poke u1 W1 l1 fl ci c a1 (PGNUM va) _ _ _ Hw1 Hn). czdm.
  - exact (copied_stored u u1 W W1 c va w x v a a1 Hva Hpf Hm (uw_space _ _ _ _ _ _ _ _ Hw) H).
Qed.
End Cow.
