(* ===== verification/DemoFork.v ===== *)
(** The machine of [DemoKern] with more free pages and a user program in environment 0, used
    to instantiate the theorems on [fork]. *)

From S2P Require Import Prelude Mmu Mem Console E1000 Pmap PmapBoot Env Sched Syscall.
From S2P Require Import PmapAlloc PmapVm PmapRefs UserRep KernInv SysMem Demo DemoKern User UserVm ForkVm.

(** One more page of memory, at the head of the free list. *)
Definition add_page (s : pmap) : pmap :=
  mkPmap (s.(npages) + 1) s.(npages_basemem) s.(nextfree) s.(kern_pgdir) s.(pages_va)
    (<[s.(npages) := mkPageInfo s.(page_free_list) 0]> s.(pages)) s.(envs_va) (Some s.(npages)) s.(pmem) s.(mmio_base)
    s.(user_mem_check_addr) s.(invlpgs).

Section Add.
Variables (s : pmap) (W : gmap Z aspace) (l : list Z).
Hypothesis Hwf : vm_wf s W l no_pend.
Hypothesis Hn : s.(npages) < 65536.

Lemma add_page_free x : x ∈ l -> x <> s.(npages).
Proof. intros H%(free_in_range _ _ _ _ Hwf). lia. Qed.

Lemma add_page_alloc : alloc_wf (add_page s) (s.(npages) :: l).
Proof.
  destruct (vw_alloc _ _ _ _ Hwf) as [Hc Hd Hf Hdom Hnp Hr Hl]. split; cbn [add_page pages page_free_list npages].
  - split; [done|]. eexists. split; [apply lookup_insert_eq|]. apply chain_insert_other; [|done]. intros H. by apply (add_page_free _ H).
  - constructor; [|done]. intros H. by apply (add_page_free _ H).
  - intros x pi [->|Hx]%elem_of_cons; [rewrite lookup_insert_eq; by intros [= <-]|]. rewrite lookup_insert_ne by (intros E; symmetry in E; by apply (add_page_free x)). by apply Hf.
  - intros i. rewrite lookup_insert_is_Some', Hdom. lia.
  - lia.
  - intros i pi [[_ <-]|[_ Hi]]%lookup_insert_Some; [done|by apply (Hr i)].
  - intros i pi [[<- <-]|[_ Hi]]%lookup_insert_Some Hni; [exfalso; apply Hni; left|]. apply (Hl i); [done|]. intros H. apply Hni. by right.
Qed.

Lemma add_page_refs : refs W s.(npages) = 0.
Proof.
  apply total_zero. intros k a Hk. pose proof (vw_rep _ _ _ _ Hwf k a Hk) as Hr. unfold refs1.
  rewrite !total_zero; [| |].
  - unfold hits. rewrite (proj2 (Z.eqb_neq _ _)); [done|]. pose proof (vr_dir _ _ Hr). lia.
  - intros v w Hv. destruct (vw_mapped _ _ _ _ Hwf k a v w Hk Hv). unfold hits. rewrite (proj2 (Z.eqb_neq _ _)) by lia. done.
  - intros d tp Hd. destruct (vr_tabs_dom _ _ Hr d tp Hd). unfold hits. rewrite (proj2 (Z.eqb_neq _ _)) by lia. done.
Qed.

Lemma add_page_wf : vm_wf (add_page s) W (s.(npages) :: l) no_pend.
Proof.
  split.
  - exact add_page_alloc.
  - intros k a Hk. destruct (vw_rep _ _ _ _ Hwf k a Hk) as [H1 H2 H3 H4 H5 H6 H7 H8 H9 H10]. split; cbn [add_page npages pmem]; try done; try lia.
    intros d tp Hd. destruct (H5 d tp Hd). split; [done|lia].
  - apply (vw_disj _ _ _ _ Hwf).
  - intros k a v w Hk Hv. destruct (vw_mapped _ _ _ _ Hwf k a v w Hk Hv). cbn [add_page npages]. split; [lia|done].
  - intros p pi. cbn [add_page pages]. intros [[<- <-]|[_ Hi]]%lookup_insert_Some; [by rewrite add_page_refs|by apply (vw_ref _ _ _ _ Hwf)].
Qed.
End Add.

Lemma add_page_kern s W l fl :
  kern_wf s W l fl -> s.(pm).(npages) < 65536 -> kern_wf (set_pm (add_page s.(pm)) s) W (s.(pm).(npages) :: l) fl.
Proof.
  intros Hk Hn. pose proof (add_page_wf _ _ _ (kw_vm _ _ _ _ Hk) Hn) as Hvm. destruct Hk as [H1 H2 H3 H4 H5 H6 H7 H8 H9 H10 H11 (kp & Hkp & Hr & Hno)].
  split; try done.
  - intros i a Hi. destruct (H3 i a Hi). by split.
  - exists kp. split; [done|]. cbn [set_pm pm add_page npages]. split; [lia|]. intros [H|[->|H]%elem_of_cons]; [apply Hno; by left|lia|apply Hno; by right].
Qed.

Definition add_kern (s : kern) : kern := set_pm (add_page s.(pm)) s.

(** Environment 0 runs a program with seven more free pages. *)
Definition demo_big : kern := Nat.iter 7 add_kern demo_kern.
Definition demo_free : list Z := [12; 11; 10; 9; 8; 7; 6; 4; 5].
Definition demo_user : user := mkUser demo_big 0 0.

#[global] Instance demo_program : Program := {| sym_pgfault_upcall := 0x800100; sym_pgfault := 0x800200 |}.

Lemma demo_big_wf : kern_wf demo_big demo_world demo_free (seqZ 1 1023).
Proof. pose proof demo_kern_wf as H. do 7 (apply add_page_kern in H; [|done]). exact H. Qed.

Lemma demo_uwf : uwf 0 demo_user demo_world demo_free (seqZ 1 1023) demo_cpu 0 demo_space.
Proof. split; [exact demo_big_wf| |done|done]. destruct demo_caller. by split. Qed.

Lemma demo_maps v w : demo_space.(as_maps) !! v = Some w -> v = 1024 /\ w = mkpte 2 7.
Proof. unfold demo_space. cbn [as_maps]. intros H%lookup_singleton_Some. naive_solver. Qed.

Lemma demo_user_refs v w : demo_space.(as_maps) !! v = Some w -> refs demo_world (pte_page w) < 2 ^ 14.
Proof.
  intros [_ ->]%demo_maps. change (pte_page (mkpte 2 7)) with 2.
  assert (refs demo_world 2 = 1) as -> by reflexivity. done.
Qed.

(** Remapping the page at [demo_va] without write permission. *)
Lemma demo_reflag perm :
  bad_perm perm = false -> bits_set perm PTE_W = false -> 0 <= perm < 2 ^ 32 ->
  exists p', usys_page_map 0 0 demo_va 0 demo_va perm demo_user = Ret 0 (with_pm p' demo_user) /\
    uwf 0 (with_pm p' demo_user) (<[0 := with_map 1024 (mkpte 2 perm) demo_space]> demo_world) demo_free (seqZ 1 1023) demo_cpu 0
      (with_map 1024 (mkpte 2 perm) demo_space).
Proof.
  intros Hb HW Hr. assert (pte_page (mkpte 2 7) = 2) as E2 by by vm_compute.
  pose proof (as_page_map_share demo_user.(u_kern).(envs) 0 demo_world demo_free 0 0 0 0 demo_va demo_va (mkpte 2 7) perm demo_space demo_space
    demo_free eq_refl eq_refl Hb eq_refl eq_refl eq_refl ltac:(by rewrite HW) eq_refl eq_refl) as Hmap.
  rewrite E2 in Hmap. change (drop_free demo_world demo_free _ 2) with demo_free in Hmap.
  assert (forall src w, resolve demo_user.(u_kern).(envs) (Some 0) 0 true = Some src -> entry_of demo_world src demo_va = Some w ->
    refs demo_world (pte_page w) + 1 < 2 ^ 16) as Hov.
  { intros src w _ H. unfold entry_of in H. destruct (demo_world !! src) as [d|] eqn:Ed; [|done]. apply demo_world_inv in Ed as [_ ->].
    pose proof (demo_user_refs _ w H). lia. }
  destruct (usys_page_map_run 0 demo_uninit demo_user demo_world demo_free (seqZ 1 1023) demo_cpu 0 demo_space demo_uwf 0 demo_va 0 demo_va perm _ _ _
    ltac:(lia) ltac:(lia) ltac:(by vm_compute) ltac:(by vm_compute) Hr Hov Hmap) as (p' & a' & Hrun & Ha' & _ & Hw & _).
  rewrite lookup_insert_eq in Ha'. injection Ha' as <-. exists p'. split; [exact Hrun|exact Hw].
Qed.

Lemma demo_uwf_next : uwf 0 demo_user demo_world demo_free (1 :: seqZ 2 1022) demo_cpu 0 demo_space.
Proof. pose proof demo_uwf as Hw. rewrite (seqZ_cons 1 1023) in Hw by lia. exact Hw. Qed.

Lemma demo_user_self : demo_user.(u_thisenv) = 0.
Proof. done. Qed.

Lemma demo_user_env : demo_user.(u_kern).(envs) !! 0 = Some (demo_env 0).
Proof. exact (demo_envs_lookup 0 ltac:(lia)). Qed.

Lemma demo_room : (size demo_space.(as_tabs) + 8 <= length demo_free)%nat.
Proof. vm_compute. lia. Qed.

Lemma demo_room6 : (size demo_space.(as_tabs) + 6 <= length demo_free)%nat.
Proof. pose proof demo_room. lia. Qed.

Lemma demo_room2 : (2 <= length demo_free)%nat.
Proof. pose proof demo_room. lia. Qed.

Lemma demo_sym : 0 <= sym_pgfault_upcall < 2 ^ 32.
Proof. by vm_compute. Qed.

Lemma demo_va_user : 0 <= demo_va < UTOP.
Proof. by vm_compute. Qed.
