(* ===== verification/FdSpec.v ===== *)
(** File descriptors ([lib/fd.c]) over the kernel: which descriptor is handed out, and that a
    duplicate shares everything with the original. *)

From stdpp Require Import gmap.
From S2P Require Import Prelude Mmu Mem Console E1000 Pmap PmapBoot Env Sched Syscall User Fd.
From S2P Require Import PmapAlloc PmapVm PmapRefs UserRep EnvMem KernInv SysMem UserMem UserVm Fork ForkVm ForkRun CowRun Demo DemoKern DemoFork.

(** ** Where descriptors are *)

Definition fd_page (i : Z) : Z := 0xD0000 + i.
Definition data_page (i : Z) : Z := 0xD0020 + i.

Lemma fd_va i : 0 <= i < MAXFD -> INDEX2FD i = fd_page i * PGSIZE /\ INDEX2DATA i = data_page i * PGSIZE /\ fd2num (INDEX2FD i) = i /\ fd2data (INDEX2FD i) = INDEX2DATA i.
Proof.
  unfold MAXFD. intros Hi. assert (INDEX2FD i = FDTABLE + i * PGSIZE) as E by (unfold INDEX2FD, FDTABLE; apply u32_small; clia). assert (fd2num (INDEX2FD i) = i) as En.
  { unfold fd2num. rewrite E. replace (FDTABLE + i * PGSIZE - FDTABLE) with (i * PGSIZE) by lia. rewrite u32_small by clia. apply Z.div_mul. done. }
  split; [rewrite E; unfold FDTABLE, fd_page; clia|]. split; [|split; [done|unfold fd2data; by rewrite En]].
  unfold INDEX2DATA, FILEDATA, FDTABLE, MAXFD, data_page. rewrite u32_small; clia.
Qed.

Lemma fd_pages i : 0 <= i < MAXFD -> 0 <= fd_page i < PGNUM UTOP /\ 0 <= data_page i < PGNUM UTOP /\ fd_page i / 1024 = 832 /\ data_page i / 1024 = 832.
Proof. unfold MAXFD, fd_page, data_page. change (PGNUM UTOP) with 977920. intros. repeat split; zdm. Qed.

(** The flags handed on by [dup]. *)
Definition kept_perm (w : Z) : Z := Z.land w PTE_SYSCALL.

Lemma kept_perm_ok w : bits_set w PTE_P = true -> bits_set w PTE_U = true -> bad_perm (kept_perm w) = false /\ 0 <= kept_perm w < PGSIZE /\ bits_set (kept_perm w) PTE_W = bits_set w PTE_W.
Proof.
  unfold bits_set, kept_perm, bad_perm. rewrite !Z.eqb_eq. intros HP HU. rewrite <- !Z.land_assoc. change (Z.land PTE_SYSCALL PTE_U) with PTE_U. change (Z.land PTE_SYSCALL PTE_P) with PTE_P. change (Z.land PTE_SYSCALL PTE_W) with PTE_W.
  change (Z.land PTE_SYSCALL (u32 (Z.lnot PTE_SYSCALL))) with 0. rewrite HP, HU, Z.land_0_r. split; [done|]. split; [|done].
  pose proof (land_bound w PTE_SYSCALL ltac:(by vm_compute)) as H. change PTE_SYSCALL with 3591 in *. clia.
Qed.

Lemma present_bit x : nonzero (Z.land x PTE_P) = bits_set x PTE_P.
Proof. exact (flag_bit x 0 ltac:(lia)). Qed.

Section Run.
Context {Mach : Machine} (cpu : Z).
Hypothesis uninit_nonzero : forall pgdir va, uninit_ptep pgdir va <> 0.

Lemma va_mapped_run u W l fl ci c a v :
  uwf cpu u W l fl ci c a -> 0 <= v < PGNUM UTOP -> va_mapped cpu (v * PGSIZE) u = Ret (bool_decide (is_Some (a.(as_maps) !! v))) u.
Proof.
  intros Hw Hv. destruct (page_va v Hv) as (_ & _ & Hpn & Hpd & _). change (PGNUM UTOP) with 977920 in Hv. pose proof (uw_rep cpu u W l fl ci c a Hw) as Hrep.
  unfold va_mapped. rewrite Hpd, Hpn. mstep (apply (uvpd_run cpu u W l fl ci c a Hw); zdm). rewrite present_bit.
  destruct (a.(as_tabs) !! (v / 1024)) as [tp|] eqn:Et.
  - destruct (pde_table _ a Hrep (uw_user cpu u W l fl ci c a Hw) _ _ Et) as (-> & _). mstep (apply (uvpt_run cpu u W l fl ci c a Hw); [lia|by rewrite Et]). cbn [ret]. unfold ret. rewrite present_bit.
    destruct (a.(as_maps) !! v) as [w|] eqn:Ew; [|done]. change (default 0 (Some w)) with w. destruct (map_present _ _ _ _ Hrep Ew) as [-> _]. done.
  - rewrite (pde_absent _ a Hrep (uw_slots cpu u W l fl ci c a Hw) (v / 1024)); [|unfold user_slots; change (UTOP / PTSIZE) with 955; apply andb_true_iff; split; [apply Z.leb_le; zdm|apply Z.ltb_lt; zdm]|exact Et].
    destruct (a.(as_maps) !! v) as [w|] eqn:Ew; [|done]. apply (vr_maps_dom _ _ Hrep) in Ew. rewrite Et in Ew. by destruct Ew.
Qed.

(** A page mapped a second time in the same environment. *)
Lemma share_run u W l fl ci c a vs vd w :
  uwf cpu u W l fl ci c a -> 0 <= vs < PGNUM UTOP -> 0 <= vd < PGNUM UTOP -> vs / 1024 = vd / 1024 -> a.(as_maps) !! vs = Some w -> refs W (pte_page w) + 1 < 2 ^ 16 ->
  let a' := with_map vd (mkpte (pte_page w) (kept_perm w)) a in
  exists p' l', usys_page_map cpu 0 (vs * PGSIZE) 0 (vd * PGSIZE) (kept_perm w) u = Ret 0 (with_pm p' u) /\ uwf cpu (with_pm p' u) (<[c := a']> W) l' fl ci c a' /\
    vm_frame (fun p => owned W p \/ p ∈ l) u.(u_kern).(pm) p'.
Proof using uninit_nonzero.
  intros Hw Hs Hd Htab Hm Hr a'. destruct (page_va vs Hs) as (_ & Hbs & Hpns & _ & Hvs). destruct (page_va vd Hd) as (_ & Hbd & Hpnd & Hpdd & Hvd). pose proof (uw_rep cpu u W l fl ci c a Hw) as Hrep.
  destruct (map_present _ _ _ _ Hrep Hm) as [HP _]. pose proof (ur_map _ _ (uw_user cpu u W l fl ci c a Hw) _ _ Hm) as HU. destruct (kept_perm_ok w HP HU) as (Hbp & Hpr & HW).
  assert (ensure_tab a l (PDX (vd * PGSIZE)) = Some (a, l)) as He by (rewrite Hpdd, <- Htab; unfold ensure_tab; by destruct (vr_maps_dom _ _ Hrep vs w Hm) as [tp ->]).
  assert (entry_of W c (vs * PGSIZE) = Some w) as Hen by (unfold entry_of; rewrite (uw_space _ _ _ _ _ _ _ _ Hw), Hpns; exact Hm).
  pose proof (as_page_map_share u.(u_kern).(envs) c W l 0 0 c c (vs * PGSIZE) (vd * PGSIZE) w (kept_perm w) a a l Hbs Hbd Hbp eq_refl eq_refl Hen ltac:(by rewrite HW) (uw_space _ _ _ _ _ _ _ _ Hw) He) as Hmap. rewrite Hpnd in Hmap.
  assert (forall src w', resolve u.(u_kern).(envs) (Some c) 0 true = Some src -> entry_of W src (vs * PGSIZE) = Some w' -> refs W (pte_page w') + 1 < 2 ^ 16) as Hov by (intros src w' [= <-]; rewrite Hen; by intros [= <-]).
  destruct (usys_page_map_run cpu uninit_nonzero u W l fl ci c a Hw 0 (vs * PGSIZE) 0 (vd * PGSIZE) (kept_perm w) _ _ _ ltac:(lia) ltac:(lia) Hvs Hvd ltac:(clia) Hov Hmap) as (p' & a2 & Hrun & Ha' & _ & Hw' & Hf).
  rewrite lookup_insert_eq in Ha'. injection Ha' as <-. exists p'. eexists. split; [exact Hrun|]. split; [exact Hw'|exact Hf].
Qed.

Lemma unmap_page_run u W l fl ci c a v :
  uwf cpu u W l fl ci c a -> 0 <= v < PGNUM UTOP ->
  exists p' W' l' a', usys_page_unmap cpu 0 (v * PGSIZE) u = Ret 0 (with_pm p' u) /\ uwf cpu (with_pm p' u) W' l' fl ci c a' /\ a'.(as_maps) = delete v a.(as_maps) /\ a'.(as_tabs) = a.(as_tabs).
Proof using uninit_nonzero.
  intros Hw Hv. destruct (page_va v Hv) as (_ & Hb & Hpn & _ & Hvr). destruct (a.(as_maps) !! v) as [w|] eqn:Hm.
  - assert (as_page_unmap u.(u_kern).(envs) c W l 0 (v * PGSIZE) = (0, <[c := without_map v a]> W, if refs W (pte_page w) =? 1 then pte_page w :: l else l)) as Hun.
    { unfold as_page_unmap, entry_of. rewrite Hb. change (resolve _ (Some c) 0 true) with (Some c). cbv iota. rewrite (uw_space _ _ _ _ _ _ _ _ Hw). cbn [mbind option_bind]. by rewrite Hpn, Hm. }
    destruct (usys_page_unmap_run cpu uninit_nonzero u W l fl ci c a Hw 0 (v * PGSIZE) _ _ _ ltac:(lia) Hvr Hun) as (p' & a' & Hrun & Ha' & _ & Hw' & _).
    rewrite lookup_insert_eq in Ha'. injection Ha' as <-. eexists p', _, _, _. split; [exact Hrun|]. split; [exact Hw'|done].
  - assert (as_page_unmap u.(u_kern).(envs) c W l 0 (v * PGSIZE) = (0, W, l)) as Hun.
    { unfold as_page_unmap, entry_of. rewrite Hb. change (resolve _ (Some c) 0 true) with (Some c). cbv iota. rewrite (uw_space _ _ _ _ _ _ _ _ Hw). cbn [mbind option_bind]. by rewrite Hpn, Hm. }
    destruct (usys_page_unmap_run cpu uninit_nonzero u W l fl ci c a Hw 0 (v * PGSIZE) _ _ _ ltac:(lia) Hvr Hun) as (p' & a' & Hrun & Ha' & _ & Hw' & _).
    rewrite (uw_space _ _ _ _ _ _ _ _ Hw) in Ha'. injection Ha' as <-. exists p', W, l, a. split; [exact Hrun|]. split; [exact Hw'|]. split; [by rewrite delete_id|done].
Qed.

(** ** [fd_alloc] and [fd_lookup] *)

Lemma fd_lookup_run u W l fl ci c a i :
  uwf cpu u W l fl ci c a -> 0 <= i < MAXFD ->
  fd_lookup cpu i u = Ret (if bool_decide (is_Some (a.(as_maps) !! fd_page i)) then (0, Some (INDEX2FD i)) else (- E_INVAL, None)) u.
Proof.
  intros Hw Hi. unfold fd_lookup. rewrite (proj2 (Z.ltb_ge _ _)), (proj2 (Z.leb_gt _ _)) by lia. cbn [orb]. destruct (fd_va i Hi) as (-> & _). destruct (fd_pages i Hi) as (Hp & _).
  mstep (by apply (va_mapped_run u W l fl ci c a)). by destruct (bool_decide _).
Qed.

(** The lowest descriptor that is not open. *)
Definition lowest_closed (a : aspace) (i : Z) : Prop := a.(as_maps) !! fd_page i = None /\ forall j, 0 <= j < i -> is_Some (a.(as_maps) !! fd_page j).

Lemma fd_alloc_run u W l fl ci c a n : forall i,
  uwf cpu u W l fl ci c a -> 0 <= i -> i + Z.of_nat n = MAXFD -> (forall j, 0 <= j < i -> is_Some (a.(as_maps) !! fd_page j)) ->
  (exists k, 0 <= k < MAXFD /\ lowest_closed a k /\ fd_alloc_from cpu n i u = Ret (0, INDEX2FD k) u) \/
  ((forall j, 0 <= j < MAXFD -> is_Some (a.(as_maps) !! fd_page j)) /\ fd_alloc_from cpu n i u = Ret (- E_MAX_OPEN, 0) u).
Proof.
  induction n as [|n IH]; intros i Hw Hi Hn Hlow; cbn [fd_alloc_from].
  - right. split; [|done]. intros j Hj. apply Hlow. lia.
  - destruct (fd_va i ltac:(lia)) as (Ei & _). destruct (fd_pages i ltac:(lia)) as (Hp & _). rewrite (bind_ret _ _ _ (bool_decide (is_Some (a.(as_maps) !! fd_page i))) u) by (rewrite Ei; by apply (va_mapped_run u W l fl ci c a)).
    destruct (a.(as_maps) !! fd_page i) as [w|] eqn:Hm.
    + rewrite bool_decide_eq_true_2 by eauto. cbn [negb]. apply IH; [done|lia|lia|]. intros j Hj. destruct (decide (j = i)) as [->|]; [by rewrite Hm|]. apply Hlow. lia.
    + rewrite bool_decide_eq_false_2 by (by intros [? ?]). left. exists i. split; [lia|]. split; [by split|done].
Qed.

(** ** [dup] *)

Section Dup.
Variable devtab : list Dev.

Lemma close_closed u W l fl ci c a i :
  uwf cpu u W l fl ci c a -> 0 <= i < MAXFD -> a.(as_maps) !! fd_page i = None -> close cpu devtab i u = Ret (- E_INVAL) u.
Proof.
  intros Hw Hi Hm. unfold close. mstep (by apply (fd_lookup_run u W l fl ci c a)). rewrite Hm, bool_decide_eq_false_2 by (by intros [? ?]). done.
Qed.

(** The entry of [dup] for the entry [w]. *)
Definition dup_entry (w : Z) : Z := mkpte (pte_page w) (kept_perm w).

(** The data page, when there is one. *)
Definition dup_data (old new : Z) (m : gmap Z Z) : gmap Z Z :=
  match m !! data_page old with Some w => <[data_page new := dup_entry w]> m | None => m end.

Lemma uvpt_entry u W l fl ci c a v w :
  uwf cpu u W l fl ci c a -> 0 <= v < PGNUM UTOP -> a.(as_maps) !! v = Some w -> uvpt cpu v u = Ret w u.
Proof.
  change (PGNUM UTOP) with 977920. intros Hw Hv Hm. rewrite (uvpt_run cpu u W l fl ci c a Hw v); [by rewrite Hm|lia|]. by destruct (vr_maps_dom _ _ (uw_rep cpu u W l fl ci c a Hw) v w Hm) as [tp ->].
Qed.

Lemma dup_data_run u W l fl ci c a old new :
  uwf cpu u W l fl ci c a -> 0 <= old < MAXFD -> 0 <= new < MAXFD -> (forall v x, a.(as_maps) !! v = Some x -> refs W (pte_page x) < 2 ^ 14) ->
  exists p1 W1 l1 a1, (let* data := va_mapped cpu (INDEX2DATA old) in
      if data then let* w := uvpt cpu (PGNUM (INDEX2DATA old)) in usys_page_map cpu 0 (INDEX2DATA old) 0 (INDEX2DATA new) (Z.land w PTE_SYSCALL) else ret 0) u = Ret 0 (with_pm p1 u) /\
    uwf cpu (with_pm p1 u) W1 l1 fl ci c a1 /\ a1.(as_maps) = dup_data old new a.(as_maps) /\
    (forall v x, a.(as_maps) !! v = Some x -> same_page (pte_page x) u.(u_kern).(pm) p1 /\ (a1.(as_maps) !! v = Some x -> refs W1 (pte_page x) < 2 ^ 15)).
Proof using uninit_nonzero.
  intros Hw Ho Hn Hrefs. destruct (fd_va old Ho) as (_ & Eo & _). destruct (fd_va new Hn) as (_ & En & _). destruct (fd_pages old Ho) as (_ & Hpo & _ & Hto). destruct (fd_pages new Hn) as (_ & Hpn & _ & Htn).
  rewrite Eo, En. destruct (page_va (data_page old) Hpo) as (_ & _ & -> & _). unfold dup_data. rewrite (bind_ret _ _ _ (bool_decide (is_Some (a.(as_maps) !! data_page old))) u) by (by apply (va_mapped_run u W l fl ci c a)).
  destruct (a.(as_maps) !! data_page old) as [w|] eqn:Hm.
  - rewrite bool_decide_eq_true_2 by eauto. destruct (share_run u W l fl ci c a (data_page old) (data_page new) w Hw Hpo Hpn ltac:(congruence) Hm ltac:(pose proof (Hrefs _ _ Hm); lia)) as (p1 & l1 & Hrun & Hw1 & Hf).
    exists p1. eexists _, l1, _. split; [mstep (exact (uvpt_entry u W l fl ci c a _ w Hw Hpo Hm)); exact Hrun|]. split; [exact Hw1|]. split; [done|]. intros v x Hv. split.
    + apply (frame_page _ _ _ _ Hf). by apply (mapped_apart u.(u_kern) W l fl c a v x (uw_kern _ _ _ _ _ _ _ _ Hw) (uw_space _ _ _ _ _ _ _ _ Hw)).
    + intros Hv1. pose proof (Hrefs v x Hv). pose proof (refs_more W c a a (data_page new) (mkpte (pte_page w) (kept_perm w)) (pte_page x) (uw_space _ _ _ _ _ _ _ _ Hw) eq_refl) as Hmore.
      destruct (vw_mapped _ _ _ _ (kw_vm _ _ _ _ (uw_kern _ _ _ _ _ _ _ _ Hw1)) c _ v x (uw_space _ _ _ _ _ _ _ _ Hw1) Hv1) as [_ Hno]. specialize (Hmore Hno). lia.
  - rewrite bool_decide_eq_false_2 by (by intros [? ?]). exists u.(u_kern).(pm), W, l, a. assert (with_pm u.(u_kern).(pm) u = u) as E by (unfold with_pm; rewrite set_pm_id; by destruct u). rewrite E.
    split; [done|]. split; [done|]. split; [done|]. intros v x Hv. split; [done|]. intros _. pose proof (Hrefs v x Hv). lia.
Qed.

Lemma dup_run u W l fl ci c a old new w :
  uwf cpu u W l fl ci c a -> 0 <= old < MAXFD -> 0 <= new < MAXFD -> a.(as_maps) !! fd_page old = Some w -> a.(as_maps) !! fd_page new = None ->
  (forall v x, a.(as_maps) !! v = Some x -> refs W (pte_page x) < 2 ^ 14) ->
  exists p' W' l' a', dup cpu devtab old new u = Ret new (with_pm p' u) /\ uwf cpu (with_pm p' u) W' l' fl ci c a' /\
    a'.(as_maps) = <[fd_page new := dup_entry w]> (dup_data old new a.(as_maps)) /\
    (forall v x, v <> data_page new -> a.(as_maps) !! v = Some x -> same_page (pte_page x) u.(u_kern).(pm) p').
Proof using uninit_nonzero.
  intros Hw Ho Hn Hm Hnew Hrefs. destruct (fd_va old Ho) as (Eo & _ & _ & Do). destruct (fd_va new Hn) as (En & _ & _ & Dn). destruct (fd_pages old Ho) as (Hpo & _ & Hto & _). destruct (fd_pages new Hn) as (Hpn & _ & Htn & _).
  destruct (dup_data_run u W l fl ci c a old new Hw Ho Hn Hrefs) as (p1 & W1 & l1 & a1 & Hrun1 & Hw1 & Em & Hkeep).
  assert (forall v, v <> data_page new -> a1.(as_maps) !! v = a.(as_maps) !! v) as Hv1 by (intros v Hv; rewrite Em; unfold dup_data; destruct (a.(as_maps) !! data_page old); [by apply lookup_insert_ne|done]).
  assert (fd_page old <> data_page new /\ fd_page new <> data_page new) as [Hne1 Hne2] by (unfold fd_page, data_page, MAXFD in *; lia).
  assert (a1.(as_maps) !! fd_page old = Some w) as Hm1 by by rewrite Hv1.
  destruct (share_run (with_pm p1 u) W1 l1 fl ci c a1 (fd_page old) (fd_page new) w Hw1 Hpo Hpn ltac:(congruence) Hm1 ltac:(destruct (Hkeep _ _ Hm) as [_ Hk]; specialize (Hk Hm1); lia)) as (p2 & l2 & Hrun2 & Hw2 & Hf).
  rewrite with_pm_twice in Hrun2, Hw2. exists p2. eexists _, l2, _. split; [|split; [exact Hw2|split]].
  - unfold dup. mstep (by apply (fd_lookup_run u W l fl ci c a)). rewrite Hm, bool_decide_eq_true_2 by eauto. mstep (by apply (close_closed u W l fl ci c a)). cbv zeta. rewrite Do, Dn. mstep (exact Hrun1).
    change (0 <? 0) with false. cbv iota. rewrite Eo, En. destruct (page_va (fd_page old) Hpo) as (_ & _ & -> & _).
    rewrite (bind_ret _ _ _ 0 (with_pm p2 u)); [done|]. mstep (exact (uvpt_entry (with_pm p1 u) W1 l1 fl ci c a1 _ w Hw1 Hpo Hm1)). exact Hrun2.
  - cbn [with_map as_maps]. by rewrite Em.
  - intros v x Hv Hx. destruct (Hkeep v x Hx) as [Hk1 _]. apply (same_page_trans _ _ p1); [done|]. apply (frame_page _ _ _ _ Hf).
    apply (mapped_apart (with_pm p1 u).(u_kern) W1 l1 fl c a1 v x (uw_kern _ _ _ _ _ _ _ _ Hw1) (uw_space _ _ _ _ _ _ _ _ Hw1)). by rewrite Hv1.
Qed.
End Dup.
End Run.

(** ** Sharing *)

(** The pages [v] and [v'] are the same memory, with the same rights. *)
Definition same_memory (a : aspace) (v v' : Z) : Prop :=
  forall o write, 0 <= o < PGSIZE -> reach a (v * PGSIZE + o) write = reach a (v' * PGSIZE + o) write.

Lemma same_memory_entries p a v v' w :
  vm_rep p a -> user_rep p a -> 0 <= v < PGNUM UTOP -> 0 <= v' < PGNUM UTOP -> 0 <= pte_page w < 65536 -> a.(as_maps) !! v' = Some w -> a.(as_maps) !! v = Some (dup_entry w) -> same_memory a v v'.
Proof.
  intros Hr Hu Hv Hv' Hpg Hm Hm2 o write Ho. destruct (map_present _ _ _ _ Hr Hm) as [HP _]. destruct (kept_perm_ok w HP (ur_map _ _ Hu _ _ Hm)) as (_ & Hpr & HW). change (PGNUM UTOP) with 977920 in *.
  unfold reach. rewrite !PGNUM_mul by (done || lia). rewrite Hm, Hm2. unfold dup_entry. rewrite mkpte_flag, HW by (done || by right).
  destruct (write && negb (bits_set w PTE_W)); [done|]. f_equal. unfold pte_pa. rewrite mkpte_page by done. f_equal. czdm.
Qed.

(** Setting the offset through one of two descriptors that are the same memory. *)
Lemma seek_shared {Mach : Machine} cpu u W l fl ci c a i j w off :
  uwf cpu u W l fl ci c a -> 0 <= i < MAXFD -> 0 <= j < MAXFD -> a.(as_maps) !! fd_page i = Some w -> bits_set w PTE_W = true -> is_Some (a.(as_maps) !! fd_page j) ->
  same_memory a (fd_page i) (fd_page j) -> exists u', seek cpu i off u = Ret 0 u' /\ uld32 cpu (INDEX2FD j + 4) u' = Ret (u32 off) u'.
Proof.
  intros Hw Hi Hj Hm HW [w' Hm'] Hsame. destruct (fd_va i Hi) as (Ei & _). destruct (fd_va j Hj) as (Ej & _). destruct (fd_pages i Hi) as (Hpi & _). destruct (fd_pages j Hj) as (Hpj & _). change (PGNUM UTOP) with 977920 in *.
  assert (PGNUM (fd_page i * PGSIZE + 4) = fd_page i /\ PGNUM (fd_page j * PGSIZE + 4) = fd_page j) as [Ni Nj] by (split; apply PGNUM_mul; done || lia).
  assert (0 <= fd_page i * PGSIZE + 4 < UTOP /\ 0 <= fd_page j * PGSIZE + 4 < UTOP) as [Ri Rj] by clia.
  destruct (ust32_run cpu u W l fl ci c a (fd_page i * PGSIZE + 4) (u32 off) w Hw Ri ltac:(czdm) ltac:(by rewrite Ni) HW) as [Hrun Hw']. eexists. split.
  - unfold seek. mstep (by apply (fd_lookup_run cpu u W l fl ci c a)). rewrite Hm, bool_decide_eq_true_2 by eauto. rewrite Ei. mstep (exact Hrun). reflexivity.
  - rewrite Ej, (uld32_run cpu _ W l fl ci c a _ w' Hw' Rj ltac:(by rewrite Nj)). f_equal. cbn [with_pm set_u_kern u_kern set_pm pm set_pmem pmem].
    pose proof (Hsame 4 false ltac:(by vm_compute)) as Hr. unfold reach in Hr. rewrite Ni, Nj, Hm, Hm' in Hr. injection Hr as Hr. rewrite <- Hr, ld32_st32_eq. apply u32_small. unfold u32. zdm.
Qed.

(** [fd_alloc] changes nothing and answers with the lowest descriptor that is not open, or with an error when all
    are open. *)
Theorem fd_alloc_lowest {Mach : Machine} cpu u W l fl ci c a :
  uwf cpu u W l fl ci c a ->
  (exists k, 0 <= k < MAXFD /\ lowest_closed a k /\ fd_alloc cpu u = Ret (0, INDEX2FD k) u) \/
  ((forall j, 0 <= j < MAXFD -> is_Some (a.(as_maps) !! fd_page j)) /\ fd_alloc cpu u = Ret (- E_MAX_OPEN, 0) u).
Proof. intros Hw. apply (fd_alloc_run cpu u W l fl ci c a (Z.to_nat MAXFD) 0 Hw ltac:(lia) eq_refl). lia. Qed.

(** C40: Duplicating an open descriptor onto a closed one succeeds and makes the two the same memory, so that
    an offset set through one is the offset of the other; the data pages are shared as well, and every other page of
    the environment stays as it was. *)
Theorem dup_shares {Mach : Machine} cpu devtab u W l fl ci c a old new w :
  (forall pgdir va, uninit_ptep pgdir va <> 0) -> uwf cpu u W l fl ci c a -> 0 <= old < MAXFD -> 0 <= new < MAXFD ->
  a.(as_maps) !! fd_page old = Some w -> a.(as_maps) !! fd_page new = None -> (forall v x, a.(as_maps) !! v = Some x -> refs W (pte_page x) < 2 ^ 14) ->
  exists u' W' l' a', dup cpu devtab old new u = Ret new u' /\ uwf cpu u' W' l' fl ci c a' /\ same_memory a' (fd_page new) (fd_page old) /\
    (is_Some (a.(as_maps) !! data_page old) -> same_memory a' (data_page new) (data_page old)) /\
    (bits_set w PTE_W = true -> forall off, exists u2, seek cpu new off u' = Ret 0 u2 /\ uld32 cpu (INDEX2FD old + 4) u2 = Ret (u32 off) u2) /\
    (forall va write, 0 <= va < UTOP -> PGNUM va <> fd_page new -> PGNUM va <> data_page new ->
       reach a' va write = reach a va write /\ ubyte u'.(u_kern).(pm) a' va = ubyte u.(u_kern).(pm) a va).
Proof.
  intros Hu Hw Ho Hn Hm Hnew Hrefs. destruct (dup_run cpu Hu devtab u W l fl ci c a old new w Hw Ho Hn Hm Hnew Hrefs) as (p' & W' & l' & a' & Hrun & Hw' & Em & Hkeep).
  destruct (fd_pages old Ho) as (Hpo & Hdo & _). destruct (fd_pages new Hn) as (Hpn & Hdn & _). assert (fd_page old <> fd_page new) as Hne by (intros E; rewrite E, Hnew in Hm; done).
  assert (old <> new) as Hon by (intros ->; done). assert (forall i j, 0 <= i < MAXFD -> 0 <= j < MAXFD -> fd_page i <> data_page j) as Hfd by (unfold fd_page, data_page, MAXFD; lia).
  assert (forall v, v <> fd_page new -> v <> data_page new -> a'.(as_maps) !! v = a.(as_maps) !! v) as Hsame.
  { intros v H1 H2. rewrite Em, lookup_insert_ne by done. unfold dup_data. destruct (a.(as_maps) !! data_page old); [by rewrite lookup_insert_ne|done]. }
  assert (a'.(as_maps) !! fd_page old = Some w) as Hmo by (rewrite Hsame; auto). assert (a'.(as_maps) !! fd_page new = Some (dup_entry w)) as Hmn by (rewrite Em; apply lookup_insert_eq).
  pose proof (uw_rep cpu _ W' l' fl ci c a' Hw') as Hrep. pose proof (uw_user cpu _ W' l' fl ci c a' Hw') as Hur.
  assert (same_memory a' (fd_page new) (fd_page old)) as Hmem by (apply (same_memory_entries (with_pm p' u).(u_kern).(pm) a' (fd_page new) (fd_page old) w); try done; by apply (uw_page_small cpu (with_pm p' u) W' l' fl ci c a' (fd_page old) w)).
  exists (with_pm p' u), W', l', a'. split; [exact Hrun|]. split; [exact Hw'|]. split; [exact Hmem|]. split; [|split].
  - intros [wd Hd]. assert (a'.(as_maps) !! data_page old = Some wd) as Hd' by (rewrite Hsame; [exact Hd|apply not_eq_sym; auto|unfold data_page; lia]).
    apply (same_memory_entries (with_pm p' u).(u_kern).(pm) a' (data_page new) (data_page old) wd); try done; [by apply (uw_page_small cpu (with_pm p' u) W' l' fl ci c a' (data_page old) wd)|].
    rewrite Em, lookup_insert_ne by auto. unfold dup_data. rewrite Hd. apply lookup_insert_eq.
  - intros HW off. apply (seek_shared cpu _ W' l' fl ci c a' new old (dup_entry w)); try done. destruct (map_present _ _ _ _ Hrep Hmo) as [HP _]. destruct (kept_perm_ok w HP (ur_map _ _ Hur _ _ Hmo)) as (_ & Hpr & HWk).
    unfold dup_entry. rewrite mkpte_flag, HWk; [done|by apply (uw_page_small cpu (with_pm p' u) W' l' fl ci c a' (fd_page old) w)|done|by right].
  - intros va write Hva H1 H2. split; [unfold reach; by rewrite Hsame|]. apply ubyte_same; [|by rewrite Hsame]. intros x Hx. exists x. rewrite Hsame by done. split; [done|]. split; [done|]. by apply (Hkeep (PGNUM va)).
Qed.

(** [dup] of a descriptor onto itself closes it first, so that it fails and leaves the descriptor closed. *)
Theorem dup_self_closes {Mach : Machine} cpu devtab u W l fl ci c a i w r u1 W1 l1 a1 :
  (forall pgdir va, uninit_ptep pgdir va <> 0) -> uwf cpu u W l fl ci c a -> 0 <= i < MAXFD -> a.(as_maps) !! fd_page i = Some w ->
  close cpu devtab i u = Ret r u1 -> uwf cpu u1 W1 l1 fl ci c a1 -> a1.(as_maps) !! fd_page i = None -> a1.(as_maps) !! data_page i = None -> is_Some (a1.(as_tabs) !! 832) ->
  exists u', dup cpu devtab i i u = Ret (- E_INVAL) u' /\ fd_lookup cpu i u' = Ret (- E_INVAL, None) u'.
Proof.
  intros Hu Hw Hi Hm Hclose Hw1 Hm1 Hd1 Ht1. destruct (fd_va i Hi) as (Ei & Ed & _ & Di). destruct (fd_pages i Hi) as (Hp & Hpd & Ht & _). destruct (page_va (fd_page i) Hp) as (_ & Hb & Hpn & _ & Hv).
  assert (as_page_map u1.(u_kern).(envs) c W1 l1 0 (fd_page i * PGSIZE) 0 (fd_page i * PGSIZE) 0 = (- E_INVAL, W1, l1)) as Hbad by (unfold as_page_map; rewrite Hb; reflexivity).
  assert (entry_of W1 c (fd_page i * PGSIZE) = None) as Hno by (unfold entry_of; rewrite (uw_space _ _ _ _ _ _ _ _ Hw1), Hpn; exact Hm1).
  destruct (usys_page_map_run cpu Hu u1 W1 l1 fl ci c a1 Hw1 0 (fd_page i * PGSIZE) 0 (fd_page i * PGSIZE) 0 _ _ _ ltac:(lia) ltac:(lia) Hv Hv ltac:(lia) ltac:(intros src x [= <-]; by rewrite Hno) Hbad) as (p2 & a2 & Hrun2 & Ha2 & _ & Hw2 & _).
  rewrite (uw_space _ _ _ _ _ _ _ _ Hw1) in Ha2. injection Ha2 as <-.
  destruct (unmap_page_run cpu Hu _ _ _ _ _ _ _ (fd_page i) Hw2 Hp) as (p3 & W3 & l3 & a3 & Hrun3 & Hw3 & Em3 & _).
  destruct (unmap_page_run cpu Hu _ _ _ _ _ _ _ (data_page i) Hw3 Hpd) as (p4 & W4 & l4 & a4 & Hrun4 & Hw4 & Em4 & _).
  assert (a4.(as_maps) !! fd_page i = None) as Hm4 by (rewrite Em4, Em3; apply lookup_delete_None; right; apply lookup_delete_None; by left).
  eexists. split.
  - unfold dup. mstep (by apply (fd_lookup_run cpu u W l fl ci c a)). rewrite Hm, bool_decide_eq_true_2 by eauto. mstep (exact Hclose). cbv zeta. rewrite Di, Ei, Ed.
    rewrite (bind_ret _ _ _ 0 u1) by (mstep (by apply (va_mapped_run cpu u1 W1 l1 fl ci c a1)); rewrite Hd1, bool_decide_eq_false_2 by (by intros [? ?]); done).
    change (0 <? 0) with false. cbv iota. rewrite Hpn. rewrite (bind_ret _ _ _ (- E_INVAL) (with_pm p2 u1)) by (mstep (apply (uvpt_run cpu u1 W1 l1 fl ci c a1 Hw1); [change (PGNUM UTOP) with 977920 in Hp; lia|by rewrite Ht]); rewrite Hm1; exact Hrun2).
    change (- E_INVAL <? 0) with true. cbv iota. mstep (exact Hrun3). mstep (exact Hrun4). reflexivity.
  - rewrite (fd_lookup_run cpu _ W4 l4 fl ci c a4 i Hw4 Hi), Hm4, bool_decide_eq_false_2 by (by intros [? ?]). done.
Qed.

(** ** A descriptor open in the demonstration machine *)

Definition demo_fd_space : aspace := with_map (fd_page 0) (mkpte 12 0x407) (with_tab 832 11 demo_space).

Lemma demo_open :
  exists p', usys_page_alloc 0 0 (INDEX2FD 0) 0x407 demo_user = Ret 0 (with_pm p' demo_user) /\
    uwf 0 (with_pm p' demo_user) (<[0 := demo_fd_space]> demo_world) [10; 9; 8; 7; 6; 4; 5] (seqZ 1 1023) demo_cpu 0 demo_fd_space.
Proof.
  assert (as_page_alloc demo_user.(u_kern).(envs) 0 demo_world demo_free 0 (INDEX2FD 0) 0x407 = (0, <[0 := demo_fd_space]> demo_world, [10; 9; 8; 7; 6; 4; 5])) as E by by vm_compute.
  destruct (usys_page_alloc_run 0 demo_uninit demo_user demo_world demo_free (seqZ 1 1023) demo_cpu 0 demo_space demo_uwf 0 (INDEX2FD 0) 0x407 _ _ _
    ltac:(lia) ltac:(by vm_compute) ltac:(lia) E) as (p' & a' & Hrun & Ha' & _ & Hw & _).
  rewrite lookup_insert_eq in Ha'. injection Ha' as <-. exists p'. split; [exact Hrun|exact Hw].
Qed.

Lemma demo_fd_maps v x : demo_fd_space.(as_maps) !! v = Some x -> x = mkpte 12 0x407 \/ x = mkpte 2 7.
Proof. unfold demo_fd_space. cbn [with_map with_tab as_maps]. intros [[_ <-]|[_ [_ ->]%demo_maps]]%lookup_insert_Some; auto. Qed.

Lemma demo_fd_refs v x : demo_fd_space.(as_maps) !! v = Some x -> refs (<[0 := demo_fd_space]> demo_world) (pte_page x) < 2 ^ 14.
Proof. intros [->| ->]%demo_fd_maps; by vm_compute. Qed.

Lemma dup_shares_witness :
  exists p' u1 u2, usys_page_alloc 0 0 (INDEX2FD 0) 0x407 demo_user = Ret 0 (with_pm p' demo_user) /\ dup 0 [] 0 5 (with_pm p' demo_user) = Ret 5 u1 /\
    seek 0 5 1234 u1 = Ret 0 u2 /\ uld32 0 (INDEX2FD 0 + 4) u2 = Ret 1234 u2.
Proof.
  destruct demo_open as (p' & Hopen & Hw).
  destruct (dup_shares 0 [] (with_pm p' demo_user) (<[0 := demo_fd_space]> demo_world) [10; 9; 8; 7; 6; 4; 5] (seqZ 1 1023) demo_cpu 0 demo_fd_space 0 5 (mkpte 12 0x407)
    demo_uninit Hw ltac:(unfold MAXFD; lia) ltac:(unfold MAXFD; lia) eq_refl eq_refl demo_fd_refs) as (u1 & W1 & l1 & a1 & Hdup & _ & _ & _ & Hseek & _).
  destruct (Hseek eq_refl 1234) as (u2 & H1 & H2). exists p', u1, u2. split; [exact Hopen|]. split; [exact Hdup|]. split; [exact H1|exact H2].
Defined.
