(* ===== verification/ForkSpec.v ===== *)
(** [fork] and copy on write ([lib/fork.c]) as a program sees them: parent and child read the
    same memory after the fork, and what one of them stores afterwards the other does not see. *)

From stdpp Require Import gmap.
From S2P Require Import Prelude Mmu Mem Console E1000 Pmap PmapBoot Env Sched Syscall.
From S2P Require Import PmapAlloc PmapVm PmapRefs UserRep EnvMem EnvSetup KernInv SysMem SysIpc SysEnv User Fork UserVm ForkVm ForkRun CowRun.
From S2P Require Import Demo DemoKern DemoFork.

(** The first page [fork] does not look at. *)
Definition fork_top : Z := PGNUM UXSTACKTOP - 2.

(** ** [fork] *)

(** What the entries of a page in parent and child are after a fork, when it was [w]: the
    same page, shared on copy-on-write terms unless it is marked [PTE_SHARE]. *)
Record split_entry (w wp wc : Z) : Prop := {
  se_page : pte_page wp = pte_page w /\ pte_page wc = pte_page w;
  se_private : nonzero (Z.land w PTE_SHARE) = false -> bits_set wp PTE_W = false /\ bits_set wc PTE_W = false;
  se_cow : nonzero (Z.land w PTE_SHARE) = false -> bits_set w PTE_W = true \/ bits_set w PTE_COW = true ->
    bits_set wp PTE_COW = true /\ bits_set wc PTE_COW = true;
  se_shared : nonzero (Z.land w PTE_SHARE) = true -> Z.land wp PTE_SYSCALL = Z.land w PTE_SYSCALL /\ Z.land wc PTE_SYSCALL = Z.land w PTE_SYSCALL;
}.

Lemma mkpte_land pp perm m :
  0 <= pp < 65536 -> 0 <= m < PGSIZE -> Z.land (mkpte pp perm) m = Z.land (Z.lor perm PTE_P) m.
Proof.
  intros Hp Hm. unfold mkpte. rewrite page2pa_mul by lia. rewrite <- Z.lor_assoc, Z.land_lor_distr_l.
  replace (Z.land (pp * PGSIZE) m) with 0; [done|]. symmetry. apply Z.bits_inj'. intros n Hn. rewrite Z.land_spec, Z.testbit_0_l.
  change PGSIZE with (2 ^ 12) in *. destruct (Z.lt_ge_cases n 12) as [Hlt|Hge]; [by rewrite Z.mul_pow2_bits_low by lia|].
  destruct (decide (m = 0)) as [->|Hne]; [by rewrite Z.testbit_0_l, andb_false_r|].
  rewrite (Z.bits_above_log2 m n), andb_false_r; [done|lia|]. apply Z.log2_lt_pow2; [lia|].
  apply (Z.lt_le_trans _ (2 ^ 12)); [lia|]. apply Z.pow_le_mono_r; lia.
Qed.

Lemma PTE_W_bit w : nonzero (Z.land w PTE_W) = bits_set w PTE_W.
Proof. exact (flag_bit w 1 ltac:(done)). Qed.
Lemma PTE_COW_bit w : nonzero (Z.land w PTE_COW) = bits_set w PTE_COW.
Proof. exact (flag_bit w 11 ltac:(done)). Qed.

Lemma dup_child_W w : 0 <= pte_page w < 65536 -> nonzero (Z.land w PTE_SHARE) = false -> bits_set (dup_child w) PTE_W = false.
Proof.
  intros Hp Hs. unfold dup_child. rewrite (mkpte_flag _ _ _ Hp (dup_perm_range w)) by by right.
  apply not_true_iff_false. intros [H _]%dup_perm_W. congruence.
Qed.

Lemma split_dup w : 0 <= pte_page w < 65536 -> bits_set w PTE_P = true -> split_entry w (dup_parent w) (dup_child w).
Proof.
  intros Hp HP. assert (pte_page (dup_child w) = pte_page w) as Hc by exact (mkpte_page _ _ Hp (dup_perm_range w)). split.
  - split; [|exact Hc]. unfold dup_parent. by destruct (dups w).
  - intros Hs. pose proof (dup_child_W w Hp Hs) as HW. split; [|exact HW]. unfold dup_parent. destruct (dups w) eqn:E; [exact HW|].
    unfold dups in E. rewrite PTE_W_bit in E. by apply orb_false_iff in E as [[-> _]%orb_false_iff _].
  - intros Hs Hwc. assert (nonzero (Z.land w PTE_W) || nonzero (Z.land w PTE_COW) = true) as E.
    { rewrite PTE_W_bit, PTE_COW_bit. apply orb_true_iff. tauto. }
    assert (bits_set (dup_child w) PTE_COW = true) as HC.
    { unfold bits_set, dup_child. rewrite mkpte_land by (done || by vm_compute). unfold dup_perm. by rewrite Hs, E. }
    unfold dup_parent, dups. rewrite E. by split.
  - intros Hs. assert (Z.land (dup_child w) PTE_SYSCALL = Z.land w PTE_SYSCALL) as HS.
    { unfold dup_child. rewrite mkpte_land by (done || by vm_compute). unfold dup_perm. rewrite Hs, Z.land_lor_distr_l, <- Z.land_assoc, Z.land_diag.
      apply Z.eqb_eq in HP. apply Z.bits_inj'. intros n Hn. pose proof (f_equal (fun z => Z.testbit z n) HP) as Hb. cbv beta in Hb.
      rewrite Z.land_spec in Hb. rewrite Z.lor_spec, !Z.land_spec.
      destruct (Z.testbit w n), (Z.testbit PTE_SYSCALL n), (Z.testbit PTE_P n); done. }
    unfold dup_parent, dups. rewrite Hs, orb_true_r. by split.
Qed.

(** The world before and after a fork of [c] that made [k]. *)
Record fork_done `{Program} (u u' : user) (W W' : gmap Z aspace) (c k : Z) (a a' b : aspace) (ce e : Env) : Prop := {
  fd_fresh : W !! k = None;
  fd_child : W' !! k = Some b;
  fd_others : forall j, j <> c -> j <> k -> W' !! j = W !! j /\ u'.(u_kern).(envs) !! j = u.(u_kern).(envs) !! j;
  fd_memory : forall j d va, j <> c -> W !! j = Some d -> ubyte u'.(u_kern).(pm) d va = ubyte u.(u_kern).(pm) d va;
  fd_parent_reads : forall va, PGNUM va < fork_top -> ubyte u'.(u_kern).(pm) a' va = ubyte u.(u_kern).(pm) a va;
  fd_child_reads : forall va, PGNUM va < fork_top -> ubyte u'.(u_kern).(pm) b va = ubyte u.(u_kern).(pm) a va;
  fd_split : forall v w, v < fork_top -> a.(as_maps) !! v = Some w ->
    exists wp wc, a'.(as_maps) !! v = Some wp /\ b.(as_maps) !! v = Some wc /\ split_entry w wp wc;
  fd_above : forall v, fork_top <= v -> v <> ux_page -> a'.(as_maps) !! v = a.(as_maps) !! v /\ b.(as_maps) !! v = None;
  fd_stack : exists w, b.(as_maps) !! ux_page = Some w /\ bits_set w PTE_W = true /\ refs W' (pte_page w) = 1 /\
    forall o, o / PGSIZE = pte_page w -> ld8 u'.(u_kern).(pm).(pmem) o = 0;
  fd_env : u'.(u_kern).(envs) !! k = Some e /\ e.(env_status) = ENV_RUNNABLE /\ e.(env_pgfault_upcall) = sym_pgfault_upcall /\
    e.(env_tf) = set_eax 0 ce.(env_tf) /\ e.(env_parent_id) = ce.(env_id) /\ ENVX e.(env_id) = k /\ 0 < e.(env_id) < 2 ^ 31;
  fd_globals : u'.(u_thisenv) = u.(u_thisenv) /\ u'.(u_handler) = sym_pgfault;
}.

Section Stages.
Context {Mach : Machine} {Prog : Program} (cpu : Z).
Variables (u u1 u3 u4 : user) (s2 : kern) (W W1 W3 W4 : gmap Z aspace) (l l1 l3 l4 fl : list Z) (ci : CpuInfo) (c k x y : Z).
Variables (a a1 a3 b3 b4 : aspace) (ce ce1 e : Env).
Let u2 := set_u_kern s2 u1.
Let W2 := <[k := empty_space x]> W1.
Hypothesis Hw : uwf cpu u W l (k :: fl) ci c a.
Hypothesis Hce : u.(u_kern).(envs) !! c = Some ce.
Hypothesis Hw1 : uwf cpu u1 W1 (x :: l1) (k :: fl) ci c a1.
Hypothesis Hreg : registered u u1 W W1 l (x :: l1) c a a1.
Hypothesis Hh : u1.(u_handler) = sym_pgfault.
Hypothesis Hce1 : u1.(u_kern).(envs) !! c = Some ce1.
Hypothesis Hexo : exoforked u1.(u_kern) s2 W1 l1 fl ce1 e k x.
Hypothesis Hw2 : uwf cpu u2 W2 l1 fl ci c a1.
Hypothesis Hdup : dupping cpu u2 W2 l1 fl ci c k a1 (fa_at a1 fork_top) (fb_at a1 fork_top) u3 W3 l3 a3 b3.
Hypothesis Hfin : finished u3 u4 W3 W4 k y b3 b4 e.
Hypothesis Hfr : vm_frame (fun p => owned W3 p \/ p ∈ l3) u3.(u_kern).(pm) u4.(u_kern).(pm).

Lemma child_other : k <> c.
Proof. intros ->. pose proof (ef_fresh _ _ _ _ _ _ _ _ _ Hexo). pose proof (uw_space _ _ _ _ _ _ _ _ Hw1). congruence. Qed.

Lemma child_fresh : W !! k = None.
Proof. rewrite <- (rg_others _ _ _ _ _ _ _ _ _ Hreg) by exact child_other. apply Hexo. Qed.

Lemma kept1 j d v w :
  W !! j = Some d -> d.(as_maps) !! v = Some w -> (j = c -> v <> ux_page) ->
  exists d1, W1 !! j = Some d1 /\ d1.(as_maps) !! v = Some w.
Proof.
  intros Hj Hv Hx. destruct (decide (j = c)) as [->|Hne].
  - exists a1. split; [apply Hw1|]. rewrite (rg_maps _ _ _ _ _ _ _ _ _ Hreg) by auto.
    rewrite (uw_space _ _ _ _ _ _ _ _ Hw) in Hj. by injection Hj as ->.
  - exists d. by rewrite (rg_others _ _ _ _ _ _ _ _ _ Hreg).
Qed.

Lemma kept3 j d v w :
  W1 !! j = Some d -> d.(as_maps) !! v = Some w -> exists d3 w3, W3 !! j = Some d3 /\ d3.(as_maps) !! v = Some w3 /\ pte_page w3 = pte_page w.
Proof.
  intros Hj Hv. destruct (decide (j = c)) as [->|Hne].
  - rewrite (uw_space _ _ _ _ _ _ _ _ Hw1) in Hj. injection Hj as <-. pose proof (dp_pmaps _ _ _ _ _ _ _ _ _ _ _ _ _ _ _ _ Hdup v) as Hm.
    exists a3. unfold fa_at in Hm. rewrite Hv in Hm. destruct (v <? fork_top).
    + exists (dup_parent w). split; [apply (dp_uwf _ _ _ _ _ _ _ _ _ _ _ _ _ _ _ _ Hdup)|]. split; [exact Hm|].
      unfold dup_parent. destruct (dups w); [|done]. exact (mkpte_page _ _ (uw_page_small _ _ _ _ _ _ _ _ v w Hw2 Hv) (dup_perm_range w)).
    + exists w. split; [apply (dp_uwf _ _ _ _ _ _ _ _ _ _ _ _ _ _ _ _ Hdup)|by split].
  - exists d, w. assert (j <> k) by (intros ->; pose proof (ef_fresh _ _ _ _ _ _ _ _ _ Hexo); congruence).
    rewrite (dp_others _ _ _ _ _ _ _ _ _ _ _ _ _ _ _ _ Hdup) by done. unfold W2. by rewrite lookup_insert_ne.
Qed.

(** No page of another environment, and no page of the parent below its exception stack, changes. *)
Lemma kept_page j d v w :
  W !! j = Some d -> d.(as_maps) !! v = Some w -> (j = c -> v <> ux_page) -> same_page (pte_page w) u.(u_kern).(pm) u4.(u_kern).(pm).
Proof.
  intros Hj Hv Hx. destruct (kept1 j d v w Hj Hv Hx) as (d1 & Hj1 & Hv1). destruct (kept3 j d1 v w Hj1 Hv1) as (d3 & w3 & Hj3 & Hv3 & Hp).
  pose proof (uw_kern _ _ _ _ _ _ _ _ Hw1) as Hk1. pose proof (mapped_apart _ _ _ _ j d1 v w Hk1 Hj1 Hv1) as Hno1.
  assert (j <> k) as Hjk by (intros ->; pose proof (ef_fresh _ _ _ _ _ _ _ _ _ Hexo); congruence).
  apply (same_page_trans _ _ u1.(u_kern).(pm)).
  { apply (frame_page _ _ _ _ (rg_frame _ _ _ _ _ _ _ _ _ Hreg)), (mapped_apart _ _ _ _ j d v w (uw_kern _ _ _ _ _ _ _ _ Hw) Hj Hv). }
  apply (same_page_trans _ _ s2.(pm)).
  { apply (frame_page _ _ _ _ (ef_mem _ _ _ _ _ _ _ _ _ Hexo)). intros E. apply Hno1. right. rewrite E. left. }
  apply (same_page_trans _ _ u3.(u_kern).(pm)).
  - apply (frame_page _ _ _ _ (dp_frame _ _ _ _ _ _ _ _ _ _ _ _ _ _ _ _ Hdup)), (mapped_apart _ _ _ _ j d1 v w (uw_kern _ _ _ _ _ _ _ _ Hw2)); [|done].
    unfold W2. by rewrite lookup_insert_ne.
  - replace (pte_page w) with (pte_page w3). apply (frame_page _ _ _ _ Hfr), (mapped_apart _ _ _ _ j d3 v w3 (uw_kern _ _ _ _ _ _ _ _ (dp_uwf _ _ _ _ _ _ _ _ _ _ _ _ _ _ _ _ Hdup)) Hj3 Hv3).
Qed.

Lemma parent_entry v w :
  v < fork_top -> a.(as_maps) !! v = Some w -> a3.(as_maps) !! v = Some (dup_parent w) /\ b4.(as_maps) !! v = Some (dup_child w).
Proof.
  intros Hv Hm. assert (v <> ux_page) as Hx by (rewrite ux_page_val; revert Hv; change fork_top with 977918; lia).
  assert (a1.(as_maps) !! v = Some w) as H1 by by rewrite (rg_maps _ _ _ _ _ _ _ _ _ Hreg).
  rewrite (dp_pmaps _ _ _ _ _ _ _ _ _ _ _ _ _ _ _ _ Hdup), (fi_maps _ _ _ _ _ _ _ _ _ Hfin), (proj2 (Z.eqb_neq _ _) Hx).
  rewrite (dp_cmaps _ _ _ _ _ _ _ _ _ _ _ _ _ _ _ _ Hdup). unfold fa_at, fb_at. by rewrite (proj2 (Z.ltb_lt _ _) Hv), H1.
Qed.

Lemma parent_none v : v < fork_top -> a.(as_maps) !! v = None -> a3.(as_maps) !! v = None /\ b4.(as_maps) !! v = None.
Proof.
  intros Hv Hm. assert (v <> ux_page) as Hx by (rewrite ux_page_val; revert Hv; change fork_top with 977918; lia).
  assert (a1.(as_maps) !! v = None) as H1 by by rewrite (rg_maps _ _ _ _ _ _ _ _ _ Hreg).
  rewrite (dp_pmaps _ _ _ _ _ _ _ _ _ _ _ _ _ _ _ _ Hdup), (fi_maps _ _ _ _ _ _ _ _ _ Hfin), (proj2 (Z.eqb_neq _ _) Hx).
  rewrite (dp_cmaps _ _ _ _ _ _ _ _ _ _ _ _ _ _ _ _ Hdup). unfold fa_at, fb_at. by rewrite (proj2 (Z.ltb_lt _ _) Hv), H1.
Qed.

Lemma entry_split v w : a.(as_maps) !! v = Some w -> split_entry w (dup_parent w) (dup_child w).
Proof.
  intros Hm. apply split_dup; [exact (uw_page_small _ _ _ _ _ _ _ _ v w Hw Hm)|].
  exact (proj1 (map_present _ _ v w (uw_rep _ _ _ _ _ _ _ _ Hw) Hm)).
Qed.

Lemma reads_kept d va :
  PGNUM va < fork_top -> (forall v w, a.(as_maps) !! v = Some w -> v < fork_top -> exists w', d.(as_maps) !! v = Some w' /\ pte_page w' = pte_page w) ->
  (forall v, v < fork_top -> a.(as_maps) !! v = None -> d.(as_maps) !! v = None) ->
  ubyte u4.(u_kern).(pm) d va = ubyte u.(u_kern).(pm) a va.
Proof.
  intros Hva Hs Hn. apply ubyte_same; [|by apply Hn]. intros w Hm. destruct (Hs _ w Hm Hva) as (w' & Hw' & Hp). exists w'.
  split; [done|]. split; [done|]. apply (kept_page c a (PGNUM va) w); [apply Hw|done|]. intros _ E. rewrite E, ux_page_val in Hva.
  revert Hva. change fork_top with 977918. lia.
Qed.

Lemma stack_page : exists w, b4.(as_maps) !! ux_page = Some w /\ bits_set w PTE_W = true /\ refs W4 (pte_page w) = 1 /\
  forall o, o / PGSIZE = pte_page w -> ld8 u4.(u_kern).(pm).(pmem) o = 0.
Proof.
  assert (b4.(as_maps) !! ux_page = Some (mkpte y rw)) as Hm by by rewrite (fi_maps _ _ _ _ _ _ _ _ _ Hfin), Z.eqb_refl.
  pose proof (fi_space _ _ _ _ _ _ _ _ _ Hfin) as Hb4. exists (mkpte y rw).
  pose proof (fi_page _ _ _ _ _ _ _ _ _ Hfin) as Hy.
  assert (pte_page (mkpte y rw) = y) as Hp by (apply mkpte_page; [exact Hy|by vm_compute]).
  split; [exact Hm|]. split; [by rewrite (mkpte_flag y rw PTE_W Hy ltac:(by vm_compute) (or_intror eq_refl))|]. rewrite Hp. split; [|apply Hfin].
  pose proof (refs_ge W4 k b4 y Hb4). pose proof (maps_refs1 b4 _ _ Hm) as H1. rewrite Hp in H1. pose proof (fi_private _ _ _ _ _ _ _ _ _ Hfin). lia.
Qed.

Lemma stages_done : fork_done u u4 W W4 c k a a3 b4 ce (set_env_status ENV_RUNNABLE (set_env_upcall sym_pgfault_upcall e)).
Proof.
  pose proof (dp_user _ _ _ _ _ _ _ _ _ _ _ _ _ _ _ _ Hdup) as Hu3. pose proof child_other as Hkc.
  assert (u3.(u_kern).(envs) = <[k := e]> u1.(u_kern).(envs)) as He3 by (rewrite Hu3; exact (ef_envs _ _ _ _ _ _ _ _ _ Hexo)).
  split.
  - exact child_fresh.
  - apply Hfin.
  - intros j Hc Hk. rewrite (fi_others _ _ _ _ _ _ _ _ _ Hfin), (dp_others _ _ _ _ _ _ _ _ _ _ _ _ _ _ _ _ Hdup) by done.
    unfold W2. rewrite lookup_insert_ne, (rg_others _ _ _ _ _ _ _ _ _ Hreg) by done. split; [done|].
    rewrite (fi_envs _ _ _ _ _ _ _ _ _ Hfin), He3, !lookup_insert_ne by done. by apply (rg_envs _ _ _ _ _ _ _ _ _ Hreg).
  - intros j d va Hj Hd. apply ubyte_same; [|done]. intros w Hm. exists w. split; [done|]. split; [done|]. by apply (kept_page j d (PGNUM va) w).
  - intros va Hva. apply reads_kept; [done| |by intros; apply parent_none]. intros v w Hm Hv. exists (dup_parent w).
    split; [by apply parent_entry|]. apply (se_page _ _ _ (entry_split v w Hm)).
  - intros va Hva. apply reads_kept; [done| |by intros; apply parent_none]. intros v w Hm Hv. exists (dup_child w).
    split; [by apply parent_entry|]. apply (se_page _ _ _ (entry_split v w Hm)).
  - intros v w Hv Hm. exists (dup_parent w), (dup_child w). destruct (parent_entry v w Hv Hm). split; [done|]. split; [done|]. by apply (entry_split v).
  - intros v Hv Hx. rewrite (dp_pmaps _ _ _ _ _ _ _ _ _ _ _ _ _ _ _ _ Hdup), (fi_maps _ _ _ _ _ _ _ _ _ Hfin), (proj2 (Z.eqb_neq _ _) Hx).
    rewrite (dp_cmaps _ _ _ _ _ _ _ _ _ _ _ _ _ _ _ _ Hdup). unfold fa_at, fb_at. rewrite (proj2 (Z.ltb_ge _ _) Hv). split; [|done].
    by apply (rg_maps _ _ _ _ _ _ _ _ _ Hreg).
  - exact stack_page.
  - destruct (rg_self _ _ _ _ _ _ _ _ _ Hreg ce Hce) as [f Hf]. assert (ce1 = set_env_upcall f ce) as E by congruence.
    rewrite (fi_envs _ _ _ _ _ _ _ _ _ Hfin), lookup_insert_eq. split; [done|]. split; [done|]. split; [done|].
    cbn [set_env_status set_env_upcall env_tf env_parent_id env_id].
    rewrite (ef_tf _ _ _ _ _ _ _ _ _ Hexo), (ef_parent _ _ _ _ _ _ _ _ _ Hexo), (ef_slot _ _ _ _ _ _ _ _ _ Hexo), E.
    split; [done|]. split; [done|]. split; [done|]. apply (ef_id _ _ _ _ _ _ _ _ _ Hexo).
  - rewrite (fi_thisenv _ _ _ _ _ _ _ _ _ Hfin), (fi_handler _ _ _ _ _ _ _ _ _ Hfin), Hu3. split; [|exact Hh].
    apply (rg_thisenv _ _ _ _ _ _ _ _ _ Hreg).
Qed.
End Stages.

Section Claims.
Context {Mach : Machine} {Prog : Program} (cpu : Z).
Hypothesis uninit_nonzero : forall pgdir va, uninit_ptep pgdir va <> 0.
Hypothesis Hsym : 0 <= sym_pgfault_upcall < 2 ^ 32.

(** The reference counts the loop relies on. *)
Lemma loop_refs u u1 W W1 x l l1 fl ci c a a1 k v w :
  uwf cpu u1 W1 (x :: l1) fl ci c a1 -> registered u u1 W W1 l (x :: l1) c a a1 -> W1 !! k = None ->
  (forall v w, a.(as_maps) !! v = Some w -> refs W (pte_page w) < 2 ^ 14) ->
  a1.(as_maps) !! v = Some w -> 2 * refs (<[k := empty_space x]> W1) (pte_page w) + 1 < 2 ^ 16.
Proof.
  intros Hw1 Hreg Hk Hrefs Hv. pose proof (mapped_apart _ _ _ _ c a1 v w (uw_kern _ _ _ _ _ _ _ _ Hw1) (uw_space _ _ _ _ _ _ _ _ Hw1) Hv) as Hno.
  assert (refs (<[k := empty_space x]> W1) (pte_page w) = refs W1 (pte_page w)) as ->.
  { unfold refs. rewrite total_insert by done. rewrite refs1_empty. unfold hits. rewrite (proj2 (Z.eqb_neq _ _)); [lia|].
    intros E. apply Hno. right. rewrite <- E. left. }
  assert (refs W1 (pte_page w) <= 2 ^ 14) as Hle; [|lia].
  assert (refs W (pte_page w) < 2 ^ 14 -> refs W1 (pte_page w) <= 2 ^ 14) as Hstep.
  { pose proof (rg_refs _ _ _ _ _ _ _ _ _ Hreg (pte_page w) (fun H => Hno (or_introl H))). lia. }
  destruct (decide (v = ux_page)) as [->|Hx].
  - destruct (rg_new _ _ _ _ _ _ _ _ _ Hreg w Hv) as [H|H]; [|lia]. apply Hstep, (Hrefs ux_page w H).
  - apply Hstep, (Hrefs v w). by rewrite (rg_maps _ _ _ _ _ _ _ _ _ Hreg) in Hv.
Qed.

Lemma fork_ok u W l k fl ci c a ce :
  uwf cpu u W l (k :: fl) ci c a -> u.(u_thisenv) = c -> u.(u_kern).(envs) !! c = Some ce ->
  (size a.(as_tabs) + 6 <= length l)%nat -> (forall v w, a.(as_maps) !! v = Some w -> refs W (pte_page w) < 2 ^ 14) ->
  exists e u' W' l' a' b, fork cpu u = Ret e.(env_id) u' /\ uwf cpu u' W' l' fl ci c a' /\
    (length l <= length l' + size a.(as_tabs) + 6)%nat /\ fork_done u u' W W' c k a a' b ce e.
Proof.
  intros Hw Ht Hce Hl Hrefs.
  destruct (set_handler_ok cpu uninit_nonzero u W l (k :: fl) ci c a sym_pgfault Hw Ht ltac:(lia) Hsym) as (u1 & W1 & l1 & a1 & Hrun1 & Hw1 & Hreg & Hh).
  pose proof (rg_room _ _ _ _ _ _ _ _ _ Hreg) as Hlen. pose proof (rg_tabs _ _ _ _ _ _ _ _ _ Hreg) as Htabs.
  destruct l1 as [|x l1]; [simpl in Hlen; lia|]. simpl in Hlen.
  destruct (rg_self _ _ _ _ _ _ _ _ _ Hreg ce Hce) as [f Hce1]. set (ce1 := set_env_upcall f ce) in *.
  destruct (usys_exofork_run cpu u1 W1 x l1 k fl ci c a1 ce1 Hw1 Hce1) as (e & s2 & Hrun2 & Hexo & Hw2).
  pose proof (ef_fresh _ _ _ _ _ _ _ _ _ Hexo) as Hk. pose proof (ef_id _ _ _ _ _ _ _ _ _ Hexo) as Hid.
  assert (k <> c) as Hkc by (intros ->; pose proof (uw_space _ _ _ _ _ _ _ _ Hw1); congruence).
  assert (is_Some (W1 !! c)) as Hc1 by (rewrite (uw_space _ _ _ _ _ _ _ _ Hw1); eauto).
  pose proof (exoforked_resolve _ _ _ _ _ c ce1 e k x true Hexo Hce1 Hc1) as Hres.
  destruct (fork_loop_ok cpu uninit_nonzero (set_u_kern s2 u1) (<[k := empty_space x]> W1) l1 fl ci c k e.(env_id) a1 (empty_space x) Hw2
    (lookup_insert_eq _ _ _) Hkc Hres ltac:(lia)) as (u3 & W3 & l3 & a3 & b3 & Hrun3 & Hdup); [|lia|done|].
  { intros v w. exact (loop_refs u u1 W W1 x l l1 (k :: fl) ci c a a1 k v w Hw1 Hreg Hk Hrefs). }
  pose proof (dp_count _ _ _ _ _ _ _ _ _ _ _ _ _ _ _ _ Hdup) as Hcount. pose proof (dp_user _ _ _ _ _ _ _ _ _ _ _ _ _ _ _ _ Hdup) as Hu3.
  assert (size b3.(as_tabs) <= size a1.(as_tabs))%nat as Hsz.
  { rewrite <- !(size_dom (D := gset Z)). apply subseteq_size, (dp_sub _ _ _ _ _ _ _ _ _ _ _ _ _ _ _ _ Hdup). }
  assert (u3.(u_kern).(envs) = s2.(envs)) as He3 by by rewrite Hu3.
  destruct (fork_finish cpu uninit_nonzero u3 W3 l3 fl ci c a3 k e.(env_id) b3 e (dp_uwf _ _ _ _ _ _ _ _ _ _ _ _ _ _ _ _ Hdup) ltac:(lia) ltac:(lia) Hsym)
    as (y & u4 & W4 & l4 & b4 & Hrun4 & Hw4 & Hfin & Hlen4 & Hfr); [by rewrite He3|done|apply (dp_child _ _ _ _ _ _ _ _ _ _ _ _ _ _ _ _ Hdup)| |].
  { rewrite He3, (ef_envs _ _ _ _ _ _ _ _ _ Hexo). apply lookup_insert_eq. }
  exists (set_env_status ENV_RUNNABLE (set_env_upcall sym_pgfault_upcall e)), u4, W4, l4, a3, b4. split.
  - unfold fork. mstep (exact Hrun1). mstep (exact Hrun2). unfold fork_from. rewrite (proj2 (Z.ltb_ge _ 0)), (proj2 (Z.eqb_neq _ 0)) by lia.
    mstep (exact Hrun3). exact Hrun4.
  - split; [exact Hw4|]. split; [lia|]. exact (stages_done cpu u u1 u3 u4 s2 W W1 W3 W4 l l1 l3 fl ci c k x y a a1 a3 b3 b4 ce ce1 e Hw Hce Hw1 Hreg Hh Hce1 Hexo Hw2 Hdup Hfin Hfr).
Qed.

(** C8: [fork] makes a child that reads, at every address below the exception stack's guard page,
    the byte its parent read before, while the parent reads the same byte as before and every
    other environment keeps its mappings and its memory; no page that is not marked
    [PTE_SHARE] stays writable in either of them and the formerly writable ones are
    copy-on-write in both; the child gets an exception stack of its own, zeroed, the parent's
    upcall and registers with a zero return value, and becomes runnable. *)
Theorem fork_copies u W l k fl ci c a ce :
  uwf cpu u W l (k :: fl) ci c a -> u.(u_thisenv) = c -> u.(u_kern).(envs) !! c = Some ce ->
  (size a.(as_tabs) + 6 <= length l)%nat -> (forall v w, a.(as_maps) !! v = Some w -> refs W (pte_page w) < 2 ^ 14) ->
  exists e u' W' l' a' b, fork cpu u = Ret e.(env_id) u' /\ uwf cpu u' W' l' fl ci c a' /\ fork_done u u' W W' c k a a' b ce e.
Proof.
  intros Hw Ht Hce Hl Hr. destruct (fork_ok u W l k fl ci c a ce Hw Ht Hce Hl Hr) as (e & u' & W' & l' & a' & b & Hrun & Hw' & _ & Hd).
  by exists e, u', W', l', a', b.
Qed.

(** A store to a copy-on-write page faults, is given a private copy of the page by [pgfault]
    and then succeeds: the environment reads the new byte at [va] and its old bytes everywhere
    else (but at [PFTEMP], which is unmapped), and no other environment sees any change. *)
Theorem cow_store_private u W l fl ci c a va w v :
  uwf cpu u W l fl ci c a -> 0 <= va < UTOP -> PGNUM va <> pf_page -> a.(as_maps) !! PGNUM va = Some w ->
  bits_set w PTE_COW = true -> bits_set w PTE_W = false -> (2 <= length l)%nat ->
  exists u' W' l' a', cow_store cpu va v u = Ret tt u' /\ uwf cpu u' W' l' fl ci c a' /\ stored u u' W W' c va v a a'.
Proof.
  intros Hw Hva Hpf Hm Hc HW Hl. destruct (cow_store_ok cpu uninit_nonzero u W l fl ci c a va w v Hw Hva Hpf Hm Hc HW Hl) as (u' & W' & l' & a' & Hrun & Hw' & _ & Hd).
  by exists u', W', l', a'.
Qed.

(** A store to a page that is mapped read-only and not copy-on-write ends in the handler's
    panic, with nothing changed. *)
Theorem readonly_store_panics u W l fl ci c a va w v :
  uwf cpu u W l fl ci c a -> 0 <= va < UTOP -> a.(as_maps) !! PGNUM va = Some w ->
  bits_set w PTE_COW = false -> bits_set w PTE_W = false -> cow_store cpu va v u = Panic u.
Proof.
  intros Hw Hva Hm Hcow HW. destruct (fault_page va Hva) as [_ Hpn].
  assert (pgfault cpu va (Z.lor 1 (Z.lor FEC_WR 4)) u = Panic u) as Hpg.
  { unfold pgfault. change (Z.land (Z.lor 1 (Z.lor FEC_WR 4)) FEC_WR =? 0) with false. cbv iota.
    destruct (vr_maps_dom _ _ (uw_rep cpu u W l fl ci c a Hw) _ w Hm) as [tp Htp].
    mstep (apply (uvpt_run cpu u W l fl ci c a Hw); [revert Hpn; change (PGNUM UTOP) with 977920; lia|by exists tp]).
    rewrite Hm. change (default 0 (Some w)) with w. by rewrite PTE_COW_bit, Hcow. }
  unfold cow_store. mstep (apply (user_addr_reach cpu u W l fl ci c a Hw va true Hva)). unfold reach at 1. rewrite Hm, HW. cbn [andb negb].
  mstep (apply (user_addr_reach cpu u W l fl ci c a Hw va false Hva)). unfold reach. rewrite Hm. cbn [andb]. unfold bind at 1. by rewrite Hpg.
Qed.

(** C7: [fork] followed by a store of the parent to one of its private pages: the parent reads the
    new byte, and the child still reads at every address what the parent had there when it
    called [fork]. *)
Theorem fork_isolates u W l k fl ci c a ce va w v :
  uwf cpu u W l (k :: fl) ci c a -> u.(u_thisenv) = c -> u.(u_kern).(envs) !! c = Some ce ->
  (size a.(as_tabs) + 8 <= length l)%nat -> (forall v w, a.(as_maps) !! v = Some w -> refs W (pte_page w) < 2 ^ 14) ->
  0 <= va -> PGNUM va < fork_top -> PGNUM va <> pf_page -> va < UTOP -> a.(as_maps) !! PGNUM va = Some w ->
  nonzero (Z.land w PTE_SHARE) = false -> bits_set w PTE_W = true \/ bits_set w PTE_COW = true ->
  exists id u' W' l' a' b, (let* id := fork cpu in cow_store cpu va v ;;; ret id) u = Ret id u' /\ uwf cpu u' W' l' fl ci c a' /\
    W' !! k = Some b /\ ubyte u'.(u_kern).(pm) a' va = Some (u8 v) /\
    (forall va', PGNUM va' < fork_top -> ubyte u'.(u_kern).(pm) b va' = ubyte u.(u_kern).(pm) a va') /\
    (forall j d va', j <> c -> W !! j = Some d -> W' !! j = Some d /\ ubyte u'.(u_kern).(pm) d va' = ubyte u.(u_kern).(pm) d va').
Proof.
  intros Hw Ht Hce Hl Hr H0 Htop Hpf Hut Hm Hs Hwc.
  destruct (fork_ok u W l k fl ci c a ce Hw Ht Hce ltac:(lia) Hr) as (e & u1 & W1 & l1 & a1 & b & Hrun & Hw1 & Hlen & Hd).
  destruct (fd_split _ _ _ _ _ _ _ _ _ _ _ Hd _ w Htop Hm) as (wp & wc & Hwp & _ & Hse).
  destruct (cow_store_ok cpu uninit_nonzero u1 W1 l1 fl ci c a1 va wp v Hw1 (conj H0 Hut) Hpf Hwp) as (u' & W' & l' & a' & Hrun' & Hw' & _ & Hst);
    [by apply (se_cow _ _ _ Hse)|by apply (se_private _ _ _ Hse)|lia|].
  pose proof (uw_space _ _ _ _ _ _ _ _ Hw) as Hc. pose proof (fd_fresh _ _ _ _ _ _ _ _ _ _ _ Hd) as Hk. assert (k <> c) as Hkc by congruence.
  exists e.(env_id), u', W', l', a', b. split; [mstep (exact Hrun); by mstep (exact Hrun')|]. split; [exact Hw'|].
  split; [rewrite (sd_others _ _ _ _ _ _ _ _ _ Hst) by done; apply Hd|]. split; [apply Hst|]. split.
  - intros va' Hva'. rewrite (sd_memory _ _ _ _ _ _ _ _ _ Hst k b) by (done || apply Hd). by apply (fd_child_reads _ _ _ _ _ _ _ _ _ _ _ Hd).
  - intros j d va' Hj Hjd. assert (j <> k) by congruence. destruct (fd_others _ _ _ _ _ _ _ _ _ _ _ Hd j Hj) as [Hj1 _]; [done|].
    rewrite (sd_others _ _ _ _ _ _ _ _ _ Hst), Hj1 by done. split; [done|]. rewrite (sd_memory _ _ _ _ _ _ _ _ _ Hst j d va') by congruence.
    by apply (fd_memory _ _ _ _ _ _ _ _ _ _ _ Hd j).
Qed.
End Claims.

Lemma demo_not_pf : PGNUM demo_va <> pf_page.
Proof. by vm_compute. Qed.

Lemma demo_below_top : PGNUM demo_va < fork_top.
Proof. by vm_compute. Qed.

Lemma fork_copies_witness :
  exists e u' W' l' a' b, fork 0 demo_user = Ret e.(env_id) u' /\ uwf 0 u' W' l' (seqZ 2 1022) demo_cpu 0 a' /\
    fork_done demo_user u' demo_world W' 0 1 demo_space a' b (demo_env 0) e.
Proof.
  exact (fork_copies 0 demo_uninit demo_sym demo_user demo_world demo_free 1 (seqZ 2 1022) demo_cpu 0 demo_space (demo_env 0)
    demo_uwf_next demo_user_self demo_user_env demo_room6 demo_user_refs).
Defined.

Lemma cow_store_private_witness :
  exists p' u' a', usys_page_map 0 0 demo_va 0 demo_va 0x805 demo_user = Ret 0 (with_pm p' demo_user) /\
    cow_store 0 demo_va 42 (with_pm p' demo_user) = Ret tt u' /\ ubyte u'.(u_kern).(pm) a' demo_va = Some 42.
Proof.
  destruct (demo_reflag 0x805 eq_refl eq_refl ltac:(by vm_compute)) as (p' & Hmap & Hw).
  destruct (cow_store_private 0 demo_uninit _ _ demo_free _ _ 0 _ demo_va (mkpte 2 0x805) 42 Hw demo_va_user demo_not_pf
    (lookup_insert_eq _ _ _) eq_refl eq_refl demo_room2) as (u' & W' & l' & a' & Hrun & _ & Hst).
  exists p', u', a'. split; [exact Hmap|]. split; [exact Hrun|]. exact (sd_byte _ _ _ _ _ _ _ _ _ Hst).
Defined.

Lemma readonly_store_panics_witness :
  exists p', usys_page_map 0 0 demo_va 0 demo_va 5 demo_user = Ret 0 (with_pm p' demo_user) /\
    cow_store 0 demo_va 42 (with_pm p' demo_user) = Panic (with_pm p' demo_user).
Proof.
  destruct (demo_reflag 5 eq_refl eq_refl ltac:(by vm_compute)) as (p' & Hmap & Hw). exists p'. split; [exact Hmap|].
  exact (readonly_store_panics 0 _ _ demo_free _ _ 0 _ demo_va (mkpte 2 5) 42 Hw demo_va_user (lookup_insert_eq _ _ _) eq_refl eq_refl).
Defined.

Lemma fork_isolates_witness :
  exists id u' b, (let* id := fork 0 in cow_store 0 demo_va 42 ;;; ret id) demo_user = Ret id u' /\
    ubyte u'.(u_kern).(pm) b demo_va = Some 0.
Proof.
  destruct (fork_isolates 0 demo_uninit demo_sym demo_user demo_world demo_free 1 (seqZ 2 1022) demo_cpu 0 demo_space (demo_env 0)
    demo_va (mkpte 2 7) 42 demo_uwf_next demo_user_self demo_user_env demo_room demo_user_refs (proj1 demo_va_user) demo_below_top
    demo_not_pf (proj2 demo_va_user) (lookup_singleton_eq _ _) eq_refl (or_introl eq_refl)) as (id & u' & W' & l' & a' & b & Hrun & _ & _ & _ & Hb & _).
  exists id, u', b. split; [exact Hrun|]. rewrite (Hb _ demo_below_top). reflexivity.
Defined.
