(* ===== verification/PipeRing.v ===== *)
(** The data path of pipes ([lib/pipe.c]): [devpipe_read] and [devpipe_write] run by two
    environments that share the page of the [struct Pipe], interleaved at every access to it.

    A thread is at a point of its loop; a step performs one access to the shared page (the
    increments of the positions, each made by one thread only, are one step).  Whether
    [_pipeisclosed] answers true is left open in each step. *)

From S2P Require Import Prelude.

Definition PIPEBUFSIZ : Z := 32.

Record Pipe := mkPipe { p_rpos : Z; p_wpos : Z; p_buf : list Z }.

(** Points of [devpipe_read]: [RTest] before the test of the inner loop, [RTest2] with [p_rpos]
    loaded, [REmpty] when the pipe was empty, [RTake] and [RByte] around the byte, [RInc]
    before the increment. *)
Inductive rpoint :=
  | RTest (i : Z) | RTest2 (i rpos : Z) | REmpty (i : Z) | RTake (i : Z) | RByte (i rpos : Z) | RInc (i : Z) | RDone (r : Z).

Record reader := mkReader { r_at : rpoint; r_buf : list Z }.

(** The head of the loop over [i]. *)
Definition read_head (n i : Z) : rpoint := if i <? n then RTest i else RDone i.

(** The element of [p_buf] for a position, by the C remainder. *)
Definition slot (pos : Z) : option nat :=
  let k := Z.rem pos PIPEBUFSIZ in if k <? 0 then None else Some (Z.to_nat k).

Definition devpipe_read (n : Z) (closed : bool) (p : Pipe) (r : reader) : option (Pipe * reader) :=
  match r.(r_at) with
  | RTest i => Some (p, mkReader (RTest2 i p.(p_rpos)) r.(r_buf))
  | RTest2 i rpos =>
      if rpos =? p.(p_wpos) then Some (p, mkReader (if 0 <? i then RDone i else REmpty i) r.(r_buf))
      else Some (p, mkReader (RTake i) r.(r_buf))
  | REmpty i => Some (p, mkReader (if closed then RDone 0 else RTest i) r.(r_buf))
  | RTake i => Some (p, mkReader (RByte i p.(p_rpos)) r.(r_buf))
  | RByte i rpos =>
      match slot rpos with
      | Some k => match p.(p_buf) !! k with
                  | Some b => Some (p, mkReader (RInc i) (r.(r_buf) ++ [b]))
                  | None => None
                  end
      | None => None
      end
  | RInc i => Some (mkPipe (s32 (p.(p_rpos) + 1)) p.(p_wpos) p.(p_buf), mkReader (read_head n (i + 1)) r.(r_buf))
  | RDone _ => None
  end.

(** Points of [devpipe_write]. *)
Inductive wpoint :=
  | WTest (i : Z) | WTest2 (i wpos : Z) | WFull (i : Z) | WPut (i : Z) | WByte (i wpos : Z) | WInc (i : Z) | WDone (r : Z).

Definition write_head (n i : Z) : wpoint := if i <? n then WTest i else WDone i.

Definition devpipe_write (buf : list Z) (closed : bool) (p : Pipe) (w : wpoint) : option (Pipe * wpoint) :=
  match w with
  | WTest i => Some (p, WTest2 i p.(p_wpos))
  | WTest2 i wpos =>
      Some (p, if u32 (p.(p_rpos) + PIPEBUFSIZ) <=? u32 wpos then WFull i else WPut i)
  | WFull i => Some (p, if closed then WDone 0 else WTest i)
  | WPut i => Some (p, WByte i p.(p_wpos))
  | WByte i wpos =>
      match slot wpos with
      | Some k => match buf !! Z.to_nat i with
                  | Some b => Some (mkPipe p.(p_rpos) p.(p_wpos) (<[k := b]> p.(p_buf)), WInc i)
                  | None => None
                  end
      | None => None
      end
  | WInc i => Some (mkPipe p.(p_rpos) (s32 (p.(p_wpos) + 1)) p.(p_buf), write_head (Z.of_nat (length buf)) (i + 1))
  | WDone _ => None
  end.

(** ** Two environments *)

Record sys := mkSys { s_pipe : Pipe; s_reader : reader; s_writer : wpoint }.

Section Run.
Variables (n : Z) (buf : list Z).

Inductive step : sys -> sys -> Prop :=
  | step_read closed p r w p' r' : devpipe_read n closed p r = Some (p', r') -> step (mkSys p r w) (mkSys p' r' w)
  | step_write closed p r w p' w' : devpipe_write buf closed p w = Some (p', w') -> step (mkSys p r w) (mkSys p' r w').

Inductive reachable (s0 : sys) : sys -> Prop :=
  | reach_refl : reachable s0 s0
  | reach_step s s' : reachable s0 s -> step s s' -> reachable s0 s'.

(** The bytes in the pipe. *)
Definition pending (p : Pipe) : list Z :=
  (fun k => default 0 (p.(p_buf) !! Z.to_nat (k mod PIPEBUFSIZ))) <$> seqZ p.(p_rpos) (p.(p_wpos) - p.(p_rpos)).

(** A pipe between calls. *)
Record pipe_ok (p : Pipe) : Prop := {
  po_len : length p.(p_buf) = Z.to_nat PIPEBUFSIZ;
  po_pos : 0 <= p.(p_rpos) <= p.(p_wpos) /\ p.(p_wpos) <= p.(p_rpos) + PIPEBUFSIZ;
}.

End Run.

Definition start (n : Z) (buf : list Z) (p : Pipe) : sys :=
  mkSys p (mkReader (read_head n 0) []) (write_head (Z.of_nat (length buf)) 0).

(** ** The invariant

    The stream is what was pending at the start followed by the bytes to write; a position is
    an index into it, counted from the read position at the start. *)

Lemma slot_mod pos : 0 <= pos -> slot pos = Some (Z.to_nat (pos mod PIPEBUFSIZ)).
Proof.
  intros H. unfold slot. rewrite Z.rem_mod_nonneg by (unfold PIPEBUFSIZ; lia). pose proof (Z.mod_pos_bound pos PIPEBUFSIZ ltac:(done)).
  by rewrite (proj2 (Z.ltb_ge _ _)) by lia.
Qed.

Section Inv.
Variables (n : Z) (buf : list Z) (p0 : Pipe).
Hypothesis Hp0 : pipe_ok p0.
Hypothesis Hsmall : p0.(p_wpos) + Z.of_nat (length buf) < 2 ^ 31.

Let r0 := p0.(p_rpos).
Let w0 := p0.(p_wpos).
Definition stream : list Z := pending p0 ++ buf.
Let len := Z.of_nat (length buf).

Definition reader_ok (p : Pipe) (r : reader) : Prop :=
  let taken k := r.(r_buf) = take (Z.to_nat (k - r0)) stream in
  match r.(r_at) with
  | RTest i => i = p.(p_rpos) - r0 /\ i < n /\ taken p.(p_rpos)
  | REmpty i => i = 0 /\ i = p.(p_rpos) - r0 /\ i < n /\ taken p.(p_rpos)
  | RTest2 i rpos => rpos = p.(p_rpos) /\ i = p.(p_rpos) - r0 /\ i < n /\ taken p.(p_rpos)
  | RTake i => p.(p_rpos) < p.(p_wpos) /\ i = p.(p_rpos) - r0 /\ i < n /\ taken p.(p_rpos)
  | RByte i rpos => rpos = p.(p_rpos) /\ p.(p_rpos) < p.(p_wpos) /\ i = p.(p_rpos) - r0 /\ i < n /\ taken p.(p_rpos)
  | RInc i => p.(p_rpos) < p.(p_wpos) /\ i = p.(p_rpos) - r0 /\ i < n /\ taken (p.(p_rpos) + 1)
  | RDone x => x = p.(p_rpos) - r0 /\ taken p.(p_rpos)
  end.

Definition writer_ok (p : Pipe) (w : wpoint) : Prop :=
  match w with
  | WTest i | WFull i => i = p.(p_wpos) - w0 /\ i < len
  | WTest2 i wpos => wpos = p.(p_wpos) /\ i = p.(p_wpos) - w0 /\ i < len
  | WPut i => p.(p_wpos) < p.(p_rpos) + PIPEBUFSIZ /\ i = p.(p_wpos) - w0 /\ i < len
  | WByte i wpos => wpos = p.(p_wpos) /\ p.(p_wpos) < p.(p_rpos) + PIPEBUFSIZ /\ i = p.(p_wpos) - w0 /\ i < len
  | WInc i => p.(p_buf) !! Z.to_nat (p.(p_wpos) mod PIPEBUFSIZ) = stream !! Z.to_nat (p.(p_wpos) - r0) /\
      p.(p_wpos) < p.(p_rpos) + PIPEBUFSIZ /\ i = p.(p_wpos) - w0 /\ i < len
  | WDone x => x = 0 \/ x = p.(p_wpos) - w0 /\ x = len
  end.

Record inv (s : sys) : Prop := {
  iv_pipe : pipe_ok s.(s_pipe);
  iv_rpos : r0 <= s.(s_pipe).(p_rpos);
  iv_wpos : w0 <= s.(s_pipe).(p_wpos) <= w0 + len;
  iv_data : forall k, s.(s_pipe).(p_rpos) <= k < s.(s_pipe).(p_wpos) ->
    s.(s_pipe).(p_buf) !! Z.to_nat (k mod PIPEBUFSIZ) = stream !! Z.to_nat (k - r0);
  iv_reader : reader_ok s.(s_pipe) s.(s_reader);
  iv_writer : writer_ok s.(s_pipe) s.(s_writer);
}.

Lemma length_pending : length (pending p0) = Z.to_nat (w0 - r0).
Proof. unfold pending. by rewrite length_fmap, length_seqZ. Qed.

Lemma pending_lookup p k :
  pipe_ok p -> p.(p_rpos) <= k < p.(p_wpos) -> pending p !! Z.to_nat (k - p.(p_rpos)) = p.(p_buf) !! Z.to_nat (k mod PIPEBUFSIZ).
Proof.
  intros Hp Hk. unfold pending. rewrite list_lookup_fmap, lookup_seqZ_lt by lia. simpl. replace (p.(p_rpos) + Z.of_nat (Z.to_nat (k - p.(p_rpos)))) with k by lia.
  destruct (lookup_lt_is_Some_2 p.(p_buf) (Z.to_nat (k mod PIPEBUFSIZ))) as [b Hb]; [|by rewrite Hb].
  rewrite (po_len _ Hp). pose proof (Z.mod_pos_bound k PIPEBUFSIZ ltac:(done)). lia.
Qed.

Lemma inv_start : 0 <= n -> inv (start n buf p0).
Proof.
  intros Hn. destruct (po_pos _ Hp0) as [Hr Hw]. split; cbn [start s_pipe s_reader s_writer]; try done; try lia.
  - intros k Hk. rewrite <- pending_lookup by done. unfold stream. by rewrite lookup_app_l by (rewrite length_pending; lia).
  - unfold read_head. destruct (Z.ltb_spec 0 n); unfold reader_ok; cbn [r_at r_buf]; rewrite Z.sub_diag; repeat split; done || lia.
  - unfold write_head. fold len. destruct (Z.ltb_spec 0 len); unfold writer_ok; lia.
Qed.

(** The stream at the write position is the byte to write. *)
Lemma stream_next i : 0 <= i < len -> stream !! Z.to_nat (w0 + i - r0) = buf !! Z.to_nat i.
Proof.
  intros Hi. destruct (po_pos _ Hp0) as [Hr _]. unfold stream. rewrite lookup_app_r by (rewrite length_pending; lia). f_equal. rewrite length_pending. lia.
Qed.

(** The writer's knowledge survives a step of the reader, and the reader's one of the writer. *)
Lemma writer_ok_mono p p' w :
  writer_ok p w -> p'.(p_wpos) = p.(p_wpos) -> p'.(p_buf) = p.(p_buf) -> p.(p_rpos) <= p'.(p_rpos) -> writer_ok p' w.
Proof. intros H Hw Hb Hr. destruct w; simpl in *; rewrite ?Hw, ?Hb; intuition lia. Qed.

Lemma reader_ok_mono p p' r :
  reader_ok p r -> p'.(p_rpos) = p.(p_rpos) -> p.(p_wpos) <= p'.(p_wpos) -> reader_ok p' r.
Proof. intros H Hr Hw. unfold reader_ok in *. destruct r.(r_at); rewrite ?Hr; intuition lia. Qed.

(** A step that leaves the pipe alone. *)
Lemma inv_reader p r w r' : inv (mkSys p r w) -> reader_ok p r' -> inv (mkSys p r' w).
Proof. intros [] H. by split. Qed.

Lemma inv_writer p r w w' : inv (mkSys p r w) -> writer_ok p w' -> inv (mkSys p r w').
Proof. intros [] H. by split. Qed.

Lemma take_next k b : 0 <= k -> stream !! Z.to_nat k = Some b -> take (Z.to_nat k) stream ++ [b] = take (Z.to_nat (k + 1)) stream.
Proof. intros Hk Hb. replace (Z.to_nat (k + 1)) with (S (Z.to_nat k)) by lia. symmetry. by apply take_S_r. Qed.

Lemma read_step_inv closed p r w p' r' : inv (mkSys p r w) -> devpipe_read n closed p r = Some (p', r') -> inv (mkSys p' r' w).
Proof.
  intros Hi Hs. pose proof Hi as [Hpo Hr Hw Hd Hrd Hwr]. cbn [s_pipe s_reader s_writer] in *. destruct (po_pos _ Hpo) as [Hp1 Hp2]. destruct (po_pos _ Hp0) as [Hq1 Hq2].
  unfold devpipe_read in Hs. unfold reader_ok in Hrd. destruct r.(r_at) as [i|i rp|i|i|i rp|i|x] eqn:E; [| | | | | |done].
  - injection Hs as <- <-. apply (inv_reader p r); [done|]. unfold reader_ok. cbn [r_at r_buf]. intuition lia.
  - destruct (Z.eqb_spec rp p.(p_wpos)) as [Heq|Hne]; injection Hs as <- <-; (apply (inv_reader p r); [done|]); unfold reader_ok.
    + destruct (Z.ltb_spec 0 i); cbn [r_at r_buf]; intuition lia.
    + cbn [r_at r_buf]. intuition lia.
  - injection Hs as <- <-. apply (inv_reader p r w); [done|]. unfold reader_ok. destruct closed; cbn [r_at r_buf]; intuition lia.
  - injection Hs as <- <-. apply (inv_reader p r w); [done|]. unfold reader_ok. cbn [r_at r_buf]. intuition lia.
  - destruct Hrd as (-> & Hlt & -> & Hin & Ht). rewrite slot_mod in Hs by lia. destruct (p.(p_buf) !! _) as [b|] eqn:Eb; [|done]. injection Hs as <- <-.
    apply (inv_reader p r w); [done|]. unfold reader_ok. cbn [r_at r_buf]. split; [done|]. split; [done|]. split; [done|]. rewrite Ht.
    replace (p.(p_rpos) + 1 - r0) with (p.(p_rpos) - r0 + 1) by lia. apply take_next; [lia|]. by rewrite <- Hd by lia.
  - destruct Hrd as (Hlt & -> & Hin & Ht). injection Hs as <- <-. rewrite s32_small by lia. split; cbn [s_pipe s_reader s_writer p_rpos p_wpos p_buf]; try lia.
    + split; cbn [p_rpos p_wpos p_buf]; [apply Hpo|lia].
    + intros k Hk. apply Hd. lia.
    + unfold read_head, reader_ok. destruct (Z.ltb_spec (p.(p_rpos) - r0 + 1) n); cbn [r_at r_buf p_rpos]; intuition lia.
    + apply (writer_ok_mono p); simpl; done || lia.
Qed.

Lemma write_step_inv closed p r w p' w' : inv (mkSys p r w) -> devpipe_write buf closed p w = Some (p', w') -> inv (mkSys p' r w').
Proof.
  intros Hi Hs. pose proof Hi as [Hpo Hr Hw Hd Hrd Hwr]. cbn [s_pipe s_reader s_writer] in *. destruct (po_pos _ Hpo) as [Hp1 Hp2]. destruct (po_pos _ Hp0) as [Hq1 Hq2].
  unfold devpipe_write in Hs. destruct w as [i|i wp|i|i|i wp|i|x] eqn:E; cbn [writer_ok] in Hwr; [| | | | | |done].
  - injection Hs as <- <-. apply (inv_writer p r (WTest i)); [done|]. cbn [writer_ok]. lia.
  - injection Hs as <- <-. apply (inv_writer p r (WTest2 i wp)); [done|]. destruct Hwr as (-> & Hx & Hl). unfold PIPEBUFSIZ in *. rewrite !u32_small by lia.
    destruct (Z.leb_spec (p.(p_rpos) + 32) p.(p_wpos)); cbn [writer_ok]; unfold PIPEBUFSIZ; lia.
  - injection Hs as <- <-. apply (inv_writer p r (WFull i)); [done|]. destruct closed; cbn [writer_ok]; lia.
  - injection Hs as <- <-. apply (inv_writer p r (WPut i)); [done|]. cbn [writer_ok]. lia.
  - destruct Hwr as (-> & Hlt & -> & Hl). rewrite slot_mod in Hs by lia. destruct (buf !! _) as [b|] eqn:Eb; [|done]. injection Hs as <- <-.
    assert (stream !! Z.to_nat (p.(p_wpos) - r0) = Some b) as Hst by (rewrite <- Eb, <- stream_next by lia; do 2 f_equal; lia).
    pose proof (Z.mod_pos_bound p.(p_wpos) PIPEBUFSIZ ltac:(done)) as Hm.
    split; cbn [s_pipe s_reader s_writer p_rpos p_wpos p_buf]; try lia; try done.
    + split; cbn [p_rpos p_wpos p_buf]; [rewrite length_insert; apply Hpo|lia].
    + intros k Hk. rewrite list_lookup_insert_ne; [by apply Hd|]. pose proof (Z.mod_pos_bound k PIPEBUFSIZ ltac:(done)). intros Ek. apply Z2Nat.inj in Ek; [|lia..].
      unfold PIPEBUFSIZ in *. zdm.
    + cbn [writer_ok p_wpos p_rpos p_buf]. rewrite list_lookup_insert_eq by (rewrite (po_len _ Hpo); lia). by rewrite Hst.
  - destruct Hwr as (Hb & Hlt & -> & Hl). injection Hs as <- <-. rewrite s32_small by lia. split; cbn [s_pipe s_reader s_writer p_rpos p_wpos p_buf]; try lia.
    + split; cbn [p_rpos p_wpos p_buf]; [apply Hpo|lia].
    + intros k Hk. destruct (Z.eq_dec k p.(p_wpos)) as [->|]; [done|]. apply Hd. lia.
    + apply (reader_ok_mono p); simpl; done || lia.
    + unfold write_head. fold len. destruct (Z.ltb_spec (p.(p_wpos) - w0 + 1) len); cbn [writer_ok p_wpos]; lia.
Qed.

Lemma inv_reachable s : 0 <= n -> reachable n buf (start n buf p0) s -> inv s.
Proof.
  intros Hn. induction 1 as [|s s' Hr IH Hs]; [by apply inv_start|].
  destruct Hs as [closed p r w p' r' Hs|closed p r w p' w' Hs]; [by apply (read_step_inv closed p r)|by apply (write_step_inv closed p r w)].
Qed.

(** No access is outside the buffers. *)
Lemma inv_read_enabled closed p r w : inv (mkSys p r w) -> (forall y, r.(r_at) <> RDone y) -> is_Some (devpipe_read n closed p r).
Proof.
  intros [Hpo Hr Hw Hd Hrd Hwr] Hnd. cbn [s_pipe s_reader s_writer] in *. destruct (po_pos _ Hpo) as [Hp1 Hp2]. destruct (po_pos _ Hp0) as [Hq1 Hq2].
  unfold devpipe_read, reader_ok in *. destruct r.(r_at) as [i|i rp|i|i|i rp|i|y]; try (by eexists); [by case_match; eexists| |by destruct (Hnd y)].
  destruct Hrd as (-> & Hlt & _). rewrite slot_mod by lia. pose proof (Z.mod_pos_bound p.(p_rpos) PIPEBUFSIZ ltac:(done)).
  destruct (lookup_lt_is_Some_2 p.(p_buf) (Z.to_nat (p.(p_rpos) mod PIPEBUFSIZ))) as [b ->]; [rewrite (po_len _ Hpo); lia|by eexists].
Qed.

Lemma inv_write_enabled closed p r w : inv (mkSys p r w) -> (forall y, w <> WDone y) -> is_Some (devpipe_write buf closed p w).
Proof.
  intros [Hpo Hr Hw Hd Hrd Hwr] Hnd. cbn [s_pipe s_reader s_writer] in *. destruct (po_pos _ Hpo) as [Hp1 Hp2]. destruct (po_pos _ Hp0) as [Hq1 Hq2].
  unfold devpipe_write. destruct w as [i|i wp|i|i|i wp|i|y]; cbn [writer_ok] in Hwr; try (by eexists); [|by destruct (Hnd y)].
  destruct Hwr as (-> & Hlt & -> & Hl). rewrite slot_mod by lia. destruct (lookup_lt_is_Some_2 buf (Z.to_nat (p.(p_wpos) - w0))) as [b ->]; [lia|by eexists].
Qed.

(** What is in the pipe is the stream between the two positions. *)
Lemma inv_pending s : inv s -> take (Z.to_nat (s.(s_pipe).(p_rpos) - r0)) stream ++ pending s.(s_pipe) = take (Z.to_nat (s.(s_pipe).(p_wpos) - r0)) stream.
Proof.
  intros [Hpo Hr Hw Hd Hrd Hwr]. destruct (po_pos _ Hpo) as [Hp1 Hp2]. destruct (po_pos _ Hp0) as [Hq1 Hq2].
  set (rp := s.(s_pipe).(p_rpos)) in *. set (wp := s.(s_pipe).(p_wpos)) in *.
  assert (pending s.(s_pipe) = take (Z.to_nat (wp - rp)) (drop (Z.to_nat (rp - r0)) stream)) as ->.
  { apply list_eq. intros j. destruct (decide (j < Z.to_nat (wp - rp))%nat) as [Hj|Hj].
    - rewrite lookup_take_lt, lookup_drop by done. pose proof (pending_lookup s.(s_pipe) (rp + Z.of_nat j) Hpo) as Hl. fold rp in Hl. fold wp in Hl.
      replace (Z.to_nat (rp + Z.of_nat j - rp)) with j in Hl by lia. rewrite Hl, Hd by lia. f_equal. lia.
    - rewrite !lookup_ge_None_2; [done| |]; [rewrite length_take; lia|]. unfold pending. rewrite length_fmap, length_seqZ. fold rp wp. lia. }
  rewrite take_drop_commute. replace (Z.to_nat (rp - r0) + Z.to_nat (wp - rp))%nat with (Z.to_nat (wp - r0)) by lia.
  rewrite <- (take_drop (Z.to_nat (rp - r0)) (take (Z.to_nat (wp - r0)) stream)) at 2. f_equal. by rewrite take_take, Nat.min_l by lia.
Qed.
End Inv.

(** ** One environment at a time

    The loops run to their return, with fuel for the accesses. *)

Fixpoint read_run (fuel : nat) (n : Z) (closed : bool) (p : Pipe) (r : reader) : option (Pipe * Z * list Z) :=
  match r.(r_at), fuel with
  | RDone x, _ => Some (p, x, r.(r_buf))
  | _, O => None
  | _, S f => match devpipe_read n closed p r with
              | Some (p', r') => read_run f n closed p' r'
              | None => None
              end
  end.

Fixpoint write_run (fuel : nat) (buf : list Z) (closed : bool) (p : Pipe) (w : wpoint) : option (Pipe * Z) :=
  match w, fuel with
  | WDone x, _ => Some (p, x)
  | _, O => None
  | _, S f => match devpipe_write buf closed p w with
              | Some (p', w') => write_run f buf closed p' w'
              | None => None
              end
  end.

Lemma write_run_reachable n buf closed f : forall s0 p r w p' x,
  write_run f buf closed p w = Some (p', x) -> reachable n buf s0 (mkSys p r w) -> reachable n buf s0 (mkSys p' r (WDone x)).
Proof.
  induction f as [|f IH]; intros s0 p r w p' x Hrun Hr; destruct w; cbn [write_run] in Hrun; simplify_eq; try done;
    (case_match; [|done]; case_match; apply (IH _ _ _ _ _ _ Hrun); eapply reach_step; [exact Hr|]; simplify_eq; by apply (step_write _ _ closed)).
Qed.

Lemma pending_cons p : pipe_ok p -> p.(p_rpos) < p.(p_wpos) ->
  exists b, p.(p_buf) !! Z.to_nat (p.(p_rpos) mod PIPEBUFSIZ) = Some b /\ pending p = b :: pending (mkPipe (p.(p_rpos) + 1) p.(p_wpos) p.(p_buf)).
Proof.
  intros Hp Hlt. pose proof (Z.mod_pos_bound p.(p_rpos) PIPEBUFSIZ ltac:(done)).
  destruct (lookup_lt_is_Some_2 p.(p_buf) (Z.to_nat (p.(p_rpos) mod PIPEBUFSIZ))) as [b Hb]; [rewrite (po_len _ Hp); lia|]. exists b. split; [done|].
  unfold pending. cbn [p_rpos p_wpos p_buf]. rewrite seqZ_cons, fmap_cons, Hb by lia. cbn [default]. do 2 f_equal. f_equal; lia.
Qed.

Lemma read_run_bytes n closed : forall (a : nat) p i out,
  pipe_ok p -> p.(p_wpos) < 2 ^ 31 -> p.(p_wpos) - p.(p_rpos) = Z.of_nat a -> 0 <= i < n -> 0 < i \/ (0 < a)%nat ->
  let m := Z.min (n - i) (Z.of_nat a) in
  read_run (5 * a + 3) n closed p (mkReader (RTest i) out) = Some (mkPipe (p.(p_rpos) + m) p.(p_wpos) p.(p_buf), i + m, out ++ take (Z.to_nat m) (pending p)).
Proof.
  induction a as [|a IH]; intros p i out Hp Hs Ha Hi Hor m; destruct (po_pos _ Hp) as [H1 H2].
  - subst m. rewrite Z.min_r by lia. cbn. rewrite (proj2 (Z.eqb_eq _ _)) by lia. cbn. rewrite (proj2 (Z.ltb_lt 0 i)) by lia. cbn.
    rewrite !Z.add_0_r, app_nil_r. by destruct p.
  - replace (5 * S a + 3)%nat with (S (S (S (S (S (5 * a + 3)))))) by lia. cbn [read_run r_at devpipe_read]. rewrite (proj2 (Z.eqb_neq _ _)) by lia.
    cbn [read_run r_at devpipe_read r_buf]. destruct (pending_cons p Hp ltac:(lia)) as (b & Hb & ->). rewrite slot_mod, Hb by lia. cbn [read_run r_at devpipe_read r_buf].
    rewrite s32_small by lia. assert (pipe_ok (mkPipe (p.(p_rpos) + 1) p.(p_wpos) p.(p_buf))) as Hp' by (split; [exact (po_len _ Hp)|cbn; lia]).
    unfold read_head. destruct (Z.ltb_spec (i + 1) n) as [Hlt|Hge].
    + rewrite (IH (mkPipe (p.(p_rpos) + 1) p.(p_wpos) p.(p_buf))); [|done|done|cbn; lia|lia|lia]. cbn [p_rpos p_wpos p_buf]. subst m.
      replace (Z.to_nat (Z.min (n - i) (Z.of_nat (S a)))) with (S (Z.to_nat (Z.min (n - (i + 1)) (Z.of_nat a)))) by lia. cbn [take]. rewrite <- app_assoc. cbn [app].
      do 2 f_equal; f_equal; [f_equal; lia|lia].
    + subst m. rewrite Z.min_l by lia. replace (n - i) with 1 by lia. replace (5 * a + 3)%nat with (S (5 * a + 2)) by lia. done.
Qed.

Lemma pending_snoc p b : pipe_ok p -> p.(p_wpos) < p.(p_rpos) + PIPEBUFSIZ ->
  pending (mkPipe p.(p_rpos) (p.(p_wpos) + 1) (<[Z.to_nat (p.(p_wpos) mod PIPEBUFSIZ) := b]> p.(p_buf))) = pending p ++ [b].
Proof.
  intros Hp Hlt. destruct (po_pos _ Hp) as [H1 H2]. pose proof (Z.mod_pos_bound p.(p_wpos) PIPEBUFSIZ ltac:(done)).
  unfold pending. cbn [p_rpos p_wpos p_buf]. replace (p.(p_wpos) + 1 - p.(p_rpos)) with ((p.(p_wpos) - p.(p_rpos)) + 1) by lia.
  rewrite seqZ_app, fmap_app by lia. f_equal.
  - apply list_fmap_ext. intros j k Hk. apply lookup_seqZ in Hk. destruct Hk as [-> Hk]. rewrite list_lookup_insert_ne; [done|]. unfold PIPEBUFSIZ in *.
    intros E. apply Z2Nat.inj in E; [|lia|apply Z.mod_pos_bound; lia]. zdm.
  - replace (p.(p_rpos) + (p.(p_wpos) - p.(p_rpos))) with p.(p_wpos) by lia. rewrite seqZ_cons, seqZ_nil, fmap_cons, fmap_nil by lia.
    by rewrite list_lookup_insert_eq by (rewrite (po_len _ Hp); lia).
Qed.

Lemma write_run_bytes buf closed : forall (rest : nat) p i,
  pipe_ok p -> p.(p_wpos) + Z.of_nat rest <= p.(p_rpos) + PIPEBUFSIZ -> p.(p_wpos) + Z.of_nat rest < 2 ^ 31 - PIPEBUFSIZ ->
  0 <= i -> i + Z.of_nat rest = Z.of_nat (length buf) ->
  exists p', write_run (5 * rest) buf closed p (write_head (Z.of_nat (length buf)) i) = Some (p', Z.of_nat (length buf)) /\
    pipe_ok p' /\ p'.(p_rpos) = p.(p_rpos) /\ p'.(p_wpos) = p.(p_wpos) + Z.of_nat rest /\ pending p' = pending p ++ drop (Z.to_nat i) buf.
Proof.
  induction rest as [|a IH]; intros p i Hp Hroom Hs Hi Hl; destruct (po_pos _ Hp) as [H1 H2]; unfold write_head.
  - rewrite (proj2 (Z.ltb_ge _ _)) by lia. exists p. cbn. rewrite drop_ge, app_nil_r by lia. replace i with (Z.of_nat (length buf)) by lia.
    exact (conj eq_refl (conj Hp (conj eq_refl (conj (eq_sym (Z.add_0_r _)) eq_refl)))).
  - rewrite (proj2 (Z.ltb_lt _ _)) by lia. replace (5 * S a)%nat with (S (S (S (S (S (5 * a)))))) by lia. cbn [write_run devpipe_write].
    unfold PIPEBUFSIZ in *. rewrite !u32_small, (proj2 (Z.leb_gt _ _)) by lia. cbn [write_run devpipe_write].
    destruct (lookup_lt_is_Some_2 buf (Z.to_nat i)) as [b Hb]; [lia|]. rewrite slot_mod, Hb by lia. cbn [write_run devpipe_write p_rpos p_wpos p_buf].
    rewrite s32_small by lia. set (p1 := mkPipe _ _ _).
    assert (pipe_ok p1) as Hp1 by (split; [cbn; rewrite length_insert; exact (po_len _ Hp)|unfold PIPEBUFSIZ; cbn; lia]).
    destruct (IH p1 (i + 1)) as (p' & Er & Hok & E1 & E2 & E3); [done|cbn; lia|cbn; lia|lia|lia|]. exists p'. split; [exact Er|]. split; [done|].
    split; [by rewrite E1|]. split; [rewrite E2; cbn; lia|]. rewrite E3. subst p1. rewrite (pending_snoc p b Hp) by (unfold PIPEBUFSIZ; lia).
    rewrite <- app_assoc. f_equal. cbn [app]. replace (Z.to_nat (i + 1)) with (S (Z.to_nat i)) by lia. by rewrite <- (drop_S buf b (Z.to_nat i) Hb).
Qed.

(** ** Theorems *)

(** C33: One reader and one writer, interleaved at every access to the shared page in any way:
    what the reader has got is always a prefix of what was in the pipe followed by what is
    written, so nothing is lost, repeated or reordered; no access leaves the buffers; and
    when the reader returns it has as many bytes as it says, the rest of what was published
    being still in the pipe, which is well formed for the next call. *)
Theorem pipe_fifo n buf p0 s :
  pipe_ok p0 -> 0 <= n -> p0.(p_wpos) + Z.of_nat (length buf) < 2 ^ 31 -> reachable n buf (start n buf p0) s ->
  s.(s_reader).(r_buf) `prefix_of` pending p0 ++ buf /\ pipe_ok s.(s_pipe) /\
  (forall x, s.(s_reader).(r_at) = RDone x -> Z.of_nat (length s.(s_reader).(r_buf)) = x /\
    s.(s_reader).(r_buf) ++ pending s.(s_pipe) `prefix_of` pending p0 ++ buf /\
    (s.(s_writer) = WDone (Z.of_nat (length buf)) -> buf <> [] -> s.(s_reader).(r_buf) ++ pending s.(s_pipe) = pending p0 ++ buf)) /\
  (forall closed, (forall x, s.(s_reader).(r_at) <> RDone x) -> is_Some (devpipe_read n closed s.(s_pipe) s.(s_reader))) /\
  (forall closed, (forall x, s.(s_writer) <> WDone x) -> is_Some (devpipe_write buf closed s.(s_pipe) s.(s_writer))).
Proof.
  intros Hp0 Hn Hs Hr. pose proof (inv_reachable n buf p0 Hp0 Hs s Hn Hr) as Hi. pose proof Hi as [Hpo Hrp Hwp Hd Hrd Hwr].
  destruct (po_pos _ Hp0) as [Hq1 Hq2]. destruct (po_pos _ Hpo) as [Hp1 Hp2].
  assert (exists k, s.(s_reader).(r_buf) = take k (stream buf p0)) as [k Hk].
  { unfold reader_ok in Hrd. destruct s.(s_reader).(r_at); destruct_and?; eauto. }
  split; [rewrite Hk; apply prefix_take|]. split; [done|]. split; [|split].
  - intros x Ex. unfold reader_ok in Hrd. rewrite Ex in Hrd. destruct Hrd as [-> Ht]. rewrite Ht, (inv_pending n buf p0 Hp0 s Hi).
    assert (length (stream buf p0) = Z.to_nat (p0.(p_wpos) + Z.of_nat (length buf) - p0.(p_rpos))) as Hlen
      by (unfold stream; rewrite length_app, (length_pending p0); lia).
    split; [rewrite length_take, Hlen; lia|]. split; [apply prefix_take|]. intros Ew Hne. rewrite Ew in Hwr. cbn [writer_ok] in Hwr.
    destruct buf as [|b buf]; [done|]. destruct Hwr as [Hz|[Hz _]]; [cbn [length] in Hz; lia|]. apply take_ge. fold (stream (b :: buf) p0). rewrite Hlen. lia.
  - intros closed Hnd. destruct s as [p r w]. by apply (inv_read_enabled n buf p0 Hp0 closed p r w).
  - intros closed Hnd. destruct s as [p r w]. by apply (inv_write_enabled n buf p0 Hp0 closed p r w).
Qed.

(** C34: A call that has not to wait returns: a write with room for all of [buf] returns its
    length, and a read of [n] bytes afterwards returns as many of the pending bytes as there
    are, at most [n], in order, and leaves the others.  No call looks at the other end. *)
Theorem pipe_write_read n buf p cw cr :
  pipe_ok p -> p.(p_wpos) + Z.of_nat (length buf) <= p.(p_rpos) + PIPEBUFSIZ ->
  p.(p_wpos) + Z.of_nat (length buf) < 2 ^ 31 - PIPEBUFSIZ -> 0 < n -> pending p ++ buf <> [] ->
  let all := pending p ++ buf in
  let m := Z.min n (Z.of_nat (length all)) in
  exists p1 p2,
    write_run (5 * length buf) buf cw p (write_head (Z.of_nat (length buf)) 0) = Some (p1, Z.of_nat (length buf)) /\
    read_run (5 * length all + 3) n cr p1 (mkReader (read_head n 0) []) = Some (p2, m, take (Z.to_nat m) all) /\
    pipe_ok p2 /\ pending p2 = drop (Z.to_nat m) all.
Proof.
  intros Hp Hroom Hs Hn Hne all m. destruct (po_pos _ Hp) as [H1 H2].
  destruct (write_run_bytes buf cw (length buf) p 0 Hp Hroom ltac:(lia) ltac:(lia) ltac:(lia)) as (p1 & Ew & Hp1 & E1 & E2 & E3).
  change (drop (Z.to_nat 0) buf) with buf in E3. fold all in E3. destruct (po_pos _ Hp1) as [H3 H4].
  assert (Z.of_nat (length all) = p1.(p_wpos) - p1.(p_rpos)) as Hall by (rewrite <- E3, length_pending; lia).
  assert (length all <> 0%nat) by (intros E; by apply nil_length_inv in E). unfold PIPEBUFSIZ in *.
  exists p1, (mkPipe (p1.(p_rpos) + m) p1.(p_wpos) p1.(p_buf)). split; [exact Ew|]. unfold read_head. rewrite (proj2 (Z.ltb_lt _ _)) by lia.
  rewrite (read_run_bytes n cr (length all) p1 0 []); [|done|lia|lia|lia|lia]. rewrite Z.sub_0_r. fold m. rewrite E3. split; [done|].
  assert (pipe_ok (mkPipe (p1.(p_rpos) + m) p1.(p_wpos) p1.(p_buf))) as Hp2 by (split; [exact (po_len _ Hp1)|unfold PIPEBUFSIZ; cbn; lia]).
  split; [done|]. rewrite <- E3. unfold pending. cbn [p_rpos p_wpos p_buf]. rewrite <- fmap_drop. f_equal.
  replace (p1.(p_wpos) - p1.(p_rpos)) with (m + (p1.(p_wpos) - (p1.(p_rpos) + m))) by lia. rewrite seqZ_app by lia.
  rewrite drop_app_ge by (rewrite length_seqZ; lia). rewrite length_seqZ, Nat.sub_diag. by rewrite Z.add_comm.
Qed.

(** The positions are never reset, and [off_t] has 32 bits: once 2^31 - 1 bytes have gone
    through, the write position is negative, and the next byte but one is stored below
    [p_buf]. *)
Theorem pipe_position_overflows buf p i :
  p.(p_wpos) = 2 ^ 31 - 1 -> exists p', devpipe_write buf false p (WInc i) = Some (p', write_head (Z.of_nat (length buf)) (i + 1)) /\
  p'.(p_wpos) = - 2 ^ 31 /\ slot (p'.(p_wpos) + 1) = None.
Proof. intros E. eexists. split; [reflexivity|]. cbn [p_wpos]. rewrite E. by vm_compute. Qed.

(** The reader looks at the positions before it asks whether the writers are gone: when the
    last writer stores a byte and leaves in between, [devpipe_read] reports the end of the
    file with the byte in the pipe. *)
Theorem pipe_early_eof b p0 :
  pipe_ok p0 -> p0.(p_wpos) = p0.(p_rpos) -> p0.(p_wpos) + 1 < 2 ^ 31 - PIPEBUFSIZ ->
  exists p, reachable 1 [b] (start 1 [b] p0) (mkSys p (mkReader (RDone 0) []) (WDone 1)) /\ pending p = [b].
Proof.
  intros Hp E Hs. destruct (po_pos _ Hp) as [H1 H2].
  destruct (write_run_bytes [b] false 1 p0 0 Hp) as (p & Hrun & _ & _ & _ & Hpend); [unfold PIPEBUFSIZ in *; cbn; lia..|].
  exists p. split; [|rewrite Hpend; unfold pending; rewrite E, Z.sub_diag; by rewrite seqZ_nil by lia].
  assert (reachable 1 [b] (start 1 [b] p0) (mkSys p0 (mkReader (REmpty 0) []) (WTest 0))) as Hr.
  { eapply reach_step; [eapply reach_step; [apply reach_refl|apply (step_read _ _ false); reflexivity]|]. apply (step_read _ _ false). cbn.
    by rewrite (proj2 (Z.eqb_eq _ _)) by done. }
  eapply reach_step; [exact (write_run_reachable 1 [b] false _ _ _ _ _ _ _ Hrun Hr)|]. by apply (step_read _ _ true).
Qed.

(** ** Witnesses *)

Definition demo_pipe : Pipe := mkPipe 30 31 (<[30%nat := 7]> (replicate 32 0)).

Lemma demo_pipe_ok : pipe_ok demo_pipe.
Proof. split; [done|by vm_compute]. Qed.

(** A schedule: [true] lets the reader make its next access, [false] the writer. *)
Fixpoint sched (n : Z) (buf : list Z) (turns : list bool) (s : sys) : option sys :=
  match turns with
  | [] => Some s
  | true :: l => match devpipe_read n false s.(s_pipe) s.(s_reader) with
                 | Some (p, r) => sched n buf l (mkSys p r s.(s_writer))
                 | None => None
                 end
  | false :: l => match devpipe_write buf false s.(s_pipe) s.(s_writer) with
                  | Some (p, w) => sched n buf l (mkSys p s.(s_reader) w)
                  | None => None
                  end
  end.

Lemma sched_reachable n buf s0 : forall turns s s', reachable n buf s0 s -> sched n buf turns s = Some s' -> reachable n buf s0 s'.
Proof.
  induction turns as [|[] l IH]; intros [p r w] s' Hr; cbn; [by intros [= <-]| |]; (case_match; [|done]); simplify_eq; case_match; simplify_eq; apply IH; (eapply reach_step; [exact Hr|]).
  - by eapply step_read.
  - by eapply step_write.
Qed.

(** The two calls, an access each in turn until the writer returns: the reader returns the byte
    that was pending and the two that are written. *)
Definition demo_turns : list bool := flat_map (fun _ => [true; false]) (seq 0 10) ++ replicate 7 true.

Definition demo_end : sys := default (start 4 [8; 9] demo_pipe) (sched 4 [8; 9] demo_turns (start 4 [8; 9] demo_pipe)).

Lemma pipe_fifo_witness :
  reachable 4 [8; 9] (start 4 [8; 9] demo_pipe) demo_end /\ demo_end.(s_reader).(r_at) = RDone 3 /\ demo_end.(s_writer) = WDone 2 /\
  demo_end.(s_reader).(r_buf) `prefix_of` [7; 8; 9].
Proof.
  assert (reachable 4 [8; 9] (start 4 [8; 9] demo_pipe) demo_end) as Hr by (by apply (sched_reachable _ _ _ demo_turns _ _ (reach_refl _ _ _))).
  split; [exact Hr|]. split; [vm_compute; reflexivity|]. split; [vm_compute; reflexivity|].
  exact (proj1 (pipe_fifo 4 [8; 9] demo_pipe demo_end demo_pipe_ok ltac:(lia) ltac:(done) Hr)).
Defined.

Lemma pipe_write_read_witness : exists p1 p2,
  write_run 10 [8; 9] false demo_pipe (write_head 2 0) = Some (p1, 2) /\ read_run 18 2 false p1 (mkReader (read_head 2 0) []) = Some (p2, 2, [7; 8]) /\
  pipe_ok p2 /\ pending p2 = [9].
Proof. exact (pipe_write_read 2 [8; 9] demo_pipe false false demo_pipe_ok ltac:(done) ltac:(done) ltac:(done) ltac:(done)). Defined.
