(* ===== verification/SchedSpec.v ===== *)
(** The order in which [sched_yield] of [kern/sched.c] picks environments. *)

From S2P Require Import Prelude Mmu Mem Console E1000 Pmap PmapBoot Env Sched.
From S2P Require Import PmapAlloc PmapVm PmapRefs KernInv SysMem Demo DemoKern.

(** The position [k] steps after [idle] on the scheduler's walk over [0 .. NENV]. *)
Definition pos (idle k : Z) : Z := (idle + k) mod (NENV + 1).

Lemma pos_next idle : 0 <= idle <= NENV -> (if NENV <=? idle then 0 else idle + 1) = pos idle 1.
Proof. unfold pos, NENV. intros H. bcase; zdm. Qed.

Lemma pos_add idle j k : pos (pos idle j) k = pos idle (j + k).
Proof. unfold pos. rewrite Zplus_mod_idemp_l. f_equal. lia. Qed.

Lemma pos_range idle k : 0 <= pos idle k <= NENV.
Proof. unfold pos, NENV. zdm. Qed.

Lemma scan_first st s n idle :
  (forall i, 0 <= i <= NENV -> status_at i s = Ret (st i) s) -> 0 <= idle <= NENV ->
  (exists k, 0 <= k < Z.of_nat n /\ sched_scan n idle s = Ret (Some (pos idle k)) s /\
     st (pos idle k) = ENV_RUNNABLE /\ forall k', 0 <= k' < k -> st (pos idle k') <> ENV_RUNNABLE) \/
  (sched_scan n idle s = Ret None s /\ forall k, 0 <= k < Z.of_nat n -> st (pos idle k) <> ENV_RUNNABLE).
Proof.
  intros Hst. revert idle. induction n as [|n IH]; intros idle Hi; [right; split; [done|lia]|].
  assert (pos idle 0 = idle) as Hp0 by (unfold pos, NENV in *; zdm).
  cbn [sched_scan]. erewrite bind_ret by (by apply Hst). cbv beta.
  destruct (Z.eqb_spec (st idle) ENV_RUNNABLE) as [E|E].
  - left. exists 0. rewrite Hp0. split; [lia|]. split; [done|]. split; [done|]. intros; lia.
  - rewrite pos_next by done. destruct (IH (pos idle 1) (pos_range _ _)) as [(k & Hk & -> & Hr & Hn)|[-> Hn]].
    + left. exists (1 + k). rewrite pos_add in *. split; [lia|]. split; [done|]. split; [done|].
      intros k' Hk'. destruct (decide (k' = 0)) as [->|]; [by rewrite Hp0|].
      specialize (Hn (k' - 1) ltac:(lia)). rewrite pos_add in Hn. by replace (1 + (k' - 1)) with k' in Hn by lia.
    + right. split; [done|]. intros k' Hk'. destruct (decide (k' = 0)) as [->|]; [by rewrite Hp0|].
      specialize (Hn (k' - 1) ltac:(lia)). rewrite pos_add in Hn. by replace (1 + (k' - 1)) with k' in Hn by lia.
Qed.

(** The status the scheduler reads: of an environment, or the word [w] past the table. *)
Definition seen (es : gmap Z Env) (w i : Z) : Z :=
  match es !! i with Some e => e.(env_status) | None => w end.

(** The slots [sched_yield] looks at, in order: without a current environment the table from the
    start; with one the slots above it, the one past the table, and the slots below it. *)
Definition walk (cur : option Z) : list Z :=
  match cur with None => seqZ 0 NENV | Some c => seqZ (c + 1) (NENV - c) ++ seqZ 0 c end.

(** The first slot on the walk that reads as runnable. *)
Definition chosen (es : gmap Z Env) (w : Z) (cur : option Z) : option Z :=
  List.find (fun i => seen es w i =? ENV_RUNNABLE) (walk cur).

Definition start (cur : option Z) : Z := match cur with None => 0 | Some c => c + 1 end.

Lemma walk_pos cur : (forall c, cur = Some c -> 0 <= c < NENV) -> walk cur = pos (start cur) <$> seqZ 0 1024.
Proof.
  assert (forall i m n d, (forall k, m <= k < m + n -> pos i k = d + k) -> pos i <$> seqZ m n = seqZ (d + m) n) as H.
  { intros i m n d Hk. rewrite <- fmap_add_seqZ. apply list_fmap_ext. intros j x Hx. apply Hk. apply elem_of_seqZ. by eapply list_elem_of_lookup_2. }
  intros Hc. destruct cur as [c|]; cbn [walk start].
  - specialize (Hc c eq_refl). replace 1024 with ((NENV - c) + c) by (unfold NENV; lia). rewrite seqZ_app, fmap_app by lia. f_equal; symmetry.
    + rewrite (H _ 0 _ (c + 1)); [f_equal; lia|]. intros k Hk. unfold pos, NENV in *. zdm.
    + rewrite (H _ _ _ (c - NENV)); [f_equal; lia|]. intros k Hk. unfold pos, NENV in *. zdm.
  - symmetry. rewrite (H _ 0 _ 0); [done|]. intros k Hk. unfold pos, NENV in *. zdm.
Qed.

Lemma find_fmap_seqZ {A} (P : A -> bool) (f : Z -> A) n :
  (forall k, 0 <= k < n -> P (f k) = true -> (forall j, 0 <= j < k -> P (f j) = false) -> List.find P (f <$> seqZ 0 n) = Some (f k)) /\
  ((forall k, 0 <= k < n -> P (f k) = false) -> List.find P (f <$> seqZ 0 n) = None).
Proof.
  assert (forall m k, (forall j, m <= j < m + Z.of_nat k -> P (f j) = false) -> forall l, List.find P ((f <$> seqZ m (Z.of_nat k)) ++ l) = List.find P l) as Hskip.
  { intros m k. revert m. induction k as [|k IH]; intros m Hj l; [done|]. rewrite seqZ_cons by lia. cbn [fmap list_fmap app List.find].
    rewrite Hj by lia. replace (Z.pred (Z.of_nat (S k))) with (Z.of_nat k) by lia. apply IH. intros j Hr. apply Hj. lia. }
  split.
  - intros k Hk HP Hj. replace n with (Z.of_nat (Z.to_nat k) + (1 + (n - k - 1))) by lia. rewrite seqZ_app, fmap_app by lia.
    rewrite Hskip by (intros j Hr; apply Hj; lia). rewrite seqZ_cons by lia. cbn [fmap list_fmap List.find].
    replace (0 + Z.of_nat (Z.to_nat k)) with k by lia. by rewrite HP.
  - intros Hj. destruct (Z.le_gt_cases n 0); [by rewrite seqZ_nil|]. replace n with (Z.of_nat (Z.to_nat n)) by lia.
    rewrite <- (app_nil_r (f <$> _)). apply Hskip. intros j Hr. apply Hj. lia.
Qed.

(** The distance from environment [c] to [e], going up through the table and around. *)
Definition dist (c e : Z) : Z := (e - c - 1) mod NENV.

Lemma pos_dist c e : 0 <= c < NENV -> 0 <= e < NENV -> e <> c ->
  exists k, 0 <= k < 1024 /\ pos (c + 1) k = e /\ k = (if c <? e then e - c - 1 else e - c + NENV).
Proof. unfold pos, NENV. intros Hc He Hne. eexists. split; [|split; [|reflexivity]]; bcase; zdm. Qed.

Section Yield.
Context {Mach : Machine} (cpu : Z) {A : Type}.
Variables (s : kern) (ci : CpuInfo) (w : Z).
Hypothesis Hdom : forall i, is_Some (s.(envs) !! i) <-> 0 <= i < NENV.
Hypothesis Hci : s.(cpus) !! cpu = Some ci.
Hypothesis Hw : kload32 (s.(pm).(envs_va) + sizeof_Env * NENV + off_env_status) s.(pm) = Ret w s.(pm).

Lemma status_seen i : 0 <= i <= NENV -> status_at i s = Ret (seen s.(envs) w i) s.
Proof.
  intros Hi. unfold status_at, seen. destruct (Z.ltb_spec i NENV) as [Hlt|Hge].
  - destruct (proj2 (Hdom i)) as [e He]; [lia|]. rewrite He. by mstep (by apply get_env_some).
  - replace i with NENV by lia. destruct (s.(envs) !! NENV) as [e|] eqn:E.
    + assert (0 <= NENV < NENV) by (apply Hdom; eauto). lia.
    + apply on_pm_pure. by mstep reflexivity.
Qed.

Lemma seen_end : seen s.(envs) w NENV = w.
Proof.
  unfold seen. destruct (s.(envs) !! NENV) as [e|] eqn:E; [|done].
  assert (0 <= NENV < NENV) by (apply Hdom; eauto). lia.
Qed.

(** The search is the reference search. *)
Lemma scan_chosen cur :
  (forall c, cur = Some c -> 0 <= c < NENV) -> sched_scan 1024 (start cur) s = Ret (chosen s.(envs) w cur) s.
Proof.
  intros Hc. unfold chosen. rewrite walk_pos by done. set (P := fun i => seen s.(envs) w i =? ENV_RUNNABLE).
  destruct (find_fmap_seqZ P (pos (start cur)) 1024) as [H1 H2].
  destruct (scan_first _ s 1024 (start cur) status_seen) as [(k & Hk & -> & Hr & Hn)|[-> Hn]].
  - destruct cur as [c|]; cbn [start]; [specialize (Hc c eq_refl)|]; unfold NENV in *; lia.
  - rewrite (H1 k); [done|lia|by apply Z.eqb_eq|]. intros j Hj. apply Z.eqb_neq. by apply Hn.
  - rewrite H2; [done|]. intros k Hk. apply Z.eqb_neq. apply Hn. lia.
Qed.

Lemma scan_found c :
  0 <= c < NENV ->
  sched_scan 1024 (c + 1) s = Ret (Some NENV) s \/
  (exists e, 0 <= e < NENV /\ e <> c /\ sched_scan 1024 (c + 1) s = Ret (Some e) s /\
     seen s.(envs) w e = ENV_RUNNABLE /\
     forall j, 0 <= j < NENV -> j <> c -> dist c j < dist c e -> seen s.(envs) w j <> ENV_RUNNABLE) \/
  (sched_scan 1024 (c + 1) s = Ret None s /\
     forall j, 0 <= j < NENV -> j <> c -> seen s.(envs) w j <> ENV_RUNNABLE).
Proof.
  intros Hc.
  destruct (scan_first _ s 1024 (c + 1) status_seen) as [(k & Hk & Hrun & Hr & Hn)|[Hrun Hn]];
    [unfold NENV in *; lia| |do 2 right].
  - destruct (Z.eq_dec (pos (c + 1) k) NENV) as [E|Hne]; [left; by rewrite <- E|right; left].
    pose proof (pos_range (c + 1) k). exists (pos (c + 1) k).
    split; [lia|]. split; [unfold pos, NENV in *; intros E; clear -E Hk Hc; zdm|].
    split; [done|]. split; [done|]. intros j Hj Hjc Hd.
    destruct (pos_dist c j Hc Hj Hjc) as (k' & Hk' & <- & Hkd). apply Hn. split; [lia|].
    revert Hd. rewrite Hkd. unfold dist, pos, NENV in *. clear -Hk Hc Hj Hne. bcase; zdm.
  - split; [done|]. intros j Hj Hjc. destruct (pos_dist c j Hc Hj Hjc) as (k & Hk & <- & _). apply Hn. lia.
Qed.
End Yield.

(** Which environment is picked while [c] is current. *)
Lemma yield_picks {Mach : Machine} {A : Type} cpu s ci w c ce :
  (forall i, is_Some (s.(envs) !! i) <-> 0 <= i < NENV) -> s.(cpus) !! cpu = Some ci ->
  kload32 (s.(pm).(envs_va) + sizeof_Env * NENV + off_env_status) s.(pm) = Ret w s.(pm) ->
  ci.(cpu_env) = Some c -> s.(envs) !! c = Some ce ->
  let runnable j := exists e, s.(envs) !! j = Some e /\ e.(env_status) = ENV_RUNNABLE in
  sched_yield cpu s = (env_run cpu NENV s : outcome kern A) \/
  (exists e, runnable e /\ sched_yield cpu s = (env_run cpu e s : outcome kern A) /\
     forall j, j <> c -> dist c j < dist c e -> ~ runnable j) \/
  (forall j, j <> c -> ~ runnable j).
Proof.
  intros Hdom Hci Hw Hc Hce runnable.
  assert (0 <= c < NENV) as Hcr by (apply Hdom; eauto).
  assert (forall j, 0 <= j < NENV -> runnable j <-> seen s.(envs) w j = ENV_RUNNABLE) as Hrun.
  { intros j Hj. destruct (proj2 (Hdom j) Hj) as [e He]. unfold runnable, seen. rewrite He. naive_solver. }
  assert (forall j, runnable j -> 0 <= j < NENV) as Hrr by (intros j (e & He & _); apply Hdom; eauto).
  unfold sched_yield. rewrite (bind_ret _ _ s _ _ (curenv_some cpu s ci Hci)). rewrite Hc. cbv beta iota zeta.
  change (Z.to_nat 1024) with 1024%nat.
  destruct (scan_found s w Hdom Hw c Hcr) as [Hscan|[(e & He & Hne & Hscan & Hr & Hn)|[Hscan Hn]]].
  - left. by mstep (exact Hscan).
  - right. left. exists e. split; [by apply Hrun|]. split; [by mstep (exact Hscan)|].
    intros j Hj Hd Hjr. pose proof (Hrr j Hjr). apply (Hn j); auto. by apply Hrun.
  - do 2 right. intros j Hj Hjr. pose proof (Hrr j Hjr). apply (Hn j); auto. by apply Hrun.
Qed.

(** C19: What [sched_yield] picks, in every case: the first slot that reads [ENV_RUNNABLE] in the
    order of [walk], starting after the current environment and going around to the one before it, or
    from slot 0 when there is no current environment (as after an exit, although the
    comment of the function speaks of the environment that ran last).  If there is none, the
    current environment goes on if it is [ENV_RUNNING], and otherwise the CPU halts; a
    current environment that has been made [ENV_RUNNABLE] is not considered.  Between the last slot and
    the first the walk reads the memory past the table, whatever word [w] is there, and runs
    it if it looks runnable. *)
Theorem sched_yield_round_robin {Mach : Machine} {A : Type} cpu s ci w :
  (forall i, is_Some (s.(envs) !! i) <-> 0 <= i < NENV) -> s.(cpus) !! cpu = Some ci ->
  kload32 (s.(pm).(envs_va) + sizeof_Env * NENV + off_env_status) s.(pm) = Ret w s.(pm) ->
  (forall c, ci.(cpu_env) = Some c -> is_Some (s.(envs) !! c)) ->
  sched_yield cpu s =
    (match chosen s.(envs) w ci.(cpu_env) with
     | Some e => env_run cpu e
     | None =>
         match ci.(cpu_env) with
         | Some c => if seen s.(envs) w c =? ENV_RUNNING then env_run cpu c else sched_halt cpu
         | None => sched_halt cpu
         end
     end s : outcome kern A).
Proof.
  intros Hdom Hci Hw Hc. unfold sched_yield. rewrite (bind_ret _ _ s _ _ (curenv_some cpu s ci Hci)).
  change (Z.to_nat 1024) with 1024%nat. fold (start ci.(cpu_env)).
  rewrite (bind_ret _ _ s _ _ (scan_chosen s w Hdom Hw ci.(cpu_env) ltac:(intros c E; apply Hdom; auto))).
  destruct (chosen s.(envs) w ci.(cpu_env)) as [e|]; [done|]. destruct ci.(cpu_env) as [c|]; [|by mstep reflexivity].
  destruct (Hc c eq_refl) as [ce Hce]. mstep (mstep (by apply get_env_some); reflexivity). unfold seen. rewrite Hce. by destruct (_ =? _).
Qed.

(** The walk reads one slot past the table: if the word there equals [ENV_RUNNABLE] and no
    environment above the current one is runnable, [sched_yield] runs the environment that
    does not exist, even though environments below may be waiting. *)
Theorem sched_yield_past_end {Mach : Machine} {A : Type} cpu s ci c :
  (forall i, is_Some (s.(envs) !! i) <-> 0 <= i < NENV) -> s.(cpus) !! cpu = Some ci ->
  kload32 (s.(pm).(envs_va) + sizeof_Env * NENV + off_env_status) s.(pm) = Ret ENV_RUNNABLE s.(pm) ->
  ci.(cpu_env) = Some c -> 0 <= c < NENV ->
  (forall j e, c < j -> s.(envs) !! j = Some e -> e.(env_status) <> ENV_RUNNABLE) ->
  sched_yield cpu s = (env_run cpu NENV s : outcome kern A).
Proof.
  intros Hdom Hci Hw Hc Hcr Hn.
  unfold sched_yield. rewrite (bind_ret _ _ s _ _ (curenv_some cpu s ci Hci)). rewrite Hc. cbv beta iota zeta.
  change (Z.to_nat 1024) with 1024%nat.
  destruct (scan_first _ s 1024 (c + 1) (status_seen s ENV_RUNNABLE Hdom Hw)) as [(k & Hk & Hscan & Hr & Hf)|[_ Hf]];
    [unfold NENV in *; lia|..].
  - assert (pos (c + 1) k = NENV) as E; [|rewrite E in Hscan; by mstep (exact Hscan)].
    assert (k <= NENV - c - 1).
    { destruct (Z.le_gt_cases k (NENV - c - 1)) as [|Hgt]; [done|]. exfalso.
      apply (Hf (NENV - c - 1) ltac:(lia)). replace (pos (c + 1) (NENV - c - 1)) with NENV by (unfold pos, NENV in *; zdm).
      by apply seen_end. }
    destruct (decide (k = NENV - c - 1)) as [->|]; [unfold pos, NENV in *; zdm|]. exfalso.
    assert (pos (c + 1) k = c + 1 + k) as Ep by (apply Z.mod_small; unfold NENV in *; lia).
    rewrite Ep in Hr. destruct (proj2 (Hdom (c + 1 + k)) ltac:(lia)) as [e He].
    unfold seen in Hr. rewrite He in Hr. by apply (Hn (c + 1 + k) e); [lia|..].
  - exfalso. apply (Hf (NENV - c - 1)); [unfold NENV in *; lia|].
    replace (pos (c + 1) (NENV - c - 1)) with NENV by (unfold pos, NENV in *; zdm). by apply seen_end.
Qed.

(** [demo_kern] with an unlucky word behind the table. *)
Definition past_word : Z := 0x110100 + sizeof_Env * NENV + off_env_status.
Definition demo_past : kern := set_pm (set_pmem (st32 demo_mem past_word ENV_RUNNABLE) demo) demo_kern.

Lemma demo_past_word :
  kload32 (demo_past.(pm).(envs_va) + sizeof_Env * NENV + off_env_status) demo_past.(pm) = Ret ENV_RUNNABLE demo_past.(pm).
Proof.
  unfold kload32. change (demo_past.(pm).(envs_va) + sizeof_Env * NENV + off_env_status) with (KERNBASE + past_word).
  rewrite (proj2 (Z.ltb_ge _ _)) by by vm_compute. replace (KERNBASE + past_word - KERNBASE) with past_word by lia.
  cbn [demo_past pm set_pm pmem set_pmem]. by rewrite ld32_st32_eq.
Qed.

Lemma sched_yield_past_end_witness :
  sched_yield 0 demo_past = (env_run 0 NENV demo_past : outcome kern unit).
Proof.
  refine (sched_yield_past_end 0 demo_past demo_cpu 0 (kw_dom _ _ _ _ demo_kern_wf) eq_refl demo_past_word eq_refl _ _);
    [by vm_compute|].
  intros j e Hj [_ ->]%demo_envs_some. unfold demo_env.
  destruct (Z.eqb_spec j 0); [lia|]. intros H. discriminate H.
Defined.

(** ** Switching environments *)

(** The table with the environment that was running put back among the runnable ones. *)
Definition put_back (cur : option Z) (es : gmap Z Env) : gmap Z Env :=
  match cur with
  | Some c =>
      match es !! c with
      | Some ce => if ce.(env_status) =? ENV_RUNNING then <[c := set_env_status ENV_RUNNABLE ce]> es else es
      | None => es
      end
  | None => es
  end.

Definition started (cpu : Z) (ee : Env) : Env :=
  set_env_cpunum cpu (set_env_runs (u32 (ee.(env_runs) + 1)) (set_env_status ENV_RUNNING ee)).

Lemma put_back_run s W l fl cur :
  kern_wf s W l fl -> (forall c, cur = Some c -> 0 <= c < NENV) ->
  (match cur with
   | None => ret tt
   | Some c =>
       let* ce := get_env c in
       if ce.(env_status) =? ENV_RUNNING then upd_env c (set_env_status ENV_RUNNABLE) else ret tt
   end) s = Ret tt (set_envs (put_back cur s.(envs)) s) /\
  kern_wf (set_envs (put_back cur s.(envs)) s) W l fl.
Proof.
  intros Hwf Hc. assert (set_envs s.(envs) s = s) as Hid by by destruct s.
  destruct cur as [c|]; simpl; [|by rewrite Hid].
  destruct (proj2 (kw_dom _ _ _ _ Hwf c) (Hc c eq_refl)) as [ce Hce]. rewrite Hce.
  erewrite bind_ret by (by apply get_env_some). cbv beta.
  destruct (Z.eqb_spec ce.(env_status) ENV_RUNNING) as [E|E]; [|by rewrite Hid].
  split; [by apply upd_env_some|]. apply (kw_upd_env s _ _ _ c ce); auto. by rewrite E.
Qed.

(** [env_run] on an environment that is not current. *)
Lemma env_run_ok {A : Type} cpu s W l fl ci e ee a :
  kern_wf s W l fl -> s.(cpus) !! cpu = Some ci -> ci.(cpu_env) <> Some e ->
  (forall c, ci.(cpu_env) = Some c -> 0 <= c < NENV) -> s.(envs) !! e = Some ee -> W !! e = Some a ->
  s.(kernel_lock) = Some cpu ->
  exists s', env_run cpu e s = (Iret e s' : outcome kern A) /\ kern_wf s' W l fl /\
    s'.(envs) = <[e := started cpu ee]> (put_back ci.(cpu_env) s.(envs)) /\
    s'.(cpus) = <[cpu := mkCpu ci.(cpu_status) (Some e) (a.(as_dir) * PGSIZE)]> s.(cpus) /\
    s'.(kernel_lock) = None /\ s'.(pm) = s.(pm) /\ s'.(cons) = s.(cons).
Proof.
  intros Hwf Hci Hne Hcr He Ha Hlk. destruct (put_back_run s W l fl _ Hwf Hcr) as [Hput Hwf1].
  assert (put_back ci.(cpu_env) s.(envs) !! e = Some ee) as He1.
  { unfold put_back. destruct ci.(cpu_env) as [c|]; [|done]. destruct (s.(envs) !! c); [|done].
    destruct (_ =? _); [|done]. by rewrite lookup_insert_ne by congruence. }
  pose proof (kw_space _ _ _ _ Hwf e ee He) as Hsp. rewrite Ha in Hsp. destruct Hsp as [Hst Hpg].
  pose proof (vr_dir _ _ (vw_rep _ _ _ _ (kw_vm _ _ _ _ Hwf) e a Ha)) as Hdir.
  pose proof (kw_npages _ _ _ _ Hwf) as Hn. set (es := put_back ci.(cpu_env) s.(envs)) in *.
  exists (set_kernel_lock None (set_cpus (<[cpu := mkCpu ci.(cpu_status) (Some e) (a.(as_dir) * PGSIZE)]> s.(cpus))
    (set_envs (<[e := started cpu ee]> es) s))).
  split; [|split; [|done]].
  - unfold env_run. mstep (by apply curenv_some). rewrite bool_decide_eq_false_2 by done.
    mstep (mstep (exact Hput); mstep (unfold set_curenv, upd_cpu; simpl; rewrite Hci; reflexivity);
      mstep (apply upd_env_some; exact He1); mstep (apply get_env_some, lookup_insert_eq);
      cbn [env_pgdir set_env_runs set_env_status]; rewrite Hpg;
      apply (load_pgdir_ok cpu _ (mkCpu ci.(cpu_status) (Some e) ci.(cpu_cr3))); [apply lookup_insert_eq|lia]).
    unfold unlock_kernel. mstep (munfold; simpl; rewrite Hlk, bool_decide_eq_true_2 by done; reflexivity).
    unfold env_pop_tf. mstep (apply curenv_some; simpl; apply lookup_insert_eq). cbn [cpu_env].
    mstep (apply upd_env_some; simpl; apply lookup_insert_eq).
    unfold loaded, set_kernel_lock, set_cpus, set_envs. simpl. by rewrite !insert_insert_eq.
  - assert (kern_wf (set_envs (<[e := started cpu ee]> es) s) W l fl) as Hk
      by by apply (kw_upd_env (set_envs es s) W l fl e ee).
    apply (kw_set_cpus _ _ _ _ (<[cpu := mkCpu ci.(cpu_status) (Some e) (a.(as_dir) * PGSIZE)]> s.(cpus))) in Hk.
    destruct Hk. by split.
Qed.

(** [env_run] on another environment leaves the kernel running it: the environment that
    was running becomes runnable again, the new one is marked running with one more run
    and this CPU's number, it is the CPU's current environment with its page directory
    loaded, the big kernel lock is free, and the invariant holds. *)
Theorem env_run_switches {A : Type} cpu s W l fl ci e ee a :
  kern_wf s W l fl -> s.(cpus) !! cpu = Some ci -> ci.(cpu_env) <> Some e ->
  (forall c, ci.(cpu_env) = Some c -> 0 <= c < NENV) -> s.(envs) !! e = Some ee -> W !! e = Some a ->
  s.(kernel_lock) = Some cpu ->
  exists s', env_run cpu e s = (Iret e s' : outcome kern A) /\ kern_wf s' W l fl /\
    s'.(envs) = <[e := started cpu ee]> (put_back ci.(cpu_env) s.(envs)) /\
    s'.(cpus) = <[cpu := mkCpu ci.(cpu_status) (Some e) (a.(as_dir) * PGSIZE)]> s.(cpus) /\
    s'.(kernel_lock) = None /\ s'.(pm) = s.(pm) /\ s'.(cons) = s.(cons).
Proof. apply env_run_ok. Qed.

(** Environment 0 picked up by a CPU that was idle. *)
Lemma env_run_switches_witness :
  exists s', env_run 0 0 (set_cpus {[0 := mkCpu CPU_STARTED None 0]} demo_kern) = (Iret 0 s' : outcome kern unit) /\
    s'.(cpus) !! 0 = Some (mkCpu CPU_STARTED (Some 0) PGSIZE).
Proof.
  pose proof (kw_set_cpus _ _ _ _ {[0 := mkCpu CPU_STARTED None 0]} demo_kern_wf) as Hk.
  assert (demo_kern.(envs) !! 0 = Some (demo_env 0)) as H0 by by apply demo_envs_lookup.
  destruct (env_run_switches (A := unit) 0 _ _ _ _ (mkCpu CPU_STARTED None 0) 0 (demo_env 0) demo_space Hk
    eq_refl ltac:(discriminate) ltac:(discriminate) H0 eq_refl eq_refl) as (s' & Hrun & _ & _ & Hcpu & _).
  exists s'. split; [exact Hrun|]. rewrite Hcpu. reflexivity.
Defined.

(** ** No starvation *)

(** [env_run] reaches user mode only with the environment it was asked for, which must exist. *)
Lemma env_run_iret {Mach : Machine} {A : Type} cpu e s x s' :
  env_run cpu e s = (Iret x s' : outcome kern A) -> x = e /\ is_Some (s.(envs) !! e).
Proof.
  unfold env_run, env_pop_tf, unlock_kernel, set_curenv, load_pgdir, lcr3, curenv, get_cpu, upd_cpu, upd_env, get_env, on_pm,
    zoom, PADDR, gets, modify, bind, ret, panic, wild.
  intros H. repeat (case_match; simplify_eq; try done); cbn in *;
    try (rewrite lookup_insert_eq in *; simplify_eq; cbn in *; simplify_eq);
    repeat match goal with
    | H : <[_ := _]> _ !! _ = Some _ |- _ => apply lookup_insert_Some in H as [[<- <-]|[? H]]
    | H : bool_decide _ = true |- _ => apply bool_decide_eq_true in H
    end; simplify_eq; (split; [congruence|eauto; congruence]).
Qed.

Definition runnable (s : kern) (j : Z) : Prop := exists e, s.(envs) !! j = Some e /\ e.(env_status) = ENV_RUNNABLE.

(** A state in which [sched_yield] is called while environment [c] is current. *)
Definition yielding {Mach : Machine} (cpu : Z) (s : kern) (c : Z) : Prop :=
  (forall i, is_Some (s.(envs) !! i) <-> 0 <= i < NENV) /\ is_Some (s.(envs) !! c) /\
  (exists ci, s.(cpus) !! cpu = Some ci /\ ci.(cpu_env) = Some c) /\
  exists w, kload32 (s.(pm).(envs_va) + sizeof_Env * NENV + off_env_status) s.(pm) = Ret w s.(pm).

(** A stretch of scheduling on one CPU: [sched_yield], called while [c] is current, leaves the
    kernel for an environment [e]; that runs, and by the next call anything may have
    happened, but [e] is current.  [t] is runnable at every call; the list has the
    environments that ran. *)
Inductive slices {Mach : Machine} (cpu t : Z) : Z -> list Z -> Prop :=
  | slices_end c : slices cpu t c []
  | slices_next c e s s' es :
      yielding cpu s c -> runnable s t -> sched_yield cpu s = (Iret e s' : outcome kern unit) ->
      slices cpu t e es -> slices cpu t c (e :: es).

Lemma dist_closer c e t :
  0 <= c < NENV -> 0 <= e < NENV -> 0 <= t < NENV -> e <> t -> dist c e <= dist c t -> dist e t < dist c t.
Proof. unfold dist, NENV. intros. zdm. Qed.

Lemma yield_closer {Mach : Machine} cpu s c t e s' :
  yielding cpu s c -> runnable s t -> t <> c -> sched_yield cpu s = (Iret e s' : outcome kern unit) ->
  e = t \/ (e <> t /\ 0 <= e < NENV /\ dist e t < dist c t).
Proof.
  intros (Hdom & [ce Hce] & (ci & Hci & Hc) & w & Hw) Ht Htc H.
  assert (forall j, runnable s j -> 0 <= j < NENV) as Hr by (intros j (x & Hx & _); apply Hdom; eauto).
  destruct (yield_picks (A := unit) cpu s ci w c ce Hdom Hci Hw Hc Hce) as [Hy|[(e' & He' & Hy & Hn)|Hn]].
  - exfalso. rewrite Hy in H. apply env_run_iret in H as [_ H]. apply Hdom in H. lia.
  - rewrite Hy in H. apply env_run_iret in H as [-> _]. destruct (Z.eq_dec e' t) as [|Hne]; [by left|right]. split; [done|]. split; [by apply Hr|].
    apply dist_closer; [apply Hdom; eauto|by apply Hr|by apply Hr|done|].
    destruct (Z.le_gt_cases (dist c e') (dist c t)) as [|Hgt]; [done|]. exfalso. by apply (Hn t).
  - exfalso. by apply (Hn t).
Qed.

(** C30: no environment starves while the others go on.  Take a stretch of calls of [sched_yield] on a CPU, each made
    while the environment chosen by the one before is still current (it yields, waits, or its time is up; an
    exit ends the stretch, since without a current environment the search starts at slot 0
    again) and each ending in user mode.  Whatever the environments do meanwhile, one that is
    runnable at every call is run before the scheduler has gone around the table: among any
    [NENV] consecutive choices it is one of them. *)
Theorem sched_yield_no_starvation {Mach : Machine} cpu t c es :
  slices cpu t c es -> 0 <= c < NENV -> 0 <= t < NENV -> t <> c -> dist c t < Z.of_nat (length es) -> t ∈ es.
Proof.
  intros H. induction H as [c|c e s s' es Hy Hr Hs H IH]; intros Hc Ht Htc Hl; [simpl in Hl; unfold dist, NENV in *; zdm|].
  destruct (yield_closer cpu s c t e s' Hy Hr Htc Hs) as [->|(Hne & He & Hd)]; [left|right].
  apply IH; try done. simpl in Hl. lia.
Qed.

(** Environment 0 waits while environment 1023 is current. *)
Definition waiting_kern : kern :=
  set_cpus {[0 := mkCpu CPU_STARTED (Some 1023) 0]}
    (set_envs (<[0 := set_env_status ENV_RUNNABLE (demo_env 0)]> demo_envs) demo_kern).

Lemma waiting_envs i : waiting_kern.(envs) !! i = if i =? 0 then Some (set_env_status ENV_RUNNABLE (demo_env 0)) else demo_envs !! i.
Proof.
  cbn [waiting_kern set_cpus set_envs envs]. destruct (Z.eqb_spec i 0) as [->|]; [by rewrite lookup_insert_eq|by rewrite lookup_insert_ne].
Qed.

Lemma waiting_yields : yielding 0 waiting_kern 1023.
Proof.
  split; [|split; [|split]].
  - intros i. rewrite waiting_envs. destruct (Z.eqb_spec i 0) as [->|]; [split; [by unfold NENV|eauto]|].
    apply (kw_dom _ _ _ _ demo_kern_wf).
  - rewrite waiting_envs. change (1023 =? 0) with false. cbv iota. rewrite demo_envs_lookup by lia. eauto.
  - by eexists.
  - exists 0. by vm_compute.
Qed.

Lemma waiting_runnable j : runnable waiting_kern j -> j = 0.
Proof.
  intros (e & He & Hst). rewrite waiting_envs in He. destruct (Z.eqb_spec j 0) as [|Hj]; [done|].
  apply demo_envs_some in He as [_ ->]. exfalso. apply demo_env_status in Hj. rewrite Hj in Hst. discriminate Hst.
Qed.

Lemma waiting_ready : runnable waiting_kern 0.
Proof. exists (set_env_status ENV_RUNNABLE (demo_env 0)). split; [exact (waiting_envs 0)|reflexivity]. Qed.

(** Leaving a current environment that does not run. *)
Lemma env_run_leaves {Mach : Machine} cpu s ci c ce e ee :
  s.(cpus) !! cpu = Some ci -> ci.(cpu_env) = Some c -> c <> e -> s.(envs) !! c = Some ce -> ce.(env_status) <> ENV_RUNNING ->
  s.(envs) !! e = Some ee -> KERNBASE <= ee.(env_pgdir) -> s.(kernel_lock) = Some cpu ->
  exists s', env_run cpu e s = (Iret e s' : outcome kern unit).
Proof.
  intros Hci Hc Hne Hce Hst He Hpg Hl. unfold env_run. mstep (by apply curenv_some). rewrite Hc, bool_decide_eq_false_2 by congruence.
  erewrite bind_ret.
  2: { mstep (mstep (by apply get_env_some); rewrite (proj2 (Z.eqb_neq _ _)) by done; reflexivity).
       mstep (unfold set_curenv, upd_cpu; rewrite Hci; reflexivity). mstep (unfold upd_env; cbn [set_cpus envs]; rewrite He; reflexivity).
       mstep (unfold get_env; cbn [set_envs envs]; rewrite lookup_insert_eq; reflexivity).
       unfold load_pgdir. mstep (unfold on_pm, zoom, PADDR; cbn [set_env_runs set_env_status env_pgdir];
         rewrite (proj2 (Z.ltb_ge _ _)) by done; reflexivity).
       unfold lcr3, upd_cpu. cbn [set_envs set_cpus set_pm cpus]. rewrite lookup_insert_eq. reflexivity. }
  mstep (unfold unlock_kernel; mstep (reflexivity); cbn [set_cpus set_envs set_pm kernel_lock]; rewrite Hl, bool_decide_eq_true_2 by done; reflexivity).
  unfold env_pop_tf. mstep (unfold curenv, get_cpu; mstep (cbn [set_cpus set_kernel_lock cpus]; rewrite lookup_insert_eq; reflexivity); reflexivity).
  cbn [cpu_env]. mstep (unfold upd_env; cbn [set_cpus set_envs set_pm set_kernel_lock envs]; rewrite lookup_insert_eq; reflexivity).
  eexists. reflexivity.
Qed.

Lemma waiting_chosen : chosen waiting_kern.(envs) 0 (Some 1023) = Some 0.
Proof.
  unfold chosen, walk. change (NENV - 1023) with 1. rewrite (seqZ_cons (1023 + 1)), (seqZ_cons 0) by lia.
  change (Z.pred 1) with 0. rewrite (seqZ_nil _ 0) by lia. cbn [app List.find]. unfold seen at 1. rewrite waiting_envs. change (1023 + 1 =? 0) with false. cbv iota.
  destruct (demo_envs !! (1023 + 1)) as [e|] eqn:E; [apply demo_envs_some in E as [E _]; lia|]. unfold seen. by rewrite waiting_envs.
Qed.

Lemma waiting_picks : sched_yield 0 waiting_kern = (env_run 0 0 waiting_kern : outcome kern unit).
Proof.
  destruct waiting_yields as (Hdom & _). unfold sched_yield. mstep (by apply (curenv_some 0 _ (mkCpu CPU_STARTED (Some 1023) 0))). cbn [cpu_env].
  mstep (apply (scan_chosen waiting_kern 0 Hdom (eq_refl _) (Some 1023)); by intros c [= <-]). by rewrite waiting_chosen.
Qed.

Lemma waiting_run : exists s', sched_yield 0 waiting_kern = (Iret 0 s' : outcome kern unit).
Proof.
  destruct waiting_yields as (Hdom & [ce Hce] & (ci & Hci & Hc) & _).
  rewrite waiting_picks. apply (env_run_leaves 0 waiting_kern ci 1023 ce 0 (set_env_status ENV_RUNNABLE (demo_env 0)));
      [exact Hci|exact Hc|lia|exact Hce| |exact (waiting_envs 0)| |reflexivity].
  - rewrite waiting_envs in Hce. change (1023 =? 0) with false in Hce. apply demo_envs_some in Hce as [_ ->]. discriminate.
  - by vm_compute.
Qed.

(** Environment 0 is picked after environment 1023 and the word past the table. *)
Lemma sched_yield_round_robin_witness :
  chosen waiting_kern.(envs) 0 (Some 1023) = Some 0 /\ sched_yield 0 waiting_kern = (env_run 0 0 waiting_kern : outcome kern unit).
Proof.
  split; [exact waiting_chosen|]. destruct waiting_yields as (Hdom & Hc & _).
  rewrite (sched_yield_round_robin (A := unit) 0 waiting_kern (mkCpu CPU_STARTED (Some 1023) 0) 0 Hdom eq_refl eq_refl).
  - cbn [cpu_env]. rewrite waiting_chosen. reflexivity.
  - intros c [= <-]. exact Hc.
Defined.

Lemma sched_yield_no_starvation_witness : exists es, slices 0 0 1023 es /\ 0 ∈ es.
Proof.
  destruct waiting_run as [s' H].
  assert (slices 0 0 1023 [0]) as Hs.
  { apply (slices_next 0 0 1023 0 waiting_kern s' []); [apply waiting_yields|apply waiting_ready|exact H|constructor]. }
  exists [0]. split; [exact Hs|]. clear H.
  apply (sched_yield_no_starvation 0 0 1023 [0] Hs); [unfold NENV; lia|unfold NENV; lia|lia|reflexivity].
Defined.
