(* ===== verification/TrapSpec.v ===== *)
(** The interrupt descriptor table that [trap_init] of [kern/trap.c] builds. *)

From S2P Require Import Prelude Mmu Mem Console E1000 Pmap PmapBoot Env Sched Syscall Trap.

Lemma trap_init_lookup_aux (handler : Z -> Z) (gs : list (Z * Z)) (idt : gmap Z Gatedesc) n :
  NoDup gs.*1 ->
  foldl (fun idt '(v, dpl) => <[v := SETGATE false GD_KT (handler v) dpl]> idt) idt gs !! n =
    match list_find (fun g : Z * Z => g.1 = n) gs with
    | Some (_, (v, dpl)) => Some (SETGATE false GD_KT (handler v) dpl)
    | None => idt !! n
    end.
Proof.
  revert idt. induction gs as [|[v dpl] gs IH]; intros idt Hnd; [done|].
  apply NoDup_cons in Hnd as [Hv Hnd]. simpl. rewrite IH by done.
  destruct (decide (v = n)) as [->|Hne].
  - simpl. destruct (list_find (fun g : Z * Z => g.1 = n) gs) as [[k [v d]]|] eqn:E.
    + apply list_find_Some in E as (E1 & E2 & _). simpl in E2. subst v.
      exfalso. apply Hv. apply list_elem_of_fmap. exists (n, d). split; [done|]. by apply list_elem_of_lookup_2 in E1.
    + apply lookup_insert_eq.
  - simpl. destruct (list_find _ gs) as [[k [v' d]]|]; simpl; [done|]. by apply lookup_insert_ne.
Qed.

(** The address a gate leads to. *)
Definition gate_off (g : Gatedesc) : Z := g.(gd_off_31_16) * 2 ^ 16 + g.(gd_off_15_0).

Lemma gate_off_SETGATE t sel off dpl : 0 <= off < 2 ^ 32 -> gate_off (SETGATE t sel off dpl) = off.
Proof.
  intros H. unfold gate_off, SETGATE. cbn [gd_off_31_16 gd_off_15_0].
  change 0xffff with (Z.ones 16). rewrite Z.land_ones, Z.shiftr_div_pow2, u32_small by lia.
  pose proof (Z.div_mod off (2 ^ 16)). lia.
Qed.

Lemma trap_gates_nodup : NoDup trap_gates.*1.
Proof. apply (bool_decide_unpack _). by vm_compute. Qed.

(** After [trap_init], a user program can enter the kernel with an [int] instruction only
    through the breakpoint and system call vectors: every other gate it could name is
    absent or reserved to the kernel. *)
Theorem trap_init_user_gates handler idt n :
  (forall v g, idt !! v = Some g -> g.(gd_p) = 0) ->
  int_allowed (trap_init handler idt) 3 n = true <-> n = T_BRKPT \/ n = T_SYSCALL.
Proof.
  intros Hidt. unfold int_allowed, trap_init. rewrite trap_init_lookup_aux by apply trap_gates_nodup.
  destruct (list_find (fun g : Z * Z => g.1 = n) trap_gates) as [[k [v d]]|] eqn:E.
  - apply list_find_Some in E as (E1 & <- & _). cbn [gd_p gd_dpl SETGATE fst]. cbn [Z.eqb andb].
    apply list_elem_of_lookup_2 in E1. unfold trap_gates in E1.
    repeat (apply elem_of_cons in E1 as [[= -> ->]|E1]; [split; [vm_compute; (discriminate || (intros _; by auto))|intros [H|H]; (discriminate H || by vm_compute)]|]).
    by apply elem_of_nil in E1.
  - apply list_find_None in E. rewrite Forall_forall in E. split.
    + destruct (idt !! n) as [g|] eqn:Hg; [|done]. by rewrite (Hidt n g Hg).
    + intros H. exfalso. destruct H as [->| ->].
      * by apply (E (T_BRKPT, 3)); [apply (bool_decide_unpack _); by vm_compute|].
      * by apply (E (T_SYSCALL, 3)); [apply (bool_decide_unpack _); by vm_compute|].
Qed.

Lemma trap_init_user_gates_witness : int_allowed (trap_init (fun v => 16 * v) ∅) 3 T_PGFLT <> true.
Proof.
  intros H. apply trap_init_user_gates in H as [H|H]; [discriminate H|discriminate H|].
  intros v g Hg. by apply lookup_empty_Some in Hg.
Defined.

(** Every vector [trap_init] installs leads to its own entry point in the kernel's code
    segment through a present gate, and no other entry of the table changes. *)
Theorem trap_init_targets handler idt n :
  (forall v, 0 <= handler v < 2 ^ 32) ->
  match (trap_init handler idt) !! n with
  | Some g => ((n ∈ trap_gates.*1) /\ gate_off g = handler n /\ g.(gd_sel) = GD_KT /\ g.(gd_p) = 1 /\
               g.(gd_type) = STS_IG32) \/ ((n ∉ trap_gates.*1) /\ idt !! n = Some g)
  | None => (n ∉ trap_gates.*1) /\ idt !! n = None
  end.
Proof.
  intros Hh. unfold trap_init. rewrite trap_init_lookup_aux by apply trap_gates_nodup.
  destruct (list_find (fun g : Z * Z => g.1 = n) trap_gates) as [[k [v d]]|] eqn:E.
  - apply list_find_Some in E as (E1 & <- & _). left. cbn [fst].
    split; [|by rewrite gate_off_SETGATE].
    apply list_elem_of_fmap. exists (v, d). split; [done|]. by apply list_elem_of_lookup_2 in E1.
  - assert (n ∉ trap_gates.*1) as Hn.
    { intros H. apply list_elem_of_fmap in H as (g & -> & Hg). apply list_find_None in E.
      rewrite Forall_forall in E. by apply (E g). }
    destruct (idt !! n) as [g|]; [by right|done].
Qed.

Lemma trap_init_targets_witness :
  exists g, trap_init (fun v => 0xf0100000) ∅ !! T_SYSCALL = Some g /\ gate_off g = 0xf0100000.
Proof.
  pose proof (trap_init_targets (fun v => 0xf0100000) ∅ T_SYSCALL ltac:(lia)) as H.
  destruct (trap_init _ ∅ !! T_SYSCALL) as [g|] eqn:E; [|by vm_compute in E].
  destruct H as [(_ & H & _)|[_ H]]; [by exists g|by vm_compute in H].
Defined.
