(* ===== verification/KernSafe.v ===== *)
(** Every operation of the kernel, as it is entered from a trap, keeps the kernel's invariant:
    the scheduler, the destruction of environments, the user pointer checks and the system
    calls.

    [ends C P o] describes the end [o] of an operation: it returns to its caller with [P], it
    leaves for user mode or halts the CPU in a state fit for the next trap, or it stops the
    machine in a panic or the monitor, which does not return.  Any other end, an access
    through a bad pointer or a loop that does not stop, happens only where [C] allows it, or
    in the scheduler when the word past the table of environments reads [ENV_RUNNABLE]. *)

From stdpp Require Import gmap.
From S2P Require Import Prelude Mmu Mem Console E1000 Pmap PmapBoot Env Sched Syscall Trap.
From S2P Require Import PmapAlloc PmapVm PmapRefs EnvMem EnvSetup UserRep KernInv SysMem SysIpc SysEnv UserMem SchedSpec.

(** An environment in use returns to user mode, and an environment that waits for a message
    has an address for its page. *)
Definition env_ok (e : Env) : Prop :=
  (e.(env_status) <> ENV_FREE -> Z.land e.(env_tf).(tf_cs) 3 = 3) /\ (e.(env_ipc_recving) = true -> 0 <= e.(env_ipc_dstva)).

Definition envs_ok (es : gmap Z Env) : Prop := map_Forall (fun _ => env_ok) es.

Lemma envs_ok_insert es i e : envs_ok es -> env_ok e -> envs_ok (<[i := e]> es).
Proof. intros H He. by apply map_Forall_insert_2. Qed.

Definition live (s : kern) (i : Z) : Prop := exists e, s.(envs) !! i = Some e /\ e.(env_status) <> ENV_FREE.

Lemma live_space s W l fl i : kern_wf s W l fl -> live s i -> exists a, W !! i = Some a.
Proof.
  intros Hw (e & Hi & Hst). pose proof (kw_space _ _ _ _ Hw i e Hi) as H. destruct (W !! i) as [a|]; [by exists a|done].
Qed.

Lemma space_live s W l fl i a : kern_wf s W l fl -> W !! i = Some a -> live s i.
Proof.
  intros Hw Hi. destruct (proj2 (kw_dom _ _ _ _ Hw i) (kw_spaces _ _ _ _ Hw i a Hi)) as [e He]. exists e. split; [done|].
  pose proof (kw_space _ _ _ _ Hw i e He) as H. rewrite Hi in H. apply H.
Qed.

(** The invariant looks at memory and at the table of environments only. *)
Lemma kern_wf_ext s s' W l fl :
  kern_wf s W l fl -> s'.(pm) = s.(pm) -> s'.(envs) = s.(envs) -> s'.(env_free_list) = s.(env_free_list) -> kern_wf s' W l fl.
Proof. intros [] Hp He Hf. split; rewrite ?Hp, ?He, ?Hf; done. Qed.

(** ** The console and the network card *)

(** Console operations keep the input buffer in shape and do not leave the kernel ... *)
Definition keeps_ring {A} (m : M console A) : Prop :=
  forall s, ring_wf s -> match m s with Ret _ s' => ring_wf s' | Iret _ _ | Halt _ | Monitor _ => False | _ => True end.

(** ... and input returns. *)
Definition runs_ring {A} (m : M console A) : Prop := forall s, ring_wf s -> exists x s', m s = Ret x s' /\ ring_wf s'.

Lemma keep_bind {A B} (m : M console A) (f : A -> M console B) : keeps_ring m -> (forall x, keeps_ring (f x)) -> keeps_ring (bind m f).
Proof. intros Hm Hf s Hs. unfold bind. specialize (Hm s Hs). destruct (m s); try done. by apply Hf. Qed.

Lemma keep_ret {A} (x : A) : keeps_ring (ret x).
Proof. by intros s. Qed.

Lemma keep_gets {A} (f : console -> A) : keeps_ring (gets f).
Proof. by intros s. Qed.

Lemma keep_modify f : (forall s, ring_wf s -> ring_wf (f s)) -> keeps_ring (modify f).
Proof. intros H s. apply H. Qed.

Lemma keep_crt_store i v : keeps_ring (crt_store i v).
Proof. intros s []. unfold crt_store. by destruct (_ && _). Qed.

Create HintDb ring.
#[export] Hint Resolve keep_ret keep_gets keep_crt_store : ring.

Ltac keep_ring :=
  repeat match goal with
  | |- keeps_ring (bind _ _) => apply keep_bind; [|intros ?]
  | |- keeps_ring (if ?b then _ else _) => destruct b
  | |- keeps_ring (modify _) => apply keep_modify; intros ? []; by split
  | |- keeps_ring _ => solve [auto with ring nocore]
  | |- keeps_ring _ => progress cbv zeta
  end.

Lemma cputchar_keeps c : keeps_ring (cputchar c).
Proof. unfold cputchar, cons_putc, cga_putc, cons_plain, cga_char, crt_scroll, serial_putc, lpt_putc, set_pos. keep_ring. Qed.

(** [cons_intr] takes the characters of a device one by one. *)
Lemma cons_intr_runs (queue : console -> list Z) proc :
  (forall s, ring_wf s -> exists c s', proc s = Ret c s' /\ ring_wf s' /\
     match queue s with [] => c = -1 | _ :: q => queue s' = q end) ->
  (forall c s, queue (pushed c s) = queue s) ->
  forall s, ring_wf s -> exists s', cons_intr (S (length (queue s))) proc s = Ret tt s' /\ ring_wf s'.
Proof.
  intros Hp Hq s. remember (queue s) as q eqn:E. revert s E. induction q as [|b q IH]; intros s E Hs; cbn [cons_intr length];
    destruct (Hp s Hs) as (c & s1 & Er & Hs1 & Hc); rewrite <- E in Hc; mstep (exact Er); [subst c; by exists s1|].
  destruct (Z.eqb_spec c (-1)); [by exists s1|]. destruct (Z.eqb_spec c 0); [by apply IH|].
  mstep (by apply cons_push_run). apply IH; [by rewrite Hq|by apply pushed_wf].
Qed.

Lemma serial_runs : runs_ring serial_intr.
Proof.
  intros s Hs. unfold serial_intr. mstep reflexivity. mstep reflexivity. destruct s.(serial_exists); [|by eexists _, s].
  destruct (cons_intr_runs serial_in serial_proc_data) with (s := s) as (s' & E & Hs'); try done; [|by eexists _, s'].
  intros s0 [H1 H2 H3]. unfold serial_proc_data. destruct s0.(serial_in) as [|b q]; eexists _, _; (split; [reflexivity|]); (split; [by split|done]).
Qed.

Lemma kbd_runs : runs_ring kbd_intr.
Proof.
  intros s Hs. unfold kbd_intr. mstep reflexivity.
  destruct (cons_intr_runs kbd_in kbd_proc_data) with (s := s) as (s' & E & Hs'); try done; [|by eexists _, s'].
  intros s0 [H1 H2 H3]. unfold kbd_proc_data. destruct s0.(kbd_in) as [|b q].
  { eexists _, _. split; [reflexivity|]. split; [by split|done]. }
  destruct (_ =? 0xE0); [|destruct (nonzero _); [|destruct (if nonzero _ then _ else _)]]; eexists _, _; (split; [reflexivity|]); (split; [by split|done]).
Qed.

Lemma cons_getc_runs : runs_ring cons_getc.
Proof.
  intros s Hs. unfold cons_getc. destruct (serial_runs s Hs) as (x1 & s1 & E1 & Hs1). mstep (exact E1).
  destruct (kbd_runs s1 Hs1) as (x2 & s2 & E2 & Hs2). mstep (exact E2). mstep reflexivity. destruct (_ =? _); [by eexists _, s2|].
  destruct Hs2 as [H1 H2 H3]. destruct (lookup_lt_is_Some_2 s2.(cbuf) (Z.to_nat s2.(rpos)) ltac:(lia)) as [c Ec].
  change (id s2) with s2. rewrite Ec. eexists _, _. split; [reflexivity|]. split; cbn; [done| |done].
  unfold CONSBUFSIZE. rewrite u32_small by lia. destruct (Z.eqb_spec (s2.(rpos) + 1) 512); lia.
Qed.

(** The network card does not leave the kernel. *)
Definition comes_back {S A} (m : M S A) : Prop :=
  forall s, match m s with Iret _ _ | Halt _ | Monitor _ => False | _ => True end.

Lemma transmit_back bs : comes_back (e1000_transmit bs).
Proof. intros s. unfold e1000_transmit. repeat case_match; by simplify_eq. Qed.

(** The word the scheduler reads behind the last environment is not [ENV_RUNNABLE]. *)
Definition past_ok (p : pmap) : Prop :=
  exists w, kload32 (p.(envs_va) + sizeof_Env * NENV + off_env_status) p = Ret w p /\ w <> ENV_RUNNABLE.

Section Safe.
Context {Mach : Machine} (cpu : Z) (C : Prop).
Hypothesis uninit_nonzero : forall pgdir va, uninit_ptep pgdir va <> 0.

(** The state of the kernel with [cur] current on this CPU, in its own address space, and the
    kernel lock as [lk]. *)
Record at_cpu (lk cur : option Z) (s : kern) (W : gmap Z aspace) (l fl : list Z) (ci : CpuInfo) : Prop := {
  ac_wf : kern_wf s W l fl;
  ac_envs : envs_ok s.(envs);
  ac_cpu : s.(cpus) !! cpu = Some ci;
  ac_cur : ci.(cpu_env) = cur;
  ac_cr3 : forall c, cur = Some c -> exists a, W !! c = Some a /\ ci.(cpu_cr3) = a.(as_dir) * PGSIZE;
  ac_lock : s.(kernel_lock) = lk;
}.

(** With the input buffer of the console in shape. *)
Record fit (lk cur : option Z) (s : kern) (W : gmap Z aspace) (l fl : list Z) (ci : CpuInfo) : Prop := {
  ft_at :> at_cpu lk cur s W l fl ci;
  ft_ring : ring_wf s.(cons);
}.

Definition kernel (cur : option Z) (s : kern) : Prop := exists W l fl ci, fit (Some cpu) cur s W l fl ci.
Definition user_mode (e : Z) (s : kern) : Prop := exists W l fl ci, fit None (Some e) s W l fl ci.
Definition halted (s : kern) : Prop := exists W l fl ci, fit None None s W l fl ci /\ ci.(cpu_status) = CPU_HALTED /\
  page_kva (ci.(cpu_cr3) / PGSIZE) = s.(pm).(kern_pgdir).

Definition ends {A} (P : A -> kern -> Prop) (o : outcome kern A) : Prop :=
  match o with
  | Ret x s => P x s
  | Iret e s => user_mode e s
  | Halt s => halted s
  | Panic _ | Monitor _ => True
  | Wild s => C \/ ~ past_ok s.(pm)
  | Fuel => C
  end.

Lemma ends_bind {A B} (P : A -> kern -> Prop) (Q : B -> kern -> Prop) (m : M kern A) (f : A -> M kern B) s :
  ends P (m s) -> (forall x s', P x s' -> ends Q (f x s')) -> ends Q (bind m f s).
Proof. unfold bind. destruct (m s); cbn; auto. Qed.

Lemma ends_mono {A} (P Q : A -> kern -> Prop) (o : outcome kern A) :
  ends P o -> (forall x s, P x s -> Q x s) -> ends Q o.
Proof. destruct o; cbn; auto. Qed.

(** Code that does not come back. *)
Definition gone {A} : A -> kern -> Prop := fun _ _ => False.

Lemma ends_gone {A B} (Q : B -> kern -> Prop) (m : M kern A) (f : A -> M kern B) s : ends gone (m s) -> ends Q (bind m f s).
Proof. intros H. apply (ends_bind _ _ _ _ _ H). by intros x s'. Qed.

(** ** Small steps *)

Lemma fit_ext lk cur s s' W l fl ci :
  fit lk cur s W l fl ci -> s'.(pm) = s.(pm) -> s'.(envs) = s.(envs) -> s'.(env_free_list) = s.(env_free_list) ->
  s'.(cpus) = s.(cpus) -> s'.(kernel_lock) = s.(kernel_lock) -> (ring_wf s.(cons) -> ring_wf s'.(cons)) -> fit lk cur s' W l fl ci.
Proof.
  intros [[Hw He Hci Hc Hcr Hl] Hg] E1 E2 E3 E4 E5 E6.
  split; [split; [by apply (kern_wf_ext s)|by rewrite E2|by rewrite E4|done|done|by rewrite E5]|by apply E6].
Qed.

Lemma kernel_ext cur s s' :
  kernel cur s -> s'.(pm) = s.(pm) -> s'.(envs) = s.(envs) -> s'.(env_free_list) = s.(env_free_list) ->
  s'.(cpus) = s.(cpus) -> s'.(kernel_lock) = s.(kernel_lock) -> (ring_wf s.(cons) -> ring_wf s'.(cons)) -> kernel cur s'.
Proof. intros (W & l & fl & ci & H) E1 E2 E3 E4 E5 E6. exists W, l, fl, ci. by apply (fit_ext _ _ s). Qed.

Lemma kernel_ring cur s : kernel cur s -> ring_wf s.(cons).
Proof. intros (W & l & fl & ci & H). apply H. Qed.

(** The console and the network card are apart. *)
Lemma on_cons_runs {A} cur s (m : M console A) : runs_ring m -> kernel cur s -> ends (fun _ => kernel cur) (on_cons m s).
Proof.
  intros Hb H. unfold on_cons, zoom. destruct (Hb s.(cons) (kernel_ring cur s H)) as (x & c & -> & Hc). cbn. by apply (kernel_ext _ s).
Qed.

Lemma on_cons_ends {A} cur s (m : M console A) : C -> keeps_ring m -> kernel cur s -> ends (fun _ => kernel cur) (on_cons m s).
Proof.
  intros HC Hb H. unfold on_cons, zoom. specialize (Hb s.(cons) (kernel_ring cur s H)). destruct (m s.(cons)); cbn; try done; [by apply (kernel_ext _ s)|by left].
Qed.

Lemma on_nic_ends {A} cur s (m : M nic A) : C -> comes_back m -> kernel cur s -> ends (fun _ => kernel cur) (on_nic m s).
Proof.
  intros HC Hb H. unfold on_nic, zoom. specialize (Hb s.(e1000)). destruct (m s.(e1000)); cbn; try done; [by apply (kernel_ext _ s)|by left].
Qed.

(** Reading memory. *)
Definition reads {A} (m : M pmap A) : Prop :=
  forall p, match m p with Ret _ p' => p' = p | Iret _ _ | Halt _ | Monitor _ => False | _ => True end.

Lemma on_pm_reads {A} (m : M pmap A) s (P : kern -> Prop) :
  C -> reads m -> P s -> ends (fun x s' => P s' /\ s' = s /\ m s.(pm) = Ret x s.(pm)) (on_pm m s).
Proof.
  intros HC Hr Hp. unfold on_pm, zoom. specialize (Hr s.(pm)). destruct (m s.(pm)); cbn; try done; [subst; by rewrite set_pm_id|by left].
Qed.

Lemma vget_reads cr3 va n : reads (vget cr3 va n).
Proof.
  revert va. induction n as [|n IH]; intros va p; cbn; [done|]. destruct (mmu_translate _ _ _ _ _); [|done]. unfold bind. specialize (IH (u32 (va + 1)) p).
  by destruct (vget _ _ _ _).
Qed.

Lemma kernel_dom cur s i : kernel cur s -> 0 <= i < NENV -> exists e, s.(envs) !! i = Some e.
Proof. intros (W & l & fl & ci & H) Hi. apply (kw_dom _ _ _ _ (ac_wf _ _ _ _ _ _ _ H)) in Hi as [e He]. by exists e. Qed.

Lemma curenv_ends cur s : kernel cur s -> curenv cpu s = Ret cur s.
Proof. intros (W & l & fl & ci & [[] ?]). rewrite (curenv_some cpu s ci) by done. congruence. Qed.

Lemma get_cpu_ends cur s : kernel cur s -> exists ci, get_cpu cpu s = Ret ci s /\ s.(cpus) !! cpu = Some ci.
Proof. intros (W & l & fl & ci & H). exists ci. unfold get_cpu. by rewrite (ac_cpu _ _ _ _ _ _ _ H). Qed.

(** Changing a live environment. *)
Lemma kernel_upd cur s i e e' :
  kernel cur s -> s.(envs) !! i = Some e -> e.(env_status) <> ENV_FREE -> e'.(env_status) <> ENV_FREE ->
  e'.(env_id) = e.(env_id) -> e'.(env_pgdir) = e.(env_pgdir) -> env_ok e' ->
  kernel cur (set_envs (<[i := e']> s.(envs)) s).
Proof.
  intros (W & l & fl & ci & [[Hw He Hci Hc Hcr Hl] Hg]) Hi Hs Hs' Hid Hpg Hok. exists W, l, fl, ci.
  split; [split; [by apply (kw_upd_env s W l fl i e)|by apply envs_ok_insert|done|done|done|done]|done].
Qed.

Lemma kernel_cur c s : kernel (Some c) s -> live s c.
Proof.
  intros (W & l & fl & ci & H). destruct (ac_cr3 _ _ _ _ _ _ _ H c eq_refl) as (a & Ha & _). exact (space_live s W l fl c a (ac_wf _ _ _ _ _ _ _ H) Ha).
Qed.

Lemma kernel_env_ok cur s i e : kernel cur s -> s.(envs) !! i = Some e -> env_ok e.
Proof. intros (W & l & fl & ci & H) Hi. by apply (ac_envs _ _ _ _ _ _ _ H i e). Qed.

(** ** The scheduler *)

Lemma env_run_ends {A} cur s e : kernel cur s -> live s e -> ends gone (env_run cpu e s : outcome kern A).
Proof.
  intros (W & l & fl & ci & [[Hw He Hci Hc Hcr Hl] Hg]) Hlive. destruct (live_space s W l fl e Hw Hlive) as [a Ha].
  destruct Hlive as (ee & Hee & Hst). destruct (decide (cur = Some e)) as [->|Hne].
  - unfold env_run. mstep (by apply curenv_some). rewrite Hc, bool_decide_eq_true_2 by done. mstep reflexivity.
    unfold unlock_kernel. mstep (munfold; simpl; rewrite Hl, bool_decide_eq_true_2 by done; reflexivity).
    unfold env_pop_tf. mstep (by apply curenv_some). rewrite Hc. mstep (by apply upd_env_some). cbn. exists W, l, fl, ci.
    split; [split|]; try done; [|apply envs_ok_insert; [done|exact (He e ee Hee)]].
    apply (kern_wf_ext (set_envs (<[e := set_env_cpunum cpu ee]> s.(envs)) s)); try done. by apply (kw_upd_env s W l fl e ee).
  - destruct (env_run_ok (A := A) cpu s W l fl ci e ee a Hw Hci ltac:(congruence)) as (s' & -> & Hw' & He' & Hc' & Hl' & _ & Eg); try done.
    { intros c Hcc. rewrite Hc in Hcc. destruct (Hcr c Hcc) as (b & Hb & _). by apply (kw_spaces _ _ _ _ Hw c b). }
    cbn. eexists W, l, fl, _. split; [split; [done| |by rewrite Hc', lookup_insert_eq|done| |done]|by rewrite Eg].
    + rewrite He'. assert (env_ok ee) as [Ho1 Ho2] by exact (He e ee Hee). apply envs_ok_insert; [|split; [intros _; by apply Ho1|done]].
      unfold put_back. destruct ci.(cpu_env) as [c|]; [|done]. destruct (s.(envs) !! c) as [ce|] eqn:Hce; [|done].
      destruct (Z.eqb_spec ce.(env_status) ENV_RUNNING) as [E|]; [|done]. destruct (He c ce Hce) as [Hx1 Hx2].
      apply envs_ok_insert; [done|]. split; [intros _; apply Hx1; by rewrite E|done].
    + intros x [= <-]. by exists a.
Qed.

Lemma any_live_runs cur n i s : kernel cur s -> 0 <= i -> i + Z.of_nat n <= NENV -> exists b, any_live n i s = Ret b s.
Proof.
  intros HK. revert i. induction n as [|n IH]; intros i Hi Hn; cbn [any_live]; [by eexists|].
  destruct (kernel_dom cur s i HK ltac:(lia)) as [e He]. mstep (by apply get_env_some). case_match; [by eexists|apply IH; lia].
Qed.

Lemma sched_halt_ends {A} cur s : kernel cur s -> ends gone (sched_halt cpu s : outcome kern A).
Proof.
  intros HK. unfold sched_halt. destruct (any_live_runs cur (Z.to_nat NENV) 0 s HK) as [b Hb]; [lia|by vm_compute|]. mstep (exact Hb). destruct b; cbn [negb]; [|done].
  destruct HK as (W & l & fl & ci & [[Hw He Hci Hc Hcr Hl] Hg]). destruct (kw_kern _ _ _ _ Hw) as (kp & Hkd & Hkp & _).
  pose proof (kw_npages _ _ _ _ Hw) as Hn.
  mstep (unfold set_curenv, upd_cpu; rewrite Hci; reflexivity). mstep (apply on_pm_pure; reflexivity). cbn [set_cpus pm]. rewrite Hkd.
  mstep (apply (load_pgdir_ok cpu _ (mkCpu ci.(cpu_status) None ci.(cpu_cr3))); [apply lookup_insert_eq|lia]).
  mstep (unfold upd_cpu, loaded; cbn [set_cpus cpus]; rewrite lookup_insert_eq; reflexivity).
  mstep (unfold unlock_kernel; munfold; simpl; rewrite Hl, bool_decide_eq_true_2 by done; reflexivity). cbn.
  exists W, l, fl, (mkCpu CPU_HALTED None (kp * PGSIZE)). split; [|split; [done|cbn; rewrite Hkd; by rewrite Z.div_mul]].
  split; [split; [by apply (kern_wf_ext s)|done|cbn; apply lookup_insert_eq|done|done|done]|done].
Qed.

Lemma status_at_ends cur i s :
  kernel cur s -> 0 <= i <= NENV ->
  ends (fun st s' => s' = s /\ (i < NENV -> exists e, s.(envs) !! i = Some e /\ e.(env_status) = st) /\
    (NENV <= i -> st = ENV_RUNNABLE -> ~ past_ok s.(pm))) (status_at i s).
Proof.
  intros HK Hi. unfold status_at. destruct (Z.ltb_spec i NENV).
  - destruct (kernel_dom cur s i HK ltac:(lia)) as [e He]. mstep (by apply get_env_some). cbn. split; [done|]. split; [by exists e|lia].
  - assert (i = NENV) as -> by lia. unfold on_pm, zoom, past_ok, bind, gets, kload32. cbv beta iota. destruct (_ <? KERNBASE) eqn:E; cbv beta iota; cbn [ends].
    + right. intros (w & Hk & _). cbn [set_pm pm] in Hk. unfold kload32 in Hk. by rewrite E in Hk.
    + rewrite set_pm_id. split; [done|]. split; [lia|]. intros _ Hw (w & [= <-] & Hne). by apply Hne.
Qed.

Lemma sched_scan_ends cur n idle s :
  kernel cur s -> 0 <= idle <= NENV ->
  ends (fun r s' => s' = s /\ match r with Some e => (e < NENV -> live s e) /\ (NENV <= e -> ~ past_ok s.(pm)) | None => True end) (sched_scan n idle s).
Proof.
  intros HK. revert idle. induction n as [|n IH]; intros idle Hi; cbn [sched_scan]; [done|]. apply (ends_bind _ _ _ _ _ (status_at_ends cur idle s HK Hi)).
  intros st s' (-> & Hst & Hp). destruct (Z.eqb_spec st ENV_RUNNABLE) as [->|]; [|apply IH; destruct (Z.leb_spec NENV idle); lia]. cbn. split; [done|]. split; [|auto].
  intros Hlt. destruct (Hst Hlt) as (e & He & E). exists e. by rewrite E.
Qed.

Lemma env_run_past {A} cur s e : kernel cur s -> NENV <= e -> ~ past_ok s.(pm) -> ends gone (env_run cpu e s : outcome kern A).
Proof.
  intros HK Hge Hp. pose proof HK as (W & l & fl & ci & [[Hw He Hci Hc Hcr Hl] Hg]). unfold env_run. mstep (by apply curenv_some). rewrite Hc.
  assert (s.(envs) !! e = None) as Hno.
  { destruct (s.(envs) !! e) eqn:E; [|done]. assert (0 <= e < NENV) by (apply (kw_dom _ _ _ _ Hw); eauto). lia. }
  rewrite bool_decide_eq_false_2. 2:{ intros ->. destruct (Hcr e eq_refl) as (a & Ha & _). pose proof (kw_spaces _ _ _ _ Hw e a Ha). lia. }
  apply ends_gone. apply (ends_bind (fun _ s' => s'.(envs) !! e = None /\ s'.(pm) = s.(pm) /\ s'.(cpus) = s.(cpus))).
  { destruct cur as [c|]; [|done]. destruct (kernel_cur c s HK) as (ce & Hce & _). mstep (by apply get_env_some).
    destruct (_ =? _); [|done]. rewrite (upd_env_some s c ce _ Hce). cbn. split; [|done]. rewrite lookup_insert_ne; [done|]. intros ->. congruence. }
  intros _ s' (Hno' & Epm & Ecpu). mstep (unfold set_curenv, upd_cpu; rewrite Ecpu, Hci; reflexivity).
  apply ends_gone. unfold upd_env. cbn [set_cpus envs]. rewrite Hno'. right. cbn. by rewrite Epm.
Qed.

Lemma sched_yield_ends {A} cur s : kernel cur s -> ends gone (sched_yield cpu s : outcome kern A).
Proof.
  intros HK. unfold sched_yield. mstep (by apply curenv_ends).
  assert (0 <= match cur with None => 0 | Some c => c + 1 end <= NENV) as Hi.
  { destruct cur as [c|]; [|done]. destruct HK as (W & l & fl & ci & H). destruct (ac_cr3 _ _ _ _ _ _ _ H c eq_refl) as (a & Ha & _).
    pose proof (kw_spaces _ _ _ _ (ac_wf _ _ _ _ _ _ _ H) c a Ha). lia. }
  apply (ends_bind _ _ _ _ _ (sched_scan_ends cur _ _ s HK Hi)). intros r s' [-> Hr]. destruct r as [e|].
  { destruct Hr as [Hr1 Hr2]. destruct (Z.lt_ge_cases e NENV) as [Hlt|Hge]; [apply (env_run_ends cur); auto|apply (env_run_past cur); auto]. }
  destruct cur as [c|]; [|mstep reflexivity; by apply (sched_halt_ends None)].
  destruct (kernel_cur c s HK) as (ce & Hce & Hst). mstep (mstep (by apply get_env_some); reflexivity).
  destruct (_ =? _); [|by apply (sched_halt_ends (Some c))]. apply (env_run_ends (Some c)); [done|]. by exists ce.
Qed.

(** ** Destroying environments *)

Lemma freed_ok fl e : env_ok e -> env_ok (freed_env fl e).
Proof. intros [_ H]. by split. Qed.

Lemma free_current {A} c s : kernel (Some c) s -> ends gone ((env_free cpu c ;;; set_curenv cpu None ;;; sched_yield cpu) s : outcome kern A).
Proof.
  intros (W & l & fl & ci & [[Hw He Hci Hc Hcr Hl] Hg]). destruct (Hcr c eq_refl) as (a & Ha & Hcr3).
  destruct (space_live s W l fl c a Hw Ha) as (e & Hee & Hst). destruct (kw_kern _ _ _ _ Hw) as (kp & Hkd & Hkp & _).
  destruct (env_free_ok uninit_nonzero cpu s W l fl ci c a e kp Hw Hci Ha Hee Hkd Hkp) as (p' & l' & Hrun & Hw' & _).
  mstep (exact Hrun). set (s1 := with_env _ _ _ _ _) in *.
  assert (exists ci1, s1.(cpus) !! cpu = Some ci1) as [ci1 Hci1].
  { subst s1. unfold left_space. rewrite Hc, bool_decide_eq_true_2 by done. cbn. rewrite lookup_insert_eq. by eexists. }
  mstep (unfold set_curenv, upd_cpu; rewrite Hci1; reflexivity). apply (sched_yield_ends None).
  exists (delete c W), l', (c :: fl), (mkCpu ci1.(cpu_status) None ci1.(cpu_cr3)).
  split; [split; [by apply kw_set_cpus| |apply lookup_insert_eq|done|done|]|].
  - subst s1. unfold left_space. rewrite Hc, bool_decide_eq_true_2 by done. cbn. apply envs_ok_insert; [done|]. apply freed_ok. exact (He c e Hee).
  - subst s1. unfold left_space. by rewrite Hc, bool_decide_eq_true_2 by done.
  - subst s1. unfold left_space. by rewrite Hc, bool_decide_eq_true_2 by done.
Qed.

Lemma free_other cur s e : kernel cur s -> live s e -> cur <> Some e -> ends (fun _ => kernel cur) (env_free cpu e s).
Proof.
  intros (W & l & fl & ci & [[Hw He Hci Hc Hcr Hl] Hg]) Hlive Hne. destruct (live_space s W l fl e Hw Hlive) as [a Ha].
  destruct Hlive as (ee & Hee & Hst). destruct (kw_kern _ _ _ _ Hw) as (kp & Hkd & Hkp & _).
  destruct (env_free_ok uninit_nonzero cpu s W l fl ci e a ee kp Hw Hci Ha Hee Hkd Hkp) as (p' & l' & -> & Hw' & _).
  unfold left_space in *. rewrite bool_decide_eq_false_2 in * by congruence. cbn. exists (delete e W), l', (e :: fl), ci.
  split; [split; [exact Hw'|apply envs_ok_insert; [done|]; apply freed_ok; exact (He e ee Hee)|done|done| |done]|done].
  intros c Hcc. destruct (Hcr c Hcc) as (b & Hb & Hx). exists b. split; [|done]. rewrite lookup_delete_ne; [done|]. congruence.
Qed.

Lemma env_destroy_ends cur s e : kernel cur s -> live s e -> ends (fun _ => kernel cur) (env_destroy cpu e s).
Proof.
  intros HK Hlive. pose proof Hlive as (ee & Hee & Hst). unfold env_destroy. mstep (by apply curenv_ends). mstep (by apply get_env_some).
  destruct ((_ =? _) && _) eqn:E.
  - apply andb_true_iff in E as [_ E]. rewrite (upd_env_some s e ee _ Hee). cbn. apply (kernel_upd cur s e ee); try done.
    destruct (kernel_env_ok cur s e ee HK Hee) as [H1 H2]. split; [intros _; by apply H1|done].
  - destruct (decide (cur = Some e)) as [->|Hne].
    + rewrite bool_decide_eq_true_2 by done. by apply (ends_mono gone); [apply free_current|intros [] ?].
    + rewrite bool_decide_eq_false_2 by done. apply (ends_bind _ _ _ _ _ (free_other cur s e HK Hlive Hne)). by intros [] s'.
Qed.

(** ** User pointers *)

Lemma walk_reads pgdir va : reads (pgdir_walk pgdir va 0).
Proof.
  intros p. unfold pgdir_walk, kload32, KADDR. munfold. change (0 =? 0) with true. cbv iota.
  repeat (case_match; try done); by simplify_eq.
Qed.

Definition checks (o : outcome pmap Z) (p : pmap) : Prop :=
  match o with
  | Ret r p' => r = 0 /\ p' = p \/ r = - E_FAULT /\ exists b, p' = set_user_mem_check_addr b p
  | Iret _ _ | Halt _ | Monitor _ => False
  | _ => True
  end.

Lemma check_loop_checks fuel pgdir x hi perm p : checks (user_mem_check_loop fuel pgdir x hi perm p) p.
Proof.
  revert x. induction fuel as [|fuel IH]; intros x; [done|]. unfold checks. cbn [user_mem_check_loop]. destruct (x <? hi); [|by left].
  destruct (ULIM <=? x); [right; split; [done|by eexists]|]. unfold bind at 1. pose proof (walk_reads pgdir x p) as Hw.
  destruct (pgdir_walk pgdir x 0 p) as [[pte|] p1|p1|p1|e p1|p1|p1|]; try done; subst p1.
  - unfold bind, kload32. destruct (_ <? KERNBASE); [done|]. cbn [ret]. destruct (bits_set _ _); [apply IH|]. right. split; [done|by eexists].
  - right. split; [done|by eexists].
Qed.

Lemma kernel_set_addr cur s b : kernel cur s -> kernel cur (set_pm (set_user_mem_check_addr b s.(pm)) s).
Proof.
  intros (W & l & fl & ci & [[Hw He Hci Hc Hcr Hl] Hg]). exists W, l, fl, ci. split; [split|]; try done.
  pose proof (kw_vm _ _ _ _ Hw) as [Ha Hrep Hdj Hmp Href]. apply (kw_set_pm s W l fl); try done.
  - split; try done; [by destruct Ha|]. intros i a Hi. destruct (Hrep i a Hi). by split.
  - intros i a Hi. by exists a.
  - intros i a Hi. destruct (kw_rep _ _ _ _ Hw i a Hi). by split.
Qed.

(** A check that is refused ends the environment. *)
Lemma user_mem_assert_with c s ce va len perm :
  kernel (Some c) s -> s.(envs) !! c = Some ce ->
  (let o := user_mem_check ce.(env_pgdir) va len (Z.lor perm PTE_U) s.(pm) in
   checks o s.(pm) /\ (C \/ match o with Wild _ | Fuel => False | _ => True end)) ->
  ends (fun _ s' => s' = s /\ user_mem_check ce.(env_pgdir) va len (Z.lor perm PTE_U) s.(pm) = Ret 0 s.(pm))
    (user_mem_assert cpu c va len perm s).
Proof.
  intros HK Hce [H HC]. unfold user_mem_assert. mstep (by apply get_env_some). unfold bind, on_pm, zoom.
  destruct (user_mem_check _ _ _ _ s.(pm)) as [r p'|p'|p'|e p'|p'|p'|] eqn:E; cbn in *; try done; [|left; tauto|tauto].
  destruct H as [[-> ->]|[-> [b ->]]].
  - change (0 <? 0) with false. cbn. by rewrite set_pm_id.
  - change (- E_FAULT <? 0) with true. cbv iota. unfold env_destroy. mstep (apply curenv_ends; by apply kernel_set_addr).
    mstep (by apply get_env_some). rewrite bool_decide_eq_true_2, andb_false_r by done.
    apply (ends_mono gone); [|by intros [] ?]. by apply free_current, kernel_set_addr.
Qed.

Lemma user_mem_assert_ends c s va len perm :
  C -> kernel (Some c) s -> ends (fun _ s' => s' = s) (user_mem_assert cpu c va len perm s).
Proof.
  intros HC HK. destruct (kernel_cur c s HK) as (ce & Hce & Hst).
  apply (ends_mono (fun _ s' => s' = s /\ user_mem_check ce.(env_pgdir) va len (Z.lor perm PTE_U) s.(pm) = Ret 0 s.(pm))); [|by intros [] s' []].
  apply user_mem_assert_with; [done|done|]. split; [apply check_loop_checks|by left].
Qed.
End Safe.

(** [env_destroy] takes an environment for idle when its status is not [ENV_RUNNING].  An
    environment that runs on another CPU and whose parent has set it to
    [ENV_NOT_RUNNABLE] is freed under that CPU, which keeps running in its page tables. *)
Theorem env_destroy_under_cpu {Mach : Machine} cpu other s W l fl ci co e ee :
  (forall pgdir va, uninit_ptep pgdir va <> 0) ->
  kern_wf s W l fl -> s.(cpus) !! cpu = Some ci -> ci.(cpu_env) <> Some e -> cpu <> other ->
  s.(cpus) !! other = Some co -> co.(cpu_env) = Some e -> s.(envs) !! e = Some ee -> ee.(env_status) = ENV_NOT_RUNNABLE ->
  exists s', env_destroy cpu e s = Ret tt s' /\ s'.(cpus) !! other = Some co /\
    exists ee', s'.(envs) !! e = Some ee' /\ ee'.(env_status) = ENV_FREE.
Proof.
  intros Hu Hw Hci Hne Hcpu Hco Hcur Hee Hst. destruct (live_space s W l fl e Hw) as [a Ha]; [exists ee; by rewrite Hst|].
  destruct (kw_kern _ _ _ _ Hw) as (kp & Hkd & Hkp & _).
  destruct (env_free_ok Hu cpu s W l fl ci e a ee kp Hw Hci Ha Hee Hkd Hkp) as (p' & l' & Hrun & _).
  unfold left_space in Hrun. rewrite bool_decide_eq_false_2 in Hrun by done.
  exists (with_env e (freed_env s.(env_free_list) ee) (Some e) p' s). split; [|split; [exact Hco|]].
  - unfold env_destroy. mstep (by apply curenv_some). mstep (by apply get_env_some). rewrite Hst. cbn [andb Z.eqb].
    change (ENV_NOT_RUNNABLE =? ENV_RUNNING) with false. cbn [andb]. mstep (exact Hrun). rewrite bool_decide_eq_false_2 by done. reflexivity.
  - eexists. split; [apply lookup_insert_eq|done].
Qed.
