(* ===== verification/KernCalls.v ===== *)
(** The system calls keep the kernel's invariant ([kern/syscall.c]), in the sense of
    [KernSafe]. *)

From stdpp Require Import gmap.
From S2P Require Import Prelude Mmu Mem Console E1000 Pmap PmapBoot Env Sched Syscall Trap.
From S2P Require Import PmapAlloc PmapVm PmapRefs EnvMem EnvSetup UserRep KernInv SysMem SysIpc SysEnv UserMem SchedSpec KernSafe.

(** No page has so many references that one more would not fit its 16-bit count. *)
Definition countable (p : pmap) : Prop := forall x pi, p.(pages) !! x = Some pi -> pi.(pp_ref) + 1 < 2 ^ 16.

Lemma countable_refs s W l fl p :
  kern_wf s W l fl -> countable s.(pm) -> 0 <= p < s.(pm).(npages) -> refs W p + 1 < 2 ^ 16.
Proof.
  intros Hw Hb Hp. pose proof (kw_vm _ _ _ _ Hw) as Hvm. apply (aw_dom _ _ (vw_alloc _ _ _ _ Hvm)) in Hp as [pi Hpi].
  specialize (Hb p pi Hpi). pose proof (vw_ref _ _ _ _ Hvm p pi Hpi) as Hr. unfold no_pend in Hr. lia.
Qed.

Section Calls.
Context {Mach : Machine} (cpu : Z) (C : Prop).
Hypothesis uninit_nonzero : forall pgdir va, uninit_ptep pgdir va <> 0.

Abbreviation kernel := (kernel cpu).
Abbreviation ends := (ends cpu C).

(** A new state in which the current environment still has its directory. *)
Lemma kernel_wf cur s s' W' l' fl' :
  kernel cur s -> kern_wf s' W' l' fl' -> envs_ok s'.(envs) -> s'.(cpus) = s.(cpus) -> s'.(kernel_lock) = s.(kernel_lock) -> s'.(cons) = s.(cons) ->
  (forall c e, s.(envs) !! c = Some e -> e.(env_status) <> ENV_FREE ->
    exists e', s'.(envs) !! c = Some e' /\ e'.(env_status) <> ENV_FREE /\ e'.(env_pgdir) = e.(env_pgdir)) ->
  kernel cur s'.
Proof.
  intros (W & l & fl & ci & [[Hw He Hci Hc Hcr Hl] Hg]) Hw' He' Ecpu El Eg Hkeep. exists W', l', fl', ci.
  split; [split; [done|done|by rewrite Ecpu|done| |by rewrite El]|by rewrite Eg]. intros c Hcc. destruct (Hcr c Hcc) as (a & Ha & Hx).
  destruct (space_live s W l fl c a Hw Ha) as (e & Hi & Hst). pose proof (kw_space _ _ _ _ Hw c e Hi) as Hs. rewrite Ha in Hs. destruct Hs as [_ Hpg].
  destruct (Hkeep c e Hi Hst) as (e' & Hi' & Hst' & Hpg'). pose proof (kw_space _ _ _ _ Hw' c e' Hi') as Hs'.
  destruct (W' !! c) as [a'|]; [|done]. destruct Hs' as [_ Hs']. exists a'. split; [done|]. rewrite Hx. f_equal.
  unfold page_kva in *. rewrite Hpg', Hpg in Hs'. revert Hs'. clear. clia.
Qed.

Lemma kernel_caller c s : kernel (Some c) s -> exists W l fl ci, kern_wf s W l fl /\ caller cpu s W ci c.
Proof.
  intros (W & l & fl & ci & [[Hw He Hci Hc Hcr Hl] Hg]). exists W, l, fl, ci. split; [done|]. destruct (Hcr c eq_refl) as (a & Ha & _).
  split; [done|done|by eexists].
Qed.

Lemma kernel_set_pm cur s p' W' l' fl' : kernel cur s -> kern_wf (set_pm p' s) W' l' fl' -> kernel cur (set_pm p' s).
Proof.
  intros HK Hw'. pose proof HK as (W & l & fl & ci & H). apply (kernel_wf cur s _ W' l' fl'); try done; [apply H|]. intros c e Hi Hst. by exists e.
Qed.

(** What the memory system calls do is enough. *)
Lemma does_ends c s W l fl m res Q :
  kernel (Some c) s -> does s W l fl m res Q -> ends (fun _ => kernel (Some c)) (m s).
Proof.
  intros HK. destruct res as [[r W'] l']. intros (p' & -> & Hw & _). cbn. by apply (kernel_set_pm _ s p' W' l' fl).
Qed.

Section Call.
Variables (c : Z) (s : kern).
Hypothesis HK : kernel (Some c) s.

Lemma cur_ends : cur cpu s = Ret c s.
Proof. unfold cur. by mstep (by apply (curenv_ends cpu (Some c))). Qed.

Lemma page_alloc_ends envid va perm : 0 <= va -> 0 <= perm < 2 ^ 32 -> ends (fun _ => kernel (Some c)) (sys_page_alloc cpu envid va perm s).
Proof.
  intros Hva Hp. destruct (kernel_caller c s HK) as (W & l & fl & ci & Hw & Hc).
  exact (does_ends c s _ _ _ _ _ _ HK (sys_page_alloc_does cpu uninit_nonzero s W l fl ci c Hw Hc envid va perm Hva Hp)).
Qed.

Lemma page_unmap_ends envid va : 0 <= va -> ends (fun _ => kernel (Some c)) (sys_page_unmap cpu envid va s).
Proof.
  intros Hva. destruct (kernel_caller c s HK) as (W & l & fl & ci & Hw & Hc).
  exact (does_ends c s _ _ _ _ _ _ HK (sys_page_unmap_does cpu uninit_nonzero s W l fl ci c Hw Hc envid va Hva)).
Qed.

Lemma page_map_ends srcenvid srcva dstenvid dstva perm :
  countable s.(pm) -> 0 <= srcva -> 0 <= dstva -> 0 <= perm < 2 ^ 32 ->
  ends (fun _ => kernel (Some c)) (sys_page_map cpu srcenvid srcva dstenvid dstva perm s).
Proof.
  intros Hb Hs Hd Hp. destruct (kernel_caller c s HK) as (W & l & fl & ci & Hw & Hc).
  refine (does_ends c s _ _ _ _ _ _ HK (sys_page_map_does cpu uninit_nonzero s W l fl ci c Hw Hc srcenvid srcva dstenvid dstva perm Hs Hd Hp _)).
  intros src w _ He. apply bind_Some in He as (a & Ha & He). apply (countable_refs s W l fl); [done|done|].
  exact (proj1 (vw_mapped _ _ _ _ (kw_vm _ _ _ _ Hw) src a _ w Ha He)).
Qed.

Lemma exofork_ends : ends (fun _ => kernel (Some c)) (sys_exofork cpu s).
Proof.
  destruct (kernel_caller c s HK) as (W & l & fl & ci & Hw & Hc). destruct (kernel_cur cpu c s HK) as (ce & Hce & Hst).
  pose proof (sys_exofork_ok cpu s W l fl ci c ce Hw Hc Hce) as H. destruct fl as [|i fl]; [by rewrite H|]. destruct l as [|x l]; [by rewrite H|].
  destruct H as (e' & s' & -> & [E1 E2 E3 E4 _ Hw' Hf Etf Est _ _ _ Eg]). cbn.
  pose proof HK as (W0 & l0 & fl0 & ci0 & Hat). apply (kernel_wf (Some c) s s' _ _ _ HK Hw'); try done.
  - rewrite E1. apply envs_ok_insert; [apply Hat|]. destruct (kernel_env_ok cpu _ s c ce HK Hce) as [Ho _].
    split; [|by rewrite E4]. intros _. rewrite Etf. exact (Ho Hst).
  - intros j e Hj Hse. rewrite E1. rewrite lookup_insert_ne; [by exists e|]. intros <-.
    pose proof (kw_space _ _ _ _ Hw i e Hj) as Hsp. by rewrite Hf in Hsp.
Qed.

(** An identifier names a live environment, or the call answers [-E_BAD_ENV]. *)
Lemma envid2env_ends envid chk :
  (exists i, envid2env cpu envid chk s = Ret (0, Some i) s /\ live s i /\ resolve s.(envs) (Some c) envid chk = Some i) \/
  envid2env cpu envid chk s = Ret (- E_BAD_ENV, None) s.
Proof.
  destruct (kernel_caller c s HK) as (W & l & fl & ci & Hw & Hc). rewrite (caller_resolve cpu s W l fl ci c envid chk Hw Hc).
  destruct (resolve s.(envs) (Some c) envid chk) as [i|] eqn:E; [left|by right]. exists i. split; [done|]. split; [|done].
  destruct (resolve_live s W l fl c envid chk i Hw (ca_live _ _ _ _ _ Hc) E) as (a & e & _ & Hi & Hst & _). by exists e.
Qed.

Lemma destroy_ends envid : ends (fun _ => kernel (Some c)) (sys_env_destroy cpu envid s).
Proof.
  unfold sys_env_destroy. destruct (envid2env_ends envid true) as [(i & Hr & Hlive & _)|Hr]; mstep (exact Hr); [|done].
  change (0 <? 0) with false. cbv iota. apply (ends_bind _ _ _ _ _ _ _ (env_destroy_ends cpu C uninit_nonzero (Some c) s i HK Hlive)). by intros [] s'.
Qed.

(** Setting a field of a live environment. *)
Lemma upd_ends i f :
  live s i -> (forall e, e.(env_status) <> ENV_FREE -> (f e).(env_status) <> ENV_FREE) -> (forall e, (f e).(env_id) = e.(env_id)) ->
  (forall e, (f e).(env_pgdir) = e.(env_pgdir)) -> (forall e, e.(env_status) <> ENV_FREE -> env_ok e -> env_ok (f e)) ->
  ends (fun _ => kernel (Some c)) (upd_env i f s).
Proof.
  intros (e & Hi & Hst) H1 H2 H3 H4. rewrite (upd_env_some s i e f Hi). cbn.
  apply (kernel_upd cpu (Some c) s i e); auto. apply H4; [done|]. exact (kernel_env_ok cpu _ s i e HK Hi).
Qed.

Lemma set_status_ends envid status : ends (fun _ => kernel (Some c)) (sys_env_set_status cpu envid status s).
Proof.
  unfold sys_env_set_status. destruct (_ || _) eqn:E; cbn [negb]; [|done].
  destruct (envid2env_ends envid true) as [(i & Hr & Hlive & _)|Hr]; mstep (exact Hr); [|done]. change (0 =? 0) with true. cbv iota.
  assert (status <> ENV_FREE) as Hs by (intros ->; done).
  apply (ends_bind cpu C (fun _ => kernel (Some c))); [|by intros [] s'].
  apply upd_ends; try done. intros e Hst [H1 H2]. split; [intros _; by apply H1|done].
Qed.

Lemma set_upcall_ends envid func : ends (fun _ => kernel (Some c)) (sys_env_set_pgfault_upcall cpu envid func s).
Proof.
  unfold sys_env_set_pgfault_upcall.
  destruct (envid2env_ends envid true) as [(i & Hr & Hlive & _)|Hr]; mstep (exact Hr); [|done]. change (0 =? 0) with true. cbv iota.
  apply (ends_bind cpu C (fun _ => kernel (Some c))); [|by intros [] s']. by apply upd_ends.
Qed.

Lemma ipc_recv_ends dstva : 0 <= dstva -> ends (fun _ => kernel (Some c)) (sys_ipc_recv cpu dstva s).
Proof.
  intros Hd. unfold sys_ipc_recv. destruct (_ && _); [done|]. mstep (by apply cur_ends).
  apply (ends_bind cpu C (fun _ => kernel (Some c))).
  - apply upd_ends; try done; [by apply (kernel_cur cpu)|]. intros e Hst [H1 H2]. split; [intros _; by apply H1|done].
  - intros [] s' HK'. apply (ends_mono cpu C gone); [by apply (sched_yield_ends cpu C (Some c))|by intros x ?].
Qed.

Lemma ipc_send_ends envid value srcva perm :
  countable s.(pm) -> 0 <= srcva -> 0 <= perm < 2 ^ 32 -> ends (fun _ => kernel (Some c)) (sys_ipc_try_send cpu envid value srcva perm s).
Proof.
  intros Hb Hs Hp. destruct (envid2env_ends envid false) as [(t & Hr & (te & Ht & Hst) & Hres)|Hr].
  2: { unfold sys_ipc_try_send. by mstep (exact Hr). }
  destruct (decide (te.(env_ipc_recving) = true)) as [Hrec|Hrec].
  2: { unfold sys_ipc_try_send. mstep (exact Hr). change (negb (0 =? 0)) with false. cbv iota. mstep (by apply get_env_some).
       by rewrite (not_true_is_false _ Hrec). }
  destruct (kernel_caller c s HK) as (W & l & fl & ci & Hw & Hc). destruct (kernel_cur cpu c s HK) as (ce & Hce & _).
  destruct (kernel_env_ok cpu _ s t te HK Ht) as [Ho1 Ho2].
  pose proof (sys_ipc_try_send_does cpu uninit_nonzero s W l fl ci c Hw Hc (fun p => countable_refs s W l fl p Hw Hb)
    envid value srcva perm t te ce Hres Ht Hce (Ho2 Hrec) Hs Hp) as H.
  destruct (as_ipc_send _ _ _ _ _ _ _) as [[[r W'] l'] d]. destruct H as (p' & _ & -> & Hw'). cbn.
  pose proof HK as (W0 & l0 & fl0 & ci0 & Hat). apply (kernel_wf (Some c) s _ _ _ _ HK Hw'); try done.
  - cbn. destruct d; [|apply Hat]. apply envs_ok_insert; [apply Hat|]. split; [intros _; by apply Ho1|done].
  - intros j e Hj Hse. cbn. destruct d; [|by exists e]. destruct (decide (t = j)) as [->|Hne]; [|rewrite lookup_insert_ne by done; by exists e].
    rewrite lookup_insert_eq. eexists. split; [reflexivity|]. replace e with te by congruence. done.
Qed.

(** *** Calls that read user memory

    They look at memory the kernel has not checked, or not enough, and may fault there. *)

Section Reads.
Hypothesis HC : C.

(** The frame that replaces the registers of a child; it has to name user mode. *)
Lemma set_trapframe_ends envid tf :
  (forall ci bs, s.(cpus) !! cpu = Some ci -> vget ci.(cpu_cr3) tf 68 s.(pm) = Ret bs s.(pm) -> Z.land (decode_tf bs).(tf_cs) 3 = 3) ->
  ends (fun _ => kernel (Some c)) (sys_env_set_trapframe cpu envid tf s).
Proof.
  intros Htf. unfold sys_env_set_trapframe. destruct (envid2env_ends envid true) as [(i & Hr & Hlive & _)|Hr]; mstep (exact Hr); [|done].
  change (0 <? 0) with false. cbv iota. destruct (_ =? 0); [done|]. destruct (get_cpu_ends cpu _ s HK) as (ci & Hci & Hcpu). mstep (exact Hci).
  apply (ends_bind _ _ _ _ _ _ _ (on_pm_reads cpu C _ s (eq s) HC (vget_reads _ _ _) eq_refl)). intros bs s' (_ & -> & Hbs).
  apply (ends_bind cpu C (fun _ => kernel (Some c))); [|by intros [] s'].
  apply upd_ends; try done. intros e Hst [H1 H2]. split; [|done]. intros _. exact (Htf ci bs Hcpu Hbs).
Qed.

(** Output: only the console changes. *)
Lemma puts_ends fuel p precision s' : kernel (Some c) s' -> ends (fun _ => kernel (Some c)) (puts_loop cpu fuel p precision s').
Proof.
  revert p precision s'. induction fuel as [|fuel IH]; intros p precision s' HK'; cbn [puts_loop]; [done|].
  destruct (get_cpu_ends cpu _ s' HK') as (ci & Hci & _). mstep (exact Hci).
  apply (ends_bind _ _ _ _ _ _ _ (on_pm_reads cpu C _ s' _ HC (vget_reads _ _ _) HK')). intros bs s2 (HK2 & _).
  destruct bs as [|b [|]]; [by left| |by left]. destruct (b =? 0); [done|].
  assert (forall q x, ends (fun _ => kernel (Some c)) ((on_cons (cputchar (s8 b)) ;;; puts_loop cpu fuel q x) s2)) as Hgo.
  { intros q x. apply (ends_bind _ _ _ _ _ _ _ (on_cons_ends cpu C (Some c) s2 _ HC (cputchar_keeps _) HK2)). intros _ s3. apply IH. }
  destruct (precision <? 0); [apply Hgo|]. destruct (0 <=? precision - 1); [apply Hgo|done].
Qed.

Lemma put_null_ends s' : kernel (Some c) s' -> ends (fun _ => kernel (Some c)) (put_null s').
Proof.
  unfold put_null. generalize (chars "(null)"). intros l. revert s'. induction l as [|x l IH]; intros s' HK'; [done|]. cbn [foldr].
  apply (ends_bind _ _ _ _ _ _ _ (on_cons_ends cpu C (Some c) s' _ HC (cputchar_keeps _) HK')). intros _ s2. apply IH.
Qed.

Lemma cputs_ends p len : ends (fun _ => kernel (Some c)) (sys_cputs cpu p len s).
Proof.
  unfold sys_cputs. mstep (by apply cur_ends). apply (ends_bind _ _ _ _ _ _ _ (user_mem_assert_ends cpu C uninit_nonzero c s p len PTE_U HC HK)).
  intros [] s' ->. cbv zeta. destruct (p =? 0); [by apply put_null_ends|by apply puts_ends].
Qed.

Lemma transmit_ends addr len : ends (fun _ => kernel (Some c)) (sys_e1000_transmit cpu addr len s).
Proof.
  unfold sys_e1000_transmit. mstep (by apply cur_ends). apply (ends_bind _ _ _ _ _ _ _ (user_mem_assert_ends cpu C uninit_nonzero c s addr len PTE_W HC HK)).
  intros [] s' ->. destruct (DATA_SIZE <? len); [done|]. destruct (get_cpu_ends cpu _ s HK) as (ci & Hci & _). mstep (exact Hci).
  apply (ends_bind _ _ _ _ _ _ _ (on_pm_reads cpu C _ s _ HC (vget_reads _ _ _) HK)). intros bs s' (HK' & _). by apply on_nic_ends; [|apply transmit_back|].
Qed.
End Reads.

(** ** The dispatcher *)

(** The calls that read user memory. *)
Definition reads_user (no : Z) : Prop := no = SYS_cputs \/ no = SYS_env_set_trapframe \/ no = SYS_e1000_transmit.

Theorem syscall_ends no a1 a2 a3 a4 a5 :
  countable s.(pm) -> (reads_user no -> C) ->
  (no = SYS_env_set_trapframe -> forall ci bs, s.(cpus) !! cpu = Some ci -> vget ci.(cpu_cr3) a2 68 s.(pm) = Ret bs s.(pm) ->
    Z.land (decode_tf bs).(tf_cs) 3 = 3) ->
  0 <= a1 < 2 ^ 32 -> 0 <= a2 < 2 ^ 32 -> 0 <= a3 < 2 ^ 32 -> 0 <= a4 < 2 ^ 32 -> 0 <= a5 < 2 ^ 32 ->
  ends (fun _ => kernel (Some c)) (syscall cpu no a1 a2 a3 a4 a5 s).
Proof.
  intros Hb HC Htf H1 H2 H3 H4 H5. unfold syscall. unfold reads_user in HC.
  destruct (Z.eqb_spec no SYS_cputs); [apply (ends_bind _ _ _ _ _ _ _ (cputs_ends ltac:(auto) a1 a2)); by intros [] s'|].
  destruct (no =? SYS_cgetc); [apply (ends_bind _ _ _ _ _ _ _ (on_cons_runs cpu C (Some c) s _ cons_getc_runs HK)); by intros x s'|].
  destruct (no =? SYS_getenvid).
  { unfold sys_getenvid. mstep (by apply cur_ends). destruct (kernel_cur cpu c s HK) as (ce & Hce & _). by mstep (by apply get_env_some). }
  destruct (no =? SYS_env_destroy); [apply destroy_ends|].
  destruct (no =? SYS_yield); [apply (ends_mono cpu C gone); [by apply (sched_yield_ends cpu C (Some c))|by intros x ?]|].
  destruct (no =? SYS_page_alloc); [apply page_alloc_ends; done || lia|].
  destruct (no =? SYS_page_map); [apply page_map_ends; done || lia|].
  destruct (no =? SYS_page_unmap); [apply page_unmap_ends; done || lia|].
  destruct (no =? SYS_exofork); [apply exofork_ends|].
  destruct (no =? SYS_env_set_status); [apply set_status_ends|].
  destruct (no =? SYS_env_set_pgfault_upcall); [apply set_upcall_ends|].
  destruct (no =? SYS_ipc_recv); [apply ipc_recv_ends; done || lia|].
  destruct (no =? SYS_ipc_try_send); [apply ipc_send_ends; done || lia|].
  destruct (Z.eqb_spec no SYS_env_set_trapframe); [apply set_trapframe_ends; [by auto|by apply Htf]|].
  destruct (no =? SYS_time_msec); [done|].
  destruct (Z.eqb_spec no SYS_e1000_transmit); [apply transmit_ends; auto|].
  by destruct (no =? NSYSCALLS).
Qed.
End Call.
End Calls.
