(* ===== verification/KernRun.v ===== *)
(** The kernel as a state machine: user code storing to its memory, the traps it takes
    ([kern/trap.c]), and the interrupts of a halted CPU.  The kernel's invariant holds in
    every state a run reaches. *)

From stdpp Require Import gmap.
From S2P Require Import Prelude Mmu Mem Console E1000 Pmap PmapBoot Env Sched Syscall Trap User.
From S2P Require Import PmapAlloc PmapVm PmapRefs EnvMem EnvSetup UserRep KernInv SysMem SysIpc SysEnv UserMem UserVm.
From S2P Require Import SchedSpec KernSafe KernCalls Demo DemoKern.

(** ** Stores of the kernel at user addresses *)

Section Run.
Context {Mach : Machine} (cpu : Z) (C : Prop).
Hypothesis uninit_nonzero : forall pgdir va, uninit_ptep pgdir va <> 0.

Abbreviation kernel := (kernel cpu).
Abbreviation ends := (ends cpu C).

Lemma at_poke lk c s W l fl ci a va b w :
  fit cpu lk (Some c) s W l fl ci -> W !! c = Some a -> a.(as_maps) !! PGNUM va = Some w ->
  fit cpu lk (Some c) (set_pm (set_pmem (st8 s.(pm).(pmem) (pte_pa w va) b) s.(pm)) s) W l fl ci.
Proof.
  intros [[Hw He Hci Hc Hcr Hl] Hg] Ha Hv. split; [split|]; try done. apply (kw_poke s W l fl c a (PGNUM va) w (va mod PGSIZE) b Hw Ha Hv). czdm.
Qed.

Lemma vput_runs c a W l fl ci bs : forall va s,
  fit cpu (Some cpu) (Some c) s W l fl ci -> W !! c = Some a -> 0 <= va -> va + Z.of_nat (length bs) <= UTOP ->
  (forall y, va <= y < va + Z.of_nat (length bs) -> page_ok a PTE_W y = true) ->
  exists s', on_pm (vput ci.(cpu_cr3) va bs) s = Ret tt s' /\ fit cpu (Some cpu) (Some c) s' W l fl ci.
Proof.
  induction bs as [|b bs IH]; intros va s Hat Ha Hva Hlen Hok; unfold on_pm, zoom; cbn [vput length] in *; [exists s; cbn; by rewrite set_pm_id|].
  destruct (ac_cr3 _ _ _ _ _ _ _ _ Hat c eq_refl) as (a' & Ha' & Ecr). replace a' with a in Ecr by congruence.
  pose proof (ac_wf _ _ _ _ _ _ _ _ Hat) as Hw. rewrite Ecr in *.
  specialize (Hok va ltac:(lia)) as Hp. unfold page_ok in Hp. destruct (a.(as_maps) !! PGNUM va) as [w|] eqn:Hm; [|done].
  rewrite (translate_writable s.(pm) a va w); try done;
    [|apply (vw_rep _ _ _ _ (kw_vm _ _ _ _ Hw) c), Ha|apply (kw_rep _ _ _ _ Hw c), Ha|apply (kw_user _ _ _ _ Hw c), Ha|lia].
  pose proof (at_poke _ c s W l fl ci a va b w Hat Ha Hm) as Hat'. rewrite u32_small by clia.
  destruct (IH (va + 1) _ Hat' Ha ltac:(lia) ltac:(lia)) as (s' & Hrun & Hat2); [intros y Hy; apply Hok; lia|]. exists s'. split; [|done].
  revert Hrun. unfold on_pm, zoom. cbn [set_pm pm]. by destruct (vput _ _ _ _).
Qed.

(** A check of a range in user space is decided, and says that the range can be written. *)
Lemma user_range_ends c s W l fl ci a va len :
  fit cpu (Some cpu) (Some c) s W l fl ci -> W !! c = Some a -> 0 <= va -> 0 < len -> va + len <= UTOP ->
  ends (fun _ s' => s' = s /\ forall y, va <= y < va + len -> page_ok a PTE_W y = true) (user_mem_assert cpu c va len (Z.lor PTE_W PTE_P) s).
Proof.
  intros Hat Ha Hva Hlen Htop. assert (kernel (Some c) s) as HK by by exists W, l, fl, ci. pose proof (ac_wf _ _ _ _ _ _ _ _ Hat) as Hw.
  destruct (space_live s W l fl c a Hw Ha) as (ce & Hce & _). pose proof (kw_space _ _ _ _ Hw c ce Hce) as Hsp. rewrite Ha in Hsp. destruct Hsp as [_ Epg].
  pose proof (user_mem_check_range s.(pm) a va len (Z.lor (Z.lor PTE_W PTE_P) PTE_U) (vw_rep _ _ _ _ (kw_vm _ _ _ _ Hw) c a Ha)
    (kw_user _ _ _ _ Hw c a Ha) Hva Hlen Htop) as Hr. rewrite <- Epg in Hr.
  eapply ends_mono; [apply (user_mem_assert_with cpu C uninit_nonzero c s ce); [done|done|]|].
  - destruct Hr as [[-> _]|(b & _ & -> & _)]; (split; [|by right]); [by left|right; split; [done|by eexists]].
  - intros [] s' [-> E]. split; [done|]. intros y Hy. destruct Hr as [[_ Hall]|(b & _ & E2 & _)]; [|rewrite E2 in E; by injection E].
    specialize (Hall y Hy). unfold page_ok in *. destruct (a.(as_maps) !! PGNUM y); [|done]. rewrite !bits_set_lor in Hall. by destruct (bits_set _ PTE_W).
Qed.

(** An address the kernel owns is refused. *)
Lemma kernel_range_ends (Q : unit -> kern -> Prop) c s va len perm :
  kernel (Some c) s -> ULIM <= va -> 0 < len -> va + len <= 2 ^ 32 - PGSIZE -> ends Q (user_mem_assert cpu c va len perm s).
Proof.
  intros HK Hva Hlen Htop. destruct (kernel_cur cpu c s HK) as (ce & Hce & _).
  assert (user_mem_check ce.(env_pgdir) va len (Z.lor perm PTE_U) s.(pm) = Ret (- E_FAULT) (set_user_mem_check_addr va s.(pm))) as E.
  { unfold user_mem_check. rewrite (u32_small (va + len)) by clia. cbn [user_mem_check_loop].
    destruct (ROUNDUP_page (va + len) ltac:(clia) ltac:(clia)) as [Hru _]. rewrite (proj2 (Z.ltb_lt _ _)), (proj2 (Z.leb_le _ _)) by lia. done. }
  eapply ends_mono; [apply (user_mem_assert_with cpu C uninit_nonzero c s ce); [done|done|]|].
  - rewrite E. split; [right; split; [done|by eexists]|by right].
  - intros [] s' [_ E2]. rewrite E in E2. by injection E2.
Qed.

(** Stacks a page fault may find: in user space, or where the kernel refuses them.  The
    kernel does not refuse the last page of the address space, where its check wraps around. *)
Definition esp_ok (esp : Z) : Prop := 0 <= esp <= UXSTACKTOP \/ ULIM + sizeof_UTrapframe + 4 <= esp <= 2 ^ 32 - PGSIZE.

Lemma page_fault_ends c s tf cr2 :
  kernel (Some c) s -> esp_ok tf.(tf_esp) -> ends (fun _ => kernel (Some c)) (page_fault_handler cpu tf cr2 s).
Proof.
  intros HK Hesp. unfold page_fault_handler. destruct (_ =? GD_KT); [done|]. mstep (by apply cur_ends).
  destruct (kernel_cur cpu c s HK) as (ce & Hce & Hst). mstep (by apply get_env_some).
  destruct (_ =? 0); [apply env_destroy_ends; [done|done|by exists ce]|].
  pose proof HK as (W & l & fl & ci & Hat). destruct (ac_cr3 _ _ _ _ _ _ _ _ Hat c eq_refl) as (a & Ha & _).
  assert (length (utf_bytes cr2 tf) = 52%nat) as Elen by done.
  apply (ends_bind cpu C (fun ux s' => s' = s /\ 0 <= ux /\ ux + Z.of_nat (length (utf_bytes cr2 tf)) <= UTOP /\
    forall y, ux <= y < ux + Z.of_nat (length (utf_bytes cr2 tf)) -> page_ok a PTE_W y = true)).
  { rewrite Elen. revert Hesp. generalize tf.(tf_esp). intros esp Hesp. destruct (Z.ltb_spec esp USTACKTOP) as [|Hge].
    - apply (ends_bind _ _ _ _ _ _ _ (user_range_ends c s W l fl ci a (UXSTACKTOP - sizeof_UTrapframe) sizeof_UTrapframe Hat Ha ltac:(by vm_compute) ltac:(done) ltac:(by vm_compute))).
      intros [] s' [-> Hok]. split; [done|]. split; [by vm_compute|]. split; [by vm_compute|exact Hok].
    - assert (0 <= esp < 2 ^ 32) as Hb by (revert Hesp; unfold esp_ok, sizeof_UTrapframe; clia).
      assert (u32 (esp - sizeof_UTrapframe - 4) = esp - 56) as -> by (unfold sizeof_UTrapframe; rewrite u32_small; clia).
      destruct Hesp as [Hesp|Hesp]; [|apply ends_gone, kernel_range_ends; revert Hesp; unfold sizeof_UTrapframe; done || clia].
      assert (0 <= esp - 56 /\ esp - 56 + 56 <= UTOP) as [H1 H2] by clia.
      apply (ends_bind _ _ _ _ _ _ _ (user_range_ends c s W l fl ci a (esp - 56) (sizeof_UTrapframe + 4) Hat Ha H1 ltac:(done) H2)).
      intros [] s' [-> Hok]. split; [done|]. split; [done|]. change (Z.of_nat 52) with 52. unfold sizeof_UTrapframe in Hok. split; [lia|].
      intros y Hy. apply Hok. lia. }
  intros ux s' (-> & H0 & Hend & Hok). mstep (unfold get_cpu; rewrite (ac_cpu _ _ _ _ _ _ _ _ Hat); reflexivity).
  destruct (vput_runs c a W l fl ci (utf_bytes cr2 tf) ux s Hat Ha H0 Hend Hok) as (s1 & Hrun & Hat1). mstep (exact Hrun).
  assert (kernel (Some c) s1) as HK1 by (by exists W, l, fl, ci). assert (live s1 c) as Hl1 by by apply (kernel_cur cpu).
  apply (ends_bind cpu C (fun _ => kernel (Some c))).
  - by apply upd_ends.
  - intros [] s2 HK2. apply (ends_mono cpu C gone); [|by intros [] ?]. apply (env_run_ends cpu C (Some c)); [done|by apply (kernel_cur cpu)].
Qed.

(** ** Traps *)

Record words (r : PushRegs) : Prop := {
  wd_eax : 0 <= r.(reg_eax) < 2 ^ 32; wd_edx : 0 <= r.(reg_edx) < 2 ^ 32; wd_ecx : 0 <= r.(reg_ecx) < 2 ^ 32;
  wd_ebx : 0 <= r.(reg_ebx) < 2 ^ 32; wd_edi : 0 <= r.(reg_edi) < 2 ^ 32; wd_esi : 0 <= r.(reg_esi) < 2 ^ 32;
}.

(** A trap from user mode: the registers are 32-bit words; the stack pointer at a page fault
    is [esp_ok]; and where a program replaces registers by [sys_env_set_trapframe], which
    looks at nothing, the frame it gives asks for user mode. *)
Record from_user (s : kern) (tf : Trapframe) : Prop := {
  fu_cs : Z.land tf.(tf_cs) 3 = 3;
  fu_regs : words tf.(tf_regs);
  fu_esp : tf.(tf_trapno) = T_PGFLT -> esp_ok tf.(tf_esp);
  fu_frame : tf.(tf_trapno) = T_SYSCALL -> tf.(tf_regs).(reg_eax) = SYS_env_set_trapframe ->
    forall ci bs, s.(cpus) !! cpu = Some ci -> vget ci.(cpu_cr3) tf.(tf_regs).(reg_ecx) 68 s.(pm) = Ret bs s.(pm) ->
      Z.land (decode_tf bs).(tf_cs) 3 = 3;
}.

(** System calls that read memory the kernel has not, or not well, checked. *)
Definition reads_trap (tf : Trapframe) : Prop := tf.(tf_trapno) = T_SYSCALL /\ reads_user tf.(tf_regs).(reg_eax).

Lemma time_tick_ends cur s : kernel cur s -> ends (fun _ => kernel cur) (time_tick s).
Proof.
  intros HK. unfold time_tick. munfold. destruct (_ <? _); [done|]. cbn. by apply (kernel_ext cpu cur s).
Qed.

Lemma yield_ends cur s (Q : unit -> kern -> Prop) : kernel cur s -> ends Q (sched_yield cpu s).
Proof. intros HK. apply (ends_mono cpu C gone); [by apply (sched_yield_ends cpu C cur)|by intros [] ?]. Qed.

Lemma trap_dispatch_ends c s tf cr2 :
  kernel (Some c) s -> countable s.(pm) -> (reads_trap tf -> C) -> from_user s tf -> ends (fun _ => kernel (Some c)) (trap_dispatch cpu tf cr2 true s).
Proof.
  intros HK Hb HC [Hcs [] Hesp Hframe]. unfold trap_dispatch. destruct (_ =? _); [done|].
  destruct (_ =? _). { apply (ends_bind _ _ _ _ _ _ _ (time_tick_ends (Some c) s HK)). intros [] s' HK'. by apply (yield_ends (Some c)). }
  destruct (_ =? _); [by apply on_cons_runs; [apply kbd_runs|]|]. destruct (_ =? _); [by apply on_cons_runs; [apply serial_runs|]|].
  destruct (Z.eqb_spec tf.(tf_trapno) T_PGFLT) as [E|]; [apply page_fault_ends; auto|]. destruct (_ =? T_BRKPT); [done|].
  destruct (Z.eqb_spec tf.(tf_trapno) T_SYSCALL) as [E|].
  - apply (ends_bind cpu C (fun _ => kernel (Some c))); [apply (syscall_ends cpu C uninit_nonzero c s HK); [done|intros ?; apply HC; by split|by apply Hframe|done..]|]. intros v s' HK'. mstep (by apply cur_ends).
    apply upd_ends; try done. by apply (kernel_cur cpu).
  - destruct (_ =? GD_KT); [done|]. mstep (by apply cur_ends). apply env_destroy_ends; [done|done|by apply (kernel_cur cpu)].
Qed.

(** The end of [trap]: back to the current environment or to another one. *)
Lemma trap_end_ends cur s :
  kernel cur s ->
  ends gone ((let* c := curenv cpu in
     match c with
     | None => sched_yield cpu
     | Some c => let* ce := get_env c in if ce.(env_status) =? ENV_RUNNING then env_run cpu c else sched_yield cpu
     end) s : outcome kern unit).
Proof.
  intros HK. mstep (by apply (curenv_ends cpu)). destruct cur as [c|]; [|by apply (yield_ends None)].
  destruct (kernel_cur cpu c s HK) as (ce & Hce & Hst). mstep (by apply get_env_some).
  destruct (_ =? _); [|by apply (yield_ends (Some c))]. apply (env_run_ends cpu C (Some c)); [done|by exists ce].
Qed.

(** The first accesses of [trap]: the CPU is marked as started. *)
Lemma at_started lk cur s W l fl ci :
  fit cpu lk cur s W l fl ci ->
  fit cpu lk cur (set_cpus (<[cpu := mkCpu CPU_STARTED ci.(cpu_env) ci.(cpu_cr3)]> s.(cpus)) s) W l fl (mkCpu CPU_STARTED ci.(cpu_env) ci.(cpu_cr3)).
Proof. intros [[Hw He Hci Hc Hcr Hl] Hg]. split; [split|]; try done; [by apply kw_set_cpus|apply lookup_insert_eq]. Qed.

Lemma at_locked cur s W l fl ci : fit cpu None cur s W l fl ci -> kernel cur (set_kernel_lock (Some cpu) s).
Proof. intros [[Hw He Hci Hc Hcr Hl] Hg]. exists W, l, fl, ci. split; [split|]; try done. by apply (kern_wf_ext s). Qed.

Lemma trap_ends e s tf cr2 eflags :
  user_mode cpu e s -> countable s.(pm) -> (reads_trap tf -> C) -> from_user s tf -> ends gone (trap cpu tf cr2 eflags s).
Proof.
  intros (W & l & fl & ci & Hat) Hb HC Htf. unfold trap. mstep (unfold get_cpu; rewrite (ac_cpu _ _ _ _ _ _ _ _ Hat); reflexivity).
  mstep (unfold upd_cpu; rewrite (ac_cpu _ _ _ _ _ _ _ _ Hat); reflexivity). pose proof (ac_cpu _ _ _ _ _ _ _ _ Hat) as Hci.
  apply at_started in Hat. set (s1 := set_cpus _ s) in *. set (ci1 := mkCpu _ _ _) in *. rewrite (fu_cs _ _ Htf). change (3 =? 3) with true. cbv iota.
  assert (from_user s1 tf) as Htf1.
  { destruct Htf as [F1 F2 F3 F4]. split; try done. intros E1 E2 ci' bs Hci'. unfold s1 in Hci'. cbn [cpus set_cpus] in Hci'. rewrite lookup_insert_eq in Hci'.
    injection Hci' as <-. exact (F4 E1 E2 ci bs Hci). }
  assert (s1.(pm) = s.(pm)) as Epm by done. clearbody s1 ci1. rewrite <- Epm in Hb. clear s Epm Htf Hci.
  destruct (_ =? CPU_HALTED).
  { unfold lock_kernel. mstep (mstep reflexivity; rewrite (ac_lock _ _ _ _ _ _ _ _ Hat); reflexivity). unfold PmapBoot.assert. destruct (negb _); [|done].
    mstep reflexivity. apply ends_gone. apply ends_gone. mstep reflexivity. cbn [kernel_lock set_kernel_lock]. by rewrite Z.eqb_refl. }
  mstep reflexivity. unfold PmapBoot.assert. destruct (negb _); [|done]. mstep reflexivity.
  pose proof (at_locked _ _ _ _ _ _ Hat) as HK. apply (ends_bind cpu C (fun _ s' => kernel (Some e) s' /\ s'.(pm) = s1.(pm) /\ s'.(cpus) = s1.(cpus))).
  - unfold lock_kernel. mstep (mstep reflexivity; rewrite (ac_lock _ _ _ _ _ _ _ _ Hat); reflexivity). mstep (by apply (curenv_ends cpu (Some e))).
    destruct (kernel_cur cpu e _ HK) as (ce & Hce & Hst). mstep (by apply get_env_some).
    destruct (_ =? ENV_DYING); [by apply ends_gone, free_current|]. mstep reflexivity. rewrite (upd_env_some _ e ce _ Hce). split; [|done].
    apply (kernel_upd cpu (Some e) _ e ce); try done. destruct (kernel_env_ok cpu _ _ e ce HK Hce) as [_ H2]. split; [|done]. intros _. apply Htf1.
  - intros [] s2 (HK2 & Epm & Ecpu). rewrite <- Epm in Hb. assert (from_user s2 tf) as Htf2 by (destruct Htf1; split; rewrite ?Ecpu, ?Epm; done).
    apply (ends_bind _ _ _ _ _ _ _ (trap_dispatch_ends e s2 tf cr2 HK2 Hb HC Htf2)). intros [] s3 HK3. by apply (trap_end_ends (Some e)).
Qed.

(** An interrupt of a halted CPU. *)
Definition from_halt (tf : Trapframe) : Prop := tf.(tf_cs) = GD_KT /\ IRQ_OFFSET <= tf.(tf_trapno) < IRQ_OFFSET + 16.

Lemma trap_halted_ends s tf cr2 eflags : halted cpu s -> from_halt tf -> ends gone (trap cpu tf cr2 eflags s).
Proof.
  intros (W & l & fl & ci & Hat & Hh & _) [Hcs Hn]. unfold trap. mstep (unfold get_cpu; rewrite (ac_cpu _ _ _ _ _ _ _ _ Hat); reflexivity).
  mstep (unfold upd_cpu; rewrite (ac_cpu _ _ _ _ _ _ _ _ Hat); reflexivity). apply at_started in Hat. set (s1 := set_cpus _ s) in *. clearbody s1.
  rewrite Hh, Hcs. change (CPU_HALTED =? CPU_HALTED) with true. change (Z.land GD_KT 3 =? 3) with false. cbv iota.
  unfold lock_kernel. mstep (mstep reflexivity; rewrite (ac_lock _ _ _ _ _ _ _ _ Hat); reflexivity).
  unfold PmapBoot.assert. destruct (negb _); [|done]. mstep reflexivity. mstep reflexivity. apply at_locked in Hat as HK.
  apply (ends_bind cpu C (fun _ => kernel None)); [|intros [] s2 HK2; by apply (trap_end_ends None)]. unfold trap_dispatch.
  destruct (_ =? _); [done|]. destruct (_ =? _). { apply (ends_bind _ _ _ _ _ _ _ (time_tick_ends None _ HK)). intros [] s' HK'. by apply (yield_ends None). }
  destruct (_ =? _); [by apply on_cons_runs; [apply kbd_runs|]|]. destruct (_ =? _); [by apply on_cons_runs; [apply serial_runs|]|].
  unfold IRQ_OFFSET in Hn. rewrite !(proj2 (Z.eqb_neq _ _)) by (unfold T_PGFLT, T_BRKPT, T_SYSCALL; lia). rewrite Hcs. done.
Qed.

(** What a trap comes to. *)
Definition comes_out (o : outcome kern unit) : Prop :=
  match o with Ret _ _ => False | Wild s => C \/ ~ past_ok s.(pm) | Fuel => C | _ => True end.

Lemma ends_out o : ends gone o -> comes_out o.
Proof. by destruct o. Qed.
End Run.

(** ** Runs *)

Section Runs.
Context {Mach : Machine} (cpu : Z).
Hypothesis uninit_nonzero : forall pgdir va, uninit_ptep pgdir va <> 0.

(** What the CPU does between traps. *)
Inductive mode := Running (e : Z) | Halted.

(** Where a trap leads; a machine that stops leads nowhere. *)
Definition next (o : outcome kern unit) : option (mode * kern) :=
  match o with Iret e s => Some (Running e, s) | Halt s => Some (Halted, s) | _ => None end.

(** The traps of a running environment, while no page is referenced too often, and the
    interrupts of a halted CPU. *)
Definition trappable (md : mode) (s : kern) (tf : Trapframe) : Prop :=
  match md with Running _ => from_user cpu s tf /\ countable s.(pm) | Halted => from_halt tf end.

Inductive step : mode * kern -> mode * kern -> Prop :=
  | step_store e s ci va b pa :
      0 <= va < UTOP -> s.(cpus) !! cpu = Some ci -> mmu s.(pm).(pmem) ci.(cpu_cr3) va true = Some pa ->
      step (Running e, s) (Running e, set_pm (set_pmem (st8 s.(pm).(pmem) pa b) s.(pm)) s)
  | step_trap md s tf cr2 eflags x :
      trappable md s tf -> next (trap cpu tf cr2 eflags s) = Some x -> step (md, s) x.

Inductive reachable (x0 : mode * kern) : mode * kern -> Prop :=
  | reach_refl : reachable x0 x0
  | reach_step x y : reachable x0 x -> step x y -> reachable x0 y.

Definition good (x : mode * kern) : Prop := match x with (Running e, s) => user_mode cpu e s | (Halted, s) => halted cpu s end.

Lemma trap_good md s tf cr2 eflags : good (md, s) -> trappable md s tf -> ends cpu (reads_trap tf) gone (trap cpu tf cr2 eflags s).
Proof.
  destruct md as [e|]; [intros Hg [Hu Hb]; by apply (trap_ends cpu _ uninit_nonzero e)|intros Hg Ht; by apply trap_halted_ends].
Qed.

Lemma next_good C o x : ends cpu C gone o -> next o = Some x -> good x.
Proof. destruct o; cbn; intros H E; simplify_eq; done. Qed.

(** What user code can write is a page it maps. *)
Lemma store_mapped e s W l fl ci va pa :
  fit cpu None (Some e) s W l fl ci -> 0 <= va < UTOP -> mmu s.(pm).(pmem) ci.(cpu_cr3) va true = Some pa ->
  exists a w, W !! e = Some a /\ a.(as_maps) !! PGNUM va = Some w /\ bits_set w PTE_W = true /\ pa = pte_pa w va.
Proof.
  intros Hat Hva Hm. destruct (ac_cr3 _ _ _ _ _ _ _ _ Hat e eq_refl) as (a & Ha & Ecr). pose proof (ac_wf _ _ _ _ _ _ _ _ Hat) as Hw. rewrite Ecr in Hm.
  rewrite (mmu_reach s.(pm) a (vw_rep _ _ _ _ (kw_vm _ _ _ _ Hw) e a Ha) (kw_rep _ _ _ _ Hw e a Ha) (kw_user _ _ _ _ Hw e a Ha) va true Hva) in Hm.
  unfold reach in Hm. destruct (a.(as_maps) !! PGNUM va) as [w|] eqn:Hv; [|done]. exists a, w. split; [done|]. split; [done|].
  destruct (bits_set w PTE_W); cbn in Hm; by simplify_eq.
Qed.

Lemma step_good x y : good x -> step x y -> good y.
Proof.
  intros Hx Hs. destruct Hs as [e s ci va b pa Hva Hci Hm|md s tf cr2 eflags y Htf Hn].
  - destruct Hx as (W & l & fl & ci' & Hat). replace ci' with ci in * by (pose proof (ac_cpu _ _ _ _ _ _ _ _ Hat); congruence).
    destruct (store_mapped e s W l fl ci va pa Hat Hva Hm) as (a & w & Ha & Hv & _ & ->). exists W, l, fl, ci. by apply (at_poke cpu None e s W l fl ci a va b w).
  - exact (next_good _ _ _ (trap_good md s tf cr2 eflags Hx Htf) Hn).
Qed.

Lemma reachable_good x0 x : good x0 -> reachable x0 x -> good x.
Proof. intros H0 Hr. induction Hr as [|x y _ IH Hs]; [done|]. by apply (step_good x). Qed.

(** The running environment is live and its directory is loaded. *)
Lemma running_dir e s W l fl ci :
  fit cpu None (Some e) s W l fl ci ->
  exists ee, s.(envs) !! e = Some ee /\ ee.(env_status) <> ENV_FREE /\ page_kva (ci.(cpu_cr3) / PGSIZE) = ee.(env_pgdir).
Proof.
  intros [[Hw He Hci Hc Hcr Hl] Hg]. destruct (Hcr e eq_refl) as (a & Ha & Ecr). destruct (space_live s W l fl e a Hw Ha) as (ee & Hee & Hst).
  exists ee. split; [done|]. split; [done|]. pose proof (kw_space _ _ _ _ Hw e ee Hee) as Hsp. rewrite Ha in Hsp. destruct Hsp as [_ ->]. rewrite Ecr. f_equal. czdm.
Qed.

(** What it writes is none of the kernel's pages. *)
Lemma store_apart e s W l fl ci va pa :
  fit cpu None (Some e) s W l fl ci -> 0 <= va < UTOP -> mmu s.(pm).(pmem) ci.(cpu_cr3) va true = Some pa ->
  ~ owned W (pa / PGSIZE) /\ (pa / PGSIZE ∉ l) /\ page_kva (pa / PGSIZE) <> s.(pm).(kern_pgdir).
Proof.
  intros Hat Hva Hm. pose proof (ac_wf _ _ _ _ _ _ _ _ Hat) as Hw.
  destruct (store_mapped e s W l fl ci va pa Hat Hva Hm) as (a & w & Ha & Hv & _ & ->). rewrite pte_pa_page.
  pose proof (mapped_apart s W l fl e a _ w Hw Ha Hv) as Hap. split; [tauto|]. split; [tauto|].
  destruct (kw_kern _ _ _ _ Hw) as (kp & -> & _ & Hkp). intros E. apply page_kva_inj in E. apply Hkp. left. rewrite <- E.
  pose proof (maps_refs1 a _ w Hv). pose proof (refs_ge W e a (pte_page w) Ha). lia.
Qed.
End Runs.

(** C1: In every state of every run the kernel's structures are well formed, whether the CPU
    runs an environment or is halted: page tables, reference counts, free pages and free
    environments agree, the kernel lock is free, and every environment in use resumes in
    user mode.  A running environment is the CPU's current one and runs in its own address
    space, and no address below [UTOP] lets it write a page directory, a page table, a free
    page or the kernel's directory; a halted CPU has no current environment and uses the
    kernel's directory.  And the next trap leads on: to user mode, to a halted CPU, or to a
    panic or the monitor; it reaches a bad pointer or hangs only in one of the three system
    calls that read user memory ([reads_trap]), or in the scheduler when the word past the
    table of environments reads [ENV_RUNNABLE].

    A run is any sequence of stores by user code, traps and interrupts that starts in a well
    formed state.  Its traps are [trappable]: no page is referenced 65535 times; a page fault
    finds the stack pointer up to [UXSTACKTOP], or above the kernel's limit but below the
    last page of the address space; [sys_env_set_trapframe] is given frames with user
    privilege in [cs].  The kernel does not check these three things itself. *)
Theorem kernel_stays_well_formed {Mach : Machine} cpu x0 md s :
  (forall pgdir va, uninit_ptep pgdir va <> 0) -> good cpu x0 -> reachable cpu x0 (md, s) ->
  (exists W l fl ci, kern_wf s W l fl /\ s.(cpus) !! cpu = Some ci /\ s.(kernel_lock) = None /\
    (forall i ee, s.(envs) !! i = Some ee -> ee.(env_status) <> ENV_FREE -> Z.land ee.(env_tf).(tf_cs) 3 = 3) /\
    match md with
    | Running e =>
        ci.(cpu_env) = Some e /\
        (exists ee, s.(envs) !! e = Some ee /\ ee.(env_status) <> ENV_FREE /\ page_kva (ci.(cpu_cr3) / PGSIZE) = ee.(env_pgdir)) /\
        forall va pa, 0 <= va < UTOP -> mmu s.(pm).(pmem) ci.(cpu_cr3) va true = Some pa ->
          ~ owned W (pa / PGSIZE) /\ (pa / PGSIZE ∉ l) /\ page_kva (pa / PGSIZE) <> s.(pm).(kern_pgdir)
    | Halted => ci.(cpu_env) = None /\ ci.(cpu_status) = CPU_HALTED /\ page_kva (ci.(cpu_cr3) / PGSIZE) = s.(pm).(kern_pgdir)
    end) /\
  forall tf cr2 eflags, trappable cpu md s tf -> comes_out (reads_trap tf) (trap cpu tf cr2 eflags s).
Proof.
  intros Hu H0 Hr. pose proof (reachable_good cpu Hu x0 _ H0 Hr) as Hgood. split.
  2: { intros tf cr2 eflags Ht. by apply (ends_out cpu), (trap_good cpu Hu md). }
  destruct md as [e|].
  - destruct Hgood as (W & l & fl & ci & Hat). pose proof Hat as [[Hw He Hci Hc Hcr Hl] Hg]. exists W, l, fl, ci. repeat (split; [done|]).
    split; [intros i ee Hi; apply (He i ee Hi)|]. split; [done|]. split; [by apply (running_dir cpu e s W l fl)|].
    intros va pa. by apply (store_apart cpu e s W l fl).
  - destruct Hgood as (W & l & fl & ci & [[Hw He Hci Hc Hcr Hl] Hg] & Hh & Hd). exists W, l, fl, ci. repeat (split; [done|]).
    split; [intros i ee Hi; apply (He i ee Hi)|done].
Qed.

(** ** Witness *)

Definition demo_boot : kern := set_kernel_lock None demo_kern.

Definition demo_frame : Trapframe := mkTf (mkRegs 0 0 0 0 0 0 0 SYS_time_msec) 0x23 0x23 T_SYSCALL 0 0x800020 0x1b 0x202 USTACKTOP 0x23.

Lemma demo_boot_good : good 0 (Running 0, demo_boot).
Proof.
  exists demo_world, [4; 5], (seqZ 1 1023), demo_cpu. split; [split; [by apply (kern_wf_ext demo_kern _ _ _ _ demo_kern_wf)| |done|done| |done]|by split; cbn].
  - intros i e [_ ->]%demo_envs_some. unfold demo_env. by destruct (i =? 0).
  - intros c [= <-]. by exists demo_space.
Qed.

Lemma demo_small x pi : demo.(pages) !! x = Some pi -> pi.(pp_ref) + 1 < 2 ^ 16.
Proof. intros H. apply demo_pages_cases in H. cbn [In] in H. repeat (destruct H as [[= <- <-]|H]; [by vm_compute|]). done. Qed.

(** A store of environment 0, then a system call from it. *)
Definition demo_stored : kern := set_pm (set_pmem (st8 demo_boot.(pm).(pmem) (2 * PGSIZE + 5) 42) demo_boot.(pm)) demo_boot.

Lemma demo_stores : step 0 (Running 0, demo_boot) (Running 0, demo_stored).
Proof.
  apply (step_store 0 0 demo_boot demo_cpu (demo_va + 5) 42); [by vm_compute|done|].
  change (mmu demo.(pmem) (demo_space.(as_dir) * PGSIZE) (demo_va + 5) true = Some (2 * PGSIZE + 5)).
  rewrite (mmu_reach demo demo_space demo_rep demo_user_rep eq_refl (demo_va + 5) true); [by vm_compute|by vm_compute].
Qed.

Lemma demo_traps p : exists s', trap 0 demo_frame 0 0 (set_pm p demo_boot) = Iret 0 s'.
Proof.
  assert (demo_envs !! 0 = Some (demo_env 0)) as H0 by by apply demo_envs_lookup. unfold trap.
  mstep reflexivity. mstep reflexivity. mstep reflexivity. mstep reflexivity. change (Z.land demo_frame.(tf_cs) 3 =? 3) with true. cbv iota.
  mstep (mstep reflexivity; mstep reflexivity; cbn [demo_cpu cpu_env]; mstep (by apply get_env_some); mstep reflexivity; by apply (upd_env_some _ 0 (demo_env 0))).
  change (trap_dispatch 0 demo_frame 0 true) with
    (let* v := syscall 0 SYS_time_msec 0 0 0 0 0 in let* c := cur 0 in upd_env c (fun e => set_env_tf (set_eax v e.(env_tf)) e)).
  mstep (mstep reflexivity; mstep reflexivity; apply upd_env_some; apply lookup_insert_eq).
  mstep reflexivity. cbn [cpu_env]. mstep (apply get_env_some; apply lookup_insert_eq).
  match goal with |- context [?x =? ENV_RUNNING] => change (x =? ENV_RUNNING) with true end. cbv iota. unfold env_run. mstep reflexivity. mstep reflexivity. mstep reflexivity.
  unfold env_pop_tf. mstep reflexivity. cbn [cpu_env]. mstep (apply upd_env_some; apply lookup_insert_eq). by eexists.
Qed.

Lemma demo_trappable : trappable 0 (Running 0) demo_stored demo_frame.
Proof. split; [|exact demo_small]. split; [done|by split; vm_compute|done|done]. Qed.

Lemma kernel_stays_well_formed_witness :
  exists s, reachable 0 (Running 0, demo_boot) (Running 0, s) /\ exists W l fl, kern_wf s W l fl.
Proof.
  destruct (demo_traps demo_stored.(pm)) as [s Ht]. exists s.
  assert (reachable 0 (Running 0, demo_boot) (Running 0, s)) as Hr.
  { eapply reach_step; [eapply reach_step; [apply reach_refl|exact demo_stores]|]. apply (step_trap 0 (Running 0) demo_stored demo_frame 0 0).
    - exact demo_trappable.
    - exact (f_equal next Ht). }
  split; [exact Hr|]. destruct (kernel_stays_well_formed 0 _ (Running 0) s demo_uninit demo_boot_good Hr) as [(W & l & fl & ci & Hw & _) _].
  exists W, l, fl. exact Hw.
Defined.
