(* ===== verification/Upcall.v ===== *)
(** [lib/pfentry.S]: the page-fault upcall, as the instructions of its text run on the registers
    and the memory of the running environment.

    The state is the environment as [User] has it together with the user registers of the CPU.
    Instructions follow one another; the program counter matters where control leaves the text:
    at the call of the C handler, which has to come back to the instruction after it, and at
    the final [ret].  What the C function behind [_pgfault_handler] does is an argument; [cdecl]
    is how a C function of one argument runs under the calling convention. *)

From S2P Require Import Prelude Mmu Mem Console E1000 Pmap PmapBoot Env Sched Syscall Trap User Fork.

(** ** User registers *)

Inductive reg := EAX | ECX | EDX | EBX | ESP | EBP | ESI | EDI.

Record cpu_state := mkX {
  x_eax : Z; x_ecx : Z; x_edx : Z; x_ebx : Z; x_esp : Z; x_ebp : Z; x_esi : Z; x_edi : Z;
  x_eip : Z;
  x_eflags : Z;
}.

Definition x_reg (x : cpu_state) (r : reg) : Z :=
  match r with
  | EAX => x.(x_eax) | ECX => x.(x_ecx) | EDX => x.(x_edx) | EBX => x.(x_ebx)
  | ESP => x.(x_esp) | EBP => x.(x_ebp) | ESI => x.(x_esi) | EDI => x.(x_edi)
  end.

Definition set_reg (r : reg) (v : Z) (x : cpu_state) : cpu_state :=
  let '(mkX a c d b sp bp si di ip fl) := x in
  match r with
  | EAX => mkX v c d b sp bp si di ip fl
  | ECX => mkX a v d b sp bp si di ip fl
  | EDX => mkX a c v b sp bp si di ip fl
  | EBX => mkX a c d v sp bp si di ip fl
  | ESP => mkX a c d b v bp si di ip fl
  | EBP => mkX a c d b sp v si di ip fl
  | ESI => mkX a c d b sp bp v di ip fl
  | EDI => mkX a c d b sp bp si v ip fl
  end.
Definition set_x_eip (v : Z) (x : cpu_state) : cpu_state :=
  let '(mkX a c d b sp bp si di _ fl) := x in mkX a c d b sp bp si di v fl.
Definition set_x_eflags (v : Z) (x : cpu_state) : cpu_state :=
  let '(mkX a c d b sp bp si di ip _) := x in mkX a c d b sp bp si di ip v.

(** [env_pop_tf] loads the registers from the frame; [popal] skips the stored stack pointer
    and [iret] loads the real one. *)
Definition of_tf (t : Trapframe) : cpu_state :=
  let g := t.(tf_regs) in
  mkX g.(reg_eax) g.(reg_ecx) g.(reg_edx) g.(reg_ebx) t.(tf_esp) g.(reg_ebp) g.(reg_esi) g.(reg_edi) t.(tf_eip) t.(tf_eflags).

(** *** Flags *)

(** The flags the arithmetic instructions set, and those user code can change at all. *)
Definition STATUS_FLAGS : Z := 0x8d5.
Definition USER_FLAGS : Z := 0x244dd5.

(** The flags of [mask] from [f], the others from [old]. *)
Definition mix_flags (mask f old : Z) : Z := Z.lor (Z.land f mask) (Z.land old (Z.lnot mask)).

Definition add_flags (x y : Z) : Z :=
  let r := u32 (x + y) in
  let even := negb (foldl xorb false (Z.testbit r <$> [0; 1; 2; 3; 4; 5; 6; 7])) in
  Z.b2z (2 ^ 32 <=? x + y) + 0x4 * Z.b2z even + 0x10 * Z.b2z (16 <=? x mod 16 + y mod 16) + 0x40 * Z.b2z (r =? 0) +
  0x80 * Z.b2z (2 ^ 31 <=? r) + 0x800 * Z.b2z (negb (s32 x + s32 y =? s32 r)).

(** ** Instructions *)

Record umach := mkUm { um_user : user; um_cpu : cpu_state }.

Definition set_um_user (u : user) (m : umach) : umach := mkUm u m.(um_cpu).
Definition set_um_cpu (x : cpu_state) (m : umach) : umach := mkUm m.(um_user) x.
Definition on_user {A} (m : M user A) : M umach A := zoom um_user set_um_user m.
Definition getr (r : reg) : M umach Z := gets (fun m => x_reg m.(um_cpu) r).
Definition setr (r : reg) (v : Z) : M umach unit := modify (fun m => set_um_cpu (set_reg r (u32 v) m.(um_cpu)) m).

Inductive instr :=
  | PUSHL (r : reg)                         (* pushl r *)
  | POPL (r : reg)                          (* popl r *)
  | MOVL (src dst : reg)                    (* movl src, dst *)
  | LOADL (disp : Z) (base dst : reg)       (* movl disp(base), dst *)
  | STOREL (src : reg) (disp : Z) (base : reg)  (* movl src, disp(base) *)
  | MOVL_handler (dst : reg)                (* movl _pgfault_handler, dst *)
  | CALL (r : reg) (next : Z)               (* call *r; the next instruction is [next] bytes into the text *)
  | ADDL (imm : Z) (r : reg)                (* addl $imm, r *)
  | POPAL
  | POPFL
  | RET.

Section Upcall.
Context {Mach : Machine} {Prog : Program} (cpu : Z).

Definition push (v : Z) : M umach unit :=
  let* sp := getr ESP in
  on_user (ust32 cpu (u32 (sp - 4)) v) ;;;
  setr ESP (sp - 4).

Definition pop : M umach Z :=
  let* sp := getr ESP in
  let* v := on_user (uld32 cpu sp) in
  setr ESP (sp + 4) ;;;
  ret v.

Definition ret_near : M umach unit :=
  let* v := pop in modify (fun m => set_um_cpu (set_x_eip v m.(um_cpu)) m).

(** What the C function at an address does, up to and including its [ret]. *)
Variable code : Z -> M umach unit.

Definition exec (i : instr) : M umach unit :=
  match i with
  | PUSHL r => let* v := getr r in push v
  | POPL r => let* v := pop in setr r v
  | MOVL src dst => let* v := getr src in setr dst v
  | LOADL disp base dst =>
      let* b := getr base in
      let* v := on_user (uld32 cpu (u32 (b + disp))) in
      setr dst v
  | STOREL src disp base =>
      let* b := getr base in
      let* v := getr src in
      on_user (ust32 cpu (u32 (b + disp)) v)
  | MOVL_handler dst => let* h := on_user (gets u_handler) in setr dst h
  | CALL r next =>
      let* f := getr r in
      let back := u32 (sym_pgfault_upcall + next) in
      push back ;;;
      code f ;;;
      let* eip := gets (fun m => m.(um_cpu).(x_eip)) in
      if eip =? back then ret tt else wild
  | ADDL imm r =>
      let* v := getr r in
      modify (fun m => set_um_cpu (set_x_eflags (mix_flags STATUS_FLAGS (add_flags v imm) m.(um_cpu).(x_eflags)) m.(um_cpu)) m) ;;;
      setr r (v + imm)
  | POPAL =>
      let* edi := pop in setr EDI edi ;;;
      let* esi := pop in setr ESI esi ;;;
      let* ebp := pop in setr EBP ebp ;;;
      let* _ := pop in
      let* ebx := pop in setr EBX ebx ;;;
      let* edx := pop in setr EDX edx ;;;
      let* ecx := pop in setr ECX ecx ;;;
      let* eax := pop in setr EAX eax
  | POPFL =>
      let* v := pop in
      modify (fun m => set_um_cpu (set_x_eflags (mix_flags USER_FLAGS v m.(um_cpu).(x_eflags)) m.(um_cpu)) m)
  | RET => ret_near
  end.

Fixpoint run (is_ : list instr) : M umach unit :=
  match is_ with
  | [] => ret tt
  | i :: is_ => exec i ;;; run is_
  end.

Definition pgfault_upcall_text : list instr :=
  [PUSHL ESP; MOVL_handler EAX; CALL EAX 8; ADDL 4 ESP;
   LOADL 0x28 ESP EAX; MOVL ESP EBX; LOADL 0x30 ESP ESP; PUSHL EAX; STOREL ESP 0x30 EBX;
   MOVL EBX ESP; ADDL 8 ESP; POPAL; ADDL 4 ESP; POPFL; POPL ESP; RET].

(** The CPU at [_pgfault_upcall]. *)
Definition pgfault_upcall : M umach unit :=
  let* eip := gets (fun m => m.(um_cpu).(x_eip)) in
  if eip =? sym_pgfault_upcall then run pgfault_upcall_text else wild.
End Upcall.

(** ** C functions *)

Section Cdecl.
Context {Mach : Machine} (cpu : Z).

(** What the compiled code leaves in the registers a caller has to save, and in the flags. *)
Record scratch := mkScratch { sc_eax : Z; sc_ecx : Z; sc_edx : Z; sc_flags : Z }.

(** A C function of one argument, with its locals out of memory. *)
Definition cdecl (f : Z -> M user unit) (sc : scratch) : M umach unit :=
  let* sp := getr ESP in
  let* arg := on_user (uld32 cpu (u32 (sp + 4))) in
  on_user (f arg) ;;;
  setr EAX sc.(sc_eax) ;;; setr ECX sc.(sc_ecx) ;;; setr EDX sc.(sc_edx) ;;;
  modify (fun m => set_um_cpu (set_x_eflags (mix_flags USER_FLAGS sc.(sc_flags) m.(um_cpu).(x_eflags)) m.(um_cpu)) m) ;;;
  ret_near cpu.

(** [pgfault] reads the two fields of the [struct UTrapframe] its argument points to. *)
Definition pgfault_utf (utf : Z) : M user unit :=
  let* fault_va := uld32 cpu utf in
  let* err := uld32 cpu (u32 (utf + 4)) in
  pgfault cpu fault_va err.

(** The code of a program that links [lib/fork.c]. *)
Definition fork_code `{Program} (sc : scratch) (f : Z) : M umach unit :=
  if f =? sym_pgfault then cdecl pgfault_utf sc else wild.
End Cdecl.
