(* ===== verification/UpcallRun.v ===== *)
(** The page-fault upcall of [lib/pfentry.S] run on the stacks of an environment, and the
    delivery of page faults by the kernel. *)

From stdpp Require Import gmap.
From S2P Require Import Prelude Mmu Mem Console E1000 Pmap PmapBoot Env Sched Syscall Trap User Fork Upcall.
From S2P Require Import PmapAlloc PmapVm PmapRefs UserRep EnvMem EnvSetup KernInv SysMem UserMem UserVm ForkVm ForkRun CowRun.
From S2P Require Import SysIpc SchedSpec KernSafe KernCalls Demo DemoKern.

(** ** Private memory *)

(** Page [v] of environment [c] is mapped writable, and its physical page nowhere else. *)
Record private (W : gmap Z aspace) (c : Z) (a : aspace) (v w : Z) : Prop := {
  pv_map : a.(as_maps) !! v = Some w;
  pv_write : bits_set w PTE_W = true;
  pv_sole : forall j d i w', W !! j = Some d -> d.(as_maps) !! i = Some w' -> pte_page w' = pte_page w -> j = c /\ i = v;
}.

(** The addresses [P] are private memory of [c]. *)
Definition usable (W : gmap Z aspace) (c : Z) (a : aspace) (P : Z -> Prop) : Prop :=
  forall y, P y -> 0 <= y < UTOP /\ exists w, private W c a (PGNUM y) w.

Lemma usable_mono W c a (P Q : Z -> Prop) : usable W c a P -> (forall y, Q y -> P y) -> usable W c a Q.
Proof. intros H Hs y Hy. by apply H, Hs. Qed.

(** Private memory is writable in one piece. *)
Lemma usable_writable W c a va len :
  W !! c = Some a -> 0 < len -> usable W c a (fun y => va <= y < va + len) -> writable a va len.
Proof.
  intros Hc Hlen H. unfold usable in H. cbv beta in H. split.
  - destruct (H va ltac:(lia)) as [? _]. destruct (H (va + len - 1) ltac:(lia)) as [? _]. lia.
  - intros y Hy. destruct (H y Hy) as (_ & w & [Hm HW _]). unfold page_ok. by rewrite Hm.
  - intros y y' w w' Hy Hy' Hm Hm' E. destruct (H y' Hy') as (_ & w1 & [Hm1 _ Hs]). assert (w1 = w') as -> by congruence.
    by destruct (Hs c a (PGNUM y) w Hc Hm E).
Qed.

(** Two addresses of private memory with one physical address are one. *)
Lemma usable_inj W c a P y y' : W !! c = Some a -> usable W c a P -> P y -> P y' -> upa a y = upa a y' -> y = y'.
Proof.
  intros Hc H Hy Hy'. destruct (H y Hy) as (Hr & w & [Hm _ _]). destruct (H y' Hy') as (Hr' & w' & [Hm' _ Hs]). unfold upa. rewrite Hm, Hm'. intros E.
  assert (pte_page w = pte_page w') as Hpg by (rewrite <- (pte_pa_page w y), <- (pte_pa_page w' y'); by rewrite E).
  destruct (Hs c a _ w Hc Hm Hpg) as [_ Hn]. rewrite !PGNUM_div in Hn by clia. unfold pte_pa in E. rewrite Hpg in E. clear -E Hn. revert E Hn. consts. intros. zdm.
Qed.

(** No other mapping shows it. *)
Lemma usable_unseen W c a P y j d va w :
  W !! c = Some a -> usable W c a P -> P y -> W !! j = Some d -> d.(as_maps) !! PGNUM va = Some w -> 0 <= va < 2 ^ 32 -> (j = c -> ~ P va) -> upa a y <> pte_pa w va.
Proof.
  intros Hc H Hy Hj Hm Hva Hne E. destruct (H y Hy) as (Hr & w' & [Hm' _ Hs]). unfold upa in E. rewrite Hm' in E.
  assert (pte_page w = pte_page w') as Hpg by (rewrite <- (pte_pa_page w va), <- (pte_pa_page w' y); by rewrite E).
  destruct (Hs j d _ w Hj Hm Hpg) as [-> Hn]. assert (y = va) as ->; [|by apply Hne].
  rewrite !PGNUM_div in Hn by clia. unfold pte_pa in E. rewrite Hpg in E. clear -E Hn. revert E Hn. consts. intros. zdm.
Qed.

(** ** Flags *)

Lemma mix_keep m f old : Z.land m USER_FLAGS = m -> Z.land (mix_flags m f old) (Z.lnot USER_FLAGS) = Z.land old (Z.lnot USER_FLAGS).
Proof.
  intros Hm. apply Z.bits_inj'. intros i Hi. unfold mix_flags. rewrite !Z.land_spec, Z.lor_spec, !Z.land_spec, !Z.lnot_spec by lia.
  rewrite <- Hm at 1. rewrite <- Hm. rewrite !Z.land_spec. by destruct (Z.testbit m i), (Z.testbit USER_FLAGS i), (Z.testbit f i), (Z.testbit old i).
Qed.

Lemma mix_restore v old : Z.land old (Z.lnot USER_FLAGS) = Z.land v (Z.lnot USER_FLAGS) -> mix_flags USER_FLAGS v old = v.
Proof.
  intros H. unfold mix_flags. rewrite H. apply Z.bits_inj'. intros i Hi. rewrite Z.lor_spec, !Z.land_spec, Z.lnot_spec by lia.
  by destruct (Z.testbit USER_FLAGS i), (Z.testbit v i).
Qed.

(** ** Words *)

Section Words.
Context {Mach : Machine} (cpu : Z).
Variables (W : gmap Z aspace) (l fl : list Z) (ci : CpuInfo) (c : Z) (a : aspace) (P : Z -> Prop).
Hypothesis HP : usable W c a P.

(** An aligned word of [P]. *)
Definition slot (y : Z) : Prop := y mod 4 = 0 /\ forall i, 0 <= i < 4 -> P (y + i).

Lemma slot_head y : slot y -> P y.
Proof. intros [_ H]. specialize (H 0 ltac:(lia)). by rewrite Z.add_0_r in H. Qed.

Lemma slot_page y : slot y -> 0 <= y < UTOP /\ exists w, private W c a (PGNUM y) w /\ upa a y = pte_pa w y.
Proof.
  intros Hy. destruct (HP y (slot_head y Hy)) as (Hr & w & Hw). split; [done|]. exists w. split; [done|]. unfold upa. by rewrite (pv_map _ _ _ _ _ Hw).
Qed.

Lemma upa_aligned y : y mod 4 = 0 -> (a.(as_maps) !! PGNUM y = None -> False) -> upa a y mod 4 = 0.
Proof. intros Hy Hm. unfold upa. destruct (_ !! _) as [w|]; [|by destruct Hm]. unfold pte_pa. clear -Hy. czdm. Qed.

Definition word_at (u : user) (y : Z) : Z := ld32 u.(u_kern).(pm).(pmem) (upa a y).

(** What the running environment finds in its words. *)
Record holds (u : user) (f : Z -> Z) : Prop := {
  ho_uwf : uwf cpu u W l fl ci c a;
  ho_word : forall y, slot y -> word_at u y = f y;
}.

Definition upd (f : Z -> Z) (y v : Z) : Z -> Z := fun z => if z =? y then v else f z.

(** Only memory of [P] changed. *)
Record touched (u u' : user) : Prop := {
  to_user : exists m, u' = with_pm (set_pmem m u.(u_kern).(pm)) u;
  to_mem : forall b, (forall y, P y -> upa a y <> b) -> ld8 u'.(u_kern).(pm).(pmem) b = ld8 u.(u_kern).(pm).(pmem) b;
}.

Lemma touched_refl u : touched u u.
Proof. split; [|done]. exists u.(u_kern).(pm).(pmem). destruct u as [[[]]]. reflexivity. Qed.

Lemma touched_trans u1 u2 u3 : touched u1 u2 -> touched u2 u3 -> touched u1 u3.
Proof. intros [[m ->] H1] [[m' ->] H2]. split; [exists m'; by destruct u1 as [[[]]]|]. intros b Hb. by rewrite H2, H1. Qed.

Lemma load_slot u f y : holds u f -> slot y -> uld32 cpu y u = Ret (f y) u.
Proof.
  intros [Hw Hf] Hy. destruct (slot_page y Hy) as (Hr & w & Hp & E). rewrite <- (Hf y Hy). unfold word_at. rewrite E.
  apply (uld32_run cpu u W l fl ci c a y w Hw Hr), Hp.
Qed.

Lemma store_slot u f y v :
  holds u f -> slot y -> exists u', ust32 cpu y v u = Ret tt u' /\ holds u' (upd f y (u32 v)) /\ touched u u'.
Proof.
  intros [Hw Hf] Hy. destruct (slot_page y Hy) as (Hr & w & Hp & E).
  destruct (ust32_run cpu u W l fl ci c a y v w Hw Hr (proj1 Hy) (pv_map _ _ _ _ _ Hp) (pv_write _ _ _ _ _ Hp)) as [Hrun Hw']. rewrite <- E in Hrun, Hw'.
  eexists. split; [exact Hrun|]. split; split; [exact Hw'| |by eexists|].
  - intros z Hz. unfold word_at, upd. cbn [with_pm set_u_kern u_kern set_pm pm set_pmem pmem]. destruct (slot_page z Hz) as (_ & wz & Hpz & _).
    rewrite ld32_st32_aligned by (apply upa_aligned; [apply Hy || apply Hz|intros H; pose proof (pv_map _ _ _ _ _ Hp); pose proof (pv_map _ _ _ _ _ Hpz); congruence]).
    destruct (Z.eqb_spec z y) as [->|Hne]; [by rewrite Z.eqb_refl|]. rewrite (proj2 (Z.eqb_neq _ _)); [by apply Hf|].
    intros Eu. apply Hne. symmetry. exact (usable_inj W c a P y z (uw_space _ _ _ _ _ _ _ _ Hw) HP (slot_head y Hy) (slot_head z Hz) Eu).
  - intros b Hb. cbn [with_pm set_u_kern u_kern set_pm pm set_pmem pmem]. apply ld8_st32_ne. destruct (decide (b < upa a y \/ upa a y + 4 <= b)) as [|Hin]; [done|].
    exfalso. set (i := b - upa a y) in *. assert (0 <= i < 4) as Hi by lia. apply (Hb (y + i)); [by apply Hy|]. destruct Hy as [Hal _].
    assert (PGNUM (y + i) = PGNUM y) as Hn by (clear -Hal Hr Hi; rewrite !PGNUM_div by clia; czdm).
    replace b with (upa a y + i) by lia. unfold upa. rewrite Hn, (pv_map _ _ _ _ _ Hp). unfold pte_pa. clear -Hal Hi. czdm.
Qed.

Lemma holds_range u f y : holds u f -> slot y -> 0 <= f y < 2 ^ 32.
Proof. intros [_ Hf] Hy. rewrite <- (Hf y Hy). apply ld32_range. Qed.

Lemma slot_range y : slot y -> 0 <= y < UTOP.
Proof. intros Hy. by destruct (slot_page y Hy). Qed.

(** ** Instructions *)

Lemma on_user_ret {A} (m : M user A) u x r u' : m u = Ret r u' -> on_user m (mkUm u x) = Ret r (mkUm u' x).
Proof. intros H. unfold on_user, zoom. cbn. by rewrite H. Qed.

Lemma setr_run u x r v : 0 <= v < 2 ^ 32 -> setr r v (mkUm u x) = Ret tt (mkUm u (set_reg r v x)).
Proof. intros Hv. unfold setr, modify. cbn. by rewrite u32_small. Qed.

Lemma push_run u f x v :
  holds u f -> slot (x.(x_esp) - 4) ->
  exists u', push cpu v (mkUm u x) = Ret tt (mkUm u' (set_reg ESP (x.(x_esp) - 4) x)) /\ holds u' (upd f (x.(x_esp) - 4) (u32 v)) /\ touched u u'.
Proof.
  intros Hh Hs. pose proof (slot_range _ Hs) as Hr. destruct (store_slot u f _ v Hh Hs) as (u' & Hrun & Hh' & Ht). exists u'. split; [|done].
  unfold push. mstep reflexivity. cbn [um_cpu x_reg]. rewrite u32_small by clia. mstep (by apply on_user_ret). apply setr_run. clia.
Qed.

Lemma pop_run u f x :
  holds u f -> slot x.(x_esp) -> pop cpu (mkUm u x) = Ret (f x.(x_esp)) (mkUm u (set_reg ESP (x.(x_esp) + 4) x)).
Proof.
  intros Hh Hs. pose proof (slot_range _ Hs) as Hr. unfold pop. mstep reflexivity. cbn [um_cpu x_reg]. mstep (by apply on_user_ret, load_slot).
  mstep (apply setr_run; clia). reflexivity.
Qed.

Context {Prog : Program} (code : Z -> M umach unit).

Lemma exec_popl u f x r :
  holds u f -> slot x.(x_esp) -> exec cpu code (POPL r) (mkUm u x) = Ret tt (mkUm u (set_reg r (f x.(x_esp)) (set_reg ESP (x.(x_esp) + 4) x))).
Proof. intros Hh Hs. cbn [exec]. mstep (by apply (pop_run u f)). apply setr_run. by apply (holds_range u). Qed.

Lemma exec_loadl u f x disp base dst :
  holds u f -> slot (x_reg x base + disp) -> exec cpu code (LOADL disp base dst) (mkUm u x) = Ret tt (mkUm u (set_reg dst (f (x_reg x base + disp)) x)).
Proof.
  intros Hh Hs. pose proof (slot_range _ Hs). cbn [exec]. mstep reflexivity. cbn [um_cpu]. rewrite u32_small by clia. mstep (by apply on_user_ret, load_slot).
  apply setr_run. by apply (holds_range u).
Qed.

Lemma exec_storel u f x src disp base :
  holds u f -> slot (x_reg x base + disp) ->
  exists u', exec cpu code (STOREL src disp base) (mkUm u x) = Ret tt (mkUm u' x) /\ holds u' (upd f (x_reg x base + disp) (u32 (x_reg x src))) /\ touched u u'.
Proof.
  intros Hh Hs. pose proof (slot_range _ Hs) as Hr. destruct (store_slot u f _ (x_reg x src) Hh Hs) as (u' & Hrun & Hh' & Ht). exists u'. split; [|done].
  cbn [exec]. mstep reflexivity. mstep reflexivity. cbn [um_cpu]. rewrite u32_small by clia. by apply on_user_ret.
Qed.

Lemma exec_addl u x imm r :
  0 <= x_reg x r + imm < 2 ^ 32 ->
  exec cpu code (ADDL imm r) (mkUm u x) =
    Ret tt (mkUm u (set_reg r (x_reg x r + imm) (set_x_eflags (mix_flags STATUS_FLAGS (add_flags (x_reg x r) imm) x.(x_eflags)) x))).
Proof. intros Hr. cbn [exec]. mstep reflexivity. mstep reflexivity. cbn [um_cpu]. by apply setr_run. Qed.

(** ** The way back *)

(** The words of the frame, from its start. *)
Definition utf_words (fault_va : Z) (t : Trapframe) : list Z :=
  let r := t.(tf_regs) in
  [fault_va; t.(tf_err); r.(reg_edi); r.(reg_esi); r.(reg_ebp); r.(reg_oesp); r.(reg_ebx);
   r.(reg_edx); r.(reg_ecx); r.(reg_eax); t.(tf_eip); t.(tf_eflags); t.(tf_esp)].

Definition framed (f : Z -> Z) (ux fault_va : Z) (tf : Trapframe) : Prop :=
  forall (k : nat) w, utf_words fault_va tf !! k = Some w -> f (ux + 4 * Z.of_nat k) = w.

Section Frame.
Variables (u : user) (f : Z -> Z) (ux fault_va : Z) (tf : Trapframe).
Hypothesis Hh : holds u f.
Hypothesis Hf : framed f ux fault_va tf.
Hypothesis Hs : forall k, 0 <= k < 13 -> slot (ux + 4 * k).

Lemma frame_slot (k : nat) w : utf_words fault_va tf !! k = Some w -> slot (ux + 4 * Z.of_nat k).
Proof. intros Hk. apply Hs. apply lookup_lt_Some in Hk. cbn in Hk. lia. Qed.

Lemma frame_range (k : nat) w : utf_words fault_va tf !! k = Some w -> 0 <= w < 2 ^ 32.
Proof. intros Hk. rewrite <- (Hf k w Hk). apply (holds_range u f _ Hh), (frame_slot k w Hk). Qed.

Lemma frame_pop (k : nat) w x :
  utf_words fault_va tf !! k = Some w -> x.(x_esp) = ux + 4 * Z.of_nat k ->
  pop cpu (mkUm u x) = Ret w (mkUm u (set_reg ESP (ux + 4 * Z.of_nat k + 4) x)).
Proof. intros Hk Ex. rewrite (pop_run u f) by (done || (rewrite Ex; exact (frame_slot k w Hk))). by rewrite Ex, (Hf k w Hk). Qed.

Lemma frame_load (k : nat) w x disp base dst :
  utf_words fault_va tf !! k = Some w -> x_reg x base + disp = ux + 4 * Z.of_nat k ->
  exec cpu code (LOADL disp base dst) (mkUm u x) = Ret tt (mkUm u (set_reg dst w x)).
Proof. intros Hk Ex. rewrite (exec_loadl u f) by (done || (rewrite Ex; exact (frame_slot k w Hk))). by rewrite Ex, (Hf k w Hk). Qed.

Lemma popal_run x :
  x.(x_esp) = ux + 8 ->
  exec cpu code POPAL (mkUm u x) =
    Ret tt (mkUm u (let g := tf.(tf_regs) in
      mkX g.(reg_eax) g.(reg_ecx) g.(reg_edx) g.(reg_ebx) (ux + 40) g.(reg_ebp) g.(reg_esi) g.(reg_edi) x.(x_eip) x.(x_eflags))).
Proof.
  intros Hx. destruct x as [xa xc xd xb xsp xbp xsi xdi xip xfl]. cbn in Hx. subst xsp. cbn [exec].
  mstep (apply (frame_pop 2 _ _ eq_refl); cbn; lia). mstep (exact (setr_run u _ _ _ (frame_range 2 _ eq_refl))).
  mstep (apply (frame_pop 3 _ _ eq_refl); cbn; lia). mstep (exact (setr_run u _ _ _ (frame_range 3 _ eq_refl))).
  mstep (apply (frame_pop 4 _ _ eq_refl); cbn; lia). mstep (exact (setr_run u _ _ _ (frame_range 4 _ eq_refl))).
  mstep (apply (frame_pop 5 _ _ eq_refl); cbn; lia).
  mstep (apply (frame_pop 6 _ _ eq_refl); cbn; lia). mstep (exact (setr_run u _ _ _ (frame_range 6 _ eq_refl))).
  mstep (apply (frame_pop 7 _ _ eq_refl); cbn; lia). mstep (exact (setr_run u _ _ _ (frame_range 7 _ eq_refl))).
  mstep (apply (frame_pop 8 _ _ eq_refl); cbn; lia). mstep (exact (setr_run u _ _ _ (frame_range 8 _ eq_refl))).
  mstep (apply (frame_pop 9 _ _ eq_refl); cbn; lia). rewrite (setr_run u _ _ _ (frame_range 9 _ eq_refl)).
  cbn [set_reg x_eip x_eflags]. by replace (ux + 4 * Z.of_nat 9 + 4) with (ux + 40) by lia.
Qed.
End Frame.

(** The frame after the return address is on the trap-time stack, which the frame now names. *)
Lemma framed_back f ux fault_va tf :
  framed f ux fault_va tf -> tf.(tf_esp) <= ux \/ ux + 52 <= tf.(tf_esp) - 4 ->
  framed (upd (upd f (tf.(tf_esp) - 4) tf.(tf_eip)) (ux + 48) (tf.(tf_esp) - 4)) ux fault_va (set_eip_esp tf.(tf_eip) (tf.(tf_esp) - 4) tf).
Proof.
  intros Hf Hap k w Hk. unfold upd. assert (Z.of_nat k < 13) as Hlt by (apply lookup_lt_Some in Hk; cbn in Hk; lia).
  destruct (Z.eqb_spec (ux + 4 * Z.of_nat k) (ux + 48)) as [E|E].
  - assert (k = 12%nat) as -> by lia. by injection Hk.
  - rewrite (proj2 (Z.eqb_neq _ _)) by lia. apply Hf. rewrite <- Hk. do 12 (destruct k as [|k]; [reflexivity|]). lia.
Qed.

(** From the return of the handler to the faulting instruction. *)
Lemma leave_run u f x ux fault_va tf :
  holds u f -> framed f ux fault_va tf -> (forall k, 0 <= k < 13 -> slot (ux + 4 * k)) -> slot (tf.(tf_esp) - 4) ->
  tf.(tf_esp) <= ux \/ ux + 52 <= tf.(tf_esp) - 4 -> 0 <= ux - 4 -> tf.(tf_esp) < 2 ^ 32 ->
  x.(x_esp) = ux - 4 -> Z.land x.(x_eflags) (Z.lnot USER_FLAGS) = Z.land tf.(tf_eflags) (Z.lnot USER_FLAGS) ->
  exists u' f', run cpu code (drop 3 pgfault_upcall_text) (mkUm u x) = Ret tt (mkUm u' (of_tf tf)) /\ holds u' f' /\ touched u u'.
Proof.
  intros Hh Hf Hs Hsp Hap Hlo Hhi Hx Hfl. destruct x as [xa xc xd xb xsp xbp xsi xdi xip xfl]. cbn in Hx, Hfl. subst xsp.
  pose proof (slot_range _ (Hs 12 ltac:(lia))) as Htop. assert (UTOP < 2 ^ 32) as HU by by vm_compute.
  cbn [drop pgfault_upcall_text run]. mstep (apply exec_addl; cbn; lia). cbn [x_reg x_esp x_eflags set_x_eflags set_reg].
  mstep (apply (frame_load u f ux fault_va tf Hh Hf Hs 10 _ _ _ _ _ eq_refl); cbn; lia). cbn [set_reg].
  mstep (cbn [exec]; mstep reflexivity; apply setr_run; cbn; lia). cbn [x_reg x_esp um_cpu set_reg].
  mstep (apply (frame_load u f ux fault_va tf Hh Hf Hs 12 _ _ _ _ _ eq_refl); cbn; lia). cbn [set_reg].
  set (x1 := mkX _ _ _ _ _ _ _ _ _ _). destruct (push_run u f x1 tf.(tf_eip) Hh Hsp) as (u1 & Hrun1 & Hh1 & Ht1).
  mstep (cbn [exec]; mstep reflexivity; exact Hrun1). cbn [x1 set_reg x_esp] in Hh1 |- *. clear x1 Hrun1.
  set (x2 := mkX _ _ _ _ _ _ _ _ _ _). destruct (exec_storel u1 _ x2 ESP 0x30 EBX Hh1) as (u2 & Hrun2 & Hh2 & Ht2).
  { cbn [x2 x_reg x_ebx]. replace (ux - 4 + 4 + 48) with (ux + 4 * 12) by lia. apply Hs. lia. }
  mstep (exact Hrun2). cbn [x2 x_reg x_ebx x_esp] in Hh2 |- *. clear Hrun2. replace (ux - 4 + 4) with ux in * by lia.
  pose proof (frame_range u f ux fault_va tf Hh Hf Hs 10 _ eq_refl) as Hip. pose proof (slot_range _ Hsp) as Hsr.
  rewrite (u32_small tf.(tf_eip)), (u32_small (tf.(tf_esp) - 4)) in Hh2 by (done || lia).
  set (f2 := upd _ _ _) in Hh2. set (tf' := set_eip_esp tf.(tf_eip) (tf.(tf_esp) - 4) tf).
  assert (framed f2 ux fault_va tf') as Hf2 by exact (framed_back f ux fault_va tf Hf Hap).
  mstep (cbn [exec]; mstep reflexivity; apply setr_run; cbn; lia). cbn [x_reg x_ebx um_cpu set_reg x2].
  mstep (apply exec_addl; cbn; lia). cbn [x_reg x_esp x_eflags set_x_eflags set_reg].
  mstep (apply (popal_run u2 f2 ux fault_va tf' Hh2 Hf2 Hs); cbn; lia). cbn [x_eip x_eflags].
  mstep (apply exec_addl; cbn; lia). cbn [x_reg x_esp x_eflags set_x_eflags set_reg].
  mstep (cbn [exec]; mstep (apply (frame_pop u2 f2 ux fault_va tf' Hh2 Hf2 Hs 11 _ _ eq_refl); cbn; lia); reflexivity). cbn [um_cpu set_um_cpu um_user x_eflags set_x_eflags set_reg].
  mstep (cbn [exec]; mstep (apply (frame_pop u2 f2 ux fault_va tf' Hh2 Hf2 Hs 12 _ _ eq_refl); cbn; lia); apply setr_run; cbn; lia). cbn [set_reg].
  exists u2, f2. split; [|split; [exact Hh2|by apply (touched_trans u u1)]].
  mstep (cbn [exec]; unfold ret_near; mstep (apply (pop_run u2 f2 _ Hh2); exact Hsp); reflexivity).
  cbn [um_cpu set_um_cpu um_user set_x_eip set_reg x_esp tf' set_eip_esp tf_regs tf_eflags tf_esp].
  assert (f2 (tf.(tf_esp) - 4) = tf.(tf_eip)) as -> by (unfold f2, upd; rewrite (proj2 (Z.eqb_neq _ _)) by lia; by rewrite Z.eqb_refl).
  rewrite mix_restore by (rewrite !mix_keep by done; exact Hfl). unfold of_tf. replace (tf.(tf_esp) - 4 + 4) with tf.(tf_esp) by lia. reflexivity.
Qed.

(** ** The way in *)

(** The upcall up to its handler: the argument is the address of the frame, and the handler
    is to come back to the instruction after the call. *)
Lemma enter_run u f x ux :
  holds u f -> slot (ux - 4) -> slot (ux - 8) -> x.(x_esp) = ux -> x.(x_eip) = sym_pgfault_upcall -> ux < 2 ^ 32 -> 0 <= u.(u_handler) < 2 ^ 32 ->
  let back := u32 (sym_pgfault_upcall + 8) in
  let x2 := set_reg ESP (ux - 8) (set_reg EAX u.(u_handler) x) in
  exists u2, holds u2 (upd (upd f (ux - 4) ux) (ux - 8) back) /\ touched u u2 /\
    forall u3 x3, code u.(u_handler) (mkUm u2 x2) = Ret tt (mkUm u3 x3) -> x3.(x_eip) = back ->
      pgfault_upcall cpu code (mkUm u x) = run cpu code (drop 3 pgfault_upcall_text) (mkUm u3 x3).
Proof.
  intros Hh H4 H8 Hx Hip Hux Hhd back x2. destruct x as [xa xc xd xb xsp xbp xsi xdi xip xfl]. cbn in Hx, Hip. subst xsp xip.
  pose proof (slot_range _ H4) as Hr. set (x0 := mkX _ _ _ _ _ _ _ _ _ _) in *.
  destruct (push_run u f x0 ux Hh H4) as (u1 & Hrun1 & Hh1 & Ht1). cbn [x0 set_reg x_esp] in Hrun1, Hh1. rewrite u32_small in Hh1 by lia.
  assert (u1.(u_handler) = u.(u_handler)) as Ehd by by destruct (to_user _ _ Ht1) as [m ->].
  set (x1 := mkX u.(u_handler) xc xd xb (ux - 4) xbp xsi xdi sym_pgfault_upcall xfl).
  destruct (push_run u1 _ x1 back Hh1) as (u2 & Hrun2 & Hh2 & Ht2). { cbn [x1 x_esp]. by replace (ux - 4 - 4) with (ux - 8) by lia. }
  cbn [x1 set_reg x_esp] in Hrun2, Hh2. replace (ux - 4 - 4) with (ux - 8) in Hrun2, Hh2 by lia. unfold back in Hh2. rewrite u32_idem in Hh2. fold back in Hh2.
  exists u2. split; [exact Hh2|]. split; [by apply (touched_trans u u1)|]. intros u3 x3 Hcode Hback.
  unfold pgfault_upcall. mstep reflexivity. cbn [um_cpu x0 x_eip]. rewrite Z.eqb_refl. cbn [pgfault_upcall_text run drop].
  mstep (cbn [exec]; mstep reflexivity; exact Hrun1).
  mstep (cbn [exec]; mstep (by apply on_user_ret); cbn; rewrite Ehd; by apply setr_run). cbn [set_reg].
  mstep (cbn [exec]; mstep reflexivity; cbn [um_cpu x_reg x_eax]; mstep (exact Hrun2); mstep (exact Hcode); mstep reflexivity; cbn [um_cpu]; rewrite Hback, Z.eqb_refl; reflexivity).
  reflexivity.
Qed.
End Words.

(** ** Page faults of user code as the kernel delivers them: [page_fault_handler] of
    [kern/trap.c] *)

(** Where the frame of a fault goes: the top of the exception stack, or below the frame and a
    spare word when the handler itself faults. *)
Definition frame_at (esp : Z) : Z := if esp <? USTACKTOP then UXSTACKTOP - sizeof_UTrapframe else esp - sizeof_UTrapframe - 4.
Definition frame_room (esp : Z) : Z := if esp <? USTACKTOP then sizeof_UTrapframe else sizeof_UTrapframe + 4.

(** A mapped page is present and open to user code. *)
Lemma page_ok_user p a y :
  vm_rep p a -> user_rep p a -> page_ok a PTE_W y = true -> page_ok a (Z.lor (Z.lor PTE_W PTE_P) PTE_U) y = true.
Proof.
  intros Hr Hu. unfold page_ok. destruct (a.(as_maps) !! PGNUM y) as [w|] eqn:Hm; [|done]. intros HW. rewrite !bits_set_lor, HW, (ur_map _ _ Hu _ _ Hm).
  rewrite andb_true_r. cbn [andb]. destruct (vr_maps_dom _ _ Hr _ _ Hm) as [tp Htp].
  assert (0 <= PGNUM y mod 1024 < 1024) as Ht by zdm. pose proof (vr_maps _ _ Hr _ (PGNUM y mod 1024) tp Htp Ht) as He.
  replace (PGNUM y / 1024 * 1024 + PGNUM y mod 1024) with (PGNUM y) in He by zdm. rewrite Hm in He. symmetry in He. apply entry_some in He as [-> H]. exact H.
Qed.

(** The check passes when the range is writable. *)
Lemma user_mem_assert_passes `{Mach : Machine} cpu s W l fl c ce a va len :
  kern_wf s W l fl -> W !! c = Some a -> s.(envs) !! c = Some ce -> writable a va len -> 0 < len ->
  user_mem_assert cpu c va len (Z.lor PTE_W PTE_P) s = Ret tt s.
Proof.
  intros Hw Ha Hce Hwr Hlen. pose proof (kw_space _ _ _ _ Hw c ce Hce) as Hsp. rewrite Ha in Hsp. destruct Hsp as [_ Hpg].
  pose proof (vw_rep _ _ _ _ (kw_vm _ _ _ _ Hw) c a Ha) as Hr. destruct (wr_range _ _ _ Hwr) as [H1 H2].
  unfold user_mem_assert. mstep (by apply get_env_some). rewrite Hpg.
  destruct (user_mem_check_range s.(pm) a va len (Z.lor (Z.lor PTE_W PTE_P) PTE_U) Hr (kw_user _ _ _ _ Hw c a Ha) H1 Hlen H2) as [[Hrun _]|(b & Hb & _ & Hbad & _)].
  - by mstep (apply on_pm_pure; exact Hrun).
  - rewrite (page_ok_user s.(pm) a b Hr (kw_rep _ _ _ _ Hw c a Ha) (wr_page _ _ _ Hwr b Hb)) in Hbad. done.
Qed.

Section Fault.
Context {Mach : Machine} (cpu : Z).
Variables (s : kern) (W : gmap Z aspace) (l fl : list Z) (ci : CpuInfo) (c : Z) (ce : Env) (a : aspace).
Hypothesis Hat : at_cpu cpu (Some cpu) (Some c) s W l fl ci.
Hypothesis Ha : W !! c = Some a.
Hypothesis Hce : s.(envs) !! c = Some ce.

Lemma fault_cr3 : ci.(cpu_cr3) = a.(as_dir) * PGSIZE.
Proof. destruct (ac_cr3 _ _ _ _ _ _ _ _ Hat c eq_refl) as (a' & Ha' & E). congruence. Qed.

(** The environment goes on in its upcall. *)
Definition in_upcall (ux : Z) (p' : pmap) : kern :=
  set_kernel_lock None (set_envs (<[c := set_env_cpunum cpu (set_env_tf (set_eip_esp ce.(env_pgfault_upcall) ux ce.(env_tf)) ce)]> s.(envs)) (set_pm p' s)).

Lemma env_run_current e s1 (f : Env -> Env) :
  s1.(cpus) !! cpu = Some ci -> s1.(envs) !! c = Some e -> s1.(kernel_lock) = Some cpu ->
  (upd_env c f ;;; env_run cpu c) s1 = (Iret c (set_kernel_lock None (set_envs (<[c := set_env_cpunum cpu (f e)]> s1.(envs)) s1)) : outcome kern unit).
Proof.
  intros Hci He Hl. pose proof (ac_cur _ _ _ _ _ _ _ _ Hat) as Hc. mstep (by apply upd_env_some). unfold env_run. mstep (by apply curenv_some).
  rewrite Hc, bool_decide_eq_true_2 by done. mstep reflexivity.
  unfold unlock_kernel. mstep (munfold; simpl; rewrite Hl, bool_decide_eq_true_2 by done; reflexivity).
  unfold env_pop_tf. mstep (by apply curenv_some). rewrite Hc. mstep (apply upd_env_some, lookup_insert_eq). unfold set_envs, set_kernel_lock. simpl. by rewrite insert_insert_eq.
Qed.

(** The range the frame needs is checked, and the check passes. *)
Lemma frame_checked tf :
  0 <= tf.(tf_esp) <= UXSTACKTOP -> writable a (frame_at tf.(tf_esp)) (frame_room tf.(tf_esp)) ->
  (if tf.(tf_esp) <? USTACKTOP then
     let uxtop := UXSTACKTOP - sizeof_UTrapframe in
     user_mem_assert cpu c uxtop sizeof_UTrapframe (Z.lor PTE_W PTE_P) ;;; ret uxtop
   else
     let uxtop := u32 (tf.(tf_esp) - sizeof_UTrapframe - 4) in
     user_mem_assert cpu c uxtop (sizeof_UTrapframe + 4) (Z.lor PTE_W PTE_P) ;;; ret uxtop) s = Ret (frame_at tf.(tf_esp)) s.
Proof.
  pose proof (ac_wf _ _ _ _ _ _ _ _ Hat) as Hw. intros Hesp. unfold frame_at, frame_room.
  destruct (Z.ltb_spec tf.(tf_esp) USTACKTOP) as [|Hge]; intros Hwr; cbv zeta.
  - rewrite (bind_ret _ _ s tt s); [reflexivity|]. exact (user_mem_assert_passes cpu s W l fl c ce a _ _ Hw Ha Hce Hwr eq_refl).
  - assert (u32 (tf.(tf_esp) - sizeof_UTrapframe - 4) = tf.(tf_esp) - sizeof_UTrapframe - 4) as -> by (apply u32_small; revert Hesp Hge; unfold sizeof_UTrapframe; consts; lia).
    rewrite (bind_ret _ _ s tt s); [reflexivity|]. exact (user_mem_assert_passes cpu s W l fl c ce a _ _ Hw Ha Hce Hwr eq_refl).
Qed.

Lemma page_fault_run tf cr2 :
  tf.(tf_cs) <> GD_KT -> ce.(env_pgfault_upcall) <> 0 -> 0 <= tf.(tf_esp) <= UXSTACKTOP -> writable a (frame_at tf.(tf_esp)) (frame_room tf.(tf_esp)) ->
  page_fault_handler cpu tf cr2 s =
    Iret c (in_upcall (frame_at tf.(tf_esp)) (set_pmem (put_bytes a (frame_at tf.(tf_esp)) (utf_bytes cr2 tf) s.(pm).(pmem)) s.(pm))) /\
  kern_wf (in_upcall (frame_at tf.(tf_esp)) (set_pmem (put_bytes a (frame_at tf.(tf_esp)) (utf_bytes cr2 tf) s.(pm).(pmem)) s.(pm))) W l fl.
Proof.
  intros Hcs Hup Hesp Hwr. pose proof (ac_wf _ _ _ _ _ _ _ _ Hat) as Hw. set (ux := frame_at tf.(tf_esp)) in *.
  assert (writable a ux (Z.of_nat (length (utf_bytes cr2 tf)))) as Hwr'.
  { change (length (utf_bytes cr2 tf)) with 52%nat. destruct Hwr as [[H1 H2] H3 H4]. unfold frame_room, sizeof_UTrapframe in *.
    split; [destruct (_ <? _); lia|intros y Hy; apply H3; destruct (_ <? _); lia|intros y y' w w' Hy Hy'; apply H4; destruct (_ <? _); lia]. }
  destruct (vput_run c a W l fl (utf_bytes cr2 tf) ux s Hw Ha Hwr') as [Hput Hw1]. set (p' := set_pmem _ _) in *. split.
  - unfold page_fault_handler. rewrite (proj2 (Z.eqb_neq _ _)) by done. mstep (unfold cur; mstep (apply curenv_some, Hat); by rewrite (ac_cur _ _ _ _ _ _ _ _ Hat)).
    mstep (by apply get_env_some). rewrite (proj2 (Z.eqb_neq _ _)) by done.
    rewrite (bind_ret _ _ s ux s) by exact (frame_checked tf Hesp Hwr).
    mstep (unfold get_cpu; rewrite (ac_cpu _ _ _ _ _ _ _ _ Hat); reflexivity). rewrite fault_cr3. mstep (exact Hput).
    apply (env_run_current ce); [apply Hat|exact Hce|apply Hat].
  - pose proof (kw_space _ _ _ _ Hw c ce Hce) as Hsp. rewrite Ha in Hsp. destruct Hsp as [Hst _].
    apply (kern_wf_ext (set_envs (<[c := set_env_cpunum cpu (set_env_tf (set_eip_esp ce.(env_pgfault_upcall) ux ce.(env_tf)) ce)]> s.(envs)) (set_pm p' s))); try done.
    by apply (kw_upd_env (set_pm p' s) W l fl c ce).
Qed.
End Fault.

(** ** The trap *)

(** The kernel when the handler of the fault starts: the CPU is marked as started, the lock
    taken and the frame saved in the environment. *)
Definition fault_entry (cpu c : Z) (tf : Trapframe) (ci : CpuInfo) (ce : Env) (s : kern) : kern :=
  set_envs (<[c := set_env_tf tf ce]> s.(envs))
    (set_kernel_lock (Some cpu) (set_cpus (<[cpu := mkCpu CPU_STARTED (Some c) ci.(cpu_cr3)]> s.(cpus)) s)).

Lemma trap_dispatch_fault {Mach : Machine} cpu tf cr2 user : tf.(tf_trapno) = T_PGFLT -> trap_dispatch cpu tf cr2 user = page_fault_handler cpu tf cr2.
Proof. intros E. unfold trap_dispatch. rewrite E. reflexivity. Qed.

Lemma trap_fault_entry {Mach : Machine} cpu s W l fl ci c ce tf cr2 eflags :
  at_cpu cpu None (Some c) s W l fl ci -> ci.(cpu_status) <> CPU_HALTED -> s.(envs) !! c = Some ce -> ce.(env_status) <> ENV_DYING ->
  Z.land tf.(tf_cs) 3 = 3 -> tf.(tf_trapno) = T_PGFLT -> nonzero (Z.land eflags FL_IF) = false ->
  let s1 := fault_entry cpu c tf ci ce s in
  at_cpu cpu (Some cpu) (Some c) s1 W l fl (mkCpu CPU_STARTED (Some c) ci.(cpu_cr3)) /\
  forall e s', page_fault_handler cpu tf cr2 s1 = Iret e s' -> trap cpu tf cr2 eflags s = Iret e s'.
Proof.
  intros Hat Hh Hce Hst Hcs Hno Hif s1. split.
  - destruct Hat as [Hw He Hci Hc Hcr Hl]. subst s1. split; try done.
    + pose proof (kw_space _ _ _ _ Hw c ce Hce) as Hsp. apply (kern_wf_ext (set_envs (<[c := set_env_tf tf ce]> s.(envs)) (set_cpus (<[cpu := mkCpu CPU_STARTED (Some c) ci.(cpu_cr3)]> s.(cpus)) s))); try done.
      destruct (Hcr c eq_refl) as (a & Ha & _). rewrite Ha in Hsp. destruct Hsp as [Hn Hpg].
      apply (kw_upd_env (set_cpus _ s) W l fl c ce); try done. by apply kw_set_cpus.
    + intros j e Hj. cbn [envs fault_entry set_envs] in Hj. destruct (decide (j = c)) as [->|Hne].
      { rewrite lookup_insert_eq in Hj. injection Hj as <-. split; [by intros _|]. apply (He c ce Hce). }
      rewrite lookup_insert_ne in Hj by done. by apply (He j).
    + apply lookup_insert_eq.
  - intros e s' Hrun. pose proof (ac_cpu _ _ _ _ _ _ _ _ Hat) as Hci. unfold trap. mstep (unfold get_cpu; rewrite Hci; reflexivity).
    mstep (unfold upd_cpu; rewrite Hci; reflexivity). rewrite (proj2 (Z.eqb_neq _ _) Hh). mstep reflexivity.
    unfold PmapBoot.assert. rewrite Hif. mstep reflexivity. rewrite Hcs. change (3 =? 3) with true. cbv iota.
    mstep (unfold lock_kernel; mstep (mstep reflexivity; cbn; rewrite (ac_lock _ _ _ _ _ _ _ _ Hat); reflexivity); mstep (apply curenv_some, lookup_insert_eq);
      cbn [cpu_env]; rewrite (ac_cur _ _ _ _ _ _ _ _ Hat); mstep (by apply get_env_some); rewrite (proj2 (Z.eqb_neq _ _) Hst); mstep reflexivity;
      by apply (upd_env_some _ c ce)).
    unfold bind. rewrite (trap_dispatch_fault cpu tf cr2 true Hno). match goal with |- context [page_fault_handler cpu tf cr2 ?x] => change x with s1 end. by rewrite Hrun.
Qed.
