(* ===== verification/UpcallSpec.v ===== *)
(** Copy-on-write faults from the faulting instruction back to it: the trap, the upcall of
    [lib/pfentry.S] with the handler of [lib/fork.c], and the return to the interrupted code. *)

From stdpp Require Import gmap.
From S2P Require Import Prelude Mmu Mem Console E1000 Pmap PmapBoot Env Sched Syscall Trap User Fork Upcall.
From S2P Require Import PmapAlloc PmapVm PmapRefs UserRep EnvMem EnvSetup KernInv SysMem UserMem UserVm ForkVm ForkRun CowRun.
From S2P Require Import SysEnv SchedSpec KernSafe UpcallRun Demo DemoKern DemoFork.

(** ** The handler called by the upcall *)

Section Handler.
Context {Mach : Machine} {Prog : Program} (cpu : Z).
Hypothesis uninit_nonzero : forall pgdir va, uninit_ptep pgdir va <> 0.

(** Private pages away from the fault stay private, with their contents. *)
Lemma copied_private u u' W W' c v w x a a' i wi :
  W !! c = Some a -> W' !! c = Some a' -> cow_copied u u' W W' c v w x a a' -> private W c a i wi -> i <> v -> i <> pf_page -> private W' c a' i wi.
Proof.
  intros Hc Hc' H [Hm HW Hs] Hv Hpf. pose proof (new_page x (cp_page _ _ _ _ _ _ _ _ _ _ H)) as Ex.
  assert (a'.(as_maps) !! i = Some wi) as Hm' by by rewrite (cp_maps _ _ _ _ _ _ _ _ _ _ H), !(proj2 (Z.eqb_neq _ _)).
  split; [done|done|]. intros j d k w' Hj Hk E. destruct (decide (j = c)) as [->|Hne].
  - assert (d = a') as -> by congruence. split; [done|]. revert Hk. rewrite (cp_maps _ _ _ _ _ _ _ _ _ _ H).
    destruct (k =? pf_page); [done|]. destruct (k =? v).
    + intros [= <-]. exfalso. apply (cp_fresh _ _ _ _ _ _ _ _ _ _ H c a i wi Hc Hm). congruence.
    + intros Hk. by apply (Hs c a k w').
  - rewrite (cp_others _ _ _ _ _ _ _ _ _ _ H j Hne) in Hj. by apply (Hs j d k w').
Qed.

(** So is the new page. *)
Lemma copied_new u u' W W' c v w x a a' :
  W !! c = Some a -> W' !! c = Some a' -> v <> pf_page -> cow_copied u u' W W' c v w x a a' -> private W' c a' v (mkpte x rw).
Proof.
  intros Hc Hc' Hv H. pose proof (cp_page _ _ _ _ _ _ _ _ _ _ H) as Hx. pose proof (new_page x Hx) as Ex. split.
  - rewrite (cp_maps _ _ _ _ _ _ _ _ _ _ H). by rewrite (proj2 (Z.eqb_neq _ _) Hv), Z.eqb_refl.
  - by rewrite (mkpte_flag x rw PTE_W Hx ltac:(by vm_compute) (or_intror eq_refl)).
  - rewrite Ex. intros j d k w' Hj Hk E. destruct (decide (j = c)) as [->|Hne].
    + assert (d = a') as -> by congruence. split; [done|]. revert Hk. rewrite (cp_maps _ _ _ _ _ _ _ _ _ _ H).
      destruct (k =? pf_page); [done|]. destruct (Z.eqb_spec k v); [done|]. intros Hk. by destruct (cp_fresh _ _ _ _ _ _ _ _ _ _ H c a k w' Hc Hk).
    + rewrite (cp_others _ _ _ _ _ _ _ _ _ _ H j Hne) in Hj. by destruct (cp_fresh _ _ _ _ _ _ _ _ _ _ H j d k w' Hj Hk).
Qed.

Lemma copied_usable u u' W W' c v w x a a' (P : Z -> Prop) :
  W !! c = Some a -> W' !! c = Some a' -> cow_copied u u' W W' c v w x a a' -> usable W c a P ->
  (forall y, P y -> PGNUM y <> v /\ PGNUM y <> pf_page) -> usable W' c a' P.
Proof.
  intros Hc Hc' H HP Hne y Hy. destruct (HP y Hy) as (Hr & wy & Hpv). destruct (Hne y Hy) as [H1 H2]. split; [done|]. exists wy.
  by apply (copied_private u u' W W' c v w x a a').
Qed.

Lemma copied_holds u u' W W' l l' fl ci c v w x a a' (P : Z -> Prop) f :
  uwf cpu u' W' l' fl ci c a' -> cow_copied u u' W W' c v w x a a' -> usable W c a P ->
  (forall y, P y -> PGNUM y <> v /\ PGNUM y <> pf_page) -> holds cpu W l fl ci c a P u f -> holds cpu W' l' fl ci c a' P u' f.
Proof.
  intros Hw' H HP Hne [Hw Hf]. split; [done|]. intros y Hy. rewrite <- (Hf y Hy). destruct (slot_page W c a P HP y Hy) as (Hr & wy & Hpv & E).
  destruct (Hne y (slot_head P y Hy)) as [H1 H2]. pose proof (uw_space _ _ _ _ _ _ _ _ Hw) as Hc.
  assert (upa a' y = upa a y) as Eu by (unfold upa; by rewrite (cp_maps _ _ _ _ _ _ _ _ _ _ H), !(proj2 (Z.eqb_neq _ _))).
  unfold word_at. rewrite Eu. apply ld32_ext. intros i Hi.
  apply (cp_kept _ _ _ _ _ _ _ _ _ _ H c a (PGNUM y) wy Hc (pv_map _ _ _ _ _ Hpv)); [done|]. rewrite E. destruct Hy as [Hal _]. clear -Hal Hi. unfold pte_pa. czdm.
Qed.

(** What the frame needs of the exception stack, with the two words of the call. *)
Definition on_xstack (ux y : Z) : Prop := ux - 8 <= y < ux + 52.

Lemma xstack_slot ux k : ux mod 4 = 0 -> -2 <= k < 13 -> slot (on_xstack ux) (ux + 4 * k).
Proof. intros Hal Hk. split; [clear -Hal; zdm|]. intros i Hi. unfold on_xstack. lia. Qed.

(** The call of [pgfault] on the exception stack. *)
Lemma fork_code_run u W l fl ci c a f x ux va w err sc :
  let back := u32 (sym_pgfault_upcall + 8) in
  holds cpu W l fl ci c a (on_xstack ux) u f -> usable W c a (on_xstack ux) -> ux mod 4 = 0 -> x.(x_esp) = ux - 8 ->
  f (ux - 8) = back -> f (ux - 4) = ux -> f ux = va -> f (ux + 4) = err ->
  0 <= va < UTOP -> PGNUM va <> pf_page -> a.(as_maps) !! PGNUM va = Some w -> nonzero (Z.land w PTE_COW) = true ->
  nonzero (Z.land err FEC_WR) = true -> (2 <= length l)%nat -> (forall y, on_xstack ux y -> PGNUM y <> PGNUM va /\ PGNUM y <> pf_page) ->
  exists u' W' l' a' xp x', fork_code cpu sc sym_pgfault (mkUm u x) = Ret tt (mkUm u' x') /\
    holds cpu W' l' fl ci c a' (on_xstack ux) u' f /\ usable W' c a' (on_xstack ux) /\ cow_copied u u' W W' c (PGNUM va) w xp a a' /\
    x'.(x_eip) = back /\ x'.(x_esp) = ux - 4 /\ Z.land x'.(x_eflags) (Z.lnot USER_FLAGS) = Z.land x.(x_eflags) (Z.lnot USER_FLAGS).
Proof.
  intros back Hh HP Hal Hx H8 H4 H0 He Hva Hpf Hm Hcow Herr Hl Hne. destruct x as [xa xc xd xb xsp xbp xsi xdi xip xfl]. cbn in Hx. subst xsp.
  pose proof (ho_uwf _ _ _ _ _ _ _ _ _ _ Hh) as Hw.
  destruct (pgfault_ok cpu uninit_nonzero u W l fl ci c a va w err Hw Hva Hpf Hm Hcow Herr Hl) as (u' & W' & l' & a' & xp & Hrun & Hw' & _ & Hcp).
  pose proof (copied_holds u u' W W' l l' fl ci c _ w xp a a' _ f Hw' Hcp HP Hne Hh) as Hh'.
  pose proof (copied_usable u u' W W' c _ w xp a a' _ (uw_space _ _ _ _ _ _ _ _ Hw) (uw_space _ _ _ _ _ _ _ _ Hw') Hcp HP Hne) as HP'.
  pose proof (xstack_slot ux (-2) Hal ltac:(lia)) as S8. pose proof (xstack_slot ux (-1) Hal ltac:(lia)) as S4.
  pose proof (xstack_slot ux 0 Hal ltac:(lia)) as S0. pose proof (xstack_slot ux 1 Hal ltac:(lia)) as S1.
  replace (ux + 4 * -2) with (ux - 8) in S8 by lia. replace (ux + 4 * -1) with (ux - 4) in S4 by lia.
  replace (ux + 4 * 0) with ux in S0 by lia. replace (ux + 4 * 1) with (ux + 4) in S1 by lia.
  pose proof (slot_range W c a _ HP _ S4). pose proof (slot_range W c a _ HP _ S1). assert (UTOP < 2 ^ 32) by by vm_compute.
  exists u', W', l', a', xp. eexists. split; [|split; [exact Hh'|split; [exact HP'|split; [exact Hcp|]]]].
  - unfold fork_code. rewrite Z.eqb_refl. unfold cdecl. mstep reflexivity. cbn [um_cpu x_reg x_esp]. replace (ux - 8 + 4) with (ux - 4) by lia.
    rewrite u32_small by lia. mstep (by apply on_user_ret, (load_slot cpu W l fl ci c a _ HP u f)). rewrite H4.
    mstep (apply on_user_ret; unfold pgfault_utf; mstep (by apply (load_slot cpu W l fl ci c a _ HP u f)); rewrite u32_small by lia;
           mstep (by apply (load_slot cpu W l fl ci c a _ HP u f)); rewrite H0, He; exact Hrun).
    mstep reflexivity. mstep reflexivity. mstep reflexivity. mstep reflexivity. unfold ret_near.
    cbn [um_cpu set_um_cpu um_user set_reg set_x_eflags x_eflags].
    mstep (by apply (pop_run cpu W' l' fl ci c a' _ HP' u' f)). reflexivity.
  - cbn. split; [exact H8|]. split; [lia|]. by apply mix_keep.
Qed.

(** The word below the trap-time stack pointer can be written once the handler is done: it is
    private memory already, or in the page of the fault. *)
Definition work_area (ux esp y : Z) : Prop := on_xstack ux y \/ esp - 4 <= y < esp.

Definition stack_ready (W : gmap Z aspace) (c : Z) (a : aspace) (va esp : Z) : Prop :=
  4 <= esp <= UTOP /\ esp mod 4 = 0 /\ PGNUM (esp - 4) <> pf_page /\ (PGNUM (esp - 4) = PGNUM va \/ exists w, private W c a (PGNUM (esp - 4)) w).

Lemma work_usable u u' W W' c va w x a a' ux esp :
  W !! c = Some a -> W' !! c = Some a' -> PGNUM va <> pf_page -> cow_copied u u' W W' c (PGNUM va) w x a a' ->
  usable W' c a' (on_xstack ux) -> stack_ready W c a va esp -> usable W' c a' (work_area ux esp).
Proof.
  intros Hc Hc' Hpf H HP ((H1 & H2) & Hal & Hnp & Hst) y [Hy|Hy]; [by apply HP|]. split; [lia|].
  assert (UTOP < 2 ^ 32) by by vm_compute. assert (PGNUM y = PGNUM (esp - 4)) as -> by (rewrite !PGNUM_div by lia; clear -Hal Hy; czdm).
  destruct (decide (PGNUM (esp - 4) = PGNUM va)) as [->|Hne]; [exists (mkpte x rw); by apply (copied_new u u' W W' c _ w x a a')|].
  destruct Hst as [|[wy Hpv]]; [done|]. exists wy. by apply (copied_private u u' W W' c (PGNUM va) w x a a').
Qed.

Lemma upcall_cow_run u W l fl ci c a x ux va w tf sc :
  uwf cpu u W l fl ci c a -> u.(u_handler) = sym_pgfault -> 0 <= sym_pgfault < 2 ^ 32 ->
  framed (word_at a u) ux va tf -> usable W c a (on_xstack ux) -> ux mod 4 = 0 -> (forall y, on_xstack ux y -> PGNUM y <> PGNUM va /\ PGNUM y <> pf_page) ->
  stack_ready W c a va tf.(tf_esp) -> tf.(tf_esp) <= ux - 8 \/ ux + 52 <= tf.(tf_esp) - 4 ->
  x.(x_esp) = ux -> x.(x_eip) = sym_pgfault_upcall -> x.(x_eflags) = tf.(tf_eflags) ->
  0 <= va < UTOP -> PGNUM va <> pf_page -> a.(as_maps) !! PGNUM va = Some w -> nonzero (Z.land w PTE_COW) = true ->
  nonzero (Z.land tf.(tf_err) FEC_WR) = true -> (2 <= length l)%nat ->
  exists u2 u3 u' W' l' a' xp, pgfault_upcall cpu (fork_code cpu sc) (mkUm u x) = Ret tt (mkUm u' (of_tf tf)) /\ uwf cpu u' W' l' fl ci c a' /\
    touched a (on_xstack ux) u u2 /\ cow_copied u2 u3 W W' c (PGNUM va) w xp a a' /\ usable W' c a' (work_area ux tf.(tf_esp)) /\
    touched a' (work_area ux tf.(tf_esp)) u3 u'.
Proof.
  intros Hw Hhd Hsym Hfr HP Hal Hne Hst Hap Hx Hip Hfl Hva Hpf Hm Hcow Herr Hl. assert (UTOP < 2 ^ 32) as HU by by vm_compute.
  pose proof (xstack_slot ux (-2) Hal ltac:(lia)) as S8. pose proof (xstack_slot ux (-1) Hal ltac:(lia)) as S4.
  replace (ux + 4 * -2) with (ux - 8) in S8 by lia. replace (ux + 4 * -1) with (ux - 4) in S4 by lia.
  pose proof (slot_range W c a _ HP _ S8) as R8. pose proof (slot_range W c a _ HP _ (xstack_slot ux 12 Hal ltac:(lia))) as R12.
  set (f := word_at a u). assert (holds cpu W l fl ci c a (on_xstack ux) u f) as Hh by by split.
  destruct (enter_run cpu W l fl ci c a _ HP (fork_code cpu sc) u f x ux Hh S4 S8 Hx Hip ltac:(lia) ltac:(by rewrite Hhd)) as (u2 & Hh2 & Ht2 & Hrun).
  rewrite Hhd in Hrun. set (back := u32 (sym_pgfault_upcall + 8)) in *. set (x2 := set_reg ESP _ _) in Hrun. set (f2 := upd _ _ _) in Hh2.
  assert (forall k w, utf_words va tf !! k = Some w -> f2 (ux + 4 * Z.of_nat k) = w) as Hfr2.
  { intros k w' Hk. unfold f2, upd. rewrite !(proj2 (Z.eqb_neq _ _)) by lia. by apply Hfr. }
  destruct (fork_code_run u2 W l fl ci c a f2 x2 ux va w tf.(tf_err) sc Hh2 HP Hal) as (u3 & W' & l' & a' & xp & x3 & Hcode & Hh3 & HP3 & Hcp & Hip3 & Hx3 & Hfl3); try done.
  { unfold x2. by destruct x. } { unfold f2, upd. by rewrite Z.eqb_refl. }
  { unfold f2, upd. rewrite (proj2 (Z.eqb_neq _ _)) by lia. by rewrite Z.eqb_refl. }
  { rewrite <- (Hfr2 0%nat _ eq_refl). f_equal. lia. } { rewrite <- (Hfr2 1%nat _ eq_refl). f_equal. }
  pose proof (ho_uwf _ _ _ _ _ _ _ _ _ _ Hh3) as Hw3.
  pose proof (work_usable u2 u3 W W' c va w xp a a' ux tf.(tf_esp) (uw_space _ _ _ _ _ _ _ _ Hw) (uw_space _ _ _ _ _ _ _ _ Hw3) Hpf Hcp HP3 Hst) as HP4.
  destruct (leave_run cpu W' l' fl ci c a' _ HP4 (fork_code cpu sc) u3 (word_at a' u3) x3 ux va tf) as (u' & f' & Hrun' & Hh' & Ht'); try done.
  - intros k w' Hk. rewrite <- (Hfr2 k w' Hk). apply (ho_word _ _ _ _ _ _ _ _ _ _ Hh3). apply xstack_slot; [done|]. apply lookup_lt_Some in Hk. cbn in Hk. lia.
  - intros k Hk. destruct (xstack_slot ux k Hal ltac:(lia)) as [H1 H2]. split; [done|]. intros i Hi. left. by apply H2.
  - destruct Hst as (_ & Hal' & _). split; [clear -Hal'; zdm|]. intros i Hi. right. lia.
  - lia.
  - lia.
  - destruct Hst as (Hr & _). lia.
  - rewrite Hfl3. unfold x2. destruct x. cbn in Hfl |- *. by rewrite Hfl.
  - exists u2, u3, u', W', l', a', xp. split; [by rewrite (Hrun u3 x3 Hcode Hip3)|]. by split; [apply Hh'|].
Qed.
End Handler.

(** ** The frame in memory *)

Lemma word_bytes_lookup (ws : list Z) k w i b :
  ws !! k = Some w -> word_bytes w !! i = Some b -> mjoin (word_bytes <$> ws) !! (4 * k + i)%nat = Some b.
Proof.
  revert k. induction ws as [|v ws IH]; intros [|k] Hk Hi; [done|done| |].
  - injection Hk as ->. cbn [fmap list_fmap mjoin list_join]. by rewrite lookup_app_l by (by eapply lookup_lt_Some).
  - cbn [fmap list_fmap mjoin list_join]. rewrite lookup_app_r by (cbn; lia). change (length (word_bytes v)) with 4%nat.
    replace (4 * S k + i - 4)%nat with (4 * k + i)%nat by lia. by apply IH.
Qed.

Lemma word_bytes_at w i : 0 <= i < 4 -> exists b, word_bytes w !! Z.to_nat i = Some b /\ u8 b = ld8 (st32 ∅ 0 w) (0 + i).
Proof.
  intros Hi. rewrite ld8_st32. unfold word_bytes. rewrite !Z.shiftr_div_pow2 by lia.
  assert (i = 0 \/ i = 1 \/ i = 2 \/ i = 3) as [->|[->|[->| ->]]] by lia; (eexists; split; [reflexivity|]); cbn [Z.eqb Z.add Pos.eqb Pos.add]; by rewrite u8_idem.
Qed.

Lemma frame_put a ux fault_va tf m :
  writable a ux 52 -> ux mod 4 = 0 -> Forall (fun w => 0 <= w < 2 ^ 32) (utf_words fault_va tf) ->
  forall (k : nat) w, utf_words fault_va tf !! k = Some w -> ld32 (put_bytes a ux (utf_bytes fault_va tf) m) (upa a (ux + 4 * Z.of_nat k)) = w.
Proof.
  intros Hwr Hal Hws k w Hk. rewrite Forall_lookup in Hws. pose proof (Hws k w Hk) as Hw. rewrite <- (u32_small w Hw). rewrite <- (ld32_st32_eq ∅ 0 w).
  apply ld32_ext. intros i Hi. destruct (word_bytes_at w i Hi) as (b & Hb & Eb). rewrite <- Eb.
  assert (Z.of_nat k < 13) as Hlt by (apply lookup_lt_Some in Hk; cbn in Hk; lia). destruct (wr_range _ _ _ Hwr) as [H1 H2]. assert (UTOP < 2 ^ 32) by by vm_compute.
  assert (upa a (ux + 4 * Z.of_nat k) + i = upa a (ux + 4 * Z.of_nat k + i)) as ->.
  { assert ((ux + 4 * Z.of_nat k) mod 4 = 0) as Hal' by (clear -Hal; zdm). pose proof (wr_page _ _ _ Hwr (ux + 4 * Z.of_nat k) ltac:(lia)) as Hp. unfold page_ok in Hp.
    assert (PGNUM (ux + 4 * Z.of_nat k + i) = PGNUM (ux + 4 * Z.of_nat k)) as E by (rewrite !PGNUM_div by lia; clear -Hal Hi; czdm).
    unfold upa. rewrite E. destruct (a.(as_maps) !! _) as [v|]; [|done]. unfold pte_pa. clear -Hal' Hi. revert Hal'. generalize (ux + 4 * Z.of_nat k). intros y Hy. czdm. }
  apply put_bytes_at; [exact Hwr|lia|]. replace (Z.to_nat (ux + 4 * Z.of_nat k + i - ux)) with (4 * k + Z.to_nat i)%nat by lia.
  exact (word_bytes_lookup (utf_words fault_va tf) k w _ b Hk Hb).
Qed.

(** ** From the fault back to it *)

(** A page fault of user code on a write to [va], as the hardware and [trapentry.S] leave it. *)
Record write_fault (tf : Trapframe) (va : Z) : Prop := {
  wf_user : Z.land tf.(tf_cs) 3 = 3;
  wf_no : tf.(tf_trapno) = T_PGFLT;
  wf_err : nonzero (Z.land tf.(tf_err) FEC_WR) = true;
  wf_words : Forall (fun w => 0 <= w < 2 ^ 32) (utf_words va tf);
}.

(** The two stacks: the exception stack below the frame and its spare word is private memory
    away from the fault, and the interrupted code has an aligned stack with a word to spare. *)
Record stacks_ready (W : gmap Z aspace) (c : Z) (a : aspace) (tf : Trapframe) (va : Z) : Prop := {
  st_top : tf.(tf_esp) <= UXSTACKTOP;
  st_frame : usable W c a (on_xstack (frame_at tf.(tf_esp)));
  st_spare : USTACKTOP <= tf.(tf_esp) -> usable W c a (fun y => tf.(tf_esp) - 4 <= y < tf.(tf_esp));
  st_apart : forall y, on_xstack (frame_at tf.(tf_esp)) y -> PGNUM y <> PGNUM va /\ PGNUM y <> pf_page;
  st_stack : stack_ready W c a va tf.(tf_esp);
}.

(** What the fault leaves: [c] has a private page at [va]; outside its work area and [PFTEMP] it
    reads what it read, and nobody else sees a change. *)
Record fault_served (p p' : pmap) (W W' : gmap Z aspace) (c va ux esp : Z) (a a' : aspace) : Prop := {
  fs_private : exists w, private W' c a' (PGNUM va) w;
  fs_reads : forall y, 0 <= y < 2 ^ 32 -> PGNUM y <> pf_page -> ~ work_area ux esp y -> ubyte p' a' y = ubyte p a y;
  fs_others : forall j, j <> c -> W' !! j = W !! j;
  fs_memory : forall j d y, j <> c -> W !! j = Some d -> 0 <= y < 2 ^ 32 -> ubyte p' d y = ubyte p d y;
}.

(** The steps of the fault, one after the other: the frame, the upcall up to the handler, the
    handler, and the way back. *)
Section Served.
Variables (p : pmap) (u1 u2 u3 u4 : user) (W W' : gmap Z aspace) (c va w x ux esp : Z) (a a' : aspace) (bs : list Z).
Hypothesis Hc : W !! c = Some a.
Hypothesis Hc' : W' !! c = Some a'.
Hypothesis Hpf : PGNUM va <> pf_page.
Hypothesis Hm : a.(as_maps) !! PGNUM va = Some w.
Hypothesis Hbs : length bs = 52%nat.
Hypothesis H1 : u1.(u_kern).(pm).(pmem) = put_bytes a ux bs p.(pmem).
Hypothesis H2 : touched a (on_xstack ux) u1 u2.
Hypothesis H3 : cow_copied u2 u3 W W' c (PGNUM va) w x a a'.
Hypothesis H4 : touched a' (work_area ux esp) u3 u4.
Hypothesis HP : usable W c a (on_xstack ux).
Hypothesis HP' : usable W' c a' (work_area ux esp).

Abbreviation bytes u := (ld8 u.(u_kern).(pm).(pmem)).

Lemma entry_kept j d y w' :
  W !! j = Some d -> d.(as_maps) !! PGNUM y = Some w' -> 0 <= y < 2 ^ 32 -> (j = c -> ~ on_xstack ux y) -> bytes u2 (pte_pa w' y) = ld8 p.(pmem) (pte_pa w' y).
Proof.
  intros Hj Hd Hy Hn. pose proof (fun y0 H0 => usable_unseen W c a _ y0 j d y w' Hc HP H0 Hj Hd Hy Hn) as Hun.
  rewrite (to_mem _ _ _ _ H2) by done. rewrite H1. apply put_bytes_other. rewrite Hbs. intros y0 Hy0. apply Hun. unfold on_xstack. lia.
Qed.

Lemma exit_kept j d y w' :
  W' !! j = Some d -> d.(as_maps) !! PGNUM y = Some w' -> 0 <= y < 2 ^ 32 -> (j = c -> ~ work_area ux esp y) -> bytes u4 (pte_pa w' y) = bytes u3 (pte_pa w' y).
Proof. intros Hj Hd Hy Hn. apply (to_mem _ _ _ _ H4). intros y0 H0. by apply (usable_unseen W' c a' (work_area ux esp) y0 j d). Qed.

Lemma steps_served : fault_served p u4.(u_kern).(pm) W W' c va ux esp a a'.
Proof.
  pose proof (cp_page _ _ _ _ _ _ _ _ _ _ H3) as Hx. pose proof (new_page x Hx) as Ex. pose proof (copied_new u2 u3 W W' c _ w x a a' Hc Hc' Hpf H3) as Hnew.
  split; [by eexists| |apply (cp_others _ _ _ _ _ _ _ _ _ _ H3)|].
  - intros y Hy Hyp Hyw. assert (~ on_xstack ux y) as Hyx by (intros H; apply Hyw; by left). unfold ubyte, reach.
    destruct (decide (PGNUM y = PGNUM va)) as [E|E].
    + pose proof (pv_map _ _ _ _ _ Hnew) as Hn. rewrite E, Hn, Hm. cbn [andb fmap option_fmap option_map]. f_equal. rewrite <- E in Hn.
      rewrite (exit_kept c a' y _ Hc' Hn Hy (fun _ => Hyw)). rewrite <- (entry_kept c a y w Hc ltac:(by rewrite E) Hy (fun _ => Hyx)).
      unfold pte_pa. rewrite Ex. apply (cp_bytes _ _ _ _ _ _ _ _ _ _ H3). clear. czdm.
    + assert (a'.(as_maps) !! PGNUM y = a.(as_maps) !! PGNUM y) as Em by by rewrite (cp_maps _ _ _ _ _ _ _ _ _ _ H3), !(proj2 (Z.eqb_neq _ _)).
      rewrite Em. destruct (a.(as_maps) !! PGNUM y) as [w'|] eqn:Hw'; [|done]. cbn [andb fmap option_fmap option_map]. f_equal.
      rewrite (exit_kept c a' y w' Hc' Em Hy (fun _ => Hyw)), <- (entry_kept c a y w' Hc Hw' Hy (fun _ => Hyx)).
      apply (cp_kept _ _ _ _ _ _ _ _ _ _ H3 c a (PGNUM y) w' Hc Hw' ltac:(done)). apply pte_pa_page.
  - intros j d y Hj Hd Hy. unfold ubyte, reach. destruct (d.(as_maps) !! PGNUM y) as [w'|] eqn:Hw'; [|done]. cbn [andb fmap option_fmap option_map]. f_equal.
    assert (W' !! j = Some d) as Hd' by by rewrite (cp_others _ _ _ _ _ _ _ _ _ _ H3 j Hj).
    rewrite (exit_kept j d y w' Hd' Hw' Hy ltac:(done)), <- (entry_kept j d y w' Hd Hw' Hy ltac:(done)).
    apply (cp_kept _ _ _ _ _ _ _ _ _ _ H3 j d (PGNUM y) w' Hd Hw' ltac:(done)). apply pte_pa_page.
Qed.
End Served.

Lemma frame_aligned esp : esp mod 4 = 0 -> frame_at esp mod 4 = 0.
Proof. intros H. unfold frame_at, sizeof_UTrapframe. destruct (_ <? _); [by vm_compute|]. clear -H. zdm. Qed.

Lemma frame_off_stack esp : esp <= frame_at esp - 8 \/ frame_at esp + 52 <= esp - 4.
Proof. unfold frame_at, sizeof_UTrapframe. destruct (Z.ltb_spec esp USTACKTOP) as [H|H]; [left; revert H; consts; lia|right; lia]. Qed.

(** The range the kernel checks, and the part of it the frame takes. *)
Lemma stacks_writable W c a tf va :
  W !! c = Some a -> stacks_ready W c a tf va ->
  writable a (frame_at tf.(tf_esp)) 52 /\ writable a (frame_at tf.(tf_esp)) (frame_room tf.(tf_esp)).
Proof.
  intros Hc [_ Hf Hsp _ _]. split; apply (usable_writable W c a); try done.
  - apply (usable_mono _ _ _ _ _ Hf). unfold on_xstack. lia.
  - unfold frame_room, sizeof_UTrapframe. destruct (_ <? _); done.
  - intros y Hy. revert Hy. unfold frame_room, sizeof_UTrapframe. destruct (Z.ltb_spec tf.(tf_esp) USTACKTOP) as [H|H]; intros Hy.
    + apply Hf. unfold on_xstack. lia.
    + destruct (decide (y < frame_at tf.(tf_esp) + 52)) as [Hlt|Hge]; [apply Hf; unfold on_xstack; lia|]. apply (Hsp H). revert Hy Hge.
      unfold frame_at, sizeof_UTrapframe. rewrite (proj2 (Z.ltb_ge _ _) H). lia.
Qed.

Section Claims.
Context {Mach : Machine} {Prog : Program} (cpu : Z).
Hypothesis uninit_nonzero : forall pgdir va, uninit_ptep pgdir va <> 0.
Hypothesis upcall_linked : sym_pgfault_upcall <> 0.
Hypothesis handler_linked : 0 <= sym_pgfault < 2 ^ 32.

(** C9: A write to a copy-on-write page traps, the kernel leaves for [_pgfault_upcall] on the
    exception stack, the upcall calls [pgfault] and returns: all registers, flags and the
    program counter are what they were at the faulting instruction, the store it tries again
    finds a private page with the old contents and succeeds, other bytes the environment
    reads (but for the exception stack, the word below its stack pointer and [PFTEMP]) are
    unchanged, and no other environment sees anything.  The stack of the interrupted code may
    itself be the page that faulted, and the fault may be one of the handler itself. *)
Theorem cow_fault_resumes s W l fl ci c ce a tf va w eflags self sc v :
  at_cpu cpu None (Some c) s W l fl ci -> W !! c = Some a -> s.(envs) !! c = Some ce ->
  ci.(cpu_status) <> CPU_HALTED -> ce.(env_status) = ENV_RUNNING -> ce.(env_pgfault_upcall) = sym_pgfault_upcall ->
  nonzero (Z.land eflags FL_IF) = false -> write_fault tf va -> stacks_ready W c a tf va ->
  0 <= va < UTOP -> PGNUM va <> pf_page -> a.(as_maps) !! PGNUM va = Some w -> nonzero (Z.land w PTE_COW) = true -> (2 <= length l)%nat ->
  exists s1 e1 u' W' l' ci' a' u'', trap cpu tf va eflags s = Iret c s1 /\ s1.(envs) !! c = Some e1 /\
    pgfault_upcall cpu (fork_code cpu sc) (mkUm (mkUser s1 self sym_pgfault) (of_tf e1.(env_tf))) = Ret tt (mkUm u' (of_tf tf)) /\
    uwf cpu u' W' l' fl ci' c a' /\ fault_served s.(pm) u'.(u_kern).(pm) W W' c va (frame_at tf.(tf_esp)) tf.(tf_esp) a a' /\
    ust8 cpu va v u' = Ret tt u'' /\ ubyte u''.(u_kern).(pm) a' va = Some (u8 v).
Proof.
  intros Hat Ha Hce Hh Hst Hup Hif [Hcs Hno Herr Hws] Hsr Hva Hpf Hm Hcow Hl. set (ux := frame_at tf.(tf_esp)) in *.
  destruct (trap_fault_entry cpu s W l fl ci c ce tf va eflags Hat Hh Hce ltac:(by rewrite Hst) Hcs Hno Hif) as [Hat1 Htrap].
  set (s0 := fault_entry _ _ _ _ _ _) in *. destruct (stacks_writable W c a tf va Ha Hsr) as [Hw52 Hwr].
  assert (0 <= tf.(tf_esp) <= UXSTACKTOP) as Hesp by (split; [destruct (st_stack _ _ _ _ _ Hsr) as (H & _); lia|apply Hsr]).
  destruct (page_fault_run cpu s0 W l fl _ c (set_env_tf tf ce) a Hat1 Ha (lookup_insert_eq _ _ _) tf va) as [Hrun Hwf]; [intros E; by rewrite E in Hcs|by cbn; rewrite Hup|done|done|].
  fold ux in Hrun, Hwf. set (s1 := in_upcall _ _ _ _ _ _) in *. specialize (Htrap c s1 Hrun). set (u1 := mkUser s1 self sym_pgfault).
  set (e1 := set_env_cpunum cpu (set_env_tf (set_eip_esp (env_pgfault_upcall (set_env_tf tf ce)) ux (env_tf (set_env_tf tf ce))) (set_env_tf tf ce))).
  set (ci1 := mkCpu CPU_STARTED (Some c) ci.(cpu_cr3)) in *.
  assert (uwf cpu u1 W l fl ci1 c a) as Hu1.
  { split; [exact Hwf| |done|exact (fault_cr3 cpu s0 W l fl ci1 c a Hat1 Ha)]. split; [exact (ac_cpu _ _ _ _ _ _ _ _ Hat1)|done|by exists a]. }
  assert (ux mod 4 = 0) as Hal by by apply frame_aligned, (st_stack _ _ _ _ _ Hsr).
  destruct (upcall_cow_run cpu uninit_nonzero u1 W l fl ci1 c a (of_tf e1.(env_tf)) ux va w tf sc Hu1 eq_refl handler_linked) as
    (u2 & u3 & u4 & W' & l' & a' & x & Hup4 & Hu4 & H2 & H3 & HP4 & H4); try (done || apply Hsr).
  { intros k wk Hk. exact (frame_put a ux va tf _ Hw52 Hal Hws k wk Hk). } { apply frame_off_stack. }
  pose proof (steps_served s.(pm) u1 u2 u3 u4 W W' c va w x ux tf.(tf_esp) a a' (utf_bytes va tf) Ha (uw_space _ _ _ _ _ _ _ _ Hu4) Hpf Hm eq_refl eq_refl H2 H3 H4
    (st_frame _ _ _ _ _ Hsr) HP4) as Hserved.
  destruct (fs_private _ _ _ _ _ _ _ _ _ _ Hserved) as [wn [Hn HWn _]].
  exists s1, e1, u4, W', l', ci1, a', (poke u4 (pte_pa wn va) v). split; [exact Htrap|]. split; [apply lookup_insert_eq|]. split; [exact Hup4|]. split; [exact Hu4|]. split; [exact Hserved|].
  split; [exact (ust8_run cpu u4 W' l' fl ci1 c a' Hu4 va v wn Hva Hn HWn)|]. unfold ubyte, reach. rewrite Hn. cbn. by rewrite ld8_st8, Z.eqb_refl.
Qed.
End Claims.

(** ** Witness *)

(** A push of environment 0 onto a stack page that is copy-on-write. *)
Definition push_frame : Trapframe :=
  mkTf (mkRegs 1 2 3 0 4 5 6 7) 0x23 0x23 T_PGFLT 7 0x800020 0x1b 0x202 (demo_va + 0x100) 0x23.

Definition demo_cow : aspace := with_map 1024 (mkpte 2 0x805) demo_space.

Lemma demo_env_ok i : env_ok (demo_env i).
Proof. unfold demo_env. by destruct (i =? 0). Qed.

Lemma demo_upcall_ok : env_ok (set_env_upcall sym_pgfault_upcall (demo_env 0)).
Proof. by vm_compute. Qed.

(** The program has an exception stack and has registered the upcall. *)
Lemma demo_fault_state :
  exists s W l a, at_cpu 0 None (Some 0) s W l (seqZ 1 1023) demo_cpu /\ W !! 0 = Some a /\ (2 <= length l)%nat /\
    s.(envs) !! 0 = Some (set_env_upcall sym_pgfault_upcall (demo_env 0)) /\ a.(as_maps) !! 1024 = Some (mkpte 2 0x805) /\
    private W 0 a ux_page (mkpte 12 rw).
Proof.
  destruct (demo_reflag 0x805 eq_refl eq_refl ltac:(by vm_compute)) as (p' & _ & Hw). set (u0 := with_pm p' demo_user) in *. fold demo_cow in Hw.
  destruct (alloc_private 0 demo_uninit u0 _ 12 [11; 10; 9; 8; 7; 6; 4; 5] _ _ 0 _ 0 0 (UXSTACKTOP - PGSIZE) demo_cow Hw ltac:(lia) ltac:(by vm_compute) eq_refl
    ltac:(simpl; lia) eq_refl (lookup_insert_eq _ _ _)) as (u1 & W1 & l1 & a' & a1 & _ & Hw1 & Hgp).
  assert (a' = a1) as -> by (pose proof (uw_space _ _ _ _ _ _ _ _ Hw1); pose proof (gp_space _ _ _ _ _ _ _ _ _ _ _ Hgp); congruence).
  assert (u1.(u_kern).(envs) = demo_envs) as Hen by by rewrite (gp_user _ _ _ _ _ _ _ _ _ _ _ Hgp).
  assert (demo_envs !! 0 = Some (demo_env 0)) as H0 by by apply demo_envs_lookup.
  destruct (usys_upcall_run 0 u1 W1 l1 _ _ 0 a1 0 0 (demo_env 0) sym_pgfault_upcall Hw1 ltac:(lia) demo_sym ltac:(by rewrite Hen) ltac:(by rewrite Hen)) as [_ Hw2].
  set (k2 := set_envs _ _) in Hw2. exists (set_kernel_lock None k2), W1, l1, a1. pose proof (gp_maps _ _ _ _ _ _ _ _ _ _ _ Hgp) as Hmaps. fold ux_page in Hmaps.
  split; [|split; [apply Hgp|split; [pose proof (gp_room _ _ _ _ _ _ _ _ _ _ _ Hgp) as H; simpl in H; lia|split; [apply lookup_insert_eq|split]]]].
  - split; [apply (kern_wf_ext k2 _ _ _ _ (uw_kern _ _ _ _ _ _ _ _ Hw2)); done| | | | |done].
    + intros i e Hi. cbn [set_kernel_lock k2 set_envs envs] in Hi. rewrite Hen in Hi. apply lookup_insert_Some in Hi as [[<- <-]|[_ Hi]]; [exact demo_upcall_ok|].
      apply demo_envs_some in Hi as [_ ->]. exact (demo_env_ok i).
    + apply (uw_caller _ _ _ _ _ _ _ _ Hw2).
    + done.
    + intros c [= <-]. exists a1. split; [apply Hw2|apply Hw2].
  - rewrite Hmaps. by vm_compute.
  - split; [by rewrite Hmaps, Z.eqb_refl|by vm_compute|]. intros j d i w' Hj Hi E. change (pte_page (mkpte 12 rw)) with 12 in E.
    destruct (decide (j = 0)) as [->|Hne].
    + assert (d = a1) as -> by (rewrite (gp_space _ _ _ _ _ _ _ _ _ _ _ Hgp) in Hj; congruence). split; [done|]. rewrite Hmaps in Hi.
      destruct (Z.eqb_spec i ux_page); [done|]. exfalso. cbn [demo_cow with_map as_maps demo_space] in Hi.
      apply lookup_insert_Some in Hi as [[_ <-]|[_ [_ <-]%lookup_singleton_Some]]; by vm_compute in E.
    + exfalso. rewrite (gp_others _ _ _ _ _ _ _ _ _ _ _ Hgp j Hne), lookup_insert_ne in Hj by exact (not_eq_sym Hne). apply demo_world_inv in Hj as [Hj _]. exact (Hne Hj).
Qed.

Lemma demo_xstack y : on_xstack (frame_at push_frame.(tf_esp)) y -> 0 <= y < UTOP /\ PGNUM y = ux_page.
Proof.
  unfold on_xstack. change (frame_at push_frame.(tf_esp)) with 4005560268. change UTOP with 4005560320. intros H. split; [lia|].
  rewrite PGNUM_div by lia. rewrite ux_page_val. change PGSIZE with 4096. clear -H. zdm.
Qed.

Lemma demo_stacks W a : private W 0 a ux_page (mkpte 12 rw) -> stacks_ready W 0 a push_frame (demo_va + 0xfc).
Proof.
  intros Hp. split.
  - by vm_compute.
  - intros y [Hr Hy]%demo_xstack. split; [done|]. rewrite Hy. by eexists.
  - intros H. by vm_compute in H.
  - intros y [_ ->]%demo_xstack. by split; vm_compute.
  - split; [by vm_compute|]. split; [done|]. split; [by vm_compute|]. by left.
Qed.

Lemma demo_linked : sym_pgfault_upcall <> 0 /\ 0 <= sym_pgfault < 2 ^ 32.
Proof. by split; vm_compute. Qed.

Lemma cow_fault_resumes_witness :
  exists s s1 e1 u', trap 0 push_frame (demo_va + 0xfc) 0 s = Iret 0 s1 /\ s1.(envs) !! 0 = Some e1 /\
    pgfault_upcall 0 (fork_code 0 (mkScratch 0 0 0 0)) (mkUm (mkUser s1 0 sym_pgfault) (of_tf e1.(env_tf))) = Ret tt (mkUm u' (of_tf push_frame)).
Proof.
  destruct demo_fault_state as (s & W & l & a & Hat & Ha & Hl & He & Hm & Hp).
  destruct (cow_fault_resumes 0 demo_uninit (proj1 demo_linked) (proj2 demo_linked) s W l (seqZ 1 1023) demo_cpu 0 _ a push_frame (demo_va + 0xfc) (mkpte 2 0x805) 0 0
    (mkScratch 0 0 0 0) 42 Hat Ha He) as (s1 & e1 & u' & W' & l' & ci' & a' & u'' & H1 & H2 & H3 & _); try done.
  - split; [done|done|done|]. repeat constructor; by vm_compute.
  - by apply demo_stacks.
  - by exists s, s1, e1, u'.
Defined.
