(* ===== verification/ElfLoad.v ===== *)
(** Loading a program ([region_alloc] and [load_icode] of [kern/env.c]): the address space of
    a new environment grows by fresh pages only, and the segments of the image end up in it. *)

From stdpp Require Import gmap.
From S2P Require Import Prelude Mmu Mem Console E1000 Pmap PmapBoot Env Sched Syscall Trap User.
From S2P Require Import PmapAlloc PmapVm PmapRefs UserRep EnvMem EnvSetup KernInv SysMem UserMem UserVm.

(** ** The image *)

(** A loadable segment: where it goes, its size in memory and its bytes in the file. *)
Record segment := mkSeg {
  sg_va : Z;
  sg_memsz : Z;
  sg_file : list Z;
}.

(** The program header at physical address [h] of the image at physical address [b]. *)
Definition seg_of (m : mem) (b h : Z) : option segment :=
  if ld32 m h =? ELF_PROG_LOAD then
    Some (mkSeg (ld32 m (h + 8)) (ld32 m (h + 20)) (ld_bytes m (b + ld32 m (h + 4)) (Z.to_nat (ld32 m (h + 16)))))
  else None.

Definition phdr (m : mem) (b i : Z) : Z := b + ld32 m (b + 28) + 32 * i.

Definition segments (m : mem) (b : Z) : list segment := omap (fun i => seg_of m b (phdr m b i)) (seqZ 0 (ld16 m (b + 44))).

(** Byte [j] of a segment in memory: from the file, then zeros. *)
Definition seg_byte (sg : segment) (j : Z) : Z := default 0 (sg.(sg_file) !! Z.to_nat j).

(** The pages of [len] bytes at [va]. *)
Definition first_page (va : Z) : Z := va / PGSIZE.
Definition end_page (va len : Z) : Z := (va + len + PGSIZE - 1) / PGSIZE.
Definition on_pages (va len v : Z) : Prop := first_page va <= v < end_page va len.

(** The number of pages of a segment. *)
Definition seg_pages (sg : segment) : Z := end_page sg.(sg_va) sg.(sg_memsz) - first_page sg.(sg_va).

Definition rwu : Z := Z.lor PTE_W PTE_U.

Lemma rwu_ok : 0 <= rwu < PGSIZE /\ bits_set rwu PTE_U = true /\ bits_set rwu PTE_W = true.
Proof. by vm_compute. Qed.

(** ** The space under construction *)

(** Environment [i], with its directory in page [d], is given pages of [L]; [W] are the other
    spaces and [m0] is the memory at the start. *)
Record building (W : gmap Z aspace) (L fl : list Z) (i d : Z) (m0 : mem) (k : kern) (a : aspace) (l : list Z) : Prop := {
  bd_wf : kern_wf k (<[i := a]> W) l fl;
  bd_dir : a.(as_dir) = d;
  bd_fresh : forall v w, a.(as_maps) !! v = Some w -> exists x, x ∈ L /\ 0 <= x < 65536 /\ w = mkpte x rwu;
  bd_inj : forall v v' w w', a.(as_maps) !! v = Some w -> a.(as_maps) !! v' = Some w' -> pte_page w = pte_page w' -> v = v';
  bd_tabs : forall q, owns a q -> q = d \/ q ∈ L;
  bd_free : forall x, x ∈ l -> x ∈ L;
  bd_frame : same_outside (fun q => owned W q \/ q = d \/ q ∈ L) m0 k.(pm).(pmem);
}.

(** The pages mapped in [a] keep their bytes. *)
Definition keeps (a : aspace) (m m' : mem) : Prop :=
  forall v w b, a.(as_maps) !! v = Some w -> b / PGSIZE = pte_page w -> ld8 m' b = ld8 m b.

Section Load.
Context {Mach : Machine} (cpu : Z).
Hypothesis uninit_nonzero : forall pgdir va, uninit_ptep pgdir va <> 0.
Variables (W : gmap Z aspace) (L fl : list Z) (i d : Z) (m0 : mem).
Abbreviation bld := (building W L fl i d m0).

Lemma bd_space k a l : bld k a l -> (<[i := a]> W) !! i = Some a.
Proof. intros _. apply lookup_insert_eq. Qed.

Lemma bd_owned k a l q : bld k a l -> owned (<[i := a]> W) q -> owned W q \/ q = d \/ q ∈ L.
Proof.
  intros H (j & b & [[<- <-]|[Hne Hj]]%lookup_insert_Some & Ho); [right; by apply (bd_tabs _ _ _ _ _ _ _ _ _ H)|left; by exists j, b].
Qed.

(** One fresh page. *)
Lemma insert_building k a l x l0 va :
  bld k a l -> l = x :: l0 -> l0 <> [] -> 0 <= va < UTOP -> a.(as_maps) !! PGNUM va = None ->
  exists p1 p' a' l', page_alloc 0 k.(pm) = Ret (Some x) p1 /\ page_insert (page_kva d) x va rwu p1 = Ret 0 p' /\
    bld (set_pm p' k) a' l' /\ a'.(as_maps) = <[PGNUM va := mkpte x rwu]> a.(as_maps) /\ (length l <= length l' + 2)%nat /\
    keeps a k.(pm).(pmem) p'.(pmem).
Proof using uninit_nonzero.
  intros H -> Hne Hva Hnone. destruct rwu_ok as (Hp & HU & HW). pose proof (bd_wf _ _ _ _ _ _ _ _ _ H) as Hk. pose proof (bd_space _ _ _ H) as Hi. pose proof (kw_vm _ _ _ _ Hk) as Hvm.
  destruct (wf_alloc k.(pm) (<[i := a]> W) x l0 0 Hvm) as (Hrun1 & _). pose proof (insert_fresh uninit_nonzero k (<[i := a]> W) (x :: l0) fl Hk 0 x l0 i a va rwu eq_refl Hi Hva Hp HU) as Hins. cbv zeta in Hins.
  unfold as_insert in Hins. rewrite Hi in Hins. destruct (ensure_tab a l0 (PDX va)) as [[a1 l1]|] eqn:He; [|unfold ensure_tab in He; destruct (a.(as_tabs) !! _), l0; done].
  rewrite Hnone in Hins. cbn [drop_free] in Hins. destruct Hins as (p' & Hrun & Hk' & Hf & _). rewrite insert_insert_eq in Hk'. rewrite (bd_dir _ _ _ _ _ _ _ _ _ H) in Hrun.
  assert (x ∈ x :: l0) as Hx by left. assert (0 <= x < 65536) as Hxr by (pose proof (free_in_range _ _ _ _ Hvm x Hx); pose proof (kw_npages _ _ _ _ Hk); lia).
  assert (a1.(as_maps) = a.(as_maps) /\ a1.(as_dir) = a.(as_dir) /\ (forall q, owns a1 q -> owns a q \/ q ∈ l0) /\ (forall q, q ∈ l1 -> q ∈ l0) /\ (length l0 <= S (length l1))%nat) as (Em & Ed & Ho & Hl & Hlen).
  { destruct (wf_alloc k.(pm) (<[i := a]> W) x l0 0 Hvm) as (_ & Hvm1 & _). destruct (ensure_tab_facts _ _ l0 i a (PDX va) a1 l1 x Hvm1 Hi He) as (_ & E1 & E2 & E3 & E4 & _). repeat (split; [done|]).
    unfold ensure_tab in He. destruct (a.(as_tabs) !! _); [injection He as <- <-; lia|]. destruct l0; [done|]. injection He as <- <-. cbn [length]. lia. }
  exists (allocated 0 x k.(pm)), p', (with_map (PGNUM va) (mkpte x rwu) a1), l1. split; [done|]. split; [done|]. split; [|split; [cbn [with_map as_maps]; by rewrite Em|split; [cbn [length]; lia|]]].
  - split; [done|cbn [with_map as_dir]; rewrite Ed; apply H| | | | |].
    + cbn [with_map as_maps]. rewrite Em. intros v w [[_ <-]|[_ Hv]]%lookup_insert_Some; [exists x; split; [by apply (bd_free _ _ _ _ _ _ _ _ _ H)|done]|by apply (bd_fresh _ _ _ _ _ _ _ _ _ H v)].
    + assert (forall v w, a.(as_maps) !! v = Some w -> pte_page w <> x) as Hnx by (intros v w Hv; exact (free_not_mapped _ _ _ _ Hvm (fun _ => Z.le_refl 0) x i a v w Hx Hi Hv)).
      cbn [with_map as_maps]. rewrite Em. intros v v' w w' [[<- <-]|[_ Hv]]%lookup_insert_Some [[<- <-]|[_ Hv']]%lookup_insert_Some E; [done| | |by apply (bd_inj _ _ _ _ _ _ _ _ _ H v v' w w')].
      * rewrite mkpte_page in E by done. exfalso. by apply (Hnx v' w').
      * rewrite mkpte_page in E by done. exfalso. by apply (Hnx v w).
    + intros q Hq. change (owns (with_map (PGNUM va) (mkpte x rwu) a1) q) with (owns a1 q) in Hq. destruct (Ho q Hq) as [?|?]; [by apply (bd_tabs _ _ _ _ _ _ _ _ _ H)|right]. apply (bd_free _ _ _ _ _ _ _ _ _ H). by right.
    + intros y Hy. apply (bd_free _ _ _ _ _ _ _ _ _ H). right. by apply Hl.
    + intros b Hb. cbn [set_pm pm]. rewrite (vf_mem _ _ _ Hf) by (intros [Hq|Hq]; apply Hb; [by apply (bd_owned k a (x :: l0))|right; right; by apply (bd_free _ _ _ _ _ _ _ _ _ H)]).
      by apply (bd_frame _ _ _ _ _ _ _ _ _ H).
  - intros v w b Hv Hb. apply (vf_mem _ _ _ Hf). rewrite Hb. by apply (mapped_apart k (<[i := a]> W) (x :: l0) fl i a v w).
Qed.

Lemma keeps_trans a a' m m' m'' : keeps a m m' -> keeps a' m' m'' -> (forall v w, a.(as_maps) !! v = Some w -> a'.(as_maps) !! v = Some w) -> keeps a m m''.
Proof. intros H1 H2 Hs v w b Hv Hb. rewrite (H2 v w b (Hs v w Hv) Hb). by apply (H1 v w b). Qed.

(** The pages from [v0] on, and no others, come to be mapped. *)
Record extends (a a' : aspace) (v0 n : Z) : Prop := {
  ex_in : forall v, v0 <= v < v0 + n -> is_Some (a'.(as_maps) !! v);
  ex_out : forall v, ~ v0 <= v < v0 + n -> a'.(as_maps) !! v = a.(as_maps) !! v;
}.

Lemma elf_region_loop n : forall fuel v0 k a l,
  bld k a l -> (n < fuel)%nat -> 0 <= v0 -> (v0 + Z.of_nat n) * PGSIZE <= UTOP -> (2 * n <= length l)%nat ->
  (forall v, v0 <= v < v0 + Z.of_nat n -> a.(as_maps) !! v = None) ->
  exists p' a' l', region_alloc_loop fuel (page_kva d) (v0 * PGSIZE) ((v0 + Z.of_nat n) * PGSIZE) k.(pm) = Ret tt p' /\ bld (set_pm p' k) a' l' /\
    extends a a' v0 (Z.of_nat n) /\ (length l <= length l' + 2 * n)%nat /\ keeps a k.(pm).(pmem) p'.(pmem).
Proof using uninit_nonzero.
  induction n as [|n IH]; intros [|fuel] v0 k a l H Hf H1 H2 Hl Hun; try lia; cbn [region_alloc_loop].
  { rewrite (proj2 (Z.ltb_ge _ _)) by clia. exists k.(pm), a, l. rewrite set_pm_id. split; [done|]. split; [done|]. split; [split; [intros v Hv; lia|done]|]. split; [lia|done]. }
  assert (0 <= v0 * PGSIZE < UTOP) as Hva by (revert H2; consts; lia). assert (PGNUM (v0 * PGSIZE) = v0) as Epn by (apply PGNUM_page; revert H2; consts; lia).
  rewrite (proj2 (Z.ltb_lt _ _)) by clia. destruct l as [|x [|y l0]]; cbn [length] in Hl; [lia|lia|].
  destruct (insert_building k a _ x (y :: l0) (v0 * PGSIZE) H eq_refl ltac:(done) Hva) as (p1 & p2 & a2 & l2 & Hr1 & Hr2 & H' & Em & Hlen & Hk2); [rewrite Epn; apply Hun; lia|]. rewrite Epn in Em.
  mstep (exact Hr1). fold rwu. mstep (exact Hr2). change (negb (0 =? 0)) with false. cbv iota. rewrite u32_small by (revert H2; consts; lia).
  replace (v0 * PGSIZE + PGSIZE) with ((v0 + 1) * PGSIZE) by lia. replace ((v0 + Z.of_nat (S n)) * PGSIZE) with ((v0 + 1 + Z.of_nat n) * PGSIZE) in * by lia.
  destruct (IH fuel (v0 + 1) (set_pm p2 k) a2 l2 H' ltac:(lia) ltac:(lia) H2) as (p' & a' & l' & Hr3 & H'' & [Hin Hout] & Hlen' & Hk3).
  { cbn [length] in Hlen. lia. }
  { intros v Hv. rewrite Em, lookup_insert_ne by lia. apply Hun. lia. }
  exists p', a', l'. split; [exact Hr3|]. split; [exact H''|]. split; [split|split; [cbn [length] in *; lia|]].
  - intros v Hv. destruct (decide (v = v0)) as [->|]; [rewrite Hout, Em, lookup_insert_eq by lia; eauto|]. apply Hin. lia.
  - intros v Hv. rewrite Hout, Em by lia. apply lookup_insert_ne. lia.
  - apply (keeps_trans a a2 _ p2.(pmem)); [done|exact Hk3|]. intros v w Hv. rewrite Em, lookup_insert_ne; [done|]. intros <-. rewrite Hun in Hv by lia. done.
Qed.

Lemma region_alloc_run k a l e va len n :
  bld k a l -> k.(envs) !! i = Some e -> e.(env_pgdir) = page_kva d -> 0 <= va -> 0 <= len -> va + len <= UTOP -> Z.of_nat n = end_page va len - first_page va -> (2 * n <= length l)%nat ->
  (forall v, on_pages va len v -> a.(as_maps) !! v = None) ->
  exists p' a' l', region_alloc i va len k = Ret tt (set_pm p' k) /\ bld (set_pm p' k) a' l' /\ extends a a' (first_page va) (Z.of_nat n) /\
    (length l <= length l' + 2 * n)%nat /\ keeps a k.(pm).(pmem) p'.(pmem).
Proof using uninit_nonzero.
  intros H Hi Hpg H1 H2 H3 Hn Hl Hun. unfold first_page, end_page in *. assert (va + len + PGSIZE < 2 ^ 32) as Hsm by (revert H3; consts; lia).
  assert (ROUNDDOWN va PGSIZE = va / PGSIZE * PGSIZE) as Ed by (rewrite ROUNDDOWN_spec by clia; czdm).
  assert (ROUNDUP (u32 (va + len)) PGSIZE = (va + len + PGSIZE - 1) / PGSIZE * PGSIZE) as Eu.
  { rewrite u32_small by clia. destruct (ROUNDUP_page (va + len)) as [Hr1 Hr2]; [lia|clia|]. revert Hr1 Hr2. consts. intros. zdm. }
  assert ((va + len + PGSIZE - 1) / PGSIZE * PGSIZE <= UTOP) as Hend by (revert H3; consts; intros; zdm).
  unfold region_alloc. rewrite Ed, Eu. rewrite (proj2 (Z.ltb_ge _ _)) by lia. mstep (by apply get_env_some). rewrite Hpg.
  destruct (elf_region_loop n (S (Z.to_nat (((va + len + PGSIZE - 1) / PGSIZE * PGSIZE - va / PGSIZE * PGSIZE) / PGSIZE))) (va / PGSIZE) k a l H) as (p' & a' & l' & Hrun & H').
  - rewrite <- Z.mul_sub_distr_r, Z.div_mul by clia. lia.
  - czdm.
  - replace (va / PGSIZE + Z.of_nat n) with ((va + len + PGSIZE - 1) / PGSIZE) by lia. done.
  - done.
  - intros v Hv. apply Hun. unfold on_pages, first_page, end_page. lia.
  - exists p', a', l'. split; [|exact H']. apply on_pm_ret. replace (va / PGSIZE + Z.of_nat n) with ((va + len + PGSIZE - 1) / PGSIZE) in Hrun by lia. exact Hrun.
Qed.

(** ** Copies into the space *)

Lemma bd_upa k a l y : bld k a l -> is_Some (a.(as_maps) !! PGNUM y) -> exists x, x ∈ L /\ upa a y / PGSIZE = x.
Proof.
  intros H [w Hw]. destruct (bd_fresh _ _ _ _ _ _ _ _ _ H _ _ Hw) as (x & Hx & Hr & E). exists x. split; [done|]. unfold upa. rewrite Hw, pte_pa_page, E. by apply mkpte_page; [|apply rwu_ok].
Qed.

Lemma bd_writable k a l va len :
  bld k a l -> 0 <= va -> va + len <= UTOP -> (forall y, va <= y < va + len -> is_Some (a.(as_maps) !! PGNUM y)) -> writable a va len.
Proof.
  intros H H1 H2 Hm. split; [done| |].
  - intros y Hy. destruct (Hm y Hy) as [w Hw]. unfold page_ok. rewrite Hw. destruct (bd_fresh _ _ _ _ _ _ _ _ _ H _ _ Hw) as (x & _ & Hr & ->). destruct rwu_ok as (Hp & _ & HW). rewrite mkpte_flag; [done|done|done|by right].
  - intros y y' w w' _ _ Hw Hw' E. by apply (bd_inj _ _ _ _ _ _ _ _ _ H _ _ w w').
Qed.

(** The kernel writes [bs] at [va] of the new space. *)
Lemma put_building k a l va bs :
  bld k a l -> writable a va (Z.of_nat (length bs)) -> let p' := set_pmem (put_bytes a va bs k.(pm).(pmem)) k.(pm) in
  on_pm (vput (d * PGSIZE) va bs) k = Ret tt (set_pm p' k) /\ bld (set_pm p' k) a l.
Proof.
  intros H Hw p'. destruct (vput_run i a (<[i := a]> W) l fl bs va k (bd_wf _ _ _ _ _ _ _ _ _ H) (bd_space _ _ _ H) Hw) as [Hrun Hk]. rewrite (bd_dir _ _ _ _ _ _ _ _ _ H) in Hrun. split; [exact Hrun|].
  destruct H as [H1 H2 H3 H4 H5 H6 H7] eqn:EH. split; try done. intros b Hb. cbn [set_pm pm set_pmem pmem p']. rewrite put_bytes_other; [by apply H7|].
  intros y Hy E. apply Hb. right. right. rewrite <- E. pose proof (wr_page _ _ _ Hw y Hy) as Hp. unfold page_ok in Hp.
  destruct (a.(as_maps) !! PGNUM y) as [w|] eqn:Hm; [|done]. destruct (bd_upa k a l y H) as (x & Hx & Ex); [eauto|]. by rewrite Ex.
Qed.

(** Pages outside the range keep their bytes. *)
Lemma put_keeps k a0 a l va bs m :
  bld k a l -> (forall y, va <= y < va + Z.of_nat (length bs) -> is_Some (a.(as_maps) !! PGNUM y) /\ a0.(as_maps) !! PGNUM y = None) ->
  (forall v w, a0.(as_maps) !! v = Some w -> a.(as_maps) !! v = Some w) -> keeps a0 m (put_bytes a va bs m).
Proof.
  intros H Hy Hs v w b Hv Hb. apply put_bytes_other. intros y Hyr E. destruct (Hy y Hyr) as [[w' Hw'] Hn]. assert (PGNUM y = v) as Ev; [|by rewrite Ev, Hv in Hn].
  apply (bd_inj _ _ _ _ _ _ _ _ _ H _ _ w' w Hw' (Hs v w Hv)). unfold upa in E. rewrite Hw' in E. by rewrite <- Hb, <- E, pte_pa_page.
Qed.

(** ** Segments *)

Definition seg_loaded (k : kern) (a : aspace) (sg : segment) : Prop :=
  forall j, 0 <= j < sg.(sg_memsz) -> is_Some (a.(as_maps) !! PGNUM (sg.(sg_va) + j)) /\ ld8 k.(pm).(pmem) (upa a (sg.(sg_va) + j)) = seg_byte sg j.

Lemma seg_loaded_keeps k k' a a' sg :
  seg_loaded k a sg -> keeps a k.(pm).(pmem) k'.(pm).(pmem) -> (forall v w, a.(as_maps) !! v = Some w -> a'.(as_maps) !! v = Some w) -> seg_loaded k' a' sg.
Proof.
  intros H Hk Hs j Hj. destruct (H j Hj) as [[w Hw] Hb]. unfold upa in *. rewrite Hw in Hb. rewrite (Hs _ _ Hw). split; [eauto|]. rewrite <- Hb. apply (Hk _ w _ Hw). apply pte_pa_page.
Qed.

(** Zeros over the whole segment, then the bytes of the file. *)
Lemma put_segment a va memsz file m j :
  writable a va memsz -> Z.of_nat (length file) <= memsz -> Forall (fun c => 0 <= c < 256) file -> 0 <= j < memsz ->
  ld8 (put_bytes a va file (put_bytes a va (replicate (Z.to_nat memsz) 0) m)) (upa a (va + j)) = default 0 (file !! Z.to_nat j).
Proof.
  intros Hw Hl Hf Hj. destruct (file !! Z.to_nat j) as [c|] eqn:Hc; cbn [default].
  - rewrite (put_bytes_at a file va _ (va + j) c); [apply u8_small; exact (Forall_lookup_1 _ _ _ _ Hf Hc)| |lia|by replace (va + j - va) with j by lia].
    destruct Hw as [[H1 H2] H3 H4]. split; [lia|intros y Hy; apply H3; lia|intros y y' w w' Hy Hy'; apply H4; lia].
  - apply lookup_ge_None in Hc. rewrite put_bytes_other.
    + rewrite (put_bytes_at a _ va _ (va + j) 0); [done|rewrite length_replicate; by replace (Z.of_nat (Z.to_nat memsz)) with memsz by lia|lia|]. apply lookup_replicate_2. lia.
    + intros y Hy E. assert (y = va + j) by (apply (upa_inj a va memsz y (va + j) Hw); [lia|lia|done]). lia.
Qed.

Lemma keeps_trans_same a m m' m'' : keeps a m m' -> keeps a m' m'' -> keeps a m m''.
Proof. intros H1 H2. by apply (keeps_trans a a m m' m''). Qed.

(** The two copies of [load_icode] for one segment. *)
Lemma copy_run k a0 a l va msz fs :
  bld k a l -> 0 <= va -> 0 <= msz -> va + msz <= UTOP -> Z.of_nat (length fs) <= msz -> Forall (fun c => 0 <= c < 256) fs ->
  (forall y, va <= y < va + msz -> is_Some (a.(as_maps) !! PGNUM y) /\ a0.(as_maps) !! PGNUM y = None) ->
  (forall v w, a0.(as_maps) !! v = Some w -> a.(as_maps) !! v = Some w) ->
  exists p2 p3, on_pm (vput (d * PGSIZE) va (replicate (Z.to_nat msz) 0)) k = Ret tt (set_pm p2 k) /\ bld (set_pm p2 k) a l /\
    on_pm (vput (d * PGSIZE) va fs) (set_pm p2 k) = Ret tt (set_pm p3 k) /\ bld (set_pm p3 k) a l /\ keeps a0 k.(pm).(pmem) p3.(pmem) /\
    forall j, 0 <= j < msz -> ld8 p3.(pmem) (upa a (va + j)) = default 0 (fs !! Z.to_nat j).
Proof.
  intros H Hr1 Hm Hr2 Hl Hf Hy Hs. assert (writable a va msz) as Hw by (apply (bd_writable k a l va msz H Hr1 Hr2); intros y Hyr; by apply Hy).
  assert (writable a va (Z.of_nat (length fs))) as Hw2 by (apply (bd_writable k a l va (Z.of_nat (length fs)) H Hr1 ltac:(lia)); intros y Hyr; apply Hy; lia).
  set (zs := replicate (Z.to_nat msz) 0). assert (Z.of_nat (length zs) = msz) as Hzl by (unfold zs; rewrite length_replicate; lia).
  destruct (put_building k a l va zs H ltac:(by rewrite Hzl)) as [Hrun2 H2]. destruct (put_building _ a l va fs H2 Hw2) as [Hrun3 H3].
  eexists _, _. split; [exact Hrun2|]. split; [exact H2|]. split; [exact Hrun3|]. split; [exact H3|]. cbn [set_pm pm set_pmem pmem] in *. split.
  - apply (keeps_trans_same a0 _ (put_bytes a va zs k.(pm).(pmem))); apply (put_keeps k a0 a l va _ _ H); try done; intros y Hyr; apply Hy; lia.
  - intros j Hj. by apply put_segment.
Qed.

(** ** The image in memory *)

(** The image is [len] bytes at physical address [b], in pages that are neither page tables nor free. *)
Variables (b len : Z).
Hypothesis img_range : 0 <= b /\ 0 <= len /\ KERNBASE + b + len < 2 ^ 32.
Hypothesis img_apart : forall y, b <= y < b + len -> ~ (owned W (y / PGSIZE) \/ y / PGSIZE = d \/ y / PGSIZE ∈ L).

Lemma img_ld8 k a l y : bld k a l -> b <= y < b + len -> ld8 k.(pm).(pmem) y = ld8 m0 y.
Proof. intros H Hy. apply (bd_frame _ _ _ _ _ _ _ _ _ H). by apply img_apart. Qed.

Lemma img_load32 k a l h : bld k a l -> b <= h -> h + 4 <= b + len -> on_pm (kload32 (KERNBASE + h)) k = Ret (ld32 m0 h) k.
Proof.
  intros H H1 H2. apply on_pm_pure. unfold kload32. rewrite (proj2 (Z.ltb_ge _ _)) by lia. f_equal. replace (KERNBASE + h - KERNBASE) with h by lia.
  apply ld32_ext. intros j Hj. apply (img_ld8 k a l _ H). lia.
Qed.

Lemma img_bytes k a l y n : bld k a l -> b <= y -> y + Z.of_nat n <= b + len -> ld_bytes k.(pm).(pmem) y n = ld_bytes m0 y n.
Proof. intros H H1 H2. apply ld_bytes_ext. intros j Hj. apply (img_ld8 k a l _ H). lia. Qed.

(** A program header that lies in the image, with its part of the file. *)
Record phdr_ok (h : Z) : Prop := {
  ph_in : b <= h /\ h + 32 <= b + len;
  ph_file : ld32 m0 h = ELF_PROG_LOAD -> ld32 m0 (h + 4) + ld32 m0 (h + 16) <= len;
}.

(** A segment that fits in user memory. *)
Record seg_ok (sg : segment) : Prop := {
  so_file : Z.of_nat (length sg.(sg_file)) <= sg.(sg_memsz);
  so_range : 0 <= sg.(sg_va) /\ sg.(sg_va) + sg.(sg_memsz) <= UTOP;
}.

Lemma ld_bytes_octets m p n : Forall (fun c => 0 <= c < 256) (ld_bytes m p n).
Proof. revert p. induction n as [|n IH]; intros p; cbn [ld_bytes]; constructor; [apply ld8_range|apply IH]. Qed.

Lemma on_pages_byte va sz y : 0 <= va -> va <= y < va + sz -> y < 2 ^ 32 -> on_pages va sz (PGNUM y).
Proof. intros H1 H2 H3. unfold on_pages, first_page, end_page. rewrite PGNUM_div by lia. revert H2. consts. intros. zdm. Qed.

(** The environment being loaded, with its directory in force. *)
Record loading (k : kern) : Prop := {
  ld_env : exists e, k.(envs) !! i = Some e /\ e.(env_pgdir) = page_kva d;
  ld_cpu : exists ci, k.(cpus) !! cpu = Some ci /\ ci.(cpu_cr3) = d * PGSIZE;
}.

Lemma load_segment_run k a l h sg n :
  bld k a l -> loading k -> phdr_ok h -> seg_of m0 b h = Some sg -> seg_ok sg -> Z.of_nat n = seg_pages sg -> (2 * n <= length l)%nat ->
  (forall v, on_pages sg.(sg_va) sg.(sg_memsz) v -> a.(as_maps) !! v = None) ->
  exists p' a' l', load_segment cpu i (KERNBASE + b) (KERNBASE + h) k = Ret tt (set_pm p' k) /\ bld (set_pm p' k) a' l' /\
    extends a a' (first_page sg.(sg_va)) (Z.of_nat n) /\ (length l <= length l' + 2 * n)%nat /\ keeps a k.(pm).(pmem) p'.(pmem) /\ seg_loaded (set_pm p' k) a' sg.
Proof using All.
  intros H [(e & He & Hpg) (ci & Hci & Hcr3)] [[Hh1 Hh2] Hfile] Hseg [Hf [Hr1 Hr2]] Hn Hl Hun. unfold seg_of in Hseg. destruct (Z.eqb_spec (ld32 m0 h) ELF_PROG_LOAD) as [Ht|]; [|done]. specialize (Hfile Ht).
  injection Hseg as <-. cbn [sg_va sg_memsz sg_file] in *. unfold seg_pages in Hn. cbn [sg_va sg_memsz] in Hn. rewrite length_ld_bytes in Hf.
  set (off := ld32 m0 (h + 4)) in *. set (va := ld32 m0 (h + 8)) in *. set (fsz := ld32 m0 (h + 16)) in *. set (msz := ld32 m0 (h + 20)) in *.
  pose proof (ld32_range m0 (h + 4)) as Ro. fold off in Ro. pose proof (ld32_range m0 (h + 16)) as Rf. fold fsz in Rf. pose proof (ld32_range m0 (h + 20)) as Rm. fold msz in Rm.
  destruct (region_alloc_run k a l e va msz n H He Hpg Hr1 ltac:(lia) Hr2 Hn Hl Hun) as (p1 & a1 & l1 & Hrun1 & H1 & [Hin Hout] & Hlen & Hk1). set (k1 := set_pm p1 k) in *.
  assert (forall y, va <= y < va + msz -> is_Some (a1.(as_maps) !! PGNUM y) /\ a.(as_maps) !! PGNUM y = None) as Hy.
  { intros y Hyr. pose proof (on_pages_byte va msz y Hr1 Hyr ltac:(clia)) as Hp. split; [apply Hin; unfold on_pages in Hp; lia|by apply Hun]. }
  assert (forall v w, a.(as_maps) !! v = Some w -> a1.(as_maps) !! v = Some w) as Hs.
  { intros v w Hv. rewrite Hout; [done|]. intros Hvr. rewrite Hun in Hv; [done|]. unfold on_pages. lia. }
  set (fs := ld_bytes m0 (b + off) (Z.to_nat fsz)) in *.
  destruct (copy_run k1 a a1 l1 va msz fs H1 Hr1 ltac:(lia) Hr2 ltac:(unfold fs; by rewrite length_ld_bytes) (ld_bytes_octets _ _ _) Hy Hs) as (p2 & p3 & Hrun2 & H2 & Hrun3 & H3 & Hk3 & Hbytes).
  exists p3, a1, l1. split; [|split; [exact H3|split; [by split|split; [done|split; [|intros j Hj; cbn [sg_va sg_memsz] in Hj |- *; split; [apply Hy; lia|by apply Hbytes]]]]]].
  - unfold load_segment. mstep (apply (img_load32 k a l h H); lia). rewrite Ht. change (ELF_PROG_LOAD =? ELF_PROG_LOAD) with true. cbv iota.
    rewrite <- !Z.add_assoc. do 4 mstep (apply (img_load32 k a l _ H); lia). fold off va fsz msz.
    rewrite (proj2 (Z.leb_le _ _)) by lia. mstep (exact Hrun1). rewrite (bind_ret _ _ _ ci k1) by (unfold get_cpu; cbn; by rewrite Hci). rewrite Hcr3. mstep (exact Hrun2).
    rewrite (bind_ret _ _ _ fs (set_pm p2 k1)); [exact Hrun3|]. apply on_pm_pure. unfold kget. rewrite u32_small by clia. rewrite (proj2 (Z.ltb_ge _ _)) by lia.
    replace (KERNBASE + b + off - KERNBASE) with (b + off) by lia. f_equal. apply (img_bytes _ a1 l1 _ _ H2); lia.
  - intros v w y Hv Hyw. rewrite (Hk3 v w y Hv Hyw). by apply (Hk1 v w).
Qed.

(** ** All segments *)

(** An executable: its headers and the parts of the file they name lie in the image; the
    segments fit below the stack and no two of them touch the same page. *)
Record elf_ok : Prop := {
  el_magic : ld32 m0 b = ELF_MAGIC;
  el_size : 52 <= len;
  el_phdr : forall j, 0 <= j < ld16 m0 (b + 44) -> phdr_ok (phdr m0 b j);
  el_seg : forall sg, sg ∈ segments m0 b -> seg_ok sg /\ sg.(sg_va) + sg.(sg_memsz) <= USTACKTOP - PGSIZE;
  el_apart : forall j j' sg sg' v, 0 <= j < j' -> j' < ld16 m0 (b + 44) -> seg_of m0 b (phdr m0 b j) = Some sg -> seg_of m0 b (phdr m0 b j') = Some sg' ->
    on_pages sg.(sg_va) sg.(sg_memsz) v -> on_pages sg'.(sg_va) sg'.(sg_memsz) v -> False;
}.

Definition pages_of (sgs : list segment) : Z := foldr (fun sg n => seg_pages sg + n) 0 sgs.

Lemma pages_of_app l l' : pages_of (l ++ l') = pages_of l + pages_of l'.
Proof. induction l as [|sg l IH]; cbn [pages_of foldr app] in *; [done|]. unfold pages_of in *. lia. Qed.

Lemma seg_pages_nonneg sg : seg_ok sg -> 0 <= seg_pages sg.
Proof. intros [H1 H2]. unfold seg_pages, first_page, end_page. revert H1. consts. intros. zdm. Qed.

Lemma pages_of_nonneg sgs : Forall seg_ok sgs -> 0 <= pages_of sgs.
Proof. intros H. induction H as [|sg sgs Hs _ IH]; cbn; [done|]. pose proof (seg_pages_nonneg sg Hs). unfold pages_of in IH. lia. Qed.

(** The segments of the first [j] headers. *)
Definition segs_to (j : Z) : list segment := omap (fun i => seg_of m0 b (phdr m0 b i)) (seqZ 0 j).

Lemma segs_to_next j : 0 <= j -> segs_to (j + 1) = segs_to j ++ match seg_of m0 b (phdr m0 b j) with Some sg => [sg] | None => [] end.
Proof.
  intros Hj. unfold segs_to. rewrite seqZ_app by lia. rewrite Z.add_0_l, omap_app. f_equal.
Qed.

Lemma elem_segs_to j sg : sg ∈ segs_to j <-> exists j', 0 <= j' < j /\ seg_of m0 b (phdr m0 b j') = Some sg.
Proof. unfold segs_to. rewrite list_elem_of_omap. setoid_rewrite elem_of_seqZ. split; intros (x & H1 & H2); exists x; (split; [lia|done]). Qed.

Lemma pages_to_le j : elf_ok -> 0 <= j <= ld16 m0 (b + 44) -> pages_of (segs_to j) <= pages_of (segments m0 b).
Proof.
  intros He Hj. change (segments m0 b) with (segs_to (ld16 m0 (b + 44))). unfold segs_to. replace (ld16 m0 (b + 44)) with (j + (ld16 m0 (b + 44) - j)) by lia.
  rewrite seqZ_app, omap_app, pages_of_app by lia. set (r := omap _ (seqZ (0 + j) _)). assert (0 <= pages_of r); [|lia]. apply pages_of_nonneg, Forall_forall. intros s Hs.
  apply (el_seg He). apply list_elem_of_omap in Hs as (x & Hx & Hsx). apply list_elem_of_omap. exists x. split; [|done]. apply elem_of_seqZ in Hx. apply elem_of_seqZ. lia.
Qed.

(** After [j] headers. *)
Record progress (k0 : kern) (N : nat) (j : Z) (k : kern) : Prop := {
  pr_pm : k = set_pm k.(pm) k0;
  pr_bld : exists a l, bld k a l /\ Forall (seg_loaded k a) (segs_to j) /\ Z.of_nat N <= Z.of_nat (length l) + 2 * pages_of (segs_to j) /\
    forall v, is_Some (a.(as_maps) !! v) <-> exists sg, sg ∈ segs_to j /\ on_pages sg.(sg_va) sg.(sg_memsz) v;
}.

Lemma loading_pm k p : loading k -> loading (set_pm p k).
Proof. intros [H1 H2]. by split. Qed.

Lemma progress_step k0 N j k :
  elf_ok -> loading k0 -> 2 * pages_of (segments m0 b) <= Z.of_nat N -> 0 <= j < ld16 m0 (b + 44) -> progress k0 N j k ->
  exists k', load_segment cpu i (KERNBASE + b) (KERNBASE + phdr m0 b j) k = Ret tt k' /\ progress k0 N (j + 1) k'.
Proof using All.
  intros He Hld HN Hj [Hk (a & l & H & Hdone & Hl & Hdom)]. pose proof (el_phdr He j Hj) as Hph. pose proof (segs_to_next j ltac:(lia)) as Hnext.
  assert (loading k) as Hldk by (rewrite Hk; by apply loading_pm). destruct (seg_of m0 b (phdr m0 b j)) as [sg|] eqn:Hsg.
  - assert (sg ∈ segments m0 b) as Hin by (change (segments m0 b) with (segs_to (ld16 m0 (b + 44))); apply elem_segs_to; by exists j).
    destruct (el_seg He sg Hin) as [Hok _]. pose proof (seg_pages_nonneg sg Hok) as Hnn.
    pose proof (pages_to_le (j + 1) He ltac:(lia)) as Hle.
    rewrite Hnext, pages_of_app in Hle. cbn [pages_of foldr] in Hle. change (foldr _ 0 (segs_to j)) with (pages_of (segs_to j)) in Hle.
    assert (forall v, on_pages sg.(sg_va) sg.(sg_memsz) v -> a.(as_maps) !! v = None) as Hun.
    { intros v Hv. destruct (a.(as_maps) !! v) as [w|] eqn:Hm; [|done]. destruct (proj1 (Hdom v) ltac:(eauto)) as (sg' & Hs' & Hv'). apply elem_segs_to in Hs' as (j' & Hj' & Hs').
      exfalso. exact (el_apart He j' j sg' sg v ltac:(lia) ltac:(lia) Hs' Hsg Hv' Hv). }
    destruct (load_segment_run k a l (phdr m0 b j) sg (Z.to_nat (seg_pages sg)) H Hldk Hph Hsg Hok ltac:(lia) ltac:(lia) Hun) as (p' & a' & l' & Hrun & H' & [Hex1 Hex2] & Hlen & Hk' & Hload).
    exists (set_pm p' k). split; [exact Hrun|]. assert (forall v w, a.(as_maps) !! v = Some w -> a'.(as_maps) !! v = Some w) as Hs.
    { intros v w Hv. rewrite Hex2; [done|]. intros Hvr. rewrite Hun in Hv; [done|]. unfold on_pages, seg_pages in *. lia. }
    split; [by rewrite Hk|]. exists a', l'. split; [exact H'|]. rewrite Hnext. split; [|split].
    + apply Forall_app. split; [|by constructor]. apply (Forall_impl _ _ _ Hdone). intros s Hs'. by apply (seg_loaded_keeps k (set_pm p' k) a a').
    + rewrite pages_of_app. cbn [pages_of foldr]. lia.
    + intros v. setoid_rewrite elem_of_app. setoid_rewrite list_elem_of_singleton. destruct (decide (first_page (sg_va sg) <= v < first_page (sg_va sg) + Z.of_nat (Z.to_nat (seg_pages sg)))) as [Hv|Hv].
      * split; [intros _; exists sg; split; [by right|unfold on_pages, seg_pages in *; lia]|intros _; by apply Hex1].
      * rewrite Hex2, Hdom by done. split; intros (s & Hs1 & Hs2); [exists s; split; [by left|done]|]. destruct Hs1 as [Hs1| ->]; [by exists s|]. exfalso. apply Hv. unfold on_pages, seg_pages in *. lia.
  - exists k. split.
    + unfold load_segment. destruct Hph as [[Hp1 Hp2] _]. mstep (apply (img_load32 k a l _ H); lia). unfold seg_of in Hsg. destruct (_ =? _); done.
    + split; [done|]. exists a, l. rewrite Hnext, app_nil_r. done.
Qed.
End Load.
