(* ===== verification/ElfSpec.v ===== *)
(** [env_create] ([kern/env.c]): the environment it makes runs the program of the image. *)

From stdpp Require Import gmap.
From S2P Require Import Prelude Mmu Mem Console E1000 Pmap PmapBoot Env Sched Syscall Trap User.
From S2P Require Import PmapAlloc PmapVm PmapRefs UserRep EnvMem EnvSetup KernInv SysMem UserMem UserVm ElfLoad Demo DemoKern DemoFork.

(** ** [load_icode] *)

(** Only the memory manager's state counts. *)
Lemma building_pm W L fl i d m0 k k' a l :
  building W L fl i d m0 k a l -> kern_wf k' (<[i := a]> W) l fl -> k'.(pm) = k.(pm) -> building W L fl i d m0 k' a l.
Proof. intros [H1 H2 H3 H4 H5 H6 H7] Hk Hp. split; try done. by rewrite Hp. Qed.

(** The page of the initial stack. *)
Definition stack_page : Z := (USTACKTOP - PGSIZE) / PGSIZE.

(** The space [a] holds the program of the image at [b] and a stack, and nothing else. *)
Record loaded_space (m0 : mem) (b : Z) (k : kern) (a : aspace) : Prop := {
  lo_segs : Forall (seg_loaded k a) (segments m0 b);
  lo_pages : forall v, is_Some (a.(as_maps) !! v) <-> v = stack_page \/ exists sg, sg ∈ segments m0 b /\ on_pages sg.(sg_va) sg.(sg_memsz) v;
}.

Lemma stack_pages v : on_pages (USTACKTOP - PGSIZE) PGSIZE v <-> v = stack_page.
Proof. unfold on_pages, first_page, end_page, stack_page. change ((USTACKTOP - PGSIZE + PGSIZE + PGSIZE - 1) / PGSIZE) with ((USTACKTOP - PGSIZE) / PGSIZE + 1). lia. Qed.

(** A segment below the stack does not reach its page. *)
Lemma below_stack sg : 0 <= sg.(sg_va) -> sg.(sg_va) + sg.(sg_memsz) <= USTACKTOP - PGSIZE -> ~ on_pages sg.(sg_va) sg.(sg_memsz) stack_page.
Proof. intros H1 H2. unfold on_pages, first_page, end_page, stack_page. revert H2. consts. intros H2 H3. zdm. Qed.

Section Icode.
Context {Mach : Machine} (cpu : Z).
Hypothesis uninit_nonzero : forall pgdir va, uninit_ptep pgdir va <> 0.
Variables (W : gmap Z aspace) (L fl : list Z) (i d : Z) (m0 : mem) (b len : Z).
Hypothesis img_range : 0 <= b /\ 0 <= len /\ KERNBASE + b + len < 2 ^ 32.
Hypothesis img_apart : forall y, b <= y < b + len -> ~ (owned W (y / PGSIZE) \/ y / PGSIZE = d \/ y / PGSIZE ∈ L).
Hypothesis elf : elf_ok m0 b len.
Abbreviation bld := (building W L fl i d m0).

(** All program headers in turn. *)
Lemma segments_run k l :
  bld k (empty_space d) l -> loading cpu i d k -> 2 * pages_of (segments m0 b) <= Z.of_nat (length l) ->
  exists p a l', for_n (Z.to_nat (ld16 m0 (b + 44))) 0 (fun j => load_segment cpu i (KERNBASE + b) (u32 (KERNBASE + b + ld32 m0 (b + 28)) + 32 * j)) k = Ret tt (set_pm p k) /\
    bld (set_pm p k) a l' /\ Forall (seg_loaded (set_pm p k) a) (segments m0 b) /\ Z.of_nat (length l) <= Z.of_nat (length l') + 2 * pages_of (segments m0 b) /\
    forall v, is_Some (a.(as_maps) !! v) <-> exists sg, sg ∈ segments m0 b /\ on_pages sg.(sg_va) sg.(sg_memsz) v.
Proof using All.
  intros H Hld HN. pose proof (ld16_range m0 (b + 44)) as Hn.
  destruct (for_n_inv (progress W L fl i d m0 b k (length l)) (Z.to_nat (ld16 m0 (b + 44))) 0 (fun j => load_segment cpu i (KERNBASE + b) (u32 (KERNBASE + b + ld32 m0 (b + 28)) + 32 * j)) k) as (k' & Hrun & [Hk (a & l' & H' & Hs & Hl & Hd)]).
  - split; [by rewrite set_pm_id|]. exists (empty_space d), l. split; [done|]. split; [constructor|]. split; [change (pages_of (segs_to m0 b 0)) with 0; lia|]. intros v. cbn [empty_space as_maps]. rewrite lookup_empty. split; [by intros [? ?]|].
    intros (sg & Hsg & _). by apply elem_of_nil in Hsg.
  - intros j k1 Hj Hp. assert (0 <= j < ld16 m0 (b + 44)) as Hj' by lia. pose proof (ph_in _ _ _ _ (el_phdr _ _ _ elf j Hj')) as Hph. unfold phdr in Hph. pose proof (ld32_range m0 (b + 28)).
    rewrite u32_small by clia. replace (KERNBASE + b + ld32 m0 (b + 28) + 32 * j) with (KERNBASE + phdr m0 b j) by (unfold phdr; lia).
    by apply (progress_step cpu uninit_nonzero W L fl i d m0 b len img_range img_apart k (length l)).
  - replace (0 + Z.of_nat (Z.to_nat (ld16 m0 (b + 44)))) with (ld16 m0 (b + 44)) in * by lia. rewrite Hk in *. exists (k'.(pm)), a, l'. cbn [set_pm pm] in *. done.
Qed.

Lemma img_load16 k a l h : bld k a l -> b <= h -> h + 2 <= b + len -> on_pm (kload16 (KERNBASE + h)) k = Ret (ld16 m0 h) k.
Proof using img_range img_apart.
  intros H H1 H2. apply on_pm_pure. unfold kload16. rewrite (proj2 (Z.ltb_ge _ _)) by lia. f_equal. replace (KERNBASE + h - KERNBASE) with h by lia.
  with_strategy transparent [ld16] unfold ld16. by rewrite !(img_ld8 W L fl i d m0 b len img_apart k a l _ H) by lia.
Qed.

Lemma load_icode_run k l e ci :
  bld k (empty_space d) l -> k.(envs) !! i = Some e -> e.(env_pgdir) = page_kva d -> e.(env_status) <> ENV_FREE -> k.(cpus) !! cpu = Some ci ->
  2 * pages_of (segments m0 b) + 2 <= Z.of_nat (length l) ->
  exists p a l' kp, load_icode cpu i (KERNBASE + b) k =
      Ret tt (loaded cpu kp ci (set_pm p (set_envs (<[i := set_env_tf (set_eip_esp (ld32 m0 (b + 24)) e.(env_tf).(tf_esp) e.(env_tf)) e]> k.(envs)) k))) /\
    bld (loaded cpu kp ci (set_pm p (set_envs (<[i := set_env_tf (set_eip_esp (ld32 m0 (b + 24)) e.(env_tf).(tf_esp) e.(env_tf)) e]> k.(envs)) k))) a l' /\
    loaded_space m0 b (set_pm p k) a /\ p.(kern_pgdir) = page_kva kp.
Proof using All.
  intros H He Hpg Hst Hci HN. destruct elf as [Hmagic Hsize _ Hseg _]. pose proof (bd_wf _ _ _ _ _ _ _ _ _ H) as Hk0. set (t := set_eip_esp _ _ _).
  assert (0 <= d < 65536) as Hd by (pose proof (vr_dir _ _ (vw_rep _ _ _ _ (kw_vm _ _ _ _ Hk0) i _ (lookup_insert_eq _ _ _))) as Hd; cbn [empty_space as_dir] in Hd; pose proof (kw_npages _ _ _ _ Hk0); lia).
  set (k1 := loaded cpu d ci k). assert (bld k1 (empty_space d) l) as H1 by (apply (building_pm _ _ _ _ _ _ k); [done|by apply kw_set_cpus|done]).
  assert (loading cpu i d k1) as Hld by (split; [by exists e|]; eexists; split; [apply lookup_insert_eq|done]).
  destruct (segments_run k1 l H1 Hld ltac:(lia)) as (p2 & a2 & l2 & Hrun2 & H2 & Hs2 & Hl2 & Hd2). set (k2 := set_pm p2 k1) in *.
  set (k3 := set_envs (<[i := set_env_tf t e]> k2.(envs)) k2). assert (bld k3 a2 l2) as H3 by (apply (building_pm _ _ _ _ _ _ k2); [done|apply (kw_upd_env k2 _ _ _ i e); try done; apply H2|done]).
  assert (a2.(as_maps) !! stack_page = None) as Hfree.
  { destruct (a2.(as_maps) !! stack_page) eqn:Hm; [|done]. destruct (proj1 (Hd2 stack_page) ltac:(eauto)) as (sg & Hsg & Hv). destruct (Hseg sg Hsg) as [[_ [Hva _]] Hb]. by destruct (below_stack sg Hva Hb). }
  assert (k3.(envs) !! i = Some (set_env_tf t e)) as He3 by apply lookup_insert_eq.
  destruct (region_alloc_run uninit_nonzero W L fl i d m0 k3 a2 l2 (set_env_tf t e) (USTACKTOP - PGSIZE) PGSIZE 1 H3 He3 Hpg) as (p4 & a4 & l4 & Hrun4 & H4 & [Hex1 Hex2] & _ & Hk4);
    [by vm_compute|by vm_compute|by vm_compute|by vm_compute|lia|intros v ->%stack_pages; exact Hfree|].
  change (first_page (USTACKTOP - PGSIZE)) with stack_page in *. destruct (kw_kern _ _ _ _ (bd_wf _ _ _ _ _ _ _ _ _ H4)) as (kp & Hkp & Hkpr & _). cbn [set_pm pm] in Hkp, Hkpr. pose proof (kw_npages _ _ _ _ (bd_wf _ _ _ _ _ _ _ _ _ H4)) as Hnp. cbn [set_pm pm] in Hnp.
  set (k4 := set_pm p4 k3) in *. assert (k4.(cpus) !! cpu = Some (mkCpu ci.(cpu_status) ci.(cpu_env) (d * PGSIZE))) as Hci4 by apply lookup_insert_eq.
  assert (loaded cpu kp (mkCpu ci.(cpu_status) ci.(cpu_env) (d * PGSIZE)) k4 = loaded cpu kp ci (set_pm p4 (set_envs (<[i := set_env_tf t e]> k.(envs)) k))) as Efin.
  { unfold loaded. cbn. by rewrite insert_insert_eq. }
  exists p4, a4, l4, kp. rewrite <- Efin. split; [|split; [|split; [split|done]]].
  - unfold load_icode. mstep (apply (img_load32 W L fl i d m0 b len img_range img_apart k _ l b H); lia). rewrite Hmagic. change (negb (ELF_MAGIC =? ELF_MAGIC)) with false. cbv iota.
    rewrite <- !(Z.add_assoc KERNBASE b). mstep (apply (img_load32 W L fl i d m0 b len img_range img_apart k _ l _ H); lia). mstep (apply (img_load16 k _ l _ H); lia).
    mstep (by apply get_env_some). rewrite Hpg. mstep (by apply load_pgdir_ok). fold k1. rewrite (Z.add_assoc KERNBASE b). mstep (exact Hrun2).
    rewrite <- (Z.add_assoc KERNBASE b). mstep (apply (img_load32 W L fl i d m0 b len img_range img_apart _ a2 l2 _ H2); lia). rewrite (bind_ret _ _ _ tt k3) by exact (upd_env_some k2 i e _ He). mstep (exact Hrun4).
    rewrite (bind_ret _ _ _ (page_kva kp) k4) by (unfold on_pm, zoom, gets; cbn; by rewrite Hkp). apply load_pgdir_ok; [done|lia].
  - apply (building_pm _ _ _ _ _ _ k4); [exact H4|exact (kw_set_cpus _ _ _ _ _ (bd_wf _ _ _ _ _ _ _ _ _ H4))|reflexivity].
  - apply (Forall_impl _ _ _ Hs2). intros sg Hsg. apply (seg_loaded_keeps k2 (set_pm p4 k) a2 a4); [done|exact Hk4|]. intros v w Hv. rewrite Hex2; [done|]. intros Hvr. assert (v = stack_page) as -> by lia. by rewrite Hfree in Hv.
  - intros v. destruct (decide (v = stack_page)) as [->|Hne]; [split; [by left|intros _; apply Hex1; lia]|]. rewrite Hex2, Hd2 by lia. split; [by right|]. intros [?|?]; done.
Qed.
End Icode.

(** ** [env_create] *)

(** The registers the program starts with. *)
Definition start_eflags (type : Z) : Z := if type =? ENV_TYPE_FS then Z.lor FL_IF FL_IOPL_3 else FL_IF.

(** The new environment [i] of [s'] is about to run the image at [b] of [s]. *)
Record starts (s s' : kern) (i b type : Z) : Prop := {
  st_env : exists e, s'.(envs) !! i = Some e /\ e.(env_status) = ENV_RUNNABLE /\ e.(env_type) = type /\ e.(env_parent_id) = 0 /\
    e.(env_tf).(tf_eip) = ld32 s.(pm).(pmem) (b + 24) /\ e.(env_tf).(tf_esp) = USTACKTOP /\ e.(env_tf).(tf_eflags) = start_eflags type /\ e.(env_tf).(tf_cs) = Z.lor GD_UT 3;
  st_others : forall j, j <> i -> s'.(envs) !! j = s.(envs) !! j;
}.

(** Its space [a]: the bytes of every segment, the pages of the segments and one for the stack, all
    writable and taken from the free pages [l], each used once. *)
Record holds_image (s s' : kern) (b : Z) (l : list Z) (a : aspace) : Prop := {
  hi_bytes : forall sg j, sg ∈ segments s.(pm).(pmem) b -> 0 <= j < sg.(sg_memsz) -> ubyte s'.(pm) a (sg.(sg_va) + j) = Some (seg_byte sg j);
  hi_pages : forall v, is_Some (a.(as_maps) !! v) <-> v = stack_page \/ exists sg, sg ∈ segments s.(pm).(pmem) b /\ on_pages sg.(sg_va) sg.(sg_memsz) v;
  hi_fresh : forall v w, a.(as_maps) !! v = Some w -> pte_page w ∈ l /\ bits_set w PTE_W = true /\ bits_set w PTE_U = true;
  hi_once : forall v v' w w', a.(as_maps) !! v = Some w -> a.(as_maps) !! v' = Some w' -> pte_page w = pte_page w' -> v = v';
}.

Section Create.
Context {Mach : Machine} (cpu : Z).
Hypothesis uninit_nonzero : forall pgdir va, uninit_ptep pgdir va <> 0.

Lemma new_building s W x l fl i e p' :
  kern_wf (with_env i (new_env i 0 (set_env_pgdir (page_kva x) e)) e.(env_link) p' s) (<[i := empty_space x]> W) l fl -> vm_frame (fun q => q = x) s.(pm) p' ->
  building W l fl i x s.(pm).(pmem) (with_env i (new_env i 0 (set_env_pgdir (page_kva x) e)) e.(env_link) p' s) (empty_space x) l.
Proof.
  intros Hk Hf. split; [exact Hk|reflexivity| | | |done|].
  - intros v w. cbn [empty_space as_maps]. by rewrite lookup_empty.
  - intros v v' w w'. cbn [empty_space as_maps]. by rewrite lookup_empty.
  - intros q [->|[t Ht]]; [by left|]. cbn [empty_space as_tabs] in Ht. by rewrite lookup_empty in Ht.
  - intros y Hy. apply (vf_mem _ _ _ Hf). intros E. apply Hy. right. by left.
Qed.

Lemma building_image s k W x l fl i b p a l' :
  building W l fl i x s.(pm).(pmem) k a l' -> loaded_space s.(pm).(pmem) b (set_pm p k) a -> k.(pm) = p -> holds_image s k b (x :: l) a.
Proof.
  intros H [Hs Hd] Hp. split.
  - intros sg j Hin Hj. rewrite Forall_forall in Hs. destruct (Hs sg Hin j Hj) as [[w Hw] Hb]. cbn [set_pm pm] in Hb. unfold ubyte, reach. unfold upa in Hb. rewrite Hw in *. cbn. by rewrite Hp, Hb.
  - done.
  - intros v w Hv. destruct (bd_fresh _ _ _ _ _ _ _ _ _ H v w Hv) as (y & Hy & Hr & ->). destruct rwu_ok as (Hw & HU & HW). rewrite mkpte_page, !mkpte_flag by (done || by (left + right)). split; [by right|done].
  - apply (bd_inj _ _ _ _ _ _ _ _ _ H).
Qed.

Lemma env_create_run s W x l fl i ci b len type :
  kern_wf s W (x :: l) (i :: fl) -> s.(cpus) !! cpu = Some ci -> 0 <= b /\ 0 <= len /\ KERNBASE + b + len < 2 ^ 32 -> elf_ok s.(pm).(pmem) b len ->
  (forall y, b <= y < b + len -> ~ (owned W (y / PGSIZE) \/ y / PGSIZE ∈ x :: l)) -> 2 * pages_of (segments s.(pm).(pmem) b) + 2 <= Z.of_nat (length l) ->
  exists s' a l', env_create cpu (KERNBASE + b) type s = Ret tt s' /\ building W l fl i x s.(pm).(pmem) s' a l' /\ starts s s' i b type /\ holds_image s s' b (x :: l) a.
Proof using uninit_nonzero.
  intros Hk Hci Hr Helf Hap HN. destruct (env_alloc_ok s W (x :: l) (i :: fl) 0 Hk) as (e & p1 & He & Hrun1 & Hk1 & Hf1 & _). pose proof (new_building s W x l fl i e p1 Hk1 Hf1) as H1.
  set (e1 := new_env i 0 (set_env_pgdir (page_kva x) e)) in *. set (k1 := with_env i e1 e.(env_link) p1 s) in *. assert (k1.(envs) !! i = Some e1) as He1 by apply lookup_insert_eq.
  assert (forall y, b <= y < b + len -> ~ (owned W (y / PGSIZE) \/ y / PGSIZE = x \/ y / PGSIZE ∈ l)) as Hap' by (intros y Hy Hq; apply (Hap y Hy); rewrite elem_of_cons; tauto).
  destruct (load_icode_run cpu uninit_nonzero W l fl i x s.(pm).(pmem) b len Hr Hap' Helf k1 l e1 ci H1 He1 eq_refl ltac:(done) Hci HN)
    as (p2 & a & l' & kp & Hrun2 & H2 & Hlo & _). set (e2 := set_env_tf _ e1) in *. set (k2 := loaded cpu kp ci _) in *. assert (k2.(envs) = <[i := e2]> s.(envs)) as Hes by (cbn; by rewrite insert_insert_eq).
  set (e3 := set_env_type type e2). set (e4 := if type =? ENV_TYPE_FS then set_env_tf (set_eflags (Z.lor e3.(env_tf).(tf_eflags) FL_IOPL_3) e3.(env_tf)) e3 else e3).
  set (k4 := set_envs (<[i := e4]> s.(envs)) k2). assert (kern_wf k4 (<[i := a]> W) l' fl) as Hk4.
  { unfold k4. rewrite <- (insert_insert_eq s.(envs) i e4 e2), <- Hes. apply (kw_upd_env k2 _ _ _ i e2); [exact (bd_wf _ _ _ _ _ _ _ _ _ H2)|rewrite Hes; apply lookup_insert_eq|done| | |]; unfold e4; by destruct (type =? ENV_TYPE_FS). }
  exists k4, a, l'. split; [|split; [exact (building_pm _ _ _ _ _ _ k2 k4 a l' H2 Hk4 eq_refl)|split]].
  - unfold env_create. mstep (exact Hrun1). cbv iota beta. mstep (exact Hrun2). fold k2. rewrite (bind_ret _ _ _ tt (set_envs (<[i := e3]> s.(envs)) k2)).
    2: { rewrite (upd_env_some k2 i e2) by (rewrite Hes; apply lookup_insert_eq). by rewrite Hes, insert_insert_eq. }
    unfold k4, e4. destruct (type =? ENV_TYPE_FS); [|done]. rewrite (upd_env_some _ i e3) by apply lookup_insert_eq. cbn [set_envs envs]. by rewrite insert_insert_eq.
  - split; [|intros j Hj; cbn; by rewrite lookup_insert_ne]. exists e4. split; [apply lookup_insert_eq|]. unfold e4, start_eflags. destruct (type =? ENV_TYPE_FS); repeat split.
  - apply (building_image s k4 W x l fl i b k4.(pm) a l'); [exact (building_pm _ _ _ _ _ _ k2 k4 a l' H2 Hk4 eq_refl)| |done]. destruct Hlo as [Ho1 Ho2]. split; [|done]. exact Ho1.
Qed.
End Create.

(** C10: Loading a program: [env_create] on an ELF image in the kernel's memory, with a free slot and
    enough free pages, returns.  The new environment is runnable at the entry point of the image with its stack
    pointer at the top of the stack; its memory holds every loadable segment, the bytes of the file followed by zeros,
    and one page of stack, in pages of its own and with nothing else mapped; the kernel's structures stay well formed, and the other environments keep their
    records and every byte they can read. *)
Theorem env_create_loads {Mach : Machine} cpu s W l fl i ci b len type :
  (forall pgdir va, uninit_ptep pgdir va <> 0) ->
  kern_wf s W l (i :: fl) -> s.(cpus) !! cpu = Some ci -> 0 <= b /\ 0 <= len /\ KERNBASE + b + len < 2 ^ 32 -> elf_ok s.(pm).(pmem) b len ->
  (forall y, b <= y < b + len -> ~ (owned W (y / PGSIZE) \/ y / PGSIZE ∈ l)) -> 2 * pages_of (segments s.(pm).(pmem) b) + 3 <= Z.of_nat (length l) ->
  exists s' a l', env_create cpu (KERNBASE + b) type s = Ret tt s' /\ kern_wf s' (<[i := a]> W) l' fl /\ starts s s' i b type /\ holds_image s s' b l a /\
    forall j c va, W !! j = Some c -> ubyte s'.(pm) c va = ubyte s.(pm) c va.
Proof.
  intros Hu Hk Hci Hr Helf Hap HN. destruct l as [|x l]; cbn [length] in HN.
  { exfalso. assert (0 <= pages_of (segments s.(pm).(pmem) b)); [|lia]. apply pages_of_nonneg, Forall_forall. intros sg Hsg. by apply (el_seg _ _ _ Helf). }
  destruct (env_create_run cpu Hu s W x l fl i ci b len type Hk Hci Hr Helf Hap ltac:(lia)) as (s' & a & l' & Hrun & H & Hst & Hhi). exists s', a, l'.
  split; [exact Hrun|]. split; [exact (bd_wf _ _ _ _ _ _ _ _ _ H)|]. split; [exact Hst|]. split; [exact Hhi|].
  intros j c va Hj. apply ubyte_same; [|done]. intros w Hw. exists w. split; [done|]. split; [done|]. intros y Hy. apply (bd_frame _ _ _ _ _ _ _ _ _ H). rewrite Hy.
  pose proof (mapped_apart s W (x :: l) (i :: fl) j c _ w Hk Hj Hw) as Hno. rewrite elem_of_cons in Hno. tauto.
Qed.

(** ** The start: [env_init] *)

(** The slots from [j] on have been put on the list. *)
Record inited (s0 : kern) (k : Z) (s : kern) : Prop := {
  in_same : s = set_env_free_list s.(env_free_list) (set_envs s.(envs) s0);
  in_dom : forall j, is_Some (s.(envs) !! j) <-> is_Some (s0.(envs) !! j);
  in_chain : echain s.(envs) s.(env_free_list) (seqZ (NENV - k) k);
  in_slot : forall j e, NENV - k <= j < NENV -> s.(envs) !! j = Some e -> e.(env_status) = ENV_FREE /\ e.(env_id) = 0;
}.

Lemma env_init_step s0 k s :
  (forall j, is_Some (s0.(envs) !! j) <-> 0 <= j < NENV) -> 0 <= k < NENV -> inited s0 k s ->
  exists s', (let i := NENV - 1 - k in let* fl := gets env_free_list in
    upd_env i (fun e => set_env_link fl (set_env_id 0 (set_env_status ENV_FREE e))) ;;; modify (set_env_free_list (Some i))) s = Ret tt s' /\ inited s0 (k + 1) s'.
Proof.
  intros Hdom Hk [Hs Hd Hc Hsl]. set (i := NENV - 1 - k). assert (is_Some (s.(envs) !! i)) as [e He] by (apply Hd, Hdom; unfold i; lia).
  eexists. split; [mstep reflexivity; mstep (exact (upd_env_some _ _ _ _ He)); reflexivity|]. set (e' := set_env_link _ _). split; cbn [set_env_free_list set_envs envs env_free_list].
  - by rewrite Hs.
  - intros j. rewrite lookup_insert_is_Some', Hd. split; [|by right]. intros [<-|?]; [apply Hd; eauto|done].
  - replace (NENV - (k + 1)) with i by (unfold i; lia). rewrite seqZ_cons by lia. replace (Z.succ i) with (NENV - k) by (unfold i; lia). replace (Z.pred (k + 1)) with k by lia.
    split; [done|]. exists e'. split; [apply lookup_insert_eq|]. apply (echain_upd _ _ _ i e); [exact Hc|done|left]. rewrite elem_of_seqZ. unfold i. lia.
  - intros j ej Hj [[<- <-]|[Hne Hej]]%lookup_insert_Some; [done|]. apply (Hsl j ej); [unfold i in Hne; lia|done].
Qed.

(** C35: The kernel's invariant holds from the start: when the memory manager has set up its free list [l] and no
    address space exists yet, [env_init] returns with the kernel well formed, no environment in use and all slots free in order, so that the first ones
    created are slots 0, 1, 2 and so on. *)
Theorem env_init_well_formed s l :
  alloc_wf s.(pm) l -> (forall j, is_Some (s.(envs) !! j) <-> 0 <= j < NENV) ->
  (exists kp, s.(pm).(kern_pgdir) = page_kva kp /\ 0 <= kp < s.(pm).(npages) /\ kp ∉ l) ->
  exists s', env_init s = Ret tt s' /\ kern_wf s' ∅ l (seqZ 0 NENV) /\ s'.(pm) = s.(pm) /\ s'.(cpus) = s.(cpus).
Proof.
  intros Ha Hdom (kp & Hkp & Hr & Hno). assert (inited s 0 (set_env_free_list None s)) as H0 by (split; [by destruct s|done|done|intros; lia]).
  destruct (for_n_inv (inited s) (Z.to_nat NENV) 0 _ _ H0 (fun k s1 Hk => env_init_step s k s1 Hdom ltac:(lia))) as (s' & Hrun & [Hs Hd Hc Hsl]). change (0 + Z.of_nat (Z.to_nat NENV)) with NENV in *. rewrite Z.sub_diag in *.
  exists s'. split; [unfold env_init; mstep reflexivity; exact Hrun|]. rewrite Hs. split; [|done].
  assert (forall j, is_Some (s'.(envs) !! j) <-> 0 <= j < NENV) as Hd' by (intros j; by rewrite Hd).
  assert (forall j e, s'.(envs) !! j = Some e -> 0 <= j < NENV /\ e.(env_status) = ENV_FREE /\ e.(env_id) = 0) as Hall.
  { intros j e Hj. assert (0 <= j < NENV) as Hjr by (apply Hd'; eauto). split; [done|]. apply (Hsl j e); [lia|done]. }
  assert (forall p, refs ∅ p = 0) as Hrefs by (intros p; apply total_zero; intros ? ?; by rewrite lookup_empty).
  assert (vm_wf s.(pm) ∅ l no_pend) as Hvm.
  { split; [exact Ha| | | |]; try (intros *; by rewrite lookup_empty). intros p pi _ H. rewrite Hrefs in H. by unfold no_pend in H. }
  split; cbn [set_env_free_list set_envs pm envs env_free_list]; [exact Hvm|by intros *; rewrite lookup_empty|by intros *; rewrite lookup_empty|exact Hd'|exact Hc|apply NoDup_seqZ| | |by intros *; rewrite lookup_empty| | |].
  - intros j e Hj. destruct (Hall j e Hj) as (Hjr & Hst & _). rewrite elem_of_seqZ. split; [done|lia].
  - intros j e Hj. rewrite lookup_empty. by apply (Hall j e).
  - intros j e Hj. left. by apply (Hall j e).
  - intros j e Hj Hne. exfalso. apply Hne. by apply (Hall j e).
  - exists kp. split; [done|]. split; [done|]. rewrite Hrefs. intros [H|H]; [lia|done].
Qed.

Lemma env_init_well_formed_witness :
  exists s', env_init demo_kern = Ret tt s' /\ kern_wf s' ∅ [4; 5] (seqZ 0 NENV) /\ s'.(pm) = demo_kern.(pm) /\ s'.(cpus) = demo_kern.(cpus).
Proof.
  apply (env_init_well_formed demo_kern [4; 5] demo_alloc); [exact (kw_dom _ _ _ _ demo_kern_wf)|]. exists 0. split; [done|]. split; [done|]. rewrite !elem_of_cons, elem_of_nil. lia.
Defined.

(** ** A program *)

(** The kernel takes a free page for itself and fills it. *)
Lemma kw_page_taken s W x l fl m' :
  kern_wf s W (x :: l) fl -> same_outside (fun q => q = x) s.(pm).(pmem) m' -> kern_wf (set_pm (set_pmem m' (allocated 0 x s.(pm))) s) W l fl.
Proof.
  intros Hk Hm. pose proof (kw_vm _ _ _ _ Hk) as Hvm. destruct (wf_alloc s.(pm) W x l 0 Hvm) as (_ & Hvm1 & Hf & _). assert (x ∈ x :: l) as Hx by left. pose proof (free_not_owned _ _ _ _ Hvm ltac:(done) x Hx) as Hno.
  apply (kw_set_pm s W (x :: l)); [exact Hk| | |done| |done|done|].
  - destruct Hvm1 as [Ha Hrep Hdj Hmp Href]. split; try done; [by destruct Ha|]. intros i c Hi. apply (vm_rep_frame (fun q => q = x) s.(pm) _ c (vw_rep _ _ _ _ Hvm i c Hi)); [done|exact Hm|]. intros q Hq ->. apply Hno. by exists i, c.
  - intros i a Hi. by exists a.
  - exact (user_reps_free s.(pm) (set_pmem m' (allocated 0 x s.(pm))) W (x :: l) x Hvm (kw_rep _ _ _ _ Hk) Hx Hm).
  - intros kp [H|H]; [by left|right; by right].
Qed.

(** An executable with one segment, four bytes at 0x800020 followed by four zeros, and its entry point there. *)
Definition demo_elf_words : list Z := [ELF_MAGIC; 0; 0; 0; 0; 0; 0x800020; 52; 0; 0; 0; 1; 0; 1; 84; 0x800020; 0; 4; 8; 0; 0; 0x04030201].

Fixpoint st_words (m : mem) (a : Z) (ws : list Z) : mem :=
  match ws with
  | [] => m
  | w :: ws => st_words (st32 m a w) (a + 4) ws
  end.

Definition demo_image : Z := 12 * PGSIZE.
Definition demo_elf : kern := set_pm (set_pmem (st_words demo_big.(pm).(pmem) demo_image demo_elf_words) (allocated 0 12 demo_big.(pm))) demo_big.

Lemma st_words_other ws : forall m a y, y < a \/ a + 4 * Z.of_nat (length ws) <= y -> ld8 (st_words m a ws) y = ld8 m y.
Proof. induction ws as [|w ws IH]; intros m a y Hy; cbn [st_words length] in *; [done|]. rewrite IH by lia. apply ld8_st32_ne. lia. Qed.

Lemma demo_elf_wf : kern_wf demo_elf demo_world [11; 10; 9; 8; 7; 6; 4; 5] (1 :: seqZ 2 1022).
Proof.
  pose proof demo_big_wf as H. rewrite (seqZ_cons 1 1023) in H by lia. apply (kw_page_taken _ _ 12); [exact H|]. intros y Hy. apply st_words_other. change (Z.of_nat (length demo_elf_words)) with 22.
  revert Hy. unfold demo_image. consts. intros. zdm.
Qed.

Lemma demo_segments : segments demo_elf.(pm).(pmem) demo_image = [mkSeg 0x800020 8 [1; 2; 3; 4]].
Proof. vm_compute. reflexivity. Qed.

Lemma demo_elf_ok : elf_ok demo_elf.(pm).(pmem) demo_image 88.
Proof.
  assert (ld16 demo_elf.(pm).(pmem) (demo_image + 44) = 1) as Hn by (vm_compute; reflexivity). split.
  - vm_compute. reflexivity.
  - done.
  - rewrite Hn. intros j Hj. assert (j = 0) as -> by lia. split; [split; by vm_compute|]. intros _. by vm_compute.
  - rewrite demo_segments. intros sg ->%list_elem_of_singleton. split; [split; [by vm_compute|split; by vm_compute]|by vm_compute].
  - rewrite Hn. intros. lia.
Qed.

Lemma env_create_loads_witness :
  exists s' a l', env_create 0 (KERNBASE + demo_image) ENV_TYPE_USER demo_elf = Ret tt s' /\ kern_wf s' (<[1 := a]> demo_world) l' (seqZ 2 1022) /\
    starts demo_elf s' 1 demo_image ENV_TYPE_USER /\ holds_image demo_elf s' demo_image [11; 10; 9; 8; 7; 6; 4; 5] a /\
    forall j c va, demo_world !! j = Some c -> ubyte s'.(pm) c va = ubyte demo_elf.(pm) c va.
Proof.
  apply (env_create_loads 0 demo_elf demo_world [11; 10; 9; 8; 7; 6; 4; 5] (seqZ 2 1022) 1 demo_cpu demo_image 88 ENV_TYPE_USER demo_uninit demo_elf_wf eq_refl); [by vm_compute|exact demo_elf_ok| |rewrite demo_segments; by vm_compute].
  intros y Hy. assert (y / PGSIZE = 12) as -> by (revert Hy; unfold demo_image; consts; intros; zdm). intros [H|H]; [destruct (demo_owned _ H); lia|]. revert H. rewrite !elem_of_cons, elem_of_nil. lia.
Defined.
