(* ===== verification/CString.v ===== *)
(** The string library, [lib/string.c], on byte memory.

    Pointers are 32-bit addresses.  Loops that a length bounds recurse on it; loops that
    only a terminating NUL bounds take fuel and answer [None] when it runs out.  The
    theorems show that the string's length plus one is enough. *)

From S2P Require Import Prelude Mem.

(** The signed reading of a byte (C's [char]). *)
Definition sc (b : Z) : Z := if b <? 128 then b else b - 256.

(** ** Lengths *)

Fixpoint strlen_loop (fuel : nat) (m : mem) (s n : Z) : option Z :=
  match fuel with
  | O => None
  | S fuel => if ld8 m s =? 0 then Some n else strlen_loop fuel m (u32 (s + 1)) (s32 (n + 1))
  end.
Definition strlen (fuel : nat) (m : mem) (s : Z) : option Z := strlen_loop fuel m s 0.

Fixpoint strnlen_loop (size : nat) (m : mem) (s n : Z) : Z :=
  match size with
  | O => n
  | S size => if ld8 m s =? 0 then n else strnlen_loop size m (u32 (s + 1)) (s32 (n + 1))
  end.
Definition strnlen (m : mem) (s size : Z) : Z := strnlen_loop (Z.to_nat size) m s 0.

(** ** Copies *)

Fixpoint strcpy (fuel : nat) (m : mem) (dst src : Z) : option mem :=
  match fuel with
  | O => None
  | S fuel =>
      let c := ld8 m src in
      let m := st8 m dst c in
      if c =? 0 then Some m else strcpy fuel m (u32 (dst + 1)) (u32 (src + 1))
  end.

Definition strcat (fuel : nat) (m : mem) (dst src : Z) : option mem :=
  match strlen fuel m dst with
  | Some len => strcpy fuel m (u32 (dst + len)) src
  | None => None
  end.

Fixpoint strncpy_loop (n : nat) (m : mem) (dst src : Z) : mem :=
  match n with
  | O => m
  | S n =>
      let m := st8 m dst (ld8 m src) in
      strncpy_loop n m (u32 (dst + 1)) (if ld8 m src =? 0 then src else u32 (src + 1))
  end.
Definition strncpy (m : mem) (dst src size : Z) : mem := strncpy_loop (Z.to_nat size) m dst src.

(** [n] is [size - 1]; the result is the memory and the final [dst]. *)
Fixpoint strlcpy_loop (n : nat) (m : mem) (dst src : Z) : mem * Z :=
  match n with
  | O => (st8 m dst 0, dst)
  | S n =>
      if ld8 m src =? 0 then (st8 m dst 0, dst)
      else strlcpy_loop n (st8 m dst (ld8 m src)) (u32 (dst + 1)) (u32 (src + 1))
  end.
Definition strlcpy (m : mem) (dst src size : Z) : mem * Z :=
  if 0 <? size then
    let '(m, d) := strlcpy_loop (Z.to_nat (size - 1)) m dst src in (m, u32 (d - dst))
  else (m, 0).

(** ** Comparisons and searches *)

Fixpoint strcmp (fuel : nat) (m : mem) (p q : Z) : option Z :=
  match fuel with
  | O => None
  | S fuel =>
      if negb (ld8 m p =? 0) && (ld8 m p =? ld8 m q) then strcmp fuel m (u32 (p + 1)) (u32 (q + 1))
      else Some (ld8 m p - ld8 m q)
  end.

Fixpoint strncmp_loop (n : nat) (m : mem) (p q : Z) : Z :=
  match n with
  | O => 0
  | S n =>
      if negb (ld8 m p =? 0) && (ld8 m p =? ld8 m q) then strncmp_loop n m (u32 (p + 1)) (u32 (q + 1))
      else ld8 m p - ld8 m q
  end.
Definition strncmp (m : mem) (p q n : Z) : Z := strncmp_loop (Z.to_nat n) m p q.

(** [c] is a [char]; the answer 0 is the null pointer. *)
Fixpoint strchr (fuel : nat) (m : mem) (s c : Z) : option Z :=
  match fuel with
  | O => None
  | S fuel =>
      if ld8 m s =? 0 then Some 0
      else if sc (ld8 m s) =? c then Some s
      else strchr fuel m (u32 (s + 1)) c
  end.

Fixpoint strfind (fuel : nat) (m : mem) (s c : Z) : option Z :=
  match fuel with
  | O => None
  | S fuel =>
      if ld8 m s =? 0 then Some s
      else if sc (ld8 m s) =? c then Some s
      else strfind fuel m (u32 (s + 1)) c
  end.

(** ** Memory blocks *)

(** [rep stosb], [rep stosl], [rep movsb] and [rep movsl]; [step] is negative after
    [std]. *)
Fixpoint rep_stosb (n : nat) (m : mem) (d al : Z) : mem :=
  match n with O => m | S n => rep_stosb n (st8 m d al) (u32 (d + 1)) al end.
Fixpoint rep_stosl (n : nat) (m : mem) (d eax : Z) : mem :=
  match n with O => m | S n => rep_stosl n (st32 m d eax) (u32 (d + 4)) eax end.
Fixpoint rep_movsb (n : nat) (step : Z) (m : mem) (d s : Z) : mem :=
  match n with
  | O => m
  | S n => rep_movsb n step (st8 m d (ld8 m s)) (u32 (d + step)) (u32 (s + step))
  end.
Fixpoint rep_movsl (n : nat) (step : Z) (m : mem) (d s : Z) : mem :=
  match n with
  | O => m
  | S n => rep_movsl n step (st32 m d (ld32 m s)) (u32 (d + step)) (u32 (s + step))
  end.

Definition memset (m : mem) (v c n : Z) : mem :=
  if n =? 0 then m
  else if (Z.rem (s32 v) 4 =? 0) && (n mod 4 =? 0) then
    let c := Z.land c 0xFF in
    let c := Z.lor (Z.lor (Z.lor (Z.shiftl c 24) (Z.shiftl c 16)) (Z.shiftl c 8)) c in
    rep_stosl (Z.to_nat (n / 4)) m v (u32 c)
  else rep_stosb (Z.to_nat n) m v c.

Definition memmove (m : mem) (dst src n : Z) : mem :=
  if (src <? dst) && (dst <? u32 (src + n)) then
    let s := u32 (src + n) in
    let d := u32 (dst + n) in
    if (Z.rem (s32 s) 4 =? 0) && (Z.rem (s32 d) 4 =? 0) && (n mod 4 =? 0) then
      rep_movsl (Z.to_nat (n / 4)) (-4) m (u32 (d - 4)) (u32 (s - 4))
    else rep_movsb (Z.to_nat n) (-1) m (u32 (d - 1)) (u32 (s - 1))
  else if (Z.rem (s32 src) 4 =? 0) && (Z.rem (s32 dst) 4 =? 0) && (n mod 4 =? 0) then
    rep_movsl (Z.to_nat (n / 4)) 4 m dst src
  else rep_movsb (Z.to_nat n) 1 m dst src.

Definition memcpy (m : mem) (dst src n : Z) : mem := memmove m dst src n.

Fixpoint memcmp_loop (n : nat) (m : mem) (s1 s2 : Z) : Z :=
  match n with
  | O => 0
  | S n =>
      if negb (ld8 m s1 =? ld8 m s2) then ld8 m s1 - ld8 m s2
      else memcmp_loop n m (u32 (s1 + 1)) (u32 (s2 + 1))
  end.
Definition memcmp (m : mem) (v1 v2 n : Z) : Z := memcmp_loop (Z.to_nat n) m v1 v2.

Fixpoint memfind_loop (n : nat) (m : mem) (s ends c : Z) : Z :=
  match n with
  | O => s
  | S n =>
      if s <? ends then
        if ld8 m s =? u8 c then s else memfind_loop n m (u32 (s + 1)) ends c
      else s
  end.
Definition memfind (m : mem) (s c n : Z) : Z := memfind_loop (Z.to_nat n) m s (u32 (s + n)) c.

(** ** Numbers *)

(** The characters [strtol] compares with. *)
Definition chr_space : Z := 32.
Definition chr_tab : Z := 9.
Definition chr_plus : Z := 43.
Definition chr_minus : Z := 45.
Definition chr_0 : Z := 48.
Definition chr_9 : Z := 57.
Definition chr_A : Z := 65.
Definition chr_Z : Z := 90.
Definition chr_a : Z := 97.
Definition chr_x : Z := 120.
Definition chr_z : Z := 122.

Fixpoint skip_blanks (fuel : nat) (m : mem) (s : Z) : option Z :=
  match fuel with
  | O => None
  | S fuel =>
      if (sc (ld8 m s) =? chr_space) || (sc (ld8 m s) =? chr_tab) then skip_blanks fuel m (u32 (s + 1))
      else Some s
  end.

(** The value of a digit, or [None]. *)
Definition digit (c : Z) : option Z :=
  if (chr_0 <=? c) && (c <=? chr_9) then Some (c - chr_0)
  else if (chr_a <=? c) && (c <=? chr_z) then Some (c - chr_a + 10)
  else if (chr_A <=? c) && (c <=? chr_Z) then Some (c - chr_A + 10)
  else None.

Fixpoint strtol_digits (fuel : nat) (m : mem) (s val base : Z) : option (Z * Z) :=
  match fuel with
  | O => None
  | S fuel =>
      match digit (sc (ld8 m s)) with
      | None => Some (val, s)
      | Some dig =>
          if base <=? dig then Some (val, s)
          else strtol_digits fuel m (u32 (s + 1)) (s32 (val * base + dig)) base
      end
  end.

(** The value and the final position. *)
Definition strtol (fuel : nat) (m : mem) (s base : Z) : option (Z * Z) :=
  match skip_blanks fuel m s with
  | None => None
  | Some s =>
      let '(s, neg) :=
        if sc (ld8 m s) =? chr_plus then (u32 (s + 1), false)
        else if sc (ld8 m s) =? chr_minus then (u32 (s + 1), true)
        else (s, false) in
      let '(s, base) :=
        if ((base =? 0) || (base =? 16)) && ((sc (ld8 m s) =? chr_0) && (sc (ld8 m (u32 (s + 1))) =? chr_x))
        then (u32 (s + 2), 16)
        else if (base =? 0) && (sc (ld8 m s) =? chr_0) then (u32 (s + 1), 8)
        else if base =? 0 then (s, 10)
        else (s, base) in
      match strtol_digits fuel m s 0 base with
      | None => None
      | Some (val, s) => Some (if neg : bool then s32 (- val) else val, s)
      end
  end.

(** ** Block copies *)

(** A first piece of [k] bytes, then the rest, upwards or downwards. *)
Lemma copied_up m d s k n m1 r :
  0 <= k -> 0 <= n -> d <= s \/ s + k + n <= d ->
  copied m m d s k m1 -> copied m1 m1 (d + k) (s + k) n r -> copied m m d s (k + n) r.
Proof.
  intros Hk Hn Hd H1 H2 b. rewrite H2, !H1. ranges; try done; f_equal; lia.
Qed.

Lemma copied_down m d s k n m1 r :
  0 <= k -> 0 <= n -> s <= d ->
  copied m m (d + n) (s + n) k m1 -> copied m1 m1 d s n r -> copied m m d s (k + n) r.
Proof.
  intros Hk Hn Hd H1 H2 b. rewrite H2, !H1. ranges; try done; f_equal; lia.
Qed.

Lemma copied_0 m d s : copied m m d s 0 m.
Proof. intros b. by ranges. Qed.

Lemma movsb_up n m d s :
  0 <= d -> 0 <= s -> d + Z.of_nat n <= 2 ^ 32 -> s + Z.of_nat n <= 2 ^ 32 ->
  d <= s \/ s + Z.of_nat n <= d -> copied m m d s (Z.of_nat n) (rep_movsb n 1 m d s).
Proof.
  revert m d s. induction n as [|n IH]; intros m d s Hd Hs Hdn Hsn Ho; [apply copied_0|].
  replace (Z.of_nat (S n)) with (1 + Z.of_nat n) by lia. cbn [rep_movsb].
  destruct n as [|n]; [rewrite Z.add_0_r; apply copied_byte|].
  apply (copied_up _ _ _ _ _ (st8 m d (ld8 m s))); [lia|lia|lia|apply copied_byte|].
  rewrite !u32_small by lia. apply IH; lia.
Qed.

Lemma movsl_up n m d s :
  0 <= d -> 0 <= s -> d + 4 * Z.of_nat n <= 2 ^ 32 -> s + 4 * Z.of_nat n <= 2 ^ 32 ->
  d <= s \/ s + 4 * Z.of_nat n <= d -> copied m m d s (4 * Z.of_nat n) (rep_movsl n 4 m d s).
Proof.
  revert m d s. induction n as [|n IH]; intros m d s Hd Hs Hdn Hsn Ho; [apply copied_0|].
  replace (4 * Z.of_nat (S n)) with (4 + 4 * Z.of_nat n) by lia. cbn [rep_movsl].
  destruct n as [|n]; [apply copied_word|].
  apply (copied_up _ _ _ _ _ (st32 m d (ld32 m s))); [lia|lia|lia|apply copied_word|].
  rewrite !u32_small by lia. apply IH; lia.
Qed.

Lemma movsb_down n m d s :
  0 <= d -> 0 <= s -> d + Z.of_nat n <= 2 ^ 32 -> s + Z.of_nat n <= 2 ^ 32 -> s <= d ->
  copied m m d s (Z.of_nat n) (rep_movsb n (-1) m (u32 (d + Z.of_nat n - 1)) (u32 (s + Z.of_nat n - 1))).
Proof.
  revert m. induction n as [|n IH]; intros m Hd Hs Hdn Hsn Ho; [apply copied_0|].
  rewrite !u32_small by lia. replace (Z.of_nat (S n)) with (1 + Z.of_nat n) by lia. cbn [rep_movsb].
  replace (d + (1 + Z.of_nat n) - 1) with (d + Z.of_nat n) by lia.
  replace (s + (1 + Z.of_nat n) - 1) with (s + Z.of_nat n) by lia.
  apply (copied_down _ _ _ _ _ (st8 m (d + Z.of_nat n) (ld8 m (s + Z.of_nat n)))); [lia|lia|lia|apply copied_byte|].
  apply IH; lia.
Qed.

Lemma movsl_down n m d s :
  0 <= d -> 0 <= s -> d + 4 * Z.of_nat n <= 2 ^ 32 -> s + 4 * Z.of_nat n <= 2 ^ 32 -> s <= d ->
  copied m m d s (4 * Z.of_nat n)
    (rep_movsl n (-4) m (u32 (d + 4 * Z.of_nat n - 4)) (u32 (s + 4 * Z.of_nat n - 4))).
Proof.
  revert m. induction n as [|n IH]; intros m Hd Hs Hdn Hsn Ho; [apply copied_0|].
  rewrite !u32_small by lia. replace (4 * Z.of_nat (S n)) with (4 + 4 * Z.of_nat n) by lia. cbn [rep_movsl].
  replace (d + (4 + 4 * Z.of_nat n) - 4) with (d + 4 * Z.of_nat n) by lia.
  replace (s + (4 + 4 * Z.of_nat n) - 4) with (s + 4 * Z.of_nat n) by lia.
  apply (copied_down _ _ _ _ _ (st32 m (d + 4 * Z.of_nat n) (ld32 m (s + 4 * Z.of_nat n)))); [lia|lia|lia|apply copied_word|].
  apply IH; lia.
Qed.

(** C26: [memmove] copies the block as it was before the call, whichever way the two blocks
    overlap and whichever of the four string instructions it picks, and writes nothing
    else. *)
Theorem memmove_copies m dst src n b :
  0 <= dst -> 0 <= src -> 0 <= n -> dst + n <= 2 ^ 32 -> src + n < 2 ^ 32 ->
  ld8 (memmove m dst src n) b =
    if (dst <=? b) && (b <? dst + n) then ld8 m (src + (b - dst)) else ld8 m b.
Proof.
  intros Hd Hs Hn Hdn Hsn. unfold memmove. rewrite (u32_small (src + n)) by lia.
  assert (n mod 4 = 0 -> 4 * Z.of_nat (Z.to_nat (n / 4)) = n) as H4.
  { intros E. rewrite Z2Nat.id by zdm. zdm. }
  pose proof (Z2Nat.id n Hn) as H1.
  assert (forall k, u32 (u32 (dst + n) - k) = u32 (dst + n - k)) as Hw.
  { intros k. unfold u32. by rewrite Zminus_mod_idemp_l. }
  destruct ((src <? dst) && (dst <? src + n)) eqn:Eo.
  - apply andb_true_iff in Eo as [Ho1%Z.ltb_lt Ho2%Z.ltb_lt].
    pose proof (movsb_down (Z.to_nat n) m dst src) as Hb. rewrite H1 in Hb. rewrite !Hw.
    destruct (_ && _ && _) eqn:Ea; [|apply Hb; lia].
    apply andb_true_iff in Ea as [_ E%Z.eqb_eq].
    pose proof (movsl_down (Z.to_nat (n / 4)) m dst src) as Hl. rewrite (H4 E) in Hl. apply Hl; lia.
  - apply andb_false_iff in Eo. rewrite !Z.ltb_ge in Eo.
    pose proof (movsb_up (Z.to_nat n) m dst src) as Hb. rewrite H1 in Hb.
    destruct (_ && _ && _) eqn:Ea; [|apply Hb; lia].
    apply andb_true_iff in Ea as [_ E%Z.eqb_eq].
    pose proof (movsl_up (Z.to_nat (n / 4)) m dst src) as Hl. rewrite (H4 E) in Hl. apply Hl; lia.
Qed.

(** Four bytes moved up by two, over themselves. *)
Lemma memmove_copies_witness : ld8 (memmove (st_bytes ∅ 100 [1; 2; 3; 4]) 102 100 4) 105 = 4.
Proof. rewrite (memmove_copies _ 102 100 4 105) by lia. cbn [andb Z.leb Z.ltb]. reflexivity. Defined.

(** ** Filling *)

Lemma stosb_fill n m d al b :
  0 <= d -> d + Z.of_nat n <= 2 ^ 32 ->
  ld8 (rep_stosb n m d al) b = if (d <=? b) && (b <? d + Z.of_nat n) then u8 al else ld8 m b.
Proof.
  revert m d. induction n as [|n IH]; intros m d Hd Hn; [by cbn [rep_stosb]; ranges|].
  cbn [rep_stosb]. destruct n as [|n]; [cbn [rep_stosb]; rewrite ld8_st8; by ranges|].
  rewrite u32_small, IH, ld8_st8 by lia. by ranges.
Qed.

Lemma stosl_fill n m d eax c b :
  (forall k, 0 <= k < 4 -> u8 (eax / 2 ^ (8 * k)) = c) -> 0 <= d -> d + 4 * Z.of_nat n <= 2 ^ 32 ->
  ld8 (rep_stosl n m d eax) b = if (d <=? b) && (b <? d + 4 * Z.of_nat n) then c else ld8 m b.
Proof.
  intros Hc.
  assert (forall m d b, ld8 (st32 m d eax) b = if (d <=? b) && (b <? d + 4) then c else ld8 m b) as Hw.
  { clear m d b. intros m d b. rewrite ld8_st32. change (2 ^ 8) with (2 ^ (8 * 1)). change (2 ^ 16) with (2 ^ (8 * 2)).
    change (2 ^ 24) with (2 ^ (8 * 3)). rewrite <- (Z.div_1_r eax) at 1. change 1 with (2 ^ (8 * 0)) at 1.
    rewrite !Hc by lia. by ranges. }
  revert m d. induction n as [|n IH]; intros m d Hd Hn; [by cbn [rep_stosl]; ranges|].
  cbn [rep_stosl]. destruct n as [|n]; [cbn [rep_stosl]; rewrite Hw; by ranges|].
  rewrite u32_small, IH, Hw by lia. by ranges.
Qed.

(** The word [memset] builds repeats the byte. *)
Lemma fill_word c k :
  0 <= k < 4 ->
  let x := Z.land c 0xFF in
  u8 (u32 (Z.lor (Z.lor (Z.lor (Z.shiftl x 24) (Z.shiftl x 16)) (Z.shiftl x 8)) x) / 2 ^ (8 * k)) = u8 c.
Proof.
  intros Hk x. change 0xFF with (2 ^ 8 - 1) in x. subst x. rewrite land_ones_mod by lia. fold (u8 c).
  pose proof (u8_range c). rewrite !Z.shiftl_mul_pow2 by lia. generalize dependent (u8 c). intros x Hx.
  rewrite (lor_add_low (x * 2 ^ 24) _ 24) by (done || zdm). rewrite (lor_add_low _ (x * 2 ^ 8) 16) by (done || zdm).
  rewrite (lor_add_low _ x 8) by (done || zdm). rewrite u32_small by lia. unfold u8.
  assert (k = 0 \/ k = 1 \/ k = 2 \/ k = 3) as [->|[->|[->| ->]]] by lia.
  - change (2 ^ (8 * 0)) with 1. zdm.
  - change (2 ^ (8 * 1)) with 256. zdm.
  - change (2 ^ (8 * 2)) with 65536. zdm.
  - change (2 ^ (8 * 3)) with 16777216. zdm.
Qed.

(** [memset] writes the low byte of its argument over the block, by words or by bytes,
    and writes nothing else. *)
Theorem memset_fills m v c n b :
  0 <= v -> 0 <= n -> v + n <= 2 ^ 32 ->
  ld8 (memset m v c n) b = if (v <=? b) && (b <? v + n) then u8 c else ld8 m b.
Proof.
  intros Hv Hn Hvn. unfold memset. destruct (Z.eqb_spec n 0) as [->|]; [by ranges|].
  destruct (_ && _) eqn:E.
  - apply andb_true_iff in E as [_ E%Z.eqb_eq].
    rewrite (stosl_fill _ _ _ _ (u8 c)); [|intros; by apply fill_word|done|];
      (replace (4 * Z.of_nat (Z.to_nat (n / 4))) with n by (rewrite Z2Nat.id; zdm)); done.
  - rewrite stosb_fill; rewrite ?Z2Nat.id by done; done.
Qed.

Lemma memset_fills_witness : ld8 (memset ∅ 4096 (-1) 4096) 5000 = 255.
Proof. rewrite (memset_fills _ 4096 (-1) 4096) by lia. reflexivity. Defined.

(** ** Strings *)

(** The string at [p] is [l], followed by its NUL, and does not reach the end of the
    address space. *)
Fixpoint cstr (m : mem) (p : Z) (l : list Z) : Prop :=
  0 <= p < 2 ^ 32 - 1 /\
  match l with
  | [] => ld8 m p = 0
  | c :: l => ld8 m p = c /\ c <> 0 /\ cstr m (p + 1) l
  end.

Lemma cstr_range m p l : cstr m p l -> 0 <= p /\ p + Z.of_nat (length l) < 2 ^ 32 - 1.
Proof.
  revert p. induction l as [|c l IH]; intros p [H1 H2]; simpl length; [lia|].
  destruct H2 as (_ & _ & H2). apply IH in H2. lia.
Qed.

Lemma cstr_bytes m p l c : cstr m p l -> c ∈ l -> 0 < c < 256.
Proof.
  revert p. induction l as [|x l IH]; intros p [_ H] Hc; [by apply elem_of_nil in Hc|].
  destruct H as (Hx & Hne & Hl). apply elem_of_cons in Hc as [->|Hc]; [|by apply (IH (p + 1))].
  pose proof (ld8_range m p). lia.
Qed.

Lemma cstr_lookup m p l i c : cstr m p l -> l !! i = Some c -> ld8 m (p + Z.of_nat i) = c.
Proof.
  revert p i. induction l as [|x l IH]; intros p i [_ H] Hi; [done|]. destruct H as (Hx & _ & Hl).
  destruct i as [|i]; simpl in Hi; [injection Hi as <-; by rewrite Z.add_0_r|].
  rewrite <- (IH (p + 1) i Hl Hi). f_equal. lia.
Qed.

(** A change of memory outside the string leaves it. *)
Lemma cstr_ext m m' p l :
  (forall b, p <= b <= p + Z.of_nat (length l) -> ld8 m' b = ld8 m b) -> cstr m p l -> cstr m' p l.
Proof.
  revert p. induction l as [|x l IH]; intros p He [Hp H]; (split; [done|]).
  - rewrite He; [done|simpl length; lia].
  - destruct H as (Hx & Hne & Hl). rewrite He by (simpl length; lia). split; [done|]. split; [done|].
    apply IH; [|done]. intros b Hb. apply He. simpl length. lia.
Qed.

Lemma strlen_loop_ok m l p n fuel :
  cstr m p l -> 0 <= n -> n + Z.of_nat (length l) < 2 ^ 31 -> (length l < fuel)%nat ->
  strlen_loop fuel m p n = Some (n + Z.of_nat (length l)).
Proof.
  revert p n fuel. induction l as [|x l IH]; intros p n fuel [Hp H] Hn Hb Hf;
    (destruct fuel as [|fuel]; [simpl length in *; lia|]); cbn [strlen_loop].
  - rewrite H. simpl. f_equal. lia.
  - destruct H as (-> & Hne & Hl). rewrite (proj2 (Z.eqb_neq _ _)) by done. simpl length in *.
    rewrite u32_small, s32_small, IH by (done || lia). f_equal. lia.
Qed.

(** [strlen] returns the length of the string, and needs one step more than that. *)
Theorem strlen_length m p l fuel :
  cstr m p l -> Z.of_nat (length l) < 2 ^ 31 -> (length l < fuel)%nat ->
  strlen fuel m p = Some (Z.of_nat (length l)).
Proof. intros H Hb Hf. unfold strlen. by rewrite (strlen_loop_ok m l). Qed.

Definition hello : mem := st_bytes ∅ 1000 [104; 101; 108; 108; 111; 0].

Lemma hello_cstr : cstr hello 1000 [104; 101; 108; 108; 111].
Proof. repeat (split; [lia || done || (by vm_compute)|]). by vm_compute. Qed.

Lemma strlen_length_witness : strlen 6 hello 1000 = Some 5.
Proof. apply (strlen_length hello 1000 _ 6 hello_cstr); simpl; lia. Defined.

(** The order on strings as sequences of unsigned bytes: negative, zero or positive. *)
Fixpoint lex (a b : list Z) : Z :=
  match a, b with
  | [], [] => 0
  | [], y :: _ => - y
  | x :: _, [] => x
  | x :: a, y :: b => if x =? y then lex a b else x - y
  end.

Lemma strcmp_lex m p q a b fuel :
  cstr m p a -> cstr m q b -> (length a < fuel)%nat -> strcmp fuel m p q = Some (lex a b).
Proof.
  revert p q b fuel. induction a as [|x a IH]; intros p q b fuel [Hp Ha] Hb Hf;
    (destruct fuel as [|fuel]; [simpl length in *; lia|]); cbn [strcmp].
  - rewrite Ha. destruct b as [|y b]; destruct Hb as [_ Hb]; [by rewrite Hb|].
    destruct Hb as (-> & _). simpl. done.
  - destruct Ha as (-> & Hx & Ha). rewrite (proj2 (Z.eqb_neq x 0)) by done. cbn [negb andb].
    destruct b as [|y b]; destruct Hb as [Hq Hb].
    + rewrite Hb, (proj2 (Z.eqb_neq x 0)) by done. cbn [lex]. f_equal. lia.
    + destruct Hb as (-> & Hy & Hb). cbn [lex]. destruct (x =? y); [|done].
      rewrite !u32_small by lia. simpl length in Hf. apply IH; [done|done|lia].
Qed.

Lemma lex_zero a b : (forall c, c ∈ a -> 0 < c) -> (forall c, c ∈ b -> 0 < c) -> lex a b = 0 <-> a = b.
Proof.
  revert b. induction a as [|x a IH]; intros [|y b] Ha Hb; cbn [lex].
  - done.
  - specialize (Hb y ltac:(left)). split; [lia|done].
  - specialize (Ha x ltac:(left)). split; [lia|done].
  - destruct (Z.eqb_spec x y) as [->|Hne].
    + rewrite IH by (intros c Hc; first [apply Ha; by right|apply Hb; by right]). split; [by intros ->|by intros [= ->]].
    + split; [lia|by intros [= -> _]].
Qed.

(** [strcmp] compares as sequences of unsigned bytes, and answers 0 exactly for equal
    strings. *)
Theorem strcmp_compares m p q a b fuel :
  cstr m p a -> cstr m q b -> (length a < fuel)%nat ->
  strcmp fuel m p q = Some (lex a b) /\ (lex a b = 0 <-> a = b).
Proof.
  intros Ha Hb Hf. split; [by apply strcmp_lex|].
  apply lex_zero; intros c Hc; [apply (cstr_bytes m p a c Ha) in Hc|apply (cstr_bytes m q b c Hb) in Hc]; lia.
Qed.

Lemma strcmp_compares_witness : strcmp 6 hello 1000 1002 = Some (-4).
Proof.
  destruct (strcmp_compares hello 1000 1002 [104; 101; 108; 108; 111] [108; 108; 111] 6 hello_cstr) as [H _];
    [repeat (split; [lia || done || (by vm_compute)|]); by vm_compute|simpl; lia|exact H].
Defined.

(** The part of the loop of [strlcpy] still to come: [k] characters fit. *)
Lemma strlcpy_loop_ok k m dst src l :
  cstr m src l -> 0 <= dst -> dst + Z.of_nat k < 2 ^ 32 - 1 ->
  dst + Z.of_nat k < src \/ src + Z.of_nat (length l) < dst ->
  exists m', strlcpy_loop k m dst src = (m', dst + Z.of_nat (length (take k l))) /\
    cstr m' dst (take k l) /\
    forall b, b < dst \/ dst + Z.of_nat (length (take k l)) < b -> ld8 m' b = ld8 m b.
Proof.
  revert m dst src l. induction k as [|k IH]; intros m dst src l Hs Hd Hk Hdis; cbn [strlcpy_loop].
  - exists (st8 m dst 0). rewrite take_0. simpl length. rewrite Z.add_0_r.
    split; [done|]. split; [split; [lia|rewrite ld8_st8; by ranges]|]. intros b Hb. rewrite ld8_st8. by ranges.
  - destruct l as [|c l]; destruct Hs as [Hp Hs].
    + rewrite Hs. cbn [Z.eqb take length]. exists (st8 m dst 0). change (Z.of_nat 0) with 0. rewrite Z.add_0_r.
      split; [done|]. split; [split; [lia|rewrite ld8_st8; by ranges]|]. intros b Hb. rewrite ld8_st8. by ranges.
    + destruct Hs as (Hc & Hne & Hl). rewrite Hc, (proj2 (Z.eqb_neq c 0)) by done. rewrite !u32_small by lia.
      simpl length in *. pose proof (ld8_range m src).
      destruct (IH (st8 m dst c) (dst + 1) (src + 1) l) as (m' & Hrun & Hst & Hf); [|lia|lia|lia|].
      { apply (cstr_ext m); [|done]. intros b Hb. rewrite ld8_st8. by ranges. }
      exists m'. cbn [take length]. rewrite Hrun. split; [f_equal; lia|].
      split; [|intros b Hb; rewrite Hf, ld8_st8 by lia; by ranges].
      split; [lia|]. split; [|by split]. rewrite Hf, ld8_st8 by lia. ranges. by apply u8_small; lia.
Qed.

(** [strlcpy] into a buffer of [size] bytes away from the source never writes past the
    buffer, always leaves a terminated string, the longest prefix that fits, and returns
    its length. *)
Theorem strlcpy_bounded m dst src l size :
  cstr m src l -> 0 <= dst -> 0 < size -> dst + size < 2 ^ 32 ->
  dst + size <= src \/ src + Z.of_nat (length l) < dst ->
  exists m', let r := take (Z.to_nat (size - 1)) l in
    strlcpy m dst src size = (m', Z.of_nat (length r)) /\ cstr m' dst r /\
    Z.of_nat (length r) < size /\ forall b, b < dst \/ dst + size <= b -> ld8 m' b = ld8 m b.
Proof.
  intros Hs Hd Hsz Hb Hdis.
  destruct (strlcpy_loop_ok (Z.to_nat (size - 1)) m dst src l Hs) as (m' & Hrun & Hst & Hf); [lia..|].
  exists m'. cbv zeta. unfold strlcpy. rewrite (proj2 (Z.ltb_lt _ _)), Hrun by done.
  assert (Z.of_nat (length (take (Z.to_nat (size - 1)) l)) < size) as Hlen by (rewrite length_take; lia).
  split; [|split; [done|split; [done|]]].
  - f_equal. rewrite u32_small by lia. lia.
  - intros b Hbb. apply Hf. lia.
Qed.

Lemma strlcpy_bounded_witness : exists m', strlcpy hello 2000 1000 4 = (m', 3) /\ cstr m' 2000 [104; 101; 108].
Proof.
  destruct (strlcpy_bounded hello 2000 1000 _ 4 hello_cstr) as (m' & Hrun & Hst & _); [lia|lia|lia|simpl; lia|].
  exists m'. split; [exact Hrun|exact Hst].
Defined.

(** ** Numbers *)

(** A run of digits of the base, and what it denotes. *)
Definition digits_val (base : Z) (ds : list Z) (v : Z) : Z := foldl (fun v d => v * base + d) v ds.

Lemma digits_val_nonneg base ds v :
  0 <= base -> 0 <= v -> (forall d, d ∈ ds -> 0 <= d) -> v * base ^ Z.of_nat (length ds) <= digits_val base ds v.
Proof.
  intros Hb. revert v. induction ds as [|d ds IH]; intros v Hv Hd; simpl length; [simpl; lia|].
  cbn [digits_val foldl]. assert (0 <= d) by (apply Hd; left).
  etrans; [|apply IH; [nia|intros; apply Hd; by right]].
  replace (Z.of_nat (S (length ds))) with (Z.succ (Z.of_nat (length ds))) by lia.
  rewrite Z.pow_succ_r by lia. pose proof (Z.pow_nonneg base (Z.of_nat (length ds)) Hb). nia.
Qed.

(** The characters [0]-[9] and [a]-[z] of a digit, as [printnum] writes them. *)
Definition digit_char (d : Z) : Z := if d <? 10 then chr_0 + d else chr_a + (d - 10).

Lemma digit_of_char d : 0 <= d < 36 -> digit (sc (digit_char d)) = Some d.
Proof.
  intros Hd. unfold digit_char, digit, sc, chr_0, chr_9, chr_a, chr_z, chr_A, chr_Z.
  destruct (Z.ltb_spec d 10); ranges; cbn [andb]; f_equal; lia.
Qed.

Lemma strtol_digits_ok m ds p v base fuel :
  cstr m p (digit_char <$> ds) -> 2 <= base <= 36 -> (forall d, d ∈ ds -> 0 <= d < base) ->
  0 <= v -> digits_val base ds v < 2 ^ 31 -> (length ds < fuel)%nat ->
  strtol_digits fuel m p v base = Some (digits_val base ds v, p + Z.of_nat (length ds)).
Proof.
  revert p v fuel. induction ds as [|d ds IH]; intros p v fuel Hs Hb Hd Hv Hval Hf;
    (destruct fuel as [|fuel]; [simpl length in *; lia|]); cbn [strtol_digits].
  - destruct Hs as [_ Hs]. rewrite Hs. change (digit (sc 0)) with (@None Z). simpl. f_equal. f_equal. lia.
  - destruct Hs as (Hp & Hc & Hne & Hs). assert (0 <= d < base) as Hdb by (apply Hd; left).
    rewrite Hc, digit_of_char by lia. rewrite (proj2 (Z.leb_gt _ _)) by lia.
    cbn [digits_val foldl] in Hval |- *. fold (digits_val base ds (v * base + d)) in Hval |- *.
    assert (v * base + d <= digits_val base ds (v * base + d)) as Hle.
    { etrans; [|apply digits_val_nonneg; [lia|nia|intros x Hx; apply Hd; by right]].
      pose proof (Z.pow_pos_nonneg base (Z.of_nat (length ds))). nia. }
    rewrite u32_small, s32_small by (nia || lia).
    simpl length in *. rewrite IH; [f_equal; f_equal; lia|done|done|intros x Hx; apply Hd; by right|nia|done|lia].
Qed.

Lemma digit_char_range d : 0 <= d < 36 -> 48 <= digit_char d < 123 /\ (digit_char d = chr_x -> d = 33).
Proof. unfold digit_char, chr_0, chr_a, chr_x. intros H. destruct (Z.ltb_spec d 10); lia. Qed.

(** The first character of a number is no blank and no sign, and starts no prefix. *)
Lemma number_plain m p base d ds :
  cstr m p (digit_char <$> d :: ds) -> 2 <= base <= 36 -> (forall x, x ∈ d :: ds -> 0 <= x < base) ->
  let c := sc (ld8 m p) in
  (c =? chr_space) = false /\ (c =? chr_tab) = false /\ (c =? chr_plus) = false /\ (c =? chr_minus) = false /\
  ((base =? 0) || (base =? 16)) && ((c =? chr_0) && (sc (ld8 m (u32 (p + 1))) =? chr_x)) = false.
Proof.
  intros (Hp & Hc & Hne & Hs) Hb Hd c. subst c. rewrite Hc.
  destruct (digit_char_range d) as [Hr _]; [specialize (Hd d ltac:(left)); lia|].
  assert (sc (digit_char d) = digit_char d) as -> by (unfold sc; ranges; done).
  unfold chr_space, chr_tab, chr_plus, chr_minus.
  split; [apply Z.eqb_neq; lia|]. split; [apply Z.eqb_neq; lia|]. split; [apply Z.eqb_neq; lia|].
  split; [apply Z.eqb_neq; lia|]. rewrite (proj2 (Z.eqb_neq base 0)) by lia. cbn [orb].
  destruct (Z.eqb_spec base 16) as [->|]; [|done]. cbn [andb]. apply andb_false_iff. right.
  rewrite u32_small by lia. apply Z.eqb_neq. destruct ds as [|e ds]; destruct Hs as [_ Hs]; [by rewrite Hs|].
  destruct Hs as [-> _]. specialize (Hd e ltac:(right; left)). destruct (digit_char_range e ltac:(lia)) as [He Hx].
  unfold sc. destruct (Z.ltb_spec (digit_char e) 128); [|lia]. intros E%Hx. lia.
Qed.

(** [strtol] reads back any number written in its base: for an optional minus sign and a
    non-empty run of digits below the base, whose value fits in 31 bits, it returns the
    value with its sign and stops behind the last digit. *)
Lemma strtol_reads m p (neg : bool) d ds base fuel :
  cstr m p ((if neg then [chr_minus] else []) ++ (digit_char <$> d :: ds)) -> 2 <= base <= 36 ->
  (forall x, x ∈ d :: ds -> 0 <= x < base) -> digits_val base (d :: ds) 0 < 2 ^ 31 ->
  (length (d :: ds) < fuel)%nat ->
  strtol fuel m p base = Some (if neg then - digits_val base (d :: ds) 0 else digits_val base (d :: ds) 0,
    p + (if neg then 1 else 0) + Z.of_nat (length (d :: ds))).
Proof.
  intros Hs Hb Hd Hv Hf. unfold strtol. destruct fuel as [|fuel]; [lia|]. cbn [skip_blanks].
  destruct neg; cbn [app] in Hs.
  - destruct Hs as (Hp & Hc & _ & Hs). rewrite Hc. cbn [sc Z.ltb Z.eqb chr_minus chr_space chr_tab chr_plus orb].
    change (sc chr_minus =? chr_space) with false. change (sc chr_minus =? chr_tab) with false.
    change (sc chr_minus =? chr_plus) with false. change (sc chr_minus =? chr_minus) with true. cbn [orb].
    rewrite Hc. change (sc chr_minus =? chr_plus) with false. change (sc chr_minus =? chr_minus) with true. cbv iota beta.
    rewrite u32_small by lia. destruct (number_plain m (p + 1) base d ds Hs Hb Hd) as (_ & _ & _ & _ & Hx).
    rewrite Hx, (proj2 (Z.eqb_neq base 0)) by lia. cbn [andb]. rewrite (strtol_digits_ok m (d :: ds)) by (done || lia).
    pose proof (digits_val_nonneg base (d :: ds) 0 ltac:(lia) ltac:(lia) (fun x Hx => proj1 (Hd x Hx))).
    rewrite s32_small by lia. done.
  - destruct (number_plain m p base d ds Hs Hb Hd) as (H1 & H2 & H3 & H4 & Hx). rewrite H1, H2. cbn [orb].
    rewrite H3, H4, Hx, (proj2 (Z.eqb_neq base 0)) by lia. cbn [andb].
    rewrite (strtol_digits_ok m (d :: ds)) by (done || lia). by rewrite Z.add_0_r.
Qed.
