(* ===== verification/Chksum.v ===== *)
(** The Internet checksum of the network stack ([net/lwip/core/ipv4/inet_chksum.c]) with its
    byte swapping ([net/lwip/core/ipv4/inet.c]).

    The file has three summing routines, chosen by [LWIP_CHKSUM_ALGORITHM]; all three are
    translated and shown equal to one definition, the sum of 16-bit words with end-around
    carry.  A chain of buffers is the list of its payloads. *)

From S2P Require Import Prelude Mem.

(** ** The code *)

Definition htons (n : Z) : Z := u16 (Z.lor (Z.shiftl (Z.land n 0xff) 8) (Z.shiftr (Z.land n 0xff00) 8)).
Definition ntohs (n : Z) : Z := htons n.
Definition htonl (n : Z) : Z :=
  u32 (Z.lor (Z.lor (Z.lor (Z.shiftl (Z.land n 0xff) 24) (Z.shiftl (Z.land n 0xff00) 8)) (Z.shiftr (Z.land n 0xff0000) 8))
    (Z.shiftr (Z.land n 0xff000000) 24)).
Definition ntohl (n : Z) : Z := htonl n.

Definition SWAP_BYTES_IN_WORD (w : Z) : Z := Z.lor (Z.shiftl (Z.land w 0xff) 8) (Z.shiftr (Z.land w 0xff00) 8).
Definition FOLD_U32T (u : Z) : Z := u32 (Z.shiftr u 16 + Z.land u 0xffff).

(** [while (len > 1)] with [step]; a loop gives the pointer, the length left and the sum. *)
Section While.
Context (lim : Z) (step : Z -> Z -> Z) (size : Z).
Fixpoint sum_while (fuel : nat) (p len acc : Z) : option (Z * Z * Z) :=
  if lim <? len then
    match fuel with
    | O => None
    | S fuel => sum_while fuel (u32 (p + size)) (len - size) (step p acc)
    end
  else Some (p, len, acc).
End While.

(** Version 1: octet by octet, in network order. *)
Definition chksum_1 (m : mem) (dataptr len : Z) : option Z :=
  let word p acc := u32 (acc + Z.lor (u16 (Z.shiftl (ld8 m p) 8)) (ld8 m (u32 (p + 1)))) in
  match sum_while 1 word 2 (Z.to_nat len) dataptr len 0 with
  | None => None
  | Some (octetptr, len, acc) =>
      let acc := if 0 <? len then u32 (acc + u16 (Z.shiftl (ld8 m octetptr) 8)) else acc in
      let acc := FOLD_U32T acc in
      let acc := if negb (Z.land acc 0xffff0000 =? 0) then FOLD_U32T acc else acc in
      Some (htons (u16 acc))
  end.

(** Version 2: two bytes at a time, from an even address. *)
Definition chksum_2 (m : mem) (dataptr len : Z) : option Z :=
  let odd := Z.land dataptr 1 in
  let first := nonzero odd && (0 <? len) in
  let t1 := if first then ld8 m dataptr else 0 in
  let pb := if first then u32 (dataptr + 1) else dataptr in
  let len := if first then len - 1 else len in
  match sum_while 1 (fun p sum => u32 (sum + ld16 m p)) 2 (Z.to_nat len) pb len 0 with
  | None => None
  | Some (ps, len, sum) =>
      let t0 := if 0 <? len then ld8 m ps else 0 in
      let sum := u32 (sum + (t0 + 2 ^ 8 * t1)) in
      let sum := FOLD_U32T (FOLD_U32T sum) in
      Some (u16 (if nonzero odd then SWAP_BYTES_IN_WORD sum else sum))
  end.

(** Version 3: eight bytes a turn, from an address that is a multiple of four. *)
Definition add_carry (sum w : Z) : Z := let tmp := u32 (sum + w) in if tmp <? sum then u32 (tmp + 1) else tmp.

Definition chksum_3_from (m : mem) (pb len t1 : Z) (odd : bool) : option Z :=
  let second := nonzero (Z.land pb 3) && (1 <? len) in
  let sum := if second then ld16 m pb else 0 in
  let ps := if second then u32 (pb + 2) else pb in
  let len := if second then len - 2 else len in
  match sum_while 7 (fun p sum => add_carry (add_carry sum (ld32 m p)) (ld32 m (u32 (p + 4)))) 8 (Z.to_nat len) ps len sum with
  | None => None
  | Some (pl, len, sum) =>
      match sum_while 1 (fun p sum => u32 (sum + ld16 m p)) 2 (Z.to_nat len) pl len (FOLD_U32T sum) with
      | None => None
      | Some (ps, len, sum) =>
          let t0 := if 0 <? len then ld8 m ps else 0 in
          let sum := u32 (sum + (t0 + 2 ^ 8 * t1)) in
          let sum := FOLD_U32T (FOLD_U32T sum) in
          Some (u16 (if odd then SWAP_BYTES_IN_WORD sum else sum))
      end
  end.

Definition chksum_3 (m : mem) (dataptr len : Z) : option Z :=
  let odd := nonzero (Z.land dataptr 1) in
  let first := odd && (0 <? len) in
  let t1 := if first then ld8 m dataptr else 0 in
  let pb := if first then u32 (dataptr + 1) else dataptr in
  let len := if first then len - 1 else len in
  chksum_3_from m pb len t1 odd.

Section Callers.
(** [LWIP_CHKSUM] *)
Context (LWIP_CHKSUM : mem -> Z -> Z -> option Z).

Definition inet_chksum (m : mem) (dataptr len : Z) : option Z :=
  match LWIP_CHKSUM m dataptr len with Some s => Some (u16 (Z.lnot s)) | None => None end.

(** A [struct pbuf]: payload and length. *)
Record pbuf := mkPbuf { payload : Z; plen : Z }.

Fixpoint chksum_chain (m : mem) (ps : list pbuf) (acc swapped : Z) : option (Z * Z) :=
  match ps with
  | [] => Some (acc, swapped)
  | q :: ps =>
      match LWIP_CHKSUM m q.(payload) q.(plen) with
      | None => None
      | Some s =>
          let acc := FOLD_U32T (u32 (acc + s)) in
          if negb (q.(plen) mod 2 =? 0) then chksum_chain m ps (SWAP_BYTES_IN_WORD acc) (1 - swapped)
          else chksum_chain m ps acc swapped
      end
  end.

Definition inet_chksum_pbuf (m : mem) (p : list pbuf) : option Z :=
  match chksum_chain m p 0 0 with
  | None => None
  | Some (acc, swapped) =>
      let acc := if nonzero swapped then SWAP_BYTES_IN_WORD acc else acc in
      Some (u16 (Z.lnot (Z.land acc 0xffff)))
  end.

(** The pseudo header: addresses in network order. *)
Definition add_pseudo (acc src dest proto proto_len : Z) : Z :=
  let acc := u32 (acc + Z.land src 0xffff) in
  let acc := u32 (acc + Z.land (Z.shiftr src 16) 0xffff) in
  let acc := u32 (acc + Z.land dest 0xffff) in
  let acc := u32 (acc + Z.land (Z.shiftr dest 16) 0xffff) in
  let acc := u32 (acc + htons proto) in
  u32 (acc + htons proto_len).

Definition inet_chksum_pseudo (m : mem) (p : list pbuf) (src dest proto proto_len : Z) : option Z :=
  match chksum_chain m p 0 0 with
  | None => None
  | Some (acc, swapped) =>
      let acc := if nonzero swapped then SWAP_BYTES_IN_WORD acc else acc in
      let acc := FOLD_U32T (FOLD_U32T (add_pseudo acc src dest proto proto_len)) in
      Some (u16 (Z.lnot (Z.land acc 0xffff)))
  end.

(** The first [chksum_len] bytes of a chain; [None] when the assertion in the loop fails. *)
Fixpoint chksum_chain_partial (m : mem) (ps : list pbuf) (chksum_len acc swapped : Z) : option (Z * Z) :=
  match ps with
  | [] => Some (acc, swapped)
  | q :: ps =>
      if 0 <? chksum_len then
        let chklen := if chksum_len <? q.(plen) then chksum_len else q.(plen) in
        match LWIP_CHKSUM m q.(payload) chklen with
        | None => None
        | Some s =>
            let acc := u32 (acc + s) in
            let chksum_len := u16 (chksum_len - chklen) in
            if chksum_len <? 0x7fff then
              let acc := FOLD_U32T acc in
              if negb (q.(plen) mod 2 =? 0) then chksum_chain_partial m ps chksum_len (SWAP_BYTES_IN_WORD acc) (1 - swapped)
              else chksum_chain_partial m ps chksum_len acc swapped
            else None
        end
      else Some (acc, swapped)
  end.

Definition inet_chksum_pseudo_partial (m : mem) (p : list pbuf) (src dest proto proto_len chksum_len : Z) : option Z :=
  match chksum_chain_partial m p chksum_len 0 0 with
  | None => None
  | Some (acc, swapped) =>
      let acc := if nonzero swapped then SWAP_BYTES_IN_WORD acc else acc in
      let acc := FOLD_U32T (FOLD_U32T (add_pseudo acc src dest proto proto_len)) in
      Some (u16 (Z.lnot (Z.land acc 0xffff)))
  end.
End Callers.

(** ** The reference: 16-bit words with end-around carry *)

Definition oc_add (a b : Z) : Z := let s := a + b in if 0xffff <? s then s - 0xffff else s.

Fixpoint rfc1071 (l : list Z) : Z :=
  match l with
  | [] => 0
  | [a] => a
  | a :: b :: l => oc_add (a + 2 ^ 8 * b) (rfc1071 l)
  end.

(** ** Arithmetic with end-around carry

    A sum is known by its residue and by whether it is zero. *)

Definition oc (x : Z) : Z := if x =? 0 then 0 else (x - 1) mod 65535 + 1.

Lemma oc_eq x y : 0 <= x -> 0 <= y -> (x = 0 <-> y = 0) -> x mod 65535 = y mod 65535 -> oc x = oc y.
Proof.
  intros Hx Hy Hz Hm. unfold oc. destruct (Z.eqb_spec x 0), (Z.eqb_spec y 0); try tauto.
  by rewrite (Zminus_mod x), (Zminus_mod y), Hm.
Qed.

Lemma oc_spec x : 0 <= x -> 0 <= oc x <= 65535 /\ oc x mod 65535 = x mod 65535 /\ (oc x = 0 <-> x = 0).
Proof.
  intros Hx. unfold oc. destruct (Z.eqb_spec x 0) as [->|Hne]; [done|].
  pose proof (Z.mod_pos_bound (x - 1) 65535 ltac:(lia)). split; [lia|]. split; [|lia].
  rewrite Zplus_mod_idemp_l. f_equal. lia.
Qed.

Lemma oc_small x : 0 <= x <= 65535 -> oc x = x.
Proof. intros H. unfold oc. bcase; [lia|]. rewrite Z.mod_small; lia. Qed.

Lemma oc_add_l x y : 0 <= x -> 0 <= y -> oc (oc x + y) = oc (x + y).
Proof.
  intros Hx Hy. destruct (oc_spec x Hx) as (H1 & H2 & H3). apply oc_eq; [lia|lia|lia|]. by rewrite Zplus_mod, H2, <- Zplus_mod.
Qed.

Lemma oc_mul c x : 0 < c -> 0 <= x -> oc (c * oc x) = oc (c * x).
Proof.
  intros Hc Hx. destruct (oc_spec x Hx) as (H1 & H2 & H3). apply oc_eq; [nia|nia|nia|]. by rewrite Zmult_mod, H2, <- Zmult_mod.
Qed.

Lemma oc_hi x y : 0 <= x -> 0 <= y -> oc (x + 65536 * y) = oc (x + y).
Proof. intros Hx Hy. apply oc_eq; [lia|lia|lia|]. replace (x + 65536 * y) with (x + y + y * 65535) by lia. apply Z_mod_plus_full. Qed.

Lemma fold_val u : 0 <= u < 2 ^ 32 -> FOLD_U32T u = u / 65536 + u mod 65536.
Proof.
  intros H. unfold FOLD_U32T. rewrite Z.shiftr_div_pow2 by lia. change 0xffff with (Z.ones 16). rewrite Z.land_ones by lia.
  change (2 ^ 16) with 65536. apply u32_small. zdm.
Qed.

Lemma fold_oc u : 0 <= u < 2 ^ 32 -> oc (FOLD_U32T u) = oc u /\ 0 <= FOLD_U32T u < 2 ^ 17.
Proof.
  intros H. rewrite fold_val by done. split; [|zdm]. rewrite Z.add_comm, <- oc_hi by zdm. f_equal. zdm.
Qed.

(** Two folds of a 32-bit sum leave 16 bits. *)
Lemma fold2_oc u : 0 <= u < 2 ^ 32 -> FOLD_U32T (FOLD_U32T u) = oc u.
Proof.
  intros H. destruct (fold_oc u H) as [H1 H2]. destruct (fold_oc (FOLD_U32T u) ltac:(lia)) as [H3 _].
  rewrite <- H1, <- H3. symmetry. apply oc_small.
  assert (FOLD_U32T u <= 131070) as H4.
  { rewrite fold_val by done. pose proof (Z.div_lt_upper_bound u 65536 65536 ltac:(lia) ltac:(lia)). pose proof (Z.mod_pos_bound u 65536 ltac:(lia)). lia. }
  rewrite fold_val by lia. generalize dependent (FOLD_U32T u). intros v. intros. zdm.
Qed.

Lemma land_field x k n : 0 <= n -> Z.land x (Z.shiftl k n) = Z.shiftl (Z.land (Z.shiftr x n) k) n.
Proof.
  intros Hn. apply Z.bits_inj'. intros i Hi. rewrite Z.land_spec, !Z.shiftl_spec, Z.land_spec by lia.
  destruct (Z.lt_ge_cases i n); [rewrite (Z.testbit_neg_r k), (Z.testbit_neg_r (Z.shiftr x n)), andb_false_r by lia; done|].
  rewrite Z.shiftr_spec by lia. by replace (i - n + n) with i by lia.
Qed.

Lemma swap_val w : 0 <= w <= 65535 -> SWAP_BYTES_IN_WORD w = 256 * (w mod 256) + w / 256.
Proof.
  intros H. unfold SWAP_BYTES_IN_WORD. change 0xff00 with (Z.shiftl (Z.ones 8) 8). change 0xff with (Z.ones 8) at 1.
  rewrite land_field, !Z.land_ones by lia. rewrite Z.shiftr_shiftl_l, Z.sub_diag, Z.shiftl_0_r, Z.shiftl_mul_pow2, Z.shiftr_div_pow2 by lia.
  rewrite (lor_add_low _ _ 8) by zdm. change (2 ^ 8) with 256. rewrite (Z.mod_small (w / 256)) by zdm. lia.
Qed.

(** Folding is harmless when there is nothing to fold. *)
Lemma fold_if a : 0 <= a < 2 ^ 32 -> (if negb (Z.land a 0xffff0000 =? 0) then FOLD_U32T a else a) = FOLD_U32T a.
Proof.
  intros H. change 0xffff0000 with (Z.shiftl (Z.ones 16) 16). rewrite land_field, Z.land_ones, Z.shiftl_mul_pow2, Z.shiftr_div_pow2 by lia.
  change (2 ^ 16) with 65536. destruct (Z.eqb_spec ((a / 65536) mod 65536 * 65536) 0) as [E|]; [|done]. cbn [negb].
  rewrite fold_val by done. zdm.
Qed.

(** Swapping the bytes of a sum multiplies it by 256. *)
Lemma swap_oc w : 0 <= w <= 65535 -> SWAP_BYTES_IN_WORD w = oc (256 * w).
Proof.
  intros H. rewrite swap_val by done. replace (256 * w) with (256 * (w mod 256) + 65536 * (w / 256)) by zdm.
  rewrite oc_hi by zdm. symmetry. apply oc_small. zdm.
Qed.

Lemma swap_range w : 0 <= w <= 65535 -> 0 <= SWAP_BYTES_IN_WORD w <= 65535.
Proof. intros H. rewrite swap_val by done. zdm. Qed.

Lemma htons_swap w : 0 <= w <= 65535 -> htons w = SWAP_BYTES_IN_WORD w.
Proof. intros H. apply u16_small. pose proof (swap_range w H). unfold SWAP_BYTES_IN_WORD in *. lia. Qed.

(** ** Byte strings as sums *)

(** The little-endian value, which has the same residue as the sum of the words. *)
Fixpoint lsum (l : list Z) : Z := match l with [] => 0 | b :: l => b + 256 * lsum l end.

Definition octets (l : list Z) : Prop := Forall (fun b => 0 <= b < 2 ^ 8) l.

Lemma lsum_nonneg l : octets l -> 0 <= lsum l.
Proof. induction 1; simpl; lia. Qed.

Lemma octets_ld m a n : octets (ld_bytes m a n).
Proof. revert a. induction n as [|n IH]; intros a; simpl; constructor; [apply ld8_range|apply IH]. Qed.

Lemma oc_add_oc a b : 0 <= a <= 65535 -> 0 <= b <= 65535 -> oc_add a b = oc (a + b).
Proof.
  intros Ha Hb. unfold oc_add. destruct (Z.ltb_spec 0xffff (a + b)); [|by rewrite oc_small by lia].
  unfold oc. bcase; [lia|]. replace (a + b - 1) with (a + b - 65536 + 1 * 65535) by lia. rewrite Z_mod_plus_full, Z.mod_small; lia.
Qed.

Lemma rfc1071_oc l : octets l -> rfc1071 l = oc (lsum l).
Proof.
  remember (length l) as n eqn:En. revert l En. induction (lt_wf n) as [n _ IH]. intros l -> Hl.
  destruct l as [|a [|b l]]; [done| |].
  - apply Forall_cons in Hl as [Ha _]. simpl. rewrite oc_small; lia.
  - apply Forall_cons in Hl as [Ha Hl]. apply Forall_cons in Hl as [Hb Hl]. pose proof (lsum_nonneg l Hl) as H0.
    cbn [rfc1071]. rewrite (IH (length l) ltac:(simpl; lia) l eq_refl Hl). destruct (oc_spec (lsum l) H0) as (Hr & _ & _).
    rewrite oc_add_oc by lia. rewrite Z.add_comm, oc_add_l by lia. cbn [lsum].
    replace (a + 256 * (b + 256 * lsum l)) with (a + 256 * b + 65536 * lsum l) by lia. rewrite oc_hi by lia. f_equal. lia.
Qed.

Lemma pow_oc k y : 0 <= y -> oc (65536 ^ Z.of_nat k * y) = oc y.
Proof.
  intros Hy. induction k as [|k IH]; [by rewrite Z.mul_1_l|]. rewrite Nat2Z.inj_succ, Z.pow_succ_r, <- Z.mul_assoc by lia.
  pose proof (Z.pow_pos_nonneg 65536 (Z.of_nat k) ltac:(lia) ltac:(lia)).
  change (65536 * (65536 ^ Z.of_nat k * y)) with (0 + 65536 * (65536 ^ Z.of_nat k * y)). rewrite oc_hi by nia. exact IH.
Qed.

Lemma lsum_app l l' : lsum (l ++ l') = lsum l + 256 ^ Z.of_nat (length l) * lsum l'.
Proof.
  induction l as [|b l IH]; [simpl; lia|]. cbn [lsum app length]. rewrite IH, Nat2Z.inj_succ, Z.pow_succ_r by lia. lia.
Qed.

(** Strings of even length add up. *)
Lemma oc_app l l' k : octets l -> octets l' -> length l = (2 * k)%nat -> oc (lsum (l ++ l')) = oc (lsum l + lsum l').
Proof.
  intros Hl Hl' Hk. pose proof (lsum_nonneg l Hl). pose proof (lsum_nonneg l' Hl').
  rewrite lsum_app, Hk. replace (256 ^ Z.of_nat (2 * k)) with (65536 ^ Z.of_nat k) by (rewrite Nat2Z.inj_mul, Z.pow_mul_r by lia; done).
  pose proof (Z.pow_pos_nonneg 65536 (Z.of_nat k) ltac:(lia) ltac:(lia)).
  rewrite Z.add_comm, <- (oc_add_l (_ * _)), pow_oc, oc_add_l by nia. f_equal. lia.
Qed.

Lemma ld16_lsum m p : ld16 m p = lsum (ld_bytes m p 2).
Proof. change (ld16 m p) with (ld8 m p + 2 ^ 8 * ld8 m (p + 1)). simpl. lia. Qed.

Lemma ld32_lsum m p : ld32 m p = lsum (ld_bytes m p 4).
Proof.
  change (ld32 m p) with (ld16 m p + 2 ^ 16 * ld16 m (p + 2)). rewrite !ld16_lsum. cbn [lsum ld_bytes].
  replace (p + 2 + 1) with (p + 1 + 1 + 1) by lia. replace (p + 2) with (p + 1 + 1) by lia. lia.
Qed.

Lemma oc_sum_app c acc l l' k :
  0 < c -> 0 <= acc -> octets l -> octets l' -> length l = (2 * k)%nat -> oc (acc + c * lsum (l ++ l')) = oc (acc + c * (lsum l + lsum l')).
Proof.
  intros Hc Ha Hl Hl' Hk. pose proof (lsum_nonneg l Hl). pose proof (lsum_nonneg l' Hl').
  pose proof (lsum_nonneg (l ++ l') ltac:(by apply Forall_app)).
  rewrite !(Z.add_comm acc), <- (oc_add_l (c * lsum (l ++ l'))), <- (oc_add_l (c * (lsum l + lsum l'))) by nia.
  by rewrite <- (oc_mul c (lsum (l ++ l'))), <- (oc_mul c (lsum l + lsum l')), (oc_app l l' k) by (lia || done).
Qed.

(** ** The summing loops *)

Section Loop.
Variables (m : mem) (c half : Z) (step : Z -> Z -> Z) (I : Z -> Z -> Prop).
Let size := 2 * half.
Hypothesis Hhalf : 0 < half.
Hypothesis Hc : 0 < c.
Hypothesis HI : forall len acc, I len acc -> 0 <= acc.
Hypothesis Hstep : forall p len acc, I len acc -> 0 <= p -> p + size < 2 ^ 32 -> size <= len ->
  I (len - size) (step p acc) /\ oc (step p acc) = oc (acc + c * lsum (ld_bytes m p (Z.to_nat size))).

Lemma sum_while_ok fuel p len acc :
  I len acc -> 0 <= p -> 0 <= len -> p + len < 2 ^ 32 -> len <= Z.of_nat fuel ->
  exists acc', sum_while (size - 1) step size fuel p len acc = Some (p + size * (len / size), len mod size, acc') /\
    I (len mod size) acc' /\ oc acc' = oc (acc + c * lsum (ld_bytes m p (Z.to_nat (size * (len / size))))).
Proof.
  revert p len acc. induction fuel as [|fuel IH]; intros p len acc HIa Hp Hl Hr Hf; cbn [sum_while].
  - assert (len = 0) as -> by lia. rewrite (proj2 (Z.ltb_ge _ _)) by lia. exists acc. rewrite Z.div_0_l, Z.mod_0_l, Z.mul_0_r, Z.add_0_r by lia.
    split; [done|]. split; [done|]. simpl. f_equal. lia.
  - destruct (Z.ltb_spec (size - 1) len) as [Hlt|Hge].
    2: { exists acc. rewrite Z.div_small, Z.mod_small, Z.mul_0_r, Z.add_0_r by lia. split; [done|]. split; [done|]. simpl. f_equal. lia. }
    destruct (Hstep p len acc HIa Hp ltac:(lia) ltac:(lia)) as [HI' Hoc]. rewrite u32_small by lia.
    destruct (IH (p + size) (len - size) _ HI' ltac:(lia) ltac:(lia) ltac:(lia) ltac:(lia)) as (acc' & Hrun & HIr & Hoc').
    assert ((len - size) / size = len / size - 1) as Ed by (replace (len - size) with (len + (-1) * size) by lia; rewrite Z.div_add by lia; lia).
    assert ((len - size) mod size = len mod size) as Em by (replace (len - size) with (len + (-1) * size) by lia; apply Z_mod_plus_full).
    exists acc'. rewrite Hrun, Ed, Em. split; [do 2 f_equal; f_equal; lia|]. rewrite Em in HIr. split; [exact HIr|]. rewrite Hoc', Ed.
    assert (0 < len / size) as Hq by (apply Z.div_str_pos; lia).
    replace (size * (len / size)) with (size + size * (len / size - 1)) by lia. rewrite Z2Nat.inj_add, ld_bytes_app, Z2Nat.id by nia.
    set (l1 := ld_bytes m p _). set (l2 := ld_bytes m (p + size) _). pose proof (octets_ld m p (Z.to_nat size)) as O1. fold l1 in O1, Hoc.
    pose proof (octets_ld m (p + size) (Z.to_nat (size * (len / size - 1)))) as O2. fold l2 in O2.
    pose proof (lsum_nonneg l1 O1). pose proof (lsum_nonneg l2 O2). pose proof (HI _ _ HIa). pose proof (HI _ _ HI').
    assert (length l1 = (2 * Z.to_nat half)%nat) as Hlen by (unfold l1; rewrite length_ld_bytes; lia).
    assert (0 <= c * lsum l1 /\ 0 <= c * lsum l2) as [Hp1 Hp2] by (split; apply Z.mul_nonneg_nonneg; lia).
    rewrite <- (oc_add_l (step p acc) (c * lsum l2)), Hoc, oc_add_l by lia. rewrite (oc_sum_app c acc l1 l2 _ ltac:(lia) ltac:(lia) O1 O2 Hlen). f_equal. lia.
Qed.
End Loop.

Definition data (m : mem) (p len : Z) : list Z := ld_bytes m p (Z.to_nat len).

Lemma data_octets m p len : octets (data m p len).
Proof. apply octets_ld. Qed.

Lemma data_nonneg m p len : 0 <= lsum (data m p len).
Proof. apply lsum_nonneg, data_octets. Qed.

Lemma data_app m p len len' : 0 <= len -> 0 <= len' -> data m p (len + len') = data m p len ++ data m (p + len) len'.
Proof. intros H H'. unfold data. by rewrite Z2Nat.inj_add, ld_bytes_app, Z2Nat.id. Qed.

Lemma data_1 m p : data m p 1 = [ld8 m p].
Proof. done. Qed.

(** The words, and the odd byte at the end. *)
Definition odd_byte (m : mem) (p len : Z) : Z := if 0 <? len mod 2 then ld8 m (p + 2 * (len / 2)) else 0.

Lemma data_tail m p len c acc :
  0 <= len -> 0 < c -> 0 <= acc -> oc (acc + c * lsum (data m p len)) = oc (acc + c * (lsum (data m p (2 * (len / 2))) + odd_byte m p len)).
Proof.
  intros Hl Hc Ha. assert (len = 2 * (len / 2) + len mod 2) as E by zdm. assert (0 <= 2 * (len / 2)) as H2 by zdm.
  rewrite E at 1. rewrite data_app by zdm. rewrite (oc_sum_app c acc _ _ (Z.to_nat (len / 2)) Hc Ha (data_octets _ _ _) (data_octets _ _ _))
    by (unfold data; rewrite length_ld_bytes; lia). do 4 f_equal. unfold odd_byte.
  assert (len mod 2 = 0 \/ len mod 2 = 1) as [-> | ->] by zdm; [done|]. rewrite data_1. simpl. lia.
Qed.

Lemma odd_byte_range m p len : 0 <= odd_byte m p len < 2 ^ 8.
Proof. unfold odd_byte. pose proof (ld8_range m (p + 2 * (len / 2))). case_match; lia. Qed.

(** *** The steps *)

Lemma words16_ok m fuel p len acc room :
  0 <= acc -> acc + 65536 * len + room < 2 ^ 32 -> 0 <= room -> 0 <= p -> 0 <= len -> p + len < 2 ^ 32 -> len <= Z.of_nat fuel ->
  exists acc', sum_while 1 (fun p sum => u32 (sum + ld16 m p)) 2 fuel p len acc = Some (p + 2 * (len / 2), len mod 2, acc') /\
    0 <= acc' /\ acc' + 65536 * (len mod 2) + room < 2 ^ 32 /\ oc acc' = oc (acc + lsum (data m p (2 * (len / 2)))).
Proof.
  intros Ha Hb Hk Hp Hl Hr Hf.
  destruct (sum_while_ok m 1 1 (fun p sum => u32 (sum + ld16 m p)) (fun len acc => 0 <= acc /\ acc + 65536 * len + room < 2 ^ 32))
    with (fuel := fuel) (p := p) (len := len) (acc := acc) as (acc' & Hrun & [H0 H1] & Hoc); try done; try lia.
  - intros q n s [H1 H2] Hq Hqr Hn. change (2 * 1) with 2 in *. change (ld_bytes m q (Z.to_nat 2)) with (ld_bytes m q 2). rewrite <- ld16_lsum.
    pose proof (ld16_range m q). rewrite u32_small by lia. split; [lia|]. f_equal. lia.
  - exists acc'. split; [exact Hrun|]. split; [exact H0|]. split; [exact H1|]. change (2 * 1) with 2 in Hoc. rewrite Hoc. unfold data. f_equal. lia.
Qed.

Lemma add_carry_ok s w : 0 <= s < 2 ^ 32 -> 0 <= w < 2 ^ 32 -> 0 <= add_carry s w < 2 ^ 32 /\ oc (add_carry s w) = oc (s + w).
Proof.
  intros Hs Hw. unfold add_carry. destruct (Z.lt_ge_cases (s + w) (2 ^ 32)) as [Hlt|Hge].
  - rewrite u32_small by lia. rewrite (proj2 (Z.ltb_ge _ _)) by lia. split; [lia|done].
  - assert (u32 (s + w) = s + w - 2 ^ 32) as -> by (unfold u32; zdm). rewrite (proj2 (Z.ltb_lt _ _)) by lia. rewrite u32_small by lia.
    split; [lia|]. apply oc_eq; [lia|lia|lia|]. replace (s + w) with (s + w - 2 ^ 32 + 1 + 65537 * 65535) at 2 by lia. by rewrite Z_mod_plus_full.
Qed.

Lemma words32_ok m fuel p len acc :
  0 <= acc < 2 ^ 32 -> 0 <= p -> 0 <= len -> p + len < 2 ^ 32 -> len <= Z.of_nat fuel ->
  exists acc', sum_while 7 (fun p sum => add_carry (add_carry sum (ld32 m p)) (ld32 m (u32 (p + 4)))) 8 fuel p len acc =
      Some (p + 8 * (len / 8), len mod 8, acc') /\
    0 <= acc' < 2 ^ 32 /\ oc acc' = oc (acc + lsum (data m p (8 * (len / 8)))).
Proof.
  intros Ha Hp Hl Hr Hf.
  destruct (sum_while_ok m 1 4 (fun p sum => add_carry (add_carry sum (ld32 m p)) (ld32 m (u32 (p + 4)))) (fun len acc => 0 <= acc < 2 ^ 32)) with (fuel := fuel) (p := p) (len := len) (acc := acc)
    as (acc' & Hrun & H0 & Hoc); try done; try lia.
  - intros q n s H1 Hq Hqr Hn. change (2 * 4) with 8 in *. rewrite u32_small by lia. pose proof (ld32_range m q) as Hw1. pose proof (ld32_range m (q + 4)) as Hw2.
    destruct (add_carry_ok s (ld32 m q) H1 Hw1) as [Hr1 Ho1]. destruct (add_carry_ok _ (ld32 m (q + 4)) Hr1 Hw2) as [Hr2 Ho2]. split; [exact Hr2|].
    change (Z.to_nat 8) with (4 + 4)%nat. rewrite ld_bytes_app. rewrite (oc_sum_app 1 s _ _ 2 ltac:(lia) ltac:(lia) (octets_ld _ _ _) (octets_ld _ _ _)) by apply length_ld_bytes.
    change (q + Z.of_nat 4) with (q + 4). rewrite <- !ld32_lsum. rewrite Ho2, <- oc_add_l, Ho1, oc_add_l by lia. f_equal. lia.
  - exists acc'. split; [exact Hrun|]. split; [exact H0|]. change (2 * 4) with 8 in Hoc. rewrite Hoc. unfold data. f_equal. lia.
Qed.

Lemma octet_pair m q : Z.lor (u16 (Z.shiftl (ld8 m q) 8)) (ld8 m (q + 1)) = 256 * ld8 m q + ld8 m (q + 1).
Proof.
  pose proof (ld8_range m q). pose proof (ld8_range m (q + 1)). rewrite Z.shiftl_mul_pow2 by lia. rewrite u16_small by lia.
  rewrite (lor_add_low _ _ 8) by zdm. lia.
Qed.

Lemma octets_ok m fuel p len acc :
  0 <= acc -> acc + 65536 * len < 2 ^ 32 -> 0 <= p -> 0 <= len -> p + len < 2 ^ 32 -> len <= Z.of_nat fuel ->
  exists acc', sum_while 1 (fun p acc => u32 (acc + Z.lor (u16 (Z.shiftl (ld8 m p) 8)) (ld8 m (u32 (p + 1))))) 2 fuel p len acc =
      Some (p + 2 * (len / 2), len mod 2, acc') /\
    0 <= acc' /\ acc' + 65536 * (len mod 2) < 2 ^ 32 /\ oc acc' = oc (acc + 256 * lsum (data m p (2 * (len / 2)))).
Proof.
  intros Ha Hb Hp Hl Hr Hf.
  destruct (sum_while_ok m 256 1 (fun p acc => u32 (acc + Z.lor (u16 (Z.shiftl (ld8 m p) 8)) (ld8 m (u32 (p + 1)))))
    (fun len acc => 0 <= acc /\ acc + 65536 * len < 2 ^ 32)) with (fuel := fuel) (p := p) (len := len) (acc := acc)
    as (acc' & Hrun & [H0 H1] & Hoc); try done; try lia.
  - intros q n s [H1 H2] Hq Hqr Hn. change (2 * 1) with 2 in *. rewrite (u32_small (q + 1)) by lia. rewrite octet_pair.
    pose proof (ld8_range m q). pose proof (ld8_range m (q + 1)). rewrite u32_small by lia. split; [lia|].
    change (ld_bytes m q (Z.to_nat 2)) with [ld8 m q; ld8 m (q + 1)]. cbn [lsum].
    replace (s + 256 * (ld8 m q + 256 * (ld8 m (q + 1) + 256 * 0))) with (s + 256 * ld8 m q + 65536 * ld8 m (q + 1)) by lia. rewrite oc_hi by lia. f_equal. lia.
  - exists acc'. split; [exact Hrun|]. split; [exact H0|]. split; [exact H1|]. change (2 * 1) with 2 in Hoc. exact Hoc.
Qed.

Lemma swap_back x : 0 <= x -> SWAP_BYTES_IN_WORD (oc (256 * x)) = oc x.
Proof.
  intros Hx. destruct (oc_spec (256 * x) ltac:(lia)) as (Hr & _ & _). rewrite swap_oc by lia. rewrite oc_mul by lia.
  replace (256 * (256 * x)) with (0 + 65536 * x) by lia. by rewrite oc_hi by lia.
Qed.

Lemma chksum_1_ok m p len :
  0 <= p -> 0 <= len <= 65535 -> p + len < 2 ^ 32 -> chksum_1 m p len = Some (oc (lsum (data m p len))).
Proof.
  intros Hp Hl Hr. unfold chksum_1.
  destruct (octets_ok m (Z.to_nat len) p len 0) as (acc & -> & H0 & H1 & Hoc); [lia..|]. f_equal.
  set (acc' := if 0 <? len mod 2 then _ else _). pose proof (odd_byte_range m p len) as Hob. pose proof (data_nonneg m p (2 * (len / 2))) as Hd.
  assert (acc' = acc + 256 * odd_byte m p len) as Ea.
  { unfold acc', odd_byte in *. destruct (Z.ltb_spec 0 (len mod 2)); [|lia]. pose proof (ld8_range m (p + 2 * (len / 2))).
    rewrite Z.shiftl_mul_pow2, u16_small, u32_small by lia. lia. }
  assert (0 <= acc' < 2 ^ 32) as Har.
  { split; [lia|]. rewrite Ea. pose proof (Z.mod_pos_bound len 2 ltac:(lia)). unfold odd_byte in *. destruct (Z.ltb_spec 0 (len mod 2)); [|lia]. pose proof (ld8_range m (p + 2 * (len / 2))). lia. }
  destruct (fold_oc acc' Har) as [_ Hf]. rewrite fold_if, fold2_oc by lia. destruct (oc_spec acc' ltac:(lia)) as (Hor & _ & _).
  rewrite u16_small, htons_swap by lia. rewrite <- (swap_back (lsum (data m p len))) by apply data_nonneg. f_equal.
  rewrite Ea, <- oc_add_l, Hoc, oc_add_l by lia. pose proof (data_tail m p len 256 0 ltac:(lia) ltac:(lia) ltac:(lia)) as Ht.
  rewrite !Z.add_0_l in *. rewrite Ht. f_equal. lia.
Qed.

(** The end of versions 2 and 3, on the sum [sum] of some words [x], the words at [p], the odd
    byte and the byte [t1] before all of them. *)
Definition ended (odd : bool) (t1 s : Z) : Z := if odd then oc (t1 + 256 * s) else oc (256 * t1 + s).

Lemma finish_ok m p len sum t1 x (odd : bool) :
  0 <= sum -> sum + 65536 * (len mod 2) + 256 * t1 < 2 ^ 32 -> 0 <= len -> 0 <= t1 < 2 ^ 8 -> 0 <= x ->
  oc sum = oc (x + lsum (data m p (2 * (len / 2)))) ->
  let t0 := if 0 <? len mod 2 then ld8 m (p + 2 * (len / 2)) else 0 in
  let sum' := FOLD_U32T (FOLD_U32T (u32 (sum + (t0 + 2 ^ 8 * t1)))) in
  u16 (if odd then SWAP_BYTES_IN_WORD sum' else sum') = ended odd t1 (x + lsum (data m p len)).
Proof.
  intros Hs Hb Hl Ht Hx Hoc t0 sum'. pose proof (odd_byte_range m p len) as Hob. change t0 with (odd_byte m p len) in sum'.
  pose proof (data_nonneg m p len) as Hd. pose proof (data_nonneg m p (2 * (len / 2))) as Hd2. pose proof (Z.mod_pos_bound len 2 ltac:(lia)).
  assert (sum' = oc (256 * t1 + (x + lsum (data m p len)))) as ->.
  { assert (sum + (odd_byte m p len + 2 ^ 8 * t1) < 2 ^ 32) by (unfold odd_byte in *; destruct (Z.ltb_spec 0 (len mod 2)); lia).
    unfold sum'. rewrite u32_small, fold2_oc by lia. rewrite <- oc_add_l, Hoc, oc_add_l by lia.
    pose proof (data_tail m p len 1 (256 * t1 + x) ltac:(lia) ltac:(lia) ltac:(lia)) as Hdt. rewrite !Z.mul_1_l in Hdt. rewrite (Z.add_assoc (256 * t1)), Hdt. f_equal. lia. }
  unfold ended. set (S := x + lsum (data m p len)). assert (0 <= S) by lia. destruct (oc_spec (256 * t1 + S) ltac:(lia)) as (Hr & _ & _).
  destruct odd; [|by rewrite u16_small by lia]. rewrite u16_small by (pose proof (swap_range (oc (256 * t1 + S))); lia).
  rewrite swap_oc, oc_mul by lia. replace (256 * (256 * t1 + S)) with (256 * S + 65536 * t1) by lia. rewrite oc_hi by lia. f_equal. lia.
Qed.

Lemma ended_oc odd t1 s s' : 0 <= t1 -> 0 <= s -> 0 <= s' -> oc s = oc s' -> ended odd t1 s = ended odd t1 s'.
Proof.
  intros Ht Hs Hs' E. unfold ended. destruct odd.
  - by rewrite !(Z.add_comm t1), <- (oc_add_l (256 * s)), <- (oc_add_l (256 * s')), <- (oc_mul 256 s), <- (oc_mul 256 s'), E by lia.
  - by rewrite !(Z.add_comm (256 * t1)), <- (oc_add_l s), <- (oc_add_l s'), E by lia.
Qed.

Lemma data_cons m p len : 0 < len -> data m p len = ld8 m p :: data m (p + 1) (len - 1).
Proof. intros H. replace len with (1 + (len - 1)) at 1 by lia. rewrite data_app by lia. done. Qed.

Lemma odd_addr p : nonzero (Z.land p 1) = negb (p mod 2 =? 0).
Proof. unfold nonzero. change 1 with (Z.ones 1). by rewrite Z.land_ones by lia. Qed.

Lemma chksum_2_ok m p len :
  0 <= p -> 0 <= len <= 65535 -> p + len < 2 ^ 32 -> chksum_2 m p len = Some (oc (lsum (data m p len))).
Proof.
  intros Hp Hl Hr. unfold chksum_2. set (odd := nonzero (Z.land p 1)). destruct (odd && (0 <? len)) eqn:Ef.
  - apply andb_true_iff in Ef as [-> Hlt%Z.ltb_lt]. rewrite u32_small by lia.
    destruct (words16_ok m (Z.to_nat (len - 1)) (p + 1) (len - 1) 0 65536) as (acc & -> & H0 & H1 & Hoc); [lia..|]. f_equal.
    pose proof (finish_ok m (p + 1) (len - 1) acc (ld8 m p) 0 true H0 ltac:(pose proof (ld8_range m p); lia) ltac:(lia) (ld8_range m p) ltac:(lia) Hoc) as Hfin.
    cbv zeta in Hfin. rewrite Hfin. by rewrite (data_cons m p len Hlt).
  - destruct (words16_ok m (Z.to_nat len) p len 0 0) as (acc & -> & H0 & H1 & Hoc); [lia..|]. f_equal.
    pose proof (finish_ok m p len acc 0 0 odd H0 ltac:(lia) ltac:(lia) ltac:(lia) ltac:(lia) Hoc) as Hfin. cbv zeta in Hfin. rewrite Hfin.
    destruct odd; [|done]. cbn [andb] in Ef. apply Z.ltb_ge in Ef. by replace len with 0 by lia.
Qed.

Lemma chksum_3_from_ok m p n t1 odd :
  0 <= p -> 0 <= n <= 65535 -> p + n < 2 ^ 32 -> 0 <= t1 < 2 ^ 8 ->
  chksum_3_from m p n t1 odd = Some (ended odd t1 (lsum (data m p n))).
Proof.
  intros Hp Hn Hr Ht. unfold chksum_3_from. set (second := nonzero (Z.land p 3) && (1 <? n)). set (d := if second then 2 else 0).
  assert (0 <= d <= n) as Hd by (unfold d, second; destruct (nonzero (Z.land p 3)), (Z.ltb_spec 1 n); cbn [andb]; lia).
  replace (if second then u32 (p + 2) else p) with (p + d) by (unfold d in *; destruct second; rewrite ?u32_small by lia; lia).
  replace (if second then n - 2 else n) with (n - d) by (unfold d; destruct second; lia).
  replace (if second then ld16 m p else 0) with (lsum (data m p d)) by (unfold d; destruct second; [by rewrite ld16_lsum|done]).
  assert (lsum (data m p d) < 2 ^ 32) as Hs0 by (unfold d; destruct second; [change (data m p 2) with (ld_bytes m p 2); rewrite <- ld16_lsum; pose proof (ld16_range m p); lia|done]).
  destruct (words32_ok m (Z.to_nat (n - d)) (p + d) (n - d) (lsum (data m p d))) as (s1 & -> & H1 & Ho1); [split; [apply data_nonneg|done]|lia..|].
  set (k := 8 * ((n - d) / 8)) in *. set (r := (n - d) mod 8) in *. assert (n - d = k + r /\ 0 <= k /\ 0 <= r < 8) as (Ek & Hk & Hrr) by (unfold k, r; zdm).
  destruct (fold_oc s1 H1) as [Hf1 Hf2].
  destruct (words16_ok m (Z.to_nat r) (p + d + k) r (FOLD_U32T s1) 65536) as (s2 & -> & H2 & H3 & Ho2); [lia..|]. f_equal.
  set (x := lsum (data m p d) + lsum (data m (p + d) k)). pose proof (data_nonneg m p d) as N1. pose proof (data_nonneg m (p + d) k) as N2.
  pose proof (data_nonneg m (p + d + k) r) as N3. pose proof (data_nonneg m (p + d + k) (2 * (r / 2))) as N4.
  pose proof (finish_ok m (p + d + k) r s2 t1 x odd H2 ltac:(lia) ltac:(lia) Ht ltac:(lia)) as Hfin. cbv zeta in Hfin. rewrite Hfin.
  - apply ended_oc; [lia|lia|apply data_nonneg|]. unfold x. replace n with (d + (k + r)) by lia. rewrite data_app by lia.
    rewrite (oc_app _ _ (Z.to_nat (d / 2)) (data_octets _ _ _) (data_octets _ _ _)) by (unfold data; rewrite length_ld_bytes; unfold d; destruct second; done).
    rewrite data_app by lia. rewrite !(Z.add_comm (lsum (data m p d))), <- Z.add_assoc, (Z.add_comm (lsum (data m p d))), Z.add_assoc.
    rewrite <- (oc_add_l (lsum (_ ++ _))) by (apply lsum_nonneg, Forall_app || lia; split; apply data_octets).
    rewrite (oc_app _ _ (Z.to_nat (k / 2)) (data_octets _ _ _) (data_octets _ _ _)) by (unfold data; rewrite length_ld_bytes; unfold k; zdm).
    by rewrite oc_add_l by lia.
  - rewrite Ho2, <- oc_add_l, Hf1, Ho1, oc_add_l by lia. f_equal.
Qed.

Lemma chksum_3_ok m p len :
  0 <= p -> 0 <= len <= 65535 -> p + len < 2 ^ 32 -> chksum_3 m p len = Some (oc (lsum (data m p len))).
Proof.
  intros Hp Hl Hr. unfold chksum_3. set (odd := nonzero (Z.land p 1)). destruct (odd && (0 <? len)) eqn:Ef.
  - apply andb_true_iff in Ef as [-> Hlt%Z.ltb_lt]. rewrite u32_small, chksum_3_from_ok by (lia || apply ld8_range). by rewrite (data_cons m p len Hlt).
  - rewrite chksum_3_from_ok by lia. destruct odd; [|done]. cbn [andb] in Ef. apply Z.ltb_ge in Ef. by replace len with 0 by lia.
Qed.

Lemma oc_app_odd l l' k :
  octets l -> octets l' -> length l = (2 * k + 1)%nat -> oc (256 * lsum (l ++ l')) = oc (256 * lsum l + lsum l').
Proof.
  intros Hl Hl' Hk. pose proof (lsum_nonneg l Hl). pose proof (lsum_nonneg l' Hl').
  rewrite lsum_app, Hk. replace (256 ^ Z.of_nat (2 * k + 1)) with (65536 ^ Z.of_nat k * 256) by (rewrite Nat2Z.inj_add, Nat2Z.inj_mul, Z.pow_add_r, Z.pow_mul_r by lia; done).
  pose proof (Z.pow_pos_nonneg 65536 (Z.of_nat k) ltac:(lia) ltac:(lia)).
  replace (256 * (lsum l + 65536 ^ Z.of_nat k * 256 * lsum l')) with (65536 ^ Z.of_nat k * (65536 * lsum l') + 256 * lsum l) by lia.
  rewrite <- (oc_add_l (_ * _)), pow_oc, oc_add_l by nia. rewrite Z.add_comm, oc_hi by lia. done.
Qed.

Lemma complement_small x : 0 <= x <= 65535 -> u16 (Z.lnot x) = 65535 - x.
Proof.
  intros H. unfold Z.lnot, u16. replace (Z.pred (- x)) with (65535 - x + (-1) * 2 ^ 16) by lia. rewrite Z_mod_plus_full. apply Z.mod_small. lia.
Qed.

Lemma complement x : 0 <= x <= 65535 -> u16 (Z.lnot (Z.land x 0xffff)) = 65535 - x.
Proof.
  intros H. change 0xffff with (Z.ones 16). rewrite Z.land_ones, Z.mod_small by lia. by apply complement_small.
Qed.

(** ** Chains *)

Definition in_memory (q : pbuf) : Prop := 0 <= q.(payload) /\ 0 <= q.(plen) <= 65535 /\ q.(payload) + q.(plen) < 2 ^ 32.

Definition chain_data (m : mem) (ps : list pbuf) : list Z := concat (map (fun q => data m q.(payload) q.(plen)) ps).

(** What [LWIP_CHKSUM] has to do. *)
Class Summing (f : mem -> Z -> Z -> option Z) : Prop :=
  summing : forall m p len, 0 <= p -> 0 <= len <= 65535 -> p + len < 2 ^ 32 -> f m p len = Some (oc (lsum (data m p len))).

#[global] Instance summing_1 : Summing chksum_1 := chksum_1_ok.
#[global] Instance summing_2 : Summing chksum_2 := chksum_2_ok.
#[global] Instance summing_3 : Summing chksum_3 := chksum_3_ok.

Section Chain.
Context (f : mem -> Z -> Z -> option Z) `{Hf : Summing f}.

Lemma chain_octets m ps : octets (chain_data m ps).
Proof. induction ps as [|q ps IH]; [constructor|]. apply Forall_app. split; [apply data_octets|exact IH]. Qed.

(** The running sum over data [d]: byte-swapped after an odd number of bytes. *)
Definition running (d : list Z) (acc swapped : Z) : Prop :=
  (swapped = 0 /\ Nat.even (length d) = true /\ acc = oc (lsum d)) \/ (swapped = 1 /\ Nat.even (length d) = false /\ acc = oc (256 * lsum d)).

Lemma even_half n : Nat.even n = true -> exists k, n = (2 * k)%nat.
Proof. intros H%Nat.even_spec. destruct H as [k ->]. eauto. Qed.

Lemma odd_half n : Nat.even n = false -> exists k, n = (2 * k + 1)%nat.
Proof. intros H. assert (Nat.odd n = true) as Ho by (unfold Nat.odd; by rewrite H). apply Nat.odd_spec in Ho as [k ->]. eauto. Qed.

Lemma even_mod n : Nat.even n = (Z.of_nat n mod 2 =? 0).
Proof.
  destruct (Nat.even n) eqn:E; [apply even_half in E as [k ->]|apply odd_half in E as [k ->]]; symmetry; [apply Z.eqb_eq|apply Z.eqb_neq]; zdm.
Qed.

Lemma fold_step acc e : 0 <= acc <= 65535 -> octets e -> FOLD_U32T (u32 (acc + oc (lsum e))) = oc (acc + lsum e).
Proof.
  intros Ra He. pose proof (lsum_nonneg e He) as Ne. destruct (oc_spec (lsum e) Ne) as (Re & _ & _). rewrite u32_small by lia.
  destruct (fold_oc (acc + oc (lsum e)) ltac:(lia)) as [Hfo _]. rewrite (Z.add_comm acc (lsum e)), <- oc_add_l, (Z.add_comm _ acc), <- Hfo by lia.
  symmetry. apply oc_small. rewrite fold_val by lia. zdm.
Qed.

(** Adding the sum of [e] and folding. *)
Lemma running_add d e acc swapped :
  octets d -> octets e -> running d acc swapped ->
  let acc' := FOLD_U32T (u32 (acc + oc (lsum e))) in
  running (d ++ e) (if negb (Z.of_nat (length e) mod 2 =? 0) then SWAP_BYTES_IN_WORD acc' else acc')
    (if negb (Z.of_nat (length e) mod 2 =? 0) then 1 - swapped else swapped).
Proof.
  intros Hd He Hr acc'. pose proof (lsum_nonneg d Hd) as Nd. pose proof (lsum_nonneg e He) as Ne. destruct (oc_spec (lsum e) Ne) as (Re & _ & _).
  pose proof (lsum_nonneg (d ++ e) ltac:(by apply Forall_app)) as Nde.
  assert (0 <= acc <= 65535) as Ra by (destruct Hr as [(_ & _ & ->)|(_ & _ & ->)]; [apply (oc_spec (lsum d) Nd)|apply (oc_spec (256 * lsum d)); lia]).
  assert (acc' = oc (acc + lsum e)) as Ea by by apply fold_step.
  clearbody acc'. subst acc'. unfold running. rewrite length_app, Nat.even_add, <- even_mod.
  assert (forall x, 0 <= x -> SWAP_BYTES_IN_WORD (oc x) = oc (256 * x)) as Hsw by (intros x Hx; destruct (oc_spec x Hx) as (? & _ & _); by rewrite swap_oc, oc_mul by lia).
  destruct Hr as [(-> & Hev & ->)|(-> & Hod & ->)].
  - apply even_half in Hev as Hk. destruct Hk as [k Hk]. rewrite Hev. rewrite oc_add_l, <- (oc_app d e k Hd He Hk) by lia.
    destruct (Nat.even (length e)); cbn [negb]; [left; done|right]. split; [done|]. split; [done|]. by apply Hsw.
  - apply odd_half in Hod as Hk. destruct Hk as [k Hk]. rewrite Hod. rewrite oc_add_l, <- (oc_app_odd d e k Hd He Hk) by lia.
    destruct (Nat.even (length e)); cbn [negb]; [right; done|left]. split; [done|]. split; [done|]. rewrite Hsw by lia.
    replace (256 * (256 * lsum (d ++ e))) with (0 + 65536 * lsum (d ++ e)) by lia. by rewrite oc_hi by lia.
Qed.

Lemma length_data m p len : 0 <= len -> Z.of_nat (length (data m p len)) = len.
Proof. intros H. unfold data. rewrite length_ld_bytes. lia. Qed.

Lemma chain_ok m ps d acc swapped :
  Forall in_memory ps -> octets d -> running d acc swapped ->
  exists acc' swapped', chksum_chain f m ps acc swapped = Some (acc', swapped') /\ running (d ++ chain_data m ps) acc' swapped'.
Proof.
  intros Hps. revert d acc swapped. induction Hps as [|q ps (Hq1 & Hq2 & Hq3) Hps IH]; intros d acc swapped Hd Hr.
  - exists acc, swapped. split; [done|]. unfold chain_data. simpl. by rewrite app_nil_r.
  - cbn [chksum_chain]. rewrite (summing m _ _ Hq1 Hq2 Hq3). pose proof (running_add d _ acc swapped Hd (data_octets m q.(payload) q.(plen)) Hr) as H.
    cbv zeta in H. rewrite length_data in H by lia. change (chain_data m (q :: ps)) with (data m q.(payload) q.(plen) ++ chain_data m ps). rewrite app_assoc.
    assert (octets (d ++ data m q.(payload) q.(plen))) as Ho by (apply Forall_app; split; [done|apply data_octets]).
    destruct (negb (q.(plen) mod 2 =? 0)); by apply IH.
Qed.

(** At the end the sum is put into the right order. *)
Lemma running_end d acc swapped :
  octets d -> running d acc swapped -> (if nonzero swapped then SWAP_BYTES_IN_WORD acc else acc) = oc (lsum d).
Proof. intros Hd [(-> & _ & ->)|(-> & _ & ->)]; [done|]. change (nonzero 1) with true. cbv iota. apply swap_back. by apply lsum_nonneg. Qed.

(** The last buffer of a partial sum: the order is settled by the swap that follows. *)
Lemma running_last d e acc swapped (odd : bool) :
  octets d -> octets e -> running d acc swapped ->
  let acc' := FOLD_U32T (u32 (acc + oc (lsum e))) in
  (if nonzero (if odd then 1 - swapped else swapped) then SWAP_BYTES_IN_WORD (if odd then SWAP_BYTES_IN_WORD acc' else acc')
   else if odd then SWAP_BYTES_IN_WORD acc' else acc') = oc (lsum (d ++ e)).
Proof.
  intros Hd He Hr acc'. pose proof (lsum_nonneg d Hd) as Nd. pose proof (lsum_nonneg e He) as Ne. destruct (oc_spec (lsum e) Ne) as (Re & _ & _).
  pose proof (lsum_nonneg (d ++ e) ltac:(by apply Forall_app)) as Nde. pose proof (swap_back (lsum (d ++ e)) Nde) as Hsb.
  assert (forall x, 0 <= x -> SWAP_BYTES_IN_WORD (oc x) = oc (256 * x)) as Hsw by (intros x Hx; destruct (oc_spec x Hx) as (? & _ & _); by rewrite swap_oc, oc_mul by lia).
  assert (0 <= acc <= 65535) as Ra by (destruct Hr as [(_ & _ & ->)|(_ & _ & ->)]; [apply (oc_spec (lsum d) Nd)|apply (oc_spec (256 * lsum d)); lia]).
  assert (acc' = oc (acc + lsum e)) as Ea by by apply fold_step.
  clearbody acc'. subst acc'. destruct Hr as [(-> & Hev & ->)|(-> & Hod & ->)].
  - apply even_half in Hev as [k Hk]. rewrite oc_add_l, <- (oc_app d e k Hd He Hk) by lia. destruct odd; [|done].
    change (nonzero (1 - 0)) with true. cbv iota. by rewrite (Hsw _ Nde).
  - apply odd_half in Hod as [k Hk]. rewrite oc_add_l, <- (oc_app_odd d e k Hd He Hk) by lia. by destruct odd.
Qed.

Lemma firstn_data m p len k : 0 <= k <= len -> firstn (Z.to_nat k) (data m p len) = data m p k.
Proof.
  intros H. replace len with (k + (len - k)) by lia. rewrite data_app by lia. rewrite <- (firstn_all (data m p k)) at 2.
  rewrite firstn_app, firstn_all2; unfold data; rewrite ?length_ld_bytes; [|lia]. by rewrite Nat.sub_diag, app_nil_r, firstn_all2 by (rewrite length_ld_bytes; lia).
Qed.

Lemma chain_partial_ok m ps n d acc swapped :
  Forall in_memory ps -> 0 <= n < 0x7fff -> octets d -> running d acc swapped ->
  exists acc' swapped', chksum_chain_partial f m ps n acc swapped = Some (acc', swapped') /\
    (if nonzero swapped' then SWAP_BYTES_IN_WORD acc' else acc') = oc (lsum (d ++ firstn (Z.to_nat n) (chain_data m ps))).
Proof.
  intros Hps. revert n d acc swapped. induction Hps as [|q ps (Hq1 & Hq2 & Hq3) Hps IH]; intros n d acc swapped Hn Hd Hr.
  - exists acc, swapped. split; [done|]. rewrite firstn_nil, app_nil_r. by apply running_end.
  - cbn [chksum_chain_partial]. change (chain_data m (q :: ps)) with (data m q.(payload) q.(plen) ++ chain_data m ps). rewrite firstn_app.
    assert (length (data m q.(payload) q.(plen)) = Z.to_nat q.(plen)) as Hlen by apply length_ld_bytes. rewrite Hlen.
    destruct (Z.ltb_spec 0 n) as [H0|H0].
    2: { exists acc, swapped. split; [done|]. replace n with 0 by lia. simpl. rewrite app_nil_r. by apply running_end. }
    destruct (Z.ltb_spec n q.(plen)) as [Hlt|Hge].
    + rewrite (summing m q.(payload) n Hq1 ltac:(lia) ltac:(lia)). rewrite Z.sub_diag. change (u16 0) with 0. change (0 <? 0x7fff) with true. cbv iota.
      pose proof (fun odd => running_last d _ acc swapped odd Hd (data_octets m q.(payload) n) Hr) as H. cbv zeta in H.
      rewrite firstn_data by lia. replace (Z.to_nat n - Z.to_nat q.(plen))%nat with O by lia. rewrite firstn_O, app_nil_r.
      set (a' := FOLD_U32T _) in *.
      assert (forall x y, chksum_chain_partial f m ps 0 x y = Some (x, y)) as Hstop by (intros; by destruct ps).
      rewrite !Hstop. destruct (negb (q.(plen) mod 2 =? 0)); eexists _, _; (split; [done|]); [apply (H true)|apply (H false)].
    + rewrite (summing m _ _ Hq1 Hq2 Hq3). rewrite u16_small by lia. rewrite (proj2 (Z.ltb_lt (n - q.(plen)) 0x7fff)) by lia.
      pose proof (running_add d _ acc swapped Hd (data_octets m q.(payload) q.(plen)) Hr) as H. cbv zeta in H. rewrite length_data in H by lia.
      rewrite firstn_all2 by (rewrite Hlen; lia). replace (Z.to_nat n - Z.to_nat q.(plen))%nat with (Z.to_nat (n - q.(plen))) by lia. rewrite app_assoc.
      assert (octets (d ++ data m q.(payload) q.(plen))) as Ho by (apply Forall_app; split; [done|apply data_octets]).
      destruct (negb (q.(plen) mod 2 =? 0)); apply IH; done || lia.
Qed.
End Chain.

(** ** Theorems *)

(** C31: The three summing routines agree: each returns the sum of the 16-bit words of the buffer
    with end-around carry, for every alignment of the buffer and every length up to 65535. *)
Theorem chksum_versions_agree m p len :
  0 <= p -> 0 <= len <= 65535 -> p + len < 2 ^ 32 ->
  chksum_1 m p len = Some (rfc1071 (data m p len)) /\ chksum_2 m p len = Some (rfc1071 (data m p len)) /\
  chksum_3 m p len = Some (rfc1071 (data m p len)).
Proof.
  intros Hp Hl Hr. rewrite rfc1071_oc by apply data_octets. split; [by apply chksum_1_ok|]. split; [by apply chksum_2_ok|by apply chksum_3_ok].
Qed.

Lemma chksum_versions_agree_witness :
  exists s, chksum_1 (st32 ∅ 0x1001 0x44332211) 0x1001 3 = Some s /\ chksum_2 (st32 ∅ 0x1001 0x44332211) 0x1001 3 = Some s /\
    chksum_3 (st32 ∅ 0x1001 0x44332211) 0x1001 3 = Some s.
Proof.
  destruct (chksum_versions_agree (st32 ∅ 0x1001 0x44332211) 0x1001 3 ltac:(lia) ltac:(lia) ltac:(lia)) as (H1 & H2 & H3). eauto.
Defined.

Section Claims.
Context (f : mem -> Z -> Z -> option Z) `{Hf : Summing f}.

Theorem inet_chksum_pbuf_concat m ps : Forall in_memory ps -> inet_chksum_pbuf f m ps = Some (65535 - rfc1071 (chain_data m ps)).
Proof.
  intros Hps. unfold inet_chksum_pbuf. destruct (chain_ok f m ps [] 0 0 Hps) as (acc & swapped & -> & Hr); [constructor|by left|].
  rewrite (running_end _ _ _ (chain_octets m ps) Hr), rfc1071_oc by apply chain_octets. f_equal. apply complement.
  apply (oc_spec (lsum (chain_data m ps))), lsum_nonneg, chain_octets.
Qed.

(** The bytes of the pseudo header: the addresses as they lie in memory, a zero, the protocol
    and the length in network order. *)
Definition le4 (x : Z) : list Z := [x mod 256; x / 256 mod 256; x / 65536 mod 256; x / 2 ^ 24].
Definition pseudo_header (src dest proto proto_len : Z) : list Z := le4 src ++ le4 dest ++ [0; proto; proto_len / 256; proto_len mod 256].

Lemma pseudo_octets src dest proto proto_len :
  0 <= src < 2 ^ 32 -> 0 <= dest < 2 ^ 32 -> 0 <= proto < 256 -> 0 <= proto_len <= 65535 -> octets (pseudo_header src dest proto proto_len).
Proof. intros Hs Hd Hp Hl. unfold pseudo_header, le4. repeat constructor; try lia; zdm. Qed.

Lemma lsum_le4 x l : 0 <= x < 2 ^ 32 -> lsum (le4 x ++ l) = x + 65536 * (65536 * lsum l).
Proof. intros H. unfold le4. cbn [app lsum]. zdm. Qed.

Definition pseudo_sum (src dest proto proto_len : Z) : Z :=
  src mod 65536 + src / 65536 + (dest mod 65536 + dest / 65536) + 256 * proto + (proto_len / 256 + 256 * (proto_len mod 256)).

Lemma pseudo_sum_range src dest proto proto_len :
  0 <= src < 2 ^ 32 -> 0 <= dest < 2 ^ 32 -> 0 <= proto < 256 -> 0 <= proto_len <= 65535 -> 0 <= pseudo_sum src dest proto proto_len <= 6 * 65535.
Proof.
  intros Hs Hd Hp Hl. unfold pseudo_sum. assert (0 <= src / 65536 < 65536) by zdm. assert (0 <= dest / 65536 < 65536) by zdm.
  pose proof (Z.mod_pos_bound src 65536 ltac:(lia)). pose proof (Z.mod_pos_bound dest 65536 ltac:(lia)).
  pose proof (Z.mod_pos_bound proto_len 256 ltac:(lia)). assert (0 <= proto_len / 256 < 256) by zdm. lia.
Qed.

Lemma add_pseudo_val acc src dest proto proto_len :
  0 <= acc <= 65535 -> 0 <= src < 2 ^ 32 -> 0 <= dest < 2 ^ 32 -> 0 <= proto < 256 -> 0 <= proto_len <= 65535 ->
  add_pseudo acc src dest proto proto_len = acc + pseudo_sum src dest proto proto_len.
Proof.
  intros Ha Hs Hd Hp Hl. unfold add_pseudo, pseudo_sum. rewrite !htons_swap, !swap_val, !Z.shiftr_div_pow2 by lia. change 0xffff with (Z.ones 16). rewrite !Z.land_ones by lia.
  change (2 ^ 16) with 65536. rewrite (Z.mod_small (src / 65536)), (Z.mod_small (dest / 65536)) by zdm. rewrite (Z.mod_small proto 256), (Z.div_small proto 256) by lia.
  assert (0 <= src / 65536 < 65536) by zdm. assert (0 <= dest / 65536 < 65536) by zdm. pose proof (Z.mod_pos_bound src 65536 ltac:(lia)).
  pose proof (Z.mod_pos_bound dest 65536 ltac:(lia)). pose proof (Z.mod_pos_bound proto_len 256 ltac:(lia)). assert (0 <= proto_len / 256 < 256) by zdm.
  rewrite (u32_small (acc + src mod 65536)) by lia. rewrite (u32_small (_ + src / 65536)) by lia. rewrite (u32_small (_ + dest mod 65536)) by lia.
  rewrite (u32_small (_ + dest / 65536)) by lia. rewrite (u32_small (_ + (256 * proto + 0))) by lia. rewrite u32_small by lia. lia.
Qed.

Lemma oc_word x y : 0 <= x -> 0 <= y -> oc (x + 65536 * (65536 * y)) = oc (x mod 65536 + x / 65536 + y).
Proof.
  intros Hx Hy. rewrite !oc_hi by lia. rewrite (Z.div_mod x 65536) at 1 by lia.
  replace (65536 * (x / 65536) + x mod 65536 + y) with (x mod 65536 + y + 65536 * (x / 65536)) by lia. rewrite oc_hi by zdm. f_equal. lia.
Qed.

Lemma pseudo_oc src dest proto proto_len :
  0 <= src < 2 ^ 32 -> 0 <= dest < 2 ^ 32 -> 0 <= proto < 256 -> 0 <= proto_len <= 65535 ->
  oc (lsum (pseudo_header src dest proto proto_len)) = oc (pseudo_sum src dest proto proto_len).
Proof.
  intros Hs Hd Hp Hl. unfold pseudo_header, pseudo_sum. rewrite !lsum_le4 by done. cbn [lsum].
  pose proof (Z.mod_pos_bound proto_len 256 ltac:(lia)). assert (0 <= proto_len / 256 < 256) by zdm.
  set (t := 0 + 256 * _). assert (t = 256 * proto + 65536 * (proto_len / 256 + 256 * (proto_len mod 256))) as Et by (unfold t; lia).
  rewrite oc_word by lia. assert (0 <= src mod 65536 + src / 65536) by zdm. assert (0 <= dest mod 65536 + dest / 65536) by zdm.
  rewrite (Z.add_comm (src mod 65536 + _)), <- oc_add_l, oc_word, oc_add_l by lia. rewrite Et.
  set (a := src mod 65536 + _) in *. set (b := dest mod 65536 + _) in *.
  replace (b + (256 * proto + 65536 * (proto_len / 256 + 256 * (proto_len mod 256))) + a) with (a + b + 256 * proto + 65536 * (proto_len / 256 + 256 * (proto_len mod 256))) by lia.
  by rewrite oc_hi by lia.
Qed.

Lemma pseudo_end d src dest proto proto_len :
  octets d -> 0 <= src < 2 ^ 32 -> 0 <= dest < 2 ^ 32 -> 0 <= proto < 256 -> 0 <= proto_len <= 65535 ->
  Some (u16 (Z.lnot (Z.land (FOLD_U32T (FOLD_U32T (add_pseudo (oc (lsum d)) src dest proto proto_len))) 0xffff))) =
  Some (65535 - rfc1071 (pseudo_header src dest proto proto_len ++ d)).
Proof.
  intros Ho Hs Hd Hp Hl. pose proof (lsum_nonneg _ Ho) as Hn. pose proof (pseudo_octets src dest proto proto_len Hs Hd Hp Hl) as Hph.
  rewrite rfc1071_oc by (apply Forall_app; by split). destruct (oc_spec (lsum d) Hn) as (Hoc & _ & _).
  rewrite add_pseudo_val by done. pose proof (pseudo_sum_range src dest proto proto_len Hs Hd Hp Hl) as Hpr. set (v := oc _ + _).
  assert (0 <= v < 2 ^ 32) as Hv by (unfold v; lia). rewrite fold2_oc by done. destruct (oc_spec v ltac:(lia)) as (Hvr & _ & _). rewrite complement by done.
  do 2 f_equal. pose proof (lsum_nonneg _ Hph). rewrite (oc_app _ _ 6 Hph Ho) by done. unfold v. rewrite oc_add_l by lia.
  by rewrite Z.add_comm, <- oc_add_l, <- pseudo_oc, oc_add_l by lia.
Qed.

(** The checksum of TCP and UDP over a chain of buffers is the complement of the sum over
    the pseudo header followed by all the data, however the data is cut into buffers of even
    or odd length. *)
Theorem inet_chksum_pseudo_concat m ps src dest proto proto_len :
  Forall in_memory ps -> 0 <= src < 2 ^ 32 -> 0 <= dest < 2 ^ 32 -> 0 <= proto < 256 -> 0 <= proto_len <= 65535 ->
  inet_chksum_pseudo f m ps src dest proto proto_len = Some (65535 - rfc1071 (pseudo_header src dest proto proto_len ++ chain_data m ps)).
Proof.
  intros Hps Hs Hd Hp Hl. pose proof (chain_octets m ps) as Ho.
  unfold inet_chksum_pseudo. destruct (chain_ok f m ps [] 0 0 Hps) as (acc & swapped & -> & Hr); [constructor|by left|].
  change ([] ++ chain_data m ps) with (chain_data m ps) in Hr. rewrite (running_end _ _ _ Ho Hr). by apply pseudo_end.
Qed.

(** The same over the first [chksum_len] bytes of the data. *)
Theorem inet_chksum_pseudo_partial_prefix m ps src dest proto proto_len n :
  Forall in_memory ps -> 0 <= src < 2 ^ 32 -> 0 <= dest < 2 ^ 32 -> 0 <= proto < 256 -> 0 <= proto_len <= 65535 -> 0 <= n < 0x7fff ->
  inet_chksum_pseudo_partial f m ps src dest proto proto_len n =
    Some (65535 - rfc1071 (pseudo_header src dest proto proto_len ++ firstn (Z.to_nat n) (chain_data m ps))).
Proof.
  intros Hps Hs Hd Hp Hl Hn. set (d := firstn (Z.to_nat n) (chain_data m ps)).
  assert (octets d) as Ho by (apply Forall_take, chain_octets). unfold inet_chksum_pseudo_partial.
  destruct (chain_partial_ok f m ps n [] 0 0 Hps Hn) as (acc & swapped & -> & Hr); [constructor|by left|].
  change ([] ++ firstn (Z.to_nat n) (chain_data m ps)) with d in Hr. rewrite Hr. by apply pseudo_end.
Qed.
End Claims.

Definition demo_packet : mem := st32 ∅ 0x1000 0x44332211.
Definition demo_chain : list pbuf := [mkPbuf 0x1000 1; mkPbuf 0x1001 3].

Lemma demo_chain_ok : Forall in_memory demo_chain.
Proof. repeat constructor; simpl; lia. Qed.

Lemma demo_chain_data : chain_data demo_packet demo_chain = [0x11; 0x22; 0x33; 0x44].
Proof. by vm_compute. Qed.

Lemma inet_chksum_pseudo_concat_witness :
  exists c, inet_chksum_pseudo chksum_3 demo_packet demo_chain 0x0100007f 0x0100007f 17 4 = Some c /\
    c = 65535 - rfc1071 (pseudo_header 0x0100007f 0x0100007f 17 4 ++ [0x11; 0x22; 0x33; 0x44]).
Proof.
  eexists. split; [|reflexivity]. rewrite <- demo_chain_data.
  exact (inet_chksum_pseudo_concat chksum_3 demo_packet demo_chain 0x0100007f 0x0100007f 17 4 demo_chain_ok ltac:(lia) ltac:(lia) ltac:(lia) ltac:(lia)).
Defined.

(** ** A stored checksum verifies *)

Lemma data_field m p len o v :
  0 <= o -> o + 2 <= len -> o mod 2 = 0 -> ld16 m (p + o) = 0 -> 0 <= v <= 65535 ->
  oc (lsum (data (st16 m (p + o) v) p len)) = oc (lsum (data m p len) + v).
Proof.
  intros Ho Hl He Hz Hv. set (m' := st16 m (p + o) v).
  assert (forall q n, q + n <= p + o \/ p + o + 2 <= q -> 0 <= n -> data m' q n = data m q n) as Hsame.
  { intros q n Hq Hn. apply ld_bytes_ext. intros i Hi. unfold m'. rewrite ld8_st16. bcase; lia || done. }
  assert (lsum (data m' (p + o) 2) = v) as Hfield.
  { change (data m' (p + o) 2) with (ld_bytes m' (p + o) 2). rewrite <- ld16_lsum. change (ld16 m' (p + o)) with (ld8 m' (p + o) + 2 ^ 8 * ld8 m' (p + o + 1)).
    unfold m'. rewrite !ld8_st16. rewrite !Z.eqb_refl. rewrite (proj2 (Z.eqb_neq (p + o + 1) (p + o))) by lia. unfold u8. zdm. }
  assert (lsum (data m (p + o) 2) = 0) as Hfield0 by (change (data m (p + o) 2) with (ld_bytes m (p + o) 2); by rewrite <- ld16_lsum).
  assert (forall x, lsum (data x p len) = lsum (data x p o) + 256 ^ o * (lsum (data x (p + o) 2) + 65536 * lsum (data x (p + o + 2) (len - o - 2)))) as Hsplit.
  { intros x. replace len with (o + (2 + (len - o - 2))) at 1 by lia. rewrite !data_app, !lsum_app by lia. unfold data at 2 4. rewrite !length_ld_bytes, Z2Nat.id by lia. done. }
  rewrite !Hsplit, Hfield, Hfield0, !Hsame by lia. pose proof (data_nonneg m p o). pose proof (data_nonneg m (p + o + 2) (len - o - 2)).
  replace (256 ^ o) with (65536 ^ Z.of_nat (Z.to_nat (o / 2))) by (rewrite Z2Nat.id by zdm; change 65536 with (256 ^ 2); rewrite <- Z.pow_mul_r by zdm; f_equal; zdm).
  pose proof (Z.pow_pos_nonneg 65536 (Z.of_nat (Z.to_nat (o / 2))) ltac:(lia) ltac:(lia)) as Hpw. set (k := Z.to_nat (o / 2)) in *.
  set (A := lsum (data m p o)) in *. set (B := lsum (data m (p + o + 2) (len - o - 2))) in *.
  replace (A + 65536 ^ Z.of_nat k * (v + 65536 * B)) with (65536 ^ Z.of_nat k * v + (A + 65536 ^ Z.of_nat k * (65536 * B))) by lia.
  rewrite <- oc_add_l, pow_oc, oc_add_l by nia. f_equal. lia.
Qed.

(** C32: A packet verifies after its checksum was stored.  For a 16-bit field at an even offset of
    the packet, as all checksum fields of the protocols are, clear the field, take the
    checksum of the packet and store it there: the checksum of the result is 0, whatever
    the packet held and whether its length is even or odd. *)
Theorem inet_chksum_verifies (f : mem -> Z -> Z -> option Z) `{Hf : Summing f} m p len o :
  0 <= p -> 0 <= len <= 65535 -> p + len < 2 ^ 32 -> 0 <= o -> o + 2 <= len -> o mod 2 = 0 ->
  exists c, inet_chksum f (st16 m (p + o) 0) p len = Some c /\
    inet_chksum f (st16 (st16 m (p + o) 0) (p + o) c) p len = Some 0.
Proof.
  intros Hp Hl Hr Ho Hol He. unfold inet_chksum. rewrite summing by done. set (m0 := st16 m (p + o) 0).
  pose proof (data_nonneg m0 p len) as Hn. destruct (oc_spec (lsum (data m0 p len)) Hn) as (Hoc & _ & _).
  rewrite complement_small by done. eexists. split; [reflexivity|]. rewrite summing by done.
  assert (ld16 m0 (p + o) = 0) as Hz by (unfold m0; by rewrite ld16_st16_eq).
  rewrite data_field by lia. rewrite <- oc_add_l by lia. replace (oc _ + (65535 - oc _)) with 65535 by lia. by vm_compute.
Qed.

(** The third and fourth of six bytes, which were not zero. *)
Lemma inet_chksum_verifies_witness :
  exists c, inet_chksum chksum_2 (st16 demo_packet 0x1002 0) 0x1000 6 = Some c /\
    inet_chksum chksum_2 (st16 (st16 demo_packet 0x1002 0) 0x1002 c) 0x1000 6 = Some 0.
Proof. apply (inet_chksum_verifies chksum_2 demo_packet 0x1000 6 2); [lia..|reflexivity]. Defined.
