(* ===== verification/InetAddr.v ===== *)
(** The text of Internet addresses ([net/lwip/core/ipv4/inet.c]): [inet_aton] and [inet_ntoa]
    on byte memory.  The loops that only the end of the string bounds take fuel and answer
    [None] when it runs out. *)

From S2P Require Import Prelude Mem CString Chksum.

(** ** The code *)

Definition in_range (c lo up : Z) : bool := (lo <=? u8 c) && (u8 c <=? up).
Definition isprint (c : Z) : bool := in_range c 0x20 0x7f.
Definition isdigit (c : Z) : bool := in_range c chr_0 chr_9.
Definition isxdigit (c : Z) : bool := isdigit c || in_range c chr_a 102 || in_range c chr_A 70.
Definition islower (c : Z) : bool := in_range c chr_a chr_z.
Definition isspace (c : Z) : bool := (c =? 32) || (c =? 12) || (c =? 10) || (c =? 13) || (c =? 9) || (c =? 11).

Definition INADDR_NONE : Z := 0xffffffff.

(** The digits of one number: its value and where it ends. *)
Fixpoint aton_digits (fuel : nat) (m : mem) (cp val base : Z) : option (Z * Z) :=
  match fuel with
  | O => None
  | S fuel =>
      let c := sc (ld8 m cp) in
      if isdigit c then aton_digits fuel m (u32 (cp + 1)) (u32 (val * base + (c - chr_0))) base
      else if (base =? 16) && isxdigit c then
        aton_digits fuel m (u32 (cp + 1)) (Z.lor (u32 (Z.shiftl val 4)) (u32 (c + 10 - (if islower c then chr_a else chr_A)))) base
      else Some (val, cp)
  end.

(** The base from the first characters, then the digits. *)
Definition aton_number (fuel : nat) (m : mem) (cp : Z) : option (Z * Z) :=
  if sc (ld8 m cp) =? chr_0 then
    let cp := u32 (cp + 1) in
    let c := sc (ld8 m cp) in
    if (c =? chr_x) || (c =? 88) then aton_digits fuel m (u32 (cp + 1)) 0 16
    else aton_digits fuel m cp 0 8
  else aton_digits fuel m cp 0 10.

(** The parts up to the last one: [Some None] is the return of 0; otherwise the parts before
    the last, the last and the character after it.  [dots] are the dots still allowed. *)
Fixpoint aton_parts (dots fuel : nat) (m : mem) (cp : Z) (parts : list Z) : option (option (list Z * Z * Z)) :=
  if negb (isdigit (sc (ld8 m cp))) then Some None
  else match aton_number fuel m cp with
       | None => None
       | Some (val, cp) =>
           let c := sc (ld8 m cp) in
           if c =? 46 then
             match dots with
             | O => Some None
             | S dots => aton_parts dots fuel m (u32 (cp + 1)) (parts ++ [val])
             end
           else Some (Some (parts, val, c))
       end.

(** The address of the parts. *)
Definition concoct (parts : list Z) (val : Z) : option Z :=
  match parts with
  | [] => Some val
  | [p0] => if 0xffffff <? val then None else Some (Z.lor val (u32 (Z.shiftl p0 24)))
  | [p0; p1] => if 0xffff <? val then None else Some (Z.lor val (Z.lor (u32 (Z.shiftl p0 24)) (u32 (Z.shiftl p1 16))))
  | p0 :: p1 :: p2 :: _ =>
      if 0xff <? val then None
      else Some (Z.lor val (Z.lor (Z.lor (u32 (Z.shiftl p0 24)) (u32 (Z.shiftl p1 16))) (u32 (Z.shiftl p2 8))))
  end.

(** What [inet_aton] returns and the memory after it. *)
Definition inet_aton (fuel : nat) (m : mem) (cp addr : Z) : option (Z * mem) :=
  match aton_parts 3 fuel m cp [] with
  | None => None
  | Some None => Some (0, m)
  | Some (Some (parts, val, c)) =>
      if negb (c =? 0) && (negb (isprint c) || negb (isspace c)) then Some (0, m)
      else match concoct parts val with
           | None => Some (0, m)
           | Some val => Some (1, if addr =? 0 then m else st32 m addr (htonl val))
           end
  end.

(** [val] is the address of the local variable. *)
Definition inet_addr (fuel : nat) (m : mem) (cp val : Z) : option Z :=
  match inet_aton fuel m cp val with
  | None => None
  | Some (r, m) => Some (if negb (r =? 0) then ld32 m val else INADDR_NONE)
  end.

(** The digits of the octet at [ap], the last one first. *)
Fixpoint octet_inv (fuel : nat) (ap : Z) : option (list Z) :=
  match fuel with
  | O => None
  | S fuel =>
      let c := u8 (chr_0 + ap mod 10) in
      if negb (ap / 10 =? 0) then
        match octet_inv fuel (ap / 10) with Some inv => Some (c :: inv) | None => None end
      else Some [c]
  end.

(** [while (i--) *rp++ = inv[i];] *)
Fixpoint put_inv (i : nat) (inv : list Z) (m : mem) (rp : Z) : mem * Z :=
  match i with
  | O => (m, rp)
  | S i => put_inv i inv (st8 m rp (nth i inv 0)) (u32 (rp + 1))
  end.

(** The array [inv] has room for three digits. *)
Fixpoint put_octets (n : nat) (s_addr : Z) (m : mem) (rp : Z) : option (mem * Z) :=
  match n with
  | O => Some (m, rp)
  | S n =>
      match octet_inv 3 (u8 s_addr) with
      | None => None
      | Some inv =>
          let '(m, rp) := put_inv (length inv) inv m rp in
          put_octets n (Z.shiftr s_addr 8) (st8 m rp 46) (u32 (rp + 1))
      end
  end.

(** [str] is the address of the static buffer; the octets are taken from the lowest address of
    [s_addr] up. *)
Definition inet_ntoa (str : Z) (m : mem) (s_addr : Z) : option (Z * mem) :=
  match put_octets 4 s_addr m str with
  | None => None
  | Some (m, rp) => Some (str, st8 m (u32 (rp - 1)) 0)
  end.

(** ** Octets *)

(** The text of an octet. *)
Definition dec (b : Z) : list Z := match octet_inv 3 b with Some inv => rev inv | None => [] end.

Definition value (base : Z) (l : list Z) (val : Z) : Z := fold_left (fun val c => u32 (val * base + (c - chr_0))) l val.

Definition digit_char (c : Z) : bool := (chr_0 <=? c) && (c <=? chr_9).

(** An octet has one to three digits, starts with 0 only when it is 0, and reads back. *)
Definition dec_good (b : Z) : bool :=
  match octet_inv 3 b with
  | None => false
  | Some _ =>
      forallb digit_char (dec b) && bool_decide (1 <= length (dec b) <= 3)%nat && (value 10 (dec b) 0 =? b) &&
      bool_decide (hd 0 (dec b) = chr_0 -> dec b = [chr_0])
  end.

Lemma dec_all : forallb dec_good (seqZ 0 256) = true.
Proof. vm_compute. reflexivity. Qed.

Lemma dec_facts b : 0 <= b < 256 ->
  (exists inv, octet_inv 3 b = Some inv /\ dec b = rev inv) /\ forallb digit_char (dec b) = true /\ (1 <= length (dec b) <= 3)%nat /\
  value 10 (dec b) 0 = b /\ (hd 0 (dec b) = chr_0 -> dec b = [chr_0]).
Proof.
  intros H. pose proof dec_all as Hall. rewrite forallb_forall in Hall. assert (dec_good b = true) as Hg by (apply Hall, list_elem_of_In, elem_of_seqZ; lia).
  unfold dec_good in Hg. destruct (octet_inv 3 b) as [inv|] eqn:Hi; [|done]. split; [exists inv; unfold dec; by rewrite Hi|].
  apply andb_true_iff in Hg as [[[H1 H2%bool_decide_eq_true]%andb_true_iff H3%Z.eqb_eq]%andb_true_iff H4%bool_decide_eq_true]. done.
Qed.

Lemma put_inv_bytes inv : forall i m rp, (i <= length inv)%nat -> 0 <= rp -> rp + Z.of_nat i < 2 ^ 32 ->
  put_inv i inv m rp = (st_bytes m rp (rev (take i inv)), rp + Z.of_nat i).
Proof.
  induction i as [|i IH]; intros m rp Hi H1 H2; cbn [put_inv]; [cbn; f_equal; lia|]. rewrite u32_small, IH by lia.
  rewrite (take_S_r _ _ (nth i inv 0)). 2: { destruct (lookup_lt_is_Some_2 inv i ltac:(lia)) as [x Hx]. rewrite Hx. by rewrite (nth_lookup_Some _ _ _ _ Hx). }
  rewrite rev_app_distr. cbn [rev app st_bytes]. f_equal. lia.
Qed.

(** ** Printing *)

Definition dotted (l : list Z) : list Z := flat_map (fun b => dec b ++ [46]) l.

(** The octets of an address, the one at the lowest address first. *)
Fixpoint octets_of (n : nat) (a : Z) : list Z :=
  match n with
  | O => []
  | S n => u8 a :: octets_of n (Z.shiftr a 8)
  end.

Lemma u8_octet a : 0 <= u8 a < 256.
Proof. unfold u8. zdm. Qed.

Lemma dotted_length n a : (2 * n <= length (dotted (octets_of n a)) <= 4 * n)%nat.
Proof.
  revert a. induction n as [|n IH]; intros a; cbn [octets_of]; [done|]. unfold dotted in *. cbn [flat_map]. rewrite !length_app. cbn [length].
  specialize (IH (Z.shiftr a 8)). destruct (dec_facts (u8 a) (u8_octet a)) as (_ & _ & Hl & _). lia.
Qed.

Lemma put_octets_bytes n : forall a m rp, 0 <= rp -> rp + 4 * Z.of_nat n < 2 ^ 32 ->
  put_octets n a m rp = Some (st_bytes m rp (dotted (octets_of n a)), rp + Z.of_nat (length (dotted (octets_of n a)))).
Proof.
  induction n as [|n IH]; intros a m rp H1 H2; cbn [put_octets octets_of]; [cbn; do 2 f_equal; lia|]. destruct (dec_facts _ (u8_octet a)) as ((inv & -> & Hdec) & _ & Hl & _).
  unfold dotted in *. cbn [flat_map]. rewrite Hdec in *. rewrite length_rev in Hl.
  rewrite put_inv_bytes by lia. rewrite firstn_all, u32_small, IH by lia. rewrite !length_app, length_rev, st_bytes_app, st_bytes_app, !length_app, length_rev. cbn [length st_bytes].
  do 2 f_equal; [f_equal; lia|lia].
Qed.

(** ** Parsing *)

Fixpoint chars (m : mem) (p : Z) (l : list Z) : Prop :=
  match l with
  | [] => True
  | c :: l => ld8 m p = c /\ chars m (p + 1) l
  end.

Lemma chars_app m l l' : forall p, chars m p (l ++ l') <-> chars m p l /\ chars m (p + Z.of_nat (length l)) l'.
Proof.
  induction l as [|c l IH]; intros p; cbn [chars app length]; [rewrite Z.add_0_r; tauto|]. rewrite IH. replace (p + 1 + Z.of_nat (length l)) with (p + Z.of_nat (S (length l))) by lia. tauto.
Qed.

Lemma chars_intro m l : forall p, (forall i c, l !! i = Some c -> ld8 m (p + Z.of_nat i) = c) -> chars m p l.
Proof.
  induction l as [|c l IH]; intros p H; cbn [chars]; [done|]. split; [rewrite <- (H 0%nat c eq_refl); f_equal; lia|]. apply IH. intros i c' Hi. rewrite <- (H (S i) c' Hi). f_equal. lia.
Qed.

(** The characters after a number. *)
Definition ends (c : Z) : Prop := c = 46 \/ c = 0.

Lemma digit_char_ok c : digit_char c = true -> sc c = c /\ isdigit c = true.
Proof.
  unfold digit_char, chr_0, chr_9. intros [H1%Z.leb_le H2%Z.leb_le]%andb_true_iff. unfold sc, isdigit, in_range. rewrite (proj2 (Z.ltb_lt _ _)) by lia. split; [done|]. rewrite u8_small by lia.
  apply andb_true_iff. rewrite !Z.leb_le. done.
Qed.

Lemma digits_run m c rest base : ends c -> forall ds fuel p val, forallb digit_char ds = true -> chars m p (ds ++ c :: rest) -> (length ds < fuel)%nat -> 0 <= p -> p + Z.of_nat (length ds) < 2 ^ 32 ->
  aton_digits fuel m p val base = Some (value base ds val, p + Z.of_nat (length ds)).
Proof.
  intros Hc. induction ds as [|d ds IH]; intros [|fuel] p val Hd Hch Hf H1 H2; cbn [length] in Hf; try lia; cbn [app chars] in Hch; destruct Hch as [Hp Hch]; cbn [aton_digits]; rewrite Hp.
  - assert (isdigit (sc c) = false /\ isxdigit (sc c) = false) as [-> ->] by by destruct Hc as [-> | ->]. rewrite andb_false_r. cbn. do 2 f_equal. lia.
  - cbn [forallb] in Hd. apply andb_true_iff in Hd as [Hd Hds]. destruct (digit_char_ok d Hd) as [-> ->]. cbn [length] in H2. rewrite u32_small, IH by (done || lia). cbn [length value fold_left].
    do 2 f_equal. lia.
Qed.

Lemma number_run m b c rest fuel p :
  0 <= b < 256 -> ends c -> chars m p (dec b ++ c :: rest) -> (3 < fuel)%nat -> 0 <= p -> p + 4 < 2 ^ 32 ->
  isdigit (sc (ld8 m p)) = true /\ aton_number fuel m p = Some (b, p + Z.of_nat (length (dec b))) /\ chars m (p + Z.of_nat (length (dec b))) (c :: rest).
Proof.
  intros Hb Hc Hch Hf H1 H2. destruct (dec_facts b Hb) as (_ & Hd & Hl & Hv & Hz). pose proof (proj1 (chars_app _ _ _ _) Hch) as [_ Hrest]. destruct (dec b) as [|d ds] eqn:Edec; [cbn in Hl; lia|].
  pose proof Hch as [Hp Hch1]. pose proof Hd as [Hd0 _]%andb_true_iff. destruct (digit_char_ok d Hd0) as [Hsc Hdig]. rewrite Hp, Hsc. split; [done|]. split; [|done]. unfold aton_number. rewrite Hp, Hsc.
  destruct (Z.eqb_spec d chr_0) as [->|_]; [|by rewrite (digits_run m c rest 10 Hc (d :: ds)), Hv by (done || lia)].
  injection (Hz eq_refl) as ->. cbn in Hv. subst b. cbn [app chars] in Hch1. destruct Hch1 as [Hc1 _]. rewrite u32_small by lia. rewrite Hc1.
  assert ((sc c =? chr_x) || (sc c =? 88) = false) as -> by by destruct Hc as [-> | ->]. rewrite (digits_run m c rest 8 Hc []) by (done || cbn; lia). cbn. do 2 f_equal. lia.
Qed.

Lemma land_byte n k : 0 <= k -> Z.land n (Z.shiftl 0xff k) = (n / 2 ^ k) mod 256 * 2 ^ k.
Proof.
  intros Hk. rewrite <- Z.shiftr_div_pow2, <- Z.shiftl_mul_pow2 by done. change 256 with (2 ^ 8). rewrite <- Z.land_ones by lia. change 0xff with (Z.ones 8).
  apply Z.bits_inj'. intros i Hi. rewrite Z.land_spec, !Z.shiftl_spec, Z.land_spec by done. destruct (Z.ltb_spec i k); [by rewrite !(Z.testbit_neg_r _ (i - k)), andb_false_r by lia|].
  rewrite Z.shiftr_spec by lia. by replace (i - k + k) with i by lia.
Qed.

(** The bytes of a value in network order. *)
Lemma htonl_octets b0 b1 b2 b3 : 0 <= b0 < 256 -> 0 <= b1 < 256 -> 0 <= b2 < 256 -> 0 <= b3 < 256 ->
  concoct [b0; b1; b2] b3 = Some (b0 * 2 ^ 24 + b1 * 2 ^ 16 + b2 * 2 ^ 8 + b3) /\
  htonl (b0 * 2 ^ 24 + b1 * 2 ^ 16 + b2 * 2 ^ 8 + b3) = b3 * 2 ^ 24 + b2 * 2 ^ 16 + b1 * 2 ^ 8 + b0.
Proof.
  intros H0 H1 H2 H3. split.
  - cbn [concoct]. rewrite (proj2 (Z.ltb_ge _ _)) by lia. rewrite !Z.shiftl_mul_pow2 by lia. rewrite !u32_small by lia. f_equal.
    rewrite (lor_add_low (b0 * 2 ^ 24) _ 24) by (done || zdm). rewrite (lor_add_low _ (b2 * 2 ^ 8) 16) by (done || zdm). rewrite Z.lor_comm, (lor_add_low _ b3 8) by (done || zdm). lia.
  - unfold htonl. change 0xff with (Z.shiftl 0xff 0). change 0xff00 with (Z.shiftl 0xff 8). change 0xff0000 with (Z.shiftl 0xff 16). change 0xff000000 with (Z.shiftl 0xff 24).
    rewrite !land_byte, !Z.shiftl_mul_pow2, !Z.shiftr_div_pow2 by lia. set (n := b0 * 2 ^ 24 + b1 * 2 ^ 16 + b2 * 2 ^ 8 + b3).
    assert (n / 2 ^ 0 mod 256 = b3 /\ n / 2 ^ 8 mod 256 = b2 /\ n / 2 ^ 16 mod 256 = b1 /\ n / 2 ^ 24 mod 256 = b0) as (-> & -> & -> & ->) by (unfold n; repeat split; zdm).
    rewrite (lor_add_low (b3 * 2 ^ 0 * 2 ^ 24) _ 24) by (done || zdm). rewrite (lor_add_low _ (b1 * 2 ^ 16 / 2 ^ 8) 16) by (done || zdm). rewrite (lor_add_low _ _ 8) by (done || zdm).
    rewrite u32_small by zdm. zdm.
Qed.

(** ** Round trip *)

(** Four octets and the dots between them. *)
Lemma parts_run m p b0 b1 b2 b3 fuel :
  0 <= b0 < 256 -> 0 <= b1 < 256 -> 0 <= b2 < 256 -> 0 <= b3 < 256 -> (3 < fuel)%nat -> 0 <= p -> p + 16 < 2 ^ 32 ->
  chars m p (dec b0 ++ 46 :: dec b1 ++ 46 :: dec b2 ++ 46 :: dec b3 ++ [0]) -> aton_parts 3 fuel m p [] = Some (Some ([b0; b1; b2], b3, 0)).
Proof.
  intros H0 H1 H2 H3 Hf Hp1 Hp2 Hch. destruct (dec_facts _ H0) as (_ & _ & L0 & _), (dec_facts _ H1) as (_ & _ & L1 & _), (dec_facts _ H2) as (_ & _ & L2 & _), (dec_facts _ H3) as (_ & _ & L3 & _).
  assert (ends 46 /\ ends 0) as [Hd Hz] by (split; [by left|by right]).
  cbn [aton_parts]. destruct (number_run _ _ _ _ fuel _ H0 Hd Hch Hf ltac:(lia) ltac:(lia)) as (-> & -> & [-> C1]). cbn [negb app]. change (sc 46 =? 46) with true. cbv iota. rewrite u32_small by lia.
  destruct (number_run _ _ _ _ fuel _ H1 Hd C1 Hf ltac:(lia) ltac:(lia)) as (-> & -> & [-> C2]). cbn [negb app]. change (sc 46 =? 46) with true. cbv iota. rewrite u32_small by lia.
  destruct (number_run _ _ _ _ fuel _ H2 Hd C2 Hf ltac:(lia) ltac:(lia)) as (-> & -> & [-> C3]). cbn [negb app]. change (sc 46 =? 46) with true. cbv iota. rewrite u32_small by lia.
  destruct (number_run _ _ _ _ fuel _ H3 Hz C3 Hf ltac:(lia) ltac:(lia)) as (-> & -> & [-> _]). done.
Qed.

Lemma addr_octets a : 0 <= a < 2 ^ 32 -> exists b0 b1 b2 b3, octets_of 4 a = [b0; b1; b2; b3] /\ b3 * 2 ^ 24 + b2 * 2 ^ 16 + b1 * 2 ^ 8 + b0 = a /\
  0 <= b0 < 256 /\ 0 <= b1 < 256 /\ 0 <= b2 < 256 /\ 0 <= b3 < 256.
Proof.
  intros H. eexists _, _, _, _. split; [reflexivity|]. split; [|auto using u8_octet]. rewrite !Z.shiftr_shiftr, !Z.shiftr_div_pow2 by lia. unfold u8. zdm.
Qed.

Lemma dotted_four b0 b1 b2 b3 : dotted [b0; b1; b2; b3] = (dec b0 ++ 46 :: dec b1 ++ 46 :: dec b2 ++ 46 :: dec b3) ++ [46].
Proof. unfold dotted. cbn [flat_map]. rewrite app_nil_r, <- !app_assoc. cbn [app]. rewrite <- !app_assoc. cbn [app]. by rewrite <- !app_assoc. Qed.

Lemma dec_bytes b : 0 <= b < 256 -> Forall (fun c => 0 <= c < 256) (dec b).
Proof.
  intros Hb. destruct (dec_facts b Hb) as (_ & Hd & _). rewrite forallb_forall in Hd. apply Forall_forall. intros c Hc. apply list_elem_of_In in Hc. specialize (Hd c Hc).
  unfold digit_char, chr_0, chr_9 in Hd. apply andb_true_iff in Hd as [?%Z.leb_le ?%Z.leb_le]. lia.
Qed.

(** A text whose last character was overwritten with NUL. *)
Lemma chars_cut m p l c : Forall (fun c => 0 <= c < 256) l -> chars (st8 (st_bytes m p (l ++ [c])) (p + Z.of_nat (length l)) 0) p (l ++ [0]).
Proof.
  intros Hl. apply chars_app. split; [|cbn [chars]; split; [|done]; by rewrite ld8_st8, Z.eqb_refl]. apply chars_intro. intros i d Hi. pose proof (lookup_lt_Some _ _ _ Hi).
  rewrite ld8_st8, (proj2 (Z.eqb_neq _ _)), ld8_st_bytes, length_app by lia. cbn [length]. rewrite (proj2 (Z.leb_le _ _)), (proj2 (Z.ltb_lt _ _)) by lia. cbn [andb].
  replace (Z.to_nat (p + Z.of_nat i - p)) with i by lia. rewrite lookup_app_l, Hi by done. cbn. apply u8_small. exact (Forall_lookup_1 _ _ _ _ Hl Hi).
Qed.

(** C37: Printing an address and reading it back: for every 32-bit address, [inet_ntoa] returns
    the static buffer, having written nothing outside its sixteen bytes, and [inet_aton] on the buffer
    succeeds and stores the same address. *)
Theorem inet_ntoa_aton fuel str m a :
  0 <= a < 2 ^ 32 -> 0 < str -> str + 16 < 2 ^ 32 -> (3 < fuel)%nat ->
  exists m', inet_ntoa str m a = Some (str, m') /\ (forall b, b < str \/ str + 16 <= b -> ld8 m' b = ld8 m b) /\
    forall addr, addr <> 0 -> inet_aton fuel m' str addr = Some (1, st32 m' addr a).
Proof.
  intros Ha H1 H2 Hf. pose proof (dotted_length 4 a) as Hlen. unfold inet_ntoa. rewrite put_octets_bytes by lia. destruct (addr_octets a Ha) as (b0 & b1 & b2 & b3 & Hoc & Hval & B0 & B1 & B2 & B3).
  rewrite Hoc, dotted_four in *. set (X := dec b0 ++ 46 :: dec b1 ++ 46 :: dec b2 ++ 46 :: dec b3) in *. rewrite length_app in *. cbn [length] in *.
  rewrite u32_small by lia. replace (str + Z.of_nat (length X + 1) - 1) with (str + Z.of_nat (length X)) by lia. eexists. split; [reflexivity|]. split.
  { intros b Hb. rewrite ld8_st8, (proj2 (Z.eqb_neq _ _)), ld8_st_bytes, length_app by lia. cbn [length]. destruct (Z.leb_spec str b), (Z.ltb_spec b (str + Z.of_nat (length X + 1))); done || lia. }
  intros addr Hne. destruct (htonl_octets b0 b1 b2 b3 B0 B1 B2 B3) as [Hc Hh]. assert (Forall (fun c => 0 <= c < 256) X) as HX.
  { unfold X. repeat (apply Forall_app; split; [by apply dec_bytes|]; apply Forall_cons; split; [lia|]). by apply dec_bytes. }
  pose proof (chars_cut m str X 46 HX) as Hch. unfold X in Hch at 3. rewrite <- !app_assoc in Hch. cbn [app] in Hch. rewrite <- !app_assoc in Hch. cbn [app] in Hch. rewrite <- !app_assoc in Hch. cbn [app] in Hch.
  unfold inet_aton. rewrite (parts_run _ str b0 b1 b2 b3 fuel B0 B1 B2 B3 Hf ltac:(lia) H2 Hch). cbn [Z.eqb negb andb]. rewrite Hc, Hh, Hval. by rewrite (proj2 (Z.eqb_neq addr 0)).
Qed.

Lemma inet_ntoa_aton_witness :
  exists m', inet_ntoa 4096 ∅ 0x0100a8c0 = Some (4096, m') /\ (forall b, b < 4096 \/ 4096 + 16 <= b -> ld8 m' b = ld8 ∅ b) /\
    forall addr, addr <> 0 -> inet_aton 4 m' 4096 addr = Some (1, st32 m' addr 0x0100a8c0).
Proof. apply (inet_ntoa_aton 4 4096 ∅ 0x0100a8c0); lia. Defined.

(** ** Texts it takes and refuses *)

Definition text (l : list Z) : mem := st_bytes ∅ 4096 (l ++ [0]).

(** "256.0.0.1": the first three parts are not checked and lose their high bits, so that this is 0.0.0.1. *)
Lemma aton_part_wraps : inet_addr 9 (text [50; 53; 54; 46; 48; 46; 48; 46; 49]) 4096 8192 = inet_addr 9 (text [48; 46; 48; 46; 48; 46; 49]) 4096 8192.
Proof. vm_compute. reflexivity. Qed.

(** "1.2.3.4" may be followed by a space but by no other white space. *)
Lemma aton_blank : inet_addr 9 (text [49; 46; 50; 46; 51; 46; 52; 32]) 4096 8192 = Some 0x04030201 /\ inet_addr 9 (text [49; 46; 50; 46; 51; 46; 52; 10]) 4096 8192 = Some INADDR_NONE.
Proof. split; vm_compute; reflexivity. Qed.

(** "09" is read in base 8 and is 9. *)
Lemma aton_octal : inet_addr 9 (text [48; 57]) 4096 8192 = Some (htonl 9).
Proof. vm_compute. reflexivity. Qed.
