(* ===== verification/LwipMem.v ===== *)
(** [net/lwip/core/mem.c]: the heap of the network stack, on byte memory, with the options of
    [net/lwip/jos/lwipopts.h] ([MEM_LIBC_MALLOC] and [MEM_USE_POOLS] off, 32-bit [mem_size_t]).

    A block is a [struct mem] header followed by its data; headers are linked by offsets from
    the start of the heap.  The semaphore taken around each call makes the calls atomic, and the
    statistics are configured out, so that neither is part of the state.  A failed [LWIP_ASSERT]
    panics. *)

From stdpp Require Import gmap.
From S2P Require Import Prelude Mem CString.

(** The address the linker gives to the array [ram_heap]. *)
Class Network := { sym_ram_heap : Z }.

(** ** Sizes *)

Definition MEM_ALIGNMENT : Z := 4.
Definition TCP_MSS : Z := 1460.
Definition TCP_SND_BUF : Z := 16 * TCP_MSS.
Definition MEMP_NUM_TCP_SEG : Z := 2 * TCP_SND_BUF / TCP_MSS.
Definition PER_TCP_PCB_BUFFER : Z := 16 * 4096.
Definition MEM_SIZE : Z := PER_TCP_PCB_BUFFER * MEMP_NUM_TCP_SEG + 4096 * MEMP_NUM_TCP_SEG.

Definition LWIP_MEM_ALIGN_SIZE (size : Z) : Z := Z.land (u32 (size + MEM_ALIGNMENT - 1)) (u32 (Z.lnot (MEM_ALIGNMENT - 1))).
Definition LWIP_MEM_ALIGN (addr : Z) : Z := Z.land (u32 (addr + MEM_ALIGNMENT - 1)) (u32 (Z.lnot (MEM_ALIGNMENT - 1))).

(** [struct mem]: [next], [prev] and the byte [used]. *)
Definition sizeof_mem : Z := 12.
Definition MIN_SIZE : Z := 12.
Definition MIN_SIZE_ALIGNED : Z := LWIP_MEM_ALIGN_SIZE MIN_SIZE.
Definition SIZEOF_STRUCT_MEM : Z := LWIP_MEM_ALIGN_SIZE sizeof_mem.
Definition MEM_SIZE_ALIGNED : Z := LWIP_MEM_ALIGN_SIZE MEM_SIZE.

(** The size of the array [ram_heap]. *)
Definition sizeof_ram_heap : Z := MEM_SIZE_ALIGNED + 2 * SIZEOF_STRUCT_MEM + MEM_ALIGNMENT.

(** ** State *)

Record heap := mkHeap {
  h_mem : mem;        (* the memory [ram_heap] is part of *)
  h_ram : Z;          (* [ram] *)
  h_end : Z;          (* [ram_end] *)
  h_lfree : Z;        (* [lfree] *)
}.

Definition set_h_mem (m : mem) (h : heap) : heap := mkHeap m h.(h_ram) h.(h_end) h.(h_lfree).
Definition set_h_lfree (p : Z) (h : heap) : heap := mkHeap h.(h_mem) h.(h_ram) h.(h_end) p.

(** The fields of the header at [p]. *)
Definition get_next (p : Z) : M heap Z := gets (fun h => ld32 h.(h_mem) p).
Definition get_prev (p : Z) : M heap Z := gets (fun h => ld32 h.(h_mem) (p + 4)).
Definition get_used (p : Z) : M heap Z := gets (fun h => ld8 h.(h_mem) (p + 8)).
Definition set_next (p v : Z) : M heap unit := modify (fun h => set_h_mem (st32 h.(h_mem) p v) h).
Definition set_prev (p v : Z) : M heap unit := modify (fun h => set_h_mem (st32 h.(h_mem) (p + 4) v) h).
Definition set_used (p v : Z) : M heap unit := modify (fun h => set_h_mem (st8 h.(h_mem) (p + 8) v) h).

(** [&ram[i]] and the offset of a pointer in the heap. *)
Definition at_ram (i : Z) : M heap Z := gets (fun h => u32 (h.(h_ram) + i)).
Definition off_ram (p : Z) : M heap Z := gets (fun h => u32 (p - h.(h_ram))).

Definition LWIP_ASSERT (b : bool) : M heap unit := if b then ret tt else panic.

(** ** Operations *)

(** Combine [nmem] with [mem], which is right before it. *)
Definition join (mem nmem : Z) : M heap unit :=
  let* n := get_next nmem in
  set_next mem n ;;;
  let* n := get_next nmem in
  let* p := at_ram n in
  let* o := off_ram mem in
  set_prev p o.

Definition plug_forward (mem : Z) : M heap unit :=
  let* n := get_next mem in
  LWIP_ASSERT (n <=? MEM_SIZE_ALIGNED) ;;;
  let* nmem := at_ram n in
  let* u := get_used nmem in
  let* ram_end := gets h_end in
  if negb (mem =? nmem) && (u =? 0) && negb (nmem =? ram_end) then
    let* lfree := gets h_lfree in
    (if lfree =? nmem then modify (set_h_lfree mem) else ret tt) ;;;
    join mem nmem
  else ret tt.

Definition plug_backward (mem : Z) : M heap unit :=
  let* p := get_prev mem in
  let* pmem := at_ram p in
  let* u := get_used pmem in
  if negb (pmem =? mem) && (u =? 0) then
    let* lfree := gets h_lfree in
    (if lfree =? mem then modify (set_h_lfree pmem) else ret tt) ;;;
    join pmem mem
  else ret tt.

Definition plug_holes (mem : Z) : M heap unit :=
  let* ram := gets h_ram in
  let* ram_end := gets h_end in
  LWIP_ASSERT (ram <=? mem) ;;;
  LWIP_ASSERT (mem <? ram_end) ;;;
  let* u := get_used mem in
  LWIP_ASSERT (u =? 0) ;;;
  plug_forward mem ;;;
  plug_backward mem.

Definition mem_init `{Network} : M heap unit :=
  LWIP_ASSERT (Z.land SIZEOF_STRUCT_MEM (MEM_ALIGNMENT - 1) =? 0) ;;;
  modify (fun h => mkHeap h.(h_mem) (LWIP_MEM_ALIGN sym_ram_heap) h.(h_end) h.(h_lfree)) ;;;
  let* mem := gets h_ram in
  set_next mem MEM_SIZE_ALIGNED ;;;
  set_prev mem 0 ;;;
  set_used mem 0 ;;;
  let* e := at_ram MEM_SIZE_ALIGNED in
  modify (fun h => mkHeap h.(h_mem) h.(h_ram) e h.(h_lfree)) ;;;
  set_used e 1 ;;;
  set_next e MEM_SIZE_ALIGNED ;;;
  set_prev e MEM_SIZE_ALIGNED ;;;
  let* ram := gets h_ram in
  modify (set_h_lfree ram).

Definition mem_free (rmem : Z) : M heap unit :=
  if rmem =? 0 then ret tt
  else
    LWIP_ASSERT (Z.land rmem (MEM_ALIGNMENT - 1) =? 0) ;;;
    let* ram := gets h_ram in
    let* ram_end := gets h_end in
    LWIP_ASSERT ((ram <=? rmem) && (rmem <? ram_end)) ;;;
    if (rmem <? ram) || (ram_end <=? rmem) then ret tt
    else
      let mem := u32 (rmem - SIZEOF_STRUCT_MEM) in
      let* u := get_used mem in
      LWIP_ASSERT (negb (u =? 0)) ;;;
      set_used mem 0 ;;;
      let* lfree := gets h_lfree in
      (if mem <? lfree then modify (set_h_lfree mem) else ret tt) ;;;
      plug_holes mem.

(** A new header at [ptr2] after the block at [ptr], which ended at [next]. *)
Definition link_rest (ptr ptr2 next : Z) : M heap unit :=
  let* mem := at_ram ptr in
  let* mem2 := at_ram ptr2 in
  set_used mem2 0 ;;;
  set_next mem2 next ;;;
  set_prev mem2 ptr ;;;
  set_next mem ptr2.

Definition relink (ptr2 : Z) : M heap unit :=
  let* mem2 := at_ram ptr2 in
  let* n := get_next mem2 in
  if negb (n =? MEM_SIZE_ALIGNED) then
    let* nmem := at_ram n in set_prev nmem ptr2
  else ret tt.

(** The free block [mem2] after the block at [ptr] is moved down to [ptr2]. *)
Definition grow_next (mem2 ptr ptr2 : Z) : M heap unit :=
  let* next := get_next mem2 in
  let* lfree := gets h_lfree in
  let* p2 := at_ram ptr2 in
  (if lfree =? mem2 then modify (set_h_lfree p2) else ret tt) ;;;
  link_rest ptr ptr2 next ;;;
  relink ptr2.

(** The end of the block [mem] at [ptr] becomes a free block at [ptr2]. *)
Definition split_off (mem ptr ptr2 : Z) : M heap unit :=
  let* p2 := at_ram ptr2 in
  let* lfree := gets h_lfree in
  (if p2 <? lfree then modify (set_h_lfree p2) else ret tt) ;;;
  let* next := get_next mem in
  link_rest ptr ptr2 next ;;;
  relink ptr2.

Definition mem_realloc (rmem newsize : Z) : M heap Z :=
  let newsize := LWIP_MEM_ALIGN_SIZE newsize in
  let newsize := if newsize <? MIN_SIZE_ALIGNED then MIN_SIZE_ALIGNED else newsize in
  if MEM_SIZE_ALIGNED <? newsize then ret 0
  else
    let* ram := gets h_ram in
    let* ram_end := gets h_end in
    LWIP_ASSERT ((ram <=? rmem) && (rmem <? ram_end)) ;;;
    if (rmem <? ram) || (ram_end <=? rmem) then ret rmem
    else
      let mem := u32 (rmem - SIZEOF_STRUCT_MEM) in
      let* ptr := off_ram mem in
      let* mnext := get_next mem in
      let size := u32 (mnext - ptr - SIZEOF_STRUCT_MEM) in
      LWIP_ASSERT (newsize <=? size) ;;;
      if size <? newsize then ret 0
      else if newsize =? size then ret rmem
      else
        let* mem2 := at_ram mnext in
        let* u2 := get_used mem2 in
        let ptr2 := u32 (ptr + SIZEOF_STRUCT_MEM + newsize) in
        (if u2 =? 0 then grow_next mem2 ptr ptr2
         else if u32 (newsize + SIZEOF_STRUCT_MEM + MIN_SIZE_ALIGNED) <=? size then split_off mem ptr ptr2
         else ret tt) ;;;
        ret rmem.

(** The loop of [mem_malloc] that moves [lfree] to the next free block. *)
Fixpoint next_free (fuel : nat) : M heap unit :=
  match fuel with
  | O => out_of_fuel
  | S fuel =>
      let* lfree := gets h_lfree in
      let* u := get_used lfree in
      let* ram_end := gets h_end in
      if negb (u =? 0) && negb (lfree =? ram_end) then
        let* n := get_next lfree in
        let* p := at_ram n in
        modify (set_h_lfree p) ;;;
        next_free fuel
      else ret tt
  end.

(** More than the number of blocks the heap can hold. *)
Definition heap_fuel : nat := S (Z.to_nat (MEM_SIZE_ALIGNED / SIZEOF_STRUCT_MEM)).

(** The free block at [ptr] is taken for [size] bytes. *)
Definition take_block (ptr size : Z) : M heap Z :=
  let* mem := at_ram ptr in
  let* next := get_next mem in
  (if u32 (size + SIZEOF_STRUCT_MEM + MIN_SIZE_ALIGNED) <=? u32 (next - u32 (ptr + SIZEOF_STRUCT_MEM)) then
     let ptr2 := u32 (ptr + SIZEOF_STRUCT_MEM + size) in
     link_rest ptr ptr2 next ;;;
     set_used mem 1 ;;;
     relink ptr2
   else set_used mem 1) ;;;
  let* lfree := gets h_lfree in
  let* ram_end := gets h_end in
  (if mem =? lfree then
     next_free heap_fuel ;;;
     let* lfree := gets h_lfree in
     let* u := get_used lfree in
     LWIP_ASSERT ((lfree =? ram_end) || (u =? 0))
   else ret tt) ;;;
  LWIP_ASSERT (u32 (mem + SIZEOF_STRUCT_MEM + size) <=? ram_end) ;;;
  LWIP_ASSERT (u32 (mem + SIZEOF_STRUCT_MEM) mod MEM_ALIGNMENT =? 0) ;;;
  LWIP_ASSERT (Z.land mem (MEM_ALIGNMENT - 1) =? 0) ;;;
  ret (u32 (mem + SIZEOF_STRUCT_MEM)).

Fixpoint malloc_scan (fuel : nat) (ptr size : Z) : M heap Z :=
  match fuel with
  | O => out_of_fuel
  | S fuel =>
      if ptr <? MEM_SIZE_ALIGNED - size then
        let* mem := at_ram ptr in
        let* u := get_used mem in
        let* next := get_next mem in
        if (u =? 0) && (size <=? u32 (next - u32 (ptr + SIZEOF_STRUCT_MEM))) then take_block ptr size
        else malloc_scan fuel next size
      else ret 0
  end.

Definition mem_malloc (size : Z) : M heap Z :=
  if size =? 0 then ret 0
  else
    let size := LWIP_MEM_ALIGN_SIZE size in
    let size := if size <? MIN_SIZE_ALIGNED then MIN_SIZE_ALIGNED else size in
    if MEM_SIZE_ALIGNED <? size then ret 0
    else
      let* lfree := gets h_lfree in
      let* ptr := off_ram lfree in
      malloc_scan heap_fuel ptr size.

Definition mem_calloc (count size : Z) : M heap Z :=
  let* p := mem_malloc (u32 (count * size)) in
  (if negb (p =? 0) then modify (fun h => set_h_mem (memset h.(h_mem) p 0 (u32 (count * size))) h) else ret tt) ;;;
  ret p.
