(* ===== verification/LwipHeap.v ===== *)
(** The heap of the network stack ([LwipMem]) as a list of blocks: what the headers represent,
    and every operation as an operation on the list. *)

From stdpp Require Import gmap.
From S2P Require Import Prelude Mem CString LwipMem.

(** ** Blocks *)

(** The size of the data of a block and whether it is in use. *)
Abbreviation block := (Z * bool)%type.

Definition fits (size : Z) (b : block) : bool := negb b.2 && (size <=? b.1).

(** A block taken for [size] bytes, with the rest as a block of its own when it is big enough. *)
Definition split_block (size sz : Z) : list block :=
  if size + 24 <=? sz then [(size, true); (sz - size - 12, false)] else [(sz, true)].

(** First fit: the offset of the data and the new list. *)
Fixpoint a_malloc (size p : Z) (bl : list block) : option (Z * list block) :=
  match bl with
  | [] => None
  | b :: bl =>
      if fits size b then Some (p + 12, split_block size b.1 ++ bl)
      else match a_malloc size (p + 12 + b.1) bl with Some (q, bl') => Some (q, b :: bl') | None => None end
  end.

(** Neighbouring free blocks become one. *)
Definition merge_free (b : block) (bl : list block) : list block :=
  match b.2, bl with
  | false, (s, false) :: bl => (b.1 + 12 + s, false) :: bl
  | _, _ => b :: bl
  end.

Definition coalesce (bl : list block) : list block := foldr merge_free [] bl.

(** A block in use cut down to [r] bytes, with what follows it. *)
Definition a_shrink (r sz : Z) (bl : list block) : list block :=
  if r =? sz then (sz, true) :: bl
  else match bl with
       | (s, false) :: bl => (r, true) :: (sz - r + s, false) :: bl
       | _ => if r + 24 <=? sz then (r, true) :: (sz - r - 12, false) :: bl else (sz, true) :: bl
       end.

(** The data of the blocks in use: offset and size. *)
Fixpoint used_at (p : Z) (bl : list block) : list (Z * Z) :=
  match bl with
  | [] => []
  | (sz, u) :: bl => (if u then [(p + 12, sz)] else []) ++ used_at (p + 12 + sz) bl
  end.

(** The offset of the first free block. *)
Fixpoint first_free (p : Z) (bl : list block) : Z :=
  match bl with
  | [] => p
  | (sz, u) :: bl => if u then first_free (p + 12 + sz) bl else p
  end.

(** No two free blocks in a row. *)
Fixpoint apart (bl : list block) : Prop :=
  match bl with
  | (_, u) :: ((_, u') :: _) as bl' => (u || u' = true) /\ apart bl'
  | _ => True
  end.

Fixpoint span (bl : list block) : Z :=
  match bl with
  | [] => 0
  | (sz, _) :: bl => 12 + sz + span bl
  end.

Definition head_free (bl : list block) : bool := match bl with (_, u) :: _ => negb u | [] => false end.
Fixpoint last_free (bl : list block) : bool :=
  match bl with
  | [] => false
  | [(_, u)] => negb u
  | _ :: bl => last_free bl
  end.

Lemma last_free_snoc bl sz u : last_free (bl ++ [(sz, u)]) = negb u.
Proof. induction bl as [|[s v] bl IH]; [done|]. cbn [app last_free]. destruct bl; cbn in *; done. Qed.

Lemma apart_app bl bl' : apart (bl ++ bl') <-> apart bl /\ apart bl' /\ last_free bl && head_free bl' = false.
Proof.
  induction bl as [|[sz u] bl IH]; [cbn; tauto|]. destruct bl as [|[sz2 u2] bl].
  - destruct bl' as [|[s v] bl']; cbn; [by rewrite andb_false_r; tauto|]. destruct u, v; cbn; intuition done.
  - cbn [app] in *. cbn [apart last_free] in *. rewrite IH. tauto.
Qed.

Definition sizes_ok (bl : list block) : Prop := Forall (fun b : block => 12 <= b.1 /\ b.1 mod 4 = 0) bl.

Lemma span_app bl bl' : span (bl ++ bl') = span bl + span bl'.
Proof. induction bl as [|[sz u] bl IH]; cbn [span app]; lia. Qed.

Lemma span_nonneg bl : sizes_ok bl -> 0 <= span bl /\ 24 * Z.of_nat (length bl) <= span bl /\ span bl mod 4 = 0.
Proof.
  intros H. induction H as [|[sz u] bl [Hs Ha] _ IH]; cbn [span length]; [done|]. cbn [fst] in *. destruct IH as (IH1 & IH2 & IH3). repeat split; [lia|lia|].
  clear -Ha IH3. zdm.
Qed.

(** ** Memory *)

Lemma ld32_st8_ne m a v b : a < b \/ b + 4 <= a -> ld32 (st8 m a v) b = ld32 m b.
Proof. intros H. apply ld32_ext. intros i Hi. rewrite ld8_st8. by rewrite (proj2 (Z.eqb_neq _ _)) by lia. Qed.

Lemma ld8_st8_ne m a v b : a <> b -> ld8 (st8 m a v) b = ld8 m b.
Proof. intros H. rewrite ld8_st8. by rewrite (proj2 (Z.eqb_neq _ _)). Qed.

Lemma ld8_st8_eq m a v : ld8 (st8 m a v) a = u8 v.
Proof. by rewrite ld8_st8, Z.eqb_refl. Qed.

(** Read through stores to other places. *)
Ltac hmem :=
  repeat first [rewrite ld32_st32_eq | rewrite ld8_st8_eq | rewrite ld32_st32_ne by lia | rewrite ld32_st8_ne by lia
               | rewrite ld8_st8_ne by lia | rewrite ld8_st32_ne by lia].

Ltac hconsts := change SIZEOF_STRUCT_MEM with 12 in *; change MIN_SIZE_ALIGNED with 12 in *; change MEM_ALIGNMENT with 4 in *.

Abbreviation E := MEM_SIZE_ALIGNED.

Lemma E_val : E = 2228224.
Proof. reflexivity. Qed.

Section Heap.
Variable ram : Z.
Hypothesis ram_pos : 0 < ram.
Hypothesis ram_end : ram + E + 12 <= 2 ^ 32.
Hypothesis ram_aligned : ram mod 4 = 0.

(** The header at offset [p]. *)
Record hdr (m : mem) (p next prev : Z) (used : bool) : Prop := {
  hd_next : ld32 m (ram + p) = next;
  hd_prev : ld32 m (ram + p + 4) = prev;
  hd_used : ld8 m (ram + p + 8) = if used then 1 else 0;
}.

(** The blocks [bl] from offset [p] on; [prev] is the offset of the block before. *)
Fixpoint seg (m : mem) (p prev : Z) (bl : list block) : Prop :=
  match bl with
  | [] => True
  | (sz, u) :: bl => hdr m p (p + 12 + sz) prev u /\ seg m (p + 12 + sz) p bl
  end.

Fixpoint last_off (p prev : Z) (bl : list block) : Z :=
  match bl with
  | [] => prev
  | (sz, _) :: bl => last_off (p + 12 + sz) p bl
  end.

(** The blocks fill the heap up to the last header; [lf] is the lowest free one. *)
Record shape (m : mem) (lf : Z) (bl : list block) : Prop := {
  sh_seg : seg m 0 0 bl;
  sh_span : span bl = E;
  sh_sizes : sizes_ok bl;
  sh_next : ld32 m (ram + E) = E;
  sh_used : ld8 m (ram + E + 8) = 1;
  sh_lfree : lf = ram + first_free 0 bl;
}.

Record rep (m : mem) (lf : Z) (bl : list block) : Prop := {
  rp_shape :> shape m lf bl;
  rp_apart : apart bl;
}.

Definition the_heap (m : mem) (lf : Z) : heap := mkHeap m ram (ram + E) lf.

Lemma seg_app m bl bl' : forall p prev, seg m p prev (bl ++ bl') <-> seg m p prev bl /\ seg m (p + span bl) (last_off p prev bl) bl'.
Proof.
  induction bl as [|[sz u] bl IH]; intros p prev; cbn [seg app span last_off].
  - rewrite Z.add_0_r. tauto.
  - rewrite IH. replace (p + (12 + sz + span bl)) with (p + 12 + sz + span bl) by lia. tauto.
Qed.

Lemma last_off_app bl sz u : forall p prev, last_off p prev (bl ++ [(sz, u)]) = p + span bl.
Proof. induction bl as [|[s v] bl IH]; intros p prev; cbn [last_off app span]; [lia|]. rewrite IH. lia. Qed.

Lemma first_free_app bl bl' : forall p, forallb snd bl = true -> first_free p (bl ++ bl') = first_free (p + span bl) bl'.
Proof.
  induction bl as [|[sz u] bl IH]; intros p H; cbn [first_free app span]; [by rewrite Z.add_0_r|]. cbn in H. apply andb_true_iff in H as [-> H].
  rewrite IH by done. f_equal. lia.
Qed.

Lemma first_free_before bl bl' : forall p, sizes_ok bl -> forallb snd bl = false -> first_free p (bl ++ bl') = first_free p bl /\ first_free p bl < p + span bl.
Proof.
  induction bl as [|[sz u] bl IH]; intros p Hs H; cbn [first_free app span]; [done|]. apply Forall_cons in Hs as [[Hs _] Hsz]. cbn [fst] in Hs. cbn in H.
  pose proof (span_nonneg bl Hsz). destruct u; [|split; [done|lia]]. destruct (IH (p + 12 + sz) Hsz H) as [-> Hlt]. split; [done|lia].
Qed.

Lemma first_free_range bl : forall p, sizes_ok bl -> p <= first_free p bl <= p + span bl.
Proof.
  induction bl as [|[sz u] bl IH]; intros p Hs; cbn [first_free span]; [lia|]. apply Forall_cons in Hs as [[Hs _] Hsz]. cbn [fst] in Hs.
  pose proof (span_nonneg bl Hsz). destruct u; [|lia]. specialize (IH (p + 12 + sz) Hsz). lia.
Qed.

Lemma hdr_ext m m' p n q u : hdr m p n q u -> (forall b, ram + p <= b < ram + p + 9 -> ld8 m' b = ld8 m b) -> hdr m' p n q u.
Proof.
  intros [H1 H2 H3] He. split.
  - rewrite <- H1. apply ld32_ext. intros i Hi. apply He. lia.
  - rewrite <- H2. apply ld32_ext. intros i Hi. apply He. lia.
  - rewrite <- H3. apply He. lia.
Qed.

Lemma seg_ext m m' bl : forall p prev,
  seg m p prev bl -> sizes_ok bl -> (forall b, ram + p <= b < ram + p + span bl -> ld8 m' b = ld8 m b) -> seg m' p prev bl.
Proof.
  induction bl as [|[sz u] bl IH]; intros p prev H Hs He; cbn [seg span] in *; [done|]. destruct H as [Hh H]. apply Forall_cons in Hs as [[Hsz _] Hs]. cbn [fst] in Hsz.
  pose proof (span_nonneg bl Hs). split; [apply (hdr_ext m); [done|]; intros b Hb; apply He; lia|]. apply IH; [done|done|]. intros b Hb. apply He. lia.
Qed.

(** The block before may move. *)
Lemma seg_reprev m m' bl p prev prev' :
  seg m p prev bl -> sizes_ok bl -> (forall b, ram + p <= b < ram + p + span bl -> b < ram + p + 4 \/ ram + p + 8 <= b -> ld8 m' b = ld8 m b) ->
  (bl <> [] -> ld32 m' (ram + p + 4) = prev') -> seg m' p prev' bl.
Proof.
  destruct bl as [|[sz u] bl]; intros H Hs He Hp; cbn [seg span] in *; [done|]. destruct H as [[H1 _ H3] H]. apply Forall_cons in Hs as [[Hsz _] Hs]. cbn [fst] in Hsz.
  pose proof (span_nonneg bl Hs). split; [split|].
  - rewrite <- H1. apply ld32_ext. intros i Hi. apply He; lia.
  - by apply Hp.
  - rewrite <- H3. apply He; lia.
  - apply (seg_ext m); [done|done|]. intros b Hb. apply He; lia.
Qed.

(** ** Pointers and links *)

Lemma ram_off i : 0 <= i <= E -> u32 (ram + i) = ram + i.
Proof. intros H. apply u32_small. rewrite E_val in *. lia. Qed.

Lemma at_ram_run m lf i : 0 <= i <= E -> at_ram i (the_heap m lf) = Ret (ram + i) (the_heap m lf).
Proof. intros H. unfold at_ram, gets. cbn. by rewrite ram_off. Qed.

Lemma off_ram_run m lf i : 0 <= i <= E -> off_ram (ram + i) (the_heap m lf) = Ret i (the_heap m lf).
Proof. intros H. unfold off_ram, gets. cbn. replace (ram + i - ram) with i by lia. rewrite u32_small by (rewrite E_val in *; lia). done. Qed.

Definition linked (m : mem) (x x2 n : Z) : mem :=
  st32 (st32 (st32 (st8 m (ram + x2 + 8) 0) (ram + x2) n) (ram + x2 + 4) x) (ram + x) x2.

Lemma link_rest_run m lf x x2 n :
  0 <= x <= E -> 0 <= x2 <= E -> link_rest x x2 n (the_heap m lf) = Ret tt (the_heap (linked m x x2 n) lf).
Proof. intros Hx Hx2. unfold link_rest. mstep (by apply at_ram_run). mstep (by apply at_ram_run). reflexivity. Qed.

Definition relinked (m : mem) (x2 : Z) : mem :=
  if ld32 m (ram + x2) =? E then m else st32 m (ram + ld32 m (ram + x2) + 4) x2.

Lemma relink_run m lf x2 :
  0 <= x2 <= E -> 0 <= ld32 m (ram + x2) <= E -> relink x2 (the_heap m lf) = Ret tt (the_heap (relinked m x2) lf).
Proof.
  intros Hx Hn. unfold relink, relinked. mstep (by apply at_ram_run). mstep reflexivity. cbn [the_heap h_mem]. destruct (_ =? _); [done|]. cbn [negb].
  by mstep (by apply at_ram_run).
Qed.

(** The search for the next free block. *)
Lemma next_free_run m bl : forall fuel p prev,
  seg m p prev bl -> sizes_ok bl -> 0 <= p -> p + span bl = E -> ld8 m (ram + E + 8) = 1 -> (length bl < fuel)%nat ->
  next_free fuel (the_heap m (ram + p)) = Ret tt (the_heap m (ram + first_free p bl)).
Proof.
  induction bl as [|[sz u] bl IH]; intros [|fuel] p prev Hs Hsz Hp Hsp Hu Hf; cbn [length] in Hf; [lia| |lia|]; cbn [next_free span first_free] in *.
  - mstep reflexivity. mstep reflexivity. mstep reflexivity. cbn [the_heap h_lfree h_mem h_end]. replace p with E by lia. rewrite Hu, Z.eqb_refl. done.
  - destruct Hs as [[H1 _ H3] Hs]. apply Forall_cons in Hsz as [[Hz _] Hsz]. cbn [fst] in Hz. pose proof (span_nonneg bl Hsz) as Hn.
    mstep reflexivity. mstep reflexivity. mstep reflexivity. cbn [the_heap h_lfree h_mem h_end]. rewrite H3, (proj2 (Z.eqb_neq (ram + p) _)) by lia.
    destruct u; cbn [Z.eqb negb andb]; [|done]. mstep reflexivity. cbn [the_heap h_mem]. rewrite H1. mstep (apply at_ram_run; lia). mstep reflexivity.
    apply (IH fuel (p + 12 + sz) p); [done|done|lia|lia|done|lia].
Qed.

Lemma fuel_enough bl : sizes_ok bl -> span bl = E -> (length bl < heap_fuel)%nat.
Proof. intros Hs Hsp. pose proof (span_nonneg bl Hs) as (_ & H & _). rewrite Hsp, E_val in H. unfold heap_fuel. change (E / SIZEOF_STRUCT_MEM) with 185685. lia. Qed.

(** ** Allocation *)

(** The parts of a list around one of its blocks. *)
Lemma shape_parts m lf bl1 sz u bl2 :
  shape m lf (bl1 ++ (sz, u) :: bl2) ->
  let x := span bl1 in let n := x + 12 + sz in
  seg m 0 0 bl1 /\ hdr m x n (last_off 0 0 bl1) u /\ seg m n x bl2 /\ sizes_ok bl1 /\ sizes_ok bl2 /\
  0 <= x /\ x mod 4 = 0 /\ 12 <= sz /\ sz mod 4 = 0 /\ n + span bl2 = E /\ (bl2 = [] <-> n = E).
Proof.
  intros [Hs Hsp Hz _ _ _] x n. apply seg_app in Hs as [Hs1 Hs2]. cbn [seg] in Hs2. destruct Hs2 as [Hh Hs2]. rewrite Z.add_0_l in *.
  apply Forall_app in Hz as [Hz1 Hz2]. apply Forall_cons in Hz2 as [[Hz Ha] Hz2]. cbn [fst] in Hz, Ha.
  destruct (span_nonneg bl1 Hz1) as (H1 & _ & H2). destruct (span_nonneg bl2 Hz2) as (H3 & H4 & _). rewrite span_app in Hsp. cbn [span] in Hsp.
  repeat (split; [first [done | subst x n; lia]|]). subst x n. destruct bl2 as [|[s2 u2] bl2]; [split; [cbn in *; lia|done]|].
  split; [done|]. cbn [length] in H4. lia.
Qed.

Section Take.
Variables (m : mem) (lf : Z) (bl1 bl2 : list block) (sz size : Z).
Hypothesis Hrep : rep m lf (bl1 ++ (sz, false) :: bl2).
Hypothesis Hsize : 12 <= size <= sz.
Hypothesis Haligned : size mod 4 = 0.
Let x := span bl1.
Let n := x + 12 + sz.
Let x2 := x + 12 + size.

Definition taken : mem :=
  if size + 24 <=? sz then relinked (st8 (linked m x x2 n) (ram + x + 8) 1) x2 else st8 m (ram + x + 8) 1.

Lemma taken_split : size + 24 <= sz -> exists m0, m0 = st8 (linked m x x2 n) (ram + x + 8) 1 /\ taken = if n =? E then m0 else st32 m0 (ram + n + 4) x2.
Proof.
  intros H. eexists. split; [reflexivity|]. unfold taken, relinked. rewrite (proj2 (Z.leb_le _ _) H).
  assert (ld32 (st8 (linked m x x2 n) (ram + x + 8) 1) (ram + x2) = n) as ->; [|done]. unfold linked, x2. hmem. apply u32_small.
  destruct (shape_parts _ _ _ _ _ _ Hrep) as (_ & _ & _ & _ & Hz2 & Hx & _ & _ & _ & HE & _). pose proof (span_nonneg bl2 Hz2). fold x n in HE, Hx. rewrite E_val in HE. lia.
Qed.

(** What allocation writes: the header of the block, that of the rest, and the link back. *)
Lemma taken_frame b :
  b < ram + x \/ ram + n <= b -> b < ram + n + 4 \/ ram + n + 8 <= b -> ld8 taken b = ld8 m b.
Proof.
  intros H1 H2. destruct (Z.leb_spec (size + 24) sz) as [H|H].
  - destruct (taken_split H) as (m0 & Em & ->). assert (ld8 m0 b = ld8 m b) as E0 by (rewrite Em; unfold linked, x2; subst n; hmem; done).
    destruct (n =? E); [done|]. by rewrite ld8_st32_ne by lia.
  - unfold taken. rewrite (proj2 (Z.leb_gt _ _) H). subst n. by hmem.
Qed.

Lemma taken_seg : seg taken 0 0 (bl1 ++ split_block size sz ++ bl2).
Proof.
  destruct (shape_parts _ _ _ _ _ _ Hrep) as (Hs1 & Hh & Hs2 & Hz1 & Hz2 & Hx & _ & _ & _ & HE & Hnil). pose proof (span_nonneg bl2 Hz2) as Hsp2. fold x n in Hh, Hs2, Hx, HE, Hnil.
  destruct Hh as [Hn Hp Hu]. assert (0 <= n < 2 ^ 32 /\ 0 <= x2 < 2 ^ 32 /\ 0 <= x < 2 ^ 32) as (Hn32 & Hx232 & Hx32) by (unfold x2 in *; rewrite E_val in HE; lia).
  assert (seg taken 0 0 bl1) as Hs1' by (apply (seg_ext m); [done|done|]; intros b Hb; apply taken_frame; fold x in Hb; lia).
  apply seg_app. split; [done|]. rewrite Z.add_0_l. fold x. unfold split_block. destruct (Z.leb_spec (size + 24) sz) as [H|H].
  - destruct (taken_split H) as (m0 & Em & Et). cbn [app seg].
    assert (forall q v, ld32 m0 (ram + q) = v -> q + 4 <= n -> ld32 taken (ram + q) = v) as Hlow.
    { intros q v Hq Hlt. rewrite Et. destruct (_ =? _); [done|]. by rewrite ld32_st32_ne by lia. }
    assert (forall q v, ld8 m0 (ram + q) = v -> q + 4 <= n -> ld8 taken (ram + q) = v) as Hlow8.
    { intros q v Hq Hlt. rewrite Et. destruct (_ =? _); [done|]. by rewrite ld8_st32_ne by lia. }
    split; [split|split; [split|]].
    + fold x2. apply Hlow; [|lia]. rewrite Em. unfold linked, x2. hmem. by apply u32_small.
    + rewrite <- Z.add_assoc. apply Hlow; [|lia]. rewrite Em. replace (ram + (x + 4)) with (ram + x + 4) by lia. unfold linked, x2. hmem. exact Hp.
    + rewrite <- Z.add_assoc. apply Hlow8; [|lia]. rewrite Em. replace (ram + (x + 8)) with (ram + x + 8) by lia. by rewrite ld8_st8_eq.
    + fold x2. replace (x2 + 12 + (sz - size - 12)) with n by lia. apply Hlow; [|lia]. rewrite Em. unfold linked, x2. hmem. by apply u32_small.
    + fold x2. rewrite <- Z.add_assoc. apply Hlow; [|lia]. rewrite Em. replace (ram + (x2 + 4)) with (ram + x2 + 4) by lia. unfold linked, x2. hmem. by apply u32_small.
    + fold x2. rewrite <- Z.add_assoc. apply Hlow8; [|lia]. rewrite Em. replace (ram + (x2 + 8)) with (ram + x2 + 8) by lia. unfold linked, x2. by hmem.
    + fold x2. replace (x2 + 12 + (sz - size - 12)) with n by lia. apply (seg_reprev m _ _ _ x); [done|done| |].
      * intros b Hb Hb'. apply taken_frame; lia.
      * intros Hne. rewrite Et. rewrite (proj2 (Z.eqb_neq _ _)) by (intros HnE; by apply Hne, Hnil). rewrite ld32_st32_eq. by apply u32_small.
  - unfold taken. rewrite (proj2 (Z.leb_gt _ _) H). cbn [app seg]. split; [split|].
    + fold n. by hmem.
    + by hmem.
    + by rewrite ld8_st8_eq.
    + fold n. apply (seg_ext m); [done|done|]. intros b Hb. apply ld8_st8_ne. lia.
Qed.

Lemma split_span : span (split_block size sz) = 12 + sz.
Proof. unfold split_block. destruct (_ <=? _); cbn [span]; lia. Qed.

Lemma split_sizes : sz mod 4 = 0 -> sizes_ok (split_block size sz).
Proof.
  intros Hsz. unfold split_block. destruct (Z.leb_spec (size + 24) sz); [|by repeat constructor; cbn; lia].
  constructor; [cbn; lia|]. constructor; [|done]. cbn [fst]. split; [lia|]. clear -Haligned Hsz. zdm.
Qed.

Lemma taken_rep : rep taken (ram + first_free 0 (bl1 ++ split_block size sz ++ bl2)) (bl1 ++ split_block size sz ++ bl2).
Proof.
  destruct (shape_parts _ _ _ _ _ _ Hrep) as (Hs1 & Hh & Hs2 & Hz1 & Hz2 & Hx & _ & _ & Hszal & HE & Hnil). fold x n in Hh, Hs2, Hx, HE, Hnil. destruct (span_nonneg bl2 Hz2) as (Hsp2 & Hsp3 & _).
  destruct Hrep as [[_ Hspan Hsz HnE HuE _] Hap]. rewrite !span_app in Hspan. cbn [span] in Hspan.
  assert (forall b, ram + E <= b -> b < ram + E + 4 \/ ram + E + 8 <= b -> ld8 taken b = ld8 m b) as Hend.
  { intros b H1 H2. apply taken_frame; [lia|]. destruct (Z.eq_dec n E) as [En|En]; [by rewrite En|].
    assert (length bl2 <> 0%nat) by (intros H0%nil_length_inv; by apply En, Hnil). lia. }
  split; [split|].
  - apply taken_seg.
  - rewrite !span_app, split_span. lia.
  - apply Forall_app. split; [done|]. apply Forall_app. split; [by apply split_sizes|done].
  - transitivity (ld32 m (ram + E)); [|exact HnE]. apply ld32_ext. intros i Hi. apply Hend; lia.
  - rewrite <- HuE. apply Hend; lia.
  - done.
  - apply apart_app in Hap as (Ha1 & Ha2 & Hlf). cbn [head_free negb] in Hlf. rewrite andb_true_r in Hlf. change ((sz, false) :: bl2) with ([(sz, false)] ++ bl2) in Ha2.
    apply apart_app in Ha2 as (_ & Ha2 & Hhf). cbn in Hhf. apply apart_app. split; [done|]. split; [|by rewrite Hlf].
    apply apart_app. unfold split_block. destruct (_ <=? _); cbn [apart last_free head_free negb andb]; [rewrite Hhf|]; done.
Qed.

Lemma free_at m' bl : forall p prev, seg m' p prev bl -> first_free p bl = p + span bl \/ ld8 m' (ram + first_free p bl + 8) = 0.
Proof.
  induction bl as [|[s u] bl IH]; intros p prev H; cbn [first_free span]; [left; lia|]. destruct H as [[_ _ Hu] H]. destruct u; [|by right].
  destruct (IH _ _ H) as [->|]; [left; lia|by right].
Qed.

Lemma land_3 z : z mod 4 = 0 -> Z.land z (4 - 1) = 0.
Proof. intros H. change (4 - 1) with (Z.ones 2). by rewrite Z.land_ones. Qed.

Lemma take_run : take_block x size (the_heap m lf) = Ret (ram + x + 12) (the_heap taken (ram + first_free 0 (bl1 ++ split_block size sz ++ bl2))).
Proof.
  destruct (shape_parts _ _ _ _ _ _ Hrep) as (Hs1 & Hh & Hs2 & Hz1 & Hz2 & Hx & Hxal & _ & Hszal & HE & Hnil). fold x n in Hh, Hs2, Hx, HE, Hnil, Hxal. destruct (span_nonneg bl2 Hz2) as (Hsp2 & _).
  pose proof taken_rep as Hr'. pose proof (sh_lfree _ _ _ Hrep) as Hlf. pose proof (sh_seg _ _ _ Hr') as Hseg. apply seg_app in Hseg as [_ Hseg]. rewrite Z.add_0_l in Hseg. fold x in Hseg.
  assert (E = 2228224) as HEv by exact E_val. assert (n = x + 12 + sz) as Hn by reflexivity. assert (x2 = x + 12 + size) as Hx2 by reflexivity.
  unfold take_block. hconsts. mstep (apply at_ram_run; lia). mstep reflexivity. cbn [the_heap h_mem]. rewrite (hd_next _ _ _ _ _ Hh).
  rewrite !(u32_small (x + 12)), (u32_small (size + 12 + 12)), (u32_small (n - (x + 12))), (u32_small (x + 12 + size)) by lia. fold x2.
  replace (n - (x + 12)) with sz by lia.
  rewrite (bind_ret _ _ (the_heap m lf) tt (the_heap taken lf)).
  2: { unfold taken. replace (size + 12 + 12 <=? sz) with (size + 24 <=? sz) by (f_equal; lia). destruct (Z.leb_spec (size + 24) sz) as [H|H]; [|reflexivity].
       mstep (apply link_rest_run; lia). mstep reflexivity. cbn [the_heap set_h_mem h_mem h_ram h_end h_lfree].
       apply (relink_run (st8 (linked m x x2 n) (ram + x + 8) 1) lf); [lia|].
       assert (ld32 (st8 (linked m x x2 n) (ram + x + 8) 1) (ram + x2) = n) as ->; [|lia]. unfold linked, x2. hmem. apply u32_small. lia. }
  mstep reflexivity. mstep reflexivity. cbn [the_heap h_lfree h_end].
  rewrite (bind_ret _ _ (the_heap taken lf) tt (the_heap taken (ram + first_free 0 (bl1 ++ split_block size sz ++ bl2)))).
  2: { assert (length (split_block size sz ++ bl2) < heap_fuel)%nat as Hf.
       { pose proof (fuel_enough _ (sh_sizes _ _ _ Hr') (sh_span _ _ _ Hr')) as Hf. rewrite length_app in Hf. lia. }
       destruct (forallb snd bl1) eqn:Hall.
       - rewrite first_free_app in Hlf |- * by done. cbn [first_free] in Hlf. rewrite Z.add_0_l in Hlf |- *. fold x in Hlf |- *. rewrite Hlf, Z.eqb_refl.
         mstep (apply (next_free_run taken _ heap_fuel x _ Hseg); [by apply Forall_app; split; [apply split_sizes|]|lia|rewrite span_app, split_span; lia|apply Hr'|exact Hf]).
         mstep reflexivity. mstep reflexivity. cbn [the_heap h_lfree h_mem].
         destruct (free_at _ _ _ _ Hseg) as [->| ->]; [|by rewrite orb_true_r]. rewrite span_app, split_span. replace (ram + (x + (12 + sz + span bl2))) with (ram + E) by lia. by rewrite Z.eqb_refl.
       - destruct (first_free_before bl1 ((sz, false) :: bl2) 0 Hz1 Hall) as [Hf1 Hf2]. destruct (first_free_before bl1 (split_block size sz ++ bl2) 0 Hz1 Hall) as [-> _].
         rewrite Hlf, Hf1. rewrite (proj2 (Z.eqb_neq _ _)) by (fold x in Hf2; lia). reflexivity. }
  rewrite (u32_small (ram + x + 12 + size)), (u32_small (ram + x + 12)) by lia. unfold LWIP_ASSERT. rewrite (proj2 (Z.leb_le _ _)) by lia. mstep reflexivity.
  assert ((ram + x + 12) mod 4 = 0) as -> by (clear -ram_aligned Hxal; zdm). mstep reflexivity. rewrite land_3 by (clear -ram_aligned Hxal; zdm). mstep reflexivity. reflexivity.
Qed.
End Take.

(** The data of blocks in use and everything outside the heap stay as they were. *)
Record kept (m m' : mem) (bl : list block) : Prop := {
  kp_data : forall q s b, (q, s) ∈ used_at 0 bl -> ram + q <= b < ram + q + s -> ld8 m' b = ld8 m b;
  kp_outside : forall b, b < ram \/ ram + E + 12 <= b -> ld8 m' b = ld8 m b;
}.

Lemma used_range bl : forall p q s, sizes_ok bl -> (q, s) ∈ used_at p bl -> p + 12 <= q /\ q + s <= p + span bl /\ 12 <= s.
Proof.
  induction bl as [|[sz u] bl IH]; intros p q s Hs H; cbn [used_at span] in *; [by apply elem_of_nil in H|]. apply Forall_cons in Hs as [[Hz _] Hs]. cbn [fst] in Hz.
  pose proof (span_nonneg bl Hs). apply elem_of_app in H as [H|H].
  - destruct u; [|by apply elem_of_nil in H]. apply list_elem_of_singleton in H as [= -> ->]. lia.
  - destruct (IH _ _ _ Hs H). lia.
Qed.

Lemma used_app bl bl' : forall p, used_at p (bl ++ bl') = used_at p bl ++ used_at (p + span bl) bl'.
Proof.
  induction bl as [|[sz u] bl IH]; intros p; cbn [used_at app span]; [by rewrite Z.add_0_r|]. rewrite IH, <- app_assoc.
  by replace (p + (12 + sz + span bl)) with (p + 12 + sz + span bl) by lia.
Qed.

(** A change of one block and the link back of the next. *)
Lemma kept_block m m' lf bl1 sz u bl2 :
  shape m lf (bl1 ++ (sz, u) :: bl2) ->
  (forall b, b < ram + span bl1 \/ ram + span bl1 + 12 + sz <= b -> b < ram + span bl1 + 12 + sz + 4 \/ ram + span bl1 + 12 + sz + 8 <= b -> ld8 m' b = ld8 m b) ->
  kept m m' (bl1 ++ (sz, false) :: bl2).
Proof.
  intros Hr Hf. destruct (shape_parts _ _ _ _ _ _ Hr) as (_ & _ & _ & Hz1 & Hz2 & Hx & _ & Hsz & _ & HE & _). pose proof (span_nonneg bl2 Hz2). split.
  - intros q s b Hq Hb. rewrite used_app in Hq. cbn [used_at app] in Hq. apply elem_of_app in Hq as [Hq|Hq].
    + destruct (used_range _ _ _ _ Hz1 Hq) as (H1 & H2 & _). apply Hf; lia.
    + destruct (used_range _ _ _ _ Hz2 Hq) as (H1 & H2 & _). apply Hf; lia.
  - intros b Hb. apply Hf; lia.
Qed.

Lemma a_malloc_skip size bl bl' : forall p,
  forallb (fun b => negb (fits size b)) bl = true ->
  a_malloc size p (bl ++ bl') = match a_malloc size (p + span bl) bl' with Some (q, l) => Some (q, bl ++ l) | None => None end.
Proof.
  induction bl as [|[sz u] bl IH]; intros p H; cbn [app span] in *; [rewrite Z.add_0_r; by destruct (a_malloc _ _ _) as [[]|]|].
  cbn [forallb] in H. apply andb_true_iff in H as [H1 H2]. cbn [a_malloc]. apply negb_true_iff in H1. rewrite H1. cbn [fst]. rewrite IH by done.
  replace (p + (12 + sz + span bl)) with (p + 12 + sz + span bl) by lia. by destruct (a_malloc _ _ _) as [[]|].
Qed.

Lemma a_malloc_late size bl : forall p, sizes_ok bl -> span bl < 12 + size -> a_malloc size p bl = None.
Proof.
  induction bl as [|[sz u] bl IH]; intros p Hs H; cbn [a_malloc span] in *; [done|]. apply Forall_cons in Hs as [[Hz _] Hs]. cbn [fst] in Hz.
  pose proof (span_nonneg bl Hs). unfold fits. cbn [fst snd]. rewrite (proj2 (Z.leb_gt _ _)) by lia. rewrite andb_false_r. by rewrite IH by (done || lia).
Qed.

Lemma scan_run m lf size bl2 : forall bl1 fuel,
  rep m lf (bl1 ++ bl2) -> 12 <= size <= E -> size mod 4 = 0 -> (length bl2 < fuel)%nat ->
  match a_malloc size (span bl1) bl2 with
  | None => malloc_scan fuel (span bl1) size (the_heap m lf) = Ret 0 (the_heap m lf)
  | Some (q, bl2') => exists m' lf', malloc_scan fuel (span bl1) size (the_heap m lf) = Ret (ram + q) (the_heap m' lf') /\
      rep m' lf' (bl1 ++ bl2') /\ kept m m' (bl1 ++ bl2)
  end.
Proof.
  induction bl2 as [|[sz u] bl2 IH]; intros bl1 [|fuel] Hr Hsize Hal Hf; cbn [length] in Hf; [lia| |lia|].
  - cbn [a_malloc malloc_scan]. pose proof (sh_span _ _ _ Hr) as Hsp. rewrite app_nil_r in Hsp. by rewrite (proj2 (Z.ltb_ge _ _)) by lia.
  - destruct (shape_parts _ _ _ _ _ _ Hr) as (_ & Hh & _ & Hz1 & Hz2 & Hx & _ & Hsz & _ & HE & _). pose proof (span_nonneg bl2 Hz2) as Hsp2. pose proof E_val as HEv.
    cbn [malloc_scan]. destruct (Z.ltb_spec (span bl1) (E - size)) as [Hlt|Hge].
    2: { rewrite a_malloc_late; [done| |cbn [span]; lia]. constructor; [|done]. cbn [fst]. split; [done|]. by destruct (shape_parts _ _ _ _ _ _ Hr) as (_ & _ & _ & _ & _ & _ & _ & _ & ? & _). }
    assert (rep m lf ((bl1 ++ [(sz, u)]) ++ bl2)) as Hr' by by rewrite <- app_assoc. assert (span (bl1 ++ [(sz, u)]) = span bl1 + 12 + sz) as Es by (rewrite span_app; cbn [span]; lia).
    rewrite (bind_ret _ _ _ (ram + span bl1) (the_heap m lf)) by (apply at_ram_run; lia). mstep reflexivity. mstep reflexivity. cbn [the_heap h_mem]. hconsts.
    rewrite (hd_used _ _ _ _ _ Hh), (hd_next _ _ _ _ _ Hh), (u32_small (span bl1 + 12)), (u32_small (_ - _)) by lia.
    replace (span bl1 + 12 + sz - (span bl1 + 12)) with sz by lia. cbn [a_malloc]. unfold fits. cbn [fst snd].
    replace ((if u then 1 else 0) =? 0) with (negb u) by by destruct u. destruct (negb u && (size <=? sz)) eqn:Hfit.
    + apply andb_true_iff in Hfit as [Hu Hle%Z.leb_le]. apply negb_true_iff in Hu. subst u. eexists _, _. split; [|split].
      * rewrite (take_run m lf bl1 bl2 sz size Hr ltac:(lia) Hal). f_equal. lia.
      * exact (taken_rep m lf bl1 bl2 sz size Hr ltac:(lia) Hal).
      * apply (kept_block m _ lf bl1 sz false bl2 Hr). intros b Hb1 Hb2. apply (taken_frame m lf bl1 bl2 sz size Hr); lia.
    + specialize (IH (bl1 ++ [(sz, u)]) fuel Hr' Hsize Hal ltac:(lia)). rewrite Es in IH. destruct (a_malloc _ _ _) as [[q l]|]; [|exact IH].
      destruct IH as (m' & lf' & Hrun & Hr2 & Hk). exists m', lf'. rewrite <- !app_assoc in *. done.
Qed.

(** The bytes a request takes. *)
Definition request (size : Z) : Z := Z.max 12 ((size + 3) / 4 * 4).

Lemma align_size size : 0 <= size -> size + 3 < 2 ^ 32 -> LWIP_MEM_ALIGN_SIZE size = (size + 3) / 4 * 4.
Proof.
  intros H1 H2. unfold LWIP_MEM_ALIGN_SIZE. hconsts. replace (size + 4 - 1) with (size + 3) by lia. rewrite (u32_small (size + 3)) by lia.
  change (u32 (Z.lnot (4 - 1))) with (Z.ldiff (Z.ones 32) (Z.ones 2)).
  apply Z.bits_inj'. intros i Hi. rewrite Z.land_spec, Z.ldiff_spec, <- (Z.shiftl_mul_pow2 _ 2), <- (Z.shiftr_div_pow2 _ 2) by lia.
  rewrite Z.shiftl_spec by lia. destruct (Z.ltb_spec i 2) as [Hlt|Hge].
  - rewrite (Z.testbit_neg_r _ (i - 2)) by lia. rewrite (Z.ones_spec_low 2) by lia. by rewrite andb_false_r, andb_false_r.
  - rewrite Z.shiftr_spec by lia. replace (i - 2 + 2) with i by lia. rewrite (Z.ones_spec_high 2) by lia. rewrite andb_true_r.
    destruct (Z.ltb_spec i 32); [rewrite (Z.ones_spec_low 32) by lia; by rewrite andb_true_r|].
    rewrite (Z.bits_above_log2 (size + 3) i); [done|lia|]. apply Z.log2_lt_pow2; [|apply (Z.lt_le_trans _ (2 ^ 32)); [lia|apply Z.pow_le_mono_r; lia]]. lia.
Qed.

Lemma request_ok size : 0 <= size -> size + 3 < 2 ^ 32 ->
  (if LWIP_MEM_ALIGN_SIZE size <? MIN_SIZE_ALIGNED then MIN_SIZE_ALIGNED else LWIP_MEM_ALIGN_SIZE size) = request size /\
  request size mod 4 = 0 /\ 12 <= request size /\ size <= request size.
Proof.
  intros H1 H2. rewrite align_size by lia. hconsts. unfold request. destruct (Z.ltb_spec ((size + 3) / 4 * 4) 12); zdm.
Qed.

Lemma used_prefix bl : exists bl1 bl2, bl = bl1 ++ bl2 /\ forallb snd bl1 = true /\ forall p, first_free p bl = p + span bl1.
Proof.
  induction bl as [|[sz u] bl (bl1 & bl2 & -> & H1 & H2)]; [exists [], []; cbn; repeat split; intros; lia|]. destruct u.
  - exists ((sz, true) :: bl1), bl2. split; [done|]. split; [done|]. intros p. cbn [first_free span]. rewrite H2. lia.
  - exists [], ((sz, false) :: bl1 ++ bl2). split; [done|]. split; [done|]. intros p. cbn [first_free span]. lia.
Qed.

Lemma used_no_fit size bl : forallb snd bl = true -> forallb (fun b => negb (fits size b)) bl = true.
Proof.
  intros H. rewrite forallb_forall in *. intros b Hb. unfold fits. by rewrite (H b Hb).
Qed.

(** [mem_malloc] takes the first block that fits. *)
Lemma mem_malloc_ok m lf bl size :
  rep m lf bl -> 0 < size -> size + 3 < 2 ^ 32 ->
  match (if E <? request size then None else a_malloc (request size) 0 bl) with
  | None => mem_malloc size (the_heap m lf) = Ret 0 (the_heap m lf)
  | Some (q, bl') => exists m' lf', mem_malloc size (the_heap m lf) = Ret (ram + q) (the_heap m' lf') /\ rep m' lf' bl' /\ kept m m' bl
  end.
Proof.
  intros Hr H1 H2. unfold mem_malloc. rewrite (proj2 (Z.eqb_neq size 0)) by lia. destruct (request_ok size ltac:(lia) H2) as (-> & Hal & Hmin & _).
  destruct (Z.ltb_spec E (request size)) as [|Hle]; [done|]. mstep reflexivity. cbn [the_heap h_lfree].
  destruct (used_prefix bl) as (bl1 & bl2 & -> & Hu & Hff). pose proof (sh_span _ _ _ Hr) as Hsp. pose proof (sh_sizes _ _ _ Hr) as Hsz.
  apply Forall_app in Hsz as [Hz1 Hz2]. rewrite span_app in Hsp. pose proof (span_nonneg bl1 Hz1). pose proof (span_nonneg bl2 Hz2).
  rewrite (bind_ret _ _ _ (span bl1) (the_heap m lf)).
  2: { rewrite (sh_lfree _ _ _ Hr), Hff. apply off_ram_run. lia. }
  rewrite a_malloc_skip by by apply used_no_fit. rewrite Z.add_0_l.
  assert (length bl2 < heap_fuel)%nat as Hf.
  { pose proof (fuel_enough _ (sh_sizes _ _ _ Hr) (sh_span _ _ _ Hr)) as Hf. rewrite length_app in Hf. lia. }
  pose proof (scan_run m lf (request size) bl2 bl1 heap_fuel Hr ltac:(lia) Hal Hf) as Hs. destruct (a_malloc _ _ _) as [[q l]|]; exact Hs.
Qed.

(** ** Freeing *)

Lemma first_free_stop bl s s' r r' : forall p, first_free p (bl ++ (s, false) :: r) = first_free p (bl ++ (s', false) :: r').
Proof. induction bl as [|[sz u] bl IH]; intros p; cbn [first_free app]; [done|]. destruct u; [apply IH|done]. Qed.

Lemma apart_coalesce bl : apart (coalesce bl).
Proof.
  induction bl as [|[sz u] bl IH]; [done|]. cbn [coalesce foldr]. fold (coalesce bl). unfold merge_free. cbn [fst snd]. destruct u.
  - destruct (coalesce bl) as [|[s v] r]; [done|]. by split.
  - destruct (coalesce bl) as [|[s []] r]; [done|by split|]. destruct r as [|[s2 []] r]; [done| |by destruct IH as [? _]]. destruct IH as [_ IH]. by split.
Qed.

Lemma coalesce_apart bl : apart bl -> coalesce bl = bl.
Proof.
  induction bl as [|[sz u] bl IH]; [done|]. intros H. cbn [coalesce foldr]. fold (coalesce bl). destruct bl as [|[s v] bl]; [by destruct u|].
  destruct H as [Huv H]. rewrite IH by done. unfold merge_free. cbn [fst snd]. destruct u; [done|]. cbn in Huv. by subst v.
Qed.

Lemma coalesce_cons_used bl r : last_free bl = false -> apart bl -> coalesce (bl ++ r) = bl ++ coalesce r.
Proof.
  induction bl as [|[sz u] bl IH]; [done|]. intros Hl Ha. cbn [app coalesce foldr]. fold (coalesce (bl ++ r)). destruct bl as [|[s v] bl].
  - cbn in Hl. apply negb_false_iff in Hl. by subst u.
  - destruct Ha as [Huv Ha]. rewrite IH by done. unfold merge_free. cbn [fst snd app]. destruct u; [done|]. cbn in Huv. by subst v.
Qed.

(** Two neighbouring free blocks made one: the first gets the end of the second, whose follower
    links back to the first. *)
Section Merge.
Variables (m : mem) (lf : Z) (bl1 bl2 : list block) (s1 s2 : Z).
Hypothesis Hsh : shape m lf (bl1 ++ (s1, false) :: (s2, false) :: bl2).
Let x := span bl1.
Let n := x + 12 + s1.
Let nn := n + 12 + s2.

Definition merged : mem := st32 (st32 m (ram + x) nn) (ram + nn + 4) x.

Lemma merge_facts :
  seg m 0 0 bl1 /\ hdr m x n (last_off 0 0 bl1) false /\ hdr m n nn x false /\ seg m nn n bl2 /\ sizes_ok bl1 /\ sizes_ok bl2 /\
  0 <= x /\ 12 <= s1 /\ s1 mod 4 = 0 /\ 12 <= s2 /\ s2 mod 4 = 0 /\ nn + span bl2 = E /\ 0 <= span bl2 /\ nn < 2 ^ 32.
Proof.
  destruct (shape_parts _ _ _ _ _ _ Hsh) as (H1 & H2 & H3 & H4 & H5 & H6 & _ & H8 & H9 & H10 & _). fold x n in H2, H3, H6, H10. destruct H3 as [H3 H3'].
  apply Forall_cons in H5 as [[H5 H5a] H5']. cbn [fst] in H5, H5a. cbn [span] in H10. pose proof (span_nonneg bl2 H5'). pose proof E_val. unfold nn.
  repeat (split; [first [done|lia]|]). lia.
Qed.

Lemma merged_frame b : b < ram + x \/ ram + x + 4 <= b -> b < ram + nn + 4 \/ ram + nn + 8 <= b -> ld8 merged b = ld8 m b.
Proof. intros H1 H2. unfold merged. by hmem. Qed.

Lemma merged_shape : shape merged lf (bl1 ++ (s1 + 12 + s2, false) :: bl2).
Proof.
  destruct merge_facts as (H1 & [Hn Hp Hu] & _ & H3 & Hz1 & Hz2 & Hx & Hs1 & Ha1 & Hs2 & Ha2 & HE & Hsp & Hlt). destruct Hsh as [_ Hspan Hsz HnE HuE Hlf]. assert (nn = x + 12 + s1 + 12 + s2) as Hnn by reflexivity.
  split.
  - apply seg_app. rewrite Z.add_0_l. fold x. split; [apply (seg_ext m); [done|done|]; intros b Hb; apply merged_frame; fold x in Hb; lia|]. cbn [seg]. split; [split|].
    + unfold merged. hmem. rewrite u32_small by lia. lia.
    + unfold merged. by hmem.
    + unfold merged. by hmem.
    + replace (x + 12 + (s1 + 12 + s2)) with nn by lia. apply (seg_reprev m _ _ _ n); [done|done|intros b Hb Hb'; apply merged_frame; lia|].
      intros _. unfold merged. rewrite ld32_st32_eq. apply u32_small. lia.
  - rewrite span_app. cbn [span]. fold x. lia.
  - apply Forall_app. split; [done|]. constructor; [|done]. cbn [fst]. split; [lia|]. clear -Ha1 Ha2. zdm.
  - transitivity (ld32 m (ram + E)); [|exact HnE]. apply ld32_ext. intros i Hi. apply merged_frame; [lia|]. destruct (Z.eq_dec nn E); [lia|].
    assert (span bl2 <> 0) by lia. destruct (span_nonneg bl2 Hz2) as (_ & Hl & _). assert (length bl2 <> 0%nat) by (intros H0%nil_length_inv; by rewrite H0 in *). lia.
  - rewrite <- HuE. apply merged_frame; lia.
  - rewrite Hlf. f_equal. apply first_free_stop.
Qed.

Lemma merged_kept : kept m merged (bl1 ++ (s1 + 12 + s2, false) :: bl2).
Proof.
  destruct merge_facts as (_ & _ & _ & _ & Hz1 & Hz2 & Hx & Hs1 & _ & Hs2 & _ & HE & Hsp & _). assert (nn = x + 12 + s1 + 12 + s2) as Hnn by reflexivity. split.
  - intros q s b Hq Hb. rewrite used_app in Hq. cbn [used_at app] in Hq. apply elem_of_app in Hq as [Hq|Hq].
    + destruct (used_range _ _ _ _ Hz1 Hq) as (H1 & H2 & _). fold x in H2. apply merged_frame; lia.
    + destruct (used_range _ _ _ _ Hz2 Hq) as (H1 & H2 & _). fold x in H1, H2. apply merged_frame; lia.
  - intros b Hb. apply merged_frame; lia.
Qed.

Lemma join_run : join (ram + x) (ram + n) (the_heap m lf) = Ret tt (the_heap merged lf).
Proof.
  destruct merge_facts as (_ & _ & [Hn _ _] & _ & _ & _ & Hx & Hs1 & _ & Hs2 & _ & HE & Hsp & Hlt). assert (nn = x + 12 + s1 + 12 + s2) as Hnn by reflexivity. assert (n = x + 12 + s1) as Hn' by reflexivity.
  unfold join. mstep reflexivity. cbn [the_heap h_mem]. rewrite Hn. mstep reflexivity. mstep reflexivity. cbn [the_heap set_h_mem h_mem h_ram h_end h_lfree].
  rewrite ld32_st32_ne by lia. rewrite Hn. change (mkHeap ?a ram (ram + E) lf) with (the_heap a lf). mstep (apply at_ram_run; lia). mstep (apply off_ram_run; lia). reflexivity.
Qed.
End Merge.

Lemma used_merge bl1 s1 s2 bl2 p : used_at p (bl1 ++ (s1, false) :: (s2, false) :: bl2) = used_at p (bl1 ++ (s1 + 12 + s2, false) :: bl2).
Proof. rewrite !used_app. cbn [used_at app]. do 2 f_equal. lia. Qed.

Lemma kept_refl m bl : kept m m bl.
Proof. by split. Qed.

Lemma kept_trans m1 m2 m3 bl bl' : kept m1 m2 bl -> kept m2 m3 bl' -> used_at 0 bl = used_at 0 bl' -> kept m1 m3 bl'.
Proof.
  intros [H1 H2] [H3 H4] E. split.
  - intros q s b Hq Hb. rewrite (H3 q s b Hq Hb). apply (H1 q s b); [by rewrite E|done].
  - intros b Hb. by rewrite H4, H2.
Qed.

Lemma shape_lfree m lf bl1 s bl2 : shape m lf (bl1 ++ (s, false) :: bl2) -> lf <= ram + span bl1.
Proof.
  intros [_ _ Hz _ _ ->]. apply Forall_app in Hz as [Hz _]. rewrite (first_free_stop bl1 s s bl2 []).
  destruct (forallb snd bl1) eqn:H; [rewrite first_free_app by done; cbn [first_free]; lia|].
  destruct (first_free_before bl1 [(s, false)] 0 Hz H) as [-> ?]. lia.
Qed.

Lemma forward_run m lf bl1 sz bl2 :
  shape m lf (bl1 ++ (sz, false) :: bl2) ->
  exists m' s r, plug_forward (ram + span bl1) (the_heap m lf) = Ret tt (the_heap m' lf) /\ shape m' lf (bl1 ++ (s, false) :: r) /\
    merge_free (sz, false) bl2 = (s, false) :: r /\ kept m m' (bl1 ++ (s, false) :: r) /\ used_at 0 (bl1 ++ (s, false) :: r) = used_at 0 (bl1 ++ (sz, false) :: bl2).
Proof.
  intros Hsh. destruct (shape_parts _ _ _ _ _ _ Hsh) as (_ & [Hn _ _] & Hs2 & _ & Hz2 & Hx & _ & Hsz & _ & HE & Hnil). pose proof (span_nonneg bl2 Hz2) as Hsp. pose proof (shape_lfree _ _ _ _ _ Hsh) as Hlf.
  unfold plug_forward. mstep reflexivity. cbn [the_heap h_mem]. rewrite Hn. unfold LWIP_ASSERT at 1. rewrite (proj2 (Z.leb_le _ _)) by lia. mstep reflexivity.
  rewrite (bind_ret _ _ _ (ram + (span bl1 + 12 + sz)) (the_heap m lf)) by (apply at_ram_run; lia). mstep reflexivity. mstep reflexivity. cbn [the_heap h_mem h_end].
  rewrite (proj2 (Z.eqb_neq (ram + span bl1) _)) by lia. cbn [negb andb]. destruct bl2 as [|[s2 u2] bl2].
  - rewrite (proj1 Hnil eq_refl), Z.eqb_refl, andb_false_r. exists m, sz, []. split; [done|]. split; [done|]. split; [done|]. split; [apply kept_refl|done].
  - destruct Hs2 as [[_ _ Hu2] _]. rewrite Hu2. destruct u2; [exists m, sz, ((s2, true) :: bl2); split; [done|]; split; [done|]; split; [done|]; split; [apply kept_refl|done]|].
    cbn [Z.eqb andb]. rewrite (proj2 (Z.eqb_neq _ (ram + E))) by (intros H; apply (proj1 (not_iff_compat Hnil)); [done|lia]). cbn [negb]. mstep reflexivity. cbn [the_heap h_lfree].
    rewrite (proj2 (Z.eqb_neq lf _)) by lia. mstep reflexivity. exists (merged m bl1 sz s2), (sz + 12 + s2), bl2.
    split; [exact (join_run m lf bl1 bl2 sz s2 Hsh)|]. split; [exact (merged_shape m lf bl1 bl2 sz s2 Hsh)|]. split; [done|].
    split; [exact (merged_kept m lf bl1 bl2 sz s2 Hsh)|]. symmetry. apply used_merge.
Qed.

Lemma backward_run m lf bl1 sz bl2 :
  shape m lf (bl1 ++ (sz, false) :: bl2) ->
  exists m' bl', plug_backward (ram + span bl1) (the_heap m lf) = Ret tt (the_heap m' lf) /\ shape m' lf bl' /\ kept m m' bl' /\
    used_at 0 bl' = used_at 0 (bl1 ++ (sz, false) :: bl2) /\
    ((last_free bl1 = false /\ bl' = bl1 ++ (sz, false) :: bl2) \/ exists bl0 s0, bl1 = bl0 ++ [(s0, false)] /\ bl' = bl0 ++ (s0 + 12 + sz, false) :: bl2).
Proof.
  intros Hsh. destruct (shape_parts _ _ _ _ _ _ Hsh) as (Hs1 & [_ Hp _] & _ & Hz1 & Hz2 & Hx & _ & Hsz & _ & HE & _). pose proof (span_nonneg bl2 Hz2) as Hsp.
  unfold plug_backward. mstep reflexivity. cbn [the_heap h_mem]. rewrite Hp. destruct bl1 as [|[s0 u0] bl0 _] using rev_ind.
  - cbn [last_off span] in *. mstep (apply at_ram_run; lia). mstep reflexivity. rewrite Z.eqb_refl. cbn [negb andb].
    exists m, ((sz, false) :: bl2). split; [done|]. split; [done|]. split; [apply kept_refl|]. split; [done|by left].
  - rewrite last_off_app, span_app in *. cbn [span] in *. rewrite Z.add_0_l in *. apply seg_app in Hs1 as [_ [[_ _ Hu] _]]. rewrite Z.add_0_l in Hu. apply Forall_app in Hz1 as [Hz0 Hz1].
    apply Forall_cons in Hz1 as [[Hs0 _] _]. cbn [fst] in Hs0. pose proof (span_nonneg bl0 Hz0) as Hsp0.
    rewrite (bind_ret _ _ _ (ram + span bl0) (the_heap m lf)) by (apply at_ram_run; lia). mstep reflexivity. cbn [the_heap h_mem]. rewrite Hu, (proj2 (Z.eqb_neq (ram + span bl0) _)) by lia.
    destruct u0; cbn [Z.eqb negb andb].
    + exists m, ((bl0 ++ [(s0, true)]) ++ (sz, false) :: bl2). split; [done|]. split; [done|]. split; [apply kept_refl|]. split; [done|left]. by rewrite last_free_snoc.
    + rewrite <- app_assoc in Hsh. cbn [app] in Hsh. pose proof (shape_lfree m lf bl0 s0 _ Hsh) as Hlf. mstep reflexivity. cbn [the_heap h_lfree].
      rewrite (proj2 (Z.eqb_neq lf _)) by lia. mstep reflexivity. exists (merged m bl0 s0 sz), (bl0 ++ (s0 + 12 + sz, false) :: bl2).
      replace (ram + (span bl0 + (12 + s0 + 0))) with (ram + (span bl0 + 12 + s0)) by lia. split; [exact (join_run m lf bl0 bl2 s0 sz Hsh)|].
      split; [exact (merged_shape m lf bl0 bl2 s0 sz Hsh)|]. split; [exact (merged_kept m lf bl0 bl2 s0 sz Hsh)|].
      split; [rewrite <- app_assoc; symmetry; apply used_merge|]. right. by exists bl0, s0.
Qed.

Lemma plug_run m lf bl1 sz bl2 :
  shape m lf (bl1 ++ (sz, false) :: bl2) -> apart bl1 -> apart bl2 ->
  let bl' := coalesce (bl1 ++ (sz, false) :: bl2) in
  exists m', plug_holes (ram + span bl1) (the_heap m lf) = Ret tt (the_heap m' lf) /\ rep m' lf bl' /\ kept m m' bl' /\
    used_at 0 bl' = used_at 0 (bl1 ++ (sz, false) :: bl2).
Proof.
  intros Hsh Ha1 Ha2 bl'. destruct (shape_parts _ _ _ _ _ _ Hsh) as (_ & [_ _ Hu] & _ & Hz1 & Hz2 & Hx & _ & Hsz & _ & HE & _). pose proof (span_nonneg bl2 Hz2) as Hsp.
  destruct (forward_run m lf bl1 sz bl2 Hsh) as (m1 & s & r & Hrun1 & Hsh1 & Hm1 & Hk1 & Hu1).
  destruct (backward_run m1 lf bl1 s r Hsh1) as (m2 & bl2' & Hrun2 & Hsh2 & Hk2 & Hu2 & Hcase).
  assert (bl2' = bl') as ->.
  { subst bl'. destruct Hcase as [[Hlf ->]|(bl0 & s0 & -> & ->)].
    - rewrite coalesce_cons_used by done. f_equal. cbn [coalesce foldr]. fold (coalesce bl2). by rewrite coalesce_apart.
    - apply apart_app in Ha1 as (Ha0 & _ & Hl0). cbn [head_free negb] in Hl0. rewrite andb_true_r in Hl0. rewrite <- app_assoc. cbn [app]. rewrite coalesce_cons_used by done. f_equal.
      cbn [coalesce foldr]. fold (coalesce bl2). rewrite coalesce_apart by done. by rewrite Hm1. }
  exists m2. split; [|split; [split; [done|apply apart_coalesce]|split; [by apply (kept_trans m m1 m2 (bl1 ++ (s, false) :: r))|congruence]]].
  unfold plug_holes. mstep reflexivity. mstep reflexivity. cbn [the_heap h_ram h_end]. unfold LWIP_ASSERT. rewrite (proj2 (Z.leb_le _ _)) by lia. mstep reflexivity.
  rewrite (proj2 (Z.ltb_lt _ _)) by lia. mstep reflexivity. mstep reflexivity. cbn [the_heap h_mem]. rewrite Hu. mstep reflexivity. mstep (exact Hrun1). exact Hrun2.
Qed.

(** [mem_free] of a block in use. *)
Lemma mem_free_ok m lf bl1 sz bl2 :
  rep m lf (bl1 ++ (sz, true) :: bl2) ->
  let bl' := coalesce (bl1 ++ (sz, false) :: bl2) in
  exists m' lf', mem_free (ram + span bl1 + 12) (the_heap m lf) = Ret tt (the_heap m' lf') /\ rep m' lf' bl' /\ kept m m' bl' /\
    used_at 0 bl' = used_at 0 (bl1 ++ (sz, false) :: bl2).
Proof.
  intros [Hsh Hap] bl'. destruct (shape_parts _ _ _ _ _ _ Hsh) as (Hs1 & [Hn Hp Hu] & Hs2 & Hz1 & Hz2 & Hx & Hxal & Hsz & Hszal & HE & _). pose proof (span_nonneg bl2 Hz2) as Hsp. pose proof E_val as HEv.
  set (m1 := st8 m (ram + span bl1 + 8) 0). set (lf1 := ram + first_free 0 (bl1 ++ (sz, false) :: bl2)).
  assert (shape m1 lf1 (bl1 ++ (sz, false) :: bl2)) as Hsh1.
  { destruct Hsh as [_ Hspan Hz HnE HuE Hlf]. rewrite span_app in Hspan. cbn [span] in Hspan. split; [|rewrite span_app; cbn [span]; lia| | | |done].
    - apply seg_app. rewrite Z.add_0_l. split; [apply (seg_ext m); [done|done|]; intros b Hb; apply ld8_st8_ne; lia|]. cbn [seg]. split; [split; unfold m1; by hmem|].
      apply (seg_ext m); [done|done|]. intros b Hb. apply ld8_st8_ne. lia.
    - apply Forall_app in Hz as [? Hz]. apply Forall_cons in Hz as [? ?]. apply Forall_app. split; [done|]. by constructor.
    - unfold m1. by hmem.
    - unfold m1. by hmem. }
  apply apart_app in Hap as (Ha1 & Ha2 & _). assert (apart bl2) as Ha2' by (destruct bl2 as [|[]]; [done|apply Ha2]).
  destruct (plug_run m1 lf1 bl1 sz bl2 Hsh1 Ha1 Ha2') as (m2 & Hrun & Hr & Hk & Hused). exists m2, lf1. split; [|split; [done|split; [|done]]].
  2: { apply (kept_trans m m1 m2 (bl1 ++ (sz, false) :: bl2)); [|done|done]. apply (kept_block m m1 lf bl1 sz true bl2 Hsh). intros b Hb _. apply ld8_st8_ne. lia. }
  unfold mem_free. rewrite (proj2 (Z.eqb_neq _ 0)) by lia. hconsts. rewrite land_3 by (clear -ram_aligned Hxal; zdm). mstep reflexivity. mstep reflexivity. mstep reflexivity. cbn [the_heap h_ram h_end].
  unfold LWIP_ASSERT at 1. rewrite (proj2 (Z.leb_le _ _)), (proj2 (Z.ltb_lt _ (ram + E))) by lia. mstep reflexivity. rewrite (proj2 (Z.ltb_ge _ ram)), (proj2 (Z.leb_gt _ _)) by lia. cbn [orb].
  replace (ram + span bl1 + 12 - 12) with (ram + span bl1) by lia. rewrite u32_small by lia. mstep reflexivity. cbn [the_heap h_mem]. rewrite Hu. mstep reflexivity. mstep reflexivity. mstep reflexivity.
  cbn [the_heap set_h_mem h_mem h_ram h_end h_lfree]. change (mkHeap ?a ram (ram + E) lf) with (the_heap a lf). fold m1.
  rewrite (bind_ret _ _ _ tt (the_heap m1 lf1)); [exact Hrun|]. rewrite (sh_lfree _ _ _ Hsh) in *. unfold lf1. destruct (forallb snd bl1) eqn:Hall.
  - rewrite !first_free_app by done. cbn [first_free]. rewrite !Z.add_0_l. pose proof (first_free_range bl2 (span bl1 + 12 + sz) Hz2). rewrite (proj2 (Z.ltb_lt _ _)) by lia. reflexivity.
  - destruct (first_free_before bl1 ((sz, true) :: bl2) 0 Hz1 Hall) as [-> H1]. destruct (first_free_before bl1 ((sz, false) :: bl2) 0 Hz1 Hall) as [-> _].
    rewrite (proj2 (Z.ltb_ge _ _)) by lia. reflexivity.
Qed.

(** ** Shrinking *)

(** The end of a block in use, with the free block [mid] behind it if there is one, becomes a
    free block. *)
Section Shrink.
Variables (m : mem) (lf : Z) (bl1 mid bl2 : list block) (sz r : Z).
Hypothesis Hsh : shape m lf (bl1 ++ (sz, true) :: mid ++ bl2).
Hypothesis Hmid : mid = [] \/ exists s, mid = [(s, false)].
Let x := span bl1.
Let n := x + 12 + sz.
Let x2 := x + 12 + r.
Let nn := n + span mid.
Hypothesis Hr : 12 <= r /\ r mod 4 = 0 /\ x2 + 24 <= nn.

Definition shrunk : mem := relinked (linked m x x2 nn) x2.

Lemma shrink_facts :
  seg m 0 0 bl1 /\ hdr m x n (last_off 0 0 bl1) true /\ (exists q, seg m nn q bl2) /\ sizes_ok bl1 /\ sizes_ok bl2 /\
  0 <= x /\ 12 <= sz /\ sz mod 4 = 0 /\ span mid mod 4 = 0 /\ nn + span bl2 = E /\ 0 <= span bl2 /\ 0 <= span mid /\ nn < 2 ^ 32 /\ (bl2 = [] <-> nn = E).
Proof.
  destruct (shape_parts _ _ _ _ _ _ Hsh) as (H1 & H2 & H3 & H4 & H5 & H6 & _ & H8 & H9 & H10 & _). fold x n in H2, H3, H6, H10. apply seg_app in H3 as [_ H3]. fold nn in H3.
  apply Forall_app in H5 as [H5 H5']. rewrite span_app in H10. destruct (span_nonneg bl2 H5') as (Hp1 & Hp2 & _). destruct (span_nonneg mid H5) as (Hm1 & _ & Hm2). pose proof E_val. unfold nn in *.
  repeat (split; [first [done|lia|by eexists]|]). split; [intros ->; cbn in *; lia|]. intros HnE. apply nil_length_inv. lia.
Qed.

Lemma shrunk_is : exists m0, m0 = linked m x x2 nn /\ shrunk = if nn =? E then m0 else st32 m0 (ram + nn + 4) x2.
Proof.
  eexists. split; [reflexivity|]. destruct shrink_facts as (_ & _ & _ & _ & _ & Hx & _ & _ & _ & HE & Hsp & _ & Hlt & _). destruct Hr as (Hr1 & _ & Hr2). unfold shrunk, relinked.
  assert (ld32 (linked m x x2 nn) (ram + x2) = nn) as ->; [|done]. unfold linked. hmem. apply u32_small. unfold x2 in *. lia.
Qed.

Lemma shrunk_frame b :
  b < ram + x \/ ram + x + 4 <= b -> b < ram + x2 \/ ram + nn <= b -> b < ram + nn + 4 \/ ram + nn + 8 <= b -> ld8 shrunk b = ld8 m b.
Proof.
  intros H1 H2 H3. destruct Hr as (_ & _ & Hr2). destruct shrunk_is as (m0 & Em & ->). assert (ld8 m0 b = ld8 m b) as E0 by (rewrite Em; unfold linked; by hmem).
  destruct (nn =? E); [done|]. by rewrite ld8_st32_ne by lia.
Qed.

Lemma shrunk_shape :
  shape shrunk (ram + first_free 0 (bl1 ++ (r, true) :: (nn - x2 - 12, false) :: bl2)) (bl1 ++ (r, true) :: (nn - x2 - 12, false) :: bl2).
Proof.
  destruct shrink_facts as (H1 & [Hn Hp Hu] & [q H3] & Hz1 & Hz2 & Hx & Hsz & Ha & Ham & HE & Hsp & Hspm & Hlt & Hnil). destruct Hr as (Hr1 & Hra & Hr2). destruct shrunk_is as (m0 & Em & Et).
  assert (x2 = x + 12 + r) as Ex2 by reflexivity. assert (nn = x + 12 + sz + span mid) as Enn by reflexivity. destruct Hsh as [_ _ _ HnE HuE _].
  split.
  - apply seg_app. rewrite Z.add_0_l. fold x. split; [apply (seg_ext m); [done|done|]; intros b Hb; apply shrunk_frame; fold x in Hb; lia|]. cbn [seg]. fold x2.
    replace (x2 + 12 + (nn - x2 - 12)) with nn by lia. split; [split|split; [split|]].
    + rewrite Et. destruct (_ =? _); [|rewrite ld32_st32_ne by lia]; rewrite Em; unfold linked; hmem; apply u32_small; lia.
    + rewrite <- Hp. apply ld32_ext. intros i Hi. apply shrunk_frame; lia.
    + rewrite <- Hu. apply shrunk_frame; lia.
    + rewrite Et. destruct (_ =? _); [|rewrite ld32_st32_ne by lia]; rewrite Em; unfold linked; hmem; apply u32_small; lia.
    + rewrite Et. destruct (_ =? _); [|rewrite ld32_st32_ne by lia]; rewrite Em; unfold linked; hmem; apply u32_small; lia.
    + rewrite Et. destruct (_ =? _); [|rewrite ld8_st32_ne by lia]; rewrite Em; unfold linked; by hmem.
    + apply (seg_reprev m _ _ _ q); [done|done|intros b Hb Hb'; apply shrunk_frame; lia|]. intros Hne. rewrite Et, (proj2 (Z.eqb_neq _ _)) by (intros HnE'; by apply Hne, Hnil).
      rewrite ld32_st32_eq. apply u32_small. lia.
  - rewrite span_app. cbn [span]. fold x. lia.
  - apply Forall_app. split; [done|]. constructor; [done|]. constructor; [|done]. cbn [fst]. split; [lia|]. rewrite Enn, Ex2. clear -Ha Hra Ham. zdm.
  - transitivity (ld32 m (ram + E)); [|exact HnE]. apply ld32_ext. intros i Hi. apply shrunk_frame; [lia|lia|]. destruct (Z.eq_dec nn E); [lia|].
    destruct (span_nonneg bl2 Hz2) as (_ & Hl & _). assert (length bl2 <> 0%nat) by (intros H0%nil_length_inv; by apply n0, Hnil). lia.
  - rewrite <- HuE. apply shrunk_frame; lia.
  - done.
Qed.

Lemma shrunk_kept : kept m shrunk (bl1 ++ (r, true) :: (nn - x2 - 12, false) :: bl2).
Proof.
  destruct shrink_facts as (_ & _ & _ & Hz1 & Hz2 & Hx & _ & _ & _ & HE & Hsp & Hspm & _ & _). destruct Hr as (Hr1 & _ & Hr2). assert (x2 = x + 12 + r) as Ex2 by reflexivity. split.
  - intros q s b Hq Hb. rewrite used_app in Hq. cbn [used_at app] in Hq. rewrite Z.add_0_l in Hq. fold x x2 in Hq. apply elem_of_app in Hq as [Hq|Hq].
    + destruct (used_range _ _ _ _ Hz1 Hq) as (H1 & H2 & _). fold x in H2. apply shrunk_frame; lia.
    + apply elem_of_cons in Hq as [[= -> ->]|Hq]; [apply shrunk_frame; lia|]. replace (x2 + 12 + (nn - x2 - 12)) with nn in Hq by lia.
      destruct (used_range _ _ _ _ Hz2 Hq) as (H1 & H2 & _). apply shrunk_frame; lia.
  - intros b Hb. apply shrunk_frame; lia.
Qed.

Lemma shrink_run lf' : (link_rest x x2 nn ;;; relink x2) (the_heap m lf') = Ret tt (the_heap shrunk lf').
Proof.
  destruct shrink_facts as (_ & _ & _ & _ & _ & Hx & _ & _ & _ & HE & Hsp & Hspm & Hlt & _). destruct Hr as (Hr1 & _ & Hr2). assert (x2 = x + 12 + r) as Ex2 by reflexivity.
  mstep (apply link_rest_run; lia). apply relink_run; [lia|]. assert (ld32 (linked m x x2 nn) (ram + x2) = nn) as ->; [|lia]. unfold linked. hmem. apply u32_small. lia.
Qed.
End Shrink.

Lemma first_free_shrunk bl1 r s bl2 :
  first_free 0 (bl1 ++ (r, true) :: (s, false) :: bl2) = if forallb snd bl1 then span bl1 + 12 + r else first_free 0 (bl1 ++ [(s, false)]).
Proof.
  destruct (forallb snd bl1) eqn:H; [by rewrite first_free_app by done|]. revert H. generalize 0. induction bl1 as [|[sz u] bl1 IH]; intros p H; [done|].
  cbn [app first_free] in *. destruct u; [by apply IH|done].
Qed.

(** Where the lowest free block is, seen from a block in use. *)
Lemma lfree_before m lf bl1 sz bl2 :
  shape m lf (bl1 ++ (sz, true) :: bl2) ->
  (forallb snd bl1 = true /\ lf = ram + first_free (span bl1 + 12 + sz) bl2) \/
  (forallb snd bl1 = false /\ lf < ram + span bl1 /\ forall s, lf = ram + first_free 0 (bl1 ++ [(s, false)])).
Proof.
  intros [_ _ Hz _ _ Hlf]. apply Forall_app in Hz as [Hz1 _]. destruct (forallb snd bl1) eqn:Hall.
  - left. split; [done|]. by rewrite Hlf, first_free_app.
  - right. split; [done|]. destruct (first_free_before bl1 ((sz, true) :: bl2) 0 Hz1 Hall) as [Hf Hlt]. rewrite Hf in Hlf. split; [lia|].
    intros s. rewrite Hlf. f_equal. by destruct (first_free_before bl1 [(s, false)] 0 Hz1 Hall) as [-> _].
Qed.

Lemma apart_shrunk bl1 r s bl2 : apart bl1 -> apart bl2 -> head_free bl2 = false -> apart (bl1 ++ (r, true) :: (s, false) :: bl2).
Proof.
  intros H1 H2 H3. apply apart_app. cbn [head_free negb]. rewrite andb_false_r. split; [done|]. split; [|done]. split; [done|].
  change ((s, false) :: bl2) with ([(s, false)] ++ bl2). apply apart_app. by rewrite H3.
Qed.

Lemma grow_next_run m lf bl1 sz s2 bl2 r :
  rep m lf (bl1 ++ (sz, true) :: (s2, false) :: bl2) -> 12 <= r -> r mod 4 = 0 -> r + 4 <= sz ->
  let bl' := bl1 ++ (r, true) :: (sz - r + s2, false) :: bl2 in
  exists m' lf', grow_next (ram + (span bl1 + 12 + sz)) (span bl1) (span bl1 + 12 + r) (the_heap m lf) = Ret tt (the_heap m' lf') /\ rep m' lf' bl' /\ kept m m' bl'.
Proof.
  intros [Hsh Hap] Hr Hral Hgap bl'. destruct (shape_parts _ _ _ _ _ _ Hsh) as (_ & _ & Hs2 & _ & Hz2 & Hx & _ & Hsz & _ & HE & _). destruct Hs2 as [[Hn2 _ _] _].
  apply Forall_cons in Hz2 as [[Hs2 _] Hz2]. cbn [fst] in Hs2. cbn [span] in HE. pose proof (span_nonneg bl2 Hz2).
  apply apart_app in Hap as (Ha1 & [_ Ha2] & _). change ((s2, false) :: bl2) with ([(s2, false)] ++ bl2) in Ha2. apply apart_app in Ha2 as (_ & Ha2 & Hhf). cbn in Hhf.
  assert (12 <= r /\ r mod 4 = 0 /\ span bl1 + 12 + r + 24 <= span bl1 + 12 + sz + span [(s2, false)]) as Hr' by (cbn [span]; lia).
  pose proof (shrunk_shape m lf bl1 [(s2, false)] bl2 sz r Hsh Hr') as Hsh'. pose proof (shrunk_kept m lf bl1 [(s2, false)] bl2 sz r Hsh Hr') as Hk. cbn [span] in Hsh', Hk.
  replace (span bl1 + 12 + sz + (12 + s2 + 0) - (span bl1 + 12 + r) - 12) with (sz - r + s2) in Hsh', Hk by lia. eexists _, _. split; [|split; [split; [exact Hsh'|]|exact Hk]].
  2: by apply apart_shrunk.
  unfold grow_next. mstep reflexivity. cbn [the_heap h_mem]. rewrite Hn2. mstep reflexivity. mstep (apply at_ram_run; lia). cbn [the_heap h_lfree].
  rewrite (bind_ret _ _ _ tt (the_heap m (ram + first_free 0 bl'))).
  - replace (span bl1 + 12 + sz + 12 + s2) with (span bl1 + 12 + sz + span [(s2, false)]) by (cbn [span]; lia). exact (shrink_run m lf bl1 [(s2, false)] bl2 sz r Hsh Hr' _).
  - subst bl'. rewrite first_free_shrunk. destruct (lfree_before m lf bl1 sz _ Hsh) as [[Hall Hlf]|(Hall & Hlt & Hlf)]; rewrite Hall.
    + cbn [first_free] in Hlf. rewrite Hlf, Z.eqb_refl. done.
    + rewrite (proj2 (Z.eqb_neq _ _)) by lia. by rewrite <- Hlf.
Qed.

Lemma split_off_run m lf bl1 sz bl2 r :
  rep m lf (bl1 ++ (sz, true) :: bl2) -> head_free bl2 = false -> 12 <= r -> r mod 4 = 0 -> r + 24 <= sz ->
  let bl' := bl1 ++ (r, true) :: (sz - r - 12, false) :: bl2 in
  exists m' lf', split_off (ram + span bl1) (span bl1) (span bl1 + 12 + r) (the_heap m lf) = Ret tt (the_heap m' lf') /\ rep m' lf' bl' /\ kept m m' bl'.
Proof.
  intros [Hsh Hap] Hhf Hr Hral Hgap bl'. destruct (shape_parts _ _ _ _ _ _ Hsh) as (_ & [Hn _ _] & _ & _ & Hz2 & Hx & _ & Hsz & _ & HE & _). pose proof (span_nonneg bl2 Hz2).
  apply apart_app in Hap as (Ha1 & Ha2 & _). assert (apart bl2) as Ha2' by (destruct bl2 as [|[]]; [done|apply Ha2]).
  assert (12 <= r /\ r mod 4 = 0 /\ span bl1 + 12 + r + 24 <= span bl1 + 12 + sz + span []) as Hr' by (cbn [span]; lia).
  pose proof (shrunk_shape m lf bl1 [] bl2 sz r Hsh Hr') as Hsh'. pose proof (shrunk_kept m lf bl1 [] bl2 sz r Hsh Hr') as Hk. cbn [span] in Hsh', Hk.
  replace (span bl1 + 12 + sz + 0 - (span bl1 + 12 + r) - 12) with (sz - r - 12) in Hsh', Hk by lia. eexists _, _. split; [|split; [split; [exact Hsh'|]|exact Hk]].
  2: by apply apart_shrunk.
  unfold split_off. mstep (apply at_ram_run; lia). mstep reflexivity. cbn [the_heap h_lfree].
  rewrite (bind_ret _ _ _ tt (the_heap m (ram + first_free 0 bl'))).
  - mstep reflexivity. cbn [the_heap h_mem]. rewrite Hn. replace (span bl1 + 12 + sz) with (span bl1 + 12 + sz + span []) by (cbn [span]; lia). exact (shrink_run m lf bl1 [] bl2 sz r Hsh Hr' _).
  - subst bl'. rewrite first_free_shrunk. destruct (lfree_before m lf bl1 sz _ Hsh) as [[Hall Hlf]|(Hall & Hlt & Hlf)]; rewrite Hall.
    + pose proof (first_free_range bl2 (span bl1 + 12 + sz) Hz2). rewrite (proj2 (Z.ltb_lt _ _)) by lia. done.
    + rewrite (proj2 (Z.ltb_ge _ _)) by lia. by rewrite <- Hlf.
Qed.

(** [mem_realloc] to a size the block has. *)
Lemma mem_realloc_ok m lf bl1 sz bl2 newsize :
  rep m lf (bl1 ++ (sz, true) :: bl2) -> 0 <= newsize -> newsize + 3 < 2 ^ 32 -> request newsize <= sz ->
  let bl' := bl1 ++ a_shrink (request newsize) sz bl2 in
  exists m' lf', mem_realloc (ram + span bl1 + 12) newsize (the_heap m lf) = Ret (ram + span bl1 + 12) (the_heap m' lf') /\ rep m' lf' bl' /\ kept m m' bl'.
Proof.
  intros [Hsh Hap] Hn1 Hn2 Hle. destruct (request_ok newsize Hn1 Hn2) as (Hreq & Hral & Hrmin & _). set (r := request newsize) in *. cbv zeta.
  destruct (shape_parts _ _ _ _ _ _ Hsh) as (Hs1 & [Hnx Hpv Hu] & Hs2 & Hz1 & Hz2 & Hx & Hxal & Hsz & Hszal & HE & Hnil). pose proof (span_nonneg bl2 Hz2) as Hsp. pose proof E_val as HEv.
  apply apart_app in Hap as (Ha1 & Ha2 & Hlast). assert (apart bl2) as Ha2' by (destruct bl2 as [|[]]; [done|apply Ha2]). pose proof (sh_lfree _ _ _ Hsh) as Hlf.
  assert (forall k m' lf', k (the_heap m lf) = Ret tt (the_heap m' lf') -> (k ;;; ret (ram + span bl1 + 12)) (the_heap m lf) = Ret (ram + span bl1 + 12) (the_heap m' lf')) as Hfin by (intros k m' lf' Hk; by mstep (exact Hk)).
  unfold mem_realloc. rewrite Hreq. fold r. rewrite (proj2 (Z.ltb_ge E r)) by lia. mstep reflexivity. mstep reflexivity. cbn [the_heap h_ram h_end]. unfold LWIP_ASSERT at 1.
  rewrite (proj2 (Z.leb_le ram _)), (proj2 (Z.ltb_lt _ (ram + E))) by lia. mstep reflexivity. rewrite (proj2 (Z.ltb_ge _ ram)), (proj2 (Z.leb_gt (ram + E) _)) by lia. cbn [orb]. hconsts.
  replace (ram + span bl1 + 12 - 12) with (ram + span bl1) by lia. rewrite (u32_small (ram + span bl1)) by lia. change (mkHeap m ram (ram + E) lf) with (the_heap m lf).
  rewrite (bind_ret _ _ _ (span bl1) (the_heap m lf)) by (apply off_ram_run; lia). mstep reflexivity. cbn [the_heap h_mem]. rewrite Hnx.
  replace (span bl1 + 12 + sz - span bl1 - 12) with sz by lia. rewrite (u32_small sz) by lia. unfold LWIP_ASSERT. rewrite (proj2 (Z.leb_le r sz)) by lia. mstep reflexivity.
  rewrite (proj2 (Z.ltb_ge sz r)) by lia. unfold a_shrink. destruct (Z.eqb_spec r sz) as [Er|Er].
  { exists m, lf. split; [done|]. split; [|apply kept_refl]. split; [done|]. apply apart_app. done. }
  assert (r + 4 <= sz) as Hgap by (clear -Hral Hszal Hle Er; zdm).
  rewrite (bind_ret _ _ _ (ram + (span bl1 + 12 + sz)) (the_heap m lf)) by (apply at_ram_run; lia). mstep reflexivity. cbn [the_heap h_mem].
  rewrite !(u32_small (span bl1 + 12 + r)), (u32_small (r + 12 + 12)) by lia. change (mkHeap m ram (ram + E) lf) with (the_heap m lf).
  assert (rep m lf (bl1 ++ (sz, true) :: bl2)) as Hrep by (split; [done|]; by apply apart_app).
  assert (ld8 m (ram + (span bl1 + 12 + sz) + 8) = if head_free bl2 then 0 else 1) as ->.
  { destruct bl2 as [|[s2 u2] bl2]; [rewrite (proj1 Hnil eq_refl); apply Hsh|]. destruct Hs2 as [[_ _ Hu2] _]. rewrite Hu2. by destruct u2. }
  destruct (head_free bl2) eqn:Hhf; cbn [Z.eqb].
  - destruct bl2 as [|[s2 u2] bl2]; [done|]. cbn in Hhf. apply negb_true_iff in Hhf. subst u2.
    destruct (grow_next_run m lf bl1 sz s2 bl2 r Hrep Hrmin Hral Hgap) as (m' & lf' & Hrun & Hr' & Hk). exists m', lf'. split; [by apply Hfin|done].
  - replace (match bl2 with (s, false) :: bl0 => _ | _ => _ end) with (if r + 24 <=? sz then (r, true) :: (sz - r - 12, false) :: bl2 else (sz, true) :: bl2) by (destruct bl2 as [|[? []]]; done).
    replace (r + 12 + 12 <=? sz) with (r + 24 <=? sz) by (f_equal; lia). destruct (Z.leb_spec (r + 24) sz) as [H24|H24].
    + destruct (split_off_run m lf bl1 sz bl2 r Hrep Hhf Hrmin Hral H24) as (m' & lf' & Hrun & Hr' & Hk). exists m', lf'. split; [by apply Hfin|done].
    + exists m, lf. split; [by apply Hfin|]. split; [done|apply kept_refl].
Qed.
End Heap.
