(* ===== verification/LwipSpec.v ===== *)
(** The clients of the heap of the network stack ([LwipMem], [LwipHeap]): what any sequence of
    calls and writes finds in its blocks. *)

From stdpp Require Import gmap.
From S2P Require Import Prelude Mem CString LwipMem LwipHeap.

(** ** The blocks in use *)

Lemma used_split bl : forall p q s, (q, s) ∈ used_at p bl -> exists bl1 bl2, bl = bl1 ++ (s, true) :: bl2 /\ q = p + span bl1 + 12.
Proof.
  induction bl as [|[sz u] bl IH]; intros p q s H; cbn [used_at] in H; [by apply elem_of_nil in H|]. apply elem_of_app in H as [H|H].
  - destruct u; [|by apply elem_of_nil in H]. apply list_elem_of_singleton in H as [= -> ->]. exists [], bl. cbn. split; [done|lia].
  - destruct (IH _ _ _ H) as (bl1 & bl2 & -> & ->). exists ((sz, u) :: bl1), bl2. cbn [app span]. split; [done|lia].
Qed.

Lemma used_disjoint bl : forall p q s q' s', sizes_ok bl -> (q, s) ∈ used_at p bl -> (q', s') ∈ used_at p bl ->
  (q = q' /\ s = s') \/ q + s <= q' \/ q' + s' <= q.
Proof.
  induction bl as [|[sz u] bl IH]; intros p q s q' s' Hz H H'; cbn [used_at] in *; [by apply elem_of_nil in H|]. apply Forall_cons in Hz as [_ Hz].
  apply elem_of_app in H as [H|H]; apply elem_of_app in H' as [H'|H']; [| | |by apply (IH (p + 12 + sz))].
  all: destruct u; try by first [apply elem_of_nil in H | apply elem_of_nil in H'].
  - apply list_elem_of_singleton in H as [= -> ->]. apply list_elem_of_singleton in H' as [= -> ->]. by left.
  - apply list_elem_of_singleton in H as [= -> ->]. destruct (used_range _ _ _ _ Hz H'). lia.
  - apply list_elem_of_singleton in H' as [= -> ->]. destruct (used_range _ _ _ _ Hz H). lia.
Qed.

Lemma a_malloc_used size bl : forall p q bl', a_malloc size p bl = Some (q, bl') ->
  exists s, size <= s /\ forall x, x ∈ used_at p bl' <-> x = (q, s) \/ x ∈ used_at p bl.
Proof.
  induction bl as [|[sz u] bl IH]; intros p q bl' H; cbn [a_malloc] in H; [done|]. destruct (fits size (sz, u)) eqn:Hf.
  - injection H as [= <- <-]. unfold fits in Hf. cbn [fst snd] in *. apply andb_true_iff in Hf as [Hu Hle%Z.leb_le]. destruct u; [done|]. cbn [used_at].
    unfold split_block. destruct (Z.leb_spec (size + 24) sz).
    + exists size. split; [done|]. intros x. cbn [app used_at]. replace (p + 12 + size + 12 + (sz - size - 12)) with (p + 12 + sz) by lia. by rewrite elem_of_cons.
    + exists sz. split; [done|]. intros x. cbn [app used_at]. by rewrite elem_of_cons.
  - cbn [fst] in H. destruct (a_malloc _ _ bl) as [[q0 bl0]|] eqn:Hm; [|done]. injection H as [= <- <-]. destruct (IH _ _ _ Hm) as (s & Hs & Hu). exists s. split; [done|].
    intros x. cbn [used_at]. rewrite !elem_of_app, Hu. tauto.
Qed.

Lemma shrink_used r sz bl p : r <= sz -> exists s, r <= s <= sz /\ used_at p (a_shrink r sz bl) = (p + 12, s) :: used_at (p + 12 + sz) bl.
Proof.
  intros Hle. unfold a_shrink. destruct (Z.eqb_spec r sz) as [->|]; [exists sz; split; [lia|done]|].
  destruct bl as [|[s2 []] bl]; [| |exists r; split; [lia|]; cbn [used_at app]; do 2 f_equal; lia].
  all: destruct (Z.leb_spec (r + 24) sz); [exists r|exists sz]; (split; [lia|]); cbn [used_at app]; try done; by replace (p + 12 + r + 12 + (sz - r - 12)) with (p + 12 + sz) by lia.
Qed.

Lemma request_mono n n' : n <= n' -> request n <= request n'.
Proof. intros H. unfold request. zdm. Qed.

Lemma request_ge n : n <= request n.
Proof. unfold request. zdm. Qed.

(** ** Clients *)

(** The blocks a client holds: by address, the bytes it last put there. *)
Abbreviation live := (gmap Z (list Z)).

Inductive hop :=
  | Malloc (size : Z)
  | Calloc (count size : Z)
  | Free (p : Z)
  | Realloc (p newsize : Z)
  | Poke (p : Z) (i : nat) (v : Z).

(** A client frees and shrinks blocks it holds and writes inside them; the sizes it asks for
    can be rounded up in 32 bits. *)
Definition legal (l : live) (op : hop) : bool :=
  match op with
  | Malloc size => (0 <=? size) && (size + 3 <? 2 ^ 32)
  | Calloc count size => (0 <=? count) && (0 <=? size) && (count * size + 3 <? 2 ^ 32)
  | Free p => (p =? 0) || bool_decide (is_Some (l !! p))
  | Realloc p newsize => (0 <=? newsize) && match l !! p with Some bs => newsize <=? Z.of_nat (length bs) | None => false end
  | Poke p i v => match l !! p with Some bs => bool_decide (i < length bs)%nat | None => false end
  end.

Definition serve (op : hop) (l : live) : M heap live :=
  match op with
  | Malloc size =>
      let* p := mem_malloc size in
      let* m := gets h_mem in
      ret (if p =? 0 then l else <[p := ld_bytes m p (Z.to_nat size)]> l)
  | Calloc count size =>
      let* p := mem_calloc count size in
      ret (if p =? 0 then l else <[p := replicate (Z.to_nat (count * size)) 0]> l)
  | Free p => mem_free p ;;; ret (delete p l)
  | Realloc p newsize =>
      let* q := mem_realloc p newsize in
      ret (<[q := take (Z.to_nat newsize) (default [] (l !! p))]> l)
  | Poke p i v =>
      modify (fun h => set_h_mem (st8 h.(h_mem) (p + Z.of_nat i) v) h) ;;;
      ret (<[p := <[i := u8 v]> (default [] (l !! p))]> l)
  end.

Fixpoint client (ops : list hop) (l : live) : M heap live :=
  match ops with
  | [] => ret l
  | op :: ops => let* l := (if legal l op then serve op l else ret l) in client ops l
  end.

(** The stack starts: the heap is set up in a memory with any contents. *)
Definition session `{Network} (ops : list hop) : M heap live := mem_init ;;; client ops ∅.

Section Client.
Variable ram : Z.
Hypothesis ram_pos : 0 < ram.
Hypothesis ram_end : ram + E + 12 <= 2 ^ 32.
Hypothesis ram_aligned : ram mod 4 = 0.

(** Writes to the data of a block in use. *)
Lemma data_rep m m' lf bl1 s bl2 :
  rep ram m lf (bl1 ++ (s, true) :: bl2) ->
  (forall b, b < ram + span bl1 + 12 \/ ram + span bl1 + 12 + s <= b -> ld8 m' b = ld8 m b) -> rep ram m' lf (bl1 ++ (s, true) :: bl2).
Proof.
  intros [Hsh Hap] He. split; [|done]. destruct (shape_parts _ _ _ _ _ _ _ Hsh) as (Hs1 & Hh & Hs2 & Hz1 & Hz2 & Hx & _ & Hsz & _ & HE & _). pose proof (span_nonneg bl2 Hz2).
  destruct Hsh as [_ Hsp Hz Hn Hu Hlf]. split; [|done|done| | |done].
  - apply seg_app. rewrite Z.add_0_l. split; [apply (seg_ext ram m); [done|done|]; intros b Hb; apply He; lia|]. cbn [seg].
    split; [apply (hdr_ext ram m); [done|]|apply (seg_ext ram m); [done|done|]]; intros b Hb; apply He; lia.
  - transitivity (ld32 m (ram + E)); [|done]. apply ld32_ext. intros i Hi. apply He. lia.
  - transitivity (ld8 m (ram + E + 8)); [|done]. apply He. lia.
Qed.

(** Every block in use is held by the client, with its bytes in it. *)
Record owns (m : mem) (bl : list block) (l : live) : Prop := {
  ow_used : forall q s, (q, s) ∈ used_at 0 bl -> is_Some (l !! (ram + q));
  ow_live : forall p bs, l !! p = Some bs -> exists s, (p - ram, s) ∈ used_at 0 bl /\ request (Z.of_nat (length bs)) <= s /\
    forall i b, bs !! i = Some b -> ld8 m (p + Z.of_nat i) = b;
}.

Record inv (m0 : mem) (h : heap) (l : live) : Prop := {
  inv_rep : exists lf bl, h = the_heap ram (h_mem h) lf /\ rep ram (h_mem h) lf bl /\ owns (h_mem h) bl l;
  inv_outside : forall b, b < ram \/ ram + E + 12 <= b -> ld8 (h_mem h) b = ld8 m0 b;
}.

(** The contents of a block survive what [kept] allows. *)
Lemma kept_live m m' bl p q s bs :
  kept ram m m' bl -> (q, s) ∈ used_at 0 bl -> p = ram + q -> request (Z.of_nat (length bs)) <= s ->
  (forall i b, bs !! i = Some b -> ld8 m (p + Z.of_nat i) = b) -> forall i b, bs !! i = Some b -> ld8 m' (p + Z.of_nat i) = b.
Proof.
  intros Hk Hin -> Hr Hb i b Hi. rewrite <- (Hb i b Hi). apply (kp_data _ _ _ _ Hk q s); [done|]. apply lookup_lt_Some in Hi. pose proof (request_ge (Z.of_nat (length bs))). lia.
Qed.

Lemma malloc_owns m m' bl bl' l q s bs :
  owns m bl l -> kept ram m m' bl -> (forall x, x ∈ used_at 0 bl' <-> x = (q, s) \/ x ∈ used_at 0 bl) ->
  request (Z.of_nat (length bs)) <= s -> (forall i b, bs !! i = Some b -> ld8 m' (ram + q + Z.of_nat i) = b) ->
  owns m' bl' (<[ram + q := bs]> l).
Proof.
  intros [H1 H2] Hk Hu Hr Hb. split.
  - intros q' s' [[= -> ->]|H]%Hu; [by rewrite lookup_insert_eq|]. destruct (decide (ram + q = ram + q')) as [->|]; [by rewrite lookup_insert_eq|]. rewrite lookup_insert_ne by done. by apply (H1 q' s').
  - intros p bs' H. apply lookup_insert_Some in H as [[<- <-]|[_ H]].
    + exists s. replace (ram + q - ram) with q by lia. split; [apply Hu; by left|done].
    + destruct (H2 p bs' H) as (s' & Hin & Hr' & Hb'). exists s'. split; [apply Hu; by right|]. split; [done|]. apply (kept_live m m' bl p (p - ram) s'); [done|done|lia|done|done].
Qed.

Lemma free_owns m m' lf bl1 sz bl2 bl' l :
  shape ram m lf (bl1 ++ (sz, true) :: bl2) -> owns m (bl1 ++ (sz, true) :: bl2) l -> kept ram m m' bl' -> used_at 0 bl' = used_at 0 (bl1 ++ (sz, false) :: bl2) ->
  owns m' bl' (delete (ram + span bl1 + 12) l).
Proof.
  intros Hsh [H1 H2] Hk Hu. destruct (shape_parts _ _ _ _ _ _ _ Hsh) as (_ & _ & _ & Hz1 & Hz2 & Hx & _ & Hsz & _).
  assert (forall q s, (q, s) ∈ used_at 0 bl' <-> (q, s) ∈ used_at 0 (bl1 ++ (sz, true) :: bl2) /\ q <> span bl1 + 12) as Hx'.
  { intros q s. rewrite Hu, !used_app. cbn [used_at app]. rewrite !elem_of_app, elem_of_cons, Z.add_0_l. split.
    - intros [H|H]; [destruct (used_range _ _ _ _ Hz1 H)|destruct (used_range _ _ _ _ Hz2 H)]; (split; [tauto|lia]).
    - intros [[H|[[= -> ->]|H]] Hne]; [by left|done|by right]. }
  split.
  - intros q s [Hin Hne]%Hx'. rewrite lookup_delete_ne by lia. by apply (H1 q s).
  - intros p bs [Hne H]%lookup_delete_Some. destruct (H2 p bs H) as (s & Hin & Hr & Hb). assert ((p - ram, s) ∈ used_at 0 bl') as Hin' by (apply Hx'; split; [done|lia]). exists s. split; [done|]. split; [done|].
    apply (kept_live m m' bl' p (p - ram) s); [done|done|lia|done|done].
Qed.

Lemma realloc_owns m m' lf bl1 sz bl2 l bs n r :
  shape ram m lf (bl1 ++ (sz, true) :: bl2) -> owns m (bl1 ++ (sz, true) :: bl2) l -> l !! (ram + span bl1 + 12) = Some bs -> (n <= length bs)%nat ->
  r = request (Z.of_nat n) -> r <= sz -> kept ram m m' (bl1 ++ a_shrink r sz bl2) -> owns m' (bl1 ++ a_shrink r sz bl2) (<[ram + span bl1 + 12 := take n bs]> l).
Proof.
  intros Hsh [H1 H2] Hl Hn Er Hle Hk. destruct (shape_parts _ _ _ _ _ _ _ Hsh) as (_ & _ & _ & Hz1 & Hz2 & Hx & _ & Hsz & _). destruct (shrink_used r sz bl2 (span bl1) Hle) as (s' & Hs' & Hu').
  assert (forall q s, q <> span bl1 + 12 -> (q, s) ∈ used_at 0 (bl1 ++ a_shrink r sz bl2) <-> (q, s) ∈ used_at 0 (bl1 ++ (sz, true) :: bl2)) as Hx'.
  { intros q s Hne. rewrite !used_app, !Z.add_0_l, Hu'. cbn [used_at app]. rewrite !elem_of_app, !elem_of_cons. split; (intros [?|[[=]|?]]; [tauto|lia|tauto]). }
  assert ((span bl1 + 12, s') ∈ used_at 0 (bl1 ++ a_shrink r sz bl2)) as Hin' by (rewrite used_app, Z.add_0_l, Hu'; apply elem_of_app; right; apply elem_of_cons; by left).
  split.
  - intros q s Hin. destruct (decide (q = span bl1 + 12)) as [->|Hne]; [replace (ram + (span bl1 + 12)) with (ram + span bl1 + 12) by lia; by rewrite lookup_insert_eq|].
    rewrite lookup_insert_ne by lia. apply (H1 q s). by apply Hx'.
  - intros p bs' H. apply lookup_insert_Some in H as [[<- <-]|[Hne H]].
    + exists s'. replace (ram + span bl1 + 12 - ram) with (span bl1 + 12) by lia. split; [done|]. rewrite length_take, Nat.min_l by done. split; [lia|].
      destruct (H2 _ _ Hl) as (s & Hin & Hr & Hb). apply (kept_live m m' (bl1 ++ a_shrink r sz bl2) _ (span bl1 + 12) s'); [done|done|lia|rewrite length_take, Nat.min_l by done; lia|].
      intros i b Hi. apply lookup_take_Some in Hi as [Hi _]. by apply Hb.
    + destruct (H2 p bs' H) as (s & Hin & Hr & Hb). assert ((p - ram, s) ∈ used_at 0 (bl1 ++ a_shrink r sz bl2)) as Hin2 by (apply Hx'; [lia|done]). exists s. split; [done|]. split; [done|].
      apply (kept_live m m' (bl1 ++ a_shrink r sz bl2) p (p - ram) s); [done|done|lia|done|done].
Qed.

(** ** Steps *)

Definition steps_to (k : M heap live) (m0 : mem) (h : heap) : Prop := exists l' h', k h = Ret l' h' /\ inv m0 h' l'.

Lemma outside_kept m0 m m' bl :
  (forall b, b < ram \/ ram + E + 12 <= b -> ld8 m b = ld8 m0 b) -> kept ram m m' bl -> forall b, b < ram \/ ram + E + 12 <= b -> ld8 m' b = ld8 m0 b.
Proof. intros H Hk b Hb. rewrite (kp_outside _ _ _ _ Hk b Hb). by apply H. Qed.

(** [mem_malloc] leaves everything as it is or gives out a block that was in nobody's hands. *)
Lemma malloc_step m0 h l size :
  inv m0 h l -> 0 <= size -> size + 3 < 2 ^ 32 ->
  mem_malloc size h = Ret 0 h \/
  exists q s h' bl', mem_malloc size h = Ret (ram + q) h' /\ (exists lf, h' = the_heap ram (h_mem h') lf /\ rep ram (h_mem h') lf bl') /\
    12 <= q /\ (q, s) ∈ used_at 0 bl' /\ request size <= s /\
    (forall b, b < ram \/ ram + E + 12 <= b -> ld8 (h_mem h') b = ld8 m0 b) /\
    forall bs, Z.of_nat (length bs) = size -> (forall i b, bs !! i = Some b -> ld8 (h_mem h') (ram + q + Z.of_nat i) = b) -> owns (h_mem h') bl' (<[ram + q := bs]> l).
Proof using ram_pos ram_end ram_aligned.
  intros [(lf & bl & Hh & Hrep & Hown) Hout] H1 H2. destruct h as [m r e lf0]. cbn [h_mem] in *. rewrite Hh in *. destruct (Z.eq_dec size 0) as [->|]; [by left|].
  pose proof (mem_malloc_ok ram ram_pos ram_end ram_aligned m lf bl size Hrep ltac:(lia) H2) as Hm. destruct (E <? request size); [by left|].
  destruct (a_malloc _ _ _) as [[q bl']|] eqn:Ha; [|by left]. right. destruct Hm as (m' & lf' & Hrun & Hr' & Hk). destruct (a_malloc_used _ _ _ _ _ Ha) as (s & Hs & Hu).
  assert ((q, s) ∈ used_at 0 bl') as Hin by (apply Hu; by left). exists q, s, (the_heap ram m' lf'), bl'. split; [done|]. split; [by exists lf'|].
  split; [destruct (used_range _ _ _ _ (sh_sizes _ _ _ _ Hr') Hin); lia|]. split; [done|]. split; [done|]. split; [by apply (outside_kept m0 m m' bl)|].
  intros bs Hl Hb. apply (malloc_owns m m' bl bl' l q s); [done|done|done|by rewrite Hl|done].
Qed.

Lemma serve_malloc m0 h l size : inv m0 h l -> 0 <= size -> size + 3 < 2 ^ 32 -> steps_to (serve (Malloc size) l) m0 h.
Proof using ram_pos ram_end ram_aligned.
  intros Hinv H1 H2. unfold steps_to. cbn [serve]. destruct (malloc_step m0 h l size Hinv H1 H2) as [Hrun|(q & s & h' & bl' & Hrun & (lf & Hh & Hr) & Hq & Hin & Hs & Hout & Hown)].
  - exists l, h. split; [|done]. mstep (exact Hrun). done.
  - exists (<[ram + q := ld_bytes (h_mem h') (ram + q) (Z.to_nat size)]> l), h'. split.
    + mstep (exact Hrun). mstep reflexivity. by rewrite (proj2 (Z.eqb_neq (ram + q) 0)) by lia.
    + split; [|done]. exists lf, bl'. split; [done|]. split; [done|]. apply Hown; [rewrite length_ld_bytes; lia|].
      intros i b Hi. pose proof (lookup_lt_Some _ _ _ Hi) as Hl. rewrite length_ld_bytes in Hl. rewrite ld_bytes_lookup in Hi by done. by injection Hi.
Qed.

(** Writes inside a block a client has just been given or holds. *)
Lemma write_inside m m' lf bl q s :
  rep ram m lf bl -> (q, s) ∈ used_at 0 bl -> (forall b, b < ram + q \/ ram + q + s <= b -> ld8 m' b = ld8 m b) -> rep ram m' lf bl.
Proof using ram_pos ram_end ram_aligned.
  intros Hr Hin He. destruct (used_split _ _ _ _ Hin) as (bl1 & bl2 & -> & ->). apply (data_rep m); [done|]. intros b Hb. apply He. lia.
Qed.

Lemma owns_insert m m' bl l p q s bs :
  sizes_ok bl -> owns m bl l -> (q, s) ∈ used_at 0 bl -> p = ram + q -> request (Z.of_nat (length bs)) <= s ->
  (forall b, b < ram + q \/ ram + q + s <= b -> ld8 m' b = ld8 m b) -> (forall i b, bs !! i = Some b -> ld8 m' (p + Z.of_nat i) = b) ->
  owns m' bl (<[p := bs]> l).
Proof using ram_pos ram_end ram_aligned.
  intros Hz [H1 H2] Hin -> Hr He Hb. split.
  - intros q' s' H. destruct (decide (q = q')) as [->|]; [by rewrite lookup_insert_eq|]. rewrite lookup_insert_ne by lia. by apply (H1 q' s').
  - intros p' bs' [[<- <-]|[Hne H]]%lookup_insert_Some; [exists s; replace (ram + q - ram) with q by lia; done|].
    destruct (H2 p' bs' H) as (s' & Hin' & Hr' & Hb'). exists s'. split; [done|]. split; [done|]. intros i b Hi. rewrite <- (Hb' i b Hi). apply He.
    pose proof (lookup_lt_Some _ _ _ Hi). pose proof (request_ge (Z.of_nat (length bs'))). destruct (used_disjoint _ _ _ _ _ _ Hz Hin Hin'); lia.
Qed.

Lemma serve_calloc m0 h l count size :
  inv m0 h l -> 0 <= count -> 0 <= size -> count * size + 3 < 2 ^ 32 -> steps_to (serve (Calloc count size) l) m0 h.
Proof using ram_pos ram_end ram_aligned.
  intros Hinv H1 H2 H3. unfold steps_to. cbn [serve]. unfold mem_calloc. rewrite (u32_small (count * size)) by lia. set (n := count * size) in *.
  destruct (malloc_step m0 h l n Hinv ltac:(lia) H3) as [Hrun|(q & s & h' & bl' & Hrun & (lf & Hh & Hr) & Hq & Hin & Hs & Hout & Hown)].
  { exists l, h. split; [|done]. erewrite bind_ret; [|mstep (exact Hrun); reflexivity]. done. }
  set (m1 := memset (h_mem h') (ram + q) 0 n). exists (<[ram + q := replicate (Z.to_nat n) 0]> l), (set_h_mem m1 h').
  destruct (used_range _ _ _ _ (sh_sizes _ _ _ _ Hr) Hin) as (Hq1 & Hq2 & _). rewrite (sh_span _ _ _ _ Hr) in Hq2. pose proof (request_ge n).
  assert (forall b, ld8 m1 b = if (ram + q <=? b) && (b <? ram + q + n) then 0 else ld8 (h_mem h') b) as Hm1 by (intros b; unfold m1; rewrite memset_fills by lia; done). split.
  - erewrite bind_ret; [|mstep (exact Hrun); rewrite (proj2 (Z.eqb_neq (ram + q) 0)) by lia; reflexivity]. by rewrite (proj2 (Z.eqb_neq (ram + q) 0)) by lia.
  - assert (forall b, b < ram + q \/ ram + q + n <= b -> ld8 m1 b = ld8 (h_mem h') b) as Hf by (intros b Hb; rewrite Hm1; destruct (Z.leb_spec (ram + q) b), (Z.ltb_spec b (ram + q + n)); done || lia).
    split; [|intros b Hb; cbn [set_h_mem h_mem]; rewrite Hf by lia; by apply Hout]. exists lf, bl'. cbn [set_h_mem h_mem]. split; [by rewrite Hh|].
    split; [apply (write_inside (h_mem h') m1 lf bl' q s); [done|done|]; intros b Hb; apply Hf; lia|].
    rewrite <- (insert_insert_eq l (ram + q) _ (ld_bytes (h_mem h') (ram + q) (Z.to_nat n))).
    apply (owns_insert (h_mem h') m1 bl' _ _ q s); [apply Hr| |done|done|rewrite length_replicate, Z2Nat.id by lia; done|intros b Hb; apply Hf; lia|].
    + apply Hown; [rewrite length_ld_bytes; lia|]. intros i b Hi. pose proof (lookup_lt_Some _ _ _ Hi) as Hl. rewrite length_ld_bytes in Hl. rewrite ld_bytes_lookup in Hi by done. by injection Hi.
    + intros i b Hi. apply lookup_replicate in Hi as [-> Hi]. rewrite Hm1, (proj2 (Z.leb_le _ _)), (proj2 (Z.ltb_lt _ _)) by lia. done.
Qed.

(** Where a block a client holds is. *)
Lemma live_block m0 h l p bs :
  inv m0 h l -> l !! p = Some bs ->
  exists lf bl1 s bl2, h = the_heap ram (h_mem h) lf /\ p = ram + span bl1 + 12 /\ rep ram (h_mem h) lf (bl1 ++ (s, true) :: bl2) /\
    owns (h_mem h) (bl1 ++ (s, true) :: bl2) l /\ request (Z.of_nat (length bs)) <= s.
Proof.
  intros [(lf & bl & Hh & Hr & Hown) _] Hl. destruct (ow_live _ _ _ Hown p bs Hl) as (s & Hin & Hs & _). destruct (used_split _ _ _ _ Hin) as (bl1 & bl2 & -> & Hp).
  exists lf, bl1, s, bl2. split; [done|]. split; [lia|done].
Qed.

Lemma serve_free m0 h l p : inv m0 h l -> p = 0 \/ is_Some (l !! p) -> steps_to (serve (Free p) l) m0 h.
Proof using ram_pos ram_end ram_aligned.
  intros Hinv Hp. unfold steps_to. cbn [serve]. destruct (l !! p) as [bs|] eqn:Hl.
  - destruct (live_block _ _ _ _ _ Hinv Hl) as (lf & bl1 & s & bl2 & Hh & -> & Hr & Hown & _).
    destruct (mem_free_ok ram ram_pos ram_end ram_aligned _ lf bl1 s bl2 Hr) as (m' & lf' & Hrun & Hr' & Hk & Hu). rewrite <- Hh in Hrun. eexists _, _. split; [mstep (exact Hrun); reflexivity|].
    split; [|exact (outside_kept m0 _ m' _ (inv_outside _ _ _ Hinv) Hk)]. eexists lf', _. split; [done|]. split; [exact Hr'|]. apply (free_owns (h_mem h) m' lf bl1 s bl2); [apply Hr|exact Hown|exact Hk|exact Hu].
  - destruct Hp as [->|[? ?]]; [|done]. exists (delete 0 l), h. split; [done|]. by rewrite delete_id.
Qed.

Lemma serve_realloc m0 h l p bs n :
  inv m0 h l -> l !! p = Some bs -> 0 <= n <= Z.of_nat (length bs) -> steps_to (serve (Realloc p n) l) m0 h.
Proof using ram_pos ram_end ram_aligned.
  intros Hinv Hl Hn. unfold steps_to. cbn [serve]. rewrite Hl. cbn [default]. destruct (live_block _ _ _ _ _ Hinv Hl) as (lf & bl1 & s & bl2 & Hh & -> & Hr & Hown & Hs).
  destruct (shape_parts _ _ _ _ _ _ _ (rp_shape _ _ _ _ Hr)) as (_ & _ & _ & _ & Hz2 & Hx & _ & _ & _ & HE & _). pose proof (span_nonneg bl2 Hz2). pose proof E_val as HEv.
  pose proof (request_ge (Z.of_nat (length bs))). pose proof (request_mono n (Z.of_nat (length bs)) ltac:(lia)).
  destruct (mem_realloc_ok ram ram_pos ram_end _ lf bl1 s bl2 n Hr ltac:(lia) ltac:(lia) ltac:(lia)) as (m' & lf' & Hrun & Hr' & Hk). rewrite <- Hh in Hrun.
  eexists _, _. split; [mstep (exact Hrun); reflexivity|]. split; [|exact (outside_kept m0 _ m' _ (inv_outside _ _ _ Hinv) Hk)]. eexists lf', _. split; [done|]. split; [exact Hr'|].
  apply (realloc_owns (h_mem h) m' lf bl1 s bl2 l bs); [apply Hr|done|done|lia|by rewrite Z2Nat.id by lia|lia|done].
Qed.

Lemma serve_poke m0 h l p bs i v :
  inv m0 h l -> l !! p = Some bs -> (i < length bs)%nat -> steps_to (serve (Poke p i v) l) m0 h.
Proof using ram_pos ram_end ram_aligned.
  intros Hinv Hl Hi. pose proof Hinv as [(lf & bl & Hh & Hr & Hown) Hout]. destruct (ow_live _ _ _ Hown p bs Hl) as (s & Hin & Hs & Hb).
  destruct (used_range _ _ _ _ (sh_sizes _ _ _ _ Hr) Hin) as (Hq1 & Hq2 & _). rewrite (sh_span _ _ _ _ Hr) in Hq2. pose proof (request_ge (Z.of_nat (length bs))).
  eexists _, _. cbn [serve]. rewrite Hl. cbn [default]. split; [reflexivity|]. set (m1 := st8 (h_mem h) (p + Z.of_nat i) v).
  assert (forall b, b < ram + (p - ram) \/ ram + (p - ram) + s <= b -> ld8 m1 b = ld8 (h_mem h) b) as Hf by (intros b Hb'; apply ld8_st8_ne; lia).
  split; cbn [set_h_mem h_mem]; fold m1; [|intros b Hb'; rewrite Hf by lia; by apply Hout]. exists lf, bl. split; [by rewrite Hh|]. split; [by apply (write_inside (h_mem h) m1 lf bl (p - ram) s)|].
  apply (owns_insert (h_mem h) m1 bl l p (p - ram) s); [apply Hr|done|done|lia|by rewrite length_insert|done|].
  intros j b Hj. apply list_lookup_insert_Some in Hj as [(<- & <- & _)|(Hne & Hj)]; unfold m1; [apply ld8_st8_eq|]. rewrite ld8_st8_ne by lia. by apply Hb.
Qed.

Lemma serve_ok m0 h l op : inv m0 h l -> legal l op = true -> steps_to (serve op l) m0 h.
Proof using ram_pos ram_end ram_aligned.
  intros Hinv H. destruct op as [size|count size|p|p n|p i v]; cbn [legal] in H.
  - apply andb_true_iff in H as [H1%Z.leb_le H2%Z.ltb_lt]. by apply serve_malloc.
  - apply andb_true_iff in H as [[H1%Z.leb_le H2%Z.leb_le]%andb_true_iff H3%Z.ltb_lt]. by apply serve_calloc.
  - apply serve_free; [done|]. apply orb_true_iff in H as [H%Z.eqb_eq|H%bool_decide_eq_true]; [by left|by right].
  - apply andb_true_iff in H as [H1%Z.leb_le H2]. destruct (l !! p) as [bs|] eqn:Hl; [|done]. apply Z.leb_le in H2. by apply (serve_realloc _ _ _ _ bs).
  - destruct (l !! p) as [bs|] eqn:Hl; [|done]. apply bool_decide_eq_true in H. by apply (serve_poke _ _ _ _ bs).
Qed.

Lemma client_ok m0 ops : forall h l, inv m0 h l -> steps_to (client ops l) m0 h.
Proof using ram_pos ram_end ram_aligned.
  induction ops as [|op ops IH]; intros h l Hinv; cbn [client]; [by exists l, h|]. destruct (legal l op) eqn:Hleg.
  - destruct (serve_ok m0 h l op Hinv Hleg) as (l1 & h1 & Hrun & Hinv1). destruct (IH h1 l1 Hinv1) as (l2 & h2 & Hrun2 & Hinv2). exists l2, h2. split; [|done]. mstep (exact Hrun). exact Hrun2.
  - destruct (IH h l Hinv) as (l2 & h2 & Hrun2 & Hinv2). exists l2, h2. split; [|done]. mstep reflexivity. exact Hrun2.
Qed.
End Client.

(** ** The heap at the start *)

Section Start.
Context `{Network}.
Hypothesis heap_pos : 0 < sym_ram_heap.
Hypothesis heap_end : sym_ram_heap + sizeof_ram_heap <= 2 ^ 32.

Definition base : Z := (sym_ram_heap + 3) / 4 * 4.

Lemma base_ok : sym_ram_heap <= base <= sym_ram_heap + 3 /\ base mod 4 = 0 /\ 0 < base /\ base + E + 12 <= 2 ^ 32 /\ base + E + 12 <= sym_ram_heap + sizeof_ram_heap.
Proof using All. unfold base. change sizeof_ram_heap with (E + 28) in *. pose proof E_val. zdm. Qed.

(** [mem_init] makes one free block of the whole heap. *)
Lemma mem_init_ok h0 : exists h, mem_init h0 = Ret tt h /\ inv base (h_mem h0) h ∅.
Proof using All.
  destruct base_ok as (Hb1 & Hb2 & Hb3 & Hb4 & Hb5). pose proof E_val as HE. destruct h0 as [m0 r0 e0 lf0]. cbn [h_mem].
  assert (LWIP_MEM_ALIGN sym_ram_heap = base) as Hal by (change (LWIP_MEM_ALIGN sym_ram_heap) with (LWIP_MEM_ALIGN_SIZE sym_ram_heap); apply align_size; lia).
  set (m := st32 (st32 (st8 (st8 (st32 (st32 m0 base E) (base + 4) 0) (base + 8) 0) (base + E + 8) 1) (base + E) E) (base + E + 4) E).
  exists (the_heap base m base). split.
  - unfold mem_init. mstep reflexivity. mstep reflexivity. mstep reflexivity. rewrite Hal. cbn [h_ram]. do 3 mstep reflexivity. rewrite (bind_ret _ _ _ (base + E) _) by (unfold at_ram, gets; cbn [set_h_mem h_ram]; by rewrite u32_small by lia).
    reflexivity.
  - split; cbn [the_heap h_mem]; [|intros b Hb; unfold m; by hmem]. exists base, [(E - 12, false)]. split; [done|]. split.
    + split; [|done]. split; [cbn [seg]; split; [|done]; split; unfold m; hmem| | | | |cbn; lia].
      * rewrite Z.add_0_r. hmem. rewrite u32_small by lia. lia.
      * rewrite Z.add_0_r. by hmem.
      * rewrite Z.add_0_r. by hmem.
      * cbn [span]. lia.
      * constructor; [split; [cbn [fst]; lia|reflexivity]|constructor].
      * unfold m. hmem. by rewrite u32_small by lia.
      * unfold m. by hmem.
    + split; [intros q s Hin; by apply elem_of_nil in Hin|intros p bs Hl; by rewrite lookup_empty in Hl].
Qed.

Lemma session_ok ops h0 : exists l h, session ops h0 = Ret l h /\ inv base (h_mem h0) h l.
Proof using All.
  destruct base_ok as (_ & Hb2 & Hb3 & Hb4 & _). destruct (mem_init_ok h0) as (h & Hrun & Hinv). destruct (client_ok base Hb3 Hb4 Hb2 (h_mem h0) ops h ∅ Hinv) as (l & h' & Hrun' & Hinv').
  exists l, h'. split; [|done]. unfold session. mstep (exact Hrun). exact Hrun'.
Qed.
End Start.

(** With nothing in use, free blocks in a row being one, the heap is one free block. *)
Lemma used_nil bl : used_at 0 bl = [] -> apart bl -> 0 < span bl -> bl = [(span bl - 12, false)].
Proof.
  intros Hu Ha Hs. destruct bl as [|[s u] bl]; cbn [span] in *; [lia|]. cbn [used_at] in Hu. destruct u; [done|]. destruct bl as [|[s2 u2] bl]; [cbn [span]; do 2 f_equal; lia|].
  cbn [used_at app] in Hu. destruct u2; [done|]. cbn in Ha. destruct Ha. done.
Qed.

Lemma inv_empty ram m0 h : inv ram m0 h ∅ -> exists lf, h = the_heap ram (h_mem h) lf /\ rep ram (h_mem h) lf [(E - 12, false)].
Proof.
  intros [(lf & bl & Hh & Hr & [Hu _]) _]. exists lf. split; [done|]. assert (used_at 0 bl = []) as Hnil.
  { destruct (used_at 0 bl) as [|[q s] x]; [done|]. destruct (Hu q s ltac:(apply elem_of_cons; by left)) as [? Hl]. by rewrite lookup_empty in Hl. }
  pose proof (used_nil bl Hnil (rp_apart _ _ _ _ Hr)) as Hbl. rewrite (sh_span _ _ _ _ Hr) in Hbl. rewrite Hbl in Hr by reflexivity. done.
Qed.

(** ** What clients rely on *)

Record held `{Network} (m0 : mem) (h : heap) (l : live) : Prop := {
  hl_place : forall p bs, l !! p = Some bs -> p mod 4 = 0 /\ sym_ram_heap <= p /\ p + Z.of_nat (length bs) <= sym_ram_heap + sizeof_ram_heap;
  hl_apart : forall p p' bs bs', l !! p = Some bs -> l !! p' = Some bs' -> p <> p' -> p + Z.of_nat (length bs) <= p' \/ p' + Z.of_nat (length bs') <= p;
  hl_bytes : forall p bs i b, l !! p = Some bs -> bs !! i = Some b -> ld8 (h_mem h) (p + Z.of_nat i) = b;
  hl_outside : forall b, b < sym_ram_heap \/ sym_ram_heap + sizeof_ram_heap <= b -> ld8 (h_mem h) b = ld8 m0 b;
}.

Lemma inv_held `{Network} m0 h l : 0 < sym_ram_heap -> sym_ram_heap + sizeof_ram_heap <= 2 ^ 32 -> inv base m0 h l -> held m0 h l.
Proof.
  intros Hp He Hinv. destruct (base_ok Hp He) as (Hb1 & Hb2 & Hb3 & Hb4 & Hb5). pose proof Hinv as [(lf & bl & Hh & Hr & Hown) Hout]. split.
  - intros p bs Hl. destruct (live_block _ _ _ _ _ _ Hinv Hl) as (lf' & bl1 & s & bl2 & _ & -> & Hr' & _ & Hs). destruct (shape_parts _ _ _ _ _ _ _ (rp_shape _ _ _ _ Hr')) as (_ & _ & _ & _ & Hz2 & Hx & Hxal & _ & _ & HE & _).
    pose proof (span_nonneg bl2 Hz2). pose proof (request_ge (Z.of_nat (length bs))). split; [clear -Hb2 Hxal; zdm|]. lia.
  - intros p p' bs bs' Hl Hl' Hne. destruct (ow_live _ _ _ _ Hown _ _ Hl) as (s & Hin & Hs & _). destruct (ow_live _ _ _ _ Hown _ _ Hl') as (s' & Hin' & Hs' & _).
    pose proof (request_ge (Z.of_nat (length bs))). pose proof (request_ge (Z.of_nat (length bs'))). destruct (used_disjoint _ _ _ _ _ _ (sh_sizes _ _ _ _ Hr) Hin Hin'); lia.
  - intros p bs i b Hl Hi. destruct (ow_live _ _ _ _ Hown _ _ Hl) as (s & _ & _ & Hb). by apply Hb.
  - intros b Hb. apply Hout. lia.
Qed.

(** C11: Whatever a client asks for, every call returns, without a failed assertion and with the loops of [mem_malloc] ending: the blocks it holds are
    aligned, lie in the array [ram_heap], do not overlap and contain the bytes last written to them ([mem_calloc] gives zeros, and [mem_realloc] keeps what it does not cut off), and no byte
    outside the array changes. *)
Theorem heap_client_safe `{Network} ops h0 :
  0 < sym_ram_heap -> sym_ram_heap + sizeof_ram_heap <= 2 ^ 32 -> exists l h, session ops h0 = Ret l h /\ held (h_mem h0) h l.
Proof.
  intros Hp He. destruct (session_ok Hp He ops h0) as (l & h & Hrun & Hinv). exists l, h. split; [done|]. by apply inv_held.
Qed.

(** C36: However blocks were taken, cut and freed, once none is held the heap is whole again: a request of any size up to the whole heap gets the first block. *)
Theorem heap_drains `{Network} ops h0 h size :
  0 < sym_ram_heap -> sym_ram_heap + sizeof_ram_heap <= 2 ^ 32 -> session ops h0 = Ret ∅ h -> 0 < size <= MEM_SIZE_ALIGNED - SIZEOF_STRUCT_MEM ->
  exists h', mem_malloc size h = Ret (LWIP_MEM_ALIGN sym_ram_heap + SIZEOF_STRUCT_MEM) h'.
Proof.
  intros Hp He Hrun Hsize. destruct (session_ok Hp He ops h0) as (l & h1 & Hrun' & Hinv). rewrite Hrun in Hrun'. injection Hrun' as <- <-. destruct (base_ok Hp He) as (Hb1 & Hb2 & Hb3 & Hb4 & Hb5).
  destruct (inv_empty _ _ _ Hinv) as (lf & Hh & Hr). change SIZEOF_STRUCT_MEM with 12 in *. pose proof E_val as HE.
  pose proof (mem_malloc_ok base Hb3 Hb4 Hb2 (h_mem h) lf _ size Hr ltac:(lia) ltac:(lia)) as Hm. rewrite <- Hh in Hm.
  assert (request size <= E - 12) as Hreq by (unfold request; rewrite HE in *; zdm). rewrite (proj2 (Z.ltb_ge _ _)) in Hm by lia. cbn [a_malloc] in Hm. unfold fits in Hm. cbn [fst snd negb andb] in Hm.
  rewrite (proj2 (Z.leb_le _ _)) in Hm by done. destruct Hm as (m' & lf' & Hm & _). exists (the_heap base m' lf'). rewrite Hm. f_equal.
  change (LWIP_MEM_ALIGN sym_ram_heap) with (LWIP_MEM_ALIGN_SIZE sym_ram_heap). rewrite align_size by lia. done.
Qed.

(** ** Sizes near the end of the range *)

(** The rounding up of a size above 2^32 - 4 wraps to 0, and the smallest block is given out. *)
Lemma mem_malloc_wraps size h : 2 ^ 32 - 4 < size < 2 ^ 32 -> mem_malloc size h = mem_malloc 12 h.
Proof.
  intros H. assert (size = 2 ^ 32 - 3 \/ size = 2 ^ 32 - 2 \/ size = 2 ^ 32 - 1) as [->|[->| ->]] by lia; reflexivity.
Qed.

(** The product in [mem_calloc] wraps: 65536 objects of 65537 bytes get 65536 bytes. *)
Lemma mem_calloc_wraps h : mem_calloc 65536 65537 h = mem_calloc 1 65536 h.
Proof. unfold mem_calloc. by change (u32 (65536 * 65537)) with (u32 (1 * 65536)). Qed.

(** ** A network server *)

Definition demo_network : Network := {| sym_ram_heap := 0x805123 |}.
#[local] Existing Instance demo_network.
Definition demo_heap : heap := mkHeap ∅ 0 0 0.

Lemma heap_client_safe_witness :
  exists l h, session [Malloc 100; Calloc 3 7; Poke 0x805130 5 77; Realloc 0x805130 40; Free 0x8051a0] demo_heap = Ret l h /\ held ∅ h l.
Proof. apply (heap_client_safe _ demo_heap); vm_compute; done. Defined.

Definition demo_ops : list hop := [Malloc 100; Calloc 3 7; Malloc 20; Realloc 0x805130 40; Free 0x8051a0; Free 0x805130; Free 0x8051c4].
Definition demo_drained : heap := match session demo_ops demo_heap with Ret _ h => h | _ => demo_heap end.

Lemma heap_drains_witness : session demo_ops demo_heap = Ret ∅ demo_drained /\ exists h', mem_malloc 2228212 demo_drained = Ret 0x805130 h'.
Proof.
  assert (session demo_ops demo_heap = Ret ∅ demo_drained) as Hrun by (vm_compute; reflexivity). split; [exact Hrun|].
  exact (heap_drains (H := demo_network) demo_ops demo_heap demo_drained 2228212 ltac:(reflexivity) ltac:(vm_compute; done) Hrun ltac:(split; vm_compute; done)).
Defined.
