(* ===== verification/Pbuf.v ===== *)
(** [net/lwip/core/memp.c] and [net/lwip/core/pbuf.c]: the pools of fixed-size elements and the packet
    buffers made from them, on byte memory, with the options of [net/lwip/jos/lwipopts.h]
    ([MEMP_OVERFLOW_CHECK] and [MEMP_SANITY_CHECK] off).

    The pools and the heap of [LwipMem] are parts of one memory.  On this platform a failed
    [LWIP_ASSERT] or [LWIP_ERROR] panics, so that the error handler after it never runs; an access
    through a null pointer faults ([wild]).  [SYS_ARCH_PROTECT] is empty. *)

From stdpp Require Import gmap.
From S2P Require Import Prelude Mem CString LwipMem.

(** ** Pools *)

(** The address of [memp_memory] and the sizes of the structures kept in the pools other than those of packet buffers. *)
Class Pools := { sym_memp_memory : Z; memp_elem : Z -> Z }.

(** The enumeration made from [memp_std.h]: twelve pools of control blocks come first. *)
Definition MEMP_PBUF : Z := 12.
Definition MEMP_PBUF_POOL : Z := 13.
Definition MEMP_MAX : Z := 14.

Definition MEMP_NUM_PBUF : Z := 64.
Definition PBUF_POOL_SIZE : Z := 512.
Definition PBUF_POOL_BUFSIZE : Z := 2000.
Definition MEMP_SIZE : Z := 0.
Definition MEMP_ALIGN_SIZE (x : Z) : Z := LWIP_MEM_ALIGN_SIZE x.
Definition sizeof_pbuf : Z := 16.

Definition memp_num : list Z := [4; 8; 32; 16; MEMP_NUM_TCP_SEG; 5; 128; 32; 8; 8; 30; 6; MEMP_NUM_PBUF; PBUF_POOL_SIZE].
Definition memp_sizes `{Pools} (type : Z) : Z :=
  u16 (MEMP_ALIGN_SIZE
    (if type =? MEMP_PBUF then MEMP_ALIGN_SIZE sizeof_pbuf + MEMP_ALIGN_SIZE 0
     else if type =? MEMP_PBUF_POOL then MEMP_ALIGN_SIZE sizeof_pbuf + MEMP_ALIGN_SIZE PBUF_POOL_BUFSIZE
     else memp_elem type)).

(** The array [memp_memory]. *)
Fixpoint pools_size `{Pools} (nums : list Z) (type : Z) : Z :=
  match nums with
  | [] => 0
  | num :: nums => num * (MEMP_SIZE + memp_sizes type) + pools_size nums (type + 1)
  end.
Definition sizeof_memp_memory `{Pools} : Z := MEM_ALIGNMENT - 1 + pools_size memp_num 0.

Record net := mkNet {
  n_heap : heap;          (* the memory, with the variables of [mem.c] *)
  memp_tab : gmap Z Z;    (* [memp_tab]: the first free element of each pool *)
}.

Definition set_n_heap (h : heap) (s : net) : net := mkNet h s.(memp_tab).
Definition on_heap {A} (m : M heap A) : M net A := zoom n_heap set_n_heap m.
Definition nmem (s : net) : mem := s.(n_heap).(h_mem).
Definition set_nmem (m : mem) (s : net) : net := set_n_heap (set_h_mem m s.(n_heap)) s.
Definition tab (s : net) (type : Z) : Z := default 0 (s.(memp_tab) !! type).
Definition set_tab (type p : Z) (s : net) : net := mkNet s.(n_heap) (<[type := p]> s.(memp_tab)).

Definition ASSERT (b : bool) : M net unit := if b then ret tt else panic.

(** Accesses through a pointer. *)
Definition peek (ld : mem -> Z -> Z) (p off : Z) : M net Z := if p =? 0 then wild else gets (fun s => ld (nmem s) (p + off)).
Definition poke (st : mem -> Z -> Z -> mem) (p off v : Z) : M net unit :=
  if p =? 0 then wild else modify (fun s => set_nmem (st (nmem s) (p + off) v) s).

Fixpoint carve `{Pools} (n : nat) (type memp : Z) : M net Z :=
  match n with
  | O => ret memp
  | S n =>
      let* t := gets (fun s => tab s type) in
      poke st32 memp 0 t ;;;
      modify (set_tab type memp) ;;;
      carve n type (u32 (memp + MEMP_SIZE + memp_sizes type))
  end.

Fixpoint carve_pools `{Pools} (nums : list Z) (type memp : Z) : M net Z :=
  match nums with
  | [] => ret memp
  | num :: nums =>
      modify (set_tab type 0) ;;;
      let* memp := carve (Z.to_nat num) type memp in
      carve_pools nums (type + 1) memp
  end.

Definition memp_init `{Pools} : M net unit :=
  carve_pools memp_num 0 (LWIP_MEM_ALIGN sym_memp_memory) ;;; ret tt.

Definition memp_malloc (type : Z) : M net Z :=
  ASSERT (type <? MEMP_MAX) ;;;
  let* memp := gets (fun s => tab s type) in
  if negb (memp =? 0) then
    let* n := peek ld32 memp 0 in
    modify (set_tab type n) ;;;
    ASSERT (memp mod MEM_ALIGNMENT =? 0) ;;;
    ret (u32 (memp + MEMP_SIZE))
  else ret memp.

Definition memp_free (type p : Z) : M net unit :=
  if p =? 0 then ret tt
  else
    ASSERT (p mod MEM_ALIGNMENT =? 0) ;;;
    let memp := u32 (p - MEMP_SIZE) in
    let* t := gets (fun s => tab s type) in
    poke st32 memp 0 t ;;;
    modify (set_tab type memp).

(** ** Packet buffers *)

Definition PBUF_TRANSPORT : Z := 0.
Definition PBUF_IP : Z := 1.
Definition PBUF_LINK : Z := 2.
Definition PBUF_RAW : Z := 3.

Definition PBUF_RAM : Z := 0.
Definition PBUF_ROM : Z := 1.
Definition PBUF_REF : Z := 2.
Definition PBUF_POOL : Z := 3.

Definition PBUF_TRANSPORT_HLEN : Z := 20.
Definition PBUF_IP_HLEN : Z := 20.
Definition PBUF_LINK_HLEN : Z := 14.

Definition SIZEOF_STRUCT_PBUF : Z := LWIP_MEM_ALIGN_SIZE sizeof_pbuf.
Definition PBUF_POOL_BUFSIZE_ALIGNED : Z := LWIP_MEM_ALIGN_SIZE PBUF_POOL_BUFSIZE.

Definition ERR_OK : Z := 0.

(** [struct pbuf]: [next], [payload], [tot_len], [len], [type], [flags], [ref]. *)
Definition p_next (p : Z) : M net Z := peek ld32 p 0.
Definition p_payload (p : Z) : M net Z := peek ld32 p 4.
Definition p_tot_len (p : Z) : M net Z := peek ld16 p 8.
Definition p_len (p : Z) : M net Z := peek ld16 p 10.
Definition p_type (p : Z) : M net Z := peek ld8 p 12.
Definition p_ref (p : Z) : M net Z := peek ld16 p 14.
Definition set_p_next (p v : Z) : M net unit := poke st32 p 0 v.
Definition set_p_payload (p v : Z) : M net unit := poke st32 p 4 v.
Definition set_p_tot_len (p v : Z) : M net unit := poke st16 p 8 v.
Definition set_p_len (p v : Z) : M net unit := poke st16 p 10 v.
Definition set_p_type (p v : Z) : M net unit := poke st8 p 12 v.
Definition set_p_flags (p v : Z) : M net unit := poke st8 p 13 v.
Definition set_p_ref (p v : Z) : M net unit := poke st16 p 14 v.

(** The loop of [pbuf_free]. *)
Fixpoint free_from (fuel : nat) (p count : Z) : M net Z :=
  match fuel with
  | O => out_of_fuel
  | S fuel =>
      if p =? 0 then ret count
      else
        let* ref := p_ref p in
        ASSERT (0 <? ref) ;;;
        set_p_ref p (ref - 1) ;;;
        let* ref := p_ref p in
        if ref =? 0 then
          let* q := p_next p in
          let* type := p_type p in
          (if type =? PBUF_POOL then memp_free MEMP_PBUF_POOL p
           else if (type =? PBUF_ROM) || (type =? PBUF_REF) then memp_free MEMP_PBUF p
           else on_heap (mem_free p)) ;;;
          free_from fuel q (u8 (count + 1))
        else ret count
  end.

Definition sane_type (type : Z) : bool := (type =? PBUF_RAM) || (type =? PBUF_ROM) || (type =? PBUF_REF) || (type =? PBUF_POOL).

Definition pbuf_free (fuel : nat) (p : Z) : M net Z :=
  if p =? 0 then panic
  else
    let* type := p_type p in
    ASSERT (sane_type type) ;;;
    free_from fuel p 0.

(** The bytes kept free for the headers of the layers below. *)
Definition header_room (layer : Z) : option Z :=
  if layer =? PBUF_TRANSPORT then Some (PBUF_TRANSPORT_HLEN + PBUF_IP_HLEN + PBUF_LINK_HLEN)
  else if layer =? PBUF_IP then Some (PBUF_IP_HLEN + PBUF_LINK_HLEN)
  else if layer =? PBUF_LINK then Some PBUF_LINK_HLEN
  else if layer =? PBUF_RAW then Some 0
  else None.

(** The assertion that the data of [p] end inside its element. *)
Definition assert_inside (p : Z) : M net unit :=
  let* payload := p_payload p in
  let* len := p_len p in
  ASSERT (u32 (payload + len) <=? u32 (p + SIZEOF_STRUCT_PBUF + PBUF_POOL_BUFSIZE_ALIGNED)).

Definition assert_aligned (p : Z) : M net unit :=
  let* payload := p_payload p in
  ASSERT (payload mod MEM_ALIGNMENT =? 0).

(** The rest of a chain whose first element is [p] and whose last one is [r]. *)
Fixpoint alloc_tail (fuel ffuel : nat) (p r rem_len : Z) : M net Z :=
  if 0 <? rem_len then
    match fuel with
    | O => out_of_fuel
    | S fuel =>
        let* q := memp_malloc MEMP_PBUF_POOL in
        if q =? 0 then
          pbuf_free ffuel p ;;; ret 0
        else
          set_p_type q PBUF_POOL ;;;
          set_p_flags q 0 ;;;
          set_p_next q 0 ;;;
          set_p_next r q ;;;
          ASSERT (rem_len <? 0xffff) ;;;
          set_p_tot_len q rem_len ;;;
          set_p_len q (Z.min (u16 rem_len) PBUF_POOL_BUFSIZE_ALIGNED) ;;;
          set_p_payload q (u32 (q + SIZEOF_STRUCT_PBUF)) ;;;
          assert_aligned q ;;;
          assert_inside p ;;;
          set_p_ref q 1 ;;;
          let* len := p_len q in
          alloc_tail fuel ffuel p q (rem_len - len)
    end
  else ret p.

(** One turn of the loop takes at least one byte, so that [length] turns are enough. *)
Definition alloc_pool (offset length : Z) : M net Z :=
  let* p := memp_malloc MEMP_PBUF_POOL in
  if p =? 0 then ret 0
  else
    set_p_type p PBUF_POOL ;;;
    set_p_next p 0 ;;;
    set_p_payload p (LWIP_MEM_ALIGN (u32 (p + (SIZEOF_STRUCT_PBUF + offset)))) ;;;
    assert_aligned p ;;;
    set_p_tot_len p length ;;;
    set_p_len p (Z.min length (PBUF_POOL_BUFSIZE_ALIGNED - LWIP_MEM_ALIGN_SIZE offset)) ;;;
    assert_inside p ;;;
    set_p_ref p 1 ;;;
    let* len := p_len p in
    alloc_tail (Z.to_nat length) (Z.to_nat length + 2) p p (length - len).

Definition alloc_ram (offset length : Z) : M net Z :=
  let* p := on_heap (mem_malloc (u32 (LWIP_MEM_ALIGN_SIZE (SIZEOF_STRUCT_PBUF + offset) + LWIP_MEM_ALIGN_SIZE length))) in
  if p =? 0 then ret 0
  else
    set_p_payload p (LWIP_MEM_ALIGN (u32 (p + SIZEOF_STRUCT_PBUF + offset))) ;;;
    set_p_tot_len p length ;;;
    set_p_len p length ;;;
    set_p_next p 0 ;;;
    set_p_type p PBUF_RAM ;;;
    assert_aligned p ;;;
    ret p.

Definition alloc_ref (length type : Z) : M net Z :=
  let* p := memp_malloc MEMP_PBUF in
  if p =? 0 then ret 0
  else
    set_p_payload p 0 ;;;
    set_p_tot_len p length ;;;
    set_p_len p length ;;;
    set_p_next p 0 ;;;
    set_p_type p type ;;;
    ret p.

Definition pbuf_alloc (layer length type : Z) : M net Z :=
  match header_room layer with
  | None => panic
  | Some offset =>
      let* p :=
        (if type =? PBUF_POOL then alloc_pool offset length
         else if type =? PBUF_RAM then alloc_ram offset length
         else if (type =? PBUF_ROM) || (type =? PBUF_REF) then alloc_ref length type
         else panic) in
      if p =? 0 then ret 0
      else
        set_p_ref p 1 ;;;
        set_p_flags p 0 ;;;
        ret p
  end.

(** The loop of [pbuf_realloc]: the new last element and the length it keeps. *)
Fixpoint realloc_skip (fuel : nat) (q rem_len grow : Z) : M net (Z * Z) :=
  let* len := p_len q in
  if len <? rem_len then
    match fuel with
    | O => out_of_fuel
    | S fuel =>
        ASSERT (grow <? 0xffff) ;;;
        let* tot := p_tot_len q in
        set_p_tot_len q (tot + u16 grow) ;;;
        let* next := p_next q in
        ASSERT (negb (next =? 0)) ;;;
        realloc_skip fuel next (rem_len - len) grow
    end
  else ret (q, rem_len).

(** The buffer [q] becomes the last one, with [rem_len] bytes, and the buffers after it are freed. *)
Definition cut_tail (fuel : nat) (q rem_len : Z) : M net unit :=
  set_p_len q rem_len ;;;
  let* len := p_len q in
  set_p_tot_len q len ;;;
  let* next := p_next q in
  (if negb (next =? 0) then pbuf_free fuel next ;;; ret tt else ret tt) ;;;
  set_p_next q 0.

Definition pbuf_realloc (fuel : nat) (p new_len : Z) : M net unit :=
  ASSERT (negb (p =? 0)) ;;;
  let* type := p_type p in
  ASSERT (sane_type type) ;;;
  let* tot := p_tot_len p in
  if tot <=? new_len then ret tt
  else
    let* ' (q, rem_len) := realloc_skip fuel p new_len (new_len - tot) in
    let* type := p_type q in
    let* len := p_len q in
    let* q :=
      (if (type =? PBUF_RAM) && negb (rem_len =? len) then
         let* payload := p_payload q in
         let* q := on_heap (mem_realloc q (u32 (payload - q + rem_len))) in
         ASSERT (negb (q =? 0)) ;;;
         ret q
       else ret q) in
    cut_tail fuel q rem_len.

Definition pbuf_header (p header_size_increment : Z) : M net Z :=
  ASSERT (negb (p =? 0)) ;;;
  if header_size_increment =? 0 then ret 0
  else
    (if header_size_increment <? 0 then
       let* len := p_len p in
       ASSERT (u16 (- header_size_increment) <=? len)
     else ret tt) ;;;
    let* type := p_type p in
    let* payload := p_payload p in
    let resize :=
      let* len := p_len p in
      set_p_len p (len + header_size_increment) ;;;
      let* tot := p_tot_len p in
      set_p_tot_len p (tot + header_size_increment) ;;;
      ret 0 in
    if (type =? PBUF_RAM) || (type =? PBUF_POOL) then
      set_p_payload p (u32 (payload - header_size_increment)) ;;;
      let* now := p_payload p in
      if now <? u32 (p + SIZEOF_STRUCT_PBUF) then set_p_payload p payload ;;; ret 1
      else resize
    else if (type =? PBUF_REF) || (type =? PBUF_ROM) then
      let* len := p_len p in
      if (header_size_increment <? 0) && (u16 (- header_size_increment) <=? len) then
        set_p_payload p (u32 (payload - header_size_increment)) ;;;
        resize
      else ret 1
    else panic.

Fixpoint clen_from (fuel : nat) (p len : Z) : M net Z :=
  match fuel with
  | O => out_of_fuel
  | S fuel => if p =? 0 then ret len else let* n := p_next p in clen_from fuel n (u8 (len + 1))
  end.

Definition pbuf_clen (fuel : nat) (p : Z) : M net Z := clen_from fuel p 0.

Definition pbuf_ref (p : Z) : M net unit :=
  if negb (p =? 0) then let* ref := p_ref p in set_p_ref p (ref + 1) else ret tt.

(** The loop of [pbuf_cat], which gives the last element of the chain. *)
Fixpoint cat_last (fuel : nat) (p t : Z) : M net Z :=
  let* next := p_next p in
  if next =? 0 then ret p
  else
    match fuel with
    | O => out_of_fuel
    | S fuel =>
        let* tot := p_tot_len p in
        let* more := p_tot_len t in
        set_p_tot_len p (tot + more) ;;;
        cat_last fuel next t
    end.

Definition pbuf_cat (fuel : nat) (h t : Z) : M net unit :=
  ASSERT (negb (h =? 0) && negb (t =? 0)) ;;;
  let* p := cat_last fuel h t in
  let* tot := p_tot_len p in
  let* len := p_len p in
  ASSERT (tot =? len) ;;;
  let* next := p_next p in
  ASSERT (next =? 0) ;;;
  let* more := p_tot_len t in
  set_p_tot_len p (tot + more) ;;;
  set_p_next p t.

Definition pbuf_chain (fuel : nat) (h t : Z) : M net unit := pbuf_cat fuel h t ;;; pbuf_ref t.

Definition pbuf_dechain (fuel : nat) (p : Z) : M net Z :=
  let* q := p_next p in
  let* tail_gone :=
    (if negb (q =? 0) then
       let* qtot := p_tot_len q in
       let* tot := p_tot_len p in
       let* len := p_len p in
       ASSERT (qtot =? tot - len) ;;;
       set_p_tot_len q (tot - len) ;;;
       set_p_next p 0 ;;;
       set_p_tot_len p len ;;;
       pbuf_free fuel q
     else ret 1) in
  let* tot := p_tot_len p in
  let* len := p_len p in
  ASSERT (tot =? len) ;;;
  ret (if 0 <? tail_gone then 0 else q).

Definition MEMCPY (dst src n : Z) : M net unit := modify (fun s => set_nmem (memcpy (nmem s) dst src n) s).

(** The check against packet queues in [pbuf_copy]. *)
Definition no_queue (p : Z) : M net unit :=
  if p =? 0 then ret tt
  else
    let* len := p_len p in
    let* tot := p_tot_len p in
    if len =? tot then let* next := p_next p in ASSERT (next =? 0) else ret tt.

Fixpoint copy_from (fuel : nat) (p_to p_from offset_to offset_from : Z) : M net Z :=
  match fuel with
  | O => out_of_fuel
  | S fuel =>
      ASSERT (negb (p_to =? 0)) ;;;
      let* tl := p_len p_to in
      let* fl := p_len p_from in
      let len := u16 (if fl - offset_from <=? tl - offset_to then fl - offset_from else tl - offset_to) in
      let* tp := p_payload p_to in
      let* fp := p_payload p_from in
      MEMCPY (u32 (tp + offset_to)) (u32 (fp + offset_from)) len ;;;
      let offset_to := u16 (offset_to + len) in
      let offset_from := u16 (offset_from + len) in
      let* tl := p_len p_to in
      ASSERT (offset_to <=? tl) ;;;
      let* tn := p_next p_to in
      let ' (p_to, offset_to) := if offset_to =? tl then (tn, 0) else (p_to, offset_to) in
      let* fl := p_len p_from in
      ASSERT (offset_from <=? fl) ;;;
      let* fn := p_next p_from in
      let ' (p_from, offset_from) := if fl <=? offset_from then (fn, 0) else (p_from, offset_from) in
      no_queue p_from ;;;
      no_queue p_to ;;;
      if p_from =? 0 then ret ERR_OK else copy_from fuel p_to p_from offset_to offset_from
  end.

Definition pbuf_copy (fuel : nat) (p_to p_from : Z) : M net Z :=
  ASSERT (negb (p_to =? 0)) ;;;
  ASSERT (negb (p_from =? 0)) ;;;
  let* tt' := p_tot_len p_to in
  let* ft := p_tot_len p_from in
  ASSERT (ft <=? tt') ;;;
  copy_from fuel p_to p_from 0 0.

Fixpoint copy_partial_from (fuel : nat) (p dataptr left len offset copied_total : Z) : M net Z :=
  if negb (len =? 0) && negb (p =? 0) then
    match fuel with
    | O => out_of_fuel
    | S fuel =>
        let* plen := p_len p in
        if negb (offset =? 0) && (plen <=? offset) then
          let* next := p_next p in
          copy_partial_from fuel next dataptr left len (u16 (offset - plen)) copied_total
        else
          let n := u16 (plen - offset) in
          let n := if len <? n then len else n in
          let* payload := p_payload p in
          MEMCPY (u32 (dataptr + left)) (u32 (payload + offset)) n ;;;
          let* next := p_next p in
          copy_partial_from fuel next dataptr (u16 (left + n)) (u16 (len - n)) 0 (u16 (copied_total + n))
    end
  else ret copied_total.

Definition pbuf_copy_partial (fuel : nat) (buf dataptr len offset : Z) : M net Z :=
  ASSERT (negb (buf =? 0)) ;;;
  ASSERT (negb (dataptr =? 0)) ;;;
  copy_partial_from fuel buf dataptr 0 len offset 0.
