(* ===== verification/PbufSpec.v ===== *)
(** Packet buffers ([Pbuf]): what the operations on chains do to the bytes a chain stands for. *)

From stdpp Require Import gmap.
From S2P Require Import Prelude Mem CString LwipMem LwipHeap Pbuf.

(** ** Fields *)

Lemma ld16_ext m m' a b : (forall i, 0 <= i < 2 -> ld8 m (a + i) = ld8 m' (b + i)) -> ld16 m a = ld16 m' b.
Proof. intros H. with_strategy transparent [ld16] unfold ld16. pose proof (H 0 ltac:(lia)) as H0. rewrite !Z.add_0_r in H0. by rewrite H0, (H 1) by lia. Qed.

Lemma ld8_st16_ne m a v b : b < a \/ a + 2 <= b -> ld8 (st16 m a v) b = ld8 m b.
Proof. intros H. rewrite ld8_st16. by ranges. Qed.

(** A buffer: its structure, its data and their holders. *)
Record pb := mkPb { b_addr : Z; b_payload : Z; b_len : Z; b_type : Z; b_ref : Z }.

Record cell (m : mem) (b : pb) (next tot : Z) : Prop := {
  c_next : ld32 m (b.(b_addr) + 0) = next;
  c_payload : ld32 m (b.(b_addr) + 4) = b.(b_payload);
  c_tot : ld16 m (b.(b_addr) + 8) = tot;
  c_len : ld16 m (b.(b_addr) + 10) = b.(b_len);
  c_type : ld8 m (b.(b_addr) + 12) = b.(b_type);
  c_ref : ld16 m (b.(b_addr) + 14) = b.(b_ref);
}.

Definition same_struct (m m' : mem) (p : Z) : Prop := forall x, p <= x < p + 16 -> ld8 m' x = ld8 m x.

Lemma cell_ext m m' b next tot : cell m b next tot -> same_struct m m' b.(b_addr) -> cell m' b next tot.
Proof.
  intros [H1 H2 H3 H4 H5 H6] Hs. split; [rewrite <- H1|rewrite <- H2|rewrite <- H3|rewrite <- H4|rewrite <- H5|rewrite <- H6].
  1, 2: apply ld32_ext; intros i Hi; apply Hs; lia.
  1, 2, 4: apply ld16_ext; intros i Hi; apply Hs; lia.
  apply Hs. lia.
Qed.

(** ** Chains *)

Definition first (l : list pb) : Z := match l with [] => 0 | b :: _ => b.(b_addr) end.
Definition total (l : list pb) : Z := foldr (fun b n => b.(b_len) + n) 0 l.

(** Buffers [l] linked to the next one [e], where the first one says that [t] bytes follow. *)
Definition first_or (l : list pb) (e : Z) : Z := match l with [] => e | b :: _ => b.(b_addr) end.
Fixpoint lseg (m : mem) (l : list pb) (t e : Z) : Prop :=
  match l with
  | [] => True
  | b :: l => 0 < b.(b_addr) /\ b.(b_addr) + 16 <= 2 ^ 32 /\ cell m b (first_or l e) t /\ lseg m l (t - b.(b_len)) e
  end.

(** The chain [l] of one packet. *)
Definition chain (m : mem) (l : list pb) : Prop := lseg m l (total l) 0.

Lemma chain_cons m b l : chain m (b :: l) <-> 0 < b.(b_addr) /\ b.(b_addr) + 16 <= 2 ^ 32 /\ cell m b (first l) (total (b :: l)) /\ chain m l.
Proof. unfold chain. cbn [lseg total foldr]. replace (b.(b_len) + foldr (fun b n => b.(b_len) + n) 0 l - b.(b_len)) with (total l) by (unfold total; lia). done. Qed.

Lemma total_app l l' : total (l ++ l') = total l + total l'.
Proof. induction l as [|b l IH]; [done|]. cbn [app total foldr]. fold (total (l ++ l')) (total l). lia. Qed.

Lemma lseg_app m l l' : forall t e, lseg m (l ++ l') t e <-> lseg m l t (first_or l' e) /\ lseg m l' (t - total l) e.
Proof.
  induction l as [|b l IH]; intros t e; cbn [app lseg]; [by rewrite Z.sub_0_r; tauto|]. rewrite IH. cbn [total foldr]. fold (total l).
  replace (t - b.(b_len) - total l) with (t - (b.(b_len) + total l)) by lia. replace (first_or (l ++ l') e) with (first_or l (first_or l' e)) by (by destruct l). tauto.
Qed.

Definition bytes (m : mem) (b : pb) : list Z := ld_bytes m b.(b_payload) (Z.to_nat b.(b_len)).
(** What the chain stands for. *)
Definition contents (m : mem) (l : list pb) : list Z := concat (map (bytes m) l).

(** The data lie in the address space. *)
Definition data_ok (b : pb) : Prop := 0 <= b.(b_payload) /\ b.(b_payload) + b.(b_len) < 2 ^ 32.

(** A range that meets neither the structures nor the data of the chain. *)
Definition off_chain (l : list pb) (d n : Z) : Prop :=
  Forall (fun b => (d + n <= b.(b_addr) \/ b.(b_addr) + 16 <= d) /\ (d + n <= b.(b_payload) \/ b.(b_payload) + b.(b_len) <= d)) l.

Lemma cell_len m b next tot : cell m b next tot -> 0 <= b.(b_len) < 2 ^ 16.
Proof. intros H. rewrite <- (c_len _ _ _ _ H). apply ld16_range. Qed.

Lemma lseg_lens m l t e : lseg m l t e -> Forall (fun b => 0 <= b.(b_len) < 2 ^ 16) l.
Proof. revert t. induction l as [|b l IH]; intros t; [done|]. intros (_ & _ & Hc & Hl). constructor; [by apply (cell_len _ _ _ _ Hc)|by apply (IH _ Hl)]. Qed.

Lemma lens_nonneg l : Forall (fun b => 0 <= b.(b_len) < 2 ^ 16) l -> 0 <= total l.
Proof. induction 1; cbn [total foldr]; [done|]. unfold total in *. lia. Qed.

Lemma contents_length m l : Forall (fun b => 0 <= b.(b_len) < 2 ^ 16) l -> Z.of_nat (length (contents m l)) = total l.
Proof.
  induction 1 as [|b l Hb Hl IH]; [done|]. unfold contents in *. cbn [map concat total foldr]. unfold bytes at 1. rewrite length_app, length_ld_bytes. unfold total in *. lia.
Qed.

Lemma lseg_ext m m' l : forall t e, lseg m l t e -> Forall (fun b => same_struct m m' b.(b_addr)) l -> lseg m' l t e.
Proof.
  induction l as [|b l IH]; intros t e; [done|]. intros (H1 & H2 & Hc & Hl) [Hs Hss]%Forall_cons. split; [done|]. split; [done|]. split; [by apply (cell_ext m)|by apply IH].
Qed.

Lemma contents_ext m m' l :
  Forall (fun b => forall x, b.(b_payload) <= x < b.(b_payload) + b.(b_len) -> ld8 m' x = ld8 m x) l -> contents m' l = contents m l.
Proof.
  induction 1 as [|b l Hb Hl IH]; [done|]. unfold contents in *. cbn [map concat]. rewrite IH. f_equal. unfold bytes. apply ld_bytes_ext. intros i Hi. apply Hb. lia.
Qed.

Lemma write_off m m' l d n :
  off_chain l d n -> (forall x, x < d \/ d + n <= x -> ld8 m' x = ld8 m x) -> chain m l -> chain m' l /\ contents m' l = contents m l.
Proof.
  intros Ho Hm Hc. split.
  - apply (lseg_ext m); [done|]. apply (Forall_impl _ _ _ Ho). intros b [Hb _] x Hx. apply Hm. lia.
  - apply contents_ext. apply (Forall_impl _ _ _ Ho). intros b [_ Hb] x Hx. apply Hm. lia.
Qed.

(** ** Accesses *)

Lemma peek_run ld p off s : 0 < p -> peek ld p off s = Ret (ld (nmem s) (p + off)) s.
Proof. intros Hp. unfold peek. rewrite (proj2 (Z.eqb_neq _ _)) by lia. done. Qed.

Lemma poke_run st p off v s : 0 < p -> poke st p off v s = Ret tt (set_nmem (st (nmem s) (p + off) v) s).
Proof. intros Hp. unfold poke. rewrite (proj2 (Z.eqb_neq _ _)) by lia. done. Qed.

Lemma nmem_set m s : nmem (set_nmem m s) = m.
Proof. done. Qed.
Lemma set_nmem_set m m' s : set_nmem m' (set_nmem m s) = set_nmem m' s.
Proof. done. Qed.

Section Cell.
Context (s : net) (b : pb) (next tot : Z) (Hp : 0 < b.(b_addr)) (Hc : cell (nmem s) b next tot).

Lemma p_next_run : p_next b.(b_addr) s = Ret next s.
Proof using Hp Hc. unfold p_next. by rewrite peek_run, (c_next _ _ _ _ Hc). Qed.
Lemma p_payload_run : p_payload b.(b_addr) s = Ret b.(b_payload) s.
Proof using Hp Hc. unfold p_payload. by rewrite peek_run, (c_payload _ _ _ _ Hc). Qed.
Lemma p_tot_run : p_tot_len b.(b_addr) s = Ret tot s.
Proof using Hp Hc. unfold p_tot_len. by rewrite peek_run, (c_tot _ _ _ _ Hc). Qed.
Lemma p_len_run : p_len b.(b_addr) s = Ret b.(b_len) s.
Proof using Hp Hc. unfold p_len. by rewrite peek_run, (c_len _ _ _ _ Hc). Qed.
Lemma p_type_run : p_type b.(b_addr) s = Ret b.(b_type) s.
Proof using Hp Hc. unfold p_type. by rewrite peek_run, (c_type _ _ _ _ Hc). Qed.
Lemma p_ref_run : p_ref b.(b_addr) s = Ret b.(b_ref) s.
Proof using Hp Hc. unfold p_ref. by rewrite peek_run, (c_ref _ _ _ _ Hc). Qed.
End Cell.

(** ** [pbuf_copy_partial] *)

Lemma memcpy_copies m dst src n b :
  0 <= dst -> 0 <= src -> 0 <= n -> dst + n <= 2 ^ 32 -> src + n < 2 ^ 32 ->
  ld8 (memcpy m dst src n) b = if (dst <=? b) && (b <? dst + n) then ld8 m (src + (b - dst)) else ld8 m b.
Proof. apply memmove_copies. Qed.

Lemma memcpy_bytes m dst src n :
  0 <= dst -> 0 <= src -> 0 <= n -> dst + n <= 2 ^ 32 -> src + n < 2 ^ 32 ->
  ld_bytes (memcpy m dst src n) dst (Z.to_nat n) = ld_bytes m src (Z.to_nat n).
Proof.
  intros Hd Hs Hn Hdn Hsn. apply ld_bytes_ext. intros i Hi. rewrite memcpy_copies by lia. ranges. f_equal. lia.
Qed.

Lemma ld_bytes_take m a n k : (k <= n)%nat -> take k (ld_bytes m a n) = ld_bytes m a k.
Proof. intros H. replace n with (k + (n - k))%nat by lia. rewrite ld_bytes_app. rewrite take_app_le by (rewrite length_ld_bytes; lia). apply take_ge. rewrite length_ld_bytes. lia. Qed.

Lemma ld_bytes_drop m a n k : (k <= n)%nat -> drop k (ld_bytes m a n) = ld_bytes m (a + Z.of_nat k) (n - k).
Proof. intros H. replace n with (k + (n - k))%nat at 1 by lia. rewrite ld_bytes_app. apply drop_app_length'. by rewrite length_ld_bytes. Qed.

(** The part of a chain from [offset] on, at most [len] bytes. *)
Definition slice (m : mem) (l : list pb) (offset len : Z) : list Z := take (Z.to_nat len) (drop (Z.to_nat offset) (contents m l)).

Lemma slice_skip m b l offset len : 0 <= b.(b_len) <= offset -> slice m (b :: l) offset len = slice m l (offset - b.(b_len)) len.
Proof.
  intros H. unfold slice, contents. cbn [map concat]. f_equal. unfold bytes at 1. rewrite drop_app_ge by (rewrite length_ld_bytes; lia). rewrite length_ld_bytes. f_equal. lia.
Qed.

Lemma slice_here m b l offset len :
  0 <= offset <= b.(b_len) -> 0 <= len -> let n := Z.min len (b.(b_len) - offset) in
  slice m (b :: l) offset len = ld_bytes m (b.(b_payload) + offset) (Z.to_nat n) ++ slice m l 0 (len - n).
Proof.
  intros H Hlen n. unfold slice, contents. cbn [map concat]. unfold bytes at 1. rewrite drop_app_le by (rewrite length_ld_bytes; lia). rewrite ld_bytes_drop by lia.
  rewrite take_app, length_ld_bytes. rewrite drop_0. rewrite Z2Nat.id by lia. f_equal; [|f_equal; lia].
  destruct (Z.le_gt_cases len (b.(b_len) - offset)); [rewrite ld_bytes_take by lia; f_equal; lia|]. rewrite take_ge by (rewrite length_ld_bytes; lia). f_equal. lia.
Qed.

Lemma copy_partial_run d l : forall fuel s k len offset,
  chain (nmem s) l -> Forall data_ok l -> off_chain l (d + k) len -> 0 < d -> 0 <= k -> 0 <= len -> k + len < 2 ^ 16 -> 0 <= offset < 2 ^ 16 -> d + k + len <= 2 ^ 32 -> (length l <= fuel)%nat ->
  let data := slice (nmem s) l offset len in
  exists m', copy_partial_from fuel (first l) d k len offset k s = Ret (k + Z.of_nat (length data)) (set_nmem m' s) /\
    ld_bytes m' (d + k) (length data) = data /\ (forall x, x < d + k \/ d + k + Z.of_nat (length data) <= x -> ld8 m' x = ld8 (nmem s) x).
Proof.
  induction l as [|b l IH]; intros fuel s k len offset Hc Hd Ho Hd0 Hk Hlen Hkl Hof Hr Hf data.
  { assert (data = []) as E by (unfold data, slice, contents; cbn [map concat]; by rewrite drop_nil, take_nil). rewrite E. exists (nmem s). split; [|done].
    destruct fuel; cbn [copy_partial_from first]; rewrite andb_false_r; unfold ret; f_equal; cbn; try lia; by destruct s as [[]]. }
  destruct (Z.eqb_spec len 0) as [->|Hl0].
  { assert (data = []) as E by done. rewrite E. exists (nmem s). split; [|done]. destruct fuel; [cbn in Hf; lia|]. cbn [copy_partial_from]. change (negb (0 =? 0)) with false. cbn [andb]. unfold ret. f_equal; [cbn; lia|by destruct s as [[]]]. }
  destruct fuel as [|fuel]; [cbn in Hf; lia|]. cbn [length] in Hf. apply chain_cons in Hc as (Hp & Hp2 & Hc & Hl). apply Forall_cons in Hd as [[Hd1 Hd2] Hd]. pose proof Ho as Ho'. apply Forall_cons in Ho as [[Ho1 Ho2] Ho].
  pose proof (cell_len _ _ _ _ Hc) as Hlb. cbn [copy_partial_from first]. rewrite (proj2 (Z.eqb_neq len 0)), (proj2 (Z.eqb_neq b.(b_addr) 0)) by lia. cbn [negb andb].
  mstep (exact (p_len_run s b _ _ Hp Hc)). destruct (negb (offset =? 0) && (b.(b_len) <=? offset)) eqn:Hskip.
  { apply andb_true_iff in Hskip as [Ho0 Hle%Z.leb_le]. mstep (exact (p_next_run s b _ _ Hp Hc)). rewrite u16_small by lia. unfold data. rewrite slice_skip by lia. apply IH; try done; lia. }
  assert (offset <= b.(b_len)) as Hob by (apply andb_false_iff in Hskip as [H%negb_false_iff%Z.eqb_eq|H%Z.leb_gt]; lia).
  rewrite (u16_small (b.(b_len) - offset)) by lia. set (n := if len <? b.(b_len) - offset then len else b.(b_len) - offset).
  assert (n = Z.min len (b.(b_len) - offset)) as Hn by (unfold n; destruct (Z.ltb_spec len (b.(b_len) - offset)); lia).
  mstep (exact (p_payload_run s b _ _ Hp Hc)). rewrite (u32_small (d + k)), (u32_small (b.(b_payload) + offset)) by lia.
  set (m1 := memcpy (nmem s) (d + k) (b.(b_payload) + offset) n). mstep reflexivity. fold m1. set (s1 := set_nmem m1 s) in *.
  assert (forall x, x < d + k \/ d + k + n <= x -> ld8 m1 x = ld8 (nmem s) x) as Hm1 by (intros x Hx; unfold m1; rewrite memcpy_copies by lia; by ranges).
  assert (off_chain (b :: l) (d + k) n) as Hon by (apply (Forall_impl _ _ _ Ho'); intros c Hcc; lia).
  destruct (write_off (nmem s) m1 (b :: l) (d + k) n Hon Hm1 ltac:(by apply chain_cons)) as ((_ & _ & Hc1 & Hl1)%chain_cons & _). destruct (write_off (nmem s) m1 l (d + k) n ltac:(by apply Forall_cons in Hon as [_ Hon]) Hm1 Hl) as (_ & Hcont).
  mstep (exact (p_next_run s1 b _ _ Hp Hc1)). rewrite (u16_small (k + n)), (u16_small (len - n)) by lia.
  destruct (IH fuel s1 (k + n) (len - n) 0 Hl1 Hd) as (m' & Hrun & Hdat & Hout); try lia; [apply (Forall_impl _ _ _ Ho); intros c Hcc; lia|].
  assert (data = ld_bytes (nmem s) (b.(b_payload) + offset) (Z.to_nat n) ++ slice m1 l 0 (len - n)) as Edata by (replace (slice m1 l 0 (len - n)) with (slice (nmem s) l 0 (len - n)) by (unfold slice; by rewrite Hcont); unfold data; rewrite slice_here by lia; by rewrite <- Hn).
  exists m'. rewrite Hrun, Edata. change (nmem s1) with m1 in *. set (rest := slice m1 l 0 (len - n)) in *. rewrite length_app, length_ld_bytes. split; [f_equal; lia|]. split.
  - rewrite ld_bytes_app. replace (d + k + Z.of_nat (Z.to_nat n)) with (d + (k + n)) by lia. rewrite Hdat. f_equal. transitivity (ld_bytes m1 (d + k) (Z.to_nat n)); [apply ld_bytes_ext; intros i Hi; apply Hout; lia|]. apply memcpy_bytes; lia.
  - intros x Hx. rewrite Hout by lia. apply Hm1. lia.
Qed.

(** [pbuf_copy_partial] copies the [len] bytes of the packet from [offset] on, or what there is of them, to a buffer apart
    from the packet, however the packet is cut into buffers, and answers how many it copied; nothing else changes. *)
Theorem pbuf_copy_partial_slice s l fuel dataptr len offset :
  l <> [] -> chain (nmem s) l -> Forall data_ok l -> off_chain l dataptr len ->
  0 < dataptr -> 0 <= len < 2 ^ 16 -> 0 <= offset < 2 ^ 16 -> dataptr + len <= 2 ^ 32 -> (length l <= fuel)%nat ->
  let n := Z.max 0 (Z.min len (total l - offset)) in
  exists m', pbuf_copy_partial fuel (first l) dataptr len offset s = Ret n (set_nmem m' s) /\
    ld_bytes m' dataptr (Z.to_nat n) = take (Z.to_nat n) (drop (Z.to_nat offset) (contents (nmem s) l)) /\
    (forall x, x < dataptr \/ dataptr + n <= x -> ld8 m' x = ld8 (nmem s) x).
Proof.
  intros Hne Hc Hd Ho Hd0 Hlen Hof Hr Hf n. pose proof (contents_length (nmem s) l (lseg_lens _ _ _ _ Hc)) as Htot.
  assert (Z.of_nat (length (slice (nmem s) l offset len)) = n) as Hn by (unfold slice; rewrite length_take, length_drop; lia).
  destruct (copy_partial_run dataptr l fuel s 0 len offset Hc Hd) as (m' & Hrun & Hdat & Hout); try lia; [by rewrite Z.add_0_r|]. rewrite Z.add_0_r in *. exists m'. split; [|split].
  - unfold pbuf_copy_partial. assert (0 < first l) as Hp by (destruct l; [done|apply Hc]). rewrite (proj2 (Z.eqb_neq (first l) 0)), (proj2 (Z.eqb_neq dataptr 0)) by lia.
    mstep reflexivity. mstep reflexivity. rewrite Hrun. f_equal. lia.
  - replace (Z.to_nat n) with (length (slice (nmem s) l offset len)) by lia. rewrite Hdat. unfold slice. rewrite length_take. set (c := drop _ _). destruct (Nat.le_ge_cases (Z.to_nat len) (length c)); [by rewrite Nat.min_l|]. by rewrite Nat.min_r, !take_ge by done.
  - intros x Hx. apply Hout. lia.
Qed.

(** ** A packet *)

(** Lay the structures of a chain out in memory. *)
Definition put_buf (m : mem) (b : pb) (next tot : Z) : mem :=
  st16 (st8 (st16 (st16 (st32 (st32 m b.(b_addr) next) (b.(b_addr) + 4) b.(b_payload)) (b.(b_addr) + 8) tot) (b.(b_addr) + 10) b.(b_len)) (b.(b_addr) + 12) b.(b_type)) (b.(b_addr) + 14) b.(b_ref).

Fixpoint put_chain (l : list pb) (m : mem) : mem :=
  match l with
  | [] => m
  | b :: l' => put_buf (put_chain l' m) b (first l') (total l)
  end.

(** "abcde" in two buffers. *)
Definition demo_packet : list pb := [mkPb 4096 4200 2 PBUF_POOL 1; mkPb 8192 8300 3 PBUF_POOL 1].
Definition demo_net : net := mkNet (mkHeap (put_chain demo_packet (st_bytes (st_bytes ∅ 4200 [97; 98]) 8300 [99; 100; 101])) 0 0 0) ∅.

Lemma pbuf_copy_partial_slice_witness :
  exists m', pbuf_copy_partial 2 4096 20000 3 1 demo_net = Ret 3 (set_nmem m' demo_net) /\ ld_bytes m' 20000 3 = [98; 99; 100].
Proof.
  destruct (pbuf_copy_partial_slice demo_net demo_packet 2 20000 3 1) as (m' & Hrun & Hdat & _).
  - done.
  - repeat split; vm_compute; done.
  - repeat constructor; vm_compute; done.
  - repeat constructor; cbn; lia.
  - lia.
  - lia.
  - lia.
  - lia.
  - cbn. lia.
  - cbv zeta in Hdat. change (Z.max 0 (Z.min 3 (total demo_packet - 1))) with 3 in Hdat. exists m'. split; [exact Hrun|]. change 3%nat with (Z.to_nat 3). rewrite Hdat. vm_compute. reflexivity.
Defined.
