(* ===== verification/PbufPool.v ===== *)
(** Packet buffers and their pool ([Pbuf]): what allocating and freeing a chain does to the free list. *)

From stdpp Require Import gmap.
From S2P Require Import Prelude Mem CString LwipMem LwipHeap Pbuf PbufSpec.

(** ** Stores to fields *)

Lemma ld32_st16_ne m a v b : b + 4 <= a \/ a + 2 <= b -> ld32 (st16 m a v) b = ld32 m b.
Proof. intros H. apply ld32_ext. intros i Hi. apply ld8_st16_ne. lia. Qed.
Lemma ld16_st32_ne m a v b : b + 2 <= a \/ a + 4 <= b -> ld16 (st32 m a v) b = ld16 m b.
Proof. intros H. apply ld16_ext. intros i Hi. apply ld8_st32_ne. lia. Qed.
Lemma ld16_st16_ne m a v b : b + 2 <= a \/ a + 2 <= b -> ld16 (st16 m a v) b = ld16 m b.
Proof. intros H. apply ld16_ext. intros i Hi. apply ld8_st16_ne. lia. Qed.
Lemma ld16_st8_ne m a v b : a < b \/ b + 2 <= a -> ld16 (st8 m a v) b = ld16 m b.
Proof. intros H. apply ld16_ext. intros i Hi. apply ld8_st8_ne. lia. Qed.

(** Read a field of a structure that was just filled in. *)
Ltac fld := repeat first [rewrite ld32_st32_eq | rewrite ld16_st16_eq | rewrite ld8_st8_eq
  | rewrite ld32_st32_ne by lia | rewrite ld32_st16_ne by lia | rewrite ld32_st8_ne by lia
  | rewrite ld16_st32_ne by lia | rewrite ld16_st16_ne by lia | rewrite ld16_st8_ne by lia
  | rewrite ld8_st32_ne by lia | rewrite ld8_st16_ne by lia | rewrite ld8_st8_ne by lia].

(** ** The pool *)

(** Two elements that do not overlap. *)
Definition clear_of (x y : Z) : Prop := x + 2016 <= y \/ y + 2016 <= x.
Definition elem_ok (x : Z) : Prop := 0 < x /\ x mod 4 = 0 /\ x + 2016 < 2 ^ 32.

#[global] Instance clear_of_sym : Symmetric clear_of.
Proof. intros x y. unfold clear_of. lia. Qed.

Fixpoint pairwise (R : Z -> Z -> Prop) (l : list Z) : Prop :=
  match l with
  | [] => True
  | x :: l => Forall (R x) l /\ pairwise R l
  end.
Abbreviation spaced := (pairwise clear_of).

#[global] Instance pairwise_perm R `{!Symmetric R} : Proper ((≡ₚ) ==> iff) (pairwise R).
Proof.
  assert (forall l l', l ≡ₚ l' -> pairwise R l -> pairwise R l') as H.
  { induction 1 as [|x l l' E IH|x y l|l1 l2 l3 _ IH1 _ IH2]; cbn [pairwise]; [done| | |auto].
    - intros [H1 H2]. split; [by rewrite <- E|auto].
    - intros [[H1 H2]%Forall_cons [H3 H4]]. split; [constructor; [by symmetry|done]|done]. }
  intros l l' E. split; apply H; [done|by symmetry].
Qed.

Lemma pairwise_app R l l' : pairwise R (l ++ l') <-> pairwise R l /\ pairwise R l' /\ (forall x y, x ∈ l -> y ∈ l' -> R x y).
Proof.
  induction l as [|x l IH]; cbn [app pairwise]; [split; [|tauto]; intros H; split; [done|]; split; [done|]; by intros x y ?%elem_of_nil|]. rewrite Forall_app, IH. split.
  - intros [[H1 H2] (H3 & H4 & H5)]. split; [done|]. split; [done|]. intros a b [->|Ha]%elem_of_cons Hb; [|by apply H5]. rewrite Forall_forall in H2. by apply H2.
  - intros ([H1 H2] & H3 & H4). split; [split; [done|]|split; [done|split; [done|]]]; [apply Forall_forall; intros y Hy; apply H4; [left|done]|]. intros a b Ha Hb. apply H4; [by right|done].
Qed.

Lemma pairwise_in {R} `{!Symmetric R} l x y : pairwise R l -> x ∈ l -> y ∈ l -> y <> x -> R x y.
Proof.
  induction l as [|z l IH]; [by intros _ ?%elem_of_nil|]. intros [H1 H2] [->|Hx]%elem_of_cons [->|Hy]%elem_of_cons Hne; [done| | |by apply IH].
  - rewrite Forall_forall in H1. by apply H1.
  - symmetry. rewrite Forall_forall in H1. by apply H1.
Qed.

(** The free list [l] from [p] on. *)
Fixpoint flist (m : mem) (p : Z) (l : list Z) : Prop :=
  match l with
  | [] => p = 0
  | x :: l => p = x /\ flist m (ld32 m (x + 0)) l
  end.

(** The pool of packet buffers has the free elements [l], in this order. *)
Record pool (s : net) (l : list Z) : Prop := {
  po_list : flist (nmem s) (tab s MEMP_PBUF_POOL) l;
  po_elem : Forall elem_ok l;
  po_spaced : spaced l;
}.

Lemma flist_ext m m' l : forall p, flist m p l -> Forall (fun x => same_struct m m' x) l -> flist m' p l.
Proof.
  induction l as [|x l IH]; intros p; [done|]. intros [-> H] [Hs Hss]%Forall_cons. split; [done|]. replace (ld32 m' (x + 0)) with (ld32 m (x + 0)); [by apply IH|].
  apply ld32_ext. intros i Hi. symmetry. apply Hs. lia.
Qed.

(** Memory that differs only in the structure at [x]. *)
Definition at_struct (x : Z) (m m' : mem) : Prop := forall y, y < x \/ x + 16 <= y -> ld8 m' y = ld8 m y.

Lemma clear_struct x y m m' : clear_of x y -> at_struct x m m' -> same_struct m m' y.
Proof. intros H Ha z Hz. apply Ha. unfold clear_of in H. lia. Qed.

Lemma clear_structs x l m m' : Forall (clear_of x) l -> at_struct x m m' -> Forall (fun y => same_struct m m' y) l.
Proof. intros H Ha. apply (Forall_impl _ _ _ H). intros y Hy. by apply (clear_struct x). Qed.

Lemma memp_malloc_some s x l : pool s (x :: l) -> memp_malloc MEMP_PBUF_POOL s = Ret x (set_tab MEMP_PBUF_POOL (ld32 (nmem s) (x + 0)) s) /\ pool (set_tab MEMP_PBUF_POOL (ld32 (nmem s) (x + 0)) s) l.
Proof.
  intros [[Ht Hl] [[Hx [Ha Hr]] He]%Forall_cons [Hc Hs]]. split.
  - unfold memp_malloc. change (MEMP_PBUF_POOL <? MEMP_MAX) with true. mstep reflexivity. mstep reflexivity. rewrite Ht. rewrite (proj2 (Z.eqb_neq x 0)) by lia. cbn [negb].
    mstep (by apply peek_run). mstep reflexivity. unfold MEM_ALIGNMENT. rewrite Ha. mstep reflexivity. unfold ret, MEMP_SIZE. rewrite Z.add_0_r, u32_small by lia. done.
  - split; [|done|done]. unfold tab, set_tab. cbn [memp_tab]. rewrite lookup_insert_eq. exact Hl.
Qed.

Lemma memp_malloc_none s : pool s [] -> memp_malloc MEMP_PBUF_POOL s = Ret 0 s.
Proof. intros [Ht _ _]. cbn in Ht. unfold memp_malloc. mstep reflexivity. mstep reflexivity. by rewrite Ht. Qed.

Lemma memp_free_run s x l :
  pool s l -> elem_ok x -> Forall (clear_of x) l -> let m' := st32 (nmem s) (x + 0) (tab s MEMP_PBUF_POOL) in
  memp_free MEMP_PBUF_POOL x s = Ret tt (set_tab MEMP_PBUF_POOL x (set_nmem m' s)) /\ pool (set_tab MEMP_PBUF_POOL x (set_nmem m' s)) (x :: l) /\ at_struct x (nmem s) m'.
Proof.
  intros [Ht He Hs] (Hx & Ha & Hr) Hc m'. assert (at_struct x (nmem s) m') as Hat by (intros y Hy; apply ld8_st32_ne; lia). split; [|split; [|done]].
  - unfold memp_free. rewrite (proj2 (Z.eqb_neq x 0)) by lia. unfold MEM_ALIGNMENT, MEMP_SIZE. rewrite Ha. mstep reflexivity. rewrite Z.sub_0_r, u32_small by lia. mstep reflexivity. mstep (by apply poke_run). reflexivity.
  - split; [|by constructor|by split]. unfold tab, set_tab. cbn [memp_tab]. rewrite lookup_insert_eq. split; [done|]. change (nmem (mkNet _ _)) with m'. replace (ld32 m' (x + 0)) with (u32 (tab s MEMP_PBUF_POOL)) by (unfold m'; by rewrite ld32_st32_eq).
    apply (flist_ext (nmem s)); [|by apply (clear_structs x)]. destruct l as [|y l]; [cbn in *; by rewrite Ht|]. destruct Ht as [-> Ht]. split; [|done]. apply u32_small. apply Forall_cons in He as [(? & ? & ?) _]. lia.
Qed.

(** ** [memp_init] *)

(** Consecutive elements. *)
Fixpoint elems (n : nat) (p : Z) : list Z :=
  match n with
  | O => []
  | S n => p :: elems n (p + 2016)
  end.

Lemma align_mod x : LWIP_MEM_ALIGN_SIZE x mod 4 = 0.
Proof. unfold LWIP_MEM_ALIGN_SIZE. change 4 with (2 ^ 2). rewrite <- Z.land_ones, <- Z.land_assoc by lia. apply Z.land_0_r. Qed.

Section Init.
Context `{Pools}.

Lemma memp_sizes_ok type : 0 <= memp_sizes type < 2 ^ 16 /\ memp_sizes type mod 4 = 0.
Proof. split; [apply u16_range|]. unfold memp_sizes, u16. match goal with |- context [MEMP_ALIGN_SIZE ?x mod _] => pose proof (align_mod x) as E; unfold MEMP_ALIGN_SIZE at 1; revert E; generalize (LWIP_MEM_ALIGN_SIZE x) end. intros z. zdm. Qed.

Lemma carve_run type n : forall p s, 0 < p -> p + Z.of_nat n * memp_sizes type < 2 ^ 32 -> exists s', carve n type p s = Ret (p + Z.of_nat n * memp_sizes type) s'.
Proof.
  induction n as [|n IH]; intros p s Hp He; cbn [carve]; [exists s; unfold ret; f_equal; lia|]. destruct (memp_sizes_ok type) as [Hs _].
  destruct (IH (p + memp_sizes type) (set_tab type p (set_nmem (st32 (nmem s) (p + 0) (tab s type)) s))) as (s' & Hrun); [lia|lia|]. exists s'. mstep reflexivity. mstep (by apply poke_run). mstep reflexivity.
  unfold MEMP_SIZE. replace (p + 0 + memp_sizes type) with (p + memp_sizes type) by lia. rewrite u32_small by lia. rewrite Hrun. f_equal. lia.
Qed.

Lemma pools_size_ok nums : forall type, Forall (fun n => 0 <= n) nums -> 0 <= pools_size nums type /\ pools_size nums type mod 4 = 0.
Proof.
  induction nums as [|n nums IH]; intros type Hn; [done|]. apply Forall_cons in Hn as [Hn Hns]. cbn [pools_size]. destruct (IH (type + 1) Hns) as [Hnn Hm]. destruct (memp_sizes_ok type) as [Hs Hs4]. unfold MEMP_SIZE. rewrite Z.add_0_l.
  split; [nia|]. by rewrite Z.add_mod, Hm, Z.mul_mod, Hs4, Z.mul_0_r by lia.
Qed.

Lemma carve_others nums rest : forall type p s,
  Forall (fun n => 0 <= n) nums -> 0 < p -> p + pools_size nums type < 2 ^ 32 ->
  exists s', carve_pools (nums ++ rest) type p s = carve_pools rest (type + Z.of_nat (length nums)) (p + pools_size nums type) s'.
Proof.
  induction nums as [|n nums IH]; intros type p s Hn Hp He; cbn [app carve_pools pools_size length] in *; [exists s; by rewrite !Z.add_0_r|]. apply Forall_cons in Hn as [Hn Hns].
  destruct (memp_sizes_ok type) as [Hs Hs4]. change MEMP_SIZE with 0 in *. rewrite Z.add_0_l in *. assert (0 <= n * memp_sizes type) as Hpos by nia. destruct (pools_size_ok nums (type + 1) Hns) as [Hnn _].
  destruct (carve_run type (Z.to_nat n) p (set_tab type 0 s) Hp) as (s1 & Hrun); [rewrite Z2Nat.id by done; lia|]. rewrite Z2Nat.id in Hrun by done.
  destruct (IH (type + 1) (p + n * memp_sizes type) s1 Hns) as (s' & Hrun'); [lia|lia|]. exists s'. mstep reflexivity. mstep (exact Hrun). rewrite Hrun'. f_equal; lia.
Qed.

Lemma carve_pool n : forall p s fl, pool s fl -> Forall (fun x => x + 2016 <= p) fl -> 0 < p -> p mod 4 = 0 -> p + Z.of_nat n * 2016 < 2 ^ 32 ->
  exists s', carve n MEMP_PBUF_POOL p s = Ret (p + Z.of_nat n * 2016) s' /\ pool s' (rev (elems n p) ++ fl).
Proof.
  induction n as [|n IH]; intros p s fl Hpool Hfl Hp Ha He; cbn [carve]; [exists s; split; [unfold ret; f_equal; lia|done]|].
  assert (elem_ok p) as Hok by (split; [done|split; [done|lia]]). assert (Forall (clear_of p) fl) as Hcl by (apply (Forall_impl _ _ _ Hfl); unfold clear_of; lia).
  destruct (memp_free_run s p fl Hpool Hok Hcl) as (_ & Hp1 & _). set (s1 := set_tab _ _ _) in *. destruct (IH (p + 2016) s1 (p :: fl) Hp1) as (s' & Hrun & Hp'); [|lia|clear -Ha; zdm|lia|].
  - constructor; [lia|]. apply (Forall_impl _ _ _ Hfl). lia.
  - exists s'. split; [|cbn [elems rev]; by rewrite <- app_assoc]. mstep reflexivity. mstep (by apply poke_run). mstep reflexivity. change (memp_sizes MEMP_PBUF_POOL) with 2016. unfold MEMP_SIZE. replace (p + 0 + 2016) with (p + 2016) by lia. rewrite u32_small by lia. fold s1. rewrite Hrun. f_equal. lia.
Qed.

(** After [memp_init] the pool of packet buffers has its 512 elements, at the end of the array, all free. *)
Theorem memp_init_pool s :
  0 < sym_memp_memory -> sym_memp_memory + sizeof_memp_memory < 2 ^ 32 ->
  exists s' base, memp_init s = Ret tt s' /\ pool s' (rev (elems 512 base)) /\ sym_memp_memory <= base /\ base + 512 * 2016 <= sym_memp_memory + sizeof_memp_memory.
Proof.
  intros Hp He. unfold sizeof_memp_memory, MEM_ALIGNMENT in *. set (nums := [4; 8; 32; 16; MEMP_NUM_TCP_SEG; 5; 128; 32; 8; 8; 30; 6; MEMP_NUM_PBUF]). assert (Forall (fun n => 0 <= n) nums) as Hn by (repeat constructor; by vm_compute).
  assert (pools_size memp_num 0 = pools_size nums 0 + 512 * 2016) as Esz.
  { unfold memp_num, nums. cbn [pools_size]. change (memp_sizes (0 + 1 + 1 + 1 + 1 + 1 + 1 + 1 + 1 + 1 + 1 + 1 + 1 + 1)) with 2016. change PBUF_POOL_SIZE with 512. unfold MEMP_SIZE. lia. }
  destruct (pools_size_ok nums 0 Hn) as [Hnn H4].
  set (p0 := LWIP_MEM_ALIGN sym_memp_memory). assert (p0 = (sym_memp_memory + 3) / 4 * 4) as Ep0 by (apply align_size; lia). assert (sym_memp_memory <= p0 <= sym_memp_memory + 3 /\ p0 mod 4 = 0) as [Hp0 Ha] by (rewrite Ep0; clear; zdm).
  destruct (carve_others nums [PBUF_POOL_SIZE] 0 p0 s Hn) as (s1 & Hrun); [lia|lia|]. set (base := p0 + pools_size nums 0) in *.
  destruct (carve_pool 512 base (set_tab MEMP_PBUF_POOL 0 s1) []) as (s' & Hrun' & Hpool); [split; [unfold tab, set_tab; cbn [memp_tab]; by rewrite lookup_insert_eq|done|done]|done|lia|unfold base; rewrite Z.add_mod, Ha, H4 by lia; done|lia|].
  exists s', base. rewrite app_nil_r in Hpool. split; [|split; [done|lia]]. unfold memp_init. change memp_num with (nums ++ [PBUF_POOL_SIZE]). fold p0. rewrite (bind_ret _ _ _ (base + Z.of_nat 512 * 2016) s'); [done|]. rewrite Hrun.
  change (0 + Z.of_nat (length nums)) with MEMP_PBUF_POOL. cbn [carve_pools]. mstep reflexivity. change (Z.to_nat PBUF_POOL_SIZE) with 512%nat. mstep (exact Hrun'). done.
Qed.
End Init.

(** ** [pbuf_free] *)

(** A buffer of the pool that is referenced once. *)
Definition pool_buf (b : pb) : Prop := b.(b_type) = PBUF_POOL /\ elem_ok b.(b_addr).

Definition addrs (l : list pb) : list Z := map b_addr l.

Lemma addrs_forall (P : Z -> Prop) l : Forall P (addrs l) <-> Forall (fun b => P b.(b_addr)) l.
Proof. unfold addrs. by rewrite Forall_map. Qed.

Lemma set_ref_cell s b next tot v :
  0 < b.(b_addr) -> cell (nmem s) b next tot -> 0 <= v < 2 ^ 16 -> let m' := st16 (nmem s) (b.(b_addr) + 14) v in
  set_p_ref b.(b_addr) v s = Ret tt (set_nmem m' s) /\ cell m' (mkPb b.(b_addr) b.(b_payload) b.(b_len) b.(b_type) v) next tot /\ at_struct b.(b_addr) (nmem s) m'.
Proof.
  intros Hp [H1 H2 H3 H4 H5 H6] Hv m'. split; [by apply poke_run|]. split; [|intros y Hy; apply ld8_st16_ne; lia].
  unfold m'. split; cbn [b_addr b_payload b_len b_type b_ref]; fld; try done. by apply u16_small.
Qed.

(** Memory outside the structures of [l]. *)
Definition outside (l : list Z) (m m' : mem) : Prop := forall y, Forall (fun x => y < x \/ x + 16 <= y) l -> ld8 m' y = ld8 m y.

Lemma outside_trans l m1 m2 m3 : outside l m1 m2 -> outside l m2 m3 -> outside l m1 m3.
Proof. intros H1 H2 y Hy. by rewrite H2, H1. Qed.

Lemma outside_mono l l' m m' : outside l m m' -> l ⊆ l' -> outside l' m m'.
Proof. intros H Hs y Hy. apply H. rewrite Forall_forall in *. intros x Hx. apply Hy. by apply Hs. Qed.

Lemma outside_at x l m m' : at_struct x m m' -> x ∈ l -> outside l m m'.
Proof. intros H Hx y Hy. apply H. rewrite Forall_forall in Hy. by apply Hy. Qed.

(** A turn of the loop that frees the buffer. *)
Lemma free_one s b fl next t fuel count :
  0 < b.(b_addr) -> cell (nmem s) b next t -> pool_buf b -> b.(b_ref) = 1 -> pool s fl -> Forall (clear_of b.(b_addr)) fl ->
  exists s', free_from (S fuel) b.(b_addr) count s = free_from fuel next (u8 (count + 1)) s' /\ pool s' (b.(b_addr) :: fl) /\ at_struct b.(b_addr) (nmem s) (nmem s') /\
    s'.(n_heap) = set_h_mem (nmem s') s.(n_heap).
Proof.
  intros Hp0 Hc [Hty He] Href Hp Hcl. cbn [free_from]. rewrite (proj2 (Z.eqb_neq b.(b_addr) 0)) by lia.
  mstep (exact (p_ref_run s b _ _ Hp0 Hc)). rewrite Href. mstep reflexivity. destruct (set_ref_cell s b _ _ 0 Hp0 Hc ltac:(lia)) as (Hr1 & Hc1 & Hat1). set (m1 := st16 _ _ _) in *. change (1 - 1) with 0. mstep (exact Hr1).
  set (s1 := set_nmem m1 s) in *. set (b1 := mkPb _ _ _ _ _) in *. mstep (exact (p_ref_run s1 b1 _ _ Hp0 Hc1)). change (b_ref b1 =? 0) with true. cbv iota. mstep (exact (p_next_run s1 b1 _ _ Hp0 Hc1)). mstep (exact (p_type_run s1 b1 _ _ Hp0 Hc1)).
  cbn [b1 b_type]. rewrite Hty. change (PBUF_POOL =? PBUF_POOL) with true. cbv iota.
  assert (pool s1 fl) as Hp1 by (destruct Hp as [Ht He' Hs']; split; [|done|done]; apply (flist_ext (nmem s)); [exact Ht|by apply (clear_structs b.(b_addr))]).
  destruct (memp_free_run s1 b.(b_addr) fl Hp1 He Hcl) as (Hr2 & Hp2 & Hat2). eexists. split; [mstep (exact Hr2); reflexivity|]. split; [exact Hp2|]. split; [|done].
  intros y Hy. change (nmem (set_tab _ _ _)) with (st32 (nmem s1) (b.(b_addr) + 0) (tab s1 MEMP_PBUF_POOL)). by rewrite Hat2, Hat1.
Qed.

(** What is left of a chain whose first buffer lost a reference. *)
Definition deref (l : list pb) : list pb :=
  match l with
  | [] => []
  | b :: l => mkPb b.(b_addr) b.(b_payload) b.(b_len) b.(b_type) (b.(b_ref) - 1) :: l
  end.

Definition clear_structs_of (l : list pb) (x : Z) : Prop := Forall (fun b => x + 16 <= b.(b_addr) \/ b.(b_addr) + 16 <= x) l.

Lemma lseg_at m m' l x : forall t e, lseg m l t e -> clear_structs_of l x -> at_struct x m m' -> lseg m' l t e.
Proof. intros t e Hl Hx Ha. apply (lseg_ext m); [done|]. apply (Forall_impl _ _ _ Hx). intros b Hb y Hy. apply Ha. lia. Qed.

(** The last turn: the chain is at its end, or its next buffer stays. *)
Lemma free_stop l s fuel fl t count :
  lseg (nmem s) l t 0 -> match l with [] => True | b :: l => 1 < b.(b_ref) /\ clear_structs_of l b.(b_addr) /\ Forall (fun x => x + 16 <= b.(b_addr) \/ b.(b_addr) + 16 <= x) fl end -> pool s fl ->
  exists s', free_from (S fuel) (first l) count s = Ret count s' /\ lseg (nmem s') (deref l) t 0 /\ pool s' fl /\ outside (addrs l) (nmem s) (nmem s') /\ s'.(n_heap) = set_h_mem (nmem s') s.(n_heap).
Proof.
  destruct l as [|b l]; intros Hl Hb Hp; [exists s; split; [done|]; split; [done|]; split; [done|]; split; [done|by destruct s as [[]]]|].
  destruct Hl as (Hp0 & Hp1 & Hc & Hl). destruct Hb as (Href & Hcl & Hfl). cbn [free_from first]. rewrite (proj2 (Z.eqb_neq b.(b_addr) 0)) by lia.
  assert (b.(b_ref) < 2 ^ 16) as Hmax by (rewrite <- (c_ref _ _ _ _ Hc); apply ld16_range). destruct (set_ref_cell s b _ _ (b.(b_ref) - 1) Hp0 Hc ltac:(lia)) as (Hr1 & Hc1 & Hat1).
  set (m1 := st16 _ _ _) in *. set (s1 := set_nmem m1 s) in *. exists s1. split; [|split; [|split; [|split]]].
  - mstep (exact (p_ref_run s b _ _ Hp0 Hc)). rewrite (proj2 (Z.ltb_lt 0 b.(b_ref))) by lia. mstep reflexivity. mstep (exact Hr1). mstep (exact (p_ref_run s1 (mkPb b.(b_addr) b.(b_payload) b.(b_len) b.(b_type) (b.(b_ref) - 1)) _ _ Hp0 Hc1)). cbn [b_ref]. rewrite (proj2 (Z.eqb_neq _ 0)) by lia. done.
  - split; [done|]. split; [done|]. split; [exact Hc1|]. by apply (lseg_at (nmem s) m1 l b.(b_addr)).
  - destruct Hp as [Ht He Hs]. split; [|done|done]. apply (flist_ext (nmem s)); [exact Ht|]. apply (Forall_impl _ _ _ Hfl). intros x Hx y Hy. apply Hat1. lia.
  - apply (outside_at b.(b_addr)); [exact Hat1|left].
  - done.
Qed.

(** The structures of the chain and of the free elements are apart. *)
Definition structs_apart (x : Z) (l : list Z) : Prop := Forall (fun y => x + 16 <= y \/ y + 16 <= x) l.

(** The buffers [l1] referenced once go back to the pool, the last one first, and the rest [l2] loses one reference. *)
Lemma free_run l1 l2 : forall fuel s fl t count,
  lseg (nmem s) (l1 ++ l2) t 0 -> Forall (fun b => pool_buf b /\ b.(b_ref) = 1) l1 ->
  match l2 with [] => True | b :: l => 1 < b.(b_ref) /\ structs_apart b.(b_addr) (addrs l) end ->
  pool s fl -> spaced (addrs l1 ++ fl) -> Forall (fun b => structs_apart b.(b_addr) (addrs l1 ++ fl)) l2 -> (length l1 < fuel)%nat -> 0 <= count < 256 ->
  exists s', free_from fuel (first (l1 ++ l2)) count s = Ret (u8 (count + Z.of_nat (length l1))) s' /\ lseg (nmem s') (deref l2) (t - total l1) 0 /\
    pool s' (rev (addrs l1) ++ fl) /\ outside (addrs (l1 ++ l2)) (nmem s) (nmem s') /\ s'.(n_heap) = set_h_mem (nmem s') s.(n_heap).
Proof.
  induction l1 as [|b l1 IH]; intros fuel s fl t count Hl Hb Hb2 Hp Hs Hap Hf Hcn; (destruct fuel as [|fuel]; [cbn in Hf; lia|]).
  { cbn [app] in *. destruct (free_stop l2 s fuel fl t count Hl) as (s' & Hrun & Hl' & Hp' & Ho & Hh); [|done|].
    - destruct l2 as [|b l]; [done|]. apply Forall_cons in Hap as [Hap _]. destruct Hb2 as [Href Hcl]. split; [done|]. split; [|apply (Forall_impl _ _ _ Hap); intros x; lia]. by apply addrs_forall in Hcl.
    - exists s'. rewrite Hrun. cbn [length Z.of_nat]. rewrite Z.add_0_r, u8_small by done. cbn [total foldr]. rewrite Z.sub_0_r. done. }
  cbn [app lseg] in Hl. destruct Hl as (Hp0 & _ & Hc & Hl). apply Forall_cons in Hb as [[Hpb Href] Hb]. cbn [addrs map app pairwise length] in Hs, Hf, Hap. fold (addrs l1) in *. destruct Hs as [Hcl Hs]. pose proof Hcl as [Hcl1 Hcl2]%Forall_app.
  destruct (free_one s b fl _ _ fuel count Hp0 Hc Hpb Href Hp Hcl2) as (s1 & Hrun1 & Hp1 & Hat & Hh1).
  assert (clear_structs_of (l1 ++ l2) b.(b_addr)) as Hx.
  { apply Forall_app. split; [|apply (Forall_impl _ _ _ Hap); intros c [Hcc _]%Forall_cons; lia]. apply addrs_forall in Hcl1. apply (Forall_impl _ _ _ Hcl1). unfold clear_of. cbn. lia. }
  destruct (IH fuel s1 (b.(b_addr) :: fl) (t - b.(b_len)) (u8 (count + 1))) as (s' & Hrun & Hl' & Hp' & Ho & Hh); try done.
  - by apply (lseg_at (nmem s) _ _ b.(b_addr)).
  - rewrite <- Permutation_middle. by split.
  - apply (Forall_impl _ _ _ Hap). intros c Hcc. unfold structs_apart in *. by rewrite <- Permutation_middle.
  - lia.
  - apply u8_range.
  - exists s'. cbn [app first length addrs map rev total foldr]. fold (addrs l1) (total l1) (addrs (l1 ++ l2)). rewrite Hrun1. replace (first_or (l1 ++ l2) 0) with (first (l1 ++ l2)) by done. rewrite Hrun. split; [|split; [|split; [|split]]].
    + f_equal. rewrite Nat2Z.inj_succ. unfold u8. rewrite Zplus_mod_idemp_l. f_equal. lia.
    + replace (t - (b.(b_len) + total l1)) with (t - b.(b_len) - total l1) by lia. done.
    + by rewrite <- app_assoc.
    + apply (outside_trans _ _ (nmem s1)); [apply (outside_at b.(b_addr)); [done|left]|]. apply (outside_mono (addrs (l1 ++ l2))); [done|]. by apply list_subseteq_cons.
    + rewrite Hh, Hh1. done.
Qed.

(** ** [pbuf_alloc] *)

(** A buffer linked behind the last one of a chain. *)
Lemma lseg_snoc m m' l r b t e :
  lseg m (l ++ [r]) t 0 -> spaced (addrs (l ++ [r]) ++ [b.(b_addr)]) -> 0 < b.(b_addr) -> b.(b_addr) + 16 <= 2 ^ 32 -> cell m' b e (t - total (l ++ [r])) ->
  ld32 m' (r.(b_addr) + 0) = b.(b_addr) -> (forall y, y < r.(b_addr) \/ r.(b_addr) + 4 <= y -> y < b.(b_addr) \/ b.(b_addr) + 16 <= y -> ld8 m' y = ld8 m y) ->
  lseg m' (l ++ [r] ++ [b]) t e.
Proof.
  intros Hl Hs Hb0 Hb1 Hb Hr Hm. rewrite Permutation_app_comm in Hs. cbn [app pairwise] in Hs. destruct Hs as [Hcb Hs]. unfold addrs in Hs. rewrite map_app, Permutation_app_comm in Hs. destruct Hs as [Hcr _].
  apply addrs_forall, Forall_app in Hcb as [Hcb [Hcbr _]%Forall_cons]. apply addrs_forall in Hcr. apply lseg_app in Hl as [Hl (Hr0 & Hr1 & Hcr' & _)].
  apply lseg_app. cbn [app first_or lseg]. split.
  - apply (lseg_ext m); [done|]. apply Forall_forall. intros c Hc. rewrite Forall_forall in Hcb, Hcr. specialize (Hcb c Hc). specialize (Hcr c Hc). unfold clear_of in *. intros y Hy. apply Hm; lia.
  - unfold clear_of in Hcbr. split; [done|]. split; [done|]. rewrite total_app in Hb. cbn [total foldr] in Hb. split; [|split; [done|split; [done|]]; replace (t - total l - r.(b_len)) with (t - (total l + (r.(b_len) + 0))) by lia; done].
    destruct Hcr' as [H1 H2 H3 H4 H5 H6]. split; [done|rewrite <- H2|rewrite <- H3|rewrite <- H4|rewrite <- H5|rewrite <- H6].
    1: apply ld32_ext; intros i Hi; apply Hm; lia. 1, 2, 4: apply ld16_ext; intros i Hi; apply Hm; lia. apply Hm; lia.
Qed.

(** The buffer made of the element [q] for at most [rem] bytes. *)
Definition tail_buf (q rem : Z) : pb := mkPb q (q + 16) (Z.min rem 2000) PBUF_POOL 1.

Lemma assert_aligned_run s p : 0 < p -> ld32 (nmem s) (p + 4) mod 4 = 0 -> assert_aligned p s = Ret tt s.
Proof. intros Hp Ha. unfold assert_aligned, p_payload, MEM_ALIGNMENT. mstep (by apply peek_run). rewrite Ha. done. Qed.

Lemma assert_inside_run s p : 0 < p -> p + 2016 < 2 ^ 32 -> ld32 (nmem s) (p + 4) + ld16 (nmem s) (p + 10) <= p + 2016 -> assert_inside p s = Ret tt s.
Proof.
  intros Hp Hp1 Hin. unfold assert_inside, p_payload, p_len. do 2 mstep (by apply peek_run). change (p + SIZEOF_STRUCT_PBUF + PBUF_POOL_BUFSIZE_ALIGNED) with (p + 16 + 2000).
  pose proof (ld32_range (nmem s) (p + 4)). pose proof (ld16_range (nmem s) (p + 10)). rewrite !u32_small by lia. rewrite (proj2 (Z.leb_le _ _)) by lia. done.
Qed.

Lemma alloc_turn fuel ffuel s l r q fl t p pp plen :
  let rem := t - total (l ++ [r]) in
  pool s (q :: fl) -> lseg (nmem s) (l ++ [r]) t 0 -> spaced (addrs (l ++ [r]) ++ q :: fl) -> 0 < rem < 65535 ->
  p ∈ addrs (l ++ [r]) -> 0 < p -> p + 2016 < 2 ^ 32 -> ld32 (nmem s) (p + 4) = pp -> ld16 (nmem s) (p + 10) = plen -> pp + plen <= p + 2016 ->
  exists s', alloc_tail (S fuel) ffuel p r.(b_addr) rem s = alloc_tail fuel ffuel p q (rem - Z.min rem 2000) s' /\
    lseg (nmem s') ((l ++ [r]) ++ [tail_buf q rem]) t 0 /\ pool s' fl /\ outside (addrs (l ++ [r]) ++ [q]) (nmem s) (nmem s') /\ s'.(n_heap) = set_h_mem (nmem s') s.(n_heap) /\
    ld32 (nmem s') (p + 4) = pp /\ ld16 (nmem s') (p + 10) = plen.
Proof.
  intros rem Hp Hl Hs Hrem Hpin Hp0 Hp1 Hpp Hpl Hin. pose proof Hp as [_ [(Hq0 & Hqa & Hq1) He]%Forall_cons _]. destruct (memp_malloc_some s q fl Hp) as [Hmal Hpool1].
  set (s1 := set_tab _ _ _) in *. change (nmem s1) with (nmem s) in *. cbn [alloc_tail]. rewrite (proj2 (Z.ltb_lt 0 rem)) by lia. mstep (exact Hmal). rewrite (proj2 (Z.eqb_neq q 0)) by lia.
  assert (Forall (clear_of q) (addrs (l ++ [r])) /\ Forall (clear_of q) fl /\ spaced (addrs (l ++ [r]))) as (Hq & Hqf & Hsl).
  { rewrite <- Permutation_middle in Hs. destruct Hs as [[H1 H2]%Forall_app Hs]. split; [done|]. split; [done|]. by apply pairwise_app in Hs as [Hs _]. }
  assert (0 < r.(b_addr) /\ clear_of q r.(b_addr)) as [Hr0 Hqr].
  { apply lseg_app in Hl as [_ (Hr0 & _)]. split; [done|]. apply addrs_forall, Forall_app in Hq as [_ [Hq _]%Forall_cons]. done. }
  assert (clear_of q p) as Hqp by (rewrite Forall_forall in Hq; by apply Hq).
  assert (p = r.(b_addr) \/ clear_of p r.(b_addr)) as Hpr.
  { unfold addrs in Hpin, Hsl. rewrite map_app in Hpin, Hsl. apply elem_of_app in Hpin as [Hpin| ->%list_elem_of_singleton]; [|by left]. right. apply pairwise_app in Hsl as (_ & _ & Hsl). by apply Hsl; [|left]. }
  unfold clear_of in Hqr, Hqp, Hpr.
  do 4 mstep (by apply poke_run). rewrite (proj2 (Z.ltb_lt rem 0xffff)) by lia. mstep reflexivity. do 3 mstep (by apply poke_run). rewrite (u16_small rem) by lia. change PBUF_POOL_BUFSIZE_ALIGNED with 2000. change SIZEOF_STRUCT_PBUF with 16. rewrite (u32_small (q + 16)) by lia.
  set (len := Z.min rem 2000) in *. rewrite !set_nmem_set, !nmem_set. set (m := st32 _ (q + 4) _).
  assert (ld32 m (q + 4) = q + 16 /\ ld32 m (p + 4) = pp /\ ld16 m (p + 10) = plen) as (F1 & F2 & F3).
  { unfold m. split; [fld; apply u32_small; lia|]. destruct Hpr as [<-|Hpr]; split; fld; done. }
  mstep (apply assert_aligned_run; [done|]; rewrite nmem_set, F1; clear -Hqa; zdm). mstep (apply assert_inside_run; rewrite ?nmem_set, ?F2, ?F3; done). mstep (by apply poke_run). rewrite nmem_set, set_nmem_set.
  set (m' := st16 m (q + 14) 1). assert (cell m' (tail_buf q rem) 0 rem) as Hcell.
  { unfold m', m. split; cbn [tail_buf b_addr b_payload b_len b_type b_ref]; fld; try done; try (apply u32_small; lia); apply u16_small; lia. }
  mstep (exact (p_len_run (set_nmem m' s1) (tail_buf q rem) 0 rem Hq0 Hcell)). exists (set_nmem m' s1). split; [done|]. rewrite !nmem_set.
  assert (forall y, y < r.(b_addr) \/ r.(b_addr) + 4 <= y -> y < q \/ q + 16 <= y -> ld8 m' y = ld8 (nmem s) y) as Hout by (intros y Hy1 Hy2; unfold m', m; by fld).
  split; [|split; [|split; [|split; [done|]]]].
  - rewrite <- app_assoc. apply (lseg_snoc (nmem s)); try done; [|cbn [tail_buf b_addr]; lia|unfold m', m; cbn [tail_buf b_addr]; fld; apply u32_small; lia]. apply pairwise_app. split; [done|]. split; [by split|]. intros x y Hx ->%list_elem_of_singleton. symmetry. rewrite Forall_forall in Hq. by apply Hq.
  - destruct Hpool1 as [Hfl Hel Hsp]. split; [|done|done]. change (flist m' (tab s1 MEMP_PBUF_POOL) fl). apply (flist_ext (nmem s)); [exact Hfl|].
    apply Forall_forall. intros x Hx y Hy. apply Hout.
    + apply pairwise_app in Hs as (_ & _ & Hs). assert (clear_of r.(b_addr) x) as Hcx by (apply Hs; [unfold addrs; rewrite map_app; apply elem_of_app; right; left|by right]). unfold clear_of in Hcx. lia.
    + rewrite Forall_forall in Hqf. specialize (Hqf x Hx). unfold clear_of in Hqf. lia.
  - intros y Hy. apply Forall_app in Hy as [Hy [Hy2 _]%Forall_cons]. apply Hout; [|lia]. apply addrs_forall, Forall_app in Hy as [_ [Hy _]%Forall_cons]. lia.
  - unfold m'. split; fld; done.
Qed.

(** A buffer as [pbuf_alloc] makes it: one reference, data inside the element. *)
Definition fresh_buf (b : pb) : Prop := pool_buf b /\ b.(b_ref) = 1 /\ b.(b_addr) + 16 <= b.(b_payload) /\ b.(b_payload) + b.(b_len) <= b.(b_addr) + 2016.

(** A chain under construction: [l] and [fl] are apart. *)
Record building (s : net) (l : list pb) (fl : list Z) (t : Z) : Prop := {
  bu_pool : pool s fl;
  bu_seg : lseg (nmem s) l t 0;
  bu_fresh : Forall fresh_buf l;
  bu_spaced : spaced (addrs l ++ fl);
}.

(** Only the structures of the elements [l] changed. *)
Definition only_pool (l : list Z) (s s' : net) : Prop := outside l (nmem s) (nmem s') /\ s'.(n_heap) = set_h_mem (nmem s') s.(n_heap).

Lemma only_pool_trans l s1 s2 s3 : only_pool l s1 s2 -> only_pool l s2 s3 -> only_pool l s1 s3.
Proof. intros [H1 E1] [H2 E2]. split; [by apply (outside_trans _ _ (nmem s2))|]. by rewrite E2, E1. Qed.

Lemma only_pool_mono l l' s s' : only_pool l s s' -> l ⊆ l' -> only_pool l' s s'.
Proof. intros [H E] Hs. split; [by apply (outside_mono l)|done]. Qed.

Lemma only_pool_refl l s : only_pool l s s.
Proof. split; [done|by destruct s as [[]]]. Qed.

Lemma addrs_app l l' : addrs (l ++ l') = addrs l ++ addrs l'.
Proof. apply map_app. Qed.

(** The elements [rem] more bytes take. *)
Definition need (rem : Z) : Z := (rem + 1999) / 2000.

Lemma need_step rem : 0 < rem -> need rem = 1 + need (rem - Z.min rem 2000).
Proof. intros H. unfold need. zdm. Qed.

Lemma pbuf_free_all fuel s l fl t :
  l <> [] -> building s l fl t -> (length l < fuel)%nat ->
  exists s', pbuf_free fuel (first l) s = Ret (u8 (Z.of_nat (length l))) s' /\ pool s' (rev (addrs l) ++ fl) /\ only_pool (addrs l) s s'.
Proof.
  intros Hne [Hp Hl Hb Hs] Hf. destruct (free_run l [] fuel s fl t 0) as (s' & Hrun & _ & Hp' & Ho & Hh); try done.
  - by rewrite app_nil_r.
  - apply (Forall_impl _ _ _ Hb). intros b (H1 & H2 & _). done.
  - exists s'. rewrite app_nil_r in *. split; [|by split; [|split]]. unfold pbuf_free. destruct l as [|b l]; [done|]. destruct Hl as (Hp0 & _ & Hc & _). apply Forall_cons in Hb as [([Hty _] & _) _].
    cbn [first] in *. rewrite (proj2 (Z.eqb_neq b.(b_addr) 0)) by lia. mstep (exact (p_type_run s b _ _ Hp0 Hc)). rewrite Hty. mstep reflexivity. exact Hrun.
Qed.

Lemma building_head s l fl t :
  building s l fl t -> l <> [] -> first l ∈ addrs l /\ 0 < first l /\ first l + 2016 < 2 ^ 32 /\ ld32 (nmem s) (first l + 4) + ld16 (nmem s) (first l + 10) <= first l + 2016.
Proof.
  intros [_ Hl Hb _] Hne. destruct l as [|b l]; [done|]. destruct Hl as (Hp & _ & Hc & _). apply Forall_cons in Hb as [([_ (_ & _ & He)] & _ & _ & Hin) _]. cbn [first addrs map]. split; [left|]. split; [done|]. split; [done|].
  by rewrite (c_payload _ _ _ _ Hc), (c_len _ _ _ _ Hc).
Qed.

Lemma alloc_tail_run fuel ffuel : forall s l r fl t,
  let rem := t - total (l ++ [r]) in
  building s (l ++ [r]) fl t -> 0 <= rem < 65535 -> rem <= Z.of_nat fuel -> Z.of_nat (length (l ++ [r])) + rem < Z.of_nat ffuel ->
  exists s', only_pool (addrs (l ++ [r]) ++ fl) s s' /\
    ((exists l' fl', alloc_tail fuel ffuel (first (l ++ [r])) r.(b_addr) rem s = Ret (first (l ++ [r])) s' /\ fl = addrs l' ++ fl' /\ Z.of_nat (length l') = need rem /\
        building s' ((l ++ [r]) ++ l') fl' t /\ total ((l ++ [r]) ++ l') = t) \/
     (alloc_tail fuel ffuel (first (l ++ [r])) r.(b_addr) rem s = Ret 0 s' /\ Z.of_nat (length fl) < need rem /\ exists fl', fl' ≡ₚ addrs (l ++ [r]) ++ fl /\ pool s' fl')).
Proof.
  induction fuel as [|fuel IH]; intros s l r fl t rem Hb Hrem Hf Hff.
  { assert (rem = 0) as E by lia. exists s. split; [apply only_pool_refl|]. left. exists [], fl. cbn [alloc_tail]. rewrite E. split; [done|]. split; [done|]. split; [done|]. rewrite app_nil_r. split; [done|lia]. }
  destruct (Z.eq_dec rem 0) as [E|Hne].
  { exists s. split; [apply only_pool_refl|]. left. exists [], fl. cbn [alloc_tail]. rewrite E. split; [done|]. split; [done|]. split; [done|]. rewrite app_nil_r. split; [done|lia]. }
  destruct fl as [|q fl].
  { pose proof Hb as [Hp _ _ _]. assert (l ++ [r] <> []) as Hnn by (by destruct l). destruct (pbuf_free_all ffuel s (l ++ [r]) [] t Hnn Hb ltac:(lia)) as (s' & Hrun & Hp' & Ho). rewrite app_nil_r in *. exists s'. split; [done|]. right.
    split; [|split; [|exists (rev (addrs (l ++ [r]))); split; [by rewrite <- Permutation_rev|done]]].
    - cbn [alloc_tail]. rewrite (proj2 (Z.ltb_lt 0 rem)) by lia. mstep (by apply memp_malloc_none). cbn [Z.eqb]. mstep (exact Hrun). done.
    - cbn. rewrite need_step by lia. unfold need. zdm. }
  assert (l ++ [r] <> []) as Hnn by (by destruct l). destruct (building_head _ _ _ _ Hb Hnn) as (Hpin & Hp0 & Hp1 & Hin). destruct Hb as [Hp Hl Hfr Hsp].
  destruct (alloc_turn fuel ffuel s l r q fl t (first (l ++ [r])) _ _ Hp Hl Hsp ltac:(fold rem; lia) Hpin Hp0 Hp1 eq_refl eq_refl Hin) as (s1 & Hrun & Hl1 & Hpool1 & Ho1 & Hh1 & _). fold rem in Hrun, Hl1. set (b := tail_buf q rem) in *.
  assert (total ((l ++ [r]) ++ [b]) = total (l ++ [r]) + Z.min rem 2000) as Et by (rewrite total_app; cbn; lia).
  assert (t - total ((l ++ [r]) ++ [b]) = rem - Z.min rem 2000) as Erem by lia.
  assert (addrs ((l ++ [r]) ++ [b]) ++ fl = addrs (l ++ [r]) ++ q :: fl) as Ea by (rewrite addrs_app, <- app_assoc; done).
  assert (building s1 ((l ++ [r]) ++ [b]) fl t) as Hb1.
  { split; [done|done| |by rewrite Ea]. apply Forall_app. split; [done|]. constructor; [|done]. pose proof Hp as [_ [He _]%Forall_cons _]. split; [done|]. split; [done|]. cbn. lia. }
  destruct (IH s1 (l ++ [r]) b fl t Hb1) as (s' & Ho & Hres); [lia|lia|rewrite length_app; cbn [length]; lia|]. rewrite Erem in Hres. rewrite Ea in Ho.
  assert (first ((l ++ [r]) ++ [b]) = first (l ++ [r])) as Efirst by (by destruct l). rewrite Efirst in Hres. change (b_addr b) with q in Hres.
  exists s'. split; [apply (only_pool_trans _ _ s1); [|done]; apply (only_pool_mono (addrs (l ++ [r]) ++ [q])); [by split|]; apply list_subseteq_app_iff_l; split; [by apply list_subseteq_app_l|apply list_subseteq_app_r; apply list_subseteq_skip, list_subseteq_nil]|].
  rewrite Hrun. destruct Hres as [(l' & fl' & Hr & Efl & Hlen & Hb' & Ht')|(Hr & Hlen & fl' & Hperm & Hp')].
  - left. exists (b :: l'), fl'. replace ((l ++ [r]) ++ b :: l') with (((l ++ [r]) ++ [b]) ++ l') by (by rewrite <- app_assoc). split; [done|]. split; [by rewrite Efl|]. split; [|done]. cbn [length]. rewrite need_step by lia. lia.
  - right. split; [done|]. split; [cbn [length]; rewrite need_step by lia; lia|]. exists fl'. split; [|done]. by rewrite Hperm, addrs_app, <- app_assoc.
Qed.

(** The room for headers, rounded up. *)
Definition room (offset : Z) : Z := (offset + 3) / 4 * 4.

(** The first buffer of a packet of [length] bytes, made of the element [p]. *)
Definition head_buf (p offset length : Z) : pb := mkPb p (p + 16 + room offset) (Z.min length (2000 - room offset)) PBUF_POOL 1.

Lemma lseg_head_write m m' l t :
  lseg m l t 0 -> spaced (addrs l) -> at_struct (first l) m m' -> match l with [] => True | b :: l => forall n t, cell m b n t -> cell m' b n t end -> lseg m' l t 0.
Proof.
  destruct l as [|b l]; [done|]. intros (H1 & H2 & Hc & Hl) [Hs _] Ha Hb. split; [done|]. split; [done|]. split; [by apply Hb|]. apply (lseg_at m _ _ b.(b_addr)); [done| |done].
  apply addrs_forall in Hs. apply (Forall_impl _ _ _ Hs). unfold clear_of. intros c Hcc. lia.
Qed.

(** The last two stores of [pbuf_alloc]. *)
Lemma finish_run s l fl t :
  l <> [] -> building s l fl t -> exists s', (set_p_ref (first l) 1 ;;; set_p_flags (first l) 0 ;;; ret (first l)) s = Ret (first l) s' /\ building s' l fl t /\ only_pool (addrs l) s s'.
Proof.
  intros Hne [Hp Hl Hb Hs]. destruct l as [|b l]; [done|]. cbn [first]. pose proof Hl as (Hp0 & Hp1 & Hc & _). set (m' := st8 (st16 (nmem s) (b.(b_addr) + 14) 1) (b.(b_addr) + 13) 0).
  assert (at_struct b.(b_addr) (nmem s) m') as Hat by (intros y Hy; unfold m'; by fld). exists (set_nmem m' s). split; [|split].
  - mstep (by apply poke_run). mstep (by apply poke_run). done.
  - apply Forall_cons in Hb as [Hb1 Hb]. split; [| |by constructor|done].
    + destruct Hp as [Ht He Hsp]. split; [|done|done]. apply (flist_ext (nmem s)); [exact Ht|]. destruct Hs as [Hs _]. apply Forall_app in Hs as [_ Hs]. by apply (clear_structs b.(b_addr)).
    + apply (lseg_head_write (nmem s)); [done|by apply pairwise_app in Hs as [Hs _]|done|]. intros n t' [H1 H2 H3 H4 H5 H6]. rewrite nmem_set. unfold m'. split; fld; try done. destruct Hb1 as (_ & -> & _). done.
  - split; [|done]. apply (outside_at b.(b_addr)); [done|left].
Qed.

Lemma alloc_pool_run s fl offset length :
  pool s fl -> 0 <= offset <= 54 -> 0 <= length < 2 ^ 16 -> let rem := length - Z.min length (2000 - room offset) in
  exists s', only_pool fl s s' /\
    ((exists p l fl', alloc_pool offset length s = Ret p s' /\ fl = p :: addrs l ++ fl' /\ Z.of_nat (List.length l) = need rem /\
        building s' (head_buf p offset length :: l) fl' length /\ total (head_buf p offset length :: l) = length) \/
     (alloc_pool offset length s = Ret 0 s' /\ Z.of_nat (List.length fl) < 1 + need rem /\ exists fl', fl' ≡ₚ fl /\ pool s' fl')).
Proof.
  intros Hp Ho Hlen rem. assert (0 <= room offset <= 56 /\ offset <= room offset) as [Hroom Hor] by (unfold room; zdm). destruct fl as [|p fl].
  { exists s. split; [apply only_pool_refl|]. right. split; [unfold alloc_pool; by mstep (by apply memp_malloc_none)|]. split; [cbn; unfold need, rem; zdm|]. by exists []. }
  pose proof Hp as [_ [(Hp0 & Hpa & Hp1) He]%Forall_cons [Hcl Hs]]. destruct (memp_malloc_some s p fl Hp) as [Hmal Hpool1]. set (s1 := set_tab _ _ _) in *. change (nmem s1) with (nmem s) in *.
  set (b := head_buf p offset length). set (len := Z.min length (2000 - room offset)) in *.
  set (m' := st16 (st16 (st16 (st32 (st32 (st8 (nmem s) (p + 12) PBUF_POOL) (p + 0) 0) (p + 4) (p + 16 + room offset)) (p + 8) length) (p + 10) len) (p + 14) 1).
  assert (at_struct p (nmem s) m') as Hat by (intros y Hy; unfold m'; by fld).
  assert (cell m' b 0 length) as Hc by (unfold m'; split; cbn [b head_buf b_addr b_payload b_len b_type b_ref]; fld; try done; try (apply u32_small; lia); apply u16_small; lia).
  assert (building (set_nmem m' s1) [b] fl length) as Hb.
  { split; [|split; [done|split; [cbn; lia|done]]|constructor; [|done]; split; [done|]; split; [done|]; cbn; lia|done]. destruct Hpool1 as [Ht _ _]. split; [|done|done]. apply (flist_ext (nmem s)); [exact Ht|by apply (clear_structs p)]. }
  assert (alloc_pool offset length s = alloc_tail (Z.to_nat length) (Z.to_nat length + 2) p p rem (set_nmem m' s1)) as Hrun.
  { unfold alloc_pool. mstep (exact Hmal). rewrite (proj2 (Z.eqb_neq p 0)) by lia. do 3 mstep (by apply poke_run). change SIZEOF_STRUCT_PBUF with 16. change PBUF_POOL_BUFSIZE_ALIGNED with 2000. change LWIP_MEM_ALIGN with LWIP_MEM_ALIGN_SIZE.
    rewrite (u32_small (p + (16 + offset))), !align_size by lia. fold (room offset). replace ((p + (16 + offset) + 3) / 4 * 4) with (p + 16 + room offset) by (unfold room; clear -Hpa; zdm). rewrite !set_nmem_set, !nmem_set.
    mstep (apply assert_aligned_run; [done|]; rewrite nmem_set; fld; rewrite u32_small by lia; unfold room; clear -Hpa; zdm). do 2 mstep (by apply poke_run). rewrite !set_nmem_set, !nmem_set. fold len.
    mstep (apply assert_inside_run; [done|done|]; rewrite nmem_set; fld; rewrite u32_small, u16_small by lia; lia). mstep (by apply poke_run). rewrite !set_nmem_set, !nmem_set. fold m'.
    mstep (exact (p_len_run (set_nmem m' s1) b 0 length Hp0 Hc)). done. }
  destruct (alloc_tail_run (Z.to_nat length) (Z.to_nat length + 2) (set_nmem m' s1) [] b fl length Hb) as (s' & Ho' & Hres); cbn [app total foldr]; change (b_len b) with len; rewrite ?Z.add_0_r; [unfold rem; lia|lia|cbn; lia|].
  cbn [app total foldr first] in Hres. change (b_len b) with len in Hres. change (b_addr b) with p in Hres. rewrite Z.add_0_r in Hres. fold rem in Hres. rewrite <- Hrun in Hres.
  exists s'. split; [apply (only_pool_trans _ _ (set_nmem m' s1)); [|exact Ho']; split; [by apply (outside_at p); [|left]|done]|].
  destruct Hres as [(l' & fl' & Hr & Efl & Hn & Hb' & Ht')|(Hr & Hn & fl' & Hperm & Hp')].
  - left. exists p, l', fl'. split; [done|]. split; [by rewrite Efl|]. split; [done|]. split; [exact Hb'|exact Ht'].
  - right. split; [done|]. split; [cbn [List.length]; lia|]. by exists fl'.
Qed.

Lemma header_room_range layer offset : header_room layer = Some offset -> 0 <= offset <= 54.
Proof. unfold header_room. repeat case_match; intros [= <-]; by vm_compute. Qed.

(** C38: Allocating a packet of any length from the pool: with enough free elements the result is a chain of exactly that length made of the first
    elements of the free list, each buffer referenced once with its data inside its element, and with room for the headers in the first;
    with too few elements the result is null and every element taken is given back.  Nothing but the structures of free elements changes. *)
Theorem pbuf_alloc_chain s fl layer offset length :
  pool s fl -> header_room layer = Some offset -> 0 <= length < 2 ^ 16 ->
  let n := 1 + need (length - Z.min length (2000 - room offset)) in
  exists s', only_pool fl s s' /\
    if n <=? Z.of_nat (List.length fl) then
      exists b l fl', pbuf_alloc layer length PBUF_POOL s = Ret b.(b_addr) s' /\ fl = addrs (b :: l) ++ fl' /\ Z.of_nat (List.length (b :: l)) = n /\
        chain (nmem s') (b :: l) /\ total (b :: l) = length /\ Forall fresh_buf (b :: l) /\ b.(b_addr) + 16 + offset <= b.(b_payload) /\ pool s' fl'
    else pbuf_alloc layer length PBUF_POOL s = Ret 0 s' /\ exists fl', fl' ≡ₚ fl /\ pool s' fl'.
Proof.
  intros Hp Hroom Hlen n. pose proof (header_room_range _ _ Hroom) as Ho. unfold pbuf_alloc. rewrite Hroom. change (PBUF_POOL =? PBUF_POOL) with true. cbv iota.
  destruct (alloc_pool_run s fl offset length Hp Ho Hlen) as (s1 & Hop & Hres). set (rem := length - _) in *. destruct Hres as [(p & l & fl' & Hrun & -> & Hn & Hb & Ht)|(Hrun & Hn & fl' & Hperm & Hp')].
  - set (b := head_buf p offset length) in *. destruct (finish_run s1 (b :: l) fl' length ltac:(done) Hb) as (s' & Hfin & [Hp' Hl' Hfr Hsp] & Hop2). cbn [first] in Hfin. change (b_addr b) with p in Hfin.
    exists s'. split; [apply (only_pool_trans _ _ s1); [done|]; apply (only_pool_mono (addrs (b :: l))); [done|]; change (p :: addrs l ++ fl') with (addrs (b :: l) ++ fl'); by apply list_subseteq_app_l|].
    assert (0 < p) as Hp0 by (destruct Hl' as [Hp0 _]; exact Hp0). rewrite (proj2 (Z.leb_le _ _)) by (cbn [List.length]; unfold addrs; rewrite length_app, length_map; unfold n; lia).
    exists b, l, fl'. split; [mstep (exact Hrun); rewrite (proj2 (Z.eqb_neq p 0)) by lia; exact Hfin|]. split; [done|]. split; [cbn [List.length]; unfold n; lia|]. split; [unfold chain; rewrite Ht; exact Hl'|]. split; [done|]. split; [done|]. split; [|done]. cbn. unfold room. zdm.
  - exists s1. split; [done|]. rewrite (proj2 (Z.leb_gt _ _)) by (unfold n; lia). split; [by mstep (exact Hrun)|]. by exists fl'.
Qed.

(** ** A pool *)

(** Three free elements. *)
Definition demo_pool : net := mkNet (mkHeap (st32 (st32 (st32 ∅ 4096 8192) 8192 12288) 12288 0) 0 0 0) {[MEMP_PBUF_POOL := 4096]}.

Lemma demo_pool_ok : pool demo_pool [4096; 8192; 12288].
Proof. split; [by repeat split; vm_compute|repeat constructor; vm_compute; done|]. repeat split; repeat constructor; unfold clear_of; lia. Qed.

Lemma pbuf_alloc_chain_witness :
  exists s' b l, pbuf_alloc PBUF_TRANSPORT 5000 PBUF_POOL demo_pool = Ret b.(b_addr) s' /\ length (b :: l) = 3%nat /\ chain (nmem s') (b :: l) /\ total (b :: l) = 5000 /\ pool s' [].
Proof.
  destruct (pbuf_alloc_chain demo_pool [4096; 8192; 12288] PBUF_TRANSPORT 54 5000 demo_pool_ok eq_refl ltac:(lia)) as (s' & _ & H). cbv zeta in H. change (1 + need _ <=? _) with true in H. cbv iota in H.
  destruct H as (b & l & fl' & Hrun & Hfl & Hlen & Hc & Ht & _ & _ & Hp). change (1 + need _) with 3 in Hlen. exists s', b, l. split; [exact Hrun|]. split; [lia|]. split; [exact Hc|]. split; [exact Ht|].
  assert (length fl' = 0%nat) as E. { apply (f_equal (@length Z)) in Hfl. unfold addrs in Hfl. rewrite length_app, length_map in Hfl. cbn [length] in *. lia. } destruct fl'; [exact Hp|done].
Defined.
