(* ===== verification/PbufOps.v ===== *)
(** Packet buffers ([Pbuf]): joining chains, sharing them, giving back what nobody refers to, and
    copying one packet into the buffers of another. *)

From stdpp Require Import gmap.
From S2P Require Import Prelude Mem CString LwipMem LwipHeap Pbuf PbufSpec PbufPool.

(** ** [pbuf_cat] *)

(** Structures that do not overlap. *)
Definition apart16 (x y : Z) : Prop := x + 16 <= y \/ y + 16 <= x.
Abbreviation spread := (pairwise apart16).

#[global] Instance apart16_sym : Symmetric apart16.
Proof. intros x y. unfold apart16. lia. Qed.

Lemma set_tot_cell s b next tot v :
  0 < b.(b_addr) -> cell (nmem s) b next tot -> 0 <= v < 2 ^ 16 -> let m' := st16 (nmem s) (b.(b_addr) + 8) v in
  set_p_tot_len b.(b_addr) v s = Ret tt (set_nmem m' s) /\ cell m' b next v /\ at_struct b.(b_addr) (nmem s) m'.
Proof.
  intros Hp [H1 H2 H3 H4 H5 H6] Hv m'. split; [by apply poke_run|]. split; [|intros y Hy; apply ld8_st16_ne; lia].
  unfold m'. split; fld; try done. by apply u16_small.
Qed.

Lemma at_clear_structs x l m m' t e : lseg m l t e -> Forall (apart16 x) (addrs l) -> at_struct x m m' -> lseg m' l t e.
Proof. intros Hl Hx Ha. apply (lseg_at m _ _ x); [done| |done]. apply addrs_forall in Hx. exact Hx. Qed.

(** The loop: [more] bytes are added to every total but the last. *)
Lemma cat_last_run more q l r : forall fuel s t,
  lseg (nmem s) (l ++ [r]) t 0 -> spread (addrs (l ++ [r])) -> 0 < q -> Forall (apart16 q) (addrs (l ++ [r])) -> ld16 (nmem s) (q + 8) = more -> t + more < 2 ^ 16 -> (length l <= fuel)%nat ->
  exists s', cat_last fuel (first (l ++ [r])) q s = Ret r.(b_addr) s' /\ lseg (nmem s') l (t + more) r.(b_addr) /\ cell (nmem s') r 0 (t - total l) /\ only_pool (addrs l) s s'.
Proof.
  induction l as [|b l IH]; intros fuel s t Hl Hs Hq0 Hq Hmore Hsum Hf; cbn [app] in *.
  { destruct Hl as (Hr0 & _ & Hc & _). exists s. cbn [first total foldr]. rewrite Z.sub_0_r. split; [|split; [done|split; [done|apply only_pool_refl]]]. destruct fuel; cbn [cat_last]; mstep (exact (p_next_run s r _ _ Hr0 Hc)); done. }
  destruct Hl as (Hp0 & Hp1 & Hc & Hl). pose proof (ld16_range (nmem s) (q + 8)). assert (0 <= t) as Ht by (rewrite <- (c_tot _ _ _ _ Hc); apply ld16_range). cbn [addrs map pairwise] in Hs, Hq. fold (addrs (l ++ [r])) in Hs, Hq. destruct Hs as [Hsb Hs]. apply Forall_cons in Hq as [Hqb Hq].
  destruct fuel as [|fuel]; [cbn in Hf; lia|]. destruct (set_tot_cell s b _ _ (t + more) Hp0 Hc ltac:(lia)) as (Hr1 & Hc1 & Hat). set (m1 := st16 _ _ _) in *. set (s1 := set_nmem m1 s) in *.
  destruct (IH fuel s1 (t - b.(b_len))) as (s' & Hrun & Hl' & Hc' & Hop); try done.
  - by apply (at_clear_structs b.(b_addr) _ (nmem s)).
  - change (nmem s1) with m1. rewrite <- Hmore. apply ld16_ext. intros i Hi. apply Hat. unfold apart16 in Hqb. lia.
  - pose proof (cell_len _ _ _ _ Hc). lia.
  - cbn in Hf. lia.
  - exists s'. assert (first_or (l ++ [r]) 0 <> 0) as Hnz by (destruct l as [|c l]; [destruct Hl as [Hr0 _]|destruct Hl as [Hr0 _]]; cbn; lia). split; [|split; [|split]].
    + cbn [cat_last first]. mstep (exact (p_next_run s b _ _ Hp0 Hc)). rewrite (proj2 (Z.eqb_neq _ 0)) by done. mstep (exact (p_tot_run s b _ _ Hp0 Hc)). unfold p_tot_len at 1. mstep (by apply peek_run). rewrite Hmore. mstep (exact Hr1). exact Hrun.
    + destruct Hop as [Hout _]. split; [done|]. split; [done|]. replace (t + more - b.(b_len)) with (t - b.(b_len) + more) by lia. split; [|done]. replace (first_or l r.(b_addr)) with (first_or (l ++ [r]) 0) by (by destruct l).
      apply (cell_ext m1); [done|]. intros y Hy. apply Hout. rewrite addrs_app in Hsb. apply Forall_app in Hsb as [Hsb _]. apply (Forall_impl _ _ _ Hsb). unfold apart16. intros x Hx. lia.
    + cbn [total foldr]. fold (total l). by replace (t - (b.(b_len) + total l)) with (t - b.(b_len) - total l) by lia.
    + apply (only_pool_trans _ _ s1); [split; [apply (outside_at b.(b_addr)); [done|left]|done]|]. apply (only_pool_mono (addrs l)); [done|]. by apply list_subseteq_cons.
Qed.

(** Joining two chains of one packet gives the chain of all their buffers with the totals right throughout, as long as the packet is no longer than its 16-bit length
    can say; only structures of the first chain change. *)
Theorem pbuf_cat_chain s fuel l1 l2 :
  chain (nmem s) l1 -> chain (nmem s) l2 -> l1 <> [] -> l2 <> [] -> spread (addrs l1 ++ addrs l2) -> total l1 + total l2 < 2 ^ 16 -> (length l1 <= fuel)%nat ->
  exists s', pbuf_cat fuel (first l1) (first l2) s = Ret tt s' /\ chain (nmem s') (l1 ++ l2) /\ only_pool (addrs l1) s s'.
Proof.
  intros H1 H2 Hn1 Hn2 Hs Htot Hf. destruct l1 as [|r l _] using rev_ind; [done|]. destruct l2 as [|b l2]; [done|]. clear Hn1 Hn2. apply pairwise_app in Hs as (Hs1 & Hs2 & Hs12). set (more := total (b :: l2)) in *.
  pose proof H2 as (Hb0 & Hb1 & Hcb & _). assert (Forall (apart16 b.(b_addr)) (addrs (l ++ [r]))) as Hq by (apply Forall_forall; intros x Hx; symmetry; apply Hs12; [done|left]).
  destruct (cat_last_run more b.(b_addr) l r fuel s (total (l ++ [r])) H1 Hs1 Hb0 Hq (c_tot _ _ _ _ Hcb) Htot) as (s1 & Hrun & Hl1 & Hcr & Hop); [rewrite length_app in Hf; cbn in Hf; lia|].
  assert (total (l ++ [r]) - total l = r.(b_len)) as Er by (rewrite total_app; cbn; lia). rewrite Er in Hcr. pose proof (cell_len _ _ _ _ Hcr) as Hlen. pose proof (lens_nonneg _ (lseg_lens _ _ _ _ H2)) as Hm0. fold more in Hm0.
  pose proof (lens_nonneg _ (lseg_lens _ _ _ _ H1)) as Ht0. apply lseg_app in H1 as [Hl (Hr0 & Hr1 & _)]. pose proof (lens_nonneg _ (lseg_lens _ _ _ _ Hl)) as Htl.
  destruct Hop as [Hout Hheap]. assert (chain (nmem s1) (b :: l2)) as H2'.
  { apply (lseg_ext (nmem s)); [done|]. apply Forall_forall. intros c Hc y Hy. apply Hout, Forall_forall. intros x Hx. assert (apart16 x c.(b_addr)) as Hxc by (apply Hs12; [rewrite addrs_app; apply elem_of_app; by left|by apply list_elem_of_fmap_2]). unfold apart16 in Hxc. lia. }
  pose proof H2' as (_ & _ & Hcb' & _). set (m2 := st16 (nmem s1) (r.(b_addr) + 8) (r.(b_len) + more)). set (m3 := st32 m2 (r.(b_addr) + 0) b.(b_addr)).
  assert (at_struct r.(b_addr) (nmem s1) m3) as Hat by (intros y Hy; unfold m3, m2; by fld). exists (set_nmem m3 s1). rewrite addrs_app in *. split; [|split].
  - unfold pbuf_cat. assert (0 < first (l ++ [r])) as Hf0 by (destruct l as [|c l]; [done|destruct Hl as [Hf0 _]; done]). cbn [first]. rewrite (proj2 (Z.eqb_neq (first (l ++ [r])) 0)), (proj2 (Z.eqb_neq b.(b_addr) 0)) by lia. mstep reflexivity.
    mstep (exact Hrun). mstep (exact (p_tot_run s1 r _ _ Hr0 Hcr)). mstep (exact (p_len_run s1 r _ _ Hr0 Hcr)). rewrite Z.eqb_refl. mstep reflexivity. mstep (exact (p_next_run s1 r _ _ Hr0 Hcr)). mstep reflexivity.
    mstep (exact (p_tot_run s1 b _ _ Hb0 Hcb')). mstep (by apply poke_run). unfold set_p_next. rewrite poke_run by done. done.
  - unfold chain. rewrite <- app_assoc. apply lseg_app. cbn [app lseg first_or]. rewrite !total_app. cbn [total foldr]. fold (total l2). rewrite nmem_set. split.
    + apply (lseg_ext (nmem s1)); [replace (total l + (b_len r + (b_len b + total l2))) with (total (l ++ [r]) + more) by (rewrite total_app; unfold more, total; cbn [foldr]; lia); exact Hl1|]. apply pairwise_app in Hs1 as (_ & _ & Hs1). apply Forall_forall. intros c Hc y Hy. apply Hat. assert (apart16 c.(b_addr) r.(b_addr)) as Hcr' by (apply Hs1; [by apply list_elem_of_fmap_2|left]). unfold apart16 in Hcr'. lia.
    + split; [done|]. split; [done|]. split; [|].
      * destruct Hcr as [F1 F2 F3 F4 F5 F6]. unfold m3, m2. split; fld; try done; [apply u32_small; lia|]. rewrite u16_small by lia. unfold more, total. cbn [foldr]. lia.
      * replace (total l + (b_len r + (b_len b + total l2)) - total l - b_len r) with (total (b :: l2)) by (unfold total; cbn [foldr]; lia). change (lseg m3 (b :: l2) (total (b :: l2)) 0). apply (at_clear_structs r.(b_addr) _ (nmem s1)); [exact H2'| |done].
        apply Forall_forall. intros x Hx. apply Hs12; [apply elem_of_app; right; left|done].
  - apply (only_pool_trans _ _ s1); [apply (only_pool_mono (addrs l)); [by split|by apply list_subseteq_app_l]|]. split; [apply (outside_at r.(b_addr)); [done|apply elem_of_app; right; left]|done].
Qed.

(** ** [pbuf_free] *)

(** The data of a buffer of the pool lie in its element. *)
Definition in_elem (b : pb) : Prop := b.(b_addr) + 16 <= b.(b_payload) /\ b.(b_payload) + b.(b_len) <= b.(b_addr) + 2016.

Lemma spaced_spread l : spaced l -> spread l.
Proof. induction l as [|x l IH]; [done|]. intros [H1 H2]. split; [|auto]. apply (Forall_impl _ _ _ H1). unfold clear_of, apart16. lia. Qed.

(** Changes to the structures of spaced elements leave their data alone. *)
Lemma contents_kept m m' l (x : list Z) : Forall in_elem l -> spaced x -> addrs l ⊆ x -> outside x m m' -> contents m' l = contents m l.
Proof.
  intros Hin Hs Hsub Ho. apply contents_ext, Forall_forall. intros b Hb y Hy. apply Ho, Forall_forall. intros z Hz. rewrite Forall_forall in Hin. destruct (Hin b Hb) as [H1 H2].
  destruct (decide (z = b.(b_addr))) as [->|Hne]; [lia|]. assert (clear_of b.(b_addr) z) as H; [|unfold clear_of in H; lia]. apply (pairwise_in x); [done|apply Hsub; by apply list_elem_of_fmap_2|done|done].
Qed.

(** Dropping a reference to a chain: the buffers before the first one that others refer to, which are referenced only from here, go back to the
    pool; that buffer loses one reference and stays with all that follow, which keep their data; the answer is the number of buffers freed. *)
Theorem pbuf_free_shared s fuel l1 l2 fl :
  chain (nmem s) (l1 ++ l2) -> l1 ++ l2 <> [] -> Forall pool_buf (l1 ++ l2) -> Forall in_elem l2 -> Forall (fun b => b.(b_ref) = 1) l1 -> match l2 with [] => True | b :: _ => 1 < b.(b_ref) end ->
  pool s fl -> spaced (addrs (l1 ++ l2) ++ fl) -> (length l1 < fuel)%nat ->
  exists s', pbuf_free fuel (first (l1 ++ l2)) s = Ret (u8 (Z.of_nat (length l1))) s' /\ chain (nmem s') (deref l2) /\ contents (nmem s') (deref l2) = contents (nmem s) l2 /\
    pool s' (rev (addrs l1) ++ fl) /\ only_pool (addrs (l1 ++ l2)) s s'.
Proof.
  intros Hc Hne Hb Hin Hr1 Hr2 Hp Hs Hf. pose proof Hs as Hsp. rewrite addrs_app, <- app_assoc in Hs. assert (spaced (addrs l2 ++ (addrs l1 ++ fl))) as Hs2 by (by rewrite app_assoc, (Permutation_app_comm (addrs l2)), <- app_assoc).
  apply pairwise_app in Hs2 as (Hs2 & Hs1f & Hs2a). assert (Forall (fun b => structs_apart b.(b_addr) (addrs l1 ++ fl)) l2) as Hap.
  { apply Forall_forall. intros b Hb2. apply Forall_forall. intros x Hx. assert (clear_of b.(b_addr) x) as H by (apply Hs2a; [by apply list_elem_of_fmap_2|done]). unfold clear_of in H. lia. }
  destruct (free_run l1 l2 fuel s fl (total (l1 ++ l2)) 0) as (s' & Hrun & Hl & Hp' & Ho & Hh); try done.
  - apply Forall_app in Hb as [Hb _]. apply Forall_forall. intros b Hin1. rewrite Forall_forall in Hb, Hr1. split; auto.
  - destruct l2 as [|b l2]; [done|]. split; [done|]. destruct Hs2 as [Hs2 _]. apply (Forall_impl _ _ _ Hs2). unfold clear_of. lia.
  - exists s'. split; [|split; [|split; [|by split; [|split]]]].
    + unfold pbuf_free. destruct (l1 ++ l2) as [|b l]; [done|]. destruct Hc as (Hp0 & _ & Hcb & _). apply Forall_cons in Hb as [[Hty _] _]. cbn [first] in *. rewrite (proj2 (Z.eqb_neq b.(b_addr) 0)) by lia.
      mstep (exact (p_type_run s b _ _ Hp0 Hcb)). rewrite Hty. mstep reflexivity. exact Hrun.
    + unfold chain. replace (total (deref l2)) with (total (l1 ++ l2) - total l1) by (rewrite total_app; destruct l2; unfold total; cbn; lia). exact Hl.
    + assert (contents (nmem s') (deref l2) = contents (nmem s') l2) as -> by (by destruct l2). apply (contents_kept _ _ _ (addrs (l1 ++ l2))); [done|by apply pairwise_app in Hsp as [Hsp _]|rewrite addrs_app; by apply list_subseteq_app_r|done].
Qed.

(** ** [pbuf_realloc] *)

Lemma set_len_cell s b next tot v :
  0 < b.(b_addr) -> cell (nmem s) b next tot -> 0 <= v < 2 ^ 16 -> let m' := st16 (nmem s) (b.(b_addr) + 10) v in
  set_p_len b.(b_addr) v s = Ret tt (set_nmem m' s) /\ cell m' (mkPb b.(b_addr) b.(b_payload) v b.(b_type) b.(b_ref)) next tot /\ at_struct b.(b_addr) (nmem s) m'.
Proof.
  intros Hp [H1 H2 H3 H4 H5 H6] Hv m'. split; [by apply poke_run|]. split; [|intros y Hy; apply ld8_st16_ne; lia].
  unfold m'. split; cbn [b_addr b_payload b_len b_type b_ref]; fld; try done. by apply u16_small.
Qed.

(** A total stored modulo 2^16. *)
Lemma set_tot_wrap s b next tot v n :
  0 < b.(b_addr) -> cell (nmem s) b next tot -> 0 <= n < 2 ^ 16 -> u16 v = n ->
  exists m', set_p_tot_len b.(b_addr) v s = Ret tt (set_nmem m' s) /\ cell m' b next n /\ at_struct b.(b_addr) (nmem s) m'.
Proof.
  intros Hp [H1 H2 H3 H4 H5 H6] Hn Hv. eexists. split; [by apply poke_run|]. split; [|intros y Hy; apply ld8_st16_ne; lia]. split; by fld.
Qed.

(** The loop steps over the buffers [k] that stay whole and takes [- g] bytes off their totals. *)
Lemma skip_run k q d g : forall fuel s t n,
  lseg (nmem s) (k ++ q :: d) t 0 -> spread (addrs (k ++ q :: d)) -> (k <> [] -> total k < n) -> 0 <= n -> n - total k <= q.(b_len) -> g < 0 -> t + g = n -> (length k <= fuel)%nat ->
  exists s', realloc_skip fuel (first (k ++ q :: d)) n g s = Ret (q.(b_addr), n - total k) s' /\ lseg (nmem s') k n q.(b_addr) /\ lseg (nmem s') (q :: d) (t - total k) 0 /\ only_pool (addrs k) s s' /\ s'.(memp_tab) = s.(memp_tab).
Proof.
  induction k as [|b k IH]; intros fuel s t n Hl Hs Hk Hn Hq Hg Hsum Hf; cbn [app] in *.
  { exists s. cbn [first total foldr] in *. rewrite !Z.sub_0_r in *. split; [|split; [done|split; [done|split; [apply only_pool_refl|done]]]]. pose proof Hl as (Hp0 & _ & Hc & _).
    destruct fuel; cbn [realloc_skip]; mstep (exact (p_len_run s q _ _ Hp0 Hc)); rewrite (proj2 (Z.ltb_ge _ _)) by lia; done. }
  destruct Hl as (Hp0 & Hp1 & Hc & Hl). specialize (Hk ltac:(done)). cbn [total foldr] in Hk, Hq. fold (total k) in Hk, Hq. pose proof (cell_len _ _ _ _ Hc) as Hlb. cbn [addrs map pairwise] in Hs. fold (addrs (k ++ q :: d)) in Hs. destruct Hs as [Hsb Hs].
  assert (0 <= t < 2 ^ 16) as Ht by (rewrite <- (c_tot _ _ _ _ Hc); apply ld16_range). assert (0 <= total k) as Hk0 by (apply lseg_app in Hl as [Hl _]; by apply lens_nonneg, (lseg_lens _ _ _ _ Hl)).
  destruct fuel as [|fuel]; [cbn in Hf; lia|]. 
  destruct (set_tot_wrap s b _ _ (t + u16 g) n Hp0 Hc ltac:(lia)) as (m1 & Hr1 & Hc1 & Hat); [unfold u16; rewrite Z.add_mod_idemp_r by lia; rewrite Z.mod_small; lia|]. set (s1 := set_nmem m1 s) in *.
  destruct (IH fuel s1 (t - b.(b_len)) (n - b.(b_len))) as (s' & Hrun & Hlk & Hlq & Hop & Htab); try done; try lia.
  - by apply (at_clear_structs b.(b_addr) _ (nmem s)).
  - cbn in Hf. lia.
  - exists s'. assert (first_or (k ++ q :: d) 0 <> 0) as Hnz by (destruct k; destruct Hl as [H0 _]; cbn; lia). split; [|split; [|split; [|split]]].
    + cbn [realloc_skip first]. mstep (exact (p_len_run s b _ _ Hp0 Hc)). rewrite (proj2 (Z.ltb_lt _ _)) by lia. rewrite (proj2 (Z.ltb_lt g 0xffff)) by lia. mstep reflexivity. mstep (exact (p_tot_run s b _ _ Hp0 Hc)). mstep (exact Hr1).
      mstep (exact (p_next_run s1 b _ _ Hp0 Hc1)). rewrite (proj2 (Z.eqb_neq _ 0)) by done. mstep reflexivity. change (first_or (k ++ q :: d) 0) with (first (k ++ q :: d)). rewrite Hrun. do 2 f_equal. cbn [total foldr]. fold (total k). lia.
    + destruct Hop as [Hout _]. split; [done|]. split; [done|]. split; [|done]. replace (first_or k q.(b_addr)) with (first_or (k ++ q :: d) 0) by (by destruct k).
      apply (cell_ext m1); [done|]. intros y Hy. apply Hout. rewrite addrs_app in Hsb. apply Forall_app in Hsb as [Hsb _]. apply (Forall_impl _ _ _ Hsb). unfold apart16. intros x Hx. lia.
    + cbn [total foldr]. fold (total k). by replace (t - (b.(b_len) + total k)) with (t - b.(b_len) - total k) by lia.
    + apply (only_pool_trans _ _ s1); [split; [apply (outside_at b.(b_addr)); [done|left]|done]|]. apply (only_pool_mono (addrs k)); [done|]. by apply list_subseteq_cons.
    + by rewrite Htab.
Qed.

(** Where a chain is cut to [n] bytes. *)
Lemma cut_at l : forall n, Forall (fun b => 0 <= b.(b_len) < 2 ^ 16) l -> 0 <= n < total l ->
  exists k q d, l = k ++ q :: d /\ (k <> [] -> total k < n) /\ 0 <= n - total k <= q.(b_len).
Proof.
  induction l as [|b l IH]; intros n Hl Hn; [cbn in Hn; lia|]. apply Forall_cons in Hl as [Hb Hl]. cbn [total foldr] in Hn. fold (total l) in Hn. destruct (Z.lt_ge_cases b.(b_len) n) as [Hlt|Hge].
  - destruct (IH (n - b.(b_len)) Hl ltac:(lia)) as (k & q & d & -> & Hk & Hq). exists (b :: k), q, d. cbn [total foldr]. fold (total k). split; [done|]. split; [|lia]. intros _. destruct k as [|c k]; [cbn; lia|]. specialize (Hk ltac:(done)). lia.
  - exists [], b, l. cbn. split; [done|]. split; [done|]. lia.
Qed.

Lemma lseg_other m m' l t e x : lseg m l t e -> outside x m m' -> (forall y z, y ∈ addrs l -> z ∈ x -> apart16 y z) -> lseg m' l t e.
Proof.
  intros Hl Ho Hx. apply (lseg_ext m); [done|]. apply Forall_forall. intros b Hb y Hy. apply Ho, Forall_forall. intros z Hz. assert (apart16 b.(b_addr) z) as H by (apply Hx; [by apply list_elem_of_fmap_2|done]). unfold apart16 in H. lia.
Qed.

Lemma pool_kept s s' fl x : pool s fl -> outside x (nmem s) (nmem s') -> s'.(memp_tab) = s.(memp_tab) -> (forall y z, y ∈ fl -> z ∈ x -> apart16 y z) -> pool s' fl.
Proof.
  intros [Ht He Hs] Ho Htab Hx. split; [|done|done]. unfold tab. rewrite Htab. apply (flist_ext (nmem s)); [exact Ht|]. apply Forall_forall. intros y Hy w Hw. apply Ho, Forall_forall. intros z Hz. specialize (Hx y z Hy Hz). unfold apart16 in Hx. lia.
Qed.

Lemma spaced_apart x y : clear_of x y -> apart16 x y.
Proof. unfold clear_of, apart16. lia. Qed.

Lemma cut_run s fuel q d fl t r :
  lseg (nmem s) (q :: d) t 0 -> 0 <= r < 2 ^ 16 -> pool s fl -> Forall fresh_buf d -> spaced (addrs (q :: d) ++ fl) -> (length d < fuel)%nat ->
  exists s', cut_tail fuel q.(b_addr) r s = Ret tt s' /\ cell (nmem s') (mkPb q.(b_addr) q.(b_payload) r q.(b_type) q.(b_ref)) 0 r /\ pool s' (rev (addrs d) ++ fl) /\ only_pool (addrs (q :: d)) s s'.
Proof.
  intros (Hp0 & _ & Hc & Hd) Hr Hp Hfr Hs Hf. cbn [addrs map app pairwise] in Hs. fold (addrs d) in Hs. destruct Hs as [[Hq1 Hq2]%Forall_app Hs].
  destruct (set_len_cell s q _ _ r Hp0 Hc Hr) as (Hr1 & Hc1 & Hat1). set (m1 := st16 _ _ _) in *. set (q1 := mkPb _ _ _ _ _) in *. set (s1 := set_nmem m1 s) in *.
  destruct (set_tot_cell s1 q1 _ _ r Hp0 Hc1 Hr) as (Hr2 & Hc2 & Hat2). set (m2 := st16 (nmem s1) (b_addr q1 + 8) r) in *. set (s2 := set_nmem m2 s1) in *. change (b_addr q1) with q.(b_addr) in *.
  assert (at_struct q.(b_addr) (nmem s) m2) as Hat by (intros y Hy; by rewrite Hat2, Hat1).
  assert (pool s2 fl) as Hp2 by (destruct Hp as [Ht He Hsp]; split; [|done|done]; apply (flist_ext (nmem s)); [exact Ht|by apply (clear_structs q.(b_addr))]).
  assert (lseg (nmem s2) d (t - q.(b_len)) 0) as Hd2.
  { apply (lseg_ext (nmem s)); [done|]. apply addrs_forall in Hq1. apply (Forall_impl _ _ _ Hq1). intros b Hb. by apply (clear_struct q.(b_addr)). }
  assert (exists s3, (if negb (first_or d 0 =? 0) then pbuf_free fuel (first_or d 0) ;;; ret tt else ret tt) s2 = Ret tt s3 /\ pool s3 (rev (addrs d) ++ fl) /\ only_pool (addrs d) s2 s3) as (s3 & Hr3 & Hp3 & Ho3).
  { destruct d as [|b d]; [exists s2; split; [done|split; [done|apply only_pool_refl]]|]. destruct (pbuf_free_all fuel s2 (b :: d) fl _ ltac:(done) ltac:(by split) Hf) as (s3 & Hrun & Hp3 & Ho3). exists s3. split; [|done].
    cbn [first_or]. destruct Hd2 as (Hb0 & _). rewrite (proj2 (Z.eqb_neq b.(b_addr) 0)) by lia. cbn [negb]. mstep (exact Hrun). done. }
  assert (cell (nmem s3) q1 (first_or d 0) r) as Hc3 by (apply (cell_ext (nmem s2)); [exact Hc2|]; intros y Hy; destruct Ho3 as [Ho3 _]; apply Ho3; apply (Forall_impl _ _ _ Hq1); unfold clear_of; cbn in Hy; intros x Hx; lia).
  set (m4 := st32 (nmem s3) (q.(b_addr) + 0) 0). exists (set_nmem m4 s3). assert (at_struct q.(b_addr) (nmem s3) m4) as Hat4 by (intros y Hy; unfold m4; by fld). split; [|split; [|split]].
  - unfold cut_tail. mstep (exact Hr1). mstep (exact (p_len_run s1 q1 _ _ Hp0 Hc1)). mstep (exact Hr2). mstep (exact (p_next_run s2 q1 _ _ Hp0 Hc2)). mstep (exact Hr3). unfold set_p_next. by rewrite poke_run.
  - rewrite nmem_set. destruct Hc3 as [F1 F2 F3 F4 F5 F6]. unfold m4, q1 in *. cbn [b_addr b_payload b_len b_type b_ref] in *. split; cbn [b_addr b_payload b_len b_type b_ref]; fld; try done.
  - destruct Hp3 as [Ht He Hsp]. split; [|done|done]. apply (flist_ext (nmem s3)); [exact Ht|]. apply (clear_structs q.(b_addr)); [|done]. apply Forall_app. split; [|done]. by rewrite <- Permutation_rev.
  - apply (only_pool_trans _ _ s3); [apply (only_pool_trans _ _ s2)|].
    + split; [apply (outside_at q.(b_addr)); [exact Hat|left]|done].
    + apply (only_pool_mono (addrs d)); [done|]. by apply list_subseteq_cons.
    + split; [apply (outside_at q.(b_addr)); [exact Hat4|left]|done].
Qed.

(** Cutting a packet of the pool to [n] bytes: the chain that is left stands for the first [n] bytes, and the buffers that held only bytes after them
    are free again. *)
Theorem pbuf_realloc_truncates s fuel l fl n :
  building s l fl (total l) -> 0 <= n < total l -> (length l < fuel)%nat ->
  exists s' l' freed, pbuf_realloc fuel (first l) n s = Ret tt s' /\ chain (nmem s') l' /\ contents (nmem s') l' = take (Z.to_nat n) (contents (nmem s) l) /\
    addrs l = addrs l' ++ freed /\ pool s' (rev freed ++ fl) /\ only_pool (addrs l) s s'.
Proof.
  intros [Hp Hl Hfr Hs] Hn Hf. pose proof (lseg_lens _ _ _ _ Hl) as Hlens. destruct (cut_at l n Hlens Hn) as (k & q & d & El & Hk & Hq). pose proof Hs as Hsl. apply pairwise_app in Hsl as (Hsl & _ & Hslf). set (r := n - total k) in *.
  assert (spread (addrs l)) as Hspr by (by apply spaced_spread). assert (0 <= r < 2 ^ 16) as Hr by (rewrite Forall_forall in Hlens; specialize (Hlens q); cbn in Hlens; rewrite El, elem_of_app in Hlens; specialize (Hlens ltac:(right; left)); lia).
  rewrite El in Hl, Hspr. destruct (skip_run k q d (n - total l) fuel s (total (k ++ q :: d)) n Hl Hspr Hk) as (s1 & Hrun1 & Hlk1 & Hlq1 & Hop1 & Htab); [lia|lia|lia|rewrite El; lia|rewrite El, length_app in Hf; lia|]. rewrite <- El in Hrun1. fold r in Hrun1.
  rewrite El in Hs. rewrite addrs_app, <- app_assoc in Hs. pose proof Hs as Hs'. apply pairwise_app in Hs' as (_ & Hsq & Hkq).
  assert (pool s1 fl) as Hp1 by (apply (pool_kept s _ _ (addrs k)); [done|apply Hop1|done|]; intros y z Hy Hz; apply spaced_apart, symmetry, Hkq; [done|apply elem_of_app; by right]).
  destruct (cut_run s1 fuel q d fl _ r Hlq1 Hr Hp1) as (s' & Hrun2 & Hcell & Hp' & Hop2); [rewrite El in Hfr; by apply Forall_app in Hfr as [_ [_ Hfr]%Forall_cons]|done|rewrite El, length_app in Hf; cbn in Hf; lia|].
  set (q' := mkPb q.(b_addr) q.(b_payload) r q.(b_type) q.(b_ref)) in *. assert (only_pool (addrs l) s s') as Hop.
  { rewrite El, addrs_app. apply (only_pool_trans _ _ s1); [apply (only_pool_mono (addrs k)); [done|by apply list_subseteq_app_l]|apply (only_pool_mono (addrs (q :: d))); [done|by apply list_subseteq_app_r]]. }
  exists s', (k ++ [q']), (addrs d). split; [|split; [|split; [|split; [|by split]]]].
  - assert (exists b l0, l = b :: l0) as (b & l0 & Eb) by (rewrite El; destruct k; eauto). rewrite <- El, Eb in Hl. destruct Hl as (Hb0 & _ & Hcb & _). pose proof Hfr as Hfr'. rewrite Eb in Hfr'. apply Forall_cons in Hfr' as [([Hty _] & _) _].
    unfold pbuf_realloc. rewrite Eb in Hrun1 |- *. cbn [first] in *. rewrite (proj2 (Z.eqb_neq b.(b_addr) 0)) by lia. mstep reflexivity. mstep (exact (p_type_run s b _ _ Hb0 Hcb)). rewrite Hty. mstep reflexivity. mstep (exact (p_tot_run s b _ _ Hb0 Hcb)).
    rewrite <- Eb. rewrite (proj2 (Z.leb_gt _ _)) by lia. rewrite <- Eb in Hrun1. mstep (exact Hrun1). destruct Hlq1 as (Hq0 & _ & Hcq & _). assert (q.(b_type) = PBUF_POOL) as Htq by (rewrite El in Hfr; apply Forall_app in Hfr as [_ [([Htq _] & _) _]%Forall_cons]; done).
    mstep (exact (p_type_run s1 q _ _ Hq0 Hcq)). mstep (exact (p_len_run s1 q _ _ Hq0 Hcq)). rewrite Htq. mstep reflexivity. exact Hrun2.
  - unfold chain. rewrite total_app. cbn [total foldr q' b_len]. rewrite Z.add_0_r. replace (total k + r) with n by lia. apply lseg_app. fold r. split; [|split; [apply Hlq1|split; [apply Hlq1|split; [exact Hcell|done]]]].
    apply (lseg_other (nmem s1) _ _ _ _ (addrs (q :: d))); [exact Hlk1|apply Hop2|]. intros y z Hy Hz. apply spaced_apart, Hkq; [done|apply elem_of_app; by left].
  - rewrite (contents_kept (nmem s) _ _ (addrs l)); [|rewrite El in Hfr; apply Forall_app in Hfr as [Hfk [(_ & _ & Hq1 & Hq2) _]%Forall_cons]; apply Forall_app; split; [apply (Forall_impl _ _ _ Hfk); by intros b (_ & _ & Hb)|constructor; [split; cbn; lia|done]]|done| |apply Hop].
    + rewrite El. unfold contents. rewrite !map_app, !concat_app. cbn [map concat]. rewrite app_nil_r. fold (contents (nmem s) k). rewrite El in Hlens. apply Forall_app in Hlens as [Hlk [Hlq _]%Forall_cons]. pose proof (contents_length (nmem s) k Hlk) as Ek.
      rewrite take_app, take_ge by lia. f_equal. unfold bytes. cbn [q' b_payload b_len]. rewrite take_app_le by (rewrite length_ld_bytes; lia). rewrite ld_bytes_take by lia. f_equal. lia.
    + rewrite El, !addrs_app. apply list_subseteq_app_iff_l. split; [by apply list_subseteq_app_l|]. apply list_subseteq_app_r, list_subseteq_skip, list_subseteq_nil.
  - rewrite El, !addrs_app, <- app_assoc. done.
Qed.

(** ** Copying one packet into the buffers of another *)

(** ** Positions in a packet *)

(** What follows position [o] of the chain. *)
Definition from_pos (m : mem) (l : list pb) (o : Z) : list Z := drop (Z.to_nat o) (contents m l).

Lemma from_pos_here m b l o : 0 <= o <= b.(b_len) -> from_pos m (b :: l) o = ld_bytes m (b.(b_payload) + o) (Z.to_nat (b.(b_len) - o)) ++ contents m l.
Proof.
  intros H. unfold from_pos, contents. cbn [map concat]. unfold bytes at 1. rewrite drop_app_le by (rewrite length_ld_bytes; lia). rewrite ld_bytes_drop by lia. f_equal. rewrite Z2Nat.id by lia. f_equal. lia.
Qed.

Lemma from_pos_split m b l o k : 0 <= o -> 0 <= k -> o + k <= b.(b_len) -> from_pos m (b :: l) o = ld_bytes m (b.(b_payload) + o) (Z.to_nat k) ++ from_pos m (b :: l) (o + k).
Proof.
  intros Ho Hk Hl. rewrite !from_pos_here by lia. rewrite app_assoc. f_equal. replace (Z.to_nat (b.(b_len) - o)) with (Z.to_nat k + Z.to_nat (b.(b_len) - (o + k)))%nat by lia. rewrite ld_bytes_app. do 2 f_equal. lia.
Qed.

(** The position as a buffer and an offset below its length. *)
Definition norm (b : pb) (l : list pb) (o : Z) : list pb * Z := if o =? b.(b_len) then (l, 0) else (b :: l, o).

Lemma from_pos_norm m b l o : 0 <= o <= b.(b_len) -> from_pos m (b :: l) o = from_pos m (norm b l o).1 (norm b l o).2.
Proof. intros H. unfold norm. destruct (Z.eqb_spec o b.(b_len)) as [->|]; [|done]. rewrite from_pos_here by lia. by rewrite Z.sub_diag. Qed.

Definition rest (l : list pb) (o : Z) : Z := total l - o.

Lemma rest_norm b l o : rest (norm b l o).1 (norm b l o).2 = rest (b :: l) o.
Proof. unfold norm, rest. destruct (Z.eqb_spec o b.(b_len)) as [->|]; [|done]. cbn [fst snd total foldr]. fold (total l). lia. Qed.

(** ** Packets that can be copied *)

Definition off_data (t : pb) (d n : Z) : Prop := d + n <= t.(b_payload) \/ t.(b_payload) + t.(b_len) <= d.

Fixpoint data_apart (l : list pb) : Prop :=
  match l with
  | [] => True
  | t :: l => Forall (fun c => off_data t c.(b_payload) c.(b_len)) l /\ data_apart l
  end.

(** Buffers may be empty, but not the last of several. *)
Fixpoint closed (l : list pb) : Prop :=
  match l with [] => True | _ :: l => (l <> [] -> 0 < total l) /\ closed l end.

Definition bufs (l : list pb) : Prop := Forall (fun b => 0 <= b.(b_len) /\ data_ok b) l /\ closed l.

Lemma bufs_suffix l1 l : bufs (l1 ++ l) -> bufs l.
Proof. induction l1 as [|b l1 IH]; [done|]. intros [[_ H1]%Forall_cons [_ H2]]. by apply IH. Qed.

(** The data of the target meet no structure, no data of the source and not one another. *)
Record copyable (lt lf : list pb) : Prop := {
  co_struct : forall t c, t ∈ lt -> c ∈ lt ++ lf -> off_data t c.(b_addr) 16;
  co_data : forall t f, t ∈ lt -> f ∈ lf -> off_data t f.(b_payload) f.(b_len);
  co_self : data_apart lt;
  co_lt : bufs lt;
  co_lf : bufs lf;
}.

Lemma data_apart_tail l l' : data_apart (l ++ l') -> data_apart l'.
Proof. induction l as [|b l IH]; [done|]. intros [_ H]. auto. Qed.

Lemma copyable_suffix l1 lt l2 lf : copyable (l1 ++ lt) (l2 ++ lf) -> copyable lt lf.
Proof.
  intros [H1 H2 H3 H4 H5]. split.
  - intros t c Ht Hc. apply H1; [apply elem_of_app; by right|]. rewrite !elem_of_app in *. tauto.
  - intros t f Ht Hf. apply H2; apply elem_of_app; by right.
  - by apply data_apart_tail in H3.
  - by apply bufs_suffix in H4.
  - by apply bufs_suffix in H5.
Qed.

(** The data of the target from a position on. *)
Definition target (l : list pb) (o y : Z) : Prop :=
  match l with
  | [] => False
  | b :: l => b.(b_payload) + o <= y < b.(b_payload) + b.(b_len) \/ Exists (fun c => c.(b_payload) <= y < c.(b_payload) + c.(b_len)) l
  end.

Lemma bufs_total b l : bufs (b :: l) -> 0 <= b.(b_len) /\ 0 <= total l /\ total (b :: l) = b.(b_len) + total l /\ (total l = 0 -> l = []).
Proof.
  intros [[[Hb _] Hl]%Forall_cons [Hc _]]. split; [done|]. assert (0 <= total l) as Ht; [|split; [done|]; split; [done|]; intros E; destruct l; [done|]; specialize (Hc ltac:(done)); lia].
  clear -Hl. induction Hl as [|d l [Hd _] _ IH]; [done|]. cbn [total foldr]. fold (total l). lia.
Qed.

(** In a chain of one packet only the last buffer holds all that is left. *)
Lemma no_queue_run s l : chain (nmem s) l -> bufs l -> no_queue (first l) s = Ret tt s.
Proof.
  intros Hc Hf. destruct l as [|b l]; [done|]. destruct (bufs_total _ _ Hf) as (Hp & Ht0 & Et & Hl). destruct Hc as (Hp0 & _ & Hc & _). cbn [first]. unfold no_queue. rewrite (proj2 (Z.eqb_neq b.(b_addr) 0)) by lia.
  mstep (exact (p_len_run s b _ _ Hp0 Hc)). mstep (exact (p_tot_run s b _ _ Hp0 Hc)). destruct (Z.eqb_spec b.(b_len) (total (b :: l))) as [E|]; [|done]. rewrite (Hl ltac:(lia)) in *. mstep (exact (p_next_run s b _ _ Hp0 Hc)). done.
Qed.

(** A write into the target. *)
Lemma write_target m m' t lt lf o n :
  copyable (t :: lt) lf -> 0 <= o -> 0 <= n -> o + n <= t.(b_len) -> (forall y, y < t.(b_payload) + o \/ t.(b_payload) + o + n <= y -> ld8 m' y = ld8 m y) ->
  chain m (t :: lt) -> chain m lf -> chain m' (t :: lt) /\ chain m' lf /\ contents m' lf = contents m lf /\ from_pos m' (t :: lt) (o + n) = from_pos m (t :: lt) (o + n).
Proof.
  intros [H1 H2 [H3 _] _ _] Ho Hn0 Hn Hm Hct Hcf. assert (forall c, c ∈ (t :: lt) ++ lf -> same_struct m m' c.(b_addr)) as Hs.
  { intros c Hc y Hy. apply Hm. specialize (H1 t c ltac:(left) Hc). unfold off_data in H1. lia. }
  split; [apply (lseg_ext m); [done|]; apply Forall_forall; intros c Hc; apply Hs, elem_of_app; by left|]. split; [apply (lseg_ext m); [done|]; apply Forall_forall; intros c Hc; apply Hs, elem_of_app; by right|]. split.
  - apply contents_ext, Forall_forall. intros f Hf y Hy. apply Hm. specialize (H2 t f ltac:(left) Hf). unfold off_data in H2. lia.
  - rewrite !from_pos_here by lia. f_equal; [apply ld_bytes_ext; intros i Hi; apply Hm; lia|]. apply contents_ext. apply (Forall_impl _ _ _ H3). unfold off_data. intros c Hc y Hy. apply Hm. lia.
Qed.

Lemma norm_suffix b l o : exists l1, b :: l = l1 ++ (norm b l o).1.
Proof. unfold norm. destruct (_ =? _); [by exists [b]|by exists []]. Qed.

Lemma chain_suffix m l1 l : chain m (l1 ++ l) -> chain m l.
Proof. unfold chain. rewrite lseg_app, total_app. intros [_ H]. by replace (total l1 + total l - total l1) with (total l) in H by lia. Qed.

Lemma norm_first b l o : (if o =? b.(b_len) then (first l, 0) else (b.(b_addr), o)) = (first (norm b l o).1, (norm b l o).2).
Proof. unfold norm. by destruct (_ =? _). Qed.

(** One turn copies what is left of the shorter of the two current buffers. *)
Lemma copy_turn fuel s t lt f lf ot off :
  chain (nmem s) (t :: lt) -> chain (nmem s) (f :: lf) -> copyable (t :: lt) (f :: lf) -> 0 <= ot <= t.(b_len) -> 0 <= off <= f.(b_len) ->
  let n := Z.min (t.(b_len) - ot) (f.(b_len) - off) in
  let NT := norm t lt (ot + n) in let NF := norm f lf (off + n) in
  exists m1, copy_from (S fuel) t.(b_addr) f.(b_addr) ot off s = (if first NF.1 =? 0 then ret ERR_OK else copy_from fuel (first NT.1) (first NF.1) NT.2 NF.2) (set_nmem m1 s) /\
    chain m1 (t :: lt) /\ chain m1 (f :: lf) /\ contents m1 (f :: lf) = contents (nmem s) (f :: lf) /\ from_pos m1 (t :: lt) (ot + n) = from_pos (nmem s) (t :: lt) (ot + n) /\
    ld_bytes m1 (t.(b_payload) + ot) (Z.to_nat n) = ld_bytes (nmem s) (f.(b_payload) + off) (Z.to_nat n) /\ (forall y, y < t.(b_payload) + ot \/ t.(b_payload) + ot + n <= y -> ld8 m1 y = ld8 (nmem s) y).
Proof.
  intros Hct Hcf Hco Hot Hof n NT NF. pose proof Hco as [_ _ _ [[[_ [Ht1 Ht2]] _]%Forall_cons _] [[[_ [Hf1 Hf2]] _]%Forall_cons _]].
  assert (0 <= n /\ ot + n <= t.(b_len) /\ off + n <= f.(b_len)) as (Hn & Hnt & Hnf) by lia.
  pose proof Hct as (Htp & _ & Htc & _). pose proof Hcf as (Hfp & _ & Hfc & _). pose proof (cell_len _ _ _ _ Htc) as Hlt. pose proof (cell_len _ _ _ _ Hfc) as Hlf.
  set (m1 := memcpy (nmem s) (t.(b_payload) + ot) (f.(b_payload) + off) n).
  assert (forall y, y < t.(b_payload) + ot \/ t.(b_payload) + ot + n <= y -> ld8 m1 y = ld8 (nmem s) y) as Hm1 by (intros y Hy; unfold m1; rewrite memcpy_copies by lia; by ranges).
  destruct (write_target (nmem s) m1 t lt (f :: lf) ot n Hco) as (Hct1 & Hcf1 & Hcont & Htail); try done; [lia|]. exists m1. split; [|split; [done|split; [done|split; [done|split; [done|split; [apply memcpy_bytes; lia|done]]]]]].
  pose proof Hct1 as (_ & _ & Htc1 & _). pose proof Hcf1 as (_ & _ & Hfc1 & _). cbn [copy_from]. rewrite (proj2 (Z.eqb_neq t.(b_addr) 0)) by lia. mstep reflexivity.
  mstep (exact (p_len_run s t _ _ Htp Htc)). mstep (exact (p_len_run s f _ _ Hfp Hfc)). replace (u16 (if f.(b_len) - off <=? t.(b_len) - ot then f.(b_len) - off else t.(b_len) - ot)) with n by (destruct (Z.leb_spec (f.(b_len) - off) (t.(b_len) - ot)); rewrite u16_small by lia; lia).
  mstep (exact (p_payload_run s t _ _ Htp Htc)). mstep (exact (p_payload_run s f _ _ Hfp Hfc)). rewrite !u32_small by lia. mstep reflexivity. fold m1. set (s1 := set_nmem m1 s). rewrite !u16_small by lia.
  mstep (exact (p_len_run s1 t _ _ Htp Htc1)). rewrite (proj2 (Z.leb_le (ot + n) _)) by lia. mstep reflexivity. mstep (exact (p_next_run s1 t _ _ Htp Htc1)). change (first_or lt 0) with (first lt). rewrite (norm_first t lt (ot + n)). fold NT.
  mstep (exact (p_len_run s1 f _ _ Hfp Hfc1)). rewrite (proj2 (Z.leb_le (off + n) _)) by lia. mstep reflexivity. mstep (exact (p_next_run s1 f _ _ Hfp Hfc1)). change (first_or lf 0) with (first lf).
  replace (f.(b_len) <=? off + n) with (off + n =? f.(b_len)) by (destruct (Z.eqb_spec (off + n) f.(b_len)), (Z.leb_spec f.(b_len) (off + n)); try done; lia). rewrite (norm_first f lf (off + n)). fold NF.
  destruct (norm_suffix t lt (ot + n)) as (l1 & E1). destruct (norm_suffix f lf (off + n)) as (l2 & E2). fold NT in E1. fold NF in E2. rewrite E1, E2 in Hco. pose proof (copyable_suffix _ _ _ _ Hco) as [_ _ _ HfT HfF].
  mstep (apply no_queue_run; [rewrite E2 in Hcf1; by apply chain_suffix in Hcf1|done]). mstep (apply no_queue_run; [rewrite E1 in Hct1; by apply chain_suffix in Hct1|done]). by destruct (first NF.1 =? 0).
Qed.

Lemma from_pos_add m l o k : 0 <= o -> 0 <= k -> from_pos m l (o + k) = drop (Z.to_nat k) (from_pos m l o).
Proof. intros Ho Hk. unfold from_pos. rewrite drop_drop. f_equal. lia. Qed.

Lemma target_norm t lt o y : 0 <= o -> target (norm t lt o).1 (norm t lt o).2 y -> target (t :: lt) o y.
Proof. intros Ho. unfold norm. destruct (_ =? _); [|done]. cbn [fst snd]. destruct lt as [|c lt]; [done|]. cbn [target]. intros [H|H]; right; [left; lia|by right]. Qed.

Lemma target_chunk t lt lf o n y : copyable (t :: lt) lf -> 0 <= n -> 0 <= o -> o + n <= t.(b_len) -> target (t :: lt) (o + n) y -> y < t.(b_payload) + o \/ t.(b_payload) + o + n <= y.
Proof.
  intros [_ _ [H _] _ _] Hn Ho Hl [Hy|Hy]; [lia|]. apply Exists_exists in Hy as (c & Hc & Hy). rewrite Forall_forall in H. specialize (H c Hc). unfold off_data in H. lia.
Qed.

Lemma norm_nonempty t lt o : bufs (t :: lt) -> 0 <= o <= t.(b_len) -> 0 < rest (norm t lt o).1 (norm t lt o).2 ->
  exists b l o', norm t lt o = (b :: l, o') /\ 0 <= o' <= b.(b_len) /\ (length (b :: l) <= length (t :: lt))%nat /\ (o = t.(b_len) -> (length (b :: l) < length (t :: lt))%nat).
Proof.
  intros [[Ht Hl]%Forall_cons _] Ho. unfold norm. destruct (Z.eqb_spec o t.(b_len)) as [E|]; [|exists t, lt, o; split; [done|split; [lia|done]]].
  destruct lt as [|c lt]; [done|]. intros _. exists c, lt, 0. apply Forall_cons in Hl as [[Hc _] _]. split; [done|]. split; [lia|]. cbn. split; [lia|intros; lia].
Qed.

Lemma norm_end f lf o : bufs (f :: lf) -> o <= f.(b_len) -> rest (f :: lf) o = 0 -> norm f lf o = ([], 0).
Proof.
  intros Hf Ho Hr. destruct (bufs_total _ _ Hf) as (Hp & Ht & Et & Hl). unfold rest in Hr. rewrite (Hl ltac:(lia)). unfold norm. by rewrite (proj2 (Z.eqb_eq o f.(b_len))) by lia.
Qed.

Lemma pbuf_copy_run fuel : forall s t lt f lf ot off,
  chain (nmem s) (t :: lt) -> chain (nmem s) (f :: lf) -> copyable (t :: lt) (f :: lf) -> 0 <= ot <= t.(b_len) -> 0 <= off <= f.(b_len) ->
  rest (f :: lf) off <= rest (t :: lt) ot -> (length (t :: lt) + length (f :: lf) <= fuel)%nat ->
  exists m', copy_from fuel t.(b_addr) f.(b_addr) ot off s = Ret ERR_OK (set_nmem m' s) /\
    from_pos m' (t :: lt) ot = from_pos (nmem s) (f :: lf) off ++ from_pos (nmem s) (t :: lt) (ot + rest (f :: lf) off) /\
    (forall y, ~ target (t :: lt) ot y -> ld8 m' y = ld8 (nmem s) y).
Proof.
  induction fuel as [|fuel IH]; intros s t lt f lf ot off Hct Hcf Hco Hot Hof Hle Hf; [cbn in Hf; lia|].
  destruct (copy_turn fuel s t lt f lf ot off Hct Hcf Hco Hot Hof) as (m1 & Hrun & Hct1 & Hcf1 & Hcont & Htail & Hchunk & Hout). set (n := Z.min _ _) in *.
  assert (0 <= n /\ ot + n <= t.(b_len) /\ off + n <= f.(b_len) /\ (ot + n = t.(b_len) \/ off + n = f.(b_len))) as (Hn & Hnt & Hnf & Hadv) by lia. pose proof Hco as [_ _ _ HfT HfF].
  pose proof (rest_norm f lf (off + n)) as HrF. pose proof (rest_norm t lt (ot + n)) as HrT. assert (rest (f :: lf) (off + n) = rest (f :: lf) off - n) as Er by (unfold rest; lia). assert (rest (t :: lt) (ot + n) = rest (t :: lt) ot - n) as Ert by (unfold rest; lia).
  assert (from_pos m1 (f :: lf) (off + n) = from_pos (nmem s) (f :: lf) (off + n)) as Hsrc by (unfold from_pos; by rewrite Hcont).
  assert (0 <= rest (f :: lf) (off + n)) as Hr0 by (destruct (bufs_total _ _ HfF) as (? & ? & ? & _); unfold rest; lia).
  rewrite (from_pos_split (nmem s) f lf off n) by lia. rewrite <- Hsrc, <- Hchunk, <- app_assoc. replace (ot + rest (f :: lf) off) with (ot + n + rest (f :: lf) (off + n)) by lia. rewrite (from_pos_add (nmem s)) by lia. rewrite <- Htail, <- (from_pos_add m1) by lia.
  destruct (Z.eq_dec (rest (f :: lf) (off + n)) 0) as [Ez|Hnz].
  { assert (norm f lf (off + n) = ([], 0)) as EN by by apply norm_end. rewrite EN in Hrun. cbn [fst snd first] in Hrun. exists m1. split; [exact Hrun|]. rewrite (from_pos_norm m1 f lf (off + n)), EN by lia. cbn [fst snd]. unfold from_pos at 2. cbn. rewrite Ez, Z.add_0_r. split; [by apply from_pos_split; lia|].
    intros y Hy. apply Hout. destruct (Z.lt_ge_cases y (t.(b_payload) + ot)), (Z.le_gt_cases (t.(b_payload) + ot + n) y); auto. exfalso. apply Hy. left. lia. }
  destruct (norm_nonempty f lf (off + n) HfF ltac:(lia) ltac:(lia)) as (f' & lf' & off' & EF & Hof' & HlF & HlF'). destruct (norm_nonempty t lt (ot + n) HfT ltac:(lia) ltac:(lia)) as (t' & lt' & ot' & ET & Hot' & HlT & HlT').
  destruct (norm_suffix t lt (ot + n)) as (l1 & E1). destruct (norm_suffix f lf (off + n)) as (l2 & E2). rewrite EF, ET in *. cbn [fst snd first] in *.
  assert (chain m1 (t' :: lt') /\ chain m1 (f' :: lf') /\ copyable (t' :: lt') (f' :: lf')) as (Hct2 & Hcf2 & Hco2) by (rewrite E1 in Hct1, Hco; rewrite E2 in Hcf1, Hco; split; [by apply chain_suffix in Hct1|split; [by apply chain_suffix in Hcf1|by apply copyable_suffix in Hco]]).
  destruct (IH (set_nmem m1 s) t' lt' f' lf' ot' off' Hct2 Hcf2 Hco2 Hot' Hof') as (m' & Hrun' & Hpos & Hfr); [lia|destruct Hadv as [Hadv|Hadv]; [specialize (HlT' Hadv)|specialize (HlF' Hadv)]; lia|]. rewrite nmem_set in *.
  assert (0 < f'.(b_addr)) as Hf0 by (by destruct Hcf2 as (Hf0 & _)). rewrite (proj2 (Z.eqb_neq f'.(b_addr) 0)) in Hrun by lia.
  pose proof (from_pos_norm m' t lt (ot + n) ltac:(lia)) as NT'. pose proof (from_pos_norm m1 t lt (ot + n) ltac:(lia)) as NT1. pose proof (from_pos_norm m1 f lf (off + n) ltac:(lia)) as NF1. rewrite ET in NT', NT1. rewrite EF in NF1. cbn [fst snd] in NT', NT1, NF1.
  assert (forall y, target (t' :: lt') ot' y -> target (t :: lt) (ot + n) y) as Hsub by (intros y; pose proof (target_norm t lt (ot + n) y ltac:(lia)) as H; rewrite ET in H; exact H).
  exists m'. split; [rewrite Hrun, Hrun'; by rewrite set_nmem_set|]. split.
  - rewrite (from_pos_split m' t lt ot n) by lia. rewrite NT', Hpos, NF1, <- HrF. rewrite (from_pos_add m1 (t :: lt)), NT1, <- from_pos_add by lia. f_equal.
    apply ld_bytes_ext. intros i Hi. apply Hfr. intros Hy%Hsub. apply (target_chunk t lt (f :: lf) ot n) in Hy; [lia|done|lia|lia|lia].
  - intros y Hy. rewrite Hfr by (intros Hy'%Hsub; apply Hy; destruct Hy' as [Hy'|Hy']; [left; lia|by right]). apply Hout. destruct (Z.lt_ge_cases y (t.(b_payload) + ot)), (Z.le_gt_cases (t.(b_payload) + ot + n) y); auto. exfalso. apply Hy. left. lia.
Qed.

(** C39: [pbuf_copy] into a packet at least as long, where no packet of several buffers ends in an
    empty one and the target's data are apart from everything else: it returns without a failed check,
    the target then starts with the bytes of the source and goes on as before, however the two are cut into
    buffers, empty ones before the last included; the source, all structures and all other memory are
    unchanged.  (At an empty last buffer the check for packet queues fails.) *)
Theorem pbuf_copy_copies s fuel lt lf :
  chain (nmem s) lt -> chain (nmem s) lf -> copyable lt lf -> lt <> [] -> lf <> [] -> total lf <= total lt -> (length lt + length lf <= fuel)%nat ->
  exists m', pbuf_copy fuel (first lt) (first lf) s = Ret ERR_OK (set_nmem m' s) /\
    contents m' lt = contents (nmem s) lf ++ drop (Z.to_nat (total lf)) (contents (nmem s) lt) /\ contents m' lf = contents (nmem s) lf /\ chain m' lt /\ chain m' lf /\
    (forall y, Forall (fun t => y < t.(b_payload) \/ t.(b_payload) + t.(b_len) <= y) lt -> ld8 m' y = ld8 (nmem s) y).
Proof.
  intros Hct Hcf Hco Hnt Hnf Htot Hf. destruct lt as [|t lt]; [done|]. destruct lf as [|f lf]; [done|]. pose proof Hco as [H1 H2 _ [[[Ht0 _] _]%Forall_cons _] [[[Hf0 _] _]%Forall_cons _]].
  destruct (pbuf_copy_run fuel s t lt f lf 0 0 Hct Hcf Hco) as (m' & Hrun & Hpos & Hfr); [lia|lia|unfold rest; lia|done|]. unfold from_pos, rest in Hpos. rewrite Z.add_0_l, Z.sub_0_r in Hpos. change (Z.to_nat 0) with 0%nat in Hpos. rewrite !drop_0 in Hpos.
  assert (forall y, Forall (fun t => y < t.(b_payload) \/ t.(b_payload) + t.(b_len) <= y) (t :: lt) -> ld8 m' y = ld8 (nmem s) y) as Hout.
  { intros y [Hy1 Hy]%Forall_cons. apply Hfr. intros [H|H]; [lia|]. apply Exists_exists in H as (c & Hc & Hyc). rewrite Forall_forall in Hy. specialize (Hy c Hc). lia. }
  assert (forall c, c ∈ (t :: lt) ++ f :: lf -> same_struct (nmem s) m' c.(b_addr)) as Hs by (intros c Hc y Hy; apply Hout, Forall_forall; intros b Hb; specialize (H1 b c Hb Hc); unfold off_data in H1; lia).
  pose proof Hct as (Htp & _ & Htc & _). pose proof Hcf as (Hfp & _ & Hfc & _). exists m'. split; [|split; [done|split; [|split; [|split; [|done]]]]].
  - cbn [first]. unfold pbuf_copy. rewrite (proj2 (Z.eqb_neq t.(b_addr) 0)), (proj2 (Z.eqb_neq f.(b_addr) 0)) by lia. mstep reflexivity. mstep reflexivity. mstep (exact (p_tot_run s t _ _ Htp Htc)). mstep (exact (p_tot_run s f _ _ Hfp Hfc)).
    rewrite (proj2 (Z.leb_le _ _)) by done. mstep reflexivity. exact Hrun.
  - apply contents_ext, Forall_forall. intros c Hc y Hy. apply Hout, Forall_forall. intros b Hb. specialize (H2 b c Hb Hc). unfold off_data in H2. lia.
  - apply (lseg_ext (nmem s)); [done|]. apply Forall_forall. intros c Hc. apply Hs, elem_of_app. by left.
  - apply (lseg_ext (nmem s)); [done|]. apply Forall_forall. intros c Hc. apply Hs, elem_of_app. by right.
Qed.

(** ** Two packets *)

(** "abcde" in two buffers with an empty one between them, and eight bytes in two others. *)
Definition demo_from : list pb := [mkPb 4096 4200 2 PBUF_POOL 1; mkPb 20480 20600 0 PBUF_POOL 1; mkPb 8192 8300 3 PBUF_POOL 1].
Definition demo_to : list pb := [mkPb 12288 12400 4 PBUF_POOL 1; mkPb 16384 16500 4 PBUF_POOL 1].

Definition two_packets : net := mkNet (mkHeap (put_chain demo_to (put_chain demo_from (st_bytes (st_bytes ∅ 4200 [97; 98]) 8300 [99; 100; 101]))) 0 0 0) ∅.

Ltac cases_in := repeat match goal with H : _ ∈ _ :: _ |- _ => apply elem_of_cons in H as [->|H] | H : _ ∈ [] |- _ => by apply elem_of_nil in H end.

Lemma demo_copyable : copyable demo_to demo_from.
Proof.
  split; [| |unfold demo_to; cbn [data_apart]; rewrite Forall_singleton, !Forall_nil; unfold off_data; cbn; lia| |].
  - intros t c Ht Hc. unfold demo_to, demo_from in *. cbn [app] in Hc. cases_in; unfold off_data; cbn; lia.
  - intros t c Ht Hc. unfold demo_to, demo_from in *. cases_in; unfold off_data; cbn; lia.
  - unfold bufs, demo_to, data_ok. rewrite !Forall_cons, Forall_nil. cbn. repeat split; intros; done || lia.
  - unfold bufs, demo_from, data_ok. rewrite !Forall_cons, Forall_nil. cbn. repeat split; intros; done || lia.
Qed.

Lemma pbuf_copy_copies_witness : exists m', pbuf_copy 5 12288 4096 two_packets = Ret ERR_OK (set_nmem m' two_packets) /\ contents m' demo_to = [97; 98; 99; 100; 101; 0; 0; 0].
Proof.
  destruct (pbuf_copy_copies two_packets 5 demo_to demo_from) as (m' & Hrun & Hc & _).
  - repeat split; vm_compute; done.
  - repeat split; vm_compute; done.
  - exact demo_copyable.
  - done.
  - done.
  - vm_compute. done.
  - cbn. lia.
  - exists m'. split; [exact Hrun|]. rewrite Hc. vm_compute. reflexivity.
Defined.

(** A source that ends in an empty buffer makes [pbuf_copy] panic. *)
Definition empty_tail : net := mkNet (mkHeap (put_chain [mkPb 12288 12400 5 PBUF_POOL 1] (put_chain [mkPb 4096 4200 5 PBUF_POOL 1; mkPb 8192 8300 0 PBUF_POOL 1] ∅)) 0 0 0) ∅.

Lemma pbuf_copy_empty_tail : match pbuf_copy 4 12288 4096 empty_tail with Panic _ => True | _ => False end.
Proof. vm_compute. done. Qed.
