(* ===== verification/Printfmt.v ===== *)
(** Formatted output: [lib/printfmt.c], with the kernel's [kern/printf.c] and the buffers
    of [lib/printf.c] and [snprintf] as its clients.

    [vprintfmt] is written against two operations on a state of the caller's choosing:
    [load], which reads a byte of memory, and [putch].  A variable argument list is the list
    of its 32-bit words.  String literals live where the linker put them ([Rodata]). *)

From S2P Require Import Prelude Mmu Mem CString.

(** Addresses of the literals of [lib/printfmt.c]; [error_string e] is the entry of the
    table, 0 for a hole. *)
Class Rodata := {
  lit_null : Z;         (* "(null)" *)
  lit_error_d : Z;      (* "error %d" *)
  lit_s : Z;            (* "%s" *)
  error_string : Z -> Z;
}.

Definition u64 (x : Z) : Z := x mod 2 ^ 64.
Definition s64 (x : Z) : Z := if u64 x <? 2 ^ 63 then u64 x else u64 x - 2 ^ 64.

(** Characters of format strings. *)
Definition chr_percent : Z := 37.
Definition chr_star : Z := 42.
Definition chr_dot : Z := 46.
Definition chr_1 : Z := 49.
Definition chr_question : Z := 63.
Definition chr_hash : Z := 35.
Definition chr_tilde : Z := 126.
Definition chr_c : Z := 99.
Definition chr_d : Z := 100.
Definition chr_e : Z := 101.
Definition chr_l : Z := 108.
Definition chr_o : Z := 111.
Definition chr_p : Z := 112.
Definition chr_s : Z := 115.
Definition chr_u : Z := 117.

Section Fmt.
Context {Lit : Rodata} {S : Type} (load : Z -> M S Z) (putch : Z -> M S unit).

(** [while (--width > 0) putch(padc)], for [width - 1] characters. *)
Fixpoint put_pad (n : nat) (padc : Z) : M S unit :=
  match n with O => ret tt | Datatypes.S n => putch padc ;;; put_pad n padc end.

(** [printnum]; 64 levels are enough for any 64-bit number. *)
Fixpoint printnum (fuel : nat) (num base width padc : Z) : M S unit :=
  match fuel with
  | O => out_of_fuel
  | Datatypes.S fuel =>
      (if base <=? num then printnum fuel (num / base) base (s32 (width - 1)) padc
       else put_pad (Z.to_nat (width - 1)) padc) ;;;
      putch (digit_char (num mod base))
  end.

(** One word of the argument list. *)
Definition va_word (ap : list Z) : M S (Z * list Z) :=
  match ap with w :: ap => ret (w, ap) | [] => wild end.

Definition getuint (ap : list Z) (lflag : Z) : M S (Z * list Z) :=
  if 2 <=? lflag then
    let* ' (lo, ap) := va_word ap in
    let* ' (hi, ap) := va_word ap in
    ret (u32 lo + 2 ^ 32 * u32 hi, ap)
  else let* ' (w, ap) := va_word ap in ret (u32 w, ap).

Definition getint (ap : list Z) (lflag : Z) : M S (Z * list Z) :=
  if 2 <=? lflag then
    let* ' (lo, ap) := va_word ap in
    let* ' (hi, ap) := va_word ap in
    ret (s64 (u32 lo + 2 ^ 32 * u32 hi), ap)
  else let* ' (w, ap) := va_word ap in ret (s32 w, ap).

(** The width or precision field: [ch] is its first digit; the result is the number and the
    position behind it. *)
Fixpoint field (fuel : nat) (fmt ch precision : Z) : M S (Z * Z) :=
  match fuel with
  | O => out_of_fuel
  | Datatypes.S fuel =>
      let precision := s32 (precision * 10 + ch - chr_0) in
      let* c := load fmt in
      let ch := sc c in
      if (ch <? chr_0) || (chr_9 <? ch) then ret (precision, fmt)
      else field fuel (u32 (fmt + 1)) ch precision
  end.

(** [strnlen(p, size)] of [lib/string.c] through [load]. *)
Fixpoint strnlen_at (fuel : nat) (p size n : Z) : M S Z :=
  match fuel with
  | O => out_of_fuel
  | Datatypes.S fuel =>
      if size =? 0 then ret n
      else
        let* c := load p in
        if c =? 0 then ret n else strnlen_at fuel (u32 (p + 1)) (size - 1) (s32 (n + 1))
  end.

(** The characters of a string: the width that is left.  The character is read before the
    precision is tested. *)
Fixpoint put_string (fuel : nat) (p precision width : Z) (altflag : bool) : M S Z :=
  match fuel with
  | O => out_of_fuel
  | Datatypes.S fuel =>
      let* c := load p in
      let ch := sc c in
      if ch =? 0 then ret width
      else if (precision <? 0) || (0 <=? precision - 1) then
        (if altflag && ((ch <? chr_space) || (chr_tilde <? ch)) then putch chr_question else putch ch) ;;;
        put_string fuel (u32 (p + 1)) (if precision <? 0 then precision else precision - 1) (s32 (width - 1)) altflag
      else ret width
  end.

(** [for (fmt--; fmt[-1] != '%'; fmt--)] *)
Fixpoint rewind (fuel : nat) (fmt : Z) : M S Z :=
  match fuel with
  | O => out_of_fuel
  | Datatypes.S fuel =>
      let* c := load (u32 (fmt - 1)) in
      if sc c =? chr_percent then ret fmt else rewind fuel (u32 (fmt - 1))
  end.

(** Where the formatter is: in text, or in a directive behind its ['%']. *)
Inductive mode :=
  | Text
  | Directive (padc width precision lflag : Z) (altflag : bool).

Definition put_number (num base width padc : Z) : M S unit := printnum 64 num base width padc.

(** [process_precision] *)
Definition process_precision (padc width precision lflag : Z) (altflag : bool) : mode :=
  if width <? 0 then Directive padc precision (-1) lflag altflag
  else Directive padc width precision lflag altflag.

Definition is_width (ch : Z) : bool := (chr_1 <=? ch) && (ch <=? chr_9).

Fixpoint vprintfmt (fuel : nat) (md : mode) (fmt : Z) (ap : list Z) : M S unit :=
  match fuel with
  | O => out_of_fuel
  | Datatypes.S fuel =>
      let* ch := load fmt in
      let fmt := u32 (fmt + 1) in
      match md with
      | Text =>
          if ch =? chr_percent then vprintfmt fuel (Directive chr_space (-1) (-1) 0 false) fmt ap
          else if ch =? 0 then ret tt
          else putch ch ;;; vprintfmt fuel Text fmt ap
      | Directive padc width precision lflag altflag =>
          if ch =? chr_minus then vprintfmt fuel (Directive chr_minus width precision lflag altflag) fmt ap
          else if ch =? chr_0 then vprintfmt fuel (Directive chr_0 width precision lflag altflag) fmt ap
          else if is_width ch then
            let* ' (precision, fmt) := field fuel fmt ch 0 in
            vprintfmt fuel (process_precision padc width precision lflag altflag) fmt ap
          else if ch =? chr_star then
            let* ' (w, ap) := va_word ap in
            vprintfmt fuel (process_precision padc width (s32 w) lflag altflag) fmt ap
          else if ch =? chr_dot then
            vprintfmt fuel (Directive padc (if width <? 0 then 0 else width) precision lflag altflag) fmt ap
          else if ch =? chr_hash then vprintfmt fuel (Directive padc width precision lflag true) fmt ap
          else if ch =? chr_l then vprintfmt fuel (Directive padc width precision (s32 (lflag + 1)) altflag) fmt ap
          else if ch =? chr_c then
            let* ' (w, ap) := va_word ap in
            putch (s32 w) ;;; vprintfmt fuel Text fmt ap
          else if ch =? chr_e then
            let* ' (w, ap) := va_word ap in
            let err := if s32 w <? 0 then s32 (- s32 w) else s32 w in
            (if (MAXERROR <=? err) || (error_string err =? 0) then vprintfmt fuel Text lit_error_d [u32 err]
             else vprintfmt fuel Text lit_s [error_string err]) ;;;
            vprintfmt fuel Text fmt ap
          else if ch =? chr_s then
            let* ' (w, ap) := va_word ap in
            let p := if u32 w =? 0 then lit_null else u32 w in
            let* width :=
              (if (0 <? width) && negb (padc =? chr_minus) then
                 let* n := strnlen_at fuel p (u32 precision) 0 in
                 let width := s32 (width - n) in
                 put_pad (Z.to_nat width) padc ;;; ret (Z.min width 0)
               else ret width) in
            let* width := put_string fuel p precision width altflag in
            put_pad (Z.to_nat width) chr_space ;;;
            vprintfmt fuel Text fmt ap
          else if ch =? chr_d then
            let* ' (num, ap) := getint ap lflag in
            (if num <? 0 then putch chr_minus else ret tt) ;;;
            put_number (u64 (if num <? 0 then - num else num)) 10 width padc ;;;
            vprintfmt fuel Text fmt ap
          else if ch =? chr_u then
            let* ' (num, ap) := getuint ap lflag in
            put_number num 10 width padc ;;; vprintfmt fuel Text fmt ap
          else if ch =? chr_o then
            let* ' (num, ap) := getuint ap lflag in
            put_number num 8 width padc ;;; vprintfmt fuel Text fmt ap
          else if ch =? chr_p then
            putch chr_0 ;;; putch chr_x ;;;
            let* ' (w, ap) := va_word ap in
            put_number (u32 w) 16 width padc ;;; vprintfmt fuel Text fmt ap
          else if ch =? chr_x then
            let* ' (num, ap) := getuint ap lflag in
            put_number num 16 width padc ;;; vprintfmt fuel Text fmt ap
          else if ch =? chr_percent then putch chr_percent ;;; vprintfmt fuel Text fmt ap
          else
            putch chr_percent ;;;
            let* fmt := rewind fuel (u32 (fmt - 1)) in
            vprintfmt fuel Text fmt ap
      end
  end.
End Fmt.

#[global] Arguments put_pad : simpl never.
#[global] Arguments printnum : simpl never.

(** ** The clients *)

(** [struct sprintbuf] over memory. *)
Record sprintbuf := mkSprint { sp_mem : mem; sp_buf : Z; sp_ebuf : Z; sp_cnt : Z }.

Definition sprintputch (ch : Z) : M sprintbuf unit := modify (fun b =>
  let b := mkSprint b.(sp_mem) b.(sp_buf) b.(sp_ebuf) (s32 (b.(sp_cnt) + 1)) in
  if b.(sp_buf) <? b.(sp_ebuf) then
    mkSprint (st8 b.(sp_mem) b.(sp_buf) ch) (u32 (b.(sp_buf) + 1)) b.(sp_ebuf) b.(sp_cnt)
  else b).

Definition sp_load (p : Z) : M sprintbuf Z := gets (fun b => ld8 b.(sp_mem) p).

(** The memory afterwards and the answer. *)
Definition vsnprintf {Lit : Rodata} (fuel : nat) (buf n fmt : Z) (ap : list Z) (m : mem) : outcome mem Z :=
  let b := mkSprint m buf (u32 (buf + n - 1)) 0 in
  if (buf =? 0) || (n <? 1) then Ret (- E_INVAL) m
  else
    match vprintfmt sp_load sprintputch fuel Text fmt ap b with
    | Ret _ b => Ret b.(sp_cnt) (st8 b.(sp_mem) b.(sp_buf) 0)
    | Panic b => Panic b.(sp_mem)
    | Wild b => Wild b.(sp_mem)
    | Iret e b => Iret e b.(sp_mem)
    | Halt b => Halt b.(sp_mem)
    | Monitor b => Monitor b.(sp_mem)
    | Fuel => Fuel
    end.

(** [struct printbuf] of [lib/printf.c], over a memory that printing does not change, with
    the arguments of the system calls made so far, latest first. *)
Record printbuf := mkPrint { pb_mem : mem; pb_idx : Z; pb_cnt : Z; pb_buf : list Z; pb_cputs : list (list Z) }.

Definition pb_load (p : Z) : M printbuf Z := gets (fun b => ld8 b.(pb_mem) p).

(** [sys_cputs(b->buf, b->idx)] *)
Definition pb_flush (b : printbuf) : printbuf :=
  mkPrint b.(pb_mem) b.(pb_idx) b.(pb_cnt) b.(pb_buf) (take (Z.to_nat b.(pb_idx)) b.(pb_buf) :: b.(pb_cputs)).

Definition pb_putch (ch : Z) : M printbuf unit := modify (fun b =>
  let b := mkPrint b.(pb_mem) (b.(pb_idx) + 1) b.(pb_cnt) (<[Z.to_nat b.(pb_idx) := u8 ch]> b.(pb_buf)) b.(pb_cputs) in
  let b :=
    if b.(pb_idx) =? 256 - 1 then
      let b := pb_flush b in mkPrint b.(pb_mem) 0 b.(pb_cnt) b.(pb_buf) b.(pb_cputs)
    else b in
  mkPrint b.(pb_mem) b.(pb_idx) (s32 (b.(pb_cnt) + 1)) b.(pb_buf) b.(pb_cputs)).

(** [vcprintf] of [lib/printf.c]; [buf] is what the stack held. *)
Definition vcprintf {Lit : Rodata} (fuel : nat) (fmt : Z) (ap : list Z) : M printbuf Z :=
  modify (fun b => mkPrint b.(pb_mem) 0 0 b.(pb_buf) b.(pb_cputs)) ;;;
  vprintfmt pb_load pb_putch fuel Text fmt ap ;;;
  modify pb_flush ;;;
  gets pb_cnt.

(** [vcprintf] of [kern/printf.c] over any console: [cnt] is the counter on its stack.
    [*cnt++] in its [putch] moves the pointer and leaves the counter alone. *)
Definition kputch {S} (cputchar : Z -> M S unit) (ch : Z) : M (S * Z) unit :=
  zoom fst (fun s st => (s, st.2)) (cputchar ch).

Definition kvcprintf {Lit : Rodata} {S} (load : Z -> M S Z) (cputchar : Z -> M S unit) (fuel : nat)
    (fmt : Z) (ap : list Z) : M (S * Z) Z :=
  modify (fun st => (st.1, 0)) ;;;
  vprintfmt (fun p => zoom fst (fun s st => (s, st.2)) (load p)) (kputch cputchar) fuel Text fmt ap ;;;
  gets snd.

(** ** Related runs *)

(** Two runs end the same way, with the same value and related states. *)
Definition rel {S T A} (R : S -> T -> Prop) (o : outcome S A) (o' : outcome T A) : Prop :=
  match o, o' with
  | Ret a s, Ret b t => a = b /\ R s t
  | Panic s, Panic t | Wild s, Wild t | Halt s, Halt t | Monitor s, Monitor t => R s t
  | Iret e s, Iret f t => e = f /\ R s t
  | Fuel, Fuel => True
  | _, _ => False
  end.

Section Rel.
Context {Lit : Rodata} {S T : Type} (R : S -> T -> Prop).
Context (load1 : Z -> M S Z) (load2 : Z -> M T Z) (putch1 : Z -> M S unit) (putch2 : Z -> M T unit).

(** Computations that keep states related. *)
Definition mrel {A} (m : M S A) (m' : M T A) : Prop := forall s t, R s t -> rel R (m s) (m' t).

Hypothesis Hload : forall p, mrel (load1 p) (load2 p).
Hypothesis Hputch : forall c, mrel (putch1 c) (putch2 c).

Lemma mrel_bind {A B} (m : M S A) (m' : M T A) (k : A -> M S B) (k' : A -> M T B) :
  mrel m m' -> (forall a, mrel (k a) (k' a)) -> mrel (bind m k) (bind m' k').
Proof.
  intros Hm Hk s t H. specialize (Hm s t H). unfold bind.
  destruct (m s), (m' t); simpl in Hm |- *; try done. destruct Hm as [-> Hm]. by apply Hk.
Qed.

Lemma mrel_ret {A} (a : A) : mrel (ret a) (ret a).
Proof. by intros s t H. Qed.
Lemma mrel_wild {A} : mrel (@wild S A) (@wild T A).
Proof. by intros s t H. Qed.
Lemma mrel_fuel {A} : mrel (@out_of_fuel S A) (@out_of_fuel T A).
Proof. by intros s t H. Qed.
Lemma mrel_if {A} (b : bool) (m n : M S A) (m' n' : M T A) :
  mrel m m' -> mrel n n' -> mrel (if b then m else n) (if b then m' else n').
Proof. by destruct b. Qed.

(** Walk down two copies of the same program. *)
Ltac walk :=
  repeat first
    [ assumption | apply Hload | apply Hputch | apply mrel_ret | apply mrel_wild | apply mrel_fuel
    | apply mrel_if | apply mrel_bind; [|let x := fresh in intros x; lazymatch type of x with prod _ _ => destruct x | _ => idtac end] ].

Lemma mrel_put_pad n padc : mrel (put_pad putch1 n padc) (put_pad putch2 n padc).
Proof. induction n as [|n IH]; unfold put_pad; fold (@put_pad S) (@put_pad T); walk. Qed.

Lemma mrel_printnum fuel num base width padc :
  mrel (printnum putch1 fuel num base width padc) (printnum putch2 fuel num base width padc).
Proof.
  revert num width. induction fuel as [|fuel IH]; intros; unfold printnum; fold (@printnum S) (@printnum T); walk.
  - apply IH.
  - apply mrel_put_pad.
Qed.

Lemma mrel_va_word ap : mrel (va_word ap) (va_word ap).
Proof. unfold va_word. destruct ap; walk. Qed.

Lemma mrel_getint ap lflag : mrel (getint ap lflag) (getint ap lflag).
Proof. unfold getint. walk; apply mrel_va_word. Qed.

Lemma mrel_getuint ap lflag : mrel (getuint ap lflag) (getuint ap lflag).
Proof. unfold getuint. walk; apply mrel_va_word. Qed.

Lemma mrel_field fuel fmt ch precision : mrel (field load1 fuel fmt ch precision) (field load2 fuel fmt ch precision).
Proof. revert fmt ch precision. induction fuel as [|fuel IH]; intros; simpl; walk. apply IH. Qed.

Lemma mrel_strnlen fuel p size n : mrel (strnlen_at load1 fuel p size n) (strnlen_at load2 fuel p size n).
Proof. revert p size n. induction fuel as [|fuel IH]; intros; simpl; walk. apply IH. Qed.

Lemma mrel_put_string fuel p precision width alt :
  mrel (put_string load1 putch1 fuel p precision width alt) (put_string load2 putch2 fuel p precision width alt).
Proof. revert p precision width. induction fuel as [|fuel IH]; intros; simpl; walk; apply IH. Qed.

Lemma mrel_rewind fuel fmt : mrel (rewind load1 fuel fmt) (rewind load2 fuel fmt).
Proof. revert fmt. induction fuel as [|fuel IH]; intros; simpl; walk. apply IH. Qed.

Lemma mrel_vprintfmt fuel md fmt ap :
  mrel (vprintfmt load1 putch1 fuel md fmt ap) (vprintfmt load2 putch2 fuel md fmt ap).
Proof.
  revert md fmt ap. induction fuel as [|fuel IH]; intros; [walk|].
  cbn [vprintfmt]. apply mrel_bind; [apply Hload|]. intros ch.
  destruct md as [|padc width precision lflag altflag];
    repeat first [apply IH | apply mrel_va_word | apply mrel_printnum | apply mrel_put_pad | apply mrel_field
      | apply mrel_strnlen | apply mrel_put_string | apply mrel_rewind | apply mrel_getint | apply mrel_getuint
      | apply Hputch | apply mrel_ret | apply mrel_if
      | apply mrel_bind; [|let x := fresh in intros x; lazymatch type of x with prod _ _ => destruct x | _ => idtac end] ].
Qed.
End Rel.

(** ** Numbers *)

(** The digits of a number, most significant first. *)
Fixpoint num_digits (fuel : nat) (num base : Z) : list Z :=
  match fuel with
  | O => []
  | S fuel => (if base <=? num then num_digits fuel (num / base) base else []) ++ [num mod base]
  end.

(** What a numeric directive prints. *)
Definition render (num base width padc : Z) : list Z :=
  let ds := num_digits 64 num base in
  replicate (Z.to_nat (width - Z.of_nat (length ds))) padc ++ (digit_char <$> ds).

(** [putch] on each character of a list. *)
Fixpoint putall {S} (putch : Z -> M S unit) (l : list Z) : M S unit :=
  match l with [] => ret tt | c :: l => putch c ;;; putall putch l end.

Lemma bind_assoc {S A B C} (m : M S A) (f : A -> M S B) (g : B -> M S C) s :
  bind (bind m f) g s = bind m (fun a => bind (f a) g) s.
Proof. unfold bind. by destruct (m s). Qed.

Lemma bind_ext {S A B} (m : M S A) (f g : A -> M S B) s :
  (forall a s, f a s = g a s) -> bind m f s = bind m g s.
Proof. intros H. unfold bind. destruct (m s); try done. Qed.

Lemma putall_app {S} (putch : Z -> M S unit) l l' s :
  putall putch (l ++ l') s = bind (putall putch l) (fun _ => putall putch l') s.
Proof.
  revert s. induction l as [|c l IH]; intros s; [done|]. cbn [app putall]. rewrite bind_assoc.
  apply bind_ext. intros. apply IH.
Qed.

Lemma put_pad_S {S} (putch : Z -> M S unit) n c :
  put_pad putch (Datatypes.S n) c = (putch c ;;; put_pad putch n c).
Proof. reflexivity. Qed.

Lemma printnum_S {S} (putch : Z -> M S unit) fuel num base width padc :
  printnum putch (Datatypes.S fuel) num base width padc =
    ((if base <=? num then printnum putch fuel (num / base) base (s32 (width - 1)) padc
      else put_pad putch (Z.to_nat (width - 1)) padc) ;;;
     putch (digit_char (num mod base))).
Proof. reflexivity. Qed.

Lemma put_pad_all {S} (putch : Z -> M S unit) n c : put_pad putch n c = putall putch (replicate n c).
Proof. induction n as [|n IH]; [done|]. by rewrite put_pad_S, IH. Qed.

Lemma printnum_all {S} (putch : Z -> M S unit) fuel num base width padc s :
  2 <= base -> (0 < fuel)%nat -> 0 <= num < base ^ Z.of_nat fuel -> - 2 ^ 31 + Z.of_nat fuel <= width < 2 ^ 31 ->
  printnum putch fuel num base width padc s =
    putall putch (replicate (Z.to_nat (width - Z.of_nat (length (num_digits fuel num base)))) padc ++
      (digit_char <$> num_digits fuel num base)) s.
Proof.
  intros Hb. revert num width s. induction fuel as [|fuel IH]; intros num width s Hf Hn Hw; [lia|].
  rewrite printnum_S. cbn [num_digits].
  destruct (Z.leb_spec base num) as [Hle|Hlt].
  - assert (0 <= num / base < base ^ Z.of_nat fuel) as Hn'.
    { split; [apply Z.div_pos; lia|]. apply Z.div_lt_upper_bound; [lia|].
      rewrite <- Z.pow_succ_r by lia. replace (Z.succ (Z.of_nat fuel)) with (Z.of_nat (Datatypes.S fuel)) by lia. apply Hn. }
    assert (0 < fuel)%nat as Hf'.
    { destruct fuel; [|lia]. change (base ^ Z.of_nat 0) with 1 in Hn'.
      pose proof (Z.div_str_pos num base). lia. }
    set (ds := num_digits fuel (num / base) base) in *. rewrite fmap_app, length_app, (assoc_L (++)), putall_app.
    rewrite s32_small by lia. unfold bind. rewrite IH by (done || lia). fold ds.
    replace (width - Z.of_nat (length ds + length [num `mod` base]))
      with (width - 1 - Z.of_nat (length ds)) by (simpl length; lia).
    destruct (putall putch (_ ++ _) s); try done. simpl. unfold bind. by destruct (putch _ _) as [[]| | | | | |].
  - cbn [app]. rewrite put_pad_all, putall_app. unfold bind. simpl length. change (Z.of_nat 1) with 1.
    destruct (putall putch _ s); try done. simpl. unfold bind. by destruct (putch _ _) as [[]| | | | | |].
Qed.

Lemma digits_val_app base ds d v : digits_val base (ds ++ [d]) v = digits_val base ds v * base + d.
Proof. unfold digits_val. by rewrite foldl_app. Qed.

Lemma num_digits_ok fuel num base :
  2 <= base -> 0 <= num < base ^ Z.of_nat fuel ->
  digits_val base (num_digits fuel num base) 0 = num /\
  forall d, d ∈ num_digits fuel num base -> 0 <= d < base.
Proof.
  intros Hb. revert num. induction fuel as [|fuel IH]; intros num Hn.
  { change (base ^ Z.of_nat 0) with 1 in Hn. simpl. split; [lia|]. by intros d ?%elem_of_nil. }
  cbn [num_digits]. pose proof (Z.mod_pos_bound num base ltac:(lia)) as Hm.
  assert (0 <= num / base < base ^ Z.of_nat fuel) as Hn'.
  { split; [apply Z.div_pos; lia|]. apply Z.div_lt_upper_bound; [lia|].
    rewrite <- Z.pow_succ_r by lia. replace (Z.succ (Z.of_nat fuel)) with (Z.of_nat (S fuel)) by lia. apply Hn. }
  rewrite digits_val_app. destruct (Z.leb_spec base num).
  - destruct (IH (num / base) Hn') as [-> Hd]. split; [pose proof (Z.div_mod num base); lia|].
    intros d [Hin|Hin]%elem_of_app; [by apply Hd|]. apply list_elem_of_singleton in Hin as ->. lia.
  - split; [cbn [digits_val foldl]; rewrite Z.mod_small; lia|].
    intros d Hin. apply list_elem_of_singleton in Hin as ->. lia.
Qed.

Lemma num_digits_cons fuel num base : exists d ds, num_digits (S fuel) num base = d :: ds.
Proof. cbn [num_digits]. destruct (base <=? num); [destruct (num_digits _ _ _)|]; simpl; eauto. Qed.

(** [printnum] prints the number in its base with the most significant digit first and
    no leading zeros, padded on the left with [padc] to the width; the digits it prints
    denote the number.  64 levels of recursion are enough for any 64-bit number. *)
Theorem printnum_renders {S} (putch : Z -> M S unit) num base width padc s :
  2 <= base <= 16 -> 0 <= num < 2 ^ 64 -> - 2 ^ 30 <= width < 2 ^ 31 ->
  printnum putch 64 num base width padc s = putall putch (render num base width padc) s /\
  digits_val base (num_digits 64 num base) 0 = num /\
  (forall d, d ∈ num_digits 64 num base -> 0 <= d < base).
Proof.
  intros Hb Hn Hw.
  assert (2 ^ 64 <= base ^ Z.of_nat 64) as Hp by (apply (Z.pow_le_mono_l 2 base 64); lia).
  split; [apply printnum_all; lia|]. apply num_digits_ok; lia.
Qed.

Definition collect (c : Z) : M (list Z) unit := modify (fun l => l ++ [c]).

Lemma printnum_renders_witness : printnum collect 64 255 16 4 chr_0 [] = Ret tt [48; 48; 102; 102].
Proof.
  destruct (printnum_renders collect 255 16 4 chr_0 []) as [-> _]; [lia|lia|lia|reflexivity].
Defined.

(** A left-justified number is padded on the left with dashes: ["%-4d"] hands [printnum]
    the flag character as its pad, although the comment at the flag says it pads on the
    right. *)
Theorem printnum_dash {S} (putch : Z -> M S unit) num base width s :
  2 <= base <= 16 -> 0 <= num < base -> 1 <= width < 2 ^ 31 ->
  printnum putch 64 num base width chr_minus s =
    putall putch (replicate (Z.to_nat (width - 1)) chr_minus ++ [digit_char num]) s.
Proof.
  intros Hb Hn Hw. rewrite printnum_all; [|lia|lia| |lia].
  - cbn [num_digits]. rewrite (proj2 (Z.leb_gt _ _)) by lia. cbn [app fmap list_fmap length].
    by rewrite Z.mod_small by lia.
  - split; [lia|]. apply (Z.lt_le_trans _ (2 ^ 64)); [lia|]. apply (Z.pow_le_mono_l 2 base 64). lia.
Qed.

Lemma printnum_dash_witness : printnum collect 64 7 10 4 chr_minus [] = Ret tt [45; 45; 45; 55].
Proof. rewrite (printnum_dash collect 7 10 4 []) by lia. reflexivity. Defined.

(** ** [snprintf] *)

(** The state of [vsnprintf]: the position is in the buffer, and only the buffer changed. *)
Definition sp_ok (m : mem) (buf n : Z) (b : sprintbuf) : Prop :=
  buf <= b.(sp_buf) <= buf + n - 1 /\ b.(sp_ebuf) = buf + n - 1 /\
  forall a, a < buf \/ buf + n <= a -> ld8 b.(sp_mem) a = ld8 m a.

Lemma sp_ok_putch m buf n c b :
  0 <= buf -> buf + n <= 2 ^ 32 -> sp_ok m buf n b ->
  exists b', sprintputch c b = Ret tt b' /\ sp_ok m buf n b'.
Proof.
  intros Hb Hn (H1 & H2 & H3). eexists. split; [reflexivity|]. cbn [sp_buf sp_ebuf].
  destruct (Z.ltb_spec b.(sp_buf) b.(sp_ebuf)); unfold sp_ok; cbn [sp_buf sp_ebuf sp_mem].
  - rewrite u32_small by lia. split; [lia|]. split; [done|]. intros a Ha. rewrite ld8_st8. ranges. by apply H3.
  - done.
Qed.

(** The memory an outcome leaves behind. *)
Definition final {A} (o : outcome mem A) : option mem :=
  match o with
  | Ret _ m | Panic m | Wild m | Iret _ m | Halt m | Monitor m => Some m
  | Fuel => None
  end.

(** C25: [vsnprintf] with a buffer of [n] bytes writes no byte outside the buffer, whatever
    the format, the arguments and the way the run ends, and when it returns there is a NUL
    inside the buffer. *)
Theorem vsnprintf_bounded {Lit : Rodata} fuel buf n fmt ap m :
  0 < buf -> 1 <= n -> buf + n <= 2 ^ 32 ->
  let o := vsnprintf fuel buf n fmt ap m in
  (forall m' a, final o = Some m' -> a < buf \/ buf + n <= a -> ld8 m' a = ld8 m a) /\
  (forall r m', o = Ret r m' -> exists j, buf <= j < buf + n /\ ld8 m' j = 0).
Proof.
  intros Hb Hn Hbn o. subst o. unfold vsnprintf. rewrite (proj2 (Z.eqb_neq _ _)), (proj2 (Z.ltb_ge _ _)) by lia.
  cbn [orb]. rewrite u32_small by lia. set (b0 := mkSprint m buf (buf + n - 1) 0).
  pose (R := fun s t : sprintbuf => s = t /\ sp_ok m buf n s).
  assert (rel R (vprintfmt sp_load sprintputch fuel Text fmt ap b0) (vprintfmt sp_load sprintputch fuel Text fmt ap b0)) as H.
  { apply mrel_vprintfmt.
    - intros p s t [<- Hs]. by split.
    - intros c s t [<- Hs]. destruct (sp_ok_putch m buf n c s ltac:(lia) Hbn Hs) as (s' & -> & Hs'). by split.
    - split; [done|]. split; [cbn [b0 sp_buf]; lia|]. by split. }
  destruct (vprintfmt sp_load sprintputch fuel Text fmt ap b0) as [[] b|b|b|e b|b|b|]; unfold R, rel in H;
    (split; [intros m' a [= <-] Ha|intros r m' E; try discriminate E]);
    try (apply H; done).
  - destruct H as (_ & _ & H1 & H2 & H3). rewrite ld8_st8. ranges. by apply H3.
  - injection E as <- <-. destruct H as (_ & _ & H1 & _). exists b.(sp_buf). rewrite ld8_st8, Z.eqb_refl. split; [lia|done].
Qed.

#[global] Instance demo_rodata : Rodata := {| lit_null := 100; lit_error_d := 120; lit_s := 140; error_string := fun _ => 0 |}.

(** ["hello"] into four bytes. *)
Lemma vsnprintf_bounded_witness :
  exists r m', vsnprintf 10 2000 4 1000 [] hello = Ret r m' /\ ld8 m' 2004 = ld8 hello 2004.
Proof.
  pose proof (proj1 (vsnprintf_bounded 10 2000 4 1000 [] hello ltac:(lia) ltac:(lia) ltac:(lia))) as H. cbv zeta in H.
  destruct (vsnprintf 10 2000 4 1000 [] hello) as [r m'|?|?|? ?|?|?|] eqn:E; try (vm_compute in E; discriminate E).
  exists r, m'. split; [reflexivity|]. apply (H m' 2004); [reflexivity|lia].
Defined.

(** Characters that fit are stored one after the other. *)
Lemma sprint_all l m buf ebuf cnt :
  0 <= buf -> buf + Z.of_nat (length l) <= ebuf -> ebuf < 2 ^ 32 -> 0 <= cnt -> cnt + Z.of_nat (length l) < 2 ^ 31 ->
  putall sprintputch l (mkSprint m buf ebuf cnt) =
    Ret tt (mkSprint (st_bytes m buf l) (buf + Z.of_nat (length l)) ebuf (cnt + Z.of_nat (length l))).
Proof.
  revert m buf cnt. induction l as [|c l IH]; intros m buf cnt Hb He Heb Hc Hcl; cbn [putall st_bytes length] in *.
  - by rewrite !Z.add_0_r.
  - erewrite bind_ret by reflexivity. cbn [sp_buf sp_ebuf sp_mem sp_cnt].
    rewrite (proj2 (Z.ltb_lt _ _)) by lia. rewrite u32_small, s32_small by lia. rewrite IH by lia.
    f_equal. f_equal; lia.
Qed.

Lemma cstr_written m p l :
  (forall c, c ∈ l -> 0 < c < 256) -> 0 <= p -> p + Z.of_nat (length l) < 2 ^ 32 - 1 ->
  cstr (st8 (st_bytes m p l) (p + Z.of_nat (length l)) 0) p l.
Proof.
  revert m p. induction l as [|c l IH]; intros m p Hc Hp Hb; cbn [st_bytes length] in *.
  - split; [lia|]. rewrite Z.add_0_r, ld8_st8, Z.eqb_refl. done.
  - split; [lia|]. specialize (Hc c ltac:(left)) as Hcc. split; [|split; [lia|]].
    + rewrite ld8_st8, ld8_st_bytes, ld8_st8. ranges. apply u8_small. lia.
    + replace (p + Z.of_nat (S (length l))) with (p + 1 + Z.of_nat (length l)) by lia.
      apply IH; [intros x Hx; apply Hc; by right|lia|lia].
Qed.

(** The characters ["%d"] prints for [x]. *)
Definition decimal (x : Z) : list Z :=
  (if x <? 0 then [chr_minus] else []) ++ (digit_char <$> num_digits 64 (Z.abs x) 10).

Lemma num_digits_short num fuel : 0 <= num < 10 ^ Z.of_nat fuel -> forall k, (length (num_digits (fuel + k) num 10) <= Nat.max 1 fuel)%nat.
Proof.
  revert num. induction fuel as [|fuel IH]; intros num Hn k.
  - change (10 ^ Z.of_nat 0) with 1 in Hn. destruct k; cbn [num_digits Nat.add length]; [lia|].
    rewrite (proj2 (Z.leb_gt _ _)) by lia. simpl. lia.
  - cbn [num_digits Nat.add]. rewrite length_app. destruct (Z.leb_spec 10 num); [|simpl; lia].
    assert (0 <= num / 10 < 10 ^ Z.of_nat fuel) as Hn'.
    { rewrite Nat2Z.inj_succ, Z.pow_succ_r in Hn by lia. split; [apply Z.div_pos; lia|apply Z.div_lt_upper_bound; lia]. }
    specialize (IH (num / 10) Hn' k). simpl length.
    assert (fuel <> 0)%nat; [|lia]. intros ->. change (10 ^ Z.of_nat 0) with 1 in Hn'.
    pose proof (Z.div_str_pos num 10). lia.
Qed.

Lemma decimal_short x : - 2 ^ 31 <= x < 2 ^ 31 -> (length (decimal x) <= 11)%nat.
Proof.
  intros Hx. unfold decimal. rewrite length_app, length_fmap.
  assert (length (num_digits 64 (Z.abs x) 10) <= Nat.max 1 10)%nat as H.
  { apply (num_digits_short (Z.abs x) 10) with (k := 54%nat).
    change (10 ^ Z.of_nat 10) with 10000000000. lia. }
  generalize dependent (length (num_digits 64 (Z.abs x) 10)). intros k H.
  destruct (x <? 0); cbn [length]; lia.
Qed.

Lemma decimal_chars x c : - 2 ^ 31 <= x < 2 ^ 31 -> c ∈ decimal x -> 0 < c < 256.
Proof.
  intros Hx Hc. unfold decimal in Hc. apply elem_of_app in Hc as [Hc|Hc].
  - destruct (x <? 0); [|by apply elem_of_nil in Hc]. apply list_elem_of_singleton in Hc as ->. by vm_compute.
  - apply list_elem_of_fmap in Hc as (d & -> & Hd).
    destruct (num_digits_ok 64 (Z.abs x) 10) as [_ H]; [lia|lia|]. specialize (H d Hd).
    destruct (digit_char_range d); lia.
Qed.

(** The run of ["%d"] is the digits followed by the rest of the format. *)
Lemma vprintfmt_d {Lit : Rodata} {S} (load : Z -> M S Z) (putch : Z -> M S unit) fmt x s fuel :
  - 2 ^ 31 <= x < 2 ^ 31 -> 0 <= fmt -> fmt + 2 < 2 ^ 32 ->
  load fmt s = Ret chr_percent s -> load (fmt + 1) s = Ret chr_d s ->
  vprintfmt load putch (2 + fuel) Text fmt [u32 x] s =
    bind (putall putch (decimal x)) (fun _ => vprintfmt load putch fuel Text (fmt + 2) []) s.
Proof.
  intros Hx Hf Hf2 H0 H1. cbn [vprintfmt Nat.add]. erewrite bind_ret by exact H0.
  change (chr_percent =? chr_percent) with true. cbv iota. rewrite (u32_small (fmt + 1)) by lia.
  erewrite bind_ret by exact H1. change (is_width chr_d) with false.
  repeat (match goal with |- context [chr_d =? ?c] =>
    let b := eval vm_compute in (chr_d =? c) in change (chr_d =? c) with b end; cbv iota).
  change (getint [u32 x] 0) with (@ret S _ (s32 (u32 x), @nil Z)). erewrite bind_ret by reflexivity. cbv iota beta.
  assert (s32 (u32 x) = x) as ->. { unfold s32. rewrite u32_idem. fold (s32 x). by apply s32_small. }
  replace (u32 (fmt + 1 + 1)) with (fmt + 2) by (rewrite u32_small; lia).
  assert (u64 (if x <? 0 then - x else x) = Z.abs x) as ->.
  { unfold u64. rewrite Z.mod_small; bcase; lia. }
  unfold decimal, put_number.
  assert (forall t, printnum putch 64 (Z.abs x) 10 (-1) chr_space t =
    putall putch (digit_char <$> num_digits 64 (Z.abs x) 10) t) as Hn.
  { intros t. rewrite printnum_all; [|lia|lia| |lia].
    - by rewrite (proj1 (Nat2Z.inj_iff (Z.to_nat _) 0)) by lia.
    - split; [lia|]. apply (Z.lt_le_trans _ (2 ^ 64)); [lia|]. apply (Z.pow_le_mono_l 2 10 64). lia. }
  unfold bind at 3. rewrite putall_app. unfold bind. destruct (x <? 0); cbn [putall]; unfold bind, ret.
  - destruct (putch chr_minus s); try done. by rewrite Hn.
  - by rewrite Hn.
Qed.

Lemma decimal_reads m p x fuel :
  - 2 ^ 31 < x < 2 ^ 31 -> cstr m p (decimal x) -> (11 < fuel)%nat ->
  strtol fuel m p 10 = Some (x, p + Z.of_nat (length (decimal x))).
Proof.
  intros Hx Hs Hf. unfold decimal in *.
  destruct (num_digits_ok 64 (Z.abs x) 10) as [Hv Hd]; [lia| |].
  { split; [lia|]. apply (Z.lt_le_trans _ (2 ^ 64)); [lia|]. apply (Z.pow_le_mono_l 2 10 64). lia. }
  assert (length (num_digits 64 (Z.abs x) 10) <= 11)%nat as Hl.
  { pose proof (decimal_short x ltac:(lia)) as H. unfold decimal in H. rewrite length_app, length_fmap in H. lia. }
  destruct (num_digits_cons 63 (Z.abs x) 10) as (d & ds & E). rewrite E in *.
  rewrite (strtol_reads m p (x <? 0) d ds 10 fuel Hs) by (done || lia).
  rewrite Hv, length_app, length_fmap. f_equal. destruct (Z.ltb_spec x 0); f_equal; cbn [length]; lia.
Qed.

(** C24: printing a number and reading it back: [snprintf(buf, n, "%d", x)] into at least
    twelve bytes returns the number of characters, and [strtol(buf, &end, 10)] on the buffer
    gives [x] with [end] at the terminating NUL, for every [x] but the most negative one. *)
Theorem snprintf_strtol {Lit : Rodata} fuel fuel' buf n fmt x m :
  - 2 ^ 31 < x < 2 ^ 31 -> 0 < buf -> 12 <= n -> buf + n < 2 ^ 32 -> cstr m fmt [chr_percent; chr_d] ->
  fmt + 2 < buf \/ buf + n <= fmt -> (3 <= fuel)%nat -> (11 < fuel')%nat ->
  exists k m', vsnprintf fuel buf n fmt [u32 x] m = Ret k m' /\ strtol fuel' m' buf 10 = Some (x, buf + k) /\
    ld8 m' (buf + k) = 0.
Proof.
  intros Hx Hb Hn Hbn (Hf0 & Hc0 & _ & Hf1 & Hc1 & _ & Hf2 & Hc2) Hdis Hfuel Hfuel'.
  pose proof (decimal_short x ltac:(lia)) as Hlen.
  exists (Z.of_nat (length (decimal x))), (st8 (st_bytes m buf (decimal x)) (buf + Z.of_nat (length (decimal x))) 0).
  split; [|split; [|by rewrite ld8_st8, Z.eqb_refl]].
  - unfold vsnprintf. rewrite (proj2 (Z.eqb_neq _ _)), (proj2 (Z.ltb_ge _ _)) by lia. cbn [orb].
    rewrite (u32_small (buf + n - 1)) by lia. destruct fuel as [|[|[|fuel]]]; try lia.
    change (S (S (S fuel))) with (2 + S fuel)%nat.
    rewrite (vprintfmt_d _ _ fmt x _ (S fuel)); [|lia|lia|lia|by unfold sp_load, gets; cbn [sp_mem]; rewrite Hc0|
      by unfold sp_load, gets; cbn [sp_mem]; rewrite Hc1].
    erewrite bind_ret by (apply sprint_all; lia). cbn [vprintfmt].
    erewrite bind_ret by reflexivity. cbn [sp_mem]. rewrite Z.add_0_l.
    assert (ld8 (st_bytes m buf (decimal x)) (fmt + 2) = 0) as ->.
    { rewrite ld8_st_bytes. replace (fmt + 2) with (fmt + 1 + 1) by lia. rewrite Hc2. ranges; done. }
    reflexivity.
  - apply decimal_reads; [done| |done]. apply cstr_written; [|lia|lia].
    intros c Hc. apply (decimal_chars x); [lia|done].
Qed.

(** ["%d"] and its NUL at 1000. *)
Definition fmt_d : mem := st_bytes ∅ 1000 [37; 100; 0].

Lemma snprintf_strtol_witness :
  exists k m', vsnprintf 3 2000 12 1000 [u32 (-42)] fmt_d = Ret k m' /\ strtol 12 m' 2000 10 = Some (-42, 2000 + k) /\
    ld8 m' (2000 + k) = 0.
Proof.
  refine (snprintf_strtol 3 12 2000 12 1000 (-42) fmt_d _ _ _ _ _ _ _ _); try lia.
  repeat (split; [lia || done || (by vm_compute)|]). by vm_compute.
Defined.

(** ** [cprintf] *)

(** The text of a run of the formatter over the memory [m]. *)
Definition text_load (p : Z) : M (mem * list Z) Z := gets (fun t => ld8 t.1 p).
Definition text_putch (c : Z) : M (mem * list Z) unit := modify (fun t => (t.1, t.2 ++ [u8 c])).

(** The buffered printer has sent, or holds, the text. *)
Definition pb_holds (b : printbuf) (t : mem * list Z) : Prop :=
  b.(pb_mem) = t.1 /\ 0 <= b.(pb_idx) < 255 /\ length b.(pb_buf) = 256%nat /\
  b.(pb_cnt) = s32 (Z.of_nat (length t.2)) /\
  concat (reverse b.(pb_cputs)) ++ take (Z.to_nat b.(pb_idx)) b.(pb_buf) = t.2 /\
  Forall (fun c => (length c <= 255)%nat) b.(pb_cputs).

Lemma s32_succ x : s32 (s32 x + 1) = s32 (x + 1).
Proof. unfold s32, u32. bcase; zdm. Qed.

Lemma concat_flush (c : list Z) l : concat (reverse (c :: l)) = concat (reverse l) ++ c.
Proof. rewrite reverse_cons, concat_app. simpl. by rewrite app_nil_r. Qed.

Lemma pb_holds_putch c : mrel pb_holds (pb_putch c) (text_putch c).
Proof.
  intros b [m l] (H1 & H2 & H3 & H4 & H5 & H6). cbn [fst snd] in *.
  unfold pb_putch, text_putch, modify, rel. split; [done|].
  assert (take (Z.to_nat (b.(pb_idx) + 1)) (<[Z.to_nat b.(pb_idx) := u8 c]> b.(pb_buf)) =
    take (Z.to_nat b.(pb_idx)) b.(pb_buf) ++ [u8 c]) as Ht.
  { replace (Z.to_nat (b.(pb_idx) + 1)) with (S (Z.to_nat b.(pb_idx))) by lia.
    rewrite (take_S_r _ _ (u8 c)) by (rewrite list_lookup_insert_eq by lia; done). by rewrite take_insert_ge by lia. }
  assert (s32 (b.(pb_cnt) + 1) = s32 (Z.of_nat (length (l ++ [u8 c])))) as Hc.
  { rewrite H4, s32_succ, length_app. f_equal. simpl length. lia. }
  unfold pb_holds. cbn [pb_mem pb_idx pb_cnt pb_buf pb_cputs fst snd].
  destruct (Z.eqb_spec (b.(pb_idx) + 1) (256 - 1)) as [E|E];
    cbn [pb_flush pb_mem pb_idx pb_cnt pb_buf pb_cputs];
    (split; [done|]); (split; [lia|]); (split; [by rewrite length_insert|]); (split; [done|]); rewrite Ht.
  - split; [|constructor; [|done]].
    + rewrite concat_flush, (assoc_L (++)), H5. simpl. by rewrite app_nil_r.
    + rewrite length_app, length_take. simpl length. lia.
  - split; [|done]. by rewrite (assoc_L (++)), H5.
Qed.

(** User-level [cprintf] sends the console exactly the text of the format: the buffers it
    hands to [sys_cputs], each of at most 255 bytes, put together are the characters the
    formatter produced, and the answer is their number. *)
Theorem vcprintf_output {Lit : Rodata} fuel fmt ap m buf text m' :
  length buf = 256%nat ->
  vprintfmt text_load text_putch fuel Text fmt ap (m, []) = Ret tt (m', text) ->
  exists b, vcprintf fuel fmt ap (mkPrint m 0 0 buf []) = Ret (s32 (Z.of_nat (length text))) b /\
    concat (reverse b.(pb_cputs)) = text /\ Forall (fun c => (length c <= 255)%nat) b.(pb_cputs).
Proof.
  intros Hbuf Hrun.
  assert (pb_holds (mkPrint m 0 0 buf []) (m, [])) as H0.
  { split; [done|]. split; [cbn [pb_idx]; lia|]. by repeat split. }
  pose proof (mrel_vprintfmt pb_holds pb_load text_load pb_putch text_putch
    ltac:(intros p b t H; split; [by destruct H as [-> _]|done]) pb_holds_putch fuel Text fmt ap _ _ H0) as H.
  rewrite Hrun in H. unfold vcprintf. erewrite bind_ret by reflexivity. cbn [pb_mem pb_buf pb_cputs].
  destruct (vprintfmt pb_load pb_putch fuel Text fmt ap _) as [[] b|b|b|e b|b|b|] eqn:E; try (destruct H; fail).
  destruct H as (_ & H1 & H2 & H3 & H4 & H5 & H6). erewrite bind_ret by exact E. erewrite bind_ret by reflexivity.
  eexists. split; [unfold gets; cbn [pb_flush pb_cnt]; by rewrite H4|]. cbn [pb_flush pb_cputs].
  split; [by rewrite concat_flush, H5|]. constructor; [|done]. rewrite length_take. lia.
Qed.

Lemma vcprintf_output_witness :
  exists b, vcprintf 10 1000 [] (mkPrint hello 0 0 (replicate 256 0) []) = Ret (s32 5) b /\
    concat (reverse b.(pb_cputs)) = [104; 101; 108; 108; 111] /\ Forall (fun c => (length c <= 255)%nat) b.(pb_cputs).
Proof. exact (vcprintf_output 10 1000 [] hello (replicate 256 0) [104; 101; 108; 108; 111] hello eq_refl eq_refl). Defined.

(** The kernel's [cprintf] always answers 0: its counter is never moved. *)
Lemma kvcprintf_zero {Lit : Rodata} {S} (load : Z -> M S Z) (cputchar : Z -> M S unit) fuel fmt ap st r st' :
  kvcprintf load cputchar fuel fmt ap st = Ret r st' -> r = 0.
Proof.
  intros H. unfold kvcprintf in H. apply bind_inv in H as (? & s0 & H0 & H). injection H0 as <- <-.
  apply bind_inv in H as ([] & s1 & H1 & H). injection H as <- <-.
  assert (forall {A} (m : M S A), mrel (fun s t : S * Z => s = t /\ s.2 = 0)
    (zoom fst (fun s st => (s, st.2)) m) (zoom fst (fun s st => (s, st.2)) m)) as Hz.
  { intros A mm s t [<- Hs]. unfold zoom. destruct (mm s.1); simpl; repeat split; done. }
  pose proof (mrel_vprintfmt (fun s t : S * Z => s = t /\ s.2 = 0) _ _ _ _
    (fun p => Hz _ (load p)) (fun c => Hz _ (cputchar c)) fuel Text fmt ap (st.1, 0) (st.1, 0) (conj eq_refl eq_refl)) as HR.
  unfold kputch in H1. rewrite H1 in HR. apply HR.
Qed.
