(* ===== verification/Ide.v ===== *)
(** The IDE driver, [fs/ide.c], over the ports of an ATA drive.

    The drive is hardware: a class of port operations, and a class of laws saying that it
    behaves as the ATA standard describes ([ata], an executable state machine: task-file
    registers, and the transfer a command starts).  The driver promises the block cache a
    [Disk]: sectors that can be read and written. *)

From S2P Require Import Prelude Mmu Mem.

Definition IDE_BSY : Z := 0x80.
Definition IDE_DRDY : Z := 0x40.
Definition IDE_DF : Z := 0x20.
Definition IDE_ERR : Z := 0x01.
Definition SECTSIZE : Z := 512.

(** Port input and output; the string instructions move whole buffers. *)
Class Ports (D : Type) := {
  inb : Z -> M D Z;
  outb : Z -> Z -> M D unit;
  insl : Z -> Z -> M D (list Z);
  outsl : Z -> list Z -> M D unit;
}.

(** The drive and the static [diskno]. *)
Record ide (D : Type) := mkIde { dev : D; diskno : Z }.
Arguments mkIde {D}.
Arguments dev {D}.
Arguments diskno {D}.

Section Driver.
Context {D : Type} {HP : Ports D}.

Definition port {A} (m : M D A) : M (ide D) A := zoom dev (fun d i => mkIde d i.(diskno)) m.

(** [fuel] bounds the number of times the status is polled. *)
Fixpoint ide_wait_ready (fuel : nat) (check_error : bool) : M (ide D) Z :=
  match fuel with
  | O => out_of_fuel
  | S fuel =>
      let* r := port (inb 0x1F7) in
      if negb (Z.land r (Z.lor IDE_BSY IDE_DRDY) =? IDE_DRDY) then ide_wait_ready fuel check_error
      else if check_error && nonzero (Z.land r (Z.lor IDE_DF IDE_ERR)) then ret (-1)
      else ret 0
  end.

(** The polling loop of [ide_probe_disk1]: [n] polls are left. *)
Fixpoint probe_loop (n : nat) : M (ide D) bool :=
  match n with
  | O => ret false
  | S n =>
      let* r := port (inb 0x1F7) in
      if nonzero (Z.land r (Z.lor IDE_BSY (Z.lor IDE_DF IDE_ERR))) then probe_loop n else ret true
  end.

Definition ide_probe_disk1 (fuel : nat) : M (ide D) bool :=
  ide_wait_ready fuel false ;;;
  port (outb 0x1F6 (Z.lor 0xE0 (Z.shiftl 1 4))) ;;;
  let* b := probe_loop 1000 in
  port (outb 0x1F6 (Z.lor 0xE0 (Z.shiftl 0 4))) ;;;
  ret b.

Definition ide_set_disk (d : Z) : M (ide D) unit :=
  if negb (d =? 0) && negb (d =? 1) then panic
  else modify (fun i => mkIde i.(dev) d).

(** The task file and the command byte. *)
Definition ide_command (secno nsecs cmd : Z) : M (ide D) unit :=
  port (outb 0x1F2 (u8 nsecs)) ;;;
  port (outb 0x1F3 (Z.land secno 0xFF)) ;;;
  port (outb 0x1F4 (Z.land (Z.shiftr secno 8) 0xFF)) ;;;
  port (outb 0x1F5 (Z.land (Z.shiftr secno 16) 0xFF)) ;;;
  let* no := gets diskno in
  port (outb 0x1F6 (Z.lor (Z.lor 0xE0 (Z.shiftl (Z.land no 1) 4)) (Z.land (Z.shiftr secno 24) 0x0F))) ;;;
  port (outb 0x1F7 cmd).

(** The answer, and the bytes stored at [dst]. *)
Fixpoint read_loop (fuel : nat) (nsecs : nat) (got : list Z) : M (ide D) (Z * list Z) :=
  match nsecs with
  | O => ret (0, got)
  | S nsecs =>
      let* r := ide_wait_ready fuel true in
      if r <? 0 then ret (r, got)
      else
        let* l := port (insl 0x1F0 (SECTSIZE / 4)) in
        read_loop fuel nsecs (got ++ l)
  end.

Definition ide_read (fuel : nat) (secno nsecs : Z) : M (ide D) (Z * list Z) :=
  if negb (nsecs <=? 256) then panic
  else
    ide_wait_ready fuel false ;;;
    ide_command secno nsecs 0x20 ;;;
    read_loop fuel (Z.to_nat nsecs) [].

Fixpoint write_loop (fuel : nat) (nsecs : nat) (src : list Z) : M (ide D) Z :=
  match nsecs with
  | O => ret 0
  | S nsecs =>
      let* r := ide_wait_ready fuel true in
      if r <? 0 then ret r
      else
        port (outsl 0x1F0 (take (Z.to_nat SECTSIZE) src)) ;;;
        write_loop fuel nsecs (drop (Z.to_nat SECTSIZE) src)
  end.

(** [src] is the [nsecs] sectors in memory. *)
Definition ide_write (fuel : nat) (secno nsecs : Z) (src : list Z) : M (ide D) Z :=
  if negb (nsecs <=? 256) then panic
  else
    ide_wait_ready fuel false ;;;
    ide_command secno nsecs 0x30 ;;;
    write_loop fuel (Z.to_nat nsecs) src.
End Driver.

(** ** The drive *)

Inductive phase :=
  | Idle
  | Reading (lba n : Z)
  | Writing (lba n : Z).

(** Task-file registers, the transfer in progress and the bytes of the two drives. *)
Record ata := mkAta {
  at_count : Z; at_low : Z; at_mid : Z; at_high : Z; at_head : Z;
  at_phase : phase; at_disk0 : mem; at_disk1 : mem;
}.

Definition at_disk (drive : Z) (a : ata) : mem := if drive =? 0 then a.(at_disk0) else a.(at_disk1).
Definition drive_of (a : ata) : Z := Z.land (Z.shiftr a.(at_head) 4) 1.

Definition set_disk (drive : Z) (m : mem) (a : ata) : ata :=
  let '(mkAta c l mi h hd p d0 d1) := a in
  if drive =? 0 then mkAta c l mi h hd p m d1 else mkAta c l mi h hd p d0 m.

Definition set_phase (p : phase) (a : ata) : ata :=
  let '(mkAta c l mi h hd _ d0 d1) := a in mkAta c l mi h hd p d0 d1.

(** 28-bit addresses; a count of 0 means 256 sectors. *)
Definition lba_of (a : ata) : Z :=
  a.(at_low) + 2 ^ 8 * a.(at_mid) + 2 ^ 16 * a.(at_high) + 2 ^ 24 * Z.land a.(at_head) 0x0F.
Definition count_of (a : ata) : Z := if a.(at_count) =? 0 then 256 else a.(at_count).

Definition ata_outb (p v : Z) (a : ata) : ata :=
  let '(mkAta c l mi h hd ph d0 d1) := a in
  if p =? 0x1F2 then mkAta v l mi h hd ph d0 d1
  else if p =? 0x1F3 then mkAta c v mi h hd ph d0 d1
  else if p =? 0x1F4 then mkAta c l v h hd ph d0 d1
  else if p =? 0x1F5 then mkAta c l mi v hd ph d0 d1
  else if p =? 0x1F6 then mkAta c l mi h v ph d0 d1
  else if p =? 0x1F7 then
    if v =? 0x20 then set_phase (Reading (lba_of a) (count_of a)) a
    else if v =? 0x30 then set_phase (Writing (lba_of a) (count_of a)) a
    else a
  else a.

(** The phase after one sector. *)
Definition next_phase (mk : Z -> Z -> phase) (lba n : Z) : phase :=
  if n =? 1 then Idle else mk (lba + 1) (n - 1).

(** A drive that behaves like [ata], reports no errors and is busy for at most [patience]
    polls. *)
Class Ata (D : Type) {HP : Ports D} := {
  ata_of : D -> ata;
  busy : D -> nat;
  patience : nat;
  busy_bound : forall d, (busy d < patience)%nat;
  inb_status : forall d, exists r d', inb 0x1F7 d = Ret r d' /\ ata_of d' = ata_of d /\
    ((Z.land r (Z.lor IDE_BSY IDE_DRDY) = IDE_DRDY /\ Z.land r (Z.lor IDE_DF IDE_ERR) = 0) \/
     (Z.land r (Z.lor IDE_BSY IDE_DRDY) <> IDE_DRDY /\ (busy d' < busy d)%nat));
  outb_reg : forall p v d, 0 <= v < 2 ^ 8 ->
    exists d', outb p v d = Ret tt d' /\ ata_of d' = ata_outb p v (ata_of d);
  insl_data : forall d lba n, (ata_of d).(at_phase) = Reading lba n ->
    exists d', insl 0x1F0 (SECTSIZE / 4) d =
        Ret (ld_bytes (at_disk (drive_of (ata_of d)) (ata_of d)) (lba * SECTSIZE) (Z.to_nat SECTSIZE)) d' /\
      ata_of d' = set_phase (next_phase Reading lba n) (ata_of d);
  outsl_data : forall d lba n l, (ata_of d).(at_phase) = Writing lba n -> length l = Z.to_nat SECTSIZE ->
    exists d', outsl 0x1F0 l d = Ret tt d' /\
      ata_of d' = set_phase (next_phase Writing lba n)
        (set_disk (drive_of (ata_of d)) (st_bytes (at_disk (drive_of (ata_of d)) (ata_of d)) (lba * SECTSIZE) l) (ata_of d));
}.

(** ** What the driver promises *)

(** A disk of [SECTSIZE]-byte sectors below [2^28]; [image] is its bytes. *)
Class Disk (D : Type) := {
  disk_read : Z -> Z -> M D (Z * list Z);
  disk_write : Z -> Z -> list Z -> M D Z;
  disk_ok : D -> Prop;
  image : D -> mem;
  disk_read_ok : forall d secno nsecs, disk_ok d -> 0 <= secno -> secno + nsecs <= 2 ^ 28 -> 0 < nsecs <= 256 ->
    exists d', disk_read secno nsecs d = Ret (0, ld_bytes (image d) (secno * SECTSIZE) (Z.to_nat (nsecs * SECTSIZE))) d' /\
      disk_ok d' /\ image d' = image d;
  disk_write_ok : forall d secno nsecs l, disk_ok d -> 0 <= secno -> secno + nsecs <= 2 ^ 28 -> 0 < nsecs <= 256 ->
    length l = Z.to_nat (nsecs * SECTSIZE) ->
    exists d', disk_write secno nsecs l d = Ret 0 d' /\ disk_ok d' /\ image d' = st_bytes (image d) (secno * SECTSIZE) l;
}.

(** ** The driver keeps its promise *)

Section Promise.
Context {D : Type} {HP : Ports D} {HA : Ata D}.

Lemma port_ret {A} (m : M D A) (i : ide D) a d' :
  m i.(dev) = Ret a d' -> port m i = Ret a (mkIde d' i.(diskno)).
Proof. intros H. unfold port. by erewrite zoom_ret. Qed.

(** Polling ends, without an error, and leaves the drive as it was. *)
Lemma wait_ready_ok fuel check (i : ide D) :
  (busy i.(dev) < fuel)%nat ->
  exists d', ide_wait_ready fuel check i = Ret 0 (mkIde d' i.(diskno)) /\ ata_of d' = ata_of i.(dev).
Proof.
  revert i. induction fuel as [|fuel IH]; intros i Hf; [lia|]. cbn [ide_wait_ready].
  destruct (inb_status i.(dev)) as (r & d' & Hr & Ha & Hs). erewrite bind_ret by (apply port_ret; exact Hr).
  destruct Hs as [[H1 H2]|[H1 H2]].
  - rewrite H1, H2, Z.eqb_refl. cbn [negb]. change (nonzero 0) with false. rewrite andb_false_r. eauto.
  - rewrite (proj2 (Z.eqb_neq _ _) H1). cbn [negb].
    destruct (IH (mkIde d' i.(diskno))) as (d2 & Hd2 & Ha2); [cbn [dev]; lia|]. cbn [dev diskno] in *.
    exists d2. split; [exact Hd2|congruence].
Qed.

Lemma outb_step p v (i : ide D) : 0 <= v < 2 ^ 8 ->
  exists d', port (outb p v) i = Ret tt (mkIde d' i.(diskno)) /\ ata_of d' = ata_outb p v (ata_of i.(dev)).
Proof. intros Hv. destruct (outb_reg p v i.(dev) Hv) as (d' & Hd & Ha). exists d'. split; [by apply port_ret|done]. Qed.

(** The bytes of a 28-bit sector number. *)
Lemma sector_bytes secno :
  0 <= secno < 2 ^ 28 ->
  Z.land secno 0xFF + 2 ^ 8 * Z.land (Z.shiftr secno 8) 0xFF + 2 ^ 16 * Z.land (Z.shiftr secno 16) 0xFF +
    2 ^ 24 * Z.land (Z.shiftr secno 24) 0x0F = secno.
Proof.
  intros H. rewrite !Z.shiftr_div_pow2 by lia. change 0xFF with (2 ^ 8 - 1). change 0x0F with (2 ^ 4 - 1).
  rewrite !land_ones_mod by lia. zdm.
Qed.

Lemma head_byte no secno :
  no = 0 \/ no = 1 -> 0 <= secno < 2 ^ 28 ->
  let v := Z.lor (Z.lor 0xE0 (Z.shiftl (Z.land no 1) 4)) (Z.land (Z.shiftr secno 24) 0x0F) in
  0 <= v < 2 ^ 8 /\ Z.land v 0x0F = Z.land (Z.shiftr secno 24) 0x0F /\ Z.land (Z.shiftr v 4) 1 = no.
Proof.
  intros Hno Hs v. assert (0 <= Z.land (Z.shiftr secno 24) 0x0F < 16) as Hx.
  { change 0x0F with (2 ^ 4 - 1). rewrite land_ones_mod by lia. apply Z.mod_pos_bound. lia. }
  subst v. generalize dependent (Z.land (Z.shiftr secno 24) 0x0F). intros x Hx.
  assert (exists k, x = Z.of_nat k /\ (k < 16)%nat) as (k & -> & Hk) by (exists (Z.to_nat x); lia). clear Hx.
  destruct Hno as [-> | ->]; do 16 (destruct k as [|k]; [vm_compute; repeat split; congruence|]); lia.
Qed.

Definition ide_ok (i : ide D) : Prop := (ata_of i.(dev)).(at_phase) = Idle /\ (i.(diskno) = 0 \/ i.(diskno) = 1).
Definition ide_image (i : ide D) : mem := at_disk i.(diskno) (ata_of i.(dev)).

(** The state in the middle of a transfer from the image [m]. *)
Definition moving (i : ide D) (ph : phase) (m : mem) : Prop :=
  let a := ata_of i.(dev) in
  a.(at_phase) = ph /\ drive_of a = i.(diskno) /\ (i.(diskno) = 0 \/ i.(diskno) = 1) /\ at_disk i.(diskno) a = m.

Lemma command_ok (i : ide D) secno nsecs cmd mk :
  i.(diskno) = 0 \/ i.(diskno) = 1 -> 0 <= secno < 2 ^ 28 -> 0 < nsecs <= 256 ->
  (cmd = 0x20 /\ mk = Reading) \/ (cmd = 0x30 /\ mk = Writing) ->
  exists i', ide_command secno nsecs cmd i = Ret tt i' /\ i'.(diskno) = i.(diskno) /\
    moving i' (mk secno nsecs) (ide_image i).
Proof.
  intros Hno Hs Hn Hcmd. unfold ide_command, ide_image.
  assert (forall x, 0 <= Z.land x 0xFF < 2 ^ 8) as Hff.
  { intros x. change 0xFF with (2 ^ 8 - 1). rewrite land_ones_mod by lia. apply Z.mod_pos_bound. lia. }
  destruct (head_byte _ _ Hno Hs) as (Hv & Hv1 & Hv2). pose proof (sector_bytes secno Hs) as Hsec.
  remember (Z.lor (Z.lor 0xE0 (Z.shiftl (Z.land i.(diskno) 1) 4)) (Z.land (Z.shiftr secno 24) 0x0F)) as v eqn:Ev.
  destruct (outb_step 0x1F2 (u8 nsecs) i) as (d1 & H1 & A1); [apply u8_range|]. erewrite bind_ret by exact H1.
  destruct (outb_step 0x1F3 (Z.land secno 0xFF) (mkIde d1 i.(diskno))) as (d2 & H2 & A2); [apply Hff|]. erewrite bind_ret by exact H2.
  destruct (outb_step 0x1F4 (Z.land (Z.shiftr secno 8) 0xFF) (mkIde d2 i.(diskno))) as (d3 & H3 & A3); [apply Hff|]. erewrite bind_ret by exact H3.
  destruct (outb_step 0x1F5 (Z.land (Z.shiftr secno 16) 0xFF) (mkIde d3 i.(diskno))) as (d4 & H4 & A4); [apply Hff|]. erewrite bind_ret by exact H4.
  erewrite bind_ret by reflexivity. cbn [diskno dev] in *. rewrite <- Ev.
  destruct (outb_step 0x1F6 v (mkIde d4 i.(diskno))) as (d5 & H5 & A5); [exact Hv|]. erewrite bind_ret by exact H5.
  destruct (outb_step 0x1F7 cmd (mkIde d5 i.(diskno))) as (d6 & H6 & A6); [lia|].
  exists (mkIde d6 i.(diskno)). split; [exact H6|]. split; [done|]. unfold moving. cbn [diskno dev] in *.
  assert (ata_of d6 = set_phase (mk secno nsecs) (ata_of d5) /\ (ata_of d5).(at_head) = v /\
    (ata_of d5).(at_disk0) = (ata_of i.(dev)).(at_disk0) /\ (ata_of d5).(at_disk1) = (ata_of i.(dev)).(at_disk1)) as (E6 & E5 & E0 & E1).
  { destruct (ata_of i.(dev)). rewrite A1 in A2. rewrite A2 in A3. rewrite A3 in A4. rewrite A4 in A5.
    cbn in A5. rewrite A6, A5. cbn [at_head at_disk0 at_disk1]. split; [|done].
    assert (lba_of (ata_of d5) = secno) as El by (rewrite A5; unfold lba_of; cbn [at_low at_mid at_high at_head]; rewrite Hv1; exact Hsec).
    assert (count_of (ata_of d5) = nsecs) as Ec.
    { rewrite A5. unfold count_of. cbn [at_count]. unfold u8. bcase; zdm. }
    rewrite A5 in El, Ec. destruct Hcmd as [[-> ->]|[-> ->]]; cbn -[lba_of count_of]; by rewrite El, Ec. }
  rewrite E6. destruct (ata_of d5). cbn in *. subst. unfold drive_of, at_disk. cbn. repeat split; congruence || done.
Qed.

Lemma moving_step (i : ide D) ph m d' ph' :
  moving i ph m -> ata_of d' = set_phase ph' (ata_of i.(dev)) -> moving (mkIde d' i.(diskno)) ph' m.
Proof.
  unfold moving. cbn [dev diskno]. intros (H1 & H2 & H3 & H4) ->. unfold drive_of, at_disk in *.
  destruct (ata_of i.(dev)). cbn in *. done.
Qed.

Lemma wait_moving fuel check (i : ide D) ph m :
  (patience <= fuel)%nat -> moving i ph m ->
  exists i', ide_wait_ready fuel check i = Ret 0 i' /\ i'.(diskno) = i.(diskno) /\ moving i' ph m.
Proof.
  intros Hf H. pose proof (busy_bound i.(dev)).
  destruct (wait_ready_ok fuel check i ltac:(lia)) as (d' & E & Ha).
  exists (mkIde d' i.(diskno)). split; [exact E|]. split; [done|]. unfold moving in *. cbn [dev diskno]. by rewrite Ha.
Qed.

(** The phase of a transfer with [n] sectors to go. *)
Definition to_go (mk : Z -> Z -> phase) (lba : Z) (n : nat) : phase :=
  match n with O => Idle | _ => mk lba (Z.of_nat n) end.

Lemma next_to_go mk lba n : next_phase mk lba (Z.of_nat (S n)) = to_go mk (lba + 1) n.
Proof.
  unfold next_phase. destruct n; [done|]. rewrite (proj2 (Z.eqb_neq _ _)) by lia.
  unfold to_go. f_equal. lia.
Qed.

Lemma read_loop_ok fuel n lba got (i : ide D) m :
  (patience <= fuel)%nat -> moving i (to_go Reading lba n) m ->
  exists i', read_loop fuel n got i = Ret (0, got ++ ld_bytes m (lba * SECTSIZE) (n * Z.to_nat SECTSIZE)) i' /\
    i'.(diskno) = i.(diskno) /\ moving i' Idle m.
Proof.
  intros Hf. revert lba got i. induction n as [|n IH]; intros lba got i H; cbn [read_loop].
  - exists i. simpl ld_bytes. rewrite app_nil_r. done.
  - destruct (wait_moving fuel true i _ _ Hf H) as (i1 & E1 & D1 & M1). erewrite bind_ret by exact E1.
    change (0 <? 0) with false. cbv iota.
    pose proof M1 as (P1 & P2 & _ & P4). cbn [to_go] in P1. destruct (insl_data _ _ _ P1) as (d2 & E2 & A2).
    rewrite P2, P4 in E2. erewrite bind_ret by (apply port_ret; exact E2).
    rewrite next_to_go in A2. pose proof (moving_step _ _ _ _ _ M1 A2) as M2.
    destruct (IH (lba + 1) (got ++ ld_bytes m (lba * SECTSIZE) (Z.to_nat SECTSIZE)) _ M2) as (i3 & E3 & D3 & M3).
    exists i3. split; [|split; [cbn [diskno] in D3; congruence|done]]. rewrite E3. f_equal. f_equal.
    replace (S n * Z.to_nat SECTSIZE)%nat with (Z.to_nat SECTSIZE + n * Z.to_nat SECTSIZE)%nat by lia.
    rewrite ld_bytes_app, (assoc_L (++)). do 2 f_equal. unfold SECTSIZE. lia.
Qed.

Lemma write_loop_ok fuel n lba src (i : ide D) m :
  (patience <= fuel)%nat -> length src = (n * Z.to_nat SECTSIZE)%nat -> moving i (to_go Writing lba n) m ->
  exists i', write_loop fuel n src i = Ret 0 i' /\
    i'.(diskno) = i.(diskno) /\ moving i' Idle (st_bytes m (lba * SECTSIZE) src).
Proof.
  intros Hf. revert lba src m i. induction n as [|n IH]; intros lba src m i Hl H; cbn [write_loop].
  - exists i. destruct src; [|simpl in Hl; lia]. done.
  - destruct (wait_moving fuel true i _ _ Hf H) as (i1 & E1 & D1 & M1). erewrite bind_ret by exact E1.
    change (0 <? 0) with false. cbv iota.
    pose proof M1 as (P1 & P2 & P3 & P4). cbn [to_go] in P1.
    assert (length (take (Z.to_nat SECTSIZE) src) = Z.to_nat SECTSIZE) as Ht by (rewrite length_take; lia).
    destruct (outsl_data _ _ _ _ P1 Ht) as (d2 & E2 & A2).
    rewrite P2, P4 in A2. erewrite bind_ret by (apply port_ret; exact E2). rewrite next_to_go in A2.
    assert (moving (mkIde d2 i1.(diskno)) (to_go Writing (lba + 1) n)
      (st_bytes m (lba * SECTSIZE) (take (Z.to_nat SECTSIZE) src))) as M2.
    { unfold moving. cbn [dev diskno]. rewrite A2. unfold drive_of, at_disk in *.
      destruct (ata_of i1.(dev)). cbn in *. destruct P3 as [P3|P3]; rewrite P3 in *; cbn; repeat split; auto. }
    destruct (IH (lba + 1) (drop (Z.to_nat SECTSIZE) src) _ _ ltac:(rewrite length_drop; lia) M2) as (i3 & E3 & D3 & M3).
    exists i3. split; [exact E3|]. split; [cbn [diskno] in D3; congruence|].
    rewrite <- (take_drop (Z.to_nat SECTSIZE) src) at 1. rewrite st_bytes_app, Ht.
    replace (lba * SECTSIZE + Z.of_nat (Z.to_nat SECTSIZE)) with ((lba + 1) * SECTSIZE) by (unfold SECTSIZE; lia). done.
Qed.

Lemma to_go_pos mk lba n : 0 < n -> to_go mk lba (Z.to_nat n) = mk lba n.
Proof. intros H. unfold to_go. destruct (Z.to_nat n) eqn:E; [lia|]. f_equal. lia. Qed.

(** The first half of both transfers: wait, then issue the command. *)
Lemma start_ok fuel (i : ide D) secno nsecs cmd mk :
  ide_ok i -> (patience <= fuel)%nat -> 0 <= secno < 2 ^ 28 -> 0 < nsecs <= 256 ->
  (cmd = 0x20 /\ mk = Reading) \/ (cmd = 0x30 /\ mk = Writing) ->
  exists i1 i', ide_wait_ready fuel false i = Ret 0 i1 /\ ide_command secno nsecs cmd i1 = Ret tt i' /\
    i'.(diskno) = i.(diskno) /\ moving i' (to_go mk secno (Z.to_nat nsecs)) (ide_image i).
Proof.
  intros [Hi Hno] Hf Hs Hn Hcmd. pose proof (busy_bound i.(dev)).
  destruct (wait_ready_ok fuel false i ltac:(lia)) as (d' & E & Ha).
  destruct (command_ok (mkIde d' i.(diskno)) secno nsecs cmd mk Hno Hs Hn Hcmd) as (i' & E' & D' & M').
  exists (mkIde d' i.(diskno)), i'. split; [exact E|]. split; [exact E'|]. split; [exact D'|].
  rewrite to_go_pos by lia. unfold ide_image in *. cbn [dev diskno] in *. by rewrite Ha in M'.
Qed.

Lemma ide_read_ok (i : ide D) secno nsecs :
  ide_ok i -> 0 <= secno -> secno + nsecs <= 2 ^ 28 -> 0 < nsecs <= 256 ->
  exists i', ide_read patience secno nsecs i =
      Ret (0, ld_bytes (ide_image i) (secno * SECTSIZE) (Z.to_nat (nsecs * SECTSIZE))) i' /\
    ide_ok i' /\ ide_image i' = ide_image i.
Proof.
  intros Hi Hs Hs2 Hn. unfold ide_read. rewrite (proj2 (Z.leb_le _ _)) by lia. cbn [negb].
  destruct (start_ok patience i secno nsecs 0x20 Reading Hi ltac:(lia) ltac:(lia) Hn (or_introl (conj eq_refl eq_refl)))
    as (i1 & i2 & E1 & E2 & D2 & M2).
  erewrite bind_ret by exact E1. erewrite bind_ret by exact E2.
  destruct (read_loop_ok patience _ secno [] i2 _ ltac:(lia) M2) as (i3 & E3 & D3 & P1 & P2 & P3 & P4).
  exists i3. split; [|by split; [split|]]. rewrite E3. cbn [app]. do 3 f_equal. unfold SECTSIZE. lia.
Qed.

Lemma ide_write_ok (i : ide D) secno nsecs l :
  ide_ok i -> 0 <= secno -> secno + nsecs <= 2 ^ 28 -> 0 < nsecs <= 256 ->
  length l = Z.to_nat (nsecs * SECTSIZE) ->
  exists i', ide_write patience secno nsecs l i = Ret 0 i' /\ ide_ok i' /\
    ide_image i' = st_bytes (ide_image i) (secno * SECTSIZE) l.
Proof.
  intros Hi Hs Hs2 Hn Hl. unfold ide_write. rewrite (proj2 (Z.leb_le _ _)) by lia. cbn [negb].
  destruct (start_ok patience i secno nsecs 0x30 Writing Hi ltac:(lia) ltac:(lia) Hn (or_intror (conj eq_refl eq_refl)))
    as (i1 & i2 & E1 & E2 & D2 & M2).
  erewrite bind_ret by exact E1. erewrite bind_ret by exact E2.
  destruct (write_loop_ok patience (Z.to_nat nsecs) secno l i2 _ ltac:(lia) ltac:(rewrite Hl; unfold SECTSIZE; lia) M2)
    as (i3 & E3 & D3 & P1 & P2 & P3 & P4).
  exists i3. split; [exact E3|]. by split; [split|].
Qed.

#[export] Instance ide_disk : Disk (ide D) := {|
  disk_read := ide_read patience;
  disk_write := ide_write patience;
  disk_ok := ide_ok;
  image := ide_image;
  disk_read_ok := ide_read_ok;
  disk_write_ok := ide_write_ok;
|}.
End Promise.

(** ** A drive that is always ready *)

#[export] Instance ata_ports : Ports ata := {|
  inb := fun _ => ret IDE_DRDY;
  outb := fun p v => modify (ata_outb p v);
  insl := fun _ _ a =>
    match a.(at_phase) with
    | Reading lba n => Ret (ld_bytes (at_disk (drive_of a) a) (lba * SECTSIZE) (Z.to_nat SECTSIZE)) (set_phase (next_phase Reading lba n) a)
    | _ => Ret [] a
    end;
  outsl := fun _ l a =>
    match a.(at_phase) with
    | Writing lba n =>
        Ret tt (set_phase (next_phase Writing lba n)
          (set_disk (drive_of a) (st_bytes (at_disk (drive_of a) a) (lba * SECTSIZE) l) a))
    | _ => Ret tt a
    end;
|}.

#[export] Instance ata_ata : Ata ata.
Proof.
  refine {| ata_of := fun a => a; busy := fun _ => 0%nat; patience := 1%nat |}.
  - lia.
  - intros d. exists IDE_DRDY, d. split; [reflexivity|]. split; [done|]. left. by vm_compute.
  - intros p v d _. eexists. split; reflexivity.
  - intros d lba n H. eexists. cbn [insl ata_ports]. rewrite H. split; reflexivity.
  - intros d lba n l H _. eexists. cbn [outsl ata_ports]. rewrite H. split; reflexivity.
Defined.

(** C23: the IDE driver over any drive that follows the ATA protocol: sectors written with
    [ide_write] are read back by [ide_read], on whichever of the two drives is selected, both
    answer 0, and no other byte of the image changes. *)
Theorem ide_write_read {D} {HP : Ports D} {HA : Ata D} (i : ide D) secno nsecs l :
  ide_ok i -> 0 <= secno -> secno + nsecs <= 2 ^ 28 -> 0 < nsecs <= 256 ->
  length l = Z.to_nat (nsecs * SECTSIZE) -> (forall b, b ∈ l -> 0 <= b < 2 ^ 8) ->
  exists i1 i2, ide_write patience secno nsecs l i = Ret 0 i1 /\ ide_read patience secno nsecs i1 = Ret (0, l) i2 /\
    ide_ok i2 /\
    forall a, a < secno * SECTSIZE \/ (secno + nsecs) * SECTSIZE <= a -> ld8 (ide_image i2) a = ld8 (ide_image i) a.
Proof.
  intros Hi Hs Hs2 Hn Hl Hb. destruct (ide_write_ok i secno nsecs l Hi Hs Hs2 Hn Hl) as (i1 & E1 & Hi1 & I1).
  destruct (ide_read_ok i1 secno nsecs Hi1 Hs Hs2 Hn) as (i2 & E2 & Hi2 & I2). rewrite I1, <- Hl in E2.
  exists i1, i2. split; [exact E1|]. split; [|split; [exact Hi2|]].
  - rewrite E2. do 2 f_equal. by apply ld_bytes_st_bytes.
  - intros a Ha. rewrite I2, I1, ld8_st_bytes. rewrite Hl. unfold SECTSIZE in *.
    destruct (Z.leb_spec (secno * 512) a), (Z.ltb_spec a (secno * 512 + Z.of_nat (Z.to_nat (nsecs * 512)))); simpl; done || lia.
Qed.

(** Two blank drives, the second one selected. *)
Definition blank_ide : ide ata := mkIde (mkAta 0 0 0 0 0 Idle ∅ ∅) 1.

Lemma ide_write_read_witness :
  exists i1 i2, ide_write 1 8 1 (replicate 512 7) blank_ide = Ret 0 i1 /\ ide_read 1 8 1 i1 = Ret (0, replicate 512 7) i2 /\
    ide_ok i2 /\
    forall a, a < 8 * SECTSIZE \/ (8 + 1) * SECTSIZE <= a -> ld8 (ide_image i2) a = ld8 (ide_image blank_ide) a.
Proof.
  refine (ide_write_read blank_ide 8 1 (replicate 512 7) _ _ _ _ _ _); [|lia|lia|lia|done|].
  - split; [done|]. by right.
  - intros b [-> _]%elem_of_replicate. lia.
Defined.
