(* ===== verification/Bc.v ===== *)
(** The block cache of the file server, [fs/bc.c].

    The disk appears in the server's memory at [DISKMAP], one page per block, filled on
    demand by the page-fault handler [bc_pgfault] and written back by [flush_block].  The
    file system code is written against a [Store]: memory accesses, [flush_block] and the two
    global pointers.  [cached] is the store the server runs on; every access to a page that
    is not there runs the handler, which itself reads the super block and the bitmap through
    the cache. *)

From S2P Require Import Prelude Mmu Mem Ide.

(** [inc/fs.h] and [fs/fs.h] *)
Definition BLKSIZE : Z := PGSIZE.
Definition BLKBITSIZE : Z := BLKSIZE * 8.
Definition DISKMAP : Z := 0x10000000.
Definition DISKSIZE : Z := 0xC0000000.
Definition FS_MAGIC : Z := 0x4A0530AE.

(** [struct Super]: the addresses of its members. *)
Definition s_magic (sp : Z) : Z := sp.
Definition s_nblocks (sp : Z) : Z := sp + 4.
Definition s_root (sp : Z) : Z := sp + 8.

(** What [fs/fs.c] uses of the machine and of [fs/bc.c]. *)
Class Store (S : Type) := {
  rd8 : Z -> M S Z;
  rd32 : Z -> M S Z;
  wr8 : Z -> Z -> M S unit;
  wr32 : Z -> Z -> M S unit;
  flush_block : Z -> M S unit;
  super : M S Z;
  bitmap : M S Z;
}.

(** [block_is_free] of [fs/fs.c], which the fault handler calls. *)
Definition block_is_free_at {S} (rd32 : Z -> M S Z) (super bitmap : M S Z) (blockno : Z) : M S bool :=
  let* sp := super in
  if sp =? 0 then ret false
  else
    let* nb := rd32 (s_nblocks sp) in
    if nb <=? blockno then ret false
    else
      let* bm := bitmap in
      let* w := rd32 (bm + 4 * (blockno / 32)) in
      ret (nonzero (Z.land w (Z.shiftl 1 (blockno mod 32)))).

(** The server: its memory, the page-table entries of its disk region, the disk, and the
    globals [super] and [bitmap]. *)
Record srv (D : Type) := mkSrv {
  sv_mem : mem; sv_uvpt : gmap Z Z; sv_dev : D; sv_super : Z; sv_bitmap : Z;
}.
Arguments mkSrv {D}.
Arguments sv_mem {D}.
Arguments sv_uvpt {D}.
Arguments sv_dev {D}.
Arguments sv_super {D}.
Arguments sv_bitmap {D}.

(** Whether the kernel has a page for the page number when [sys_page_alloc] asks. *)
Class Pager := { page_ok : Z -> bool }.

Definition in_disk (a : Z) : bool := (DISKMAP <=? a) && (a <? DISKMAP + DISKSIZE).

Section Bc.
Context {D : Type} {HD : Disk D} {HPg : Pager}.

Definition set_mem (f : mem -> mem) (s : srv D) : srv D :=
  mkSrv (f s.(sv_mem)) s.(sv_uvpt) s.(sv_dev) s.(sv_super) s.(sv_bitmap).
Definition set_pte (pn e : Z) (s : srv D) : srv D :=
  mkSrv s.(sv_mem) (<[pn := e]> s.(sv_uvpt)) s.(sv_dev) s.(sv_super) s.(sv_bitmap).
Definition set_dev (d : D) (s : srv D) : srv D :=
  mkSrv s.(sv_mem) s.(sv_uvpt) d s.(sv_super) s.(sv_bitmap).

(** [uvpt[PGNUM(va)]], 0 where there is no page table. *)
Definition uvpt (s : srv D) (va : Z) : Z := default 0 (s.(sv_uvpt) !! PGNUM va).

Definition va_is_mapped (s : srv D) (va : Z) : bool := nonzero (Z.land (uvpt s va) PTE_P).
Definition va_is_dirty (s : srv D) (va : Z) : bool := nonzero (Z.land (uvpt s va) PTE_D).

(** The system calls, seen by the server: [sys_page_alloc(0, va, perm)] and
    [sys_page_map(0, va, 0, va, perm)], with [va] on a page boundary of the disk region. *)
Definition srv_page_alloc (va perm : Z) : M (srv D) Z := fun s =>
  if page_ok (PGNUM va)
  then Ret 0 (set_pte (PGNUM va) perm (set_mem (fun m => st_bytes m va (replicate (Z.to_nat PGSIZE) 0)) s))
  else Ret (- E_NO_MEM) s.

Definition srv_page_remap (va perm : Z) : M (srv D) Z := fun s =>
  if va_is_mapped s va && bits_set perm (Z.lor PTE_P PTE_U) && (Z.ldiff perm PTE_SYSCALL =? 0) &&
     (negb (bits_set perm PTE_W) || bits_set (uvpt s va) PTE_W)
  then Ret 0 (set_pte (PGNUM va) perm s)
  else Ret (- E_INVAL) s.

(** What a store does to the page-table entry. *)
Definition mark_dirty (va : Z) : M (srv D) unit := modify (fun s =>
  if in_disk va then set_pte (PGNUM va) (Z.lor (uvpt s va) PTE_D) s else s).

Definition drv {A} (m : M D A) : M (srv D) A := zoom sv_dev set_dev m.

(** The middle of [bc_pgfault]: a fresh page, the block read into it, and the dirty bit this
    sets cleared again. *)
Definition bc_load (addr : Z) : M (srv D) unit :=
  let addr := ROUNDDOWN addr PGSIZE in
  let secno := u32 (addr - DISKMAP) / BLKSIZE * 8 in
  let* r := srv_page_alloc addr (Z.lor (Z.lor PTE_P PTE_U) PTE_W) in
  if r <? 0 then panic
  else
    let* ' (r, bytes) := drv (disk_read secno 8) in
    modify (set_mem (fun m => st_bytes m addr bytes)) ;;;
    mark_dirty addr ;;;
    if r <? 0 then panic
    else
      let* s := gets id in
      let* r := srv_page_remap addr (Z.land (uvpt s addr) PTE_SYSCALL) in
      if r <? 0 then panic else ret tt.

(** The handler; [fuel] bounds how deep faults nest. *)
Fixpoint bc_pgfault (fuel : nat) (fault_va : Z) : M (srv D) unit :=
  match fuel with
  | O => out_of_fuel
  | S fuel =>
      let touch a := let* s := gets id in
        if in_disk a && negb (va_is_mapped s a) then bc_pgfault fuel a else ret tt in
      let rd32 a := touch a ;;; touch (a + 3) ;;; gets (fun s => ld32 s.(sv_mem) a) in
      let addr := fault_va in
      let blockno := u32 (addr - DISKMAP) / BLKSIZE in
      if negb (in_disk addr) then panic
      else
        let* sp := gets sv_super in
        let* bad := if sp =? 0 then ret false else let* nb := rd32 (s_nblocks sp) in ret (nb <=? blockno) in
        if bad then panic
        else
          bc_load addr ;;;
          let* bm := gets sv_bitmap in
          let* free := if bm =? 0 then ret false
            else block_is_free_at rd32 (gets sv_super) (gets sv_bitmap) blockno in
          if free then panic else ret tt
  end.

(** Faults nest at most three deep: a block, its bitmap block, the first bitmap block. *)
Definition fault_depth : nat := 3.

Definition touch (a : Z) : M (srv D) unit :=
  let* s := gets id in
  if in_disk a && negb (va_is_mapped s a) then bc_pgfault fault_depth a else ret tt.

Definition bc_flush_block (addr : Z) : M (srv D) unit :=
  let blockno := u32 (addr - DISKMAP) / BLKSIZE in
  if negb (in_disk addr) then panic
  else
    let addr := ROUNDDOWN addr PGSIZE in
    let* s := gets id in
    if va_is_mapped s addr && va_is_dirty s addr then
      let* r := drv (disk_write (blockno * 8) 8 (ld_bytes s.(sv_mem) addr (Z.to_nat (8 * SECTSIZE)))) in
      if r <? 0 then panic
      else
        let* s := gets id in
        let* r := srv_page_remap addr (Z.land (uvpt s addr) PTE_SYSCALL) in
        if r <? 0 then panic else ret tt
    else ret tt.

#[export] Instance cached : Store (srv D) := {|
  rd8 a := touch a ;;; gets (fun s => ld8 s.(sv_mem) a);
  rd32 a := touch a ;;; touch (a + 3) ;;; gets (fun s => ld32 s.(sv_mem) a);
  wr8 a v := touch a ;;; mark_dirty a ;;; modify (set_mem (fun m => st8 m a v));
  wr32 a v := touch a ;;; touch (a + 3) ;;; mark_dirty a ;;; mark_dirty (a + 3) ;;; modify (set_mem (fun m => st32 m a v));
  flush_block := bc_flush_block;
  super := gets sv_super;
  bitmap := gets sv_bitmap;
|}.
End Bc.

(** ** The flat store

    What the cache implements: one memory in which the disk region simply is the disk.  An
    access to the region is defined while the metadata is [sane] and the block is in use. *)

Definition SUPER : Z := DISKMAP + BLKSIZE.
Definition BITMAP : Z := DISKMAP + 2 * BLKSIZE.

Definition nblocks (m : mem) : Z := ld32 m (s_nblocks SUPER).
Definition bit_free (m : mem) (b : Z) : bool := Z.testbit (ld32 m (BITMAP + 4 * (b / 32))) (b mod 32).
Definition in_use (m : mem) (b : Z) : bool := (0 <=? b) && (b <? nblocks m) && negb (bit_free m b).

(** The boot sector, the super block and the bitmap blocks are in use, and the disk fits its
    region: what [check_super] and [check_bitmap] test. *)
Definition sane (m : mem) : bool :=
  (nblocks m <=? DISKSIZE / BLKSIZE) && in_use m 0 && in_use m 1 &&
  forallb (fun i => (nblocks m <=? i * BLKBITSIZE) || in_use m (2 + i)) (seqZ 0 24).

Definition blk (a : Z) : Z := (a - DISKMAP) / BLKSIZE.
Definition avail (m : mem) (a : Z) : bool := negb (in_disk a) || in_use m (blk a).

Definition flat_do {A} (m : mem) (ok : bool) (a : A) (m' : mem) : outcome mem A :=
  if sane m && ok then Ret a m' else Wild m.

#[export] Instance flat : Store mem := {|
  rd8 a := fun m => flat_do m (avail m a) (ld8 m a) m;
  rd32 a := fun m => flat_do m (avail m a && avail m (a + 3)) (ld32 m a) m;
  wr8 a v := fun m => flat_do m (avail m a) tt (st8 m a v);
  wr32 a v := fun m => flat_do m (avail m a && avail m (a + 3)) tt (st32 m a v);
  flush_block a := if in_disk a then ret tt else panic;
  super := ret SUPER;
  bitmap := ret BITMAP;
|}.
