(* ===== verification/BcSim.v ===== *)
(** The block cache implements the flat store: a simulation.

    [coherent s m] relates the server to the flat memory it stands for.  Every access that is
    defined on the flat store succeeds on the cache with the same value and leaves related
    states; the page-fault handler and [flush_block] change nothing that can be seen. *)

From S2P Require Import Prelude Mmu Mem Ide Bc.

Section Sim.
Context {D : Type} {HD : Disk D} {HPg : Pager}.
Hypothesis pages : forall pn, page_ok pn = true.

Definition pte_clean : Z := Z.lor (Z.lor PTE_P PTE_U) PTE_W.
Definition pte_dirty : Z := Z.lor pte_clean PTE_D.

Lemma clean_not_dirty : Some pte_clean <> Some pte_dirty.
Proof. discriminate. Qed.

Definition present (s : srv D) (a : Z) : Prop := is_Some (s.(sv_uvpt) !! PGNUM a).
Definition dirty (s : srv D) (a : Z) : Prop := s.(sv_uvpt) !! PGNUM a = Some pte_dirty.

(** Pages that are there hold the flat contents, and so does the disk unless they are
    dirty. *)
Record coherent (s : srv D) (m : mem) : Prop := {
  co_super : s.(sv_super) = SUPER;
  co_bitmap : s.(sv_bitmap) = BITMAP;
  co_dev : disk_ok s.(sv_dev);
  co_pte : forall pn e, s.(sv_uvpt) !! pn = Some e -> e = pte_clean \/ e = pte_dirty;
  co_out : forall a, in_disk a = false -> ld8 s.(sv_mem) a = ld8 m a;
  co_mem : forall a, in_disk a = true -> present s a -> ld8 s.(sv_mem) a = ld8 m a;
  co_disk : forall a, in_disk a = true -> ~ dirty s a -> ld8 (image s.(sv_dev)) (a - DISKMAP) = ld8 m a;
  co_here : present s SUPER;
}.

Lemma in_disk_range a : in_disk a = true <-> DISKMAP <= a < DISKMAP + DISKSIZE.
Proof. unfold in_disk. rewrite andb_true_iff, Z.leb_le, Z.ltb_lt. done. Qed.

Lemma pgnum_disk a : in_disk a = true -> PGNUM a = a / PGSIZE.
Proof. intros H%in_disk_range. unfold DISKMAP, DISKSIZE in H. apply PGNUM_div. lia. Qed.

Lemma mapped_iff s m a : coherent s m -> (va_is_mapped s a = true <-> present s a).
Proof.
  intros H. unfold va_is_mapped, uvpt, present. destruct (s.(sv_uvpt) !! PGNUM a) as [e|] eqn:E; simpl.
  - destruct (co_pte _ _ H _ _ E) as [-> | ->]; split; eauto.
  - split; [discriminate|]. by intros [? [=]].
Qed.

Lemma dirty_iff s m a : coherent s m -> (va_is_dirty s a = true <-> dirty s a).
Proof.
  intros H. unfold va_is_dirty, uvpt, dirty. destruct (s.(sv_uvpt) !! PGNUM a) as [e|] eqn:E; simpl.
  - destruct (co_pte _ _ H _ _ E) as [-> | ->]; split; done.
  - split; discriminate.
Qed.

(** Pages only come, and accesses on both sides agree. *)
Definition grows (s s' : srv D) : Prop := forall a, present s a -> present s' a.

Definition page_there (s : srv D) (a : Z) : Prop := in_disk a = true -> present s a.

Lemma co_ld8 s m a : coherent s m -> page_there s a -> ld8 s.(sv_mem) a = ld8 m a.
Proof.
  intros H Hp. destruct (in_disk a) eqn:E; [by apply (co_mem _ _ H); [|apply Hp]|by apply (co_out _ _ H)].
Qed.

(** An address between two that are there is there: the access covers at most two pages. *)
Lemma page_between s a i :
  page_there s a -> page_there s (a + 3) -> 0 <= i < 4 -> page_there s (a + i).
Proof.
  intros H1 H2 Hi Hd. rewrite in_disk_range in Hd. unfold page_there, present in *.
  unfold DISKMAP, DISKSIZE in *.
  assert (in_disk a = true /\ PGNUM a = PGNUM (a + i) \/ in_disk (a + 3) = true /\ PGNUM (a + 3) = PGNUM (a + i)) as [[E P]|[E P]].
  { rewrite !in_disk_range. unfold DISKMAP, DISKSIZE.
    assert ((a + i) / 4096 = a / 4096 /\ 0x10000000 <= a \/ (a + i) / 4096 = (a + 3) / 4096 /\ a + 3 < 0x10000000 + 0xC0000000) as [[? ?]|[? ?]] by zdm.
    - left. split; [lia|]. rewrite !PGNUM_div by lia. unfold PGSIZE. lia.
    - right. split; [lia|]. rewrite !PGNUM_div by lia. unfold PGSIZE. lia. }
  - rewrite <- P. by apply H1.
  - rewrite <- P. by apply H2.
Qed.

Lemma co_ld32 s m a :
  coherent s m -> page_there s a -> page_there s (a + 3) -> ld32 s.(sv_mem) a = ld32 m a.
Proof.
  intros H H1 H2. apply ld32_ext. intros i Hi. apply co_ld8; [done|]. by apply page_between.
Qed.

(** ** Faults *)

(** How deep a fault on a block can nest. *)
Definition rank (b : Z) : nat := if b =? 2 then 0%nat else if (2 <? b) && (b <? 26) then 1%nat else 2%nat.

(** What running the handler on [a] achieves. *)
Definition faulted (s s' : srv D) (m : mem) (a : Z) : Prop :=
  coherent s' m /\ grows s s' /\ present s' a.

Lemma nonzero_bit w k : 0 <= k -> nonzero (Z.land w (Z.shiftl 1 k)) = Z.testbit w k.
Proof.
  intros Hk. unfold nonzero. rewrite Z.shiftl_1_l.
  destruct (Z.testbit w k) eqn:E.
  - apply negb_true_iff, Z.eqb_neq. intros H.
    assert (Z.testbit (Z.land w (2 ^ k)) k = false) as H' by (rewrite H; apply Z.bits_0).
    rewrite Z.land_spec, E, Z.pow2_bits_true in H' by done. discriminate.
  - apply negb_false_iff, Z.eqb_eq, Z.bits_inj'. intros i Hi. rewrite Z.land_spec, Z.bits_0.
    destruct (Z.eq_dec i k) as [->|]; [by rewrite E|]. by rewrite Z.pow2_bits_false, andb_false_r by lia.
Qed.

Lemma sane_facts m : sane m = true ->
  nblocks m <= 786432 /\ in_use m 0 = true /\ in_use m 1 = true /\
  (forall b, 0 <= b < nblocks m -> in_use m (2 + b / 32768) = true).
Proof.
  unfold sane. rewrite !andb_true_iff, Z.leb_le. intros [[[H1 H0] H2] H3]. split; [exact H1|]. split; [done|]. split; [done|].
  intros b Hb. rewrite forallb_forall in H3. specialize (H3 (b / 32768)).
  rewrite orb_true_iff, Z.leb_le in H3. change BLKBITSIZE with 32768 in H3.
  change (DISKSIZE / BLKSIZE) with 786432 in H1.
  destruct H3 as [H3|H3]; [apply list_elem_of_In, elem_of_seqZ; zdm|zdm|done].
Qed.

(** The page of an address of the region. *)
Lemma rounddown_disk a : in_disk a = true ->
  ROUNDDOWN a PGSIZE = DISKMAP + blk a * BLKSIZE /\ 0 <= blk a < 786432 /\ u32 (a - DISKMAP) / BLKSIZE = blk a.
Proof.
  intros H%in_disk_range. unfold blk, BLKSIZE, PGSIZE, DISKMAP, DISKSIZE in *.
  rewrite ROUNDDOWN_spec, u32_small by lia. zdm.
Qed.

Lemma pgnum_blk a b : in_disk a = true -> in_disk b = true -> (PGNUM a = PGNUM b <-> blk a = blk b).
Proof.
  intros Ha Hb. rewrite !pgnum_disk by done. rewrite in_disk_range in Ha, Hb.
  unfold blk, BLKSIZE, PGSIZE, DISKMAP, DISKSIZE in *. zdm.
Qed.

Lemma blk_base b : 0 <= b < 786432 -> in_disk (DISKMAP + b * BLKSIZE) = true /\ blk (DISKMAP + b * BLKSIZE) = b.
Proof.
  intros H. rewrite in_disk_range. unfold blk, BLKSIZE, PGSIZE, DISKMAP, DISKSIZE. zdm.
Qed.

(** The addresses of a block. *)
Lemma block_range p b : blk p * BLKSIZE = p - DISKMAP -> in_disk p = true ->
  in_disk b && (blk b =? blk p) = (p <=? b) && (b <? p + BLKSIZE).
Proof.
  intros Hp Hd%in_disk_range. apply eq_true_iff_eq. rewrite !andb_true_iff, in_disk_range, Z.eqb_eq, Z.leb_le, Z.ltb_lt.
  unfold blk, BLKSIZE, PGSIZE, DISKMAP, DISKSIZE in *. zdm.
Qed.

(** Mapping a page onto itself clears its dirty bit. *)
Lemma remap_ok (s : srv D) va :
  uvpt s va = pte_clean \/ uvpt s va = pte_dirty ->
  srv_page_remap va (Z.land (uvpt s va) PTE_SYSCALL) s = Ret 0 (set_pte (PGNUM va) pte_clean s).
Proof. intros H. unfold srv_page_remap, va_is_mapped. by destruct H as [-> | ->]. Qed.

(** A state that differs in one more page, filled from the disk. *)
Lemma coherent_load s s' m p :
  coherent s m -> in_disk p = true -> ~ present s p ->
  s'.(sv_super) = s.(sv_super) -> s'.(sv_bitmap) = s.(sv_bitmap) ->
  disk_ok s'.(sv_dev) -> image s'.(sv_dev) = image s.(sv_dev) ->
  (forall pn, s'.(sv_uvpt) !! pn = if decide (pn = PGNUM p) then Some pte_clean else s.(sv_uvpt) !! pn) ->
  (forall b, ld8 s'.(sv_mem) b =
     if in_disk b && (blk b =? blk p) then ld8 (image s.(sv_dev)) (b - DISKMAP) else ld8 s.(sv_mem) b) ->
  faulted s s' m p.
Proof.
  intros H Hp Hn Hs Hb Hok Him Hpt Hmem.
  assert (grows s s') as Hg.
  { intros a. unfold present. rewrite Hpt. case_decide; eauto. }
  assert (present s' p) as Hpp by (unfold present; rewrite Hpt, decide_True; eauto).
  assert (forall a, dirty s' a <-> dirty s a) as Hdirty.
  { intros a. unfold dirty. rewrite Hpt. case_decide as E; [|done]. rewrite E. split; [by intros [=]|].
    intros E'. exfalso. apply Hn. unfold present. rewrite E'. eauto. }
  split; [|done]. destruct H as [H1 H2 H3 H4 H5 H6 H7 H8]. split; try congruence.
  - intros pn e. rewrite Hpt. case_decide; [intros [= <-]; by left|by apply H4].
  - intros a Ha. rewrite Hmem, Ha. by apply H5.
  - intros a Ha Hpa. rewrite Hmem, Ha. cbn [andb]. destruct (Z.eqb_spec (blk a) (blk p)) as [E|E].
    + apply H7; [done|]. unfold dirty. apply pgnum_blk in E; [|done..]. rewrite E. intros E'.
      apply Hn. unfold present. rewrite E'. eauto.
    + apply H6; [done|]. unfold present in *. rewrite Hpt in Hpa.
      rewrite decide_False in Hpa; [done|]. intros E'. apply E. by apply pgnum_blk.
  - intros a Ha Hd. rewrite Him. apply H7; [done|]. by rewrite <- Hdirty.
  - by apply Hg.
Qed.

(** Reading a block that is not there leaves it there and clean. *)
Lemma load_ok s m a :
  coherent s m -> in_disk a = true -> ~ present s a ->
  exists s', bc_load a s = Ret tt s' /\ faulted s s' m a.
Proof.
  intros H Ha Hn. destruct (rounddown_disk a Ha) as (Er & Hb & _). unfold bc_load. rewrite Er.
  destruct (blk_base (blk a) Hb) as [Hd Hbb]. set (p := DISKMAP + blk a * BLKSIZE) in *.
  assert (u32 (p - DISKMAP) / BLKSIZE * 8 = blk a * 8) as ->.
  { subst p. unfold BLKSIZE, PGSIZE, DISKMAP in *. rewrite u32_small by lia. zdm. }
  assert (PGNUM p = PGNUM a) as Ep by by apply pgnum_blk.
  unfold srv_page_alloc at 1. unfold bind at 1. rewrite pages. change (0 <? 0) with false. cbv iota.
  destruct (disk_read_ok s.(sv_dev) (blk a * 8) 8 (co_dev _ _ H) ltac:(lia) ltac:(lia) ltac:(lia)) as (d' & E & Hok & Him).
  unfold drv. erewrite bind_ret by (apply zoom_ret; cbn [set_pte set_mem sv_dev]; exact E). cbv iota beta.
  erewrite bind_ret by reflexivity. unfold mark_dirty. rewrite Hd. erewrite bind_ret by reflexivity.
  change (0 <? 0) with false. cbv iota. erewrite bind_ret by reflexivity. cbn [id].
  match goal with |- context [uvpt ?t p] =>
    match t with set_pte _ _ _ => set (s3 := t) end end.
  assert (uvpt s3 p = pte_dirty) as Eu.
  { unfold s3, uvpt. cbn [set_pte set_mem set_dev sv_uvpt]. rewrite lookup_insert_eq. simpl. by rewrite lookup_insert_eq. }
  erewrite bind_ret by (apply remap_ok; by right). change (0 <? 0) with false. cbv iota.
  eexists. split; [reflexivity|].
  assert (faulted s (set_pte (PGNUM p) pte_clean s3) m p) as Hf.
  { apply coherent_load; try done.
    - unfold present. by rewrite Ep.
    - intros pn. unfold s3. cbn [set_pte set_mem set_dev sv_uvpt]. case_decide as Epn.
      + by rewrite Epn, lookup_insert_eq.
      + by rewrite !lookup_insert_ne.
    - intros b. unfold s3. cbn [set_pte set_mem set_dev sv_mem]. rewrite !ld8_st_bytes, length_ld_bytes, length_replicate.
      rewrite block_range by (done || (rewrite Hbb; unfold p; lia)). change (Z.of_nat (Z.to_nat (8 * SECTSIZE))) with BLKSIZE.
      change (Z.of_nat (Z.to_nat PGSIZE)) with BLKSIZE. destruct ((p <=? b) && (b <? p + BLKSIZE)) eqn:Er2; [|done].
      apply andb_true_iff in Er2 as [L1%Z.leb_le L2%Z.ltb_lt].
      rewrite ld_bytes_lookup by (unfold BLKSIZE, PGSIZE, SECTSIZE in *; lia). simpl. rewrite u8_small by apply ld8_range.
      f_equal. unfold p, BLKSIZE, PGSIZE, SECTSIZE in *. lia. }
  destruct Hf as (F1 & F2 & F3). split; [done|]. split; [done|]. unfold present in *. by rewrite <- Ep.
Qed.

Definition touch_at (fuel : nat) (a : Z) : M (srv D) unit :=
  let* s := gets id in
  if in_disk a && negb (va_is_mapped s a) then bc_pgfault fuel a else ret tt.
Definition rd32_at (fuel : nat) (a : Z) : M (srv D) Z :=
  touch_at fuel a ;;; touch_at fuel (a + 3) ;;; gets (fun s => ld32 s.(sv_mem) a).

(** The handler works for the blocks of rank below [fuel]. *)
Definition fault_works (fuel : nat) : Prop := forall s m a,
  coherent s m -> sane m = true -> in_disk a = true -> in_use m (blk a) = true -> ~ present s a ->
  (rank (blk a) < fuel)%nat -> exists s', bc_pgfault fuel a s = Ret tt s' /\ faulted s s' m a.

(** What an access needs: the pages are there, or faulting them in works. *)
Definition reachable (fuel : nat) (s : srv D) (m : mem) (a : Z) : Prop :=
  in_disk a = true -> present s a \/ (in_use m (blk a) = true /\ (rank (blk a) < fuel)%nat).

Lemma touch_at_ok fuel s m a :
  fault_works fuel -> coherent s m -> sane m = true -> reachable fuel s m a ->
  exists s', touch_at fuel a s = Ret tt s' /\ coherent s' m /\ grows s s' /\ page_there s' a.
Proof.
  intros Hf H Hs Hr. unfold touch_at, bind, gets. cbn [id].
  destruct (in_disk a) eqn:Ea; cbn [andb]; [|exists s; split; [done|]; split; [done|]; split; [by intros ?|by unfold page_there; rewrite Ea]].
  destruct (va_is_mapped s a) eqn:Em; cbn [negb].
  - exists s. apply (mapped_iff s m a H) in Em. split; [done|]. split; [done|]. by split; intros ?.
  - assert (~ present s a) as Hn by (rewrite <- (mapped_iff s m a H), Em; discriminate).
    destruct (Hr Ea) as [Hp|[Hu Hk]]; [done|].
    destruct (Hf s m a H Hs Ea Hu Hn Hk) as (s' & E & F1 & F2 & F3). exists s'. split; [exact E|]. split; [exact F1|]. split; [exact F2|by intros _].
Qed.

Lemma reachable_grows fuel s s' m a : grows s s' -> reachable fuel s m a -> reachable fuel s' m a.
Proof. intros Hg H Ha. destruct (H Ha); [left; by apply Hg|by right]. Qed.

Lemma rd32_at_ok fuel s m a :
  fault_works fuel -> coherent s m -> sane m = true -> reachable fuel s m a -> reachable fuel s m (a + 3) ->
  exists s', rd32_at fuel a s = Ret (ld32 m a) s' /\ coherent s' m /\ grows s s'.
Proof.
  intros Hf H Hs R1 R2. unfold rd32_at.
  destruct (touch_at_ok fuel s m a Hf H Hs R1) as (s1 & E1 & H1 & G1 & P1). erewrite bind_ret by exact E1.
  destruct (touch_at_ok fuel s1 m (a + 3) Hf H1 Hs (reachable_grows _ _ _ _ _ G1 R2)) as (s2 & E2 & H2 & G2 & P2).
  erewrite bind_ret by exact E2. exists s2. unfold gets. split; [|split; [done|intros x Hx; by apply G2, G1]].
  rewrite (co_ld32 s2 m a); [done..|intros Hd; by apply G2, P1|done].
Qed.

Lemma touch_there fuel s m a : coherent s m -> page_there s a -> touch_at fuel a s = Ret tt s.
Proof.
  intros H Hp. unfold touch_at, bind, gets. cbn [id]. destruct (in_disk a) eqn:Ea; [|done].
  by rewrite (proj2 (mapped_iff s m a H) (Hp Ea)).
Qed.

Lemma rd32_there fuel s m a :
  coherent s m -> page_there s a -> page_there s (a + 3) -> rd32_at fuel a s = Ret (ld32 m a) s.
Proof.
  intros H P1 P2. unfold rd32_at. erewrite bind_ret by exact (touch_there fuel s m a H P1).
  erewrite bind_ret by exact (touch_there fuel s m (a + 3) H P2).
  unfold gets. by rewrite (co_ld32 s m a).
Qed.

(** The super block is there. *)
Lemma super_there s m a : coherent s m -> SUPER <= a < SUPER + BLKSIZE -> page_there s a.
Proof.
  intros H Ha Hd. pose proof (co_here _ _ H) as Hp. unfold present in *.
  rewrite (proj2 (pgnum_blk a SUPER Hd eq_refl)); [done|]. change (blk SUPER) with 1.
  unfold SUPER, blk, BLKSIZE, PGSIZE, DISKMAP in *. zdm.
Qed.

Lemma bitmap_blk b i : 0 <= b < 786432 -> 0 <= i < 4 -> blk (BITMAP + 4 * (b / 32) + i) = 2 + b / 32768.
Proof. intros Hb Hi. unfold blk, BITMAP, BLKSIZE, PGSIZE, DISKMAP. zdm. Qed.

Lemma rank_bitmap b : 0 <= b < 786432 -> b <> 2 -> (rank (2 + b / 32768) < rank b)%nat.
Proof.
  intros Hb Hn. unfold rank. rewrite (proj2 (Z.eqb_neq b 2)) by done.
  destruct (Z.eqb_spec (2 + b / 32768) 2), (Z.ltb_spec 2 b), (Z.ltb_spec b 26); cbn [andb]; try lia.
  all: destruct (Z.ltb_spec 2 (2 + b / 32768)), (Z.ltb_spec (2 + b / 32768) 26); cbn [andb]; try lia; zdm.
Qed.

Lemma bc_pgfault_S fuel a :
  bc_pgfault (S fuel) a =
    (if negb (in_disk a) then panic
     else
       let* sp := gets sv_super in
       let* bad := if sp =? 0 then ret false
         else let* nb := rd32_at fuel (s_nblocks sp) in ret (nb <=? u32 (a - DISKMAP) / BLKSIZE) in
       if bad then panic
       else
         bc_load a ;;;
         let* bm := gets sv_bitmap in
         let* free := if bm =? 0 then ret false
           else block_is_free_at (rd32_at fuel) (gets sv_super) (gets sv_bitmap) (u32 (a - DISKMAP) / BLKSIZE) in
         if free then panic else ret tt).
Proof. reflexivity. Qed.

Lemma in_use_facts m b : in_use m b = true -> 0 <= b < nblocks m /\ bit_free m b = false.
Proof. unfold in_use. rewrite !andb_true_iff, Z.leb_le, Z.ltb_lt, negb_true_iff. lia || tauto. Qed.

Lemma fault_ok fuel : fault_works fuel.
Proof.
  induction fuel as [|fuel IH]; intros s m a H Hs Ha Hu Hn Hr; [lia|].
  destruct (rounddown_disk a Ha) as (_ & Hb & Eb). destruct (in_use_facts m _ Hu) as [Hnb Hbit].
  destruct (sane_facts m Hs) as (_ & _ & _ & Hbm). specialize (Hbm _ Hnb).
  rewrite bc_pgfault_S, Eb, Ha. cbn [negb].
  erewrite bind_ret by reflexivity. rewrite (co_super _ _ H). change (SUPER =? 0) with false. cbv iota.
  assert (forall s, coherent s m -> rd32_at fuel (s_nblocks SUPER) s = Ret (nblocks m) s) as Hsup.
  { intros t Ht. apply rd32_there; [done|..]; (apply (super_there t m); [done|]); unfold s_nblocks, BLKSIZE, PGSIZE; lia. }
  erewrite bind_ret by (erewrite bind_ret by exact (Hsup s H); reflexivity).
  rewrite (proj2 (Z.leb_gt _ _)) by lia.
  destruct (load_ok s m a H Ha Hn) as (s1 & E1 & H1 & G1 & P1). erewrite bind_ret by exact E1.
  erewrite bind_ret by reflexivity. rewrite (co_bitmap _ _ H1). change (BITMAP =? 0) with false. cbv iota.
  assert (forall i, 0 <= i < 4 -> reachable fuel s1 m (BITMAP + 4 * (blk a / 32) + i)) as Hreach.
  { intros i Hi Hd. rewrite (bitmap_blk _ _ Hb Hi). destruct (Z.eq_dec (blk a) 2) as [E2|E2].
    - left. unfold present in *. rewrite (proj2 (pgnum_blk _ a Hd Ha)); [done|]. rewrite (bitmap_blk _ _ Hb Hi), E2. done.
    - right. split; [done|]. pose proof (rank_bitmap _ Hb E2). lia. }
  destruct (rd32_at_ok fuel s1 m (BITMAP + 4 * (blk a / 32)) IH H1 Hs) as (s2 & E2 & H2 & G2).
  { specialize (Hreach 0 ltac:(lia)). by rewrite Z.add_0_r in Hreach. }
  { apply Hreach. lia. }
  assert (block_is_free_at (rd32_at fuel) (gets sv_super) (gets sv_bitmap) (blk a) s1 = Ret false s2) as E3.
  { unfold block_is_free_at. erewrite bind_ret by reflexivity. rewrite (co_super _ _ H1). change (SUPER =? 0) with false.
    cbv iota. erewrite bind_ret by exact (Hsup s1 H1). rewrite (proj2 (Z.leb_gt _ _)) by lia.
    erewrite bind_ret by reflexivity. rewrite (co_bitmap _ _ H1). erewrite bind_ret by exact E2.
    rewrite nonzero_bit by (apply Z.mod_pos_bound; lia). unfold bit_free in Hbit. by rewrite Hbit. }
  erewrite bind_ret by exact E3. exists s2. split; [done|]. split; [done|].
  split; [intros x Hx; by apply G2, G1|by apply G2].
Qed.

(** ** The simulation *)

(** A run on the flat store that returns or panics is matched by the cache. *)
Definition sim {A} (c : M (srv D) A) (f : M mem A) : Prop := forall s m,
  coherent s m ->
  match f m with
  | Ret a m' => exists s', c s = Ret a s' /\ coherent s' m'
  | Panic m' => exists s', c s = Panic s' /\ coherent s' m'
  | _ => True
  end.

Lemma sim_ret {A} (a : A) : sim (ret a) (ret a).
Proof. intros s m H. by exists s. Qed.

Lemma sim_panic {A} : sim (@panic _ A) (@panic _ A).
Proof. intros s m H. by exists s. Qed.

Lemma sim_wild {A} : sim (@wild _ A) (@wild _ A).
Proof. by intros s m H. Qed.

Lemma sim_fuel {A} : sim (@out_of_fuel _ A) (@out_of_fuel _ A).
Proof. by intros s m H. Qed.

Lemma sim_bind {A B} (c : M (srv D) A) f (k : A -> M (srv D) B) g :
  sim c f -> (forall a, sim (k a) (g a)) -> sim (bind c k) (bind f g).
Proof.
  intros H1 H2 s m H. specialize (H1 s m H). unfold bind.
  destruct (f m) as [a m1|m1|m1|e m1|m1|m1|]; try done; destruct H1 as (s1 & -> & C1).
  - by apply H2.
  - by exists s1.
Qed.

(** What the simulation gives for one run. *)
Lemma sim_run {A} (c : M (srv D) A) f s m a m' :
  sim c f -> coherent s m -> f m = Ret a m' -> exists s', c s = Ret a s' /\ coherent s' m'.
Proof. intros H C E. specialize (H s m C). by rewrite E in H. Qed.

Lemma sim_run_panic {A} (c : M (srv D) A) f s m m' :
  sim c f -> coherent s m -> f m = Panic m' -> exists s', c s = Panic s' /\ coherent s' m'.
Proof. intros H C E. specialize (H s m C). by rewrite E in H. Qed.

Lemma sim_if {A} (b : bool) (c d : M (srv D) A) f g : sim c f -> sim d g -> sim (if b then c else d) (if b then f else g).
Proof. by destruct b. Qed.

(** Touching an available address. *)
Lemma touch_ok s m a :
  coherent s m -> sane m = true -> avail m a = true ->
  exists s', touch a s = Ret tt s' /\ coherent s' m /\ grows s s' /\ page_there s' a.
Proof.
  intros H Hs Ha. apply (touch_at_ok 3); [apply fault_ok|done..|]. intros Hd. right.
  unfold avail in Ha. rewrite Hd in Ha. split; [done|]. unfold rank. bcase; destruct ((2 <? blk a) && (blk a <? 26)); lia.
Qed.

Lemma sim_flat {A} (c : M (srv D) A) (ok : mem -> bool) (v : mem -> A) (g : mem -> mem) :
  (forall s m, coherent s m -> sane m = true -> ok m = true -> exists s', c s = Ret (v m) s' /\ coherent s' (g m)) ->
  sim c (fun m => flat_do m (ok m) (v m) (g m)).
Proof. intros Hc s m H. unfold flat_do. destruct (sane m) eqn:Es, (ok m) eqn:Eo; simpl; try done. by apply Hc. Qed.

Lemma sim_rd8 a : sim (rd8 a) (rd8 a).
Proof.
  apply sim_flat. intros s m H Hs Ha.
  destruct (touch_ok s m a H Hs Ha) as (s1 & E1 & C1 & _ & P1). exists s1. cbn [rd8 cached].
  erewrite bind_ret by exact E1. unfold gets. by rewrite (co_ld8 s1 m a C1 P1).
Qed.

Lemma sim_rd32 a : sim (rd32 a) (rd32 a).
Proof.
  apply sim_flat. intros s m H Hs [Ha Ha3]%andb_true_iff.
  destruct (touch_ok s m a H Hs Ha) as (s1 & E1 & C1 & _ & P1).
  destruct (touch_ok s1 m (a + 3) C1 Hs Ha3) as (s2 & E2 & C2 & G2 & P2). exists s2. cbn [rd32 cached].
  erewrite bind_ret by exact E1. erewrite bind_ret by exact E2. unfold gets.
  rewrite (co_ld32 s2 m a C2); [done|intros Hd; by apply G2, P1|done].
Qed.

Lemma sim_super : sim super super.
Proof. intros s m H. exists s. cbn [super cached]. unfold gets. by rewrite (co_super _ _ H). Qed.

Lemma sim_bitmap : sim bitmap bitmap.
Proof. intros s m H. exists s. cbn [bitmap cached]. unfold gets. by rewrite (co_bitmap _ _ H). Qed.

(** ** Stores *)

Definition marked (a : Z) (s : srv D) : srv D :=
  if in_disk a then set_pte (PGNUM a) (Z.lor (uvpt s a) PTE_D) s else s.

(** A page is dirty, if it is one of the disk's. *)
Definition dirty_there (s : srv D) (a : Z) : Prop := in_disk a = true -> dirty s a.

Lemma marked_ok s m a :
  coherent s m -> page_there s a ->
  coherent (marked a s) m /\ dirty_there (marked a s) a /\
  (forall b, page_there s b -> page_there (marked a s) b) /\ (forall b, dirty_there s b -> dirty_there (marked a s) b).
Proof.
  intros H Hp. unfold marked, dirty_there. destruct (in_disk a) eqn:Ea; [|split; [exact H|]; split; [by intros|]; by split; intros b Hb].
  destruct (Hp Ea) as [e He]. assert (Z.lor (uvpt s a) PTE_D = pte_dirty) as ->.
  { unfold uvpt. rewrite He. simpl. by destruct (co_pte _ _ H _ _ He) as [-> | ->]. }
  assert (forall b, dirty s b -> dirty (set_pte (PGNUM a) pte_dirty s) b) as Hd.
  { intros b Hb. unfold dirty in *. cbn [set_pte sv_uvpt].
    destruct (decide (PGNUM a = PGNUM b)) as [->|]; [by rewrite lookup_insert_eq|by rewrite lookup_insert_ne]. }
  assert (forall b, present s b <-> present (set_pte (PGNUM a) pte_dirty s) b) as Hpr.
  { intros b. unfold present in *. cbn [set_pte sv_uvpt].
    destruct (decide (PGNUM a = PGNUM b)) as [<-|]; [rewrite lookup_insert_eq, He; by split; eauto|by rewrite lookup_insert_ne]. }
  split; [|split; [intros _; unfold dirty; cbn [set_pte sv_uvpt]; by rewrite lookup_insert_eq|]].
  - destruct H as [H1 H2 H3 H4 H5 H6 H7 H8]. split; cbn [set_pte sv_mem sv_dev sv_super sv_bitmap]; try done.
    + intros pn e'. cbn [set_pte sv_uvpt]. destruct (decide (PGNUM a = pn)) as [<-|]; [|by rewrite lookup_insert_ne; [apply H4|]].
      rewrite lookup_insert_eq. intros [= <-]. by right.
    + intros b Hb Hb'. apply H6; [done|by apply Hpr].
    + intros b Hb Hb'. apply H7; [done|]. intros Hb2. by apply Hb', Hd.
    + by apply Hpr.
  - split; [intros b Hb E; apply Hpr, Hb, E|intros b Hb E; by apply Hd, Hb].
Qed.

Lemma mark_dirty_ret a s : mark_dirty a s = Ret tt (marked a s).
Proof. done. Qed.

(** Changing bytes of dirty pages on both sides. *)
Lemma coherent_write s m f m' (W : Z -> Prop) :
  coherent s m -> (forall b, W b -> dirty_there s b) -> (forall b, W b \/ ~ W b) ->
  (forall b, W b -> ld8 (f s.(sv_mem)) b = ld8 m' b) ->
  (forall b, ~ W b -> ld8 (f s.(sv_mem)) b = ld8 s.(sv_mem) b /\ ld8 m' b = ld8 m b) ->
  coherent (set_mem f s) m'.
Proof.
  intros [H1 H2 H3 H4 H5 H6 H7 H8] Hd Hdec Hw Hnw. split; cbn [set_mem sv_mem sv_dev sv_super sv_bitmap sv_uvpt]; try done.
  - intros a Ha. destruct (Hdec a) as [Wa|Wa]; [by apply Hw|]. destruct (Hnw a Wa) as [-> ->]. by apply H5.
  - intros a Ha Hp. destruct (Hdec a) as [Wa|Wa]; [by apply Hw|]. destruct (Hnw a Wa) as [-> ->]. by apply H6.
  - intros a Ha Hn. destruct (Hdec a) as [Wa|Wa]; [exfalso; by apply Hn, (Hd a Wa)|].
    destruct (Hnw a Wa) as [_ ->]. by apply H7.
Qed.

Lemma sim_wr8 a v : sim (wr8 a v) (wr8 a v).
Proof.
  apply sim_flat. intros s m H Hs Ha.
  destruct (touch_ok s m a H Hs Ha) as (s1 & E1 & C1 & _ & P1). cbn [wr8 cached].
  erewrite bind_ret by exact E1. erewrite bind_ret by apply mark_dirty_ret. unfold modify.
  destruct (marked_ok s1 m a C1 P1) as (C2 & D2 & _ & _). eexists. split; [reflexivity|].
  apply (coherent_write _ m _ _ (fun b => b = a)); [done|by intros b -> | intros b; lia|..]; intros b Hb; rewrite !ld8_st8.
  - by rewrite Hb, Z.eqb_refl.
  - by rewrite (proj2 (Z.eqb_neq a b)) by congruence.
Qed.

Lemma dirty_between s a i :
  dirty_there s a -> dirty_there s (a + 3) -> 0 <= i < 4 -> dirty_there s (a + i).
Proof.
  intros H1 H2 Hi Hd.
  assert (page_there (mkSrv ∅ (filter (fun x => x.2 = pte_dirty) s.(sv_uvpt)) s.(sv_dev) 0 0) (a + i)) as Hp.
  { assert (forall b, page_there (mkSrv ∅ (filter (fun x => x.2 = pte_dirty) s.(sv_uvpt)) s.(sv_dev) 0 0) b <-> dirty_there s b) as Hx.
    { intros b. unfold page_there, dirty_there, present, dirty. cbn [sv_uvpt]. split; intros Hb Ed; specialize (Hb Ed).
      - destruct Hb as [e He]. by apply map_lookup_filter_Some in He as [He [= ->]].
      - exists pte_dirty. by apply map_lookup_filter_Some. }
    apply page_between; [by apply Hx..|done]. }
  destruct (Hp Hd) as [e He]. cbn [sv_uvpt] in He. apply map_lookup_filter_Some in He as [He Ee]. simpl in Ee. by subst.
Qed.

Lemma sim_wr32 a v : sim (wr32 a v) (wr32 a v).
Proof.
  apply sim_flat. intros s m H Hs [Ha Ha3]%andb_true_iff.
  destruct (touch_ok s m a H Hs Ha) as (s1 & E1 & C1 & _ & P1).
  destruct (touch_ok s1 m (a + 3) C1 Hs Ha3) as (s2 & E2 & C2 & G2 & P2). cbn [wr32 cached].
  assert (page_there s2 a) as P1' by (intros Hd; by apply G2, P1).
  erewrite bind_ret by exact E1. erewrite bind_ret by exact E2.
  erewrite bind_ret by apply mark_dirty_ret. erewrite bind_ret by apply mark_dirty_ret. unfold modify.
  destruct (marked_ok s2 m a C2 P1') as (C3 & D3 & K3 & _).
  destruct (marked_ok _ m (a + 3) C3 (K3 _ P2)) as (C4 & D4 & _ & K4). eexists. split; [reflexivity|].
  apply (coherent_write _ m _ _ (fun b => a <= b < a + 4)); [done| |intros b; lia|..]; intros b Hb.
  - replace b with (a + (b - a)) by lia. apply dirty_between; [by apply K4|done|lia].
  - rewrite !ld8_st32. bcase; done || lia.
  - by rewrite !ld8_st32_ne by lia.
Qed.

(** ** Writing back *)

Lemma flush_ok s m a :
  coherent s m -> in_disk a = true ->
  exists s', bc_flush_block a s = Ret tt s' /\ coherent s' m /\
    (forall b, present s' b <-> present s b) /\ (forall b, dirty s' b -> dirty s b) /\
    (forall b, in_disk b = true -> blk b = blk a -> ~ dirty s' b).
Proof.
  intros H Ha. destruct (rounddown_disk a Ha) as (Er & Hb & Eb). unfold bc_flush_block. rewrite Ha, Er, Eb. cbn [negb].
  destruct (blk_base (blk a) Hb) as [Hd Hbb]. set (p := DISKMAP + blk a * BLKSIZE) in *.
  erewrite bind_ret by reflexivity. cbn [id].
  assert (forall b, in_disk b = true -> blk b = blk a -> PGNUM b = PGNUM p) as Hpg.
  { intros b Hdb Eb'. apply pgnum_blk; [done..|]. congruence. }
  destruct (va_is_mapped s p) eqn:Em; cbn [andb]; [destruct (va_is_dirty s p) eqn:Ed|].
  2, 3: exists s; split; [done|]; split; [done|]; split; [done|]; split; [done|]; intros b Hdb Eb' Hdirty;
    unfold dirty in Hdirty; rewrite (Hpg b Hdb Eb') in Hdirty.
  2: by apply (dirty_iff s m p H) in Hdirty; congruence.
  2: assert (present s p) as Hp2 by (unfold present; rewrite Hdirty; eauto); apply (mapped_iff s m p H) in Hp2; congruence.
  apply (dirty_iff s m p H) in Ed. apply (mapped_iff s m p H) in Em.
  destruct (disk_write_ok s.(sv_dev) (blk a * 8) 8 (ld_bytes s.(sv_mem) p (Z.to_nat (8 * SECTSIZE))) (co_dev _ _ H)
    ltac:(lia) ltac:(lia) ltac:(lia) (length_ld_bytes _ _ _)) as (d' & E & Hok & Him).
  unfold drv. erewrite bind_ret by (apply zoom_ret; exact E). clear E. change (0 <? 0) with false. cbv iota.
  assert (forall b, p <= b < p + BLKSIZE ->
    ld_bytes s.(sv_mem) p (Z.to_nat (8 * SECTSIZE)) !! Z.to_nat (b - p) = Some (ld8 s.(sv_mem) b)) as Hbytes.
  { intros b Hbr. rewrite ld_bytes_lookup by (unfold BLKSIZE, PGSIZE, SECTSIZE in *; lia). do 2 f_equal. lia. }
  pose proof (length_ld_bytes s.(sv_mem) p (Z.to_nat (8 * SECTSIZE))) as Hlen.
  generalize dependent (ld_bytes s.(sv_mem) p (Z.to_nat (8 * SECTSIZE))). intros bytes Him Hbytes Hlen.
  erewrite bind_ret by reflexivity. cbn [id].
  assert (uvpt (set_dev d' s) p = pte_dirty) as Eu by (unfold uvpt; cbn [set_dev sv_uvpt]; unfold dirty in Ed; by rewrite Ed).
  erewrite bind_ret by (apply remap_ok; by right). change (0 <? 0) with false. cbv iota.
  eexists. split; [reflexivity|].
  assert (forall b, dirty (set_pte (PGNUM p) pte_clean (set_dev d' s)) b <-> dirty s b /\ PGNUM b <> PGNUM p) as Hdirty.
  { intros b. unfold dirty. cbn [set_pte set_dev sv_uvpt]. destruct (decide (PGNUM p = PGNUM b)) as [->|].
    - rewrite lookup_insert_eq. split; [intros E'; by destruct clean_not_dirty|intros [_ Hne]; by destruct Hne].
    - rewrite lookup_insert_ne by done. split; [by split; [|congruence]|tauto]. }
  assert (forall b, present (set_pte (PGNUM p) pte_clean (set_dev d' s)) b <-> present s b) as Hpres.
  { intros b. unfold present in *. cbn [set_pte set_dev sv_uvpt]. destruct (decide (PGNUM p = PGNUM b)) as [E'|].
    - rewrite E', lookup_insert_eq. rewrite E' in Em. split; eauto.
    - by rewrite lookup_insert_ne. }
  split; [|split; [exact Hpres|]; split; [intros b Hx; apply Hdirty in Hx; apply Hx|]].
  2: { intros b Hdb Eb' Hx. apply Hdirty in Hx as [_ Hx]. apply Hx. by apply Hpg. }
  pose proof (co_mem _ _ H) as Hm. destruct H as [H1 H2 H3 H4 H5 H6 H7 H8].
  split; cbn [set_pte set_dev sv_mem sv_dev sv_super sv_bitmap sv_uvpt]; try done.
  - intros pn e. destruct (decide (PGNUM p = pn)) as [->|]; [rewrite lookup_insert_eq; intros [= <-]; by left|].
    rewrite lookup_insert_ne by done. apply H4.
  - intros b Hdb Hpb. apply H6; [done|]. by apply Hpres.
  - intros b Hdb Hnd. rewrite Him, ld8_st_bytes, Hlen. change (Z.of_nat (Z.to_nat (8 * SECTSIZE))) with BLKSIZE.
    assert (in_disk b && (blk b =? blk p) = (p <=? b) && (b <? p + BLKSIZE)) as Er2.
    { apply block_range; [|done]. rewrite Hbb. unfold p. lia. }
    replace ((blk a * 8 * SECTSIZE <=? b - DISKMAP) && (b - DISKMAP <? blk a * 8 * SECTSIZE + BLKSIZE))
      with ((p <=? b) && (b <? p + BLKSIZE))
      by (apply eq_true_iff_eq; rewrite !andb_true_iff, !Z.leb_le, !Z.ltb_lt; unfold p, BLKSIZE, PGSIZE, SECTSIZE; lia).
    rewrite <- Er2, Hdb. cbn [andb]. destruct (Z.eqb_spec (blk b) (blk p)) as [Ebp|Ebp].
    + assert ((p <=? b) && (b <? p + BLKSIZE) = true) as Er3 by (rewrite <- Er2, Hdb; cbn [andb]; rewrite ?Ebp, ?Z.eqb_refl; reflexivity).
      apply andb_true_iff in Er3 as [L1%Z.leb_le L2%Z.ltb_lt].
      replace (Z.to_nat (b - DISKMAP - blk a * 8 * SECTSIZE)) with (Z.to_nat (b - p)) by (unfold p, BLKSIZE, PGSIZE, SECTSIZE in *; lia).
      rewrite Hbytes by lia. simpl. rewrite u8_small by apply ld8_range.
      apply Hm; [done|]. unfold present in *. by rewrite (Hpg b Hdb) by congruence.
    + apply H7; [done|]. intros Hdir. apply Hnd, Hdirty. split; [done|]. intros E'. apply Ebp. by apply pgnum_blk.
  - by apply Hpres.
Qed.

Lemma sim_flush a : sim (flush_block a) (flush_block a).
Proof.
  intros s m H. cbn [flush_block flat]. destruct (in_disk a) eqn:Ea.
  2: { exists s. cbn [flush_block cached]. unfold bc_flush_block. by rewrite Ea. }
  destruct (flush_ok s m a H Ea) as (s' & E' & C' & _). by exists s'.
Qed.
End Sim.
