(* ===== verification/Fs.v ===== *)
(** The file system, [fs/fs.c], over any [Store].

    Pointers are addresses; [struct File] is laid out in memory as [inc/fs.h] declares it.
    Local character arrays are lists of characters without their NUL.  Functions that return
    through pointer arguments return the values stored there next to the result. *)

From S2P Require Import Prelude Mmu Mem Ide Bc.

Definition MAXNAMELEN : Z := 128.
Definition MAXPATHLEN : Z := 1024.
Definition NDIRECT : Z := 10.
Definition NINDIRECT : Z := BLKSIZE / 4.
Definition MAXFILESIZE : Z := (NDIRECT + NINDIRECT) * BLKSIZE.
Definition FTYPE_DIR : Z := 1.

(** [struct File]: the addresses of its members, and its size. *)
Definition f_name (f : Z) : Z := f.
Definition f_size (f : Z) : Z := f + 128.
Definition f_type (f : Z) : Z := f + 132.
Definition f_direct (f i : Z) : Z := f + 136 + 4 * i.
Definition f_indirect (f : Z) : Z := f + 176.
Definition sizeof_File : Z := 256.
Definition BLKFILES : Z := BLKSIZE / sizeof_File.

Definition chr_slash : Z := 47.

Section Fs.
Context {S : Type} {HS : Store S}.

(** Bounds the loops whose length is not known when they start. *)
Context (fuel : nat).

(** ** Blocks of memory *)

Fixpoint rd_bytes (a : Z) (n : nat) : M S (list Z) :=
  match n with
  | O => ret []
  | Datatypes.S n => let* c := rd8 a in let* l := rd_bytes (a + 1) n in ret (c :: l)
  end.

Fixpoint wr_bytes (a : Z) (l : list Z) : M S unit :=
  match l with
  | [] => ret tt
  | c :: l => wr8 a c ;;; wr_bytes (a + 1) l
  end.

(** [memmove(dst, src, n)] *)
Definition copy (dst src n : Z) : M S unit :=
  let* l := rd_bytes src (Z.to_nat n) in wr_bytes dst l.

(** [strcmp(p, name)] with a string on the stack. *)
Fixpoint strcmp_at (p : Z) (name : list Z) : M S Z :=
  let* c := rd8 p in
  match name with
  | [] => ret (c - 0)
  | q :: name => if negb (c =? 0) && (c =? q) then strcmp_at (p + 1) name else ret (c - q)
  end.

(** ** The super block and the bitmap *)

Definition diskaddr (blockno : Z) : M S Z :=
  if blockno =? 0 then panic
  else
    let* sp := super in
    let* bad := if sp =? 0 then ret false else let* nb := rd32 (s_nblocks sp) in ret (nb <=? blockno) in
    if bad then panic else ret (u32 (DISKMAP + blockno * BLKSIZE)).

Definition check_super : M S unit :=
  let* sp := super in
  let* magic := rd32 (s_magic sp) in
  if negb (magic =? FS_MAGIC) then panic
  else
    let* nb := rd32 (s_nblocks sp) in
    if DISKSIZE / BLKSIZE <? nb then panic else ret tt.

Definition block_is_free (blockno : Z) : M S bool := block_is_free_at rd32 super bitmap blockno.

(** The word and the bit of a block in the bitmap. *)
Definition bm_word (bm blockno : Z) : Z := bm + 4 * (blockno / 32).
Definition bm_bit (blockno : Z) : Z := Z.shiftl 1 (blockno mod 32).

Definition free_block (blockno : Z) : M S unit :=
  if blockno =? 0 then panic
  else
    let* bm := bitmap in
    let* w := rd32 (bm_word bm blockno) in
    wr32 (bm_word bm blockno) (Z.lor w (bm_bit blockno)).

Fixpoint alloc_loop (n : nat) (blockno : Z) : M S Z :=
  match n with
  | O => out_of_fuel
  | Datatypes.S n =>
      let* sp := super in
      let* nb := rd32 (s_nblocks sp) in
      if blockno <? nb then
        let* bm := bitmap in
        let* w := rd32 (bm_word bm blockno) in
        if Z.lor w 0 =? 0 then alloc_loop n (u32 (blockno + 32))
        else if nonzero (Z.land w (bm_bit blockno)) then
          wr32 (bm_word bm blockno) (Z.land w (Z.lnot (bm_bit blockno))) ;;;
          flush_block (bm_word bm blockno) ;;;
          ret (s32 blockno)
        else alloc_loop n (u32 (blockno + 1))
      else ret (- E_NO_DISK)
  end.

Definition alloc_block : M S Z := alloc_loop fuel 0.

Fixpoint check_bitmap_loop (n : nat) (i : Z) : M S unit :=
  match n with
  | O => out_of_fuel
  | Datatypes.S n =>
      let* sp := super in
      let* nb := rd32 (s_nblocks sp) in
      if u32 (i * BLKBITSIZE) <? nb then
        let* free := block_is_free (2 + i) in
        if free then panic else check_bitmap_loop n (i + 1)
      else ret tt
  end.

Definition check_bitmap : M S unit :=
  check_bitmap_loop fuel 0 ;;;
  let* free := block_is_free 0 in
  if free then panic
  else
    let* free := block_is_free 1 in
    if free then panic else ret tt.

(** ** Blocks of a file *)

(** The result and [*ppdiskbno], [None] where it is not set.  [ret] is unsigned in the
    source, so its test for a negative answer never holds. *)
Definition file_block_walk (f filebno : Z) (alloc : bool) : M S (Z * option Z) :=
  if NDIRECT + NINDIRECT <=? filebno then ret (- E_INVAL, None)
  else if filebno <? NDIRECT then ret (0, Some (f_direct f filebno))
  else
    let* ind := rd32 (f_indirect f) in
    if negb (ind =? 0) then
      let* a := diskaddr ind in
      ret (0, Some (a + 4 * (filebno - NDIRECT)))
    else if alloc then
      let* r := alloc_block in
      let r := u32 r in
      if r <? 0 then ret (s32 r, None)
      else
        wr32 (f_indirect f) r ;;;
        let* ind := rd32 (f_indirect f) in
        let* a := diskaddr ind in
        ret (0, Some (a + 4 * (filebno - NDIRECT)))
    else ret (- E_NOT_FOUND, None).

(** The result and [*blk], 0 where it is not set. *)
Definition file_get_block (f filebno : Z) : M S (Z * Z) :=
  if NDIRECT + NINDIRECT <=? filebno then ret (- E_INVAL, 0)
  else
    let* ' (r, ptr) := file_block_walk f filebno true in
    let r := u32 r in
    if r <? 0 then ret (s32 r, 0)
    else
      match ptr with
      | None => wild
      | Some block =>
          let* b := rd32 block in
          if negb (b =? 0) then
            let* a := diskaddr b in ret (0, a)
          else
            let* r := alloc_block in
            let r := u32 r in
            if r <? 0 then ret (s32 r, 0)
            else
              wr32 block r ;;;
              let* b := rd32 block in
              let* a := diskaddr b in
              ret (0, a)
      end.

(** ** Directories *)

(** [f[j]] for [j < BLKFILES], [n] of them left, that satisfies a test. *)
Fixpoint find_entry (test : Z -> M S bool) (n : nat) (f : Z) : M S (option Z) :=
  match n with
  | O => ret None
  | Datatypes.S n =>
      let* b := test f in
      if b : bool then ret (Some f) else find_entry test n (f + sizeof_File)
  end.

(** The search of the blocks [i], [i + 1], ... of a directory: the result and the entry, or
    [None] when all [n] were searched. *)
Fixpoint find_in_blocks (test : Z -> M S bool) (n : nat) (dir i : Z) : M S (option (Z * Z)) :=
  match n with
  | O => ret None
  | Datatypes.S n =>
      let* ' (r, blk) := file_get_block dir i in
      if r <? 0 then ret (Some (r, 0))
      else
        let* e := find_entry test (Z.to_nat BLKFILES) blk in
        match e with
        | Some f => ret (Some (0, f))
        | None => find_in_blocks test n dir (i + 1)
        end
  end.

(** [dir->f_size / BLKSIZE], after the assertion on it. *)
Definition dir_nblock (dir : Z) : M S Z :=
  let* sz := rd32 (f_size dir) in
  if negb (Z.rem (s32 sz) BLKSIZE =? 0) then panic
  else
    let* sz := rd32 (f_size dir) in
    ret (u32 (Z.quot (s32 sz) BLKSIZE)).

Definition dir_lookup (dir : Z) (name : list Z) : M S (Z * Z) :=
  let* nblock := dir_nblock dir in
  let* found := find_in_blocks (fun f => let* r := strcmp_at (f_name f) name in ret (r =? 0)) (Z.to_nat nblock) dir 0 in
  match found with
  | Some rf => ret rf
  | None => ret (- E_NOT_FOUND, 0)
  end.

Definition dir_alloc_file (dir : Z) : M S (Z * Z) :=
  let* nblock := dir_nblock dir in
  let* found := find_in_blocks (fun f => let* c := rd8 (f_name f) in ret (c =? 0)) (Z.to_nat nblock) dir 0 in
  match found with
  | Some rf => ret rf
  | None =>
      let* sz := rd32 (f_size dir) in
      wr32 (f_size dir) (sz + BLKSIZE) ;;;
      let* ' (r, blk) := file_get_block dir nblock in
      if r <? 0 then ret (r, 0) else ret (0, blk)
  end.

(** ** Paths *)

Fixpoint skip_slash (n : nat) (p : Z) : M S Z :=
  match n with
  | O => out_of_fuel
  | Datatypes.S n => let* c := rd8 p in if c =? chr_slash then skip_slash n (p + 1) else ret p
  end.

(** [while ( *path != '/' && *path != '\0') path++] *)
Fixpoint skip_name (n : nat) (p : Z) : M S Z :=
  match n with
  | O => out_of_fuel
  | Datatypes.S n =>
      let* c := rd8 p in
      if negb (c =? chr_slash) && negb (c =? 0) then skip_name n (p + 1) else ret p
  end.

(** What [walk_path] returns, and what it stores at [pdir], [pf] and [lastelem]. *)
Record walked := mkWalked { w_r : Z; w_dir : Z; w_file : Z; w_last : list Z }.

Fixpoint walk_loop (n : nat) (path dir f : Z) : M S walked :=
  match n with
  | O => out_of_fuel
  | Datatypes.S n =>
      let* c := rd8 path in
      if c =? 0 then ret (mkWalked 0 dir f [])
      else
        let dir := f in
        let p := path in
        let* path := skip_name fuel path in
        if MAXNAMELEN <=? path - p then ret (mkWalked (- E_BAD_PATH) 0 0 [])
        else
          let* name := rd_bytes p (Z.to_nat (path - p)) in
          let* path := skip_slash fuel path in
          let* ty := rd32 (f_type dir) in
          if negb (ty =? FTYPE_DIR) then ret (mkWalked (- E_NOT_FOUND) 0 0 [])
          else
            let* ' (r, f) := dir_lookup dir name in
            if r <? 0 then
              let* last := if r =? - E_NOT_FOUND then let* c := rd8 path in ret (c =? 0) else ret false in
              if last : bool then ret (mkWalked r dir 0 name) else ret (mkWalked r 0 0 [])
            else walk_loop n path dir f
  end.

Definition walk_path (path : Z) : M S walked :=
  let* path := skip_slash fuel path in
  let* sp := super in
  walk_loop fuel path 0 (s_root sp).

(** ** Writing back *)

Fixpoint file_flush_loop (n : nat) (f i : Z) : M S unit :=
  match n with
  | O => out_of_fuel
  | Datatypes.S n =>
      let* sz := rd32 (f_size f) in
      if i <? Z.quot (s32 (s32 sz + BLKSIZE - 1)) BLKSIZE then
        let* ' (r, ptr) := file_block_walk f (u32 i) false in
        match ptr with
        | Some pdiskbno =>
            if r <? 0 then file_flush_loop n f (i + 1)
            else
              let* b := rd32 pdiskbno in
              if b =? 0 then file_flush_loop n f (i + 1)
              else
                let* a := diskaddr b in
                flush_block a ;;;
                file_flush_loop n f (i + 1)
        | None => file_flush_loop n f (i + 1)
        end
      else ret tt
  end.

Definition file_flush (f : Z) : M S unit :=
  file_flush_loop fuel f 0 ;;;
  flush_block f ;;;
  let* ind := rd32 (f_indirect f) in
  if negb (ind =? 0) then let* a := diskaddr ind in flush_block a else ret tt.

Fixpoint fs_sync_loop (n : nat) (i : Z) : M S unit :=
  match n with
  | O => out_of_fuel
  | Datatypes.S n =>
      let* sp := super in
      let* nb := rd32 (s_nblocks sp) in
      if u32 i <? nb then
        let* a := diskaddr (u32 i) in
        flush_block a ;;; fs_sync_loop n (i + 1)
      else ret tt
  end.

Definition fs_sync : M S unit := fs_sync_loop fuel 1.

(** ** Files *)

(** The result and [*pf]. *)
Definition file_create (path : Z) : M S (Z * Z) :=
  let* w := walk_path path in
  if w.(w_r) =? 0 then ret (- E_FILE_EXISTS, 0)
  else if negb (w.(w_r) =? - E_NOT_FOUND) || (w.(w_dir) =? 0) then ret (w.(w_r), 0)
  else
    let* ' (r, f) := dir_alloc_file w.(w_dir) in
    if r <? 0 then ret (r, 0)
    else
      wr_bytes (f_name f) (w.(w_last) ++ [0]) ;;;
      file_flush w.(w_dir) ;;;
      ret (0, f).

Definition file_open (path : Z) : M S (Z * Z) :=
  let* w := walk_path path in ret (w.(w_r), w.(w_file)).

(** The transfer loops of [file_read] and [file_write]: [move a b n] copies [n] bytes between
    the block at [a] and the buffer at [b]. *)
Fixpoint transfer (move : Z -> Z -> Z -> M S unit) (n : nat) (f buf pos offset count : Z) : M S Z :=
  match n with
  | O => out_of_fuel
  | Datatypes.S n =>
      if u32 pos <? u32 (offset + count) then
        let* ' (r, blk) := file_get_block f (u32 (Z.quot pos BLKSIZE)) in
        if r <? 0 then ret r
        else
          let bn := s32 (MIN (u32 (BLKSIZE - Z.rem pos BLKSIZE)) (u32 (offset + count - pos))) in
          move (blk + Z.rem pos BLKSIZE) buf (u32 bn) ;;;
          transfer move n f (u32 (buf + bn)) (s32 (pos + bn)) offset count
      else ret (s32 count)
  end.

Definition file_read (f buf count offset : Z) : M S Z :=
  let* sz := rd32 (f_size f) in
  if s32 sz <=? offset then ret 0
  else
    let* sz := rd32 (f_size f) in
    let count := MIN count (u32 (s32 sz - offset)) in
    transfer (fun a b n => copy b a n) fuel f buf offset offset count.

Definition file_free_block (f filebno : Z) : M S Z :=
  let* ' (r, ptr) := file_block_walk f filebno false in
  if r <? 0 then ret r
  else
    match ptr with
    | None => wild
    | Some p =>
        let* b := rd32 p in
        (if negb (b =? 0) then free_block b ;;; wr32 p 0 else ret tt) ;;;
        ret 0
    end.

Definition file_truncate_blocks (f newsize : Z) : M S unit :=
  let* sz := rd32 (f_size f) in
  let old_nblocks := u32 (Z.quot (s32 (s32 sz + BLKSIZE - 1)) BLKSIZE) in
  let new_nblocks := u32 (Z.quot (s32 (newsize + BLKSIZE - 1)) BLKSIZE) in
  for_n (Z.to_nat (old_nblocks - new_nblocks)) new_nblocks (fun bno => file_free_block f bno ;;; ret tt) ;;;
  let* ind := if new_nblocks <=? NDIRECT then rd32 (f_indirect f) else ret 0 in
  if negb (ind =? 0) then free_block ind ;;; wr32 (f_indirect f) 0 else ret tt.

Definition file_set_size (f newsize : Z) : M S Z :=
  let* sz := rd32 (f_size f) in
  (if newsize <? s32 sz then file_truncate_blocks f newsize else ret tt) ;;;
  wr32 (f_size f) newsize ;;;
  flush_block f ;;;
  ret 0.

Definition file_write (f buf count offset : Z) : M S Z :=
  let* sz := rd32 (f_size f) in
  let* r := if u32 sz <? u32 (offset + count) then file_set_size f (s32 (offset + count)) else ret 0 in
  if r <? 0 then ret r
  else transfer (fun a b n => copy a b n) fuel f buf offset offset count.
End Fs.
