(* ===== verification/Serv.v ===== *)
(** The file server ([fs/serv.c]): the table of open files and the request handlers.

    The server's own memory (the request page, the Fd pages, the stack) is memory of the
    store outside the disk region.  The reference counts of the Fd pages, which the kernel
    keeps and clients change when they map and unmap them, are part of the state. *)

From stdpp Require Import gmap.
From S2P Require Import Prelude Mmu Mem Bc Fs.

Definition MAXOPEN : Z := 1024.
Definition FILEVA : Z := 0xD0000000.
Definition fsreq : Z := 0x0ffff000.

Definition O_ACCMODE : Z := 0x0003.
Definition O_CREAT : Z := 0x0100.
Definition O_TRUNC : Z := 0x0200.
Definition O_EXCL : Z := 0x0400.

Definition FSREQ_OPEN : Z := 1.
Definition FSREQ_SET_SIZE : Z := 2.
Definition FSREQ_READ : Z := 3.
Definition FSREQ_WRITE : Z := 4.
Definition FSREQ_STAT : Z := 5.
Definition FSREQ_FLUSH : Z := 6.
Definition FSREQ_REMOVE : Z := 7.
Definition FSREQ_SYNC : Z := 8.

(** [struct Fd]: the addresses of its members. *)
Definition fd_dev_id (fd : Z) : Z := fd.
Definition fd_offset (fd : Z) : Z := fd + 4.
Definition fd_omode (fd : Z) : Z := fd + 8.
Definition fd_file_id (fd : Z) : Z := fd + 12.

(** [devfile.dev_id] *)
Definition devfile_id : Z := 102.

(** [union Fsipc]: the addresses of the members of the request at [r]. *)
Definition req_path (r : Z) : Z := r.
Definition req_omode (r : Z) : Z := r + MAXPATHLEN.
Definition req_fileid (r : Z) : Z := r.
Definition req_size (r : Z) : Z := r + 4.
Definition req_n (r : Z) : Z := r + 4.
Definition req_buf (r : Z) : Z := r + 8.
Definition ret_buf (r : Z) : Z := r.
Definition ret_name (r : Z) : Z := r.
Definition ret_size (r : Z) : Z := r + MAXNAMELEN.
Definition ret_isdir (r : Z) : Z := r + MAXNAMELEN + 4.

Record OpenFile := mkOpen { o_fileid : Z; o_file : Z; o_mode : Z; o_fd : Z }.

Record serv (S : Type) := mkServ {
  se_store : S;
  opentab : list OpenFile;
  fd_refs : gmap Z Z;        (* how many address spaces map the Fd page at an address *)
}.
Arguments mkServ {S}.
Arguments se_store {S}.
Arguments opentab {S}.
Arguments fd_refs {S}.

Section Serv.
Context {S : Type} {HS : Store S} {HPg : Pager}.
Context (fuel : nat).

(** The address of the local array [path] of [serve_open]. *)
Context (path : Z).

Definition set_store (st : S) (s : serv S) : serv S := mkServ st s.(opentab) s.(fd_refs).
Definition set_tab (t : list OpenFile) (s : serv S) : serv S := mkServ s.(se_store) t s.(fd_refs).
Definition set_refs (va n : Z) (s : serv S) : serv S := mkServ s.(se_store) s.(opentab) (<[va := n]> s.(fd_refs)).

Definition fs {A} (m : M S A) : M (serv S) A := zoom se_store set_store m.

(** [opentab[i]], and a change to it. *)
Definition entry (i : Z) : M (serv S) OpenFile := fun s =>
  match s.(opentab) !! Z.to_nat i with Some o => Ret o s | None => Wild s end.
Definition put_entry (i : Z) (o : OpenFile) : M (serv S) unit :=
  modify (fun s => set_tab (<[Z.to_nat i := o]> s.(opentab)) s).

Definition serve_init : M (serv S) unit :=
  for_n (Z.to_nat MAXOPEN) 0 (fun i =>
    let* o := entry i in
    put_entry i (mkOpen i o.(o_file) o.(o_mode) (u32 (FILEVA + i * PGSIZE)))).

(** [pageref(va)] of an Fd page. *)
Definition pageref (va : Z) : M (serv S) Z := gets (fun s => default 0 (s.(fd_refs) !! va)).

(** [sys_page_alloc(0, va, ...)] of an Fd page. *)
Definition fd_page_alloc (va : Z) : M (serv S) Z := fun s =>
  if page_ok (PGNUM va) then Ret 0 (set_refs va 1 s) else Ret (- E_NO_MEM) s.

(** The result, and the index of [*o]. *)
Definition take_entry (i : Z) : M (serv S) (Z * Z) :=
  let* o := entry i in
  let o := mkOpen (u32 (o.(o_fileid) + MAXOPEN)) o.(o_file) o.(o_mode) o.(o_fd) in
  put_entry i o ;;;
  fs (wr_bytes o.(o_fd) (replicate (Z.to_nat PGSIZE) 0)) ;;;
  ret (s32 o.(o_fileid), i).

Fixpoint openfile_loop (n : nat) (i : Z) : M (serv S) (Z * Z) :=
  match n with
  | O => ret (- E_MAX_OPEN, 0)
  | Datatypes.S n =>
      let* o := entry i in
      let* rc := pageref o.(o_fd) in
      if rc =? 0 then
        let* r := fd_page_alloc o.(o_fd) in
        if r <? 0 then ret (r, 0) else take_entry i
      else if rc =? 1 then take_entry i
      else openfile_loop n (i + 1)
  end.

Definition openfile_alloc : M (serv S) (Z * Z) := openfile_loop (Z.to_nat MAXOPEN) 0.

(** [None] is the answer [-E_INVAL]. *)
Definition openfile_lookup (fileid : Z) : M (serv S) (option OpenFile) :=
  let* o := entry (fileid mod MAXOPEN) in
  let* rc := pageref o.(o_fd) in
  if (rc <=? 1) || negb (o.(o_fileid) =? fileid) then ret None else ret (Some o).

(** The result, and [*pg_store], [*perm_store] when they are set. *)
Definition serve_open (req : Z) : M (serv S) (Z * option (Z * Z)) :=
  fs (copy path (req_path req) MAXPATHLEN) ;;;
  fs (wr8 (path + MAXPATHLEN - 1) 0) ;;;
  let* ' (r, i) := openfile_alloc in
  if r <? 0 then ret (r, None)
  else
    let* omode := fs (rd32 (req_omode req)) in
    let* ' (r, f) :=
      if nonzero (Z.land omode O_CREAT) then
        let* ' (r, f) := fs (file_create fuel path) in
        if r <? 0 then
          let* omode := fs (rd32 (req_omode req)) in
          if negb (nonzero (Z.land omode O_EXCL)) && (r =? - E_FILE_EXISTS) then fs (file_open fuel path)
          else ret (r, f)
        else ret (r, f)
      else fs (file_open fuel path) in
    if r <? 0 then ret (r, None)
    else
      let* omode := fs (rd32 (req_omode req)) in
      let* r := if nonzero (Z.land omode O_TRUNC) then fs (file_set_size fuel f 0) else ret 0 in
      if r <? 0 then ret (r, None)
      else
        let* ' (r, f) := fs (file_open fuel path) in
        if r <? 0 then ret (r, None)
        else
          let* o := entry i in
          put_entry i (mkOpen o.(o_fileid) f o.(o_mode) o.(o_fd)) ;;;
          fs (wr32 (fd_file_id o.(o_fd)) o.(o_fileid)) ;;;
          let* omode := fs (rd32 (req_omode req)) in
          fs (wr32 (fd_omode o.(o_fd)) (Z.land omode O_ACCMODE)) ;;;
          fs (wr32 (fd_dev_id o.(o_fd)) devfile_id) ;;;
          let* omode := fs (rd32 (req_omode req)) in
          put_entry i (mkOpen o.(o_fileid) f (s32 omode) o.(o_fd)) ;;;
          ret (0, Some (o.(o_fd), Z.lor (Z.lor (Z.lor PTE_P PTE_U) PTE_W) PTE_SHARE)).

Definition serve_set_size (req : Z) : M (serv S) Z :=
  let* id := fs (rd32 (req_fileid req)) in
  let* po := openfile_lookup id in
  match po with
  | None => ret (- E_INVAL)
  | Some o => let* sz := fs (rd32 (req_size req)) in fs (file_set_size fuel o.(o_file) (s32 sz))
  end.

Definition serve_read (req : Z) : M (serv S) Z :=
  let* id := fs (rd32 (req_fileid req)) in
  let* po := openfile_lookup id in
  match po with
  | None => ret (- E_INVAL)
  | Some o =>
      let* n := fs (rd32 (req_n req)) in
      let* off := fs (rd32 (fd_offset o.(o_fd))) in
      let* value := fs (file_read fuel o.(o_file) (ret_buf req) n (s32 off)) in
      if value <? 0 then ret value
      else
        let* off := fs (rd32 (fd_offset o.(o_fd))) in
        fs (wr32 (fd_offset o.(o_fd)) (s32 (s32 off + value))) ;;;
        ret value
  end.

Definition serve_write (req : Z) : M (serv S) Z :=
  let* id := fs (rd32 (req_fileid req)) in
  let* po := openfile_lookup id in
  match po with
  | None => ret (- E_INVAL)
  | Some o =>
      let* n := fs (rd32 (req_n req)) in
      let* off := fs (rd32 (fd_offset o.(o_fd))) in
      let* res := fs (file_write fuel o.(o_file) (req_buf req) n (s32 off)) in
      if res <? 0 then ret res
      else
        let* off := fs (rd32 (fd_offset o.(o_fd))) in
        fs (wr32 (fd_offset o.(o_fd)) (s32 (s32 off + res))) ;;;
        ret res
  end.

(** [strcpy(dst, src)] *)
Fixpoint strcpy_at (n : nat) (dst src : Z) : M S unit :=
  match n with
  | O => out_of_fuel
  | Datatypes.S n =>
      let* c := rd8 src in
      wr8 dst c ;;;
      if c =? 0 then ret tt else strcpy_at n (dst + 1) (src + 1)
  end.

Definition serve_stat (req : Z) : M (serv S) Z :=
  let* id := fs (rd32 (req_fileid req)) in
  let* po := openfile_lookup id in
  match po with
  | None => ret (- E_INVAL)
  | Some o =>
      fs (strcpy_at fuel (ret_name req) (f_name o.(o_file))) ;;;
      let* sz := fs (rd32 (f_size o.(o_file))) in
      fs (wr32 (ret_size req) sz) ;;;
      let* ty := fs (rd32 (f_type o.(o_file))) in
      fs (wr32 (ret_isdir req) (if ty =? FTYPE_DIR then 1 else 0)) ;;;
      ret 0
  end.

Definition serve_flush (req : Z) : M (serv S) Z :=
  let* id := fs (rd32 (req_fileid req)) in
  let* po := openfile_lookup id in
  match po with
  | None => ret (- E_INVAL)
  | Some o => fs (file_flush fuel o.(o_file)) ;;; ret 0
  end.

Definition serve_sync : M (serv S) Z := fs (fs_sync fuel) ;;; ret 0.

Definition NHANDLERS : Z := FSREQ_SYNC + 1.

(** [handlers[req]]; the entries 0, [FSREQ_OPEN] and [FSREQ_REMOVE] are null. *)
Definition handlers (req : Z) : option (Z -> M (serv S) Z) :=
  if req =? FSREQ_READ then Some serve_read
  else if req =? FSREQ_STAT then Some serve_stat
  else if req =? FSREQ_FLUSH then Some serve_flush
  else if req =? FSREQ_WRITE then Some serve_write
  else if req =? FSREQ_SET_SIZE then Some serve_set_size
  else if req =? FSREQ_SYNC then Some (fun _ => serve_sync)
  else None.

(** One round of [serve]: what [ipc_recv] gave, to what is handed to [ipc_send] for [whom],
    [None] when the client is left hanging.  Unmapping the request page follows. *)
Record reply := mkReply { re_val : Z; re_pg : Z; re_perm : Z }.

Definition serve_one (req perm : Z) : M (serv S) (option reply) :=
  if negb (nonzero (Z.land perm PTE_P)) then ret None
  else if req =? FSREQ_OPEN then
    let* ' (r, pg) := serve_open fsreq in
    match pg with
    | Some (p, perm') => ret (Some (mkReply r p perm'))
    | None => ret (Some (mkReply r 0 perm))
    end
  else
    match (if req <? NHANDLERS then handlers req else None) with
    | Some h => let* r := h fsreq in ret (Some (mkReply r 0 perm))
    | None => ret (Some (mkReply (- E_INVAL) 0 perm))
    end.
End Serv.
