(* ===== verification/FsSim.v ===== *)
(** The file system and the server on the block cache do what they do on the flat store: every
    function of [fs/fs.c] and [fs/serv.c] is built from the accesses of [BcSim], so its runs
    are matched step by step. *)

From stdpp Require Import gmap.
From S2P Require Import Prelude Mmu Mem Ide Bc BcSim Fs Serv.

Section FsSim.
Context {D : Type} {HD : Disk D} {HPg : Pager}.
Hypothesis pages : forall pn, page_ok pn = true.
Context (fuel : nat).

(** Walk down a program on the two stores, using the lemma [h] for recursive calls. *)
Ltac sims_with h :=
  repeat
    (cbn beta iota zeta;
     lazymatch goal with
     | |- sim (bind _ _) _ =>
         apply sim_bind; [|let x := fresh "x" in intros x; try (lazymatch type of x with prod _ _ => destruct x | option _ => destruct x end)]
     | |- sim (ret _) _ => apply sim_ret
     | |- sim (if _ then _ else _) _ => apply sim_if
     | |- sim panic _ => apply sim_panic
     | |- sim wild _ => apply sim_wild
     | |- sim out_of_fuel _ => apply sim_fuel
     | |- sim (rd8 _) _ => apply (sim_rd8 pages)
     | |- sim (rd32 _) _ => apply (sim_rd32 pages)
     | |- sim (wr8 _ _) _ => apply (sim_wr8 pages)
     | |- sim (wr32 _ _) _ => apply (sim_wr32 pages)
     | |- sim (flush_block _) _ => apply sim_flush
     | |- sim super _ => apply sim_super
     | |- sim bitmap _ => apply sim_bitmap
     | |- _ => h
     end).
Ltac sims := sims_with fail.

Lemma sim_rd_bytes a n : sim (rd_bytes a n) (rd_bytes a n).
Proof. revert a. induction n as [|n IH]; intros a; cbn [rd_bytes]; sims_with ltac:(apply IH). Qed.

Lemma sim_wr_bytes a l : sim (wr_bytes a l) (wr_bytes a l).
Proof. revert a. induction l as [|c l IH]; intros a; cbn [wr_bytes]; sims_with ltac:(apply IH). Qed.

Lemma sim_copy dst src n : sim (copy dst src n) (copy dst src n).
Proof. unfold copy. sims_with ltac:(apply sim_rd_bytes || apply sim_wr_bytes). Qed.

Lemma sim_strcmp_at p name : sim (strcmp_at p name) (strcmp_at p name).
Proof. revert p. induction name as [|q name IH]; intros p; cbn [strcmp_at]; sims_with ltac:(apply IH). Qed.

Lemma sim_diskaddr b : sim (diskaddr b) (diskaddr b).
Proof. unfold diskaddr. sims. Qed.

Lemma sim_block_is_free b : sim (block_is_free b) (block_is_free b).
Proof. unfold block_is_free, block_is_free_at. sims. Qed.

Lemma sim_check_super : sim check_super check_super.
Proof. unfold check_super. sims. Qed.

Lemma sim_check_bitmap_loop n i : sim (check_bitmap_loop n i) (check_bitmap_loop n i).
Proof. revert i. induction n as [|n IH]; intros i; cbn [check_bitmap_loop]; sims_with ltac:(apply IH || apply sim_block_is_free). Qed.

Lemma sim_check_bitmap : sim (check_bitmap fuel) (check_bitmap fuel).
Proof. unfold check_bitmap. sims_with ltac:(apply sim_check_bitmap_loop || apply sim_block_is_free). Qed.

Lemma sim_free_block b : sim (free_block b) (free_block b).
Proof. unfold free_block. sims. Qed.

Lemma sim_alloc_loop n b : sim (alloc_loop n b) (alloc_loop n b).
Proof. revert b. induction n as [|n IH]; intros b; cbn [alloc_loop]; sims_with ltac:(apply IH). Qed.

Lemma sim_alloc_block : sim (alloc_block fuel) (alloc_block fuel).
Proof. apply sim_alloc_loop. Qed.

Lemma sim_file_block_walk f n alloc : sim (file_block_walk fuel f n alloc) (file_block_walk fuel f n alloc).
Proof. unfold file_block_walk. sims_with ltac:(apply sim_alloc_block || apply sim_diskaddr). Qed.

Lemma sim_file_get_block f n : sim (file_get_block fuel f n) (file_get_block fuel f n).
Proof.
  unfold file_get_block.
  sims_with ltac:(apply sim_alloc_block || apply sim_diskaddr || apply sim_file_block_walk
    || match goal with o : option Z |- _ => destruct o end).
Qed.

Lemma sim_find_entry test1 test2 n f :
  (forall f, sim (test1 f) (test2 f)) -> sim (find_entry test1 n f) (find_entry test2 n f).
Proof. intros H. revert f. induction n as [|n IH]; intros f; cbn [find_entry]; sims_with ltac:(apply IH || apply H). Qed.

Lemma sim_find_in_blocks test1 test2 n dir i :
  (forall f, sim (test1 f) (test2 f)) ->
  sim (find_in_blocks fuel test1 n dir i) (find_in_blocks fuel test2 n dir i).
Proof.
  intros H. revert i. induction n as [|n IH]; intros i; cbn [find_in_blocks];
    sims_with ltac:(apply IH || apply sim_file_get_block || (apply sim_find_entry; exact H)).
Qed.

Lemma sim_dir_nblock dir : sim (dir_nblock dir) (dir_nblock dir).
Proof. unfold dir_nblock. sims. Qed.

Lemma sim_dir_lookup dir name : sim (dir_lookup fuel dir name) (dir_lookup fuel dir name).
Proof.
  unfold dir_lookup. sims_with ltac:(apply sim_dir_nblock || apply sim_strcmp_at || (apply sim_find_in_blocks; intros ?)).
Qed.

Lemma sim_dir_alloc_file dir : sim (dir_alloc_file fuel dir) (dir_alloc_file fuel dir).
Proof.
  unfold dir_alloc_file. sims_with ltac:(apply sim_dir_nblock || apply sim_file_get_block || (apply sim_find_in_blocks; intros ?)).
Qed.

Lemma sim_skip_slash n p : sim (skip_slash n p) (skip_slash n p).
Proof. revert p. induction n as [|n IH]; intros p; cbn [skip_slash]; sims_with ltac:(apply IH). Qed.

Lemma sim_skip_name n p : sim (skip_name n p) (skip_name n p).
Proof. revert p. induction n as [|n IH]; intros p; cbn [skip_name]; sims_with ltac:(apply IH). Qed.

Lemma sim_walk_loop n path dir f : sim (walk_loop fuel n path dir f) (walk_loop fuel n path dir f).
Proof.
  revert path dir f. induction n as [|n IH]; intros path dir f; cbn [walk_loop];
    sims_with ltac:(apply IH || apply sim_skip_name || apply sim_skip_slash || apply sim_rd_bytes || apply sim_dir_lookup).
Qed.

Lemma sim_walk_path path : sim (walk_path fuel path) (walk_path fuel path).
Proof. unfold walk_path. sims_with ltac:(apply sim_skip_slash || apply sim_walk_loop). Qed.

Lemma sim_file_flush_loop n f i : sim (file_flush_loop fuel n f i) (file_flush_loop fuel n f i).
Proof.
  revert i. induction n as [|n IH]; intros i; cbn [file_flush_loop];
    sims_with ltac:(apply IH || apply sim_file_block_walk || apply sim_diskaddr || match goal with o : option Z |- _ => destruct o end).
Qed.

Lemma sim_file_flush f : sim (file_flush fuel f) (file_flush fuel f).
Proof. unfold file_flush. sims_with ltac:(apply sim_file_flush_loop || apply sim_diskaddr). Qed.

Lemma sim_fs_sync_loop n i : sim (fs_sync_loop n i) (fs_sync_loop n i).
Proof. revert i. induction n as [|n IH]; intros i; cbn [fs_sync_loop]; sims_with ltac:(apply IH || apply sim_diskaddr). Qed.

Lemma sim_file_create path : sim (file_create fuel path) (file_create fuel path).
Proof.
  unfold file_create.
  sims_with ltac:(apply sim_walk_path || apply sim_dir_alloc_file || apply sim_wr_bytes || apply sim_file_flush).
Qed.

Lemma sim_file_open path : sim (file_open fuel path) (file_open fuel path).
Proof. unfold file_open. sims_with ltac:(apply sim_walk_path). Qed.

Lemma sim_transfer move1 move2 n f buf pos offset count :
  (forall a b n, sim (move1 a b n) (move2 a b n)) ->
  sim (transfer fuel move1 n f buf pos offset count) (transfer fuel move2 n f buf pos offset count).
Proof.
  intros H. revert buf pos. induction n as [|n IH]; intros buf pos; cbn [transfer];
    sims_with ltac:(apply IH || apply H || apply sim_file_get_block).
Qed.

Lemma sim_file_read f buf count offset : sim (file_read fuel f buf count offset) (file_read fuel f buf count offset).
Proof. unfold file_read. sims_with ltac:(apply sim_transfer; intros; apply sim_copy). Qed.

Lemma sim_file_free_block f n : sim (file_free_block fuel f n) (file_free_block fuel f n).
Proof.
  unfold file_free_block.
  sims_with ltac:(apply sim_file_block_walk || apply sim_free_block || match goal with o : option Z |- _ => destruct o end).
Qed.

Lemma sim_for_n n a (body1 : Z -> M (srv D) unit) body2 :
  (forall i, sim (body1 i) (body2 i)) -> sim (for_n n a body1) (for_n n a body2).
Proof. intros H. revert a. induction n as [|n IH]; intros a; cbn [for_n]; sims_with ltac:(apply IH || apply H). Qed.

Lemma sim_file_truncate_blocks f n : sim (file_truncate_blocks fuel f n) (file_truncate_blocks fuel f n).
Proof.
  unfold file_truncate_blocks.
  sims_with ltac:((apply sim_for_n; intros ?) || apply sim_file_free_block || apply sim_free_block).
Qed.

Lemma sim_file_set_size f n : sim (file_set_size fuel f n) (file_set_size fuel f n).
Proof. unfold file_set_size. sims_with ltac:(apply sim_file_truncate_blocks). Qed.

Lemma sim_file_write f buf count offset : sim (file_write fuel f buf count offset) (file_write fuel f buf count offset).
Proof. unfold file_write. sims_with ltac:(apply sim_file_set_size || (apply sim_transfer; intros; apply sim_copy)). Qed.
End FsSim.

(** ** The server *)

Section ServSim.
Context {D : Type} {HD : Disk D} {HPg : Pager}.
Hypothesis pages : forall pn, page_ok pn = true.
Context (fuel : nat) (path : Z).

(** The same table and counts, over a cache coherent with the flat store. *)
Record sees (s : serv (srv D)) (t : serv mem) : Prop := {
  se_coherent : coherent s.(se_store) t.(se_store);
  se_tab : s.(opentab) = t.(opentab);
  se_refs : s.(fd_refs) = t.(fd_refs);
}.

Definition ssim {A} (c : M (serv (srv D)) A) (f : M (serv mem) A) : Prop := forall s t,
  sees s t ->
  match f t with
  | Ret a t' => exists s', c s = Ret a s' /\ sees s' t'
  | Panic t' => exists s', c s = Panic s' /\ sees s' t'
  | _ => True
  end.

Lemma ssim_run {A} (c : M (serv (srv D)) A) f s t a t' :
  ssim c f -> sees s t -> f t = Ret a t' -> exists s', c s = Ret a s' /\ sees s' t'.
Proof. intros H C E. specialize (H s t C). by rewrite E in H. Qed.

Lemma ssim_ret {A} (a : A) : ssim (ret a) (ret a).
Proof. intros s t H. by exists s. Qed.

Lemma ssim_bind {A B} (c : M (serv (srv D)) A) f (k : A -> M (serv (srv D)) B) g :
  ssim c f -> (forall a, ssim (k a) (g a)) -> ssim (bind c k) (bind f g).
Proof.
  intros Hc Hk s t H. unfold bind. specialize (Hc s t H). destruct (f t) as [a t'|t'|t'|e t'|t'|t'|]; try done.
  - destruct Hc as (s' & -> & H'). by apply Hk.
  - destruct Hc as (s' & -> & H'). by exists s'.
Qed.

Lemma ssim_if {A} (b : bool) (c d : M (serv (srv D)) A) f g : ssim c f -> ssim d g -> ssim (if b then c else d) (if b then f else g).
Proof. by destruct b. Qed.

Lemma ssim_fs {A} (c : M (srv D) A) f : sim c f -> ssim (fs c) (fs f).
Proof.
  intros Hc s t [C T R]. unfold fs, zoom. specialize (Hc _ _ C). destruct (f t.(se_store)) as [a t'|t'|t'|e t'|t'|t'|]; try done;
    destruct Hc as (s' & -> & C'); eexists; (split; [reflexivity|by split]).
Qed.

Lemma ssim_entry i : ssim (entry i) (entry i).
Proof. intros s t H. unfold entry. rewrite (se_tab _ _ H). destruct (_ !! _); [|done]. by exists s. Qed.

Lemma ssim_put_entry i o : ssim (put_entry i o) (put_entry i o).
Proof. intros s t [C T R]. eexists. split; [reflexivity|]. split; [done| |done]. cbn [set_tab opentab]. by rewrite T. Qed.

Lemma ssim_pageref va : ssim (pageref va) (pageref va).
Proof. intros s t H. exists s. split; [|done]. unfold pageref, gets. by rewrite (se_refs _ _ H). Qed.

Lemma ssim_fd_page_alloc va : ssim (fd_page_alloc va) (fd_page_alloc va).
Proof.
  intros s t H. unfold fd_page_alloc. destruct (page_ok (PGNUM va)); [|by exists s]. destruct H as [C T R].
  eexists. split; [reflexivity|]. split; [done|done|]. cbn [set_refs fd_refs]. by rewrite R.
Qed.

(** Walk down a handler on the two stores. *)
Ltac ssims_with h :=
  repeat
    (cbn beta iota zeta;
     lazymatch goal with
     | |- ssim (bind _ _) _ =>
         apply ssim_bind; [|let x := fresh "x" in intros x; try (lazymatch type of x with prod _ _ => destruct x | option _ => destruct x end)]
     | |- ssim (ret _) _ => apply ssim_ret
     | |- ssim (if _ then _ else _) _ => apply ssim_if
     | |- ssim (fs _) _ => apply ssim_fs
     | |- ssim (entry _) _ => apply ssim_entry
     | |- ssim (put_entry _ _) _ => apply ssim_put_entry
     | |- ssim (pageref _) _ => apply ssim_pageref
     | |- ssim (fd_page_alloc _) _ => apply ssim_fd_page_alloc
     | |- sim (rd32 _) _ => apply (sim_rd32 pages)
     | |- sim (wr32 _ _) _ => apply (sim_wr32 pages)
     | |- sim (wr8 _ _) _ => apply (sim_wr8 pages)
     | |- sim (wr_bytes _ _) _ => apply (sim_wr_bytes pages)
     | |- sim (copy _ _ _) _ => apply (sim_copy pages)
     | |- sim (file_create _ _) _ => apply (sim_file_create pages)
     | |- sim (file_open _ _) _ => apply (sim_file_open pages)
     | |- sim (file_set_size _ _ _) _ => apply (sim_file_set_size pages)
     | |- sim (file_read _ _ _ _ _) _ => apply (sim_file_read pages)
     | |- sim (file_write _ _ _ _ _) _ => apply (sim_file_write pages)
     | |- sim (file_flush _ _) _ => apply (sim_file_flush pages)
     | |- _ => h
     end).

Lemma ssim_take_entry i : ssim (take_entry i) (take_entry i).
Proof. unfold take_entry. ssims_with fail. Qed.

Lemma ssim_openfile_loop n i : ssim (openfile_loop n i) (openfile_loop n i).
Proof.
  revert i. induction n as [|n IH]; intros i; cbn [openfile_loop]; ssims_with ltac:(apply ssim_take_entry || apply IH).
Qed.

Lemma ssim_lookup id : ssim (openfile_lookup id) (openfile_lookup id).
Proof. unfold openfile_lookup. ssims_with fail. Qed.

Lemma ssim_serve_open req : ssim (serve_open fuel path req) (serve_open fuel path req).
Proof. unfold serve_open, openfile_alloc. ssims_with ltac:(apply ssim_openfile_loop). Qed.

Lemma ssim_serve_set_size req : ssim (serve_set_size fuel req) (serve_set_size fuel req).
Proof. unfold serve_set_size. ssims_with ltac:(apply ssim_lookup). Qed.

Lemma ssim_serve_read req : ssim (serve_read fuel req) (serve_read fuel req).
Proof. unfold serve_read. ssims_with ltac:(apply ssim_lookup). Qed.

Lemma ssim_serve_write req : ssim (serve_write fuel req) (serve_write fuel req).
Proof. unfold serve_write. ssims_with ltac:(apply ssim_lookup). Qed.

Lemma sim_strcpy_at n dst src : sim (strcpy_at n dst src) (strcpy_at n dst src).
Proof.
  revert dst src. induction n as [|n IH]; intros dst src; cbn [strcpy_at]; [apply sim_fuel|].
  apply sim_bind; [by apply sim_rd8|]. intros c. apply sim_bind; [by apply sim_wr8|]. intros _. apply sim_if; [apply sim_ret|apply IH].
Qed.

Lemma ssim_serve_stat req : ssim (serve_stat fuel req) (serve_stat fuel req).
Proof. unfold serve_stat. ssims_with ltac:(apply ssim_lookup || apply sim_strcpy_at). Qed.

Lemma ssim_serve_flush req : ssim (serve_flush fuel req) (serve_flush fuel req).
Proof. unfold serve_flush. ssims_with ltac:(apply ssim_lookup). Qed.

Lemma ssim_serve_sync : ssim (serve_sync fuel) (serve_sync fuel).
Proof. unfold serve_sync, fs_sync. ssims_with ltac:(apply (sim_fs_sync_loop pages)). Qed.

(** Every request is answered alike. *)
Lemma ssim_serve_one req perm : ssim (serve_one fuel path req perm) (serve_one fuel path req perm).
Proof.
  unfold serve_one. apply ssim_if; [apply ssim_ret|]. apply ssim_if.
  { apply ssim_bind; [apply ssim_serve_open|]. intros [r [[p q]|]]; apply ssim_ret. }
  destruct (req <? NHANDLERS); [|apply ssim_ret]. unfold handlers.
  repeat lazymatch goal with
    | |- context [if req =? ?k then _ else _] => destruct (req =? k)
    end; cbn iota; try apply ssim_ret;
  (apply ssim_bind; [|intros; apply ssim_ret]);
  [apply ssim_serve_read|apply ssim_serve_stat|apply ssim_serve_flush|apply ssim_serve_write|apply ssim_serve_set_size|apply ssim_serve_sync].
Qed.
End ServSim.
