(* ===== verification/ServTab.v ===== *)
(** The table of open files: file ids are handed out once, and a stale one is refused. *)

From stdpp Require Import gmap.
From S2P Require Import Prelude Mmu Mem Bc Fs Serv.

Section Tab.
Context {S : Type} {HS : Store S} {HPg : Pager}.
Context (fuel : nat) (path : Z).

(** ** The shape of the table *)

Definition tab_ok (t : list OpenFile) : Prop :=
  length t = Z.to_nat MAXOPEN /\
  forall i o, 0 <= i < MAXOPEN -> t !! Z.to_nat i = Some o ->
    o.(o_fileid) mod MAXOPEN = i /\ 0 <= o.(o_fileid) < 2 ^ 32 /\ o.(o_fd) = FILEVA + i * PGSIZE.

Definition refs (s : serv S) (va : Z) : Z := default 0 (s.(fd_refs) !! va).

(** What [serve_init] leaves. *)
Definition opened (t : list OpenFile) : list OpenFile :=
  imap (fun i o => mkOpen (Z.of_nat i) o.(o_file) o.(o_mode) (FILEVA + Z.of_nat i * PGSIZE)) t.

Lemma serve_init_run (s : serv S) :
  length s.(opentab) = Z.to_nat MAXOPEN -> serve_init s = Ret tt (set_tab (opened s.(opentab)) s).
Proof.
  intros Hl. unfold serve_init.
  assert (forall n k t, length t = Z.to_nat MAXOPEN -> (k + n = Z.to_nat MAXOPEN)%nat ->
    (forall i, (i < k)%nat -> t !! i = opened s.(opentab) !! i) -> (forall i, (k <= i)%nat -> t !! i = s.(opentab) !! i) ->
    for_n n (Z.of_nat k) (fun i => let* o := entry i in put_entry i (mkOpen i o.(o_file) o.(o_mode) (u32 (FILEVA + i * PGSIZE)))) (set_tab t s)
      = Ret tt (set_tab (opened s.(opentab)) s)) as H.
  { induction n as [|n IH]; intros k t Ht Hk Hlow Hhigh; cbn [for_n].
    - unfold ret. do 2 f_equal. apply list_eq. intros i. destruct (decide (i < k)%nat); [by apply Hlow|].
      rewrite !lookup_ge_None_2; [done| |lia]. unfold opened. rewrite length_imap. lia.
    - assert (exists o, s.(opentab) !! k = Some o) as [o Ho] by (apply lookup_lt_is_Some; lia).
      erewrite bind_ret.
      2: { erewrite bind_ret; [reflexivity|]. unfold entry. cbn [set_tab opentab].
           by rewrite Nat2Z.id, (Hhigh k), Ho by lia. }
      cbn [set_tab opentab se_store fd_refs]. replace (Z.of_nat k + 1) with (Z.of_nat (Datatypes.S k)) by lia.
      rewrite Nat2Z.id. apply (IH (Datatypes.S k) (<[k := _]> t)); [by rewrite length_insert|lia|..].
      + intros i Hi. destruct (decide (i = k)) as [->|]; [|rewrite list_lookup_insert_ne by done; apply Hlow; lia].
        rewrite list_lookup_insert_eq by lia. unfold opened. rewrite list_lookup_imap, Ho. cbn [fmap option_fmap option_map].
        rewrite u32_small; [done|]. unfold FILEVA, PGSIZE. change (Z.to_nat MAXOPEN) with 1024%nat in *. lia.
      + intros i Hi. rewrite list_lookup_insert_ne by lia. apply Hhigh. lia. }
  specialize (H (Z.to_nat MAXOPEN) 0%nat s.(opentab) Hl eq_refl). destruct s as [st t r]. cbn [opentab set_tab se_store fd_refs] in *.
  apply H; [lia|done].
Qed.

Lemma opened_ok t : length t = Z.to_nat MAXOPEN -> tab_ok (opened t).
Proof.
  intros Hl. split; [unfold opened; by rewrite length_imap|]. intros i o Hi Ho. unfold opened in Ho.
  rewrite list_lookup_imap in Ho. destruct (t !! Z.to_nat i) as [o'|]; [|discriminate]. injection Ho as <-. cbn [o_fileid o_fd].
  rewrite Z2Nat.id by lia. unfold MAXOPEN in *. rewrite Z.mod_small by lia. repeat split; lia.
Qed.

(** ** What the handlers do to the table *)

(** A computation that only touches the store. *)
Definition quiet {A} (c : M (serv S) A) : Prop := forall s a s',
  c s = Ret a s' -> s'.(opentab) = s.(opentab) /\ s'.(fd_refs) = s.(fd_refs).

Lemma quiet_ret {A} (a : A) : quiet (ret a).
Proof. intros s a' s' [= <- <-]. done. Qed.

Lemma quiet_bind {A B} (c : M (serv S) A) (k : A -> M (serv S) B) : quiet c -> (forall a, quiet (k a)) -> quiet (bind c k).
Proof.
  intros Hc Hk s b s' H. apply bind_inv in H as (a & s1 & H1 & H2). apply Hc in H1 as [<- <-]. by apply Hk in H2.
Qed.

Lemma quiet_if {A} (b : bool) (c d : M (serv S) A) : quiet c -> quiet d -> quiet (if b then c else d).
Proof. by destruct b. Qed.

Lemma quiet_fs {A} (c : M S A) : quiet (fs c).
Proof. intros s a s' H. unfold fs, zoom in H. destruct (c _); try discriminate H. by injection H as <- <-. Qed.

Lemma quiet_lookup id : quiet (openfile_lookup id).
Proof.
  intros s a s' H. unfold openfile_lookup in H. apply bind_inv in H as (o & s1 & H1 & H2). unfold entry in H1.
  destruct (_ !! _); [|discriminate]. injection H1 as <- <-. apply bind_inv in H2 as (rc & s2 & H2 & H3). injection H2 as <- <-.
  by destruct (_ || _); injection H3 as <- <-.
Qed.

Ltac quiets :=
  repeat
    (cbn beta iota zeta;
     lazymatch goal with
     | |- quiet (bind _ _) =>
         apply quiet_bind; [|let x := fresh "x" in intros x; try (lazymatch type of x with prod _ _ => destruct x | option _ => destruct x end)]
     | |- quiet (ret _) => apply quiet_ret
     | |- quiet (if _ then _ else _) => apply quiet_if
     | |- quiet (fs _) => apply quiet_fs
     | |- quiet (openfile_lookup _) => apply quiet_lookup
     end).

(** Every request but an open leaves the table alone. *)
Lemma serve_one_quiet req perm : req <> FSREQ_OPEN -> quiet (serve_one fuel path req perm).
Proof.
  intros Hr. unfold serve_one. apply quiet_if; [apply quiet_ret|]. rewrite (proj2 (Z.eqb_neq _ _)) by done.
  destruct (req <? NHANDLERS); [|apply quiet_ret]. unfold handlers.
  repeat lazymatch goal with |- context [if req =? ?k then _ else _] => destruct (req =? k) end; cbn iota; try apply quiet_ret;
    unfold serve_read, serve_write, serve_stat, serve_flush, serve_set_size, serve_sync; quiets.
Qed.

(** [serve_open] leaves the table alone or takes one entry nobody else has mapped. *)
Definition takes (s s' : serv S) (j : Z) (o o' : OpenFile) : Prop :=
  0 <= j < MAXOPEN /\ s.(opentab) !! Z.to_nat j = Some o /\ (refs s o.(o_fd) = 0 \/ refs s o.(o_fd) = 1) /\
  o'.(o_fileid) = u32 (o.(o_fileid) + MAXOPEN) /\ o'.(o_fd) = o.(o_fd) /\
  s'.(opentab) = <[Z.to_nat j := o']> s.(opentab) /\ forall va, refs s' va = if va =? o.(o_fd) then 1 else refs s va.

Definition bump (o : OpenFile) : OpenFile := mkOpen (u32 (o.(o_fileid) + MAXOPEN)) o.(o_file) o.(o_mode) o.(o_fd).

Lemma take_entry_takes j (s : serv S) r k s' o :
  take_entry j s = Ret (r, k) s' -> s.(opentab) !! Z.to_nat j = Some o -> 
  k = j /\ r = s32 (u32 (o.(o_fileid) + MAXOPEN)) /\ s'.(fd_refs) = s.(fd_refs) /\
  s'.(opentab) = <[Z.to_nat j := bump o]> s.(opentab).
Proof.
  intros H Ho. unfold take_entry in H. erewrite bind_ret in H by (unfold entry; rewrite Ho; reflexivity).
  erewrite bind_ret in H by reflexivity. apply bind_inv in H as ([] & s1 & H1 & H2). injection H2 as <- <- <-.
  apply quiet_fs in H1 as [-> ->]. done.
Qed.

Lemma openfile_loop_takes n i (s : serv S) r j s' :
  length s.(opentab) = Z.to_nat MAXOPEN -> 0 <= i -> i + Z.of_nat n <= MAXOPEN -> openfile_loop n i s = Ret (r, j) s' ->
  s' = s /\ r < 0 \/ exists o o', takes s s' j o o' /\ r = s32 o'.(o_fileid).
Proof.
  intros Hl. revert i. induction n as [|n IH]; intros i Hi Hn H; cbn [openfile_loop] in H.
  { left. by injection H as <- <- <-. }
  assert (exists o, s.(opentab) !! Z.to_nat i = Some o) as [o Ho] by (apply lookup_lt_is_Some; lia).
  erewrite bind_ret in H by (unfold entry; rewrite Ho; reflexivity).
  erewrite bind_ret in H by reflexivity. fold (refs s o.(o_fd)) in H.
  destruct (Z.eqb_spec (refs s o.(o_fd)) 0) as [E0|E0].
  - unfold bind at 1, fd_page_alloc in H. destruct (page_ok _); [|left; by injection H as <- <- <-].
    right. exists o, (bump o). change (0 <? 0) with false in H. cbv iota in H.
    apply (take_entry_takes i _ _ _ _ o) in H as (-> & Hid & Hr & Ht); [|done]. split; [|exact Hid].
    split; [lia|]. split; [done|]. split; [by left|]. split; [|split; [|split; [exact Ht|]]]; [done|done|].
    intros va. unfold refs. rewrite Hr. cbn [set_refs fd_refs]. destruct (Z.eqb_spec va o.(o_fd)) as [->|]; [by rewrite lookup_insert_eq|by rewrite lookup_insert_ne].
  - destruct (Z.eqb_spec (refs s o.(o_fd)) 1) as [E1|E1]; [|apply (IH (i + 1)); [lia..|exact H]].
    right. exists o, (bump o). apply (take_entry_takes i _ _ _ _ o) in H as (-> & Hid & Hr & Ht); [|done]. split; [|exact Hid].
    split; [lia|]. split; [done|]. split; [by right|]. split; [|split; [|split; [exact Ht|]]]; [done|done|].
    intros va. unfold refs at 1. rewrite Hr. destruct (Z.eqb_spec va o.(o_fd)) as [->|]; [exact E1|done].
Qed.

Lemma takes_quiet (s s1 s2 : serv S) j o o' :
  takes s s1 j o o' -> s2.(opentab) = s1.(opentab) -> s2.(fd_refs) = s1.(fd_refs) -> takes s s2 j o o'.
Proof. intros (H1 & H2 & H3 & H4 & H5 & H6 & H7) Et Er. unfold takes, refs in *. by rewrite Et, Er. Qed.

Lemma takes_set (s s1 s2 : serv S) j o o' o2 :
  takes s s1 j o o' -> o2.(o_fileid) = o'.(o_fileid) -> o2.(o_fd) = o'.(o_fd) ->
  s2.(opentab) = <[Z.to_nat j := o2]> s1.(opentab) -> s2.(fd_refs) = s1.(fd_refs) -> takes s s2 j o o2.
Proof.
  intros (H1 & H2 & H3 & H4 & H5 & H6 & H7) E1 E2 Et Er. unfold takes, refs in *. rewrite Et, Er, H6, list_insert_insert_eq, E1, E2.
  done.
Qed.

Lemma takes_entry (s s1 : serv S) j o o' : takes s s1 j o o' -> length s.(opentab) = Z.to_nat MAXOPEN -> entry j s1 = Ret o' s1.
Proof.
  intros (H1 & H2 & H3 & H4 & H5 & H6 & H7) Hl. unfold entry. rewrite H6, list_lookup_insert_eq; [done|].
  by apply lookup_lt_Some in H2.
Qed.

Lemma quiet_mid {A} (c : M (serv S) A) s a s' : quiet c -> c s = Ret a s' -> opentab s' = opentab s /\ fd_refs s' = fd_refs s.
Proof. intros H E. by apply H in E. Qed.

(** A step of the store inside a handler. *)
Ltac store_step H T :=
  let a := fresh "a" in let s1 := fresh "s1" in let Q := fresh "Q" in
  apply bind_inv in H as (a & s1 & Q & H); apply quiet_fs in Q as [? ?];
  apply (takes_quiet _ _ s1) in T; [|congruence..].

Lemma serve_open_takes req (s : serv S) r pg s' :
  length s.(opentab) = Z.to_nat MAXOPEN -> serve_open fuel path req s = Ret (r, pg) s' ->
  (pg = None /\ s'.(opentab) = s.(opentab) /\ s'.(fd_refs) = s.(fd_refs)) \/
  exists j o o', takes s s' j o o' /\
    (pg = None \/ r = 0 /\ o'.(o_fileid) < 2 ^ 31 /\ pg = Some (o.(o_fd), Z.lor (Z.lor (Z.lor PTE_P PTE_U) PTE_W) PTE_SHARE)).
Proof.
  intros Hl H. unfold serve_open in H.
  apply bind_inv in H as ([] & s1 & Q1 & H). apply quiet_fs in Q1 as [T1 R1].
  apply bind_inv in H as ([] & s2 & Q2 & H). apply quiet_fs in Q2 as [T2 R2].
  apply bind_inv in H as ([r0 j] & s3 & A & H). cbv beta iota in H.
  apply openfile_loop_takes in A; [|congruence|lia|by vm_compute].
  assert (opentab s2 = opentab s /\ fd_refs s2 = fd_refs s) as [T R] by (split; congruence). clear T1 R1 T2 R2 s1.
  destruct A as [[-> Hr]|(o & o' & A & Hr)].
  { rewrite (proj2 (Z.ltb_lt _ _) Hr) in H. injection H as <- <- <-. by left. }
  right. exists j, o.
  assert (takes s s3 j o o') as A1. { unfold takes, refs in *. by rewrite T, R in A. }
  clear A T R s2. destruct (Z.ltb_spec r0 0) as [Hneg|Hpos]; [injection H as <- <- <-; exists o'; by split; [|left]|].
  store_step H A1. apply bind_inv in H as ([r1 f] & s5 & Q & H). cbv beta iota in H.
  apply quiet_mid in Q as [? ?]; [|quiets]. apply (takes_quiet _ _ s5) in A1; [|done..].
  destruct (r1 <? 0); [injection H as <- <- <-; exists o'; by split; [|left]|].
  store_step H A1. apply bind_inv in H as (r2 & s6 & Q & H).
  apply quiet_mid in Q as [? ?]; [|quiets]. apply (takes_quiet _ _ s6) in A1; [|done..].
  destruct (r2 <? 0); [injection H as <- <- <-; exists o'; by split; [|left]|].
  apply bind_inv in H as ([r3 f'] & s7 & Q & H). apply quiet_fs in Q as [? ?]. apply (takes_quiet _ _ s7) in A1; [|done..].
  cbv beta iota in H. destruct (r3 <? 0); [injection H as <- <- <-; exists o'; by split; [|left]|].
  erewrite bind_ret in H by (by apply (takes_entry s s7 j o o')). erewrite bind_ret in H by reflexivity.
  apply (takes_set _ _ (set_tab (<[Z.to_nat j := mkOpen o'.(o_fileid) f' o'.(o_mode) o'.(o_fd)]> s7.(opentab)) s7) j o o'
    (mkOpen o'.(o_fileid) f' o'.(o_mode) o'.(o_fd))) in A1; [|done..].
  do 5 store_step H A1. erewrite bind_ret in H by reflexivity. injection H as <- <- <-. eexists. split.
  - eapply takes_set; [exact A1| | |reflexivity|reflexivity]; reflexivity.
  - right. split; [done|]. destruct A1 as (_ & _ & _ & Hid & Hfd & _). cbn [o_fileid o_fd] in *. split; [|by rewrite Hfd].
    pose proof (u32_range (o.(o_fileid) + MAXOPEN)). rewrite Hid in *. unfold s32 in Hr. rewrite u32_idem in Hr. revert Hr. bcase; lia.
Qed.

(** ** The server and its clients *)

(** The last entry of the log that has the slot. *)
Definition last_open (h : list (Z * Z)) (slot : Z) : option (Z * Z) :=
  List.find (fun p => p.1 mod MAXOPEN =? slot) h.

(** The file an Fd page stands for, for the log. *)
Definition named_by (s : serv S) (pg : Z) : option (Z * Z) :=
  (fun o => (o.(o_fileid), o.(o_file))) <$> s.(opentab) !! Z.to_nat ((pg - FILEVA) / PGSIZE).

(** The server answers a request; when it hands out an Fd page the client maps it, or does
    not take it.  Clients that have an Fd page mapped may map it again or unmap it, and write
    to pages they share with the server.  The log lists the ids handed out with the files. *)
Inductive serv_step : serv S * list (Z * Z) -> serv S * list (Z * Z) -> Prop :=
  | step_other req perm s s' rep h :
      req <> FSREQ_OPEN -> serve_one fuel path req perm s = Ret rep s' -> serv_step (s, h) (s', h)
  | step_open_declined perm s s' rep h :
      serve_one fuel path FSREQ_OPEN perm s = Ret rep s' -> serv_step (s, h) (s', h)
  | step_open_taken perm s s' rep p h :
      serve_one fuel path FSREQ_OPEN perm s = Ret (Some rep) s' -> rep.(re_pg) <> 0 ->
      named_by s' rep.(re_pg) = Some p ->
      serv_step (s, h) (set_refs rep.(re_pg) 2 s', p :: h)
  | step_map va s h : 2 <= refs s va -> serv_step (s, h) (set_refs va (refs s va + 1) s, h)
  | step_unmap va s h : 2 <= refs s va -> serv_step (s, h) (set_refs va (refs s va - 1) s, h)
  | step_write st s h : serv_step (s, h) (set_store st s, h).

(** From the table as [serve_init] leaves it, with no Fd page mapped. *)
Inductive served : serv S * list (Z * Z) -> Prop :=
  | served_init s s' :
      length s.(opentab) = Z.to_nat MAXOPEN -> s.(fd_refs) = ∅ -> serve_init s = Ret tt s' -> served (s', [])
  | served_step x y : served x -> serv_step x y -> served y.

(** An entry whose Fd page a client has stands for the last open of its slot. *)
Definition log_ok (s : serv S) (h : list (Z * Z)) : Prop :=
  tab_ok s.(opentab) /\
  forall i o, 0 <= i < MAXOPEN -> s.(opentab) !! Z.to_nat i = Some o -> 2 <= refs s o.(o_fd) ->
    last_open h i = Some (o.(o_fileid), o.(o_file)).

Lemma refs_set (s : serv S) va n va' : refs (set_refs va n s) va' = if va' =? va then n else refs s va'.
Proof.
  unfold refs. cbn [set_refs fd_refs]. destruct (Z.eqb_spec va' va) as [->|]; [by rewrite lookup_insert_eq|by rewrite lookup_insert_ne].
Qed.

Lemma log_ok_same s s' h :
  log_ok s h -> s'.(opentab) = s.(opentab) -> (forall va, 2 <= refs s' va -> 2 <= refs s va) -> log_ok s' h.
Proof. intros [H1 H2] Et Hr. unfold log_ok. rewrite Et. split; [done|]. intros i o Hi Ho H. apply H2; auto. Qed.

Lemma takes_tab s s' j o o' : takes s s' j o o' -> tab_ok s.(opentab) -> tab_ok s'.(opentab).
Proof.
  intros (Hj & Ho & _ & Hid & Hfd & Ht & _) [Hl H]. rewrite Ht. split; [by rewrite length_insert|]. intros i x Hi Hx.
  destruct (Z.eq_dec i j) as [->|Hne]; [|rewrite list_lookup_insert_ne in Hx by lia; by apply H].
  rewrite list_lookup_insert_eq in Hx by (by apply lookup_lt_Some in Ho). injection Hx as <-.
  destruct (H j o Hj Ho) as (H1 & H2 & H3). rewrite Hid, Hfd. split; [|split; [apply u32_range|done]].
  unfold u32, MAXOPEN in *. zdm.
Qed.

(** Taking an entry keeps the others' log; the taken one is not shared. *)
Lemma takes_log s s' j o o' h : takes s s' j o o' -> log_ok s h -> log_ok s' h.
Proof.
  intros T [Hok H]. split; [by apply (takes_tab s s' j o o')|]. destruct T as (Hj & Ho & _ & Hid & Hfd & Ht & Hr).
  intros i x Hi Hx H2. rewrite Hr in H2. destruct (Z.eqb_spec x.(o_fd) o.(o_fd)) as [|Hne]; [lia|].
  rewrite Ht in Hx. destruct (Z.eq_dec i j) as [->|Hij].
  - rewrite list_lookup_insert_eq in Hx by (by apply lookup_lt_Some in Ho). by injection Hx as <-.
  - rewrite list_lookup_insert_ne in Hx by lia. by apply H.
Qed.

(** Sharing a taken entry logs it. *)
Lemma takes_share s s' j o o' h :
  takes s s' j o o' -> log_ok s h -> log_ok (set_refs o.(o_fd) 2 s') ((o'.(o_fileid), o'.(o_file)) :: h).
Proof.
  intros T Hlog. pose proof (takes_log s s' j o o' h T Hlog) as [Hok H]. split; [done|].
  destruct T as (Hj & Ho & _ & Hid & Hfd & Ht & Hr). cbn [set_refs opentab]. intros i x Hi Hx H2.
  assert (s'.(opentab) !! Z.to_nat j = Some o') as Ho' by (rewrite Ht; apply list_lookup_insert_eq; by apply lookup_lt_Some in Ho).
  destruct (proj2 Hok j o' Hj Ho') as (J1 & J2 & J3). destruct (proj2 Hok i x Hi Hx) as (I1 & I2 & I3).
  unfold last_open. cbn [List.find fst]. destruct (Z.eqb_spec (o'.(o_fileid) mod MAXOPEN) i) as [E|E].
  - assert (i = j) as -> by congruence. rewrite Ho' in Hx. by injection Hx as <-.
  - apply H; [done|done|]. rewrite refs_set in H2. destruct (Z.eqb_spec x.(o_fd) o.(o_fd)) as [Ef|]; [|done].
    exfalso. apply E. rewrite J1. unfold PGSIZE in *. lia.
Qed.

Lemma serve_open_answer perm (s : serv S) rep s' :
  length s.(opentab) = Z.to_nat MAXOPEN -> serve_one fuel path FSREQ_OPEN perm s = Ret rep s' ->
  (s'.(opentab) = s.(opentab) /\ s'.(fd_refs) = s.(fd_refs) /\ (forall q, rep = Some q -> q.(re_pg) = 0)) \/
  exists j o o', takes s s' j o o' /\ (forall q, rep = Some q -> q.(re_pg) = 0 \/ q.(re_pg) = o.(o_fd)).
Proof.
  intros Hl H. unfold serve_one in H. destruct (negb _); [left; by injection H as <- <-|].
  rewrite Z.eqb_refl in H. apply bind_inv in H as ([r pg] & s1 & H1 & H). cbv beta iota in H.
  apply serve_open_takes in H1; [|done]. destruct H1 as [(-> & Et & Er)|(j & o & o' & T & [->|(_ & _ & ->)])].
  - left. injection H as <- <-. split; [done|]. split; [done|]. by intros q [= <-].
  - right. injection H as <- <-. exists j, o, o'. split; [done|]. intros q [= <-]. by left.
  - right. injection H as <- <-. exists j, o, o'. split; [done|]. intros q [= <-]. by right.
Qed.

Lemma served_log x : served x -> log_ok x.1 x.2.
Proof.
  induction 1 as [s s' Hl Hr H|x y _ IH H].
  - rewrite serve_init_run in H by done. injection H as <-. split; [by apply opened_ok|]. intros i o _ _ H2.
    unfold refs in H2. cbn [set_tab fd_refs fst] in H2. rewrite Hr, lookup_empty in H2. simpl in H2. lia.
  - destruct H as [req perm s s' rep h Hreq H|perm s s' rep h H|perm s s' rep p h H Hpg Hp|va s h H|va s h H|st s h]; cbn [fst snd] in *.
    + apply serve_one_quiet in H as [Et Er]; [|done]. apply (log_ok_same s); [done|done|]. intros va. unfold refs. by rewrite Er.
    + apply serve_open_answer in H; [|apply IH]. destruct H as [(Et & Er & _)|(j & o & o' & T & _)].
      * apply (log_ok_same s); [done|done|]. intros va. unfold refs. by rewrite Er.
      * by apply (takes_log s s' j o o').
    + apply serve_open_answer in H; [|apply IH]. destruct H as [(_ & _ & Hq)|(j & o & o' & T & Hq)].
      { by rewrite (Hq rep) in Hpg. }
      destruct (Hq rep eq_refl) as [E|E]; [congruence|]. rewrite E in *.
      assert (p = (o'.(o_fileid), o'.(o_file))) as ->; [|by apply (takes_share s s' j)].
      destruct T as (Hj & Ho & _ & _ & _ & Ht & _). unfold named_by in Hp.
      destruct (proj2 (proj1 IH) j o Hj Ho) as (_ & _ & Efd). rewrite Efd in Hp. replace ((FILEVA + j * PGSIZE - FILEVA) / PGSIZE) with j in Hp by (unfold PGSIZE; zdm).
      rewrite Ht, list_lookup_insert_eq in Hp by (by apply lookup_lt_Some in Ho). by injection Hp as <-.
    + apply (log_ok_same s); [done|done|]. intros va'. rewrite refs_set. destruct (Z.eqb_spec va' va) as [->|]; lia.
    + apply (log_ok_same s); [done|done|]. intros va'. rewrite refs_set. destruct (Z.eqb_spec va' va) as [->|]; lia.
    + by apply (log_ok_same s).
Qed.
End Tab.
