(* ===== verification/FsFlat.v ===== *)
(** The file system on the flat store: the bitmap and the block allocator. *)

From S2P Require Import Prelude Mmu Mem Ide Bc BcSim Fs.

(** The first block behind the bitmap. *)
Definition data0 (m : mem) : Z := 2 + (nblocks m + 32767) / 32768.

(** Both ends of a word can be accessed. *)
Definition word_ok (m : mem) (a : Z) : Prop := avail m a = true /\ avail m (a + 3) = true.

Ltac fsconsts := unfold SUPER, BITMAP, s_nblocks, s_root, bm_word, blk, BLKSIZE, PGSIZE, DISKMAP, DISKSIZE in *.

Lemma rd8_flat m a : sane m = true -> avail m a = true -> rd8 a m = Ret (ld8 m a) m.
Proof. intros H1 H2. cbn [rd8 flat]. unfold flat_do. by rewrite H1, H2. Qed.

Lemma wr8_flat m a v : sane m = true -> avail m a = true -> wr8 a v m = Ret tt (st8 m a v).
Proof. intros H1 H2. cbn [wr8 flat]. unfold flat_do. by rewrite H1, H2. Qed.

Lemma rd32_flat m a : sane m = true -> word_ok m a -> rd32 a m = Ret (ld32 m a) m.
Proof. intros H1 [H2 H3]. cbn [rd32 flat]. unfold flat_do. by rewrite H1, H2, H3. Qed.

Lemma wr32_flat m a v : sane m = true -> word_ok m a -> wr32 a v m = Ret tt (st32 m a v).
Proof. intros H1 [H2 H3]. cbn [wr32 flat]. unfold flat_do. by rewrite H1, H2, H3. Qed.

(** Words inside a block in use. *)
Lemma word_ok_blk m a b :
  in_use m b = true -> DISKMAP + b * BLKSIZE <= a -> a + 4 <= DISKMAP + (b + 1) * BLKSIZE -> word_ok m a.
Proof.
  intros Hu H1 H2. unfold word_ok, avail. replace (blk a) with b by (fsconsts; zdm).
  replace (blk (a + 3)) with b by (fsconsts; zdm). rewrite Hu. by rewrite !orb_true_r.
Qed.

Lemma reserved_in_use m b : sane m = true -> 0 <= b < data0 m -> in_use m b = true.
Proof.
  intros Hs Hb. destruct (sane_facts m Hs) as (Hn & H0 & H1 & H2). pose proof (in_use_facts m 1 H1) as [Hn1 _].
  destruct (Z.eq_dec b 0) as [->|]; [done|]. destruct (Z.eq_dec b 1) as [->|]; [done|]. unfold data0 in Hb.
  specialize (H2 ((b - 2) * 32768)). replace (2 + (b - 2) * 32768 / 32768) with b in H2 by zdm. apply H2. zdm.
Qed.

Lemma nblocks_ok m : sane m = true -> word_ok m (s_nblocks SUPER).
Proof.
  intros Hs. destruct (sane_facts m Hs) as (_ & _ & H1 & _). apply (word_ok_blk m _ 1 H1); fsconsts; lia.
Qed.

Lemma bitmap_ok m b : sane m = true -> 0 <= b < nblocks m -> word_ok m (bm_word BITMAP b).
Proof.
  intros Hs Hb. destruct (sane_facts m Hs) as (_ & _ & _ & H). apply (word_ok_blk m _ _ (H b Hb)); fsconsts; zdm.
Qed.

Lemma nblocks_range m : sane m = true -> 3 <= nblocks m <= 786432 /\ 3 <= data0 m <= 26 /\ data0 m <= nblocks m.
Proof.
  intros Hs. destruct (sane_facts m Hs) as (Hn & _ & H1 & H). pose proof (in_use_facts m 1 H1) as [Hn1 _].
  destruct (in_use_facts m _ (H (nblocks m - 1) ltac:(lia))) as [Hd _].
  destruct (in_use_facts m _ (H 0 ltac:(lia))) as [Hd0 _]. unfold data0. zdm.
Qed.

Lemma diskaddr_flat m b : sane m = true -> 0 < b < nblocks m -> diskaddr b m = Ret (DISKMAP + b * BLKSIZE) m.
Proof.
  intros Hs Hb. pose proof (nblocks_range m Hs). unfold diskaddr. rewrite (proj2 (Z.eqb_neq _ _)) by lia.
  erewrite bind_ret by reflexivity. change (SUPER =? 0) with false. cbv iota.
  erewrite bind_ret by (erewrite bind_ret by (by apply rd32_flat, nblocks_ok); reflexivity).
  fold (nblocks m). rewrite (proj2 (Z.leb_gt _ _)) by lia. rewrite u32_small by (fsconsts; lia). done.
Qed.

(** ** Changing one bit of the bitmap *)

Definition use (m : mem) (b : Z) : mem :=
  st32 m (bm_word BITMAP b) (Z.land (ld32 m (bm_word BITMAP b)) (Z.lnot (bm_bit b))).
Definition unuse (m : mem) (b : Z) : mem :=
  st32 m (bm_word BITMAP b) (Z.lor (ld32 m (bm_word BITMAP b)) (bm_bit b)).

(** Bytes outside the bitmap. *)
Definition off_bitmap (m : mem) (a : Z) : Prop := a < BITMAP \/ DISKMAP + data0 m * BLKSIZE <= a.

Lemma bm_word_range m b : sane m = true -> 0 <= b < nblocks m ->
  BITMAP <= bm_word BITMAP b /\ bm_word BITMAP b + 4 <= DISKMAP + data0 m * BLKSIZE.
Proof. intros Hs Hb. pose proof (nblocks_range m Hs). unfold data0 in *. fsconsts. zdm. Qed.

Lemma bitmap_ld8 m b v a :
  sane m = true -> 0 <= b < nblocks m -> off_bitmap m a -> ld8 (st32 m (bm_word BITMAP b) v) a = ld8 m a.
Proof. intros Hs Hb Ha. pose proof (bm_word_range m b Hs Hb). apply ld8_st32_ne. unfold off_bitmap in Ha. lia. Qed.

Lemma bitmap_ld32 m b v a :
  sane m = true -> 0 <= b < nblocks m -> a + 4 <= BITMAP \/ DISKMAP + data0 m * BLKSIZE <= a ->
  ld32 (st32 m (bm_word BITMAP b) v) a = ld32 m a.
Proof. intros Hs Hb Ha. pose proof (bm_word_range m b Hs Hb). apply ld32_st32_ne. lia. Qed.

Lemma bm_bit_test c b : 0 <= c -> 0 <= b -> c / 32 = b / 32 -> Z.testbit (bm_bit b) (c mod 32) = (c =? b).
Proof.
  intros Hc Hb E. unfold bm_bit. rewrite Z.shiftl_1_l. destruct (Z.eqb_spec c b) as [->|Hne].
  - apply Z.pow2_bits_true. apply Z.mod_pos_bound. lia.
  - apply Z.pow2_bits_false. zdm.
Qed.

Lemma bit_free_upd m b v c :
  0 <= b -> 0 <= c ->
  bit_free (st32 m (bm_word BITMAP b) v) c = if c / 32 =? b / 32 then Z.testbit v (c mod 32) else bit_free m c.
Proof.
  intros Hb Hc. unfold bit_free. fold (bm_word BITMAP c). rewrite ld32_st32_aligned by (fsconsts; zdm).
  destruct (Z.eqb_spec (bm_word BITMAP b) (bm_word BITMAP c)) as [E|E], (Z.eqb_spec (c / 32) (b / 32)) as [E'|E'];
    try (unfold bm_word in *; lia); [|done].
  unfold u32. apply Z.mod_pow2_bits_low. pose proof (Z.mod_pos_bound c 32). lia.
Qed.

Lemma use_bit m b c : 0 <= b -> 0 <= c -> bit_free (use m b) c = negb (c =? b) && bit_free m c.
Proof.
  intros Hb Hc. unfold use. rewrite bit_free_upd by done. destruct (Z.eqb_spec (c / 32) (b / 32)) as [E|E].
  - rewrite Z.land_spec, Z.lnot_spec by (apply Z.mod_pos_bound; lia). rewrite bm_bit_test by done.
    unfold bit_free. unfold bm_word. rewrite E. apply andb_comm.
  - destruct (Z.eqb_spec c b) as [->|]; [done|]. done.
Qed.

Lemma unuse_bit m b c : 0 <= b -> 0 <= c -> bit_free (unuse m b) c = (c =? b) || bit_free m c.
Proof.
  intros Hb Hc. unfold unuse. rewrite bit_free_upd by done. destruct (Z.eqb_spec (c / 32) (b / 32)) as [E|E].
  - rewrite Z.lor_spec. rewrite bm_bit_test by done. unfold bit_free. unfold bm_word. rewrite E. apply orb_comm.
  - destruct (Z.eqb_spec c b) as [->|]; [done|]. done.
Qed.

Lemma bitmap_nblocks m b v : sane m = true -> 0 <= b < nblocks m -> nblocks (st32 m (bm_word BITMAP b) v) = nblocks m.
Proof. intros Hs Hb. apply bitmap_ld32; [done..|]. left. fsconsts. lia. Qed.

Lemma use_in_use m b c : sane m = true -> 0 <= b < nblocks m ->
  in_use (use m b) c = in_use m c || (c =? b).
Proof.
  intros Hs Hb. unfold in_use. unfold use at 1. rewrite bitmap_nblocks by done.
  destruct (Z.leb_spec 0 c), (Z.ltb_spec c (nblocks m)); cbn [andb orb].
  - rewrite use_bit by lia. destruct (Z.eqb_spec c b); simpl; by rewrite ?orb_true_r, ?orb_false_r.
  - symmetry. apply Z.eqb_neq. lia.
  - symmetry. apply Z.eqb_neq. lia.
  - symmetry. apply Z.eqb_neq. lia.
Qed.

Lemma unuse_in_use m b c : sane m = true -> 0 <= b < nblocks m ->
  in_use (unuse m b) c = in_use m c && negb (c =? b).
Proof.
  intros Hs Hb. unfold in_use. unfold unuse at 1. rewrite bitmap_nblocks by done.
  destruct (Z.leb_spec 0 c); cbn [andb]; [|done]. rewrite unuse_bit by lia.
  rewrite negb_orb, <- andb_assoc. f_equal. apply andb_comm.
Qed.

(** Metadata stays sane as long as the reserved blocks stay in use. *)
Lemma sane_upd m m' :
  sane m = true -> nblocks m' = nblocks m -> (forall b, 0 <= b < data0 m -> in_use m' b = true) -> sane m' = true.
Proof.
  intros Hs Hn Hu. pose proof (nblocks_range m Hs) as (H1 & H2 & H3). unfold sane. rewrite Hn, !Hu by lia.
  rewrite (proj2 (Z.leb_le _ _)) by (change (DISKSIZE / BLKSIZE) with 786432; lia). cbn [andb].
  apply forallb_forall. intros i Hi%list_elem_of_In%elem_of_seqZ. change BLKBITSIZE with 32768.
  destruct (Z.leb_spec (nblocks m) (i * 32768)); [done|]. apply Hu. unfold data0. zdm.
Qed.

Lemma use_sane m b : sane m = true -> 0 <= b < nblocks m -> sane (use m b) = true.
Proof.
  intros Hs Hb. apply (sane_upd m); [done|by apply bitmap_nblocks|]. intros c Hc.
  by rewrite use_in_use, (reserved_in_use m c Hs Hc).
Qed.

Lemma unuse_sane m b : sane m = true -> data0 m <= b < nblocks m -> sane (unuse m b) = true.
Proof.
  intros Hs Hb. pose proof (nblocks_range m Hs). apply (sane_upd m); [done|apply bitmap_nblocks; [done|lia]|]. intros c Hc.
  rewrite unuse_in_use, (reserved_in_use m c Hs Hc) by (done || lia). rewrite (proj2 (Z.eqb_neq c b)) by lia. done.
Qed.

Lemma free_block_flat m b :
  sane m = true -> 0 < b < nblocks m -> free_block b m = Ret tt (unuse m b).
Proof.
  intros Hs Hb. unfold free_block. rewrite (proj2 (Z.eqb_neq _ _)) by lia. erewrite bind_ret by reflexivity.
  erewrite bind_ret by (apply rd32_flat; [done|apply bitmap_ok; [done|lia]]).
  rewrite wr32_flat; [done..|apply bitmap_ok; [done|lia]].
Qed.

(** ** The allocator *)

(** First fit: the lowest free block, or none. *)
Definition first_free (m : mem) : option Z := head (filter (fun b => bit_free m b = true) (seqZ 0 (nblocks m))).

(** What [alloc_block] does. *)
Definition alloc_spec (m : mem) : Z * mem :=
  match first_free m with
  | Some b => (b, use m b)
  | None => (- E_NO_DISK, m)
  end.

Lemma filter_none (m : mem) l : (forall c, c ∈ l -> bit_free m c = false) -> filter (fun b => bit_free m b = true) l = [].
Proof.
  intros H. induction l as [|x l IH]; [done|]. rewrite filter_cons_False.
  - apply IH. intros c Hc. apply H. by right.
  - rewrite H by left. discriminate.
Qed.

Lemma first_free_some m b :
  0 <= b < nblocks m -> bit_free m b = true -> (forall c, 0 <= c < b -> bit_free m c = false) -> first_free m = Some b.
Proof.
  intros Hb Hf Hc. unfold first_free.
  replace (nblocks m) with (b + (nblocks m - b)) by lia. rewrite seqZ_app by lia. rewrite filter_app, filter_none.
  - rewrite Z.add_0_l, seqZ_cons by lia. by rewrite filter_cons_True.
  - intros c Hin%elem_of_seqZ. apply Hc. lia.
Qed.

Lemma first_free_none m : (forall c, 0 <= c < nblocks m -> bit_free m c = false) -> first_free m = None.
Proof. intros H. unfold first_free. rewrite filter_none; [done|]. intros c Hc%elem_of_seqZ. apply H. lia. Qed.

Lemma first_free_inv m b :
  first_free m = Some b -> 0 <= b < nblocks m /\ bit_free m b = true.
Proof.
  unfold first_free. intros H.
  assert (b ∈ filter (fun b => bit_free m b = true) (seqZ 0 (nblocks m))) as Hin.
  { destruct (filter _ _); [done|]. injection H as ->. left. }
  apply list_elem_of_filter in Hin as [H1 H2%elem_of_seqZ]. split; [lia|done].
Qed.

(** A zero word has no free block. *)
Lemma zero_word m b c : ld32 m (bm_word BITMAP b) = 0 -> c / 32 = b / 32 -> bit_free m c = false.
Proof. intros H E. unfold bit_free. unfold bm_word in H. by rewrite E, H, Z.bits_0. Qed.

Lemma nonzero_test w b : nonzero (Z.land w (bm_bit b)) = Z.testbit w (b mod 32).
Proof. unfold bm_bit. apply nonzero_bit. apply Z.mod_pos_bound. lia. Qed.

(** [blockno] is at the start of its word, or the word has a free block. *)
Lemma alloc_loop_ok n m b :
  sane m = true -> 0 <= b -> (forall c, 0 <= c < b -> c < nblocks m -> bit_free m c = false) ->
  b mod 32 = 0 \/ ld32 m (bm_word BITMAP b) <> 0 -> (Z.to_nat (nblocks m - b) < n)%nat ->
  alloc_loop n b m = Ret (alloc_spec m).1 (alloc_spec m).2.
Proof.
  intros Hs. pose proof (nblocks_range m Hs) as (Hn & _). revert b. induction n as [|n IH]; intros b Hb Hlow Hal Hf; [lia|].
  cbn [alloc_loop]. erewrite bind_ret by reflexivity.
  erewrite bind_ret by by apply rd32_flat, nblocks_ok. fold (nblocks m).
  destruct (Z.ltb_spec b (nblocks m)) as [Hlt|Hge].
  2: { unfold alloc_spec. rewrite first_free_none; [done|]. intros c Hc. apply Hlow; lia. }
  erewrite bind_ret by reflexivity.
  erewrite bind_ret by (apply rd32_flat; [done|by apply bitmap_ok]). rewrite Z.lor_0_r.
  destruct (Z.eqb_spec (ld32 m (bm_word BITMAP b)) 0) as [Ez|Ez].
  - destruct Hal as [Hal|?]; [|done]. rewrite u32_small by lia. apply IH; [lia| |left; zdm|lia].
    intros c Hc Hcn. destruct (Z.lt_ge_cases c b); [apply Hlow; lia|]. apply (zero_word m b); [done|zdm].
  - rewrite nonzero_test. destruct (Z.testbit _ _) eqn:Et.
    + erewrite bind_ret by (apply wr32_flat; [done|by apply bitmap_ok]).
      erewrite bind_ret.
      2: { cbn [flush_block flat]. rewrite (proj2 (in_disk_range _)); [reflexivity|]. fsconsts. zdm. }
      unfold alloc_spec. rewrite (first_free_some m b); [|lia|done|intros c Hc; apply Hlow; lia].
      rewrite s32_small by lia. done.
    + rewrite u32_small by lia. apply IH; [lia| | |lia].
      * intros c Hc Hcn. destruct (Z.eq_dec c b) as [->|]; [done|]. apply Hlow; lia.
      * destruct (Z.eq_dec ((b + 1) mod 32) 0); [by left|]. right.
        replace (bm_word BITMAP (b + 1)) with (bm_word BITMAP b); [done|]. unfold bm_word. do 2 f_equal. zdm.
Qed.

Lemma alloc_block_flat fuel m :
  sane m = true -> (Z.to_nat (nblocks m) < fuel)%nat -> alloc_block fuel m = Ret (alloc_spec m).1 (alloc_spec m).2.
Proof.
  intros Hs Hf. apply alloc_loop_ok; [done|lia| |by left|]; [intros c Hc; lia|by rewrite Z.sub_0_r].
Qed.

(** A block that was free is behind the reserved ones. *)
Lemma free_is_data m b : sane m = true -> 0 <= b < nblocks m -> bit_free m b = true -> data0 m <= b.
Proof.
  intros Hs Hb Hf. destruct (Z.le_gt_cases (data0 m) b); [done|].
  pose proof (reserved_in_use m b Hs ltac:(lia)) as H'. apply in_use_facts in H' as [_ ?]. congruence.
Qed.

(** How many blocks are free. *)
Definition nfree (m : mem) : nat := length (filter (fun b => bit_free m b = true) (seqZ 0 (nblocks m))).

Lemma nfree_first m : (0 < nfree m)%nat -> exists b, first_free m = Some b.
Proof. unfold nfree, first_free. destruct (filter _ _); [simpl; lia|]. simpl. eauto. Qed.

Lemma filter_length_ext (m m' : mem) (l : list Z) :
  (forall c, c ∈ l -> bit_free m' c = bit_free m c) ->
  filter (fun b => bit_free m' b = true) l = filter (fun b => bit_free m b = true) l.
Proof.
  induction l as [|x l IH]; intros H; [done|]. specialize (IH ltac:(intros c Hc; apply H; by right)).
  destruct (bit_free m x) eqn:E.
  - rewrite !filter_cons_True by (rewrite ?H; done || left). by rewrite IH.
  - rewrite !filter_cons_False by (rewrite ?H, ?E; (discriminate || left)). done.
Qed.

Lemma nfree_use m b :
  sane m = true -> 0 <= b < nblocks m -> bit_free m b = true -> nfree m = S (nfree (use m b)).
Proof.
  intros Hs Hb Hf. unfold nfree. assert (nblocks (use m b) = nblocks m) as -> by by apply bitmap_nblocks.
  replace (nblocks m) with (b + (nblocks m - b)) by lia. rewrite seqZ_app by lia.
  rewrite (seqZ_cons (0 + b)) by lia. rewrite !filter_app, !length_app.
  assert (forall l : list Z, (forall c, c ∈ l -> 0 <= c /\ c <> b) ->
    filter (fun c => bit_free (use m b) c = true) l = filter (fun c => bit_free m c = true) l) as Hext.
  { intros l Hl. apply filter_length_ext. intros c Hc. destruct (Hl c Hc). rewrite use_bit by lia.
    by rewrite (proj2 (Z.eqb_neq c b)). }
  rewrite !Z.add_0_l, filter_cons_True by done. rewrite filter_cons_False by (rewrite use_bit, Z.eqb_refl by lia; discriminate).
  rewrite !Hext; [simpl; lia|..]; intros c Hc%elem_of_seqZ; lia.
Qed.
