(* ===== verification/FsFile.v ===== *)
(** Files on the flat store: the block map of a file, and reading and writing its bytes. *)

From S2P Require Import Prelude Mmu Mem Ide Bc BcSim Fs FsFlat.

Definition baddr (b : Z) : Z := DISKMAP + b * BLKSIZE.

(** A block behind the bitmap that is in use. *)
Definition data_block (m : mem) (b : Z) : Prop := data0 m <= b /\ in_use m b = true.

(** ** The block map *)

Definition ind (m : mem) (f : Z) : Z := ld32 m (f_indirect f).

(** The file has an entry for its block [n]. *)
Definition has_slot (m : mem) (f n : Z) : Prop := 0 <= n < NDIRECT + NINDIRECT /\ (n < NDIRECT \/ ind m f <> 0).

Definition slot_addr (m : mem) (f n : Z) : Z :=
  if n <? NDIRECT then f_direct f n else baddr (ind m f) + 4 * (n - NDIRECT).
Definition slot (m : mem) (f n : Z) : Z := ld32 m (slot_addr m f n).

(** The blocks of a file. *)
Definition owns (m : mem) (f b : Z) : Prop :=
  b <> 0 /\ (b = ind m f \/ exists n, has_slot m f n /\ slot m f n = b).

(** A [struct File] on the disk whose blocks are allocated, distinct, and not the block the
    structure itself is in. *)
Record file_ok (m : mem) (f : Z) : Prop := {
  fo_sane : sane m = true;
  fo_align : f mod 4 = 0;
  fo_blk : in_use m (blk f) = true;
  fo_fits : baddr (blk f) <= f /\ f + sizeof_File <= baddr (blk f + 1);
  fo_where : f = s_root SUPER \/ data0 m <= blk f;
  fo_ind : ind m f <> 0 -> data_block m (ind m f) /\ ind m f <> blk f;
  fo_slot : forall n, has_slot m f n -> slot m f n <> 0 ->
    data_block m (slot m f n) /\ slot m f n <> blk f /\ slot m f n <> ind m f;
  fo_inj : forall n k, has_slot m f n -> has_slot m f k -> slot m f n = slot m f k -> slot m f n <> 0 -> n = k;
}.

(** The byte at a position, where a block holds it. *)
Definition fbyte (m : mem) (f pos : Z) : option Z :=
  let b := slot m f (pos / BLKSIZE) in
  if b =? 0 then None else Some (ld8 m (baddr b + pos mod BLKSIZE)).

Ltac fconsts := unfold f_size, f_type, f_direct, f_indirect, sizeof_File, NDIRECT, NINDIRECT, baddr in *; fsconsts.

(** ** Stores that leave the metadata alone *)

Record same_meta (m m' : mem) : Prop := {
  sm_nb : nblocks m' = nblocks m;
  sm_bits : forall a, BITMAP <= a < baddr (data0 m) -> ld8 m' a = ld8 m a;
}.

Lemma same_meta_use m m' b : sane m = true -> same_meta m m' -> in_use m' b = in_use m b.
Proof.
  intros Hs [H1 H2]. unfold in_use. rewrite H1. destruct (Z.leb_spec 0 b), (Z.ltb_spec b (nblocks m)); cbn [andb]; try done.
  assert (ld32 m' (bm_word BITMAP b) = ld32 m (bm_word BITMAP b)) as E.
  { apply ld32_ext. intros i Hi. apply H2. pose proof (bm_word_range m b Hs ltac:(lia)). unfold baddr. lia. }
  unfold bit_free. unfold bm_word in E. by rewrite E.
Qed.

Lemma same_meta_data m m' : same_meta m m' -> data0 m' = data0 m.
Proof. intros [H _]. unfold data0. by rewrite H. Qed.

Lemma same_meta_sane m m' : sane m = true -> same_meta m m' -> sane m' = true.
Proof.
  intros Hs H. apply (sane_upd m); [done|apply H|]. intros b Hb. rewrite (same_meta_use m m') by done. by apply reserved_in_use.
Qed.

Lemma same_meta_trans m m1 m2 : same_meta m m1 -> same_meta m1 m2 -> same_meta m m2.
Proof.
  intros H H'. split; [rewrite (sm_nb _ _ H'); apply H|]. intros a Ha.
  rewrite (sm_bits _ _ H') by (rewrite (same_meta_data _ _ H); done). by apply H.
Qed.

Lemma same_meta_refl m : same_meta m m.
Proof. by split. Qed.

(** Where a store is harmless: outside the disk, in a data block, or behind the first words of
    the super block. *)
Definition harmless (m : mem) (a : Z) : Prop :=
  a < DISKMAP + BLKSIZE \/ s_root SUPER <= a < BITMAP \/ baddr (data0 m) <= a.

Lemma same_meta_ext m m' :
  sane m = true -> (forall a, ~ harmless m a -> ld8 m' a = ld8 m a) -> same_meta m m'.
Proof.
  intros Hs H. pose proof (nblocks_range m Hs). split.
  - apply ld32_ext. intros i Hi. apply H. unfold harmless. fconsts. lia.
  - intros a Ha. apply H. unfold harmless. fconsts. lia.
Qed.

Lemma harmless_st32 m a v :
  sane m = true -> (forall i, 0 <= i < 4 -> harmless m (a + i)) -> same_meta m (st32 m a v).
Proof.
  intros Hs Ha. apply same_meta_ext; [done|]. intros b Hb. apply ld8_st32_ne.
  destruct (Z.lt_ge_cases b a); [by left|]. destruct (Z.lt_ge_cases b (a + 4)); [|by right].
  exfalso. apply Hb. replace b with (a + (b - a)) by lia. apply Ha. lia.
Qed.

Lemma harmless_st_bytes m a l :
  sane m = true -> (forall i, 0 <= i < Z.of_nat (length l) -> harmless m (a + i)) -> same_meta m (st_bytes m a l).
Proof.
  intros Hs Ha. apply same_meta_ext; [done|]. intros b Hb. rewrite ld8_st_bytes.
  destruct (Z.leb_spec a b), (Z.ltb_spec b (a + Z.of_nat (length l))); cbn [andb]; try done.
  exfalso. apply Hb. replace b with (a + (b - a)) by lia. apply Ha. lia.
Qed.

Lemma harmless_data m b i : data_block m b -> 0 <= i < BLKSIZE -> harmless m (baddr b + i).
Proof. intros [H _] Hi. right. right. fconsts. lia. Qed.

Lemma avail_data m b i : data_block m b -> 0 <= i < BLKSIZE -> avail m (baddr b + i) = true.
Proof.
  intros [_ H] Hi. unfold avail. replace (blk (baddr b + i)) with b by (fconsts; zdm). by rewrite H, orb_true_r.
Qed.

(** The words of a file's structure and of its indirect block. *)
Lemma file_word m f i : file_ok m f -> 0 <= i -> i + 4 <= sizeof_File -> word_ok m (f + i).
Proof. intros H Hi Hi2. pose proof (fo_fits _ _ H). apply (word_ok_blk m _ _ (fo_blk _ _ H)); fconsts; lia. Qed.

Lemma file_harmless m f i : file_ok m f -> 0 <= i < sizeof_File -> harmless m (f + i).
Proof.
  intros H Hi. pose proof (fo_fits _ _ H). destruct (fo_where _ _ H) as [->|Hd].
  - right. left. fconsts. lia.
  - right. right. fconsts. lia.
Qed.

Lemma slot_word m f n : file_ok m f -> has_slot m f n -> word_ok m (slot_addr m f n).
Proof.
  intros H [Hn Hs]. unfold slot_addr. destruct (Z.ltb_spec n NDIRECT) as [Hlt|Hge].
  - unfold f_direct. rewrite <- Z.add_assoc. apply file_word; fconsts; done || lia.
  - destruct Hs as [?|Hi]; [lia|]. destruct (fo_ind _ _ H Hi) as [[_ Hu] _]. apply (word_ok_blk m _ _ Hu); fconsts; zdm.
Qed.

Lemma slot_harmless m f n i : file_ok m f -> has_slot m f n -> 0 <= i < 4 -> harmless m (slot_addr m f n + i).
Proof.
  intros H [Hn Hs] Hi. unfold slot_addr. destruct (Z.ltb_spec n NDIRECT) as [Hlt|Hge].
  - unfold f_direct. rewrite <- !Z.add_assoc. apply file_harmless; [done|]. fconsts. lia.
  - destruct Hs as [?|Hne]; [lia|]. destruct (fo_ind _ _ H Hne) as [Hd _]. rewrite <- Z.add_assoc.
    apply harmless_data; [done|]. fconsts. zdm.
Qed.

(** ** Changes elsewhere *)

(** The structure of [f] behind the name, and its indirect block, are the same in both. *)
Record same_file (m m' : mem) (f : Z) : Prop := {
  sf_struct : forall i, 128 <= i < sizeof_File -> ld8 m' (f + i) = ld8 m (f + i);
  sf_ind : ind m f <> 0 -> forall i, 0 <= i < BLKSIZE -> ld8 m' (baddr (ind m f) + i) = ld8 m (baddr (ind m f) + i);
}.

Lemma same_file_word m m' f i : same_file m m' f -> 128 <= i -> i + 4 <= sizeof_File -> ld32 m' (f + i) = ld32 m (f + i).
Proof. intros [H _] Hi Hi2. apply ld32_ext. intros j Hj. rewrite <- Z.add_assoc. apply H. lia. Qed.

Lemma same_file_ind m m' f : same_file m m' f -> ind m' f = ind m f.
Proof. intros H. apply same_file_word; fconsts; done || lia. Qed.

Lemma same_file_has m m' f n : same_file m m' f -> (has_slot m' f n <-> has_slot m f n).
Proof. intros H. unfold has_slot. by rewrite (same_file_ind m m' f). Qed.

Lemma same_file_slot m m' f n : same_file m m' f -> has_slot m f n -> slot m' f n = slot m f n.
Proof.
  intros H [Hn Hs]. unfold slot, slot_addr. rewrite (same_file_ind m m' f H). destruct (Z.ltb_spec n NDIRECT).
  - unfold f_direct. rewrite <- Z.add_assoc. apply same_file_word; [done|fconsts; lia..].
  - destruct Hs as [?|Hs]; [lia|]. apply ld32_ext. intros i Hi. rewrite <- Z.add_assoc. apply H; [done|]. fconsts. zdm.
Qed.

Lemma file_ok_ext m m' f :
  file_ok m f -> same_file m m' f -> sane m' = true -> nblocks m' = nblocks m ->
  (forall b, in_use m b = true -> in_use m' b = true) -> file_ok m' f.
Proof.
  intros [H1 H2 H3 H4 H5 H6 H7 H8] Hf Hs Hn Hu.
  assert (data0 m' = data0 m) as Hd by (unfold data0; by rewrite Hn).
  assert (forall b, data_block m b -> data_block m' b) as Hdb.
  { intros b [Hb1 Hb2]. split; [lia|by apply Hu]. }
  split; rewrite ?Hd; auto.
  - rewrite (same_file_ind m m' f Hf). intros Hi. destruct (H6 Hi). auto.
  - intros n Hhas. rewrite (same_file_has m m' f n Hf) in Hhas.
    rewrite (same_file_slot m m' f n Hf Hhas), (same_file_ind m m' f Hf). intros Hne. destruct (H7 n Hhas Hne). auto.
  - intros n k Hhn Hhk. rewrite (same_file_has m m' f n Hf) in Hhn. rewrite (same_file_has m m' f k Hf) in Hhk.
    rewrite (same_file_slot m m' f n Hf Hhn), (same_file_slot m m' f k Hf Hhk). by apply H8.
Qed.

(** The blocks where a file's metadata is are not in the bitmap. *)
Lemma file_off_bitmap m f i : file_ok m f -> 0 <= i < sizeof_File -> off_bitmap m (f + i).
Proof.
  intros H Hi. pose proof (fo_fits _ _ H). unfold off_bitmap. destruct (fo_where _ _ H) as [->|Hd]; fconsts; lia.
Qed.

Lemma data_off_bitmap m b i : data_block m b -> 0 <= i < BLKSIZE -> off_bitmap m (baddr b + i).
Proof. intros [H _] Hi. right. fconsts. lia. Qed.

Lemma bitmap_same_file m f b v :
  file_ok m f -> 0 <= b < nblocks m -> same_file m (st32 m (bm_word BITMAP b) v) f.
Proof.
  intros H Hb. pose proof (fo_sane _ _ H) as Hs. split.
  - intros i Hi. apply bitmap_ld8; [done..|]. apply file_off_bitmap; [done|lia].
  - intros Hne i Hi. apply bitmap_ld8; [done..|]. apply data_off_bitmap; [by apply (fo_ind _ _ H)|done].
Qed.

Lemma use_file_ok m f b : file_ok m f -> 0 <= b < nblocks m -> file_ok (use m b) f.
Proof.
  intros H Hb. pose proof (fo_sane _ _ H) as Hs.
  apply (file_ok_ext m); [done|by apply bitmap_same_file|by apply use_sane|by apply bitmap_nblocks|].
  intros c Hc. by rewrite use_in_use, Hc.
Qed.

(** ** Setting an entry of the block map *)

Lemma slot_addr_disjoint m f n k :
  file_ok m f -> has_slot m f n -> has_slot m f k -> n <> k ->
  slot_addr m f k + 4 <= slot_addr m f n \/ slot_addr m f n + 4 <= slot_addr m f k.
Proof.
  intros H [Hn Hsn] [Hk Hsk] Hne. pose proof (fo_fits _ _ H) as Hfit. unfold slot_addr.
  destruct (Z.ltb_spec n NDIRECT), (Z.ltb_spec k NDIRECT); [fconsts; lia| | |fconsts; lia].
  - destruct Hsk as [?|Hi]; [lia|]. destruct (fo_ind _ _ H Hi) as [_ Hb]. fconsts. zdm.
  - destruct Hsn as [?|Hi]; [lia|]. destruct (fo_ind _ _ H Hi) as [_ Hb]. fconsts. zdm.
Qed.

Lemma slot_addr_struct m f n i :
  file_ok m f -> has_slot m f n -> i = 128 \/ i = 132 \/ i = 176 ->
  f + i + 4 <= slot_addr m f n \/ slot_addr m f n + 4 <= f + i.
Proof.
  intros H [Hn Hsn] Hi. pose proof (fo_fits _ _ H) as Hfit. unfold slot_addr.
  destruct (Z.ltb_spec n NDIRECT); [fconsts; lia|].
  destruct Hsn as [?|Hne]; [lia|]. destruct (fo_ind _ _ H Hne) as [_ Hb]. fconsts. zdm.
Qed.

Section SetSlot.
Context (m : mem) (f n b : Z).
Hypothesis Hf : file_ok m f.
Hypothesis Hn : has_slot m f n.
Hypothesis Hempty : slot m f n = 0.
Hypothesis Hb : data_block m b.
Hypothesis Hfresh : ~ owns m f b.
Hypothesis Hfb : b <> blk f.

Definition set_slot : mem := st32 m (slot_addr m f n) b.

Lemma set_slot_meta : same_meta m set_slot.
Proof. apply harmless_st32; [apply Hf|]. intros i Hi. by apply slot_harmless. Qed.

Lemma set_slot_ind : ind set_slot f = ind m f.
Proof. unfold ind, set_slot. apply ld32_st32_ne. apply (slot_addr_struct m f n 176 Hf Hn). auto. Qed.

Lemma set_slot_has k : has_slot set_slot f k <-> has_slot m f k.
Proof. unfold has_slot. by rewrite set_slot_ind. Qed.

Lemma block_u32 : 0 < b < 2 ^ 32.
Proof.
  destruct Hb as [H1 H2]. pose proof (nblocks_range m (fo_sane _ _ Hf)). apply in_use_facts in H2 as [H2 _]. lia.
Qed.

Lemma set_slot_slot k : has_slot m f k -> slot set_slot f k = if k =? n then b else slot m f k.
Proof.
  intros Hk. unfold slot at 1. unfold slot_addr. rewrite set_slot_ind. fold (slot_addr m f k). unfold set_slot.
  destruct (Z.eqb_spec k n) as [->|Hne].
  - rewrite ld32_st32_eq. apply u32_small. pose proof block_u32. lia.
  - apply ld32_st32_ne. apply slot_addr_disjoint; auto.
Qed.

Lemma set_slot_ok : file_ok set_slot f.
Proof.
  pose proof set_slot_meta as Hm. pose proof (same_meta_data _ _ Hm) as Hd0. pose proof (fo_sane _ _ Hf) as Hs.
  assert (forall c, data_block m c -> data_block set_slot c) as Hdb.
  { intros c [Hc1 Hc2]. split; [lia|]. by rewrite (same_meta_use m). }
  assert (forall k, has_slot m f k -> slot m f k <> 0 -> slot m f k <> b) as Hnew.
  { intros k Hk Hk0 E. apply Hfresh. split; [pose proof block_u32; lia|]. right. eauto. }
  destruct Hf as [H1 H2 H3 H4 H5 H6 H7 H8].
  split; rewrite ?set_slot_ind, ?Hd0; auto.
  - by apply (same_meta_sane m).
  - by rewrite (same_meta_use m).
  - intros Hi. destruct (H6 Hi). auto.
  - intros k Hk%set_slot_has. rewrite set_slot_slot by done. destruct (Z.eqb_spec k n); [|intros Hk0; destruct (H7 k Hk Hk0); auto].
    intros _. split; [by apply Hdb|]. split; [done|]. intros E. apply Hfresh. split; [pose proof block_u32; lia|]. by left.
  - intros k j Hk%set_slot_has Hj%set_slot_has. rewrite !set_slot_slot by done.
    destruct (Z.eqb_spec k n), (Z.eqb_spec j n); subst; auto; intros E Hne.
    + exfalso. apply (Hnew j Hj); congruence.
    + exfalso. apply (Hnew k Hk); congruence.
Qed.

Lemma set_slot_owns c : owns set_slot f c -> owns m f c \/ c = b.
Proof.
  intros [Hc [E|(k & Hk & E)]]; [left; split; [done|]; left; by rewrite set_slot_ind in E|].
  apply set_slot_has in Hk. rewrite set_slot_slot in E by done. destruct (Z.eqb_spec k n); [by right|].
  left. split; [done|]. right. eauto.
Qed.
End SetSlot.

(** ** Finding and allocating blocks *)

Section Blocks.
Context (fuel : nat).

Lemma file_block_walk_flat m f n alloc :
  file_ok m f -> has_slot m f n -> file_block_walk fuel f n alloc m = Ret (0, Some (slot_addr m f n)) m.
Proof.
  intros H [Hn Hs]. pose proof (fo_sane _ _ H) as Hsane. unfold file_block_walk, slot_addr.
  rewrite (proj2 (Z.leb_gt _ _)) by lia. destruct (Z.ltb_spec n NDIRECT) as [Hlt|Hge]; [done|].
  destruct Hs as [?|Hs]; [lia|].
  erewrite bind_ret by (apply rd32_flat; [done|apply file_word; fconsts; done || lia]).
  fold (ind m f). rewrite (proj2 (Z.eqb_neq _ _)) by done. cbn [negb].
  destruct (fo_ind _ _ H Hs) as [[Hd Hu] _]. apply in_use_facts in Hu as [Hu _]. pose proof (nblocks_range m Hsane).
  erewrite bind_ret by (apply diskaddr_flat; [done|lia]). done.
Qed.

(** Reading an entry of the block map. *)
Lemma slot_rd m f n : file_ok m f -> has_slot m f n -> rd32 (slot_addr m f n) m = Ret (slot m f n) m.
Proof. intros H Hn. apply rd32_flat; [apply H|by apply slot_word]. Qed.

Lemma get_block_head {A} m f n (k : Z * option Z -> M mem A) :
  file_ok m f -> has_slot m f n ->
  bind (file_block_walk fuel f n true) k m = k (0, Some (slot_addr m f n)) m.
Proof. intros H Hn. apply bind_ret. by apply file_block_walk_flat. Qed.

Lemma get_block_there m f n :
  file_ok m f -> has_slot m f n -> slot m f n <> 0 -> file_get_block fuel f n m = Ret (0, baddr (slot m f n)) m.
Proof.
  intros H Hn Hne. pose proof (fo_sane _ _ H) as Hs. unfold file_get_block. rewrite (proj2 (Z.leb_gt _ _)) by apply Hn.
  rewrite get_block_head by done. change (u32 0 <? 0) with false. cbv iota beta zeta.
  erewrite bind_ret by by apply slot_rd. rewrite (proj2 (Z.eqb_neq _ _)) by done. cbn [negb].
  destruct (fo_slot _ _ H n Hn Hne) as [[Hd Hu] _]. apply in_use_facts in Hu as [Hu _]. pose proof (nblocks_range m Hs).
  erewrite bind_ret by (apply diskaddr_flat; [done|lia]). done.
Qed.

(** A block is allocated for a hole. *)
Definition fill (m : mem) (f n b : Z) : mem := set_slot (use m b) f n b.

Lemma fresh_block m b : sane m = true -> first_free m = Some b -> 0 < b < nblocks m /\ data0 m <= b /\ bit_free m b = true.
Proof.
  intros Hs Hb. apply first_free_inv in Hb as [H1 H2]. pose proof (free_is_data m b Hs H1 H2).
  pose proof (nblocks_range m Hs). lia || (split; [lia|done]).
Qed.

Lemma fresh_not_owned m f b : file_ok m f -> bit_free m b = true -> ~ owns m f b /\ b <> blk f.
Proof.
  intros H Hb. split.
  - intros [H0 [->|(k & Hk & <-)]].
    + destruct (fo_ind _ _ H H0) as [[_ Hu] _]. apply in_use_facts in Hu as [_ ?]. congruence.
    + destruct (fo_slot _ _ H k Hk H0) as [[_ Hu] _]. apply in_use_facts in Hu as [_ ?]. congruence.
  - intros ->. pose proof (fo_blk _ _ H) as Hu. apply in_use_facts in Hu as [_ ?]. congruence.
Qed.

(** What [fill] needs of its block, after the bit is cleared. *)
Lemma fill_facts m f n b :
  file_ok m f -> has_slot m f n -> slot m f n = 0 -> 0 <= b < nblocks m -> data0 m <= b -> bit_free m b = true ->
  let m1 := use m b in
  file_ok m1 f /\ has_slot m1 f n /\ slot m1 f n = 0 /\ data_block m1 b /\ ~ owns m1 f b /\ b <> blk f /\
  slot_addr m1 f n = slot_addr m f n /\ same_file m m1 f.
Proof.
  intros H Hn Hz Hb Hd Hf m1. pose proof (fo_sane _ _ H) as Hs.
  assert (same_file m m1 f) as Hsf by by apply bitmap_same_file.
  destruct (fresh_not_owned m f b H Hf) as [Ho Hbf].
  split; [by apply use_file_ok|]. split; [by apply (same_file_has m m1 f)|]. split; [by rewrite (same_file_slot m m1 f)|].
  split; [|split; [|split; [done|split; [|done]]]].
  - split; [unfold data0, m1, use; rewrite bitmap_nblocks by done; exact Hd|]. unfold m1. rewrite use_in_use by done.
    rewrite Z.eqb_refl. apply orb_true_r.
  - intros [H0 [E|(k & Hk & E)]]; apply Ho; (split; [done|]).
    + left. by rewrite (same_file_ind m m1 f) in E.
    + right. apply (same_file_has m m1 f) in Hk; [|done]. rewrite (same_file_slot m m1 f) in E by done. eauto.
  - unfold slot_addr. by rewrite (same_file_ind m m1 f).
Qed.

Lemma get_block_hole m f n b :
  file_ok m f -> has_slot m f n -> slot m f n = 0 -> first_free m = Some b -> (Z.to_nat (nblocks m) < fuel)%nat ->
  file_get_block fuel f n m = Ret (0, baddr b) (fill m f n b).
Proof.
  intros H Hn Hz Hb Hfuel. pose proof (fo_sane _ _ H) as Hs. unfold file_get_block. rewrite (proj2 (Z.leb_gt _ _)) by apply Hn.
  rewrite get_block_head by done. change (u32 0 <? 0) with false. cbv iota beta zeta.
  erewrite bind_ret by by apply slot_rd. rewrite Hz. change (negb (0 =? 0)) with false. cbv iota.
  erewrite bind_ret by by apply alloc_block_flat. unfold alloc_spec. rewrite Hb. cbn [fst snd].
  destruct (fresh_block m b Hs Hb) as (Hb1 & Hb2 & Hb3). pose proof (nblocks_range m Hs).
  destruct (fill_facts m f n b H Hn Hz ltac:(lia) Hb2 Hb3) as (F1 & F2 & F3 & F4 & F5 & F6 & F7 & F8).
  rewrite u32_small by lia. rewrite (proj2 (Z.ltb_ge _ _)) by lia.
  rewrite <- F7. erewrite bind_ret by (apply wr32_flat; [apply F1|by apply slot_word]).
  fold (set_slot (use m b) f n b). fold (fill m f n b).
  assert (slot_addr (use m b) f n = slot_addr (fill m f n b) f n) as ->.
  { unfold slot_addr at 2. unfold fill. by rewrite set_slot_ind. }
  assert (file_ok (fill m f n b) f) as F9 by by apply set_slot_ok.
  erewrite bind_ret by (apply slot_rd; [done|by apply set_slot_has]).
  unfold fill at 1. rewrite set_slot_slot by done. rewrite Z.eqb_refl.
  erewrite bind_ret; [reflexivity|]. apply diskaddr_flat; [apply F9|].
  unfold fill. rewrite (sm_nb _ _ (set_slot_meta _ _ _ b F1 F2)). unfold use. rewrite bitmap_nblocks by (done || lia). lia.
Qed.

(** On a full disk the error code becomes a block number, and [diskaddr] panics. *)
Lemma get_block_full m f n :
  file_ok m f -> has_slot m f n -> slot m f n = 0 -> first_free m = None -> (Z.to_nat (nblocks m) < fuel)%nat ->
  exists m', file_get_block fuel f n m = Panic m' /\ slot m' f n = 2 ^ 32 - E_NO_DISK.
Proof.
  intros H Hn Hz Hb Hfuel. pose proof (fo_sane _ _ H) as Hs. unfold file_get_block. rewrite (proj2 (Z.leb_gt _ _)) by apply Hn.
  rewrite get_block_head by done. change (u32 0 <? 0) with false. cbv iota beta zeta.
  erewrite bind_ret by by apply slot_rd. rewrite Hz. change (negb (0 =? 0)) with false. cbv iota.
  erewrite bind_ret by by apply alloc_block_flat. unfold alloc_spec. rewrite Hb. cbn [fst snd].
  change (u32 (- E_NO_DISK) <? 0) with false. cbv iota.
  erewrite bind_ret by (apply wr32_flat; [done|by apply slot_word]). change (u32 (- E_NO_DISK)) with (2 ^ 32 - E_NO_DISK).
  set (m1 := st32 m (slot_addr m f n) (2 ^ 32 - E_NO_DISK)).
  assert (same_meta m m1) as Hm. { apply harmless_st32; [done|]. intros i Hi. by apply slot_harmless. }
  pose proof (same_meta_sane _ _ Hs Hm) as Hs1.
  assert (word_ok m1 (slot_addr m f n)) as Hw.
  { destruct (slot_word m f n H Hn) as [W1 W2]. unfold word_ok, avail in *. by rewrite !(same_meta_use m m1). }
  erewrite bind_ret by by apply rd32_flat.
  assert (ld32 m1 (slot_addr m f n) = 2 ^ 32 - E_NO_DISK) as E1.
  { unfold m1. rewrite ld32_st32_eq. reflexivity. }
  rewrite E1. exists m1. split.
  - apply bind_panic. unfold diskaddr. change (2 ^ 32 - E_NO_DISK =? 0) with false. cbv iota.
    erewrite bind_ret by reflexivity. change (SUPER =? 0) with false. cbv iota.
    erewrite bind_ret by (erewrite bind_ret by (by apply rd32_flat, nblocks_ok); reflexivity). fold (nblocks m1).
    pose proof (nblocks_range m1 Hs1). rewrite (proj2 (Z.leb_le _ _)); [done|]. unfold E_NO_DISK. lia.
  - unfold slot, slot_addr. assert (ind m1 f = ind m f) as ->; [|exact E1].
    unfold ind, m1. apply ld32_st32_ne. apply (slot_addr_struct m f n 176 H Hn). auto.
Qed.
End Blocks.

(** ** What growing a file leaves alone *)

(** From [m] to [m'] only the size and the block map of [f], the bitmap, the blocks of [f] and blocks that
    were free have changed, and [f] took blocks only from the free ones. *)
Record grown (m m' : mem) (f : Z) : Prop := {
  gr_out : forall a, in_disk a = false -> ld8 m' a = ld8 m a;
  gr_nb : nblocks m' = nblocks m;
  gr_use : forall b, in_use m b = true -> in_use m' b = true;
  gr_keep : forall a, in_disk a = true -> in_use m (blk a) = true -> off_bitmap m a ->
    a < f + 128 \/ f + 132 <= a < f + 136 \/ f + sizeof_File <= a -> ~ owns m f (blk a) -> ld8 m' a = ld8 m a;
  gr_owns : forall b, owns m' f b -> owns m f b \/ in_use m b = false;
}.

Lemma grown_refl m f : grown m m f.
Proof. split; auto. Qed.

Lemma grown_trans m m1 m2 f : grown m m1 f -> grown m1 m2 f -> grown m m2 f.
Proof.
  intros [A1 A2 A3 A4 A5] [B1 B2 B3 B4 B5]. split.
  - intros a Ha. rewrite B1 by done. by apply A1.
  - congruence.
  - auto.
  - intros a H1 H2 H3 H4 H5. rewrite B4; auto.
    + unfold off_bitmap, data0 in *. by rewrite A2.
    + intros Ho. destruct (A5 _ Ho) as [?|Hf]; [done|congruence].
  - intros b Ho. destruct (B5 b Ho) as [H|H]; [auto|]. right.
    destruct (in_use m b) eqn:E; [|done]. apply A3 in E. congruence.
Qed.

Lemma in_disk_baddr b i : 0 <= b < 786432 -> 0 <= i < BLKSIZE -> in_disk (baddr b + i) = true /\ blk (baddr b + i) = b.
Proof. intros Hb Hi. rewrite in_disk_range. fconsts. zdm. Qed.

(** The block of a slot's word belongs to the file, or is the one its structure is in. *)
Lemma slot_addr_where m f n a :
  file_ok m f -> has_slot m f n -> slot_addr m f n <= a < slot_addr m f n + 4 ->
  (f + 136 <= a < f + sizeof_File) \/ (owns m f (blk a) /\ blk a = ind m f).
Proof.
  intros H [Hn Hs] Ha. unfold slot_addr in Ha. destruct (Z.ltb_spec n NDIRECT); [left; fconsts; lia|].
  destruct Hs as [?|Hs]; [lia|]. right. assert (blk a = ind m f) as -> by (fconsts; zdm).
  split; [|done]. split; [done|]. by left.
Qed.

Lemma fill_grown m f n b :
  file_ok m f -> has_slot m f n -> slot m f n = 0 -> 0 <= b < nblocks m -> data0 m <= b -> bit_free m b = true ->
  file_ok (fill m f n b) f /\ grown m (fill m f n b) f /\ slot (fill m f n b) f n = b /\
  (forall k, has_slot m f k -> k <> n -> slot (fill m f n b) f k = slot m f k) /\
  ind (fill m f n b) f = ind m f /\ nfree m = S (nfree (fill m f n b)).
Proof.
  intros H Hn Hz Hb Hd Hf. pose proof (fo_sane _ _ H) as Hs. pose proof (nblocks_range m Hs) as Hr.
  destruct (fill_facts m f n b H Hn Hz Hb Hd Hf) as (F1 & F2 & F3 & F4 & F5 & F6 & F7 & F8).
  assert (0 < b < 2 ^ 32) as Hb32 by lia. unfold fill.
  pose proof (set_slot_meta _ _ _ b F1 F2) as Hm. pose proof (use_sane m b Hs Hb) as Hs1.
  assert (forall c, in_use (set_slot (use m b) f n b) c = in_use m c || (c =? b)) as Hu.
  { intros c. rewrite (same_meta_use _ _ _ Hs1 Hm). by apply use_in_use. }
  split; [by apply set_slot_ok|]. split; [|split; [rewrite set_slot_slot by done; by rewrite Z.eqb_refl|]].
  - split.
    + intros a Ha. unfold set_slot. rewrite ld8_st32_ne.
      * unfold use. apply bitmap_ld8; [done..|]. unfold off_bitmap. destruct (Z.lt_ge_cases a BITMAP); [by left|].
        right. apply not_true_iff_false in Ha. rewrite in_disk_range in Ha. fconsts. lia.
      * apply not_true_iff_false in Ha. rewrite in_disk_range in Ha. rewrite F7. pose proof (fo_fits _ _ H) as Hfit.
        pose proof (in_use_facts _ _ (fo_blk _ _ H)) as [Hfb _].
        destruct Hn as [Hn1 Hn2]. unfold slot_addr. destruct (Z.ltb_spec n NDIRECT); [fconsts; lia|].
        destruct Hn2 as [?|Hi]; [lia|]. destruct (fo_ind _ _ H Hi) as [[_ Hui] _]. apply in_use_facts in Hui as [Hui _].
        fconsts. zdm.
    + rewrite (sm_nb _ _ Hm). by apply bitmap_nblocks.
    + intros c Hc. by rewrite Hu, Hc.
    + intros a Ha Hua Hoff Hfa Hown. unfold set_slot. rewrite ld8_st32_ne.
      * by apply bitmap_ld8.
      * destruct (Z.lt_ge_cases a (slot_addr (use m b) f n)); [by left|]. right.
        destruct (Z.lt_ge_cases a (slot_addr (use m b) f n + 4)); [|done]. exfalso. rewrite F7 in *.
        destruct (slot_addr_where m f n a H Hn) as [?|[? _]]; [lia|lia|done].
    + intros c Hc. destruct (set_slot_owns _ _ _ _ F1 F2 F4 c Hc) as [Ho| ->].
      * left. destruct Ho as [H0 [E|(k & Hk & E)]]; (split; [done|]).
        -- left. by rewrite (same_file_ind m _ f F8) in E.
        -- right. apply (same_file_has m _ f _ F8) in Hk. rewrite (same_file_slot m _ f _ F8 Hk) in E. eauto.
      * right. unfold in_use. rewrite Hf. apply andb_false_r.
  - split; [|split; [rewrite set_slot_ind by done; by apply same_file_ind|]].
    + intros k Hk Hne. assert (has_slot (use m b) f k) as Hk1 by by apply (same_file_has m _ f).
      rewrite set_slot_slot by done. rewrite (proj2 (Z.eqb_neq k n)) by done. by apply same_file_slot.
    + rewrite (nfree_use m b) by done. f_equal. unfold nfree. rewrite (sm_nb _ _ Hm). f_equal. symmetry.
      apply filter_length_ext. intros c Hc%elem_of_seqZ.
      assert (in_use (set_slot (use m b) f n b) c = in_use (use m b) c) as E by by apply same_meta_use.
      unfold in_use in E. rewrite (sm_nb _ _ Hm) in E. rewrite (proj2 (Z.leb_le _ _)), (proj2 (Z.ltb_lt _ _)) in E by lia.
      cbn [andb] in E. by destruct (bit_free (set_slot (use m b) f n b) c), (bit_free (use m b) c).
Qed.

(** The size of the file, and its other blocks, are not touched by [fill]. *)
Lemma fill_bytes m f n b c i :
  file_ok m f -> has_slot m f n -> slot m f n = 0 -> 0 <= b < nblocks m -> data0 m <= b -> bit_free m b = true ->
  data_block m c -> c <> ind m f -> c <> blk f -> 0 <= i < BLKSIZE ->
  ld8 (fill m f n b) (baddr c + i) = ld8 m (baddr c + i).
Proof.
  intros H Hn Hz Hb Hd Hf Hc Hci Hcf Hi. pose proof (fo_sane _ _ H) as Hs.
  destruct (fill_facts m f n b H Hn Hz Hb Hd Hf) as (_ & _ & _ & _ & _ & _ & F7 & _).
  unfold fill, set_slot. rewrite ld8_st32_ne; [unfold use; apply bitmap_ld8; [done..|by apply data_off_bitmap]|].
  rewrite F7. destruct (Z.lt_ge_cases (baddr c + i) (slot_addr m f n)); [by left|]. right.
  destruct (Z.lt_ge_cases (baddr c + i) (slot_addr m f n + 4)); [|done]. exfalso.
  assert (blk (baddr c + i) = c) as Eb by (fconsts; zdm).
  destruct (slot_addr_where m f n (baddr c + i) H Hn) as [?|[_ ?]]; [lia| |congruence].
  pose proof (fo_fits _ _ H). apply Hcf. rewrite <- Eb. fconsts. zdm.
Qed.

Lemma fill_size m f n b :
  file_ok m f -> has_slot m f n -> slot m f n = 0 -> 0 <= b < nblocks m -> data0 m <= b -> bit_free m b = true ->
  ld32 (fill m f n b) (f_size f) = ld32 m (f_size f).
Proof.
  intros H Hn Hz Hb Hd Hf. destruct (fill_facts m f n b H Hn Hz Hb Hd Hf) as (F1 & F2 & _ & _ & _ & _ & _ & F8).
  unfold fill, set_slot. rewrite ld32_st32_ne by (apply (slot_addr_struct _ f n 128 F1 F2); auto).
  apply (same_file_word m _ f 128 F8); unfold sizeof_File; lia.
Qed.

(** Positions below the limit have an entry in the block map. *)
Definition limit (m : mem) (f : Z) : Z := if ind m f =? 0 then NDIRECT * BLKSIZE else MAXFILESIZE.

Lemma limit_slot m f pos : 0 <= pos < limit m f -> has_slot m f (pos / BLKSIZE).
Proof.
  unfold limit, has_slot. intros H. change MAXFILESIZE with 4235264 in H. fconsts.
  destruct (Z.eqb_spec (ind m f) 0); split; zdm || (left; zdm) || (by right).
Qed.

(** [file_get_block], when the block is there or there is one to take. *)
Lemma get_block_ok fuel m f n :
  file_ok m f -> has_slot m f n -> slot m f n <> 0 \/ (0 < nfree m)%nat -> (Z.to_nat (nblocks m) < fuel)%nat ->
  exists m', file_get_block fuel f n m = Ret (0, baddr (slot m' f n)) m' /\
    file_ok m' f /\ slot m' f n <> 0 /\ grown m m' f /\ ind m' f = ind m f /\ (nfree m <= S (nfree m'))%nat /\
    ld32 m' (f_size f) = ld32 m (f_size f) /\
    forall pos, 0 <= pos < limit m f -> fbyte m f pos <> None -> fbyte m' f pos = fbyte m f pos.
Proof.
  intros H Hn Hfree Hfuel. destruct (Z.eq_dec (slot m f n) 0) as [Hz|Hnz].
  2: { exists m. split; [by apply get_block_there|]. split; [done|]. split; [done|]. split; [apply grown_refl|].
       split; [done|]. split; [lia|done]. }
  destruct Hfree as [?|Hfree]; [done|]. destruct (nfree_first m Hfree) as [b Hb].
  pose proof (fo_sane _ _ H) as Hs. destruct (fresh_block m b Hs Hb) as (Hb1 & Hb2 & Hb3).
  destruct (fill_grown m f n b H Hn Hz ltac:(lia) Hb2 Hb3) as (G1 & G2 & G3 & G4 & G5 & G6).
  exists (fill m f n b). rewrite G3. split; [by apply get_block_hole|]. split; [done|]. split; [lia|]. split; [done|].
  split; [done|]. split; [lia|]. split; [apply fill_size; done || lia|].
  intros pos Hp Hbyte. pose proof (limit_slot m f pos Hp) as Hk. unfold fbyte in *.
  destruct (Z.eqb_spec (slot m f (pos / BLKSIZE)) 0) as [|Hk0]; [done|].
  rewrite G4 by (done || (intros E; congruence)). rewrite (proj2 (Z.eqb_neq _ _)) by done. f_equal.
  destruct (fo_slot _ _ H _ Hk Hk0) as (? & ? & ?). apply fill_bytes; try done; [lia|]. apply Z.mod_pos_bound. done.
Qed.

(** ** Copies *)

Lemma rd_bytes_flat m a n :
  sane m = true -> (forall i, 0 <= i < Z.of_nat n -> avail m (a + i) = true) -> rd_bytes a n m = Ret (ld_bytes m a n) m.
Proof.
  intros Hs. revert a. induction n as [|n IH]; intros a Ha; cbn [rd_bytes ld_bytes]; [done|].
  erewrite bind_ret by (apply rd8_flat; [done|]; specialize (Ha 0); rewrite Z.add_0_r in Ha; apply Ha; lia).
  erewrite bind_ret; [reflexivity|]. apply IH. intros i Hi. rewrite <- Z.add_assoc. apply Ha. lia.
Qed.

Lemma wr_bytes_flat m a l :
  sane m = true -> (forall i, 0 <= i < Z.of_nat (length l) -> avail m (a + i) = true /\ harmless m (a + i)) ->
  wr_bytes a l m = Ret tt (st_bytes m a l).
Proof.
  revert m a. induction l as [|c l IH]; intros m a Hs Ha; cbn [wr_bytes st_bytes]; [done|].
  destruct (Ha 0 ltac:(simpl length; lia)) as [Ha1 Ha2]. rewrite Z.add_0_r in Ha1, Ha2.
  erewrite bind_ret by by apply wr8_flat.
  assert (same_meta m (st8 m a c)) as Hm.
  { apply same_meta_ext; [done|]. intros b Hb. rewrite ld8_st8. rewrite (proj2 (Z.eqb_neq a b)); [done|]. congruence. }
  apply IH; [by apply (same_meta_sane m)|]. intros i Hi. destruct (Ha (1 + i) ltac:(simpl length; lia)) as [H1 H2].
  rewrite Z.add_assoc in H1, H2. split.
  - unfold avail in *. by rewrite (same_meta_use m).
  - unfold harmless in *. by rewrite (same_meta_data _ _ Hm).
Qed.

(** A range of addresses outside the disk region. *)
Definition outside (a n : Z) : Prop := 0 <= a /\ (a + n <= DISKMAP \/ DISKMAP + DISKSIZE <= a).

Lemma outside_in_disk a n i : outside a n -> 0 <= i < n -> in_disk (a + i) = false.
Proof. intros [H0 H] Hi. apply not_true_iff_false. rewrite in_disk_range. fconsts. lia. Qed.

Lemma outside_ok m a n i : sane m = true -> outside a n -> 0 <= i < n -> avail m (a + i) = true /\ harmless m (a + i).
Proof.
  intros Hs H Hi. unfold avail. rewrite (outside_in_disk a n i H Hi). split; [done|].
  pose proof (nblocks_range m Hs) as Hr. destruct H as [Hp H]. unfold harmless. fconsts. lia.
Qed.

(** Writing into a block of the file. *)
Section WriteBlock.
Context (m : mem) (f n o : Z) (l : list Z).
Hypothesis Hf : file_ok m f.
Hypothesis Hn : has_slot m f n.
Hypothesis Hnz : slot m f n <> 0.
Hypothesis Ho : 0 <= o.
Hypothesis Hl : o + Z.of_nat (length l) <= BLKSIZE.

Definition write_block : mem := st_bytes m (baddr (slot m f n) + o) l.

Lemma write_block_ld8 a :
  ld8 write_block a =
    if (baddr (slot m f n) + o <=? a) && (a <? baddr (slot m f n) + o + Z.of_nat (length l))
    then u8 (default 0 (l !! Z.to_nat (a - (baddr (slot m f n) + o)))) else ld8 m a.
Proof. apply ld8_st_bytes. Qed.

(** Addresses of other blocks. *)
Lemma write_block_other a : blk a <> slot m f n -> ld8 write_block a = ld8 m a.
Proof.
  intros Ha. rewrite write_block_ld8.
  destruct (Z.leb_spec (baddr (slot m f n) + o) a), (Z.ltb_spec a (baddr (slot m f n) + o + Z.of_nat (length l))); cbn [andb]; try done.
  exfalso. apply Ha. fconsts. zdm.
Qed.

Lemma write_block_meta : same_meta m write_block.
Proof.
  apply harmless_st_bytes; [apply Hf|]. intros i Hi. rewrite <- Z.add_assoc.
  apply harmless_data; [by apply (fo_slot _ _ Hf)|lia].
Qed.

Lemma write_block_file : same_file m write_block f.
Proof.
  destruct (fo_slot _ _ Hf n Hn Hnz) as (H1 & H2 & H3). split.
  - intros i Hi. apply write_block_other. pose proof (fo_fits _ _ Hf).
    assert (blk (f + i) = blk f) as -> by (fconsts; zdm). done.
  - intros Hi i Hib. apply write_block_other. assert (blk (baddr (ind m f) + i) = ind m f) as -> by (fconsts; zdm). done.
Qed.

Lemma write_block_ok : file_ok write_block f.
Proof.
  apply (file_ok_ext m); [done|apply write_block_file|apply (same_meta_sane m); [apply Hf|apply write_block_meta]|apply write_block_meta|].
  intros b Hb. rewrite (same_meta_use m); [done|apply Hf|apply write_block_meta].
Qed.

Lemma write_block_grown : grown m write_block f.
Proof.
  pose proof (fo_slot _ _ Hf n Hn Hnz) as ((Hd & Hu) & _). pose proof (in_use_facts _ _ Hu) as [Hr _].
  pose proof (nblocks_range m (fo_sane _ _ Hf)) as Hnr. split.
  - intros a Ha. apply not_true_iff_false in Ha. rewrite in_disk_range in Ha. apply write_block_other. fconsts. zdm.
  - apply write_block_meta.
  - intros b Hb. rewrite (same_meta_use m); [done|apply Hf|apply write_block_meta].
  - intros a Ha Hua Hoff Hfa Hown. apply write_block_other. intros E. apply Hown. rewrite E. split; [done|]. right. eauto.
  - intros b [H0 [E|(k & Hk & E)]]; left; (split; [done|]).
    + left. by rewrite (same_file_ind m _ f write_block_file) in E.
    + right. apply (same_file_has m _ f _ write_block_file) in Hk. rewrite (same_file_slot m _ f _ write_block_file Hk) in E. eauto.
Qed.

Lemma write_block_byte pos :
  0 <= pos < limit m f ->
  fbyte write_block f pos =
    if (n * BLKSIZE + o <=? pos) && (pos <? n * BLKSIZE + o + Z.of_nat (length l))
    then Some (u8 (default 0 (l !! Z.to_nat (pos - (n * BLKSIZE + o))))) else fbyte m f pos.
Proof.
  intros Hp. pose proof (limit_slot m f pos Hp) as Hk. unfold fbyte.
  rewrite (same_file_slot m _ f _ write_block_file Hk).
  assert (0 <= pos mod BLKSIZE < BLKSIZE) as Hpm by by apply Z.mod_pos_bound.
  destruct (Z.eq_dec (pos / BLKSIZE) n) as [En|En].
  - rewrite En, (proj2 (Z.eqb_neq _ _)) by done. rewrite write_block_ld8.
    replace ((baddr (slot m f n) + o <=? baddr (slot m f n) + pos mod BLKSIZE) &&
      (baddr (slot m f n) + pos mod BLKSIZE <? baddr (slot m f n) + o + Z.of_nat (length l)))
      with ((n * BLKSIZE + o <=? pos) && (pos <? n * BLKSIZE + o + Z.of_nat (length l)))
      by (apply eq_true_iff_eq; rewrite !andb_true_iff, !Z.leb_le, !Z.ltb_lt; fconsts; zdm).
    replace (baddr (slot m f n) + pos mod BLKSIZE - (baddr (slot m f n) + o)) with (pos - (n * BLKSIZE + o)) by (fconsts; zdm).
    by destruct (_ && _).
  - destruct ((n * BLKSIZE + o <=? pos) && (pos <? n * BLKSIZE + o + Z.of_nat (length l))) eqn:E.
    { apply andb_true_iff in E as [E1%Z.leb_le E2%Z.ltb_lt]. exfalso. apply En. fconsts. zdm. }
    destruct (Z.eqb_spec (slot m f (pos / BLKSIZE)) 0) as [|Hk0]; [done|]. f_equal. apply write_block_other.
    assert (blk (baddr (slot m f (pos / BLKSIZE)) + pos mod BLKSIZE) = slot m f (pos / BLKSIZE)) as -> by (fconsts; zdm).
    intros E'. apply En. by apply (fo_inj _ _ Hf).
Qed.

Lemma write_block_nfree : nfree write_block = nfree m.
Proof.
  unfold nfree. pose proof write_block_meta as Hm. rewrite (sm_nb _ _ Hm). f_equal. apply filter_length_ext.
  intros c Hc%elem_of_seqZ. pose proof (same_meta_use m _ c (fo_sane _ _ Hf) Hm) as E. unfold in_use in E.
  rewrite (sm_nb _ _ Hm), (proj2 (Z.leb_le _ _)), (proj2 (Z.ltb_lt _ _)) in E by lia. cbn [andb] in E.
  by destruct (bit_free write_block c), (bit_free m c).
Qed.

(** [copy] into the block from a buffer outside the disk. *)
Lemma copy_in buf :
  outside buf (Z.of_nat (length l)) -> l = ld_bytes m buf (length l) ->
  copy (baddr (slot m f n) + o) buf (Z.of_nat (length l)) m = Ret tt write_block.
Proof.
  intros Hout El. pose proof (fo_sane _ _ Hf) as Hs. unfold copy. rewrite Nat2Z.id.
  erewrite bind_ret by (apply rd_bytes_flat; [done|]; intros i Hi; by apply (outside_ok m buf (Z.of_nat (length l)))).
  rewrite <- El. apply wr_bytes_flat; [done|]. intros i Hi. rewrite <- Z.add_assoc.
  destruct (fo_slot _ _ Hf n Hn Hnz) as (Hd & _). split; [apply avail_data|apply harmless_data]; done || lia.
Qed.
End WriteBlock.
