(* ===== verification/FsGrow.v ===== *)
(** Blocks taken for a file on the flat store: the indirect block of [file_block_walk]
    ([fs/fs.c]), which is used as it comes, and what free blocks hold. *)

From S2P Require Import Prelude Mmu Mem Ide Bc BcSim Fs FsFlat FsFile.

(** ** Free blocks *)

Definition blank (m : mem) (b : Z) : Prop := forall i, 0 <= i < BLKSIZE -> ld8 m (baddr b + i) = 0.

(** Every free block holds zeros, as on a fresh disk. *)
Definition zeroed (m : mem) : Prop := forall b, 0 <= b < nblocks m -> bit_free m b = true -> blank m b.

(** Blocks that are still free were not written. *)
Definition kept_free (m m' : mem) : Prop :=
  forall a, in_disk a = true -> in_use m' (blk a) = false -> ld8 m' a = ld8 m a.

Lemma kept_free_refl m : kept_free m m.
Proof. done. Qed.

Lemma kept_free_trans m m1 m2 :
  kept_free m m1 -> kept_free m1 m2 -> (forall b, in_use m1 b = true -> in_use m2 b = true) -> kept_free m m2.
Proof.
  intros H1 H2 Hu a Ha Hf. rewrite H2 by done. apply H1; [done|].
  destruct (in_use m1 (blk a)) eqn:E; [|done]. apply Hu in E. congruence.
Qed.

Lemma free_not_used m b : bit_free m b = true -> in_use m b = false.
Proof. intros H. unfold in_use. by rewrite H, andb_false_r. Qed.

Lemma not_used_free m b : 0 <= b < nblocks m -> in_use m b = false -> bit_free m b = true.
Proof. intros Hb. unfold in_use. rewrite (proj2 (Z.leb_le _ _)), (proj2 (Z.ltb_lt _ _)) by lia. by destruct (bit_free m b). Qed.

Lemma zeroed_kept m m' :
  sane m = true -> nblocks m' = nblocks m -> kept_free m m' -> (forall b, in_use m b = true -> in_use m' b = true) -> zeroed m -> zeroed m'.
Proof.
  intros Hs Hn Hk Hu Hc b Hb Hf i Hi. pose proof (nblocks_range m Hs). rewrite Hn in Hb.
  destruct (in_disk_baddr b i ltac:(lia) Hi) as [H1 H2]. pose proof (free_not_used m' b Hf) as Hnu.
  rewrite Hk by (rewrite ?H2; done). apply Hc; [done| |done]. apply not_used_free; [done|].
  destruct (in_use m b) eqn:E; [|done]. apply Hu in E. congruence.
Qed.

(** A store into a block in use. *)
Lemma kept_free_st32 m a v b :
  in_use (st32 m a v) b = true -> baddr b <= a -> a + 4 <= baddr b + BLKSIZE -> kept_free m (st32 m a v).
Proof.
  intros Hu H1 H2 x Hx Hf. apply ld8_st32_ne. destruct (Z.lt_ge_cases x a); [by left|]. destruct (Z.lt_ge_cases x (a + 4)); [|by right].
  exfalso. assert (blk x = b) as E by (fconsts; zdm). congruence.
Qed.

Lemma kept_free_use m b : sane m = true -> 0 <= b < nblocks m -> kept_free m (use m b).
Proof.
  intros Hs Hb. pose proof (nblocks_range m Hs). destruct (sane_facts m Hs) as (_ & _ & _ & Hr). specialize (Hr b Hb).
  apply (kept_free_st32 _ _ _ (2 + b / 32768)); [|fconsts; zdm..]. fold (use m b). by rewrite use_in_use, Hr.
Qed.

Lemma set_slot_kept m f n b : file_ok m f -> has_slot m f n -> kept_free m (set_slot m f n b).
Proof.
  intros H Hn. pose proof (fo_sane _ _ H) as Hs. pose proof (set_slot_meta m f n b H Hn) as Hm.
  assert (exists c, in_use m c = true /\ baddr c <= slot_addr m f n /\ slot_addr m f n + 4 <= baddr c + BLKSIZE) as (c & Hc & H1 & H2).
  { destruct Hn as [Hn1 Hn2]. unfold slot_addr. destruct (Z.ltb_spec n NDIRECT).
    - exists (blk f). split; [apply H|]. pose proof (fo_fits _ _ H). fconsts. lia.
    - destruct Hn2 as [?|Hi]; [lia|]. exists (ind m f). destruct (fo_ind _ _ H Hi) as [[_ Hu] _]. split; [done|]. fconsts. zdm. }
  apply (kept_free_st32 _ _ _ c); [|done..]. fold (set_slot m f n b). by rewrite (same_meta_use m).
Qed.

Lemma write_block_kept m f n o l :
  file_ok m f -> has_slot m f n -> slot m f n <> 0 -> 0 <= o -> o + Z.of_nat (length l) <= BLKSIZE -> kept_free m (write_block m f n o l).
Proof.
  intros H Hn Hnz Ho Hl a Ha Hf. pose proof (write_block_meta m f n o l H Hn Hnz Ho Hl) as Hm.
  rewrite (same_meta_use m) in Hf by (done || apply H). apply write_block_other; [done|done|]. intros E.
  destruct (fo_slot _ _ H n Hn Hnz) as [[_ Hu] _]. congruence.
Qed.

(** ** Giving a file its indirect block *)

Definition with_ind (m : mem) (f b : Z) : mem := st32 (use m b) (f_indirect f) b.

Section Indirect.
Context (m : mem) (f b : Z).
Hypothesis Hf : file_ok m f.
Hypothesis Hi : ind m f = 0.
Hypothesis Hb : 0 < b < nblocks m.
Hypothesis Hd : data0 m <= b.
Hypothesis Hfree : bit_free m b = true.

Local Abbreviation m' := (with_ind m f b).

Lemma wi_used : file_ok (use m b) f.
Proof. apply use_file_ok; [done|lia]. Qed.

Lemma wi_meta : same_meta (use m b) m'.
Proof.
  apply harmless_st32; [apply wi_used|]. intros i Hib. unfold f_indirect. rewrite <- Z.add_assoc.
  apply file_harmless; [apply wi_used|]. fconsts. lia.
Qed.

Lemma wi_nblocks : nblocks m' = nblocks m.
Proof. rewrite (sm_nb _ _ wi_meta). apply bitmap_nblocks; [apply Hf|lia]. Qed.

Lemma wi_sane : sane m' = true.
Proof. apply (same_meta_sane (use m b)); [apply wi_used|apply wi_meta]. Qed.

Lemma wi_use c : in_use m' c = in_use m c || (c =? b).
Proof. rewrite (same_meta_use _ _ _ (fo_sane _ _ wi_used) wi_meta). apply use_in_use; [apply Hf|lia]. Qed.

Lemma wi_data c : data_block m c -> data_block m' c.
Proof. intros [H1 H2]. split; [unfold data0; rewrite wi_nblocks; exact H1|]. by rewrite wi_use, H2. Qed.

Lemma wi_block : data_block m' b.
Proof. split; [unfold data0; rewrite wi_nblocks; exact Hd|]. by rewrite wi_use, Z.eqb_refl, orb_true_r. Qed.

Lemma wi_fresh : ~ owns m f b /\ b <> blk f.
Proof. by apply fresh_not_owned. Qed.

Lemma wi_ind : ind m' f = b.
Proof. unfold ind, with_ind. rewrite ld32_st32_eq, u32_small; [done|]. pose proof (nblocks_range m (fo_sane _ _ Hf)). lia. Qed.

(** Bytes off the bitmap and off the one word. *)
Lemma wi_ld8 a : off_bitmap m a -> a < f_indirect f \/ f_indirect f + 4 <= a -> ld8 m' a = ld8 m a.
Proof. intros Ha Hw. unfold with_ind. rewrite ld8_st32_ne by done. apply bitmap_ld8; [apply Hf|lia|done]. Qed.

Lemma wi_other c i : data0 m <= c -> c <> blk f -> 0 <= i < BLKSIZE -> ld8 m' (baddr c + i) = ld8 m (baddr c + i).
Proof.
  intros Hc Hne Hib. apply wi_ld8; [right; fconsts; lia|]. pose proof (fo_fits _ _ Hf). fconsts. zdm.
Qed.

Lemma wi_direct n : 0 <= n < NDIRECT -> slot m' f n = slot m f n.
Proof.
  intros Hn. unfold slot, slot_addr. rewrite (proj2 (Z.ltb_lt _ _)) by lia. apply ld32_ext. intros i Hib.
  unfold f_direct. rewrite <- !Z.add_assoc. apply wi_ld8; [apply file_off_bitmap; [done|]|]; fconsts; lia.
Qed.

Lemma wi_size : ld32 m' (f_size f) = ld32 m (f_size f).
Proof.
  apply ld32_ext. intros i Hib. unfold f_size. rewrite <- !Z.add_assoc.
  apply wi_ld8; [apply file_off_bitmap; [done|]|]; fconsts; lia.
Qed.

Lemma wi_kept : kept_free m m'.
Proof.
  apply (kept_free_trans m (use m b)); [apply kept_free_use; [apply Hf|lia]| |].
  - apply (kept_free_st32 _ _ _ (blk f)).
    + fold (with_ind m f b). rewrite wi_use, (fo_blk _ _ Hf). done.
    + pose proof (fo_fits _ _ Hf). fconsts. lia.
    + pose proof (fo_fits _ _ Hf). fconsts. lia.
  - intros c Hc. by rewrite (same_meta_use (use m b)); [|apply wi_used|apply wi_meta].
Qed.

Lemma wi_nfree : nfree m = S (nfree m').
Proof.
  rewrite (nfree_use m b) by (done || apply Hf || lia). f_equal. unfold nfree. rewrite (sm_nb _ _ wi_meta). f_equal. symmetry.
  apply filter_length_ext. intros c Hc%elem_of_seqZ.
  pose proof (same_meta_use _ _ c (fo_sane _ _ wi_used) wi_meta) as E. unfold in_use in E. rewrite (sm_nb _ _ wi_meta) in E.
  rewrite (proj2 (Z.leb_le _ _)), (proj2 (Z.ltb_lt _ _)) in E by lia. cbn [andb] in E. by destruct (bit_free m' c), (bit_free (use m b) c).
Qed.

Lemma wi_word : word_ok m' (f_indirect f).
Proof.
  destruct (file_word (use m b) f 176 wi_used) as [W1 W2]; [fconsts; lia..|]. unfold word_ok, avail, f_indirect in *.
  by rewrite !(same_meta_use (use m b) m' _ (fo_sane _ _ wi_used) wi_meta).
Qed.

(** [file_block_walk] allocates it, and goes on as if it had been there. *)
Lemma wi_walk fuel n :
  NDIRECT <= n < NDIRECT + NINDIRECT -> first_free m = Some b -> (Z.to_nat (nblocks m) < fuel)%nat ->
  file_block_walk fuel f n true m = Ret (0, Some (baddr b + 4 * (n - NDIRECT))) m'.
Proof.
  intros Hn Hff Hfuel. pose proof (fo_sane _ _ Hf) as Hs. pose proof (nblocks_range m Hs).
  unfold file_block_walk. rewrite (proj2 (Z.leb_gt _ _)), (proj2 (Z.ltb_ge _ _)) by lia.
  erewrite bind_ret by (apply rd32_flat; [done|]; apply file_word; [done|fconsts; lia..]). fold (ind m f). rewrite Hi.
  change (negb (0 =? 0)) with false. cbv iota. erewrite bind_ret by by apply alloc_block_flat.
  unfold alloc_spec. rewrite Hff. cbn [fst snd]. rewrite u32_small by lia. rewrite (proj2 (Z.ltb_ge _ _)) by lia.
  erewrite bind_ret by (apply wr32_flat; [apply wi_used|]; apply (file_word _ f 176); [apply wi_used|fconsts; lia..]). fold (with_ind m f b).
  erewrite bind_ret by (apply rd32_flat; [apply wi_sane|apply wi_word]). fold (ind m' f). rewrite wi_ind.
  erewrite bind_ret by (apply diskaddr_flat; [apply wi_sane|rewrite wi_nblocks; lia]). done.
Qed.

(** *** When the block held zeros, it is an empty map. *)

Hypothesis Hblank : blank m b.

Lemma wi_slot n : has_slot m' f n -> slot m' f n = if n <? NDIRECT then slot m f n else 0.
Proof.
  intros [Hn _]. destruct (Z.ltb_spec n NDIRECT) as [Hlt|Hge]; [apply wi_direct; lia|].
  unfold slot, slot_addr. rewrite (proj2 (Z.ltb_ge _ _)) by lia. rewrite wi_ind. apply ld32_zero. intros i Hib. rewrite <- Z.add_assoc.
  assert (0 <= 4 * (n - NDIRECT) + i < BLKSIZE) as Hr by (fconsts; zdm). rewrite wi_other by (done || exact (proj2 wi_fresh)). by apply Hblank.
Qed.

Lemma wi_slots n : has_slot m' f n -> slot m' f n <> 0 -> has_slot m f n /\ slot m' f n = slot m f n.
Proof.
  intros Hn H0. rewrite wi_slot in H0 |- * by done. destruct (Z.ltb_spec n NDIRECT); [|done]. split; [|done].
  destruct Hn as [Hn _]. split; [done|by left].
Qed.

Lemma wi_ok : file_ok m' f.
Proof.
  destruct wi_fresh as [Ho Hbf]. assert (data0 m' = data0 m) as Ed by (unfold data0; by rewrite wi_nblocks). split; rewrite ?Ed, ?wi_ind.
  - apply wi_sane.
  - apply Hf.
  - rewrite wi_use, (fo_blk _ _ Hf). done.
  - apply Hf.
  - apply Hf.
  - intros _. split; [apply wi_block|done].
  - intros n Hn H0. destruct (wi_slots n Hn H0) as [Hn' E]. rewrite E in *. destruct (fo_slot _ _ Hf n Hn' H0) as (H1 & H2 & _).
    split; [by apply wi_data|]. split; [done|]. intros Eb. apply Ho. split; [lia|]. right. eauto.
  - intros n k Hn Hk E H0. destruct (wi_slots n Hn H0) as [Hn' E1]. rewrite E in H0. destruct (wi_slots k Hk H0) as [Hk' E2].
    apply (fo_inj _ _ Hf); try done; congruence.
Qed.

Lemma wi_grown : grown m m' f.
Proof.
  pose proof (fo_sane _ _ Hf) as Hs. pose proof (nblocks_range m Hs) as Hr. split.
  - intros a Ha. apply not_true_iff_false in Ha. rewrite in_disk_range in Ha. pose proof (fo_fits _ _ Hf) as Hfit.
    pose proof (in_use_facts _ _ (fo_blk _ _ Hf)) as [Hfb _]. apply wi_ld8; [unfold off_bitmap|]; fconsts; lia.
  - apply wi_nblocks.
  - intros c Hc. by rewrite wi_use, Hc.
  - intros a _ _ Hoff Ha _. apply wi_ld8; [done|]. fconsts. lia.
  - intros c [H0 [E|(n & Hn & E)]].
    + right. rewrite wi_ind in E. subst c. by apply free_not_used.
    + left. subst c. destruct (wi_slots n Hn H0) as [Hn' E]. split; [done|]. right. exists n. by split.
Qed.

Lemma wi_byte pos : 0 <= pos < limit m f -> fbyte m' f pos = fbyte m f pos.
Proof.
  intros Hp. pose proof (limit_slot m f pos Hp) as Hn. destruct Hn as [Hn1 [Hn2|Hn2]]; [|by rewrite Hi in Hn2].
  unfold fbyte. rewrite wi_direct by lia. destruct (Z.eqb_spec (slot m f (pos / BLKSIZE)) 0) as [|H0]; [done|]. f_equal.
  destruct (fo_slot _ _ Hf (pos / BLKSIZE)) as ([H1 _] & H2 & _); [split; [done|by left]|done|].
  apply wi_other; [done|done|]. by apply Z.mod_pos_bound.
Qed.

Lemma wi_has n : 0 <= n < NDIRECT + NINDIRECT -> has_slot m' f n.
Proof. intros Hn. split; [done|]. right. rewrite wi_ind. lia. Qed.

Lemma wi_get fuel n :
  NDIRECT <= n < NDIRECT + NINDIRECT -> first_free m = Some b -> (Z.to_nat (nblocks m) < fuel)%nat ->
  file_get_block fuel f n m = file_get_block fuel f n m'.
Proof.
  intros Hn Hff Hfuel. unfold file_get_block. rewrite (proj2 (Z.leb_gt (NDIRECT + NINDIRECT) n)) by lia.
  assert (has_slot m' f n) as Hh by (apply wi_has; unfold NDIRECT in *; lia). rewrite (get_block_head fuel m' f n _ wi_ok Hh).
  erewrite bind_ret by by apply wi_walk. unfold slot_addr. rewrite (proj2 (Z.ltb_ge n NDIRECT)) by lia. by rewrite wi_ind.
Qed.
End Indirect.

(** ** Any block of a file *)

(** The blocks a range up to [e] takes beside its own: an indirect block, if it needs one. *)
Definition extra (m : mem) (f e : Z) : nat := if (ind m f =? 0) && (NDIRECT * BLKSIZE <? e) then 1 else 0.

(** The file can have bytes up to [e]: they are in its map, or its map can be extended by a
    block of zeros. *)
Definition room (m : mem) (f e : Z) : Prop := e <= limit m f \/ (zeroed m /\ e <= MAXFILESIZE).

(** What [file_get_block] did to the file. *)
Record got (m m' : mem) (f n : Z) : Prop := {
  gt_ok : file_ok m' f;
  gt_has : has_slot m' f n;
  gt_slot : slot m' f n <> 0;
  gt_grown : grown m m' f;
  gt_kept : kept_free m m';
  gt_ind : ind m f <> 0 \/ n < NDIRECT -> ind m' f = ind m f;
  gt_size : ld32 m' (f_size f) = ld32 m (f_size f);
  gt_byte : forall pos, 0 <= pos < limit m f -> fbyte m f pos <> None -> fbyte m' f pos = fbyte m f pos;
  gt_slots : forall k, has_slot m f k -> slot m f k <> 0 -> slot m' f k = slot m f k;
  gt_new : ~ (has_slot m f n /\ slot m f n <> 0) ->
    in_use m (slot m' f n) = false /\ forall i, 0 <= i < BLKSIZE -> ld8 m' (baddr (slot m' f n) + i) = ld8 m (baddr (slot m' f n) + i);
}.

Lemma fill_kept m f n b :
  file_ok m f -> has_slot m f n -> slot m f n = 0 -> 0 <= b < nblocks m -> data0 m <= b -> bit_free m b = true -> kept_free m (fill m f n b).
Proof.
  intros H Hn Hz Hb Hd Hf. destruct (fill_facts m f n b H Hn Hz Hb Hd Hf) as (F1 & F2 & _). unfold fill.
  apply (kept_free_trans m (use m b)); [apply kept_free_use; [apply H|done]|by apply set_slot_kept|].
  intros c Hc. by rewrite (same_meta_use (use m b)); [|apply F1|apply set_slot_meta].
Qed.

(** A block that is entered in the map is not written. *)
Lemma fill_new m f n b i :
  file_ok m f -> has_slot m f n -> slot m f n = 0 -> 0 <= b < nblocks m -> data0 m <= b -> bit_free m b = true -> 0 <= i < BLKSIZE ->
  ld8 (fill m f n b) (baddr b + i) = ld8 m (baddr b + i).
Proof.
  intros H Hn Hz Hb Hd Hf Hi. destruct (fill_facts m f n b H Hn Hz Hb Hd Hf) as (_ & _ & _ & _ & _ & F6 & F7 & _).
  destruct (fresh_not_owned m f b H Hf) as [Ho _].
  unfold fill, set_slot. rewrite ld8_st32_ne; [apply bitmap_ld8; [apply H|done|right; fconsts; lia]|].
  rewrite F7. destruct (Z.lt_ge_cases (baddr b + i) (slot_addr m f n)); [by left|]. right.
  destruct (Z.lt_ge_cases (baddr b + i) (slot_addr m f n + 4)); [|done]. exfalso.
  assert (blk (baddr b + i) = b) as Eb by (fconsts; zdm).
  destruct (slot_addr_where m f n (baddr b + i) H Hn) as [?|[? _]]; [lia| |by rewrite Eb in *].
  pose proof (fo_fits _ _ H). apply F6. rewrite <- Eb. fconsts. zdm.
Qed.

(** [file_get_block] on a block that has an entry in the map. *)
Lemma get_block_mapped fuel m f n :
  file_ok m f -> has_slot m f n -> slot m f n <> 0 \/ (0 < nfree m)%nat -> (Z.to_nat (nblocks m) < fuel)%nat ->
  exists m', file_get_block fuel f n m = Ret (0, baddr (slot m' f n)) m' /\ got m m' f n /\ (nfree m <= S (nfree m'))%nat.
Proof.
  intros H Hn Hfree Hfuel. destruct (Z.eq_dec (slot m f n) 0) as [Hz|Hnz].
  2: { exists m. split; [by apply get_block_there|]. split; [|lia].
       split; [done|done|done|apply grown_refl|apply kept_free_refl|done|done|done|done|]. intros Hnew. exfalso. by apply Hnew. }
  destruct Hfree as [?|Hfree]; [done|]. destruct (nfree_first m Hfree) as [b Hb].
  pose proof (fo_sane _ _ H) as Hs. destruct (fresh_block m b Hs Hb) as (Hb1 & Hb2 & Hb3). assert (0 <= b < nblocks m) as Hbr by lia.
  destruct (fill_grown m f n b H Hn Hz Hbr Hb2 Hb3) as (G1 & G2 & G3 & G4 & G5 & G6).
  destruct (get_block_ok fuel m f n H Hn ltac:(by right) Hfuel) as (m' & E & _ & _ & _ & _ & _ & S1 & B1).
  rewrite (get_block_hole fuel m f n b) in E by done. injection E as _ <-.
  exists (fill m f n b). rewrite G3. split; [by apply get_block_hole|]. split; [|lia]. split; try done.
  - unfold has_slot in *. by rewrite G5.
  - rewrite G3. lia.
  - by apply fill_kept.
  - intros k Hk Hk0. apply G4; [done|]. by intros ->.
  - intros _. rewrite G3. split; [by apply free_not_used|]. intros i Hi. by apply fill_new.
Qed.

(** The block a file gets is found in an empty indirect block, too. *)
Lemma got_trans m m1 m2 f n :
  got m1 m2 f n -> grown m m1 f -> kept_free m m1 -> ind m f = 0 -> NDIRECT <= n -> ld32 m1 (f_size f) = ld32 m (f_size f) ->
  slot m1 f n = 0 -> limit m f <= limit m1 f -> (forall pos, 0 <= pos < limit m f -> fbyte m1 f pos = fbyte m f pos) ->
  (forall k, has_slot m f k -> has_slot m1 f k /\ slot m1 f k = slot m f k) -> got m m2 f n.
Proof.
  intros [A1 A2 A3 A4 A5 A6 A7 A8 A9 A10] G K Hi Hn Hsz Hz Hl Hby Hsl. split; try done.
  - by eapply grown_trans.
  - apply (kept_free_trans m m1); [done|done|apply A4].
  - intros [?|?]; [done|lia].
  - congruence.
  - intros pos Hp Hb. rewrite <- Hby in Hb |- * by done. apply A8; [lia|done].
  - intros k Hk H0. destruct (Hsl k Hk) as [Hk1 E]. rewrite <- E in H0 |- *. by apply A9.
  - intros _. destruct A10 as [B1 B2]; [intros [_ ?]; congruence|]. split.
    + destruct (in_use m (slot m2 f n)) eqn:E; [|done]. apply (gr_use _ _ _ G) in E. congruence.
    + intros i Hib. rewrite B2 by done. assert (0 <= slot m2 f n < 786432) as Hr.
      { destruct (fo_slot _ _ A1 n A2 A3) as [[_ Hu] _]. apply in_use_facts in Hu as [Hu _]. pose proof (nblocks_range m2 (fo_sane _ _ A1)). lia. }
      destruct (in_disk_baddr _ i Hr Hib) as [D1 D2]. apply K; [done|by rewrite D2].
Qed.

Lemma get_block_any fuel m f n :
  file_ok m f -> 0 <= n < NDIRECT + NINDIRECT -> has_slot m f n \/ zeroed m ->
  (has_slot m f n /\ slot m f n <> 0) \/ (1 + extra m f ((n + 1) * BLKSIZE) <= nfree m)%nat -> (Z.to_nat (nblocks m) < fuel)%nat ->
  exists m', file_get_block fuel f n m = Ret (0, baddr (slot m' f n)) m' /\ got m m' f n /\
    (nfree m <= S (nfree m') + extra m f ((n + 1) * BLKSIZE))%nat.
Proof.
  intros H Hn Hor Hfree Hfuel. destruct (Z.lt_ge_cases n NDIRECT) as [Hlt|Hge].
  { destruct (get_block_mapped fuel m f n H) as (m' & E & G & F); [by split; [|left]|destruct Hfree as [[_ ?]|?]; [by left|right; lia]|done|]. exists m'. split; [done|]. split; [done|lia]. }
  destruct (Z.eq_dec (ind m f) 0) as [Hi|Hi].
  2: { destruct (get_block_mapped fuel m f n H) as (m' & E & G & F); [by split; [|right]|destruct Hfree as [[_ ?]|?]; [by left|right; lia]|done|]. exists m'. split; [done|]. split; [done|lia]. }
  assert (~ has_slot m f n) as Hno by (intros [_ [?|?]]; [lia|done]). destruct Hor as [?|Hc]; [done|]. destruct Hfree as [[? _]|Hfree]; [done|].
  assert (extra m f ((n + 1) * BLKSIZE) = 1%nat) as Ex.
  { unfold extra. rewrite Hi, Z.eqb_refl, (proj2 (Z.ltb_lt _ _)) by (fconsts; lia). done. }
  rewrite Ex in *. destruct (nfree_first m ltac:(lia)) as [b Hb].
  pose proof (fo_sane _ _ H) as Hs. destruct (fresh_block m b Hs Hb) as (Hb1 & Hb2 & Hb3). pose proof (Hc b ltac:(lia) Hb3) as Hbl.
  pose proof (wi_has m f b H Hb1 n Hn) as Hh. pose proof (wi_ok m f b H Hb1 Hb2 Hb3 Hbl) as H1.
  pose proof (wi_slot m f b H Hb1 Hb2 Hb3 Hbl n Hh) as Hsl. rewrite (proj2 (Z.ltb_ge _ _)) in Hsl by done.
  pose proof (wi_nfree m f b H Hb1 Hb3) as Hnf.
  destruct (get_block_mapped fuel (with_ind m f b) f n H1 Hh) as (m' & E & G & F); [right; lia|by rewrite wi_nblocks|].
  exists m'. split; [by rewrite (wi_get m f b H Hi Hb1 Hb2 Hb3 Hbl fuel n ltac:(lia) Hb Hfuel)|]. split; [|lia]. apply (got_trans m (with_ind m f b)); try done.
  - by apply wi_grown.
  - by apply wi_kept.
  - by apply wi_size.
  - unfold limit. rewrite Hi, Z.eqb_refl, (wi_ind m f b), (proj2 (Z.eqb_neq b 0)) by (done || lia). by vm_compute.
  - intros pos Hp. by apply wi_byte.
  - intros k [Hk [Hk2|Hk2]]; [|done]. split; [by apply wi_has|]. apply wi_direct; done || lia.
Qed.

(** ** Limits *)

Lemma limit_max m f : limit m f <= MAXFILESIZE.
Proof. unfold limit. destruct (ind m f =? 0); by vm_compute. Qed.

Lemma limit_min m f : NDIRECT * BLKSIZE <= limit m f.
Proof. unfold limit. destruct (ind m f =? 0); by vm_compute. Qed.

Lemma limit_ind m m' f : ind m' f = ind m f -> limit m' f = limit m f.
Proof. unfold limit. by intros ->. Qed.

Lemma has_slot_limit m f n : has_slot m f n -> (n + 1) * BLKSIZE <= limit m f.
Proof.
  intros [Hn Hs]. change (NDIRECT + NINDIRECT) with 1034 in Hn. unfold limit. change MAXFILESIZE with 4235264. destruct (Z.eqb_spec (ind m f) 0); fconsts; [destruct Hs; [lia|done]|lia].
Qed.

Lemma room_slot m f pos e : room m f e -> 0 <= pos < e ->
  0 <= pos / BLKSIZE < NDIRECT + NINDIRECT /\ (has_slot m f (pos / BLKSIZE) \/ zeroed m).
Proof.
  intros Hr Hp. assert (e <= MAXFILESIZE) as Hm by (destruct Hr as [?|[_ ?]]; [pose proof (limit_max m f); lia|done]).
  split; [change (NDIRECT + NINDIRECT) with 1034; change MAXFILESIZE with 4235264 in Hm; fconsts; zdm|].
  destruct Hr as [Hr|[Hc _]]; [left; apply limit_slot; lia|by right].
Qed.

Lemma got_limit m m' f n : got m m' f n -> limit m f <= limit m' f.
Proof.
  intros G. destruct (Z.eq_dec (ind m f) 0) as [E|E]; [|rewrite (limit_ind m m' f); [lia|apply (gt_ind _ _ _ _ G); by left]].
  unfold limit at 1. rewrite E. apply limit_min.
Qed.

Lemma got_extra m m' f n e :
  got m m' f n -> n * BLKSIZE < e -> (extra m' f e + extra m f ((n + 1) * BLKSIZE) <= extra m f e)%nat.
Proof.
  intros G He. unfold extra. destruct (Z.eqb_spec (ind m f) 0) as [E|E]; cbn [andb].
  2: { rewrite (gt_ind _ _ _ _ G) by by left. rewrite (proj2 (Z.eqb_neq _ 0)) by done. simpl. lia. }
  destruct (Z.lt_ge_cases n NDIRECT) as [Hlt|Hge].
  - rewrite (gt_ind _ _ _ _ G), E by by right. rewrite Z.eqb_refl. cbn [andb].
    rewrite (proj2 (Z.ltb_ge _ ((n + 1) * BLKSIZE))) by (fconsts; lia). lia.
  - destruct (gt_has _ _ _ _ G) as [_ [?|Hi]]; [lia|]. rewrite (proj2 (Z.eqb_neq _ 0)) by done. cbn [andb].
    rewrite !(proj2 (Z.ltb_lt _ _)) by (fconsts; lia). lia.
Qed.
