(* ===== verification/FsRw.v ===== *)
(** [file_read] and [file_write] on the flat store: a file is an array of bytes. *)

From S2P Require Import Prelude Mmu Mem Ide Bc BcSim Fs FsFlat FsFile FsGrow.

(** The number of blocks that hold the positions [pos .. e). *)
Definition spans (pos e : Z) : Z := if pos <? e then (e - 1) / BLKSIZE - pos / BLKSIZE + 1 else 0.

(** The bytes of one step of a transfer. *)
Definition chunk (pos e : Z) : Z := Z.min (BLKSIZE - pos mod BLKSIZE) (e - pos).

Lemma chunk_range pos e : 0 <= pos < e -> 0 < chunk pos e <= BLKSIZE - pos mod BLKSIZE /\ pos + chunk pos e <= e.
Proof. intros H. unfold chunk. fconsts. zdm. Qed.

Lemma spans_step pos e : 0 <= pos < e -> spans pos e = 1 + spans (pos + chunk pos e) e.
Proof.
  intros H. unfold spans, chunk. fconsts. rewrite (proj2 (Z.ltb_lt pos e)) by lia.
  destruct (Z.ltb_spec (pos + Z.min (4096 - pos mod 4096) (e - pos)) e); zdm.
Qed.

Lemma spans_pos pos e : 0 <= pos -> 0 <= spans pos e.
Proof. intros H. unfold spans. fconsts. destruct (Z.ltb_spec pos e); zdm. Qed.

(** One step of [transfer] with the arithmetic done. *)
Lemma transfer_step {S} {HS : Store S} fuel (move : Z -> Z -> Z -> M S unit) k f buf pos off count :
  0 <= off <= pos -> pos < off + count < 2 ^ 31 -> 0 <= buf -> buf + (off + count - pos) <= 2 ^ 32 ->
  transfer fuel move (Datatypes.S k) f buf pos off count =
    (let* ' (r, blk) := file_get_block fuel f (pos / BLKSIZE) in
     if r <? 0 then ret r
     else
       move (blk + pos mod BLKSIZE) buf (chunk pos (off + count)) ;;;
       transfer fuel move k f (u32 (buf + chunk pos (off + count))) (pos + chunk pos (off + count)) off count).
Proof.
  intros Ho Hp Hb Hb2. pose proof (chunk_range pos (off + count) ltac:(lia)) as Hc. cbn [transfer].
  rewrite !(u32_small pos), !(u32_small (off + count)) by lia. rewrite (proj2 (Z.ltb_lt _ _)) by lia.
  rewrite Z.quot_div_nonneg, Z.rem_mod_nonneg by (lia || done).
  assert (0 <= pos mod BLKSIZE < BLKSIZE) as Hm by by apply Z.mod_pos_bound.
  assert (BLKSIZE = 4096) as EB by done.
  rewrite (u32_small (pos / BLKSIZE)) by (rewrite EB; zdm).
  rewrite (u32_small (BLKSIZE - _)), (u32_small (off + count - pos)) by lia.
  assert (s32 (MIN (BLKSIZE - pos mod BLKSIZE) (off + count - pos)) = chunk pos (off + count)) as ->.
  { rewrite s32_small; unfold MIN, chunk; bcase; lia. }
  rewrite (u32_small (chunk _ _)), s32_small by lia. done.
Qed.

Lemma transfer_end {S} {HS : Store S} fuel (move : Z -> Z -> Z -> M S unit) k f buf off count :
  0 <= off -> 0 <= count -> off + count < 2 ^ 31 ->
  transfer fuel move (Datatypes.S k) f buf (off + count) off count = ret (s32 count).
Proof. intros Ho Hc Hp. cbn [transfer]. by rewrite Z.ltb_irrefl. Qed.

(** ** Writing *)

(** The bytes [pos .. e) of the file are those at [buf], and nothing else changed. *)
Record wrote (m m' : mem) (f buf pos e : Z) : Prop := {
  wr_ok : file_ok m' f;
  wr_grown : grown m m' f;
  wr_kept : kept_free m m';
  wr_limit : limit m f <= limit m' f;
  wr_reach : pos < e -> e <= limit m' f;
  wr_size : ld32 m' (f_size f) = ld32 m (f_size f);
  wr_bytes_new : forall i, pos <= i < e -> fbyte m' f i = Some (ld8 m (buf + (i - pos)));
  wr_bytes_old : forall i, 0 <= i < limit m f -> ~ pos <= i < e -> fbyte m f i <> None -> fbyte m' f i = fbyte m f i;
}.

Section Write.
Context (fuel : nat) (f off count : Z).
Hypothesis Hoff : 0 <= off.
Hypothesis Hcount : 0 <= count.
Hypothesis Hend : off + count < 2 ^ 31.

(** One block of the transfer. *)
Lemma write_step m buf pos :
  file_ok m f -> off <= pos < off + count -> room m f (off + count) -> outside buf (off + count - pos) ->
  (Z.to_nat (spans pos (off + count)) + extra m f (off + count) <= nfree m)%nat -> (Z.to_nat (nblocks m) < fuel)%nat ->
  exists m1 m2, file_get_block fuel f (pos / BLKSIZE) m = Ret (0, baddr (slot m1 f (pos / BLKSIZE))) m1 /\
    copy (baddr (slot m1 f (pos / BLKSIZE)) + pos mod BLKSIZE) buf (chunk pos (off + count)) m1 = Ret tt m2 /\
    wrote m m2 f buf pos (pos + chunk pos (off + count)) /\
    (Z.to_nat (spans (pos + chunk pos (off + count)) (off + count)) + extra m2 f (off + count) <= nfree m2)%nat.
Proof.
  intros H Hp Hroom Hout Hfree Hfuel. set (e := off + count) in *.
  pose proof (chunk_range pos e ltac:(lia)) as Hc. pose proof (spans_step pos e ltac:(lia)) as Hsp.
  pose proof (spans_pos (pos + chunk pos e) e ltac:(lia)) as Hsp0. set (c := chunk pos e) in *. set (n := pos / BLKSIZE).
  assert (n * BLKSIZE <= pos < (n + 1) * BLKSIZE /\ pos + c <= (n + 1) * BLKSIZE) as [Hnp Hnc] by (unfold n; fconsts; zdm).
  destruct (room_slot m f pos e Hroom ltac:(lia)) as [Hn Hor]. fold n in Hn, Hor.
  assert (extra m f ((n + 1) * BLKSIZE) <= extra m f e)%nat as Hex.
  { unfold extra. destruct (_ =? 0); cbn [andb]; [|lia]. destruct (Z.ltb_spec (NDIRECT * BLKSIZE) ((n + 1) * BLKSIZE)); [|lia].
    rewrite (proj2 (Z.ltb_lt _ e)) by (fconsts; lia). lia. }
  destruct (get_block_any fuel m f n H Hn Hor ltac:(right; lia) Hfuel) as (m1 & E1 & G & F1).
  pose proof (got_limit m m1 f n G) as L1. pose proof (got_extra m m1 f n e G ltac:(lia)) as X1.
  pose proof G as [H1 Hn1 Hnz G1 K1 _ S1 B1 _ _]. pose proof (has_slot_limit m1 f n Hn1) as L2.
  set (o := pos mod BLKSIZE) in *. set (l := ld_bytes m1 buf (Z.to_nat c)).
  assert (0 <= o < BLKSIZE) as Ho by by apply Z.mod_pos_bound. assert (n * BLKSIZE + o = pos) as Eo by (unfold o, n; fconsts; zdm).
  assert (length l = Z.to_nat c) as Hl by apply length_ld_bytes.
  assert (o + Z.of_nat (length l) <= BLKSIZE) as Hol by lia.
  pose proof (write_block_file m1 f n o l H1 Hn1 Hnz ltac:(lia) Hol) as W1. pose proof (limit_ind m1 _ f (same_file_ind m1 _ f W1)) as L3.
  pose proof (write_block_meta m1 f n o l H1 Hn1 Hnz ltac:(lia) Hol) as M1.
  assert (forall i, ~ 0 <= i < limit m1 f \/ fbyte (write_block m1 f n o l) f i =
    if (pos <=? i) && (i <? pos + c) then Some (u8 (default 0 (l !! Z.to_nat (i - pos)))) else fbyte m1 f i) as Hby.
  { intros i. destruct (Z.le_gt_cases 0 i), (Z.lt_ge_cases i (limit m1 f)); [right|left; lia..].
    rewrite write_block_byte by (done || lia). rewrite Eo, Hl, Z2Nat.id by lia. done. }
  exists m1, (write_block m1 f n o l). split; [exact E1|]. split; [|split; [split|]].
  - replace c with (Z.of_nat (length l)) by lia. apply copy_in; try done; [lia| |by rewrite Hl].
    destruct Hout as [Hb0 Hout]. split; lia.
  - apply write_block_ok; done || lia.
  - eapply grown_trans; [exact G1|]. apply write_block_grown; done || lia.
  - apply (kept_free_trans m m1); [done|apply write_block_kept; done || lia|]. intros b Hb. by rewrite (same_meta_use m1); [|apply H1|].
  - lia.
  - lia.
  - rewrite <- S1. apply (same_file_word m1 _ f 128 W1); unfold sizeof_File; lia.
  - intros i Hi. destruct (Hby i) as [?| ->]; [lia|].
    rewrite (proj2 (Z.leb_le _ _)), (proj2 (Z.ltb_lt _ _)) by lia. cbn [andb]. f_equal. unfold l.
    rewrite ld_bytes_lookup by lia. cbn [default]. rewrite u8_small by apply ld8_range.
    replace (buf + Z.of_nat (Z.to_nat (i - pos))) with (buf + (i - pos)) by lia.
    apply G1. apply (outside_in_disk buf (e - pos)); [done|lia].
  - intros i Hil Hi Hib. rewrite <- B1 by done. destruct (Hby i) as [?| ->]; [lia|].
    destruct (Z.leb_spec pos i), (Z.ltb_spec i (pos + c)); cbn [andb]; try done. lia.
  - rewrite write_block_nfree by (done || lia). unfold extra at 1. rewrite (same_file_ind m1 _ f W1). fold (extra m1 f e). lia.
Qed.

(** What is left fits. *)
Lemma wrote_room m m' buf pos mid e :
  sane m = true -> wrote m m' f buf pos mid -> room m f e -> room m' f e.
Proof.
  intros Hs W [Hr|[Hc He]]; [left; pose proof (wr_limit _ _ _ _ _ _ W); lia|right]. split; [|done].
  destruct W as [_ [_ G1 G2 _ _] K _ _ _ _ _]. by apply (zeroed_kept m).
Qed.

Lemma wrote_trans m m1 m2 buf pos mid e :
  wrote m m1 f buf pos mid -> wrote m1 m2 f (buf + (mid - pos)) mid e -> 0 <= pos -> pos < mid <= e ->
  outside buf (e - pos) -> wrote m m2 f buf pos e.
Proof.
  intros [A1 A2 A3 A4 A5 A6 A7 A8] [B1 B2 B3 B4 B5 B6 B7 B8] H0 Hm Hout. specialize (A5 ltac:(lia)).
  split; [done|by eapply grown_trans|apply (kept_free_trans m m1); [done|done|apply B2]|lia| |congruence|..].
  - intros _. destruct (Z.eq_dec mid e) as [->|]; [lia|apply B5; lia].
  - intros i Hi. destruct (Z.lt_ge_cases i mid).
    + rewrite B8; [apply A7; lia|lia|lia|]. rewrite A7 by lia. discriminate.
    + rewrite B7 by lia. replace (buf + (mid - pos) + (i - mid)) with (buf + (i - pos)) by lia. f_equal.
      apply A2. apply (outside_in_disk buf (e - pos)); [done|lia].
  - intros i Hil Hi Hib. rewrite B8; [apply A8; done || lia|lia|lia|]. rewrite A8; done || lia.
Qed.

Lemma file_write_loop_ok k m buf pos :
  file_ok m f -> off <= pos <= off + count -> room m f (off + count) ->
  outside buf (off + count - pos) -> buf + (off + count - pos) < 2 ^ 32 ->
  (Z.to_nat (spans pos (off + count)) + extra m f (off + count) <= nfree m)%nat -> (Z.to_nat (nblocks m) < fuel)%nat ->
  (Z.to_nat (spans pos (off + count)) < k)%nat ->
  exists m', transfer fuel (fun a b n => copy a b n) k f buf pos off count m = Ret (s32 count) m' /\
    wrote m m' f buf pos (off + count).
Proof.
  revert m buf pos. induction k as [|k IH]; intros m buf pos H Hp Hroom Hout Hbuf Hfree Hfuel Hk; [lia|].
  destruct (Z.eq_dec pos (off + count)) as [->|Hne].
  { exists m. rewrite transfer_end by done. split; [done|].
    split; [done|apply grown_refl|done|lia|lia|done|intros i ?; lia|done]. }
  pose proof (proj1 Hout) as Hb0. rewrite transfer_step by lia.
  destruct (write_step m buf pos H ltac:(lia) Hroom Hout Hfree Hfuel) as (m1 & m2 & E1 & E2 & W & F2).
  pose proof (chunk_range pos (off + count) ltac:(lia)) as Hc. pose proof (spans_step pos (off + count) ltac:(lia)) as Hsp.
  pose proof (spans_pos (pos + chunk pos (off + count)) (off + count) ltac:(lia)).
  set (c := chunk pos (off + count)) in *.
  erewrite bind_ret by exact E1. cbv iota beta. change (0 <? 0) with false. cbv iota.
  erewrite bind_ret by exact E2. rewrite u32_small by lia.
  destruct (IH m2 (buf + c) (pos + c)) as (m3 & E3 & W3).
  - apply W.
  - lia.
  - by apply (wrote_room m m2 buf pos (pos + c)); [apply H|..].
  - destruct Hout as [? Hout]. split; lia.
  - lia.
  - exact F2.
  - by rewrite (gr_nb _ _ _ (wr_grown _ _ _ _ _ _ W)).
  - lia.
  - exists m3. split; [exact E3|]. apply (wrote_trans m m2 m3 buf pos (pos + c)); try done; try lia.
    by replace (buf + (pos + c - pos)) with (buf + c) by lia.
Qed.
End Write.

(** ** The size of a file *)

Section Size.
Context (m : mem) (f v : Z).
Hypothesis Hf : file_ok m f.

Definition set_size : mem := st32 m (f_size f) v.

Lemma set_size_meta : same_meta m set_size.
Proof.
  apply harmless_st32; [apply Hf|]. intros i Hi. unfold f_size. rewrite <- Z.add_assoc.
  apply file_harmless; [done|]. unfold sizeof_File. lia.
Qed.

Lemma set_size_ind : ind set_size f = ind m f.
Proof. unfold ind, set_size. apply ld32_st32_ne. fconsts. lia. Qed.

Lemma set_size_slot n : has_slot m f n -> slot set_size f n = slot m f n.
Proof.
  intros Hn. unfold slot, slot_addr. rewrite set_size_ind. fold (slot_addr m f n). unfold set_size.
  apply ld32_st32_ne. pose proof (slot_addr_struct m f n 128 Hf Hn ltac:(auto)). unfold f_size. lia.
Qed.

Lemma set_size_other a : blk a <> blk f -> ld8 set_size a = ld8 m a.
Proof. intros Ha. apply ld8_st32_ne. pose proof (fo_fits _ _ Hf). fconsts. zdm. Qed.

Lemma set_size_ok : file_ok set_size f.
Proof.
  pose proof set_size_meta as Hm. pose proof (same_meta_data _ _ Hm) as Hd0.
  destruct Hf as [H1 H2 H3 H4 H5 H6 H7 H8].
  assert (forall b, data_block set_size b <-> data_block m b) as Hdb.
  { intros b. unfold data_block. by rewrite Hd0, (same_meta_use m). }
  assert (forall n, has_slot set_size f n <-> has_slot m f n) as Hh by (intros n; unfold has_slot; by rewrite set_size_ind).
  split; rewrite ?set_size_ind, ?Hd0; auto.
  - by apply (same_meta_sane m).
  - by rewrite (same_meta_use m).
  - intros Hi. rewrite Hdb. auto.
  - intros n Hn%Hh. rewrite set_size_slot, Hdb by done. auto.
  - intros n k Hn%Hh Hk%Hh. rewrite !set_size_slot by done. auto.
Qed.

Lemma set_size_byte pos : 0 <= pos < limit m f -> fbyte set_size f pos = fbyte m f pos.
Proof.
  intros Hp. pose proof (limit_slot m f pos Hp) as Hk. unfold fbyte. rewrite set_size_slot by done.
  destruct (Z.eqb_spec (slot m f (pos / BLKSIZE)) 0) as [|Hk0]; [done|]. f_equal. apply set_size_other.
  destruct (fo_slot _ _ Hf _ Hk Hk0) as (_ & Hb & _). pose proof (Z.mod_pos_bound pos BLKSIZE ltac:(done)).
  assert (blk (baddr (slot m f (pos / BLKSIZE)) + pos mod BLKSIZE) = slot m f (pos / BLKSIZE)) as -> by (fconsts; zdm). done.
Qed.

Lemma set_size_grown : grown m set_size f.
Proof.
  pose proof set_size_meta as Hm. split.
  - intros a Ha. apply not_true_iff_false in Ha. rewrite in_disk_range in Ha. apply set_size_other.
    pose proof (in_use_facts _ _ (fo_blk _ _ Hf)) as [Hb _]. pose proof (nblocks_range m (fo_sane _ _ Hf)). fconsts. zdm.
  - apply Hm.
  - intros b Hb. by rewrite (same_meta_use m); [|apply Hf|].
  - intros a _ _ _ Hfa _. apply ld8_st32_ne. fconsts. lia.
  - intros b [H0 [E|(k & Hk & E)]]; left; (split; [done|]).
    + left. by rewrite set_size_ind in E.
    + right. unfold has_slot in Hk. rewrite set_size_ind in Hk. rewrite set_size_slot in E by done. eauto.
Qed.

Lemma set_size_kept : kept_free m set_size.
Proof.
  apply (kept_free_st32 _ _ _ (blk f)); [fold set_size; rewrite (same_meta_use m); [apply Hf|apply Hf|apply set_size_meta]|..];
    pose proof (fo_fits _ _ Hf); fconsts; lia.
Qed.

Lemma set_size_nfree : nfree set_size = nfree m.
Proof.
  unfold nfree. pose proof set_size_meta as Hm. rewrite (sm_nb _ _ Hm). f_equal. apply filter_length_ext.
  intros c Hc%elem_of_seqZ. pose proof (same_meta_use m _ c (fo_sane _ _ Hf) Hm) as E. unfold in_use in E.
  rewrite (sm_nb _ _ Hm), (proj2 (Z.leb_le _ _)), (proj2 (Z.ltb_lt _ _)) in E by lia. cbn [andb] in E.
  by destruct (bit_free set_size c), (bit_free m c).
Qed.
End Size.

Lemma file_in_disk m f : file_ok m f -> in_disk f = true.
Proof.
  intros H. pose proof (fo_fits _ _ H). pose proof (in_use_facts _ _ (fo_blk _ _ H)) as [Hb _].
  pose proof (nblocks_range m (fo_sane _ _ H)). rewrite in_disk_range. fconsts. lia.
Qed.

Lemma rd_size m f : file_ok m f -> rd32 (f_size f) m = Ret (ld32 m (f_size f)) m.
Proof. intros H. apply rd32_flat; [apply H|]. apply file_word; [done|unfold sizeof_File; lia..]. Qed.

(** Extending a file only changes its size. *)
Lemma file_set_size_grow fuel m f v :
  file_ok m f -> ld32 m (f_size f) <= v < 2 ^ 31 -> file_set_size fuel f v m = Ret 0 (set_size m f v).
Proof.
  intros H Hv. pose proof (ld32_range m (f_size f)). unfold file_set_size. erewrite bind_ret by by apply rd_size.
  rewrite s32_small by lia. rewrite (proj2 (Z.ltb_ge _ _)) by lia. erewrite bind_ret by reflexivity.
  erewrite bind_ret by (apply wr32_flat; [apply H|]; apply file_word; [done|unfold sizeof_File; lia..]).
  cbn [flush_block flat]. rewrite (file_in_disk m f H). done.
Qed.

(** ** The whole of [file_write] *)

Lemma file_write_flat fuel m f buf count off :
  file_ok m f -> ld32 m (f_size f) < 2 ^ 31 -> 0 <= off -> 0 <= count -> off + count < 2 ^ 31 -> room m f (off + count) ->
  outside buf count -> buf + count < 2 ^ 32 ->
  (Z.to_nat (spans off (off + count)) + extra m f (off + count) <= nfree m)%nat -> (Z.to_nat (nblocks m) < fuel)%nat ->
  (Z.to_nat (spans off (off + count)) < fuel)%nat ->
  exists m', file_write fuel f buf count off m = Ret count m' /\
    file_ok m' f /\ grown m m' f /\ kept_free m m' /\ (0 < count -> off + count <= limit m' f) /\
    ld32 m' (f_size f) = Z.max (ld32 m (f_size f)) (off + count) /\
    (forall i, off <= i < off + count -> fbyte m' f i = Some (ld8 m (buf + (i - off)))) /\
    (forall i, 0 <= i < limit m f -> ~ off <= i < off + count -> fbyte m f i <> None -> fbyte m' f i = fbyte m f i).
Proof.
  intros H Hsz Hoff Hcount Hend Hroom Hout Hbuf Hfree Hfuel Hk. pose proof (ld32_range m (f_size f)) as Hr.
  unfold file_write. erewrite bind_ret by by apply rd_size.
  rewrite (u32_small (ld32 m _)), !(u32_small (off + count)) by lia.
  set (m1 := if ld32 m (f_size f) <? off + count then set_size m f (off + count) else m).
  assert ((if ld32 m (f_size f) <? off + count then file_set_size fuel f (s32 (off + count)) else ret 0) m = Ret 0 m1) as E1.
  { unfold m1. destruct (Z.ltb_spec (ld32 m (f_size f)) (off + count)); [|done].
    rewrite s32_small by lia. apply file_set_size_grow; [done|lia]. }
  erewrite bind_ret by exact E1. change (0 <? 0) with false. cbv iota.
  assert (file_ok m1 f /\ grown m m1 f /\ ind m1 f = ind m f /\ nfree m1 = nfree m /\
    ld32 m1 (f_size f) = Z.max (ld32 m (f_size f)) (off + count) /\
    (forall pos, 0 <= pos < limit m f -> fbyte m1 f pos = fbyte m f pos) /\ kept_free m m1) as (A1 & A2 & A3 & A4 & A5 & A6 & A7).
  { unfold m1. destruct (Z.ltb_spec (ld32 m (f_size f)) (off + count)).
    - split; [by apply set_size_ok|]. split; [by apply set_size_grown|]. split; [apply set_size_ind|].
      split; [by apply set_size_nfree|]. split; [unfold set_size; rewrite ld32_st32_eq, u32_small; lia|].
      split; [intros; by apply set_size_byte|by apply set_size_kept].
    - repeat (split; [done || apply grown_refl || lia|]). done. }
  clearbody m1. pose proof (limit_ind m m1 f A3) as El.
  assert (room m1 f (off + count)) as Hroom1.
  { destruct Hroom as [?|[Hc ?]]; [left; lia|right]. split; [|done]. apply (zeroed_kept m); [apply H|apply A2|done|apply A2|done]. }
  destruct (file_write_loop_ok fuel f off count Hoff Hcount Hend fuel m1 buf off) as (m2 & E2 & [B1 B2 B3 B4 B5 B6 B7 B8]);
    rewrite ?A4, ?(gr_nb _ _ _ A2), ?Z.add_simpl_l; try done; try lia.
  { unfold extra in *. by rewrite A3. }
  exists m2. rewrite s32_small in E2 by lia. rewrite El in B8. split; [exact E2|]. split; [done|]. split; [by eapply grown_trans|].
  split; [apply (kept_free_trans m m1); [done|done|apply B2]|]. split; [intros; apply B5; lia|]. split; [congruence|]. split.
  - intros i Hi. rewrite B7 by done. f_equal. apply A2. apply (outside_in_disk buf count); [done|lia].
  - intros i Hil Hi Hib. rewrite B8; rewrite ?A6; done.
Qed.

(** ** Reading *)

(** [m'] is [m] with the bytes [pos .. e) of the file at [buf]. *)
Definition read_into (m m' : mem) (f buf pos e : Z) : Prop := forall a,
  ld8 m' a = if (buf <=? a) && (a <? buf + (e - pos)) then default 0 (fbyte m f (pos + (a - buf))) else ld8 m a.

(** Memory no file lives in: outside the disk region, or in the boot sector. *)
Definition apart (a n : Z) : Prop := 0 <= a /\ (a + n <= DISKMAP + BLKSIZE \/ DISKMAP + DISKSIZE <= a).

Lemma outside_apart a n : outside a n -> apart a n.
Proof. unfold outside, apart. fconsts. lia. Qed.

Lemma apart_ok m a n i : sane m = true -> apart a n -> 0 <= i < n -> avail m (a + i) = true /\ harmless m (a + i).
Proof.
  intros Hs [H0 H] Hi. pose proof (nblocks_range m Hs) as Hr. split; [|unfold harmless; fconsts; lia]. unfold avail.
  destruct (in_disk (a + i)) eqn:E; [|done]. rewrite in_disk_range in E. replace (blk (a + i)) with 0 by (fconsts; zdm).
  cbn [negb orb]. apply reserved_in_use; [done|]. unfold data0. fconsts. zdm.
Qed.

(** A change there is not seen by a file. *)
Lemma apart_same m m' f :
  file_ok m f -> (forall a, in_disk a = true -> 1 <= blk a -> ld8 m' a = ld8 m a) ->
  file_ok m' f /\ same_file m m' f /\ forall pos, 0 <= pos < limit m f -> fbyte m' f pos = fbyte m f pos.
Proof.
  intros H Ha. pose proof (fo_sane _ _ H) as Hs. pose proof (nblocks_range m Hs) as Hr.
  assert (2 <= data0 m) as Hd0 by (unfold data0; fconsts; zdm).
  assert (forall b i, in_use m b = true -> 1 <= b -> 0 <= i < BLKSIZE -> ld8 m' (baddr b + i) = ld8 m (baddr b + i)) as Hblk.
  { intros b i Hb H1 Hi. apply in_use_facts in Hb as [Hb _]. destruct (in_disk_baddr b i) as [E1 E2]; [lia|done|].
    apply Ha; [done|]. by rewrite E2. }
  assert (same_meta m m') as Hm.
  { split; [apply ld32_ext; intros i Hi|intros a Hai]; (apply Ha; [rewrite in_disk_range; fconsts; lia|fconsts; zdm]). }
  assert (same_file m m' f) as Hsf.
  { split.
    - intros i Hi. pose proof (fo_fits _ _ H). replace (f + i) with (baddr (blk f) + (f + i - baddr (blk f))) by lia.
      apply Hblk; [apply H| |fconsts; lia]. destruct (fo_where _ _ H) as [-> |]; [by vm_compute|lia].
    - intros Hi i Hib. destruct (fo_ind _ _ H Hi) as [[? ?] _]. apply Hblk; [done|lia|done]. }
  assert (file_ok m' f) as H'.
  { apply (file_ok_ext m); [done|done|by apply (same_meta_sane m)|apply Hm|]. intros b Hb. by rewrite (same_meta_use m). }
  split; [done|]. split; [done|]. intros pos Hp. pose proof (limit_slot m f pos Hp) as Hk. unfold fbyte.
  rewrite (same_file_slot m m' f _ Hsf Hk). destruct (Z.eqb_spec (slot m f (pos / BLKSIZE)) 0) as [|Hk0]; [done|].
  destruct (fo_slot _ _ H _ Hk Hk0) as [[? ?] _]. f_equal. apply Hblk; [done|lia|]. by apply Z.mod_pos_bound.
Qed.

Section Read.
Context (fuel : nat) (f off count : Z).
Hypothesis Hoff : 0 <= off.
Hypothesis Hcount : 0 <= count.
Hypothesis Hend : off + count < 2 ^ 31.

(** One block of the transfer. *)
Lemma read_step m buf pos :
  file_ok m f -> off <= pos < off + count -> off + count <= limit m f ->
  apart buf (off + count - pos) -> (forall i, pos <= i < off + count -> fbyte m f i <> None) ->
  exists m', file_get_block fuel f (pos / BLKSIZE) m = Ret (0, baddr (slot m f (pos / BLKSIZE))) m /\
    copy buf (baddr (slot m f (pos / BLKSIZE)) + pos mod BLKSIZE) (chunk pos (off + count)) m = Ret tt m' /\
    read_into m m' f buf pos (pos + chunk pos (off + count)).
Proof.
  intros H Hp Hlim Hout Hthere. pose proof (fo_sane _ _ H) as Hs. set (e := off + count) in *.
  pose proof (chunk_range pos e ltac:(lia)) as Hc. set (c := chunk pos e) in *.
  assert (has_slot m f (pos / BLKSIZE)) as Hn by (apply limit_slot; lia).
  assert (slot m f (pos / BLKSIZE) <> 0) as Hnz.
  { intros E. apply (Hthere pos); [lia|]. unfold fbyte. by rewrite E. }
  destruct (fo_slot _ _ H _ Hn Hnz) as (Hd & _). set (b := slot m f (pos / BLKSIZE)) in *.
  assert (0 <= pos mod BLKSIZE < BLKSIZE) as Ho by by apply Z.mod_pos_bound.
  eexists. split; [by apply get_block_there|]. split.
  - unfold copy. erewrite bind_ret.
    2: { apply rd_bytes_flat; [done|]. intros i Hi. rewrite <- Z.add_assoc. apply avail_data; [done|lia]. }
    apply wr_bytes_flat; [done|]. rewrite length_ld_bytes. intros i Hi. apply (apart_ok m buf (e - pos)); [done..|lia].
  - intros a. rewrite ld8_st_bytes, length_ld_bytes. replace (pos + c - pos) with c by lia. rewrite Z2Nat.id by lia.
    destruct (Z.leb_spec buf a), (Z.ltb_spec a (buf + c)); cbn [andb]; try done.
    rewrite ld_bytes_lookup by lia. cbn [default]. rewrite u8_small by apply ld8_range.
    assert ((pos + (a - buf)) / BLKSIZE = pos / BLKSIZE) as Ep by (fconsts; zdm).
    unfold fbyte. rewrite Ep. fold b. rewrite (proj2 (Z.eqb_neq _ _)) by done. cbn [default from_option id]. fconsts. f_equal. zdm.
Qed.

Lemma file_read_loop_ok k m buf pos :
  file_ok m f -> off <= pos <= off + count -> off + count <= limit m f ->
  apart buf (off + count - pos) -> buf + (off + count - pos) < 2 ^ 32 ->
  (forall i, pos <= i < off + count -> fbyte m f i <> None) -> (Z.to_nat (spans pos (off + count)) < k)%nat ->
  exists m', transfer fuel (fun a b n => copy b a n) k f buf pos off count m = Ret (s32 count) m' /\
    read_into m m' f buf pos (off + count).
Proof.
  revert m buf pos. induction k as [|k IH]; intros m buf pos H Hp Hlim Hout Hbuf Hthere Hk; [lia|].
  destruct (Z.eq_dec pos (off + count)) as [->|Hne].
  { exists m. rewrite transfer_end by done. split; [done|]. intros a. rewrite Z.sub_diag, Z.add_0_r.
    destruct (Z.leb_spec buf a), (Z.ltb_spec a buf); cbn [andb]; done || lia. }
  pose proof (proj1 Hout) as Hb0. rewrite transfer_step by lia.
  destruct (read_step m buf pos H ltac:(lia) Hlim Hout Hthere) as (m1 & E1 & E2 & R1).
  pose proof (chunk_range pos (off + count) ltac:(lia)) as Hc. pose proof (spans_step pos (off + count) ltac:(lia)) as Hsp.
  pose proof (spans_pos (pos + chunk pos (off + count)) (off + count) ltac:(lia)).
  set (c := chunk pos (off + count)) in *.
  erewrite bind_ret by exact E1. cbv iota beta. change (0 <? 0) with false. cbv iota.
  erewrite bind_ret by exact E2. rewrite u32_small by lia.
  destruct (apart_same m m1 f H) as (H1 & S1 & B1).
  { intros a Ha Hb. rewrite R1. destruct (Z.leb_spec buf a), (Z.ltb_spec a (buf + (pos + c - pos))); cbn [andb]; try done.
    exfalso. apply in_disk_range in Ha. destruct Hout as [_ Hout]. fconsts. zdm. }
  assert (limit m1 f = limit m f) as El by by apply limit_ind, same_file_ind.
  destruct (IH m1 (buf + c) (pos + c)) as (m2 & E3 & R2); rewrite ?El; try done; try lia.
  { destruct Hout as [? Hout]. split; lia. }
  { intros i Hi. rewrite B1 by lia. apply Hthere. lia. }
  exists m2. split; [exact E3|]. intros a. rewrite R2, R1.
  destruct (Z.leb_spec (buf + c) a), (Z.ltb_spec a (buf + c + (off + count - (pos + c)))),
    (Z.leb_spec buf a), (Z.ltb_spec a (buf + (off + count - pos))), (Z.ltb_spec a (buf + (pos + c - pos))); cbn [andb]; try done; try lia.
  rewrite B1 by lia. do 2 f_equal. lia.
Qed.
End Read.

Lemma file_read_flat fuel m f buf count off :
  let n := Z.min count (ld32 m (f_size f) - off) in
  file_ok m f -> ld32 m (f_size f) < 2 ^ 31 -> 0 <= off < ld32 m (f_size f) -> 0 <= count < 2 ^ 32 -> off + n <= limit m f ->
  apart buf n -> buf + n < 2 ^ 32 -> (forall i, off <= i < off + n -> fbyte m f i <> None) ->
  (Z.to_nat (spans off (off + n)) < fuel)%nat ->
  exists m', file_read fuel f buf count off m = Ret n m' /\ read_into m m' f buf off (off + n).
Proof.
  intros n H Hsz Hoff Hcount Hlim Hout Hbuf Hthere Hk. unfold file_read. erewrite bind_ret by by apply rd_size.
  rewrite s32_small by lia. rewrite (proj2 (Z.leb_gt _ _)) by lia. erewrite bind_ret by by apply rd_size.
  rewrite s32_small, u32_small by lia.
  assert (MIN count (ld32 m (f_size f) - off) = n) as -> by (unfold MIN, n; bcase; lia).
  assert (0 <= n < 2 ^ 31 /\ off + n < 2 ^ 31) as Hn by (unfold n; lia). clearbody n.
  destruct (file_read_loop_ok fuel f off n ltac:(lia) ltac:(lia) ltac:(lia) fuel m buf off) as (m' & E & R); try done; try lia.
  { by replace (off + n - off) with n by lia. }
  exists m'. rewrite s32_small in E by lia. done.
Qed.
