(* ===== verification/FsTrunc.v ===== *)
(** Truncation on the flat store: which blocks [file_set_size] gives back. *)

From S2P Require Import Prelude Mmu Mem Ide Bc BcSim Fs FsFlat FsFile FsGrow FsRw.

(** ** Giving a block back *)

Section Clear.
Context (m : mem) (f p b : Z).
Hypothesis Hf : file_ok m f.

(** The word at [p], in the structure or the indirect block of [f], names the block [b]. *)
Hypothesis Hp : forall i, 0 <= i < 4 -> harmless m (p + i) /\ off_bitmap m (p + i).
Hypothesis Hw : word_ok m p.
Hypothesis Hb : data_block m b.
Hypothesis Hpb : blk p <> b /\ blk (p + 3) <> b.

Definition clear : mem := st32 (unuse m b) p 0.

Lemma clear_range : 0 < b < nblocks m /\ data0 m <= b.
Proof.
  destruct Hb as [H1 H2]. apply in_use_facts in H2 as [H2 _]. pose proof (nblocks_range m (fo_sane _ _ Hf)). lia.
Qed.

Lemma clear_sane1 : sane (unuse m b) = true.
Proof. pose proof clear_range. apply unuse_sane; [apply Hf|lia]. Qed.

Lemma clear_nb1 : nblocks (unuse m b) = nblocks m.
Proof. pose proof clear_range. apply bitmap_nblocks; [apply Hf|lia]. Qed.

Lemma clear_meta : same_meta (unuse m b) clear.
Proof.
  apply harmless_st32; [apply clear_sane1|]. intros i Hi. destruct (Hp i Hi) as [H _].
  unfold harmless, data0 in *. by rewrite clear_nb1.
Qed.

Lemma clear_sane : sane clear = true.
Proof. apply (same_meta_sane (unuse m b)); [apply clear_sane1|apply clear_meta]. Qed.

Lemma clear_nb : nblocks clear = nblocks m.
Proof. rewrite (sm_nb _ _ clear_meta). apply clear_nb1. Qed.

Lemma clear_use c : in_use clear c = in_use m c && negb (c =? b).
Proof.
  pose proof clear_range. rewrite (same_meta_use (unuse m b)); [|apply clear_sane1|apply clear_meta].
  apply unuse_in_use; [apply Hf|lia].
Qed.

(** The run of the two statements [free_block(b); *p = 0]. *)
Lemma clear_run : bind (free_block b) (fun _ => wr32 p 0) m = Ret tt clear.
Proof.
  pose proof clear_range. erewrite bind_ret by (apply free_block_flat; [apply Hf|lia]).
  apply wr32_flat; [apply clear_sane1|]. destruct Hw as [H1 H2]. unfold word_ok, avail in *.
  rewrite !unuse_in_use by (apply Hf || lia). destruct Hpb as [B1 B2].
  by rewrite (proj2 (Z.eqb_neq _ _) B1), (proj2 (Z.eqb_neq _ _) B2), !andb_true_r.
Qed.

Lemma clear_ld8 a : off_bitmap m a -> a < p \/ p + 4 <= a -> ld8 clear a = ld8 m a.
Proof. intros Ho Ha. pose proof clear_range. unfold clear. rewrite ld8_st32_ne by lia. apply bitmap_ld8; [apply Hf|lia|done]. Qed.

Lemma clear_ld32 a :
  (forall i, 0 <= i < 4 -> off_bitmap m (a + i)) -> a + 4 <= p \/ p + 4 <= a -> ld32 clear a = ld32 m a.
Proof. intros Ho Ha. apply ld32_ext. intros i Hi. apply clear_ld8; [by apply Ho|lia]. Qed.

Lemma clear_same : ld32 clear p = 0.
Proof. unfold clear. by rewrite ld32_st32_eq. Qed.
End Clear.

(** ** Clearing an entry of the block map *)

Section ClearSlot.
Context (m : mem) (f n : Z).
Hypothesis Hf : file_ok m f.
Hypothesis Hn : has_slot m f n.
Hypothesis Hnz : slot m f n <> 0.

Definition drop_slot : mem := clear m (slot_addr m f n) (slot m f n).

Lemma slot_off_bitmap k i : has_slot m f k -> 0 <= i < 4 -> off_bitmap m (slot_addr m f k + i).
Proof.
  intros [Hk Hs] Hi. unfold slot_addr. destruct (Z.ltb_spec k NDIRECT).
  - unfold f_direct. rewrite <- !Z.add_assoc. apply file_off_bitmap; [done|]. fconsts. lia.
  - destruct Hs as [?|Hi0]; [lia|]. rewrite <- Z.add_assoc. apply data_off_bitmap; [by apply (fo_ind _ _ Hf)|]. fconsts. zdm.
Qed.

Lemma slot_blk k i : has_slot m f k -> 0 <= i < 4 ->
  blk (slot_addr m f k + i) = blk f \/ (ind m f <> 0 /\ blk (slot_addr m f k + i) = ind m f).
Proof.
  intros [Hk Hs] Hi. pose proof (fo_fits _ _ Hf). unfold slot_addr. destruct (Z.ltb_spec k NDIRECT); [left; fconsts; zdm|].
  destruct Hs as [?|Hi0]; [lia|]. right. split; [done|]. fconsts. zdm.
Qed.

Lemma drop_where : (forall i, 0 <= i < 4 -> harmless m (slot_addr m f n + i) /\ off_bitmap m (slot_addr m f n + i)) /\
  word_ok m (slot_addr m f n) /\ data_block m (slot m f n) /\
  (blk (slot_addr m f n) <> slot m f n /\ blk (slot_addr m f n + 3) <> slot m f n).
Proof.
  destruct (fo_slot _ _ Hf n Hn Hnz) as (H1 & H2 & H3).
  split; [intros i Hi; split; [by apply slot_harmless|by apply slot_off_bitmap]|]. split; [by apply slot_word|]. split; [done|].
  pose proof (slot_blk n 0 Hn ltac:(lia)) as B0. rewrite Z.add_0_r in B0. pose proof (slot_blk n 3 Hn ltac:(lia)) as B3.
  split; intros E; rewrite E in *; intuition congruence.
Qed.

Lemma drop_ind : ind drop_slot f = ind m f.
Proof.
  destruct drop_where as (W1 & W2 & W3 & W4). apply (clear_ld32 m f); [done..| |].
  - intros i Hi. unfold f_indirect. rewrite <- Z.add_assoc. apply file_off_bitmap; [done|]. fconsts. lia.
  - pose proof (slot_addr_struct m f n 176 Hf Hn ltac:(auto)). unfold f_indirect. lia.
Qed.

Lemma drop_slot_slot k : has_slot m f k -> slot drop_slot f k = if k =? n then 0 else slot m f k.
Proof.
  intros Hk. destruct drop_where as (W1 & W2 & W3 & W4). unfold slot at 1. unfold slot_addr. rewrite drop_ind. fold (slot_addr m f k).
  unfold drop_slot. destruct (Z.eqb_spec k n) as [->|Hne]; [apply clear_same|].
  apply (clear_ld32 m f); [done..| |].
  - intros i Hi. by apply slot_off_bitmap.
  - apply slot_addr_disjoint; auto.
Qed.

Lemma drop_size : ld32 drop_slot (f_size f) = ld32 m (f_size f).
Proof.
  destruct drop_where as (W1 & W2 & W3 & W4). apply (clear_ld32 m f); [done..| |].
  - intros i Hi. unfold f_size. rewrite <- Z.add_assoc. apply file_off_bitmap; [done|]. fconsts. lia.
  - pose proof (slot_addr_struct m f n 128 Hf Hn ltac:(auto)). unfold f_size. lia.
Qed.

Lemma drop_ok : file_ok drop_slot f.
Proof.
  destruct drop_where as (W1 & W2 & W3 & W4). destruct (fo_slot _ _ Hf n Hn Hnz) as (_ & Hnf & Hni).
  assert (data0 drop_slot = data0 m) as Hd by (unfold data0, drop_slot; by rewrite (clear_nb m f)).
  assert (forall c, data_block m c -> c <> slot m f n -> data_block drop_slot c) as Hdb.
  { intros c [C1 C2] Hc. split; [lia|]. unfold drop_slot. rewrite (clear_use m f), C2 by done. by rewrite (proj2 (Z.eqb_neq _ _) Hc). }
  assert (forall k, has_slot drop_slot f k <-> has_slot m f k) as Hh by (intros k; unfold has_slot; by rewrite drop_ind).
  split; rewrite ?drop_ind, ?Hd; try apply Hf.
  - by apply (clear_sane m f).
  - unfold drop_slot. rewrite (clear_use m f), (fo_blk _ _ Hf) by done. by rewrite (proj2 (Z.eqb_neq (blk f) _)) by done.
  - intros Hi. destruct (fo_ind _ _ Hf Hi). auto.
  - intros k Hk%Hh. rewrite drop_slot_slot by done. destruct (Z.eqb_spec k n) as [->|Hne]; [done|]. intros Hk0.
    destruct (fo_slot _ _ Hf k Hk Hk0) as (K1 & K2 & K3). split; [|done]. apply Hdb; [done|].
    intros E. apply Hne. by apply (fo_inj _ _ Hf).
  - intros k j Hk%Hh Hj%Hh. rewrite !drop_slot_slot by done.
    destruct (Z.eqb_spec k n), (Z.eqb_spec j n); subst; auto; try congruence. by apply (fo_inj _ _ Hf).
Qed.

Lemma drop_byte pos : 0 <= pos < limit m f -> pos / BLKSIZE <> n -> fbyte drop_slot f pos = fbyte m f pos.
Proof.
  intros Hp Hne. pose proof (limit_slot m f pos Hp) as Hk. destruct drop_where as (W1 & W2 & W3 & W4). unfold fbyte.
  rewrite drop_slot_slot by done. rewrite (proj2 (Z.eqb_neq _ _) Hne).
  destruct (Z.eqb_spec (slot m f (pos / BLKSIZE)) 0) as [|Hk0]; [done|]. f_equal.
  destruct (fo_slot _ _ Hf _ Hk Hk0) as (K1 & K2 & K3). pose proof (Z.mod_pos_bound pos BLKSIZE ltac:(done)) as Hm.
  set (a := baddr (slot m f (pos / BLKSIZE)) + pos mod BLKSIZE).
  assert (blk a = slot m f (pos / BLKSIZE)) as Ea by (unfold a; fconsts; zdm).
  apply (clear_ld8 m f); [done..|by apply data_off_bitmap|].
  destruct (Z.lt_ge_cases a (slot_addr m f n)); [by left|]. destruct (Z.lt_ge_cases a (slot_addr m f n + 4)); [|by right]. exfalso.
  destruct (slot_blk n (a - slot_addr m f n) Hn ltac:(lia)) as [E|[_ E]];
    replace (slot_addr m f n + (a - slot_addr m f n)) with a in E by lia; congruence.
Qed.
End ClearSlot.

(** ** The loop *)

(** [c] is named by one of the entries [new .. k) of the block map. *)
Definition dropped (m : mem) (f new k c : Z) : Prop :=
  c <> 0 /\ exists n, new <= n < k /\ has_slot m f n /\ slot m f n = c.

(** The entries [new .. k) have been cleared and their blocks given back. *)
Record trunc (m mk : mem) (f new k : Z) : Prop := {
  tr_ok : file_ok mk f;
  tr_ind : ind mk f = ind m f;
  tr_size : ld32 mk (f_size f) = ld32 m (f_size f);
  tr_nb : nblocks mk = nblocks m;
  tr_slot : forall j, has_slot m f j -> slot mk f j = if (new <=? j) && (j <? k) then 0 else slot m f j;
  tr_use : forall c, in_use mk c = true <-> in_use m c = true /\ ~ dropped m f new k c;
  tr_byte : forall pos, 0 <= pos < limit m f -> pos / BLKSIZE < new -> fbyte mk f pos = fbyte m f pos;
  tr_keep : forall a, off_bitmap m a -> a < f \/ f + sizeof_File <= a -> ind m f = 0 \/ blk a <> ind m f -> ld8 mk a = ld8 m a;
}.

Lemma trunc_start m f new : file_ok m f -> trunc m m f new new.
Proof.
  intros H. split; auto.
  - intros j Hj. destruct (Z.leb_spec new j), (Z.ltb_spec j new); cbn [andb]; done || lia.
  - intros c. split; [|tauto]. intros Hc. split; [done|]. intros (_ & n & ? & _). lia.
Qed.

(** An entry that is empty, or does not exist, changes nothing. *)
Lemma trunc_skip m mk f new k :
  trunc m mk f new k -> new <= k -> (has_slot m f k -> slot m f k = 0) -> trunc m mk f new (k + 1).
Proof.
  intros [T1 T2 T3 T4 T5 T6 T7 T8] Hk Hz. split; auto.
  - intros j Hj. rewrite T5 by done.
    destruct (Z.leb_spec new j), (Z.ltb_spec j k), (Z.ltb_spec j (k + 1)); cbn [andb]; try done; try lia.
    assert (j = k) as -> by lia. auto.
  - intros c. rewrite T6. unfold dropped. split; intros [Hc Hn]; (split; [done|]); intros (H0 & n & Hnk & Hs & E); apply Hn; (split; [done|]).
    + exists n. destruct (Z.eq_dec n k) as [->|]; [rewrite Hz in E by done; congruence|]. split; [lia|done].
    + exists n. split; [lia|done].
Qed.

Lemma trunc_drop m mk f new k :
  trunc m mk f new k -> new <= k -> has_slot m f k -> slot m f k <> 0 -> trunc m (drop_slot mk f k) f new (k + 1).
Proof.
  intros [T1 T2 T3 T4 T5 T6 T7 T8] Hk Hs Hnz.
  assert (has_slot mk f k) as Hs' by (unfold has_slot in *; by rewrite T2).
  assert (slot mk f k = slot m f k) as Ek.
  { rewrite T5 by done. destruct (Z.leb_spec new k), (Z.ltb_spec k k); cbn [andb]; done || lia. }
  assert (slot mk f k <> 0) as Hnz' by congruence.
  destruct (drop_where mk f k T1 Hs' Hnz') as (W1 & W2 & W3 & W4). split.
  - by apply drop_ok.
  - rewrite drop_ind by done. done.
  - rewrite drop_size by done. done.
  - unfold drop_slot. rewrite (clear_nb mk f) by done. done.
  - intros j Hj. assert (has_slot mk f j) as Hj' by (unfold has_slot in *; by rewrite T2).
    rewrite drop_slot_slot by done. rewrite T5 by done.
    destruct (Z.eqb_spec j k), (Z.leb_spec new j), (Z.ltb_spec j k), (Z.ltb_spec j (k + 1)); cbn [andb]; done || lia.
  - intros c. unfold drop_slot. rewrite (clear_use mk f) by done. rewrite andb_true_iff, T6, negb_true_iff, Z.eqb_neq, Ek.
    unfold dropped. split.
    + intros [[Hc Hn] Hne]. split; [done|]. intros (H0 & n & Hnk & Hsn & E). apply Hn. split; [done|]. exists n.
      destruct (Z.eq_dec n k) as [->|]; [congruence|]. split; [lia|done].
    + intros [Hc Hn]. split; [split; [done|]|]; [intros (H0 & n & Hnk & Hsn & E)|intros ->]; apply Hn; (split; [done|]).
      * exists n. split; [lia|done].
      * exists k. split; [lia|done].
  - intros pos Hp Hpn. rewrite drop_byte; [by apply T7|done..|by rewrite (limit_ind m mk f T2)|lia].
  - intros a Ho Hfa Hia. rewrite <- T8 by done. unfold drop_slot.
    assert (off_bitmap mk a) as Ho' by (unfold off_bitmap, data0 in *; by rewrite T4).
    apply (clear_ld8 mk f); [done..|].
    destruct (Z.lt_ge_cases a (slot_addr mk f k)); [by left|]. destruct (Z.lt_ge_cases a (slot_addr mk f k + 4)); [|by right]. exfalso.
    destruct (slot_addr_where mk f k a T1 Hs' ltac:(lia)) as [?|[[Hnz0 _] E]]; [lia|]. rewrite T2 in E.
    destruct Hia as [Hi|Hi]; congruence.
Qed.

Lemma file_free_block_step fuel m mk f new k :
  trunc m mk f new k -> new <= k -> 0 <= k < NDIRECT + NINDIRECT ->
  exists r m', file_free_block fuel f k mk = Ret r m' /\ trunc m m' f new (k + 1).
Proof.
  intros T Hk Hr. pose proof (tr_ok _ _ _ _ _ T) as H. unfold file_free_block.
  destruct (Z.lt_ge_cases k NDIRECT) as [Hd|Hd]; [|destruct (Z.eq_dec (ind mk f) 0) as [Hi|Hi]].
  2: { exists (- E_NOT_FOUND), mk. erewrite bind_ret.
       2: { unfold file_block_walk. rewrite (proj2 (Z.leb_gt _ _)), (proj2 (Z.ltb_ge _ _)) by lia.
            erewrite bind_ret by (apply rd32_flat; [apply H|]; apply file_word; [done|fconsts; lia..]).
            fold (ind mk f). rewrite Hi. reflexivity. }
       split; [done|]. apply trunc_skip; [done..|]. rewrite (tr_ind _ _ _ _ _ T) in Hi. intros [_ [?|?]]; [lia|done]. }
  all: assert (has_slot mk f k) as Hs by (split; [lia|auto]).
  all: assert (has_slot m f k) as Hs0 by (unfold has_slot in *; rewrite <- (tr_ind _ _ _ _ _ T); done).
  all: erewrite bind_ret by by apply file_block_walk_flat.
  all: cbv iota beta; change (0 <? 0) with false; cbv iota; erewrite bind_ret by by apply slot_rd.
  all: assert (slot mk f k = slot m f k) as Ek
    by (rewrite (tr_slot _ _ _ _ _ T) by done; destruct (Z.leb_spec new k), (Z.ltb_spec k k); cbn [andb]; done || lia).
  all: destruct (Z.eqb_spec (slot mk f k) 0) as [E0|E0]; cbn [negb]; exists 0.
  1, 3: exists mk; split; [done|]; apply trunc_skip; [done..|]; congruence.
  all: exists (drop_slot mk f k); destruct (drop_where mk f k H Hs E0) as (W1 & W2 & W3 & W4);
    erewrite bind_ret by (apply (clear_run mk f); done);
    (split; [done|apply trunc_drop; [done..|congruence]]).
Qed.

Lemma trunc_loop fuel m f new old :
  file_ok m f -> 0 <= new <= old -> old <= NDIRECT + NINDIRECT ->
  exists m', for_n (Z.to_nat (old - new)) new (fun bno => file_free_block fuel f bno ;;; ret tt) m = Ret tt m' /\
    trunc m m' f new old.
Proof.
  intros H Hn Ho. destruct (for_n_inv (fun k mk => new <= k /\ trunc m mk f new k) (Z.to_nat (old - new)) new
    (fun bno => file_free_block fuel f bno ;;; ret tt) m) as (m' & E & _ & T).
  - split; [lia|]. by apply trunc_start.
  - intros k mk Hk [Hk0 T]. destruct (file_free_block_step fuel m mk f new k T ltac:(lia) ltac:(lia)) as (r & m1 & E & T1).
    exists m1. erewrite bind_ret by exact E. split; [done|]. split; [lia|done].
  - exists m'. split; [exact E|]. by replace (new + Z.of_nat (Z.to_nat (old - new))) with old in T by lia.
Qed.

(** ** The indirect block *)

Section DropInd.
Context (m : mem) (f : Z).
Hypothesis Hf : file_ok m f.
Hypothesis Hi : ind m f <> 0.

Definition drop_indirect : mem := clear m (f_indirect f) (ind m f).

Lemma ind_where : (forall i, 0 <= i < 4 -> harmless m (f_indirect f + i) /\ off_bitmap m (f_indirect f + i)) /\
  word_ok m (f_indirect f) /\ data_block m (ind m f) /\ (blk (f_indirect f) <> ind m f /\ blk (f_indirect f + 3) <> ind m f).
Proof.
  destruct (fo_ind _ _ Hf Hi) as [Hd Hb]. unfold f_indirect. pose proof (fo_fits _ _ Hf). repeat split; try apply Hd.
  - rewrite <- Z.add_assoc. apply file_harmless; [done|]. fconsts. lia.
  - rewrite <- Z.add_assoc. apply file_off_bitmap; [done|]. fconsts. lia.
  - apply file_word; [done|fconsts; lia..].
  - apply file_word; [done|fconsts; lia..].
  - assert (blk (f + 176) = blk f) as -> by (fconsts; zdm). congruence.
  - assert (blk (f + 176 + 3) = blk f) as -> by (fconsts; zdm). congruence.
Qed.

Lemma drop_indirect_ind : ind drop_indirect f = 0.
Proof. apply clear_same. Qed.

Lemma drop_indirect_slot n : 0 <= n < NDIRECT -> slot drop_indirect f n = slot m f n.
Proof.
  intros Hn. destruct ind_where as (W1 & W2 & W3 & W4). unfold slot, slot_addr. rewrite (proj2 (Z.ltb_lt _ _)) by lia.
  apply (clear_ld32 m f); [done..| |fconsts; lia].
  intros i Hib. unfold f_direct. rewrite <- !Z.add_assoc. apply file_off_bitmap; [done|]. fconsts. lia.
Qed.

Lemma drop_indirect_ok : file_ok drop_indirect f.
Proof.
  destruct ind_where as (W1 & W2 & W3 & W4). destruct (fo_ind _ _ Hf Hi) as [_ Hbf].
  assert (data0 drop_indirect = data0 m) as Hd by (unfold data0, drop_indirect; by rewrite (clear_nb m f)).
  assert (forall n, has_slot drop_indirect f n -> 0 <= n < NDIRECT /\ has_slot m f n) as Hh.
  { intros n [Hn [?|?]]; [|by rewrite drop_indirect_ind in *]. split; [lia|]. split; [done|by left]. }
  split; rewrite ?drop_indirect_ind, ?Hd; try apply Hf; try done.
  - by apply (clear_sane m f).
  - unfold drop_indirect. rewrite (clear_use m f), (fo_blk _ _ Hf) by done. by rewrite (proj2 (Z.eqb_neq (blk f) _)) by done.
  - intros n [Hn Hs]%Hh. rewrite drop_indirect_slot by done. intros H0.
    destruct (fo_slot _ _ Hf n Hs H0) as ([K1 K2] & K3 & K4). split; [|done]. split; [lia|].
    unfold drop_indirect. rewrite (clear_use m f), K2 by done. by rewrite (proj2 (Z.eqb_neq _ _) K4).
  - intros n k [Hn Hs]%Hh [Hk Hsk]%Hh. rewrite !drop_indirect_slot by done. by apply (fo_inj _ _ Hf).
Qed.

Lemma drop_indirect_byte pos : 0 <= pos < NDIRECT * BLKSIZE -> fbyte drop_indirect f pos = fbyte m f pos.
Proof.
  intros Hp. assert (0 <= pos / BLKSIZE < NDIRECT) as Hn by (fconsts; zdm).
  assert (has_slot m f (pos / BLKSIZE)) as Hs by (split; [fconsts; zdm|left; lia]).
  destruct ind_where as (W1 & W2 & W3 & W4). unfold fbyte. rewrite drop_indirect_slot by done.
  destruct (Z.eqb_spec (slot m f (pos / BLKSIZE)) 0) as [|Hk0]; [done|]. f_equal.
  destruct (fo_slot _ _ Hf _ Hs Hk0) as (K1 & K2 & K3). pose proof (Z.mod_pos_bound pos BLKSIZE ltac:(done)) as Hm.
  pose proof (fo_fits _ _ Hf). apply (clear_ld8 m f); [done..|by apply data_off_bitmap|]. fconsts. zdm.
Qed.
End DropInd.

(** ** [file_truncate_blocks] and [file_set_size] *)

(** The blocks a truncation from [old] to [new] blocks gives back. *)
Definition released (m : mem) (f new old c : Z) : Prop :=
  dropped m f new old c \/ (c <> 0 /\ new <= NDIRECT /\ c = ind m f).

Definition blocks_of (size : Z) : Z := (size + BLKSIZE - 1) / BLKSIZE.

Lemma blocks_of_code v : 0 <= v <= MAXFILESIZE -> u32 (Z.quot (s32 (v + BLKSIZE - 1)) BLKSIZE) = blocks_of v.
Proof.
  intros Hv. change MAXFILESIZE with 4235264 in Hv. unfold blocks_of. fconsts.
  rewrite s32_small, Z.quot_div_nonneg, u32_small by zdm. done.
Qed.

Lemma truncate_flat fuel m f v :
  file_ok m f -> 0 <= v < ld32 m (f_size f) -> ld32 m (f_size f) <= MAXFILESIZE ->
  exists m', file_truncate_blocks fuel f v m = Ret tt m' /\ file_ok m' f /\ nblocks m' = nblocks m /\
    (forall c, in_use m' c = true <-> in_use m c = true /\ ~ released m f (blocks_of v) (blocks_of (ld32 m (f_size f))) c) /\
    (ind m' f = 0 \/ ind m' f = ind m f) /\
    (forall pos, 0 <= pos < v -> pos < limit m f -> fbyte m' f pos = fbyte m f pos /\ pos < limit m' f).
Proof.
  intros H Hv Hmax. set (size := ld32 m (f_size f)) in *. unfold file_truncate_blocks.
  erewrite bind_ret by by apply rd_size. fold size. rewrite (s32_small size) by (change MAXFILESIZE with 4235264 in Hmax; lia).
  rewrite !blocks_of_code by lia. set (new := blocks_of v). set (old := blocks_of size).
  assert (0 <= new <= old /\ old <= NDIRECT + NINDIRECT) as Hno.
  { change MAXFILESIZE with 4235264 in Hmax. unfold new, old, blocks_of. fconsts. zdm. }
  assert (forall pos, 0 <= pos < v -> pos / BLKSIZE < new) as Hpn by (intros pos Hp; unfold new, blocks_of; fconsts; zdm).
  destruct (trunc_loop fuel m f new old H ltac:(lia) ltac:(lia)) as (m1 & E1 & [T1 T2 T3 T4 T5 T6 T7 T8]).
  erewrite bind_ret by exact E1.
  assert ((if new <=? NDIRECT then rd32 (f_indirect f) else ret 0) m1 = Ret (if new <=? NDIRECT then ind m1 f else 0) m1) as E2.
  { destruct (new <=? NDIRECT); [|done]. apply rd32_flat; [apply T1|]. apply file_word; [done|fconsts; lia..]. }
  erewrite bind_ret by exact E2. clear E1 E2.
  destruct (Z.leb_spec new NDIRECT) as [Hnd|Hnd]; [destruct (Z.eqb_spec (ind m1 f) 0) as [Ei|Ei]|]; cbn [negb].
  2: { destruct (ind_where m1 f T1 Ei) as (W1 & W2 & W3 & W4). exists (drop_indirect m1 f).
    split; [apply (clear_run m1 f); done|]. split; [by apply drop_indirect_ok|].
    split; [unfold drop_indirect; by rewrite (clear_nb m1 f)|]. split; [|split; [left; apply drop_indirect_ind|]].
    - intros c. unfold drop_indirect. rewrite (clear_use m1 f) by done.
      rewrite andb_true_iff, T6, negb_true_iff, Z.eqb_neq, T2. unfold released. rewrite T2 in Ei. split.
      + intros [[Hc Hd] Hne]. split; [done|]. intros [?|(_ & _ & ?)]; done.
      + intros [Hc Hd]. split; [split; [done|]; intros ?; apply Hd; by left|]. intros ->. apply Hd. right. done.
    - intros pos Hp Hl. specialize (Hpn pos Hp). assert (pos < NDIRECT * BLKSIZE) by (fconsts; zdm).
      rewrite drop_indirect_byte by (done || lia). split; [apply T7; [lia|done]|]. unfold limit.
      by rewrite drop_indirect_ind. }
  all: exists m1; split; [done|]; split; [done|]; split; [done|]; split; [|split; [by right|]].
  2, 4: intros pos Hp Hl; rewrite (limit_ind m m1 f T2); split; [apply T7; [lia|by apply Hpn]|done].
  all: intros c; rewrite T6; unfold released; split; intros [Hc Hd]; (split; [done|]).
  - intros [?|(H0 & _ & ?)]; [done|]. rewrite T2 in Ei. congruence.
  - intros ?. apply Hd. by left.
  - intros [?|(_ & ? & _)]; [done|lia].
  - intros ?. apply Hd. by left.
Qed.

Lemma file_set_size_shrink fuel m f v :
  file_ok m f -> 0 <= v < ld32 m (f_size f) -> ld32 m (f_size f) <= MAXFILESIZE ->
  exists m', file_set_size fuel f v m = Ret 0 m' /\ file_ok m' f /\ nblocks m' = nblocks m /\ ld32 m' (f_size f) = v /\
    (forall c, in_use m' c = true <-> in_use m c = true /\ ~ released m f (blocks_of v) (blocks_of (ld32 m (f_size f))) c) /\
    (forall pos, 0 <= pos < v -> pos < limit m f -> fbyte m' f pos = fbyte m f pos).
Proof.
  intros H Hv Hmax. unfold file_set_size. erewrite bind_ret by by apply rd_size.
  rewrite s32_small by (change MAXFILESIZE with 4235264 in Hmax; lia). rewrite (proj2 (Z.ltb_lt _ _)) by lia.
  destruct (truncate_flat fuel m f v H Hv Hmax) as (m1 & E1 & H1 & N1 & U1 & I1 & B1). erewrite bind_ret by exact E1.
  erewrite bind_ret by (apply wr32_flat; [apply H1|]; apply file_word; [done|unfold sizeof_File; lia..]).
  cbn [flush_block flat]. rewrite (file_in_disk m f H). erewrite bind_ret by reflexivity.
  exists (set_size m1 f v). split; [done|]. split; [by apply set_size_ok|].
  pose proof (set_size_meta m1 f v H1) as Hm. split; [rewrite (sm_nb _ _ Hm); done|].
  split; [unfold set_size; rewrite ld32_st32_eq; apply u32_small; change MAXFILESIZE with 4235264 in Hmax; lia|].
  split; [intros c; rewrite (same_meta_use m1) by (done || apply H1); apply U1|].
  intros pos Hp Hl. destruct (B1 pos Hp Hl) as [<- Hl1]. apply set_size_byte; [done|lia].
Qed.
