(* ===== verification/FsDir.v ===== *)
(** Directories and paths on the flat store. *)

From S2P Require Import Prelude Mmu Mem Ide Bc BcSim Fs FsFlat FsFile FsGrow FsRw.

(** ** Names *)

(** The string at [a] is [name]. *)
Fixpoint name_is (m : mem) (a : Z) (name : list Z) : bool :=
  match name with
  | [] => ld8 m a =? 0
  | c :: name => (ld8 m a =? c) && name_is m (a + 1) name
  end.

(** A path component: no NUL, no slash, short enough for an entry. *)
Definition name_ok (name : list Z) : Prop :=
  name <> [] /\ (length name < 128)%nat /\ forall c, c ∈ name -> c <> 0.

Lemma strcmp_at_flat m a name :
  sane m = true -> (forall i, 0 <= i <= Z.of_nat (length name) -> avail m (a + i) = true) -> (forall c, c ∈ name -> c <> 0) ->
  exists r, strcmp_at a name m = Ret r m /\ (r =? 0) = name_is m a name.
Proof.
  intros Hs. revert a. induction name as [|q name IH]; intros a Ha Hc; cbn [strcmp_at name_is];
    erewrite bind_ret by (apply rd8_flat; [done|]; specialize (Ha 0); rewrite Z.add_0_r in Ha; apply Ha; lia).
  - eexists. split; [reflexivity|]. by rewrite Z.sub_0_r.
  - assert (q <> 0) as Hq by (apply Hc; left).
    destruct (Z.eqb_spec (ld8 m a) q) as [E|E], (Z.eqb_spec (ld8 m a) 0) as [E0|E0]; cbn [negb andb]; try congruence.
    + apply IH; [|intros c Hin; apply Hc; by right]. intros i Hi. rewrite <- Z.add_assoc. apply Ha. simpl length. lia.
    + eexists. split; [reflexivity|]. apply Z.eqb_neq. lia.
    + eexists. split; [reflexivity|]. apply Z.eqb_neq. lia.
Qed.

(** ** Searching a directory *)

(** The entries of one block, and of the first [nb] blocks of a directory. *)
Fixpoint entry_list (n : nat) (f : Z) : list Z :=
  match n with O => [] | S n => f :: entry_list n (f + sizeof_File) end.
Fixpoint block_entries (m : mem) (dir : Z) (n : nat) (i : Z) : list Z :=
  match n with O => [] | S n => entry_list (Z.to_nat BLKFILES) (baddr (slot m dir i)) ++ block_entries m dir n (i + 1) end.
Definition entries (m : mem) (dir nb : Z) : list Z := block_entries m dir (Z.to_nat nb) 0.

(** A directory of [nb] blocks, all of them there. *)
Record dir_ok (m : mem) (dir nb : Z) : Prop := {
  do_file : file_ok m dir;
  do_size : ld32 m (f_size dir) = nb * BLKSIZE;
  do_range : 0 <= nb * BLKSIZE <= limit m dir;
  do_slots : forall i, 0 <= i < nb -> slot m dir i <> 0;
}.

Lemma dir_has_slot m dir nb i : dir_ok m dir nb -> 0 <= i < nb -> has_slot m dir i.
Proof.
  intros H Hi. pose proof (do_range _ _ _ H). replace i with (i * BLKSIZE / BLKSIZE) by (fconsts; zdm).
  apply limit_slot. fconsts. lia.
Qed.

Lemma dir_block m dir nb i : dir_ok m dir nb -> 0 <= i < nb -> data_block m (slot m dir i).
Proof.
  intros H Hi. apply (fo_slot _ _ (do_file _ _ _ H)); [by apply (dir_has_slot m dir nb)|by apply (do_slots _ _ _ H)].
Qed.

Lemma dir_nblock_flat m dir nb : dir_ok m dir nb -> dir_nblock dir m = Ret nb m.
Proof.
  intros H. pose proof (do_file _ _ _ H) as Hf. pose proof (do_range _ _ _ H). pose proof (limit_max m dir) as Hmax.
  change MAXFILESIZE with 4235264 in Hmax. unfold dir_nblock. erewrite bind_ret by by apply rd_size.
  rewrite (do_size _ _ _ H), s32_small by (fconsts; lia). rewrite Z.rem_mod_nonneg by (fconsts; lia).
  rewrite (proj2 (Z.eqb_eq _ _)) by (fconsts; zdm). cbn [negb]. erewrite bind_ret by by apply rd_size.
  rewrite (do_size _ _ _ H), s32_small by (fconsts; lia). rewrite Z.quot_div_nonneg by (fconsts; lia).
  unfold ret. f_equal. replace (nb * BLKSIZE / BLKSIZE) with nb by (fconsts; zdm). apply u32_small. fconsts. lia.
Qed.

Lemma entry_list_elem n f a : a ∈ entry_list n f <-> exists j, 0 <= j < Z.of_nat n /\ a = f + j * sizeof_File.
Proof.
  revert f. induction n as [|n IH]; intros f; cbn [entry_list].
  - split; [by intros ?%elem_of_nil|]. intros (j & ? & _). lia.
  - rewrite elem_of_cons, IH. split.
    + intros [->|(j & Hj & ->)]; [exists 0|exists (j + 1)]; split; lia.
    + intros (j & Hj & ->). destruct (Z.eq_dec j 0) as [->|]; [left; lia|right]. exists (j - 1). split; lia.
Qed.

Lemma entries_elem m dir nb a :
  a ∈ entries m dir nb <-> exists i j, 0 <= i < nb /\ 0 <= j < BLKFILES /\ a = baddr (slot m dir i) + j * sizeof_File.
Proof.
  unfold entries. assert (forall n i, a ∈ block_entries m dir n i <->
    exists k j, i <= k < i + Z.of_nat n /\ 0 <= j < BLKFILES /\ a = baddr (slot m dir k) + j * sizeof_File) as H.
  { induction n as [|n IH]; intros i; cbn [block_entries].
    - split; [by intros ?%elem_of_nil|]. intros (k & j & ? & _). lia.
    - rewrite elem_of_app, IH, entry_list_elem. change (Z.of_nat (Z.to_nat BLKFILES)) with BLKFILES. split.
      + intros [(j & Hj & ->)|(k & j & Hk & Hj & ->)]; [exists i, j|exists k, j]; repeat split; lia.
      + intros (k & j & Hk & Hj & ->). destruct (Z.eq_dec k i) as [->|]; [left; eauto|right]. exists k, j. repeat split; lia. }
  rewrite H. split; intros (k & j & Hk & ?); exists k, j; (split; [lia|done]).
Qed.

(** The entries depend on the block map only. *)
Lemma block_entries_S m dir n i :
  block_entries m dir (S n) i = entry_list (Z.to_nat BLKFILES) (baddr (slot m dir i)) ++ block_entries m dir n (i + 1).
Proof. reflexivity. Qed.

Lemma block_entries_ext m m' dir n i :
  (forall k, i <= k < i + Z.of_nat n -> slot m' dir k = slot m dir k) -> block_entries m' dir n i = block_entries m dir n i.
Proof.
  revert i. induction n as [|n IH]; intros i H; [done|]. rewrite !block_entries_S, H by lia. rewrite IH; [done|]. intros k Hk. apply H. lia.
Qed.

Lemma entries_ext m m' dir nb :
  (forall i, 0 <= i < nb -> slot m' dir i = slot m dir i) -> entries m' dir nb = entries m dir nb.
Proof. intros H. apply block_entries_ext. intros k Hk. apply H. lia. Qed.

Lemma block_entries_snoc m dir n i :
  block_entries m dir (S n) i = block_entries m dir n i ++ entry_list (Z.to_nat BLKFILES) (baddr (slot m dir (i + Z.of_nat n))).
Proof.
  revert i. induction n as [|n IH]; intros i.
  - rewrite block_entries_S. change (block_entries m dir 0 (i + 1)) with (@nil Z). change (block_entries m dir 0 i) with (@nil Z).
    by rewrite app_nil_r, app_nil_l, Z.add_0_r.
  - rewrite block_entries_S, IH, block_entries_S, <- app_assoc. by replace (i + 1 + Z.of_nat n) with (i + Z.of_nat (S n)) by lia.
Qed.

Lemma entries_snoc m dir nb :
  0 <= nb -> entries m dir (nb + 1) = entries m dir nb ++ entry_list (Z.to_nat BLKFILES) (baddr (slot m dir nb)).
Proof.
  intros Hnb. unfold entries. replace (Z.to_nat (nb + 1)) with (S (Z.to_nat nb)) by lia.
  by rewrite block_entries_snoc, Z.add_0_l, Z2Nat.id.
Qed.

(** The first entry that passes the test. *)
Lemma find_entry_flat m (test : Z -> M mem bool) P n f :
  (forall a, a ∈ entry_list n f -> test a m = Ret (P a) m) ->
  find_entry test n f m = Ret (List.find P (entry_list n f)) m.
Proof.
  revert f. induction n as [|n IH]; intros f H; [done|]. cbn [find_entry entry_list List.find].
  erewrite bind_ret by (apply H; left). destruct (P f); [done|]. apply IH. intros a Ha. apply H. by right.
Qed.

Lemma find_app {A} (P : A -> bool) l l' :
  List.find P (l ++ l') = match List.find P l with Some a => Some a | None => List.find P l' end.
Proof. induction l as [|x l IH]; [done|]. simpl. by destruct (P x). Qed.

Lemma find_in_blocks_flat fuel m (test : Z -> M mem bool) P dir nb :
  dir_ok m dir nb -> (forall a, a ∈ entries m dir nb -> test a m = Ret (P a) m) ->
  find_in_blocks fuel test (Z.to_nat nb) dir 0 m = Ret (match List.find P (entries m dir nb) with Some a => Some (0, a) | None => None end) m.
Proof.
  intros H Ht. unfold entries. pose proof (do_range _ _ _ H) as Hr.
  assert (forall n i, 0 <= i -> i + Z.of_nat n <= nb ->
    find_in_blocks fuel test n dir i m = Ret (match List.find P (block_entries m dir n i) with Some a => Some (0, a) | None => None end) m) as Hn.
  { induction n as [|n IH]; intros i Hi Hin; [done|]. cbn [find_in_blocks block_entries].
    erewrite bind_ret by (apply get_block_there; [apply H|apply (dir_has_slot m dir nb); [done|lia]|apply (do_slots _ _ _ H); lia]).
    cbv iota beta. change (0 <? 0) with false. cbv iota. erewrite bind_ret.
    2: { apply find_entry_flat. intros a Ha. apply Ht. apply entries_elem. apply entry_list_elem in Ha as (j & Hj & ->).
         exists i, j. split; [lia|done]. }
    rewrite find_app. destruct (List.find P (entry_list _ _)); [done|]. apply IH; lia. }
  destruct (Z.le_gt_cases 0 nb); [apply Hn; lia|]. by rewrite (proj1 (Nat2Z.inj_iff (Z.to_nat nb) 0)) by lia.
Qed.

(** Where an entry is. *)
Lemma entry_where m dir nb a :
  dir_ok m dir nb -> a ∈ entries m dir nb ->
  exists i, 0 <= i < nb /\ baddr (slot m dir i) <= a /\ a + sizeof_File <= baddr (slot m dir i) + BLKSIZE /\
    (a - baddr (slot m dir i)) mod sizeof_File = 0 /\ data_block m (slot m dir i).
Proof.
  intros H (i & j & Hi & Hj & ->)%entries_elem. exists i. split; [done|]. change BLKFILES with 16 in Hj.
  split; [fconsts; lia|]. split; [fconsts; lia|]. split; [fconsts; zdm|]. by apply (dir_block m dir nb).
Qed.

Lemma entry_avail m dir nb a i : dir_ok m dir nb -> a ∈ entries m dir nb -> 0 <= i < sizeof_File -> avail m (a + i) = true.
Proof.
  intros H Ha Hi. destruct (entry_where m dir nb a H Ha) as (k & _ & H1 & H2 & _ & Hd).
  replace (a + i) with (baddr (slot m dir k) + (a + i - baddr (slot m dir k))) by lia. apply avail_data; [done|lia].
Qed.

(** The entry with a name. *)
Definition lookup_name (m : mem) (dir nb : Z) (name : list Z) : option Z :=
  List.find (fun a => name_is m a name) (entries m dir nb).

Lemma dir_lookup_flat fuel m dir nb name :
  dir_ok m dir nb -> name_ok name ->
  dir_lookup fuel dir name m =
    Ret (match lookup_name m dir nb name with Some a => (0, a) | None => (- E_NOT_FOUND, 0) end) m.
Proof.
  intros H (_ & Hlen & Hc). unfold dir_lookup. erewrite bind_ret by by apply dir_nblock_flat.
  erewrite bind_ret.
  2: { apply (find_in_blocks_flat fuel m _ (fun a => name_is m a name)); [done|]. intros a Ha.
       destruct (strcmp_at_flat m (f_name a) name) as (r & Er & Ez); [apply H| |done|].
       - intros i Hi. apply (entry_avail m dir nb); [done..|]. unfold sizeof_File. lia.
       - erewrite bind_ret by exact Er. unfold ret. by rewrite Ez. }
  unfold lookup_name. by destruct (List.find _ _).
Qed.

(** The first entry without a name. *)
Definition free_entry (m : mem) (dir nb : Z) : option Z :=
  List.find (fun a => ld8 m a =? 0) (entries m dir nb).

Lemma dir_alloc_file_flat fuel m dir nb e :
  dir_ok m dir nb -> free_entry m dir nb = Some e -> dir_alloc_file fuel dir m = Ret (0, e) m.
Proof.
  intros H He. unfold dir_alloc_file. erewrite bind_ret by by apply dir_nblock_flat. erewrite bind_ret.
  2: { apply (find_in_blocks_flat fuel m _ (fun a => ld8 m a =? 0)); [done|]. intros a Ha.
       erewrite bind_ret; [reflexivity|]. apply rd8_flat; [apply H|].
       specialize (entry_avail m dir nb a 0 H Ha ltac:(done)). by rewrite Z.add_0_r. }
  unfold free_entry in He. by rewrite He.
Qed.

(** ** Paths *)

Fixpoint drop_slash (l : list Z) : list Z :=
  match l with c :: l' => if c =? chr_slash then drop_slash l' else l | [] => [] end.
Fixpoint take_name (l : list Z) : list Z :=
  match l with c :: l' => if c =? chr_slash then [] else c :: take_name l' | [] => [] end.
Fixpoint drop_name (l : list Z) : list Z :=
  match l with c :: l' => if c =? chr_slash then l else drop_name l' | [] => [] end.

(** The components of a path that does not start with a slash; [n] is at least its length. *)
Fixpoint comps (n : nat) (l : list Z) : list (list Z) :=
  match n with
  | O => []
  | S n => match l with [] => [] | _ => take_name l :: comps n (drop_slash (drop_name l)) end
  end.

(** The names in a path. *)
Definition path_names (path : list Z) : list (list Z) := comps (length path) (drop_slash path).

Lemma drop_slash_length l : (length (drop_slash l) <= length l)%nat.
Proof. induction l as [|c l IH]; simpl; [lia|]. destruct (c =? chr_slash); simpl; lia. Qed.

Lemma take_drop_name l : take_name l ++ drop_name l = l.
Proof. induction l as [|c l IH]; simpl; [done|]. destruct (c =? chr_slash); simpl; [done|by rewrite IH]. Qed.

Lemma drop_slash_idem l : drop_slash (drop_slash l) = drop_slash l.
Proof. induction l as [|c l IH]; simpl; [done|]. destruct (c =? chr_slash) eqn:E; [done|]. simpl. by rewrite E. Qed.

(** A component is not empty. *)
Lemma take_name_nonempty l : l <> [] -> drop_slash l = l -> take_name l <> [].
Proof.
  destruct l as [|c l]; [done|]. intros _. simpl. destruct (c =? chr_slash) eqn:E; [|done].
  intros H. pose proof (drop_slash_length l) as Hl. rewrite H in Hl. simpl in Hl. lia.
Qed.

Lemma comps_enough n k l : (length l <= n)%nat -> (length l <= k)%nat -> drop_slash l = l -> comps n l = comps k l.
Proof.
  revert k l. induction n as [|n IH]; intros k l Hn Hk Hl; destruct l as [|c l]; try (simpl in *; lia).
  - destruct k; done.
  - destruct k; done.
  - destruct k as [|k]; [simpl in *; lia|]. cbn [comps]. f_equal. apply IH; [..|apply drop_slash_idem];
    (etrans; [apply drop_slash_length|]);
    pose proof (take_name_nonempty (c :: l) ltac:(done) Hl) as Hne; pose proof (f_equal length (take_drop_name (c :: l))) as Hlen;
    rewrite length_app in Hlen; destruct (take_name (c :: l)); try done; simpl length in *; lia.
Qed.

(** A string in memory, away from the disk region. *)
Fixpoint str_at (m : mem) (p : Z) (l : list Z) : Prop :=
  match l with
  | [] => ld8 m p = 0
  | c :: l => ld8 m p = c /\ c <> 0 /\ str_at m (p + 1) l
  end.

Definition path_at (m : mem) (p : Z) (l : list Z) : Prop := str_at m p l /\ outside p (Z.of_nat (length l) + 1).

Lemma path_rd m p l : sane m = true -> path_at m p l -> rd8 p m = Ret (match l with c :: _ => c | [] => 0 end) m.
Proof.
  intros Hs [H1 H2]. rewrite rd8_flat.
  - destruct l; [by rewrite H1|]. by destruct H1 as [-> _].
  - done.
  - destruct (outside_ok m p (Z.of_nat (length l) + 1) 0 Hs H2 ltac:(lia)) as [Ha _]. by rewrite Z.add_0_r in Ha.
Qed.

Lemma path_tail m p c l : path_at m p (c :: l) -> path_at m (p + 1) l.
Proof. intros [(_ & _ & H) [Hp Ho]]. split; [done|]. simpl length in Ho. split; lia. Qed.

Lemma skip_slash_flat n m p l :
  sane m = true -> path_at m p l -> (length l < n)%nat ->
  exists p', skip_slash n p m = Ret p' m /\ path_at m p' (drop_slash l).
Proof.
  intros Hs. revert p l. induction n as [|n IH]; intros p l Hp Hn; [lia|]. cbn [skip_slash].
  erewrite bind_ret by by apply (path_rd m p l). destruct l as [|c l]; [by exists p|]. cbn [drop_slash].
  destruct (c =? chr_slash); [|by exists p]. apply IH; [by eapply path_tail|simpl in Hn; lia].
Qed.

Lemma skip_name_flat n m p l :
  sane m = true -> path_at m p l -> (length l < n)%nat ->
  skip_name n p m = Ret (p + Z.of_nat (length (take_name l))) m /\
  path_at m (p + Z.of_nat (length (take_name l))) (drop_name l) /\
  ld_bytes m p (length (take_name l)) = take_name l /\ forall c, c ∈ take_name l -> c <> 0.
Proof.
  intros Hs. revert p l. induction n as [|n IH]; intros p l Hp Hn; [lia|]. cbn [skip_name].
  erewrite bind_ret by by apply (path_rd m p l). destruct l as [|c l].
  { simpl. rewrite Z.add_0_r. split; [done|]. split; [done|]. split; [done|]. by intros c ?%elem_of_nil. }
  pose proof Hp as [(Hc & Hc0 & _) _]. cbn [take_name drop_name]. rewrite (proj2 (Z.eqb_neq c 0) Hc0). cbn [negb].
  destruct (c =? chr_slash) eqn:Es; cbn [negb andb].
  { simpl. rewrite Z.add_0_r. split; [done|]. split; [done|]. split; [done|]. by intros x ?%elem_of_nil. }
  destruct (IH (p + 1) l (path_tail m p c l Hp) ltac:(simpl in Hn; lia)) as (E & H1 & H2 & H3).
  simpl length. replace (p + Z.of_nat (S (length (take_name l)))) with (p + 1 + Z.of_nat (length (take_name l))) by lia.
  split; [exact E|]. split; [exact H1|]. cbn [ld_bytes]. split; [by rewrite H2, Hc|].
  intros x [->|Hx]%elem_of_cons; [done|by apply H3].
Qed.

(** ** Walking *)

Definition dir_blocks (m : mem) (f : Z) : Z := ld32 m (f_size f) / BLKSIZE.
Definition lookup_in (m : mem) (f : Z) (name : list Z) : option Z := lookup_name m f (dir_blocks m f) name.

(** The tree: its files are the root and entries of its directories, all named entries
    among them; the files lie in slots of [sizeof_File] bytes and have no block in common. *)
Record tree_ok (m : mem) (F : Z -> Prop) : Prop := {
  to_sane : sane m = true;
  to_root : F (s_root SUPER);
  to_file : forall f, F f -> file_ok m f;
  to_dir : forall f, F f -> ld32 m (f_type f) = FTYPE_DIR -> dir_ok m f (dir_blocks m f);
  to_place : forall f, F f -> f = s_root SUPER \/ (f - baddr (blk f)) mod sizeof_File = 0;
  to_apart : forall f g b, F f -> F g -> owns m f b -> owns m g b -> f = g;
  to_entry : forall f a, F f -> ld32 m (f_type f) = FTYPE_DIR -> a ∈ entries m f (dir_blocks m f) -> ld8 m a <> 0 -> F a;
  to_home : forall f, F f -> f = s_root SUPER \/ exists d, F d /\ ld32 m (f_type d) = FTYPE_DIR /\ f ∈ entries m d (dir_blocks m d);
}.

(** What [walk_path] finds for a list of names. *)
Fixpoint walk_names (m : mem) (names : list (list Z)) (dir f : Z) : walked :=
  match names with
  | [] => mkWalked 0 dir f []
  | name :: rest =>
      if (128 <=? length name)%nat then mkWalked (- E_BAD_PATH) 0 0 []
      else if negb (ld32 m (f_type f) =? FTYPE_DIR) then mkWalked (- E_NOT_FOUND) 0 0 []
      else
        match lookup_in m f name, rest with
        | Some f', _ => walk_names m rest f f'
        | None, [] => mkWalked (- E_NOT_FOUND) f 0 name
        | None, _ => mkWalked (- E_NOT_FOUND) 0 0 []
        end
  end.

Lemma name_is_head m a name : name_ok name -> name_is m a name = true -> ld8 m a <> 0.
Proof.
  intros (Hne & _ & Hc) H. destruct name as [|c name]; [done|]. simpl in H. apply andb_true_iff in H as [->%Z.eqb_eq _].
  apply Hc. left.
Qed.

Lemma lookup_in_tree m F f name f' :
  tree_ok m F -> F f -> ld32 m (f_type f) = FTYPE_DIR -> name_ok name -> lookup_in m f name = Some f' -> F f'.
Proof.
  intros T Hf Hd Hn H. apply List.find_some in H as [Hin Hname]. apply list_elem_of_In in Hin.
  apply (to_entry m F T f); try done. by apply (name_is_head m f' name).
Qed.

Lemma walk_loop_flat fuel m F n path l dir f :
  tree_ok m F -> F f -> path_at m path l -> drop_slash l = l -> (length l < n)%nat -> (length l < fuel)%nat ->
  walk_loop fuel n path dir f m = Ret (walk_names m (comps n l) dir f) m.
Proof.
  intros T. pose proof (to_sane m F T) as Hs. revert path l dir f.
  induction n as [|n IH]; intros path l dir f Hf Hp Hl Hn Hfuel; [lia|]. cbn [walk_loop comps].
  erewrite bind_ret by by apply (path_rd m path l). destruct l as [|c l']; [done|]. set (l := c :: l') in *.
  pose proof (proj1 Hp) as (_ & Hc0 & _). rewrite (proj2 (Z.eqb_neq c 0) Hc0).
  destruct (skip_name_flat fuel m path l Hs Hp Hfuel) as (E1 & Hp1 & Hb & Hchars).
  erewrite bind_ret by exact E1. cbn [walk_names]. set (nm := take_name l) in *.
  replace (path + Z.of_nat (length nm) - path) with (Z.of_nat (length nm)) by lia. unfold MAXNAMELEN.
  destruct (Nat.leb_spec 128 (length nm)); [rewrite (proj2 (Z.leb_le _ _)) by lia; done|].
  rewrite (proj2 (Z.leb_gt _ _)) by lia.
  assert (name_ok nm) as Hnm by (split; [by apply take_name_nonempty|done]).
  erewrite bind_ret.
  2: { apply rd_bytes_flat; [done|]. intros i Hi. apply (outside_ok m path (Z.of_nat (length l) + 1)); [done|apply Hp|].
       pose proof (f_equal length (take_drop_name l)) as Hlen. rewrite length_app in Hlen. fold nm in Hlen. lia. }
  rewrite Nat2Z.id, Hb.
  pose proof (f_equal length (take_drop_name l)) as Hlen. rewrite length_app in Hlen. fold nm in Hlen.
  assert (0 < length nm)%nat as Hnm0 by (destruct nm; [by destruct Hnm|simpl; lia]).
  destruct (skip_slash_flat fuel m _ (drop_name l) Hs Hp1 ltac:(lia)) as (p2 & E2 & Hp2). erewrite bind_ret by exact E2.
  pose proof (drop_slash_length (drop_name l)) as Hdl.
  erewrite bind_ret by (apply rd32_flat; [done|]; apply (file_word m f 132); [by apply (to_file m F T)|unfold sizeof_File; lia..]).
  destruct (Z.eqb_spec (ld32 m (f_type f)) FTYPE_DIR) as [Ed|Ed]; cbn [negb]; [|done].
  erewrite bind_ret by (apply dir_lookup_flat; [by apply (to_dir m F T)|done]). fold (lookup_in m f nm).
  destruct (lookup_in m f nm) as [f'|] eqn:El; cbv iota beta.
  - change (0 <? 0) with false. cbv iota. apply IH; [by apply (lookup_in_tree m F f nm)|done|apply drop_slash_idem|lia|lia].
  - change (- E_NOT_FOUND <? 0) with true. change (- E_NOT_FOUND =? - E_NOT_FOUND) with true. cbv iota.
    erewrite bind_ret by (erewrite bind_ret by (by apply (path_rd m p2 (drop_slash (drop_name l)))); reflexivity).
    destruct (drop_slash (drop_name l)) as [|c2 l2] eqn:Er.
    + change (0 =? 0) with true. cbv iota. destruct n; done.
    + pose proof (proj1 Hp2) as (_ & Hc2 & _). rewrite (proj2 (Z.eqb_neq c2 0) Hc2). destruct n as [|n]; [simpl in *; lia|done].
Qed.

Lemma walk_path_flat fuel m F p path :
  tree_ok m F -> path_at m p path -> (length path < fuel)%nat ->
  walk_path fuel p m = Ret (walk_names m (path_names path) 0 (s_root SUPER)) m.
Proof.
  intros T Hp Hf. pose proof (to_sane m F T) as Hs. unfold walk_path.
  destruct (skip_slash_flat fuel m p path Hs Hp Hf) as (p' & E & Hp'). erewrite bind_ret by exact E.
  erewrite bind_ret by reflexivity. pose proof (drop_slash_length path) as Hl.
  rewrite (walk_loop_flat fuel m F fuel p' (drop_slash path)); try done; [|by apply (to_root m F T)|apply drop_slash_idem|lia|lia].
  unfold path_names. rewrite (comps_enough fuel (length path)); [done|lia|lia|apply drop_slash_idem].
Qed.
