(* ===== verification/FsCreate.v ===== *)
(** [file_create] on the flat store: naming a free directory entry, and adding a block of
    entries to a directory that has none left. *)

From S2P Require Import Prelude Mmu Mem Ide Bc BcSim Fs FsFlat FsFile FsGrow FsRw FsDir.

(** ** Flushing changes nothing on the flat store *)

Lemma file_flush_loop_flat fuel n m dir nb i :
  dir_ok m dir nb -> 0 <= i <= nb -> (Z.to_nat (nb - i) < n)%nat -> file_flush_loop fuel n dir i m = Ret tt m.
Proof.
  intros H. pose proof (do_file _ _ _ H) as Hf. pose proof (do_range _ _ _ H). pose proof (limit_max m dir) as Hmax.
  change MAXFILESIZE with 4235264 in Hmax. revert i. induction n as [|n IH]; intros i Hi Hn; [lia|]. cbn [file_flush_loop].
  erewrite bind_ret by by apply rd_size. rewrite (do_size _ _ _ H), (s32_small (nb * BLKSIZE)) by (fconsts; lia).
  rewrite s32_small, Z.quot_div_nonneg by (fconsts; lia).
  replace ((nb * BLKSIZE + BLKSIZE - 1) / BLKSIZE) with nb by (fconsts; zdm).
  destruct (Z.ltb_spec i nb); [|done]. rewrite u32_small by (fconsts; lia).
  assert (has_slot m dir i) as Hs by (apply (dir_has_slot m dir nb); [done|lia]).
  erewrite bind_ret by by apply file_block_walk_flat. cbv iota beta. change (0 <? 0) with false. cbv iota.
  erewrite bind_ret by by apply slot_rd. rewrite (proj2 (Z.eqb_neq _ _)) by (apply (do_slots _ _ _ H); lia).
  destruct (dir_block m dir nb i H ltac:(lia)) as [Hd Hu]. apply in_use_facts in Hu as [Hu _].
  pose proof (nblocks_range m (fo_sane _ _ Hf)).
  erewrite bind_ret by (apply diskaddr_flat; [apply Hf|lia]). erewrite bind_ret; [apply IH; lia|].
  cbn [flush_block flat]. destruct (in_disk_baddr (slot m dir i) 0 ltac:(lia) ltac:(done)) as [E _].
  rewrite Z.add_0_r in E. unfold baddr in E. by rewrite E.
Qed.

Lemma file_flush_flat fuel m dir nb :
  dir_ok m dir nb -> (Z.to_nat nb < fuel)%nat -> file_flush fuel dir m = Ret tt m.
Proof.
  intros H Hn. pose proof (do_file _ _ _ H) as Hf. pose proof (do_range _ _ _ H). unfold file_flush.
  erewrite bind_ret by (apply (file_flush_loop_flat fuel fuel m dir nb 0 H); [fconsts; lia|by rewrite Z.sub_0_r]).
  erewrite bind_ret by (cbn [flush_block flat]; rewrite (file_in_disk m dir Hf); reflexivity).
  erewrite bind_ret by (apply rd32_flat; [apply Hf|]; apply (file_word m dir 176); [done|fconsts; lia..]). fold (ind m dir).
  destruct (Z.eqb_spec (ind m dir) 0) as [|Hi]; [done|]. cbn [negb].
  destruct (fo_ind _ _ Hf Hi) as [[_ Hu] _]. apply in_use_facts in Hu as [Hu _]. pose proof (nblocks_range m (fo_sane _ _ Hf)).
  erewrite bind_ret by (apply diskaddr_flat; [apply Hf|lia]).
  cbn [flush_block flat]. destruct (in_disk_baddr (ind m dir) 0 ltac:(lia) ltac:(done)) as [E _].
  rewrite Z.add_0_r in E. unfold baddr in E. by rewrite E.
Qed.

(** ** Names and strings *)

(** A name depends on its bytes and the terminator. *)
Lemma name_is_ext m1 m2 a nm :
  (forall i, 0 <= i <= Z.of_nat (length nm) -> ld8 m1 (a + i) = ld8 m2 (a + i)) -> name_is m1 a nm = name_is m2 a nm.
Proof.
  revert a. induction nm as [|c nm IH]; intros a H; cbn [name_is]; rewrite <- (Z.add_0_r a), H, Z.add_0_r by lia; [done|].
  f_equal. apply IH. intros i Hi. rewrite <- !Z.add_assoc. apply H. simpl length. lia.
Qed.

Lemma name_is_self a nm m1 :
  (forall c, c ∈ nm -> 0 <= c < 2 ^ 8) -> name_is (st_bytes m1 a (nm ++ [0])) a nm = true.
Proof.
  revert a m1. induction nm as [|c nm IH]; intros a m1 Hc; cbn [name_is app st_bytes].
  - by rewrite ld8_st8, Z.eqb_refl.
  - rewrite (IH (a + 1)) by (intros x Hx; apply Hc; by right). rewrite andb_true_r, ld8_st_bytes.
    rewrite (proj2 (Z.leb_gt (a + 1) a)) by lia. cbn [andb]. rewrite ld8_st8, Z.eqb_refl, u8_small by (apply Hc; left).
    apply Z.eqb_refl.
Qed.

Lemma name_is_inj m1 a nm nm' :
  (forall c, c ∈ nm -> c <> 0) -> (forall c, c ∈ nm' -> c <> 0) -> name_is m1 a nm = true -> name_is m1 a nm' = true -> nm = nm'.
Proof.
  revert a nm'. induction nm as [|c nm IH]; intros a [|c' nm'] H1 H2 E1 E2; cbn [name_is] in *; [done|..].
  - apply andb_true_iff in E2 as [E2%Z.eqb_eq _]. apply Z.eqb_eq in E1. exfalso. apply (H2 c'); [left|congruence].
  - apply andb_true_iff in E1 as [E1%Z.eqb_eq _]. apply Z.eqb_eq in E2. exfalso. apply (H1 c); [left|congruence].
  - apply andb_true_iff in E1 as [E1%Z.eqb_eq R1]. apply andb_true_iff in E2 as [E2%Z.eqb_eq R2]. f_equal; [congruence|].
    apply (IH (a + 1)); try done; intros x Hx; [apply H1|apply H2]; by right.
Qed.

Lemma find_ext {A} (P Q : A -> bool) l : (forall a, a ∈ l -> P a = Q a) -> List.find P l = List.find Q l.
Proof.
  induction l as [|x l IH]; intros H; [done|]. cbn [List.find]. rewrite (H x) by left.
  destruct (Q x); [done|]. apply IH. intros a Ha. apply H. by right.
Qed.

(** The names of a path are not empty and of non-zero bytes. *)
Definition path_name (nm : list Z) : Prop := nm <> [] /\ Forall (fun c => 0 < c < 2 ^ 8) nm.

Lemma path_name_ok nm : path_name nm -> (length nm < 128)%nat -> name_ok nm.
Proof.
  intros [H0 H] Hl. split; [done|]. split; [done|]. intros c Hc. rewrite Forall_forall in H. specialize (H c Hc). simpl in H. lia.
Qed.

Lemma str_at_chars m p l : str_at m p l -> Forall (fun c => 0 < c < 2 ^ 8) l.
Proof.
  revert p. induction l as [|c l IH]; intros p; cbn [str_at]; [constructor|]. intros (<- & H0 & H).
  constructor; [|by apply (IH (p + 1))]. pose proof (ld8_range m p). lia.
Qed.

Lemma drop_slash_chars (P : Z -> Prop) l : Forall P l -> Forall P (drop_slash l).
Proof. induction 1 as [|c l Hc Hl IH]; cbn [drop_slash]; [constructor|]. destruct (c =? chr_slash); [done|by constructor]. Qed.

Lemma path_names_chars m p l : str_at m p l -> Forall path_name (path_names l).
Proof.
  intros H%str_at_chars%drop_slash_chars. unfold path_names. generalize (drop_slash_idem l). revert H. generalize (drop_slash l).
  induction (length l) as [|n IH]; intros k Hk Hd; cbn [comps]; [constructor|]. destruct k as [|c k]; [constructor|].
  pose proof Hk as Hk2. rewrite <- (take_drop_name (c :: k)) in Hk2. apply Forall_app in Hk2 as [K1 K2]. constructor.
  - split; [by apply take_name_nonempty|exact K1].
  - apply IH; [by apply drop_slash_chars|apply drop_slash_idem].
Qed.

(** ** A file that did not change *)

Section Same.
Context (m m' : mem) (f : Z).
Hypothesis Hsame : same_file m m' f.

Lemma same_type : ld32 m' (f_type f) = ld32 m (f_type f).
Proof. apply (same_file_word m m' f 132 Hsame); unfold sizeof_File; lia. Qed.

Lemma same_size : ld32 m' (f_size f) = ld32 m (f_size f).
Proof. apply (same_file_word m m' f 128 Hsame); unfold sizeof_File; lia. Qed.

Lemma same_blocks : dir_blocks m' f = dir_blocks m f.
Proof. unfold dir_blocks. by rewrite same_size. Qed.

Lemma same_dir nb : file_ok m' f -> dir_ok m f nb -> dir_ok m' f nb.
Proof.
  intros Hok Hd. split.
  - done.
  - rewrite same_size. exact (do_size _ _ _ Hd).
  - rewrite (limit_ind m m' f (same_file_ind m m' f Hsame)). exact (do_range _ _ _ Hd).
  - intros i Hi. rewrite (same_file_slot m m' f i Hsame (dir_has_slot m f _ i Hd Hi)). by apply (do_slots _ _ _ Hd).
Qed.

Lemma same_entries nb : dir_ok m f nb -> entries m' f nb = entries m f nb.
Proof.
  intros Hd. apply entries_ext. intros i Hi. apply same_file_slot; [done|]. by apply (dir_has_slot m f nb).
Qed.

Lemma same_owns b : owns m' f b -> owns m f b.
Proof.
  intros [H0 H]. split; [done|]. rewrite (same_file_ind m m' f Hsame) in H.
  destruct H as [|(n & Hn & H)]; [by left|right]. exists n. rewrite (same_file_has m m' f n Hsame) in Hn.
  by rewrite (same_file_slot m m' f n Hsame Hn) in H.
Qed.
End Same.

(** ** Naming an entry *)

Section Naming.
Context (m : mem) (F : Z -> Prop) (dir e : Z) (name : list Z).
Hypothesis HT : tree_ok m F.
Hypothesis Hdir : F dir.
Hypothesis Hty : ld32 m (f_type dir) = FTYPE_DIR.
Hypothesis He : e ∈ entries m dir (dir_blocks m dir).
Hypothesis Hfree : ld8 m e = 0.
Hypothesis Hname : name_ok name.
Hypothesis Hbytes : forall c, c ∈ name -> 0 <= c < 2 ^ 8.

Definition named : mem := st_bytes m e (name ++ [0]).

(** The block of the entry, and its place there. *)
Lemma named_block : exists i, 0 <= i < dir_blocks m dir /\ baddr (slot m dir i) <= e /\
  e + sizeof_File <= baddr (slot m dir i) + BLKSIZE /\ (e - baddr (slot m dir i)) mod sizeof_File = 0 /\
  data_block m (slot m dir i) /\ blk e = slot m dir i /\ owns m dir (blk e).
Proof.
  pose proof (to_dir m F HT dir Hdir Hty) as Hd.
  destruct (entry_where m dir _ e Hd He) as (i & Hi & H1 & H2 & H3 & H4). exists i.
  assert (blk e = slot m dir i) as Eb by (fconsts; zdm). repeat (split; [done|]).
  rewrite Eb. split; [by apply (do_slots _ _ _ Hd)|]. right. exists i. split; [by apply (dir_has_slot m dir _ _ Hd)|done].
Qed.

Lemma named_ld8 a : a < e \/ e + 128 <= a -> ld8 named a = ld8 m a.
Proof.
  intros Ha. unfold named. rewrite ld8_st_bytes, length_app. destruct Hname as (_ & Hl & _).
  destruct (Z.leb_spec e a), (Z.ltb_spec a (e + Z.of_nat (length name + length [0]))); cbn [andb]; try done.
  simpl length in *. lia.
Qed.

Lemma named_meta : same_meta m named.
Proof.
  destruct named_block as (i & _ & H1 & H2 & _ & H4 & _). apply harmless_st_bytes; [apply (to_sane m F HT)|].
  rewrite length_app. destruct Hname as (_ & Hl & _). intros j Hj.
  replace (e + j) with (baddr (slot m dir i) + (e + j - baddr (slot m dir i))) by lia.
  apply harmless_data; [done|]. simpl length in *. fconsts. lia.
Qed.

(** The structures of the tree, behind their names, and their indirect blocks are untouched. *)
Lemma named_file f : F f -> same_file m named f.
Proof.
  intros Hf. destruct named_block as (i & Hi & H1 & H2 & H3 & [Hd0 Hu] & Hb & Ho).
  pose proof (to_file m F HT f Hf) as Hok. pose proof (fo_fits _ _ Hok) as Hfit. split.
  - intros j Hj. apply named_ld8. destruct (Z.eq_dec (blk f) (blk e)) as [E|E].
    + destruct (to_place m F HT f Hf) as [->|Hpl].
      * exfalso. pose proof (nblocks_range m (fo_sane _ _ Hok)). change (blk (s_root SUPER)) with 1 in E. lia.
      * rewrite E, Hb in Hpl. fconsts. zdm.
    + fconsts. zdm.
  - intros Hi0 j Hj. apply named_ld8.
    assert (ind m f <> blk e) as Hne.
    { intros E. destruct (Z.eq_dec f dir) as [->|Hfd].
      - rewrite Hb in E. pose proof (to_dir m F HT dir Hdir Hty) as Hd.
        destruct (fo_slot _ _ Hok i) as (_ & _ & Hx); [by apply (dir_has_slot m dir _ _ Hd)|by apply (do_slots _ _ _ Hd)|congruence].
      - apply Hfd. apply (to_apart m F HT f dir (blk e) Hf Hdir); [|done]. split; [rewrite <- E; done|]. by left. }
    fconsts. zdm.
Qed.

Lemma named_file_ok f : F f -> file_ok named f.
Proof.
  intros Hf. pose proof (to_sane m F HT) as Hs. pose proof named_meta as Hm.
  apply (file_ok_ext m); [by apply (to_file m F HT)|by apply named_file|by apply (same_meta_sane m)|apply Hm|].
  intros b Hb. by rewrite (same_meta_use m).
Qed.

Lemma named_type f : F f -> ld32 named (f_type f) = ld32 m (f_type f).
Proof. intros Hf. by apply same_type, named_file. Qed.

Lemma named_blocks f : F f -> dir_blocks named f = dir_blocks m f.
Proof. intros Hf. by apply same_blocks, named_file. Qed.

Lemma named_entries f : F f -> ld32 m (f_type f) = FTYPE_DIR -> entries named f (dir_blocks m f) = entries m f (dir_blocks m f).
Proof. intros Hf Ht. apply same_entries; [by apply named_file|by apply (to_dir m F HT)]. Qed.

(** Names of other entries. *)
Lemma named_other f a nm :
  F f -> ld32 m (f_type f) = FTYPE_DIR -> a ∈ entries m f (dir_blocks m f) -> a <> e -> name_ok nm ->
  name_is named a nm = name_is m a nm.
Proof.
  intros Hf Ht Ha Hne (_ & Hl & _). pose proof (to_dir m F HT f Hf Ht) as Hd. apply name_is_ext. intros j Hj. apply named_ld8.
  destruct (entry_where m f _ a Hd Ha) as (k & _ & A1 & A2 & A3 & _).
  destruct named_block as (i & _ & B1 & B2 & B3 & _). fconsts. zdm.
Qed.

(** Looking up another name, or the name in another directory, gives what it gave. *)
Lemma named_lookup f nm :
  F f -> ld32 m (f_type f) = FTYPE_DIR -> name_ok nm -> nm <> name \/ f <> dir -> lookup_in named f nm = lookup_in m f nm.
Proof.
  intros Hf Ht Hnm Hor. unfold lookup_in. rewrite named_blocks by done.
  unfold lookup_name. rewrite named_entries by done. apply find_ext. intros a Ha.
  destruct (Z.eq_dec a e) as [->|Hne]; [|by apply (named_other f)].
  assert (name_is m e nm = false) as ->.
  { apply not_true_iff_false. intros E. apply (name_is_head m e nm Hnm E). done. }
  apply not_true_iff_false. intros E. destruct Hor as [Hne|Hne]; apply Hne.
  - apply (name_is_inj named e); [apply Hnm|apply Hname|done|by apply name_is_self].
  - pose proof (to_dir m F HT f Hf Ht) as Hd. destruct (entry_where m f _ e Hd Ha) as (k & Hk & A1 & A2 & A3 & A4).
    destruct named_block as (i & _ & B1 & B2 & B3 & _ & Eb & Ho). apply (to_apart m F HT f dir (blk e) Hf Hdir); [|done].
    assert (blk e = slot m f k) as -> by (fconsts; zdm). split; [by apply (do_slots _ _ _ Hd)|]. right. exists k.
    split; [by apply (dir_has_slot m f _ _ Hd)|done].
Qed.

(** The new name is found. *)
Lemma named_found : lookup_in m dir name = None -> lookup_in named dir name = Some e.
Proof.
  intros H. unfold lookup_in. rewrite named_blocks by done.
  unfold lookup_name. rewrite named_entries by done.
  destruct (List.find (fun a => name_is named a name) (entries m dir (dir_blocks m dir))) as [a|] eqn:E.
  - f_equal. apply List.find_some in E as [Hin Hn]. destruct (Z.eq_dec a e) as [|Hne]; [done|]. exfalso.
    rewrite (named_other dir a name) in Hn by (done || by apply list_elem_of_In).
    pose proof (List.find_none _ _ H a Hin) as Hno. simpl in Hno. congruence.
  - exfalso. apply list_elem_of_In in He. pose proof (List.find_none _ _ E e He) as Hno. simpl in Hno.
    unfold named in Hno. rewrite name_is_self in Hno by done. discriminate.
Qed.

(** *** The tree with the new file *)

(** The rest of the entry is blank, as the tools that make disk images leave it. *)
Hypothesis Hblank : forall i, 128 <= i < sizeof_File -> ld8 m (e + i) = 0.

Lemma blank_word i : 128 <= i -> i + 4 <= sizeof_File -> ld32 named (e + i) = 0.
Proof.
  intros H1 H2. transitivity (ld32 m (e + i)).
  - apply ld32_ext. intros j Hj. rewrite <- Z.add_assoc. apply named_ld8. lia.
  - apply ld32_zero. intros j Hj. rewrite <- Z.add_assoc. apply Hblank. lia.
Qed.

Lemma blank_ind : ind named e = 0.
Proof. apply (blank_word 176); unfold sizeof_File; lia. Qed.

Lemma blank_slot n : has_slot named e n -> slot named e n = 0.
Proof.
  intros [H1 [H2|H2]]; [|by rewrite blank_ind in H2]. unfold slot, slot_addr. rewrite (proj2 (Z.ltb_lt _ _)) by done.
  unfold f_direct. rewrite <- Z.add_assoc. apply blank_word; fconsts; lia.
Qed.

Lemma blank_owns b : ~ owns named e b.
Proof. intros [H0 [->|(n & Hn & <-)]]; apply H0; [apply blank_ind|by apply blank_slot]. Qed.

Lemma blank_file : file_ok named e.
Proof.
  destruct named_block as (i & _ & B1 & B2 & B3 & [D1 D2] & Eb & _). pose proof (to_sane m F HT) as Hs.
  pose proof named_meta as Hm. split.
  - by apply (same_meta_sane m).
  - fconsts. zdm.
  - by rewrite (same_meta_use m), Eb.
  - rewrite Eb. fconsts. lia.
  - right. by rewrite (same_meta_data m), Eb.
  - intros H. by rewrite blank_ind in H.
  - intros n Hn H. by rewrite blank_slot in H.
  - intros n k Hn _ _ H. by rewrite blank_slot in H.
Qed.

Lemma named_tree : tree_ok named (fun f => F f \/ f = e).
Proof.
  assert (ld32 named (f_type e) <> FTYPE_DIR) as Ht by (change (f_type e) with (e + 132); rewrite blank_word; unfold sizeof_File, FTYPE_DIR; lia).
  split.
  - apply (same_meta_sane m); [apply (to_sane m F HT)|apply named_meta].
  - left. apply (to_root m F HT).
  - intros f [Hf| ->]; [by apply named_file_ok|apply blank_file].
  - intros f [Hf| ->] H; [|done]. rewrite named_type in H by done. rewrite named_blocks by done. apply (same_dir m); [by apply named_file|by apply named_file_ok|by apply (to_dir m F HT)].
  - intros f [Hf| ->]; [by apply (to_place m F HT)|right].
    destruct named_block as (i & _ & _ & _ & B3 & _ & Eb & _). by rewrite Eb.
  - intros f g b [Hf| ->] [Hg| ->] Of Og; try (by exfalso; eapply blank_owns).
    apply (to_apart m F HT f g b); [done|done|apply (same_owns m named); [by apply named_file|done]..].
  - intros f a [Hf| ->] H Ha H0; [|done]. rewrite named_type in H by done. rewrite named_blocks, named_entries in Ha by done.
    destruct (Z.eq_dec a e) as [|Hne]; [by right|left]. apply (to_entry m F HT f); try done.
    rewrite (named_ld8 a) in H0; [done|]. pose proof (to_dir m F HT f Hf H) as Hd.
    destruct (entry_where m f _ a Hd Ha) as (k & _ & A1 & A2 & A3 & _).
    destruct named_block as (i & _ & B1 & B2 & B3 & _). fconsts. zdm.
  - assert (forall g d, F d /\ ld32 m (f_type d) = FTYPE_DIR /\ g ∈ entries m d (dir_blocks m d) ->
      exists d, (F d \/ d = e) /\ ld32 named (f_type d) = FTYPE_DIR /\ g ∈ entries named d (dir_blocks named d)) as Hh.
    { intros g d (Hd & Htd & Hg). exists d. split; [by left|]. rewrite named_type, named_blocks, named_entries by done. done. }
    intros f [Hf| ->]; [|right; by apply (Hh e dir)].
    destruct (to_home m F HT f Hf) as [|(d & Hd)]; [by left|right; by apply (Hh f d)].
Qed.

(** *** Walking to the new file *)

Hypothesis Hnone : lookup_in m dir name = None.

Lemma named_walk names d f :
  F f -> Forall path_name names -> walk_names m names d f = mkWalked (- E_NOT_FOUND) dir 0 name -> dir <> 0 ->
  walk_names named names d f = mkWalked 0 dir e [].
Proof.
  intros Hf Hns H H0. revert d f Hf H. induction Hns as [|nm rest Hnm1 _ IH]; intros d f Hf; cbn [walk_names].
  { intros H. discriminate. }
  destruct (Nat.leb_spec 128 (length nm)) as [|Hlen]; [intros Hw; discriminate|].
  pose proof (path_name_ok nm Hnm1 Hlen) as Hnm. rewrite named_type by done.
  destruct (Z.eqb_spec (ld32 m (f_type f)) FTYPE_DIR) as [Ed|]; cbn [negb]; [|intros Hw; congruence].
  destruct (lookup_in m f nm) as [f'|] eqn:E.
  - intros Hw. rewrite named_lookup, E; try done; [apply IH; [by apply (lookup_in_tree m F f nm)|done]|].
    destruct (decide (nm = name)) as [->|]; [|by left]. right. intros ->. congruence.
  - destruct rest; [|intros Hw; congruence]. intros Hw. injection Hw as -> ->. by rewrite named_found.
Qed.
End Naming.

(** A walk that misses the last name ends in a directory of the tree. *)
Lemma walk_missing m F names d f dir name :
  tree_ok m F -> F f -> Forall path_name names ->
  walk_names m names d f = mkWalked (- E_NOT_FOUND) dir 0 name -> dir <> 0 ->
  F dir /\ ld32 m (f_type dir) = FTYPE_DIR /\ name_ok name /\ path_name name /\ lookup_in m dir name = None.
Proof.
  intros T Hf Hns H H0. revert d f Hf H. induction Hns as [|nm rest Hnm1 _ IH]; intros d f Hf; cbn [walk_names].
  { intros H. discriminate. }
  destruct (Nat.leb_spec 128 (length nm)) as [|Hlen]; [intros Hw; discriminate|].
  pose proof (path_name_ok nm Hnm1 Hlen) as Hnm.
  destruct (Z.eqb_spec (ld32 m (f_type f)) FTYPE_DIR) as [Ed|]; cbn [negb]; [|intros Hw; congruence].
  destruct (lookup_in m f nm) as [f'|] eqn:E.
  - apply IH. by apply (lookup_in_tree m F f nm).
  - destruct rest; [|intros Hw; congruence]. intros Hw. by injection Hw as -> ->.
Qed.

(** A walk that succeeds ends at a file of the tree. *)
Lemma walk_names_tree m F names d f :
  tree_ok m F -> F f -> Forall path_name names -> w_r (walk_names m names d f) = 0 -> F (w_file (walk_names m names d f)).
Proof.
  intros T Hf Hns. revert d f Hf. induction Hns as [|nm rest Hnm1 _ IH]; intros d f Hf; cbn [walk_names]; [done|].
  destruct (Nat.leb_spec 128 (length nm)) as [|Hlen]; [done|]. pose proof (path_name_ok nm Hnm1 Hlen) as Hnm.
  destruct (Z.eqb_spec (ld32 m (f_type f)) FTYPE_DIR) as [Ed|]; cbn [negb]; [|done].
  destruct (lookup_in m f nm) as [f'|] eqn:E; [|by destruct rest].
  apply IH. by apply (lookup_in_tree m F f nm).
Qed.

(** A walk sees the types and the lookups of the directories of the tree. *)
Lemma walk_names_ext m m' F names d f :
  tree_ok m F -> (forall g, F g -> ld32 m' (f_type g) = ld32 m (f_type g)) ->
  (forall g nm, F g -> ld32 m (f_type g) = FTYPE_DIR -> name_ok nm -> lookup_in m' g nm = lookup_in m g nm) ->
  F f -> Forall path_name names -> walk_names m' names d f = walk_names m names d f.
Proof.
  intros T Ht Hl Hf Hns. revert d f Hf. induction Hns as [|nm rest Hnm _ IH]; intros d f Hf; cbn [walk_names]; [done|].
  destruct (Nat.leb_spec 128 (length nm)) as [|Hlen]; [done|]. pose proof (path_name_ok nm Hnm Hlen) as Hn. rewrite Ht by done.
  destruct (Z.eqb_spec (ld32 m (f_type f)) FTYPE_DIR) as [Ed|]; cbn [negb]; [|done].
  rewrite Hl by done. destruct (lookup_in m f nm) as [f'|] eqn:E; [|done]. apply IH. by apply (lookup_in_tree m F f nm).
Qed.

(** ** Extending a directory *)

(** [m'] is [m] with a block of zeros behind the last block of the directory. *)
Record extended (m m' : mem) (dir nb : Z) : Prop := {
  ex_ok : file_ok m' dir;
  ex_grown : grown m m' dir;
  ex_size : ld32 m' (f_size dir) = (nb + 1) * BLKSIZE;
  ex_limit : (nb + 1) * BLKSIZE <= limit m' dir;
  ex_slots : forall k, has_slot m dir k -> slot m dir k <> 0 -> slot m' dir k = slot m dir k;
  ex_byte : forall pos, 0 <= pos < limit m dir -> fbyte m dir pos <> None -> fbyte m' dir pos = fbyte m dir pos;
  ex_slot : slot m' dir nb <> 0;
  ex_blank : blank m' (slot m' dir nb);
}.

(** A directory that can be extended: no block behind its end, below the largest size, and
    enough free blocks, of zeros. *)
Record extensible (m : mem) (dir : Z) : Prop := {
  xt_zero : zeroed m;
  xt_max : (dir_blocks m dir + 1) * BLKSIZE <= MAXFILESIZE;
  xt_past : has_slot m dir (dir_blocks m dir) -> slot m dir (dir_blocks m dir) = 0;
  xt_free : (1 + extra m dir ((dir_blocks m dir + 1) * BLKSIZE) <= nfree m)%nat;
}.

(** [dir_alloc_file] where no entry is free. *)
Lemma dir_alloc_file_extends fuel m dir :
  let nb := dir_blocks m dir in
  dir_ok m dir nb -> free_entry m dir nb = None -> extensible m dir -> (Z.to_nat (nblocks m) < fuel)%nat ->
  exists m', dir_alloc_file fuel dir m = Ret (0, baddr (slot m' dir nb)) m' /\ extended m m' dir nb.
Proof.
  intros nb H He [X1 X2 X3 X4] Hfuel. fold nb in X2, X3, X4. pose proof (do_file _ _ _ H) as Hf. pose proof (do_range _ _ _ H) as Hr.
  assert (MAXFILESIZE = 4235264) as Em by done. set (v := (nb + 1) * BLKSIZE) in *. set (m1 := set_size m dir v).
  pose proof (set_size_ok m dir v Hf) as H1. pose proof (set_size_ind m dir v) as Hi. pose proof (set_size_grown m dir v Hf) as Hg. fold m1 in H1, Hi, Hg.
  assert (zeroed m1) as Hz1 by (apply (zeroed_kept m); [apply Hf|apply Hg|by apply set_size_kept|apply Hg|done]).
  assert (forall k, has_slot m1 dir k -> has_slot m dir k) as Hh by (intros k; unfold has_slot; by rewrite Hi).
  destruct (get_block_any fuel m1 dir nb H1) as (m2 & E & [A1 A2 A3 A4 A5 A6 A7 A8 A9 A10] & _).
  { change (NDIRECT + NINDIRECT) with 1034. unfold v in X2. rewrite Em in X2. fconsts. lia. }
  { by right. }
  { right. unfold extra in *. rewrite Hi. unfold m1. rewrite set_size_nfree by done. done. }
  { by rewrite (gr_nb _ _ _ Hg). }
  exists m2. split; [|split; try done].
  - unfold dir_alloc_file. erewrite bind_ret by by apply dir_nblock_flat. erewrite bind_ret.
    2: { apply (find_in_blocks_flat fuel m _ (fun a => ld8 m a =? 0)); [done|]. intros a Ha.
         erewrite bind_ret; [reflexivity|]. apply rd8_flat; [apply H|].
         specialize (entry_avail m dir nb a 0 H Ha ltac:(done)). by rewrite Z.add_0_r. }
    unfold free_entry in He. rewrite He. erewrite bind_ret by by apply rd_size. rewrite (do_size _ _ _ H).
    erewrite bind_ret by (apply wr32_flat; [apply H|]; apply file_word; [done|unfold sizeof_File; lia..]).
    replace (nb * BLKSIZE + BLKSIZE) with v by (unfold v; lia). fold (set_size m dir v). by erewrite bind_ret by exact E.
  - by eapply grown_trans.
  - rewrite A7. unfold m1, set_size. rewrite ld32_st32_eq, u32_small; [done|]. unfold v in *. fconsts. lia.
  - by apply has_slot_limit.
  - intros k Hk Hk0. rewrite A9; unfold m1 in *; rewrite ?set_size_slot by done; try done. unfold has_slot. by rewrite Hi.
  - intros pos Hp Hb. rewrite A8; unfold m1 in *; rewrite ?set_size_byte; try done. by rewrite (limit_ind m).
  - destruct A10 as [B1 B2].
    { intros [Hs Hs0]. apply Hs0. unfold m1. rewrite set_size_slot; auto. }
    intros i Hib. rewrite B2 by done. apply Hz1; [|apply not_used_free|done].
    all: destruct (fo_slot _ _ A1 nb A2 A3) as [[_ Hu] _]; apply in_use_facts in Hu as [Hu _]; rewrite (gr_nb _ _ _ A4) in Hu; done.
Qed.

Section Extended.
Context (m : mem) (F : Z -> Prop) (dir : Z) (m' : mem).
Hypothesis HT : tree_ok m F.
Hypothesis Hdir : F dir.
Hypothesis Hty : ld32 m (f_type dir) = FTYPE_DIR.
Local Abbreviation nb := (dir_blocks m dir).
Hypothesis HX : extended m m' dir nb.

Lemma data0_low : 3 <= data0 m.
Proof. pose proof (nblocks_range m (to_sane m F HT)). unfold data0. fconsts. zdm. Qed.

Lemma ext_dir : dir_ok m dir nb.
Proof. by apply (to_dir m F HT). Qed.

(** What of the structure of the directory may be written. *)
Definition off_dir (a : Z) : Prop := a < dir + 128 \/ dir + 132 <= a < dir + 136 \/ dir + sizeof_File <= a.

(** Blocks of the files of the tree, but for the indirect block of the directory. *)
Lemma ext_owned g c i :
  F g -> owns m g c -> c <> ind m dir -> 0 <= i < BLKSIZE -> off_dir (baddr c + i) -> ld8 m' (baddr c + i) = ld8 m (baddr c + i).
Proof.
  intros Hg Ho Hc Hi Hoff. pose proof (to_file m F HT g Hg) as Hok.
  assert (data_block m c) as [Hd Hu].
  { destruct Ho as [H0 [->|(k & Hk & <-)]]; [by apply (fo_ind _ _ Hok)|by apply (fo_slot _ _ Hok)]. }
  pose proof (in_use_facts _ _ Hu) as [Hr _]. pose proof (nblocks_range m (to_sane m F HT)).
  destruct (in_disk_baddr c i ltac:(lia) Hi) as [E1 E2]. destruct (Z.eq_dec g dir) as [->|Hne].
  - destruct Ho as [H0 [?|(k & Hk & Ek)]]; [done|]. pose proof (has_slot_limit m dir k Hk) as Hl. destruct Hk as [Hk0 Hk1].
    assert ((k * BLKSIZE + i) / BLKSIZE = k /\ (k * BLKSIZE + i) mod BLKSIZE = i) as [Q1 Q2] by (fconsts; zdm).
    pose proof (ex_byte _ _ _ _ HX (k * BLKSIZE + i)) as Hb. unfold fbyte in Hb. rewrite Q1, Q2 in Hb.
    rewrite (ex_slots _ _ _ _ HX k), Ek, (proj2 (Z.eqb_neq c 0)) in Hb by (done || congruence).
    assert (0 <= k * BLKSIZE + i < limit m dir) as Hp by (fconsts; lia). specialize (Hb Hp ltac:(done)). congruence.
  - apply (gr_keep _ _ _ (ex_grown _ _ _ _ HX)); rewrite ?E2; try done; [right; fconsts; lia|].
    intros Hd'. apply Hne. by apply (to_apart m F HT g dir c).
Qed.

(** The block of an entry is not the indirect block of a file. *)
Lemma entry_block g a : F g -> ld32 m (f_type g) = FTYPE_DIR -> a ∈ entries m g (dir_blocks m g) ->
  baddr (blk a) <= a /\ a + sizeof_File <= baddr (blk a) + BLKSIZE /\ (a - baddr (blk a)) mod sizeof_File = 0 /\
  data0 m <= blk a /\ owns m g (blk a) /\ forall h, F h -> blk a <> ind m h.
Proof.
  intros Hg Ht Ha. pose proof (to_dir m F HT g Hg Ht) as Hd. destruct (entry_where m g _ a Hd Ha) as (k & Hk & A1 & A2 & A3 & [A4 A5]).
  assert (blk a = slot m g k) as -> by (fconsts; zdm). pose proof (dir_has_slot m g _ k Hd Hk) as Hs. pose proof (do_slots _ _ _ Hd k Hk) as H0.
  assert (owns m g (slot m g k)) as Ho by (split; [done|right; eauto]). repeat (split; [done|]). intros h Hh E.
  assert (g = h) as <- by (apply (to_apart m F HT g h (slot m g k)); [done..|]; split; [done|by left]).
  by destruct (fo_slot _ _ (do_file _ _ _ Hd) k Hs H0) as (_ & _ & Hx).
Qed.

(** Where the structures of the tree are. *)
Lemma file_block f : F f -> (f = s_root SUPER \/ data0 m <= blk f) /\ (forall h, F h -> ind m h <> 0 -> blk f <> ind m h).
Proof.
  intros Hf. pose proof data0_low. destruct (to_home m F HT f Hf) as [->|(d & Hd & Ht & Ha)].
  - split; [by left|]. change (blk (s_root SUPER)) with 1. intros h Hh Hi E. destruct (fo_ind _ _ (to_file m F HT h Hh) Hi) as [[D _] _]. lia.
  - destruct (entry_block d f Hd Ht Ha) as (_ & _ & _ & E4 & _ & E6). split; [by right|]. auto.
Qed.

(** An entry and the structure of the directory do not overlap, or are the same. *)
Lemma entry_off g a i : F g -> ld32 m (f_type g) = FTYPE_DIR -> a ∈ entries m g (dir_blocks m g) -> 0 <= i < sizeof_File ->
  a <> dir \/ i < 128 \/ 132 <= i < 136 -> off_dir (a + i).
Proof.
  intros Hg Ht Ha Hi Hor. destruct (entry_block g a Hg Ht Ha) as (E1 & E2 & E3 & E4 & _). pose proof data0_low.
  pose proof (fo_fits _ _ (to_file m F HT dir Hdir)) as Hfit. unfold off_dir. destruct (Z.eq_dec a dir) as [->|Hne]; [fconsts; lia|].
  destruct (Z.eq_dec (blk a) (blk dir)) as [Eb|Eb]; [|fconsts; lia].
  destruct (to_place m F HT dir Hdir) as [->|Hp]; [change (blk (s_root SUPER)) with 1 in Eb; lia|]. rewrite Eb in *. fconsts. zdm.
Qed.

Lemma ext_entry g a i : F g -> ld32 m (f_type g) = FTYPE_DIR -> a ∈ entries m g (dir_blocks m g) -> 0 <= i < sizeof_File ->
  a <> dir \/ i < 128 \/ 132 <= i < 136 -> ld8 m' (a + i) = ld8 m (a + i).
Proof.
  intros Hg Ht Ha Hi Hor. pose proof (entry_off g a i Hg Ht Ha Hi Hor) as Hoff.
  destruct (entry_block g a Hg Ht Ha) as (E1 & E2 & _ & _ & E5 & E6).
  replace (a + i) with (baddr (blk a) + (a + i - baddr (blk a))) in * by lia. apply (ext_owned g); auto. lia.
Qed.

Lemma ext_struct f i : F f -> 0 <= i < sizeof_File -> f <> dir \/ i < 128 \/ 132 <= i < 136 -> ld8 m' (f + i) = ld8 m (f + i).
Proof.
  intros Hf Hi Hor. destruct (to_home m F HT f Hf) as [->|(d & Hd & Ht & Ha)]; [|by apply (ext_entry d)].
  pose proof data0_low. pose proof (fo_fits _ _ (to_file m F HT dir Hdir)) as Hfit.
  assert (blk (s_root SUPER + i) = 1) as Eb by (fconsts; zdm).
  apply (gr_keep _ _ _ (ex_grown _ _ _ _ HX)); rewrite ?Eb.
  - rewrite in_disk_range. fconsts. lia.
  - change 1 with (blk (s_root SUPER)). apply (to_file m F HT), Hf.
  - left. fconsts. lia.
  - destruct (Z.eq_dec dir (s_root SUPER)) as [->|Hne]; [fconsts; lia|]. destruct (file_block dir Hdir) as [[?|Hb] _]; [done|]. fconsts. lia.
  - intros [_ [E|(k & Hk & E)]].
    + destruct (fo_ind _ _ (to_file m F HT dir Hdir)) as [[D _] _]; lia.
    + destruct (fo_slot _ _ (to_file m F HT dir Hdir) k Hk) as [[D _] _]; lia.
Qed.

(** Other files do not change. *)
Lemma ext_same f : F f -> f <> dir -> same_file m m' f.
Proof.
  intros Hf Hne. split; [intros i Hi; apply ext_struct; [done|unfold sizeof_File in *; lia|by left]|].
  intros Hi i Hib. assert (owns m f (ind m f)) as Ho by (split; [done|by left]). apply (ext_owned f); try done.
  - intros E. apply Hne. apply (to_apart m F HT f dir (ind m f) Hf Hdir Ho). split; [done|by left].
  - pose proof (fo_fits _ _ (to_file m F HT dir Hdir)). destruct (file_block dir Hdir) as [_ Hb]. specialize (Hb f Hf Hi).
    unfold off_dir. fconsts. zdm.
Qed.

Lemma ext_type f : F f -> ld32 m' (f_type f) = ld32 m (f_type f).
Proof. intros Hf. apply ld32_ext. intros i Hi. unfold f_type. rewrite <- Z.add_assoc. apply ext_struct; unfold sizeof_File; [done|lia|lia]. Qed.

Lemma ext_ok f : F f -> file_ok m' f.
Proof.
  intros Hf. destruct (Z.eq_dec f dir) as [->|Hne]; [apply HX|]. pose proof (ex_grown _ _ _ _ HX) as G.
  apply (file_ok_ext m); [by apply (to_file m F HT)|by apply ext_same|apply (ex_ok _ _ _ _ HX)|apply G|apply G].
Qed.

Lemma ext_blocks : dir_blocks m' dir = nb + 1.
Proof. unfold dir_blocks at 1. rewrite (ex_size _ _ _ _ HX). by rewrite Z.div_mul. Qed.

Lemma ext_grown_dir : dir_ok m' dir (nb + 1).
Proof.
  pose proof ext_dir as Hd. pose proof (do_range _ _ _ Hd). destruct HX as [X1 _ X3 X4 X5 _ X7 _]. split; [done|done|split; [fconsts; lia|done]|].
  intros i Hi. destruct (Z.eq_dec i nb) as [->|]; [done|]. assert (0 <= i < nb) as Hib by lia.
  rewrite X5; [by apply (do_slots _ _ _ Hd)|by apply (dir_has_slot m dir nb)|by apply (do_slots _ _ _ Hd)].
Qed.

(** The entries of the directory: those it had, and blank ones. *)
Definition new_entries : list Z := entry_list (Z.to_nat BLKFILES) (baddr (slot m' dir nb)).

Lemma ext_entries : entries m' dir (nb + 1) = entries m dir nb ++ new_entries.
Proof.
  pose proof ext_dir as Hd. pose proof (do_range _ _ _ Hd). rewrite entries_snoc by (fconsts; lia). f_equal. apply entries_ext. intros i Hi.
  apply (ex_slots _ _ _ _ HX); [by apply (dir_has_slot m dir nb)|by apply (do_slots _ _ _ Hd)].
Qed.

Lemma new_blank a i : a ∈ new_entries -> 0 <= i < sizeof_File -> ld8 m' (a + i) = 0.
Proof.
  intros (j & Hj & ->)%entry_list_elem Hi. rewrite <- Z.add_assoc. apply (ex_blank _ _ _ _ HX).
  change (Z.of_nat (Z.to_nat BLKFILES)) with 16 in Hj. fconsts. lia.
Qed.

Lemma new_nameless a : a ∈ new_entries -> ld8 m' a = 0.
Proof. intros Ha. rewrite <- (Z.add_0_r a). by apply new_blank. Qed.

Lemma ext_name g a nm : F g -> ld32 m (f_type g) = FTYPE_DIR -> a ∈ entries m g (dir_blocks m g) -> name_ok nm -> name_is m' a nm = name_is m a nm.
Proof.
  intros Hg Ht Ha (_ & Hl & _). apply name_is_ext. intros i Hi. apply (ext_entry g); try done; [unfold sizeof_File; lia|]. right. lia.
Qed.

Lemma ext_head g a : F g -> ld32 m (f_type g) = FTYPE_DIR -> a ∈ entries m g (dir_blocks m g) -> ld8 m' a = ld8 m a.
Proof. intros Hg Ht Ha. rewrite <- (Z.add_0_r a). apply (ext_entry g); try done. right. lia. Qed.

Lemma ext_lookup g nm : F g -> ld32 m (f_type g) = FTYPE_DIR -> name_ok nm -> lookup_in m' g nm = lookup_in m g nm.
Proof.
  intros Hg Ht Hnm. unfold lookup_in, lookup_name. destruct (Z.eq_dec g dir) as [->|Hne].
  - rewrite ext_blocks, ext_entries, find_app.
    rewrite (find_ext _ (fun a => name_is m a nm)) by (intros a Ha; by apply (ext_name dir)).
    destruct (List.find _ (entries m dir nb)); [done|]. destruct (List.find _ new_entries) as [a|] eqn:E; [|done]. exfalso.
    apply List.find_some in E as [Hin Hn]. apply list_elem_of_In in Hin. apply (name_is_head m' a nm Hnm Hn). by apply new_nameless.
  - rewrite (same_blocks m m' g), (same_entries m m' g) by (by apply ext_same || by apply (to_dir m F HT)).
    apply find_ext. intros a Ha. by apply (ext_name g).
Qed.

Lemma ext_walk names d f : F f -> Forall path_name names -> walk_names m' names d f = walk_names m names d f.
Proof. apply (walk_names_ext m m' F); [done|apply ext_type|apply ext_lookup]. Qed.

Lemma ext_free : free_entry m dir nb = None -> free_entry m' dir (dir_blocks m' dir) = Some (baddr (slot m' dir nb)).
Proof.
  intros Hnone. unfold free_entry in *. rewrite ext_blocks, ext_entries, find_app.
  rewrite (find_ext _ (fun a => ld8 m a =? 0)) by (intros a Ha; by rewrite (ext_head dir a)). rewrite Hnone.
  unfold new_entries. change (Z.to_nat BLKFILES) with 16%nat. cbn [entry_list List.find]. by rewrite new_nameless by (by left).
Qed.

Lemma ext_dirs g : F g -> ld32 m (f_type g) = FTYPE_DIR -> entries m g (dir_blocks m g) ⊆ entries m' g (dir_blocks m' g).
Proof.
  intros Hg Ht. destruct (Z.eq_dec g dir) as [->|Hne]; [rewrite ext_blocks, ext_entries; set_solver|].
  by rewrite (same_blocks m m' g), (same_entries m m' g) by (by apply ext_same || by apply (to_dir m F HT)).
Qed.

Lemma ext_owns g b : F g -> owns m' g b -> owns m g b \/ (g = dir /\ in_use m b = false).
Proof.
  intros Hg Ho. destruct (Z.eq_dec g dir) as [->|Hne]; [|left; apply (same_owns m m'); [by apply ext_same|done]].
  destruct (gr_owns _ _ _ (ex_grown _ _ _ _ HX) b Ho); auto.
Qed.

Lemma owns_in_use g b : F g -> owns m g b -> in_use m b = true.
Proof. intros Hg [H0 [->|(k & Hk & <-)]]; [by apply (fo_ind _ _ (to_file m F HT g Hg))|by apply (fo_slot _ _ (to_file m F HT g Hg))]. Qed.

Lemma ext_tree : tree_ok m' F.
Proof.
  split.
  - apply (ex_ok _ _ _ _ HX).
  - apply (to_root m F HT).
  - apply ext_ok.
  - intros f Hf Ht. rewrite ext_type in Ht by done. destruct (Z.eq_dec f dir) as [->|Hne]; [rewrite ext_blocks; apply ext_grown_dir|].
    rewrite (same_blocks m m' f) by by apply ext_same. apply (same_dir m); [by apply ext_same|by apply ext_ok|by apply (to_dir m F HT)].
  - apply (to_place m F HT).
  - intros f g b Hf Hg Of Og. destruct (ext_owns f b Hf Of) as [Of'|[-> Uf]], (ext_owns g b Hg Og) as [Og'|[-> Ug]]; [by apply (to_apart m F HT f g b)|..|done].
    + apply owns_in_use in Of'; [congruence|done].
    + apply owns_in_use in Og'; [congruence|done].
  - intros f a Hf Ht Ha H0. rewrite ext_type in Ht by done. assert (a ∈ entries m f (dir_blocks m f)) as Ha'.
    { destruct (Z.eq_dec f dir) as [->|Hne].
      - rewrite ext_blocks, ext_entries in Ha. apply elem_of_app in Ha as [|Ha]; [done|]. by rewrite new_nameless in H0.
      - by rewrite (same_blocks m m' f), (same_entries m m' f) in Ha by (by apply ext_same || by apply (to_dir m F HT)). }
    rewrite (ext_head f) in H0 by done. by apply (to_entry m F HT f).
  - intros f Hf. destruct (to_home m F HT f Hf) as [|(d & Hd & Ht & Ha)]; [by left|right]. exists d. split; [done|].
    rewrite ext_type by done. split; [done|]. by apply (ext_dirs d).
Qed.
End Extended.

(** ** Creating a file *)

(** A path that names a new file in a directory [dir] of the tree. *)
Record creatable (m : mem) (F : Z -> Prop) (path : list Z) (dir : Z) (name : list Z) : Prop := {
  cr_tree : tree_ok m F;
  cr_walk : walk_names m (path_names path) 0 (s_root SUPER) = mkWalked (- E_NOT_FOUND) dir 0 name;
  cr_dir : dir <> 0;
}.

(** A place for it: the first free entry of the directory, blank behind its name, or a block
    that can be added. *)
Definition has_place (m : mem) (dir : Z) : Prop :=
  match free_entry m dir (dir_blocks m dir) with
  | Some e => forall i, 128 <= i < sizeof_File -> ld8 m (e + i) = 0
  | None => extensible m dir
  end.

(** From [m] to [m'] the empty regular file [e] ([FTYPE_REG] is 0) came to [dir] under the name, and nothing else can be
    found that could not be before. *)
Record created (m m' : mem) (F : Z -> Prop) (dir e : Z) (name : list Z) : Prop := {
  cd_tree : tree_ok m' (fun f => F f \/ f = e);
  cd_before : lookup_in m dir name = None;
  cd_found : lookup_in m' dir name = Some e;
  cd_empty : ld32 m' (f_size e) = 0;
  cd_type : ld32 m' (f_type e) = 0;
  cd_others : forall g nm, F g -> ld32 m (f_type g) = FTYPE_DIR -> name_ok nm -> nm <> name \/ g <> dir ->
    lookup_in m' g nm = lookup_in m g nm;
}.

Lemma create_facts m F p path dir name :
  path_at m p path -> creatable m F path dir name ->
  F dir /\ ld32 m (f_type dir) = FTYPE_DIR /\ name_ok name /\ path_name name /\ lookup_in m dir name = None.
Proof.
  intros [Hp _] [T W D]. apply (walk_missing m F _ _ _ dir name T (to_root m F T) (path_names_chars m p path Hp) W D).
Qed.

(** A change of the disk does not change the path. *)
Lemma path_kept m m' p path : (forall a, in_disk a = false -> ld8 m' a = ld8 m a) -> path_at m p path -> path_at m' p path.
Proof.
  intros Hout [Hs Ho]. split; [|done]. revert p Hs Ho. induction path as [|c l IH]; intros q Hq Hqo; simpl length in Hqo; cbn [str_at] in *;
    rewrite Hout by (rewrite <- (Z.add_0_r q); apply (outside_in_disk q _ 0 Hqo); lia); [done|].
  destruct Hq as (Q1 & Q2 & Q3). repeat (split; [done|]). apply IH; [done|]. unfold outside in *. lia.
Qed.

Section Create.
Context (fuel : nat) (m : mem) (F : Z -> Prop) (p : Z) (path : list Z) (dir e : Z) (name : list Z).
Hypothesis Hp : path_at m p path.
Hypothesis Hfuel : (length path < fuel)%nat.
Hypothesis H : creatable m F path dir name.
Hypothesis Hentry : free_entry m dir (dir_blocks m dir) = Some e.
Hypothesis Hblank : forall i, 128 <= i < sizeof_File -> ld8 m (e + i) = 0.

Lemma entry_facts : e ∈ entries m dir (dir_blocks m dir) /\ ld8 m e = 0.
Proof. apply List.find_some in Hentry as [Hin Hz]. split; [by apply list_elem_of_In|by apply Z.eqb_eq]. Qed.

Lemma file_create_flat :
  (Z.to_nat (dir_blocks m dir) < fuel)%nat -> file_create fuel p m = Ret (0, e) (named m e name).
Proof.
  intros Hf2. destruct (create_facts m F p path dir name Hp H) as (H1 & H2 & H3 & H4 & H5). destruct entry_facts as [H6 H7].
  destruct H as [T W D]. unfold file_create.
  erewrite bind_ret by by apply (walk_path_flat fuel m F p path). rewrite W. cbn [w_r w_dir w_last].
  change (- E_NOT_FOUND =? 0) with false. change (- E_NOT_FOUND =? - E_NOT_FOUND) with true. rewrite (proj2 (Z.eqb_neq dir 0) D).
  cbn [negb orb]. pose proof (to_dir m F T dir H1 H2) as Hd. erewrite bind_ret by by apply (dir_alloc_file_flat fuel m dir (dir_blocks m dir) e).
  cbv iota beta. change (0 <? 0) with false. cbv iota. erewrite bind_ret.
  2: { destruct (named_block m F dir e T H1 H2 H6) as (i & _ & B1 & B2 & _ & Db & _).
       apply wr_bytes_flat; [apply (to_sane m F T)|]. rewrite length_app. destruct H3 as (_ & Hl & _). intros j Hj.
       unfold f_name. replace (e + j) with (baddr (slot m dir i) + (e + j - baddr (slot m dir i))) by lia.
       simpl length in Hj. split; [apply avail_data|apply harmless_data]; try done; fconsts; lia. }
  erewrite bind_ret; [done|]. change (f_name e) with e. fold (named m e name).
  apply (file_flush_flat fuel _ dir (dir_blocks m dir)); [|done].
  apply (same_dir m); [by apply (named_file m F dir)|by apply (named_file_ok m F dir)|done].
Qed.

Lemma named_path : path_at (named m e name) p path.
Proof.
  destruct (create_facts m F p path dir name Hp H) as (H1 & H2 & H3 & H4 & H5). destruct entry_facts as [H6 H7]. destruct H as [T W D].
  destruct (named_block m F dir e T H1 H2 H6) as (i & _ & B1 & B2 & _ & [Db Du] & _).
  apply in_use_facts in Du as [Du _]. pose proof (nblocks_range m (to_sane m F T)).
  apply (path_kept m); [|done]. intros a Ha. apply not_true_iff_false in Ha. rewrite in_disk_range in Ha.
  apply (named_ld8 m e name H3). fconsts. lia.
Qed.

Lemma name_bytes c : c ∈ name -> 0 <= c < 2 ^ 8.
Proof.
  destruct (create_facts m F p path dir name Hp H) as (_ & _ & _ & [_ H4] & _). intros Hc. rewrite Forall_forall in H4.
  specialize (H4 c Hc). simpl in H4. lia.
Qed.

Lemma named_created : created m (named m e name) F dir e name.
Proof.
  destruct (create_facts m F p path dir name Hp H) as (H1 & H2 & H3 & H4 & H5). destruct entry_facts as [H6 H7]. destruct H as [T W D].
  pose proof name_bytes as Hc. split; [by apply (named_tree m F dir e name)|done|by apply (named_found m F)|..].
  - apply (blank_word m e name); try done; unfold sizeof_File; lia.
  - apply (blank_word m e name); try done; unfold sizeof_File; lia.
  - intros g nm Hg Ht Hnm Hor. by apply (named_lookup m F dir).
Qed.

Lemma file_open_created : file_open fuel p (named m e name) = Ret (0, e) (named m e name).
Proof.
  destruct (create_facts m F p path dir name Hp H) as (H1 & H2 & H3 & H4 & H5). destruct entry_facts as [H6 H7]. pose proof named_path as Hp'.
  pose proof name_bytes as Hc. pose proof named_created as Hcr. destruct H as [T W D]. unfold file_open.
  erewrite bind_ret by (apply (walk_path_flat fuel _ (fun f => F f \/ f = e) p path); [apply Hcr|done|done]).
  rewrite (named_walk m F dir e name); try done; [apply (to_root m F T)|apply (path_names_chars m p), Hp].
Qed.
End Create.

(** Where the directory has to be extended, the file is created as if it had been before. *)
Lemma file_create_extends fuel m F p path dir name :
  path_at m p path -> (length path < fuel)%nat -> creatable m F path dir name ->
  free_entry m dir (dir_blocks m dir) = None -> extensible m dir -> (Z.to_nat (nblocks m) < fuel)%nat ->
  exists m', extended m m' dir (dir_blocks m dir) /\ file_create fuel p m = file_create fuel p m' /\
    path_at m' p path /\ creatable m' F path dir name.
Proof.
  intros Hp Hf H Hnone Hx Hfuel. destruct (create_facts m F p path dir name Hp H) as (H1 & H2 & H3 & H4 & H5). destruct H as [T W D].
  destruct (dir_alloc_file_extends fuel m dir (to_dir m F T dir H1 H2) Hnone Hx Hfuel) as (m' & E & X). exists m'.
  assert (path_at m' p path) as Hp' by (apply (path_kept m); [apply (ex_grown _ _ _ _ X)|done]).
  pose proof (ext_tree m F dir m' T H1 H2 X) as T'.
  assert (walk_names m' (path_names path) 0 (s_root SUPER) = mkWalked (- E_NOT_FOUND) dir 0 name) as W'.
  { rewrite (ext_walk m F dir m' T H1 H2 X); [done|apply (to_root m F T)|by apply (path_names_chars m p), Hp]. }
  assert (dir_alloc_file fuel dir m' = Ret (0, baddr (slot m' dir (dir_blocks m dir))) m') as E'.
  { apply (dir_alloc_file_flat fuel m' dir (dir_blocks m' dir)); [|by apply (ext_free m F dir m')].
    rewrite (ext_blocks m dir m' X). by apply (ext_grown_dir m F dir m'). }
  split; [done|]. split; [|by split]. unfold file_create.
  erewrite (bind_ret (walk_path fuel p)) by by apply (walk_path_flat fuel m F p path).
  erewrite (bind_ret (walk_path fuel p)) by by apply (walk_path_flat fuel m' F p path). rewrite W, W'. cbn [w_r w_dir w_last].
  change (- E_NOT_FOUND =? 0) with false. change (- E_NOT_FOUND =? - E_NOT_FOUND) with true. rewrite (proj2 (Z.eqb_neq dir 0) D). cbn [negb orb].
  erewrite (bind_ret (dir_alloc_file fuel dir)) by exact E. by erewrite (bind_ret (dir_alloc_file fuel dir)) by exact E'.
Qed.

Lemma file_create_any fuel m F p path dir name :
  path_at m p path -> (length path < fuel)%nat -> creatable m F path dir name -> has_place m dir ->
  (Z.to_nat (dir_blocks m dir + 1) < fuel)%nat -> (Z.to_nat (nblocks m) < fuel)%nat ->
  exists e m', file_create fuel p m = Ret (0, e) m' /\ file_open fuel p m' = Ret (0, e) m' /\ created m m' F dir e name /\
    (forall e0, free_entry m dir (dir_blocks m dir) = Some e0 -> e = e0 /\ m' = named m e name).
Proof.
  intros Hp Hf H Hpl Hf2 Hfuel. unfold has_place in Hpl. destruct (create_facts m F p path dir name Hp H) as (H1 & H2 & _).
  pose proof (do_range _ _ _ (to_dir m F (cr_tree _ _ _ _ _ H) dir H1 H2)) as Hr.
  destruct (free_entry m dir (dir_blocks m dir)) as [e|] eqn:Ee.
  - exists e, (named m e name). split; [by apply (file_create_flat fuel m F p path dir); [..|fconsts; lia]|].
    split; [by apply (file_open_created fuel m F p path dir)|]. split; [by apply (named_created fuel m F p path)|]. intros e0 [= <-]. done.
  - destruct (file_create_extends fuel m F p path dir name) as (m1 & X & E & Hp1 & Hc1); try done.
    pose proof (cr_tree _ _ _ _ _ H) as T. pose proof (ext_free m F dir m1 T H1 H2 X Ee) as Ee1. set (e := baddr (slot m1 dir (dir_blocks m dir))) in *.
    assert (forall i, 128 <= i < sizeof_File -> ld8 m1 (e + i) = 0) as Hb1.
    { intros i Hi. apply (ex_blank _ _ _ _ X). fconsts. lia. }
    exists e, (named m1 e name). rewrite E.
    split; [apply (file_create_flat fuel m1 F p path dir); try done; by rewrite (ext_blocks m dir m1 X)|].
    split; [by apply (file_open_created fuel m1 F p path dir)|]. split; [|done].
    destruct (named_created fuel m1 F p path dir e name Hp1 Hf Hc1 Ee1 Hb1) as [C1 C2 C3 C4 C5 C6]. split; try done.
    + by apply (create_facts m F p path).
    + intros g nm Hg Ht Hnm Hor. rewrite C6; [by apply (ext_lookup m F dir m1)|done| |done|done]. by rewrite (ext_type m F dir m1).
Qed.
