(* ===== verification/ServFlat.v ===== *)
(** Opening, reading and writing through the file server, on the flat store. *)

From stdpp Require Import gmap.
From S2P Require Import Prelude Mmu Mem Ide Bc BcSim Fs FsFlat FsFile FsGrow FsRw FsDir FsCreate Serv ServTab.

(** ** Memory outside the disk *)

(** The blocks behind the boot sector are the same. *)
Definition agree (m m' : mem) : Prop := forall a, in_disk a = true -> 1 <= blk a -> ld8 m' a = ld8 m a.

Lemma agree_refl m : agree m m.
Proof. by intros a _ _. Qed.

Lemma agree_trans m m1 m2 : agree m m1 -> agree m1 m2 -> agree m m2.
Proof. intros H1 H2 a Ha Hb. by rewrite H2, H1. Qed.

Lemma agree_st_bytes m a l : apart a (Z.of_nat (length l)) -> agree m (st_bytes m a l).
Proof.
  intros [H0 H] x Hx Hb. rewrite ld8_st_bytes. apply in_disk_range in Hx.
  destruct (Z.leb_spec a x), (Z.ltb_spec x (a + Z.of_nat (length l))); cbn [andb]; try done. exfalso. fconsts. zdm.
Qed.

Lemma agree_st32 m a v : apart a 4 -> agree m (st32 m a v).
Proof.
  intros [H0 H] x Hx Hb. apply ld8_st32_ne. apply in_disk_range in Hx.
  destruct (Z.lt_ge_cases x a), (Z.le_gt_cases (a + 4) x); try lia. exfalso. fconsts. zdm.
Qed.

Lemma agree_st8 m a v : apart a 1 -> agree m (st8 m a v).
Proof.
  intros [H0 H] x Hx Hb. rewrite ld8_st8. apply in_disk_range in Hx. destruct (Z.eqb_spec a x); [|done]. exfalso. fconsts. zdm.
Qed.

Lemma agree_sane m m' : sane m = true -> agree m m' -> sane m' = true.
Proof.
  intros Hs H. apply (same_meta_sane m); [done|]. pose proof (nblocks_range m Hs).
  split; [apply ld32_ext; intros i Hi|intros a Ha]; (apply H; [rewrite in_disk_range; fconsts; lia|fconsts; zdm]).
Qed.

Section Agree.
Context (m m' : mem) (F : Z -> Prop).
Hypothesis HT : tree_ok m F.
Hypothesis Ha : agree m m'.

Lemma agree_file f : F f -> file_ok m' f /\ same_file m m' f.
Proof. intros Hf. destruct (apart_same m m' f (to_file m F HT f Hf) Ha) as (H1 & H2 & _). done. Qed.

Lemma agree_lookup f nm : F f -> ld32 m (f_type f) = FTYPE_DIR -> name_ok nm -> lookup_in m' f nm = lookup_in m f nm.
Proof.
  intros Hf Ht (_ & Hl & _). assert (forall f, F f -> same_file m m' f) as Hs by (intros g Hg; by apply agree_file).
  unfold lookup_in. rewrite (same_blocks m m' f (Hs f Hf)). pose proof (to_dir m F HT f Hf Ht) as Hd.
  unfold lookup_name. rewrite (same_entries m m' f (Hs f Hf) _ Hd). apply find_ext. intros a Hin.
  destruct (entry_where m f _ a Hd Hin) as (k & _ & A1 & A2 & _ & [D1 D2]). apply in_use_facts in D2 as [D2 _].
  pose proof (nblocks_range m (to_sane m F HT)). assert (2 <= data0 m) by (unfold data0; fconsts; zdm).
  apply name_is_ext. intros j Hj. apply Ha; [rewrite in_disk_range; fconsts; lia|fconsts; zdm].
Qed.

Lemma agree_tree : tree_ok m' F.
Proof.
  assert (forall f, F f -> same_file m m' f) as Hs by (intros g Hg; by apply agree_file).
  assert (forall f, F f -> file_ok m' f) as Hok by (intros g Hg; by apply agree_file). split.
  - apply (agree_sane m); [apply (to_sane m F HT)|done].
  - apply (to_root m F HT).
  - done.
  - intros f Hf Ht. rewrite (same_type m m' f (Hs f Hf)) in Ht. rewrite (same_blocks m m' f (Hs f Hf)). apply (same_dir m); auto. by apply (to_dir m F HT).
  - apply (to_place m F HT).
  - intros f g b Hf Hg Of Og. apply (to_apart m F HT f g b); [done|done|apply (same_owns m m'); auto..].
  - intros f a Hf Ht Hin H0. rewrite (same_type m m' f (Hs f Hf)) in Ht. pose proof (to_dir m F HT f Hf Ht) as Hd.
    rewrite (same_blocks m m' f (Hs f Hf)), (same_entries m m' f (Hs f Hf) _ Hd) in Hin. apply (to_entry m F HT f); try done.
    destruct (entry_where m f _ a Hd Hin) as (k & _ & A1 & A2 & _ & [D1 D2]).
    apply in_use_facts in D2 as [D2 _]. pose proof (nblocks_range m (to_sane m F HT)). assert (2 <= data0 m) by (unfold data0; fconsts; zdm).
    rewrite <- Ha; [done|rewrite in_disk_range; fconsts; lia|fconsts; zdm].
  - intros f Hf. destruct (to_home m F HT f Hf) as [|(d & Hd & Ht & Hin)]; [by left|right]. exists d. split; [done|].
    rewrite (same_type m m' d), (same_blocks m m' d), (same_entries m m' d) by (auto || by apply (to_dir m F HT)). done.
Qed.

Lemma agree_walk names d f :
  F f -> Forall path_name names -> walk_names m' names d f = walk_names m names d f.
Proof.
  apply (walk_names_ext m m' F); [done| |intros g nm Hg Ht Hn; by apply agree_lookup].
  intros g Hg. apply (same_type m m'). by apply agree_file.
Qed.
End Agree.

(** ** Accesses outside the disk *)

Lemma out_rd32 m a : sane m = true -> outside a 4 -> rd32 a m = Ret (ld32 m a) m.
Proof.
  intros Hs H. apply rd32_flat; [done|]. destruct (outside_ok m a 4 0 Hs H ltac:(lia)) as [H1 _].
  destruct (outside_ok m a 4 3 Hs H ltac:(lia)) as [H2 _]. rewrite Z.add_0_r in H1. by split.
Qed.

Lemma out_wr32 m a v : sane m = true -> outside a 4 -> wr32 a v m = Ret tt (st32 m a v).
Proof.
  intros Hs H. apply wr32_flat; [done|]. destruct (outside_ok m a 4 0 Hs H ltac:(lia)) as [H1 _].
  destruct (outside_ok m a 4 3 Hs H ltac:(lia)) as [H2 _]. rewrite Z.add_0_r in H1. by split.
Qed.

Lemma out_wr_bytes m a l : sane m = true -> outside a (Z.of_nat (length l)) -> wr_bytes a l m = Ret tt (st_bytes m a l).
Proof. intros Hs H. apply wr_bytes_flat; [done|]. intros i Hi. by apply (outside_ok m a (Z.of_nat (length l))). Qed.

Lemma fs_ret {A} (c : M mem A) (s : serv mem) a m' : c s.(se_store) = Ret a m' -> fs c s = Ret a (set_store m' s).
Proof. intros E. unfold fs, zoom. by rewrite E. Qed.

Lemma str_at_move m m' q q' l :
  (forall i, 0 <= i <= Z.of_nat (length l) -> ld8 m' (q' + i) = ld8 m (q + i)) -> str_at m q l -> str_at m' q' l.
Proof.
  revert q q'. induction l as [|c l IH]; intros q q' H; cbn [str_at]; pose proof (H 0 ltac:(lia)) as E0; rewrite !Z.add_0_r in E0; rewrite E0; [done|].
  intros (H1 & H2 & H3). split; [done|]. split; [done|]. apply (IH (q + 1)); [|done]. intros i Hi.
  rewrite <- !Z.add_assoc. apply H. simpl length. lia.
Qed.

Lemma str_at_end m q l : str_at m q l -> ld8 m (q + Z.of_nat (length l)) = 0.
Proof.
  revert q. induction l as [|c l IH]; intros q; cbn [str_at length]; [by rewrite Z.add_0_r|]. intros (_ & _ & H).
  rewrite <- (IH (q + 1) H). f_equal. lia.
Qed.

(** ** Opening a file *)

Section Open.
Context {HPg : Pager}.
Hypothesis pages : forall pn, page_ok pn = true.
Context (fuel : nat) (path : Z).

(** The local array is on the stack, above the Fd pages. *)
Hypothesis Hpath : FILEVA + MAXOPEN * PGSIZE <= path.

Context (s : serv mem) (F : Z -> Prop) (p : list Z) (j : Z) (o : OpenFile).
Let m := s.(se_store).
Hypothesis HT : tree_ok m F.
Hypothesis Htab : tab_ok s.(opentab).

(** The first entry that is free. *)
Hypothesis Hj : 0 <= j < MAXOPEN.
Hypothesis Ho : s.(opentab) !! Z.to_nat j = Some o.
Hypothesis Hfree : refs s o.(o_fd) = 0 \/ refs s o.(o_fd) = 1.
Hypothesis Hfirst : forall i o', 0 <= i < j -> s.(opentab) !! Z.to_nat i = Some o' -> 2 <= refs s o'.(o_fd).
Hypothesis Hid : o.(o_fileid) + MAXOPEN < 2 ^ 31.

Let fd := o.(o_fd).
Let fid := o.(o_fileid) + MAXOPEN.

Lemma open_fd : fd = FILEVA + j * PGSIZE /\ u32 fid = fid /\ s32 fid = fid /\ 0 <= fid.
Proof.
  destruct (proj2 Htab j o Hj Ho) as (H1 & H2 & H3). unfold fd, fid. split; [done|]. unfold MAXOPEN in *.
  rewrite u32_small, s32_small by lia. lia.
Qed.

(** The table and the counts with the entry taken. *)
Definition took (m' : mem) (o' : OpenFile) : serv mem := mkServ m' (<[Z.to_nat j := o']> s.(opentab)) (<[fd := 1]> s.(fd_refs)).

Lemma openfile_alloc_flat m2 s2 :
  s2 = set_store m2 s -> sane m2 = true ->
  openfile_alloc s2 = Ret (fid, j) (took (st_bytes m2 fd (replicate (Z.to_nat PGSIZE) 0)) (bump o)).
Proof.
  intros -> Hs. destruct open_fd as (Efd & Eid & Eid2 & _).
  assert (forall n i, 0 <= i <= j -> j < i + Z.of_nat n -> openfile_loop n i (set_store m2 s) =
    Ret (fid, j) (took (st_bytes m2 fd (replicate (Z.to_nat PGSIZE) 0)) (bump o))) as H.
  2: { apply H; unfold MAXOPEN in *; lia. }
  assert (forall s3, s3.(opentab) = s.(opentab) -> s3.(fd_refs) = <[fd := 1]> s.(fd_refs) -> s3.(se_store) = m2 ->
    take_entry j s3 = Ret (fid, j) (took (st_bytes m2 fd (replicate (Z.to_nat PGSIZE) 0)) (bump o))) as Htake.
  { intros [m3 t3 r3] E1 E2 E3. cbn [opentab fd_refs se_store] in E1, E2, E3. subst m3 t3 r3. unfold take_entry.
    erewrite bind_ret by (unfold entry; cbn [opentab]; rewrite Ho; reflexivity). erewrite bind_ret by reflexivity.
    cbn [o_fd o_fileid]. fold fid. rewrite Eid. erewrite bind_ret.
    2: { apply fs_ret. cbn [se_store set_tab]. apply out_wr_bytes; [done|]. rewrite length_replicate. fold fd. rewrite Efd.
         split; [|right]; unfold FILEVA, DISKMAP, DISKSIZE, PGSIZE, MAXOPEN in *; lia. }
    unfold ret. rewrite Eid2. unfold took, bump. fold fid. by rewrite Eid. }
  induction n as [|n IH]; intros i Hi Hn; [lia|]. cbn [openfile_loop].
  destruct (Z.eq_dec i j) as [->|Hne].
  - erewrite bind_ret by (unfold entry; cbn [set_store opentab]; rewrite Ho; reflexivity).
    erewrite bind_ret by reflexivity. cbn [set_store fd_refs]. fold (refs s o.(o_fd)). fold fd.
    destruct (Z.eqb_spec (refs s fd) 0) as [E0|E0].
    + erewrite bind_ret by (unfold fd_page_alloc; rewrite pages; reflexivity). change (0 <? 0) with false. cbv iota.
      by apply Htake.
    + destruct (Z.eqb_spec (refs s fd) 1) as [E1|]; [|destruct Hfree; contradiction]. apply Htake; [done| |done].
      cbn [set_store fd_refs]. unfold refs in E1. destruct (s.(fd_refs) !! fd) as [x|] eqn:Ex; [|discriminate].
      simpl in E1. subst x. by rewrite insert_id.
  - assert (exists o', s.(opentab) !! Z.to_nat i = Some o') as [o' Ho'].
    { apply lookup_lt_is_Some. rewrite (proj1 Htab). unfold MAXOPEN in *. lia. }
    erewrite bind_ret by (unfold entry; cbn [set_store opentab]; rewrite Ho'; reflexivity).
    erewrite bind_ret by reflexivity. cbn [set_store fd_refs]. fold (refs s o'.(o_fd)).
    pose proof (Hfirst i o' ltac:(lia) Ho'). rewrite !(proj2 (Z.eqb_neq _ _)) by lia. apply IH; lia.
Qed.

(** The request, copied. *)
Definition path_copy : mem := st8 (st_bytes m path (ld_bytes m fsreq (Z.to_nat MAXPATHLEN))) (path + MAXPATHLEN - 1) 0.
Definition fd_clear : mem := st_bytes path_copy fd (replicate (Z.to_nat PGSIZE) 0).

Lemma path_outside : outside path MAXPATHLEN.
Proof. unfold outside, FILEVA, MAXOPEN, PGSIZE in *. fconsts. lia. Qed.

Lemma fd_outside i n : 0 <= i -> 0 <= n -> i + n <= PGSIZE -> outside (fd + i) n.
Proof. destruct open_fd as [-> _]. unfold outside, FILEVA, MAXOPEN, PGSIZE in *. fconsts. lia. Qed.

Lemma copy_agree : agree m path_copy.
Proof.
  pose proof path_outside as Ho1. apply (agree_trans _ (st_bytes m path (ld_bytes m fsreq (Z.to_nat MAXPATHLEN)))).
  - apply agree_st_bytes. rewrite length_ld_bytes. by apply outside_apart.
  - apply agree_st8, outside_apart. unfold outside, MAXPATHLEN in *. lia.
Qed.

Lemma clear_agree : agree m fd_clear.
Proof.
  apply (agree_trans _ path_copy); [apply copy_agree|]. apply agree_st_bytes, outside_apart. rewrite length_replicate.
  rewrite <- (Z.add_0_r fd). by apply fd_outside.
Qed.

Lemma clear_req a : fsreq <= a < fsreq + PGSIZE -> ld8 fd_clear a = ld8 m a.
Proof.
  intros Ha. destruct open_fd as [Efd _]. unfold fd_clear, path_copy. rewrite ld8_st_bytes, ld8_st8, ld8_st_bytes.
  unfold fsreq, FILEVA, MAXOPEN, PGSIZE, MAXPATHLEN in *.
  rewrite (proj2 (Z.leb_gt fd a)), (proj2 (Z.eqb_neq _ a)), (proj2 (Z.leb_gt path a)) by lia. done.
Qed.

(** The store at the end, and the entry. *)
Definition opened_mem (omode : Z) : mem :=
  st32 (st32 (st32 fd_clear (fd_file_id fd) fid) (fd_omode fd) (Z.land omode O_ACCMODE)) (fd_dev_id fd) devfile_id.

Lemma opened_agree omode : agree m (opened_mem omode).
Proof.
  destruct open_fd as (Efd & _). assert (forall i, 0 <= i -> i + 4 <= 4096 -> apart (fd + i) 4) as Hfo.
  { intros i ? ?. apply outside_apart, fd_outside; unfold PGSIZE; lia. }
  apply (agree_trans _ _ _ clear_agree). unfold opened_mem.
  eapply agree_trans; [|apply agree_st32; unfold fd_dev_id; rewrite <- (Z.add_0_r fd); apply Hfo; lia].
  eapply agree_trans; apply agree_st32, Hfo; lia.
Qed.

(** The Fd page of a fresh open. *)
Lemma opened_fields omode :
  ld32 (opened_mem omode) (fd_offset fd) = 0 /\ ld32 (opened_mem omode) (fd_file_id fd) = fid /\
  ld32 (opened_mem omode) (fd_omode fd) = Z.land omode O_ACCMODE.
Proof.
  destruct open_fd as (Efd & Eid & _). unfold opened_mem, fd_offset, fd_file_id, fd_omode, fd_dev_id. split; [|split].
  - rewrite !ld32_st32_ne by lia. apply ld32_zero. intros i Hi. unfold fd_clear. rewrite ld8_st_bytes, length_replicate.
    rewrite (proj2 (Z.leb_le _ _)), (proj2 (Z.ltb_lt _ _)) by (unfold PGSIZE; lia). cbn [andb].
    rewrite lookup_replicate_2; [done|]. unfold PGSIZE. lia.
  - rewrite !ld32_st32_ne, ld32_st32_eq by lia. exact Eid.
  - rewrite ld32_st32_ne, ld32_st32_eq by lia. apply u32_small. change O_ACCMODE with (Z.ones 2). rewrite Z.land_ones by lia. zdm.
Qed.
Hypothesis Hp : path_at m fsreq p.
Hypothesis Hlen : Z.of_nat (length p) < MAXPATHLEN.

Lemma clear_path : path_at fd_clear path p.
Proof.
  destruct open_fd as [Efd _]. split.
  - apply (str_at_move m fd_clear fsreq path); [|apply Hp]. intros i Hi. unfold fd_clear, path_copy.
    rewrite ld8_st_bytes, length_replicate.
    rewrite (proj2 (Z.ltb_ge (path + i) _)) by (unfold FILEVA, MAXOPEN, PGSIZE in *; lia). rewrite andb_false_r, ld8_st8.
    destruct (Z.eqb_spec (path + MAXPATHLEN - 1) (path + i)) as [E|E].
    { assert (i = Z.of_nat (length p)) as -> by lia. destruct Hp as [Hs _]. by rewrite (str_at_end m fsreq p Hs). }
    unfold MAXPATHLEN in *. rewrite ld8_st_bytes, length_ld_bytes.
    rewrite (proj2 (Z.leb_le _ _)), (proj2 (Z.ltb_lt _ _)) by lia. cbn [andb]. rewrite ld_bytes_lookup by lia. cbn [default from_option id]. rewrite u8_small by apply ld8_range. f_equal. lia.
  - pose proof path_outside. unfold outside in *. lia.
Qed.

Lemma took_fs {A} (c : M mem A) m1 o1 a m2 : c m1 = Ret a m2 -> fs c (took m1 o1) = Ret a (took m2 o1).
Proof. intros E. exact (fs_ret c (took m1 o1) a m2 E). Qed.

Lemma took_put m1 o1 o2 : put_entry j o2 (took m1 o1) = Ret tt (took m1 o2).
Proof. unfold put_entry, modify, set_tab, took. cbn [opentab se_store fd_refs]. by rewrite list_insert_insert_eq. Qed.

Lemma took_entry m1 o1 : entry j (took m1 o1) = Ret o1 (took m1 o1).
Proof. unfold entry, took. cbn [opentab]. rewrite list_lookup_insert_eq; [done|]. by apply lookup_lt_Some in Ho. Qed.

Lemma open_mode omode m' :
  omode = ld32 m (req_omode fsreq) -> agree m m' -> (forall a, fsreq <= a < fsreq + PGSIZE -> ld8 m' a = ld8 m a) ->
  rd32 (req_omode fsreq) m' = Ret omode m'.
Proof.
  intros -> Ha Hm. pose proof (to_sane m F HT) as Hs.
  rewrite out_rd32; [|by apply (agree_sane m)|unfold outside, req_omode, fsreq, MAXPATHLEN; fconsts; lia].
  f_equal. apply ld32_ext. intros i Hi. apply Hm. unfold req_omode, fsreq, MAXPATHLEN, PGSIZE. lia.
Qed.

(** Filling the Fd page. *)
Lemma open_tail f omode :
  omode = ld32 m (req_omode fsreq) ->
  (let* o := entry j in
   put_entry j (mkOpen o.(o_fileid) f o.(o_mode) o.(o_fd)) ;;;
   fs (wr32 (fd_file_id o.(o_fd)) o.(o_fileid)) ;;;
   let* omode := fs (rd32 (req_omode fsreq)) in
   fs (wr32 (fd_omode o.(o_fd)) (Z.land omode O_ACCMODE)) ;;;
   fs (wr32 (fd_dev_id o.(o_fd)) devfile_id) ;;;
   let* omode := fs (rd32 (req_omode fsreq)) in
   put_entry j (mkOpen o.(o_fileid) f (s32 omode) o.(o_fd)) ;;;
   ret (0, Some (o.(o_fd), Z.lor (Z.lor (Z.lor PTE_P PTE_U) PTE_W) PTE_SHARE))) (took fd_clear (bump o)) =
  Ret (0, Some (fd, Z.lor (Z.lor (Z.lor PTE_P PTE_U) PTE_W) PTE_SHARE)) (took (opened_mem omode) (mkOpen fid f (s32 omode) fd)).
Proof.
  intros Eo. destruct open_fd as (Efd & Eid & Eid2 & Hid0). pose proof (to_sane m F HT) as Hs.
  erewrite bind_ret by apply took_entry. erewrite bind_ret by apply took_put. cbn [bump o_fileid o_fd o_mode]. fold fd fid. rewrite Eid.
  assert (forall i, 0 <= i -> i + 4 <= 4096 -> outside (fd + i) 4) as Hfo by (intros i ? ?; apply fd_outside; unfold PGSIZE; lia).
  set (m4 := st32 fd_clear (fd_file_id fd) fid). set (m5 := st32 m4 (fd_omode fd) (Z.land omode O_ACCMODE)).
  assert (forall m' i v, 0 <= i -> i + 4 <= 4096 -> agree m m' /\ (forall a, fsreq <= a < fsreq + PGSIZE -> ld8 m' a = ld8 m a) ->
    agree m (st32 m' (fd + i) v) /\ (forall a, fsreq <= a < fsreq + PGSIZE -> ld8 (st32 m' (fd + i) v) a = ld8 m a)) as Hst.
  { intros m' i v H0 H4 [Ha Hm]. split; [apply (agree_trans _ m'); [done|]; by apply agree_st32, outside_apart, Hfo|].
    intros a Hr. rewrite ld8_st32_ne by (rewrite Efd; unfold fsreq, FILEVA, PGSIZE, MAXOPEN in *; lia). by apply Hm. }
  pose proof (conj clear_agree clear_req) as C3.
  assert (agree m m4 /\ (forall a, fsreq <= a < fsreq + PGSIZE -> ld8 m4 a = ld8 m a)) as C4 by (apply Hst; [lia|lia|exact C3]).
  assert (agree m m5 /\ (forall a, fsreq <= a < fsreq + PGSIZE -> ld8 m5 a = ld8 m a)) as C5 by (apply Hst; [lia|lia|exact C4]).
  assert (agree m (opened_mem omode) /\ (forall a, fsreq <= a < fsreq + PGSIZE -> ld8 (opened_mem omode) a = ld8 m a)) as C6.
  { assert (opened_mem omode = st32 m5 (fd + 0) devfile_id) as -> by (unfold opened_mem, fd_dev_id; by rewrite Z.add_0_r).
    apply Hst; [lia|lia|exact C5]. }
  erewrite bind_ret by (apply took_fs, out_wr32; [apply (agree_sane m), clear_agree; done|apply Hfo; lia]). fold m4.
  erewrite bind_ret by (apply took_fs, (open_mode omode); [done|apply C4|apply C4]).
  erewrite bind_ret by (apply took_fs, out_wr32; [apply (agree_sane m), C4; done|apply Hfo; lia]). fold m5.
  erewrite bind_ret.
  2: { apply took_fs, out_wr32; [apply (agree_sane m), C5; done|]. unfold fd_dev_id. rewrite <- (Z.add_0_r fd). apply Hfo; lia. }
  fold (opened_mem omode). erewrite bind_ret by (apply took_fs, (open_mode omode); [done|apply C6|apply C6]).
  erewrite bind_ret by apply took_put. done.
Qed.

Hypothesis Hfuel : (length p < fuel)%nat.

Lemma serve_open_flat f omode :
  omode = ld32 m (req_omode fsreq) -> Z.land omode O_CREAT = 0 -> Z.land omode O_TRUNC = 0 ->
  walk_names m (path_names p) 0 (s_root SUPER) = f -> w_r f = 0 ->
  serve_open fuel path fsreq s =
    Ret (0, Some (fd, Z.lor (Z.lor (Z.lor PTE_P PTE_U) PTE_W) PTE_SHARE))
      (took (opened_mem omode) (mkOpen fid (w_file f) (s32 omode) fd)).
Proof.
  intros Eo Ec Et Ew Er. destruct open_fd as (Efd & Eid & Eid2 & Hid0). pose proof (to_sane m F HT) as Hs. unfold serve_open.
  pose proof path_outside as Hpo. pose proof (agree_sane m fd_clear Hs clear_agree) as Hs3.
  assert (file_open fuel path fd_clear = Ret (0, w_file f) fd_clear) as Eopen.
  { unfold file_open. erewrite bind_ret.
    2: { apply (walk_path_flat fuel fd_clear F path p); [by apply (agree_tree m), clear_agree|apply clear_path|done]. }
    rewrite (agree_walk m fd_clear F HT clear_agree), Ew, Er; [done|apply (to_root m F HT)|by apply (path_names_chars m fsreq), Hp]. }
  erewrite bind_ret.
  2: { apply fs_ret. unfold copy. fold m. erewrite bind_ret by (apply rd_bytes_flat; [done|]; intros i Hi;
         apply (outside_ok m fsreq PGSIZE); [done|by unfold outside, fsreq; fconsts; lia|unfold MAXPATHLEN in *; fconsts; lia]).
       apply out_wr_bytes; [done|]. by rewrite length_ld_bytes. }
  erewrite bind_ret.
  2: { apply fs_ret. cbn [set_store se_store]. unfold req_path.
       assert (agree m (st_bytes m path (ld_bytes m fsreq (Z.to_nat MAXPATHLEN)))) as A1.
       { apply agree_st_bytes. rewrite length_ld_bytes. by apply outside_apart. }
       pose proof (agree_sane _ _ Hs A1) as Hs1. apply wr8_flat; [done|].
       replace (path + MAXPATHLEN - 1) with (path + (MAXPATHLEN - 1)) by lia. refine (proj1 (outside_ok _ path MAXPATHLEN (MAXPATHLEN - 1) Hs1 Hpo _)).
       unfold MAXPATHLEN. lia. }
  fold path_copy. erewrite bind_ret by (apply openfile_alloc_flat; [reflexivity|apply (agree_sane m), copy_agree; done]).
  fold fd_clear. cbv iota beta. rewrite (proj2 (Z.ltb_ge fid 0)) by done.
  erewrite bind_ret by (apply fs_ret, (open_mode omode); [exact Eo|apply clear_agree|apply clear_req]). rewrite Ec. change (nonzero 0) with false. cbv iota.
  erewrite bind_ret by (apply fs_ret; exact Eopen). cbv iota beta. change (0 <? 0) with false. cbv iota.
  erewrite bind_ret by (apply fs_ret, (open_mode omode); [exact Eo|apply clear_agree|apply clear_req]). rewrite Et. change (nonzero 0) with false. cbv iota.
  erewrite bind_ret by reflexivity. change (0 <? 0) with false. cbv iota.
  erewrite bind_ret by (apply fs_ret; exact Eopen). cbv iota beta. change (0 <? 0) with false. cbv iota.
  match goal with |- _ (set_store fd_clear ?x) = _ => change (set_store fd_clear x) with (took fd_clear (bump o)) end.
  by apply open_tail.
Qed.

End Open.

(** ** Reading through the server *)

(** The open file a request names. *)
Definition names_file (s : serv mem) (o : OpenFile) : Prop :=
  tab_ok s.(opentab) /\ o.(o_fileid) = ld32 s.(se_store) (req_fileid fsreq) /\
  s.(opentab) !! Z.to_nat (o.(o_fileid) mod MAXOPEN) = Some o /\ 2 <= refs s o.(o_fd).

Lemma lookup_run s o : names_file s o -> openfile_lookup o.(o_fileid) s = Ret (Some o) s.
Proof.
  intros (_ & _ & Ho & Hr). unfold openfile_lookup. erewrite bind_ret by (unfold entry; rewrite Ho; reflexivity).
  erewrite bind_ret by reflexivity. fold (refs s o.(o_fd)). rewrite (proj2 (Z.leb_gt _ _)) by lia. by rewrite Z.eqb_refl.
Qed.

Lemma names_fd s o : names_file s o -> exists j, 0 <= j < MAXOPEN /\ o.(o_fd) = FILEVA + j * PGSIZE.
Proof.
  intros (Ht & _ & Ho & _). exists (o.(o_fileid) mod MAXOPEN). assert (0 <= o.(o_fileid) mod MAXOPEN < MAXOPEN) as Hj by by apply Z.mod_pos_bound.
  split; [done|]. by destruct (proj2 Ht _ o Hj Ho) as (_ & _ & ?).
Qed.

(** A request the server finds the file for starts like this. *)
Lemma request_head {A} s o (k : option OpenFile -> M (serv mem) A) :
  sane s.(se_store) = true -> names_file s o ->
  (let* id := fs (rd32 (req_fileid fsreq)) in let* po := openfile_lookup id in k po) s = k (Some o) s.
Proof.
  intros Hs H. erewrite bind_ret by (apply fs_ret, out_rd32; [done|unfold outside, req_fileid, fsreq; fconsts; lia]).
  pose proof H as (_ & E & _). rewrite <- E. assert (set_store s.(se_store) s = s) as -> by by destruct s.
  by erewrite bind_ret by by apply lookup_run.
Qed.

(** How much a read gives. *)
Definition read_count (m : mem) (f off count : Z) : Z :=
  if ld32 m (f_size f) <=? off then 0 else Z.min count (ld32 m (f_size f) - off).

Lemma serve_read_flat fuel s o :
  let m := s.(se_store) in
  let f := o.(o_file) in
  let off := ld32 m (fd_offset o.(o_fd)) in
  let n := read_count m f off (ld32 m (req_n fsreq)) in
  names_file s o -> file_ok m f -> ld32 m (f_size f) < 2 ^ 31 -> off + n < 2 ^ 31 -> off + n <= limit m f -> n <= 2 * PGSIZE ->
  (forall i, off <= i < off + n -> fbyte m f i <> None) -> (Z.to_nat (spans off (off + n)) < fuel)%nat ->
  exists m', serve_read fuel fsreq s = Ret n (set_store (st32 m' (fd_offset o.(o_fd)) (off + n)) s) /\
    read_into m m' f (ret_buf fsreq) off (off + n) /\ ld32 m' (fd_offset o.(o_fd)) = off.
Proof.
  intros m f off n Hn Hf Hsz Hoff Hlim Hmax Hthere Hfuel. pose proof (fo_sane _ _ Hf) as Hs.
  destruct (names_fd s o Hn) as (j & Hj & Efd). pose proof (ld32_range m (fd_offset o.(o_fd))) as Hoff0. fold off in Hoff0.
  pose proof (ld32_range m (req_n fsreq)) as Hreq. pose proof (ld32_range m (f_size f)) as Hsz0.
  assert (0 <= n) as Hn0 by (unfold n, read_count; bcase; lia).
  assert (outside (fd_offset o.(o_fd)) 4) as Hfo.
  { rewrite Efd. unfold outside, fd_offset, FILEVA, MAXOPEN in *. fconsts. lia. }
  unfold serve_read. rewrite (request_head s o) by done.
  erewrite bind_ret by (apply fs_ret, out_rd32; [done|unfold outside, req_n, fsreq; fconsts; lia]).
  erewrite bind_ret by (apply fs_ret, out_rd32; [done|done]). cbn [set_store se_store]. fold m off. rewrite s32_small by lia.
  assert (exists m', file_read fuel f (ret_buf fsreq) (ld32 m (req_n fsreq)) off m = Ret n m' /\ read_into m m' f (ret_buf fsreq) off (off + n)) as (m' & E & R).
  { destruct (Z.le_gt_cases (ld32 m (f_size f)) off) as [Hle|Hlt].
    - assert (n = 0) as -> by (unfold n, read_count; by rewrite (proj2 (Z.leb_le _ _))). exists m. split.
      + unfold file_read. erewrite bind_ret by by apply rd_size. rewrite s32_small by lia. by rewrite (proj2 (Z.leb_le _ _)).
      + intros a. destruct (Z.leb_spec (ret_buf fsreq) a), (Z.ltb_spec a (ret_buf fsreq + (off + 0 - off))); cbn [andb]; done || lia.
    - assert (n = Z.min (ld32 m (req_n fsreq)) (ld32 m (f_size f) - off)) as En by (unfold n, read_count; by rewrite (proj2 (Z.leb_gt _ _))).
      pose proof (file_read_flat fuel m f (ret_buf fsreq) (ld32 m (req_n fsreq)) off) as Hr. cbv zeta in Hr. rewrite <- En in Hr.
      clearbody n. unfold PGSIZE in *. apply Hr; try done; unfold apart, ret_buf, fsreq; fconsts; lia. }
  erewrite bind_ret by (apply fs_ret; exact E). rewrite (proj2 (Z.ltb_ge _ _)) by done.
  assert (ld32 m' (fd_offset o.(o_fd)) = off) as Eoff.
  { apply ld32_ext. intros i Hi. rewrite R. rewrite Efd. unfold fd_offset, ret_buf, fsreq, FILEVA, PGSIZE, MAXOPEN in *.
    rewrite (proj2 (Z.ltb_ge _ _)) by lia. by rewrite andb_false_r. }
  assert (sane m' = true) as Hs'.
  { apply (agree_sane m); [done|]. intros a Ha Hb. rewrite R. apply in_disk_range in Ha. unfold ret_buf, fsreq in *.
    rewrite (proj2 (Z.ltb_ge _ _)) by (fconsts; zdm). by rewrite andb_false_r. }
  erewrite bind_ret by (apply fs_ret, out_rd32; done). cbn [set_store se_store]. rewrite Eoff, (s32_small off), s32_small by lia.
  erewrite bind_ret by (apply fs_ret, out_wr32; done). exists m'. done.
Qed.
