(* ===== verification/FsDurable.v ===== *)
(** What has reached the disk: [fs_sync], and the bitmap after [alloc_block]. *)

From S2P Require Import Prelude Mmu Mem Ide Bc BcSim Fs FsSim FsFlat FsFile.

Section Durable.
Context {D : Type} {HD : Disk D} {HPg : Pager}.
Hypothesis pages : forall pn, page_ok pn = true.

(** The block an address is in is on the disk as it is in memory. *)
Definition clean (s : srv D) (a : Z) : Prop := ~ dirty s a.

Lemma clean_on_disk s m a : coherent s m -> in_disk a = true -> clean s a -> ld8 (image s.(sv_dev)) (a - DISKMAP) = ld8 m a.
Proof. intros H. apply (co_disk _ _ H). Qed.

(** ** [fs_sync] *)

Lemma rd_nblocks (s : srv D) m : coherent s m -> rd32 (s_nblocks SUPER) s = Ret (nblocks m) s.
Proof.
  intros H. assert (rd32 (s_nblocks SUPER) = rd32_at fault_depth (s_nblocks SUPER)) as -> by reflexivity.
  rewrite (rd32_there fault_depth s m) by (assumption || (apply (super_there s m); [assumption|]; fsconsts; lia)).
  reflexivity.
Qed.

Lemma diskaddr_cached (s : srv D) m b :
  coherent s m -> sane m = true -> 0 < b < nblocks m -> diskaddr b s = Ret (baddr b) s.
Proof.
  intros H Hs Hb. pose proof (nblocks_range m Hs). unfold diskaddr. rewrite (proj2 (Z.eqb_neq _ _)) by lia.
  erewrite bind_ret by reflexivity. rewrite (co_super _ _ H). change (SUPER =? 0) with false. cbv iota.
  erewrite bind_ret by (erewrite bind_ret by exact (rd_nblocks s m H); reflexivity).
  rewrite (proj2 (Z.leb_gt _ _)) by lia. rewrite u32_small by (fsconsts; lia). done.
Qed.

Lemma fs_sync_loop_ok n s m i :
  coherent s m -> sane m = true -> 1 <= i <= nblocks m -> (Z.to_nat (nblocks m - i) < n)%nat ->
  exists s', fs_sync_loop n i s = Ret tt s' /\ coherent s' m /\ (forall a, clean s a -> clean s' a) /\
    (forall a, in_disk a = true -> i <= blk a < nblocks m -> clean s' a).
Proof.
  revert s i. induction n as [|n IH]; intros s i H Hs Hi Hn; [lia|]. pose proof (nblocks_range m Hs) as (Hr & _).
  cbn [fs_sync_loop]. erewrite bind_ret by reflexivity. rewrite (co_super _ _ H).
  erewrite bind_ret by exact (rd_nblocks s m H). rewrite !u32_small by lia.
  destruct (Z.ltb_spec i (nblocks m)) as [Hlt|Hge].
  2: { exists s. split; [done|]. split; [done|]. split; [done|]. intros a _ ?. lia. }
  erewrite bind_ret by (apply (diskaddr_cached s m); [done..|lia]).
  destruct (in_disk_baddr i 0 ltac:(lia) ltac:(done)) as [Hd Hb]. rewrite Z.add_0_r in Hd, Hb.
  destruct (flush_ok s m (baddr i) H Hd) as (s1 & E1 & C1 & _ & K1 & F1).
  erewrite bind_ret by exact E1.
  destruct (IH s1 (i + 1) C1 Hs ltac:(lia) ltac:(lia)) as (s2 & E2 & C2 & K2 & F2).
  exists s2. split; [exact E2|]. split; [done|]. split.
  - intros a Ha. apply K2. intros Hd1. by apply Ha, K1.
  - intros a Ha Hr2. destruct (Z.eq_dec (blk a) i) as [E|]; [|apply F2; [done|lia]].
    apply K2, F1; [done|]. by rewrite Hb.
Qed.

(** ** [alloc_block] *)

(** A matched run whose final state on the cache satisfies [Q]. *)
Definition simq {A} (Q : A -> srv D -> Prop) (c : M (srv D) A) (f : M mem A) : Prop := forall s m,
  coherent s m ->
  match f m with
  | Ret a m' => exists s', c s = Ret a s' /\ coherent s' m' /\ Q a s'
  | Panic m' => exists s', c s = Panic s' /\ coherent s' m'
  | _ => True
  end.

Lemma simq_bind {A B} (Q : B -> srv D -> Prop) (c : M (srv D) A) f (k : A -> M (srv D) B) g :
  sim c f -> (forall a, simq Q (k a) (g a)) -> simq Q (bind c k) (bind f g).
Proof.
  intros H1 H2 s m H. specialize (H1 s m H). unfold bind.
  destruct (f m) as [a m1|m1|m1|e m1|m1|m1|]; try done; destruct H1 as (s1 & -> & C1).
  - by apply H2.
  - by exists s1.
Qed.

Lemma simq_if {A} (Q : A -> srv D -> Prop) (b : bool) c d f g :
  simq Q c f -> simq Q d g -> simq Q (if b then c else d) (if b then f else g).
Proof. by destruct b. Qed.

Lemma simq_bitmap {A} (Q : A -> srv D -> Prop) (k : Z -> M (srv D) A) g :
  simq Q (k BITMAP) (g BITMAP) -> simq Q (let* bm := bitmap in k bm) (let* bm := bitmap in g bm).
Proof.
  intros Hk s m H. specialize (Hk s m H).
  erewrite (bind_ret bitmap k) by reflexivity. erewrite (bind_ret bitmap g) by reflexivity.
  by rewrite (co_bitmap _ _ H).
Qed.

(** The bitmap word of an allocated block is on the disk. *)
Definition recorded (r : Z) (s : srv D) : Prop :=
  r = - E_NO_DISK \/ exists b, 0 <= b < 2 ^ 32 /\ r = s32 b /\ clean s (bm_word BITMAP b).

Lemma simq_alloc_loop n b : 0 <= b < 2 ^ 32 -> simq recorded (alloc_loop n b) (alloc_loop n b).
Proof.
  revert b. induction n as [|n IH]; intros b Hb; cbn [alloc_loop]; [by intros s m H|].
  apply simq_bind; [apply sim_super|]. intros sp. apply simq_bind; [by apply sim_rd32|]. intros nb. apply simq_if.
  2: { intros s m H. exists s. split; [done|]. split; [done|]. by left. }
  apply simq_bitmap.
  apply simq_bind; [by apply sim_rd32|]. intros w. apply simq_if; [apply IH, u32_range|]. apply simq_if; [|apply IH, u32_range].
  apply simq_bind; [by apply sim_wr32|]. intros _ s m H. unfold bind. cbn [flush_block flat cached].
  destruct (in_disk (bm_word BITMAP b)) eqn:Ed.
  - destruct (flush_ok s m (bm_word BITMAP b) H Ed) as (s' & -> & C & _ & _ & F).
    exists s'. split; [done|]. split; [done|]. right. exists b. split; [done|]. split; [done|]. by apply F.
  - exists s. unfold bc_flush_block. by rewrite Ed.
Qed.

Lemma s32_inj a b : 0 <= a < 2 ^ 32 -> 0 <= b < 2 ^ 32 -> s32 a = s32 b -> a = b.
Proof. intros Ha Hb. unfold s32. rewrite !u32_small by lia. bcase; lia. Qed.
End Durable.
