(* ===== verification/FsSpec.v ===== *)
(** What the file server's storage promises: the block cache, the allocator and files. *)

From S2P Require Import Prelude Mmu Mem Ide Bc BcSim Fs FsSim FsFlat FsFile FsGrow FsRw FsTrunc FsDir FsCreate FsDurable.

(** ** A small disk

    64 blocks: the boot sector, the super block, one bitmap block with its two words, and an
    empty root directory; the free block 3 still holds a number from earlier use.  Three
    bytes wait in a buffer of the server. *)

Definition build (base : Z) (ws : list (Z * Z)) : mem := foldr (fun w m => st32 m (base + w.1) w.2) ∅ ws.

Lemma build_shift base ws a : ld8 (build base ws) (base + a) = ld8 (build 0 ws) a.
Proof.
  induction ws as [|w ws IH]; [by rewrite !ld8_empty|]. cbn [build foldr]. fold (build base ws) (build 0 ws).
  rewrite !ld8_st32, IH. bcase; done || lia.
Qed.

Lemma build_out base ws a :
  Forall (fun w => a < base + w.1 \/ base + w.1 + 4 <= a) ws -> ld8 (build base ws) a = 0.
Proof.
  induction 1 as [|w ws Hw _ IH]; [apply ld8_empty|]. cbn [build foldr]. fold (build base ws). by rewrite ld8_st32_ne.
Qed.

Definition words (w0 w1 : Z) : list (Z * Z) :=
  [(4096, FS_MAGIC); (4100, 64); (4096 + 8 + 132, FTYPE_DIR); (8192, w0); (8196, w1)].

#[global] Instance rich_pager : Pager := {| page_ok := fun _ => true |}.

Lemma rich_pages pn : page_ok pn = true.
Proof. reflexivity. Qed.

Definition disk_mem (ws : list (Z * Z)) : mem := st_bytes (build DISKMAP ws) 1000 [97; 98; 99].
Definition disk_ide (ws : list (Z * Z)) : ide ata := mkIde (mkAta 0 0 0 0 0 Idle ∅ (build 0 ws)) 1.
Definition disk_srv (ws : list (Z * Z)) : srv (ide ata) :=
  mkSrv (disk_mem ws) {[PGNUM SUPER := pte_clean]} (disk_ide ws) SUPER BITMAP.

(** Blocks 3 to 63 free, and a full disk. *)
Definition small_flat : mem := disk_mem ((12288, 1) :: words 0xFFFFFFF8 0xFFFFFFFF).
Definition small_srv : srv (ide ata) := disk_srv ((12288, 1) :: words 0xFFFFFFF8 0xFFFFFFFF).
Definition full_flat : mem := disk_mem (words 0 0).
Definition full_srv : srv (ide ata) := disk_srv (words 0 0).

Lemma disk_coherent ws : coherent (disk_srv ws) (disk_mem ws).
Proof.
  split; try done.
  - by split; [|right].
  - intros pn e He. cbn [sv_uvpt disk_srv] in He. apply lookup_singleton_Some in He as [_ <-]. by left.
  - intros a Ha _. change (image (sv_dev (disk_srv ws))) with (build 0 ws). unfold disk_mem.
    apply in_disk_range in Ha. rewrite ld8_st_bytes. rewrite (proj2 (Z.ltb_ge a _)) by (simpl length; fsconsts; lia).
    rewrite andb_false_r. rewrite <- (build_shift DISKMAP). f_equal. lia.
  - exists pte_clean. cbn [sv_uvpt disk_srv]. apply lookup_singleton_eq.
Qed.

Lemma root_ok m :
  sane m = true -> in_use m 1 = true -> ind m (s_root SUPER) = 0 ->
  (forall n, n ∈ seqZ 0 10 -> slot m (s_root SUPER) n = 0) -> file_ok m (s_root SUPER).
Proof.
  intros H1 H2 H3 H4.
  assert (forall n, has_slot m (s_root SUPER) n -> slot m (s_root SUPER) n = 0) as Hs.
  { intros n [Hn [Hd|Hi]]; [apply H4, elem_of_seqZ; fconsts; lia|by rewrite H3 in Hi]. }
  split.
  - exact H1.
  - done.
  - exact H2.
  - fconsts. change (0x10000000 + 4096 + 8) with 268439560. zdm.
  - by left.
  - intros H. by rewrite H3 in H.
  - intros n Hn H. by rewrite (Hs n Hn) in H.
  - intros n k Hn _ _ H. by rewrite (Hs n Hn) in H.
Qed.

Ltac root_ok_tac :=
  apply root_ok; [by vm_compute..|]; intros n Hn;
  repeat (apply elem_of_cons in Hn as [->|Hn]; [by vm_compute|]); by apply elem_of_nil in Hn.

Lemma small_root : file_ok small_flat (s_root SUPER).
Proof. root_ok_tac. Qed.

Lemma full_root : file_ok full_flat (s_root SUPER).
Proof. root_ok_tac. Qed.

Lemma small_nfree : (1 <= nfree small_flat)%nat.
Proof. vm_compute. lia. Qed.

Lemma has_slot_0 m f : has_slot m f 0.
Proof. by split; [|left]. Qed.

(** The root directory with one block of free entries. *)
Definition one_words : list (Z * Z) :=
  (4096 + 8 + 128, 4096) :: (4096 + 8 + 136, 3) :: words 0xFFFFFFF0 0xFFFFFFFF.
Definition one_flat : mem := disk_mem one_words.
Definition one_srv : srv (ide ata) := disk_srv one_words.

Lemma one_ind : ind one_flat (s_root SUPER) = 0.
Proof. by vm_compute. Qed.

Lemma one_slots n : has_slot one_flat (s_root SUPER) n -> slot one_flat (s_root SUPER) n = if n =? 0 then 3 else 0.
Proof.
  intros [Hn [Hd|Hi]]; [|by rewrite one_ind in Hi].
  assert (n ∈ seqZ 0 10) as Hin by (apply elem_of_seqZ; unfold NDIRECT in *; lia).
  repeat (apply elem_of_cons in Hin as [->|Hin]; [by vm_compute|]). by apply elem_of_nil in Hin.
Qed.

Lemma one_root : file_ok one_flat (s_root SUPER).
Proof.
  split.
  - by vm_compute.
  - done.
  - by vm_compute.
  - fconsts. change (0x10000000 + 4096 + 8) with 268439560. zdm.
  - by left.
  - intros H. by rewrite one_ind in H.
  - intros n Hn. rewrite (one_slots n Hn), one_ind. destruct (n =? 0); [|done]. intros _. by repeat split; vm_compute.
  - intros n k Hn Hk. rewrite (one_slots n Hn), (one_slots k Hk). destruct (Z.eqb_spec n 0), (Z.eqb_spec k 0); lia.
Qed.

(** The tree of that disk: the root, with sixteen free entries. *)
Lemma one_entry a : a ∈ entries one_flat (s_root SUPER) 1 -> baddr 3 <= a < baddr 4.
Proof.
  intros (i & j & Hi & Hj & ->)%entries_elem. assert (i = 0) as -> by lia. rewrite (one_slots 0 (has_slot_0 _ _)).
  change BLKFILES with 16 in Hj. change (0 =? 0) with true. cbv iota. fconsts. lia.
Qed.

Lemma one_blank a : baddr 3 <= a < baddr 4 -> ld8 one_flat a = 0.
Proof.
  intros Ha. unfold one_flat, disk_mem. rewrite ld8_st_bytes.
  rewrite (proj2 (Z.ltb_ge a _)) by (simpl length; fconsts; lia). rewrite andb_false_r. apply build_out.
  unfold one_words, words. repeat constructor; cbn [fst]; fconsts; lia.
Qed.

Lemma one_tree : tree_ok one_flat (fun f => f = s_root SUPER).
Proof.
  assert (dir_blocks one_flat (s_root SUPER) = 1) as Eb by by vm_compute. split.
  - by vm_compute.
  - done.
  - intros f ->. apply one_root.
  - intros f -> _. rewrite Eb. split; [apply one_root|by vm_compute|unfold limit; rewrite one_ind; by vm_compute|].
    intros i Hi. assert (i = 0) as -> by lia. by rewrite (one_slots 0 (has_slot_0 _ _)).
  - intros f ->. by left.
  - by intros f g b -> ->.
  - intros f a -> _ Ha Hz. rewrite Eb in Ha. by rewrite one_blank in Hz by by apply one_entry.
  - intros f ->. by left.
Qed.

(** A disk with nothing behind block 3 has free blocks of zeros. *)
Lemma disk_zeroed ws :
  nblocks (disk_mem ws) = 64 -> forallb (fun b => (3 <=? b) || negb (bit_free (disk_mem ws) b)) (seqZ 0 64) = true ->
  Forall (fun w => w.1 + 4 <= 3 * BLKSIZE) ws -> zeroed (disk_mem ws).
Proof.
  intros Hn Hb Hw b Hr Hf i Hi. rewrite Hn in Hr. rewrite forallb_forall in Hb.
  specialize (Hb b (proj1 (list_elem_of_In _ _) (proj2 (elem_of_seqZ 0 64 b) ltac:(lia)))). rewrite Hf, orb_false_r in Hb. apply Z.leb_le in Hb.
  unfold disk_mem. rewrite ld8_st_bytes, (proj2 (Z.ltb_ge _ (1000 + _))), andb_false_r by (simpl length; fconsts; lia).
  apply build_out. eapply Forall_impl; [exact Hw|]. intros w Hw1. simpl in Hw1. right. fconsts. lia.
Qed.

Lemma one_zeroed : zeroed one_flat.
Proof. apply disk_zeroed; [done|by vm_compute|]. unfold one_words, words. repeat constructor; by vm_compute. Qed.

Lemma one_nfree : (2 <= nfree one_flat)%nat.
Proof. vm_compute. lia. Qed.

(** ** The block cache *)

(** C4: the block cache implements a flat memory.  Whenever the metadata is sane and the
    block is in use, a byte or word read through the cache (faulting the block in when it is
    not there) gives what the flat memory holds, and a store or a flush leaves the cache
    coherent with the flat memory the store produces. *)
Theorem block_cache_refines {D} {HD : Disk D} {HPg : Pager} (a v : Z) :
  (forall pn, page_ok pn = true) ->
  sim (rd8 a) (rd8 a) /\ sim (rd32 a) (rd32 a) /\ sim (wr8 a v) (wr8 a v) /\ sim (wr32 a v) (wr32 a v) /\
  sim (flush_block a) (flush_block a).
Proof.
  intros pages. repeat split; [by apply sim_rd8|by apply sim_rd32|by apply sim_wr8|by apply sim_wr32|apply sim_flush].
Qed.

Lemma block_cache_refines_witness : exists s, rd32 BITMAP small_srv = Ret 0xFFFFFFF8 s /\ coherent s small_flat.
Proof.
  destruct (block_cache_refines (D := ide ata) BITMAP 0 rich_pages) as (_ & H & _).
  apply (sim_run _ _ small_srv small_flat _ _ H (disk_coherent _)).
  rewrite rd32_flat; [|by vm_compute|by split; vm_compute]. f_equal.
Defined.

(** [alloc_block] takes the lowest free block, clears its bit and no other, and the
    changed word is on the disk when it returns; with no free block it answers [-E_NO_DISK]
    and changes nothing. *)
Theorem alloc_block_first_fit {D} {HD : Disk D} {HPg : Pager} fuel (s : srv D) m :
  (forall pn, page_ok pn = true) -> coherent s m -> sane m = true -> (Z.to_nat (nblocks m) < fuel)%nat ->
  exists s', alloc_block fuel s = Ret (alloc_spec m).1 s' /\ coherent s' (alloc_spec m).2 /\
    (forall b, first_free m = Some b ->
       (forall c, 0 <= c < nblocks m -> bit_free (alloc_spec m).2 c = negb (c =? b) && bit_free m c) /\
       (forall i, 0 <= i < 4 -> ld8 (image s'.(sv_dev)) (bm_word BITMAP b + i - DISKMAP) = ld8 (alloc_spec m).2 (bm_word BITMAP b + i))).
Proof.
  intros pages H Hs Hf. pose proof (alloc_block_flat fuel m Hs Hf) as E.
  pose proof (simq_alloc_loop pages fuel 0 ltac:(lia) s m H) as Hq. unfold alloc_block in E. rewrite E in Hq.
  destruct Hq as (s' & E' & C & Q). exists s'. split; [exact E'|]. split; [exact C|]. intros b Hb.
  pose proof (nblocks_range m Hs). apply first_free_inv in Hb as Hb'. destruct Hb' as [Hr Hbf].
  unfold alloc_spec in *. rewrite Hb in *. cbn [fst snd] in *. split; [intros c Hc; apply use_bit; lia|].
  intros i Hi. destruct Q as [Q|(b' & Hb' & Eb & Q)]; [unfold E_NO_DISK in Q; lia|].
  assert (b' = b) as -> by (apply s32_inj; [lia|lia|]; rewrite <- Eb, s32_small; lia).
  pose proof (bm_word_range m b Hs Hr). pose proof (nblocks_range m Hs).
  assert (forall j, 0 <= j < 4 -> in_disk (bm_word BITMAP b + j) = true) as Hd by (intros j Hj; rewrite in_disk_range; fsconsts; lia).
  apply (clean_on_disk s' _ _ C); [by apply Hd|]. unfold clean, dirty in *. pose proof (Hd 0 ltac:(lia)) as Hd0.
  rewrite Z.add_0_r in Hd0. rewrite (proj2 (pgnum_blk _ (bm_word BITMAP b) (Hd i Hi) Hd0)); [done|]. fsconsts. zdm.
Qed.

Lemma alloc_block_first_fit_witness : exists s', alloc_block 65 small_srv = Ret 3 s'.
Proof.
  destruct (alloc_block_first_fit 65 small_srv small_flat rich_pages (disk_coherent _)) as (s' & E & _).
  - by vm_compute.
  - change (nblocks small_flat) with 64. lia.
  - exists s'. rewrite E. f_equal.
Defined.

(** C21: everything the file system shows is on the disk after [fs_sync]: the image holds, for
    every byte of every block but the boot sector, what a read would return, and the sync
    itself changes nothing a read can see. *)
Theorem fs_sync_durable {D} {HD : Disk D} {HPg : Pager} fuel (s : srv D) m :
  coherent s m -> sane m = true -> (Z.to_nat (nblocks m) <= fuel)%nat ->
  exists s', fs_sync fuel s = Ret tt s' /\ coherent s' m /\
    forall a, in_disk a = true -> 1 <= blk a < nblocks m -> ld8 (image s'.(sv_dev)) (a - DISKMAP) = ld8 m a.
Proof.
  intros H Hs Hf. pose proof (nblocks_range m Hs).
  destruct (fs_sync_loop_ok fuel s m 1 H Hs ltac:(lia) ltac:(lia)) as (s' & E & C & _ & F).
  exists s'. split; [exact E|]. split; [done|]. intros a Ha Hb. apply (clean_on_disk s' m a C Ha). by apply F.
Qed.

Lemma fs_sync_durable_witness : exists s', fs_sync 64 small_srv = Ret tt s' /\ coherent s' small_flat.
Proof.
  destruct (fs_sync_durable 64 small_srv small_flat (disk_coherent _)) as (s' & E & C & _).
  - by vm_compute.
  - change (nblocks small_flat) with 64. lia.
  - exists s'. by split.
Defined.

(** ** Files *)

(** C13: [file_write] stores the bytes of the buffer in the file and nothing else: it returns
    the count, the bytes of the range read back as those of the buffer, bytes of the file
    outside the range are as before, the size is the larger of the old size and the end of
    the range, and on the disk only the file's own structure and blocks, the bitmap, and
    blocks that were free are changed.  It needs as many free blocks as the range covers, and
    one for the indirect block where the range goes past the direct blocks and the file has
    none yet.  [file_block_walk] does not clear a new indirect block, so in that case the free
    blocks have to hold zeros ([room]); [file_get_block_stale] shows what happens otherwise. *)
Theorem file_write_bytes {D} {HD : Disk D} {HPg : Pager} fuel (s : srv D) m f buf count off :
  (forall pn, page_ok pn = true) -> coherent s m ->
  file_ok m f -> ld32 m (f_size f) < 2 ^ 31 -> 0 <= off -> 0 <= count -> off + count < 2 ^ 31 -> room m f (off + count) ->
  outside buf count -> buf + count < 2 ^ 32 ->
  (Z.to_nat (spans off (off + count)) + extra m f (off + count) <= nfree m)%nat -> (Z.to_nat (nblocks m) < fuel)%nat ->
  (Z.to_nat (spans off (off + count)) < fuel)%nat ->
  exists s' m', file_write fuel f buf count off s = Ret count s' /\ coherent s' m' /\
    file_ok m' f /\ grown m m' f /\ ld32 m' (f_size f) = Z.max (ld32 m (f_size f)) (off + count) /\
    (forall i, off <= i < off + count -> fbyte m' f i = Some (ld8 m (buf + (i - off)))) /\
    (forall i, 0 <= i < limit m f -> ~ off <= i < off + count -> fbyte m f i <> None -> fbyte m' f i = fbyte m f i).
Proof.
  intros pages C H H1 H2 H3 H4 H5 H6 H7 H8 H9 H10.
  destruct (file_write_flat fuel m f buf count off) as (m' & E & F1 & F2 & _ & _ & F3 & F4 & F5); try done.
  destruct (sim_run _ _ s m _ _ (sim_file_write pages fuel f buf count off) C E) as (s' & E' & C').
  exists s', m'. done.
Qed.

(** Three bytes behind the direct blocks of the root, which get an indirect block. *)
Lemma one_room : room one_flat (s_root SUPER) (40960 + 3).
Proof. right. split; [apply one_zeroed|by vm_compute]. Qed.

Lemma one_extra : (Z.to_nat (spans 40960 (40960 + 3)) + extra one_flat (s_root SUPER) (40960 + 3) <= nfree one_flat)%nat.
Proof. unfold extra. rewrite one_ind. change (Z.to_nat (spans 40960 (40960 + 3))) with 1%nat. exact one_nfree. Qed.

Lemma file_write_bytes_witness :
  exists s' m', file_write 65 (s_root SUPER) 1000 3 40960 one_srv = Ret 3 s' /\ coherent s' m' /\ fbyte m' (s_root SUPER) 40962 = Some 99.
Proof.
  destruct (file_write_bytes 65 one_srv one_flat (s_root SUPER) 1000 3 40960 rich_pages (disk_coherent _) one_root)
    as (s' & m' & E & C & _ & _ & _ & B & _).
  all: try (change (nblocks one_flat) with 64; lia).
  - by vm_compute.
  - apply one_room.
  - split; [lia|]. left. by vm_compute.
  - apply one_extra.
  - change (spans 40960 (40960 + 3)) with 1. lia.
  - exists s', m'. split; [exact E|]. split; [exact C|]. rewrite (B 40962) by lia. by vm_compute.
Defined.

(** C5: what [file_write] stored, [file_read] returns: after writing [count] bytes at [off],
    reading [count] bytes there gives the same bytes in another buffer, and the answer is
    [count] both times.  The conditions are those of the write: enough free blocks, and
    free blocks that hold zeros where an indirect block has to be taken. *)
Theorem file_write_read {D} {HD : Disk D} {HPg : Pager} fuel (s : srv D) m f buf buf' count off :
  (forall pn, page_ok pn = true) -> coherent s m ->
  file_ok m f -> ld32 m (f_size f) < 2 ^ 31 -> 0 <= off -> 0 < count -> off + count < 2 ^ 31 -> room m f (off + count) ->
  outside buf count -> buf + count < 2 ^ 32 -> outside buf' count -> buf' + count < 2 ^ 32 ->
  (Z.to_nat (spans off (off + count)) + extra m f (off + count) <= nfree m)%nat -> (Z.to_nat (nblocks m) < fuel)%nat ->
  (Z.to_nat (spans off (off + count)) < fuel)%nat ->
  exists s1 s2, file_write fuel f buf count off s = Ret count s1 /\ file_read fuel f buf' count off s1 = Ret count s2 /\
    forall i, 0 <= i < count -> ld8 s2.(sv_mem) (buf' + i) = ld8 s.(sv_mem) (buf + i).
Proof.
  intros pages C H H1 H2 H3 H4 H5 H6 H7 H6' H7' H8 H9 H10.
  destruct (file_write_flat fuel m f buf count off) as (m1 & E1 & F1 & F2 & _ & F3 & F4 & F5 & _); try done; try lia.
  assert (Z.min count (ld32 m1 (f_size f) - off) = count) as En by lia.
  destruct (file_read_flat fuel m1 f buf' count off) as (m2 & E2 & R2); rewrite ?En; try done; try lia; try (by apply outside_apart).
  { intros i Hi. rewrite F5 by done. discriminate. }
  rewrite En in *.
  destruct (sim_run _ _ s m _ _ (sim_file_write pages fuel f buf count off) C E1) as (s1 & G1 & C1).
  destruct (sim_run _ _ s1 m1 _ _ (sim_file_read pages fuel f buf' count off) C1 E2) as (s2 & G2 & C2).
  exists s1, s2. split; [exact G1|]. split; [exact G2|]. intros i Hi.
  rewrite (co_out _ _ C2) by (by apply (outside_in_disk buf' count)).
  rewrite (co_out _ _ C) by (by apply (outside_in_disk buf count)).
  rewrite R2. rewrite (proj2 (Z.leb_le _ _)), (proj2 (Z.ltb_lt _ _)) by lia. cbn [andb].
  rewrite F5 by lia. cbn [default from_option id]. f_equal. lia.
Qed.

Lemma file_write_read_witness :
  exists s1 s2, file_write 65 (s_root SUPER) 1000 3 40960 one_srv = Ret 3 s1 /\
    file_read 65 (s_root SUPER) 2000 3 40960 s1 = Ret 3 s2 /\
    forall i, 0 <= i < 3 -> ld8 s2.(sv_mem) (2000 + i) = ld8 one_srv.(sv_mem) (1000 + i).
Proof.
  refine (file_write_read 65 one_srv one_flat (s_root SUPER) 1000 2000 3 40960 rich_pages (disk_coherent _) one_root _ _ _ _ _ _ _ _ _ _ _ _).
  all: try (change (nblocks one_flat) with 64; lia).
  - by vm_compute.
  - apply one_room.
  - split; [lia|]. left. by vm_compute.
  - split; [lia|]. left. by vm_compute.
  - apply one_extra.
  - change (spans 40960 (40960 + 3)) with 1. lia.
Defined.

(** C22: shrinking a file gives back exactly the blocks it no longer needs: after
    [file_set_size] to a smaller size, a block is in use if it was before and is neither
    one of the file's blocks behind the new end nor, for a file that fits its direct blocks,
    the indirect block; the bytes below the new size are as before. *)
Theorem file_set_size_frees {D} {HD : Disk D} {HPg : Pager} fuel (s : srv D) m f size :
  (forall pn, page_ok pn = true) -> coherent s m ->
  file_ok m f -> 0 <= size < ld32 m (f_size f) -> ld32 m (f_size f) <= MAXFILESIZE ->
  exists s' m', file_set_size fuel f size s = Ret 0 s' /\ coherent s' m' /\ file_ok m' f /\ ld32 m' (f_size f) = size /\
    (forall c, in_use m' c = true <-> in_use m c = true /\ ~ released m f (blocks_of size) (blocks_of (ld32 m (f_size f))) c) /\
    (forall pos, 0 <= pos < size -> pos < limit m f -> fbyte m' f pos = fbyte m f pos).
Proof.
  intros pages C H H1 H2. destruct (file_set_size_shrink fuel m f size H H1 H2) as (m' & E & F1 & _ & F2 & F3 & F4).
  destruct (sim_run _ _ s m _ _ (sim_file_set_size pages fuel f size) C E) as (s' & E' & C').
  exists s', m'. done.
Qed.

Lemma file_set_size_frees_witness :
  exists s' m', file_set_size 65 (s_root SUPER) 0 one_srv = Ret 0 s' /\ coherent s' m' /\ in_use m' 3 = false.
Proof.
  destruct (file_set_size_frees 65 one_srv one_flat (s_root SUPER) 0 rich_pages (disk_coherent _) one_root) as (s' & m' & E & C & _ & _ & U & _).
  - change (ld32 one_flat (f_size (s_root SUPER))) with 4096. lia.
  - by vm_compute.
  - exists s', m'. split; [exact E|]. split; [exact C|]. apply not_true_iff_false. rewrite U. intros [_ H]. apply H. left.
    split; [lia|]. exists 0. change (blocks_of 0) with 0. change (ld32 one_flat (f_size (s_root SUPER))) with 4096.
    change (blocks_of 4096) with 1. split; [lia|].
    split; [apply has_slot_0|]. exact (one_slots 0 (has_slot_0 _ _)).
Defined.

(** ** Running out of blocks *)

(** [file_get_block] never answers [-E_NO_DISK].  When a block has to be allocated and none
    is free, the negative code is kept in an unsigned variable, stored in the block map as
    a block number, and [diskaddr] panics the file server. *)
Theorem file_get_block_full_panics {D} {HD : Disk D} {HPg : Pager} fuel (s : srv D) m f n :
  (forall pn, page_ok pn = true) -> coherent s m ->
  file_ok m f -> has_slot m f n -> slot m f n = 0 -> first_free m = None -> (Z.to_nat (nblocks m) < fuel)%nat ->
  exists s' m', file_get_block fuel f n s = Panic s' /\ coherent s' m' /\ slot m' f n = 2 ^ 32 - E_NO_DISK.
Proof.
  intros pages C H Hn Hz Hb Hf. destruct (get_block_full fuel m f n H Hn Hz Hb Hf) as (m' & E & Hs).
  destruct (sim_run_panic _ _ s m _ (sim_file_get_block pages fuel f n) C E) as (s' & E' & C').
  exists s', m'. done.
Qed.

Lemma file_get_block_full_panics_witness : exists s', file_get_block 65 (s_root SUPER) 0 full_srv = Panic s'.
Proof.
  destruct (file_get_block_full_panics 65 full_srv full_flat (s_root SUPER) 0 rich_pages (disk_coherent _) full_root)
    as (s' & _ & E & _).
  - apply has_slot_0.
  - by vm_compute.
  - by vm_compute.
  - change (nblocks full_flat) with 64. lia.
  - by exists s'.
Defined.

(** An indirect block is allocated but not cleared. *)
Lemma get_block_stale fuel m f n b :
  file_ok m f -> NDIRECT <= n < NDIRECT + NINDIRECT -> ind m f = 0 -> first_free m = Some b ->
  0 < ld32 m (baddr b + 4 * (n - NDIRECT)) < nblocks m -> (Z.to_nat (nblocks m) < fuel)%nat ->
  exists m', file_get_block fuel f n m = Ret (0, baddr (ld32 m (baddr b + 4 * (n - NDIRECT)))) m'.
Proof.
  intros H Hn Hi Hb Hx Hf. destruct (fresh_block m b (fo_sane _ _ H) Hb) as (Hb1 & Hb2 & Hb3).
  set (x := ld32 m (baddr b + 4 * (n - NDIRECT))) in *. pose proof (wi_sane m f b H Hb1) as Hs.
  assert (ld32 (with_ind m f b) (baddr b + 4 * (n - NDIRECT)) = x) as Ex.
  { apply ld32_ext. intros i Hib. rewrite <- Z.add_assoc. apply wi_other; [done..|apply (wi_fresh m f b H Hb3)|fconsts; zdm]. }
  exists (with_ind m f b). unfold file_get_block. rewrite (proj2 (Z.leb_gt _ _)) by lia. erewrite bind_ret by by apply wi_walk.
  cbv iota beta zeta. change (u32 0 <? 0) with false. cbv iota.
  erewrite bind_ret by (apply rd32_flat; [done|]; apply (word_ok_blk _ _ b); [apply (wi_block m f b H Hb1 Hb2)|fconsts; zdm..]).
  rewrite Ex, (proj2 (Z.eqb_neq x 0)) by lia. cbn [negb]. erewrite bind_ret by (apply diskaddr_flat; [done|rewrite wi_nblocks by done; lia]). done.
Qed.

(** The indirect block of a file is used as it comes.  When block [n] of a file with no
    indirect block is asked for, the fresh indirect block is not cleared, so a number that
    an earlier use left in its entry is taken for a block of the file: [file_get_block]
    returns the address of that block, whoever it belongs to. *)
Theorem file_get_block_stale {D} {HD : Disk D} {HPg : Pager} fuel (s : srv D) m f n b :
  (forall pn, page_ok pn = true) -> coherent s m ->
  file_ok m f -> NDIRECT <= n < NDIRECT + NINDIRECT -> ind m f = 0 -> first_free m = Some b ->
  0 < ld32 m (baddr b + 4 * (n - NDIRECT)) < nblocks m -> (Z.to_nat (nblocks m) < fuel)%nat ->
  exists s', file_get_block fuel f n s = Ret (0, baddr (ld32 m (baddr b + 4 * (n - NDIRECT)))) s'.
Proof.
  intros pages C H Hn Hi Hb Hx Hf. destruct (get_block_stale fuel m f n b H Hn Hi Hb Hx Hf) as (m' & E).
  destruct (sim_run _ _ s m _ _ (sim_file_get_block pages fuel f n) C E) as (s' & E' & _). by exists s'.
Qed.

(** Block 10 of the root directory is the super block. *)
Lemma file_get_block_stale_witness : exists s', file_get_block 65 (s_root SUPER) 10 small_srv = Ret (0, SUPER) s'.
Proof.
  refine (file_get_block_stale 65 small_srv small_flat (s_root SUPER) 10 3 rich_pages (disk_coherent _) small_root _ _ _ _ _).
  - unfold NDIRECT. change NINDIRECT with 1024. lia.
  - by vm_compute.
  - by vm_compute.
  - change (nblocks small_flat) with 64. change (ld32 small_flat (baddr 3 + 4 * (10 - NDIRECT))) with 1. lia.
  - change (nblocks small_flat) with 64. lia.
Defined.

(** ** Names *)

(** [file_open] follows a path: with the tree well formed, the names of the path are looked
    up one directory after the other, and the result is the error code or the address of
    the file that the walk over the directories' entries gives. *)
Theorem file_open_walks {D} {HD : Disk D} {HPg : Pager} fuel (s : srv D) m F p path :
  (forall pn, page_ok pn = true) -> coherent s m -> tree_ok m F -> path_at m p path -> (length path < fuel)%nat ->
  let w := walk_names m (path_names path) 0 (s_root SUPER) in
  exists s', file_open fuel p s = Ret (w_r w, w_file w) s' /\ coherent s' m /\ (w_r w = 0 -> F (w_file w)).
Proof.
  intros pages C T Hp Hf w. pose proof (walk_path_flat fuel m F p path T Hp Hf) as E.
  assert (file_open fuel p m = Ret (w_r w, w_file w) m) as E1 by (unfold file_open; by erewrite bind_ret by exact E).
  destruct (sim_run _ _ s m _ _ (sim_file_open pages fuel p) C E1) as (s' & E' & C').
  exists s'. split; [exact E'|]. split; [exact C'|]. apply (walk_names_tree m F); [done|apply (to_root m F T)|].
  by apply (path_names_chars m p), Hp.
Qed.

(** C14: a file that was created can be opened.  When the path names a new file in a
    directory, [file_create] succeeds and [file_open] of the same path then finds the file it
    made: an empty regular file, an entry of the directory under its name.  Every other name
    is found, or not, as before, and the tree stays well formed.  The entry is the first free
    one of the directory, whose bytes behind the name have to be zero; where there is none,
    it is the first of a block that [dir_alloc_file] adds, for which the free blocks have to
    hold zeros, the directory must have no block behind its end and be below the largest
    size, and enough blocks must be free ([has_place]). *)
Theorem file_create_open {D} {HD : Disk D} {HPg : Pager} fuel (s : srv D) m F p path dir name :
  (forall pn, page_ok pn = true) -> coherent s m -> path_at m p path -> creatable m F path dir name -> has_place m dir ->
  (length path < fuel)%nat -> (Z.to_nat (dir_blocks m dir + 1) < fuel)%nat -> (Z.to_nat (nblocks m) < fuel)%nat ->
  exists e m' s1 s2, file_create fuel p s = Ret (0, e) s1 /\ file_open fuel p s1 = Ret (0, e) s2 /\
    coherent s2 m' /\ created m m' F dir e name /\
    (forall e0, free_entry m dir (dir_blocks m dir) = Some e0 -> e = e0 /\ m' = named m e name).
Proof.
  intros pages C Hp H Hpl Hf1 Hf2 Hf3.
  destruct (file_create_any fuel m F p path dir name Hp Hf1 H Hpl Hf2 Hf3) as (e & m' & E1 & E2 & Hc & He).
  destruct (sim_run _ _ s m _ _ (sim_file_create pages fuel p) C E1) as (s1 & E1' & C1).
  destruct (sim_run _ _ s1 _ _ _ (sim_file_open pages fuel p) C1 E2) as (s2 & E2' & C2).
  exists e, m', s1, s2. done.
Qed.

(** The file [abc] in the root directory. *)
Lemma one_path : path_at one_flat 1000 [97; 98; 99].
Proof.
  split; [by repeat split; vm_compute|]. split; [lia|left]. simpl length. fconsts. lia.
Qed.

Lemma one_walk :
  walk_names one_flat (path_names [97; 98; 99]) 0 (s_root SUPER) = mkWalked (- E_NOT_FOUND) (s_root SUPER) 0 [97; 98; 99].
Proof. by vm_compute. Qed.

Lemma file_open_walks_witness : exists s', file_open 65 1000 one_srv = Ret (- E_NOT_FOUND, 0) s'.
Proof.
  destruct (file_open_walks 65 one_srv one_flat _ 1000 [97; 98; 99] rich_pages (disk_coherent _) one_tree one_path) as (s' & E & _).
  - simpl length. lia.
  - exists s'. rewrite one_walk in E. exact E.
Defined.

(** A fresh disk, whose root directory has no block yet. *)
Definition fresh_flat : mem := disk_mem (words 0xFFFFFFF8 0xFFFFFFFF).
Definition fresh_srv : srv (ide ata) := disk_srv (words 0xFFFFFFF8 0xFFFFFFFF).

Lemma fresh_root : file_ok fresh_flat (s_root SUPER).
Proof. root_ok_tac. Qed.

Lemma fresh_tree : tree_ok fresh_flat (fun f => f = s_root SUPER).
Proof.
  assert (dir_blocks fresh_flat (s_root SUPER) = 0) as Eb by by vm_compute. split.
  - by vm_compute.
  - done.
  - intros f ->. apply fresh_root.
  - intros f -> _. rewrite Eb. split; [apply fresh_root|by vm_compute|by vm_compute|lia].
  - intros f ->. by left.
  - by intros f g b -> ->.
  - intros f a -> _ Ha. rewrite Eb in Ha. by apply elem_of_nil in Ha.
  - intros f ->. by left.
Qed.

Lemma fresh_zeroed : zeroed fresh_flat.
Proof. apply disk_zeroed; [done|by vm_compute|]. unfold words. repeat constructor; by vm_compute. Qed.

Lemma fresh_place : has_place fresh_flat (s_root SUPER).
Proof.
  change (extensible fresh_flat (s_root SUPER)). split; [apply fresh_zeroed|by vm_compute|by vm_compute|].
  change (extra fresh_flat (s_root SUPER) ((dir_blocks fresh_flat (s_root SUPER) + 1) * BLKSIZE)) with 0%nat. vm_compute. lia.
Qed.

(** The file [abc] is created on it: the root directory gets its first block. *)
Lemma file_create_open_witness :
  exists e s1 s2, file_create 65 1000 fresh_srv = Ret (0, e) s1 /\ file_open 65 1000 s1 = Ret (0, e) s2.
Proof.
  destruct (file_create_open 65 fresh_srv fresh_flat (fun f => f = s_root SUPER) 1000 [97; 98; 99] (s_root SUPER) [97; 98; 99]
    rich_pages (disk_coherent _)) as (e & m' & s1 & s2 & E1 & E2 & _).
  - split; [by repeat split; vm_compute|]. split; [lia|left]. simpl length. fconsts. lia.
  - split; [apply fresh_tree|by vm_compute|by vm_compute].
  - apply fresh_place.
  - simpl length. lia.
  - change (dir_blocks fresh_flat (s_root SUPER)) with 0. lia.
  - change (nblocks fresh_flat) with 64. lia.
  - exists e, s1, s2. split; [exact E1|exact E2].
Defined.
