(* ===== verification/ServSpec.v ===== *)
(** What the file server promises its clients. *)

From stdpp Require Import gmap.
From S2P Require Import Prelude Mmu Mem Ide Bc BcSim Fs FsFlat FsFile FsGrow FsRw FsDir FsCreate FsSpec Serv FsSim ServTab ServFlat.

(** ** A server with an empty root directory *)

(** The table as it is linked, and after [serve_init]. *)
Definition linked_tab : list OpenFile := mkOpen 0 0 1 0 :: replicate 1023 (mkOpen 0 0 0 0).
Definition fresh_tab : list OpenFile := opened linked_tab.

Lemma fresh_tab_ok : tab_ok fresh_tab.
Proof. by apply opened_ok. Qed.

Lemma fresh_entry : fresh_tab !! 0%nat = Some (mkOpen 0 0 1 FILEVA).
Proof. reflexivity. Qed.

Definition demo_path : Z := 0xEEBFD000.
Definition demo_serv : serv (srv (ide ata)) := mkServ one_srv fresh_tab ∅.
Definition demo_flat : serv mem := mkServ one_flat fresh_tab ∅.

Lemma demo_sees : sees demo_serv demo_flat.
Proof. split; [apply disk_coherent|reflexivity|reflexivity]. Qed.

(** ** File ids *)

(** C27: a file id stands for one open file.  However clients open, map and unmap files, an id
    that [openfile_lookup] accepts is the one its slot was given at the slot's last
    successful open, and leads to the file opened then: ids of files closed and replaced
    since are refused. *)
Theorem openfile_lookup_current {S} {HS : Store S} {HPg : Pager} fuel path (s : serv S) h id o s' :
  served fuel path (s, h) -> 0 <= id < 2 ^ 32 -> openfile_lookup id s = Ret (Some o) s' ->
  s' = s /\ last_open h (id mod MAXOPEN) = Some (id, o.(o_file)).
Proof.
  intros Hr Hid H. apply served_log in Hr as [Hok Hlog]. cbn [fst snd] in *. unfold openfile_lookup in H.
  assert (0 <= id mod MAXOPEN < MAXOPEN) as Hj by by apply Z.mod_pos_bound.
  apply bind_inv in H as (x & s1 & H1 & H). unfold entry in H1. destruct (_ !! _) as [y|] eqn:Ey; [|discriminate].
  injection H1 as <- <-. erewrite bind_ret in H by reflexivity. fold (refs s y.(o_fd)) in H.
  destruct (Z.leb_spec (refs s y.(o_fd)) 1), (Z.eqb_spec y.(o_fileid) id) as [<-|]; cbn [orb negb] in H; try discriminate H.
  injection H as <- <-. split; [done|]. apply Hlog; [done|done|lia].
Qed.

(** ** Opening *)

Definition open_perm : Z := Z.lor (Z.lor (Z.lor PTE_P PTE_U) PTE_W) PTE_SHARE.

Lemma serve_one_open {S} {HS : Store S} {HPg : Pager} fuel path (s s' : serv S) p perm :
  serve_open fuel path fsreq s = Ret (0, Some (p, perm)) s' ->
  serve_one fuel path FSREQ_OPEN PTE_P s = Ret (Some (mkReply 0 p perm)) s'.
Proof.
  intros E. unfold serve_one. change (negb (nonzero (Z.land PTE_P PTE_P))) with false. rewrite Z.eqb_refl. cbv iota.
  by erewrite bind_ret by exact E.
Qed.

(** Opening an existing file takes the first free entry of the table, gives it the next id
    of its slot and the file the path leads to, and hands the client the entry's Fd page,
    which holds the id, offset 0 and the access mode; the files are left as they were. *)
Theorem serve_open_opens {D} {HD : Disk D} {HPg : Pager} fuel path (s : serv (srv D)) t F p j o omode :
  (forall pn, page_ok pn = true) -> sees s t ->
  FILEVA + MAXOPEN * PGSIZE <= path ->
  tree_ok t.(se_store) F -> tab_ok t.(opentab) ->
  path_at t.(se_store) fsreq p -> Z.of_nat (length p) < MAXPATHLEN -> (length p < fuel)%nat ->
  0 <= j < MAXOPEN -> t.(opentab) !! Z.to_nat j = Some o -> refs t o.(o_fd) = 0 \/ refs t o.(o_fd) = 1 ->
  (forall i o', 0 <= i < j -> t.(opentab) !! Z.to_nat i = Some o' -> 2 <= refs t o'.(o_fd)) ->
  o.(o_fileid) + MAXOPEN < 2 ^ 31 ->
  omode = ld32 t.(se_store) (req_omode fsreq) -> Z.land omode O_CREAT = 0 -> Z.land omode O_TRUNC = 0 ->
  let w := walk_names t.(se_store) (path_names p) 0 (s_root SUPER) in
  w_r w = 0 ->
  exists s' m', serve_one fuel path FSREQ_OPEN PTE_P s = Ret (Some (mkReply 0 o.(o_fd) open_perm)) s' /\
    coherent s'.(se_store) m' /\
    s'.(opentab) = <[Z.to_nat j := mkOpen (o.(o_fileid) + MAXOPEN) (w_file w) (s32 omode) o.(o_fd)]> t.(opentab) /\
    tree_ok m' F /\ ld32 m' (fd_file_id o.(o_fd)) = o.(o_fileid) + MAXOPEN /\ ld32 m' (fd_offset o.(o_fd)) = 0 /\
    ld32 m' (fd_omode o.(o_fd)) = Z.land omode O_ACCMODE.
Proof.
  intros pages Hsee Hp1 HT Htab Hp Hlen Hfuel Hj Ho Hfree Hfirst Hid Eo Ec Et w Hw.
  pose proof (serve_open_flat pages fuel path Hp1 t F p j o HT Htab Hj Ho Hfree Hfirst Hid Hp Hlen Hfuel w omode Eo Ec Et eq_refl Hw) as E.
  apply serve_one_open in E as E1.
  destruct (ssim_run _ _ s t _ _ (ssim_serve_one pages fuel path FSREQ_OPEN PTE_P) Hsee E1) as (s' & E2 & [C T R]).
  destruct (opened_fields path t j o Htab Hj Ho Hid omode) as (F1 & F2 & F3).
  exists s', (opened_mem path t o omode). split; [exact E2|]. split; [exact C|]. split; [exact T|].
  split; [|split; [exact F2|split; [exact F1|exact F3]]].
  apply (agree_tree t.(se_store)); [done|]. by apply (opened_agree path Hp1 t j o).
Qed.

(** The root directory opened for reading, by the empty path. *)
Lemma demo_root_path : path_at one_flat fsreq [].
Proof. split; [by vm_compute|]. split; [by unfold fsreq|left]. unfold fsreq. simpl length. fconsts. lia. Qed.

Lemma serve_open_opens_witness :
  exists s' m', serve_one 65 demo_path FSREQ_OPEN PTE_P demo_serv = Ret (Some (mkReply 0 FILEVA open_perm)) s' /\
    coherent s'.(se_store) m' /\ s'.(opentab) = <[0%nat := mkOpen 1024 (s_root SUPER) 0 FILEVA]> fresh_tab.
Proof.
  destruct (serve_open_opens 65 demo_path demo_serv demo_flat (fun f => f = s_root SUPER) [] 0 (mkOpen 0 0 1 FILEVA) 0 rich_pages demo_sees)
    as (s' & m' & E & C & T & _).
  - by vm_compute.
  - apply one_tree.
  - apply fresh_tab_ok.
  - apply demo_root_path.
  - by vm_compute.
  - simpl length. lia.
  - by vm_compute.
  - apply fresh_entry.
  - by left.
  - intros i o' Hi. lia.
  - by vm_compute.
  - by vm_compute.
  - reflexivity.
  - reflexivity.
  - reflexivity.
  - exists s', m'. split; [exact E|]. split; [exact C|exact T].
Defined.

(** A client that opens the root and keeps the page. *)
Definition demo_opened : serv mem :=
  set_refs FILEVA 2 (took demo_flat 0 (mkOpen 0 0 1 FILEVA) (opened_mem demo_path demo_flat (mkOpen 0 0 1 FILEVA) 0)
    (mkOpen 1024 (s_root SUPER) 0 FILEVA)).

Lemma demo_served : served 65 demo_path (demo_opened, [(1024, s_root SUPER)]).
Proof.
  eapply served_step.
  - apply (served_init 65 demo_path (mkServ one_flat linked_tab ∅) demo_flat); [reflexivity|reflexivity|].
    by rewrite serve_init_run.
  - apply (step_open_taken 65 demo_path PTE_P demo_flat _ (mkReply 0 FILEVA open_perm)).
    + apply serve_one_open.
      apply (serve_open_flat rich_pages 65 demo_path ltac:(by vm_compute) demo_flat (fun f => f = s_root SUPER) [] 0 (mkOpen 0 0 1 FILEVA)
        one_tree fresh_tab_ok ltac:(by vm_compute) fresh_entry ltac:(by left) ltac:(intros; lia) ltac:(by vm_compute) demo_root_path
        ltac:(by vm_compute) ltac:(simpl length; lia) (mkWalked 0 0 (s_root SUPER) []) 0); [by vm_compute|reflexivity..].
    + discriminate.
    + reflexivity.
Qed.

Lemma openfile_lookup_current_witness :
  openfile_lookup 1024 demo_opened = Ret (Some (mkOpen 1024 (s_root SUPER) 0 FILEVA)) demo_opened /\
  last_open [(1024, s_root SUPER)] 0 = Some (1024, s_root SUPER).
Proof.
  assert (openfile_lookup 1024 demo_opened = Ret (Some (mkOpen 1024 (s_root SUPER) 0 FILEVA)) demo_opened) as E by reflexivity.
  split; [exact E|]. exact (proj2 (openfile_lookup_current 65 demo_path demo_opened _ 1024 _ _ demo_served ltac:(lia) E)).
Defined.

(** ** Reading *)

Lemma serve_read_answer {D} {HD : Disk D} {HPg : Pager} fuel path (s : serv (srv D)) t o :
  let m := t.(se_store) in
  let f := o.(o_file) in
  let off := ld32 m (fd_offset o.(o_fd)) in
  let n := read_count m f off (ld32 m (req_n fsreq)) in
  (forall pn, page_ok pn = true) -> sees s t -> names_file t o -> file_ok m f -> ld32 m (f_size f) < 2 ^ 31 ->
  off + n < 2 ^ 31 -> off + n <= limit m f -> n <= 2 * PGSIZE ->
  (forall i, off <= i < off + n -> fbyte m f i <> None) -> (Z.to_nat (spans off (off + n)) < fuel)%nat ->
  exists s' m', serve_one fuel path FSREQ_READ PTE_P s = Ret (Some (mkReply n 0 PTE_P)) s' /\
    sees s' (set_store (st32 m' (fd_offset o.(o_fd)) (off + n)) t) /\
    read_into m m' f (ret_buf fsreq) off (off + n) /\ ld32 m' (fd_offset o.(o_fd)) = off.
Proof.
  intros m f off n pages Hsee Hn Hf Hsz Hoff Hlim Hmax Hthere Hfuel.
  destruct (serve_read_flat fuel t o Hn Hf Hsz Hoff Hlim Hmax Hthere Hfuel) as (m' & E & R & Of).
  assert (serve_one fuel path FSREQ_READ PTE_P t =
    Ret (Some (mkReply n 0 PTE_P)) (set_store (st32 m' (fd_offset o.(o_fd)) (off + n)) t)) as E1.
  { unfold serve_one. change (negb (nonzero (Z.land PTE_P PTE_P))) with false.
    change (FSREQ_READ =? FSREQ_OPEN) with false. change (FSREQ_READ <? NHANDLERS) with true.
    change (@handlers mem flat fuel FSREQ_READ) with (Some (@serve_read mem flat fuel)). cbv iota. by erewrite bind_ret by exact E. }
  destruct (ssim_run _ _ s t _ _ (ssim_serve_one pages fuel path FSREQ_READ PTE_P) Hsee E1) as (s' & E2 & C).
  by exists s', m'.
Qed.

(** A read request returns the next bytes of the file.  The answer is the number of bytes,
    limited by the request and by the end of the file; the request page holds the bytes
    from the file's position on, and the position has moved behind them. *)
Theorem serve_read_next {D} {HD : Disk D} {HPg : Pager} fuel path (s : serv (srv D)) t o :
  let m := t.(se_store) in
  let f := o.(o_file) in
  let off := ld32 m (fd_offset o.(o_fd)) in
  let n := read_count m f off (ld32 m (req_n fsreq)) in
  (forall pn, page_ok pn = true) -> sees s t -> names_file t o -> file_ok m f -> ld32 m (f_size f) < 2 ^ 31 ->
  off + n < 2 ^ 31 -> off + n <= limit m f -> n <= PGSIZE ->
  (forall i, off <= i < off + n -> fbyte m f i <> None) -> (Z.to_nat (spans off (off + n)) < fuel)%nat ->
  exists s' m', serve_one fuel path FSREQ_READ PTE_P s = Ret (Some (mkReply n 0 PTE_P)) s' /\ coherent s'.(se_store) m' /\
    (forall i, 0 <= i < n -> Some (ld8 s'.(se_store).(sv_mem) (ret_buf fsreq + i)) = fbyte m f (off + i)) /\
    ld32 m' (fd_offset o.(o_fd)) = off + n /\ (forall a, in_disk a = true -> ld8 m' a = ld8 m a) /\
    s'.(opentab) = s.(opentab) /\ s'.(fd_refs) = s.(fd_refs).
Proof.
  intros m f off n pages Hsee Hn Hf Hsz Hoff Hlim Hmax Hthere Hfuel.
  assert (n <= 2 * PGSIZE) as Hmax2 by (clearbody n; unfold PGSIZE in *; lia).
  destruct (serve_read_answer fuel path s t o pages Hsee Hn Hf Hsz Hoff Hlim Hmax2 Hthere Hfuel) as (s' & m' & E & [C T R] & Rd & Of).
  fold m f off n in E, C, Rd, Of. cbn [se_store set_store opentab fd_refs] in C, T, R.
  exists s', (st32 m' (fd_offset o.(o_fd)) (off + n)). destruct (names_fd t o Hn) as (j & Hj & Efd).
  assert (0 <= off /\ 0 <= n) as [H0 Hn0].
  { pose proof (ld32_range m (fd_offset o.(o_fd))). pose proof (ld32_range m (req_n fsreq)). unfold n, read_count, off. bcase; lia. }
  clearbody n off. split; [exact E|]. split; [exact C|]. split; [|split; [|split; [|by rewrite T, R, (se_tab _ _ Hsee), (se_refs _ _ Hsee)]]].
  - intros i Hi. rewrite (co_out _ _ C).
    2: { apply not_true_iff_false. rewrite in_disk_range. unfold ret_buf, fsreq, PGSIZE, DISKMAP, DISKSIZE in *. lia. }
    rewrite ld8_st32_ne by (rewrite Efd; unfold fd_offset, ret_buf, fsreq, FILEVA, PGSIZE, MAXOPEN in *; lia). rewrite Rd.
    rewrite (proj2 (Z.leb_le _ _)), (proj2 (Z.ltb_lt _ _)) by lia. cbn [andb]. replace (off + (ret_buf fsreq + i - ret_buf fsreq)) with (off + i) by lia.
    pose proof (Hthere (off + i) ltac:(lia)). by destruct (fbyte m f (off + i)).
  - rewrite ld32_st32_eq. apply u32_small. lia.
  - intros a Ha. apply in_disk_range in Ha.
    rewrite ld8_st32_ne by (rewrite Efd; unfold fd_offset, FILEVA, PGSIZE, MAXOPEN, DISKMAP, DISKSIZE in *; lia). rewrite Rd.
    rewrite (proj2 (Z.ltb_ge _ _)); [by rewrite andb_false_r|]. unfold ret_buf, fsreq, PGSIZE, DISKMAP in *. lia.
Qed.

(** A root directory of two blocks, opened, and a request to read [n] bytes of it. *)
Definition read_words (n : Z) : list (Z * Z) :=
  (-4096, 1024) :: (-4092, n) :: (4096 + 8 + 128, 8192) :: (4096 + 8 + 136, 3) :: (4096 + 8 + 140, 4) :: words 0xFFFFFFE0 0xFFFFFFFF.
Definition read_mem (n : Z) : mem := disk_mem (read_words n).
Definition read_file : OpenFile := mkOpen 1024 (s_root SUPER) 0 FILEVA.
Definition read_flat (n : Z) : serv mem := mkServ (read_mem n) demo_opened.(opentab) {[FILEVA := 2]}.
Definition read_serv (n : Z) : serv (srv (ide ata)) := mkServ (disk_srv (read_words n)) demo_opened.(opentab) {[FILEVA := 2]}.

Lemma read_sees n : sees (read_serv n) (read_flat n).
Proof. split; [apply disk_coherent|reflexivity|reflexivity]. Qed.

Lemma read_slots m n :
  ind m (s_root SUPER) = 0 -> slot m (s_root SUPER) 0 = 3 -> slot m (s_root SUPER) 1 = 4 ->
  (forall k, k ∈ seqZ 2 8 -> slot m (s_root SUPER) k = 0) -> has_slot m (s_root SUPER) n ->
  slot m (s_root SUPER) n = if n =? 0 then 3 else if n =? 1 then 4 else 0.
Proof.
  intros Hi H0 H1 H2 [Hn [Hd|Hd]]; [|by rewrite Hi in Hd]. destruct (Z.eqb_spec n 0) as [->|]; [done|].
  destruct (Z.eqb_spec n 1) as [->|]; [done|]. apply H2, elem_of_seqZ. fconsts. lia.
Qed.

Lemma read_root m :
  sane m = true -> in_use m 1 = true -> in_use m 3 = true -> in_use m 4 = true -> data0 m = 3 ->
  ind m (s_root SUPER) = 0 -> slot m (s_root SUPER) 0 = 3 -> slot m (s_root SUPER) 1 = 4 ->
  (forall k, k ∈ seqZ 2 8 -> slot m (s_root SUPER) k = 0) -> file_ok m (s_root SUPER).
Proof.
  intros Hs U1 U3 U4 Hd Hi H0 H1 H2. pose proof (fun n => read_slots m n Hi H0 H1 H2) as Hsl. split.
  - exact Hs.
  - done.
  - exact U1.
  - fconsts. change (0x10000000 + 4096 + 8) with 268439560. zdm.
  - by left.
  - intros H. by rewrite Hi in H.
  - intros n Hn. rewrite (Hsl n Hn), Hi. change (blk (s_root SUPER)) with 1. unfold data_block. rewrite Hd.
    destruct (n =? 0); [by repeat split|]. destruct (n =? 1); [by repeat split|done].
  - intros n k Hn Hk. rewrite (Hsl n Hn), (Hsl k Hk). destruct (Z.eqb_spec n 0), (Z.eqb_spec k 0), (Z.eqb_spec n 1), (Z.eqb_spec k 1); lia.
Qed.

Ltac slots_tac :=
  intros k Hk; repeat (apply elem_of_cons in Hk as [->|Hk]; [by vm_compute|]); by apply elem_of_nil in Hk.
Ltac read_root_tac := apply read_root; [by vm_compute..|slots_tac].

Lemma read_bytes m i :
  ind m (s_root SUPER) = 0 -> slot m (s_root SUPER) 0 = 3 -> slot m (s_root SUPER) 1 = 4 -> 0 <= i < 8192 ->
  fbyte m (s_root SUPER) i <> None.
Proof.
  intros Hi H0 H1 Hr. unfold fbyte. assert (i / BLKSIZE = 0 \/ i / BLKSIZE = 1) as [-> | ->] by (fconsts; zdm); [rewrite H0|rewrite H1]; done.
Qed.

Lemma read_names n : ld32 (read_mem n) (req_fileid fsreq) = 1024 -> names_file (read_flat n) read_file.
Proof.
  intros E. split; [exact (proj1 (served_log 65 demo_path _ demo_served))|]. split; [exact (eq_sym E)|]. split; [reflexivity|].
  unfold refs. cbn [read_flat fd_refs read_file o_fd]. by rewrite lookup_singleton_eq.
Qed.

Lemma serve_read_next_witness :
  exists s', serve_one 65 demo_path FSREQ_READ PTE_P (read_serv 3) = Ret (Some (mkReply 3 0 PTE_P)) s'.
Proof.
  destruct (serve_read_next 65 demo_path (read_serv 3) (read_flat 3) read_file rich_pages (read_sees 3)) as (s' & m' & E & _).
  - apply read_names. by vm_compute.
  - read_root_tac.
  - by vm_compute.
  - by vm_compute.
  - by vm_compute.
  - by vm_compute.
  - intros i Hi. apply read_bytes; [by vm_compute..|].
    change (read_count _ _ _ _) with 3 in Hi. change (ld32 _ _) with 0 in Hi. lia.
  - vm_compute. lia.
  - exists s'. exact E.
Defined.

(** C28: a read request longer than the request page overruns it.  The server does not limit the
    length to the page; the bytes behind it go to the addresses that follow, which is where
    the disk is mapped: the boot sector is overwritten with bytes of the client's choice. *)
Theorem serve_read_overruns {D} {HD : Disk D} {HPg : Pager} fuel path (s : serv (srv D)) t o :
  let m := t.(se_store) in
  let f := o.(o_file) in
  let off := ld32 m (fd_offset o.(o_fd)) in
  let n := read_count m f off (ld32 m (req_n fsreq)) in
  (forall pn, page_ok pn = true) -> sees s t -> names_file t o -> file_ok m f -> ld32 m (f_size f) < 2 ^ 31 ->
  off + n < 2 ^ 31 -> off + n <= limit m f -> PGSIZE < n <= 2 * PGSIZE ->
  (forall i, off <= i < off + n -> fbyte m f i <> None) -> (Z.to_nat (spans off (off + n)) < fuel)%nat ->
  exists s' m', serve_one fuel path FSREQ_READ PTE_P s = Ret (Some (mkReply n 0 PTE_P)) s' /\ coherent s'.(se_store) m' /\
    forall i, 0 <= i < n - PGSIZE -> Some (ld8 m' (DISKMAP + i)) = fbyte m f (off + PGSIZE + i).
Proof.
  intros m f off n pages Hsee Hn Hf Hsz Hoff Hlim Hmax Hthere Hfuel.
  destruct (serve_read_answer fuel path s t o pages Hsee Hn Hf Hsz Hoff Hlim ltac:(apply Hmax) Hthere Hfuel) as (s' & m' & E & [C _ _] & Rd & Of).
  fold m f off n in E, C, Rd, Of. cbn [se_store set_store] in C. exists s', (st32 m' (fd_offset o.(o_fd)) (off + n)).
  destruct (names_fd t o Hn) as (j & Hj & Efd). assert (0 <= off) as H0 by apply ld32_range. clearbody n off.
  split; [exact E|]. split; [exact C|]. intros i Hi.
  rewrite ld8_st32_ne by (rewrite Efd; unfold fd_offset, FILEVA, PGSIZE, MAXOPEN, DISKMAP in *; lia). rewrite Rd.
  rewrite (proj2 (Z.leb_le _ _)), (proj2 (Z.ltb_lt _ _)) by (unfold ret_buf, fsreq, DISKMAP, PGSIZE in *; lia). cbn [andb].
  replace (off + (DISKMAP + i - ret_buf fsreq)) with (off + PGSIZE + i) by (unfold ret_buf, fsreq, DISKMAP, PGSIZE; lia).
  pose proof (Hthere (off + PGSIZE + i) ltac:(unfold PGSIZE in *; lia)). by destruct (fbyte m f (off + PGSIZE + i)).
Qed.

Lemma serve_read_overruns_witness :
  exists s', serve_one 65 demo_path FSREQ_READ PTE_P (read_serv 4099) = Ret (Some (mkReply 4099 0 PTE_P)) s'.
Proof.
  destruct (serve_read_overruns 65 demo_path (read_serv 4099) (read_flat 4099) read_file rich_pages (read_sees 4099)) as (s' & m' & E & _).
  - apply read_names. by vm_compute.
  - read_root_tac.
  - by vm_compute.
  - by vm_compute.
  - by vm_compute.
  - by vm_compute.
  - intros i Hi. apply read_bytes; [by vm_compute..|].
    change (read_count _ _ _ _) with 4099 in Hi. change (ld32 _ _) with 0 in Hi. lia.
  - vm_compute. lia.
  - exists s'. exact E.
Defined.
